(* ===== verification/_CoqProject ===== *)
-Q . S2P
Prelude.v
ByteBuffer.v
Utf8.v
Util.v
World.v
BigNumber.v
Totp.v
StateM.v
RealmList.v
Addons.v
AuthSocket.v
AuthFacts.v
AuthSrp.v
AuthBypass.v
OpenSSLRef.v
Channel.v
ChannelFacts.v
ChannelMgr.v
Social.v
Guild.v
GuildOps.v
GuildLogic.v
GuildFacts.v
GuildTheorems.v
GuildLedger.v
GuildScene.v
GuildMgr.v
GuildFrame.v
GuildServer.v
GuildLoad.v
OpcodeTable.v
Opcodes.v
Stream.v
Routing.v
Node.v
Control.v
ControlFacts.v
Cluster.v
ClusterFacts.v
ClusterSafety.v
Session.v
SessionFacts.v
SessionAuth.v
ClientAuth.v
ClientAuthFacts.v
AuthScene.v
SessionMgr.v
SessionMgrFacts.v
SessionMgrScene.v
Rebase.v
RebaseFacts.v
RebaseTables.v
RebaseScene.v
Tickets.v
TicketOps.v
TicketFacts.v
TicketScene.v
Accounts.v
AccountFacts.v
AccountLogin.v
AccountScene.v
Commands.v
CommandFacts.v
CommandScene.v
Bans.v
BanFacts.v
BanScene.v
ChatInput.v
ChatInputFacts.v
ChatInputSafe.v
ChatInputScene.v
Petitions.v
PetitionFacts.v
Warden.v
WardenFacts.v
WardenRequest.v
WardenClock.v
WardenScene.v
