(* ===== verification/Prelude.v ===== *)
(** * The shade cluster server: a verification library

    [src/src/server/shade] is a cluster server for game clients.  Clients log
    in at it; for each it keeps a link to a _node_, one of several game servers
    ([src/src/server/game]) that run the maps; it passes packets on in both
    directions, and itself carries what spans nodes: chat channels, guilds,
    friend lists, the directory of the nodes, the allotment of GUIDs.  Both
    sides share [src/src/server/shared].  This library models that server's own
    logic and the node's end of the protocol between the two, function by
    function, and proves what makes each part correct.

    ** Parts, files, sources

    Paths without a directory in front are under [src/src/server].

    - _Ground._  [Prelude]: machine integers as [Z] with explicit wrap-around,
      flags, containers, tactics.  A [std::map] is a [gmap] walked in key order,
      an [unordered_map] a [gmap] walked in any order (class [UnorderedIter],
      over which every theorem is quantified).  [ByteBuffer]:
      [shared/Packets/ByteBuffer.h], [WorldPacket.h]; its [outcome] type says
      how fallible code ends: a value, an exception, undefined behaviour.
      [Utf8], [Util]: [shared/Utilities/Util.cpp] and the bundled UTF-8
      decoder.  [World]: what other components use of players, sessions and the
      object manager ([shade/Objects/ObjectMgr.cpp], [shade/Character/Player.h]),
      with a trace of packets and statements.
    - _Chat._  [Channel], [ChannelFacts]: [shade/Chat/Channel.cpp].
      [ChannelMgr]: [ChannelMgr.cpp], [Handler/ChannelHandler.cpp] and the
      clean-up at logout; channels are objects in a store, so that a pointer to
      a deleted channel can be seen.
    - _Social._  [Social]: [shade/Character/SocialMgr.cpp],
      [Handler/SocialHandler.cpp].
    - _Guilds._  [Guild], [GuildOps]: [shade/Guilds/Guilds.h], [Guilds.cpp], as
      a state monad over the guild and the world.  [GuildLogic]: weakest
      preconditions for it.  [GuildFacts], [GuildTheorems], [GuildLedger],
      [GuildScene]: one guild.  [GuildMgr]: [GuildsMgr.cpp] and
      [Handler/GuildHandler.cpp].  [GuildFrame], [GuildServer], [GuildLoad]:
      all guilds of the server.
    - _Packets and links._  [OpcodeTable], [Opcodes]:
      [shared/OpcodeDefines.hpp], [shade/Server/Protocol/Opcodes.cpp] and the
      dispatch of [ClientSession].  [Stream]: [shade/Server/Generics/Socket.cpp]
      and the headers of the links.
    - _Cluster._  [Routing]: [shade/Server/RoutingHelper.cpp].  [Control],
      [ControlFacts]: [shade/Server/Control].  [Node]: the node's end,
      [game/Pool/PoolSession.cpp] and the GUID generators of
      [game/Globals/ObjectMgr.cpp].  [Cluster], [ClusterFacts],
      [ClusterSafety]: their composition as a transition system.
    - _Sessions._  [Session], [SessionFacts], [SessionAuth]:
      [shade/Server/Client/ClientSession.cpp] with the handlers that act on a
      session's links.  [SessionMgr], [SessionMgrFacts], [SessionMgrScene]:
      [ClientSessionMgr.cpp] and [SessionUpdater.cpp]; sessions are counted
      objects in a store.
    - _Authentication._  [BigNumber]: [shared/Cryptography/BigNumber.cpp] and
      [SHA1.cpp] over an interface of OpenSSL (class [OpenSSL], laws
      [OpenSSLSpec]); [OpenSSLRef] is an instance with SHA-1 written out.
      [Totp], [RealmList], [AuthSocket]: [authserver/Authentication/TOTP.cpp]
      and [AuthCodes.cpp], [Realms/RealmList.cpp], [Server/AuthSocket.cpp] and
      [RealmSocket.cpp], the handlers whole, in the state monad of [StateM].
      [AuthFacts]: every connection; [AuthSrp]: the SRP6 exchange with a client
      of the protocol; [AuthBypass]: the other ways in.  [Addons]:
      [shade/Addons/AddonMgr.cpp] and the reading of a client's addons.
      [ClientAuth], [ClientAuthFacts]: [shade/Server/Client/ClientSocket.cpp],
      where the stored session key is asked for.  [AuthScene]: examples.
    - _Tickets._  [Tickets], [TicketOps]: [shade/Tickets],
      [Handler/TicketHandler.cpp] and [Chat/Commands/TicketCommands.cpp].
      [TicketFacts], [TicketScene]: their invariant, a run, and the commands
      that end in undefined behaviour.
    - _Accounts._  [Accounts]: [shade/Accounts/AccountMgr.cpp] and
      [Chat/Commands/AccountCommands.cpp], with the queue to the database's
      thread.  [AccountFacts]: the manager and a book of passwords;
      [AccountLogin]: from a password set there to a login at the
      authentication server; [AccountScene]: examples.
    - _Chat commands._  [Commands]: the table of commands, its rows from the
      database and the dispatch of a typed line, [shade/Chat/Chat.h] and
      [Chat.cpp].  [CommandFacts]: what a line may reach; [CommandScene]: with
      the handlers of accounts and tickets, and examples.
    - _Bans._  [Bans]: [BanAccount] and its companions of [shade/Proxy/Proxy.cpp],
      the commands of [Chat/Commands/Level4.cpp], the tables and durations.
      [BanFacts], [BanScene]: who is banned stays out.
    - _Chat input._  [ChatInput]: [shade/Handler/ChatHandler.cpp], the filter of
      [shade/Proxy/Proxy.cpp], whispers and the away marks of
      [shade/Character/Player.cpp], letters in [Handler/MiscHandler.cpp].
      [ChatInputFacts]: who hears what; [ChatInputSafe]: every line ends;
      [ChatInputScene]: examples.
    - _Petitions._  [Petitions], [PetitionFacts]:
      [shade/Petitions/PetitionMgr.cpp] and the clearing of a character's
      petitions in [shade/Character/Player.cpp], with the tables.
    - _Warden._  [Warden]: [shade/Warden], the checks as they are loaded, the
      object of a session, what it sends and how it judges an answer, over a
      class [ARC4] of the cipher.  [WardenFacts]: answers and the module;
      [WardenRequest]: requests; [WardenClock]: its timers and a client that
      does as it should; [WardenScene]: the cipher written out, examples.
    - _Renumbering._  [Rebase], [RebaseFacts], [RebaseTables], [RebaseScene]:
      [shade/Database/DatabaseRoutines.cpp], the renumbering of items, as
      functions from the rows read to the texts of the statements sent.

    ** How the parts interact

    [Session] routes packets by [Opcodes], chooses nodes by [Routing], sends
    over sockets as [Control] has them; [SessionMgr] calls [Session]'s updates
    on the sessions of its store.  [Control] records in [Routing] what [Node]
    tells it over a link that [Stream] shows to be reliable and in order; that
    is the link of [Cluster].  [GuildMgr] runs [GuildOps] on stored guilds and
    carries out what they ask of it ([RemoveGuild]).  [ChannelMgr] runs
    [Channel].  [AuthSocket] stores the session key that [ClientAuth] checks,
    and the socket [ClientAuth] authenticates gives [SessionMgr] its session.
    [Accounts] writes the digests [AuthSocket] makes its verifiers from.
    [Commands] calls the commands of [Accounts] and [TicketOps].  [Bans] writes
    the rows that [AuthSocket] and [ClientAuth] refuse an account by.
    [ChatInput] hands a line to [Commands], to a channel of [ChannelMgr], to
    another player or to the node.  [GuildOps] asks for the clearing of
    petitions that [Petitions] carries out.  [ClientAuth] makes the [Warden] of
    a session ([EvInitWarden]), [Session] updates it ([update_warden]), and a ban
    it asks for is a call of [BanAccount] in [Bans].
    All of them read and write packets with [ByteBuffer].

    ** What the theorems show

    - Invariants over every reachable state: of a channel
      ([channel_invariant]; the owner's place in it until a request meets it
      abandoned), a guild ([guild_invariant]), all guilds of the
      server from any tables ([server_invariant]), the cluster
      ([enterable_started]), a session's link ([session_links]), the tickets
      ([tickets_invariant]).
    - No use of what is not there: guild requests and packets are defined
      whatever bytes arrive, if the names in them can be normalised
      ([guild_requests_defined], [guild_packets_defined]), no channel packet and
      no clean-up uses a deleted channel ([chat_no_dangling]) and nothing a
      deleted session ([sessions_alive]), a client reaches only what its state
      admits ([client_gate]), and a packet goes exactly where its entry of the
      table says ([routing_typed]).
    - Logging in: server and honest client agree on key and proofs
      ([srp_login]), a proof left standing was right ([authenticated_by_proof]),
      no realm list before that ([realm_list_after_login]), and the key opens
      the world unless the client's list of addons breaks off
      ([login_reaches_world]), once per socket
      ([session_once_authenticated]).  Who types the password the account
      manager set last gets in ([changed_password_logs_in]).  [authentication_bypass] shows that the
      protocol can be walked around.
    - GUIDs are given out once over all nodes ([guids_unique]), when no link is
      lost with a notice under way and the directory's unset members are zero;
      [reissued_after_drop] and [corpse_from_stack] show what happens otherwise.
    - Refinement: each request to a channel makes the step of an abstract room
      that it asks for, or none ([channel_refines_room]); the guild log and a ring, the
      social list and its table, the control manager and the cluster's steps, the
      account manager and a book of passwords ([passwords_refined]), the store of
      petitions and its tables ([petitions_written_through]).
    - Round trips: packets, links, the start of a node, logs, base 32.
      Equivalence: UTF-8 decoding, reassembly of a stream however it is cut.
    - Termination and liveness: loading, repairing and disbanding guilds end;
      a session that waits for its node gets it, if the node can be entered
      ([session_connects]; otherwise [no_failover]).
    - The renumbering of items is consistent ([renumbering]) and covers all
      tables, as far as the statements fit the buffers ([rebase_complete]).
    - Who may do what: commands of channels and guilds, and their exact effect;
      a chat command runs by its full name ([typed_command]), only for the level
      it asks for ([commands_guarded]), and the dispatch is defined whatever is
      typed ([commands_defined]).  Who is banned gets in nowhere
      ([banned_stays_out]); a duration printed is read back
      ([durations_read_back]).  Who is muted is not heard ([muted_silent]), a
      line the filter knows in any spelling reaches nobody ([spam_swallowed]), a
      whisper is heard by the two it concerns ([whisper_delivered]), and every
      message is read to a defined end ([message_defined]) as long as the log of
      game masters' chat, which takes what is said for a format, is off or meets
      no percent sign.
    - The warden: the client can read what it is asked ([request_read_back]) and
      gets the module whole ([module_delivered]); any full answer is judged by
      what it says ([warden_verdict]); who falls silent after the handshake, with
      a player in the world, is kicked in time and not before
      ([silent_client_kicked]), who answers rightly is left alone
      ([honest_client_untouched]).

    Where the code does something else than it means to, an [Example] or a
    lemma shows it on a concrete run (for instance [queued_session_deleted],
    [corpse_from_stack], [no_rights_every_right]).

    ** Fuel and bounds

    Loops over containers recurse on the container.  The loops with fuel are:
    reading a string (fuel: the bytes stored, one read per round), the nibbles
    of a packed GUID (8), UTF-8 (the bytes left), a guild's disbanding and
    repair (the members, the ranks; the theorems [disband_complete],
    [validate_repairs] and [load_guilds] show that it suffices), a session's
    queues (their length; no handler adds to the queue it is called from), the
    input loop of a socket (the bytes received; [reassembly]), the blocks of a
    large table (2^32 rows in blocks of 500000, so 8590; [rebase_complete]),
    the commands of an authentication connection (the bytes and 36 more;
    [OnRead_ends]), a list of addons (its bytes; [wp_ReadAddonsInfo]), the parts of
    the warden's module (its bytes; [module_delivered]).  Integers keep
    the width of the source; sums that wrap are written with [wrap].

    ** What is left open

    Left to parameters: OpenSSL, zlib and ACE's addresses; the database's
    answers (tables are arguments, statements are recorded), the clock, the
    order of hash maps, what the operating system does with sockets, texts of
    the locale, members the source leaves uninitialised, and for a session what
    the handlers of other components do to it ([SessEnv]).  Threads interleave between the updates of
    single sessions and not inside them; data races inside one update are not
    modelled.

    Not modelled: achievements and quest caches, the character screen, the authentication server's cache of patches, account data, the
    commands of staff other than those of accounts, tickets and bans, what MySQL
    makes of a statement (beyond the tables of accounts, bans, tickets and
    petitions), threads and logging; the nodes' game logic; vendored libraries
    and scripts.  Arena teams are empty in the source: every method returns a
    constant.  Battlegrounds cannot be reached: the opcode that joins a queue
    has an empty handler, [BattlegroundMgr::CreateNewBattleground] returns a
    null pointer, and [BattlegroundQueueUpdate] returns at its first line. *)
From Stdlib Require Import Ascii String ZArith Lia.
From stdpp Require Import base gmap sets list strings sorting.

Declare Scope shade_scope.
Delimit Scope shade_scope with shade.
Open Scope shade_scope.
Open Scope Z_scope.

(** ** Machine integers

    A [w]-bit unsigned value is a [Z] in [0, 2^w); a conversion to the type
    is [wrap w].  Signed conversions are two's complement. *)
Definition wrap (w : Z) (z : Z) : Z := z mod 2 ^ w.
Definition swrap (w : Z) (z : Z) : Z :=
  let u := wrap w z in if u <? 2 ^ (w - 1) then u else u - 2 ^ w.

Abbreviation u8 := (wrap 8).
Abbreviation u16 := (wrap 16).
Abbreviation u32 := (wrap 32).
Abbreviation u64 := (wrap 64).
Abbreviation s8 := (swrap 8).
Abbreviation s32 := (swrap 32).

(** ** Bit flags

    [x & f] used as a condition, [x |= f] and [x &= ~f]. *)
Definition has_flag (x f : Z) : bool := negb (Z.land x f =? 0).
Definition add_flag (x f : Z) : Z := Z.lor x f.
Definition del_flag (x f : Z) : Z := Z.land x (Z.lnot f).

(** ** Associative containers

    A [std::map] is a [gmap] walked in increasing key order; an
    [std::unordered_map] is a [gmap] walked in an order the implementation
    chooses, which the interface [UnorderedIter] leaves open. *)
Definition key_le {V} (a b : Z * V) : Prop := a.1 <= b.1.

#[export] Instance key_le_dec {V} : RelDecision (@key_le V).
Proof. intros a b. unfold key_le. apply _. Defined.

Definition ordered_entries {V} (m : gmap Z V) : list (Z * V) :=
  merge_sort key_le (map_to_list m).

Class UnorderedIter := {
  uiter : forall {V : Type}, gmap Z V -> list (Z * V);
  uiter_perm : forall V (m : gmap Z V), uiter m ≡ₚ map_to_list m
}.

(** The order in which stdpp enumerates a map is one admissible order. *)
#[export] Instance plain_iter : UnorderedIter.
Proof.
  refine {| uiter := fun V m => map_to_list m |}. reflexivity.
Defined.

(** ** C strings *)

(** [s.c_str()] read as a C string: everything before the first NUL. *)
Fixpoint c_str (s : string) : string :=
  match s with
  | EmptyString => EmptyString
  | String c s' => if Ascii.eqb c Ascii.zero then EmptyString else String c (c_str s')
  end.

(** [::tolower] and [::toupper] of the C locale. *)
Definition tolower (c : ascii) : ascii :=
  let n := nat_of_ascii c in
  if (65 <=? n)%nat && (n <=? 90)%nat then ascii_of_nat (n + 32) else c.
Definition toupper (c : ascii) : ascii :=
  let n := nat_of_ascii c in
  if (97 <=? n)%nat && (n <=? 122)%nat then ascii_of_nat (n - 32) else c.

Fixpoint string_map (f : ascii -> ascii) (s : string) : string :=
  match s with
  | EmptyString => EmptyString
  | String c s' => String (f c) (string_map f s')
  end.

(** Decimal output of an unsigned value ([ostream << uint64]). *)
Definition digit (d : Z) : ascii := ascii_of_nat (48 + Z.to_nat d).

Fixpoint print_dec_fuel (fuel : nat) (z : Z) (acc : string) : string :=
  match fuel with
  | O => acc
  | S fuel' =>
      let acc := String (digit (z mod 10)) acc in
      if z <? 10 then acc else print_dec_fuel fuel' (z / 10) acc
  end.

(** Twenty digits cover every 64-bit value. *)
Definition print_u64 (z : Z) : string := print_dec_fuel 20 z EmptyString.

(** [atol] on a C string: an optional run of white space, an optional sign,
    then digits up to the first other character. *)
Definition is_digit (c : ascii) : bool :=
  let n := nat_of_ascii c in (48 <=? n)%nat && (n <=? 57)%nat.
Definition is_space (c : ascii) : bool :=
  let n := nat_of_ascii c in (n =? 32)%nat || ((9 <=? n)%nat && (n <=? 13)%nat).

Fixpoint read_digits (acc : Z) (s : string) : Z :=
  match s with
  | EmptyString => acc
  | String c s' =>
      if is_digit c then read_digits (10 * acc + Z.of_nat (nat_of_ascii c - 48)) s' else acc
  end.

Fixpoint skip_space (s : string) : string :=
  match s with
  | EmptyString => EmptyString
  | String c s' => if is_space c then skip_space s' else s
  end.

Definition atol (s : string) : Z :=
  match skip_space s with
  | EmptyString => 0
  | String c s' =>
      if Ascii.eqb c "-"%char then - read_digits 0 s'
      else if Ascii.eqb c "+"%char then read_digits 0 s'
      else read_digits 0 (String c s')
  end.

(** [atoi]: [(int)strtol(s, 0, 10)]. *)
Definition atoi (s : string) : Z := s32 (Z.max (- 2 ^ 63) (Z.min (2 ^ 63 - 1) (atol s))).

(** ** Tactics *)
Ltac invs H := inversion H; clear H; simplify_eq.

(** Case analysis on the innermost boolean test of the goal. *)
Ltac case_if :=
  match goal with
  | |- context [if ?b then _ else _] => destruct b eqn:?
  end.

Ltac bool_props :=
  repeat match goal with
  | H : (_ && _)%bool = true |- _ => apply andb_true_iff in H as [? ?]
  | H : (_ || _)%bool = false |- _ => apply orb_false_iff in H as [? ?]
  | H : negb _ = true |- _ => apply negb_true_iff in H
  | H : negb _ = false |- _ => apply negb_false_iff in H
  | H : (_ =? _) = true |- _ => apply Z.eqb_eq in H
  | H : (_ =? _) = false |- _ => apply Z.eqb_neq in H
  | H : (_ <? _) = true |- _ => apply Z.ltb_lt in H
  | H : (_ <? _) = false |- _ => apply Z.ltb_ge in H
  | H : (_ <=? _) = true |- _ => apply Z.leb_le in H
  | H : (_ <=? _) = false |- _ => apply Z.leb_gt in H
  end.

Create HintDb shade.
Create Rewrite HintDb shade.

(** ** Lemmas: machine integers *)
Lemma wrap_range w z : 0 <= w -> 0 <= wrap w z < 2 ^ w.
Proof. intros. apply Z.mod_pos_bound, Z.pow_pos_nonneg; lia. Qed.

Lemma wrap_small w z : 0 <= z < 2 ^ w -> wrap w z = z.
Proof. apply Z.mod_small. Qed.

Lemma wrap_wrap w z : 0 <= w -> wrap w (wrap w z) = wrap w z.
Proof. intros. apply wrap_small, wrap_range; lia. Qed.

Lemma wrap_add_l w a b : wrap w (wrap w a + b) = wrap w (a + b).
Proof. apply Zplus_mod_idemp_l. Qed.

Lemma swrap_range w z : 0 < w -> - 2 ^ (w - 1) <= swrap w z < 2 ^ (w - 1).
Proof.
  intros Hw. unfold swrap. pose proof (wrap_range w z ltac:(lia)).
  assert (2 ^ w = 2 * 2 ^ (w - 1)) by (rewrite <- Z.pow_succ_r by lia; f_equal; lia).
  case_if; bool_props; lia.
Qed.

Lemma swrap_small w z : 0 < w -> 0 <= z < 2 ^ (w - 1) -> swrap w z = z.
Proof.
  intros Hw Hz. assert (2 ^ w = 2 * 2 ^ (w - 1)) by (rewrite <- Z.pow_succ_r by lia; f_equal; lia).
  unfold swrap. rewrite wrap_small by lia. case_if; bool_props; lia.
Qed.

(** ** Lemmas: flags *)
Lemma has_flag_add x f : f <> 0 -> has_flag (add_flag x f) f = true.
Proof.
  intros Hf. unfold has_flag, add_flag. apply negb_true_iff, Z.eqb_neq.
  rewrite Z.land_lor_distr_l, Z.land_diag.
  intros H%Z.lor_eq_0_iff. tauto.
Qed.

Lemma has_flag_add_other x f g : Z.land f g = 0 -> has_flag (add_flag x f) g = has_flag x g.
Proof.
  intros Hfg. unfold has_flag, add_flag.
  by rewrite Z.land_lor_distr_l, Hfg, Z.lor_0_r.
Qed.

Lemma has_flag_del x f : has_flag (del_flag x f) f = false.
Proof.
  unfold has_flag, del_flag.
  by rewrite <- Z.land_assoc, (Z.land_comm (Z.lnot f)), Z.land_lnot_diag, Z.land_0_r.
Qed.

Lemma has_flag_del_other x f g : Z.land f g = 0 -> has_flag (del_flag x f) g = has_flag x g.
Proof.
  intros Hfg. unfold has_flag, del_flag. do 2 f_equal.
  rewrite <- Z.land_assoc. f_equal. apply Z.bits_inj'. intros n Hn.
  rewrite Z.land_spec, Z.lnot_spec by done.
  assert (Z.testbit (Z.land f g) n = false) as Hb by (rewrite Hfg; apply Z.bits_0).
  rewrite Z.land_spec in Hb. by destruct (Z.testbit f n), (Z.testbit g n).
Qed.

Lemma has_flag_0 f : has_flag 0 f = false.
Proof. reflexivity. Qed.

#[export] Hint Rewrite has_flag_del has_flag_0 : shade.

(** ** Lemmas: containers in order *)
#[export] Instance key_le_trans {V} : Transitive (@key_le V).
Proof. intros a b c. unfold key_le. lia. Qed.
#[export] Instance key_le_total {V} : Total (@key_le V).
Proof. intros a b. unfold key_le. lia. Qed.

Lemma ordered_entries_perm {V} (m : gmap Z V) : ordered_entries m ≡ₚ map_to_list m.
Proof. apply merge_sort_Permutation. Qed.

Lemma elem_of_ordered_entries {V} (m : gmap Z V) k v :
  (k, v) ∈ ordered_entries m <-> m !! k = Some v.
Proof. rewrite ordered_entries_perm. apply elem_of_map_to_list. Qed.

Lemma ordered_entries_nil {V} (m : gmap Z V) : ordered_entries m = [] <-> m = ∅.
Proof.
  split.
  - intros H. apply map_to_list_empty_iff, Permutation_nil_r.
    rewrite <- H. symmetry. apply ordered_entries_perm.
  - intros ->. unfold ordered_entries. by rewrite map_to_list_empty.
Qed.

(** The first entry has the smallest key. *)
Lemma ordered_entries_head {V} (m : gmap Z V) k v l :
  ordered_entries m = (k, v) :: l ->
  m !! k = Some v /\ forall k', is_Some (m !! k') -> k <= k'.
Proof.
  intros H. split.
  - apply elem_of_ordered_entries. rewrite H. left.
  - intros k' [v' Hv']. apply elem_of_ordered_entries in Hv'. rewrite H in Hv'.
    assert (StronglySorted key_le (ordered_entries m)) as Hs
      by (apply StronglySorted_merge_sort; apply _).
    rewrite H in Hs. apply StronglySorted_inv in Hs as [_ Hs].
    rewrite Forall_forall in Hs. apply elem_of_cons in Hv' as [?|Hv']; [by simplify_eq|].
    apply (Hs (k', v')) in Hv'. exact Hv'.
Qed.

(** ** Equivalences under a conjunction and a quantifier *)
Lemma and_iff_compat_l' (A B C : Prop) : (A -> (B <-> C)) -> A /\ B <-> A /\ C.
Proof. tauto. Qed.
Lemma exist_proper {A} (P Q : A -> Prop) : (forall x, P x <-> Q x) -> (exists x, P x) <-> exists x, Q x.
Proof. by intros HPQ; split; intros [x Hx]; exists x; apply HPQ. Qed.
