(* ===== verification/ByteBuffer.v ===== *)
(** * Packets: [shared/Packets/ByteBuffer.h], [ByteBuffer.cpp], [WorldPacket.h]

    The byte buffer every packet is written to and read from: its storage, its
    read and write positions, the checks of each access and the exceptions they
    raise, and the packed forms of GUIDs, dates and containers.  Positions are
    [size_t], 64 bits wide, and the sums the checks compute wrap.  An access
    that a check lets through although it is outside the storage is [UB]. *)
From Stdlib Require Import Ascii String ZArith Lia.
From stdpp Require Import base gmap list strings.
From S2P Require Import Prelude.

Open Scope Z_scope.

(** ** Outcomes *)

(** The exceptions of the buffer with the arguments their constructors get,
    and a failed [ASSERT]. *)
Inductive exn :=
| ByteBufferPositionException (add : bool) (pos size valueSize : Z)
| ByteBufferSourceException (pos size valueSize : Z)
| ByteBufferException
| AssertFailure.

Inductive outcome (A : Type) :=
| Ok (a : A)
| Throw (e : exn)
| UB.
Arguments Ok {A} a.
Arguments Throw {A} e.
Arguments UB {A}.

Definition obind {A B} (m : outcome A) (k : A -> outcome B) : outcome B :=
  match m with Ok a => k a | Throw e => Throw e | UB => UB end.
Notation "'let*' x ':=' m 'in' k" := (obind m (fun x => k))
  (at level 10, x name, m at level 200, k at level 200) : shade_scope.
Notation "'let*' ' p ':=' m 'in' k" := (obind m (fun x => match x with p => k end))
  (at level 10, p pattern, m at level 200, k at level 200) : shade_scope.

(** The texts of the two exception classes. *)
Definition PositionException_what (add : bool) (pos size valueSize : Z) : string :=
  ("Attempted to " +:+ (if add then "put" else "get") +:+ " value with size: "
   +:+ print_u64 valueSize +:+ " in ByteBuffer (pos: " +:+ print_u64 pos
   +:+ " size: " +:+ print_u64 size +:+ ")")%string.

Definition SourceException_what (pos size valueSize : Z) : string :=
  ("Attempted to put a " +:+ (if (0 <? valueSize)%Z then "NULL-pointer" else "zero-sized value")
   +:+ " in ByteBuffer (pos: " +:+ print_u64 pos +:+ " size: " +:+ print_u64 size +:+ ")")%string.

(** ** Little-endian values

    [EndianConvert] is the identity on the little-endian hosts the server is
    built for, so the bytes of a value are its memory image. *)
Fixpoint le_split (n : nat) (z : Z) : list Z :=
  match n with
  | O => []
  | S n' => (z mod 256) :: le_split n' (z / 256)
  end.

Fixpoint le_combine (l : list Z) : Z :=
  match l with
  | [] => 0
  | b :: l' => b + 256 * le_combine l'
  end.

Definition str_bytes (s : string) : list Z :=
  (fun c => Z.of_N (Ascii.N_of_ascii c)) <$> list_ascii_of_string s.
Definition bytes_str (l : list Z) : string :=
  string_of_list_ascii ((fun b => Ascii.ascii_of_N (Z.to_N b)) <$> l).

(** ** The buffer *)
Record ByteBuffer := mkBB { _rpos : Z; _wpos : Z; _storage : list Z }.

Definition ByteBuffer_new : ByteBuffer := mkBB 0 0 [].
Definition bb_clear (b : ByteBuffer) : ByteBuffer := mkBB 0 0 [].
Definition bb_size (b : ByteBuffer) : Z := Z.of_nat (length (_storage b)).
Definition bb_empty (b : ByteBuffer) : bool := bool_decide (_storage b = []).
Definition set_rpos (r : Z) (b : ByteBuffer) : ByteBuffer := mkBB r (_wpos b) (_storage b).
Definition set_wpos (w : Z) (b : ByteBuffer) : ByteBuffer := mkBB (_rpos b) w (_storage b).
Definition rfinish (b : ByteBuffer) : ByteBuffer := set_rpos (_wpos b) b.

(** [std::vector::resize(n, 0)]. *)
Definition vresize (n : nat) (l : list Z) : list Z :=
  take n l ++ replicate (n - length l) 0.

Definition bb_resize (newsize : Z) (b : ByteBuffer) : ByteBuffer :=
  mkBB 0 newsize (vresize (Z.to_nat newsize) (_storage b)).

(** [memcpy(&_storage[pos], src, cnt)]: undefined outside the storage. *)
Definition write_at (pos : Z) (src : list Z) (l : list Z) : outcome (list Z) :=
  if Z.of_nat (length l) <? pos + Z.of_nat (length src) then UB
  else Ok (take (Z.to_nat pos) l ++ src ++ drop (Z.to_nat pos + length src) l).

Definition max_size : Z := 10000000.

(** [append(uint8 const* src, size_t cnt)] with a non-null [src]. *)
Definition append (src : list Z) (b : ByteBuffer) : outcome ByteBuffer :=
  let cnt := Z.of_nat (length src) in
  if cnt =? 0 then Throw (ByteBufferSourceException (_wpos b) (bb_size b) cnt)
  else if negb (bb_size b <? max_size) then Throw AssertFailure
  else
    let newsize := u64 (_wpos b + cnt) in
    let st := if bb_size b <? newsize then vresize (Z.to_nat newsize) (_storage b)
              else _storage b in
    let* st' := write_at (_wpos b) src st in
    Ok (mkBB (_rpos b) newsize st').

(** [append<T>(value)] for a [T] of [n] bytes: [operator<<] of the integers. *)
Definition append_int (n : nat) (v : Z) (b : ByteBuffer) : outcome ByteBuffer :=
  append (le_split n v) b.

(** [operator<<(std::string const&)]. *)
Definition append_string (s : string) (b : ByteBuffer) : outcome ByteBuffer :=
  let* b := (if (String.length s =? 0)%nat then Ok b else append (str_bytes s) b) in
  append_int 1 0 b.

(** [append(ByteBuffer const&)]. *)
Definition bb_contents (b : ByteBuffer) : outcome (list Z) :=
  if bb_empty b then Throw ByteBufferException else Ok (_storage b).
Definition append_buffer (src : ByteBuffer) (b : ByteBuffer) : outcome ByteBuffer :=
  if _wpos src =? 0 then Ok b
  else let* c := bb_contents src in
       (if bb_size src <? _wpos src then UB else append (take (Z.to_nat (_wpos src)) c) b).

(** [put(size_t pos, uint8 const* src, size_t cnt)] with a non-null [src]. *)
Definition put (pos : Z) (src : list Z) (b : ByteBuffer) : outcome ByteBuffer :=
  let cnt := Z.of_nat (length src) in
  if bb_size b <? u64 (pos + cnt)
  then Throw (ByteBufferPositionException true pos cnt (bb_size b))
  else let* st := write_at pos src (_storage b) in
       Ok (mkBB (_rpos b) (_wpos b) st).

Definition put_int (n : nat) (pos : Z) (v : Z) (b : ByteBuffer) : outcome ByteBuffer :=
  put pos (le_split n v) b.

(** [T read<T>(size_t pos) const] for an unsigned [T] of [n] bytes. *)
Definition read_at (n : nat) (pos : Z) (b : ByteBuffer) : outcome Z :=
  let cnt := Z.of_nat n in
  if bb_size b <? u64 (pos + cnt)
  then Throw (ByteBufferPositionException false pos cnt (bb_size b))
  else if bb_size b <? pos + cnt then UB
  else Ok (le_combine (take n (drop (Z.to_nat pos) (_storage b)))).

(** [T read<T>()]. *)
Definition read (n : nat) (b : ByteBuffer) : outcome (Z * ByteBuffer) :=
  let* r := read_at n (_rpos b) b in
  Ok (r, set_rpos (u64 (_rpos b + Z.of_nat n)) b).

(** [read<T>()] of a signed [T]. *)
Definition read_signed (n : nat) (b : ByteBuffer) : outcome (Z * ByteBuffer) :=
  let* '(v, b) := read n b in Ok (swrap (8 * Z.of_nat n) v, b).

(** [operator>>(bool&)] compares a [char], signed on the target, with 0. *)
Definition read_bool (b : ByteBuffer) : outcome (bool * ByteBuffer) :=
  let* '(v, b) := read_signed 1 b in Ok (0 <? v, b).

(** [operator>>(float&)] on the bit pattern: a value that is not finite
    becomes [0.0f]. *)
Definition float_finite (bits : Z) : bool :=
  negb (Z.land (Z.shiftr bits 23) 255 =? 255).
Definition read_float (b : ByteBuffer) : outcome (Z * ByteBuffer) :=
  let* '(v, b) := read 4 b in Ok (if float_finite v then v else 0, b).

(** [read_skip(size_t)]. *)
Definition read_skip (skip : Z) (b : ByteBuffer) : outcome ByteBuffer :=
  if bb_size b <? u64 (_rpos b + skip)
  then Throw (ByteBufferPositionException false (_rpos b) skip (bb_size b))
  else Ok (set_rpos (u64 (_rpos b + skip)) b).

(** [read(uint8* dest, size_t len)]. *)
Definition read_bytes (len : Z) (b : ByteBuffer) : outcome (list Z * ByteBuffer) :=
  if bb_size b <? u64 (_rpos b + len)
  then Throw (ByteBufferPositionException false (_rpos b) len (bb_size b))
  else if bb_size b <? _rpos b + len then UB
  else Ok (take (Z.to_nat len) (drop (Z.to_nat (_rpos b)) (_storage b)),
           set_rpos (u64 (_rpos b + len)) b).

(** [operator[]]. *)
Definition bb_index (pos : Z) (b : ByteBuffer) : outcome Z :=
  if bb_size b <=? pos then Throw (ByteBufferPositionException false pos 1 (bb_size b))
  else Ok (nth (Z.to_nat pos) (_storage b) 0).

(** [operator>>(std::string&)]: one character per round, at most as many
    rounds as there are bytes. *)
Fixpoint read_string_loop (fuel : nat) (acc : list Z) (b : ByteBuffer)
  : outcome (list Z * ByteBuffer) :=
  match fuel with
  | O => Ok (acc, b)
  | S fuel' =>
      if _rpos b <? bb_size b then
        let* '(c, b) := read 1 b in
        (if c =? 0 then Ok (acc, b) else read_string_loop fuel' (acc ++ [c]) b)
      else Ok (acc, b)
  end.
Definition read_string (b : ByteBuffer) : outcome (string * ByteBuffer) :=
  let* '(l, b) := read_string_loop (length (_storage b)) [] b in
  Ok (bytes_str l, b).

(** ** Packed GUIDs *)

(** [readPackGUID]: one mask byte, then one byte per bit set in the mask. *)
Fixpoint readPackGUID_loop (bits : list Z) (guidmark guid : Z) (b : ByteBuffer)
  : outcome (Z * ByteBuffer) :=
  match bits with
  | [] => Ok (guid, b)
  | i :: bits' =>
      if has_flag guidmark (Z.shiftl 1 i) then
        if bb_size b <? u64 (_rpos b + 1)
        then Throw (ByteBufferPositionException false (_rpos b) 1 (bb_size b))
        else let* '(bit, b) := read 1 b in
             readPackGUID_loop bits' guidmark (Z.lor guid (Z.shiftl bit (i * 8))) b
      else readPackGUID_loop bits' guidmark guid b
  end.

Definition readPackGUID (b : ByteBuffer) : outcome (Z * ByteBuffer) :=
  if bb_size b <? u64 (_rpos b + 1)
  then Throw (ByteBufferPositionException false (_rpos b) 1 (bb_size b))
  else let* '(guidmark, b) := read 1 b in
       readPackGUID_loop [0; 1; 2; 3; 4; 5; 6; 7] guidmark 0 b.

(** [appendPackGUID]: the loop runs while the GUID has bits left, at most
    eight times for a 64-bit value. *)
Fixpoint packGUID_loop (fuel : nat) (i guid mask : Z) (acc : list Z) : Z * list Z :=
  match fuel with
  | O => (mask, acc)
  | S fuel' =>
      if guid =? 0 then (mask, acc)
      else
        let '(mask, acc) :=
          if has_flag guid 255
          then (Z.lor mask (u8 (Z.shiftl 1 i)), acc ++ [u8 (Z.land guid 255)])
          else (mask, acc) in
        packGUID_loop fuel' (i + 1) (Z.shiftr guid 8) mask acc
  end.
Definition packGUID (guid : Z) : list Z :=
  let '(mask, l) := packGUID_loop 8 0 guid 0 [] in mask :: l.
Definition appendPackGUID (guid : Z) (b : ByteBuffer) : outcome ByteBuffer :=
  append (packGUID guid) b.

(** ** Packed dates *)

(** The fields of the C library's [tm] the packed form uses. *)
Record tm := mkTm { tm_min : Z; tm_hour : Z; tm_mday : Z; tm_mon : Z; tm_year : Z; tm_wday : Z }.

(** The argument of [append<uint32>] in [AppendPackedTime]. *)
Definition PackTime (lt : tm) : Z :=
  Z.lor (Z.lor (Z.lor (Z.lor (Z.lor (Z.shiftl (tm_year lt - 100) 24) (Z.shiftl (tm_mon lt) 20))
    (Z.shiftl (tm_mday lt - 1) 14)) (Z.shiftl (tm_wday lt) 11)) (Z.shiftl (tm_hour lt) 6))
    (tm_min lt).

(** The fields [ReadPackedTime] fills in, the others being zero. *)
Definition UnpackTime (packedDate : Z) : tm :=
  {| tm_min := Z.land packedDate 63;
     tm_hour := Z.land (Z.shiftr packedDate 6) 31;
     tm_mday := Z.land (Z.shiftr packedDate 14) 63 + 1;
     tm_mon := Z.land (Z.shiftr packedDate 20) 15;
     tm_year := Z.land (Z.shiftr packedDate 24) 31 + 100;
     tm_wday := 0 |}.

Section PackedTime.
(** The C library's [localtime_r] and [mktime]. *)
Context (localtime : Z -> tm) (mktime : tm -> Z).

Definition AppendPackedTime (time : Z) (b : ByteBuffer) : outcome ByteBuffer :=
  append_int 4 (PackTime (localtime time)) b.

Definition ReadPackedTime (b : ByteBuffer) : outcome (Z * ByteBuffer) :=
  let* '(packedDate, b) := read 4 b in
  Ok (u32 (mktime (UnpackTime packedDate)), b).
End PackedTime.

(** ** Containers: a [uint32] count, then the elements *)
Section Containers.
Context {T : Type} (put_elem : T -> ByteBuffer -> outcome ByteBuffer)
        (get_elem : ByteBuffer -> outcome (T * ByteBuffer)).

Fixpoint append_elems (v : list T) (b : ByteBuffer) : outcome ByteBuffer :=
  match v with
  | [] => Ok b
  | x :: v' => let* b := put_elem x b in append_elems v' b
  end.

Definition append_vector (v : list T) (b : ByteBuffer) : outcome ByteBuffer :=
  let* b := append_int 4 (u32 (Z.of_nat (length v))) b in append_elems v b.

Fixpoint read_elems (vsize : nat) (b : ByteBuffer) : outcome (list T * ByteBuffer) :=
  match vsize with
  | O => Ok ([], b)
  | S n =>
      let* '(t, b) := get_elem b in
      let* '(v, b) := read_elems n b in
      Ok (t :: v, b)
  end.

Definition read_vector (b : ByteBuffer) : outcome (list T * ByteBuffer) :=
  let* '(vsize, b) := read 4 b in read_elems (Z.to_nat vsize) b.
End Containers.

(** ** World packets *)
Record WorldPacket := mkWP { m_opcode : Z; wp_buf : ByteBuffer }.

Definition WorldPacket_new (opcode : Z) : WorldPacket := mkWP (u16 opcode) ByteBuffer_new.
Definition Initialize (opcode : Z) (p : WorldPacket) : WorldPacket :=
  mkWP (u16 opcode) (bb_clear (wp_buf p)).
Definition GetOpcode (p : WorldPacket) : Z := m_opcode p.

(** ** Packet bodies

    A handler builds a packet by a sequence of [<<] on typed values; [PField]
    is one of them, an [F32] being given by its bit pattern. *)
Inductive PField :=
| U8 (v : Z) | U16 (v : Z) | U32 (v : Z) | U64 (v : Z) | I32 (v : Z)
| F32 (bits : Z) | Str (s : string).

#[export] Instance PField_eq_dec : EqDecision PField.
Proof. solve_decision. Defined.

Definition append_field (f : PField) (b : ByteBuffer) : outcome ByteBuffer :=
  match f with
  | U8 v => append_int 1 v b
  | U16 v => append_int 2 v b
  | U32 v | I32 v | F32 v => append_int 4 v b
  | U64 v => append_int 8 v b
  | Str s => append_string s b
  end.

Fixpoint append_fields (fs : list PField) (b : ByteBuffer) : outcome ByteBuffer :=
  match fs with
  | [] => Ok b
  | f :: fs' => let* b := append_field f b in append_fields fs' b
  end.

(** The bytes a field adds. *)
Definition field_bytes (f : PField) : list Z :=
  match f with
  | U8 v => le_split 1 v
  | U16 v => le_split 2 v
  | U32 v | I32 v | F32 v => le_split 4 v
  | U64 v => le_split 8 v
  | Str s => str_bytes s ++ [0]
  end.
Definition fields_bytes (fs : list PField) : list Z := concat (field_bytes <$> fs).

(** Reading with the [>>] of the field's type. *)
Definition read_field (f : PField) (b : ByteBuffer) : outcome (PField * ByteBuffer) :=
  match f with
  | U8 _ => let* '(v, b) := read 1 b in Ok (U8 v, b)
  | U16 _ => let* '(v, b) := read 2 b in Ok (U16 v, b)
  | U32 _ => let* '(v, b) := read 4 b in Ok (U32 v, b)
  | U64 _ => let* '(v, b) := read 8 b in Ok (U64 v, b)
  | I32 _ => let* '(v, b) := read_signed 4 b in Ok (I32 v, b)
  | F32 _ => let* '(v, b) := read_float b in Ok (F32 v, b)
  | Str _ => let* '(v, b) := read_string b in Ok (Str v, b)
  end.

Fixpoint read_fields (fs : list PField) (b : ByteBuffer) : outcome (list PField * ByteBuffer) :=
  match fs with
  | [] => Ok ([], b)
  | f :: fs' =>
      let* '(v, b) := read_field f b in
      let* '(vs, b) := read_fields fs' b in
      Ok (v :: vs, b)
  end.

(** The value the reader gets for a written one: reduced to the width, and a
    float that is not finite replaced by zero. *)
Definition norm_field (f : PField) : PField :=
  match f with
  | U8 v => U8 (u8 v)
  | U16 v => U16 (u16 v)
  | U32 v => U32 (u32 v)
  | U64 v => U64 (u64 v)
  | I32 v => I32 (s32 v)
  | F32 v => F32 (if float_finite (u32 v) then u32 v else 0)
  | Str s => Str s
  end.

(** A string without NUL, as every [const char*] and client string is. *)
Definition field_ok (f : PField) : bool :=
  match f with
  | Str s => forallb (fun c => negb (Ascii.eqb c Ascii.zero)) (list_ascii_of_string s)
  | _ => true
  end.

(** * Theorems *)

(** ** Bytes *)
Definition is_byte (z : Z) : Prop := 0 <= z < 256.

Lemma length_le_split n z : length (le_split n z) = n.
Proof. revert z. induction n; intros; simpl; auto. Qed.

Lemma le_split_byte n z : Forall is_byte (le_split n z).
Proof.
  revert z. induction n as [|n IH]; intros z; simpl; constructor; auto.
  apply Z.mod_pos_bound. lia.
Qed.

Lemma pow256_succ n : 256 ^ Z.of_nat (S n) = 256 * 256 ^ Z.of_nat n.
Proof. rewrite Nat2Z.inj_succ, Z.pow_succ_r; lia. Qed.

Lemma le_combine_split n z : le_combine (le_split n z) = z mod 256 ^ Z.of_nat n.
Proof.
  revert z. induction n as [|n IH]; intros z; cbn [le_split le_combine].
  - by rewrite Z.mod_1_r.
  - rewrite IH, pow256_succ, Z.rem_mul_r; lia.
Qed.

Lemma le_combine_bound l : Forall is_byte l -> 0 <= le_combine l < 256 ^ Z.of_nat (length l).
Proof.
  induction 1 as [|b l Hb _ IH]; cbn [le_combine length]; [lia|].
  rewrite pow256_succ. unfold is_byte in Hb. lia.
Qed.

Lemma le_split_combine l : Forall is_byte l -> le_split (length l) (le_combine l) = l.
Proof.
  induction 1 as [|b l Hb _ IH]; cbn [le_combine length le_split]; [done|].
  unfold is_byte in Hb. f_equal.
  - rewrite (Z.mul_comm 256), Z.mod_add, Z.mod_small; lia.
  - rewrite (Z.mul_comm 256), Z.div_add, Z.div_small by lia. apply IH.
Qed.

Lemma pow256 n : 256 ^ Z.of_nat n = 2 ^ (8 * Z.of_nat n).
Proof. change 256 with (2 ^ 8). rewrite <- Z.pow_mul_r; lia. Qed.

Lemma read_back n z : le_combine (le_split n z) = wrap (8 * Z.of_nat n) z.
Proof. by rewrite le_combine_split, pow256. Qed.

Lemma str_bytes_length s : length (str_bytes s) = String.length s.
Proof. unfold str_bytes. rewrite length_fmap. induction s; simpl; auto. Qed.

Lemma bytes_str_bytes s : bytes_str (str_bytes s) = s.
Proof.
  unfold bytes_str, str_bytes. rewrite <- list_fmap_compose.
  rewrite <- (string_of_list_ascii_of_string s) at 2. f_equal.
  rewrite <- (list_fmap_id (list_ascii_of_string s)) at 2.
  apply list_fmap_ext. intros i c _. simpl. rewrite N2Z.id. apply Ascii.ascii_N_embedding.
Qed.

Lemma field_bytes_length f : (length (field_bytes f) > 0)%nat.
Proof.
  destruct f; simpl; try lia. rewrite length_app. simpl. lia.
Qed.

(** ** Writing *)
Lemma vresize_grow l m :
  vresize (length l + m) l = l ++ replicate m 0.
Proof. unfold vresize. rewrite take_ge by lia. do 2 f_equal. lia. Qed.

Lemma write_at_ok l src rest :
  write_at (Z.of_nat (length l)) src (l ++ replicate (length src) 0 ++ rest)
  = Ok (l ++ src ++ rest).
Proof.
  unfold write_at. rewrite Nat2Z.id.
  destruct (Z.ltb_spec (Z.of_nat (length (l ++ replicate (length src) 0 ++ rest)))
              (Z.of_nat (length l) + Z.of_nat (length src))) as [H|_].
  { rewrite !length_app, length_replicate in H. lia. }
  rewrite take_app_length, (app_assoc l (replicate _ _) rest).
  by rewrite drop_app_length' by (rewrite length_app, length_replicate; lia).
Qed.

Lemma append_end src b :
  _wpos b = bb_size b -> bb_size b < max_size -> src <> [] ->
  bb_size b + Z.of_nat (length src) < 2 ^ 64 ->
  append src b
  = Ok (mkBB (_rpos b) (bb_size b + Z.of_nat (length src)) (_storage b ++ src)).
Proof.
  intros Hw Hm Hs Hlt. unfold append.
  assert (0 < Z.of_nat (length src)) by (destruct src; simpl in *; [done|lia]).
  rewrite (proj2 (Z.eqb_neq _ _)) by lia.
  rewrite (proj2 (Z.ltb_lt _ _) Hm). simpl. rewrite Hw.
  rewrite wrap_small by (unfold bb_size in *; lia).
  rewrite (proj2 (Z.ltb_lt (bb_size b) _)) by lia.
  unfold bb_size. rewrite <- Nat2Z.inj_add, Nat2Z.id, vresize_grow.
  pose proof (write_at_ok (_storage b) src []) as Hok. rewrite !app_nil_r in Hok.
  by rewrite Hok.
Qed.

Lemma append_int_end n v b :
  (0 < n)%nat -> _wpos b = bb_size b -> bb_size b + Z.of_nat n <= max_size ->
  append_int n v b = Ok (mkBB (_rpos b) (bb_size b + Z.of_nat n) (_storage b ++ le_split n v)).
Proof.
  intros Hn Hw Hm. unfold append_int. unfold max_size in *.
  rewrite append_end; rewrite ?length_le_split; unfold max_size; try done; try lia.
  intros H%(f_equal length). rewrite length_le_split in H. simpl in H. lia.
Qed.

Lemma append_field_end f b :
  _wpos b = bb_size b -> bb_size b + Z.of_nat (length (field_bytes f)) <= max_size ->
  append_field f b
  = Ok (mkBB (_rpos b) (bb_size b + Z.of_nat (length (field_bytes f)))
          (_storage b ++ field_bytes f)).
Proof.
  intros Hw Hm. destruct f as [v|v|v|v|v|v|s]; cbn [append_field field_bytes] in *;
    rewrite ?length_le_split in *; try (apply append_int_end; done || lia).
  unfold append_string. rewrite ?length_app, ?str_bytes_length in *. cbn [length] in *.
  destruct (Nat.eqb_spec (String.length s) 0) as [E|E]; cbn [obind].
  - destruct s; [|done]. simpl in *. apply append_int_end; done || lia.
  - unfold max_size in *. rewrite append_end; rewrite ?str_bytes_length; unfold max_size; try done; try lia.
    2:{ intros H%(f_equal length). rewrite str_bytes_length in H. simpl in H. lia. }
    cbn [obind]. rewrite append_int_end; unfold bb_size in *; cbn in *;
      rewrite ?length_app, ?str_bytes_length; unfold max_size; try lia.
    rewrite <- app_assoc. do 2 f_equal; lia.
Qed.

Lemma append_fields_end fs b :
  _wpos b = bb_size b -> bb_size b + Z.of_nat (length (fields_bytes fs)) <= max_size ->
  append_fields fs b
  = Ok (mkBB (_rpos b) (bb_size b + Z.of_nat (length (fields_bytes fs)))
          (_storage b ++ fields_bytes fs)).
Proof.
  revert b. induction fs as [|f fs IH]; intros b Hw Hm.
  - destruct b as [r w st]. cbn in *. by rewrite app_nil_r, Z.add_0_r, Hw.
  - unfold fields_bytes in *. cbn [fmap list_fmap concat append_fields] in *.
    rewrite ?length_app in *.
    rewrite append_field_end by (done || lia). cbn [obind].
    rewrite IH; unfold bb_size in *; cbn [_wpos _storage _rpos] in *;
      rewrite ?length_app; try lia.
    rewrite <- app_assoc. do 2 f_equal; lia.
Qed.

(** ** Reading *)
Definition pending (b : ByteBuffer) : list Z := drop (Z.to_nat (_rpos b)) (_storage b).
Definition readable (b : ByteBuffer) : Prop := 0 <= _rpos b /\ bb_size b < 2 ^ 63.

Lemma pending_size b bs rest :
  readable b -> pending b = bs ++ rest -> bs <> [] ->
  _rpos b + Z.of_nat (length bs) <= bb_size b.
Proof.
  intros [Hr _] Hp Hne. apply (f_equal length) in Hp. unfold pending in Hp.
  rewrite length_drop, length_app in Hp. unfold bb_size.
  destruct bs; [done|]. cbn [length] in *. lia.
Qed.

Lemma pending_skip b n bs rest :
  readable b -> pending b = bs ++ rest -> n = Z.of_nat (length bs) ->
  pending (set_rpos (_rpos b + n) b) = rest.
Proof.
  intros [Hr _] Hp ->. unfold pending in *. cbn.
  rewrite Z2Nat.inj_add, Nat2Z.id, <- drop_drop, Hp by lia. apply drop_app_length.
Qed.

Lemma readable_skip b n : readable b -> 0 <= n -> readable (set_rpos (_rpos b + n) b).
Proof. intros [? ?] ?. split; cbn; [lia|done]. Qed.

Lemma read_pending n b bs rest :
  readable b -> pending b = bs ++ rest -> length bs = n -> (0 < n)%nat ->
  read n b = Ok (le_combine bs, set_rpos (_rpos b + Z.of_nat n) b).
Proof.
  intros Hb Hp Hlen Hn. assert (bs <> []) by (by destruct bs; simpl in *; [lia|]).
  pose proof (pending_size b bs rest Hb Hp ltac:(done)) as Hs. destruct Hb as [Hr Hsz].
  unfold read, read_at. rewrite Hlen in Hs.
  rewrite wrap_small by lia.
  rewrite (proj2 (Z.ltb_ge _ _) Hs). cbn [obind].
  unfold pending in Hp. rewrite Hp, <- Hlen, take_app_length. done.
Qed.

Lemma read_int_pending n v b rest :
  readable b -> pending b = le_split n v ++ rest -> (0 < n)%nat ->
  read n b = Ok (wrap (8 * Z.of_nat n) v, set_rpos (_rpos b + Z.of_nat n) b).
Proof.
  intros Hb Hp Hn. rewrite <- read_back.
  by eapply read_pending; eauto using length_le_split.
Qed.

Lemma read_string_loop_ok l fuel acc b rest :
  readable b -> pending b = l ++ 0 :: rest -> Forall (fun c => c <> 0) l ->
  (length l < fuel)%nat ->
  read_string_loop fuel acc b
  = Ok (acc ++ l, set_rpos (_rpos b + Z.of_nat (S (length l))) b).
Proof.
  intros Hb Hp Hnz. revert fuel acc b Hb Hp.
  induction Hnz as [|c l Hc Hnz IH]; intros [|fuel] acc b Hb Hp Hf; cbn [length] in *; try lia;
    cbn [read_string_loop]; cbn [app] in Hp.
  - pose proof (pending_size b [0] rest Hb Hp ltac:(done)) as Hs. cbn in Hs.
    rewrite (proj2 (Z.ltb_lt _ _)) by lia.
    rewrite (read_pending 1 b [0] rest Hb Hp) by (done || lia). cbn [obind le_combine].
    rewrite app_nil_r. done.
  - change (c :: l ++ 0 :: rest) with ([c] ++ (l ++ 0 :: rest)) in Hp.
    pose proof (pending_size b [c] _ Hb Hp ltac:(done)) as Hs. cbn in Hs.
    rewrite (proj2 (Z.ltb_lt _ _)) by lia.
    rewrite (read_pending 1 b [c] _ Hb Hp) by (done || lia). cbn [obind le_combine].
    rewrite Z.mul_0_r, Z.add_0_r, (proj2 (Z.eqb_neq _ _) Hc).
    rewrite IH; [| |by apply (pending_skip _ _ [c])|lia].
    + rewrite <- app_assoc. unfold set_rpos. cbn. do 3 f_equal; lia.
    + apply readable_skip; [done|lia].
Qed.

Lemma read_string_pending s b rest :
  readable b -> pending b = str_bytes s ++ 0 :: rest -> field_ok (Str s) = true ->
  read_string b = Ok (s, set_rpos (_rpos b + Z.of_nat (S (String.length s))) b).
Proof.
  intros Hb Hp Hok. unfold read_string.
  assert (length (str_bytes s) < length (_storage b))%nat as Hl.
  { apply (f_equal length) in Hp. unfold pending in Hp.
    rewrite length_drop, length_app in Hp. cbn in Hp. lia. }
  rewrite (read_string_loop_ok (str_bytes s) _ _ _ rest) by
    (done || (apply Forall_fmap, Forall_forall; intros c Hc; cbn;
      cbn in Hok; rewrite forallb_forall in Hok;
      rewrite list_elem_of_In in Hc; specialize (Hok c Hc);
      apply negb_true_iff, Ascii.eqb_neq in Hok; intros H0; apply Hok;
      rewrite <- (Ascii.ascii_N_embedding c);
      replace (Ascii.N_of_ascii c) with 0%N by lia; done)).
  cbn [obind app]. by rewrite bytes_str_bytes, str_bytes_length.
Qed.

Lemma read_field_pending f b rest :
  readable b -> pending b = field_bytes f ++ rest -> field_ok f = true ->
  read_field f b
  = Ok (norm_field f, set_rpos (_rpos b + Z.of_nat (length (field_bytes f))) b).
Proof.
  intros Hb Hp Hok.
  destruct f as [v|v|v|v|v|v|s]; cbn [read_field field_bytes norm_field] in *;
    rewrite ?length_le_split;
    try (rewrite (read_int_pending _ v b rest) by (done || lia); done).
  - unfold read_signed. rewrite (read_int_pending _ v b rest) by (done || lia).
    cbn [obind]. unfold swrap. by rewrite wrap_wrap by lia.
  - unfold read_float. by rewrite (read_int_pending _ v b rest) by (done || lia).
  - rewrite <- app_assoc in Hp. rewrite (read_string_pending s b rest) by done.
    cbn [obind]. rewrite length_app, str_bytes_length. cbn [length]. do 3 f_equal. lia.
Qed.

Lemma read_fields_pending fs b rest :
  readable b -> pending b = fields_bytes fs ++ rest -> forallb field_ok fs = true ->
  read_fields fs b
  = Ok (norm_field <$> fs, set_rpos (_rpos b + Z.of_nat (length (fields_bytes fs))) b).
Proof.
  revert b. induction fs as [|f fs IH]; intros b Hb Hp Hok; cbn [read_fields].
  - destruct b. cbn. by rewrite Z.add_0_r.
  - cbn [forallb] in Hok. apply andb_true_iff in Hok as [Hf Hok].
    unfold fields_bytes in *. cbn [fmap list_fmap concat] in *. rewrite <- app_assoc in Hp.
    rewrite (read_field_pending f b _ Hb Hp Hf). cbn [obind].
    rewrite IH; [|apply readable_skip; [done|lia]|by apply (pending_skip _ _ (field_bytes f))|done].
    cbn [obind]. rewrite length_app. unfold set_rpos. cbn. do 3 f_equal; lia.
Qed.

(** ** Packed GUIDs *)
Fixpoint guid_mask (bs : list Z) : Z :=
  match bs with
  | [] => 0
  | b :: bs' => 2 * guid_mask bs' + Z.b2z (negb (b =? 0))
  end.
Definition nonzero (bs : list Z) : list Z := List.filter (fun b => negb (b =? 0)) bs.

Lemma testbit_guid_mask bs j b :
  bs !! j = Some b -> Z.testbit (guid_mask bs) (Z.of_nat j) = negb (b =? 0).
Proof.
  revert j. induction bs as [|c bs IH]; intros [|j] Hj; try done; cbn [guid_mask].
  - injection Hj as ->. apply Z.testbit_0_r.
  - rewrite Nat2Z.inj_succ, Z.testbit_succ_r by lia. by apply IH.
Qed.

Lemma guid_mask_shift i bs b :
  0 <= i ->
  Z.shiftl (guid_mask (b :: bs)) i
  = Z.lor (if b =? 0 then 0 else Z.shiftl 1 i) (Z.shiftl (guid_mask bs) (i + 1)).
Proof.
  intros Hi. cbn [guid_mask].
  replace (2 * guid_mask bs + Z.b2z (negb (b =? 0)))
    with (Z.lor (Z.b2z (negb (b =? 0))) (Z.shiftl (guid_mask bs) 1)).
  - rewrite Z.shiftl_lor, Z.shiftl_shiftl, (Z.add_comm 1 i) by lia.
    f_equal. destruct (b =? 0); cbn [negb Z.b2z]; [apply Z.shiftl_0_l|done].
  - apply Z.bits_inj'. intros n Hn. rewrite Z.lor_spec.
    destruct (Z.eq_dec n 0) as [->|Hn0].
    + rewrite Z.testbit_0_r, Z.shiftl_spec_low, orb_false_r by lia. apply Z.b2z_bit0.
    + replace n with (Z.succ (n - 1)) by lia.
      rewrite Z.testbit_succ_r, Z.shiftl_spec by lia.
      rewrite <- (Z.add_0_l (Z.b2z _)), <- (Z.mul_0_r 2) at 1.
      rewrite Z.testbit_succ_r, Z.bits_0 by lia. cbn. f_equal. lia.
Qed.

Lemma le_combine_zero bs :
  Forall is_byte bs -> le_combine bs = 0 -> guid_mask bs = 0 /\ nonzero bs = [].
Proof.
  induction 1 as [|b bs Hb Hbs IH]; cbn [le_combine guid_mask nonzero List.filter]; [done|].
  intros H. pose proof (le_combine_bound bs Hbs). unfold is_byte in Hb.
  assert (b = 0) as -> by lia. assert (le_combine bs = 0) as Hz by lia.
  destruct (IH Hz) as [-> Hn]. split; [done|]. apply Hn.
Qed.

Lemma byte_step b r :
  is_byte b -> Z.land (b + 256 * r) 255 = b /\ Z.shiftr (b + 256 * r) 8 = r.
Proof.
  unfold is_byte. intros Hb. split.
  - change 255 with (Z.ones 8). rewrite Z.land_ones by lia.
    rewrite (Z.mul_comm 256). change (2 ^ 8) with 256. rewrite Z.mod_add, Z.mod_small; lia.
  - rewrite Z.shiftr_div_pow2 by lia. change (2 ^ 8) with 256.
    rewrite (Z.mul_comm 256), Z.div_add, Z.div_small; lia.
Qed.

Lemma packGUID_loop_spec bs fuel i mask acc :
  Forall is_byte bs -> (length bs <= fuel)%nat -> 0 <= i -> i + Z.of_nat (length bs) <= 8 ->
  packGUID_loop fuel i (le_combine bs) mask acc
  = (Z.lor mask (Z.shiftl (guid_mask bs) i), acc ++ nonzero bs).
Proof.
  intros Hbs. revert fuel i mask acc.
  induction Hbs as [|b bs Hb Hbs IH]; intros [|fuel] i mask acc Hf Hi H8;
    cbn [length] in *; try lia; cbn [packGUID_loop le_combine].
  - cbn. by rewrite Z.shiftl_0_l, Z.lor_0_r, app_nil_r.
  - cbn. by rewrite Z.shiftl_0_l, Z.lor_0_r, app_nil_r.
  - destruct (Z.eqb_spec (b + 256 * le_combine bs) 0) as [E|E].
    + destruct (le_combine_zero (b :: bs)) as [-> ->]; [by constructor|done|].
      by rewrite Z.shiftl_0_l, Z.lor_0_r, app_nil_r.
    + destruct (byte_step b (le_combine bs) Hb) as [Hl Hs].
      unfold has_flag. rewrite Hl, Hs, guid_mask_shift by lia.
      unfold is_byte in Hb. cbn [nonzero List.filter].
      destruct (Z.eqb_spec b 0); cbn [negb]; rewrite IH by lia; f_equal.
      rewrite !wrap_small; rewrite ?Z.shiftl_1_l; try lia.
      * by rewrite Z.lor_assoc.
      * split; [lia|]. apply Z.pow_lt_mono_r; lia.
      * rewrite wrap_small by lia. by rewrite <- app_assoc.
Qed.

Lemma has_flag_bit m i : 0 <= i -> has_flag m (Z.shiftl 1 i) = Z.testbit m i.
Proof.
  intros Hi. unfold has_flag. rewrite Z.shiftl_1_l.
  destruct (Z.testbit m i) eqn:E.
  - apply negb_true_iff, Z.eqb_neq. intros H.
    assert (Z.testbit (Z.land m (2 ^ i)) i = true) as Ht
      by (rewrite Z.land_spec, E, Z.pow2_bits_true by lia; done).
    by rewrite H, Z.bits_0 in Ht.
  - apply negb_false_iff, Z.eqb_eq, Z.bits_inj'. intros n Hn.
    rewrite Z.land_spec, Z.bits_0. destruct (Z.eq_dec n i) as [->|Hne]; [by rewrite E|].
    by rewrite Z.pow2_bits_false, andb_false_r by lia.
Qed.

Lemma readPackGUID_loop_spec bs i mark guid b rest :
  readable b -> pending b = nonzero bs ++ rest -> Forall is_byte bs -> 0 <= i ->
  (forall j c, bs !! j = Some c -> Z.testbit mark (i + Z.of_nat j) = negb (c =? 0)) ->
  readPackGUID_loop (seqZ i (Z.of_nat (length bs))) mark guid b
  = Ok (Z.lor guid (Z.shiftl (le_combine bs) (8 * i)),
        set_rpos (_rpos b + Z.of_nat (length (nonzero bs))) b).
Proof.
  intros Hb Hp Hbs. revert i guid b Hb Hp.
  induction Hbs as [|c bs Hc Hbs IH]; intros i guid b Hb Hp Hi Hmark.
  - destruct b. cbn. by rewrite Z.shiftl_0_l, Z.lor_0_r, Z.add_0_r.
  - cbn [length]. rewrite Nat2Z.inj_succ, seqZ_cons by lia.
    replace (Z.pred (Z.succ (Z.of_nat (length bs)))) with (Z.of_nat (length bs)) by lia.
    cbn [readPackGUID_loop]. rewrite has_flag_bit by done.
    pose proof (Hmark 0%nat c eq_refl) as H0. rewrite Z.add_0_r in H0. rewrite H0.
    assert (forall j d, bs !! j = Some d -> Z.testbit mark (Z.succ i + Z.of_nat j) = negb (d =? 0))
      as Hmark' by (intros j d Hj; rewrite <- (Hmark (S j) d Hj); f_equal; lia).
    assert (Z.shiftl (le_combine bs) (8 * Z.succ i) = Z.shiftl (256 * le_combine bs) (8 * i)) as Hsh.
    { rewrite (Z.mul_comm 256). change 256 with (2 ^ 8).
      rewrite <- Z.shiftl_mul_pow2, Z.shiftl_shiftl by lia. f_equal. lia. }
    cbn [nonzero List.filter le_combine] in *.
    destruct (Z.eqb_spec c 0) as [->|Hc0]; cbn [negb] in *.
    + rewrite IH by (done || lia). by rewrite Hsh.
    + change (c :: List.filter (fun b => negb (b =? 0)) bs) with ([c] ++ nonzero bs) in *.
      rewrite <- app_assoc in Hp.
      pose proof (pending_size b [c] _ Hb Hp ltac:(done)) as Hs.
      change (Z.of_nat (length [c])) with 1 in Hs.
      destruct Hb as [Hr Hsz]. rewrite wrap_small by lia.
      rewrite (proj2 (Z.ltb_ge _ _) Hs).
      rewrite (read_pending 1 b [c] _ (conj Hr Hsz) Hp) by (done || lia). cbn [obind le_combine].
      rewrite Z.mul_0_r, Z.add_0_r, IH;
        [|apply readable_skip; [done|lia]|by apply (pending_skip _ _ [c])|lia|done].
      rewrite Hsh, <- Z.lor_assoc, (Z.mul_comm i 8), <- Z.shiftl_lor.
      rewrite length_app. unfold set_rpos. cbn [length _rpos _wpos _storage].
      do 3 f_equal; [|lia]. rewrite Z.add_nocarry_lor; [done|].
      apply Z.bits_inj'. intros n Hn. rewrite Z.land_spec, Z.bits_0.
      destruct (Z.lt_ge_cases n 8).
      * rewrite (Z.mul_comm 256). change 256 with (2 ^ 8).
        rewrite Z.mul_pow2_bits_low, andb_false_r by lia. done.
      * unfold is_byte in Hc. rewrite (Z.bits_above_log2 c n); [done|lia|].
        apply Z.log2_lt_pow2; [lia|]. eapply Z.lt_le_trans with (2 ^ 8); [lia|].
        apply Z.pow_le_mono_r; lia.
Qed.

Lemma guid_bytes guid :
  0 <= guid < 2 ^ 64 -> le_combine (le_split 8 guid) = guid.
Proof. intros. rewrite read_back. by apply wrap_small. Qed.

Lemma packGUID_eq guid :
  0 <= guid < 2 ^ 64 ->
  packGUID guid = guid_mask (le_split 8 guid) :: nonzero (le_split 8 guid).
Proof.
  intros Hg. unfold packGUID. rewrite <- (guid_bytes guid Hg) at 1.
  rewrite packGUID_loop_spec by (rewrite ?length_le_split; auto using le_split_byte || lia).
  by rewrite Z.lor_0_l, Z.shiftl_0_r.
Qed.

Lemma nonzero_length bs : (length (nonzero bs) <= length bs)%nat.
Proof. unfold nonzero. induction bs as [|b bs IH]; simpl; [lia|]. destruct (negb _); simpl; lia. Qed.

Lemma guid_mask_bound bs : 0 <= guid_mask bs < 2 ^ Z.of_nat (length bs).
Proof.
  induction bs as [|b bs IH]; cbn [guid_mask length]; [lia|].
  rewrite Nat2Z.inj_succ, Z.pow_succ_r by lia. destruct (b =? 0); cbn; lia.
Qed.

(** A 64-bit GUID written with [appendPackGUID] at the end of a buffer
    takes at most nine bytes, and [readPackGUID] at that place returns the
    same GUID and moves exactly over those bytes, whatever follows. *)
Theorem packed_guid_roundtrip guid b rest :
  0 <= guid < 2 ^ 64 -> _wpos b = bb_size b -> bb_size b < max_size ->
  exists b', appendPackGUID guid b = Ok b'
    /\ _storage b' = _storage b ++ packGUID guid
    /\ (length (packGUID guid) <= 9)%nat
    /\ forall b2, 0 <= _rpos b2 -> bb_size b2 < 2 ^ 63 -> pending b2 = packGUID guid ++ rest ->
       readPackGUID b2
       = Ok (guid, set_rpos (_rpos b2 + Z.of_nat (length (packGUID guid))) b2).
Proof.
  intros Hg Hw Hm. rewrite (packGUID_eq guid Hg).
  pose proof (nonzero_length (le_split 8 guid)) as Hnz. rewrite length_le_split in Hnz.
  unfold appendPackGUID. rewrite (packGUID_eq guid Hg).
  rewrite append_end by (done || (unfold max_size in *; cbn [length]; lia)).
  eexists. split; [done|]. split; [done|]. split; [cbn [length]; lia|].
  intros b2 Hr Hsz Hp. unfold readPackGUID.
  set (bs := le_split 8 guid) in *.
  assert (readable b2) as Hb2 by done.
  change (pending b2 = [guid_mask bs] ++ (nonzero bs ++ rest)) in Hp.
  pose proof (pending_size b2 _ _ Hb2 Hp ltac:(done)) as Hs.
  change (Z.of_nat (length [guid_mask bs])) with 1 in Hs.
  rewrite wrap_small, (proj2 (Z.ltb_ge _ _) Hs) by lia.
  rewrite (read_pending 1 b2 _ _ Hb2 Hp) by (done || lia). cbn [obind le_combine].
  rewrite Z.mul_0_r, Z.add_0_r.
  change [0; 1; 2; 3; 4; 5; 6; 7] with (seqZ 0 (Z.of_nat (length bs))).
  rewrite (readPackGUID_loop_spec bs 0 _ _ _ rest);
    [|apply readable_skip; [done|lia]|by apply (pending_skip _ _ [guid_mask bs])
     |apply le_split_byte|lia|intros j c Hj; by apply testbit_guid_mask].
  rewrite Z.lor_0_l, Z.mul_0_r, Z.shiftl_0_r. unfold bs. rewrite guid_bytes by done.
  unfold set_rpos. cbn [length _rpos _wpos _storage]. do 3 f_equal. lia.
Qed.

Definition sample_packet : list PField :=
  [U8 2; Str "World"; U8 1; U32 0; I32 (-1); U16 513; U64 (2 ^ 63); F32 1065353216].

Lemma packed_guid_roundtrip_witness :
  appendPackGUID 4294967299 ByteBuffer_new = Ok (mkBB 0 3 [17; 3; 1])
  /\ exists b', appendPackGUID 4294967299 ByteBuffer_new = Ok b'
    /\ _storage b' = _storage ByteBuffer_new ++ packGUID 4294967299
    /\ (length (packGUID 4294967299) <= 9)%nat
    /\ forall b2, 0 <= _rpos b2 -> bb_size b2 < 2 ^ 63 -> pending b2 = packGUID 4294967299 ++ [9] ->
       readPackGUID b2
       = Ok (4294967299, set_rpos (_rpos b2 + Z.of_nat (length (packGUID 4294967299))) b2).
Proof.
  split; [vm_compute; reflexivity|].
  apply (packed_guid_roundtrip 4294967299 ByteBuffer_new [9]);
    [split; [discriminate|reflexivity]|reflexivity|reflexivity].
Defined.

(** ** Packets *)

(** Building a packet never fails while its bytes stay within the
    buffer's limit, and reading the finished packet field by field with the
    types it was written with gives back every value, reduced to its width,
    and leaves nothing unread. *)
Theorem packet_roundtrip fs :
  Z.of_nat (length (fields_bytes fs)) <= max_size -> forallb field_ok fs = true ->
  exists b, append_fields fs ByteBuffer_new = Ok b
    /\ _storage b = fields_bytes fs /\ _wpos b = bb_size b
    /\ exists b', read_fields fs b = Ok (norm_field <$> fs, b') /\ pending b' = [].
Proof.
  intros Hm Hok. eexists. rewrite append_fields_end by (done || (cbn; lia)).
  split; [done|]. split; [done|]. split; [done|].
  eexists. rewrite (read_fields_pending fs _ []); [|split; [done|]| |done].
  - split; [done|]. unfold pending. cbn. apply drop_ge. lia.
  - unfold bb_size, max_size in *. cbn. lia.
  - unfold pending. cbn. by rewrite app_nil_r.
Qed.

Lemma packet_roundtrip_witness :
  exists b, append_fields sample_packet ByteBuffer_new = Ok b
    /\ _storage b = fields_bytes sample_packet /\ _wpos b = bb_size b
    /\ exists b', read_fields sample_packet b = Ok (norm_field <$> sample_packet, b')
                  /\ pending b' = [].
Proof. apply (packet_roundtrip sample_packet); vm_compute; [discriminate|reflexivity]. Defined.

(** A read is checked: while position plus width does not pass the 64-bit
    size type, reading inside the storage returns the little-endian value
    there, and reading beyond it throws the position exception, with the
    width and the buffer's size, and touches nothing. *)
Theorem read_at_checked n pos b :
  0 <= pos -> pos + Z.of_nat n < 2 ^ 64 ->
  read_at n pos b
  = if pos + Z.of_nat n <=? bb_size b
    then Ok (le_combine (take n (drop (Z.to_nat pos) (_storage b))))
    else Throw (ByteBufferPositionException false pos (Z.of_nat n) (bb_size b)).
Proof.
  intros Hp Hlt. unfold read_at. rewrite wrap_small by lia.
  destruct (Z.leb_spec (pos + Z.of_nat n) (bb_size b)) as [H|H].
  - by rewrite (proj2 (Z.ltb_ge _ _) H).
  - by rewrite (proj2 (Z.ltb_lt _ _) H).
Qed.

Lemma read_at_checked_witness :
  read_at 4 2 (mkBB 0 6 [1; 2; 3; 4; 5; 6]) = Ok 100992003
  /\ read_at 4 3 (mkBB 0 6 [1; 2; 3; 4; 5; 6])
     = Throw (ByteBufferPositionException false 3 4 6).
Proof.
  split.
  - rewrite (read_at_checked 4 2) by (vm_compute; congruence). reflexivity.
  - rewrite (read_at_checked 4 3) by (vm_compute; congruence). reflexivity.
Defined.

(** The check compares a sum that wraps: a position close to [2^64] passes it. *)
Lemma read_at_wraps :
  read_at 4 (2 ^ 64 - 2) (mkBB 0 2 [1; 2]) = UB.
Proof. reflexivity. Qed.

(** The texts print the two sizes of a position exception in each other's place. *)
Lemma position_exception_text :
  PositionException_what false 3 4 6
  = "Attempted to get value with size: 6 in ByteBuffer (pos: 3 size: 4)"%string.
Proof. vm_compute. reflexivity. Qed.

(** ** Placeholders *)
Lemma write_at_replace pre old src post :
  length old = length src ->
  write_at (Z.of_nat (length pre)) src (pre ++ old ++ post) = Ok (pre ++ src ++ post).
Proof.
  intros Hl. unfold write_at. rewrite Nat2Z.id.
  destruct (Z.ltb_spec (Z.of_nat (length (pre ++ old ++ post)))
              (Z.of_nat (length pre) + Z.of_nat (length src))) as [H|_].
  { rewrite !length_app in H. lia. }
  rewrite take_app_length, (app_assoc pre old post).
  by rewrite drop_app_length' by (rewrite length_app; lia).
Qed.

Lemma fields_bytes_app fs gs : fields_bytes (fs ++ gs) = fields_bytes fs ++ fields_bytes gs.
Proof. unfold fields_bytes. by rewrite fmap_app, concat_app. Qed.

Lemma fields_bytes_u32 pre v post :
  fields_bytes (pre ++ U32 v :: post) = fields_bytes pre ++ le_split 4 v ++ fields_bytes post.
Proof.
  change (pre ++ U32 v :: post) with (pre ++ [U32 v] ++ post). by rewrite !fields_bytes_app.
Qed.

(** [data.put<uint32>(pos, v)] at the position remembered before a
    placeholder was written gives exactly the packet that carries [v] in the
    placeholder's field: the count of a list can be filled in afterwards. *)
Theorem put_placeholder pre old v post :
  Z.of_nat (length (fields_bytes (pre ++ U32 old :: post))) <= max_size ->
  exists b, append_fields (pre ++ U32 old :: post) ByteBuffer_new = Ok b
    /\ put_int 4 (Z.of_nat (length (fields_bytes pre))) v b
       = append_fields (pre ++ U32 v :: post) ByteBuffer_new.
Proof.
  intros Hm.
  rewrite fields_bytes_u32, !length_app, length_le_split in Hm. unfold max_size in Hm.
  eexists. rewrite !append_fields_end, !fields_bytes_u32;
    try (done || (unfold max_size; rewrite fields_bytes_u32, !length_app, length_le_split;
                  change (bb_size ByteBuffer_new) with 0; lia)).
  split; [done|]. unfold put_int, put, bb_size.
  cbn [_storage ByteBuffer_new app _rpos _wpos length].
  rewrite !length_app, !length_le_split, wrap_small by lia.
  rewrite (proj2 (Z.ltb_ge _ _)) by lia.
  rewrite write_at_replace by (by rewrite !length_le_split). done.
Qed.

Lemma put_placeholder_witness :
  exists b, append_fields ([U8 1] ++ U32 0 :: [U8 9]) ByteBuffer_new = Ok b
    /\ put_int 4 (Z.of_nat (length (fields_bytes [U8 1]))) 258 b
       = append_fields ([U8 1] ++ U32 258 :: [U8 9]) ByteBuffer_new.
Proof. apply (put_placeholder [U8 1] 0 258 [U8 9]). vm_compute. discriminate. Defined.

(** ** Packed dates *)

Lemma lor_shift_add a b n : 0 <= n -> 0 <= b < 2 ^ n -> Z.lor (Z.shiftl a n) b = a * 2 ^ n + b.
Proof.
  intros Hn Hb. rewrite <- Z.add_nocarry_lor, Z.shiftl_mul_pow2 by
    (done || (apply Z.bits_inj'; intros k Hk; rewrite Z.land_spec, Z.bits_0;
      destruct (Z.lt_ge_cases k n);
      [by rewrite Z.shiftl_spec_low
      |destruct (Z.eq_dec b 0) as [->|];
       [by rewrite Z.bits_0, andb_false_r
       |rewrite (Z.bits_above_log2 b k), andb_false_r; [done|lia|];
        apply Z.log2_lt_pow2; [lia|]; eapply Z.lt_le_trans with (2 ^ n); [lia|];
        apply Z.pow_le_mono_r; lia]])).
  done.
Qed.

Lemma PackTime_sum lt :
  0 <= tm_min lt < 64 -> 0 <= tm_hour lt < 32 -> 1 <= tm_mday lt <= 64 ->
  0 <= tm_mon lt < 16 -> 0 <= tm_wday lt < 8 ->
  PackTime lt
  = (tm_year lt - 100) * 16777216 + (tm_mon lt * 1048576 + ((tm_mday lt - 1) * 16384
    + (tm_wday lt * 2048 + (tm_hour lt * 64 + tm_min lt)))).
Proof.
  intros. unfold PackTime. rewrite <- !Z.lor_assoc.
  rewrite (lor_shift_add (tm_hour lt) _ 6) by lia. change (2 ^ 6) with 64.
  rewrite (lor_shift_add (tm_wday lt) _ 11) by lia. change (2 ^ 11) with 2048.
  rewrite (lor_shift_add (tm_mday lt - 1) _ 14) by lia. change (2 ^ 14) with 16384.
  rewrite (lor_shift_add (tm_mon lt) _ 20) by lia. change (2 ^ 20) with 1048576.
  rewrite (lor_shift_add (tm_year lt - 100) _ 24) by lia. done.
Qed.

(** The packed date loses only the day of the week: unpacking gives back
    minute, hour, day, month and year of every date the fields can hold. *)
Theorem packed_time_roundtrip lt :
  0 <= tm_min lt < 64 -> 0 <= tm_hour lt < 32 -> 1 <= tm_mday lt <= 64 ->
  0 <= tm_mon lt < 16 -> 100 <= tm_year lt < 132 -> 0 <= tm_wday lt < 8 ->
  UnpackTime (PackTime lt)
  = mkTm (tm_min lt) (tm_hour lt) (tm_mday lt) (tm_mon lt) (tm_year lt) 0.
Proof.
  intros Hmin Hh Hd Hmon Hy Hw. destruct lt as [mi h d mo y wd]. cbn in *.
  unfold UnpackTime. rewrite PackTime_sum by (cbn; lia). cbn [tm_min tm_hour tm_mday tm_mon tm_year tm_wday].
  change 63 with (Z.ones 6). change 31 with (Z.ones 5). change 15 with (Z.ones 4).
  rewrite !Z.land_ones, !Z.shiftr_div_pow2 by lia.
  change (2 ^ 4) with 16. change (2 ^ 5) with 32. change (2 ^ 6) with 64. change (2 ^ 14) with 16384.
  change (2 ^ 20) with 1048576. change (2 ^ 24) with 16777216.
  f_equal; Z.div_mod_to_equations; lia.
Qed.

Lemma packed_time_roundtrip_witness :
  UnpackTime (PackTime (mkTm 59 23 31 11 110 5)) = mkTm 59 23 31 11 110 0.
Proof. apply (packed_time_roundtrip (mkTm 59 23 31 11 110 5)); cbn; lia. Defined.

(** ** Reading from a received packet

    [safely m P]: [m] is not undefined, and when it does not throw, [P] holds of
    its result.  A packet as the network layer hands it over has its read
    position inside. *)
Definition safely {A} (m : outcome A) (P : A -> Prop) : Prop :=
  match m with Ok a => P a | Throw _ => True | UB => False end.

Lemma safely_bind {A B} (m : outcome A) (k : A -> outcome B) P :
  safely m (fun a => safely (k a) P) -> safely (obind m k) P.
Proof. by destruct m. Qed.
Lemma safely_mono {A} (m : outcome A) (P Q : A -> Prop) :
  safely m P -> (forall a, P a -> Q a) -> safely m Q.
Proof. destruct m; cbn; auto. Qed.

Definition received (b : ByteBuffer) : Prop := 0 <= _rpos b <= bb_size b /\ bb_size b < 2 ^ 63.

Lemma read_received n b :
  received b -> 0 <= Z.of_nat n < 2 ^ 63 -> safely (read n b) (fun r => received r.2).
Proof.
  intros [Hr Hs] Hn. unfold read, read_at. rewrite wrap_small by lia.
  destruct (Z.ltb_spec (bb_size b) (_rpos b + Z.of_nat n)) as [|Hle]; cbn; [done|].
  split; [|done]. unfold bb_size in *. cbn. lia.
Qed.

Lemma read_string_received b : received b -> safely (read_string b) (fun r => received r.2).
Proof.
  intros Hb. unfold read_string. apply safely_bind. generalize (length (_storage b)), (@nil Z).
  intros n acc. revert acc b Hb. induction n as [|n IH]; intros acc b Hb; cbn [read_string_loop]; [done|].
  case_if; [|done]. apply safely_bind. eapply safely_mono; [apply (read_received 1 b Hb); lia|].
  intros [c b'] Hb'. cbn in Hb'. cbn beta iota. case_if; [done|]. by apply IH.
Qed.
