(* ===== verification/Utf8.v ===== *)
(** * Text: UTF-8, wide strings and player names

    The decoder and encoder of [dep/utf8cpp] ([core.h], [checked.h]), the
    conversions of [shared/Utilities/Util.cpp] built on them, the case tables
    of [Util.h] and [normalizePlayerName].  Bytes and UTF-16 units are [Z]s; an
    exception of the library is [None]; a write past a buffer is [UB]. *)
From Stdlib Require Import Ascii String ZArith Lia.
From stdpp Require Import base list strings.
From S2P Require Import Prelude ByteBuffer.

Open Scope Z_scope.

(** ** Code points and sequences ([core.h]) *)
Definition LEAD_SURROGATE_MIN : Z := 0xd800.
Definition LEAD_SURROGATE_MAX : Z := 0xdbff.
Definition TRAIL_SURROGATE_MIN : Z := 0xdc00.
Definition TRAIL_SURROGATE_MAX : Z := 0xdfff.
Definition LEAD_OFFSET : Z := u16 (LEAD_SURROGATE_MIN - Z.shiftr 0x10000 10).
Definition SURROGATE_OFFSET : Z :=
  u32 (0x10000 - Z.shiftl LEAD_SURROGATE_MIN 10 - TRAIL_SURROGATE_MIN).
Definition CODE_POINT_MAX : Z := 0x10ffff.

Definition is_trail (oc : Z) : bool := Z.shiftr (u8 oc) 6 =? 0x2.
Definition is_lead_surrogate (cp : Z) : bool :=
  (LEAD_SURROGATE_MIN <=? cp) && (cp <=? LEAD_SURROGATE_MAX).
Definition is_trail_surrogate (cp : Z) : bool :=
  (TRAIL_SURROGATE_MIN <=? cp) && (cp <=? TRAIL_SURROGATE_MAX).
Definition is_surrogate (cp : Z) : bool :=
  (LEAD_SURROGATE_MIN <=? cp) && (cp <=? TRAIL_SURROGATE_MAX).
Definition is_code_point_valid (cp : Z) : bool :=
  (cp <=? CODE_POINT_MAX) && negb (is_surrogate cp).

Definition sequence_length (lead_it : Z) : Z :=
  let lead := u8 lead_it in
  if lead <? 0x80 then 1
  else if Z.shiftr lead 5 =? 0x6 then 2
  else if Z.shiftr lead 4 =? 0xe then 3
  else if Z.shiftr lead 3 =? 0x1e then 4
  else 0.

Definition is_overlong_sequence (cp length : Z) : bool :=
  if cp <? 0x80 then negb (length =? 1)
  else if cp <? 0x800 then negb (length =? 2)
  else if cp <? 0x10000 then negb (length =? 3)
  else false.

Inductive utf_error :=
| NOT_ENOUGH_ROOM | INVALID_LEAD | INCOMPLETE_SEQUENCE | OVERLONG_SEQUENCE | INVALID_CODE_POINT.

Inductive utf_result (A : Type) :=
| UTF8_OK (a : A)
| UTF8_ERR (e : utf_error).
Arguments UTF8_OK {A} a.
Arguments UTF8_ERR {A} e.

Definition ubind {A B} (m : utf_result A) (k : A -> utf_result B) : utf_result B :=
  match m with UTF8_OK a => k a | UTF8_ERR e => UTF8_ERR e end.
Notation "'let!' x ':=' m 'in' k" := (ubind m (fun x => k))
  (at level 10, x name, m at level 200, k at level 200) : shade_scope.
Notation "'let!' ' p ':=' m 'in' k" := (ubind m (fun x => match x with p => k end))
  (at level 10, p pattern, m at level 200, k at level 200) : shade_scope.

(** An iterator is the list of the bytes from it to the end.  Moving on gives
    the byte it then points to and the bytes behind it. *)
Definition increase_safely (it : list Z) : utf_result (Z * list Z) :=
  match it with
  | [] => UTF8_ERR NOT_ENOUGH_ROOM
  | oc :: rest => if is_trail oc then UTF8_OK (oc, rest) else UTF8_ERR INCOMPLETE_SEQUENCE
  end.

(** The [get_sequence_x] functions, called on a lead byte and what follows it. *)
Definition get_sequence_1 (lead : Z) (it : list Z) : utf_result (Z * list Z) :=
  UTF8_OK (u8 lead, it).

Definition get_sequence_2 (lead : Z) (it : list Z) : utf_result (Z * list Z) :=
  let cp := u8 lead in
  let! '(b, it) := increase_safely it in
  UTF8_OK (u32 (Z.land (Z.shiftl cp 6) 0x7ff + Z.land b 0x3f), it).

Definition get_sequence_3 (lead : Z) (it : list Z) : utf_result (Z * list Z) :=
  let cp := u8 lead in
  let! '(b, it) := increase_safely it in
  let cp := u32 (Z.land (Z.shiftl cp 12) 0xffff + Z.land (Z.shiftl (u8 b) 6) 0xfff) in
  let! '(b, it) := increase_safely it in
  UTF8_OK (u32 (cp + Z.land b 0x3f), it).

Definition get_sequence_4 (lead : Z) (it : list Z) : utf_result (Z * list Z) :=
  let cp := u8 lead in
  let! '(b, it) := increase_safely it in
  let cp := u32 (Z.land (Z.shiftl cp 18) 0x1fffff + Z.land (Z.shiftl (u8 b) 12) 0x3ffff) in
  let! '(b, it) := increase_safely it in
  let cp := u32 (cp + Z.land (Z.shiftl (u8 b) 6) 0xfff) in
  let! '(b, it) := increase_safely it in
  UTF8_OK (u32 (cp + Z.land b 0x3f), it).

(** [validate_next] on an iterator that is not at the end. *)
Definition validate_next (lead : Z) (it : list Z) : utf_result (Z * list Z) :=
  let length := sequence_length lead in
  let! '(cp, it) :=
    (if length =? 0 then UTF8_ERR INVALID_LEAD
     else if length =? 1 then get_sequence_1 lead it
     else if length =? 2 then get_sequence_2 lead it
     else if length =? 3 then get_sequence_3 lead it
     else get_sequence_4 lead it) in
  (if is_code_point_valid cp then
     if negb (is_overlong_sequence cp length) then UTF8_OK (cp, it)
     else UTF8_ERR OVERLONG_SEQUENCE
   else UTF8_ERR INVALID_CODE_POINT).

(** ** The library calls ([checked.h]) *)

(** [next]: every error is thrown as an exception. *)
Definition utf8_next (lead : Z) (it : list Z) : option (Z * list Z) :=
  match validate_next lead it with UTF8_OK r => Some r | UTF8_ERR _ => None end.

(** [append(cp, result)]: the bytes written. *)
Definition utf8_append (cp : Z) : option (list Z) :=
  if negb (is_code_point_valid cp) then None
  else if cp <? 0x80 then Some [u8 cp]
  else if cp <? 0x800 then
    Some [u8 (Z.lor (Z.shiftr cp 6) 0xc0); u8 (Z.lor (Z.land cp 0x3f) 0x80)]
  else if cp <? 0x10000 then
    Some [u8 (Z.lor (Z.shiftr cp 12) 0xe0); u8 (Z.lor (Z.land (Z.shiftr cp 6) 0x3f) 0x80);
          u8 (Z.lor (Z.land cp 0x3f) 0x80)]
  else
    Some [u8 (Z.lor (Z.shiftr cp 18) 0xf0); u8 (Z.lor (Z.land (Z.shiftr cp 12) 0x3f) 0x80);
          u8 (Z.lor (Z.land (Z.shiftr cp 6) 0x3f) 0x80); u8 (Z.lor (Z.land cp 0x3f) 0x80)].

(** The loops of [distance] and [utf8to16] read at least one byte per round, so
    as many rounds as there are bytes are enough. *)
Fixpoint distance_loop (fuel : nat) (it : list Z) (dist : Z) : option Z :=
  match fuel, it with
  | S fuel', lead :: rest =>
      match utf8_next lead rest with
      | Some (_, it') => distance_loop fuel' it' (dist + 1)
      | None => None
      end
  | _, _ => Some dist
  end.
Definition utf8_distance (s : list Z) : option Z := distance_loop (length s) s 0.

Definition utf16_units (cp : Z) : list Z :=
  if 0xffff <? cp
  then [u16 (Z.shiftr cp 10 + LEAD_OFFSET); u16 (Z.land cp 0x3ff + TRAIL_SURROGATE_MIN)]
  else [u16 cp].

Fixpoint utf8to16_loop (fuel : nat) (it : list Z) (result : list Z) : option (list Z) :=
  match fuel, it with
  | S fuel', lead :: rest =>
      match utf8_next lead rest with
      | Some (cp, it') => utf8to16_loop fuel' it' (result ++ utf16_units cp)
      | None => None
      end
  | _, _ => Some result
  end.
Definition utf8to16 (s : list Z) : option (list Z) := utf8to16_loop (length s) s [].

Fixpoint utf16to8 (it : list Z) : option (list Z) :=
  match it with
  | [] => Some []
  | w :: rest =>
      let cp := u16 w in
      if is_lead_surrogate cp then
        match rest with
        | [] => None
        | t :: rest =>
            let trail_surrogate := u16 t in
            if is_trail_surrogate trail_surrogate then
              let cp := u32 (u32 (Z.shiftl cp 10) + trail_surrogate + SURROGATE_OFFSET) in
              bs ← utf8_append cp; l ← utf16to8 rest; Some (bs ++ l)
            else None
        end
      else if is_trail_surrogate cp then None
      else bs ← utf8_append cp; l ← utf16to8 rest; Some (bs ++ l)
  end.

(** ** The conversions of [Util.cpp] *)

(** Writing [units] from the start of a buffer of [room] units. *)
Definition write_units (units : list Z) (room : Z) : outcome (list Z) :=
  if room <? Z.of_nat (length units) then UB else Ok units.

(** [Utf8toWStr(std::string const&, std::wstring&)] with an empty [wstr]: it is
    resized to the number of code points, and the units are written into it.
    A malformed string leaves it empty. *)
Definition Utf8toWStr (utf8str : string) : outcome (bool * list Z) :=
  let s := str_bytes utf8str in
  match utf8_distance s with
  | None => Ok (false, [])
  | Some len =>
      if len =? 0 then Ok (true, [])
      else
        match utf8to16 s with
        | None => Ok (false, [])
        | Some units =>
            let* units := write_units units len in
            Ok (true, units ++ replicate (Z.to_nat len - length units) 0)
        end
  end.

(** [Utf8toWStr(char const*, size_t, wchar_t*, size_t&)] on a buffer of
    [wsize + 1] characters; [None] for [false]. *)
Definition Utf8toWStr_buf (utf8str : string) (wsize : Z) : outcome (option (list Z)) :=
  let s := str_bytes utf8str in
  match utf8_distance s with
  | None => Ok None
  | Some len =>
      if wsize <? len then Ok None
      else
        match utf8to16 s with
        | None => Ok None
        | Some units =>
            let* units := write_units units (wsize + 1) in
            Ok (Some (take (Z.to_nat len) units))
        end
  end.

(** [WStrToUtf8]: [None] for [false]. *)
Definition WStrToUtf8 (wstr : list Z) : option string := bytes_str <$> utf16to8 wstr.

(** [utf8truncate]; a thrown exception leaves the empty string. *)
Definition utf8truncate (utf8str : string) (len : Z) : outcome string :=
  let s := str_bytes utf8str in
  match utf8_distance s with
  | None => Ok EmptyString
  | Some wlen =>
      if wlen <=? len then Ok utf8str
      else
        match utf8to16 s with
        | None => Ok EmptyString
        | Some units =>
            let* units := write_units units wlen in
            match utf16to8 (take (Z.to_nat len) units) with
            | None => Ok EmptyString
            | Some bs => Ok (bytes_str bs)
            end
        end
  end.

(** ** Case ([Util.h]) *)
Definition wcharToUpper (wchar : Z) : Z :=
  if (0x61 <=? wchar) && (wchar <=? 0x7a) then u16 wchar - 0x20
  else if wchar =? 0xDF then 0x1E9E
  else if (0xE0 <=? wchar) && (wchar <=? 0xF6) then u16 wchar - 0x20
  else if (0xF8 <=? wchar) && (wchar <=? 0xFE) then u16 wchar - 0x20
  else if (0x101 <=? wchar) && (wchar <=? 0x12F) && (wchar mod 2 =? 1) then u16 wchar - 1
  else if (0x430 <=? wchar) && (wchar <=? 0x44F) then u16 wchar - 0x20
  else if wchar =? 0x451 then 0x401
  else wchar.

Definition wcharToLower (wchar : Z) : Z :=
  if (0x41 <=? wchar) && (wchar <=? 0x5a) then u16 wchar + 0x20
  else if (0xC0 <=? wchar) && (wchar <=? 0xD6) then u16 wchar + 0x20
  else if (0xD8 <=? wchar) && (wchar <=? 0xDE) then u16 wchar + 0x20
  else if (0x100 <=? wchar) && (wchar <=? 0x12E) && (wchar mod 2 =? 0) then u16 wchar + 1
  else if wchar =? 0x1E9E then 0xDF
  else if wchar =? 0x401 then 0x451
  else if (0x410 <=? wchar) && (wchar <=? 0x42F) then u16 wchar + 0x20
  else wchar.

Definition wstrToLower (str : list Z) : list Z := wcharToLower <$> str.

(** ** Player names ([shade/Objects/ObjectMgr.cpp]) *)
Definition MAX_INTERNAL_PLAYER_NAME : Z := 15.

(** [normalizePlayerName]: [None] for [false]. *)
Definition normalizePlayerName (name : string) : outcome (option string) :=
  if String.eqb name EmptyString then Ok None
  else
    let* r := Utf8toWStr_buf name MAX_INTERNAL_PLAYER_NAME in
    match r with
    | None => Ok None
    | Some [] => Ok (WStrToUtf8 [])
    | Some (w :: ws) => Ok (WStrToUtf8 (wcharToUpper w :: (wcharToLower <$> ws)))
    end.

(** * Lemmas *)

(** ** Masks and shifts as arithmetic *)
Lemma land_mask a n : 0 <= n -> Z.land a (2 ^ n - 1) = a mod 2 ^ n.
Proof. 
  intros Hn. replace (2 ^ n - 1) with (Z.ones n) by (rewrite Z.ones_equiv; lia).
  by apply Z.land_ones.
 Qed.

Lemma lor_lead a k n : 0 <= n -> 0 <= a < 2 ^ n -> Z.lor a (k * 2 ^ n) = k * 2 ^ n + a.
Proof.
  intros Hn Ha. rewrite Z.lor_comm, <- Z.shiftl_mul_pow2 by done.
  by rewrite lor_shift_add, Z.shiftl_mul_pow2.
Qed.

Lemma land_3f a : Z.land a 0x3f = a mod 64.
Proof. exact (land_mask a 6 ltac:(lia)). Qed.
Lemma land_3ff a : Z.land a 0x3ff = a mod 1024.
Proof. exact (land_mask a 10 ltac:(lia)). Qed.
Lemma land_7ff a : Z.land a 0x7ff = a mod 2048.
Proof. exact (land_mask a 11 ltac:(lia)). Qed.
Lemma land_fff a : Z.land a 0xfff = a mod 4096.
Proof. exact (land_mask a 12 ltac:(lia)). Qed.
Lemma land_ffff a : Z.land a 0xffff = a mod 65536.
Proof. exact (land_mask a 16 ltac:(lia)). Qed.
Lemma land_3ffff a : Z.land a 0x3ffff = a mod 262144.
Proof. exact (land_mask a 18 ltac:(lia)). Qed.
Lemma land_1fffff a : Z.land a 0x1fffff = a mod 2097152.
Proof. exact (land_mask a 21 ltac:(lia)). Qed.
Lemma lor_80 a : 0 <= a < 64 -> Z.lor a 0x80 = 128 + a.
Proof. exact (lor_lead a 2 6 ltac:(lia)). Qed.
Lemma lor_c0 a : 0 <= a < 64 -> Z.lor a 0xc0 = 192 + a.
Proof. exact (lor_lead a 3 6 ltac:(lia)). Qed.
Lemma lor_e0 a : 0 <= a < 32 -> Z.lor a 0xe0 = 224 + a.
Proof. exact (lor_lead a 7 5 ltac:(lia)). Qed.
Lemma lor_f0 a : 0 <= a < 16 -> Z.lor a 0xf0 = 240 + a.
Proof. exact (lor_lead a 15 4 ltac:(lia)). Qed.

Create Rewrite HintDb utf8.
#[export] Hint Rewrite land_3f land_3ff land_7ff land_fff land_ffff land_3ffff land_1fffff : utf8.

Lemma shiftr_div a n : 0 <= n -> Z.shiftr a n = a / 2 ^ n.
Proof. apply Z.shiftr_div_pow2. Qed.

Definition valid_cp (cp : Z) : Prop := 0 <= cp /\ is_code_point_valid cp = true.

Lemma valid_cp_range cp : valid_cp cp <-> 0 <= cp < 0xd800 \/ 0xe000 <= cp <= 0x10ffff.
Proof.
  unfold valid_cp, is_code_point_valid, is_surrogate, CODE_POINT_MAX, LEAD_SURROGATE_MIN,
    TRAIL_SURROGATE_MAX.
  rewrite andb_true_iff, negb_true_iff, andb_false_iff, !Z.leb_le, !Z.leb_gt. lia.
Qed.

(** The encoding of a code point, by the number of its bytes, in arithmetic. *)
Definition encode (cp : Z) : list Z :=
  if cp <? 0x80 then [cp]
  else if cp <? 0x800 then [192 + cp / 64; 128 + cp mod 64]
  else if cp <? 0x10000 then [224 + cp / 4096; 128 + cp / 64 mod 64; 128 + cp mod 64]
  else [240 + cp / 262144; 128 + cp / 4096 mod 64; 128 + cp / 64 mod 64; 128 + cp mod 64].

Lemma utf8_append_encode cp : valid_cp cp -> utf8_append cp = Some (encode cp).
Proof.
  intros Hcp. pose proof (proj1 (valid_cp_range _) Hcp) as Hr. destruct Hcp as [H0 Hv].
  unfold utf8_append, encode. rewrite Hv. cbn [negb].
  autorewrite with utf8. rewrite !shiftr_div by lia.
  change (2 ^ 6) with 64. change (2 ^ 12) with 4096. change (2 ^ 18) with 262144.
  repeat case_if; bool_props; rewrite ?lor_80, ?lor_c0, ?lor_e0, ?lor_f0
    by (Z.div_mod_to_equations; lia); rewrite ?(wrap_small 8) by (Z.div_mod_to_equations; lia); done.
Qed.

(** Solves the arithmetic of sequences. *)
Ltac divmod := Z.div_mod_to_equations; lia.

Lemma increase_trail b rest :
  128 <= b < 192 -> increase_safely (b :: rest) = UTF8_OK (b, rest).
Proof.
  intros Hb. unfold increase_safely, is_trail. rewrite (wrap_small 8) by lia.
  rewrite shiftr_div by lia. change (2 ^ 6) with 64.
  replace (b / 64 =? 2) with true; [done|]. symmetry. apply Z.eqb_eq. divmod.
Qed.

Lemma sequence_length_eq b :
  0 <= b < 256 ->
  sequence_length b = (if b <? 128 then 1 else if b <? 192 then 0 else if b <? 224 then 2
                       else if b <? 240 then 3 else if b <? 248 then 4 else 0).
Proof.
  intros Hb. unfold sequence_length. rewrite (wrap_small 8) by lia. rewrite !shiftr_div by lia.
  change (2 ^ 5) with 32. change (2 ^ 4) with 16. change (2 ^ 3) with 8.
  repeat case_if; bool_props; try done; divmod.
Qed.

Lemma get_sequence_2_eq a b rest :
  192 <= a < 224 -> 128 <= b < 192 ->
  get_sequence_2 a (b :: rest) = UTF8_OK ((a - 192) * 64 + (b - 128), rest).
Proof.
  intros Ha Hb. unfold get_sequence_2. rewrite increase_trail by done. cbn [ubind].
  rewrite land_7ff, land_3f, Z.shiftl_mul_pow2, (wrap_small 8) by lia.
  change (2 ^ 6) with 64. rewrite wrap_small by divmod. do 2 f_equal. divmod.
Qed.

Lemma get_sequence_3_eq a b c rest :
  224 <= a < 240 -> 128 <= b < 192 -> 128 <= c < 192 ->
  get_sequence_3 a (b :: c :: rest)
  = UTF8_OK ((a - 224) * 4096 + (b - 128) * 64 + (c - 128), rest).
Proof.
  intros Ha Hb Hc. unfold get_sequence_3. rewrite increase_trail by done. cbn [ubind].
  rewrite increase_trail by done. cbn [ubind].
  rewrite land_ffff, land_fff, land_3f, !Z.shiftl_mul_pow2, (wrap_small 8 a), (wrap_small 8 b) by lia.
  change (2 ^ 6) with 64. change (2 ^ 12) with 4096. rewrite !wrap_add_l, wrap_small by divmod.
  do 2 f_equal. divmod.
Qed.

Lemma get_sequence_4_eq a b c d rest :
  240 <= a < 248 -> 128 <= b < 192 -> 128 <= c < 192 -> 128 <= d < 192 ->
  get_sequence_4 a (b :: c :: d :: rest)
  = UTF8_OK ((a - 240) * 262144 + (b - 128) * 4096 + (c - 128) * 64 + (d - 128), rest).
Proof.
  intros Ha Hb Hc Hd. unfold get_sequence_4. do 3 (rewrite increase_trail by done; cbn [ubind]).
  rewrite land_1fffff, land_3ffff, land_fff, land_3f, !Z.shiftl_mul_pow2, (wrap_small 8 a), (wrap_small 8 b),
    (wrap_small 8 c) by lia.
  change (2 ^ 6) with 64. change (2 ^ 12) with 4096. change (2 ^ 18) with 262144.
  assert (a * 262144 mod 2097152 = (a - 240) * 262144) as -> by divmod.
  assert (b * 4096 mod 262144 = (b - 128) * 4096) as -> by divmod.
  assert (c * 64 mod 4096 = (c - 128) * 64) as -> by divmod.
  assert (d mod 64 = d - 128) as -> by divmod.
  rewrite wrap_add_l, <- Z.add_assoc, wrap_add_l, wrap_small by lia. do 2 f_equal. lia.
Qed.

Lemma valid_cp_true cp : valid_cp cp -> is_code_point_valid cp = true.
Proof. by intros [_ H]. Qed.

(** The decoder reads back what the encoder wrote. *)
Lemma next_encode cp rest :
  valid_cp cp ->
  exists lead tail, encode cp = lead :: tail /\ validate_next lead (tail ++ rest) = UTF8_OK (cp, rest).
Proof.
  intros Hcp. pose proof (proj1 (valid_cp_range _) Hcp) as Hr. apply valid_cp_true in Hcp.
  unfold encode, validate_next. repeat case_if; bool_props; do 2 eexists; (split; [reflexivity|]);
    cbn [app]; rewrite sequence_length_eq by divmod; unfold get_sequence_1.
  1: rewrite (proj2 (Z.ltb_lt cp 128)) by done; cbn [Z.eqb Pos.eqb ubind];
     rewrite (wrap_small 8), Hcp by lia; unfold is_overlong_sequence;
     by rewrite (proj2 (Z.ltb_lt cp 128)).
  all: repeat match goal with
       | |- context [?a <? ?b] =>
           first [ rewrite (proj2 (Z.ltb_lt a b)) by divmod | rewrite (proj2 (Z.ltb_ge a b)) by divmod ]
       end; cbn [Z.eqb Pos.eqb].
  - rewrite get_sequence_2_eq by divmod. cbn [ubind].
    replace ((192 + cp / 64 - 192) * 64 + (128 + cp mod 64 - 128)) with cp by divmod.
    rewrite Hcp. unfold is_overlong_sequence.
    rewrite (proj2 (Z.ltb_ge cp 128)), (proj2 (Z.ltb_lt cp 2048)) by lia. done.
  - rewrite get_sequence_3_eq by divmod. cbn [ubind].
    replace (_ + _ + _) with cp by divmod.
    rewrite Hcp. unfold is_overlong_sequence.
    rewrite (proj2 (Z.ltb_ge cp 128)), (proj2 (Z.ltb_ge cp 2048)), (proj2 (Z.ltb_lt cp 65536)) by lia.
    done.
  - rewrite get_sequence_4_eq by divmod. cbn [ubind].
    replace (_ + _ + _ + _) with cp by divmod.
    rewrite Hcp. unfold is_overlong_sequence.
    rewrite (proj2 (Z.ltb_ge cp 128)), (proj2 (Z.ltb_ge cp 2048)), (proj2 (Z.ltb_ge cp 65536)) by lia.
    done.
Qed.

Lemma increase_inv it b rest :
  Forall is_byte it -> increase_safely it = UTF8_OK (b, rest) ->
  it = b :: rest /\ 128 <= b < 192 /\ Forall is_byte rest.
Proof.
  intros Hit H. destruct it as [|oc it']; [done|]. unfold increase_safely in H.
  apply Forall_cons in Hit as [Hoc Hit']. unfold is_byte in Hoc.
  destruct (is_trail oc) eqn:Ht; [|done]. injection H as -> ->. split; [done|]. split; [|done].
  unfold is_trail in Ht. rewrite (wrap_small 8), shiftr_div in Ht by lia.
  change (2 ^ 6) with 64 in Ht. apply Z.eqb_eq in Ht. divmod.
Qed.

Ltac lead_test H :=
  match type of H with
  | context [if ?a <? ?b then _ else _] =>
      destruct (a <? b) eqn:?; bool_props; cbn [Z.eqb Pos.eqb ubind] in H; try discriminate H
  end.

(** The decoder accepts nothing but encodings: no overlong form, no surrogate. *)
Lemma next_inv lead it cp rest :
  is_byte lead -> Forall is_byte it -> validate_next lead it = UTF8_OK (cp, rest) ->
  valid_cp cp /\ lead :: it = encode cp ++ rest /\ Forall is_byte rest.
Proof.
  intros Hl Hit H. unfold is_byte in Hl. unfold validate_next in H.
  rewrite sequence_length_eq in H by done. unfold get_sequence_1 in H.
  assert (forall n cp' rest', 0 <= cp' ->
    (if is_code_point_valid cp' then
       if negb (is_overlong_sequence cp' n) then UTF8_OK (cp', rest') else UTF8_ERR OVERLONG_SEQUENCE
     else UTF8_ERR INVALID_CODE_POINT) = UTF8_OK (cp, rest) ->
    valid_cp cp /\ cp = cp' /\ rest = rest' /\ is_overlong_sequence cp n = false) as Hend.
  { intros n cp' rest' H0 Hc. destruct (is_code_point_valid cp') eqn:Hv; [|done].
    destruct (is_overlong_sequence cp' n) eqn:Ho; [done|]. by injection Hc as -> ->. }
  repeat lead_test H.
  - rewrite (wrap_small 8) in H by lia. apply Hend in H as (Hv & -> & -> & _); [|lia].
    split; [done|]. split; [|done]. unfold encode. by rewrite (proj2 (Z.ltb_lt lead 128)).
  - assert (exists b r, it = b :: r /\ 128 <= b < 192 /\ Forall is_byte r) as (b & r & -> & Hb & Hr).
    { unfold get_sequence_2 in H. destruct (increase_safely it) as [[b r]|] eqn:E; [|done].
      apply increase_inv in E; eauto. }
    rewrite get_sequence_2_eq in H by lia. cbn [ubind] in H.
    apply Hend in H as (Hv & Hcp & -> & Ho); [|lia]. split; [done|]. split; [|done].
    unfold is_overlong_sequence in Ho. unfold encode. repeat case_if; bool_props; try done.
    all: cbn [app]; repeat f_equal; divmod.
  - assert (exists b c r, it = b :: c :: r /\ 128 <= b < 192 /\ 128 <= c < 192 /\ Forall is_byte r)
      as (b & c & r & -> & Hb & Hc & Hr).
    { unfold get_sequence_3 in H. destruct (increase_safely it) as [[b r]|] eqn:E; [|done].
      apply increase_inv in E as (-> & Hb & Hr); [|done]. cbn [ubind] in H.
      destruct (increase_safely r) as [[c r']|] eqn:E; [|done].
      apply increase_inv in E as (-> & Hc & Hr'); [|done]. eauto 10. }
    rewrite get_sequence_3_eq in H by lia. cbn [ubind] in H.
    apply Hend in H as (Hv & Hcp & -> & Ho); [|lia]. split; [done|]. split; [|done].
    unfold is_overlong_sequence in Ho. unfold encode. repeat case_if; bool_props; try done.
    all: cbn [app]; repeat f_equal; divmod.
  - assert (exists b c d r, it = b :: c :: d :: r /\ 128 <= b < 192 /\ 128 <= c < 192
              /\ 128 <= d < 192 /\ Forall is_byte r) as (b & c & d & r & -> & Hb & Hc & Hd & Hr).
    { unfold get_sequence_4 in H. destruct (increase_safely it) as [[b r]|] eqn:E; [|done].
      apply increase_inv in E as (-> & Hb & Hr); [|done]. cbn [ubind] in H.
      destruct (increase_safely r) as [[c r']|] eqn:E; [|done].
      apply increase_inv in E as (-> & Hc & Hr'); [|done]. cbn [ubind] in H.
      destruct (increase_safely r') as [[d r'']|] eqn:E; [|done].
      apply increase_inv in E as (-> & Hd & Hr''); [|done]. eauto 12. }
    rewrite get_sequence_4_eq in H by lia. cbn [ubind] in H.
    apply Hend in H as (Hv & Hcp & -> & Ho); [|lia]. split; [done|]. split; [|done].
    unfold is_overlong_sequence in Ho. unfold encode. repeat case_if; bool_props; try done.
    all: cbn [app]; repeat f_equal; divmod.
Qed.

(** ** Whole strings *)
Definition encodes (cps : list Z) : list Z := concat (encode <$> cps).
Definition units_of (cps : list Z) : list Z := concat (utf16_units <$> cps).

Lemma encode_length cp : (0 < length (encode cp))%nat.
Proof. unfold encode. repeat case_if; cbn; lia. Qed.

(** One round of either loop, on an encoded string. *)
Lemma utf8_next_encode cp rest :
  valid_cp cp -> exists lead it, encode cp ++ rest = lead :: it /\ utf8_next lead it = Some (cp, rest).
Proof.
  intros Hcp. destruct (next_encode cp rest Hcp) as (lead & tail & E & H).
  exists lead, (tail ++ rest). rewrite E. split; [done|]. unfold utf8_next. by rewrite H.
Qed.

Lemma distance_loop_encodes cps fuel dist :
  Forall valid_cp cps -> (length (encodes cps) <= fuel)%nat ->
  distance_loop fuel (encodes cps) dist = Some (dist + Z.of_nat (length cps)).
Proof.
  intros Hv. revert fuel dist. induction Hv as [|cp cps Hcp _ IH]; intros fuel dist Hf.
  - destruct fuel; cbn; f_equal; lia.
  - change (encodes (cp :: cps)) with (encode cp ++ encodes cps) in *.
    pose proof (encode_length cp). rewrite length_app in Hf. destruct fuel as [|fuel]; [lia|].
    destruct (utf8_next_encode cp (encodes cps) Hcp) as (lead & it & E & Hn). rewrite E. cbn.
    rewrite Hn, IH by lia. f_equal. cbn. lia.
Qed.

Lemma utf8to16_loop_encodes cps fuel acc :
  Forall valid_cp cps -> (length (encodes cps) <= fuel)%nat ->
  utf8to16_loop fuel (encodes cps) acc = Some (acc ++ units_of cps).
Proof.
  intros Hv. revert fuel acc. induction Hv as [|cp cps Hcp _ IH]; intros fuel acc Hf.
  - destruct fuel; cbn; by rewrite app_nil_r.
  - change (encodes (cp :: cps)) with (encode cp ++ encodes cps) in *.
    change (units_of (cp :: cps)) with (utf16_units cp ++ units_of cps).
    pose proof (encode_length cp). rewrite length_app in Hf. destruct fuel as [|fuel]; [lia|].
    destruct (utf8_next_encode cp (encodes cps) Hcp) as (lead & it & E & Hn). rewrite E. cbn.
    rewrite Hn, IH by lia. by rewrite app_assoc.
Qed.

Lemma distance_encodes cps :
  Forall valid_cp cps -> utf8_distance (encodes cps) = Some (Z.of_nat (length cps)).
Proof. intros Hv. unfold utf8_distance. by rewrite distance_loop_encodes. Qed.
Lemma utf8to16_encodes cps : Forall valid_cp cps -> utf8to16 (encodes cps) = Some (units_of cps).
Proof. intros Hv. unfold utf8to16. by rewrite utf8to16_loop_encodes. Qed.

(** A string the decoder accepts is the encoding of a list of code points. *)
Lemma distance_loop_inv fuel it dist n :
  Forall is_byte it -> (length it <= fuel)%nat -> distance_loop fuel it dist = Some n ->
  exists cps, Forall valid_cp cps /\ it = encodes cps.
Proof.
  revert it dist. induction fuel as [|fuel IH]; intros it dist Hb Hf H.
  - destruct it; [|cbn in Hf; lia]. by exists [].
  - destruct it as [|lead it]; [by exists []|]. cbn in H. unfold utf8_next in H.
    destruct (validate_next lead it) as [[cp it']|] eqn:E; [|done].
    apply Forall_cons in Hb as [Hl Hit]. apply next_inv in E as (Hcp & Eq & Hb'); [|done..].
    apply IH in H as (cps & Hv & ->); [|done|].
    + exists (cp :: cps). split; [by constructor|]. exact Eq.
    + pose proof (f_equal length Eq) as Hlen. rewrite length_app in Hlen.
      pose proof (encode_length cp). cbn in *. lia.
Qed.

Lemma distance_inv s n :
  Forall is_byte s -> utf8_distance s = Some n ->
  exists cps, Forall valid_cp cps /\ s = encodes cps /\ n = Z.of_nat (length cps).
Proof.
  intros Hb H. destruct (distance_loop_inv _ _ _ _ Hb (le_n _) H) as (cps & Hv & ->).
  exists cps. rewrite distance_encodes in H by done. by simplify_eq.
Qed.

(** ** UTF-16 *)
Lemma utf16to8_units cp rest :
  valid_cp cp -> utf16to8 (utf16_units cp ++ rest) = (fun l => encode cp ++ l) <$> utf16to8 rest.
Proof.
  intros Hcp. pose proof (proj1 (valid_cp_range _) Hcp) as Hr.
  unfold utf16_units. change LEAD_OFFSET with 0xd7c0. change SURROGATE_OFFSET with 0xfca02400.
  rewrite land_3ff, shiftr_div by lia. change (2 ^ 10) with 1024.
  change TRAIL_SURROGATE_MIN with 0xdc00.
  destruct (0xffff <? cp) eqn:Hbig; bool_props; cbn [app utf16to8].
  - rewrite !(wrap_wrap 16), (wrap_small 16 (cp / 1024 + _)), (wrap_small 16 (cp mod 1024 + _)) by divmod.
    unfold is_lead_surrogate, is_trail_surrogate.
    change LEAD_SURROGATE_MIN with 0xd800. change LEAD_SURROGATE_MAX with 0xdbff.
    change TRAIL_SURROGATE_MIN with 0xdc00. change TRAIL_SURROGATE_MAX with 0xdfff.
    rewrite (proj2 (Z.leb_le 0xd800 _)), (proj2 (Z.leb_le _ 0xdbff)),
      (proj2 (Z.leb_le 0xdc00 _)), (proj2 (Z.leb_le _ 0xdfff)) by divmod. cbn [andb].
    rewrite Z.shiftl_mul_pow2 by lia. change (2 ^ 10) with 1024.
    change SURROGATE_OFFSET with 0xfca02400.
    assert (u32 (u32 ((cp / 1024 + 55232) * 1024) + (cp mod 1024 + 56320) + 4238353408) = cp) as ->.
    { rewrite (wrap_small 32 (_ * _)) by divmod. unfold wrap. change (2 ^ 32) with 4294967296. divmod. }
    rewrite utf8_append_encode by done. cbn. by destruct (utf16to8 rest).
  - rewrite wrap_wrap, (wrap_small 16) by lia. unfold is_lead_surrogate, is_trail_surrogate.
    change LEAD_SURROGATE_MIN with 0xd800. change LEAD_SURROGATE_MAX with 0xdbff.
    change TRAIL_SURROGATE_MIN with 0xdc00. change TRAIL_SURROGATE_MAX with 0xdfff.
    assert ((0xd800 <=? cp) && (cp <=? 0xdbff) = false) as -> by (apply andb_false_iff; rewrite !Z.leb_gt; lia).
    assert ((0xdc00 <=? cp) && (cp <=? 0xdfff) = false) as -> by (apply andb_false_iff; rewrite !Z.leb_gt; lia).
    rewrite utf8_append_encode by done. cbn. by destruct (utf16to8 rest).
Qed.

Lemma utf16to8_units_of cps : Forall valid_cp cps -> utf16to8 (units_of cps) = Some (encodes cps).
Proof.
  intros Hv. induction Hv as [|cp cps Hcp _ IH]; [done|].
  change (units_of (cp :: cps)) with (utf16_units cp ++ units_of cps).
  by rewrite utf16to8_units, IH.
Qed.

Lemma loops_agree fuel it acc d :
  utf8to16_loop fuel it acc = None <-> distance_loop fuel it d = None.
Proof.
  revert it acc d. induction fuel as [|fuel IH]; intros [|lead it] acc d; try by cbn.
  cbn. destruct (utf8_next lead it) as [[cp it']|]; [apply IH|done].
Qed.

Lemma utf8to16_inv s u :
  Forall is_byte s -> utf8to16 s = Some u ->
  exists cps, Forall valid_cp cps /\ s = encodes cps /\ u = units_of cps.
Proof.
  intros Hb H. destruct (utf8_distance s) as [n|] eqn:Hd.
  - destruct (distance_inv s n Hb Hd) as (cps & Hv & -> & _). exists cps.
    rewrite utf8to16_encodes in H by done. by simplify_eq.
  - apply (loops_agree _ _ []) in Hd. unfold utf8to16 in H. congruence.
Qed.

Lemma str_bytes_byte s : Forall is_byte (str_bytes s).
Proof.
  unfold str_bytes. apply Forall_forall. intros b [c [-> _]]%list_elem_of_fmap.
  pose proof (N_ascii_bounded c). unfold is_byte. lia.
Qed.

Lemma str_bytes_str l : Forall is_byte l -> str_bytes (bytes_str l) = l.
Proof.
  intros Hl. unfold str_bytes, bytes_str. rewrite list_ascii_of_string_of_list_ascii.
  induction Hl as [|b l Hb _ IH]; [done|]. cbn. f_equal; [|exact IH].
  unfold is_byte in Hb. rewrite N_ascii_embedding by lia. lia.
Qed.

Lemma encode_bytes cp : valid_cp cp -> Forall is_byte (encode cp).
Proof.
  intros Hcp%valid_cp_range. unfold encode, is_byte.
  repeat case_if; bool_props; repeat constructor; divmod.
Qed.
Lemma encodes_bytes cps : Forall valid_cp cps -> Forall is_byte (encodes cps).
Proof.
  intros Hv. induction Hv as [|cp cps Hcp _ IH]; [constructor|].
  apply Forall_app. split; [by apply encode_bytes|exact IH].
Qed.

(** ** The basic plane: one unit per code point *)
Definition bmp (cp : Z) : Prop := valid_cp cp /\ cp <= 0xffff.

Lemma bmp_range cp : bmp cp <-> 0 <= cp < 0xd800 \/ 0xe000 <= cp <= 0xffff.
Proof. unfold bmp. rewrite valid_cp_range. lia. Qed.

Lemma units_of_bmp cps : Forall bmp cps -> units_of cps = cps.
Proof.
  intros Hv. induction Hv as [|cp cps Hcp _ IH]; [done|].
  change (units_of (cp :: cps)) with (utf16_units cp ++ units_of cps). rewrite IH.
  unfold utf16_units. apply bmp_range in Hcp. rewrite (proj2 (Z.ltb_ge _ _)) by lia.
  by rewrite (wrap_small 16) by lia.
Qed.

Lemma bmp_valid cps : Forall bmp cps -> Forall valid_cp cps.
Proof. intros Hv. eapply Forall_impl; [exact Hv|]. by intros cp [? _]. Qed.

Lemma wcharToLower_bmp cp : bmp cp -> bmp (wcharToLower cp).
Proof.
  rewrite !bmp_range. intros Hcp. unfold wcharToLower. rewrite (wrap_small 16) by lia.
  repeat case_if; bool_props; lia.
Qed.
Lemma wcharToUpper_bmp cp : bmp cp -> bmp (wcharToUpper cp).
Proof.
  rewrite !bmp_range. intros Hcp. unfold wcharToUpper. rewrite (wrap_small 16) by lia.
  repeat case_if; bool_props; lia.
Qed.

Ltac case_ranges :=
  repeat match goal with
  | |- context [if ?b then _ else _] =>
      destruct b eqn:?; rewrite ?andb_true_iff, ?andb_false_iff, ?Z.leb_le, ?Z.leb_gt, ?Z.eqb_eq,
        ?Z.eqb_neq in *
  end.

Lemma wcharToLower_idem cp : bmp cp -> wcharToLower (wcharToLower cp) = wcharToLower cp.
Proof.
  rewrite bmp_range. intros Hcp. unfold wcharToLower. rewrite !(wrap_small 16 cp) by lia.
  case_ranges; rewrite ?(wrap_small 16) by lia; divmod.
Qed.
Lemma wcharToUpper_idem cp : bmp cp -> wcharToUpper (wcharToUpper cp) = wcharToUpper cp.
Proof.
  rewrite bmp_range. intros Hcp. unfold wcharToUpper. rewrite !(wrap_small 16 cp) by lia.
  case_ranges; rewrite ?(wrap_small 16) by lia; divmod.
Qed.

Definition normal_case (cps : list Z) : list Z :=
  match cps with [] => [] | c :: cs => wcharToUpper c :: (wcharToLower <$> cs) end.

Lemma normal_case_bmp cps : Forall bmp cps -> Forall bmp (normal_case cps).
Proof.
  intros [|c cs Hc Hcs]; cbn; constructor; [by apply wcharToUpper_bmp|].
  apply Forall_fmap. eapply Forall_impl; [exact Hcs|]. apply wcharToLower_bmp.
Qed.

Lemma normal_case_idem cps : Forall bmp cps -> normal_case (normal_case cps) = normal_case cps.
Proof.
  intros [|c cs Hc Hcs]; cbn; [done|]. f_equal; [by apply wcharToUpper_idem|].
  induction Hcs as [|d ds Hd _ IH]; [done|]. cbn. by rewrite wcharToLower_idem, IH.
Qed.

Lemma Utf8toWStr_buf_bmp name cps wsize :
  Forall bmp cps -> str_bytes name = encodes cps ->
  Utf8toWStr_buf name wsize
  = Ok (if wsize <? Z.of_nat (length cps) then None else Some cps).
Proof.
  intros Hb Hn. unfold Utf8toWStr_buf. rewrite Hn, distance_encodes by by apply bmp_valid.
  case_if; [done|]. bool_props. rewrite utf8to16_encodes, units_of_bmp by (try apply bmp_valid; done).
  unfold write_units. rewrite (proj2 (Z.ltb_ge _ _)) by lia. cbn.
  by rewrite Nat2Z.id, firstn_all.
Qed.

Lemma WStrToUtf8_bmp cps : Forall bmp cps -> WStrToUtf8 cps = Some (bytes_str (encodes cps)).
Proof.
  intros Hb. unfold WStrToUtf8. rewrite <- (units_of_bmp cps) at 1 by done.
  by rewrite utf16to8_units_of by by apply bmp_valid.
Qed.

Lemma encodes_empty cps : encodes cps = [] -> cps = [].
Proof.
  destruct cps as [|c cs]; [done|]. intros H. apply (f_equal length) in H.
  change (encodes (c :: cs)) with (encode c ++ encodes cs) in H. rewrite length_app in H.
  pose proof (encode_length c). cbn in H. lia.
Qed.

(** * Theorems *)

(** Decoding is exact and loses nothing: the decoder accepts precisely the
    byte strings that are encodings of lists of Unicode scalar values (so no
    overlong form, surrogate or truncated sequence), counts one per value, and
    encoding the UTF-16 units it produces gives the very bytes back. *)
Theorem utf8_decoder_exact s :
  Forall is_byte s ->
  (is_Some (utf8to16 s) <-> exists cps, Forall valid_cp cps /\ s = encodes cps)
  /\ forall u, utf8to16 s = Some u ->
       utf16to8 u = Some s /\ exists cps, s = encodes cps /\ utf8_distance s = Some (Z.of_nat (length cps)).
Proof.
  intros Hb. split; [split|].
  - intros [u Hu]. destruct (utf8to16_inv s u Hb Hu) as (cps & ? & ? & _). eauto.
  - intros (cps & Hv & ->). rewrite utf8to16_encodes by done. by eexists.
  - intros u Hu. destruct (utf8to16_inv s u Hb Hu) as (cps & Hv & -> & ->).
    rewrite utf16to8_units_of by done. split; [done|]. exists cps. by rewrite distance_encodes.
Qed.

Lemma utf8_decoder_exact_witness :
  utf16to8 [0xE9; 0x20AC; 0xD83D; 0xDE00] = Some [195; 169; 226; 130; 172; 240; 159; 152; 128].
Proof.
  refine (proj1 (proj2 (utf8_decoder_exact [195; 169; 226; 130; 172; 240; 159; 152; 128] _) _ _)).
  - repeat constructor; unfold is_byte; lia.
  - by vm_compute.
Defined.

(** [normalizePlayerName] on a name in the basic plane: refused when empty
    or longer than fifteen characters, otherwise the first character in upper
    case and the others in lower case; and normalizing again changes nothing. *)
Theorem normalize_name name cps :
  Forall bmp cps -> str_bytes name = encodes cps ->
  (normalizePlayerName name
   = Ok (if bool_decide (cps = []) || (MAX_INTERNAL_PLAYER_NAME <? Z.of_nat (length cps))
         then None else Some (bytes_str (encodes (normal_case cps)))))
  /\ forall name', normalizePlayerName name = Ok (Some name') ->
       normalizePlayerName name' = Ok (Some name').
Proof.
  assert (forall n cs, Forall bmp cs -> str_bytes n = encodes cs ->
    normalizePlayerName n
    = Ok (if bool_decide (cs = []) || (MAX_INTERNAL_PLAYER_NAME <? Z.of_nat (length cs))
          then None else Some (bytes_str (encodes (normal_case cs))))) as Hmain.
  { intros n cs Hb Hn. unfold normalizePlayerName. destruct (String.eqb_spec n EmptyString) as [->|Hne].
    - symmetry in Hn. apply encodes_empty in Hn as ->. done.
    - rewrite bool_decide_eq_false_2.
      + rewrite (Utf8toWStr_buf_bmp n cs) by done. cbn [obind orb]. case_if; [done|].
        rewrite <- WStrToUtf8_bmp by by apply normal_case_bmp. by destruct cs.
      + intros ->. apply Hne. rewrite <- (bytes_str_bytes n), Hn. done. }
  intros Hb Hn. split; [by apply Hmain|]. intros name' H. rewrite (Hmain name cps) in H by done.
  destruct (_ || _) eqn:Hlen in H; [done|]. injection H as <-.
  apply orb_false_iff in Hlen as [Hne%bool_decide_eq_false Hlen].
  rewrite (Hmain _ (normal_case cps)).
  - rewrite normal_case_idem by done.
    assert (length (normal_case cps) = length cps) as -> by (destruct cps; cbn; by rewrite ?length_fmap).
    rewrite Hlen, bool_decide_eq_false_2; [done|]. by destruct cps.
  - by apply normal_case_bmp.
  - apply str_bytes_str, encodes_bytes, bmp_valid, normal_case_bmp, Hb.
Qed.

Lemma normalize_name_witness :
  normalizePlayerName "aLICE" = Ok (Some "Alice"%string).
Proof.
  rewrite (proj1 (normalize_name "aLICE" [97; 76; 73; 67; 69] ltac:(repeat constructor; lia) eq_refl)).
  reflexivity.
Defined.

(** [utf8truncate] on text in the basic plane keeps exactly the first
    [len] characters. *)
Theorem truncate_keeps_prefix s cps len :
  0 <= len -> Forall bmp cps -> str_bytes s = encodes cps ->
  utf8truncate s len = Ok (bytes_str (encodes (take (Z.to_nat len) cps))).
Proof.
  intros Hlen Hb Hs. unfold utf8truncate. rewrite Hs, distance_encodes by by apply bmp_valid.
  case_if; bool_props.
  - rewrite take_ge by lia. rewrite <- Hs. by rewrite bytes_str_bytes.
  - rewrite utf8to16_encodes, units_of_bmp by (try apply bmp_valid; done).
    unfold write_units. rewrite (proj2 (Z.ltb_ge _ _)) by lia. cbn [obind].
    assert (Forall bmp (take (Z.to_nat len) cps)) as Ht by by apply Forall_take.
    rewrite <- (units_of_bmp (take _ cps)) at 1 by done.
    by rewrite utf16to8_units_of by by apply bmp_valid.
Qed.

Lemma truncate_keeps_prefix_witness : utf8truncate "hello" 2 = Ok "he"%string.
Proof.
  exact (truncate_keeps_prefix "hello" [104; 101; 108; 108; 111] 2 ltac:(lia)
           ltac:(repeat constructor; lia) eq_refl).
Defined.

(** Outside the basic plane a character takes two units, for which none of the
    conversions makes room: nine such characters in a player name write past
    the sixteen units of [normalizePlayerName]'s stack buffer, and a single one
    past the string of [Utf8toWStr]. *)
Definition emoji : string := bytes_str (encode 0x1F600).
Lemma normalize_name_overflow :
  normalizePlayerName (String.concat "" (repeat emoji 9)) = UB.
Proof. by vm_compute. Qed.
Lemma Utf8toWStr_overflow : Utf8toWStr emoji = UB.
Proof. by vm_compute. Qed.
