(* ===== verification/Util.v ===== *)
(** * Helpers of [shared/Utilities/Util.cpp]: the tokenizer, [strtok], and text as a format

    With the round trip of a space-separated list of decimal numbers, the form
    in which sets of GUIDs are kept in the database. *)
From Stdlib Require Import Ascii String ZArith Lia.
From stdpp Require Import base list strings.
From S2P Require Import Prelude ByteBuffer.

Open Scope Z_scope.

(** [Tokenizer::Tokenizer]: [posold] is the token being read.  A separator
    always ends a token, even an empty one; the end of the string only a
    token that is not empty. *)
Fixpoint tokenize (sep : ascii) (src posold : string) : list string :=
  match src with
  | EmptyString => if String.eqb posold EmptyString then [] else [posold]
  | String c src' =>
      if Ascii.eqb c sep then posold :: tokenize sep src' EmptyString
      else tokenize sep src' (posold +:+ String c EmptyString)
  end.

(** The constructor copies the string and stops at its first NUL. *)
Definition Tokenizer (src : string) (sep : ascii) : list string :=
  tokenize sep (c_str src) EmptyString.

(** [strtok] with one delimiter: the token and what is left for the next call. *)
Fixpoint strtok_skip (d : ascii) (s : string) : string :=
  match s with EmptyString => EmptyString | String c s' => if Ascii.eqb c d then strtok_skip d s' else s end.
Fixpoint strtok_take (d : ascii) (s : string) : string * string :=
  match s with
  | EmptyString => (EmptyString, EmptyString)
  | String c s' => if Ascii.eqb c d then (EmptyString, s') else let '(t, r) := strtok_take d s' in (String c t, r)
  end.
Definition strtok (d : ascii) (s : string) : option (string * string) :=
  match strtok_skip d s with EmptyString => None | s' => Some (strtok_take d s') end.

(** A list of numbers, each followed by a space ([banlist << ( *iter) << ' ']). *)
Definition print_list (l : list Z) : string :=
  foldr (fun z acc => print_u64 z +:+ String " "%char acc) EmptyString l.
(** * Theorems *)

Fixpoint string_all (P : ascii -> Prop) (s : string) : Prop :=
  match s with EmptyString => True | String c s' => P c /\ string_all P s' end.

Lemma string_all_impl (P Q : ascii -> Prop) s :
  (forall c, P c -> Q c) -> string_all P s -> string_all Q s.
Proof. intros HPQ. induction s as [|c s IH]; simpl; [done|]. intros [? ?]. auto. Qed.

Lemma string_app_cons c s t : String c s +:+ t = String c (s +:+ t).
Proof. done. Qed.
Lemma string_app_nil_l t : EmptyString +:+ t = t.
Proof. done. Qed.

Lemma string_app_nil_r s : s +:+ EmptyString = s.
Proof. induction s as [|c s IH]; [done|]. by rewrite string_app_cons, IH. Qed.

Lemma string_app_assoc s1 s2 s3 : (s1 +:+ s2) +:+ s3 = s1 +:+ (s2 +:+ s3).
Proof. induction s1 as [|c s IH]; [done|]. by rewrite !string_app_cons, IH. Qed.

Definition digit_char (c : ascii) : Prop := exists d, 0 <= d < 10 /\ c = digit d.

Lemma digit_nat d : 0 <= d < 10 -> nat_of_ascii (digit d) = (48 + Z.to_nat d)%nat.
Proof. intros. unfold digit. apply nat_ascii_embedding. lia. Qed.

Lemma digit_char_props c :
  digit_char c -> is_digit c = true /\ is_space c = false /\ c <> " "%char /\ c <> Ascii.zero
    /\ c <> "-"%char /\ c <> "+"%char.
Proof.
  intros (d & Hd & ->).
  assert (d = 0 \/ d = 1 \/ d = 2 \/ d = 3 \/ d = 4 \/ d = 5 \/ d = 6 \/ d = 7 \/ d = 8 \/ d = 9)
    as Hc by lia.
  repeat destruct Hc as [->|Hc]; try subst d; repeat split; done.
Qed.

(** ** Printing a number and reading it back *)
Lemma print_dec_fuel_digits fuel z acc :
  0 <= z -> string_all digit_char acc -> string_all digit_char (print_dec_fuel fuel z acc).
Proof.
  revert z acc. induction fuel as [|fuel IH]; intros z acc Hz Hacc; simpl; [done|].
  assert (string_all digit_char (String (digit (z mod 10)) acc)) as H'.
  { split; [|done]. exists (z mod 10). split; [|done]. apply Z.mod_pos_bound. lia. }
  case_if; [done|]. apply IH; [|done]. apply Z.div_pos; lia.
Qed.

Lemma print_dec_fuel_app fuel z acc :
  print_dec_fuel fuel z acc = print_dec_fuel fuel z EmptyString +:+ acc.
Proof.
  revert z acc. induction fuel as [|fuel IH]; intros z acc; simpl; [done|].
  case_if; [done|].
  rewrite IH, (IH (z / 10) (String _ EmptyString)), string_app_assoc. done.
Qed.

Lemma read_digits_app z0 s d :
  string_all digit_char s -> 0 <= d < 10 ->
  read_digits z0 (s +:+ String (digit d) EmptyString) = 10 * read_digits z0 s + d.
Proof.
  revert z0. induction s as [|c s IH]; intros z0; rewrite ?string_app_cons, ?string_app_nil_l;
    cbn [read_digits string_all].
  - intros _ Hd. destruct (digit_char_props (digit d)) as (Hdig & _); [by exists d|].
    rewrite Hdig, digit_nat by done. cbn. lia.
  - intros [Hc Hs] Hd. destruct (digit_char_props c Hc) as (-> & _). by apply IH.
Qed.

Lemma read_print_fuel fuel z :
  0 <= z < 10 ^ Z.of_nat fuel -> read_digits 0 (print_dec_fuel fuel z EmptyString) = z.
Proof.
  revert z. induction fuel as [|fuel IH]; intros z Hz.
  - cbn in *. lia.
  - rewrite Nat2Z.inj_succ, Z.pow_succ_r in Hz by lia. cbn [print_dec_fuel].
    pose proof (Z.mod_pos_bound z 10 ltac:(lia)). pose proof (Z.div_mod z 10 ltac:(lia)).
    destruct (Z.ltb_spec z 10).
    + pose proof (read_digits_app 0 EmptyString (z mod 10) I ltac:(lia)) as Hr.
      rewrite string_app_nil_l in Hr. rewrite Hr. cbn [read_digits]. rewrite Z.mod_small; lia.
    + rewrite print_dec_fuel_app, read_digits_app; [|apply print_dec_fuel_digits|lia].
      * rewrite IH by lia. lia.
      * lia.
      * done.
Qed.

Lemma atol_digits s : string_all digit_char s -> atol s = read_digits 0 s.
Proof.
  destruct s as [|c s]; [done|]. intros [Hc _].
  destruct (digit_char_props c Hc) as (_ & Hsp & _ & _ & Hm & Hp).
  unfold atol. cbn [skip_space]. rewrite Hsp.
  by rewrite (proj2 (Ascii.eqb_neq _ _) Hm), (proj2 (Ascii.eqb_neq _ _) Hp).
Qed.

Lemma print_u64_digits z : 0 <= z -> string_all digit_char (print_u64 z).
Proof. intros. by apply print_dec_fuel_digits. Qed.

Lemma atol_print z : 0 <= z < 2 ^ 64 -> atol (print_u64 z) = z.
Proof.
  intros Hz. rewrite atol_digits by (apply print_u64_digits; lia).
  apply read_print_fuel. change (10 ^ Z.of_nat 20) with 100000000000000000000. lia.
Qed.

(** ** Splitting a printed list *)
Lemma tokenize_token sep s rest cur :
  string_all (fun c => c <> sep) s ->
  tokenize sep (s +:+ String sep rest) cur = (cur +:+ s) :: tokenize sep rest EmptyString.
Proof.
  revert cur. induction s as [|c s IH]; intros cur; rewrite ?string_app_cons, ?string_app_nil_l;
    cbn [tokenize string_all].
  - intros _. by rewrite Ascii.eqb_refl, string_app_nil_r.
  - intros [Hc Hs]. rewrite (proj2 (Ascii.eqb_neq _ _) Hc), IH by done.
    by rewrite string_app_assoc, string_app_cons, string_app_nil_l.
Qed.

Lemma c_str_id s : string_all (fun c => c <> Ascii.zero) s -> c_str s = s.
Proof.
  induction s as [|c s IH]; cbn [c_str string_all]; [done|]. intros [Hc Hs].
  rewrite (proj2 (Ascii.eqb_neq _ _) Hc), IH; done.
Qed.

Lemma string_all_app P s1 s2 : string_all P s1 -> string_all P s2 -> string_all P (s1 +:+ s2).
Proof.
  induction s1 as [|c s1 IH]; [done|]. rewrite string_app_cons. simpl. intros [? ?] ?. auto.
Qed.

Lemma print_list_no_nul l :
  Forall (fun z => 0 <= z) l -> string_all (fun c => c <> Ascii.zero) (print_list l).
Proof.
  induction 1 as [|z l Hz _ IH]; cbn [print_list foldr]; [done|].
  apply string_all_app; [|by split].
  eapply string_all_impl, print_u64_digits, Hz. by intros c (_ & _ & _ & H0 & _)%digit_char_props.
Qed.

Lemma tokenize_print_list l :
  Forall (fun z => 0 <= z) l -> Tokenizer (print_list l) " "%char = print_u64 <$> l.
Proof.
  intros Hl. unfold Tokenizer. rewrite c_str_id by by apply print_list_no_nul.
  induction Hl as [|z l Hz _ IH]; [done|]. cbn [print_list foldr].
  rewrite tokenize_token; [cbn; f_equal; apply IH|].
  eapply string_all_impl, print_u64_digits, Hz. by intros c (_ & _ & Hs & _)%digit_char_props.
Qed.

Lemma atol_print_list l :
  Forall (fun z => 0 <= z < 2 ^ 64) l -> atol <$> Tokenizer (print_list l) " "%char = l.
Proof.
  intros Hl. rewrite tokenize_print_list by (eapply Forall_impl; [done|]; simpl; lia).
  rewrite <- list_fmap_compose. induction Hl as [|z l Hz _ IH]; cbn; [done|].
  f_equal; [by apply atol_print|apply IH].
Qed.

(** ** Text used as a format

    [printf] and its like, given a text as their format and no arguments: two
    percent signs give one, a conversion is undefined behaviour. *)
Fixpoint formatted (s : string) : outcome string :=
  match s with
  | EmptyString => Ok EmptyString
  | String "%" (String "%" s) => let* t := formatted s in Ok (String "%" t)
  | String "%" _ => UB
  | String c s => let* t := formatted s in Ok (String c t)
  end.

Definition percent_free : string -> Prop := string_all (fun c => c <> "%"%char).

Lemma formatted_plain s : percent_free s -> formatted s = Ok s.
Proof.
  induction s as [|c s IH]; [done|]. intros [Hc Hs]. cbn [formatted]. rewrite (IH Hs). cbn [obind].
  by destruct c as [[] [] [] [] [] [] [] []].
Qed.

Lemma percent_free_app a b : percent_free a -> percent_free b -> percent_free (String.append a b).
Proof. apply string_all_app. Qed.

Lemma percent_free_u64 v : 0 <= v -> percent_free (print_u64 v).
Proof.
  intros Hv. eapply string_all_impl; [|by apply print_u64_digits].
  intros c (d & Hd & ->) E. apply (f_equal nat_of_ascii) in E. rewrite digit_nat in E by done.
  change (nat_of_ascii "%"%char) with 37%nat in E. lia.
Qed.

Lemma formatted_throws s e : formatted s <> Throw e.
Proof.
  enough (forall n s, (String.length s <= n)%nat -> formatted s <> Throw e) as Hn by (by eapply Hn).
  intros n. induction n as [|n IH]; intros [|c t] Ht; cbn in Ht; try done; try lia.
  assert (formatted t <> Throw e) as Hc by (apply IH; lia).
  assert (forall d t', t = String d t' -> formatted t' <> Throw e) as Hd
    by (intros d t' ->; apply IH; cbn in Ht; lia).
  cbn [formatted]. destruct c as [[] [] [] [] [] [] [] []]; try (by destruct (formatted t)).
  destruct t as [|d t']; [done|]. specialize (Hd d t' eq_refl).
  destruct d as [[] [] [] [] [] [] [] []]; try done. by destruct (formatted t').
Qed.
