(* ===== verification/World.v ===== *)
(** * The shared state: GUIDs, accounts, players, packets sent, statements run

    What every component of the server works on: the GUID macros of
    [shade/Objects/ObjectDefines.h], the account levels of
    [shade/Accounts/AccountMgr.cpp], the online players of
    [shade/Objects/ObjectMgr.cpp] and [shade/Character/Player.h], the social
    lists they own, the global player data of [shade/Proxy/Proxy.cpp], and the
    trace of the calls that leave the process: packets and SQL statements. *)
From Stdlib Require Import Ascii String ZArith Lia.
From stdpp Require Import base gmap list strings.
From S2P Require Import Prelude ByteBuffer.

Open Scope Z_scope.

(** ** GUIDs *)
Definition HIGHGUID_ITEM : Z := 0x4000.
Definition HIGHGUID_PLAYER : Z := 0x0000.
Definition HIGHGUID_DYNAMICOBJECT : Z := 0xF100.
Definition HIGHGUID_CORPSE : Z := 0xF101.
Definition HIGHGUID_GROUP : Z := 0x1F50.

Definition MAKE_NEW_GUID (l e h : Z) : Z :=
  u64 (Z.lor (Z.lor l (Z.shiftl e 24)) (Z.shiftl h 48)).

Definition GUID_HIPART (x : Z) : Z := Z.land (Z.shiftr x 48) 0xFFFF.

Definition IsGuidHaveEnPart (guid : Z) : bool :=
  let h := GUID_HIPART guid in
  negb ((h =? HIGHGUID_ITEM) || (h =? HIGHGUID_PLAYER) || (h =? HIGHGUID_DYNAMICOBJECT)
        || (h =? HIGHGUID_CORPSE) || (h =? HIGHGUID_GROUP)).

Definition GUID_ENPART (x : Z) : Z :=
  if IsGuidHaveEnPart x then u32 (Z.land (Z.shiftr x 24) 0xFFFFFF) else 0.
Definition GUID_LOPART (x : Z) : Z :=
  if IsGuidHaveEnPart x then u32 (Z.land x 0xFFFFFF) else u32 (Z.land x 0xFFFFFFFF).

(** ** Account levels *)
Definition SEC_PLAYER : Z := 0.
Definition SEC_MODERATOR : Z := 1.
Definition SEC_GAMEMASTER : Z := 2.
Definition SEC_ADMINISTRATOR : Z := 3.
Definition SEC_CONSOLE : Z := 4.

Definition IsPlayerAccount (gmlevel : Z) : bool := gmlevel =? SEC_PLAYER.
Definition IsVIPAccount (gmlevel : Z) : bool := false.
Definition IsVIPorPlayer (gmlevel : Z) : bool := false.
Definition IsModeratorAccount (gmlevel : Z) : bool :=
  (SEC_MODERATOR <=? gmlevel) && (gmlevel <=? SEC_CONSOLE).
Definition IsGMAccount (gmlevel : Z) : bool :=
  (SEC_GAMEMASTER <=? gmlevel) && (gmlevel <=? SEC_CONSOLE).
Definition IsAdminAccount (gmlevel : Z) : bool :=
  (SEC_ADMINISTRATOR <=? gmlevel) && (gmlevel <=? SEC_CONSOLE).
Definition IsConsoleAccount (gmlevel : Z) : bool := gmlevel =? SEC_CONSOLE.

(** ** Social lists (the operations are in [Social]) *)
Definition FRIEND_STATUS_OFFLINE : Z := 0x00.
Definition FRIEND_STATUS_ONLINE : Z := 0x01.
Definition FRIEND_STATUS_AFK : Z := 0x02.
Definition FRIEND_STATUS_DND : Z := 0x04.

Definition SOCIAL_FLAG_FRIEND : Z := 0x01.
Definition SOCIAL_FLAG_IGNORED : Z := 0x02.
Definition SOCIAL_FLAG_MUTED : Z := 0x04.

Record FriendInfo := mkFriendInfo {
  fi_Status : Z; fi_Flags : Z; fi_Area : Z; fi_Level : Z; fi_Class : Z; fi_Note : string
}.
Definition FriendInfo_default : FriendInfo :=
  mkFriendInfo FRIEND_STATUS_OFFLINE 0 0 0 0 EmptyString.
Definition FriendInfo_new (flags : Z) (note : string) : FriendInfo :=
  mkFriendInfo FRIEND_STATUS_OFFLINE flags 0 0 0 note.

Record PlayerSocial := mkSocial {
  m_playerSocialMap : gmap Z FriendInfo;
  m_playerGUID : Z
}.
Definition PlayerSocial_new : PlayerSocial := mkSocial ∅ 0.

Definition HasFriend (friend_guid : Z) (s : PlayerSocial) : bool :=
  match m_playerSocialMap s !! friend_guid with
  | Some fi => has_flag (fi_Flags fi) SOCIAL_FLAG_FRIEND
  | None => false
  end.
Definition HasIgnore (ignore_guid : Z) (s : PlayerSocial) : bool :=
  match m_playerSocialMap s !! ignore_guid with
  | Some fi => has_flag (fi_Flags fi) SOCIAL_FLAG_IGNORED
  | None => false
  end.

(** ** Players *)
Definition ALLIANCE : Z := 469.
Definition HORDE : Z := 67.
Definition TEAM_ALLIANCE : Z := 0.
Definition TEAM_HORDE : Z := 1.

Definition PLAYER_FLAGS_AFK : Z := 0x2.
Definition PLAYER_FLAGS_DND : Z := 0x4.
Definition PLAYER_FLAGS_DEVELOPER : Z := 0x8000.

Definition PLAYER_EXTRA_GM_ON : Z := 0x0001.
Definition PLAYER_EXTRA_ACCEPT_WHISPERS : Z := 0x0004.
Definition PLAYER_EXTRA_GM_INVISIBLE : Z := 0x0010.
Definition PLAYER_EXTRA_GM_CHAT : Z := 0x0020.

Definition CHAT_TAG_NONE : Z := 0x00.
Definition CHAT_TAG_AFK : Z := 0x01.
Definition CHAT_TAG_DND : Z := 0x02.
Definition CHAT_TAG_GM : Z := 0x04.
Definition CHAT_TAG_DEV : Z := 0x10.

(** A player object and the fields of its session the server reads: security
    level, account, and whether the client socket is there.  Channels are
    known by their address. *)
Record Player := mkPlayer {
  p_GUID : Z;
  p_GUIDLow : Z;
  p_name : string;
  p_security : Z;
  p_accountId : Z;
  p_connected : bool;
  p_team : Z;
  p_class : Z;
  p_level : Z;
  p_zoneId : Z;
  p_flags : Z;
  p_ExtraFlags : Z;
  p_channels : list Z;
  p_GuildIdInvited : Z;
  p_GuildId : Z;
  p_GuildRankid : Z
}.

Definition set_channels (cs : list Z) (p : Player) : Player :=
  mkPlayer (p_GUID p) (p_GUIDLow p) (p_name p) (p_security p) (p_accountId p) (p_connected p)
    (p_team p) (p_class p) (p_level p) (p_zoneId p) (p_flags p) (p_ExtraFlags p)
    cs (p_GuildIdInvited p) (p_GuildId p) (p_GuildRankid p).
Definition set_p_flags (flags : Z) (p : Player) : Player :=
  mkPlayer (p_GUID p) (p_GUIDLow p) (p_name p) (p_security p) (p_accountId p) (p_connected p)
    (p_team p) (p_class p) (p_level p) (p_zoneId p) flags (p_ExtraFlags p)
    (p_channels p) (p_GuildIdInvited p) (p_GuildId p) (p_GuildRankid p).
Definition set_p_ExtraFlags (flags : Z) (p : Player) : Player :=
  mkPlayer (p_GUID p) (p_GUIDLow p) (p_name p) (p_security p) (p_accountId p) (p_connected p)
    (p_team p) (p_class p) (p_level p) (p_zoneId p) (p_flags p) flags
    (p_channels p) (p_GuildIdInvited p) (p_GuildId p) (p_GuildRankid p).
Definition set_p_guild (invited guild rank : Z) (p : Player) : Player :=
  mkPlayer (p_GUID p) (p_GUIDLow p) (p_name p) (p_security p) (p_accountId p) (p_connected p)
    (p_team p) (p_class p) (p_level p) (p_zoneId p) (p_flags p) (p_ExtraFlags p)
    (p_channels p) invited guild rank.

Definition SetGuildId (v : Z) (p : Player) : Player :=
  set_p_guild (p_GuildIdInvited p) v (p_GuildRankid p) p.
Definition SetGuildIdInvited (v : Z) (p : Player) : Player :=
  set_p_guild v (p_GuildId p) (p_GuildRankid p) p.
Definition SetRank (rankId : Z) (p : Player) : Player :=
  set_p_guild (p_GuildIdInvited p) (p_GuildId p) (u8 rankId) p.

Definition GetTeamId (p : Player) : Z :=
  if p_team p =? ALLIANCE then TEAM_ALLIANCE else TEAM_HORDE.
Definition isAFK (p : Player) : bool := has_flag (p_flags p) PLAYER_FLAGS_AFK.
Definition isDND (p : Player) : bool := has_flag (p_flags p) PLAYER_FLAGS_DND.
Definition isGMChat (p : Player) : bool := has_flag (p_ExtraFlags p) PLAYER_EXTRA_GM_CHAT.
Definition isGMVisible (p : Player) : bool :=
  negb (has_flag (p_ExtraFlags p) PLAYER_EXTRA_GM_INVISIBLE).
Definition isGameMaster (p : Player) : bool := has_flag (p_ExtraFlags p) PLAYER_EXTRA_GM_ON.

Definition SetFlag (newFlag : Z) (p : Player) : Player :=
  let newval := add_flag (p_flags p) newFlag in
  if negb (p_flags p =? newval) then set_p_flags newval p else p.
Definition RemoveFlag (oldFlag : Z) (p : Player) : Player :=
  let newval := del_flag (p_flags p) oldFlag in
  if negb (p_flags p =? newval) then set_p_flags newval p else p.
Definition ToggleFlag (flag : Z) (p : Player) : Player :=
  if has_flag (p_flags p) flag then RemoveFlag flag p else SetFlag flag p.
Definition ToggleAFK (p : Player) : bool * Player :=
  let p := ToggleFlag PLAYER_FLAGS_AFK p in (isAFK p, p).
Definition ToggleDND (p : Player) : bool * Player :=
  let p := ToggleFlag PLAYER_FLAGS_DND p in (isDND p, p).

Definition SetAcceptWhispers (on : bool) (p : Player) : Player :=
  set_p_ExtraFlags (if on then add_flag (p_ExtraFlags p) PLAYER_EXTRA_ACCEPT_WHISPERS
                    else del_flag (p_ExtraFlags p) PLAYER_EXTRA_ACCEPT_WHISPERS) p.
Definition SetGMVisible (on : bool) (p : Player) : Player :=
  if on then set_p_ExtraFlags (del_flag (p_ExtraFlags p) PLAYER_EXTRA_GM_INVISIBLE) p
  else SetAcceptWhispers false
         (set_p_ExtraFlags (add_flag (p_ExtraFlags p) PLAYER_EXTRA_GM_INVISIBLE) p).
Definition SetGameMaster (on : bool) (p : Player) : Player :=
  set_p_ExtraFlags (if on then add_flag (p_ExtraFlags p) PLAYER_EXTRA_GM_ON
                    else del_flag (p_ExtraFlags p) PLAYER_EXTRA_GM_ON) p.

Definition GetChatTag (p : Player) : Z :=
  let tag := CHAT_TAG_NONE in
  let tag := if isGMChat p then Z.lor tag CHAT_TAG_GM else tag in
  let tag := if isDND p then Z.lor tag CHAT_TAG_DND else tag in
  let tag := if isAFK p then Z.lor tag CHAT_TAG_AFK else tag in
  if has_flag (p_flags p) PLAYER_FLAGS_DEVELOPER then Z.lor tag CHAT_TAG_DEV else tag.

Definition InArena (p : Player) : bool :=
  let z := p_zoneId p in
  (z =? 3702) || (z =? 4378) || (z =? 3968) || (z =? 3698) || (z =? 4406).

(** [IsVisibleGloballyFor]; player objects are compared by address, which the
    GUID stands for. *)
Definition IsVisibleGloballyFor (self : Player) (u : option Player) : bool :=
  match u with
  | None => false
  | Some u =>
      if p_GUID u =? p_GUID self then true
      else if negb (IsVIPorPlayer (p_security u)) then p_security self <=? p_security u
      else true
  end.

Definition JoinedChannel (c : Z) (p : Player) : Player := set_channels (p_channels p ++ [c]) p.
Definition LeftChannel (c : Z) (p : Player) : Player :=
  set_channels (List.filter (fun d => negb (d =? c)) (p_channels p)) p.

(** ** Statements and packets

    A prepared statement is its identifier and its arguments in index order;
    a packet its opcode and its body. *)
Inductive SqlVal :=
| QBool (b : bool) | QU8 (v : Z) | QU16 (v : Z) | QU32 (v : Z) | QU64 (v : Z) | QStr (s : string).

Inductive CharStmt :=
| CHAR_INS_CHANNEL | CHAR_UPD_CHANNEL | CHAR_DEL_OLD_CHANNELS
| CHAR_UPD_ADD_CHARACTER_SOCIAL_FLAGS | CHAR_INS_CHARACTER_SOCIAL
| CHAR_DEL_CHARACTER_SOCIAL | CHAR_UPD_REM_CHARACTER_SOCIAL_FLAGS
| CHAR_UPD_CHARACTER_SOCIAL_NOTE
| CHAR_INS_GUILD | CHAR_DEL_GUILD | CHAR_DEL_GUILD_MEMBERS | CHAR_INS_GUILD_MEMBER
| CHAR_DEL_GUILD_MEMBER | CHAR_UPD_GUILD_MEMBER_RANK | CHAR_UPD_GUILD_MEMBER_PNOTE
| CHAR_UPD_GUILD_MEMBER_OFFNOTE | CHAR_INS_GUILD_MEMBER_WITHDRAW
| CHAR_INS_GUILD_RANK | CHAR_DEL_GUILD_RANKS | CHAR_DEL_GUILD_LOWEST_RANK
| CHAR_UPD_GUILD_RANK_NAME | CHAR_UPD_GUILD_RANK_RIGHTS | CHAR_UPD_GUILD_RANK_BANK_MONEY
| CHAR_INS_GUILD_BANK_TAB | CHAR_DEL_GUILD_BANK_TAB | CHAR_DEL_GUILD_BANK_TABS
| CHAR_UPD_GUILD_BANK_TAB_INFO | CHAR_UPD_GUILD_BANK_TAB_TEXT
| CHAR_DEL_GUILD_BANK_ITEMS | CHAR_INS_GUILD_BANK_RIGHT | CHAR_DEL_GUILD_BANK_RIGHTS
| CHAR_DEL_GUILD_BANK_RIGHTS_FOR_RANK | CHAR_UPD_GUILD_BANK_MONEY
| CHAR_INS_GUILD_EVENTLOG | CHAR_DEL_GUILD_EVENTLOG | CHAR_DEL_GUILD_EVENTLOGS
| CHAR_INS_GUILD_BANK_EVENTLOG | CHAR_DEL_GUILD_BANK_EVENTLOG | CHAR_DEL_GUILD_BANK_EVENTLOGS
| CHAR_UPD_GUILD_MOTD | CHAR_UPD_GUILD_INFO | CHAR_UPD_GUILD_LEADER
| CHAR_UPD_GUILD_EMBLEM_INFO
| CHAR_DEL_ALL_PETITION_SIGNATURES | CHAR_DEL_PETITION_SIGNATURE
| CHAR_DEL_PETITION_BY_OWNER | CHAR_DEL_PETITION_SIGNATURE_BY_OWNER
| CHAR_DEL_PETITION_BY_OWNER_AND_TYPE | CHAR_DEL_PETITION_SIGNATURE_BY_OWNER_AND_TYPE.

Definition SMSG_MESSAGECHAT : Z := 0x096.
Definition DAY : Z := 86400.

Record Stmt := mkStmt { st_id : CharStmt; st_args : list SqlVal }.
Record Packet := mkPacket { pk_opcode : Z; pk_body : list PField }.

#[export] Instance SqlVal_eq_dec : EqDecision SqlVal.
Proof. solve_decision. Defined.
#[export] Instance CharStmt_eq_dec : EqDecision CharStmt.
Proof. solve_decision. Defined.
#[export] Instance Stmt_eq_dec : EqDecision Stmt.
Proof. solve_decision. Defined.
#[export] Instance Packet_eq_dec : EqDecision Packet.
Proof. solve_decision. Defined.

(** What leaves the process: a packet handed to the socket of a session (named
    by its player), a statement executed, a transaction committed; and the
    calls that end an object's life in another component's store. *)
Inductive Effect :=
| Send (session : Z) (p : Packet)
| Execute (s : Stmt)
| Commit (ss : list Stmt)
| RemoveGuild (guildId : Z)
| PetitionsCleared (guid : Z) (type : Z)
| DirectExecute (sql : string)
| DeleteThis.

(** The bytes of a packet, as the buffer builds them. *)
Definition build (p : Packet) : outcome WorldPacket :=
  let* b := append_fields (pk_body p) ByteBuffer_new in
  Ok (mkWP (u16 (pk_opcode p)) b).

(** ** The world *)
Record GlobalPlayerData := mkGlobal { gp_guildId : Z; gp_groupId : Z }.

Record World := mkWorld {
  m_PlayerMap : gmap Z Player;
  m_socialMap : gmap Z PlayerSocial;
  _globalPlayerDataStore : gmap Z GlobalPlayerData;
  w_time : Z;
  w_trace : list Effect
}.

(** The configuration values read ([Logon::getBoolConfig], [getIntConfig]). *)
Record Config := mkConfig {
  CONFIG_ALLOW_TWO_SIDE_INTERACTION_CHANNEL : bool;
  CONFIG_ALLOW_TWO_SIDE_WHO_LIST : bool;
  CONFIG_PRESERVE_CUSTOM_CHANNELS : bool;
  CONFIG_RESTRICTED_LFG_CHANNEL : bool;
  CONFIG_SILENTLY_GM_JOIN_TO_CHANNEL : bool;
  CONFIG_ALLOW_MULTIPLE_GUILDMASTER : bool;
  CONFIG_GM_LEVEL_IN_WHO_LIST : Z;
  CONFIG_PRESERVE_CUSTOM_CHANNEL_DURATION : Z
}.

Definition set_players (m : gmap Z Player) (w : World) : World :=
  mkWorld m (m_socialMap w) (_globalPlayerDataStore w) (w_time w) (w_trace w).
Definition set_social (m : gmap Z PlayerSocial) (w : World) : World :=
  mkWorld (m_PlayerMap w) m (_globalPlayerDataStore w) (w_time w) (w_trace w).
Definition set_global (m : gmap Z GlobalPlayerData) (w : World) : World :=
  mkWorld (m_PlayerMap w) (m_socialMap w) m (w_time w) (w_trace w).
Definition emit (e : Effect) (w : World) : World :=
  mkWorld (m_PlayerMap w) (m_socialMap w) (_globalPlayerDataStore w) (w_time w) (w_trace w ++ [e]).

Definition execute (s : Stmt) (w : World) : World := emit (Execute s) w.

Definition CommitTransaction (trans : list Stmt) (w : World) : World := emit (Commit trans) w.

(** [ExecuteOrAppend]: a null transaction executes at once. *)
Definition ExecuteOrAppend (trans : option (list Stmt)) (s : Stmt) (w : World)
  : option (list Stmt) * World :=
  match trans with
  | None => (None, execute s w)
  | Some l => (Some (l ++ [s]), w)
  end.

Section ObjectMgr.
Context `{UnorderedIter}.

(** [FindPlayer], [GetPlayer] and [FindPlayerInOrOutOfWorld] are the same
    lookup. *)
Definition FindPlayer (guid : Z) (w : World) : option Player := m_PlayerMap w !! guid.

(** The first player, in the order of the hash map, with the name in lower case. *)
Definition FindPlayerByName (name : string) (w : World) : option Player :=
  snd <$> List.find (fun '(_, p) => String.eqb (string_map tolower (c_str name))
                                     (string_map tolower (p_name p)))
            (uiter (m_PlayerMap w)).

(** A write through a [Player*]. *)
Definition update_player (f : Player -> Player) (p : Player) (w : World) : World :=
  set_players (alter f (p_GUID p) (m_PlayerMap w)) w.

(** [ClientSession::SendPacket]: dropped when there is no client socket.  Its
    traffic statistics, and a socket that fails, are left out. *)
Definition SendPacket (p : Player) (data : Packet) (w : World) : World :=
  if p_connected p then emit (Send (p_GUID p) data) w else w.

(** [Player::GetSocial()], the entry of [SocialMgr] for the player, which
    [Player::LoadFromDB] creates. *)
Definition GetSocial (p : Player) (w : World) : PlayerSocial :=
  default PlayerSocial_new (m_socialMap w !! p_GUIDLow p).
End ObjectMgr.

(** ** Global player data *)
Definition UpdateGlobalPlayerGuild (guid guildId : Z) (w : World) : World :=
  match _globalPlayerDataStore w !! guid with
  | None => w
  | Some d => set_global (<[guid := mkGlobal guildId (gp_groupId d)]> (_globalPlayerDataStore w)) w
  end.
Definition GetGuildIdFromStorage (guid : Z) (w : World) : Z :=
  match _globalPlayerDataStore w !! guid with
  | Some d => gp_guildId d
  | None => 0
  end.

(** [Player::SetInGuild]. *)
Definition SetInGuild (GuildId : Z) (p : Player) (w : World) : World :=
  UpdateGlobalPlayerGuild (p_GUIDLow p) GuildId (update_player (SetGuildId GuildId) p w).

(** * Lemmas *)

Lemma MAKE_NEW_GUID_player l : 0 <= l < 2 ^ 32 -> MAKE_NEW_GUID l 0 HIGHGUID_PLAYER = l.
Proof.
  intros Hl. unfold MAKE_NEW_GUID, HIGHGUID_PLAYER.
  rewrite !Z.shiftl_0_l, !Z.lor_0_r. apply wrap_small. lia.
Qed.

Lemma GUID_HIPART_small l : 0 <= l < 2 ^ 32 -> GUID_HIPART l = 0.
Proof.
  intros Hl. unfold GUID_HIPART. rewrite Z.shiftr_div_pow2, Z.div_small by lia. done.
Qed.

Lemma GUID_LOPART_small l : 0 <= l < 2 ^ 32 -> GUID_LOPART l = l.
Proof.
  intros Hl. unfold GUID_LOPART, IsGuidHaveEnPart. rewrite GUID_HIPART_small by done. cbn.
  change (Z.land l 4294967295) with (Z.land l (Z.ones 32)).
  rewrite Z.land_ones by lia. fold (wrap 32 l). by rewrite (wrap_small 32 l), (wrap_small 32 l).
Qed.

(** The low part of a player's GUID is the number it was made from. *)
Lemma GUID_LOPART_player l : 0 <= l < 2 ^ 32 -> GUID_LOPART (MAKE_NEW_GUID l 0 HIGHGUID_PLAYER) = l.
Proof. intros Hl. rewrite MAKE_NEW_GUID_player by done. by apply GUID_LOPART_small. Qed.

(** ** Every player is filed under its own GUID *)
Definition world_ok (w : World) : Prop :=
  forall g p, m_PlayerMap w !! g = Some p -> p_GUID p = g.

Lemma FindPlayer_guid w g p : world_ok w -> FindPlayer g w = Some p -> p_GUID p = g.
Proof. intros Hw H. by apply Hw. Qed.

Lemma update_player_ok f p w :
  (forall q, p_GUID (f q) = p_GUID q) -> world_ok w -> world_ok (update_player f p w).
Proof.
  intros Hf Hw g q. unfold update_player. cbn.
  destruct (decide (p_GUID p = g)) as [<-|Hne].
  - rewrite lookup_alter_eq. intros (q0 & H & ->)%fmap_Some. rewrite Hf. by apply Hw.
  - rewrite lookup_alter_ne by done. apply Hw.
Qed.

Lemma SendPacket_players p d w : m_PlayerMap (SendPacket p d w) = m_PlayerMap w.
Proof. unfold SendPacket. by case_if. Qed.
Lemma SendPacket_social p d w : m_socialMap (SendPacket p d w) = m_socialMap w.
Proof. unfold SendPacket. by case_if. Qed.
Lemma SendPacket_global p d w : _globalPlayerDataStore (SendPacket p d w) = _globalPlayerDataStore w.
Proof. unfold SendPacket. by case_if. Qed.
Lemma SendPacket_time p d w : w_time (SendPacket p d w) = w_time w.
Proof. unfold SendPacket. by case_if. Qed.
#[export] Hint Rewrite SendPacket_players SendPacket_social SendPacket_global SendPacket_time : shade.

(** ** What a call adds to the trace

    [emits es w] is [w] with [es] appended to its trace; every notification of
    the server is of this form, so it leaves the rest of the world alone. *)
Definition emits (es : list Effect) (w : World) : World :=
  mkWorld (m_PlayerMap w) (m_socialMap w) (_globalPlayerDataStore w) (w_time w) (w_trace w ++ es).

Definition sent (p : Player) (data : Packet) : list Effect :=
  if p_connected p then [Send (p_GUID p) data] else [].

Lemma emits_nil w : emits [] w = w.
Proof. destruct w. unfold emits. cbn. by rewrite app_nil_r. Qed.

Lemma emits_emits es fs w : emits fs (emits es w) = emits (es ++ fs) w.
Proof. unfold emits. cbn. by rewrite app_assoc. Qed.

Lemma emit_emits e w : emit e w = emits [e] w.
Proof. reflexivity. Qed.

Lemma SendPacket_emits p data w : SendPacket p data w = emits (sent p data) w.
Proof. unfold SendPacket, sent. destruct (p_connected p); [done|]. by rewrite emits_nil. Qed.

Lemma emits_players es w : m_PlayerMap (emits es w) = m_PlayerMap w.
Proof. reflexivity. Qed.
Lemma emits_social es w : m_socialMap (emits es w) = m_socialMap w.
Proof. reflexivity. Qed.
Lemma FindPlayer_emits g es w : FindPlayer g (emits es w) = FindPlayer g w.
Proof. reflexivity. Qed.
Lemma GetSocial_emits p es w : GetSocial p (emits es w) = GetSocial p w.
Proof. reflexivity. Qed.

(** A loop each of whose rounds only emits, depending on the unchanged part of
    the world, emits the concatenation. *)
Lemma foldl_emits {A} (f : World -> A -> World) (g : World -> A -> list Effect) l w :
  (forall w a, f w a = emits (g w a) w) ->
  (forall es w a, g (emits es w) a = g w a) ->
  foldl f w l = emits (concat (g w <$> l)) w.
Proof.
  intros Hf Hg. revert w. induction l as [|a l IH]; intros w; cbn.
  - by rewrite emits_nil.
  - rewrite Hf, IH, emits_emits. f_equal. f_equal. f_equal.
    apply list_fmap_ext. intros. apply Hg.
Qed.

(** Who a packet sent to a list of players reaches. *)
Lemma elem_of_sends data l g d :
  Send g d ∈ concat ((fun pl => sent pl data) <$> l) <->
  d = data /\ exists pl, pl ∈ l /\ p_connected pl = true /\ p_GUID pl = g.
Proof.
  rewrite list_elem_of_In, in_concat. setoid_rewrite <- list_elem_of_In. split.
  - intros (es & Hes & Hin). apply list_elem_of_fmap in Hes as (pl & -> & Hpl).
    unfold sent in Hin. destruct (p_connected pl) eqn:Hc; [|by apply not_elem_of_nil in Hin].
    apply list_elem_of_singleton in Hin. injection Hin as -> ->. eauto.
  - intros [-> (pl & Hpl & Hc & <-)]. exists (sent pl data).
    split; [apply list_elem_of_fmap; by exists pl|]. unfold sent. rewrite Hc. by apply list_elem_of_singleton.
Qed.
