(* ===== verification/BigNumber.v ===== *)
(** * Big numbers and hashes

    [shared/Cryptography/BigNumber.cpp] and [SHA1.cpp]: thin wrappers over
    OpenSSL.  The library itself is an interface, [OpenSSL], whose values are
    the integers a [BIGNUM] stands for; [OpenSSLSpec] states its documented
    behaviour, and every theorem is proved against it. *)
From Stdlib Require Import Ascii String ZArith Lia.
From stdpp Require Import base list strings.
From S2P Require Import Prelude ByteBuffer.

Open Scope Z_scope.

(** ** OpenSSL

    [BN_rand k bits] is the [k]-th number drawn, with the top bit set and odd,
    as [BN_rand(bn, bits, 0, 1)] asks for.  [BN_hex2bn] gives [None] when the
    text holds no hexadecimal digit, and then leaves its number alone. *)
Class OpenSSL := {
  SHA1 : list Z -> list Z;
  HMAC_SHA1 : list Z -> list Z -> list Z;
  BN_bin2bn : list Z -> Z;
  BN_bn2bin : Z -> list Z;
  BN_num_bytes : Z -> Z;
  BN_hex2bn : string -> option Z;
  BN_bn2hex : Z -> string;
  BN_get_word : Z -> Z;
  BN_lshift : Z -> Z -> Z;
  BN_add : Z -> Z -> Z;
  BN_mul : Z -> Z -> Z;
  BN_mod : Z -> Z -> Z;
  BN_mod_exp : Z -> Z -> Z -> Z;
  BN_rand : nat -> Z -> Z
}.

(** [ByteArrayToHexStr] of [shared/Utilities/Util.cpp]: two digits per byte, as [%02X] prints them. *)
Definition hex_char (d : Z) : ascii := ascii_of_N (Z.to_N (if d <? 10 then 48 + d else 55 + d)).
Fixpoint ByteArrayToHexStr (bytes : list Z) : string :=
  match bytes with
  | [] => EmptyString
  | b :: bytes' => String (hex_char (b / 16)) (String (hex_char (b mod 16)) (ByteArrayToHexStr bytes'))
  end.

(** The number of bytes of the shortest representation; none for zero. *)
Definition num_bytes (z : Z) : nat :=
  if z <=? 0 then 0%nat else S (Z.to_nat (Z.log2 z / 8)).

Class OpenSSLSpec `{OpenSSL} : Prop := {
  SHA1_length l : length (SHA1 l) = 20%nat;
  SHA1_bytes l : Forall is_byte (SHA1 l);
  HMAC_length k l : length (HMAC_SHA1 k l) = 20%nat;
  HMAC_bytes k l : Forall is_byte (HMAC_SHA1 k l);
  BN_bin2bn_spec l : Forall is_byte l -> BN_bin2bn l = le_combine (rev l);
  BN_bn2bin_spec z : 0 <= z -> BN_bn2bin z = rev (le_split (num_bytes z) z);
  BN_num_bytes_spec z : 0 <= z -> BN_num_bytes z = Z.of_nat (num_bytes z);
  BN_hex_spec z : 0 <= z -> BN_hex2bn (BN_bn2hex z) = Some z;
  BN_hex2bn_bytes l : Forall is_byte l -> l <> [] -> BN_hex2bn (ByteArrayToHexStr l) = Some (le_combine (rev l));
  BN_hex_cstr z : c_str (BN_bn2hex z) = BN_bn2hex z;
  BN_hex_length z : 0 < z -> String.length (BN_bn2hex z) = (2 * num_bytes z)%nat;
  BN_get_word_spec z : 0 <= z < 2 ^ 64 -> BN_get_word z = z;
  BN_lshift_spec z n : 0 <= z -> 0 <= n -> BN_lshift z n = z * 2 ^ n;
  BN_add_spec a b : 0 <= a -> 0 <= b -> BN_add a b = a + b;
  BN_mul_spec a b : 0 <= a -> 0 <= b -> BN_mul a b = a * b;
  BN_mod_spec a m : 0 <= a -> 0 < m -> BN_mod a m = a mod m;
  BN_mod_exp_spec a p m : 0 <= a -> 0 <= p -> 0 < m -> BN_mod_exp a p m = a ^ p mod m;
  BN_rand_spec k bits : 0 < bits -> 2 ^ (bits - 1) <= BN_rand k bits < 2 ^ bits
}.

(** ** [class BigNumber]

    An object is the value it holds; a setter gives the new value. *)
Section BigNumber.
  Context `{OpenSSL}.

Definition SetDword (val : Z) : Z := u32 val.

Definition SetQword (val : Z) : Z :=
  BN_add (BN_lshift (u32 (Z.shiftr val 32)) 32) (Z.land val 0xFFFFFFFF).

Definition SetBinary (bytes : list Z) : Z := BN_bin2bn (rev bytes).

Definition SetHexStr (str : string) (bn : Z) : Z := default bn (BN_hex2bn (c_str str)).

Definition SetRand (numbits : Z) (draw : nat) : Z := BN_rand draw numbits.

Definition ModExp (bn bn1 bn2 : Z) : Z := BN_mod_exp bn bn1 bn2.

Definition GetNumBytes (bn : Z) : Z := BN_num_bytes bn.

Definition AsDword (bn : Z) : Z := u32 (BN_get_word bn).

Definition isZero (bn : Z) : bool := bn =? 0.

(** The number is written from the start of the array, the rest of which is
    cleared; then the whole array is reversed. *)
Definition AsByteArray (minSize : Z) (littleEndian : bool) (bn : Z) : list Z :=
  let length := if GetNumBytes bn <=? minSize then minSize else GetNumBytes bn in
  let array := BN_bn2bin bn ++ replicate (Z.to_nat (length - GetNumBytes bn)) 0 in
  if littleEndian then rev array else array.

Definition AsHexStr (bn : Z) : string := BN_bn2hex bn.

(** ** [class SHA1Hash]

    The context holds the bytes it was given. *)
Definition SHA1_Init : list Z := [].
Definition UpdateData (dta : list Z) (mC : list Z) : list Z := mC ++ dta.
Definition UpdateBigNumbers (bns : list Z) (mC : list Z) : list Z :=
  foldl (fun mC bn => UpdateData (take (Z.to_nat (GetNumBytes bn)) (AsByteArray 0 true bn)) mC) mC bns.
Definition Finalize (mC : list Z) : list Z := SHA1 mC.
End BigNumber.

(** * Theorems *)

Lemma num_bytes_bound z : 0 <= z < 256 ^ Z.of_nat (num_bytes z) \/ z < 0.
Proof.
  unfold num_bytes. destruct (Z.leb_spec z 0) as [Hz|Hz].
  - cbn. lia.
  - left. split; [lia|]. pose proof (Z.log2_spec z Hz) as [_ Hu].
    pose proof (Z.log2_nonneg z). change 256 with (2 ^ 8). rewrite <- Z.pow_mul_r by lia.
    eapply Z.lt_le_trans; [exact Hu|]. apply Z.pow_le_mono_r; [lia|].
    rewrite Nat2Z.inj_succ, Z2Nat.id by (apply Z.div_pos; lia).
    pose proof (Z.div_mod (Z.log2 z) 8). pose proof (Z.mod_pos_bound (Z.log2 z) 8). lia.
Qed.

Lemma num_bytes_le z n : 0 <= z < 256 ^ Z.of_nat n -> (num_bytes z <= n)%nat.
Proof.
  intros [H0 Hz]. unfold num_bytes. destruct (Z.leb_spec z 0) as [Hle|Hgt]; [lia|].
  change 256 with (2 ^ 8) in Hz. rewrite <- Z.pow_mul_r in Hz by lia.
  apply Z.log2_lt_pow2 in Hz; [|done]. pose proof (Z.log2_nonneg z).
  assert (Z.log2 z / 8 < Z.of_nat n) by (apply Z.div_lt_upper_bound; lia).
  assert (0 <= Z.log2 z / 8) by (apply Z.div_pos; lia). lia.
Qed.

Lemma num_bytes_ge z n : (0 < n)%nat -> 256 ^ (Z.of_nat n - 1) <= z -> (n <= num_bytes z)%nat.
Proof.
  intros Hn Hz. assert (0 < 256 ^ (Z.of_nat n - 1)) by (apply Z.pow_pos_nonneg; lia).
  unfold num_bytes. destruct (Z.leb_spec z 0) as [Hle|Hgt]; [lia|].
  change 256 with (2 ^ 8) in Hz. rewrite <- Z.pow_mul_r in Hz by lia.
  apply Z.log2_le_pow2 in Hz; [|done].
  assert (Z.of_nat n - 1 <= Z.log2 z / 8) by (apply Z.div_le_lower_bound; lia). lia.
Qed.

Lemma num_bytes_0 : num_bytes 0 = 0%nat.
Proof. done. Qed.

Lemma num_bytes_exact z n :
  (0 < n)%nat -> 256 ^ (Z.of_nat n - 1) <= z < 256 ^ Z.of_nat n -> num_bytes z = n.
Proof.
  intros Hn [Hl Hu]. apply Nat.le_antisymm; [apply num_bytes_le|by apply num_bytes_ge].
  split; [|done]. pose proof (Z.pow_pos_nonneg 256 (Z.of_nat n - 1)). lia.
Qed.

Lemma le_combine_zeros n l : le_combine (replicate n 0 ++ l) = 256 ^ Z.of_nat n * le_combine l.
Proof.
  induction n as [|n IH]; [cbn [replicate app]; lia|].
  cbn [replicate app le_combine]. rewrite IH, pow256_succ. lia.
Qed.

Lemma le_combine_num_bytes z : 0 <= z -> le_combine (le_split (num_bytes z) z) = z.
Proof.
  intros Hz. rewrite le_combine_split. apply Z.mod_small.
  destruct (num_bytes_bound z); lia.
Qed.

Lemma rev_replicate {A} n (x : A) : rev (replicate n x) = replicate n x.
Proof.
  induction n as [|n IH]; [done|]. cbn [replicate rev]. rewrite IH.
  clear IH. induction n as [|n IH]; [done|]. cbn [replicate app]. by rewrite IH.
Qed.

Section Facts.
  Context `{OpenSSLSpec}.

Lemma SetBinary_spec l : Forall is_byte l -> SetBinary l = le_combine l.
Proof.
  intros Hl. unfold SetBinary. rewrite BN_bin2bn_spec, rev_involutive; [done|].
  by apply Forall_rev.
Qed.

(** The padding of the little-endian image comes before the number's bytes. *)
Lemma AsByteArray_spec n z :
  0 <= z ->
  AsByteArray (Z.of_nat n) true z = replicate (n - num_bytes z) 0 ++ le_split (num_bytes z) z.
Proof.
  intros Hz. unfold AsByteArray, GetNumBytes. rewrite BN_num_bytes_spec, BN_bn2bin_spec by done.
  rewrite rev_app_distr, rev_involutive. f_equal.
  rewrite rev_replicate. f_equal.
  destruct (Z.leb_spec (Z.of_nat (num_bytes z)) (Z.of_nat n)); lia.
Qed.

Lemma AsByteArray_fits n z : num_bytes z = n -> 0 <= z -> AsByteArray (Z.of_nat n) true z = le_split n z.
Proof. intros <- Hz. rewrite AsByteArray_spec, Nat.sub_diag by done. done. Qed.

Lemma AsByteArray_0 z : 0 <= z -> AsByteArray 0 true z = le_split (num_bytes z) z.
Proof. intros Hz. exact (AsByteArray_spec 0 z Hz). Qed.

Lemma AsByteArray_length n z :
  0 <= z -> length (AsByteArray (Z.of_nat n) true z) = Nat.max n (num_bytes z).
Proof. intros Hz. rewrite AsByteArray_spec, length_app, length_replicate, length_le_split by done. lia. Qed.

(** What a reader of the image gets: the number, multiplied by [256] for every
    byte it is short of. *)
Lemma AsByteArray_value n z :
  0 <= z -> le_combine (AsByteArray (Z.of_nat n) true z) = 256 ^ Z.of_nat (n - num_bytes z) * z.
Proof. intros Hz. by rewrite AsByteArray_spec, le_combine_zeros, le_combine_num_bytes. Qed.

Lemma SetBinary_AsByteArray z : 0 <= z -> SetBinary (AsByteArray 0 true z) = z.
Proof.
  intros Hz. rewrite AsByteArray_0 by done.
  rewrite SetBinary_spec by apply le_split_byte. by apply le_combine_num_bytes.
Qed.

Lemma UpdateBigNumbers_spec bns mC :
  Forall (Z.le 0) bns ->
  UpdateBigNumbers bns mC = mC ++ concat ((fun z => le_split (num_bytes z) z) <$> bns).
Proof.
  unfold UpdateBigNumbers. intros Hb. revert mC. induction Hb as [|z bns Hz Hb IH]; intros mC; cbn [foldl fmap list_fmap concat].
  - by rewrite app_nil_r.
  - rewrite IH. unfold UpdateData, GetNumBytes. rewrite BN_num_bytes_spec, Nat2Z.id, AsByteArray_0 by done.
    rewrite take_ge by (by rewrite length_le_split). by rewrite <- app_assoc.
Qed.

Lemma SetHexStr_AsHexStr z bn : 0 <= z -> SetHexStr (AsHexStr z) bn = z.
Proof. intros Hz. unfold SetHexStr, AsHexStr. by rewrite BN_hex_cstr, BN_hex_spec. Qed.

Lemma SetQword_spec val : SetQword val = u64 val.
Proof.
  unfold SetQword. assert (0 <= u32 (Z.shiftr val 32)) by (apply wrap_range; lia).
  assert (0 <= Z.land val 0xFFFFFFFF) by (change 0xFFFFFFFF with (Z.ones 32); rewrite Z.land_ones by lia; apply Z.mod_pos_bound; lia).
  rewrite BN_lshift_spec, BN_add_spec by lia.
  change 0xFFFFFFFF with (Z.ones 32). rewrite Z.land_ones by lia. unfold wrap.
  rewrite Z.shiftr_div_pow2 by lia. change (2 ^ 64) with (2 ^ 32 * 2 ^ 32).
  rewrite (Z.rem_mul_r val (2 ^ 32) (2 ^ 32)) by lia. lia.
Qed.
End Facts.
