(* ===== verification/Totp.v ===== *)
(** * One-time passwords

    [authserver/Authentication/TOTP.cpp]: the six-digit token of an
    authenticator, from the key the account has and the clock. *)
From Stdlib Require Import Ascii String ZArith Lia.
From stdpp Require Import base list strings.
From S2P Require Import Prelude ByteBuffer BigNumber.

Open Scope Z_scope.

(** ** [base32_decode]

    A character is its code.  The tab of the original is written in the source
    as four spaces between quotes, a character constant of the value
    [0x20202020], which no [char] equals. *)
Definition char_code (c : ascii) : Z := Z.of_N (N_of_ascii c).

Definition b32_skip (ch : Z) : bool :=
  (ch =? 32) || (ch =? 0x20202020) || (ch =? 13) || (ch =? 10) || (ch =? 45).

(** Commonly mistyped characters: [0] for [O], [1] for [L], [8] for [B]. *)
Definition b32_mistyped (ch : Z) : Z :=
  if ch =? 48 then 79 else if ch =? 49 then 76 else if ch =? 56 then 66 else ch.

Definition b32_digit (ch : Z) : option Z :=
  if ((65 <=? ch) && (ch <=? 90)) || ((97 <=? ch) && (ch <=? 122)) then Some (Z.land ch 0x1F - 1)
  else if (50 <=? ch) && (ch <=? 55) then Some (ch - (50 - 26))
  else None.

(** [result] holds the bytes written so far, so [count] is its length; the
    accumulator is an [int].  The second component is what the caller finds in
    its array, also after a failure. *)
Fixpoint base32_loop (bufSize : Z) (encoded : string) (buffer bitsLeft : Z) (result : list Z)
  : Z * list Z :=
  let count := Z.of_nat (length result) in
  match encoded with
  | EmptyString => (count, result)
  | String c ptr =>
      let ch := char_code c in
      if negb ((count <? bufSize) && negb (ch =? 0)) then (count, result)
      else if b32_skip ch then base32_loop bufSize ptr buffer bitsLeft result
      else
        let buffer := swrap 32 (Z.shiftl buffer 5) in
        match b32_digit (b32_mistyped ch) with
        | None => (-1, result)
        | Some d =>
            let buffer := Z.lor buffer d in
            let bitsLeft := bitsLeft + 5 in
            if 8 <=? bitsLeft
            then base32_loop bufSize ptr buffer (bitsLeft - 8) (result ++ [u8 (Z.shiftr buffer (bitsLeft - 8))])
            else base32_loop bufSize ptr buffer bitsLeft result
        end
  end.

Definition base32_decode (encoded : string) (bufSize : Z) : Z * list Z :=
  base32_loop bufSize encoded 0 0 [].

(** ** [TOTP::GenerateToken]

    The array is cleared first, so what the decoder does not write is zero. *)
Section Token.
  Context `{OpenSSL}.

Definition challenge_bytes (timestamp : Z) : list Z := rev (le_split 8 timestamp).

Definition TruncHash (hmacRes : list Z) : outcome Z :=
  let offset := Z.to_nat (Z.land (default 0 (hmacRes !! 19%nat)) 0xF) in
  match hmacRes !! offset, hmacRes !! (offset + 1)%nat, hmacRes !! (offset + 2)%nat, hmacRes !! (offset + 3)%nat with
  | Some h0, Some h1, Some h2, Some h3 =>
      let truncHash := u32 (Z.lor (Z.lor (Z.lor (Z.shiftl h0 24) (Z.shiftl h1 16)) (Z.shiftl h2 8)) h3) in
      Ok (Z.land truncHash 0x7FFFFFFF)
  | _, _, _, _ => UB
  end.

Definition GenerateToken (time : Z) (b32key : string) : outcome Z :=
  let b32key := c_str b32key in
  let keySize := Z.of_nat (String.length b32key) in
  let bufsize := s32 ((keySize + 7) / 8 * 5) in
  let encoded := (base32_decode b32key bufsize).2 in
  let key := encoded ++ replicate (Z.to_nat bufsize - length encoded) 0 in
  let* truncHash := TruncHash (HMAC_SHA1 key (challenge_bytes (time / 30))) in
  Ok (truncHash mod 1000000).
End Token.

(** * Theorems *)

(** ** The decoder against the number its digits write *)

(** The digits of a text, separators left out; [None] if some character is
    neither. *)
Fixpoint b32_digits (s : string) : option (list Z) :=
  match s with
  | EmptyString => Some []
  | String c s' =>
      let ch := char_code c in
      if ch =? 0 then Some []
      else if b32_skip ch then b32_digits s'
      else d ← b32_digit (b32_mistyped ch); ds ← b32_digits s'; Some (d :: ds)
  end.

Definition b32_value (ds : list Z) (acc : Z) : Z := foldl (fun acc d => 32 * acc + d) acc ds.

(** The leading [n] bytes of a number of [bits] bits. *)
Definition leading_bytes (n : nat) (bits v : Z) : list Z :=
  rev (le_split n (v / 2 ^ (bits - 8 * Z.of_nat n))).

Lemma b32_digit_range ch d : 0 <= ch -> b32_digit ch = Some d -> 0 <= d < 32.
Proof.
  unfold b32_digit. intros Hch. repeat case_if; bool_props; intros; simplify_eq; try lia.
  change 0x1F with (Z.ones 5). rewrite Z.land_ones by lia.
  pose proof (Z.div_mod ch (2 ^ 5)). pose proof (Z.mod_pos_bound ch (2 ^ 5)).
  change (2 ^ 5) with 32 in *. lia.
Qed.

Lemma char_code_nonneg c : 0 <= char_code c.
Proof. unfold char_code. lia. Qed.

Lemma b32_mistyped_nonneg ch : 0 <= ch -> 0 <= b32_mistyped ch.
Proof. unfold b32_mistyped. intros. repeat case_if; lia. Qed.

Lemma lor_digit y d : 0 <= d < 32 -> Z.lor (32 * y) d = 32 * y + d.
Proof.
  intros Hd. rewrite <- Z.add_lor_land.
  replace (Z.land (32 * y) d) with 0; [lia|]. symmetry. apply Z.bits_inj'. intros n Hn.
  rewrite Z.land_spec, Z.bits_0. replace (32 * y) with (Z.shiftl y 5) by (rewrite Z.shiftl_mul_pow2; lia).
  destruct (Z.ltb_spec n 5) as [Hlt|Hge].
  - rewrite Z.shiftl_spec_low by lia. done.
  - rewrite (Z.bits_above_log2 d), andb_false_r; [done|lia|].
    destruct (decide (d = 0)) as [->|]; [cbn; lia|]. apply Z.log2_lt_pow2; [lia|].
    apply Z.lt_le_trans with (2 ^ 5); [lia|]. apply Z.pow_le_mono_r; lia.
Qed.

Lemma accumulate buffer v d :
  0 <= d < 32 -> wrap 32 buffer = wrap 32 v ->
  wrap 32 (Z.lor (swrap 32 (Z.shiftl buffer 5)) d) = wrap 32 (32 * v + d).
Proof.
  intros Hd Hb. rewrite Z.shiftl_mul_pow2 by lia. change (2 ^ 5) with 32.
  assert (exists q, swrap 32 (buffer * 32) = 32 * (buffer + 2 ^ 27 * q)) as [q ->].
  { unfold swrap, wrap. pose proof (Z.div_mod (buffer * 32) (2 ^ 32) ltac:(lia)) as Hdm.
    set (q0 := buffer * 32 / 2 ^ 32) in *. set (r0 := (buffer * 32) mod 2 ^ 32) in *.
    change (2 ^ 32) with (32 * 2 ^ 27) in *.
    destruct (r0 <? 2 ^ (32 - 1)); [exists (- q0)|exists (- q0 - 1)]; lia. }
  rewrite lor_digit by done. unfold wrap in *.
  replace (32 * (buffer + 2 ^ 27 * q) + d) with (32 * buffer + d + q * 2 ^ 32) by (change (2 ^ 32) with (32 * 2 ^ 27); lia).
  rewrite Z.mod_add by lia.
  rewrite <- (Z.add_mod_idemp_l (32 * buffer)), <- (Z.mul_mod_idemp_r 32 buffer), Hb by lia.
  by rewrite Z.mul_mod_idemp_r, Z.add_mod_idemp_l by lia.
Qed.

Lemma wrap_byte_at a b j : 0 <= j <= 24 -> wrap 32 a = wrap 32 b -> u8 (Z.shiftr a j) = u8 (Z.shiftr b j).
Proof.
  intros Hj Hab. unfold wrap in *. rewrite <- !Z.land_ones in * by lia. apply Z.bits_inj'. intros n Hn.
  apply (f_equal (fun z => Z.testbit z (n + j))) in Hab. rewrite !Z.land_spec in *.
  rewrite !Z.shiftr_spec by lia. destruct (Z.ltb_spec n 8) as [Hlt|Hge].
  - rewrite (Z.ones_spec_low 32), !andb_true_r in Hab by lia. by rewrite Hab.
  - rewrite Z.ones_spec_high, !andb_false_r by lia. done.
Qed.

Lemma leading_more bl v d : 0 <= d < 32 -> 0 <= bl -> (32 * v + d) / 2 ^ (bl + 5) = v / 2 ^ bl.
Proof.
  intros Hd Hbl. rewrite Z.add_comm, Z.pow_add_r by lia. change (2 ^ 5) with 32.
  rewrite (Z.mul_comm (2 ^ bl)), <- Z.div_div by lia. f_equal.
  rewrite (Z.mul_comm 32), Z.add_comm, Z.div_add_l, (Z.div_small d) by lia. lia.
Qed.

Lemma base32_loop_spec bufSize s ds k v buffer bl result :
  b32_digits s = Some ds ->
  (5 * (k + Z.of_nat (length ds)) < 8 * bufSize + 8) ->
  0 <= v -> wrap 32 buffer = wrap 32 v -> 0 <= bl < 8 ->
  bl = 5 * k - 8 * Z.of_nat (length result) ->
  result = leading_bytes (length result) (5 * k) v ->
  exists n, Z.of_nat n = 5 * (k + Z.of_nat (length ds)) / 8
    /\ base32_loop bufSize s buffer bl result
       = (Z.of_nat n, leading_bytes n (5 * (k + Z.of_nat (length ds))) (b32_value ds v)).
Proof.
  revert ds k v buffer bl result.
  induction s as [|c s IH]; intros ds k v buffer bl result Hds Hsz Hv Hbuf Hbl Ebl Hres; cbn [b32_digits base32_loop] in *.
  { injection Hds as <-. cbn [length b32_value foldl]. rewrite Z.add_0_r. exists (length result). split; [|by rewrite <- Hres].
    apply Z.div_unique with bl; lia. }
  destruct (char_code c =? 0) eqn:E0.
  { injection Hds as <-. rewrite andb_false_r. cbn [negb length b32_value foldl]. rewrite Z.add_0_r.
    exists (length result). split; [|by rewrite <- Hres]. apply Z.div_unique with bl; lia. }
  rewrite andb_true_r. destruct (b32_skip (char_code c)) eqn:Esk.
  { destruct (Z.ltb_spec (Z.of_nat (length result)) bufSize) as [Hlt|Hge]; cbn [negb]; [by apply IH|].
    assert (5 * (k + Z.of_nat (length ds)) / 8 = Z.of_nat (length result) /\ 5 * Z.of_nat (length ds) + bl < 8) as [Hq Hr].
    { assert (5 * (k + Z.of_nat (length ds)) < 8 * Z.of_nat (length result) + 8) by lia.
      split; [symmetry; apply Z.div_unique with (bl + 5 * Z.of_nat (length ds)); lia|lia]. }
    exists (length result). split; [done|]. f_equal. rewrite Hres at 1. unfold leading_bytes.
    f_equal. f_equal.
    destruct ds as [|d ds]; [cbn [length b32_value foldl] in *; f_equal; f_equal; lia|].
    destruct ds as [|d' ds]; [|cbn [length] in Hr; lia].
    assert (0 <= d < 32) as Hd.
    { clear -Hds. induction s as [|c' s IH]; cbn in Hds; [done|]. destruct (char_code c' =? 0); [done|].
      destruct (b32_skip _); [auto|]. destruct (b32_digit (b32_mistyped (char_code c'))) eqn:E; cbn in Hds; [|done].
      destruct (b32_digits s); cbn in Hds; simplify_eq. eapply b32_digit_range; [|done].
      apply b32_mistyped_nonneg, char_code_nonneg. }
    cbn [length b32_value foldl] in *. rewrite <- (leading_more (5 * k - 8 * Z.of_nat (length result)) v d) by lia.
    f_equal. f_equal. lia. }
  destruct (b32_digit (b32_mistyped (char_code c))) as [d|] eqn:Ed; cbn [mbind option_bind] in Hds; [|done].
  destruct (b32_digits s) as [ds'|] eqn:Eds'; cbn [mbind option_bind] in Hds; [|done]. injection Hds as <-.
  assert (0 <= d < 32) as Hd
    by (eapply b32_digit_range; [|done]; apply b32_mistyped_nonneg, char_code_nonneg).
  cbn [length] in *. rewrite Nat2Z.inj_succ in *.
  assert (forall m, 5 * (k + Z.succ m) = 5 * (k + 1 + m)) as Hk by lia. rewrite Hk in *.
  cbn [b32_value foldl]. fold (b32_value ds' (32 * v + d)).
  pose proof (accumulate buffer v d Hd Hbuf) as Hacc.
  destruct (Z.ltb_spec (Z.of_nat (length result)) bufSize) as [Hlt|Hge]; cbn [negb].
  - destruct (Z.leb_spec 8 (bl + 5)) as [H8|H8].
    + apply IH; [done|lia|lia|done|lia|rewrite length_app; cbn [length]; lia|].
      rewrite length_app, Nat.add_1_r. unfold leading_bytes. cbn [le_split rev].
      rewrite Z.div_div by lia. f_equal.
      * rewrite Hres at 1. unfold leading_bytes. f_equal. f_equal. rewrite <- (leading_more (5 * k - 8 * Z.of_nat (length result)) v d) by lia.
        f_equal. change 256 with (2 ^ 8). rewrite <- Z.pow_add_r by lia. f_equal. lia.
      * f_equal. rewrite (wrap_byte_at _ (32 * v + d)) by (done || lia).
        rewrite Z.shiftr_div_pow2 by lia. unfold wrap. change (2 ^ 8) with 256. f_equal. f_equal. f_equal. lia.
    + apply IH; [done|lia|lia|done|lia|lia|]. rewrite Hres at 1. unfold leading_bytes.
      f_equal. f_equal. rewrite <- (leading_more (5 * k - 8 * Z.of_nat (length result)) v d) by lia. f_equal. f_equal. lia.
  - assert (length ds' = 0%nat) as Hl by lia. destruct ds'; [|done].
    exists (length result). cbn [length b32_value foldl] in *.
    split; [apply Z.div_unique with (bl + 5); lia|]. f_equal. rewrite Hres at 1. unfold leading_bytes.
    f_equal. f_equal.
    rewrite <- (leading_more (5 * k - 8 * Z.of_nat (length result)) v d) by lia. f_equal. f_equal. lia.
Qed.

(** ** A text that encodes bytes *)
Definition b32_char (d : Z) : ascii := ascii_of_N (Z.to_N (if d <? 26 then 65 + d else 24 + d)).

Fixpoint digits32 (k : nat) (v : Z) : list Z :=
  match k with O => [] | S k' => digits32 k' (v / 32) ++ [v mod 32] end.

(** Base 32 without padding signs: the bits of the bytes, filled up with zeros
    to a multiple of five. *)
Definition b32_encode (l : list Z) : string :=
  let n := Z.of_nat (length l) in
  let k := (8 * n + 4) / 5 in
  string_of_list_ascii (b32_char <$> digits32 (Z.to_nat k) (le_combine (rev l) * 2 ^ (5 * k - 8 * n))).

Lemma length_digits32 k v : length (digits32 k v) = k.
Proof. revert v. induction k as [|k IH]; intros v; cbn [digits32]; [done|]. rewrite length_app, IH. cbn. lia. Qed.

Lemma digits32_range k v : Forall (fun d => 0 <= d < 32) (digits32 k v).
Proof.
  revert v. induction k as [|k IH]; intros v; cbn [digits32]; [done|]. apply Forall_app. split; [done|].
  constructor; [|done]. apply Z.mod_pos_bound. lia.
Qed.

Lemma b32_value_digits k v : b32_value (digits32 k v) 0 = v mod 32 ^ Z.of_nat k.
Proof.
  revert v. induction k as [|k IH]; intros v; cbn [digits32]; [cbn; by rewrite Z.mod_1_r|].
  unfold b32_value in *. rewrite foldl_app, IH. cbn [foldl].
  rewrite Nat2Z.inj_succ, Z.pow_succ_r by lia. rewrite Z.rem_mul_r; lia.
Qed.

Definition digit_read_back (d : Z) : bool :=
  let ch := char_code (b32_char d) in
  negb (ch =? 0) && negb (b32_skip ch) && bool_decide (b32_digit (b32_mistyped ch) = Some d).

Lemma digit_chars : forallb digit_read_back (Z.of_nat <$> seq 0 32) = true.
Proof. vm_compute. done. Qed.

Lemma digit_char_read d : 0 <= d < 32 -> digit_read_back d = true.
Proof.
  intros Hd. pose proof digit_chars as Hall. rewrite forallb_forall in Hall. apply Hall.
  apply list_elem_of_In, list_elem_of_fmap. exists (Z.to_nat d). split; [lia|]. apply elem_of_seq. lia.
Qed.

Lemma b32_digits_chars ds :
  Forall (fun d => 0 <= d < 32) ds -> b32_digits (string_of_list_ascii (b32_char <$> ds)) = Some ds.
Proof.
  induction 1 as [|d ds Hd Hds IH]; [done|]. cbn [fmap list_fmap string_of_list_ascii b32_digits].
  pose proof (digit_char_read d Hd) as Hr. unfold digit_read_back in Hr.
  apply andb_prop in Hr as [[H0 Hsk]%andb_prop Hdig]. apply negb_true_iff in H0, Hsk.
  apply bool_decide_eq_true in Hdig. rewrite H0, Hsk, Hdig. cbn [mbind option_bind]. by setoid_rewrite IH.
Qed.

Lemma le_combine_le_split_rev l : Forall is_byte l -> rev (le_split (length l) (le_combine (rev l))) = l.
Proof.
  intros Hl. rewrite <- (length_rev l), le_split_combine; [apply rev_involutive|]. by apply Forall_rev.
Qed.

(** Base 32 decoding undoes encoding: for any bytes that fit the array, the
    text that encodes them is decoded to them, although the accumulator, a
    32-bit [int], has long overflowed after seven characters. *)
Theorem base32_roundtrip l bufSize :
  Forall is_byte l -> Z.of_nat (length l) <= bufSize ->
  base32_decode (b32_encode l) bufSize = (Z.of_nat (length l), l).
Proof.
  intros Hl Hsz. set (n := Z.of_nat (length l)) in *. unfold b32_encode. fold n. set (k := (8 * n + 4) / 5).
  assert (8 * n <= 5 * k < 8 * n + 5) as Hk.
  { pose proof (Z.div_mod (8 * n + 4) 5). pose proof (Z.mod_pos_bound (8 * n + 4) 5). lia. }
  set (v := le_combine (rev l)). set (ds := digits32 (Z.to_nat k) (v * 2 ^ (5 * k - 8 * n))).
  assert (0 <= v < 256 ^ n) as Hv.
  { unfold v, n. rewrite <- length_rev. apply le_combine_bound. by apply Forall_rev. }
  assert (Z.of_nat (length ds) = k) as Hlen by (unfold ds; rewrite length_digits32; lia).
  destruct (base32_loop_spec bufSize (string_of_list_ascii (b32_char <$> ds)) ds 0 0 0 0 []) as (m & Hm & Hdec).
  all: try done; try lia.
  { apply b32_digits_chars, digits32_range. }
  unfold base32_decode. rewrite Hdec, Z.add_0_l, Hlen in *.
  assert (Z.of_nat m = n) as Em by (rewrite Hm; symmetry; apply Z.div_unique with (5 * k - 8 * n); lia).
  rewrite Em. f_equal. unfold leading_bytes. rewrite Em.
  assert (b32_value ds 0 = v * 2 ^ (5 * k - 8 * n)) as ->.
  { unfold ds. rewrite b32_value_digits. apply Z.mod_small. rewrite Z2Nat.id by lia.
    change 32 with (2 ^ 5). rewrite <- Z.pow_mul_r by lia.
    change 256 with (2 ^ 8) in Hv. rewrite <- Z.pow_mul_r in Hv by lia.
    replace (2 ^ (5 * k)) with (2 ^ (8 * n) * 2 ^ (5 * k - 8 * n)) by (rewrite <- Z.pow_add_r by lia; f_equal; lia).
    pose proof (Z.pow_pos_nonneg 2 (5 * k - 8 * n)). nia. }
  rewrite Z.div_mul by (apply Z.pow_nonzero; lia). replace m with (length l) by lia.
  by apply le_combine_le_split_rev.
Qed.

Lemma base32_roundtrip_witness :
  base32_decode (b32_encode [222; 173; 190; 239; 0; 255; 18]) 10 = (7, [222; 173; 190; 239; 0; 255; 18]).
Proof. apply (base32_roundtrip [222; 173; 190; 239; 0; 255; 18] 10); [by repeat constructor|cbn; lia]. Defined.

(** Never more bytes than the array has. *)
Lemma base32_loop_length bufSize s buffer bl result :
  Z.of_nat (length result) <= Z.max 0 bufSize ->
  Z.of_nat (length (base32_loop bufSize s buffer bl result).2) <= Z.max 0 bufSize.
Proof.
  revert buffer bl result. induction s as [|c s IH]; intros buffer bl result Hle; cbn [base32_loop]; [done|].
  destruct (Z.ltb_spec (Z.of_nat (length result)) bufSize) as [Hlt|Hge]; cbn [andb negb]; [|done].
  destruct (char_code c =? 0); [done|]. cbn [negb]. destruct (b32_skip _); [by apply IH|].
  destruct (b32_digit _); [|done]. destruct (8 <=? bl + 5); [|by apply IH].
  apply IH. rewrite length_app. cbn [length]. lia.
Qed.

Lemma base32_loop_bytes bufSize s buffer bl result :
  Forall is_byte result -> Forall is_byte (base32_loop bufSize s buffer bl result).2.
Proof.
  revert buffer bl result. induction s as [|c s IH]; intros buffer bl result Hb; cbn [base32_loop]; [done|].
  destruct (negb _); [done|]. destruct (b32_skip _); [by apply IH|].
  destruct (b32_digit _); [|done]. destruct (8 <=? bl + 5); [|by apply IH].
  apply IH, Forall_app. split; [done|]. constructor; [|done]. apply (wrap_range 8). lia.
Qed.

Section TokenFacts.
  Context `{OpenSSLSpec}.

Lemma TruncHash_total l :
  length l = 20%nat -> Forall is_byte l -> exists h, TruncHash l = Ok h /\ 0 <= h < 2 ^ 31.
Proof.
  intros Hl Hb. unfold TruncHash.
  assert (0 <= Z.land (default 0 (l !! 19%nat)) 0xF < 16) as Hoff.
  { change 0xF with (Z.ones 4). rewrite Z.land_ones by lia. apply Z.mod_pos_bound. lia. }
  set (off := Z.to_nat _). assert (off <= 15)%nat as Ho by (unfold off; lia).
  do 4 (edestruct (lookup_lt_is_Some_2 l) as [? ->]; [lia|]). eexists. split; [done|].
  change 0x7FFFFFFF with (Z.ones 31). rewrite Z.land_ones by lia. by apply Z.mod_pos_bound.
Qed.

(** Whatever key the account has, well-formed or not, and whatever the time,
    the token is computed without reading outside the digest, and has at most
    six digits. *)
Theorem token_six_digits time b32key : exists t, GenerateToken time b32key = Ok t /\ 0 <= t < 1000000.
Proof.
  unfold GenerateToken. edestruct TruncHash_total as (h & -> & Hh); [apply HMAC_length|apply HMAC_bytes|].
  eexists. split; [done|]. by apply Z.mod_pos_bound.
Qed.

(** The key of the digest is the bytes the digits encode, filled up with zeros;
    two spellings of a key, in capitals or not, with separators or not, are one
    key when they have the same length. *)
Lemma GenerateToken_key time s ds :
  c_str s = s -> b32_digits s = Some ds -> (length ds <= String.length s)%nat ->
  Z.of_nat (String.length s) < 2 ^ 30 ->
  exists n, Z.of_nat n = 5 * Z.of_nat (length ds) / 8
    /\ GenerateToken time s
       = let* h := TruncHash (HMAC_SHA1 (leading_bytes n (5 * Z.of_nat (length ds)) (b32_value ds 0)
                     ++ replicate (Z.to_nat ((Z.of_nat (String.length s) + 7) / 8 * 5) - n) 0)
                   (challenge_bytes (time / 30))) in Ok (h mod 1000000).
Proof.
  intros Hc Hds Hle Hlt. unfold GenerateToken. rewrite Hc.
  set (len := Z.of_nat (String.length s)) in *. set (q := (len + 7) / 8).
  assert (8 * q <= len + 7 < 8 * q + 8) as Hq.
  { pose proof (Z.div_mod (len + 7) 8). pose proof (Z.mod_pos_bound (len + 7) 8). lia. }
  assert (s32 (q * 5) = q * 5) as Hs by (apply swrap_small; [lia|]; change (2 ^ (32 - 1)) with (2 * 2 ^ 30); lia).
  rewrite Hs.
  destruct (base32_loop_spec (q * 5) s ds 0 0 0 0 []) as (n & Hn & Hdec); try done; try lia.
  exists n. rewrite Z.add_0_l in Hn. split; [done|].
  unfold base32_decode. rewrite Hdec, Z.add_0_l. cbn [snd].
  unfold leading_bytes at 2. by rewrite length_rev, length_le_split.
Qed.
End TokenFacts.
