(* ===== verification/StateM.v ===== *)
(** * Stateful code that can fail

    A computation takes the state and gives the state it leaves and how it
    ended: a value, an exception, undefined behaviour.  The state an exception
    leaves is kept, as in the code.  [wp m Q E s] says that [m] started in [s]
    ends in [Q] with a value, or in [E] without one. *)
From Stdlib Require Import ZArith Lia.
From stdpp Require Import base list.
From S2P Require Import Prelude ByteBuffer.

Definition ST (S A : Type) : Type := S -> S * outcome A.

Section Monad.
  Context {S : Type}.

Definition retS {A} (a : A) : ST S A := fun s => (s, Ok a).
Definition bindS {A B} (m : ST S A) (k : A -> ST S B) : ST S B :=
  fun s => match m s with
           | (s', Ok a) => k a s'
           | (s', Throw e) => (s', Throw e)
           | (s', UB) => (s', UB)
           end.
Definition getS {A} (f : S -> A) : ST S A := fun s => (s, Ok (f s)).
Definition modS (f : S -> S) : ST S unit := fun s => (f s, Ok tt).
Definition liftS {A} (o : outcome A) : ST S A := fun s => (s, o).
Definition whenS (b : bool) (m : ST S unit) : ST S unit := if b then m else retS tt.

Fixpoint for_eachS {A} (l : list A) (f : A -> ST S unit) : ST S unit :=
  match l with
  | [] => retS tt
  | x :: l' => bindS (f x) (fun _ => for_eachS l' f)
  end.
End Monad.

Notation "'let!' x ':=' m 'in' k" := (bindS m (fun x => k))
  (at level 10, x name, m at level 200, k at level 200) : shade_scope.
Notation "'let!' ' p ':=' m 'in' k" := (bindS m (fun x => match x with p => k end))
  (at level 10, p pattern, m at level 200, k at level 200) : shade_scope.
Notation "m ;! k" := (bindS m (fun _ => k)) (at level 101, right associativity) : shade_scope.

(** ** Weakest preconditions *)
Section Logic.
  Context {S : Type}.

Definition wp {A} (m : ST S A) (Q : A -> S -> Prop) (E : S -> Prop) (s : S) : Prop :=
  match m s with (s', Ok a) => Q a s' | (s', _) => E s' end.

Lemma wpS_mono {A} (m : ST S A) (P Q : A -> S -> Prop) (E F : S -> Prop) s :
  wp m P E s -> (forall a s', P a s' -> Q a s') -> (forall s', E s' -> F s') -> wp m Q F s.
Proof. unfold wp. destruct (m s) as [s' [a|e|]]; auto. Qed.

Lemma wp_true {A} (m : ST S A) s : wp m (fun _ _ => True) (fun _ => True) s.
Proof. unfold wp. destruct (m s) as [s' [a|e|]]; done. Qed.
Lemma wpS_ret {A} (a : A) (Q : A -> S -> Prop) E s : Q a s -> wp (retS a) Q E s.
Proof. done. Qed.
Lemma wpS_bind {A B} (m : ST S A) (k : A -> ST S B) Q E s :
  wp m (fun a s' => wp (k a) Q E s') E s -> wp (bindS m k) Q E s.
Proof. unfold wp, bindS. destruct (m s) as [s' [a|e|]]; done. Qed.
Lemma wp_get {A} (f : S -> A) Q E s : Q (f s) s -> wp (getS f) Q E s.
Proof. done. Qed.
Lemma wp_mod (f : S -> S) Q E s : Q tt (f s) -> wp (modS f) Q E s.
Proof. done. Qed.
Lemma wpS_lift {A} (o : outcome A) Q E s :
  (forall a, o = Ok a -> Q a s) -> E s -> wp (liftS o) Q E s.
Proof. unfold wp, liftS. destruct o; auto. Qed.
Lemma wp_lift_ok {A} (o : outcome A) a (Q : A -> S -> Prop) E s : o = Ok a -> Q a s -> wp (liftS o) Q E s.
Proof. by intros ->. Qed.
Lemma wp_UB {A} (Q : A -> S -> Prop) (E : S -> Prop) s : E s -> wp (liftS UB) Q E s.
Proof. done. Qed.
Lemma wp_Throw {A} e (Q : A -> S -> Prop) (E : S -> Prop) s : E s -> wp (liftS (Throw e)) Q E s.
Proof. done. Qed.
Lemma wpS_when (b : bool) (m : ST S unit) Q E s :
  (b = true -> wp m Q E s) -> (b = false -> Q tt s) -> wp (whenS b m) Q E s.
Proof. destruct b; intros Ht Hf; [by apply Ht|by apply Hf]. Qed.
Lemma wp_if {A} (b : bool) (m n : ST S A) Q E s :
  (b = true -> wp m Q E s) -> (b = false -> wp n Q E s) -> wp (if b then m else n) Q E s.
Proof. destruct b; auto. Qed.
Lemma wpS_for_each {A} (l : list A) (f : A -> ST S unit) (I : S -> Prop) (Q : unit -> S -> Prop) E s :
  I s -> (forall x s', x ∈ l -> I s' -> wp (f x) (fun _ => I) E s') -> (forall s', I s' -> Q tt s') ->
  wp (for_eachS l f) Q E s.
Proof.
  intros HI Hf HQ. revert s HI. induction l as [|x l IH]; intros s HI; cbn [for_eachS]; [by apply wpS_ret, HQ|].
  apply wpS_bind. eapply wpS_mono; [apply Hf; [left|done]| |done]. intros [] s' HI'.
  apply IH; [|done]. intros y s'' Hy. apply Hf. by right.
Qed.

(** A run that is defined. *)
Lemma wpS_run {A} (m : ST S A) Q s :
  wp m Q (fun _ => False) s <-> exists a s', m s = (s', Ok a) /\ Q a s'.
Proof.
  unfold wp. split.
  - destruct (m s) as [s' [a|e|]]; [|done|done]. intros HQ. by exists a, s'.
  - by intros (a & s' & -> & HQ).
Qed.

Lemma wp_elim {A} (m : ST S A) Q E s a s' : m s = (s', Ok a) -> wp m Q E s -> Q a s'.
Proof. unfold wp. by intros ->. Qed.
Lemma wp_intro {A} (m : ST S A) (Q : A -> S -> Prop) E s a s' : m s = (s', Ok a) -> Q a s' -> wp m Q E s.
Proof. unfold wp. by intros ->. Qed.
End Logic.

(** One rule per primitive; tests are split, and what is left is left. *)
Ltac wp_step :=
  match goal with
  | |- wp (retS _) _ _ _ => apply wpS_ret
  | |- wp (bindS _ _) _ _ _ => apply wpS_bind
  | |- wp (getS _) _ _ _ => apply wp_get
  | |- wp (modS _) _ _ _ => apply wp_mod
  | |- wp (whenS ?b _) _ _ _ => apply wpS_when; intros ?
  | |- wp (liftS UB) _ _ _ => apply wp_UB
  | |- wp (liftS (Throw _)) _ _ _ => apply wp_Throw
  | |- wp (liftS _) _ _ _ => apply wpS_lift; [intros ? ?|]
  | |- wp (if _ then _ else _) _ _ _ => apply wp_if; intros ?
  | |- wp (match ?x with Some _ => _ | None => _ end) _ _ _ => let E := fresh "E" in destruct x eqn:E
  | |- wp (let _ := _ in _) _ _ _ => cbv zeta
  end.
Ltac wp_steps := repeat wp_step.
