(* ===== verification/RealmList.v ===== *)
(** * The realm list

    [authserver/Realms/RealmList.cpp] and [Authentication/AuthCodes.cpp]: the
    realms the authentication server tells its clients of, reloaded from the
    database from time to time, and the client builds it knows. *)
From Stdlib Require Import Ascii String ZArith Lia.
From stdpp Require Import base gmap list strings sorting.
From S2P Require Import Prelude ByteBuffer World StateM.

Open Scope Z_scope.

(** ** [AuthCodes] *)
Definition WOW_SUCCESS : Z := 0x00.
Definition WOW_FAIL_BANNED : Z := 0x03.
Definition WOW_FAIL_UNKNOWN_ACCOUNT : Z := 0x04.
Definition WOW_FAIL_VERSION_INVALID : Z := 0x09.
Definition WOW_FAIL_SUSPENDED : Z := 0x0C.
Definition WOW_FAIL_LOCKED_ENFORCED : Z := 0x10.

Definition POST_BC_EXP_FLAG : Z := 0x2.
Definition PRE_BC_EXP_FLAG : Z := 0x1.
Definition NO_VALID_EXP_FLAG : Z := 0x0.

Record RealmBuildInfo := mkBuild {
  Build : Z; MajorVersion : Z; MinorVersion : Z; BugfixVersion : Z; HotfixVersion : Z
}.

Definition PostBcAcceptedClientBuilds : list RealmBuildInfo := [
  mkBuild 15595 4 3 4 32; mkBuild 14545 4 2 2 32; mkBuild 13623 4 0 6 97; mkBuild 13930 3 3 5 97;
  mkBuild 12340 3 3 5 97; mkBuild 11723 3 3 3 97; mkBuild 11403 3 3 2 32; mkBuild 11159 3 3 0 97;
  mkBuild 10505 3 2 2 97; mkBuild 9947 3 1 3 32; mkBuild 8606 2 4 3 32; mkBuild 0 0 0 0 32
].
Definition PreBcAcceptedClientBuilds : list RealmBuildInfo := [
  mkBuild 6141 1 12 3 32; mkBuild 6005 1 12 2 32; mkBuild 5875 1 12 1 32; mkBuild 0 0 0 0 32
].

(** The tables are searched up to their terminator. *)
Fixpoint find_build (build : Z) (table : list RealmBuildInfo) : option RealmBuildInfo :=
  match table with
  | [] => None
  | r :: table' =>
      if Build r =? 0 then None else if Build r =? build then Some r else find_build build table'
  end.

Definition IsPreBCAcceptedClientBuild (build : Z) : bool := bool_decide (is_Some (find_build build PreBcAcceptedClientBuilds)).
Definition IsPostBCAcceptedClientBuild (build : Z) : bool := bool_decide (is_Some (find_build build PostBcAcceptedClientBuilds)).
Definition IsAcceptedClientBuild (build : Z) : bool :=
  IsPostBCAcceptedClientBuild build || IsPreBCAcceptedClientBuild build.
Definition GetBuildInfo (build : Z) : option RealmBuildInfo :=
  match find_build build PostBcAcceptedClientBuilds with
  | Some r => Some r
  | None => find_build build PreBcAcceptedClientBuilds
  end.

(** The flag of the expansion a client of the build has. *)
Definition expansion_flag (build : Z) : Z :=
  if IsPostBCAcceptedClientBuild build then POST_BC_EXP_FLAG
  else if IsPreBCAcceptedClientBuild build then PRE_BC_EXP_FLAG else NO_VALID_EXP_FLAG.

(** ** Addresses

    [ACE_INET_Addr]: an address and a port; what ACE computes from them is an
    interface. *)
Record Addr := mkAddr { get_ip_address : Z; get_port_number : Z }.

Class ACE := {
  inet_addr : Z -> string -> Addr;
  is_loopback : Addr -> bool;
  GetAddressString : Addr -> string
}.

Definition set_port_number (port : Z) (a : Addr) : Addr := mkAddr (get_ip_address a) port.

Definition IsIPAddrInNetwork (net addr subnetMask : Addr) : bool :=
  let mask := get_ip_address subnetMask in
  Z.land (get_ip_address net) mask =? Z.land (get_ip_address addr) mask.

(** ** Realms *)
Definition REALM_FLAG_OFFLINE : Z := 0x02.
Definition REALM_FLAG_SPECIFYBUILD : Z := 0x04.

Record Realm := mkRealm {
  ExternalAddress : Addr;
  LocalAddress : Addr;
  LocalSubnetMask : Addr;
  r_name : string;
  icon : Z;
  flag : Z;
  timezone : Z;
  m_ID : Z;
  allowedSecurityLevel : Z;
  populationLevel : Z;
  gamebuild : Z
}.

Record RealmList := mkRealmList {
  m_realms : gmap string Realm;
  m_UpdateInterval : Z;
  m_NextUpdateTime : Z
}.

(** A row of [LOGIN_SEL_REALMLIST]; the population is the bits of a [float]. *)
Record RealmRow := mkRealmRow {
  rr_id : Z; rr_name : string; rr_address : string; rr_localAddress : string; rr_localSubnetMask : string;
  rr_port : Z; rr_icon : Z; rr_flag : Z; rr_timezone : Z; rr_allowedSecurityLevel : Z;
  rr_population : Z; rr_gamebuild : Z
}.

Definition RealmList_new (now : Z) : RealmList := mkRealmList ∅ 0 now.

Definition with_realms (m : gmap string Realm) (l : RealmList) : RealmList :=
  mkRealmList m (m_UpdateInterval l) (m_NextUpdateTime l).

(** Every field of the entry is assigned, so it does not matter whether there
    was one. *)
Definition UpdateRealm (id : Z) (name : string) (address localAddr localSubmask : Addr) (ico flg tz level popu build : Z)
    (l : RealmList) : RealmList :=
  with_realms (<[name := mkRealm address localAddr localSubmask name ico flg tz id level popu build]> (m_realms l)) l.

(** [AccountTypes] of a level from the database. *)
Definition clamp_level (level : Z) : Z := if level <=? SEC_ADMINISTRATOR then level else SEC_ADMINISTRATOR.

Section RealmList.
  Context `{ACE}.

Definition update_row (l : RealmList) (f : RealmRow) : RealmList :=
  let port := rr_port f in
  UpdateRealm (rr_id f) (rr_name f) (inet_addr port (rr_address f)) (inet_addr port (rr_localAddress f))
    (inet_addr 0 (rr_localSubnetMask f)) (rr_icon f) (rr_flag f) (rr_timezone f)
    (clamp_level (rr_allowedSecurityLevel f)) (rr_population f) (rr_gamebuild f) l.

Definition UpdateRealms (result : list RealmRow) (l : RealmList) : RealmList := foldl update_row l result.

Definition RealmList_Initialize (updateInterval : Z) (result : list RealmRow) (l : RealmList) : RealmList :=
  UpdateRealms result (mkRealmList (m_realms l) updateInterval (m_NextUpdateTime l)).

(** [time1] and [time2] are the two readings of the clock. *)
Definition UpdateIfNeed (time1 time2 : Z) (result : list RealmRow) (l : RealmList) : RealmList :=
  if (m_UpdateInterval l =? 0) || (time1 <? m_NextUpdateTime l) then l
  else UpdateRealms result (mkRealmList ∅ (m_UpdateInterval l) (time2 + m_UpdateInterval l)).

(** [AuthSocket::GetAddressForClient] *)
Definition GetAddressForClient (realm : Realm) (clientAddr : Addr) : Addr :=
  if is_loopback clientAddr then
    if is_loopback (LocalAddress realm) || is_loopback (ExternalAddress realm) then clientAddr
    else LocalAddress realm
  else if IsIPAddrInNetwork (LocalAddress realm) clientAddr (LocalSubnetMask realm) then LocalAddress realm
  else ExternalAddress realm.
End RealmList.

(** [std::map<std::string, Realm>] is walked in the order of the names' bytes. *)
Definition name_le {V} (a b : string * V) : Prop := String.leb a.1 b.1 = true.
#[export] Instance name_le_dec {V} : RelDecision (@name_le V).
Proof. intros a b. unfold name_le. apply _. Defined.

Definition realms_in_order (l : RealmList) : list (string * Realm) :=
  merge_sort name_le (map_to_list (m_realms l)).
