(* ===== verification/Addons.v ===== *)
(** * Addons

    [shade/Addons/AddonMgr] and [ClientSession::ReadAddonsInfo]: the list of
    addons a client sends, compressed, with its authentication packet, and the
    addons the server knows.  [uncompress] of zlib is an interface. *)
From Stdlib Require Import Ascii String ZArith Lia.
From stdpp Require Import base list strings.
From S2P Require Import Prelude ByteBuffer StateM.

Open Scope Z_scope.

Record AddonInfo := mkAddonInfo {
  ai_Name : string;
  ai_Enabled : Z;
  ai_CRC : Z;
  ai_State : Z;
  UsePublicKeyOrCRC : bool
}.

Record SavedAddon := mkSavedAddon { sa_Name : string; sa_CRC : Z }.

(** [m_knownAddons], and the rows inserted into [addons]. *)
Record AddonMgr := mkAddonMgr { m_knownAddons : list SavedAddon; addon_inserts : list (string * Z) }.

(** A session's list under construction, and the manager. *)
Record AddonState := mkAddonState { as_list : list AddonInfo; as_mgr : AddonMgr }.

(** [uncompress]: the input and the capacity of the output; what was written,
    or an error. *)
Class ZLib := { uncompress : list Z -> Z -> option (list Z) }.

(** ** [AddonMgr] *)
Definition AddonMgr_LoadFromDB (rows : list (string * Z)) (m : AddonMgr) : AddonMgr :=
  mkAddonMgr (m_knownAddons m ++ ((fun r => mkSavedAddon r.1 r.2) <$> rows)) (addon_inserts m).

Definition SaveAddon (a : AddonInfo) (m : AddonMgr) : AddonMgr :=
  mkAddonMgr (m_knownAddons m ++ [mkSavedAddon (ai_Name a) (ai_CRC a)]) (addon_inserts m ++ [(ai_Name a, ai_CRC a)]).

Fixpoint find_addon (name : string) (l : list SavedAddon) : option SavedAddon :=
  match l with
  | [] => None
  | a :: l' => if String.eqb (sa_Name a) name then Some a else find_addon name l'
  end.
Definition GetAddonInfo (name : string) (m : AddonMgr) : option SavedAddon := find_addon name (m_knownAddons m).

(** ** [ReadAddonsInfo] *)
Definition read_addon (b : ByteBuffer) : outcome (AddonInfo * ByteBuffer) :=
  let* '(addonName, b) := read_string b in
  let* '(enabled, b) := read 1 b in
  let* '(crc, b) := read 4 b in
  let* '(_, b) := read 4 b in
  Ok (mkAddonInfo addonName enabled crc 2 true, b).

Definition take_addon (a : AddonInfo) (s : AddonState) : AddonState :=
  mkAddonState (as_list s ++ [a])
    (match GetAddonInfo (ai_Name a) (as_mgr s) with Some _ => as_mgr s | None => SaveAddon a (as_mgr s) end).

(** How the loop ends: the handler returns, or goes on, or the fuel is gone. *)
Inductive AddonsEnd := AReturn | ADone (b : ByteBuffer) | AFuel.

Fixpoint addons_loop (fuel : nat) (left : Z) (b : ByteBuffer) : ST AddonState AddonsEnd :=
  match fuel with
  | O => retS AFuel
  | S fuel' =>
      if left <=? 0 then retS (ADone b)
      else if bb_size b <? u64 (_rpos b + 1) then retS AReturn
      else
        let! '(a, b) := liftS (read_addon b) in
        modS (take_addon a) ;!
        addons_loop fuel' (left - 1) b
  end.

Section Addons.
  Context `{ZLib}.

(** The result tells whether the loop came to its end within the fuel. *)
Definition ReadAddonsInfo (data : ByteBuffer) : ST AddonState bool :=
  if bb_size data <? u64 (_rpos data + 4) then retS true
  else
    let! '(size, data) := liftS (read 4 data) in
    if (size =? 0) || (0xFFFFF <? size) then retS true
    else
      match uncompress (drop (Z.to_nat (u32 (_rpos data))) (_storage data)) size with
      | None => retS true
      | Some out =>
          let addonInfo := mkBB 0 0 (take (Z.to_nat size) out ++ replicate (Z.to_nat size - length out) 0) in
          let! '(addonsCount, addonInfo) := liftS (read 4 addonInfo) in
          let! e := addons_loop (S (length (_storage addonInfo))) addonsCount addonInfo in
          match e with
          | ADone b => let! _ := liftS (read 4 b) in retS true
          | AReturn => retS true
          | AFuel => retS false
          end
      end.
End Addons.

(** * Theorems *)

(** What reading leaves of position and storage. *)
Definition read_on (b b' : ByteBuffer) : Prop :=
  _storage b' = _storage b /\ 0 <= _rpos b <= _rpos b' /\ _rpos b' <= bb_size b'.

Definition placed (b : ByteBuffer) : Prop := 0 <= _rpos b <= bb_size b /\ bb_size b < 2 ^ 32.

Lemma read_moves n b v b' : placed b -> (0 < n < 1000)%nat -> read n b = Ok (v, b') -> placed b' /\ read_on b b' /\ _rpos b' = _rpos b + Z.of_nat n.
Proof.
  intros [Hp Hs] Hn. unfold read, read_at. rewrite wrap_small by lia.
  destruct (Z.ltb_spec (bb_size b) (_rpos b + Z.of_nat n)) as [|Hle]; [done|]. cbn [obind]. intros [= _ <-].
  unfold placed, read_on, bb_size in *. cbn. split_and!; lia || done.
Qed.

Lemma read_string_loop_moves fuel acc b l b' :
  placed b -> read_string_loop fuel acc b = Ok (l, b') -> placed b' /\ read_on b b'.
Proof.
  revert acc b. induction fuel as [|fuel IH]; intros acc b Hb; cbn [read_string_loop].
  { intros [= _ <-]. unfold read_on. destruct Hb. split_and!; done || lia. }
  destruct (_rpos b <? bb_size b). 2: { intros [= _ <-]. unfold read_on. destruct Hb. split_and!; done || lia. }
  destruct (read 1 b) as [[c b1]|e|] eqn:Er; cbn [obind]; [|done..].
  destruct (read_moves 1 b c b1 Hb ltac:(lia) Er) as (Hb1 & H1 & _).
  destruct (c =? 0). { by intros [= _ <-]. }
  intros Hl. destruct (IH _ _ Hb1 Hl) as [Hb' H2]. split; [done|]. destruct H1 as (S1 & P1 & _), H2 as (S2 & P2 & Q2).
  unfold read_on. split_and!; [congruence|lia..].
Qed.

Lemma read_addon_moves b a b' : placed b -> read_addon b = Ok (a, b') -> placed b' /\ _storage b' = _storage b /\ _rpos b + 9 <= _rpos b'.
Proof.
  intros Hb. unfold read_addon, read_string.
  destruct (read_string_loop _ [] b) as [[l b1]|e|] eqn:E1; cbn [obind]; [|done..].
  destruct (read_string_loop_moves _ _ _ _ _ Hb E1) as (Hb1 & H1).
  destruct (read 1 b1) as [[x b2]|e|] eqn:E2; cbn [obind]; [|done..].
  destruct (read_moves 1 _ _ _ Hb1 ltac:(lia) E2) as (Hb2 & H2 & P2).
  destruct (read 4 b2) as [[y b3]|e|] eqn:E3; cbn [obind]; [|done..].
  destruct (read_moves 4 _ _ _ Hb2 ltac:(lia) E3) as (Hb3 & H3 & P3).
  destruct (read 4 b3) as [[z b4]|e|] eqn:E4; cbn [obind]; [|done..].
  destruct (read_moves 4 _ _ _ Hb3 ltac:(lia) E4) as (Hb4 & H4 & P4).
  intros [= _ <-]. destruct H1 as (S1 & ? & _), H2 as (S2 & _), H3 as (S3 & _), H4 as (S4 & _).
  split_and!; [done|congruence|lia].
Qed.

(** The list and the manager agree: what a session has got was known before or
    has been saved; known addons keep their number; each is inserted once. *)
Definition saved_as (a : AddonInfo) : SavedAddon := mkSavedAddon (ai_Name a) (ai_CRC a).

Definition recorded (s s' : AddonState) : Prop :=
  exists l news,
    as_list s' = as_list s ++ l
    /\ Forall (fun a => ai_State a = 2 /\ UsePublicKeyOrCRC a = true) l
    /\ m_knownAddons (as_mgr s') = m_knownAddons (as_mgr s) ++ (saved_as <$> news)
    /\ addon_inserts (as_mgr s') = addon_inserts (as_mgr s) ++ ((fun a => (ai_Name a, ai_CRC a)) <$> news)
    /\ sublist news l
    /\ Forall (fun a => is_Some (GetAddonInfo (ai_Name a) (as_mgr s'))) l
    /\ (NoDup (sa_Name <$> m_knownAddons (as_mgr s)) -> NoDup (sa_Name <$> m_knownAddons (as_mgr s'))).

Lemma find_addon_app name l m :
  find_addon name (l ++ m) = match find_addon name l with Some a => Some a | None => find_addon name m end.
Proof. induction l as [|a l IH]; [done|]. cbn [app find_addon]. by destruct (String.eqb (sa_Name a) name). Qed.

Lemma find_addon_None name l : find_addon name l = None -> name ∉ (sa_Name <$> l).
Proof.
  induction l as [|a l IH]; cbn [find_addon fmap list_fmap]; [intros _; apply not_elem_of_nil|].
  destruct (String.eqb_spec (sa_Name a) name) as [|Hn]; [done|]. intros Hf.
  apply not_elem_of_cons. split; [congruence|by apply IH].
Qed.

Lemma recorded_refl s : recorded s s.
Proof. exists [], []. rewrite !app_nil_r. by split_and!. Qed.

Lemma recorded_trans s1 s2 s3 : recorded s1 s2 -> recorded s2 s3 -> recorded s1 s3.
Proof.
  intros (l & n & E1 & E2 & E3 & E4 & E5 & E6 & E7) (l' & n' & F1 & F2 & F3 & F4 & F5 & F6 & F7).
  exists (l ++ l'), (n ++ n'). rewrite F1, F3, F4, E1, E3, E4, !fmap_app, <- !app_assoc. split_and!; try done.
  - by apply Forall_app.
  - by apply sublist_app.
  - apply Forall_app. split; [|done]. eapply Forall_impl; [exact E6|]. cbn beta. intros a [x Hx].
    unfold GetAddonInfo in *. rewrite F3, find_addon_app, Hx. by eexists.
  - intros Hnd. specialize (F7 (E7 Hnd)). by rewrite F3, E3, !fmap_app, <- !app_assoc in F7.
Qed.

Lemma take_addon_recorded a s : ai_State a = 2 -> UsePublicKeyOrCRC a = true -> recorded s (take_addon a s).
Proof.
  intros H2 Hu. unfold take_addon. destruct (GetAddonInfo _ _) as [x|] eqn:Eg.
  - exists [a], []. rewrite !app_nil_r. cbn. split_and!; try done; [by repeat constructor|by constructor; constructor|].
    repeat constructor. rewrite Eg. by eexists.
  - exists [a], [a]. cbn. split_and!; try done; [by repeat constructor| |].
    + repeat constructor. unfold GetAddonInfo in *. cbn. rewrite find_addon_app, Eg. cbn. rewrite String.eqb_refl. by eexists.
    + intros Hnd. rewrite fmap_app. apply NoDup_app. split_and!; [done| |apply NoDup_singleton].
      intros n Hn. cbn. rewrite list_elem_of_singleton. intros ->. by apply find_addon_None in Eg.
Qed.

Lemma read_addon_shape b a b' : read_addon b = Ok (a, b') -> ai_State a = 2 /\ UsePublicKeyOrCRC a = true.
Proof.
  unfold read_addon. repeat (match goal with |- context [obind ?m _] => destruct m as [[? ?]|?|] end; cbn [obind]; [|done..]).
  by intros [= <- _].
Qed.

Lemma wp_addons_loop fuel left b s :
  placed b -> bb_size b - _rpos b < Z.of_nat fuel ->
  wp (addons_loop fuel left b) (fun e s' => e <> AFuel /\ recorded s s') (fun s' => recorded s s') s.
Proof.
  revert left b s. induction fuel as [|fuel IH]; intros left b s Hb Hf; [destruct Hb; lia|]. cbn [addons_loop].
  apply wp_if; intros _; [by apply wpS_ret; split; [|apply recorded_refl]|].
  apply wp_if; intros _; [by apply wpS_ret; split; [|apply recorded_refl]|].
  apply wpS_bind, wpS_lift; [|apply recorded_refl]. intros [a b1] Hr.
  destruct (read_addon_moves b a b1 Hb Hr) as (Hb1 & Hst & Hm). destruct (read_addon_shape _ _ _ Hr) as [H2 Hu].
  apply wpS_bind, wp_mod. pose proof (take_addon_recorded a s H2 Hu) as Ht.
  eapply wpS_mono; [apply IH; [done|]| |].
  - unfold bb_size in *. rewrite Hst. lia.
  - intros e s' [He Hs]. split; [done|]. by eapply recorded_trans.
  - intros s' Hs. by eapply recorded_trans.
Qed.

(** Reading a client's addons, whatever it sends, ends, with a value or an
    exception; it adds to the session's list addons the server now knows, and
    to the known ones those of them that were new, each once. *)
Lemma wp_ReadAddonsInfo `{ZLib} data s :
  wp (ReadAddonsInfo data) (fun ended s' => ended = true /\ recorded s s') (fun s' => recorded s s') s.
Proof.
  unfold ReadAddonsInfo.
  apply wp_if; intros _; [by apply wpS_ret; split; [|apply recorded_refl]|].
  apply wpS_bind, wpS_lift; [|apply recorded_refl]. intros [size d] Hr.
  apply wp_if; intros Hsz; [by apply wpS_ret; split; [|apply recorded_refl]|]. bool_props.
  destruct (uncompress _ size) as [out|]; [|by apply wpS_ret; split; [|apply recorded_refl]]. cbv zeta.
  set (b0 := mkBB 0 0 _). assert (bb_size b0 <= 0xFFFFF) as Hb0.
  { unfold b0, bb_size. cbn [_storage]. rewrite length_app, length_take, length_replicate. lia. }
  assert (placed b0) as Hp by (unfold placed, b0 at 1 2; cbn [_rpos]; unfold bb_size in *; lia).
  apply wpS_bind, wpS_lift; [|apply recorded_refl]. intros [cnt b1] Hr1.
  destruct (read_moves 4 b0 cnt b1 Hp ltac:(lia) Hr1) as (Hp1 & (Hst & _) & _).
  apply wpS_bind. eapply wpS_mono; [apply wp_addons_loop; [done|]| |done].
  - destruct Hp1. unfold bb_size in *. lia.
  - intros e s' [He Hs]. destruct e; [by apply wpS_ret| |done].
    apply wpS_bind, wpS_lift; [|done]. intros [t b2] _. by apply wpS_ret.
Qed.
