(* ===== verification/AuthSocket.v ===== *)
(** * The authentication server

    [authserver/Server/AuthSocket.cpp] over [RealmSocket.cpp]: one connection
    of a client, from its logon challenge to the realm list.  A handler reads
    the connection's input buffer, asks the database, sends packets and
    executes statements; its result tells [OnRead] whether to go on. *)
From Stdlib Require Import Ascii String ZArith Lia.
From stdpp Require Import base gmap list strings.
From S2P Require Import Prelude ByteBuffer BigNumber Totp World StateM RealmList.

Open Scope Z_scope.

(** ** Commands *)
Definition AUTH_LOGON_CHALLENGE : Z := 0x00.
Definition AUTH_LOGON_PROOF : Z := 0x01.
Definition AUTH_RECONNECT_CHALLENGE : Z := 0x02.
Definition AUTH_RECONNECT_PROOF : Z := 0x03.
Definition REALM_LIST : Z := 0x10.
Definition XFER_ACCEPT : Z := 0x32.
Definition XFER_RESUME : Z := 0x33.
Definition XFER_CANCEL : Z := 0x34.

Inductive eStatus := STATUS_CONNECTED | STATUS_AUTHED.
#[export] Instance eStatus_eq_dec : EqDecision eStatus.
Proof. solve_decision. Defined.

(** ** Packed structures: sizes and offsets *)
Definition sizeof_sAuthLogonChallenge_C : Z := 35.
Definition sizeof_sAuthLogonProof_C : Z := 75.
Definition sizeof_sAuthReconnectProof_C : Z := 58.

Definition bytes_at (off n : nat) (buf : list Z) : list Z := take n (drop off buf).
Definition u16_at (off : nat) (buf : list Z) : Z := le_combine (bytes_at off 2 buf).
(** The C string that starts at an offset. *)
Definition cstr_at (off : nat) (buf : list Z) : string := c_str (bytes_str (drop off buf)).

Definition ch_size (buf : list Z) : Z := u16_at 2 buf.
Definition ch_build (buf : list Z) : Z := u16_at 11 buf.
Definition ch_os (buf : list Z) : string := cstr_at 17 buf.
Definition ch_country (buf : list Z) : list Z := bytes_at 21 4 buf.
Definition ch_I (buf : list Z) : string := cstr_at 34 buf.

Definition lp_A (lp : list Z) : list Z := bytes_at 1 32 lp.
Definition lp_M1 (lp : list Z) : list Z := bytes_at 33 20 lp.
Definition lp_securityFlags (lp : list Z) : Z := default 0 (lp !! 74%nat).

Definition lp_R1 (lp : list Z) : list Z := bytes_at 1 16 lp.
Definition lp_R2 (lp : list Z) : list Z := bytes_at 17 20 lp.

(** ** The database

    A query's answer depends on the statements executed before, oldest first. *)
Inductive AuthStmt :=
| LOGIN_UPD_VS (v s username : string)
| LOGIN_UPD_LOGONPROOF (sessionkey last_ip : string) (locale : Z) (os username : string)
| LOGIN_UPD_FAILEDLOGINS (username : string)
| LOGIN_INS_ACCOUNT_AUTO_BANNED (id seconds : Z)
| LOGIN_INS_IP_AUTO_BANNED (ip : string) (seconds : Z).

(** [LOGIN_SEL_LOGONCHALLENGE] *)
Record LogonRow := mkLogonRow {
  lr_sha_pass_hash : string; lr_id : Z; lr_locked : Z; lr_last_ip : string; lr_gmlevel : Z;
  lr_v : string; lr_s : string; lr_token_key : string
}.

Record LoginDB := mkLoginDB {
  sel_ip_banned : list AuthStmt -> string -> bool;
  sel_logonchallenge : list AuthStmt -> string -> option LogonRow;
  sel_account_banned : list AuthStmt -> Z -> option (Z * Z);
  sel_sessionkey : list AuthStmt -> string -> option (string * Z * Z);
  sel_failedlogins : list AuthStmt -> string -> option (Z * Z);
  sel_account_id : list AuthStmt -> string -> option Z;
  sel_num_chars : list AuthStmt -> Z -> Z -> option Z;
  sel_realmlist : list AuthStmt -> list RealmRow
}.

(** What a connection runs in: the database, the clock ([time_at k] is its
    [k]-th reading), the configuration, the client's address. *)
Record AuthEnv := mkAuthEnv {
  db : LoginDB;
  time_at : nat -> Z;
  WrongPass_MaxCount : Z;
  WrongPass_BanTime : Z;
  WrongPass_BanType : bool;
  getRemoteAddress : string;
  remote_addr : Addr
}.

(** ** State *)

(** The fields of [AuthSocket]; [srp_proof] is [_reconnectProof]. *)
Record AuthSocket := mkAuthSocket {
  srp_N : Z; srp_s : Z; srp_g : Z; srp_v : Z; srp_b : Z; srp_B : Z; srp_K : Z; srp_proof : Z;
  _authed : bool;
  _login : string;
  _tokenKey : string;
  _localizationName : string;
  _os : string;
  _build : Z;
  _expversion : Z;
  _accountSecurityLevel : Z
}.

(** The part of [RealmSocket] the session uses: the input not yet read, the
    packets handed to [send], whether [shutdown] was called. *)
Record RealmSocket := mkRealmSocket {
  input_buffer : list Z;
  sk_sent : list (list Z);
  sk_shutdown : bool
}.

Record AuthServer := mkAuthServer {
  conn : AuthSocket;
  sock : RealmSocket;
  LastLoginAttemptTimeForIP : gmap string Z;
  LastLoginAttemptCleanTime : Z;
  realmlist : RealmList;
  executed : list AuthStmt;
  clock : nat;
  draws : nat
}.

Definition srp_N_const : Z := 0x894B645E89E1535BBDAD5B8B290650530801B18EBFBF5E8FAB3C82872A3E9BB7.

Definition set_conn (c : AuthSocket) (w : AuthServer) : AuthServer :=
  mkAuthServer c (sock w) (LastLoginAttemptTimeForIP w) (LastLoginAttemptCleanTime w) (realmlist w)
    (executed w) (clock w) (draws w).
Definition set_sock (k : RealmSocket) (w : AuthServer) : AuthServer :=
  mkAuthServer (conn w) k (LastLoginAttemptTimeForIP w) (LastLoginAttemptCleanTime w) (realmlist w)
    (executed w) (clock w) (draws w).
Definition set_attempts (m : gmap string Z) (clean : Z) (w : AuthServer) : AuthServer :=
  mkAuthServer (conn w) (sock w) m clean (realmlist w) (executed w) (clock w) (draws w).
Definition set_realmlist (l : RealmList) (w : AuthServer) : AuthServer :=
  mkAuthServer (conn w) (sock w) (LastLoginAttemptTimeForIP w) (LastLoginAttemptCleanTime w) l
    (executed w) (clock w) (draws w).

(** Setters of the session's fields, grouped as the handlers assign them. *)
Definition set_authed (a : bool) (c : AuthSocket) : AuthSocket :=
  mkAuthSocket (srp_N c) (srp_s c) (srp_g c) (srp_v c) (srp_b c) (srp_B c) (srp_K c) (srp_proof c)
    a (_login c) (_tokenKey c) (_localizationName c) (_os c) (_build c) (_expversion c) (_accountSecurityLevel c).
Definition set_srp (s v b B K proof : Z) (c : AuthSocket) : AuthSocket :=
  mkAuthSocket (srp_N c) s (srp_g c) v b B K proof
    (_authed c) (_login c) (_tokenKey c) (_localizationName c) (_os c) (_build c) (_expversion c) (_accountSecurityLevel c).
Definition set_vs (v s : Z) (c : AuthSocket) : AuthSocket :=
  set_srp s v (srp_b c) (srp_B c) (srp_K c) (srp_proof c) c.
Definition set_bB (b B : Z) (c : AuthSocket) : AuthSocket :=
  set_srp (srp_s c) (srp_v c) b B (srp_K c) (srp_proof c) c.
Definition set_K (K : Z) (c : AuthSocket) : AuthSocket :=
  set_srp (srp_s c) (srp_v c) (srp_b c) (srp_B c) K (srp_proof c) c.
Definition set_proof (p : Z) (c : AuthSocket) : AuthSocket :=
  set_srp (srp_s c) (srp_v c) (srp_b c) (srp_B c) (srp_K c) p c.
Definition set_login (login : string) (c : AuthSocket) : AuthSocket :=
  mkAuthSocket (srp_N c) (srp_s c) (srp_g c) (srp_v c) (srp_b c) (srp_B c) (srp_K c) (srp_proof c)
    (_authed c) login (_tokenKey c) (_localizationName c) (_os c) (_build c) (_expversion c) (_accountSecurityLevel c).
Definition set_build (build expversion : Z) (c : AuthSocket) : AuthSocket :=
  mkAuthSocket (srp_N c) (srp_s c) (srp_g c) (srp_v c) (srp_b c) (srp_B c) (srp_K c) (srp_proof c)
    (_authed c) (_login c) (_tokenKey c) (_localizationName c) (_os c) build expversion (_accountSecurityLevel c).
Definition set_os (os : string) (c : AuthSocket) : AuthSocket :=
  mkAuthSocket (srp_N c) (srp_s c) (srp_g c) (srp_v c) (srp_b c) (srp_B c) (srp_K c) (srp_proof c)
    (_authed c) (_login c) (_tokenKey c) (_localizationName c) os (_build c) (_expversion c) (_accountSecurityLevel c).
Definition set_level (level : Z) (c : AuthSocket) : AuthSocket :=
  mkAuthSocket (srp_N c) (srp_s c) (srp_g c) (srp_v c) (srp_b c) (srp_B c) (srp_K c) (srp_proof c)
    (_authed c) (_login c) (_tokenKey c) (_localizationName c) (_os c) (_build c) (_expversion c) level.
Definition set_locale (locale : string) (c : AuthSocket) : AuthSocket :=
  mkAuthSocket (srp_N c) (srp_s c) (srp_g c) (srp_v c) (srp_b c) (srp_B c) (srp_K c) (srp_proof c)
    (_authed c) (_login c) (_tokenKey c) locale (_os c) (_build c) (_expversion c) (_accountSecurityLevel c).
Definition set_tokenKey (tokenKey : string) (c : AuthSocket) : AuthSocket :=
  mkAuthSocket (srp_N c) (srp_s c) (srp_g c) (srp_v c) (srp_b c) (srp_B c) (srp_K c) (srp_proof c)
    (_authed c) (_login c) tokenKey (_localizationName c) (_os c) (_build c) (_expversion c) (_accountSecurityLevel c).

(** The constructor: every number it does not set is zero. *)
Definition AuthSocket_new : AuthSocket :=
  mkAuthSocket srp_N_const 0 7 0 0 0 0 0 false EmptyString EmptyString EmptyString EmptyString 0 0 SEC_PLAYER.

(** ** [RealmSocket] *)
Abbreviation AS := (ST AuthServer).

Definition conn_get {A} (f : AuthSocket -> A) : AS A := getS (fun w => f (conn w)).
Definition conn_do (f : AuthSocket -> AuthSocket) : AS unit := modS (fun w => set_conn (f (conn w)) w).

Definition recv_len : AS Z := getS (fun w => Z.of_nat (length (input_buffer (sock w)))).

Definition recv_soft (len : Z) : AS (option (list Z)) :=
  getS (fun w => if Z.of_nat (length (input_buffer (sock w))) <? len then None
                 else Some (take (Z.to_nat len) (input_buffer (sock w)))).

Definition recv_skip (len : Z) : AS unit :=
  modS (fun w => set_sock (mkRealmSocket (drop (Z.to_nat len) (input_buffer (sock w)))
                             (sk_sent (sock w)) (sk_shutdown (sock w))) w).

Definition recv (len : Z) : AS (option (list Z)) :=
  let! ret := recv_soft len in
  match ret with
  | None => retS None
  | Some bytes => recv_skip len ;! retS (Some bytes)
  end.

Definition send (buf : list Z) : AS unit :=
  modS (fun w => set_sock (mkRealmSocket (input_buffer (sock w)) (sk_sent (sock w) ++ [buf])
                             (sk_shutdown (sock w))) w).

Definition shutdown : AS unit :=
  modS (fun w => set_sock (mkRealmSocket (input_buffer (sock w)) (sk_sent (sock w)) true) w).

(** ** Statements, clock, random numbers *)
Definition execute (st : AuthStmt) : AS unit :=
  modS (fun w => mkAuthServer (conn w) (sock w) (LastLoginAttemptTimeForIP w) (LastLoginAttemptCleanTime w)
                   (realmlist w) (executed w ++ [st]) (clock w) (draws w)).

Definition query {A} (q : list AuthStmt -> A) : AS A := getS (fun w => q (executed w)).

(** ** Packets

    A packet under construction is a list of what is appended. *)
Inductive Chunk := F (f : PField) | Raw (l : list Z).

Definition append_chunk (c : Chunk) (b : ByteBuffer) : outcome ByteBuffer :=
  match c with F f => append_field f b | Raw l => append l b end.
Fixpoint append_chunks (cs : list Chunk) (b : ByteBuffer) : outcome ByteBuffer :=
  match cs with [] => Ok b | c :: cs' => let* b := append_chunk c b in append_chunks cs' b end.

Definition append_to (pkt : ByteBuffer) (cs : list Chunk) : AS ByteBuffer := liftS (append_chunks cs pkt).

(** [socket().send] of the contents and size of a packet. *)
Definition send_pkt (pkt : ByteBuffer) : AS unit :=
  let! bytes := liftS (bb_contents pkt) in
  send bytes.

(** The first [n] bytes of an array; reading past its end is undefined. *)
Definition read_array (n : nat) (l : list Z) : outcome (list Z) :=
  if (length l <? n)%nat then UB else Ok (take n l).

(** [localeNames] and [GetLocaleByName] of [shared/Common.cpp]. *)
Definition localeNames : list string :=
  ["enUS"; "koKR"; "frFR"; "deDE"; "zhCN"; "zhTW"; "esES"; "esMX"; "ruRU"]%string.
Definition LOCALE_enUS : Z := 0.
Fixpoint find_locale (i : Z) (name : string) (l : list string) : Z :=
  match l with
  | [] => LOCALE_enUS
  | n :: l' => if String.eqb name n then i else find_locale (i + 1) name l'
  end.
Definition GetLocaleByName (name : string) : Z := find_locale 0 name localeNames.

Section AuthSocket.
  Context `{OpenSSL} `{ACE}.
  Variable env : AuthEnv.

Definition time_now : AS Z :=
  fun w => (mkAuthServer (conn w) (sock w) (LastLoginAttemptTimeForIP w) (LastLoginAttemptCleanTime w)
              (realmlist w) (executed w) (S (clock w)) (draws w), Ok (time_at env (clock w))).

Definition set_rand (numbits : Z) : AS Z :=
  fun w => (mkAuthServer (conn w) (sock w) (LastLoginAttemptTimeForIP w) (LastLoginAttemptCleanTime w)
              (realmlist w) (executed w) (clock w) (S (draws w)), Ok (SetRand numbits (draws w))).

(** ** [_SetVSFields] *)
Definition s_BYTE_SIZE : Z := 32.
Definition SHA_DIGEST_LENGTH : Z := 20.

(** The digest of the password, its leading zeros restored. *)
Definition password_digest (I : Z) : list Z :=
  let mDigest :=
    if GetNumBytes I <=? SHA_DIGEST_LENGTH
    then take (Z.to_nat (GetNumBytes I)) (AsByteArray 0 true I) ++ replicate (20 - Z.to_nat (GetNumBytes I)) 0
    else replicate 20 0 in
  rev mDigest.

Definition private_key (s : Z) (mDigest : list Z) : Z :=
  SetBinary (Finalize (UpdateData mDigest
    (UpdateData (take (Z.to_nat (GetNumBytes s)) (AsByteArray 0 true s)) SHA1_Init))).

Definition _SetVSFields (rI : string) : AS unit :=
  let! s := set_rand (s_BYTE_SIZE * 8) in
  let mDigest := password_digest (SetHexStr rI 0) in
  let x := private_key s mDigest in
  let! g := conn_get srp_g in
  let! N := conn_get srp_N in
  let v := ModExp g x N in
  conn_do (set_vs v s) ;!
  let! login := conn_get _login in
  execute (LOGIN_UPD_VS (AsHexStr v) (AsHexStr s) login).

(** ** [_HandleLogonChallenge] *)

(** The flood protection: [true] when the address has already tried within
    this second.  The attempt is not recorded when the table is cleaned. *)
Definition flood_protection : AS bool :=
  let ipaddr := getRemoteAddress env in
  let! t := time_now in
  let currTime := u32 t in
  let! attempts := getS LastLoginAttemptTimeForIP in
  let! clean := getS LastLoginAttemptCleanTime in
  if match attempts !! ipaddr with Some last => currTime <=? last | None => false end then
    let! pkt := append_to ByteBuffer_new [F (U8 AUTH_LOGON_CHALLENGE); F (U8 0x00); F (U8 WOW_FAIL_UNKNOWN_ACCOUNT)] in
    send_pkt pkt ;! retS true
  else
    (if u32 (clean + 60) <? currTime then modS (set_attempts ∅ currTime)
     else modS (set_attempts (<[ipaddr := currTime]> attempts) clean)) ;!
    retS false.

(** The packet of a challenge, for both kinds: its four-byte header, then as
    much as the header says, and a terminator.  [None] when there is too
    little; the header has then been consumed if it could be read. *)
Definition read_challenge : AS (option (list Z)) :=
  let! hdr := recv 4 in
  let hdr := default [] hdr in
  let remaining := ch_size hdr in
  let! len := recv_len in
  if (remaining <? sizeof_sAuthLogonChallenge_C - 4) || (len <? remaining) then retS None
  else
    let! body := recv remaining in
    retS (Some (hdr ++ default [] body ++ [0])).

(** The challenge itself, and what is remembered of the account. *)
Definition srp_challenge (ch : list Z) (row : LogonRow) (pkt : ByteBuffer) : AS ByteBuffer :=
  let rI := lr_sha_pass_hash row in
  let databaseV := lr_v row in
  let databaseS := lr_s row in
  (if negb (Z.of_nat (String.length databaseV) =? s_BYTE_SIZE * 2)
      || negb (Z.of_nat (String.length databaseS) =? s_BYTE_SIZE * 2)
   then _SetVSFields rI
   else conn_do (fun c => set_vs (SetHexStr databaseV (srp_v c)) (SetHexStr databaseS (srp_s c)) c)) ;!
  let! b := set_rand (19 * 8) in
  let! c := conn_get (fun c => c) in
  let gmod := ModExp (srp_g c) b (srp_N c) in
  let B := BN_mod (BN_add (BN_mul (srp_v c) 3) gmod) (srp_N c) in
  conn_do (set_bB b B) ;!
  (if 32 <? GetNumBytes gmod then liftS (Throw AssertFailure) else retS tt) ;!
  let! unk3 := set_rand (16 * 8) in
  let result := if IsAcceptedClientBuild (_build c) then WOW_SUCCESS else WOW_FAIL_VERSION_INVALID in
  let! B32 := liftS (read_array 32 (AsByteArray 32 true B)) in
  let! g1 := liftS (read_array 1 (AsByteArray 0 true (srp_g c))) in
  let! N32 := liftS (read_array 32 (AsByteArray 32 true (srp_N c))) in
  let! unk16 := liftS (read_array 16 (AsByteArray 16 true unk3)) in
  let! pkt := append_to pkt
    [F (U8 result); Raw B32; F (U8 1); Raw g1; F (U8 32); Raw N32;
     Raw (take (Z.to_nat (GetNumBytes (srp_s c))) (AsByteArray 0 true (srp_s c))); Raw unk16] in
  let tokenKey := lr_token_key row in
  conn_do (set_tokenKey tokenKey) ;!
  let securityFlags := if String.eqb tokenKey EmptyString then 0 else 4 in
  let! pkt := append_to pkt
    ([F (U8 securityFlags)]
     ++ (if has_flag securityFlags 0x01 then [F (U32 0); F (U64 0); F (U64 0)] else [])
     ++ (if has_flag securityFlags 0x02 then [F (U8 0); F (U8 0); F (U8 0); F (U8 0); F (U64 0)] else [])
     ++ (if has_flag securityFlags 0x04 then [F (U8 1)] else [])) in
  conn_do (set_level (clamp_level (lr_gmlevel row))) ;!
  conn_do (set_locale (bytes_str (rev (ch_country ch)))) ;!
  retS pkt.

(** Whether the account may log on, and the challenge if it may. *)
Definition challenge_reply (ch : list Z) (pkt : ByteBuffer) : AS ByteBuffer :=
  let ip_address := getRemoteAddress env in
  let! banned := query (fun h => sel_ip_banned (db env) h ip_address) in
  if banned then append_to pkt [F (U8 WOW_FAIL_BANNED)]
  else
    let! login := conn_get _login in
    let! res2 := query (fun h => sel_logonchallenge (db env) h login) in
    match res2 with
    | None => append_to pkt [F (U8 WOW_FAIL_UNKNOWN_ACCOUNT)]
    | Some row =>
        if (lr_locked row =? 1) && negb (String.eqb (lr_last_ip row) ip_address)
        then append_to pkt [F (U8 WOW_FAIL_LOCKED_ENFORCED)]
        else
          let! banresult := query (fun h => sel_account_banned (db env) h (lr_id row)) in
          match banresult with
          | Some (bandate, unbandate) =>
              append_to pkt [F (U8 (if bandate =? unbandate then WOW_FAIL_BANNED else WOW_FAIL_SUSPENDED))]
          | None => srp_challenge ch row pkt
          end
    end.

Definition _HandleLogonChallenge : AS bool :=
  conn_do (set_authed false) ;!
  let! len := recv_len in
  if len <? sizeof_sAuthLogonChallenge_C then retS false
  else
    let! flooding := flood_protection in
    if flooding then retS true
    else
      let! packet := read_challenge in
      match packet with
      | None => retS false
      | Some ch =>
          let os := ch_os ch in
          conn_do (set_login (ch_I ch)) ;!
          conn_do (set_build (ch_build ch) (expansion_flag (ch_build ch))) ;!
          conn_do (set_os os) ;!
          if (4 <? String.length os)%nat then retS false
          else
            conn_do (set_os (String.rev os)) ;!
            let! pkt := append_to ByteBuffer_new [F (U8 AUTH_LOGON_CHALLENGE); F (U8 0x00)] in
            let! pkt := challenge_reply ch pkt in
            send_pkt pkt ;!
            retS true
      end.

(** ** [_HandleLogonProof] *)

(** [K]: the even and the odd bytes of the secret hashed apart, the digests
    interleaved. *)
Fixpoint evens (l : list Z) : list Z :=
  match l with x :: l' => x :: match l' with _ :: l'' => evens l'' | [] => [] end | [] => [] end.
Fixpoint interleave (a b : list Z) : list Z :=
  match a, b with x :: a', y :: b' => x :: y :: interleave a' b' | _, _ => [] end.

Definition session_key (t : list Z) : Z :=
  SetBinary (interleave (Finalize (UpdateData (evens t) SHA1_Init))
               (Finalize (UpdateData (evens (drop 1 t)) SHA1_Init))).

(** [SHA1(N) xor SHA1(g)] *)
Definition group_hash (N g : Z) : Z :=
  SetBinary (zip_with Z.lxor (Finalize (UpdateBigNumbers [N] SHA1_Init)) (Finalize (UpdateBigNumbers [g] SHA1_Init))).

Definition scrambler (A B : Z) : Z := SetBinary (Finalize (UpdateBigNumbers [A; B] SHA1_Init)).

(** The proof the server expects. *)
Definition expected_M (N g s A B K : Z) (login : string) : Z :=
  let t4 := Finalize (UpdateData (str_bytes login) SHA1_Init) in
  SetBinary (Finalize (UpdateBigNumbers [s; A; B; K]
    (UpdateData t4 (UpdateBigNumbers [group_hash N g] SHA1_Init)))).

Definition expected_M2 (A M K : Z) : list Z := Finalize (UpdateBigNumbers [A; M; K] SHA1_Init).

(** The secret of the server: [(A * v^u)^b mod N]. *)
Definition server_secret (A u : Z) (c : AuthSocket) : Z :=
  ModExp (BN_mul A (ModExp (srp_v c) u (srp_N c))) (srp_b c) (srp_N c).

Definition failed_data : list Z := [AUTH_LOGON_PROOF; WOW_FAIL_UNKNOWN_ACCOUNT; 3; 0].

(** The token sent with the proof: [true] when it is the right one.  What
    [recv] does not deliver is not initialised. *)
Definition check_token : AS bool :=
  let! sz := recv 1 in
  match sz with
  | Some [size] =>
      let! token := recv size in
      match token with
      | Some token =>
          let! t := time_now in
          let! key := conn_get _tokenKey in
          let! validToken := liftS (GenerateToken t key) in
          retS (validToken =? u32 (atoi (c_str (bytes_str token))))
      | None => liftS UB
      end
  | _ => liftS UB
  end.

Definition wrong_password : AS unit :=
  send failed_data ;!
  if 0 <? u32 (WrongPass_MaxCount env) then
    let! login := conn_get _login in
    execute (LOGIN_UPD_FAILEDLOGINS login) ;!
    let! loginfail := query (fun h => sel_failedlogins (db env) h login) in
    match loginfail with
    | Some (acc_id, failed_logins) =>
        if u32 (WrongPass_MaxCount env) <=? failed_logins then
          execute (if WrongPass_BanType env then LOGIN_INS_ACCOUNT_AUTO_BANNED acc_id (u32 (WrongPass_BanTime env))
                   else LOGIN_INS_IP_AUTO_BANNED (getRemoteAddress env) (u32 (WrongPass_BanTime env)))
        else retS tt
    | None => retS tt
    end
  else retS tt.

(** The proof matched: the session key is stored before the token is looked
    at. *)
Definition right_password (lp : list Z) (A M : Z) : AS bool :=
  let! c := conn_get (fun c => c) in
  execute (LOGIN_UPD_LOGONPROOF (AsHexStr (srp_K c)) (getRemoteAddress env)
             (GetLocaleByName (_localizationName c)) (_os c) (_login c)) ;!
  let M2 := expected_M2 A M (srp_K c) in
  let! valid := (if has_flag (lp_securityFlags lp) 0x04 || negb (String.eqb (_tokenKey c) EmptyString)
                 then check_token else retS true) in
  if negb valid then send failed_data ;! retS false
  else
    send ([AUTH_LOGON_PROOF; 0] ++ M2
          ++ (if has_flag (_expversion c) POST_BC_EXP_FLAG
              then le_split 4 0x00800000 ++ le_split 4 0 ++ le_split 2 0 else le_split 4 0)) ;!
    conn_do (set_authed true) ;!
    retS true.

Definition _HandleLogonProof : AS bool :=
  conn_do (set_authed false) ;!
  let! packet := recv sizeof_sAuthLogonProof_C in
  match packet with
  | None => retS false
  | Some lp =>
      let! c := conn_get (fun c => c) in
      if _expversion c =? NO_VALID_EXP_FLAG then shutdown ;! retS true
      else
        let A := SetBinary (lp_A lp) in
        if isZero (BN_mod A (srp_N c)) then shutdown ;! retS true
        else
          let u := scrambler A (srp_B c) in
          let S := server_secret A u c in
          let! t := liftS (read_array 32 (AsByteArray 32 true S)) in
          let K := session_key t in
          conn_do (set_K K) ;!
          let M := expected_M (srp_N c) (srp_g c) (srp_s c) A (srp_B c) K (_login c) in
          let! M20 := liftS (read_array 20 (AsByteArray 0 true M)) in
          if bool_decide (M20 = lp_M1 lp) then right_password lp A M
          else wrong_password ;! retS true
  end.

(** ** [_HandleReconnectChallenge], [_HandleReconnectProof] *)
Definition _HandleReconnectChallenge : AS bool :=
  let! len := recv_len in
  if len <? sizeof_sAuthLogonChallenge_C then retS false
  else
    let! packet := read_challenge in
    match packet with
    | None => retS false
    | Some ch =>
        let login := ch_I ch in
        conn_do (set_login login) ;!
        let! result := query (fun h => sel_sessionkey (db env) h login) in
        match result with
        | None => shutdown ;! retS false
        | Some (sessionkey, _, gmlevel) =>
            let os := ch_os ch in
            conn_do (set_build (ch_build ch) (expansion_flag (ch_build ch))) ;!
            conn_do (set_os os) ;!
            if (4 <? String.length os)%nat then retS false
            else
              conn_do (set_os (String.rev os)) ;!
              conn_do (set_level (clamp_level gmlevel)) ;!
              conn_do (fun c => set_K (SetHexStr sessionkey (srp_K c)) c) ;!
              let! proof := set_rand (16 * 8) in
              conn_do (set_proof proof) ;!
              let! proof16 := liftS (read_array 16 (AsByteArray 16 true proof)) in
              let! pkt := append_to ByteBuffer_new
                [F (U8 AUTH_RECONNECT_CHALLENGE); F (U8 0x00); Raw proof16; F (U64 0); F (U64 0)] in
              send_pkt pkt ;!
              retS true
        end
    end.

Definition reconnect_digest (login : string) (t1 proof K : Z) : list Z :=
  Finalize (UpdateBigNumbers [t1; proof; K] (UpdateData (str_bytes login) SHA1_Init)).

Definition _HandleReconnectProof : AS bool :=
  conn_do (set_authed false) ;!
  let! packet := recv sizeof_sAuthReconnectProof_C in
  match packet with
  | None => retS false
  | Some lp =>
      let! c := conn_get (fun c => c) in
      if String.eqb (_login c) EmptyString || (GetNumBytes (srp_proof c) =? 0) || (GetNumBytes (srp_K c) =? 0)
      then retS false
      else
        let t1 := SetBinary (lp_R1 lp) in
        if bool_decide (reconnect_digest (_login c) t1 (srp_proof c) (srp_K c) = lp_R2 lp) then
          let! pkt := append_to ByteBuffer_new [F (U8 AUTH_RECONNECT_PROOF); F (U8 0x00); F (U16 0x00)] in
          send_pkt pkt ;!
          conn_do (set_authed true) ;!
          retS true
        else shutdown ;! retS false
  end.

(** ** [_HandleRealmList] *)
Definition update_realmlist : AS unit :=
  let! l := getS realmlist in
  if m_UpdateInterval l =? 0 then retS tt
  else
    let! time1 := time_now in
    if time1 <? m_NextUpdateTime l then retS tt
    else
      let! time2 := time_now in
      let! result := query (sel_realmlist (db env)) in
      modS (set_realmlist (UpdateIfNeed time1 time2 result l)).

Definition okBuild (c : AuthSocket) (realm : Realm) : bool :=
  (has_flag (_expversion c) POST_BC_EXP_FLAG && (gamebuild realm =? _build c))
  || (has_flag (_expversion c) PRE_BC_EXP_FLAG && negb (IsPreBCAcceptedClientBuild (s32 (gamebuild realm)))).

(** The flags a realm is shown with; [None] when it is not shown. *)
Definition shown_flag (c : AuthSocket) (realm : Realm) : option Z :=
  let known := bool_decide (is_Some (GetBuildInfo (s32 (gamebuild realm)))) in
  if negb (okBuild c realm) && negb known then None
  else
    let flg := if okBuild c realm then flag realm
               else Z.lor (flag realm) (Z.lor REALM_FLAG_OFFLINE REALM_FLAG_SPECIFYBUILD) in
    Some (if known then flg else del_flag flg REALM_FLAG_SPECIFYBUILD).

Definition shown_name (c : AuthSocket) (flg : Z) (name : string) (buildInfo : option RealmBuildInfo) : outcome string :=
  if has_flag (_expversion c) PRE_BC_EXP_FLAG && has_flag flg REALM_FLAG_SPECIFYBUILD then
    match buildInfo with
    | None => UB
    | Some i => Ok (name +:+ " (" +:+ print_u64 (MajorVersion i) +:+ "." +:+ print_u64 (MinorVersion i)
                    +:+ "." +:+ print_u64 (BugfixVersion i) +:+ ")")%string
    end
  else Ok name.

Definition shown_build (c : AuthSocket) (flg : Z) (buildInfo : option RealmBuildInfo) : outcome (list Chunk) :=
  if has_flag (_expversion c) POST_BC_EXP_FLAG && has_flag flg REALM_FLAG_SPECIFYBUILD then
    match buildInfo with
    | None => UB
    | Some i => Ok [F (U8 (MajorVersion i)); F (U8 (MinorVersion i)); F (U8 (BugfixVersion i)); F (U16 (Build i))]
    end
  else Ok [].

(** One round: the packet so far and the number of realms in it. *)
Definition append_realm (id : Z) (pkt : ByteBuffer) (RealmListSize : Z) (entry : string * Realm) : AS (ByteBuffer * Z) :=
  let realm := entry.2 in
  let! c := conn_get (fun c => c) in
  match shown_flag c realm with
  | None => retS (pkt, RealmListSize)
  | Some flg =>
      let buildInfo := GetBuildInfo (s32 (gamebuild realm)) in
      let post := has_flag (_expversion c) POST_BC_EXP_FLAG in
      let! name := liftS (shown_name c flg entry.1 buildInfo) in
      let clientAddr := set_port_number (get_port_number (ExternalAddress realm)) (remote_addr env) in
      let lock := if _accountSecurityLevel c <? allowedSecurityLevel realm then 1 else 0 in
      let! chars := query (fun h => sel_num_chars (db env) h (m_ID realm) id) in
      let AmountOfCharacters := default 0 chars in
      let! version := liftS (shown_build c flg buildInfo) in
      let! pkt := append_to pkt
        ([F (U8 (icon realm))] ++ (if post then [F (U8 lock)] else [])
         ++ [F (U8 flg); F (Str name); F (Str (GetAddressString (GetAddressForClient realm clientAddr)));
             F (F32 (populationLevel realm)); F (U8 AmountOfCharacters); F (U8 (timezone realm));
             F (U8 (if post then 0x2C else 0x0))] ++ version) in
      retS (pkt, RealmListSize + 1)
  end.

Fixpoint append_realms (id : Z) (pkt : ByteBuffer) (RealmListSize : Z) (l : list (string * Realm)) : AS (ByteBuffer * Z) :=
  match l with
  | [] => retS (pkt, RealmListSize)
  | entry :: l' =>
      let! '(pkt, RealmListSize) := append_realm id pkt RealmListSize entry in
      append_realms id pkt RealmListSize l'
  end.

Definition _HandleRealmList : AS bool :=
  let! len := recv_len in
  if len <? 5 then retS false
  else
    recv_skip 5 ;!
    let! login := conn_get _login in
    let! result := query (fun h => sel_account_id (db env) h login) in
    match result with
    | None => shutdown ;! retS false
    | Some id =>
        update_realmlist ;!
        let! realms := getS (fun w => realms_in_order (realmlist w)) in
        let! '(pkt, RealmListSize) := append_realms id ByteBuffer_new 0 realms in
        let! c := conn_get (fun c => c) in
        let post := has_flag (_expversion c) POST_BC_EXP_FLAG in
        let! pkt := append_to pkt (if post then [F (U8 0x10); F (U8 0x00)] else [F (U8 0x00); F (U8 0x02)]) in
        let! sizes := append_to ByteBuffer_new [F (U32 0); F (if post then U16 RealmListSize else U32 RealmListSize)] in
        let! hdr := append_to ByteBuffer_new [F (U8 REALM_LIST); F (U16 (bb_size pkt + bb_size sizes))] in
        let! hdr := liftS (append_buffer sizes hdr) in
        let! hdr := liftS (append_buffer pkt hdr) in
        send_pkt hdr ;!
        retS true
    end.

(** ** Patch transfer: the file is never opened, so [pPatch] is null *)
Definition _HandleXferResume : AS bool := retS false.
Definition _HandleXferAccept : AS bool := retS false.
Definition _HandleXferCancel : AS bool := recv_skip 1 ;! shutdown ;! retS true.

(** ** [OnRead] *)
Definition table : list (Z * eStatus * AS bool) := [
  (AUTH_LOGON_CHALLENGE, STATUS_CONNECTED, _HandleLogonChallenge);
  (AUTH_LOGON_PROOF, STATUS_CONNECTED, _HandleLogonProof);
  (AUTH_RECONNECT_CHALLENGE, STATUS_CONNECTED, _HandleReconnectChallenge);
  (AUTH_RECONNECT_PROOF, STATUS_CONNECTED, _HandleReconnectProof);
  (REALM_LIST, STATUS_AUTHED, _HandleRealmList);
  (XFER_ACCEPT, STATUS_CONNECTED, _HandleXferAccept);
  (XFER_RESUME, STATUS_CONNECTED, _HandleXferResume);
  (XFER_CANCEL, STATUS_CONNECTED, _HandleXferCancel)
].

Fixpoint find_handler (cmd : Z) (authed : bool) (t : list (Z * eStatus * AS bool)) : option (AS bool) :=
  match t with
  | [] => None
  | (c, status, handler) :: t' =>
      if (c =? cmd) && (bool_decide (status = STATUS_CONNECTED) || (authed && bool_decide (status = STATUS_AUTHED)))
      then Some handler else find_handler cmd authed t'
  end.

Definition MAX_AUTH_LOGON_CHALLENGES_IN_A_ROW : Z := 35.

(** What is left to do after one command: [None] to return, or the count to
    go on with. *)
Definition OnRead_round (challengesInARow : Z) : AS (option Z) :=
  let! cmd := recv_soft 1 in
  match cmd with
  | Some [cmd] =>
      let challengesInARow := if cmd =? AUTH_LOGON_CHALLENGE then challengesInARow + 1 else challengesInARow in
      if (cmd =? AUTH_LOGON_CHALLENGE) && (challengesInARow =? MAX_AUTH_LOGON_CHALLENGES_IN_A_ROW)
      then shutdown ;! retS None
      else
        let! authed := conn_get _authed in
        match find_handler cmd authed table with
        | None => shutdown ;! retS None
        | Some handler =>
            let! ok := handler in
            retS (if ok then Some challengesInARow else None)
        end
  | _ => retS None
  end.

(** The loop; [false] when the fuel runs out. *)
Fixpoint OnRead_loop (fuel : nat) (challengesInARow : Z) : AS bool :=
  match fuel with
  | O => retS false
  | S fuel' =>
      let! next := OnRead_round challengesInARow in
      match next with None => retS true | Some n => OnRead_loop fuel' n end
  end.

(** Every round reads a byte at least, or is one of at most 34 logon
    challenges that read nothing. *)
Definition OnRead_fuel (w : AuthServer) : nat := length (input_buffer (sock w)) + 36.

Definition OnRead : AS bool := fun w => OnRead_loop (OnRead_fuel w) 0 w.

(** [RealmSocket::handle_input]: [bytes] is what the system had, at most the
    free space of the buffer; the result is the handler's. *)
Definition input_capacity : Z := 4096.

Definition handle_input (received : option (list Z)) : AS Z :=
  let! down := getS (fun w => sk_shutdown (sock w)) in
  if down then retS (-1)
  else
    match received with
    | None => retS 0
    | Some bytes =>
        let! len := recv_len in
        let space := input_capacity - len in
        let n := take (Z.to_nat space) bytes in
        if (length n =? 0)%nat then retS (-1)
        else
          modS (fun w => set_sock (mkRealmSocket (input_buffer (sock w) ++ n) (sk_sent (sock w)) (sk_shutdown (sock w))) w) ;!
          OnRead ;!
          retS (if Z.of_nat (length n) =? space then 1 else 0)
    end.
End AuthSocket.
