(* ===== verification/AuthFacts.v ===== *)
(** * The authentication server: how it runs

    What each handler does to the connection's input and to what was sent,
    that [OnRead] always comes to an end, and what has to have happened before
    a connection counts as authenticated. *)
From Stdlib Require Import Ascii String ZArith Lia.
From stdpp Require Import base gmap list strings.
From S2P Require Import Prelude ByteBuffer BigNumber Totp World StateM RealmList AuthSocket.

Open Scope Z_scope.

(** ** Rules for the primitives *)
Ltac as_unfold :=
  unfold conn_get, conn_do, recv_len, recv_soft, recv_skip, recv, send, shutdown, execute, query, append_to,
    send_pkt, time_now, set_rand in *.

Ltac as_proj :=
  cbn [conn sock LastLoginAttemptTimeForIP LastLoginAttemptCleanTime realmlist executed clock draws
       set_conn set_sock set_attempts set_realmlist input_buffer sk_sent sk_shutdown
       _authed _login _tokenKey _localizationName _os _build _expversion _accountSecurityLevel
       srp_N srp_s srp_g srp_v srp_b srp_B srp_K srp_proof
       set_authed set_srp set_vs set_bB set_K set_proof set_login set_build set_os set_level set_locale set_tokenKey] in *.

Lemma wp_time env (Q : Z -> AuthServer -> Prop) E w :
  Q (time_at env (clock w)) (mkAuthServer (conn w) (sock w) (LastLoginAttemptTimeForIP w) (LastLoginAttemptCleanTime w)
              (realmlist w) (executed w) (S (clock w)) (draws w)) -> wp (time_now env) Q E w.
Proof. done. Qed.

Lemma wp_rand `{OpenSSL} numbits (Q : Z -> AuthServer -> Prop) E w :
  Q (SetRand numbits (draws w)) (mkAuthServer (conn w) (sock w) (LastLoginAttemptTimeForIP w) (LastLoginAttemptCleanTime w)
              (realmlist w) (executed w) (clock w) (S (draws w))) -> wp (set_rand numbits) Q E w.
Proof. done. Qed.

Lemma wp_recv len (Q : option (list Z) -> AuthServer -> Prop) E w :
  (Z.of_nat (length (input_buffer (sock w))) < len -> Q None w) ->
  (len <= Z.of_nat (length (input_buffer (sock w))) ->
   Q (Some (take (Z.to_nat len) (input_buffer (sock w))))
     (set_sock (mkRealmSocket (drop (Z.to_nat len) (input_buffer (sock w))) (sk_sent (sock w)) (sk_shutdown (sock w))) w)) ->
  wp (recv len) Q E w.
Proof.
  intros Hn Hs. unfold recv, recv_soft, recv_skip. apply wpS_bind, wp_get.
  destruct (Z.ltb_spec (Z.of_nat (length (input_buffer (sock w)))) len); [by apply Hn|].
  apply wpS_bind, wp_mod, wpS_ret. by apply Hs.
Qed.

Ltac as_step :=
  match goal with
  | |- wp (time_now _) _ _ _ => apply wp_time
  | |- wp (set_rand _) _ _ _ => apply wp_rand
  | |- wp (recv _) _ _ _ => apply wp_recv; intros ?
  | |- wp (send_pkt _) _ _ _ => unfold send_pkt
  | |- wp (append_to _ _) _ _ _ => unfold append_to; apply wpS_lift; [intros ? ?|]
  | |- wp (conn_get _) _ _ _ => unfold conn_get
  | |- wp (conn_do _) _ _ _ => unfold conn_do
  | |- wp (query _) _ _ _ => unfold query
  | |- wp (execute _) _ _ _ => unfold execute
  | |- wp (send _) _ _ _ => unfold send
  | |- wp (recv_skip _) _ _ _ => unfold recv_skip
  | |- wp (recv_soft _) _ _ _ => unfold recv_soft
  | |- wp recv_len _ _ _ => unfold recv_len
  | |- wp shutdown _ _ _ => unfold shutdown
  | |- wp (match ?p with pair _ _ => _ end) _ _ _ => destruct p
  | _ => wp_step
  end; as_proj.
Ltac as_steps := repeat as_step.

(** The steps that have one way to go. *)
Ltac as_line := as_proj; repeat (
  match goal with
  | |- wp (bindS _ _) _ _ _ => apply wpS_bind
  | |- wp (getS _) _ _ _ => apply wp_get
  | |- wp (modS _) _ _ _ => apply wp_mod
  | |- wp (retS _) _ _ _ => apply wpS_ret
  | |- wp (time_now _) _ _ _ => apply wp_time
  | |- wp (set_rand _) _ _ _ => apply wp_rand
  | |- wp (conn_get _) _ _ _ => unfold conn_get
  | |- wp (conn_do _) _ _ _ => unfold conn_do
  | |- wp (query _) _ _ _ => unfold query
  | |- wp (execute _) _ _ _ => unfold execute
  | |- wp (send _) _ _ _ => unfold send
  | |- wp (recv_skip _) _ _ _ => unfold recv_skip
  | |- wp (recv_soft _) _ _ _ => unfold recv_soft
  | |- wp recv_len _ _ _ => unfold recv_len
  | |- wp shutdown _ _ _ => unfold shutdown
  end; as_proj).

(** ** What the handlers leave alone

    A reply is computed without touching the socket; [quiet] computations keep
    it as it is, and whether the connection is authenticated. *)
Section Facts.
  Context `{OpenSSL} `{ACE}.
  Variable env : AuthEnv.

Definition quiet {A} (m : AS A) : Prop :=
  forall w, wp m (fun _ w' => sock w' = sock w /\ _authed (conn w') = _authed (conn w) /\ _login (conn w') = _login (conn w))
              (fun w' => sock w' = sock w /\ _authed (conn w') = _authed (conn w)) w.

Lemma quiet_SetVS rI : quiet (_SetVSFields rI).
Proof. intros w. unfold _SetVSFields. as_steps; done. Qed.

Lemma quiet_bind {A B} (m : AS A) (k : A -> AS B) : quiet m -> (forall a, quiet (k a)) -> quiet (bindS m k).
Proof.
  intros Hm Hk w. apply wpS_bind. eapply wpS_mono; [apply Hm| |done].
  intros a w' (Hs & Ha & Hl). cbn beta in *. eapply wpS_mono; [apply Hk| |].
  - intros b w'' (-> & -> & ->). done.
  - intros w'' [-> ->]. done.
Qed.

Lemma quiet_srp_challenge ch row pkt : quiet (srp_challenge ch row pkt).
Proof.
  unfold srp_challenge. cbv zeta. apply quiet_bind.
  - destruct (_ || _); [apply quiet_SetVS|]. intros w. as_steps; done.
  - intros [] w. as_steps; done.
Qed.

Lemma quiet_challenge_reply ch pkt : quiet (challenge_reply env ch pkt).
Proof.
  intros w. unfold challenge_reply. as_steps; try done. apply quiet_srp_challenge.
Qed.

Lemma quiet_update_realmlist : quiet (update_realmlist env).
Proof. intros w. unfold update_realmlist. as_steps; done. Qed.

Lemma quiet_append_realms id pkt n l : quiet (append_realms env id pkt n l).
Proof.
  revert pkt n. induction l as [|e l IH]; intros pkt n; cbn [append_realms]; [by intros w; as_steps|].
  apply quiet_bind.
  - intros w. unfold append_realm. as_steps; done.
  - intros [pkt' n']. apply IH.
Qed.
End Facts.

(** ** Packets

    A buffer written at its end only, and its first byte. *)
Definition at_end (b : ByteBuffer) : Prop := _wpos b = bb_size b.

Lemma append_ok src b b' :
  at_end b -> append src b = Ok b' -> b' = mkBB (_rpos b) (bb_size b + Z.of_nat (length src)) (_storage b ++ src).
Proof.
  unfold at_end. intros Hw Ha.
  destruct (Z.ltb_spec (bb_size b + Z.of_nat (length src)) (2 ^ 64)) as [Hlt|Hge].
  - destruct src as [|x src]; [unfold append in Ha; cbn in Ha; done|].
    destruct (Z.ltb_spec (bb_size b) max_size) as [Hm|Hm].
    + rewrite append_end in Ha by done. by simplify_eq.
    + unfold append in Ha. destruct (Z.of_nat _ =? 0); [done|].
      rewrite (proj2 (Z.ltb_ge _ _)) in Ha by done. done.
  - unfold append in Ha. destruct (Z.of_nat (length src) =? 0) eqn:E0; [done|].
    destruct (negb _); [done|]. rewrite Hw in Ha. exfalso.
    set (ns := u64 (bb_size b + Z.of_nat (length src))) in *.
    assert (0 <= ns < 2 ^ 64) as Hns by (apply (wrap_range 64); lia).
    unfold write_at in Ha.
    destruct (bb_size b <? ns) eqn:El.
    + unfold vresize in Ha. rewrite (proj2 (Z.ltb_lt _ _)) in Ha; [done|].
      rewrite length_app, length_take, length_replicate. unfold bb_size in *. lia.
    + rewrite (proj2 (Z.ltb_lt _ _)) in Ha; [done|]. unfold bb_size in *. apply Z.eqb_neq in E0. lia.
Qed.

Definition chunk_bytes (c : Chunk) : list Z := match c with F f => field_bytes f | Raw l => l end.
Definition chunks_bytes (cs : list Chunk) : list Z := concat (chunk_bytes <$> cs).

Lemma append_field_ok f b b' :
  at_end b -> append_field f b = Ok b' -> at_end b' /\ _storage b' = _storage b ++ field_bytes f.
Proof.
  intros Hb. assert (forall n v b b', at_end b -> append_int n v b = Ok b' -> at_end b' /\ _storage b' = _storage b ++ le_split n v) as Hi.
  { intros n v c c' Hc Ha. apply append_ok in Ha; [|done]. subst c'. split; [|done].
    unfold at_end, bb_size. cbn. rewrite length_app. lia. }
  destruct f as [v|v|v|v|v|v|s]; cbn [append_field field_bytes]; try by apply Hi.
  unfold append_string. destruct (Nat.eqb_spec (String.length s) 0) as [E|E]; cbn [obind]; intros Ha.
  - destruct s; [|done]. apply Hi in Ha; [|done]. destruct Ha as [He Hst]. split; [done|]. by rewrite Hst.
  - destruct (append (str_bytes s) b) as [c|e|] eqn:Es; cbn [obind] in Ha; [|done|done].
    apply append_ok in Es; [|done]. subst c. apply Hi in Ha as [He Hst].
    + split; [done|]. rewrite Hst. cbn [_storage]. by rewrite <- app_assoc.
    + unfold at_end, bb_size. cbn. rewrite length_app. lia.
Qed.

Lemma append_chunks_ok cs b b' :
  at_end b -> append_chunks cs b = Ok b' -> at_end b' /\ _storage b' = _storage b ++ chunks_bytes cs.
Proof.
  revert b. induction cs as [|c cs IH]; intros b Hb; cbn [append_chunks chunks_bytes fmap list_fmap concat].
  - intros [= <-]. by rewrite app_nil_r.
  - destruct (append_chunk c b) as [d|e|] eqn:Ed; cbn [obind]; [|done|done]. intros Ha.
    assert (at_end d /\ _storage d = _storage b ++ chunk_bytes c) as [Hd Hst].
    { destruct c as [f|l]; cbn [append_chunk chunk_bytes] in *; [by apply append_field_ok|].
      apply append_ok in Ed; [|done]. subst d. split; [|done]. unfold at_end, bb_size. cbn. rewrite length_app. lia. }
    apply IH in Ha as [Ha Hst']; [|done]. split; [done|]. by rewrite Hst', Hst, <- app_assoc.
Qed.

Lemma append_buffer_ok src b b' :
  at_end b -> at_end src -> append_buffer src b = Ok b' -> at_end b' /\ _storage b' = _storage b ++ _storage src.
Proof.
  intros Hb Hs. unfold append_buffer. unfold at_end in Hs. rewrite Hs.
  destruct (Z.eqb_spec (bb_size src) 0) as [E|E].
  - intros [= <-]. split; [done|]. unfold bb_size in E. destruct (_storage src); [by rewrite app_nil_r|cbn in E; lia].
  - unfold bb_contents. destruct (bb_empty src); [done|]. cbn [obind]. rewrite Z.ltb_irrefl.
    unfold bb_size at 1. rewrite Nat2Z.id, take_ge by done. intros Ha. apply append_ok in Ha; [|done]. subst b'.
    split; [|done]. unfold at_end, bb_size. cbn. rewrite length_app. lia.
Qed.

Lemma contents_ok b l : bb_contents b = Ok l -> l = _storage b.
Proof. unfold bb_contents. by destruct (bb_empty b); intros [= <-]. Qed.

Definition chunk_nonempty (c : Chunk) : bool := match c with Raw [] => false | _ => true end.

Lemma append_chunks_end cs b :
  at_end b -> forallb chunk_nonempty cs = true -> bb_size b + Z.of_nat (length (chunks_bytes cs)) <= max_size ->
  exists b', append_chunks cs b = Ok b'.
Proof.
  revert b. induction cs as [|c cs IH]; intros b Hb Hc Hm; cbn [append_chunks forallb] in *; [by eexists|].
  apply andb_prop in Hc as [Hc Hcs]. unfold chunks_bytes in Hm. cbn [fmap list_fmap concat] in Hm.
  rewrite length_app in Hm. fold (chunks_bytes cs) in Hm.
  assert (exists d, append_chunk c b = Ok d) as [d Hd].
  { destruct c as [f|l]; cbn [append_chunk chunk_bytes] in *.
    - eexists. apply append_field_end; [done|lia].
    - destruct l as [|x l]; [done|]. unfold max_size in *. cbn [length] in *. eexists. apply append_end; try done; unfold max_size; cbn [length]; lia. }
  rewrite Hd. cbn [obind]. assert (append_chunks [c] b = Ok d) as H1 by (cbn; by rewrite Hd).
  apply append_chunks_ok in H1 as [He Hs]; [|done]. apply IH; [done|done|].
  unfold bb_size. rewrite Hs, length_app. unfold chunks_bytes at 1. cbn [fmap list_fmap concat]. rewrite app_nil_r.
  unfold bb_size in Hm. lia.
Qed.

Lemma new_at_end : at_end ByteBuffer_new.
Proof. done. Qed.

(** ** What was sent

    A packet that tells the client it is logged in; the realm list. *)
Definition login_success (p : list Z) : bool :=
  match p with cmd :: err :: _ => ((cmd =? AUTH_LOGON_PROOF) || (cmd =? AUTH_RECONNECT_PROOF)) && (err =? 0) | _ => false end.
Definition is_realm_list (p : list Z) : bool := match p with cmd :: _ => cmd =? REALM_LIST | [] => false end.

Definition vetted (w : AuthServer) : Prop :=
  (_authed (conn w) = true -> Exists (fun p => login_success p = true) (sk_sent (sock w)))
  /\ forall i p, sk_sent (sock w) !! i = Some p -> is_realm_list p = true ->
       Exists (fun q => login_success q = true) (take i (sk_sent (sock w))).

(** The same with one more packet, unless it is a realm list too early. *)
Lemma vetted_send w w' p :
  vetted w -> sk_sent (sock w') = sk_sent (sock w) ++ [p] ->
  (_authed (conn w') = true -> _authed (conn w) = true \/ login_success p = true) ->
  (is_realm_list p = true -> _authed (conn w) = true) ->
  vetted w'.
Proof.
  intros [Ha Hr] Hs Hauth Hlist. split.
  - intros Ht. rewrite Hs. apply Exists_app. destruct (Hauth Ht) as [Hw|Hp]; [left; by apply Ha|].
    right. by constructor.
  - intros i q Hi Hq. rewrite Hs in *. apply lookup_app_Some in Hi as [Hi|[Hle Hi]].
    + assert (i < length (sk_sent (sock w)))%nat by (by eapply lookup_lt_Some).
      rewrite take_app_le by lia. by apply (Hr i q).
    + assert (i = length (sk_sent (sock w))) as ->.
      { apply lookup_lt_Some in Hi as Hlt. cbn in Hlt. lia. }
      rewrite Nat.sub_diag in Hi. cbn in Hi. simplify_eq.
      rewrite take_app_length. by apply Ha, Hlist.
Qed.

Lemma vetted_same w w' :
  vetted w -> sk_sent (sock w') = sk_sent (sock w) -> (_authed (conn w') = true -> _authed (conn w) = true) -> vetted w'.
Proof. intros [Ha Hr] Hs Hw. split; rewrite Hs; [|done]. intros Ht. by apply Ha, Hw. Qed.

(** ** The handlers

    What a handler may do to the input ([consumes]: it reads at least one byte
    whenever it asks [OnRead] to go on; [shrinks]: it never gives any back),
    and that it keeps [vetted]. *)
Definition buf (w : AuthServer) : nat := length (input_buffer (sock w)).

Definition handled (pre : AuthServer -> Prop) (least : nat) (m : AS bool) : Prop :=
  forall w, vetted w -> pre w ->
    wp m (fun b w' => vetted w' /\ (buf w' <= buf w)%nat /\ (b = true -> (buf w' + least <= buf w)%nat))
       (fun w' => vetted w') w.

Ltac unauthed := match goal with H : vetted ?w |- vetted _ => solve [apply (vetted_same w); [exact H|done|let Hx := fresh in intros Hx; first [discriminate Hx|exact Hx|as_proj; congruence]]] end.

(** A challenge that has not arrived in full loses its header. *)
Lemma read_challenge_short w :
  (4 <= length (input_buffer (sock w)))%nat ->
  Z.of_nat (length (input_buffer (sock w))) < 4 + ch_size (take 4 (input_buffer (sock w))) ->
  read_challenge w = (set_sock (mkRealmSocket (drop 4 (input_buffer (sock w))) (sk_sent (sock w)) (sk_shutdown (sock w))) w, Ok None).
Proof.
  intros H4 Hshort.
  enough (wp read_challenge (fun r w' => r = None
    /\ w' = set_sock (mkRealmSocket (drop 4 (input_buffer (sock w))) (sk_sent (sock w)) (sk_shutdown (sock w))) w) (fun _ => False) w) as Hwp
    by (apply wpS_run in Hwp as (r & w' & -> & -> & ->); done).
  unfold read_challenge. as_line. apply wp_recv; as_proj; intros H4'; [exfalso; lia|]. as_line.
  change (Z.to_nat 4) with 4%nat. rewrite length_drop.
  apply wp_if; intros Hc; [by apply wpS_ret|]. exfalso. apply orb_false_iff in Hc as [_ Hc%Z.ltb_ge]. unfold default, id in Hc. lia.
Qed.

(** [read_challenge] only reads. *)
Lemma wp_read_challenge (Q : option (list Z) -> AuthServer -> Prop) E w :
  (35 <= Z.of_nat (buf w)) ->
  (forall r n, (4 <= n)%nat -> (is_Some r -> (35 <= n)%nat) -> (n <= buf w)%nat ->
     Q r (set_sock (mkRealmSocket (drop n (input_buffer (sock w))) (sk_sent (sock w)) (sk_shutdown (sock w))) w)) ->
  wp read_challenge Q E w.
Proof.
  unfold buf. intros Hlen HQ. unfold read_challenge. as_steps; try lia.
  - apply (HQ None 4%nat); [lia|intros [? ?]; done|lia].
  - bool_props. unfold sizeof_sAuthLogonChallenge_C in *. cbn [default] in *.
    rewrite drop_drop. rewrite length_drop in *. apply HQ; [lia|intros _; lia|lia].
Qed.

Lemma send_pkt_vetted pkt (Q : unit -> AuthServer -> Prop) (E : AuthServer -> Prop) w :
  E w ->
  (forall l, bb_contents pkt = Ok l ->
     Q tt (set_sock (mkRealmSocket (input_buffer (sock w)) (sk_sent (sock w) ++ [l]) (sk_shutdown (sock w))) w)) ->
  wp (send_pkt pkt) Q E w.
Proof. intros HE HQ. as_steps; [by apply HQ|done]. Qed.

Lemma wp_append_to pkt cs (Q : ByteBuffer -> AuthServer -> Prop) (E : AuthServer -> Prop) w :
  at_end pkt -> forallb chunk_nonempty cs = true -> bb_size pkt + Z.of_nat (length (chunks_bytes cs)) <= max_size ->
  (forall b, at_end b -> _storage b = _storage pkt ++ chunks_bytes cs -> Q b w) ->
  wp (append_to pkt cs) Q E w.
Proof.
  intros Hp Hc Hm HQ. destruct (append_chunks_end cs pkt Hp Hc Hm) as [b Hb].
  unfold append_to. apply (wp_lift_ok _ b); [done|]. apply append_chunks_ok in Hb as [? ?]; [|done]. by apply HQ.
Qed.

Lemma wp_send_pkt pkt (Q : unit -> AuthServer -> Prop) (E : AuthServer -> Prop) w :
  _storage pkt <> [] ->
  Q tt (set_sock (mkRealmSocket (input_buffer (sock w)) (sk_sent (sock w) ++ [_storage pkt]) (sk_shutdown (sock w))) w) ->
  wp (send_pkt pkt) Q E w.
Proof.
  intros Hp HQ. unfold send_pkt. apply wpS_bind, (wp_lift_ok _ (_storage pkt)).
  - unfold bb_contents, bb_empty. by rewrite bool_decide_eq_false_2.
  - unfold send. by apply wp_mod.
Qed.

Lemma chunk_head f v cs b : append_chunks (F (U8 v) :: f :: cs) ByteBuffer_new = Ok b -> exists l, _storage b = v mod 256 :: l.
Proof.
  intros Hb. apply append_chunks_ok in Hb as [_ Hst]; [|done]. unfold chunks_bytes in Hst. cbn in Hst. eauto.
Qed.

Lemma storage_head pkt l b cs :
  at_end pkt -> append_chunks cs pkt = Ok b -> bb_contents b = Ok l -> l = _storage pkt ++ chunks_bytes cs.
Proof. intros Hp Ha ->%contents_ok. by apply append_chunks_ok in Ha as [_ ->]. Qed.

Section Handlers.
  Context `{OpenSSL} `{ACE}.
  Variable env : AuthEnv.

(** A reply begins as the packet it extends does. *)
Lemma reply_extends ch pkt w :
  at_end pkt ->
  wp (challenge_reply env ch pkt) (fun b _ => exists l, _storage b = _storage pkt ++ l) (fun _ => True) w.
Proof.
  intros Hp. assert (forall pkt cs b, at_end pkt -> append_chunks cs pkt = Ok b -> exists l, _storage b = _storage pkt ++ l) as Hc.
  { intros p cs b He Ha. apply append_chunks_ok in Ha as [_ ->]; [eauto|done]. }
  unfold challenge_reply. as_steps; try done; try (by eapply Hc).
  eapply wpS_mono with (P := fun b _ => exists l, _storage b = _storage pkt ++ l); [|done|done].
  unfold srp_challenge. cbv zeta. apply wpS_bind. eapply wpS_mono with (P := fun _ _ => True); [|intros [] w' _|done].
  - apply wp_true.
  - as_steps; try done.
    match goal with
    | H1 : append_chunks _ pkt = Ok ?b1, H2 : append_chunks _ ?b1 = Ok ?b2 |- exists l, _storage ?b2 = _ =>
        apply append_chunks_ok in H1 as [He1 Hs1]; [|done]; apply append_chunks_ok in H2 as [He2 Hs2]; [|done];
        rewrite Hs2, Hs1, <- app_assoc; by eexists
    end.
Qed.

Lemma wp_flood (Q : bool -> AuthServer -> Prop) (E : AuthServer -> Prop) w :
  (forall w' p, conn w' = conn w -> is_realm_list p = false ->
     sock w' = mkRealmSocket (input_buffer (sock w)) (sk_sent (sock w) ++ [p]) (sk_shutdown (sock w)) -> Q true w') ->
  (forall w', conn w' = conn w -> sock w' = sock w -> Q false w') ->
  (forall w', conn w' = conn w -> sock w' = sock w -> E w') ->
  wp (flood_protection env) Q E w.
Proof.
  intros Ht Hf HE. unfold flood_protection. as_steps; try by apply HE.
  - match goal with H1 : append_chunks _ _ = Ok ?b |- _ => destruct (chunk_head _ _ _ _ H1) as [l Hl] end.
    match goal with H2 : bb_contents _ = Ok ?b |- _ => apply contents_ok in H2; subst b; apply (Ht _ (_storage a)); [done| |done] end.
    by rewrite Hl.
  - by apply Hf.
  - by apply Hf.
Qed.

Lemma wp_quiet {A} (m : AS A) (Q : A -> AuthServer -> Prop) (E : AuthServer -> Prop) w :
  quiet m ->
  (forall a w', sock w' = sock w -> _authed (conn w') = _authed (conn w) -> _login (conn w') = _login (conn w) -> Q a w') ->
  (forall w', sock w' = sock w -> _authed (conn w') = _authed (conn w) -> E w') ->
  wp m Q E w.
Proof.
  intros Hm HQ HE. eapply wpS_mono; [apply Hm| |].
  - intros a w' (? & ? & ?). by apply HQ.
  - intros w' [? ?]. by apply HE.
Qed.

Lemma wp_reply ch pkt (Q : ByteBuffer -> AuthServer -> Prop) (E : AuthServer -> Prop) w :
  at_end pkt ->
  (forall b w' l, _storage b = _storage pkt ++ l -> sock w' = sock w -> _authed (conn w') = _authed (conn w) -> Q b w') ->
  (forall w', sock w' = sock w -> _authed (conn w') = _authed (conn w) -> E w') ->
  wp (challenge_reply env ch pkt) Q E w.
Proof.
  intros Hp HQ HE. pose proof (reply_extends ch pkt w Hp) as Hr.
  pose proof (quiet_challenge_reply env ch pkt w) as Hq. unfold wp in *.
  destruct (challenge_reply env ch pkt w) as [w' [b|e|]].
  - destruct Hr as [l Hl], Hq as (? & ? & ?). by eapply HQ.
  - destruct Hq. by apply HE.
  - destruct Hq. by apply HE.
Qed.

Lemma handled_LogonChallenge : handled (fun _ => True) 0 (_HandleLogonChallenge env).
Proof.
  intros w Hv _. unfold _HandleLogonChallenge. do 6 as_step. as_step.
  { as_step. split_and!; [unauthed|done|done]. }
  as_step. apply wp_flood.
  - intros w1 p Hc Hp Hs. as_proj. as_step. unfold buf. rewrite Hs. as_proj.
    split_and!; [|lia|lia].
    eapply (vetted_send w); [done|by rewrite Hs|rewrite Hc; as_proj; done|congruence].
  - intros w1 Hc Hs. as_proj.
    assert (vetted w1) as Hv1 by (eapply vetted_same; [exact Hv|by rewrite Hs|rewrite Hc; as_proj; done]).
    assert (_authed (conn w1) = false) as Ha1 by (by rewrite Hc).
    as_step. apply wp_read_challenge.
    { unfold buf. rewrite Hs. bool_props. unfold sizeof_sAuthLogonChallenge_C in *. lia. }
    intros r n Hn Hr Hle. unfold buf in *. rewrite Hs in *.
    destruct r as [ch|]; [|as_step; split_and!; [unauthed|rewrite length_drop; lia|rewrite length_drop; lia]].
    do 6 as_step. as_step; [as_step; split_and!; [unauthed|rewrite length_drop; lia|rewrite length_drop; lia]|].
    do 4 as_step; [|unauthed].
    match goal with H1 : append_chunks _ _ = Ok ?b |- _ => apply append_chunks_ok in H1 as [Hend Hst]; [|done] end.
    as_step. apply wp_reply; [done| |].
    + intros b w2 l Hb Hs2 Ha2. as_proj. as_step. apply send_pkt_vetted.
      * eapply vetted_same; [exact Hv1|by rewrite Hs2, Hs|congruence].
      * intros p ->%contents_ok. as_step. as_proj. rewrite Hs2, Hb, Hst. as_proj. rewrite length_drop.
        split_and!; [|lia|lia]. eapply (vetted_send w1); [done|by as_proj; rewrite Hs|as_proj; rewrite Ha2; by left|done].
    + intros w2 Hs2 Ha2. as_proj. eapply vetted_same; [exact Hv1|by rewrite Hs2, Hs|congruence].
  - intros w1 Hc Hs. as_proj. eapply (vetted_same w); [done|by rewrite Hs|by rewrite Hc].
Qed.

Ltac sent_one := match goal with
  H : vetted ?w |- vetted _ =>
    eapply (vetted_send w); [exact H|reflexivity
    |let Hx := fresh in intros Hx; first [by right|by left]
    |let Hx := fresh in intros Hx; first [discriminate Hx|congruence]]
  end.

Ltac eats := unfold buf in *; as_proj; rewrite ?length_drop in *; lia.

Lemma handled_wrong_password w :
  vetted w -> _authed (conn w) = false ->
  wp (wrong_password env) (fun _ w' => vetted w' /\ buf w' = buf w) (fun w' => vetted w') w.
Proof.
  intros Hv Ha. unfold wrong_password.
  as_step. as_step. as_step. set (w1 := set_sock _ w).
  assert (vetted w1 /\ buf w1 = buf w) as [Hv1 Hb] by (split; [sent_one|done]).
  assert (_authed (conn w1) = false) as Ha1 by done. clearbody w1.
  as_steps; (split; [unauthed|done]).
Qed.

Lemma handled_check_token w :
  vetted w -> _authed (conn w) = false ->
  wp (check_token env) (fun _ w' => vetted w' /\ _authed (conn w') = false /\ (buf w' <= buf w)%nat) (fun w' => vetted w') w.
Proof.
  intros Hv Ha. unfold check_token. as_step. as_step; [as_steps; unauthed|].
  destruct (take _ _) as [|size [|? ?]]; [as_steps; unauthed| |as_steps; unauthed].
  as_steps; try unauthed. split_and!; [unauthed|done|eats].
Qed.

Lemma handled_LogonProof : handled (fun _ => True) 1 (_HandleLogonProof env).
Proof.
  intros w Hv _. unfold _HandleLogonProof. do 5 as_step; [as_step; split_and!; [unauthed|eats|done]|].
  set (w0 := set_conn (set_authed false (conn w)) w).
  as_step. as_step. as_step. unfold sizeof_sAuthLogonProof_C in *.
  set (w1 := set_sock _ w0). assert (vetted w1) as Hv1 by unauthed.
  assert (_authed (conn w1) = false) as Ha1 by done.
  assert ((buf w1 + 75 <= buf w)%nat) as Hb by (unfold w1, w0; eats). clearbody w1. clearbody w0.
  set (lp := take _ _). clearbody lp.
  apply wp_if; intros Hexp.
  { as_steps. split_and!; [unauthed|unfold buf in *; as_proj; lia|unfold buf in *; as_proj; lia]. }
  apply wp_if; intros HA.
  { as_steps. split_and!; [unauthed|unfold buf in *; as_proj; lia|unfold buf in *; as_proj; lia]. }
  do 2 as_step; [|done]. do 3 as_step. as_step; [|unauthed].
  match goal with |- wp _ _ _ ?w2 => set (w2' := w2) end.
  assert (vetted w2') as Hv2 by unauthed. assert (_authed (conn w2') = false) as Ha2 by done.
  assert (buf w2' = buf w1) as Hb2 by done. clearbody w2'.
  apply wp_if; intros Hm.
  - unfold right_password. do 6 as_step.
    match goal with |- wp _ _ _ ?w => set (w3 := w) end.
    assert (vetted w3) as Hv3 by unauthed. assert (_authed (conn w3) = false) as Ha3 by done.
    assert (buf w3 = buf w2') as Hb3 by done. clearbody w3.
    as_step. eapply (wpS_mono _ (fun _ w' => vetted w' /\ _authed (conn w') = false /\ (buf w' <= buf w3)%nat)); [| |done].
    { apply wp_if; intros _; [by apply handled_check_token|]. as_step. done. }
    intros valid w4 (Hv4 & Ha4 & Hb4). destruct valid; cbn [negb].
    + do 5 as_step. split_and!; [sent_one|unfold buf in *; as_proj; lia|unfold buf in *; as_proj; lia].
    + do 3 as_step. split_and!; [sent_one|unfold buf in *; as_proj; lia|done].
  - as_step. eapply wpS_mono; [by apply handled_wrong_password| |done].
    intros [] w3 [Hv3 Hb3]. as_step. split_and!; [done|lia|lia].
Qed.

Lemma handled_ReconnectChallenge : handled (fun _ => True) 1 (_HandleReconnectChallenge env).
Proof.
  intros w Hv _. unfold _HandleReconnectChallenge. do 3 as_step. apply wp_if; intros Hlen.
  { as_step. split_and!; [done|done|done]. }
  as_step. apply wp_read_challenge.
  { bool_props. unfold sizeof_sAuthLogonChallenge_C, buf in *. lia. }
  intros r n Hn Hr Hle.
  destruct r as [ch|]; [|as_step; split_and!; [unauthed|eats|eats]].
  specialize (Hr (ex_intro _ ch eq_refl)).
  match goal with |- wp _ _ _ ?w2 => set (w1 := w2) end.
  assert (vetted w1) as Hv1 by unauthed. assert ((buf w1 + 35 <= buf w)%nat) as Hb by (unfold w1; eats).
  clearbody w1. cbv zeta. as_line.
  destruct (sel_sessionkey _ _ _) as [[[key ?] level]|].
  2: { as_line. split_and!; [unauthed|unfold buf in *; as_proj; lia|done]. }
  as_line. apply wp_if; intros Hos.
  { as_line. split_and!; [unauthed|unfold buf in *; as_proj; lia|done]. }
  as_line. as_step; [|unauthed]. as_line. as_step; [|unauthed].
  match goal with H1 : append_chunks _ _ = Ok ?b |- _ => destruct (chunk_head _ _ _ _ H1) as [l Hl] end.
  as_line. apply send_pkt_vetted; [unauthed|]. intros p ->%contents_ok. as_line.
  rewrite Hl. split_and!; [sent_one|unfold buf in *; as_proj; lia|unfold buf in *; as_proj; lia].
Qed.

Lemma handled_ReconnectProof : handled (fun _ => True) 1 _HandleReconnectProof.
Proof.
  intros w Hv _. unfold _HandleReconnectProof. as_line. apply wp_recv; intros Hl; as_line.
  { split_and!; [unauthed|eats|done]. }
  unfold sizeof_sAuthReconnectProof_C in *.
  match goal with |- wp _ _ _ ?w2 => set (w1 := w2) end.
  assert (vetted w1) as Hv1 by unauthed. assert ((buf w1 + 58 <= buf w)%nat) as Hb by (unfold w1; eats).
  clearbody w1. apply wp_if; intros Hnull.
  { as_line. split_and!; [done|lia|done]. }
  cbv zeta. apply wp_if; intros Hd; as_line; [|split_and!; [unauthed|unfold buf in *; as_proj; lia|done]].
  as_step; [|done].
  match goal with H1 : append_chunks _ _ = Ok ?b |- _ => destruct (append_chunks_ok _ _ _ new_at_end H1) as [_ Hst] end.
  as_line. apply send_pkt_vetted; [done|]. intros p ->%contents_ok. as_line. rewrite Hst.
  split_and!; [sent_one|unfold buf in *; as_proj; lia|unfold buf in *; as_proj; lia].
Qed.

Lemma at_end_append_realms id l pkt n w :
  at_end pkt -> wp (append_realms env id pkt n l) (fun r _ => at_end r.1) (fun _ => True) w.
Proof.
  revert pkt n w. induction l as [|e l IH]; intros pkt n w Hp; cbn [append_realms]; [done|].
  apply wpS_bind. eapply (wpS_mono _ (fun r _ => at_end r.1) _ (fun _ => True)); [| |done].
  - unfold append_realm. as_steps; try done.
    match goal with H1 : append_chunks _ pkt = Ok _ |- _ => by apply append_chunks_ok in H1 as [? _] end.
  - intros [pkt' n'] w' Hp'. by apply IH.
Qed.

Lemma wp_append_realms id l (Q : ByteBuffer * Z -> AuthServer -> Prop) (E : AuthServer -> Prop) w :
  (forall r w', at_end r.1 -> sock w' = sock w -> _authed (conn w') = _authed (conn w) -> Q r w') ->
  (forall w', sock w' = sock w -> _authed (conn w') = _authed (conn w) -> E w') ->
  wp (append_realms env id ByteBuffer_new 0 l) Q E w.
Proof.
  intros HQ HE. pose proof (at_end_append_realms id l ByteBuffer_new 0 w new_at_end) as He.
  pose proof (quiet_append_realms env id ByteBuffer_new 0 l w) as Hq. unfold wp in *.
  destruct (append_realms _ _ _ _ _ w) as [w' [r|e|]]; destruct_and?; [by apply HQ|by apply HE..].
Qed.

Lemma handled_RealmList : handled (fun w => _authed (conn w) = true) 1 (_HandleRealmList env).
Proof.
  intros w Hv Hauth. unfold _HandleRealmList. as_line. apply wp_if; intros Hlen; as_line.
  { split_and!; [done|done|done]. }
  match goal with |- wp _ _ _ ?w2 => set (w1 := w2) end.
  assert (vetted w1) as Hv1 by unauthed. assert ((buf w1 + 5 <= buf w)%nat) as Hb by (bool_props; unfold w1; eats).
  assert (_authed (conn w1) = true) as Ha1 by done.
  clearbody w1. destruct (sel_account_id _ _ _) as [id|]; as_line.
  2: { split_and!; [unauthed|unfold buf in *; as_proj; lia|done]. }
  apply wp_quiet; [apply quiet_update_realmlist| |].
  2: { intros w2 Hs Ha. apply (vetted_same w1); [done|by rewrite Hs|by rewrite Ha]. }
  intros _ w2 Hs2 Ha2 _. as_line.
  assert (vetted w2) as Hv2 by (apply (vetted_same w1); [done|by rewrite Hs2|by rewrite Ha2]).
  apply wp_append_realms.
  2: { intros w3 Hs Ha. apply (vetted_same w2); [done|by rewrite Hs|by rewrite Ha]. }
  intros [pkt n] w3 Hp Hs3 Ha3. cbn [fst] in Hp.
  assert (vetted w3) as Hv3 by (apply (vetted_same w2); [done|by rewrite Hs3|by rewrite Ha3]).
  as_line. as_step; [|done]. as_line. as_step; [|done]. as_line. as_step; [|done].
  repeat match goal with H1 : append_chunks _ _ = Ok ?b |- _ => apply append_chunks_ok in H1 as [? ?]; [|done] end.
  as_line. as_step; [|done]. as_line. as_step; [|done].
  repeat match goal with H1 : append_buffer _ _ = Ok ?b |- _ => apply append_buffer_ok in H1 as [? ?]; [|done..] end.
  as_line. apply send_pkt_vetted; [done|]. intros p ->%contents_ok. as_line.
  split_and!; [|unfold buf in *; as_proj; rewrite Hs3, Hs2; lia|unfold buf in *; as_proj; rewrite Hs3, Hs2; lia].
  eapply (vetted_send w3); [done|reflexivity|as_proj; by left|]. intros _. congruence.
Qed.

Lemma handled_XferCancel : handled (fun w => (0 < buf w)%nat) 1 _HandleXferCancel.
Proof.
  intros w Hv Hb. unfold _HandleXferCancel. as_line. split_and!; [unauthed|eats|].
  intros _. unfold buf in *. as_proj. rewrite length_drop. lia.
Qed.

Lemma handled_refuse pre : handled pre 1 (retS false).
Proof. intros w Hv _. as_line. done. Qed.

(** The command decides the handler, and a realm list needs a login. *)
Lemma find_handler_handled cmd w h :
  find_handler cmd (_authed (conn w)) (table env) = Some h -> vetted w -> (0 < buf w)%nat ->
  wp h (fun b w' => vetted w' /\ (buf w' <= buf w)%nat
          /\ (b = true -> (buf w' + (if (cmd =? AUTH_LOGON_CHALLENGE)%Z then 0 else 1) <= buf w)%nat))
     (fun w' => vetted w') w.
Proof.
  intros Hf Hv Hb. unfold table in Hf. cbn [find_handler] in Hf. rewrite !bool_decide_eq_true_2, !andb_true_r in Hf by done.
  rewrite !bool_decide_eq_false_2 in Hf by done. cbn [orb] in Hf. rewrite ?andb_true_r in Hf.
  repeat match type of Hf with (if ?b then _ else _) = _ => destruct b eqn:?; [injection Hf as <-|] end; [..|done];
    repeat match goal with H : _ && _ = true |- _ => apply andb_prop in H as [? ?] end;
    bool_props; subst cmd; cbn [Z.eqb];
    first [ by apply (handled_LogonChallenge w Hv) | by apply (handled_LogonProof w Hv)
          | by apply (handled_ReconnectChallenge w Hv) | by apply (handled_ReconnectProof w Hv)
          | by apply (handled_RealmList w Hv) | by apply (handled_XferCancel w Hv Hb)
          | by apply (handled_refuse (fun _ => True) w Hv) ].
Qed.

(** ** [OnRead] *)
Lemma wp_round n w :
  vetted w -> 0 <= n < MAX_AUTH_LOGON_CHALLENGES_IN_A_ROW ->
  wp (OnRead_round env n)
     (fun r w' => vetted w' /\
        match r with
        | None => True
        | Some n' => n' = n /\ (buf w' < buf w)%nat
                     \/ n' = n + 1 /\ n' < MAX_AUTH_LOGON_CHALLENGES_IN_A_ROW /\ (buf w' <= buf w)%nat
        end)
     (fun w' => vetted w') w.
Proof.
  intros Hv Hn. unfold OnRead_round, MAX_AUTH_LOGON_CHALLENGES_IN_A_ROW in *. as_line.
  destruct (Z.ltb_spec (Z.of_nat (length (input_buffer (sock w)))) 1) as [Hl|Hl]; [by as_line|].
  destruct (take (Z.to_nat 1) (input_buffer (sock w))) as [|cmd [|? ?]] eqn:Et; [by as_line| |by as_line].
  apply wp_if; intros Hmax; as_line; [split; [unauthed|done]|].
  destruct (find_handler _ _ _) as [h|] eqn:Eh; as_line; [|split; [unauthed|done]].
  eapply wpS_mono; [apply (find_handler_handled cmd); [done|done|unfold buf; lia]| |done].
  intros ok w' (Hv' & Hle & Hok). as_line. split; [done|]. destruct ok; [|done]. specialize (Hok eq_refl).
  destruct (Z.eqb_spec cmd AUTH_LOGON_CHALLENGE) as [->|Hc]; cbn [andb] in Hmax; [|left; lia].
  right. bool_props. lia.
Qed.

Lemma wp_loop fuel n w :
  vetted w -> 0 <= n < MAX_AUTH_LOGON_CHALLENGES_IN_A_ROW ->
  Z.of_nat (buf w) + MAX_AUTH_LOGON_CHALLENGES_IN_A_ROW - n < Z.of_nat fuel ->
  wp (OnRead_loop env fuel n) (fun b w' => vetted w' /\ b = true) (fun w' => vetted w') w.
Proof.
  revert n w. induction fuel as [|fuel IH]; intros n w Hv Hn Hf; [unfold MAX_AUTH_LOGON_CHALLENGES_IN_A_ROW in *; lia|].
  cbn [OnRead_loop]. as_line. eapply wpS_mono; [by apply wp_round| |done].
  intros [n'|] w' [Hv' Hm]; [|by as_line].
  apply IH; [done|lia|]. destruct Hm; lia.
Qed.

Lemma wp_OnRead w : vetted w -> wp (OnRead env) (fun b w' => vetted w' /\ b = true) (fun w' => vetted w') w.
Proof.
  intros Hv. unfold OnRead. apply (wp_loop (OnRead_fuel w) 0 w Hv); unfold OnRead_fuel, MAX_AUTH_LOGON_CHALLENGES_IN_A_ROW, buf in *; lia.
Qed.

Lemma wp_handle_input received w :
  vetted w -> wp (handle_input env received) (fun _ w' => vetted w') (fun w' => vetted w') w.
Proof.
  intros Hv. unfold handle_input. as_line. apply wp_if; intros _; [by as_line|].
  destruct received as [bytes|]; [|by as_line]. as_line. apply wp_if; intros _; [by as_line|]. as_line.
  eapply wpS_mono; [apply wp_OnRead; unauthed| |done]. intros b w' [Hv' _]. by as_line.
Qed.

(** ** Connections

    What a connection can come to: input as it arrives, while the rest of the
    server does what it will. *)
Inductive connection : AuthServer -> Prop :=
| conn_accept w : conn w = AuthSocket_new -> sock w = mkRealmSocket [] [] false -> connection w
| conn_input w received w' r : connection w -> handle_input env received w = (w', Ok r) -> connection w'
| conn_others w w' : connection w -> conn w' = conn w -> sock w' = sock w -> connection w'.

Lemma connection_vetted w : connection w -> vetted w.
Proof.
  induction 1 as [w Hc Hs|w received w' r Hw IH Hi|w w' Hw IH Hc Hs].
  - split; [by rewrite Hc|]. intros i p. rewrite Hs. as_proj. by rewrite lookup_nil.
  - exact (wp_elim _ _ _ _ _ _ Hi (wp_handle_input received w IH)).
  - eapply vetted_same; [exact IH|by rewrite Hs|by rewrite Hc].
Qed.

(** C12. On every connection, whatever it receives: a client is authenticated only
    after it has been told that its logon or its reconnection succeeded, and a
    realm list is sent only after such a packet. *)
Theorem realm_list_after_login w :
  connection w ->
  (_authed (conn w) = true -> Exists (fun p => login_success p = true) (sk_sent (sock w)))
  /\ forall i p, sk_sent (sock w) !! i = Some p -> is_realm_list p = true ->
       Exists (fun q => login_success q = true) (take i (sk_sent (sock w))).
Proof. apply connection_vetted. Qed.

(** C13. Reading comes to an end: on every connection, [OnRead] returns within as
    many rounds as there are bytes of input and 36 more, although a logon
    challenge that comes too soon after another is answered without being read
    and so is met again: 35 of them end the connection. *)
Theorem OnRead_ends w : connection w -> wp (OnRead env) (fun returned _ => returned = true) (fun _ => True) w.
Proof. intros Hw. eapply wpS_mono; [by apply wp_OnRead, connection_vetted| |done]. by intros b w' [_ ->]. Qed.
End Handlers.
