(* ===== verification/AuthSrp.v ===== *)
(** * The authentication server: the SRP6 exchange

    A client that follows the protocol, with numbers written in a fixed number
    of bytes, against the server's handler.  They agree on the session key and
    on both proofs as long as no number on the way is short of a byte; where
    one is, the server's byte arrays are not what the client computes. *)
From Stdlib Require Import Ascii String ZArith Lia Znumtheory Zpow_facts.
From stdpp Require Import base gmap list strings.
From S2P Require Import Prelude ByteBuffer BigNumber Totp World StateM RealmList AuthSocket AuthFacts.

Open Scope Z_scope.

(** ** The arithmetic *)
Abbreviation Ng := srp_N_const.

Lemma Ng_pos : 0 < Ng.
Proof. done. Qed.

Lemma Ng_bytes : num_bytes Ng = 32%nat.
Proof. vm_compute. done. Qed.

Lemma mod_pow a n : 0 <= n -> (a mod Ng) ^ n mod Ng = a ^ n mod Ng.
Proof. intros. symmetry. apply Zpower_mod. exact Ng_pos. Qed.

Lemma mod_mul a b : ((a mod Ng) * (b mod Ng)) mod Ng = (a * b) mod Ng.
Proof. symmetry. apply Zmult_mod. Qed.

(** Both sides of the exchange compute [g^(b (a + u x))]. *)
Lemma secrets_agree g a b u x :
  0 <= a -> 0 <= b -> 0 <= u -> 0 <= x ->
  let v := g ^ x mod Ng in
  let B := (v * 3 + g ^ b mod Ng) mod Ng in
  ((B - 3 * v) mod Ng) ^ (a + u * x) mod Ng = (((g ^ a mod Ng) * (v ^ u mod Ng)) mod Ng) ^ b mod Ng.
Proof.
  intros Ha Hb Hu Hx v B.
  assert ((B - 3 * v) mod Ng = g ^ b mod Ng) as ->.
  { unfold B. rewrite Zminus_mod_idemp_l. replace (v * 3 + g ^ b mod Ng - 3 * v) with (g ^ b mod Ng) by lia.
    apply Zmod_mod. }
  rewrite mod_pow by nia. unfold v. rewrite (mod_pow (g ^ x)) by done. rewrite mod_mul, mod_pow by done.
  rewrite <- !Z.pow_mul_r, <- Z.pow_add_r, <- Z.pow_mul_r by nia. f_equal. f_equal. lia.
Qed.

(** The generator has no common factor with the modulus, so no honest public
    number is zero. *)
Lemma public_nonzero a : 0 <= a -> 7 ^ a mod Ng <> 0.
Proof.
  intros Ha H0. apply Zmod_divide in H0; [|done].
  assert (rel_prime Ng (7 ^ a)) as Hr.
  { apply rel_prime_Zpower_r; [lia|]. apply Zgcd_1_rel_prime. vm_compute. done. }
  destruct Hr as [_ _ Hr]. specialize (Hr Ng (Z.divide_refl _) H0).
  apply Z.divide_1_r_nonneg in Hr; done.
Qed.

(** ** Bytes without a missing one *)
Definition full (l : list Z) : Prop := num_bytes (le_combine l) = length l.

Lemma full_split n z : 0 <= z < 256 ^ Z.of_nat n -> full (le_split n z) -> num_bytes z = n.
Proof.
  unfold full. intros Hz. rewrite le_combine_split, length_le_split, Z.mod_small by done. done.
Qed.

Lemma full_bytes l : Forall is_byte l -> full l -> le_split (num_bytes (le_combine l)) (le_combine l) = l.
Proof. intros Hl ->. by apply le_split_combine. Qed.

Lemma xor_bytes l k : Forall is_byte l -> Forall is_byte k -> Forall is_byte (zip_with Z.lxor l k).
Proof.
  intros Hl. revert k. induction Hl as [|x l Hx Hl IH]; intros k Hk; [constructor|].
  destruct Hk as [|y k Hy Hk]; cbn [zip_with]; constructor; [|by apply IH]. unfold is_byte in *.
  split; [apply Z.lxor_nonneg; lia|]. destruct (Z.eq_dec (Z.lxor x y) 0) as [->|Hn]; [lia|].
  assert (0 <= Z.lxor x y) by (apply Z.lxor_nonneg; lia).
  change 256 with (2 ^ 8). apply Z.log2_lt_pow2; [lia|].
  eapply Z.le_lt_trans; [apply Z.log2_lxor; lia|].
  assert (forall z, 0 <= z < 256 -> Z.log2 z < 8) as Hlog.
  { intros z Hz. destruct (Z.eq_dec z 0) as [->|]; [done|]. apply Z.log2_lt_pow2; lia. }
  apply Z.max_lub_lt; by apply Hlog.
Qed.

Lemma evens_bytes l : Forall is_byte l -> Forall is_byte (evens l).
Proof.
  remember (length l) as n eqn:Hn. revert l Hn. induction n as [n IH] using lt_wf_ind.
  intros [|x [|y l]] Hn Hl; [done|done|]. cbn [evens].
  apply Forall_cons in Hl as [Hx [Hy Hl]%Forall_cons]. apply Forall_cons. split; [done|].
  eapply IH; [|done|done]. cbn in Hn. lia.
Qed.

Lemma interleave_bytes a b : Forall is_byte a -> Forall is_byte b -> Forall is_byte (interleave a b).
Proof.
  intros Ha. revert b. induction Ha as [|x a Hx Ha IH]; intros b Hb; [constructor|].
  destruct Hb as [|y b Hy Hb]; cbn [interleave]; [constructor|].
  apply Forall_cons. split; [done|]. apply Forall_cons. split; [done|]. by apply IH.
Qed.

Lemma interleave_length a b : length a = length b -> length (interleave a b) = (2 * length a)%nat.
Proof. revert b. induction a as [|x a IH]; intros [|y b]; cbn; intros; [done..|]. rewrite IH; lia. Qed.

(** ** The client *)
Section Client.
  Context `{OpenSSL}.

(** What a client knows: the name and the private key that the salt and the
    password give, its random exponent, the server's number and the salt as
    they came. *)
Record Client := mkClient { cl_login : string; cl_x : Z; cl_a : Z; cl_B : list Z; cl_s : list Z }.

Definition c_A (c : Client) : list Z := le_split 32 (7 ^ cl_a c mod Ng).
Definition c_u (c : Client) : Z := le_combine (SHA1 (c_A c ++ cl_B c)).
Definition c_S (c : Client) : list Z :=
  le_split 32 (((le_combine (cl_B c) - 3 * (7 ^ cl_x c mod Ng)) mod Ng) ^ (cl_a c + c_u c * cl_x c) mod Ng).
Definition c_K (c : Client) : list Z := interleave (SHA1 (evens (c_S c))) (SHA1 (evens (drop 1 (c_S c)))).
Definition c_group : list Z := zip_with Z.lxor (SHA1 (le_split 32 Ng)) (SHA1 [7]).
Definition c_M1 (c : Client) : list Z :=
  SHA1 (c_group ++ SHA1 (str_bytes (cl_login c)) ++ cl_s c ++ c_A c ++ cl_B c ++ c_K c).
(** The proof of the server the client waits for. *)
Definition c_M2 (c : Client) : list Z := SHA1 (c_A c ++ c_M1 c ++ c_K c).

(** No number of the exchange is short of a byte. *)
Definition no_short (c : Client) : Prop :=
  full (c_A c) /\ full (cl_B c) /\ full (cl_s c) /\ full (c_S c) /\ full (c_K c) /\ full c_group /\ full (c_M1 c).

Definition proof_packet (c : Client) (crc : list Z) (keys flags : Z) : list Z :=
  [AUTH_LOGON_PROOF] ++ c_A c ++ c_M1 c ++ crc ++ [keys; flags].

(** The server holds the verifier of the client's private key and has sent the
    client its number and the salt. *)
Definition challenged (c : Client) (k : AuthSocket) : Prop :=
  srp_N k = Ng /\ srp_g k = 7 /\ srp_v k = 7 ^ cl_x c mod Ng /\ 0 <= srp_b k
  /\ srp_B k = (srp_v k * 3 + 7 ^ srp_b k mod Ng) mod Ng
  /\ Forall is_byte (cl_B c) /\ le_combine (cl_B c) = srp_B k /\ length (cl_B c) = 32%nat
  /\ Forall is_byte (cl_s c) /\ le_combine (cl_s c) = srp_s k
  /\ cl_login c = _login k /\ 0 <= cl_a c /\ 0 <= cl_x c.
End Client.

(** ** The server's side of the computation *)
Section Agreement.
  Context `{OpenSSLSpec} `{ACE}.

Lemma update_one z l : Forall is_byte l -> z = le_combine l -> full l -> le_split (num_bytes z) z = l.
Proof. intros Hl -> Hf. by apply full_bytes. Qed.

Lemma bytes_nonneg l : Forall is_byte l -> 0 <= le_combine l.
Proof. intros Hl. pose proof (le_combine_bound l Hl). lia. Qed.

Lemma public_range a : 0 <= 7 ^ a mod Ng < 256 ^ Z.of_nat 32.
Proof.
  pose proof (Z.mod_pos_bound (7 ^ a) Ng Ng_pos). split; [lia|].
  eapply Z.lt_le_trans; [apply H2|]. unfold Ng. vm_compute. done.
Qed.

Lemma c_A_value c : SetBinary (c_A c) = 7 ^ cl_a c mod Ng.
Proof.
  unfold c_A. rewrite SetBinary_spec by apply le_split_byte. rewrite le_combine_split.
  apply Z.mod_small, public_range.
Qed.

Lemma c_A_combine c : le_combine (c_A c) = 7 ^ cl_a c mod Ng.
Proof. unfold c_A. rewrite le_combine_split. apply Z.mod_small, public_range. Qed.

Lemma c_u_nonneg c : 0 <= c_u c.
Proof. apply bytes_nonneg, SHA1_bytes. Qed.

Lemma agree_u c k :
  challenged c k -> full (c_A c) -> full (cl_B c) -> scrambler (SetBinary (c_A c)) (srp_B k) = c_u c.
Proof.
  intros (_ & _ & _ & _ & _ & HB & EB & _) HfA HfB. unfold scrambler, c_u, Finalize.
  rewrite SetBinary_spec by apply SHA1_bytes. rewrite UpdateBigNumbers_spec.
  2: { rewrite c_A_value, <- EB. repeat constructor; [apply public_range|by apply bytes_nonneg]. }
  unfold SHA1_Init. cbn [fmap list_fmap concat app]. rewrite app_nil_r. do 2 f_equal. f_equal.
  - apply update_one; [apply le_split_byte|by rewrite c_A_value, c_A_combine|done].
  - by apply update_one.
Qed.

Lemma agree_S c k :
  challenged c k ->
  server_secret (SetBinary (c_A c)) (c_u c) k
  = ((le_combine (cl_B c) - 3 * (7 ^ cl_x c mod Ng)) mod Ng) ^ (cl_a c + c_u c * cl_x c) mod Ng.
Proof.
  intros (HN & Hg & Hv & Hb & HB & _ & EB & _ & _ & _ & _ & Ha & Hx). pose proof (c_u_nonneg c) as Hu.
  assert (forall e, 0 <= 7 ^ e mod Ng) as Hp by (intros e; apply (public_range e)).
  unfold server_secret, ModExp. rewrite c_A_value, HN, EB, Hv.
  assert (0 <= (7 ^ cl_x c mod Ng) ^ c_u c mod Ng) by apply Z.mod_pos_bound, Ng_pos.
  rewrite (BN_mod_exp_spec (7 ^ cl_x c mod Ng)) by (done || apply Hp).
  rewrite BN_mul_spec by (done || apply Hp).
  rewrite BN_mod_exp_spec by (done || apply Z.mul_nonneg_nonneg; done || apply Hp).
  rewrite HB, Hv. rewrite (secrets_agree 7 (cl_a c) (srp_b k) (c_u c) (cl_x c)) by done.
  symmetry. by apply mod_pow.
Qed.

Lemma secret_range z : 0 <= z mod Ng < 256 ^ Z.of_nat 32.
Proof.
  pose proof (Z.mod_pos_bound z Ng Ng_pos). split; [lia|].
  eapply Z.lt_le_trans; [apply H2|]. unfold Ng. vm_compute. done.
Qed.

Lemma agree_S_bytes c k :
  challenged c k -> full (c_S c) ->
  AsByteArray 32 true (server_secret (SetBinary (c_A c)) (c_u c) k) = c_S c.
Proof.
  intros Hk Hf. rewrite (agree_S c k Hk). unfold c_S in *.
  apply (AsByteArray_fits 32); [|apply secret_range].
  apply (full_split 32); [apply secret_range|done].
Qed.

Lemma c_S_bytes c : Forall is_byte (c_S c).
Proof. apply le_split_byte. Qed.

Lemma c_K_bytes c : Forall is_byte (c_K c).
Proof. apply interleave_bytes; apply SHA1_bytes. Qed.

Lemma agree_K c : session_key (c_S c) = le_combine (c_K c).
Proof.
  unfold session_key, Finalize, UpdateData, SHA1_Init. cbn [app].
  rewrite SetBinary_spec by (apply interleave_bytes; apply SHA1_bytes). done.
Qed.

Lemma group_hash_value : full c_group -> le_split (num_bytes (group_hash Ng 7)) (group_hash Ng 7) = c_group.
Proof.
  intros Hf. assert (Forall is_byte c_group) as Hb by (apply xor_bytes; apply SHA1_bytes).
  apply update_one; [done| |done]. unfold group_hash, Finalize.
  rewrite !UpdateBigNumbers_spec by (constructor; [vm_compute; done|constructor]).
  unfold SHA1_Init. cbn [fmap list_fmap concat app]. rewrite !app_nil_r, Ng_bytes.
  rewrite SetBinary_spec by done. done.
Qed.

Lemma group_hash_nonneg : 0 <= group_hash Ng 7.
Proof.
  unfold group_hash. rewrite SetBinary_spec by (apply xor_bytes; apply SHA1_bytes).
  apply bytes_nonneg, xor_bytes; apply SHA1_bytes.
Qed.

Lemma agree_M c k :
  challenged c k -> no_short c ->
  expected_M (srp_N k) (srp_g k) (srp_s k) (SetBinary (c_A c)) (srp_B k) (le_combine (c_K c)) (_login k)
  = le_combine (c_M1 c).
Proof.
  intros (HN & Hg & _ & _ & _ & HB & EB & _ & Hs & Es & El & _) (HfA & HfB & Hfs & _ & HfK & Hfg & _).
  unfold expected_M, Finalize, UpdateData, SHA1_Init. rewrite SetBinary_spec by apply SHA1_bytes.
  rewrite HN, Hg, <- El, <- EB, <- Es, c_A_value.
  rewrite !UpdateBigNumbers_spec.
  2, 3: repeat constructor;
    first [apply group_hash_nonneg|apply public_range|by apply bytes_nonneg|apply bytes_nonneg, c_K_bytes].
  cbn [fmap list_fmap concat app]. rewrite group_hash_value, !app_nil_r by done.
  rewrite !full_bytes by (done || apply c_K_bytes).
  rewrite <- c_A_combine, full_bytes by (done || apply le_split_byte).
  unfold c_M1. by rewrite <- !app_assoc.
Qed.

Lemma agree_M2 c :
  full (c_A c) -> full (c_K c) -> full (c_M1 c) ->
  expected_M2 (SetBinary (c_A c)) (le_combine (c_M1 c)) (le_combine (c_K c)) = c_M2 c.
Proof.
  intros HfA HfK HfM. unfold expected_M2, Finalize, SHA1_Init, c_M2. rewrite c_A_value, <- c_A_combine.
  rewrite UpdateBigNumbers_spec.
  2: { repeat constructor; apply bytes_nonneg; [apply le_split_byte|apply SHA1_bytes|apply c_K_bytes]. }
  cbn [fmap list_fmap concat app].
  rewrite !full_bytes by (done || apply le_split_byte || apply SHA1_bytes || apply c_K_bytes). by rewrite app_nil_r.
Qed.
End Agreement.

(** ** The handler *)
Section Login.
  Context `{OpenSSLSpec} `{ACE}.
  Variable env : AuthEnv.

Lemma c_A_length c : length (c_A c) = 32%nat.
Proof. apply length_le_split. Qed.
Lemma c_M1_length c : length (c_M1 c) = 20%nat.
Proof. apply SHA1_length. Qed.

Lemma proof_length c crc keys flags : length crc = 20%nat -> length (proof_packet c crc keys flags) = 75%nat.
Proof. intros Hc. unfold proof_packet. rewrite !length_app, c_A_length, c_M1_length, Hc. done. Qed.

Lemma bytes_at_app l m r : bytes_at (length l) (length m) (l ++ m ++ r) = m.
Proof. unfold bytes_at. by rewrite drop_app_length, take_app_length. Qed.

Lemma proof_A c crc keys flags : lp_A (proof_packet c crc keys flags) = c_A c.
Proof. unfold lp_A. rewrite <- (c_A_length c). apply (bytes_at_app [AUTH_LOGON_PROOF]). Qed.

Lemma proof_M1 c crc keys flags : lp_M1 (proof_packet c crc keys flags) = c_M1 c.
Proof.
  unfold lp_M1, proof_packet. rewrite (app_assoc [AUTH_LOGON_PROOF]).
  pose proof (bytes_at_app ([AUTH_LOGON_PROOF] ++ c_A c) (c_M1 c) (crc ++ [keys; flags])) as Hb.
  by rewrite length_app, c_A_length, c_M1_length in Hb.
Qed.

Lemma proof_flags c crc keys flags : length crc = 20%nat -> lp_securityFlags (proof_packet c crc keys flags) = flags.
Proof.
  intros Hc. unfold lp_securityFlags, proof_packet.
  replace ([AUTH_LOGON_PROOF] ++ c_A c ++ c_M1 c ++ crc ++ [keys; flags])
    with (([AUTH_LOGON_PROOF] ++ c_A c ++ c_M1 c ++ crc ++ [keys]) ++ [flags]) by (by rewrite <- !app_assoc).
  rewrite lookup_app_r; rewrite !length_app, c_A_length, c_M1_length, Hc; done.
Qed.

(** What the server does with a client's proof, up to the test of [M1]. *)
Lemma proof_computed c k :
  challenged c k -> no_short c ->
  isZero (BN_mod (SetBinary (c_A c)) (srp_N k)) = false
  /\ read_array 32 (AsByteArray 32 true (server_secret (SetBinary (c_A c)) (scrambler (SetBinary (c_A c)) (srp_B k)) k)) = Ok (c_S c)
  /\ session_key (c_S c) = le_combine (c_K c)
  /\ expected_M (srp_N k) (srp_g k) (srp_s k) (SetBinary (c_A c)) (srp_B k) (le_combine (c_K c)) (_login k) = le_combine (c_M1 c)
  /\ read_array 20 (AsByteArray 0 true (le_combine (c_M1 c))) = Ok (c_M1 c).
Proof.
  intros Hk Hs. pose proof Hs as (HfA & HfB & Hfs & HfS & HfK & Hfg & HfM). split_and!.
  - pose proof Hk as (HN & _ & _ & _ & _ & _ & _ & _ & _ & _ & _ & Ha & _). rewrite HN, c_A_value.
    rewrite BN_mod_spec by (apply public_range || done). rewrite Zmod_mod.
    apply Z.eqb_neq. by apply public_nonzero.
  - rewrite (agree_u c k) by done. rewrite (agree_S_bytes c k) by done.
    unfold read_array. unfold c_S. rewrite length_le_split. done.
  - apply agree_K.
  - by apply agree_M.
  - rewrite AsByteArray_0 by (apply bytes_nonneg, SHA1_bytes). rewrite full_bytes by (done || apply SHA1_bytes).
    unfold read_array. rewrite c_M1_length. cbn [Nat.ltb Nat.leb]. f_equal. rewrite take_ge; [done|]. by rewrite c_M1_length.
Qed.

(** The client's proof is found right. *)
Lemma wp_honest_proof c crc keys flags rest (Q : bool -> AuthServer -> Prop) E w :
  challenged c (conn w) -> no_short c -> _expversion (conn w) <> NO_VALID_EXP_FLAG -> length crc = 20%nat ->
  input_buffer (sock w) = proof_packet c crc keys flags ++ rest ->
  wp (right_password env (proof_packet c crc keys flags) (SetBinary (c_A c)) (le_combine (c_M1 c))) Q E
    (set_conn (set_K (le_combine (c_K c)) (set_authed false (conn w)))
      (set_sock (mkRealmSocket rest (sk_sent (sock w)) (sk_shutdown (sock w))) w)) ->
  wp (_HandleLogonProof env) Q E w.
Proof.
  intros Hk Hs Hexp Hcrc Hbuf Hright.
  destruct (proof_computed c (conn w) Hk Hs) as (Hz & HS & HK & HM & HMb).
  pose proof (proof_length c crc keys flags Hcrc) as Hlen.
  unfold _HandleLogonProof. as_line. apply wp_recv; as_proj; rewrite Hbuf, length_app, Hlen; [unfold sizeof_sAuthLogonProof_C; lia|].
  intros _. change (Z.to_nat sizeof_sAuthLogonProof_C) with 75%nat.
  rewrite <- Hlen, take_app_length, drop_app_length. as_line.
  apply wp_if; intros He; [by apply Z.eqb_eq in He|]. cbv zeta. rewrite proof_A.
  rewrite Hz. as_line. apply (wp_lift_ok _ (c_S c)); [exact HS|]. as_line.
  apply (wp_lift_ok _ (c_M1 c)); [by rewrite HK, HM|].
  rewrite proof_M1, bool_decide_eq_true_2 by done. rewrite HK, HM. exact Hright.
Qed.

(** The client is in: the connection, the answer, the stored key. *)
Definition logged_in (c : Client) (rest : list Z) (w w' : AuthServer) : Prop :=
  _authed (conn w') = true /\ input_buffer (sock w') = rest
  /\ (exists tail, sk_sent (sock w') = sk_sent (sock w) ++ [[AUTH_LOGON_PROOF; 0] ++ c_M2 c ++ tail])
  /\ executed w' = executed w ++ [LOGIN_UPD_LOGONPROOF (AsHexStr (le_combine (c_K c))) (getRemoteAddress env)
                      (GetLocaleByName (_localizationName (conn w))) (_os (conn w)) (cl_login c)].

Lemma wp_login c crc keys flags rest w :
  challenged c (conn w) -> no_short c ->
  _expversion (conn w) <> NO_VALID_EXP_FLAG -> _tokenKey (conn w) = EmptyString ->
  length crc = 20%nat -> has_flag flags 0x04 = false ->
  input_buffer (sock w) = proof_packet c crc keys flags ++ rest ->
  wp (_HandleLogonProof env) (fun ok w' => ok = true /\ logged_in c rest w w') (fun _ => False) w.
Proof.
  intros Hk Hs Hexp Htok Hcrc Hfl Hbuf.
  eapply wp_honest_proof; [done..|]. unfold right_password. as_line.
  rewrite (proof_flags c crc keys flags Hcrc), Hfl, Htok. as_line.
  destruct Hs as (HfA & _ & _ & _ & HfK & _ & HfM). rewrite (agree_M2 c HfA HfK HfM).
  split; [done|]. split_and!; [done|done|by eexists|].
  destruct Hk as (_ & _ & _ & _ & _ & _ & _ & _ & _ & _ & El & _). by rewrite El.
Qed.

(** C10. A client that knows the password of the account, that is, whose private key
    is the one the stored verifier was made from, is let in: its proof is
    accepted, the session key the server stores is the client's, and the
    answer carries the proof the client waits for; all of it provided that no
    number of the exchange is short of a byte and no token is asked for. *)
Theorem srp_login c crc keys flags rest w :
  challenged c (conn w) -> no_short c ->
  _expversion (conn w) <> NO_VALID_EXP_FLAG -> _tokenKey (conn w) = EmptyString ->
  length crc = 20%nat -> has_flag flags 0x04 = false ->
  input_buffer (sock w) = proof_packet c crc keys flags ++ rest ->
  exists w', _HandleLogonProof env w = (w', Ok true) /\ logged_in c rest w w'.
Proof.
  intros Hk Hs Hexp Htok Hcrc Hfl Hbuf.
  pose proof (wp_login c crc keys flags rest w Hk Hs Hexp Htok Hcrc Hfl Hbuf) as Hwp.
  apply wpS_run in Hwp as (ok & w' & Hrun & -> & ?). by exists w'.
Qed.

(** What an authenticator's owner has to send after the proof. *)
Definition token_given (w : AuthServer) (key : string) (rest : list Z) : Prop :=
  exists size tok rest', rest = size :: tok ++ rest' /\ Z.of_nat (length tok) = Z.max 0 size
    /\ GenerateToken (time_at env (clock w)) key = Ok (u32 (atoi (c_str (bytes_str tok)))).

Lemma wp_check_token_given w (Q : bool -> AuthServer -> Prop) (E : AuthServer -> Prop) :
  (forall w', _authed (conn w') = _authed (conn w) -> E w') ->
  (forall w', _authed (conn w') = _authed (conn w) -> Q false w') ->
  (forall w', _authed (conn w') = _authed (conn w) -> executed w' = executed w -> token_given w (_tokenKey (conn w)) (input_buffer (sock w)) -> Q true w') ->
  wp (check_token env) Q E w.
Proof.
  intros HE Hf Ht. unfold check_token. as_line. apply wp_recv; as_proj; intros Hl; [by apply HE|].
  destruct (input_buffer (sock w)) as [|size rest] eqn:Hb; [cbn in Hl; lia|]. 
  change (take (Z.to_nat 1) (size :: rest)) with [size]. change (drop (Z.to_nat 1) (size :: rest)) with rest. as_proj. as_line.
  apply wp_recv; as_proj; intros Hl2; [by apply HE|]. as_line. as_step; [|by apply HE]. as_line.
  destruct (Z.eqb_spec a (u32 (atoi (c_str (bytes_str (take (Z.to_nat size) rest)))))) as [->|]; [|by apply Hf].
  apply Ht; [done|done|]. exists size, (take (Z.to_nat size) rest), (drop (Z.to_nat size) rest).
  split_and!; [by rewrite take_drop|rewrite length_take; lia|done].
Qed.

Definition proof_accepted (w w' : AuthServer) : Prop :=
  let k := conn w in
  exists lp rest, input_buffer (sock w) = lp ++ rest /\ length lp = 75%nat
    /\ _expversion k <> NO_VALID_EXP_FLAG
    /\ let A := SetBinary (lp_A lp) in
       let S := server_secret A (scrambler A (srp_B k)) k in
       let K := session_key (take 32 (AsByteArray 32 true S)) in
       isZero (BN_mod A (srp_N k)) = false
       /\ take 20 (AsByteArray 0 true (expected_M (srp_N k) (srp_g k) (srp_s k) A (srp_B k) K (_login k))) = lp_M1 lp
       /\ executed w' = executed w ++ [LOGIN_UPD_LOGONPROOF (AsHexStr K) (getRemoteAddress env)
                          (GetLocaleByName (_localizationName k)) (_os k) (_login k)]
       /\ (_tokenKey k <> EmptyString -> token_given w (_tokenKey k) rest).

Lemma read_array_ok n l a : read_array n l = Ok a -> a = take n l.
Proof. unfold read_array. by destruct (_ <? _)%nat; intros [= <-]. Qed.

Lemma wp_LogonProof w :
  wp (_HandleLogonProof env) (fun _ w' => _authed (conn w') = true -> proof_accepted w w')
     (fun w' => _authed (conn w') = false) w.
Proof.
  unfold _HandleLogonProof, sizeof_sAuthLogonProof_C. as_line. apply wp_recv; as_proj; intros Hlen; as_line; [done|].
  set (lp := take (Z.to_nat 75) (input_buffer (sock w))). set (rest := drop (Z.to_nat 75) (input_buffer (sock w))).
  assert (input_buffer (sock w) = lp ++ rest) as Hbuf by (by unfold lp, rest; rewrite take_drop).
  assert (length lp = 75%nat) as Hlp by (unfold lp; rewrite length_take; lia). clearbody lp rest.
  apply wp_if; intros Hexp; [by as_line|]. apply wp_if; intros HA; [by as_line|]. as_line.
  as_step; [|done]. match goal with H : read_array 32 _ = Ok _ |- _ => apply read_array_ok in H; subst a end.
  as_line. as_step; [|done]. match goal with H : read_array 20 _ = Ok _ |- _ => apply read_array_ok in H; subst a end.
  apply Z.eqb_neq in Hexp.
  apply wp_if; intros HM.
  2: { as_line. unfold wrong_password. as_line. as_steps; done. }
  apply bool_decide_eq_true in HM. unfold right_password. as_line.
  apply (wpS_mono _ (fun valid w' => _authed (conn w') = false /\ (valid = true ->
      executed w' = executed w ++ [LOGIN_UPD_LOGONPROOF
        (AsHexStr (session_key (take 32 (AsByteArray 32 true (server_secret (SetBinary (lp_A lp)) (scrambler (SetBinary (lp_A lp)) (srp_B (conn w))) (conn w))))))
        (getRemoteAddress env) (GetLocaleByName (_localizationName (conn w))) (_os (conn w)) (_login (conn w))]
      /\ (_tokenKey (conn w) <> EmptyString -> token_given w (_tokenKey (conn w)) rest)))
      _ (fun w' => _authed (conn w') = false)); [| |done].
  - apply wp_if; intros Hf.
    + apply wp_check_token_given; [done|by split|]. intros w' Ha Hx Ht. split; [done|]. intros _. by rewrite Hx.
    + as_line. split; [done|]. intros _. split; [done|]. intros Hk. apply orb_false_iff in Hf as [_ Hf].
      apply negb_false_iff, String.eqb_eq in Hf. done.
  - intros valid w' [Ha Hv]. destruct valid; cbn [negb]; as_line; [|congruence].
    destruct (Hv eq_refl) as [Hx Ht]. intros _. exists lp, rest. split_and!; [done|done|done|].
    cbv zeta. by split_and!.
Qed.

(** C11. Nothing but a right proof authenticates: when a proof leaves the connection
    authenticated, the client's build was an accepted one, its public number
    was not a multiple of the modulus, its proof was the one the server
    computed from its own secret, and the session key was stored under the name
    of the challenge; and if the account has an authenticator, its token for
    this moment followed the proof. *)
Theorem authenticated_by_proof w w' r :
  _HandleLogonProof env w = (w', r) -> _authed (conn w') = true -> proof_accepted w w'.
Proof.
  intros Hrun Hauth. pose proof (wp_LogonProof w) as Hwp. unfold wp in Hwp. rewrite Hrun in Hwp.
  destruct r; [by apply Hwp|congruence..].
Qed.
End Login.
