(* ===== verification/AuthBypass.v ===== *)
(** * The authentication server: ways in without the password

    A reconnection is vouched for by the stored session key alone; a right
    password stores one before the authenticator's token is looked at; and a
    proof is checked even when no challenge was issued, against numbers that
    are all zero then.  What these add up to. *)
From Stdlib Require Import Ascii String ZArith Lia.
From stdpp Require Import base gmap list strings.
From S2P Require Import Prelude ByteBuffer BigNumber Totp World StateM RealmList AuthSocket AuthFacts AuthSrp.

Open Scope Z_scope.

(** ** Challenge packets *)
Definition challenge_packet (cmd build : Z) (os country login : list Z) : list Z :=
  [cmd; 0] ++ le_split 2 (30 + Z.of_nat (length login)) ++ [0; 0; 0; 0] ++ [3; 3; 5] ++ le_split 2 build
  ++ [0; 0; 0; 0] ++ os ++ country ++ [0; 0; 0; 0] ++ [0; 0; 0; 0] ++ [u8 (Z.of_nat (length login))] ++ login.

Definition plain (l : list Z) : Prop := Forall (fun b => 0 < b < 256) l.

Lemma c_str_plain l r : plain l -> c_str (bytes_str (l ++ 0 :: r)) = bytes_str l.
Proof.
  unfold bytes_str. induction 1 as [|b l Hb Hl IH]; cbn [app fmap list_fmap string_of_list_ascii c_str]; [done|].
  replace (Ascii.eqb (ascii_of_N (Z.to_N b)) Ascii.zero) with false; [by f_equal|].
  symmetry. apply Ascii.eqb_neq. intros E. apply (f_equal N_of_ascii) in E.
  rewrite N_ascii_embedding in E by lia. change (N_of_ascii Ascii.zero) with 0%N in E. lia.
Qed.

Lemma bytes_str_length l : String.length (bytes_str l) = length l.
Proof. unfold bytes_str. induction l as [|b l IH]; [done|]. cbn. by f_equal. Qed.

Lemma plain_str_bytes l : plain l -> str_bytes (bytes_str l) = l.
Proof.
  unfold str_bytes, bytes_str. rewrite list_ascii_of_string_of_list_ascii.
  induction 1 as [|b l Hb Hl IH]; [done|]. cbn [fmap list_fmap]. rewrite N_ascii_embedding by lia.
  rewrite Z2N.id by lia. f_equal. exact IH.
Qed.

Section Packet.
  Variables (cmd build : Z) (os country login : list Z).
  Hypothesis Hos : length os = 4%nat.
  Hypothesis Hcountry : length country = 4%nat.
  Hypothesis Hlogin : (0 < length login < 256)%nat.

Definition packet := challenge_packet cmd build os country login.

Lemma packet_length : length packet = (34 + length login)%nat.
Proof. unfold packet, challenge_packet. rewrite !length_app, !length_le_split, Hos, Hcountry. cbn [length]. lia. Qed.

Lemma packet_size rest : ch_size (take 4 (packet ++ rest)) = 30 + Z.of_nat (length login).
Proof.
  unfold packet, challenge_packet, ch_size, u16_at, bytes_at. cbn [le_split app take drop le_combine].
  set (z := 30 + Z.of_nat (length login)). assert (0 <= z < 65536) as Hz by (unfold z; lia).
  pose proof (le_combine_split 2 z) as Hc. cbn [le_split le_combine] in Hc. rewrite (Z.mod_small z (256 ^ Z.of_nat 2)) in Hc by (change (256 ^ Z.of_nat 2) with 65536; lia).
  exact Hc.
Qed.

Lemma packet_build rest : ch_build (packet ++ rest) = build mod 65536.
Proof.
  unfold packet, challenge_packet, ch_build, u16_at, bytes_at. cbn [le_split app take drop].
  pose proof (le_combine_split 2 build) as Hc. exact Hc.
Qed.

Lemma packet_os rest : ch_os (packet ++ rest) = c_str (bytes_str (os ++ country ++ [0; 0; 0; 0; 0; 0; 0; 0] ++ [u8 (Z.of_nat (length login))] ++ login ++ rest)).
Proof.
  unfold packet, challenge_packet, ch_os, cstr_at. cbn [le_split app drop].
  by rewrite <- !app_assoc.
Qed.

Lemma packet_I : plain login -> ch_I (packet ++ [0]) = bytes_str login.
Proof.
  intros Hp. unfold ch_I, cstr_at, packet, challenge_packet.
  destruct os as [|o1 [|o2 [|o3 [|o4 [|? ?]]]]]; try done. destruct country as [|c1 [|c2 [|c3 [|c4 [|? ?]]]]]; try done.
  cbn [le_split app drop]. by apply c_str_plain.
Qed.

(** A whole packet at the head of the input is read whole. *)
Lemma wp_read_packet rest (Q : option (list Z) -> AuthServer -> Prop) E w :
  input_buffer (sock w) = packet ++ rest ->
  Q (Some (packet ++ [0])) (set_sock (mkRealmSocket rest (sk_sent (sock w)) (sk_shutdown (sock w))) w) ->
  wp read_challenge Q E w.
Proof.
  intros Hb HQ. pose proof packet_length as Hlen. unfold read_challenge. as_line. apply wp_recv; as_proj; rewrite Hb, length_app, Hlen; [lia|].
  intros _. change (Z.to_nat 4) with 4%nat. cbn [default]; unfold id. rewrite packet_size. as_line.
  rewrite length_drop, length_app, Hlen. apply wp_if; intros Hlt.
  { exfalso. unfold sizeof_sAuthLogonChallenge_C in Hlt. apply orb_true_iff in Hlt as [Hlt|Hlt]; bool_props; lia. }
  as_line. apply wp_recv; as_proj; rewrite length_drop, length_app, Hlen; [lia|]. intros _. as_line.
  replace (Z.to_nat (30 + Z.of_nat (length login))) with (length packet - 4)%nat by lia. cbn [default]; unfold id.
  rewrite take_drop_commute, drop_drop. replace (4 + (length packet - 4))%nat with (length packet) by lia.
  replace (length packet - 4 + 4)%nat with (length packet) by lia.
  rewrite take_app_length, drop_app_length, take_app_le, (app_assoc (take 4 packet)), take_drop by lia.
  by destruct w as [? []].
Qed.
End Packet.

Lemma packet_os3 cmd build o1 o2 o3 country login rest :
  plain [o1; o2; o3] ->
  ch_os (packet cmd build [o1; o2; o3; 0] country login ++ rest) = bytes_str [o1; o2; o3].
Proof. intros Hp. rewrite packet_os. by apply (c_str_plain [o1; o2; o3]). Qed.

Lemma packet_os8 cmd build login rest :
  ch_os (packet cmd build [65; 65; 65; 65] [65; 65; 65; 65] login ++ rest) = bytes_str (replicate 8 65).
Proof. rewrite packet_os. apply (c_str_plain (replicate 8 65)). by repeat constructor. Qed.

(** ** Reconnecting *)
Section Reconnect.
  Context `{OpenSSLSpec} `{ACE}.
  Variable env : AuthEnv.

Definition reconnect_proof (login R1 rnd K R3 : list Z) (keys : Z) : list Z :=
  [AUTH_RECONNECT_PROOF] ++ R1 ++ SHA1 (login ++ R1 ++ rnd ++ K) ++ R3 ++ [keys].

Lemma rand_bytes k n : (0 < n)%nat -> num_bytes (SetRand (8 * Z.of_nat n) k) = n.
Proof.
  intros Hn. pose proof (BN_rand_spec k (8 * Z.of_nat n) ltac:(lia)) as [Hl Hu]. unfold SetRand.
  apply num_bytes_exact; [done|]. change 256 with (2 ^ 8). rewrite <- !Z.pow_mul_r by lia. split; [|lia].
  etrans; [|exact Hl]. apply Z.pow_le_mono_r; lia.
Qed.

Lemma rand_nonneg k bits : 0 < bits -> 0 <= SetRand bits k.
Proof. intros Hb. pose proof (BN_rand_spec k bits Hb). pose proof (Z.pow_nonneg 2 (bits - 1)). unfold SetRand. lia. Qed.

Lemma reconnect_answered w k login keyb id level o1 o2 o3 country build rest :
  (0 < length login < 256)%nat -> plain login -> plain [o1; o2; o3] -> length country = 4%nat ->
  sel_sessionkey (db env) (executed w) (bytes_str login) = Some (AsHexStr (le_combine keyb), id, level) ->
  Forall is_byte keyb ->
  conn w = k ->
  input_buffer (sock w) = challenge_packet AUTH_RECONNECT_CHALLENGE build [o1; o2; o3; 0] country login ++ rest ->
  let rnd := le_split 16 (SetRand (8 * Z.of_nat 16) (draws w)) in
  exists w', _HandleReconnectChallenge env w = (w', Ok true)
    /\ sk_sent (sock w') = sk_sent (sock w) ++ [[AUTH_RECONNECT_CHALLENGE; 0] ++ rnd ++ replicate 16 0]
    /\ input_buffer (sock w') = rest /\ executed w' = executed w
    /\ _login (conn w') = bytes_str login /\ srp_K (conn w') = le_combine keyb
    /\ srp_proof (conn w') = SetRand (8 * Z.of_nat 16) (draws w) /\ _authed (conn w') = _authed k.
Proof.
  intros Hl Hp Ho Hc Hkey Hkb Hk Hbuf rnd. subst k.
  enough (wp (_HandleReconnectChallenge env) (fun ok w' => ok = true
    /\ sk_sent (sock w') = sk_sent (sock w) ++ [[AUTH_RECONNECT_CHALLENGE; 0] ++ rnd ++ replicate 16 0]
    /\ input_buffer (sock w') = rest /\ executed w' = executed w
    /\ _login (conn w') = bytes_str login /\ srp_K (conn w') = le_combine keyb
    /\ srp_proof (conn w') = SetRand (8 * Z.of_nat 16) (draws w) /\ _authed (conn w') = _authed (conn w)) (fun _ => False) w) as Hwp.
  { apply wpS_run in Hwp as (ok & w' & -> & -> & ?). by exists w'. }
  pose proof (packet_length AUTH_RECONNECT_CHALLENGE build [o1; o2; o3; 0] country login eq_refl Hc Hl) as Hlen.
  unfold _HandleReconnectChallenge. as_line. rewrite Hbuf, length_app. unfold packet in Hlen. rewrite Hlen.
  apply wp_if; intros Ht; [unfold sizeof_sAuthLogonChallenge_C in Ht; bool_props; lia|].
  as_line. eapply (wp_read_packet AUTH_RECONNECT_CHALLENGE build [o1; o2; o3; 0] country login); [done..|exact Hbuf|].
  pose proof (packet_I AUTH_RECONNECT_CHALLENGE build [o1; o2; o3; 0] country login eq_refl Hc Hp) as HI.
  pose proof (packet_os3 AUTH_RECONNECT_CHALLENGE build o1 o2 o3 country login [0] Ho) as Hos.
  unfold packet in *. cbv zeta. rewrite HI. as_line. rewrite Hkey. as_line. rewrite Hos. as_line.
  change (4 <? String.length (bytes_str [o1; o2; o3]))%nat with false. as_line.
  rewrite SetHexStr_AsHexStr by (by apply bytes_nonneg).
  apply (wp_lift_ok _ rnd).
  { rewrite (AsByteArray_fits 16) by first [apply (rand_bytes _ 16); lia|apply rand_nonneg; lia]. done. }
  as_line. apply wp_append_to; [done|done|vm_compute; done|]. intros b Hb Hst.
  as_line. apply wp_send_pkt; [rewrite Hst; discriminate|]. as_line. rewrite Hst. by split_and!.
Qed.

Lemma reconnect_proved w login R1 keyb R3 keys rest :
  (0 < length login)%nat -> plain login ->
  Forall is_byte R1 -> length R1 = 16%nat -> full R1 -> length R3 = 20%nat ->
  Forall is_byte keyb -> full keyb -> (0 < length keyb)%nat ->
  _login (conn w) = bytes_str login -> srp_K (conn w) = le_combine keyb ->
  num_bytes (srp_proof (conn w)) = 16%nat -> 0 <= srp_proof (conn w) ->
  input_buffer (sock w) = reconnect_proof login R1 (le_split 16 (srp_proof (conn w))) keyb R3 keys ++ rest ->
  exists w', _HandleReconnectProof w = (w', Ok true) /\ _authed (conn w') = true
    /\ _login (conn w') = bytes_str login /\ input_buffer (sock w') = rest
    /\ sk_sent (sock w') = sk_sent (sock w) ++ [[AUTH_RECONNECT_PROOF; 0; 0; 0]].
Proof.
  intros Hl Hp HR1 HlR1 HfR1 HR3 Hkb Hfk Hlk Hlog HK Hnp Hpos Hbuf.
  enough (wp _HandleReconnectProof (fun ok w' => ok = true /\ _authed (conn w') = true
    /\ _login (conn w') = bytes_str login /\ input_buffer (sock w') = rest
    /\ sk_sent (sock w') = sk_sent (sock w) ++ [[AUTH_RECONNECT_PROOF; 0; 0; 0]]) (fun _ => False) w) as Hwp.
  { apply wpS_run in Hwp as (ok & w' & -> & -> & ?). by exists w'. }
  set (pkt := reconnect_proof _ _ _ _ _ _) in *.
  assert (length pkt = 58%nat) as Hlen
    by (unfold pkt, reconnect_proof; rewrite !length_app, HlR1, SHA1_length, HR3; done).
  assert (lp_R1 pkt = R1) as E1.
  { unfold lp_R1. rewrite <- HlR1. apply (bytes_at_app [AUTH_RECONNECT_PROOF]). }
  assert (lp_R2 pkt = SHA1 (login ++ R1 ++ le_split 16 (srp_proof (conn w)) ++ keyb)) as E2.
  { unfold lp_R2, pkt, reconnect_proof. rewrite (app_assoc [AUTH_RECONNECT_PROOF]).
    pose proof (bytes_at_app ([AUTH_RECONNECT_PROOF] ++ R1) (SHA1 (login ++ R1 ++ le_split 16 (srp_proof (conn w)) ++ keyb)) (R3 ++ [keys])) as Hb.
    by rewrite length_app, HlR1, SHA1_length in Hb. }
  unfold _HandleReconnectProof. as_line. apply wp_recv; as_proj; rewrite Hbuf, length_app, Hlen; [unfold sizeof_sAuthReconnectProof_C; lia|].
  intros _. change (Z.to_nat sizeof_sAuthReconnectProof_C) with 58%nat.
  rewrite <- Hlen, take_app_length, drop_app_length. as_line. rewrite Hlog.
  apply wp_if; intros Hnull.
  { exfalso. rewrite HK in Hnull. unfold GetNumBytes in Hnull. rewrite !BN_num_bytes_spec, Hnp in Hnull by (done || by apply bytes_nonneg).
    rewrite Hfk in Hnull. apply orb_true_iff in Hnull as [[Hn|Hn]%orb_true_iff|Hn]; bool_props; try lia.
    destruct login; [cbn in Hl; lia|]. by rewrite String.eqb_eq in Hn. }
  cbv zeta. rewrite E1, E2, HK.
  assert (reconnect_digest (bytes_str login) (SetBinary R1) (srp_proof (conn w)) (le_combine keyb)
          = SHA1 (login ++ R1 ++ le_split 16 (srp_proof (conn w)) ++ keyb)) as Hd.
  { unfold reconnect_digest, Finalize, UpdateData, SHA1_Init. rewrite plain_str_bytes, SetBinary_spec by done.
    rewrite UpdateBigNumbers_spec by (repeat constructor; [by apply bytes_nonneg|done|by apply bytes_nonneg]).
    cbn [fmap list_fmap concat app]. rewrite !full_bytes, Hnp, app_nil_r by done. done. }
  rewrite bool_decide_eq_true_2 by (exact Hd). as_line.
  apply wp_append_to; [done|done|vm_compute; done|]. intros b Hb Hst.
  as_line. apply wp_send_pkt; [rewrite Hst; discriminate|]. as_line. rewrite Hst. by split_and!.
Qed.
End Reconnect.

Section Ways.
  Context `{OpenSSLSpec} `{ACE}.
  Variable env : AuthEnv.

(** Whoever holds the session key stored for an account is let in by
    reconnecting: the server sends sixteen random bytes, and the digest of
    name, own random bytes, server's bytes and key is accepted, with no
    password, token, ban or address lock coming into it. *)
Theorem reconnect_with_key w login keyb id level o1 o2 o3 country build rest :
  (0 < length login < 256)%nat -> plain login -> plain [o1; o2; o3] -> length country = 4%nat ->
  Forall is_byte keyb -> full keyb -> (0 < length keyb)%nat ->
  sel_sessionkey (db env) (executed w) (bytes_str login) = Some (AsHexStr (le_combine keyb), id, level) ->
  input_buffer (sock w) = challenge_packet AUTH_RECONNECT_CHALLENGE build [o1; o2; o3; 0] country login ++ rest ->
  exists w1 rnd, _HandleReconnectChallenge env w = (w1, Ok true)
    /\ sk_sent (sock w1) = sk_sent (sock w) ++ [[AUTH_RECONNECT_CHALLENGE; 0] ++ rnd ++ replicate 16 0]
    /\ length rnd = 16%nat
    /\ forall w2 R1 R3 keys rest2,
         conn w2 = conn w1 -> Forall is_byte R1 -> length R1 = 16%nat -> full R1 -> length R3 = 20%nat ->
         input_buffer (sock w2) = reconnect_proof login R1 rnd keyb R3 keys ++ rest2 ->
         exists w3, _HandleReconnectProof w2 = (w3, Ok true) /\ _authed (conn w3) = true
           /\ _login (conn w3) = bytes_str login.
Proof.
  intros Hl Hp Ho Hc Hkb Hfk Hlk Hkey Hbuf.
  destruct (reconnect_answered env w (conn w) login keyb id level o1 o2 o3 country build rest) as
    (w1 & Hrun & Hsent & _ & _ & Hlog & HK & Hproof & _); try done.
  eexists w1, _. split_and!; [exact Hrun|exact Hsent|apply length_le_split|].
  intros w2 R1 R3 keys rest2 Hconn HR1 HlR1 HfR1 HR3 Hbuf2.
  destruct (reconnect_proved w2 login R1 keyb R3 keys rest2) as (w3 & ? & ? & ? & _);
    rewrite ?Hconn; try done; try lia.
  - rewrite Hproof. by apply (rand_bytes _ 16); lia.
  - rewrite Hproof. apply rand_nonneg. lia.
  - by rewrite Hproof.
  - by exists w3.
Qed.

(** The token comes too late: with the right password and a wrong token the
    proof is refused and the connection is not authenticated, but the session
    key, which the client has, is already stored under the account's name. *)
Theorem wrong_token_stores_key c crc keys flags size tok rest w t :
  challenged c (conn w) -> no_short c ->
  _expversion (conn w) <> NO_VALID_EXP_FLAG -> _tokenKey (conn w) <> EmptyString ->
  length crc = 20%nat -> 0 <= size -> Z.of_nat (length tok) = size ->
  GenerateToken (time_at env (clock w)) (_tokenKey (conn w)) = Ok t -> t <> u32 (atoi (c_str (bytes_str tok))) ->
  input_buffer (sock w) = proof_packet c crc keys flags ++ size :: tok ++ rest ->
  exists w', _HandleLogonProof env w = (w', Ok false)
    /\ _authed (conn w') = false
    /\ sk_sent (sock w') = sk_sent (sock w) ++ [failed_data]
    /\ executed w' = executed w ++ [LOGIN_UPD_LOGONPROOF (AsHexStr (le_combine (c_K c))) (getRemoteAddress env)
                        (GetLocaleByName (_localizationName (conn w))) (_os (conn w)) (cl_login c)].
Proof.
  intros Hk Hs Hexp Htok Hcrc Hsz Hlt Ht Hne Hbuf.
  enough (wp (_HandleLogonProof env) (fun ok w' => ok = false /\ _authed (conn w') = false
      /\ sk_sent (sock w') = sk_sent (sock w) ++ [failed_data]
      /\ executed w' = executed w ++ [LOGIN_UPD_LOGONPROOF (AsHexStr (le_combine (c_K c))) (getRemoteAddress env)
                        (GetLocaleByName (_localizationName (conn w))) (_os (conn w)) (cl_login c)]) (fun _ => False) w) as Hwp.
  { apply wpS_run in Hwp as (ok & w' & -> & -> & ?). by exists w'. }
  eapply wp_honest_proof; [done..|]. unfold right_password. as_line.
  replace (String.eqb (_tokenKey (conn w)) "") with false by (symmetry; by apply String.eqb_neq).
  rewrite orb_true_r. as_line. unfold check_token. as_line.
  apply wp_recv; as_proj; [cbn [length]; lia|]. intros _.
  change (take (Z.to_nat 1) (size :: tok ++ rest)) with [size]. change (drop (Z.to_nat 1) (size :: tok ++ rest)) with (tok ++ rest).
  as_line. apply wp_recv; as_proj; rewrite length_app; [lia|]. intros _.
  replace (Z.to_nat size) with (length tok) by lia. rewrite take_app_length, drop_app_length. as_line.
  apply (wp_lift_ok _ t); [done|]. as_line. rewrite (proj2 (Z.eqb_neq _ _)) by done. as_line.
  split_and!; [done|done|done|].
  destruct Hk as (_ & _ & _ & _ & _ & _ & _ & _ & _ & _ & El & _). by rewrite El.
Qed.

(** *** A proof without a challenge

    What an attacker who knows only the account's name sends: a challenge
    whose operating system is five letters or more, so that the handler gives
    up after it has noted name and build, and then the proof for a verifier,
    a salt and server numbers that are zero. *)
Definition forged_K : list Z :=
  let t := replicate 31 0 ++ [1] in interleave (SHA1 (evens t)) (SHA1 (evens (drop 1 t))).
Definition forged_M1 (login : list Z) : list Z := SHA1 (c_group ++ SHA1 login ++ [1] ++ forged_K).
Definition forged_proof (login crc : list Z) (keys : Z) : list Z :=
  [AUTH_LOGON_PROOF] ++ (1 :: replicate 31 0) ++ forged_M1 login ++ crc ++ [keys; 0].
Definition forged_challenge (login : list Z) : list Z :=
  challenge_packet AUTH_LOGON_CHALLENGE 12340 [65; 65; 65; 65] [65; 65; 65; 65] login.

Lemma forged_challenge_read w login rest :
  (0 < length login < 256)%nat -> plain login ->
  (match LastLoginAttemptTimeForIP w !! getRemoteAddress env with
   | Some last => last < u32 (time_at env (clock w)) | None => True end) ->
  input_buffer (sock w) = forged_challenge login ++ rest ->
  exists w', _HandleLogonChallenge env w = (w', Ok false)
    /\ conn w' = set_os (bytes_str (replicate 8 65)) (set_build 12340 POST_BC_EXP_FLAG
                   (set_login (bytes_str login) (set_authed false (conn w))))
    /\ sock w' = mkRealmSocket rest (sk_sent (sock w)) (sk_shutdown (sock w)) /\ executed w' = executed w.
Proof.
  intros Hl Hp Hflood Hbuf.
  enough (wp (_HandleLogonChallenge env) (fun ok w' => ok = false
    /\ conn w' = set_os (bytes_str (replicate 8 65)) (set_build 12340 POST_BC_EXP_FLAG
                   (set_login (bytes_str login) (set_authed false (conn w))))
    /\ sock w' = mkRealmSocket rest (sk_sent (sock w)) (sk_shutdown (sock w)) /\ executed w' = executed w) (fun _ => False) w) as Hwp.
  { apply wpS_run in Hwp as (ok & w' & -> & -> & ?). by exists w'. }
  pose proof (packet_length AUTH_LOGON_CHALLENGE 12340 [65; 65; 65; 65] [65; 65; 65; 65] login eq_refl eq_refl Hl) as Hlen.
  unfold _HandleLogonChallenge. as_line. rewrite Hbuf, length_app. unfold packet, forged_challenge in *. rewrite Hlen.
  apply wp_if; intros Ht; [unfold sizeof_sAuthLogonChallenge_C in Ht; bool_props; lia|].
  as_line. unfold flood_protection. as_line.
  replace (match LastLoginAttemptTimeForIP w !! getRemoteAddress env with
           | Some last => u32 (time_at env (clock w)) <=? last | None => false end) with false.
  2: { destruct (_ !! _) as [last|]; [|done]. symmetry. by apply Z.leb_gt. }
  as_line. apply (wpS_mono _ (fun _ w' => conn w' = set_authed false (conn w) /\ sock w' = sock w /\ executed w' = executed w)
    _ (fun _ => False)); [as_steps; done| |done].
  intros [] w1 (Hc & Hs & He). as_line.
  eapply (wp_read_packet AUTH_LOGON_CHALLENGE 12340 [65; 65; 65; 65] [65; 65; 65; 65] login); [done..|by rewrite Hs|].
  pose proof (packet_I AUTH_LOGON_CHALLENGE 12340 [65; 65; 65; 65] [65; 65; 65; 65] login eq_refl eq_refl Hp) as HI.
  pose proof (packet_os8 AUTH_LOGON_CHALLENGE 12340 login [0]) as Hos.
  pose proof (packet_build AUTH_LOGON_CHALLENGE 12340 [65; 65; 65; 65] [65; 65; 65; 65] login [0]) as Hbd.
  unfold packet in *. as_line. cbv zeta. rewrite HI, Hos, Hbd. change (12340 mod 65536) with 12340.
  change (expansion_flag 12340) with POST_BC_EXP_FLAG.
  as_line. change (4 <? String.length (bytes_str (replicate 8 65%Z)))%nat with true. as_line.
  rewrite Hc, Hs, He. done.
Qed.

Lemma forged_proof_accepted w login crc keys rest :
  plain login -> length crc = 20%nat -> full forged_K -> full c_group -> full (forged_M1 login) ->
  srp_N (conn w) = Ng -> srp_g (conn w) = 7 -> srp_s (conn w) = 0 -> srp_v (conn w) = 0 -> srp_b (conn w) = 0 -> srp_B (conn w) = 0 ->
  _expversion (conn w) <> NO_VALID_EXP_FLAG -> _tokenKey (conn w) = EmptyString -> _login (conn w) = bytes_str login ->
  input_buffer (sock w) = forged_proof login crc keys ++ rest ->
  exists w', _HandleLogonProof env w = (w', Ok true)
    /\ _authed (conn w') = true /\ _login (conn w') = bytes_str login /\ input_buffer (sock w') = rest
    /\ executed w' = executed w ++ [LOGIN_UPD_LOGONPROOF (AsHexStr (le_combine forged_K)) (getRemoteAddress env)
                        (GetLocaleByName (_localizationName (conn w))) (_os (conn w)) (bytes_str login)].
Proof.
  intros Hp Hcrc HfK Hfg HfM HN Hg Hs Hv Hb HB Hexp Htok Hlog Hbuf.
  enough (wp (_HandleLogonProof env) (fun ok w' => ok = true
    /\ _authed (conn w') = true /\ _login (conn w') = bytes_str login /\ input_buffer (sock w') = rest
    /\ executed w' = executed w ++ [LOGIN_UPD_LOGONPROOF (AsHexStr (le_combine forged_K)) (getRemoteAddress env)
                        (GetLocaleByName (_localizationName (conn w))) (_os (conn w)) (bytes_str login)]) (fun _ => False) w) as Hwp.
  { apply wpS_run in Hwp as (ok & w' & -> & -> & ?). by exists w'. }
  assert (Forall is_byte (1 :: replicate 31 0)) as HAb by (by repeat constructor).
  assert (Forall is_byte forged_K) as HKb by (apply interleave_bytes; apply SHA1_bytes).
  assert (Forall is_byte (forged_M1 login)) as HMb by apply SHA1_bytes.
  assert (length (forged_M1 login) = 20%nat) as HMl by apply SHA1_length.
  set (pkt := forged_proof login crc keys) in *.
  assert (length pkt = 75%nat) as Hlen by (unfold pkt, forged_proof; rewrite !length_app, HMl, Hcrc; done).
  assert (SetBinary (lp_A pkt) = 1) as EA.
  { replace (lp_A pkt) with (1 :: replicate 31 0) by (symmetry; apply (bytes_at_app [AUTH_LOGON_PROOF] (1 :: replicate 31 0))). by rewrite SetBinary_spec. }
  assert (lp_M1 pkt = forged_M1 login) as EM.
  { unfold lp_M1, pkt, forged_proof. rewrite (app_assoc [AUTH_LOGON_PROOF]).
    pose proof (bytes_at_app ([AUTH_LOGON_PROOF] ++ 1 :: replicate 31 0) (forged_M1 login) (crc ++ [keys; 0])) as Hx.
    by rewrite HMl in Hx. }
  assert (lp_securityFlags pkt = 0) as Ef.
  { unfold lp_securityFlags, pkt, forged_proof.
    replace ([AUTH_LOGON_PROOF] ++ (1 :: replicate 31 0) ++ forged_M1 login ++ crc ++ [keys; 0])
      with (([AUTH_LOGON_PROOF] ++ (1 :: replicate 31 0) ++ forged_M1 login ++ crc ++ [keys]) ++ [0]) by (by rewrite <- !app_assoc).
    rewrite lookup_app_r; rewrite !length_app, HMl, Hcrc; done. }
  unfold _HandleLogonProof. as_line. apply wp_recv; as_proj; rewrite Hbuf, length_app, Hlen; [unfold sizeof_sAuthLogonProof_C; lia|].
  intros _. change (Z.to_nat sizeof_sAuthLogonProof_C) with 75%nat.
  rewrite <- Hlen, take_app_length, drop_app_length. as_line.
  apply wp_if; intros He; [by apply Z.eqb_eq in He|]. cbv zeta. rewrite EA, HN.
  rewrite BN_mod_spec by done. change (isZero (1 mod Ng)) with false. as_line.
  assert (server_secret 1 (scrambler 1 (srp_B (conn w))) (set_authed false (conn w)) = 1) as ES.
  { unfold server_secret, ModExp. as_proj. rewrite HN, Hv, Hb.
    assert (0 <= scrambler 1 (srp_B (conn w))) as Hu.
    { unfold scrambler. rewrite SetBinary_spec by apply SHA1_bytes. apply bytes_nonneg, SHA1_bytes. }
    assert (0 <= 0 ^ scrambler 1 (srp_B (conn w)) mod Ng) by (apply Z.mod_pos_bound, Ng_pos).
    rewrite (BN_mod_exp_spec 0), BN_mul_spec, BN_mod_exp_spec by (done || lia). done. }
  rewrite ES. apply (wp_lift_ok _ (replicate 31 0 ++ [1])); [by rewrite (AsByteArray_spec 32) by done|]. as_line.
  assert (session_key (replicate 31 0 ++ [1]) = le_combine forged_K) as EK.
  { unfold session_key, Finalize, UpdateData, SHA1_Init. cbn [app]. by rewrite SetBinary_spec. }
  assert (expected_M Ng 7 0 1 0 (le_combine forged_K) (bytes_str login) = le_combine (forged_M1 login)) as EX.
  { unfold expected_M, Finalize, UpdateData, SHA1_Init. rewrite SetBinary_spec by apply SHA1_bytes.
    rewrite !UpdateBigNumbers_spec by (repeat constructor; first [done|apply group_hash_nonneg|by apply bytes_nonneg]).
    cbn [fmap list_fmap concat app]. rewrite group_hash_value, full_bytes, plain_str_bytes by done.
    unfold forged_M1. by rewrite !app_nil_r, <- !app_assoc. }
  rewrite EK, Hg, Hs, HB, Hlog, EX. apply (wp_lift_ok _ (forged_M1 login)).
  { rewrite AsByteArray_0 by (by apply bytes_nonneg). rewrite full_bytes by done. unfold read_array.
    rewrite HMl. cbn [Nat.ltb Nat.leb]. f_equal. rewrite take_ge; [done|]. by rewrite HMl. }
  rewrite EM, bool_decide_eq_true_2 by done. unfold right_password. as_line. rewrite Ef, Htok. as_line.
  split_and!; [done|done|done|done|]. by rewrite Hlog.
Qed.

(** A round, by the handler of its command. *)
Lemma wp_round_by cmd rest h n n' w (Q : option Z -> AuthServer -> Prop) E :
  input_buffer (sock w) = cmd :: rest -> find_handler cmd (_authed (conn w)) (table env) = Some h ->
  (n' = if cmd =? AUTH_LOGON_CHALLENGE then n + 1 else n) -> n' <> MAX_AUTH_LOGON_CHALLENGES_IN_A_ROW ->
  wp h (fun ok w' => Q (if ok then Some n' else None) w') E w ->
  wp (OnRead_round env n) Q E w.
Proof.
  intros Hb Hf Hn Hm Hh. unfold OnRead_round. as_line. rewrite Hb.
  rewrite (proj2 (Z.ltb_ge _ _)) by (cbn [length]; lia). change (take (Z.to_nat 1) (cmd :: rest)) with [cmd].
  as_line. rewrite <- Hn, (proj2 (Z.eqb_neq _ _) Hm), andb_false_r. as_line. rewrite Hf. as_line.
  eapply wpS_mono; [exact Hh| |done]. intros ok w' Hq. by as_line.
Qed.

Lemma wp_read_on (Q : bool -> AuthServer -> Prop) E w :
  (forall fuel, wp (OnRead_loop env (S (S fuel)) 0) Q E w) -> wp (OnRead env) Q E w.
Proof.
  intros Hl. assert (exists fuel, OnRead_fuel w = S (S fuel)) as [fuel Hf].
  { unfold OnRead_fuel. exists (length (input_buffer (sock w)) + 34)%nat. lia. }
  specialize (Hl fuel). unfold wp, OnRead in *. by rewrite Hf.
Qed.

Lemma wp_no_input n w (Q : bool -> AuthServer -> Prop) E fuel :
  input_buffer (sock w) = [] -> Q true w -> wp (OnRead_loop env (S fuel) n) Q E w.
Proof. intros Hb HQ. cbn [OnRead_loop]. unfold OnRead_round. as_line. by rewrite Hb. Qed.

Lemma wp_input bytes n w (Q : Z -> AuthServer -> Prop) E :
  sk_shutdown (sock w) = false -> input_buffer (sock w) = [] -> bytes <> [] -> Z.of_nat (length bytes) < input_capacity ->
  n = Z.of_nat (length bytes) ->
  wp (OnRead env) (fun _ w' => Q 0 w') E (set_sock (mkRealmSocket bytes (sk_sent (sock w)) false) w) ->
  wp (handle_input env (Some bytes)) Q E w.
Proof.
  intros Hsh Hb Hne Hcap -> Hread. unfold handle_input. as_line. rewrite Hsh. as_line. rewrite Hb. cbn [length app].
  rewrite take_ge by (unfold input_capacity in *; lia).
  destruct (Nat.eqb_spec (length bytes) 0) as [E0|_]; [by destruct bytes|]. as_line.
  rewrite Hsh, Hb. eapply wpS_mono; [exact Hread| |done]. intros b w' Hq. as_line.
  rewrite (proj2 (Z.eqb_neq _ _)) by (unfold input_capacity in *; lia). done.
Qed.

(** C14. Anyone can log in as anyone.  On a new connection that the flood protection
    does not hold up, two packets made from the account's name alone, with no
    password, leave the connection authenticated under that name, and a
    session key the sender knows stored for the account: the handler of the
    proof does not ask whether a challenge was issued, and without one the
    verifier and the server's secret are zero. *)
Theorem authentication_bypass w login crc keys :
  conn w = AuthSocket_new -> sk_shutdown (sock w) = false -> input_buffer (sock w) = [] ->
  (0 < length login < 256)%nat -> plain login -> length crc = 20%nat ->
  full forged_K -> full c_group -> full (forged_M1 login) ->
  (match LastLoginAttemptTimeForIP w !! getRemoteAddress env with
   | Some last => last < u32 (time_at env (clock w)) | None => True end) ->
  exists w1 w2, handle_input env (Some (forged_challenge login)) w = (w1, Ok 0)
    /\ handle_input env (Some (forged_proof login crc keys)) w1 = (w2, Ok 0)
    /\ _authed (conn w2) = true /\ _login (conn w2) = bytes_str login
    /\ executed w2 = executed w ++ [LOGIN_UPD_LOGONPROOF (AsHexStr (le_combine forged_K)) (getRemoteAddress env)
                        LOCALE_enUS (bytes_str (replicate 8 65)) (bytes_str login)].
Proof.
  intros Hc Hsh Hb Hl Hp Hcrc HfK Hfg HfM Hflood.
  set (wa := set_sock (mkRealmSocket (forged_challenge login) (sk_sent (sock w)) false) w).
  assert (length (forged_challenge login) = (34 + length login)%nat) as Hlen1 by (by apply packet_length).
  destruct (forged_challenge_read wa login [] Hl Hp Hflood) as (w1 & Hrun1 & Hc1 & Hs1 & He1); [by rewrite app_nil_r|].
  assert (handle_input env (Some (forged_challenge login)) w = (w1, Ok 0)) as Hin1.
  { enough (wp (handle_input env (Some (forged_challenge login))) (fun r w' => r = 0 /\ w' = w1) (fun _ => False) w) as Hwp
      by (by apply wpS_run in Hwp as (? & ? & -> & -> & ->)).
    eapply wp_input; [done|done|by destruct login|unfold input_capacity; lia|done|]. fold wa.
    apply wp_read_on. intros fuel. cbn [OnRead_loop]. as_line.
    eapply wp_round_by; [done|done|done|done|]. apply (wp_intro _ _ _ _ _ _ Hrun1). by as_line. }
  exists w1. change (executed w) with (executed wa). rewrite <- He1.
  set (wb := set_sock (mkRealmSocket (forged_proof login crc keys) (sk_sent (sock w1)) false) w1).
  assert (sk_shutdown (sock w1) = false /\ input_buffer (sock w1) = []) as [Hsh1 Hb1] by (by rewrite Hs1).
  assert (conn w1 = set_os (bytes_str (replicate 8 65)) (set_build 12340 POST_BC_EXP_FLAG (set_login (bytes_str login) AuthSocket_new))) as Hk
    by (rewrite Hc1; unfold wa; as_proj; by rewrite Hc).
  destruct (forged_proof_accepted wb login crc keys []) as (w2 & Hrun2 & Ha2 & Hlog2 & Hb2 & Hx2);
    try (unfold wb; as_proj; rewrite ?Hk, ?app_nil_r; done).
  exists w2. split_and!; [exact Hin1| |exact Ha2|exact Hlog2|].
  - enough (wp (handle_input env (Some (forged_proof login crc keys))) (fun r w' => r = 0 /\ w' = w2) (fun _ => False) w1) as Hwp
      by (by apply wpS_run in Hwp as (? & ? & -> & -> & ->)).
    eapply wp_input; [done|done|done| |done|].
    { unfold forged_proof, forged_M1. rewrite !length_app, SHA1_length, Hcrc. done. }
    fold wb. apply wp_read_on. intros fuel. cbn [OnRead_loop]. as_line.
    eapply wp_round_by; [done| |done|done|]; [unfold wb; as_proj; rewrite Hk; reflexivity|].
    apply (wp_intro _ _ _ _ _ _ Hrun2). by apply wp_no_input.
  - rewrite Hx2. unfold wb. as_proj. rewrite Hk. done.
Qed.
End Ways.
