(* ===== verification/OpenSSLRef.v ===== *)
(** * An instance of the OpenSSL interface

    SHA-1, HMAC and the arithmetic as their standards define them, on the
    integers: the interface can be met, and examples can be evaluated.  The
    random numbers are a fixed sequence. *)
From Stdlib Require Import Ascii String ZArith Lia Zpow_facts.
From stdpp Require Import base list strings.
From S2P Require Import Prelude ByteBuffer BigNumber.

Open Scope Z_scope.

(** ** SHA-1 *)
Definition mask32 (z : Z) : Z := Z.land z 0xFFFFFFFF.
Definition add32 (a b : Z) : Z := mask32 (a + b).
Definition rotl (n z : Z) : Z := mask32 (Z.lor (Z.shiftl z n) (Z.shiftr z (32 - n))).
Definition be_split (n : nat) (z : Z) : list Z := rev (le_split n z).
Definition be_combine (l : list Z) : Z := le_combine (rev l).

Definition sha1_pad (l : list Z) : list Z :=
  let n := length l in
  l ++ [128] ++ replicate (63 - (n + 8) mod 64) 0 ++ be_split 8 (8 * Z.of_nat n).

Fixpoint chunks_of (fuel n : nat) (l : list Z) : list (list Z) :=
  match fuel with
  | O => []
  | S fuel' => match l with [] => [] | _ => take n l :: chunks_of fuel' n (drop n l) end
  end.

(** The message schedule, newest word first. *)
Fixpoint schedule (fuel : nat) (w : list Z) : list Z :=
  match fuel with
  | O => w
  | S fuel' =>
      let get i := default 0 (w !! i) in
      schedule fuel' (rotl 1 (Z.lxor (Z.lxor (get 2%nat) (get 7%nat)) (Z.lxor (get 13%nat) (get 15%nat))) :: w)
  end.

Definition sha1_f (t b c d : Z) : Z :=
  if t <? 20 then Z.lxor d (Z.land b (Z.lxor c d))
  else if t <? 40 then Z.lxor (Z.lxor b c) d
  else if t <? 60 then Z.lor (Z.lor (Z.land b c) (Z.land b d)) (Z.land c d)
  else Z.lxor (Z.lxor b c) d.
Definition sha1_k (t : Z) : Z :=
  if t <? 20 then 0x5A827999 else if t <? 40 then 0x6ED9EBA1 else if t <? 60 then 0x8F1BBCDC else 0xCA62C1D6.

Definition sha1_round (st : Z * (Z * Z * Z * Z * Z)) (w : Z) : Z * (Z * Z * Z * Z * Z) :=
  let '(t, (a, b, c, d, e)) := st in
  let temp := add32 (add32 (add32 (rotl 5 a) (sha1_f t b c d)) (add32 e w)) (sha1_k t) in
  (t + 1, (temp, a, rotl 30 b, c, d)).

Definition sha1_block (h : Z * Z * Z * Z * Z) (block : list Z) : Z * Z * Z * Z * Z :=
  let words := be_combine <$> chunks_of 16 4 block in
  let w := rev (schedule 64 (rev words)) in
  let '(_, (a, b, c, d, e)) := foldl sha1_round (0, h) w in
  let '(h0, h1, h2, h3, h4) := h in
  (add32 h0 a, add32 h1 b, add32 h2 c, add32 h3 d, add32 h4 e).

Definition sha1 (l : list Z) : list Z :=
  let p := sha1_pad l in
  let '(h0, h1, h2, h3, h4) :=
    foldl sha1_block (0x67452301, 0xEFCDAB89, 0x98BADCFE, 0x10325476, 0xC3D2E1F0) (chunks_of (length p) 64 p) in
  be_split 4 h0 ++ be_split 4 h1 ++ be_split 4 h2 ++ be_split 4 h3 ++ be_split 4 h4.

Definition hmac_sha1 (key msg : list Z) : list Z :=
  let key := if (64 <? length key)%nat then sha1 key else key in
  let key := key ++ replicate (64 - length key) 0 in
  sha1 ((Z.lxor 0x5C <$> key) ++ sha1 ((Z.lxor 0x36 <$> key) ++ msg)).

Example sha1_abc : be_combine (sha1 (str_bytes "abc")) = 0xa9993e364706816aba3e25717850c26c9cd0d89d.
Proof. vm_compute. done. Qed.
Example sha1_two_blocks :
  be_combine (sha1 (str_bytes "abcdbcdecdefdefgefghfghighijhijkijkljklmklmnlmnomnopnopq"))
  = 0x84983e441c3bd26ebaae4aa1f95129e5e54670f1.
Proof. vm_compute. done. Qed.
Example hmac_jefe :
  be_combine (hmac_sha1 (str_bytes "Jefe") (str_bytes "what do ya want for nothing?"))
  = 0xeffcdf6ae5eb2fa2d27416d5f184df9c259a7c79.
Proof. vm_compute. done. Qed.

(** ** Hexadecimal text *)
Definition hex_digit (d : Z) : ascii := ascii_of_N (Z.to_N (if d <? 10 then 48 + d else 55 + d)).
Definition hex_value (c : ascii) : option Z :=
  let n := Z.of_N (N_of_ascii c) in
  if (48 <=? n) && (n <=? 57) then Some (n - 48)
  else if (65 <=? n) && (n <=? 70) then Some (n - 55)
  else if (97 <=? n) && (n <=? 102) then Some (n - 87) else None.

Fixpoint hex_text (k : nat) (z : Z) (acc : string) : string :=
  match k with O => acc | S k' => hex_text k' (z / 16) (String (hex_digit (z mod 16)) acc) end.
Fixpoint hex_number (acc : Z) (s : string) : Z :=
  match s with
  | EmptyString => acc
  | String c s' => match hex_value c with Some d => hex_number (16 * acc + d) s' | None => acc end
  end.

Definition bn2hex (z : Z) : string := if z =? 0 then "0"%string else hex_text (2 * num_bytes z) z EmptyString.
Definition hex2bn (s : string) : option Z :=
  match s with
  | String c s' =>
      if Ascii.eqb c "-"%char
      then match s' with String d _ => if hex_value d then Some (- hex_number 0 s') else None | EmptyString => None end
      else if hex_value c then Some (hex_number 0 s) else None
  | EmptyString => None
  end.

#[export] Instance reference_openssl : OpenSSL := {
  SHA1 := sha1;
  HMAC_SHA1 := hmac_sha1;
  BN_bin2bn := be_combine;
  BN_bn2bin z := be_split (num_bytes z) z;
  BN_num_bytes z := Z.of_nat (num_bytes z);
  BN_hex2bn := hex2bn;
  BN_bn2hex := bn2hex;
  BN_get_word z := z;
  BN_lshift z n := z * 2 ^ n;
  BN_add := Z.add;
  BN_mul := Z.mul;
  BN_mod := Z.modulo;
  BN_mod_exp a p m := if m =? 1 then 0 else Zpow_mod a p m;
  BN_rand k bits := 2 ^ (bits - 1) + be_combine (sha1 (le_split 4 (Z.of_nat k)) ++ sha1 (le_split 5 (Z.of_nat k))) mod 2 ^ (bits - 1)
}.

(** ** It keeps the interface's promises *)
Lemma be_split_length n z : length (be_split n z) = n.
Proof. unfold be_split. by rewrite length_rev, length_le_split. Qed.
Lemma be_split_bytes n z : Forall is_byte (be_split n z).
Proof. apply Forall_rev, le_split_byte. Qed.

Lemma sha1_length l : length (sha1 l) = 20%nat.
Proof.
  unfold sha1. destruct (foldl _ _ _) as [[[[? ?] ?] ?] ?]. by rewrite !length_app, !be_split_length.
Qed.
Lemma sha1_bytes l : Forall is_byte (sha1 l).
Proof.
  unfold sha1. destruct (foldl _ _ _) as [[[[? ?] ?] ?] ?].
  rewrite !Forall_app. split_and!; apply be_split_bytes.
Qed.

Lemma hex_digit_value d : 0 <= d < 16 -> hex_value (hex_digit d) = Some d.
Proof.
  intros Hd. assert (forallb (fun d => bool_decide (hex_value (hex_digit d) = Some d)) (Z.of_nat <$> seq 0 16) = true) as Hall
    by (vm_compute; done).
  rewrite forallb_forall in Hall. eapply bool_decide_eq_true_1, Hall.
  apply list_elem_of_In, list_elem_of_fmap. exists (Z.to_nat d). split; [lia|]. apply elem_of_seq. lia.
Qed.

Lemma hex_number_text k z s acc :
  hex_number acc (hex_text k z s) = hex_number (16 ^ Z.of_nat k * acc + z mod 16 ^ Z.of_nat k) s.
Proof.
  revert z s. induction k as [|k IH]; intros z s; cbn [hex_text].
  - cbn [Z.of_nat]. rewrite Z.pow_0_r, Z.mod_1_r. f_equal. lia.
  - rewrite IH. cbn [hex_number]. rewrite hex_digit_value by (apply Z.mod_pos_bound; lia). f_equal.
    rewrite Nat2Z.inj_succ, Z.pow_succ_r by lia. rewrite Z.rem_mul_r; lia.
Qed.

Lemma hex_text_length k z s : String.length (hex_text k z s) = (k + String.length s)%nat.
Proof. revert z s. induction k as [|k IH]; intros z s; cbn [hex_text]; [done|]. rewrite IH. cbn. lia. Qed.

Lemma hex_text_head k z s : (0 < k)%nat -> exists d r, 0 <= d < 16 /\ hex_text k z s = String (hex_digit d) r.
Proof.
  revert z s. induction k as [|k IH]; intros z s Hk; [lia|]. cbn [hex_text]. destruct k as [|k].
  - cbn. eexists _, _. split; [|done]. apply Z.mod_pos_bound. lia.
  - apply IH. lia.
Qed.

Lemma hex_roundtrip z : 0 <= z -> hex2bn (bn2hex z) = Some z.
Proof.
  intros Hz. unfold bn2hex. destruct (Z.eqb_spec z 0) as [->|Hn]; [done|].
  assert (0 < 2 * num_bytes z)%nat as Hk.
  { unfold num_bytes. rewrite (proj2 (Z.leb_gt _ _)) by lia. lia. }
  pose proof (hex_number_text (2 * num_bytes z) z EmptyString 0) as Hnum.
  destruct (hex_text_head (2 * num_bytes z) z EmptyString Hk) as (d & r & Hd & Eh).
  rewrite Eh in *. unfold hex2bn.
  assert (Ascii.eqb (hex_digit d) "-"%char = false) as ->.
  { destruct (Ascii.eqb_spec (hex_digit d) "-"%char) as [E|]; [|done].
    pose proof (hex_digit_value d Hd) as Hv. rewrite E in Hv. done. }
  rewrite hex_digit_value by done. rewrite Hnum. cbn [hex_number]. f_equal.
  rewrite Z.mul_0_r, Z.add_0_l. apply Z.mod_small. rewrite Nat2Z.inj_mul. change 16 with (2 ^ 4).
  rewrite <- Z.pow_mul_r by lia. replace (4 * (Z.of_nat 2 * Z.of_nat (num_bytes z))) with (8 * Z.of_nat (num_bytes z)) by lia.
  rewrite Z.pow_mul_r by lia. destruct (num_bytes_bound z) as [Hb|]; [exact Hb|lia].
Qed.

Lemma hex_digit_nonzero d : 0 <= d < 16 -> Ascii.eqb (hex_digit d) Ascii.zero = false.
Proof.
  intros Hd. apply Ascii.eqb_neq. intros E. pose proof (hex_digit_value d Hd) as Hv. by rewrite E in Hv.
Qed.

Lemma hex_text_cstr k z s : c_str s = s -> c_str (hex_text k z s) = hex_text k z s.
Proof.
  revert z s. induction k as [|k IH]; intros z s Hs; cbn [hex_text]; [done|]. apply IH. cbn [c_str].
  rewrite hex_digit_nonzero by (apply Z.mod_pos_bound; lia). by rewrite Hs.
Qed.

Lemma le_combine_app l m : le_combine (l ++ m) = le_combine l + 256 ^ Z.of_nat (length l) * le_combine m.
Proof. induction l as [|x l IH]; [cbn [app le_combine length]; lia|]. cbn [app le_combine length]. rewrite IH, pow256_succ. lia. Qed.

Lemma hex_number_bytes l acc :
  Forall is_byte l -> hex_number acc (ByteArrayToHexStr l) = 256 ^ Z.of_nat (length l) * acc + le_combine (rev l).
Proof.
  intros Hl. revert acc. induction Hl as [|b l Hb Hl IH]; intros acc; cbn [ByteArrayToHexStr hex_number length rev]; [cbn; lia|].
  change hex_char with hex_digit. unfold is_byte in Hb.
  rewrite !hex_digit_value by first [apply Z.mod_pos_bound; lia|split; [apply Z.div_pos; lia|apply Z.div_lt_upper_bound; lia]].
  rewrite IH, le_combine_app, length_rev, pow256_succ. cbn [le_combine].
  replace (16 * (16 * acc + b / 16) + b mod 16) with (256 * acc + b) by (pose proof (Z.div_mod b 16); lia). lia.
Qed.

Lemma hex_bytes l : Forall is_byte l -> l <> [] -> hex2bn (ByteArrayToHexStr l) = Some (le_combine (rev l)).
Proof.
  intros Hl Hne. pose proof (hex_number_bytes l 0 Hl) as Hnum. destruct l as [|b l]; [done|].
  apply Forall_cons in Hl as [Hb _]. unfold is_byte in Hb. cbn [ByteArrayToHexStr] in *. change hex_char with hex_digit in *.
  assert (0 <= b / 16 < 16) as Hd by (split; [apply Z.div_pos; lia|apply Z.div_lt_upper_bound; lia]).
  unfold hex2bn. destruct (Ascii.eqb_spec (hex_digit (b / 16)) "-"%char) as [E|].
  - pose proof (hex_digit_value (b / 16) Hd) as Hv. rewrite E in Hv. done.
  - rewrite hex_digit_value by done. rewrite Hnum. f_equal. lia.
Qed.

#[export] Instance reference_spec : OpenSSLSpec.
Proof.
  split; cbn [SHA1 HMAC_SHA1 BN_bin2bn BN_bn2bin BN_num_bytes BN_hex2bn BN_bn2hex BN_get_word BN_lshift BN_add
              BN_mul BN_mod BN_mod_exp BN_rand reference_openssl]; intros; try done.
  - apply sha1_length.
  - apply sha1_bytes.
  - apply sha1_length.
  - apply sha1_bytes.
  - by apply hex_roundtrip.
  - by apply hex_bytes.
  - unfold bn2hex. destruct (z =? 0); [done|]. by apply hex_text_cstr.
  - unfold bn2hex. destruct (Z.eqb_spec z 0); [lia|]. rewrite hex_text_length. cbn. lia.
  - destruct (Z.eqb_spec m 1) as [->|]; [by rewrite Z.mod_1_r|]. by apply Zpow_mod_correct; lia.
  - rewrite Z.pow_sub_r, Z.pow_1_r by lia.
    assert (2 ^ bits = 2 * (2 ^ bits / 2)) as Hd.
    { replace bits with (Z.succ (bits - 1)) by lia. rewrite Z.pow_succ_r by lia.
      rewrite (Z.mul_comm 2 (2 ^ _)), Z.div_mul by lia. lia. }
    assert (0 < 2 ^ bits) by (apply Z.pow_pos_nonneg; lia).
    match goal with |- context [?x mod (2 ^ bits / 2)] => pose proof (Z.mod_pos_bound x (2 ^ bits / 2)) end. lia.
Qed.
