(* ===== verification/Channel.v ===== *)
(** * Chat channels: [shade/Chat/Channel.h], [Channel.cpp]

    The state of one channel and each of its operations: joining, leaving,
    kicks and bans, password, moderator and mute modes, ownership, the member
    list, announcements, messages and invitations, with every packet they send
    and every row they write.  An operation takes the channel and the world and
    returns both. *)
From Stdlib Require Import Ascii String ZArith Lia.
From stdpp Require Import base gmap sets list strings sorting.
From S2P Require Import Prelude ByteBuffer Util World.

Open Scope Z_scope.

(** ** Constants *)
Definition CHAT_JOINED_NOTICE : Z := 0x00.
Definition CHAT_LEFT_NOTICE : Z := 0x01.
Definition CHAT_YOU_JOINED_NOTICE : Z := 0x02.
Definition CHAT_YOU_LEFT_NOTICE : Z := 0x03.
Definition CHAT_WRONG_PASSWORD_NOTICE : Z := 0x04.
Definition CHAT_NOT_MEMBER_NOTICE : Z := 0x05.
Definition CHAT_NOT_MODERATOR_NOTICE : Z := 0x06.
Definition CHAT_PASSWORD_CHANGED_NOTICE : Z := 0x07.
Definition CHAT_OWNER_CHANGED_NOTICE : Z := 0x08.
Definition CHAT_PLAYER_NOT_FOUND_NOTICE : Z := 0x09.
Definition CHAT_NOT_OWNER_NOTICE : Z := 0x0A.
Definition CHAT_CHANNEL_OWNER_NOTICE : Z := 0x0B.
Definition CHAT_MODE_CHANGE_NOTICE : Z := 0x0C.
Definition CHAT_ANNOUNCEMENTS_ON_NOTICE : Z := 0x0D.
Definition CHAT_ANNOUNCEMENTS_OFF_NOTICE : Z := 0x0E.
Definition CHAT_MUTED_NOTICE : Z := 0x11.
Definition CHAT_PLAYER_KICKED_NOTICE : Z := 0x12.
Definition CHAT_BANNED_NOTICE : Z := 0x13.
Definition CHAT_PLAYER_BANNED_NOTICE : Z := 0x14.
Definition CHAT_PLAYER_UNBANNED_NOTICE : Z := 0x15.
Definition CHAT_PLAYER_NOT_BANNED_NOTICE : Z := 0x16.
Definition CHAT_PLAYER_ALREADY_MEMBER_NOTICE : Z := 0x17.
Definition CHAT_INVITE_NOTICE : Z := 0x18.
Definition CHAT_INVITE_WRONG_FACTION_NOTICE : Z := 0x19.
Definition CHAT_WRONG_FACTION_NOTICE : Z := 0x1A.
Definition CHAT_INVALID_NAME_NOTICE : Z := 0x1B.
Definition CHAT_NOT_MODERATED_NOTICE : Z := 0x1C.
Definition CHAT_PLAYER_INVITED_NOTICE : Z := 0x1D.
Definition CHAT_PLAYER_INVITE_BANNED_NOTICE : Z := 0x1E.
Definition CHAT_THROTTLED_NOTICE : Z := 0x1F.
Definition CHAT_NOT_IN_AREA_NOTICE : Z := 0x20.
Definition CHAT_NOT_IN_LFG_NOTICE : Z := 0x21.
Definition CHAT_VOICE_ON_NOTICE : Z := 0x22.
Definition CHAT_VOICE_OFF_NOTICE : Z := 0x23.

Definition CHANNEL_FLAG_CUSTOM : Z := 0x01.
Definition CHANNEL_FLAG_TRADE : Z := 0x04.
Definition CHANNEL_FLAG_NOT_LFG : Z := 0x08.
Definition CHANNEL_FLAG_GENERAL : Z := 0x10.
Definition CHANNEL_FLAG_CITY : Z := 0x20.
Definition CHANNEL_FLAG_LFG : Z := 0x40.

Definition CHANNEL_DBC_FLAG_TRADE : Z := 0x00008.
Definition CHANNEL_DBC_FLAG_CITY_ONLY2 : Z := 0x00020.
Definition CHANNEL_DBC_FLAG_LFG : Z := 0x40000.

Definition MEMBER_FLAG_NONE : Z := 0x00.
Definition MEMBER_FLAG_OWNER : Z := 0x01.
Definition MEMBER_FLAG_MODERATOR : Z := 0x02.
Definition MEMBER_FLAG_MUTED : Z := 0x08.

Definition SMSG_CHANNEL_NOTIFY : Z := 0x099.
Definition SMSG_CHANNEL_LIST : Z := 0x09B.
Definition SMSG_USERLIST_ADD : Z := 0x3F0.
Definition SMSG_USERLIST_REMOVE : Z := 0x3F1.
Definition SMSG_USERLIST_UPDATE : Z := 0x3F2.

Definition CHAT_MSG_CHANNEL : Z := 0x11.
Definition LANG_UNIVERSAL : Z := 0.

(** ** The channel *)

(** [Channel::PlayerInfo]; [operator\[\]] of the map creates the zero entry. *)
Record PlayerInfo := mkPI { pi_player : Z; pi_flags : Z }.
Definition PlayerInfo_zero : PlayerInfo := mkPI 0 0.

Definition IsOwner (pi : PlayerInfo) : bool := has_flag (pi_flags pi) MEMBER_FLAG_OWNER.
Definition IsModerator (pi : PlayerInfo) : bool := has_flag (pi_flags pi) MEMBER_FLAG_MODERATOR.
Definition IsMuted (pi : PlayerInfo) : bool := has_flag (pi_flags pi) MEMBER_FLAG_MUTED.

Definition pi_set (flag : Z) (state : bool) (pi : PlayerInfo) : PlayerInfo :=
  mkPI (pi_player pi) (if state then add_flag (pi_flags pi) flag else del_flag (pi_flags pi) flag).
Definition pi_SetOwner (state : bool) : PlayerInfo -> PlayerInfo := pi_set MEMBER_FLAG_OWNER state.
Definition pi_SetModerator (state : bool) : PlayerInfo -> PlayerInfo :=
  pi_set MEMBER_FLAG_MODERATOR state.
Definition pi_SetMuted (state : bool) : PlayerInfo -> PlayerInfo := pi_set MEMBER_FLAG_MUTED state.

Record Channel := mkChannel {
  ch_this : Z;                     (* the address of the object *)
  players : gmap Z PlayerInfo;
  banned : gset Z;
  m_announce : bool;
  m_ownership : bool;
  m_name : string;
  m_password : string;
  m_flags : Z;
  m_channelId : Z;
  m_ownerGUID : Z;
  m_Team : Z;
  m_IsSaved : bool
}.

Definition with_players (m : gmap Z PlayerInfo) (c : Channel) : Channel :=
  mkChannel (ch_this c) m (banned c) (m_announce c) (m_ownership c) (m_name c) (m_password c)
    (m_flags c) (m_channelId c) (m_ownerGUID c) (m_Team c) (m_IsSaved c).
Definition with_banned (b : gset Z) (c : Channel) : Channel :=
  mkChannel (ch_this c) (players c) b (m_announce c) (m_ownership c) (m_name c) (m_password c)
    (m_flags c) (m_channelId c) (m_ownerGUID c) (m_Team c) (m_IsSaved c).
Definition with_announce (a : bool) (c : Channel) : Channel :=
  mkChannel (ch_this c) (players c) (banned c) a (m_ownership c) (m_name c) (m_password c)
    (m_flags c) (m_channelId c) (m_ownerGUID c) (m_Team c) (m_IsSaved c).
Definition with_password (pw : string) (c : Channel) : Channel :=
  mkChannel (ch_this c) (players c) (banned c) (m_announce c) (m_ownership c) (m_name c) pw
    (m_flags c) (m_channelId c) (m_ownerGUID c) (m_Team c) (m_IsSaved c).
Definition with_owner (o : Z) (c : Channel) : Channel :=
  mkChannel (ch_this c) (players c) (banned c) (m_announce c) (m_ownership c) (m_name c)
    (m_password c) (m_flags c) (m_channelId c) o (m_Team c) (m_IsSaved c).

Definition IsConstant (c : Channel) : bool := negb (m_channelId c =? 0).
Definition HasFlag (flag : Z) (c : Channel) : bool := has_flag (m_flags c) flag.
Definition IsLFG (c : Channel) : bool := HasFlag CHANNEL_FLAG_LFG c.
Definition GetNumPlayers (c : Channel) : Z := u32 (Z.of_nat (size (players c))).
Definition IsOn (who : Z) (c : Channel) : bool := bool_decide (is_Some (players c !! who)).
Definition IsBanned (guid : Z) (c : Channel) : bool := bool_decide (guid ∈ banned c).
Definition GetPlayerFlags (p : Z) (c : Channel) : Z :=
  match players c !! p with None => 0 | Some pi => pi_flags pi end.

(** [players\[p\]], read: the entry, created when absent. *)
Definition at_ (p : Z) (c : Channel) : PlayerInfo := default PlayerInfo_zero (players c !! p).
Definition touch (p : Z) (c : Channel) : Channel := with_players (<[p := at_ p c]> (players c)) c.
(** [players\[p\].Set...], written. *)
Definition update_at (f : PlayerInfo -> PlayerInfo) (p : Z) (c : Channel) : Channel :=
  with_players (<[p := f (at_ p c)]> (players c)) c.

(** ** Notifications *)
Definition empty_packet : Packet := mkPacket 0 [].

Definition MakeNotifyPacket (notify_type : Z) (args : list PField) (c : Channel) : Packet :=
  mkPacket SMSG_CHANNEL_NOTIFY (U8 notify_type :: Str (m_name c) :: args).

(** The bodies of these two are commented out: the packet stays as it was. *)
Definition MakeJoined (data : Packet) (guid : Z) (c : Channel) : Packet := data.
Definition MakeLeft (data : Packet) (guid : Z) (c : Channel) : Packet := data.

Definition MakeYouJoined (c : Channel) : Packet :=
  MakeNotifyPacket CHAT_YOU_JOINED_NOTICE [U8 (m_flags c); U32 (m_channelId c); U32 0] c.
Definition MakeYouLeft (c : Channel) : Packet :=
  MakeNotifyPacket CHAT_YOU_LEFT_NOTICE [U32 (m_channelId c); U8 (Z.b2z (IsConstant c))] c.
Definition MakeWrongPassword : Channel -> Packet := MakeNotifyPacket CHAT_WRONG_PASSWORD_NOTICE [].
Definition MakeNotMember : Channel -> Packet := MakeNotifyPacket CHAT_NOT_MEMBER_NOTICE [].
Definition MakeNotModerator : Channel -> Packet := MakeNotifyPacket CHAT_NOT_MODERATOR_NOTICE [].
Definition MakePasswordChanged (guid : Z) : Channel -> Packet :=
  MakeNotifyPacket CHAT_PASSWORD_CHANGED_NOTICE [U64 guid].
Definition MakeOwnerChanged (guid : Z) : Channel -> Packet :=
  MakeNotifyPacket CHAT_OWNER_CHANGED_NOTICE [U64 guid].
Definition MakePlayerNotFound (name : string) : Channel -> Packet :=
  MakeNotifyPacket CHAT_PLAYER_NOT_FOUND_NOTICE [Str name].
Definition MakeNotOwner : Channel -> Packet := MakeNotifyPacket CHAT_NOT_OWNER_NOTICE [].
Definition MakeModeChange (guid oldflags : Z) (c : Channel) : Packet :=
  MakeNotifyPacket CHAT_MODE_CHANGE_NOTICE [U64 guid; U8 oldflags; U8 (GetPlayerFlags guid c)] c.
Definition MakeAnnouncementsOn (guid : Z) : Channel -> Packet :=
  MakeNotifyPacket CHAT_ANNOUNCEMENTS_ON_NOTICE [U64 guid].
Definition MakeAnnouncementsOff (guid : Z) : Channel -> Packet :=
  MakeNotifyPacket CHAT_ANNOUNCEMENTS_OFF_NOTICE [U64 guid].
Definition MakeMuted : Channel -> Packet := MakeNotifyPacket CHAT_MUTED_NOTICE [].
Definition MakePlayerKicked (bad good : Z) : Channel -> Packet :=
  MakeNotifyPacket CHAT_PLAYER_KICKED_NOTICE [U64 bad; U64 good].
Definition MakeBanned : Channel -> Packet := MakeNotifyPacket CHAT_BANNED_NOTICE [].
Definition MakePlayerBanned (bad good : Z) : Channel -> Packet :=
  MakeNotifyPacket CHAT_PLAYER_BANNED_NOTICE [U64 bad; U64 good].
Definition MakePlayerUnbanned (bad good : Z) : Channel -> Packet :=
  MakeNotifyPacket CHAT_PLAYER_UNBANNED_NOTICE [U64 bad; U64 good].
Definition MakePlayerNotBanned (name : string) : Channel -> Packet :=
  MakeNotifyPacket CHAT_PLAYER_NOT_BANNED_NOTICE [Str name].
Definition MakePlayerAlreadyMember (guid : Z) : Channel -> Packet :=
  MakeNotifyPacket CHAT_PLAYER_ALREADY_MEMBER_NOTICE [U64 guid].
Definition MakeInvite (guid : Z) : Channel -> Packet :=
  MakeNotifyPacket CHAT_INVITE_NOTICE [U64 guid].
Definition MakeInviteWrongFaction : Channel -> Packet :=
  MakeNotifyPacket CHAT_INVITE_WRONG_FACTION_NOTICE [].
Definition MakeWrongFaction : Channel -> Packet := MakeNotifyPacket CHAT_WRONG_FACTION_NOTICE [].
Definition MakeInvalidName : Channel -> Packet := MakeNotifyPacket CHAT_INVALID_NAME_NOTICE [].
Definition MakeNotModerated : Channel -> Packet := MakeNotifyPacket CHAT_NOT_MODERATED_NOTICE [].
Definition MakePlayerInvited (name : string) : Channel -> Packet :=
  MakeNotifyPacket CHAT_PLAYER_INVITED_NOTICE [Str name].
Definition MakePlayerInviteBanned (name : string) : Channel -> Packet :=
  MakeNotifyPacket CHAT_PLAYER_INVITE_BANNED_NOTICE [Str name].
Definition MakeThrottled : Channel -> Packet := MakeNotifyPacket CHAT_THROTTLED_NOTICE [].
Definition MakeNotInArea : Channel -> Packet := MakeNotifyPacket CHAT_NOT_IN_AREA_NOTICE [].
Definition MakeNotInLfg : Channel -> Packet := MakeNotifyPacket CHAT_NOT_IN_LFG_NOTICE [].
Definition MakeVoiceOn (guid : Z) : Channel -> Packet :=
  MakeNotifyPacket CHAT_VOICE_ON_NOTICE [U64 guid].
Definition MakeVoiceOff (guid : Z) : Channel -> Packet :=
  MakeNotifyPacket CHAT_VOICE_OFF_NOTICE [U64 guid].

(** ** Sending *)
Section Operations.
Context `{UnorderedIter} (cfg : Config).
(** The character database: the name of an offline character, by low GUID. *)
Context (db_name : Z -> option string).

Definition SendToOne (data : Packet) (who : Z) (w : World) : World :=
  match FindPlayer who w with
  | Some player => SendPacket player data w
  | None => w
  end.

(** [SendToAll(data, p)]: with [p] given, members who ignore [p] are left out. *)
Definition SendToAll (data : Packet) (p : Z) (c : Channel) (w : World) : World :=
  foldl (fun w '(g, _) =>
           match FindPlayer g w with
           | Some player =>
               if (p =? 0) || negb (HasIgnore (GUID_LOPART p) (GetSocial player w))
               then SendPacket player data w else w
           | None => w
           end) w (ordered_entries (players c)).

Definition SendToAllButOne (data : Packet) (who : Z) (c : Channel) (w : World) : World :=
  foldl (fun w '(g, _) =>
           if negb (g =? who) then
             match FindPlayer g w with
             | Some player => SendPacket player data w
             | None => w
             end
           else w) w (ordered_entries (players c)).

Definition JoinNotify (guid : Z) (c : Channel) (w : World) : World :=
  let data := mkPacket (if IsConstant c then SMSG_USERLIST_ADD else SMSG_USERLIST_UPDATE)
                [U64 guid; U8 (GetPlayerFlags guid c); U8 (m_flags c); U32 (GetNumPlayers c);
                 Str (m_name c)] in
  if IsConstant c then SendToAllButOne data guid c w else SendToAll data 0 c w.

Definition LeaveNotify (guid : Z) (c : Channel) (w : World) : World :=
  let data := mkPacket SMSG_USERLIST_REMOVE
                [U64 guid; U8 (m_flags c); U32 (GetNumPlayers c); Str (m_name c)] in
  if IsConstant c then SendToAllButOne data guid c w else SendToAll data 0 c w.

(** [ObjectMgr::GetPlayerNameByGUID]. *)
Definition GetPlayerNameByGUID (guid : Z) (w : World) : option string :=
  match FindPlayer guid w with
  | Some player => Some (p_name player)
  | None => db_name (GUID_LOPART guid)
  end.

Definition MakeChannelOwner (c : Channel) (w : World) : Packet :=
  let name := match GetPlayerNameByGUID (m_ownerGUID c) w with
              | Some name => if String.eqb name EmptyString then "PLAYER_NOT_FOUND"%string else name
              | None => "PLAYER_NOT_FOUND"%string
              end in
  MakeNotifyPacket CHAT_CHANNEL_OWNER_NOTICE
    [Str (if IsConstant c || (m_ownerGUID c =? 0) then "Nobody"%string else name)] c.

(** ** The database row *)
Definition banlist (c : Channel) : string := print_list (merge_sort Z.le (elements (banned c))).

Definition UpdateChannelInDB (c : Channel) (w : World) : World :=
  if m_IsSaved c then
    execute (mkStmt CHAR_UPD_CHANNEL
               [QBool (m_announce c); QBool (m_ownership c); QStr (m_password c);
                QStr (banlist c); QStr (m_name c); QU32 (m_Team c)]) w
  else w.

(** Returns at once: the statement after the [return] is never run. *)
Definition UpdateChannelUseageInDB (c : Channel) (w : World) : World := w.

Definition CleanOldChannelsInDB (w : World) : World :=
  if 0 <? CONFIG_PRESERVE_CUSTOM_CHANNEL_DURATION cfg then
    execute (mkStmt CHAR_DEL_OLD_CHANNELS
               [QU32 (u32 (CONFIG_PRESERVE_CUSTOM_CHANNEL_DURATION cfg * DAY))]) w
  else w.

(** A row of the [channels] table: announce, ownership, password, banned list. *)
Record ChannelRow := mkRow {
  row_announce : bool; row_ownership : bool; row_password : string; row_banned : option string
}.

(** The banned list as the constructor reads it. *)
Definition load_banned (db_BannedList : option string) : gset Z :=
  match db_BannedList with
  | None => ∅
  | Some s => list_to_set (List.filter (fun g => negb (g =? 0))
                ((fun t => u64 (atol t)) <$> Tokenizer s " "%char))
  end.

(** The constructor.  [dbc channel_id] is the flags field of the channel's
    entry in the client data, [db name team] the saved row. *)
Definition Channel_new (this : Z) (dbc : Z -> option Z) (db : string -> Z -> option ChannelRow)
    (name : string) (channel_id Team : Z) (w : World) : Channel * World :=
  match dbc channel_id with
  | Some flags =>
      let f := CHANNEL_FLAG_GENERAL in
      let f := if has_flag flags CHANNEL_DBC_FLAG_TRADE then Z.lor f CHANNEL_FLAG_TRADE else f in
      let f := if has_flag flags CHANNEL_DBC_FLAG_CITY_ONLY2 then Z.lor f CHANNEL_FLAG_CITY else f in
      let f := if has_flag flags CHANNEL_DBC_FLAG_LFG then Z.lor f CHANNEL_FLAG_LFG
               else Z.lor f CHANNEL_FLAG_NOT_LFG in
      (mkChannel this ∅ ∅ false false name EmptyString f channel_id 0 Team false, w)
  | None =>
      let f := CHANNEL_FLAG_CUSTOM in
      if CONFIG_PRESERVE_CUSTOM_CHANNELS cfg then
        match db name Team with
        | Some row =>
            (mkChannel this ∅ (load_banned (row_banned row)) (row_announce row)
               (row_ownership row) name (row_password row) f channel_id 0 Team true, w)
        | None =>
            (mkChannel this ∅ ∅ true true name EmptyString f channel_id 0 Team true,
             execute (mkStmt CHAR_INS_CHANNEL [QStr name; QU32 Team]) w)
        end
      else (mkChannel this ∅ ∅ true true name EmptyString f channel_id 0 Team false, w)
  end.

(** ** Ownership *)

(** [SetOwner(uint64 guid, bool exclaim)]. *)
Definition SetOwner (guid : Z) (exclaim : bool) (c : Channel) (w : World) : Channel * World :=
  let c :=
    if negb (m_ownerGUID c =? 0) then
      match players c !! m_ownerGUID c with
      | Some pi => with_players (<[m_ownerGUID c := pi_SetOwner false pi]> (players c)) c
      | None => c
      end
    else c in
  let c := with_owner guid c in
  if negb (m_ownerGUID c =? 0) then
    let oldFlag := GetPlayerFlags (m_ownerGUID c) c in
    let c := update_at (pi_SetModerator true) (m_ownerGUID c) c in
    let c := update_at (pi_SetOwner true) (m_ownerGUID c) c in
    let w := SendToAll (MakeModeChange (m_ownerGUID c) oldFlag c) 0 c w in
    let w := if exclaim then SendToAll (MakeOwnerChanged (m_ownerGUID c) c) 0 c w else w in
    (c, UpdateChannelInDB c w)
  else (c, w).

(** [SetModerator(uint64 p, bool set)] and [SetMute(uint64 p, bool set)]. *)
Definition SetModerator (p : Z) (set : bool) (c : Channel) (w : World) : Channel * World :=
  let differs := negb (Bool.eqb (IsModerator (at_ p c)) set) in
  let c := touch p c in
  if differs then
    let oldFlag := GetPlayerFlags p c in
    let c := update_at (pi_SetModerator set) p c in
    (c, SendToAll (MakeModeChange p oldFlag c) 0 c w)
  else (c, w).

Definition SetMute (p : Z) (set : bool) (c : Channel) (w : World) : Channel * World :=
  let differs := negb (Bool.eqb (IsMuted (at_ p c)) set) in
  let c := touch p c in
  if differs then
    let oldFlag := GetPlayerFlags p c in
    let c := update_at (pi_SetMuted set) p c in
    (c, SendToAll (MakeModeChange p oldFlag c) 0 c w)
  else (c, w).

(** The security level of a player's session, [SEC_PLAYER] when offline. *)
Definition sec_of (player : option Player) : Z :=
  match player with Some pl => p_security pl | None => SEC_PLAYER end.

(** The announcement test of [Join] and [Leave]. *)
Definition announces (player : option Player) (c : Channel) : bool :=
  m_announce c &&
  match player with
  | None => true
  | Some pl => negb (IsGMAccount (p_security pl)) || negb (CONFIG_SILENTLY_GM_JOIN_TO_CHANNEL cfg)
  end.

(** ** Joining and leaving *)

(** The part of [Join] after the admission checks. *)
Definition Join_admitted (p : Z) (player : option Player) (c : Channel) (w : World)
  : Channel * World :=
  let w := if announces player c then SendToAll (MakeJoined empty_packet p c) 0 c w else w in
  let c := with_players (<[p := mkPI p MEMBER_FLAG_NONE]> (players c)) c in
  let w := SendToOne (MakeYouJoined c) p w in
  let w := JoinNotify p c w in
  if negb (IsConstant c) then
    let w := if negb (bool_decide (players c = ∅)) then UpdateChannelUseageInDB c w else w in
    if (m_ownerGUID c =? 0) && m_ownership c then
      let '(c, w) := SetOwner p (1 <? Z.of_nat (size (players c))) c w in
      (update_at (pi_SetModerator true) p c, w)
    else (c, w)
  else (c, w).

Definition Join (p : Z) (pass : string) (c : Channel) (w : World) : Channel * World :=
  if IsOn p c then
    if negb (IsConstant c) then (c, SendToOne (MakePlayerAlreadyMember p c) p w) else (c, w)
  else if IsBanned p c then (c, SendToOne (MakeBanned c) p w)
  else if (0 <? String.length (m_password c))%nat
          && negb (String.eqb (c_str pass) (c_str (m_password c)))
  then (c, SendToOne (MakeWrongPassword c) p w)
  else
    match FindPlayer p w with
    | Some player =>
        if HasFlag CHANNEL_FLAG_LFG c && CONFIG_RESTRICTED_LFG_CHANNEL cfg then (c, w)
        else
          let w := update_player (JoinedChannel (ch_this c)) player w in
          Join_admitted p (Some player) c w
    | None => Join_admitted p None c w
    end.

Definition Leave (p : Z) (send : bool) (c : Channel) (w : World) : Channel * World :=
  if negb (IsOn p c) then
    (c, if send then SendToOne (MakeNotMember c) p w else w)
  else
    let player := FindPlayer p w in
    let w :=
      if send then
        let w := SendToOne (MakeYouLeft c) p w in
        match player with
        | Some pl => update_player (LeftChannel (ch_this c)) pl w
        | None => w
        end
      else w in
    let changeowner := IsOwner (at_ p c) in
    let c := with_players (delete p (players c)) c in
    let w := if announces player c then SendToAll (MakeLeft empty_packet p c) 0 c w else w in
    let w := LeaveNotify p c w in
    if negb (IsConstant c) then
      let w := UpdateChannelUseageInDB c w in
      match changeowner && m_ownership c, ordered_entries (players c) with
      | true, (_, first) :: _ =>
          let newowner := pi_player first in
          let c := update_at (pi_SetModerator true) newowner c in
          SetOwner newowner true c w
      | _, _ => (c, w)
      end
    else (c, w).

(** ** Moderation *)

(** The two guards every moderator command starts with. *)
Definition not_moderator (p sec : Z) (c : Channel) : bool :=
  negb (IsModerator (at_ p c)) && negb (IsGMAccount sec).

Definition KickOrBan (good : Z) (badname : string) (ban : bool) (c : Channel) (w : World)
  : Channel * World :=
  let sec := sec_of (FindPlayer good w) in
  if negb (IsOn good c) then (c, SendToOne (MakeNotMember c) good w)
  else if not_moderator good sec c then (c, SendToOne (MakeNotModerator c) good w)
  else
    match FindPlayerByName badname w with
    | None => (c, SendToOne (MakePlayerNotFound badname c) good w)
    | Some bad =>
        if negb (IsOn (p_GUID bad) c)
        then (c, SendToOne (MakePlayerNotFound badname c) good w)
        else if negb (IsGMAccount sec) && (p_GUID bad =? m_ownerGUID c)
                && negb (good =? m_ownerGUID c)
        then (c, SendToOne (MakeNotOwner c) good w)
        else
          let changeowner := m_ownerGUID c =? p_GUID bad in
          let notify := negb (IsGMAccount sec && CONFIG_SILENTLY_GM_JOIN_TO_CHANNEL cfg) in
          let '(c, w, data) :=
            if ban && negb (IsBanned (p_GUID bad) c) then
              let c := with_banned ({[p_GUID bad]} ∪ banned c) c in
              (c, UpdateChannelInDB c w, MakePlayerBanned (p_GUID bad) good c)
            else (c, w, MakePlayerKicked (p_GUID bad) good c) in
          let w := if notify then SendToAll data 0 c w else w in
          let c := with_players (delete (p_GUID bad) (players c)) c in
          let w := update_player (LeftChannel (ch_this c)) bad w in
          if changeowner && m_ownership c && negb (bool_decide (players c = ∅)) then
            let newowner := good in
            let c := update_at (pi_SetModerator true) newowner c in
            SetOwner newowner true c w
          else (c, w)
    end.

Definition Kick (good : Z) (badname : string) : Channel -> World -> Channel * World :=
  KickOrBan good badname false.
Definition Ban (good : Z) (badname : string) : Channel -> World -> Channel * World :=
  KickOrBan good badname true.

Definition UnBan (good : Z) (badname : string) (c : Channel) (w : World) : Channel * World :=
  let sec := sec_of (FindPlayer good w) in
  if negb (IsOn good c) then (c, SendToOne (MakeNotMember c) good w)
  else if not_moderator good sec c then (c, SendToOne (MakeNotModerator c) good w)
  else
    match FindPlayerByName badname w with
    | None => (c, SendToOne (MakePlayerNotFound badname c) good w)
    | Some bad =>
        if negb (IsBanned (p_GUID bad) c)
        then (c, SendToOne (MakePlayerNotFound badname c) good w)
        else
          let c := with_banned (banned c ∖ {[p_GUID bad]}) c in
          let w := SendToAll (MakePlayerUnbanned (p_GUID bad) good c) 0 c w in
          (c, UpdateChannelInDB c w)
    end.

(** [ChatHandler chat(player)] asks the player for its session before anything
    else: for a player who is not in the map it dereferences a null pointer. *)
Definition Password (p : Z) (pass : string) (c : Channel) (w : World) : outcome (Channel * World) :=
  match FindPlayer p w with
  | None => UB
  | Some player =>
      let sec := p_security player in
      if negb (IsOn p c) then Ok (c, SendToOne (MakeNotMember c) p w)
      else if not_moderator p sec c then Ok (c, SendToOne (MakeNotModerator c) p w)
      else
        let c := with_password (c_str pass) c in
        let w := SendToAll (MakePasswordChanged p c) 0 c w in
        Ok (c, UpdateChannelInDB c w)
  end.

Definition SetMode (p : Z) (p2n : string) (mod_ set : bool) (c : Channel) (w : World)
  : Channel * World :=
  match FindPlayer p w with
  | None => (c, w)
  | Some player =>
      let sec := p_security player in
      if negb (IsOn p c) then (c, SendToOne (MakeNotMember c) p w)
      else if not_moderator p sec c then (c, SendToOne (MakeNotModerator c) p w)
      else
        match FindPlayerByName p2n w with
        | None => (c, SendToOne (MakePlayerNotFound p2n c) p w)
        | Some newp =>
            if (p =? m_ownerGUID c) && (p_GUID newp =? m_ownerGUID c) && mod_ then (c, w)
            else if negb (IsOn (p_GUID newp) c)
            then (c, SendToOne (MakePlayerNotFound p2n c) p w)
            else if (negb (IsGMAccount (p_security player)) || negb (IsGMAccount (p_security newp)))
                    && negb (p_team player =? p_team newp)
                    && negb (CONFIG_ALLOW_TWO_SIDE_INTERACTION_CHANNEL cfg)
            then (c, SendToOne (MakePlayerNotFound p2n c) p w)
            else if (m_ownerGUID c =? p_GUID newp) && negb (m_ownerGUID c =? p)
            then (c, SendToOne (MakeNotOwner c) p w)
            else if mod_ then SetModerator (p_GUID newp) set c w
            else SetMute (p_GUID newp) set c w
        end
  end.

(** [SetOwner(uint64 p, const char* newname)]. *)
Definition SetOwner_name (p : Z) (newname : string) (c : Channel) (w : World) : Channel * World :=
  match FindPlayer p w with
  | None => (c, w)
  | Some player =>
      let sec := p_security player in
      if negb (IsOn p c) then (c, SendToOne (MakeNotMember c) p w)
      else if negb (IsGMAccount sec) && negb (p =? m_ownerGUID c)
      then (c, SendToOne (MakeNotOwner c) p w)
      else
        match FindPlayerByName newname w with
        | None => (c, SendToOne (MakePlayerNotFound newname c) p w)
        | Some newp =>
            if negb (IsOn (p_GUID newp) c)
            then (c, SendToOne (MakePlayerNotFound newname c) p w)
            else if negb (p_team newp =? p_team player)
                    && negb (CONFIG_ALLOW_TWO_SIDE_INTERACTION_CHANNEL cfg)
            then (c, SendToOne (MakePlayerNotFound newname c) p w)
            else SetOwner (p_GUID newp) true (update_at (pi_SetModerator true) (p_GUID newp) c) w
        end
  end.

Definition SendWhoOwner (p : Z) (c : Channel) (w : World) : Channel * World :=
  if negb (IsOn p c) then (c, SendToOne (MakeNotMember c) p w)
  else (c, SendToOne (MakeChannelOwner c w) p w).

Definition Announce (p : Z) (c : Channel) (w : World) : Channel * World :=
  let sec := sec_of (FindPlayer p w) in
  if negb (IsOn p c) then (c, SendToOne (MakeNotMember c) p w)
  else if not_moderator p sec c then (c, SendToOne (MakeNotModerator c) p w)
  else
    let c := with_announce (negb (m_announce c)) c in
    let data := if m_announce c then MakeAnnouncementsOn p c else MakeAnnouncementsOff p c in
    let w := SendToAll data 0 c w in
    (c, UpdateChannelInDB c w).

(** ** Reading and talking *)

(** Whether [List] shows a member to the player asking. *)
Definition List_shows (player : Player) (w : World) (entry : Z * PlayerInfo) : bool :=
  match FindPlayer entry.1 w with
  | Some member =>
      (negb (IsVIPorPlayer (p_security player))
       || (p_security member <=? CONFIG_GM_LEVEL_IN_WHO_LIST cfg))
      && IsVisibleGloballyFor member (Some player)
  | None => false
  end.

(** The packet is written with a zero count, which is filled in at its
    position once the members have been counted. *)
Definition List_body (player : Player) (c : Channel) (w : World) : list PField :=
  let shown := List.filter (List_shows player w) (ordered_entries (players c)) in
  let count := u32 (Z.of_nat (length shown)) in
  [U8 1; Str (m_name c); U8 (m_flags c)] ++ U32 count
    :: concat ((fun '(g, pi) => [U64 g; U8 (pi_flags pi)]) <$> shown).

Definition ListMembers (player : Player) (c : Channel) (w : World) : Channel * World :=
  let p := p_GUID player in
  if negb (IsOn p c) then (c, SendToOne (MakeNotMember c) p w)
  else (c, SendToOne (mkPacket SMSG_CHANNEL_LIST (List_body player c w)) p w).

(** [what] is a [const char*]; the null pointer is [None]. *)
Definition Say (p : Z) (what : option string) (lang : Z) (c : Channel) (w : World)
  : Channel * World :=
  match what with
  | None => (c, w)
  | Some what =>
      let lang := if CONFIG_ALLOW_TWO_SIDE_INTERACTION_CHANNEL cfg then LANG_UNIVERSAL else lang in
      let player := FindPlayer p w in
      if negb (IsOn p c) then (c, SendToOne (MakeNotMember c) p w)
      else if IsMuted (at_ p c) then (c, SendToOne (MakeMuted c) p w)
      else
        let what := c_str what in
        let messageLength := u32 (Z.of_nat (String.length what) + 1) in
        let data := mkPacket SMSG_MESSAGECHAT
          [U8 CHAT_MSG_CHANNEL; U32 lang; U64 p; U32 0; Str (m_name c); U64 p;
           U32 messageLength; Str what;
           U8 (match player with Some pl => GetChatTag pl | None => 0 end)] in
        (c, SendToAll data (if negb (IsModerator (at_ p c)) then p else 0) c w)
  end.

Definition Invite (p : Z) (newname : string) (c : Channel) (w : World) : Channel * World :=
  if negb (IsOn p c) then (c, SendToOne (MakeNotMember c) p w)
  else
    match FindPlayerByName newname w with
    | None => (c, SendToOne (MakePlayerNotFound newname c) p w)
    | Some newp =>
        if negb (isGMVisible newp) then (c, SendToOne (MakePlayerNotFound newname c) p w)
        else if IsBanned (p_GUID newp) c
        then (c, SendToOne (MakePlayerInviteBanned newname c) p w)
        else
          match FindPlayer p w with
          | None => (c, w)
          | Some player =>
              if negb (p_team newp =? p_team player)
                 && negb (CONFIG_ALLOW_TWO_SIDE_INTERACTION_CHANNEL cfg)
              then (c, SendToOne (MakeInviteWrongFaction c) p w)
              else if IsOn (p_GUID newp) c
              then (c, SendToOne (MakePlayerAlreadyMember (p_GUID newp) c) p w)
              else
                let w := if negb (HasIgnore (GUID_LOPART p) (GetSocial newp w))
                         then SendToOne (MakeInvite p c) (p_GUID newp) w else w in
                (c, SendToOne (MakePlayerInvited (p_name newp) c) p w)
          end
    end.
End Operations.
