(* ===== verification/ChannelFacts.v ===== *)
(** * What the channel operations guarantee

    Lemmas on single operations of [Channel], then the theorems: the invariant
    of a channel under every sequence of requests, who can get in, who can
    command, what a kick or a ban does, who hears a message, how ownership
    passes on, and that the saved row restores the channel. *)
From Stdlib Require Import Ascii String ZArith Lia.
From stdpp Require Import base gmap sets list strings sorting.
From S2P Require Import Prelude ByteBuffer Util World Channel.

Open Scope Z_scope.

(** ** Notifications only write to the trace *)

(** The members a message to the channel reaches, in the order of their GUIDs:
    the ones online who do not ignore [p]. *)
Definition audience (p : Z) (c : Channel) (w : World) : list Player :=
  omap (fun '(g, _) =>
          match FindPlayer g w with
          | Some player =>
              if (p =? 0) || negb (HasIgnore (GUID_LOPART p) (GetSocial player w))
              then Some player else None
          | None => None
          end) (ordered_entries (players c)).

Lemma SendToOne_emits data who w :
  SendToOne data who w
  = emits (match FindPlayer who w with Some pl => sent pl data | None => [] end) w.
Proof.
  unfold SendToOne. destruct (FindPlayer who w); [apply SendPacket_emits|by rewrite emits_nil].
Qed.

Lemma SendToAll_emits data p c w :
  SendToAll data p c w = emits (concat ((fun pl => sent pl data) <$> audience p c w)) w.
Proof.
  unfold SendToAll.
  rewrite (foldl_emits _ (fun w '(g, _) =>
     match FindPlayer g w with
     | Some player =>
         if (p =? 0) || negb (HasIgnore (GUID_LOPART p) (GetSocial player w))
         then sent player data else []
     | None => []
     end)).
  - f_equal. unfold audience. induction (ordered_entries (players c)) as [|[g pi] l IH]; [done|].
    cbn. destruct (FindPlayer g w) as [pl|]; cbn; [|done].
    destruct ((p =? 0) || _); cbn; by rewrite IH.
  - intros w' [g pi]. destruct (FindPlayer g w'); [|by rewrite emits_nil].
    destruct ((p =? 0) || _); [apply SendPacket_emits|by rewrite emits_nil].
  - by intros es w' [g pi].
Qed.

Lemma SendToAllButOne_emits data who c w :
  exists es, SendToAllButOne data who c w = emits es w.
Proof.
  eexists. apply (foldl_emits _ (fun w '(g, _) =>
    if negb (g =? who) then match FindPlayer g w with Some pl => sent pl data | None => [] end
    else [])).
  - intros w' [g pi]. case_if; [|by rewrite emits_nil].
    destruct (FindPlayer g w'); [apply SendPacket_emits|by rewrite emits_nil].
  - by intros es w' [g pi].
Qed.

Lemma audience_members p c w pl :
  world_ok w -> pl ∈ audience p c w -> IsOn (p_GUID pl) c = true.
Proof.
  intros Hw Hin. unfold audience in Hin. apply list_elem_of_omap in Hin as ([g pi] & Hin & Hpl).
  destruct (FindPlayer g w) as [q|] eqn:Hq; [|done].
  destruct ((p =? 0) || _); simplify_eq/=. apply FindPlayer_guid in Hq as <-; [|done].
  apply elem_of_ordered_entries in Hin. unfold IsOn. by rewrite bool_decide_eq_true_2.
Qed.

(** ** The table of members *)
Lemma players_with m c : players (with_players m c) = m.
Proof. reflexivity. Qed.

Lemma at_Some p c pi : players c !! p = Some pi -> at_ p c = pi.
Proof. intros H. unfold at_. by rewrite H. Qed.

Lemma lookup_update_at f p c k :
  players (update_at f p c) !! k = if decide (p = k) then Some (f (at_ p c)) else players c !! k.
Proof.
  unfold update_at. cbn. destruct (decide (p = k)) as [->|]; by simplify_map_eq.
Qed.

Lemma touch_member p c pi : players c !! p = Some pi -> touch p c = c.
Proof.
  intros H. unfold touch. rewrite (at_Some _ _ _ H). destruct c. cbn in *.
  unfold with_players. cbn. by rewrite insert_id.
Qed.

Lemma IsOn_true p c : IsOn p c = true <-> exists pi, players c !! p = Some pi.
Proof. unfold IsOn. by rewrite bool_decide_eq_true. Qed.
Lemma IsOn_false p c : IsOn p c = false <-> players c !! p = None.
Proof.
  unfold IsOn. rewrite bool_decide_eq_false, eq_None_not_Some. reflexivity.
Qed.
Lemma IsBanned_true p c : IsBanned p c = true <-> p ∈ banned c.
Proof. unfold IsBanned. by rewrite bool_decide_eq_true. Qed.
Lemma IsBanned_false p c : IsBanned p c = false <-> p ∉ banned c.
Proof. unfold IsBanned. by rewrite bool_decide_eq_false. Qed.

(** ** The flags of a member *)
Lemma pi_player_set f s pi : pi_player (pi_set f s pi) = pi_player pi.
Proof. reflexivity. Qed.

Lemma IsOwner_SetOwner s pi : IsOwner (pi_SetOwner s pi) = s.
Proof.
  unfold IsOwner, pi_SetOwner, pi_set. destruct s; cbn; [by apply has_flag_add|apply has_flag_del].
Qed.
Lemma IsOwner_SetModerator s pi : IsOwner (pi_SetModerator s pi) = IsOwner pi.
Proof.
  unfold IsOwner, pi_SetModerator, pi_set.
  destruct s; cbn; [by apply has_flag_add_other|by apply has_flag_del_other].
Qed.
Lemma IsOwner_SetMuted s pi : IsOwner (pi_SetMuted s pi) = IsOwner pi.
Proof.
  unfold IsOwner, pi_SetMuted, pi_set.
  destruct s; cbn; [by apply has_flag_add_other|by apply has_flag_del_other].
Qed.
Lemma IsModerator_SetOwner s pi : IsModerator (pi_SetOwner s pi) = IsModerator pi.
Proof.
  unfold IsModerator, pi_SetOwner, pi_set.
  destruct s; cbn; [by apply has_flag_add_other|by apply has_flag_del_other].
Qed.
Lemma IsModerator_SetModerator s pi : IsModerator (pi_SetModerator s pi) = s.
Proof.
  unfold IsModerator, pi_SetModerator, pi_set.
  destruct s; cbn; [by apply has_flag_add|apply has_flag_del].
Qed.
Lemma IsModerator_SetMuted s pi : IsModerator (pi_SetMuted s pi) = IsModerator pi.
Proof.
  unfold IsModerator, pi_SetMuted, pi_set.
  destruct s; cbn; [by apply has_flag_add_other|by apply has_flag_del_other].
Qed.
#[export] Hint Rewrite IsOwner_SetOwner IsOwner_SetModerator IsOwner_SetMuted
  IsModerator_SetOwner IsModerator_SetModerator IsModerator_SetMuted pi_player_set : shade.

(** ** Changing the owner, on the channel alone *)
Definition drop_owner (c : Channel) : Channel :=
  if negb (m_ownerGUID c =? 0) then
    match players c !! m_ownerGUID c with
    | Some pi => with_players (<[m_ownerGUID c := pi_SetOwner false pi]> (players c)) c
    | None => c
    end
  else c.
Definition make_owner (g : Z) (c : Channel) : Channel :=
  update_at (pi_SetOwner true) g (update_at (pi_SetModerator true) g (with_owner g (drop_owner c))).

Lemma SetOwner_channel g e c w : g <> 0 -> (SetOwner g e c w).1 = make_owner g c.
Proof.
  intros Hg. unfold SetOwner, make_owner. cbv zeta. fold (drop_owner c).
  cbn [m_ownerGUID with_owner]. apply Z.eqb_neq in Hg. by rewrite Hg.
Qed.

Lemma SetOwner_world g e c w w' : (SetOwner g e c w).1 = (SetOwner g e c w').1.
Proof. unfold SetOwner. cbv zeta. by repeat case_match. Qed.

Lemma banned_SetOwner g e c w : banned (SetOwner g e c w).1 = banned c.
Proof. unfold SetOwner. cbv zeta. by repeat case_match. Qed.

Lemma lookup_drop_owner c k :
  players (drop_owner c) !! k
  = if decide (k = m_ownerGUID c /\ k <> 0) then pi_SetOwner false <$> players c !! k
    else players c !! k.
Proof.
  unfold drop_owner. destruct (m_ownerGUID c =? 0) eqn:H0; bool_props; cbn.
  - rewrite decide_False; [done|]. intros [-> ?]. done.
  - destruct (players c !! m_ownerGUID c) as [pi|] eqn:Hpi.
    + rewrite players_with. destruct (decide (k = m_ownerGUID c)) as [->|Hk].
      * rewrite decide_True by done. rewrite Hpi. by simplify_map_eq.
      * rewrite decide_False by tauto. by simplify_map_eq.
    + case_decide as Hk; [|done]. destruct Hk as [-> _]. by rewrite Hpi.
Qed.

Lemma drop_owner_absent c : players c !! m_ownerGUID c = None -> drop_owner c = c.
Proof. intros H. unfold drop_owner. rewrite H. by case_if. Qed.

Lemma SetModerator_twice pi :
  pi_SetModerator true (pi_SetModerator true pi) = pi_SetModerator true pi.
Proof. unfold pi_SetModerator, pi_set, add_flag. cbn. by rewrite <- Z.lor_assoc. Qed.

Lemma drop_owner_frame c :
  banned (drop_owner c) = banned c /\ m_ownership (drop_owner c) = m_ownership c
  /\ m_channelId (drop_owner c) = m_channelId c /\ m_password (drop_owner c) = m_password c.
Proof. unfold drop_owner. repeat case_match; auto. Qed.
Lemma make_owner_frame g c :
  banned (make_owner g c) = banned c /\ m_ownership (make_owner g c) = m_ownership c
  /\ m_channelId (make_owner g c) = m_channelId c /\ m_password (make_owner g c) = m_password c
  /\ m_ownerGUID (make_owner g c) = g.
Proof. unfold make_owner. cbn. destruct (drop_owner_frame c) as (?&?&?&?). auto. Qed.

Lemma at_drop_owner g c : at_ g (drop_owner c) = at_ g c \/ at_ g (drop_owner c) = pi_SetOwner false (at_ g c).
Proof.
  unfold at_. rewrite lookup_drop_owner. case_decide; [|by left].
  destruct (players c !! g); cbn; [by right|by left].
Qed.

(** The new owner's entry, and everybody else's. *)
Lemma lookup_make_owner g c k :
  players (make_owner g c) !! k
  = if decide (g = k)
    then Some (pi_SetOwner true (pi_SetModerator true (at_ g (drop_owner c))))
    else players (drop_owner c) !! k.
Proof.
  unfold make_owner. rewrite !lookup_update_at. case_decide as Hk; [|done].
  do 2 f_equal. unfold at_ at 1. rewrite lookup_update_at, decide_True by done. done.
Qed.

(** ** The invariant

    Entries are filed under their player; nobody banned is inside; only the
    recorded owner carries the owner flag; and, unless the channel was once
    abandoned ([kept] is false), a custom channel with ownership and somebody in
    it has its owner inside, as owner and moderator. *)
Record members_ok (c : Channel) : Prop := {
  ok_entry : forall k pi, players c !! k = Some pi -> pi_player pi = k /\ k <> 0;
  ok_banned : forall k, IsOn k c = true -> k ∉ banned c;
  ok_flag : forall k pi, players c !! k = Some pi -> IsOwner pi = true -> m_ownerGUID c = k
}.

Definition owner_inside (c : Channel) : Prop :=
  exists pi, players c !! m_ownerGUID c = Some pi /\ IsOwner pi = true /\ IsModerator pi = true.

Definition owned (c : Channel) : bool := negb (IsConstant c) && m_ownership c.

Record channel_ok (kept : bool) (c : Channel) : Prop := {
  ok_members : members_ok c;
  ok_owner : kept = true -> owned c = true -> players c <> ∅ -> owner_inside c
}.

Lemma channel_ok_mono kept kept' c :
  (kept' = true -> kept = true) -> channel_ok kept c -> channel_ok kept' c.
Proof. intros Hk [Hm Ho]. split; [done|]. intros H. by apply Ho, Hk. Qed.

(** [c'] has the members of [c], with other flags that keep the owner flag. *)
Lemma members_ok_update f p c :
  (forall pi, pi_player (f pi) = pi_player pi) -> (forall pi, IsOwner (f pi) = IsOwner pi) ->
  IsOn p c = true -> members_ok c -> members_ok (update_at f p c).
Proof.
  intros Hf1 Hf2 [pi Hp]%IsOn_true [He Hb Ho].
  assert (forall k, IsOn k (update_at f p c) = IsOn k c) as Hon.
  { intros k. unfold IsOn. rewrite lookup_update_at. case_decide as Hk; [|done]. subst k.
    rewrite Hp. apply bool_decide_ext. split; intros; by eexists. }
  split.
  - intros k q. rewrite lookup_update_at, (at_Some _ _ _ Hp). case_decide; [|apply He].
    intros [= <-]. subst. rewrite Hf1. by apply He.
  - intros k. rewrite Hon. apply Hb.
  - intros k q. rewrite lookup_update_at, (at_Some _ _ _ Hp). case_decide; [|apply Ho].
    intros [= <-]. subst. rewrite Hf2. by apply Ho.
Qed.

Lemma members_ok_delete k c : members_ok c -> members_ok (with_players (delete k (players c)) c).
Proof.
  intros [He Hb Ho]. split; cbn.
  - intros j q [? Hj]%lookup_delete_Some. by apply He.
  - intros j [q Hj]%IsOn_true. cbn in Hj. apply lookup_delete_Some in Hj as [? Hj].
    apply Hb. apply IsOn_true. by exists q.
  - intros j q [? Hj]%lookup_delete_Some. by apply Ho.
Qed.

Lemma members_ok_enter p c :
  p <> 0 -> p ∉ banned c -> members_ok c ->
  members_ok (with_players (<[p := mkPI p MEMBER_FLAG_NONE]> (players c)) c).
Proof.
  intros Hp Hpb [He Hb Ho]. split; cbn.
  - intros j q. rewrite lookup_insert_Some. intros [[<- <-]|[? Hj]]; [done|by apply He].
  - intros j [q Hj]%IsOn_true. cbn in Hj. rewrite lookup_insert_Some in Hj.
    destruct Hj as [[<- _]|[? Hj]]; [done|]. apply Hb, IsOn_true. by exists q.
  - intros j q. rewrite lookup_insert_Some. intros [[<- <-]|[? Hj]]; [done|by apply Ho].
Qed.

Lemma members_ok_ban k c :
  members_ok c ->
  members_ok (with_players (delete k (players c)) (with_banned ({[k]} ∪ banned c) c)).
Proof.
  intros [He Hb Ho]. split; cbn.
  - intros j q [? Hj]%lookup_delete_Some. by apply He.
  - intros j [q Hj]%IsOn_true. cbn in Hj. apply lookup_delete_Some in Hj as [? Hj].
    intros [?%elem_of_singleton|Hjb]%elem_of_union; [done|].
    apply (Hb j); [apply IsOn_true; by exists q|done].
  - intros j q [? Hj]%lookup_delete_Some. by apply Ho.
Qed.

Lemma members_ok_unban k c : members_ok c -> members_ok (with_banned (banned c ∖ {[k]}) c).
Proof.
  intros [He Hb Ho]. split; cbn; [apply He| |apply Ho].
  intros j Hj [Hjb _]%elem_of_difference. by apply (Hb j).
Qed.

Lemma IsOn_make_owner g c k :
  IsOn g c = true -> IsOn k (make_owner g c) = IsOn k c.
Proof.
  intros [pi Hg]%IsOn_true. unfold IsOn. rewrite lookup_make_owner, lookup_drop_owner.
  apply bool_decide_ext. case_decide; [subst; rewrite Hg; split; intros; by eexists|].
  case_decide; [apply fmap_is_Some|done].
Qed.

Lemma members_ok_make_owner g c :
  g <> 0 -> IsOn g c = true -> members_ok c ->
  members_ok (make_owner g c) /\ owner_inside (make_owner g c).
Proof.
  intros Hg0 Hg [He Hb Ho]. pose proof Hg as [pi Hpi]%IsOn_true.
  assert (pi_player (at_ g (drop_owner c)) = g) as Hpl.
  { destruct (at_drop_owner g c) as [->| ->]; [|unfold pi_SetOwner; rewrite pi_player_set];
      rewrite (at_Some _ _ _ Hpi); by apply He. }
  destruct (make_owner_frame g c) as (Hfb & _ & _ & _ & Hfo).
  split; [split|].
  - intros k q. rewrite lookup_make_owner. case_decide.
    + intros [= <-]. by subst.
    + rewrite lookup_drop_owner. case_decide; [|apply He].
      intros (q0 & Hq & ->)%fmap_Some. exact (He k q0 Hq).
  - intros k. rewrite IsOn_make_owner, Hfb by done. apply Hb.
  - intros k q. rewrite lookup_make_owner, Hfo. case_decide; [by intros _ _|].
    rewrite lookup_drop_owner. case_decide as Hk.
    + intros (q0 & Hq & ->)%fmap_Some. by autorewrite with shade.
    + intros Hq Hqo. exfalso. apply Hk.
      split; [symmetry; by apply (Ho k q)|apply (He k q Hq)].
  - eexists. rewrite Hfo, lookup_make_owner, decide_True by done. split; [done|].
    by autorewrite with shade.
Qed.

(** Handing the ownership to a member restores the whole invariant. *)
Lemma channel_ok_SetOwner kept g e c w :
  IsOn g c = true -> members_ok c -> channel_ok kept (SetOwner g e c w).1.
Proof.
  intros Hg Hc.
  assert (g <> 0) as Hg0 by (apply IsOn_true in Hg as [pi Hg]; apply (ok_entry _ Hc g pi Hg)).
  rewrite SetOwner_channel by done.
  destruct (members_ok_make_owner g c) as [? ?]; [done..|]. by split; intros.
Qed.

Lemma IsOn_update f p k c : IsOn p c = true -> IsOn k (update_at f p c) = IsOn k c.
Proof.
  intros [pi Hp]%IsOn_true. unfold IsOn. rewrite lookup_update_at. case_decide; [|done]. subst.
  rewrite Hp. apply bool_decide_ext. split; intros; by eexists.
Qed.

Lemma members_ok_SetModerator_at s p c :
  IsOn p c = true -> members_ok c -> members_ok (update_at (pi_SetModerator s) p c).
Proof.
  apply members_ok_update; intros pi; [apply pi_player_set|apply IsOwner_SetModerator].
Qed.

Lemma players_update_nonempty f p c : players (update_at f p c) <> ∅.
Proof. cbn. apply insert_non_empty. Qed.

(** Flag changes that spare the owner's moderator flag keep the invariant. *)
Lemma channel_ok_flags kept f p c :
  (forall pi, pi_player (f pi) = pi_player pi) -> (forall pi, IsOwner (f pi) = IsOwner pi) ->
  (p = m_ownerGUID c -> forall pi, IsModerator pi = true -> IsModerator (f pi) = true) ->
  IsOn p c = true -> channel_ok kept c -> channel_ok kept (update_at f p c).
Proof.
  intros Hf1 Hf2 Hf3 Hp [Hm Ho]. split; [by apply members_ok_update|].
  intros Hk Hown _. assert (players c <> ∅) as Hne.
  { intros E. apply IsOn_true in Hp as [pi Hp]. by rewrite E in Hp. }
  destruct (Ho Hk Hown Hne) as (pi & Hpi & H1 & H2).
  exists (if decide (p = m_ownerGUID c) then f pi else pi). cbn [m_ownerGUID update_at with_players].
  rewrite lookup_update_at. case_decide as Hpo; [|done].
  subst p. rewrite (at_Some _ _ _ Hpi), Hf2. auto.
Qed.

(** Fields the invariant does not mention. *)
Lemma channel_ok_password kept pw c : channel_ok kept c -> channel_ok kept (with_password pw c).
Proof. intros [[? ? ?] ?]. by split; [split|]. Qed.
Lemma channel_ok_announce kept b c : channel_ok kept c -> channel_ok kept (with_announce b c).
Proof. intros [[? ? ?] ?]. by split; [split|]. Qed.
Lemma channel_ok_unban kept k c :
  channel_ok kept c -> channel_ok kept (with_banned (banned c ∖ {[k]}) c).
Proof. intros [Hm Ho]. split; [by apply members_ok_unban|exact Ho]. Qed.

(** ** Each operation keeps the invariant *)

(** The manager deletes an owned channel once everybody has left it, if it is
    told; otherwise a request can meet one that is empty but still has its owner
    recorded (see [owner_self_kick_alone] and [ChannelMgr.logout_leaves_channel]). *)
Definition abandoned (c : Channel) : bool :=
  owned c && bool_decide (players c = ∅) && negb (m_ownerGUID c =? 0).

Lemma abandoned_false c :
  abandoned c = false -> owned c = true -> players c = ∅ -> m_ownerGUID c = 0.
Proof.
  unfold abandoned. intros H Ho E. rewrite Ho, bool_decide_eq_true_2 in H by done. cbn in H.
  by apply negb_false_iff, Z.eqb_eq in H.
Qed.

Lemma Join_admitted_channel cfg p player c w :
  (Join_admitted cfg p player c w).1
  = let c1 := with_players (<[p := mkPI p MEMBER_FLAG_NONE]> (players c)) c in
    if owned c && (m_ownerGUID c =? 0)
    then update_at (pi_SetModerator true) p (SetOwner p (1 <? Z.of_nat (size (players c1))) c1 w).1
    else c1.
Proof.
  unfold Join_admitted, owned. cbv zeta. change (IsConstant (with_players _ c)) with (IsConstant c).
  cbn [m_ownerGUID m_ownership with_players].
  destruct (IsConstant c); cbn [negb andb]; [done|].
  rewrite (andb_comm (_ =? 0)). case_if; [|done].
  unfold SetOwner. cbv zeta. repeat case_if; reflexivity.
Qed.

Lemma channel_ok_Join_admitted kept cfg p player c w :
  p <> 0 -> IsOn p c = false -> p ∉ banned c -> (kept = true -> abandoned c = false) ->
  channel_ok kept c -> channel_ok kept (Join_admitted cfg p player c w).1.
Proof.
  intros Hp Hon Hpb Hal [Hm Ho]. rewrite Join_admitted_channel. cbv zeta.
  set (c1 := with_players _ c).
  assert (members_ok c1) as Hm1 by by apply members_ok_enter.
  assert (IsOn p c1 = true) as Hp1.
  { apply IsOn_true. eexists. apply lookup_insert_eq. }
  destruct (owned c && (m_ownerGUID c =? 0)) eqn:Hown.
  - rewrite SetOwner_channel by done. pose proof (IsOn_make_owner p c1 p Hp1) as Hp2.
    apply channel_ok_flags; [by intros ..| | |by rewrite Hp2|].
    + intros pi. apply IsOwner_SetModerator.
    + intros _ pi _. apply IsModerator_SetModerator.
    + destruct (members_ok_make_owner p c1) as [? ?]; [done..|]. by split; intros.
  - split; [done|]. intros Hk Hown' _. change (owned c1) with (owned c) in Hown'.
    rewrite Hown' in Hown. cbn in Hown. bool_props.
    destruct (Ho Hk Hown') as (pi & Hpi & ?);
      [intros E; by eapply abandoned_false in E; [|apply Hal|]|].
    exists pi. cbn. rewrite lookup_insert_ne; [done|]. intros ->.
    apply IsOn_false in Hon. by rewrite Hon in Hpi.
Qed.

Lemma channel_ok_Join kept cfg p pass c w :
  p <> 0 -> (kept = true -> abandoned c = false) -> channel_ok kept c ->
  channel_ok kept (Join cfg p pass c w).1.
Proof.
  intros Hp Hal Hc. unfold Join.
  destruct (IsOn p c) eqn:Hon; [by case_if|].
  destruct (IsBanned p c) eqn:Hb; [done|]. apply IsBanned_false in Hb.
  case_if; [done|].
  destruct (FindPlayer p w); [case_if; [done|]|]; cbv zeta; by apply channel_ok_Join_admitted.
Qed.

(** Every exit of [Leave] but the first has the member erased, and then either
    that is all or the first member left becomes the owner. *)
Lemma Leave_channel cfg p send c w :
  (Leave cfg p send c w).1
  = if negb (IsOn p c) then c
    else
      let c1 := with_players (delete p (players c)) c in
      if owned c && IsOwner (at_ p c) then
        match ordered_entries (players c1) with
        | (_, first) :: _ =>
            (SetOwner (pi_player first) true
               (update_at (pi_SetModerator true) (pi_player first) c1) w).1
        | [] => c1
        end
      else c1.
Proof.
  unfold Leave, owned. destruct (IsOn p c); [|done]. cbn [negb]. cbv zeta.
  change (IsConstant (with_players _ c)) with (IsConstant c).
  cbn [m_ownership with_players players].
  destruct (IsConstant c); cbn [negb andb]; [done|].
  rewrite (andb_comm (IsOwner _)). destruct (m_ownership c && IsOwner (at_ p c)); [|done].
  destruct (ordered_entries _) as [|[k first] l]; [done|].
  unfold SetOwner. cbv zeta. case_if; [|done]. reflexivity.
Qed.

Lemma channel_ok_Leave kept cfg p send c w :
  channel_ok kept c -> channel_ok kept (Leave cfg p send c w).1.
Proof.
  intros Hc. pose proof Hc as [Hm Ho]. rewrite Leave_channel.
  destruct (IsOn p c) eqn:Hon; cbn [negb]; [|done]. cbv zeta.
  set (c1 := with_players _ c).
  assert (members_ok c1) as Hm1 by by apply members_ok_delete.
  destruct (owned c && IsOwner (at_ p c)) eqn:Hown; bool_props.
  - destruct (ordered_entries (players c1)) as [|[k first] l] eqn:Hl.
    + apply ordered_entries_nil in Hl. by split.
    + apply ordered_entries_head in Hl as [Hk _].
      destruct (ok_entry _ Hm1 _ _ Hk) as [-> _].
      assert (IsOn k c1 = true) as Hkon by (apply IsOn_true; by exists first).
      apply channel_ok_SetOwner; [by rewrite IsOn_update|by apply members_ok_SetModerator_at].
  - split; [done|]. intros Hk Hown' Hne. change (owned c1) with (owned c) in Hown'.
    destruct (Ho Hk Hown') as (pi & Hpi & Hpo & ?).
    { intros E. subst c1. cbn in Hne. by rewrite E, delete_empty in Hne. }
    exists pi. cbn. rewrite lookup_delete_ne; [done|]. intros ->.
    rewrite Hown' in Hown. cbn in Hown. rewrite (at_Some _ _ _ Hpi) in Hown. congruence.
Qed.

Lemma with_players_players c : with_players (players c) c = c.
Proof. by destruct c. Qed.

(** A kick that is granted: the channel before the ownership is handed on. *)
Definition expel (bad : Z) (ban : bool) (c : Channel) : Channel :=
  with_players (delete bad (players c))
    (if ban && negb (IsBanned bad c) then with_banned ({[bad]} ∪ banned c) c else c).

Lemma members_ok_expel bad ban c : members_ok c -> members_ok (expel bad ban c).
Proof.
  intros Hc. unfold expel. case_if; [by apply members_ok_ban|by apply members_ok_delete].
Qed.

(** The guards of [KickOrBan], in their order. *)
Definition kick_granted `{UnorderedIter} (good : Z) (badname : string) (c : Channel) (w : World)
  : option Player :=
  let sec := sec_of (FindPlayer good w) in
  if negb (IsOn good c) || not_moderator good sec c then None
  else
    match FindPlayerByName badname w with
    | None => None
    | Some bad =>
        if negb (IsOn (p_GUID bad) c)
           || (negb (IsGMAccount sec) && (p_GUID bad =? m_ownerGUID c)
               && negb (good =? m_ownerGUID c))
        then None else Some bad
    end.

(** Whether the ownership of a channel is handed on when [bad] is thrown out. *)
Definition hands_over (bad : Z) (c : Channel) : bool :=
  (m_ownerGUID c =? bad) && m_ownership c && negb (bool_decide (delete bad (players c) = ∅)).

Lemma KickOrBan_channel `{UnorderedIter} cfg good badname ban c w :
  (KickOrBan cfg good badname ban c w).1
  = match kick_granted good badname c w with
    | None => c
    | Some bad =>
        let c1 := expel (p_GUID bad) ban c in
        if hands_over (p_GUID bad) c
        then (SetOwner good true (update_at (pi_SetModerator true) good c1) w).1
        else c1
    end.
Proof.
  unfold KickOrBan, kick_granted. cbv zeta.
  destruct (IsOn good c); cbn [negb orb]; [|done].
  destruct (not_moderator _ _ _); cbn [negb orb]; [done|].
  destruct (FindPlayerByName badname w) as [bad|]; [|done].
  destruct (IsOn (p_GUID bad) c); cbn [negb orb]; [|done].
  case_if; [done|]. unfold expel, hands_over.
  destruct (ban && negb (IsBanned (p_GUID bad) c)); cbn [m_ownerGUID m_ownership players with_players with_banned];
    (case_if; [|done]); unfold SetOwner; cbv zeta; (case_if; [|done]); reflexivity.
Qed.

Lemma kick_granted_inv `{UnorderedIter} good badname c w bad :
  kick_granted good badname c w = Some bad ->
  FindPlayerByName badname w = Some bad /\ IsOn good c = true /\ IsOn (p_GUID bad) c = true
  /\ not_moderator good (sec_of (FindPlayer good w)) c = false
  /\ (p_GUID bad = m_ownerGUID c -> good = m_ownerGUID c
      \/ IsGMAccount (sec_of (FindPlayer good w)) = true).
Proof.
  unfold kick_granted. intros Hk. case_match; [done|]. bool_props.
  destruct (FindPlayerByName badname w) as [bad'|]; [|done].
  destruct (_ || _) eqn:Hg in Hk; [done|]. simplify_eq. bool_props. do 4 (split; [done|]).
  intros E. apply Z.eqb_eq in E. rewrite E in *.
  destruct (IsGMAccount _); [by right|left]. cbn in *. bool_props. done.
Qed.

(** An owner who throws himself out with others inside: the handing over of the
    ownership puts him back in (see [owner_self_kick]). *)
Definition throws_self_out `{UnorderedIter} (good : Z) (badname : string) (c : Channel) (w : World)
  : bool :=
  match kick_granted good badname c w with
  | Some bad => (p_GUID bad =? good) && hands_over (p_GUID bad) c
  | None => false
  end.

Lemma channel_ok_KickOrBan `{UnorderedIter} kept cfg good badname ban c w :
  throws_self_out good badname c w = false ->
  channel_ok kept c -> channel_ok kept (KickOrBan cfg good badname ban c w).1.
Proof.
  intros Hself Hc. pose proof Hc as [Hm Ho]. rewrite KickOrBan_channel.
  unfold throws_self_out in Hself.
  destruct (kick_granted good badname c w) as [bad|] eqn:Hk; [|done]. cbv zeta.
  apply kick_granted_inv in Hk as (Hbad & [gi Hgood]%IsOn_true & _).
  set (c1 := expel (p_GUID bad) ban c).
  assert (members_ok c1) as Hm1 by by apply members_ok_expel.
  destruct (hands_over (p_GUID bad) c) eqn:Hh.
  - rewrite andb_true_r in Hself. apply Z.eqb_neq in Hself.
    assert (IsOn good c1 = true) as Hg1.
    { apply IsOn_true. exists gi. cbn. by rewrite lookup_delete_ne. }
    apply channel_ok_SetOwner; [by rewrite IsOn_update|by apply members_ok_SetModerator_at].
  - split; [done|]. intros Hkept Hown Hne.
    assert (owned c1 = owned c /\ m_ownerGUID c1 = m_ownerGUID c) as (Ho1 & Ho3)
      by (subst c1; unfold expel; by case_if).
    rewrite Ho1 in Hown. pose proof Hown as [_ Hown']%andb_prop.
    destruct (Ho Hkept Hown) as (pi & Hpi & ?); [intros E; by rewrite E in Hgood|].
    exists pi. rewrite Ho3. cbn. rewrite lookup_delete_ne; [done|]. intros E.
    assert (bool_decide (delete (p_GUID bad) (players c) = ∅) = false) as Hd
      by (by apply bool_decide_eq_false_2).
    unfold hands_over in Hh. by rewrite Hd, Hown', <- E, Z.eqb_refl in Hh.
Qed.

Lemma SetModerator_channel p s c w :
  IsOn p c = true ->
  (SetModerator p s c w).1
  = if Bool.eqb (IsModerator (at_ p c)) s then c else update_at (pi_SetModerator s) p c.
Proof.
  intros [pi Hp]%IsOn_true. unfold SetModerator. cbv zeta.
  rewrite (touch_member _ _ _ Hp). by destruct (Bool.eqb _ _).
Qed.
Lemma SetMute_channel p s c w :
  IsOn p c = true ->
  (SetMute p s c w).1
  = if Bool.eqb (IsMuted (at_ p c)) s then c else update_at (pi_SetMuted s) p c.
Proof.
  intros [pi Hp]%IsOn_true. unfold SetMute. cbv zeta.
  rewrite (touch_member _ _ _ Hp). by destruct (Bool.eqb _ _).
Qed.

Lemma channel_ok_SetMode `{UnorderedIter} kept cfg p p2n m s c w :
  channel_ok kept c -> channel_ok kept (SetMode cfg p p2n m s c w).1.
Proof.
  intros Hc. unfold SetMode. destruct (FindPlayer p w) as [player|]; [|done]. cbv zeta.
  destruct (negb (IsOn p c)); [done|]. destruct (not_moderator _ _ _); [done|].
  destruct (FindPlayerByName p2n w) as [newp|]; [|done].
  destruct ((p =? m_ownerGUID c) && _ && m) eqn:H1; [done|].
  destruct (IsOn (p_GUID newp) c) eqn:Hn; [|done]. cbn [negb].
  destruct (_ && negb (CONFIG_ALLOW_TWO_SIDE_INTERACTION_CHANNEL cfg)); [done|].
  destruct ((m_ownerGUID c =? p_GUID newp) && _) eqn:H2; [done|].
  destruct m; [rewrite SetModerator_channel by done|rewrite SetMute_channel by done];
    (case_if; [done|]); apply channel_ok_flags; try done.
  - intros pi. apply IsOwner_SetModerator.
  - intros E. exfalso. rewrite E, Z.eqb_refl in H1, H2. cbn in H2. rewrite Z.eqb_sym in H2.
    destruct (p =? m_ownerGUID c); cbn in *; congruence.
  - intros pi. apply IsOwner_SetMuted.
  - intros _ pi. by rewrite IsModerator_SetMuted.
Qed.

Lemma channel_ok_SetOwner_name `{UnorderedIter} kept cfg p newname c w :
  channel_ok kept c -> channel_ok kept (SetOwner_name cfg p newname c w).1.
Proof.
  intros Hc. unfold SetOwner_name. destruct (FindPlayer p w) as [player|]; [|done]. cbv zeta.
  destruct (negb (IsOn p c)); [done|]. destruct (_ && _); [done|].
  destruct (FindPlayerByName newname w) as [newp|]; [|done].
  destruct (IsOn (p_GUID newp) c) eqn:Hn; [|done]. cbn [negb]. destruct (_ && _); [done|].
  apply channel_ok_SetOwner; [by rewrite IsOn_update|].
  by apply members_ok_SetModerator_at, Hc.
Qed.

(** ** Requests

    What [ChannelHandler] asks of a channel on behalf of a session. *)
Inductive Request :=
| ReqJoin (p : Z) (pass : string)
| ReqLeave (p : Z) (send : bool)
| ReqKick (good : Z) (badname : string)
| ReqBan (good : Z) (badname : string)
| ReqUnBan (good : Z) (badname : string)
| ReqPassword (p : Z) (pass : string)
| ReqMode (p : Z) (p2n : string) (mod_ set : bool)
| ReqOwner (p : Z) (newname : string)
| ReqWhoOwner (p : Z)
| ReqAnnounce (p : Z)
| ReqList (player : Player)
| ReqSay (p : Z) (what : option string) (lang : Z)
| ReqInvite (p : Z) (newname : string).

Section Requests.
Context `{UnorderedIter} (cfg : Config) (db_name : Z -> option string).

Definition handle (r : Request) (c : Channel) (w : World) : outcome (Channel * World) :=
  match r with
  | ReqJoin p pass => Ok (Join cfg p pass c w)
  | ReqLeave p send => Ok (Leave cfg p send c w)
  | ReqKick good badname => Ok (Kick cfg good badname c w)
  | ReqBan good badname => Ok (Ban cfg good badname c w)
  | ReqUnBan good badname => Ok (UnBan good badname c w)
  | ReqPassword p pass => Password p pass c w
  | ReqMode p p2n m s => Ok (SetMode cfg p p2n m s c w)
  | ReqOwner p newname => Ok (SetOwner_name cfg p newname c w)
  | ReqWhoOwner p => Ok (SendWhoOwner db_name p c w)
  | ReqAnnounce p => Ok (Announce p c w)
  | ReqList player => Ok (ListMembers cfg player c w)
  | ReqSay p what lang => Ok (Say cfg p what lang c w)
  | ReqInvite p newname => Ok (Invite cfg p newname c w)
  end.

(** A request runs to its end, but for a password by somebody who is not there. *)
Definition asker_there (r : Request) (w : World) : Prop :=
  match r with ReqPassword p _ => is_Some (FindPlayer p w) | _ => True end.

Lemma handle_defined r c w : asker_there r w -> exists s, handle r c w = Ok s.
Proof.
  destruct r; cbn; try (intros _; by eexists). intros [pl Hp]. unfold Password. rewrite Hp. cbv zeta.
  repeat case_match; by eexists.
Qed.

Lemma Password_channel p pass c w s :
  Password p pass c w = Ok s -> s.1 = c \/ s.1 = with_password (c_str pass) c.
Proof. unfold Password. cbv zeta. repeat case_match; intros [= <-]; auto. Qed.

(** What a request must satisfy: who joins has a GUID, which is not zero, and
    no owner throws himself out while others are inside, which the code does
    not check. *)
Definition sound_request (r : Request) (c : Channel) (w : World) : Prop :=
  match r with
  | ReqJoin p _ => p <> 0
  | ReqKick good badname | ReqBan good badname => throws_self_out good badname c w = false
  | _ => True
  end.

Lemma handle_ok kept r c w s :
  (kept = true -> abandoned c = false) -> sound_request r c w -> channel_ok kept c ->
  handle r c w = Ok s -> channel_ok kept s.1.
Proof.
  intros Hal Hr Hc E. destruct r; cbn [handle sound_request] in *; try (injection E as <-).
  - by apply channel_ok_Join.
  - by apply channel_ok_Leave.
  - by apply channel_ok_KickOrBan.
  - by apply channel_ok_KickOrBan.
  - unfold UnBan. cbv zeta. repeat (case_match; [done|]); try done.
    all: repeat case_match; try done; by apply channel_ok_unban.
  - apply Password_channel in E as [->| ->]; [done|by apply channel_ok_password].
  - by apply channel_ok_SetMode.
  - by apply channel_ok_SetOwner_name.
  - unfold SendWhoOwner. by case_match.
  - unfold Announce. cbv zeta. repeat (case_match; [done|]). by apply channel_ok_announce.
  - unfold ListMembers. cbv zeta. by case_match.
  - unfold Say. cbv zeta. by repeat case_match.
  - unfold Invite. cbv zeta. by repeat case_match.
Qed.

(** The states a channel can be in: as the constructor made it, or after a
    request.  Between two requests the world may change in any way.  The flag
    says that no request has met the channel abandoned. *)
Inductive reachable : bool -> Channel -> Prop :=
| reach_new this dbc db name channel_id Team w :
    reachable true (Channel_new cfg this dbc db name channel_id Team w).1
| reach_step kept r c w s :
    reachable kept c -> sound_request r c w -> handle r c w = Ok s ->
    reachable (kept && negb (abandoned c)) s.1.

Lemma reach_kept r c w s :
  reachable true c -> abandoned c = false -> sound_request r c w -> handle r c w = Ok s ->
  reachable true s.1.
Proof. intros Hr Ha Hs E. pose proof (reach_step _ _ _ _ _ Hr Hs E) as H1. by rewrite Ha in H1. Qed.

Lemma channel_ok_empty kept c : players c = ∅ -> channel_ok kept c.
Proof.
  intros E. split; [split|done].
  - intros k pi. by rewrite E.
  - intros k [pi Hk]%IsOn_true. by rewrite E in Hk.
  - intros k pi. by rewrite E.
Qed.

Lemma Channel_new_empty this dbc db name channel_id Team w :
  players (Channel_new cfg this dbc db name channel_id Team w).1 = ∅.
Proof. unfold Channel_new. by repeat case_match. Qed.
End Requests.

(** * Theorems *)

(** C33. In every state a channel can reach through requests, where joiners have
    GUIDs other than zero and no owner throws himself out while others are inside
    ([owner_self_kick] shows what happens then): every entry is filed under its
    own player, nobody on the ban list is inside, and only the recorded owner
    carries the owner flag; and as long as no request has met the channel
    abandoned, that is empty with an owner still recorded (as in
    [owner_self_kick_alone]), a custom channel with ownership that has members
    has its owner among them, flagged owner and moderator. *)
Theorem channel_invariant `{UnorderedIter} cfg db_name kept c :
  reachable cfg db_name kept c -> channel_ok kept c.
Proof.
  induction 1 as [|kept r c w s _ IH Hr E]; [apply channel_ok_empty, Channel_new_empty|].
  apply (handle_ok cfg db_name _ r c w s); [by intros [_ ?%negb_true_iff]%andb_prop|done| |done].
  apply (channel_ok_mono kept); [by intros [? _]%andb_prop|done].
Qed.

(** *** Witness data: a channel with three players in the world *)
Definition plain_config : Config := mkConfig false false true false false false 3 14.
Definition mk_player (guid : Z) (name : string) (sec : Z) : Player :=
  mkPlayer guid guid name sec guid true ALLIANCE 1 80 1 0 0 [] 0 0 0.
Definition world3 : World :=
  mkWorld (<[7 := mk_player 7 "Ann" 0]> (<[9 := mk_player 9 "Bob" 0]>
            (<[12 := mk_player 12 "Cid" 0]> ∅))) ∅ ∅ 1000 [].
Definition no_name (g : Z) : option string := None.
Definition fresh_channel : Channel :=
  (Channel_new plain_config 1 (fun _ => None) (fun _ _ => None) "lobby" 0 ALLIANCE world3).1.
Definition lobby : Channel :=
  (Join plain_config 12 "" (Join plain_config 9 "" (Join plain_config 7 "" fresh_channel world3).1 world3).1 world3).1.

Lemma lobby_ok : channel_ok true lobby.
Proof.
  unfold lobby. do 3 (apply channel_ok_Join; [done|by intros _; vm_compute|]).
  apply channel_ok_empty, Channel_new_empty.
Qed.

Lemma channel_invariant_witness :
  players lobby !! 7 = Some (mkPI 7 3) /\ channel_ok true lobby.
Proof.
  split; [by vm_compute|]. apply (channel_invariant plain_config no_name).
  apply (reach_kept _ _ (ReqJoin 12 "")
    (Join plain_config 9 "" (Join plain_config 7 "" fresh_channel world3).1 world3).1
    world3 (Join plain_config 12 "" _ world3)); [|by vm_compute|done|done].
  apply (reach_kept _ _ (ReqJoin 9 "")
    (Join plain_config 7 "" fresh_channel world3).1
    world3 (Join plain_config 9 "" _ world3)); [|by vm_compute|done|done].
  apply (reach_kept _ _ (ReqJoin 7 "")
    fresh_channel
    world3 (Join plain_config 7 "" _ world3)); [|by vm_compute|done|done].
  apply reach_new.
Defined.

(** ** Who gets in *)

(** The tests of [Join]: not a member yet, not banned, the right password or
    none set, and no restricted looking-for-group channel for a player who is
    online. *)
Definition admits (cfg : Config) (p : Z) (pass : string) (c : Channel) (w : World) : bool :=
  negb (IsOn p c) && negb (IsBanned p c)
  && (String.eqb (m_password c) "" || String.eqb (c_str pass) (c_str (m_password c)))
  && (bool_decide (FindPlayer p w = None)
      || negb (IsLFG c && CONFIG_RESTRICTED_LFG_CHANNEL cfg)).

Lemma password_set c : (0 <? String.length (m_password c))%nat = negb (String.eqb (m_password c) "").
Proof. by destruct (m_password c). Qed.

Lemma Join_channel cfg p pass c w :
  (Join cfg p pass c w).1
  = if admits cfg p pass c w
    then (Join_admitted cfg p (FindPlayer p w) c w).1 else c.
Proof.
  unfold Join, admits, IsLFG. rewrite password_set.
  destruct (IsOn p c); cbn [negb andb]; [by case_if|].
  destruct (IsBanned p c); cbn [negb andb]; [done|].
  destruct (String.eqb (m_password c) ""); cbn [negb andb orb].
  2: destruct (String.eqb (c_str pass) _); cbn [negb andb orb]; [|done].
  all: destruct (FindPlayer p w) as [pl|] eqn:Hf; cbn;
    [destruct (HasFlag _ c && _) eqn:Hl; cbn; [done|]|done].
  all: cbv zeta; rewrite !Join_admitted_channel; cbv zeta; (case_if; [|done]); f_equal;
    apply SetOwner_world.
Qed.

(** The channel a newcomer enters: in a custom channel nobody owns yet, as its
    owner and moderator. *)
Definition enter (p : Z) (c : Channel) : Channel :=
  let first := owned c && (m_ownerGUID c =? 0) in
  with_owner (if first then p else m_ownerGUID c)
    (with_players (<[p := mkPI p (if first then Z.lor MEMBER_FLAG_OWNER MEMBER_FLAG_MODERATOR
                                  else MEMBER_FLAG_NONE)]> (players c)) c).

Lemma Join_admitted_enter cfg p player c w :
  p <> 0 -> (Join_admitted cfg p player c w).1 = enter p c.
Proof.
  intros Hp. rewrite Join_admitted_channel. unfold enter. cbv zeta.
  destruct (owned c && (m_ownerGUID c =? 0)) eqn:Hown; [|by destruct c].
  bool_props. rewrite SetOwner_channel by done.
  unfold make_owner, drop_owner. cbn [m_ownerGUID with_players].
  replace (m_ownerGUID c =? 0) with true by (symmetry; by apply Z.eqb_eq). cbn [negb].
  unfold update_at, with_players, with_owner, at_. cbn.
  rewrite !lookup_insert_eq. cbn. by rewrite !insert_insert_eq. 
Qed.

(** [Join] in full: an applicant the tests admit becomes a member (owner
    and moderator of a custom channel without owner) and nothing else about the
    channel changes; one they refuse leaves the channel as it was. *)
Theorem join_admission cfg p pass c w :
  p <> 0 ->
  (Join cfg p pass c w).1 = (if admits cfg p pass c w then enter p c else c)
  /\ IsOn p (Join cfg p pass c w).1 = IsOn p c || admits cfg p pass c w.
Proof.
  intros Hp. rewrite Join_channel, Join_admitted_enter by done. split; [done|].
  case_if; [|by rewrite orb_false_r].
  rewrite orb_true_r. apply IsOn_true. eexists. apply lookup_insert_eq.
Qed.

Lemma join_admission_witness :
  (Join plain_config 7 "x" fresh_channel world3).1 = enter 7 fresh_channel
  /\ players (enter 7 fresh_channel) !! 7 = Some (mkPI 7 3).
Proof.
  split; [|by vm_compute].
  exact (proj1 (join_admission plain_config 7 "x" fresh_channel world3 ltac:(lia))).
Defined.

(** When the owner leaves a custom channel with ownership that others are
    still in, the member with the smallest GUID becomes owner and moderator;
    every other member keeps the entry they had. *)
Theorem leave_succession cfg p send c w k pk :
  channel_ok true c -> owned c = true ->
  IsOn p c = true -> m_ownerGUID c = p ->
  players c !! k = Some pk -> k <> p ->
  (forall j, IsOn j c = true -> j <> p -> k <= j) ->
  let c' := (Leave cfg p send c w).1 in
  m_ownerGUID c' = k
  /\ players c' = <[k := pi_SetOwner true (pi_SetModerator true pk)]> (delete p (players c))
  /\ IsOwner (at_ k c') = true /\ IsModerator (at_ k c') = true.
Proof.
  intros [Hm Ho] Hown Hon Hp Hk Hkp Hmin c'. subst c'. rewrite Leave_channel, Hon, Hown. cbn [negb]. cbv zeta.
  destruct (Ho eq_refl Hown) as (pi & Hpi & Hpo & _); [intros E; by rewrite E in Hk|].
  rewrite Hp in Hpi. rewrite (at_Some _ _ _ Hpi), Hpo. cbn [andb players with_players].
  destruct (ordered_entries (delete p (players c))) as [|[k' first] l] eqn:Hl.
  { apply ordered_entries_nil in Hl. exfalso. apply (lookup_empty_Some (M:=gmap Z) k pk).
    rewrite <- Hl. by rewrite lookup_delete_ne. }
  apply ordered_entries_head in Hl as [Hk' Hmin'].
  apply lookup_delete_Some in Hk' as [Hk'p Hk'].
  assert (k' = k) as ->.
  { assert (k' <= k) by (apply Hmin'; exists pk; by rewrite lookup_delete_ne).
    assert (k <= k') by (apply Hmin; [apply IsOn_true; by exists first|done]). lia. }
  rewrite Hk in Hk'. injection Hk' as <-. destruct (ok_entry _ Hm _ _ Hk) as [-> Hk0].
  rewrite SetOwner_channel by done.
  assert (players (make_owner k (update_at (pi_SetModerator true) k
            (with_players (delete p (players c)) c)))
          = <[k := pi_SetOwner true (pi_SetModerator true pk)]> (delete p (players c))) as E.
  { set (c1 := with_players (delete p (players c)) c).
    assert (players c1 !! k = Some pk) as Hk1 by (subst c1; cbn; by rewrite lookup_delete_ne).
    apply map_eq. intros j. rewrite lookup_make_owner, drop_owner_absent.
    - assert (at_ k (update_at (pi_SetModerator true) k c1) = pi_SetModerator true pk) as ->.
      { apply at_Some. by rewrite lookup_update_at, decide_True, (at_Some _ _ _ Hk1). }
      rewrite lookup_update_at, SetModerator_twice.
      rewrite lookup_insert. by repeat case_decide.
    - cbn. rewrite Hp, lookup_insert_ne by done. by apply lookup_delete_eq. }
  split; [apply make_owner_frame|]. split; [exact E|].
  rewrite (at_Some k _ (pi_SetOwner true (pi_SetModerator true pk)))
    by (rewrite E; apply lookup_insert_eq).
  by autorewrite with shade.
Qed.

Lemma leave_succession_witness :
  m_ownerGUID (Leave plain_config 7 true lobby world3).1 = 9.
Proof.
  refine (proj1 (leave_succession plain_config 7 true lobby world3 9 (mkPI 9 0)
                   lobby_ok eq_refl eq_refl eq_refl eq_refl ltac:(lia) _)).
  intros j Hj Hj7. assert (j = 7 \/ j = 9 \/ j = 12) as Hc; [|lia].
  apply IsOn_true in Hj as [pi Hj]. apply elem_of_ordered_entries in Hj.
  replace (ordered_entries (players lobby)) with [(7, mkPI 7 3); (9, mkPI 9 0); (12, mkPI 12 0)]
    in Hj by (by vm_compute).
  rewrite !elem_of_cons in Hj.
  destruct Hj as [[= -> ->]|[[= -> ->]|[[= -> ->]|Hj]]]; [tauto..|by apply not_elem_of_nil in Hj].
Defined.

(** ** Who may command *)

(** The rights each command asks for: to be a member and a moderator or game
    master; for the ownership, to be a member and the owner or a game master. *)
Definition entitled (r : Request) (c : Channel) (w : World) : option (Z * bool) :=
  let moderates p := IsOn p c && negb (not_moderator p (sec_of (FindPlayer p w)) c) in
  match r with
  | ReqKick p _ | ReqBan p _ | ReqUnBan p _ | ReqPassword p _ | ReqAnnounce p
  | ReqMode p _ _ _ => Some (p, moderates p)
  | ReqOwner p _ =>
      Some (p, IsOn p c && (IsGMAccount (sec_of (FindPlayer p w)) || (p =? m_ownerGUID c)))
  | _ => None
  end.

(** The answer to a refused command, if the player is there to get it. *)
Definition refusal (p : Z) (es : list Effect) (c : Channel) : Prop :=
  forall e, e ∈ es ->
    e = Send p (MakeNotMember c) \/ e = Send p (MakeNotModerator c) \/ e = Send p (MakeNotOwner c).

Lemma refusal_SendToOne p data c w :
  world_ok w ->
  data = MakeNotMember c \/ data = MakeNotModerator c \/ data = MakeNotOwner c ->
  exists es, SendToOne data p w = emits es w /\ refusal p es c.
Proof.
  intros Hw Hd. eexists. split; [apply SendToOne_emits|]. intros e He.
  destruct (FindPlayer p w) as [pl|] eqn:Hp; [|by apply not_elem_of_nil in He].
  unfold sent in He. destruct (p_connected pl); [|by apply not_elem_of_nil in He].
  apply list_elem_of_singleton in He as ->. rewrite (FindPlayer_guid _ _ _ Hw Hp).
  destruct Hd as [->|[->| ->]]; tauto.
Qed.

(** A command by a player without the rights for it changes nothing in the
    channel and nothing in the world but, at most, one refusal sent to the
    player. *)
Theorem command_guarded `{UnorderedIter} cfg db_name r c w p s :
  world_ok w -> entitled r c w = Some (p, false) -> handle cfg db_name r c w = Ok s ->
  s.1 = c /\ exists es, s.2 = emits es w /\ refusal p es c.
Proof.
  intros Hw He E.
  assert (exists es, w = emits es w /\ refusal p es c) as Hnone
    by (exists []; rewrite emits_nil; split; [done|]; intros e Hin; by apply not_elem_of_nil in Hin).
  destruct r; cbn in He; try done; injection He as -> Hf; cbn [handle] in E;
    unfold Kick, Ban, KickOrBan, UnBan, Password, SetMode, SetOwner_name, Announce in E; cbv zeta in E;
    try (destruct (FindPlayer p w) as [pl|] eqn:Hp; cbn [sec_of] in *;
         [|try done; injection E as <-; by split; [|exact Hnone]]);
    (destruct (IsOn p c); cbn [andb negb] in *;
     [|injection E as <-; by split; [|apply refusal_SendToOne; auto]]);
    try (apply negb_false_iff in Hf; rewrite Hf in E; injection E as <-;
         split; [done|apply refusal_SendToOne; auto]).
  apply orb_false_iff in Hf as [Hf1 Hf2]. rewrite Hf1, Hf2 in E. injection E as <-.
  split; [done|apply refusal_SendToOne; auto].
Qed.

Lemma world3_ok : world_ok world3.
Proof.
  intros g p. unfold world3. cbn. rewrite !lookup_insert_Some, lookup_empty.
  intros [[<- <-]|[? [[<- <-]|[? [[<- <-]|[? [=]]]]]]]; done.
Qed.

Lemma command_guarded_witness :
  (Kick plain_config 9 "Ann" lobby world3).1 = lobby
  /\ w_trace (Kick plain_config 9 "Ann" lobby world3).2 = [Send 9 (MakeNotModerator lobby)].
Proof.
  split; [|by vm_compute].
  exact (proj1 (command_guarded plain_config no_name (ReqKick 9 "Ann") lobby world3 9 _
                  world3_ok eq_refl eq_refl)).
Defined.

(** ** Kicks and bans *)
Lemma IsOn_SetOwner_good good e c w k :
  good <> 0 -> IsOn good c = true ->
  IsOn k (SetOwner good e (update_at (pi_SetModerator true) good c) w).1 = IsOn k c.
Proof.
  intros Hg0 Hg. rewrite SetOwner_channel by done.
  rewrite IsOn_make_owner by (by rewrite IsOn_update). by rewrite IsOn_update.
Qed.

Lemma IsOn_expel k bad ban c :
  IsOn k (expel bad ban c) = negb (k =? bad) && IsOn k c.
Proof.
  assert (players (expel bad ban c) = delete bad (players c)) as E by (unfold expel; by case_if).
  unfold IsOn. rewrite E. destruct (Z.eqb_spec k bad) as [->|Hk]; cbn.
  - by rewrite lookup_delete_eq.
  - by rewrite lookup_delete_ne.
Qed.

Lemma banned_expel bad ban c :
  banned (expel bad ban c) = (if ban then {[bad]} ∪ banned c else banned c).
Proof.
  unfold expel. destruct ban; cbn [andb]; [|done].
  destruct (IsBanned bad c) eqn:Hb; cbn; [|done]. apply IsBanned_true in Hb.
  symmetry. by apply subseteq_union_1_L, singleton_subseteq_l.
Qed.

Lemma IsOn_make_owner_any g c k :
  IsOn k (make_owner g c) = (k =? g) || IsOn k c.
Proof.
  unfold IsOn. rewrite lookup_make_owner, lookup_drop_owner.
  destruct (Z.eqb_spec k g) as [->|Hk]; cbn.
  - rewrite decide_True by done. by apply bool_decide_eq_true.
  - rewrite decide_False by done. apply bool_decide_ext. case_decide; [apply fmap_is_Some|done].
Qed.

Lemma IsOn_update_any f p k c : IsOn k (update_at f p c) = (k =? p) || IsOn k c.
Proof.
  unfold IsOn. rewrite lookup_update_at. destruct (Z.eqb_spec k p) as [->|Hk]; cbn.
  - rewrite decide_True by done. by apply bool_decide_eq_true.
  - by rewrite decide_False.
Qed.

(** [KickOrBan] in full: when it is granted the target goes, and whoever the
    ownership is handed to is inside; a ban puts the target on the ban list. *)
Lemma KickOrBan_effect `{UnorderedIter} cfg good badname ban c w :
  members_ok c ->
  let c' := (KickOrBan cfg good badname ban c w).1 in
  match kick_granted good badname c w with
  | None => c' = c
  | Some bad =>
      (forall k, IsOn k c' = (hands_over (p_GUID bad) c && (k =? good))
                             || (negb (k =? p_GUID bad) && IsOn k c))
      /\ banned c' = (if ban then {[p_GUID bad]} ∪ banned c else banned c)
      /\ m_ownerGUID c' = (if hands_over (p_GUID bad) c then good else m_ownerGUID c)
  end.
Proof.
  intros Hm c'. subst c'. rewrite KickOrBan_channel.
  destruct (kick_granted good badname c w) as [bad|] eqn:Hk; [|done]. cbv zeta.
  apply kick_granted_inv in Hk as (_ & [gi Hgood]%IsOn_true & _).
  destruct (ok_entry _ Hm _ _ Hgood) as [_ Hg0].
  set (c1 := expel (p_GUID bad) ban c).
  assert (m_ownerGUID c1 = m_ownerGUID c) as Ho1 by (subst c1; unfold expel; by case_if).
  destruct (hands_over (p_GUID bad) c); cbn [andb orb].
  - rewrite SetOwner_channel by done.
    destruct (make_owner_frame good (update_at (pi_SetModerator true) good c1))
      as (-> & _ & _ & _ & ->).
    split; [|split; [apply banned_expel|done]]. intros k.
    rewrite IsOn_make_owner_any, IsOn_update_any. unfold c1. rewrite IsOn_expel. by destruct (k =? good).
  - split; [intros k; apply IsOn_expel|]. split; [apply banned_expel|done].
Qed.

Lemma UnBan_channel `{UnorderedIter} good badname c w :
  (UnBan good badname c w).1 = c
  \/ exists bad, FindPlayerByName badname w = Some bad
       /\ (UnBan good badname c w).1 = with_banned (banned c ∖ {[p_GUID bad]}) c.
Proof. unfold UnBan. cbv zeta. repeat case_match; eauto. Qed.

(** Someone on the ban list stays on it: only a granted unban of that very
    player takes a name off. *)
Lemma banned_handle `{UnorderedIter} cfg db_name r c w s b :
  sound_request r c w -> b ∈ banned c ->
  (forall good badname bad, r = ReqUnBan good badname ->
     FindPlayerByName badname w = Some bad -> p_GUID bad <> b) ->
  handle cfg db_name r c w = Ok s -> b ∈ banned s.1.
Proof.
  intros Hr Hb Hun E. destruct r; cbn [handle sound_request] in *; try (injection E as <-).
  - rewrite Join_channel. case_if; [|done]. by rewrite Join_admitted_enter.
  - rewrite Leave_channel. case_if; [done|]. cbv zeta. case_if; [|done].
    case_match; [done|]. case_match. by rewrite banned_SetOwner.
  - unfold Kick. rewrite KickOrBan_channel. case_match; [|done]. cbv zeta.
    case_if; [rewrite banned_SetOwner; cbn [banned update_at with_players]|]; by rewrite banned_expel.
  - unfold Ban. rewrite KickOrBan_channel. case_match; [|done]. cbv zeta.
    case_if; [rewrite banned_SetOwner; cbn [banned update_at with_players]|]; rewrite banned_expel;
      by apply elem_of_union_r.
  - destruct (UnBan_channel good badname c w) as [->|(bad & Hbad & ->)]; [done|]. cbn.
    apply elem_of_difference. split; [done|]. intros ->%elem_of_singleton. by eapply Hun.
  - by apply Password_channel in E as [->| ->].
  - unfold SetMode, SetModerator, SetMute. cbv zeta. by repeat case_match.
  - unfold SetOwner_name, SetOwner. cbv zeta. by repeat case_match.
  - unfold SendWhoOwner. by case_match.
  - unfold Announce. cbv zeta. by repeat case_match.
  - unfold ListMembers. cbv zeta. by case_match.
  - unfold Say. cbv zeta. by repeat case_match.
  - unfold Invite. cbv zeta. by repeat case_match.
Qed.

Definition lobby_ban9 : Channel := (Ban plain_config 7 "Bob" lobby world3).1.

(** The guard the code lacks: an owner who kicks himself while others are in
    the channel is put back in by the handing over of the ownership, as a
    member whose entry names player 0. *)
Lemma owner_self_kick :
  players (Kick plain_config 7 "Ann" lobby world3).1 !! 7 = Some (mkPI 0 3).
Proof. by vm_compute. Qed.

(** With nobody else there, the channel stays behind empty with its old owner,
    and the next player to join is not made owner. *)
Lemma owner_self_kick_alone :
  let alone := (Join plain_config 7 "" fresh_channel world3).1 in
  let c := (Join plain_config 9 "" (Kick plain_config 7 "Ann" alone world3).1 world3).1 in
  players c !! 9 = Some (mkPI 9 0) /\ m_ownerGUID c = 7.
Proof. by vm_compute. Qed.

(** ** Messages *)

(** The message a member's [Say] sends. *)
Definition chat_message (cfg : Config) (p : Z) (what : string) (lang : Z) (c : Channel) (w : World)
  : Packet :=
  mkPacket SMSG_MESSAGECHAT
    [U8 CHAT_MSG_CHANNEL;
     U32 (if CONFIG_ALLOW_TWO_SIDE_INTERACTION_CHANNEL cfg then LANG_UNIVERSAL else lang);
     U64 p; U32 0; Str (m_name c); U64 p; U32 (u32 (Z.of_nat (String.length (c_str what)) + 1));
     Str (c_str what);
     U8 (match FindPlayer p w with Some pl => GetChatTag pl | None => 0 end)].

Lemma elem_of_audience p c w pl :
  world_ok w ->
  pl ∈ audience p c w <->
  IsOn (p_GUID pl) c = true /\ FindPlayer (p_GUID pl) w = Some pl
  /\ (p = 0 \/ HasIgnore (GUID_LOPART p) (GetSocial pl w) = false).
Proof.
  intros Hw. split.
  - intros Hin. split; [by eapply audience_members|].
    apply list_elem_of_omap in Hin as ([g pi] & Hin & Hpl).
    destruct (FindPlayer g w) as [q|] eqn:Hq; [|done]. case_match eqn:Hi; simplify_eq.
    rewrite (FindPlayer_guid _ _ _ Hw Hq). split; [done|].
    apply orb_true_iff in Hi as [?%Z.eqb_eq|?%negb_true_iff]; auto.
  - intros ([pi Hpi]%IsOn_true & Hf & Hi). apply list_elem_of_omap.
    exists (p_GUID pl, pi). split; [by apply elem_of_ordered_entries|]. rewrite Hf.
    destruct Hi as [->|Hi]; [done|]. by rewrite Hi, orb_true_r.
Qed.

(** What a member who is not muted says reaches exactly the members who
    are online with a connection and do not ignore the speaker; a moderator is
    heard even by those.  The channel itself does not change. *)
Theorem say_reaches cfg p what lang c w :
  world_ok w -> p <> 0 -> IsOn p c = true -> IsMuted (at_ p c) = false ->
  exists es, Say cfg p (Some what) lang c w = (c, emits es w)
    /\ forall g d, Send g d ∈ es <->
         d = chat_message cfg p what lang c w
         /\ exists pl, FindPlayer g w = Some pl /\ IsOn g c = true /\ p_connected pl = true
              /\ (IsModerator (at_ p c) = true
                  \/ HasIgnore (GUID_LOPART p) (GetSocial pl w) = false).
Proof.
  intros Hw Hp Hon Hmute. unfold Say. rewrite Hon, Hmute. cbn [negb]. cbv zeta.
  fold (chat_message cfg p what lang c w).
  eexists. split; [f_equal; apply SendToAll_emits|].
  intros g d. rewrite elem_of_sends. apply and_iff_compat_l. split.
  - intros (pl & Hin & Hc & <-). apply (elem_of_audience _ _ _ _ Hw) in Hin as (? & ? & Hi).
    exists pl. repeat (split; [done|]). destruct (IsModerator (at_ p c)); [by left|].
    right. by destruct Hi.
  - intros (pl & Hf & Hg & Hc & Hi). pose proof (FindPlayer_guid _ _ _ Hw Hf) as <-.
    exists pl. split; [|done]. apply (elem_of_audience _ _ _ _ Hw). repeat (split; [done|]).
    destruct (IsModerator (at_ p c)); [by left|]. right. by destruct Hi.
Qed.

Lemma say_reaches_witness :
  exists es, Say plain_config 9 (Some "hi"%string) 7 lobby world3 = (lobby, emits es world3)
    /\ length es = 3%nat.
Proof.
  destruct (say_reaches plain_config 9 "hi" 7 lobby world3 world3_ok ltac:(lia) eq_refl eq_refl)
    as (es & E & _).
  exists es. split; [exact E|].
  assert (w_trace (Say plain_config 9 (Some "hi"%string) 7 lobby world3).2 = es) as Ht
    by (by rewrite E).
  rewrite <- Ht. by vm_compute.
Defined.

(** ** The saved row *)

(** The row the arguments of [CHAR_UPD_CHANNEL] put in the table. *)
Definition stored_row (s : Stmt) : option ChannelRow :=
  match st_id s, st_args s with
  | CHAR_UPD_CHANNEL, [QBool a; QBool o; QStr pw; QStr b; QStr _; QU32 _] =>
      Some (mkRow a o pw (Some b))
  | _, _ => None
  end.

Lemma elements_sorted_perm (b : gset Z) : merge_sort Z.le (elements b) ≡ₚ elements b.
Proof. apply merge_sort_Permutation. Qed.

Lemma load_banlist c :
  (forall g, g ∈ banned c -> 0 < g < 2 ^ 64) -> load_banned (Some (banlist c)) = banned c.
Proof.
  intros Hb. unfold load_banned, banlist.
  assert (forall g, g ∈ merge_sort Z.le (elements (banned c)) <-> g ∈ banned c) as Hs
    by (intros g; by rewrite elements_sorted_perm, elem_of_elements).
  assert (Forall (fun z => 0 <= z < 2 ^ 64) (merge_sort Z.le (elements (banned c)))) as Hf
    by (apply Forall_forall; intros g Hg%Hs; apply Hb in Hg; lia).
  rewrite (list_fmap_compose atol u64), atol_print_list by done.
  apply set_eq. intros g.
  rewrite elem_of_list_to_set, list_elem_of_In, filter_In, <- list_elem_of_In, list_elem_of_fmap.
  setoid_rewrite Hs. split.
  - intros [(z & -> & Hz) _]. rewrite wrap_small; [done|]. apply Hb in Hz. lia.
  - intros Hg. pose proof (Hb _ Hg) as Hr. split.
    + exists g. split; [|done]. symmetry. apply wrap_small. lia.
    + apply negb_true_iff, Z.eqb_neq. lia.
Qed.

(** A saved channel comes back: the row [UpdateChannelInDB] writes, read by
    the constructor, gives the same announcements, ownership, password and ban
    list, whatever the GUIDs banned. *)
Theorem channel_saved_and_loaded cfg this c w w' :
  CONFIG_PRESERVE_CUSTOM_CHANNELS cfg = true -> m_IsSaved c = true ->
  (forall g, g ∈ banned c -> 0 < g < 2 ^ 64) ->
  exists s row, UpdateChannelInDB c w = execute s w /\ stored_row s = Some row
    /\ let c' := (Channel_new cfg this (fun _ => None) (fun _ _ => Some row) (m_name c) 0
                    (m_Team c) w').1 in
       banned c' = banned c /\ m_password c' = m_password c
       /\ m_announce c' = m_announce c /\ m_ownership c' = m_ownership c
       /\ players c' = ∅ /\ m_ownerGUID c' = 0.
Proof.
  intros Hcfg Hs Hb. unfold UpdateChannelInDB. rewrite Hs. do 2 eexists.
  split; [reflexivity|]. split; [reflexivity|]. unfold Channel_new. rewrite Hcfg.
  pose proof (load_banlist c Hb) as E. split; [exact E|]. done.
Qed.

Lemma channel_saved_and_loaded_witness :
  exists s, UpdateChannelInDB lobby_ban9 world3 = execute s world3
    /\ st_args s = [QBool true; QBool true; QStr ""; QStr "9 "; QStr "lobby"; QU32 ALLIANCE].
Proof.
  destruct (channel_saved_and_loaded plain_config 1 lobby_ban9 world3 world3 eq_refl eq_refl)
    as (s & row & E & _).
  - intros g Hg. assert (banned lobby_ban9 = {[9]}) as Hb9 by (by vm_compute).
    rewrite Hb9 in Hg. apply elem_of_singleton in Hg as ->. lia.
  - exists s. split; [exact E|].
    assert (w_trace (UpdateChannelInDB lobby_ban9 world3) = [Execute s]) as Ht by (by rewrite E).
    vm_compute in Ht. by injection Ht as <-.
Defined.

(** ** The room behind the channel

    An abstract account of who is inside: a set of members and a set of
    outlaws, and what can happen there.  Somebody who is not an outlaw comes in;
    a member goes out, or is thrown out or outlawed by a member; a member pardons
    an outlaw.  One thing the room knows that it should not: an owner who throws
    himself out stays inside, outlawed or not. *)
Record Room := mkRoom { inside : gset Z; outlaws : gset Z }.

Inductive RoomAct :=
| Enter (p : Z)
| Depart (p : Z)
| Expel (a b : Z)
| Outlaw (a b : Z)
| Return (a : Z) (outlawed : bool)
| Pardon (a b : Z).

Inductive room_step (r : Room) : option RoomAct -> Room -> Prop :=
| rs_stay : room_step r None r
| rs_enter p : p ∉ inside r -> p ∉ outlaws r ->
    room_step r (Some (Enter p)) (mkRoom ({[p]} ∪ inside r) (outlaws r))
| rs_depart p : p ∈ inside r ->
    room_step r (Some (Depart p)) (mkRoom (inside r ∖ {[p]}) (outlaws r))
| rs_expel a b : a ∈ inside r -> b ∈ inside r ->
    room_step r (Some (Expel a b)) (mkRoom (inside r ∖ {[b]}) (outlaws r))
| rs_outlaw a b : a ∈ inside r -> b ∈ inside r ->
    room_step r (Some (Outlaw a b)) (mkRoom (inside r ∖ {[b]}) ({[b]} ∪ outlaws r))
| rs_return a outlawed : a ∈ inside r ->
    room_step r (Some (Return a outlawed))
      (mkRoom (inside r) (if outlawed : bool then {[a]} ∪ outlaws r else outlaws r))
| rs_pardon a b : a ∈ inside r -> b ∈ outlaws r ->
    room_step r (Some (Pardon a b)) (mkRoom (inside r) (outlaws r ∖ {[b]})).

Definition room_of (c : Channel) : Room := mkRoom (dom (players c)) (banned c).

(** The guards of [UnBan]. *)
Definition pardon_granted `{UnorderedIter} (good : Z) (badname : string) (c : Channel) (w : World)
  : option Player :=
  if IsOn good c && negb (not_moderator good (sec_of (FindPlayer good w)) c) then
    match FindPlayerByName badname w with
    | Some bad => if IsBanned (p_GUID bad) c then Some bad else None
    | None => None
    end
  else None.

(** What a request means in the room, if it is granted. *)
Definition room_act `{UnorderedIter} (cfg : Config) (r : Request) (c : Channel) (w : World)
  : option RoomAct :=
  let thrown (good : Z) (badname : string) (ban : bool) : option RoomAct :=
    if throws_self_out good badname c w then Some (Return good ban)
    else (fun bad => (if ban then Outlaw else Expel) good (p_GUID bad))
         <$> kick_granted good badname c w in
  match r with
  | ReqJoin p pass => if admits cfg p pass c w then Some (Enter p) else None
  | ReqLeave p _ => if IsOn p c then Some (Depart p) else None
  | ReqKick good badname => thrown good badname false
  | ReqBan good badname => thrown good badname true
  | ReqUnBan good badname => (fun bad => Pardon good (p_GUID bad)) <$> pardon_granted good badname c w
  | _ => None
  end.

Lemma elem_of_inside k c : k ∈ inside (room_of c) <-> IsOn k c = true.
Proof. cbn. rewrite elem_of_dom, IsOn_true. done. Qed.

Lemma room_of_eq c s o :
  (forall k, IsOn k c = true <-> k ∈ s) -> banned c = o -> room_of c = mkRoom s o.
Proof.
  intros Hs <-. unfold room_of. f_equal. apply set_eq. intros k.
  rewrite <- Hs. exact (elem_of_inside k c).
Qed.

Lemma room_of_same c c' :
  (forall k, IsOn k c' = IsOn k c) -> banned c' = banned c -> room_of c' = room_of c.
Proof. intros Hk Hb. apply room_of_eq; [|done]. intros k. by rewrite Hk, <- elem_of_inside. Qed.

Lemma room_SetMode `{UnorderedIter} cfg p p2n m s c w :
  room_of (SetMode cfg p p2n m s c w).1 = room_of c.
Proof.
  unfold SetMode. cbv zeta. repeat (case_match; try done);
    match goal with Hn : negb (IsOn ?q c) = false |- _ => apply negb_false_iff in Hn end.
  - rewrite SetModerator_channel by done. case_if; [done|].
    apply room_of_same; [intros k; by rewrite IsOn_update|done].
  - rewrite SetMute_channel by done. case_if; [done|].
    apply room_of_same; [intros k; by rewrite IsOn_update|done].
Qed.

Lemma room_SetOwner_name `{UnorderedIter} cfg p newname c w :
  members_ok c -> room_of (SetOwner_name cfg p newname c w).1 = room_of c.
Proof.
  intros Hm. unfold SetOwner_name. cbv zeta. repeat (case_match; try done).
  match goal with Hn : negb (IsOn (p_GUID ?q) c) = false |- _ =>
    apply negb_false_iff in Hn; pose proof Hn as [pi Hpi]%IsOn_true;
    pose proof (proj2 (ok_entry _ Hm _ _ Hpi)) as Hq0 end.
  apply room_of_same; [intros k; by apply IsOn_SetOwner_good|by rewrite banned_SetOwner].
Qed.

Lemma room_Leave cfg p send c w :
  members_ok c -> IsOn p c = true ->
  room_of (Leave cfg p send c w).1 = mkRoom (inside (room_of c) ∖ {[p]}) (banned c).
Proof.
  intros Hm Hon. rewrite Leave_channel, Hon. cbn [negb]. cbv zeta.
  set (c1 := with_players (delete p (players c)) c).
  assert (room_of c1 = mkRoom (inside (room_of c) ∖ {[p]}) (banned c)) as E1
    by (unfold room_of; cbn; by rewrite dom_delete_L).
  case_if; [|done]. destruct (ordered_entries (players c1)) as [|[k first] l] eqn:Hl; [done|].
  apply ordered_entries_head in Hl as [Hk _].
  destruct (ok_entry _ (members_ok_delete p c Hm) _ _ Hk) as [-> Hk0].
  assert (IsOn k c1 = true) as Hkon by (apply IsOn_true; by exists first).
  rewrite <- E1. apply room_of_same; [|by rewrite banned_SetOwner].
  intros j. by apply IsOn_SetOwner_good.
Qed.

Lemma room_KickOrBan `{UnorderedIter} cfg good badname ban c w :
  members_ok c ->
  room_step (room_of c)
    (if throws_self_out good badname c w then Some (Return good ban)
     else (fun bad => (if ban then Outlaw else Expel) good (p_GUID bad))
          <$> kick_granted good badname c w)
    (room_of (KickOrBan cfg good badname ban c w).1).
Proof.
  intros Hm. pose proof (KickOrBan_effect cfg good badname ban c w Hm) as Hk. cbv zeta in Hk.
  unfold throws_self_out.
  destruct (kick_granted good badname c w) as [bad|] eqn:Hg; [|rewrite Hk; apply rs_stay].
  apply kick_granted_inv in Hg as (_ & Hgood & Hbad & _). destruct Hk as (Hon & Hb & _).
  destruct (hands_over (p_GUID bad) c && (p_GUID bad =? good)) eqn:Hself;
    rewrite (andb_comm (p_GUID bad =? good)), Hself.
  - apply andb_true_iff in Hself as [Hh E%Z.eqb_eq].
    replace (room_of (KickOrBan cfg good badname ban c w).1)
      with (mkRoom (inside (room_of c)) (if ban then {[good]} ∪ outlaws (room_of c) else outlaws (room_of c)));
      [apply rs_return; by apply elem_of_inside|].
    symmetry. apply room_of_eq; [|by rewrite Hb, E].
    intros k. rewrite Hon, Hh, E, elem_of_inside. destruct (Z.eqb_spec k good) as [->|]; cbn; tauto.
  - assert (room_of (KickOrBan cfg good badname ban c w).1
            = mkRoom (inside (room_of c) ∖ {[p_GUID bad]})
                (if ban then {[p_GUID bad]} ∪ banned c else banned c)) as ->.
    { apply room_of_eq; [|done]. intros k.
      rewrite Hon, elem_of_difference, elem_of_inside, elem_of_singleton.
      rewrite orb_true_iff, !andb_true_iff, negb_true_iff, Z.eqb_eq, Z.eqb_neq.
      apply andb_false_iff in Hself. rewrite Z.eqb_neq in Hself.
      split; [intros [[Hh ->]|[? ?]]; [|done]|intros [? ?]; by right].
      split; [done|]. destruct Hself as [Hf|Hf]; congruence. }
    apply elem_of_inside in Hgood, Hbad. cbn [fmap option_fmap option_map].
    destruct ban; [exact (rs_outlaw (room_of c) good (p_GUID bad) Hgood Hbad)
                  |exact (rs_expel (room_of c) good (p_GUID bad) Hgood Hbad)].
Qed.

Lemma room_UnBan `{UnorderedIter} good badname c w :
  room_step (room_of c) ((fun bad => Pardon good (p_GUID bad)) <$> pardon_granted good badname c w)
    (room_of (UnBan good badname c w).1).
Proof.
  unfold UnBan, pardon_granted. cbv zeta. destruct (IsOn good c) eqn:Hon; cbn [negb andb]; [|apply rs_stay].
  destruct (not_moderator _ _ _); cbn [negb]; [apply rs_stay|].
  destruct (FindPlayerByName badname w) as [bad|]; [|apply rs_stay].
  destruct (IsBanned (p_GUID bad) c) eqn:Hb; cbn [negb]; [|apply rs_stay].
  apply (rs_pardon (room_of c)); [by apply elem_of_inside|by apply IsBanned_true].
Qed.

(** C34. The requests implement the room: whatever a request does to a channel
    whose entries are in order ([members_ok], which by [channel_invariant] holds
    of every channel no owner has thrown himself out of with others inside), its
    members and its ban list make exactly the step the request means there -
    that player comes in, goes out, is thrown out, outlawed or pardoned - if its
    guards grant it, and stay as they are if they do not.  Joiners have GUIDs
    other than zero; an owner who throws himself out is put back in, and if it
    was a ban he is inside and on the ban list. *)
Theorem channel_refines_room `{UnorderedIter} cfg db_name r c w s :
  members_ok c -> (forall p pass, r = ReqJoin p pass -> p <> 0) ->
  handle cfg db_name r c w = Ok s ->
  room_step (room_of c) (room_act cfg r c w) (room_of s.1).
Proof.
  intros Hm Hj E. destruct r; cbn [handle room_act] in *; try (injection E as <-).
  - rewrite Join_channel. case_if; [|apply rs_stay].
    rewrite Join_admitted_enter by by eapply Hj.
    unfold admits in Heqb. rewrite !andb_true_iff, !negb_true_iff in Heqb.
    destruct Heqb as [[[Hon%IsOn_false Hb%IsBanned_false] _] _].
    replace (room_of (enter p c)) with (mkRoom ({[p]} ∪ inside (room_of c)) (outlaws (room_of c)))
      by (unfold room_of, enter; cbn; by rewrite dom_insert_L).
    apply rs_enter; [|done]. cbn. by apply not_elem_of_dom.
  - destruct (IsOn p c) eqn:Hon.
    + rewrite room_Leave by done. apply rs_depart. by apply elem_of_inside.
    + rewrite Leave_channel, Hon. apply rs_stay.
  - by apply (room_KickOrBan cfg good badname false).
  - by apply (room_KickOrBan cfg good badname true).
  - apply room_UnBan.
  - apply Password_channel in E as [->| ->]; apply rs_stay.
  - rewrite room_SetMode. apply rs_stay.
  - rewrite room_SetOwner_name by done. apply rs_stay.
  - unfold SendWhoOwner. case_match; apply rs_stay.
  - unfold Announce. cbv zeta. repeat case_match; apply rs_stay.
  - unfold ListMembers. cbv zeta. case_match; apply rs_stay.
  - unfold Say. cbv zeta. repeat case_match; apply rs_stay.
  - unfold Invite. cbv zeta. repeat case_match; apply rs_stay.
Qed.

Lemma channel_refines_room_witness :
  room_step (room_of lobby) (Some (Outlaw 7 9)) (room_of lobby_ban9)
  /\ inside (room_of lobby_ban9) = {[7; 12]}.
Proof.
  split; [|by vm_compute].
  assert (room_act plain_config (ReqBan 7 "Bob") lobby world3 = Some (Outlaw 7 9)) as <- by (by vm_compute).
  apply (channel_refines_room plain_config no_name (ReqBan 7 "Bob") lobby world3
           (Ban plain_config 7 "Bob" lobby world3)); [apply lobby_ok|done|reflexivity].
Defined.

(** The step the room takes when an owner bans himself with others inside: he
    stays, and is on the ban list. *)
Example self_ban_stays :
  room_act plain_config (ReqBan 7 "Ann") lobby world3 = Some (Return 7 true)
  /\ let c := (Ban plain_config 7 "Ann" lobby world3).1 in IsOn 7 c = true /\ 7 ∈ banned c.
Proof. split; [|split]; by vm_compute. Qed.
