(* ===== verification/ChannelMgr.v ===== *)
(** * Channel managers and channel requests

    [shade/Chat/ChannelMgr.h], [ChannelMgr.cpp]: the channels of each faction
    by name, with the channels themselves as objects in a store that requests
    allocate, dereference and delete; [shade/Handler/ChannelHandler.cpp]: the
    packets players send; and [Player::CleanupChannels].  Dereferencing a
    pointer to a deleted channel is [UB]. *)
From Stdlib Require Import Ascii String ZArith Lia.
From stdpp Require Import base gmap sets list strings sorting.
From S2P Require Import Prelude ByteBuffer Utf8 Util World Channel ChannelFacts.

Open Scope Z_scope.

Definition SMSG_CHANNEL_MEMBER_COUNT : Z := 0x3D5.

(** ** The managers and the store *)
Inductive MgrId := AllianceChannelMgr | HordeChannelMgr.
#[export] Instance MgrId_eq_dec : EqDecision MgrId.
Proof. solve_decision. Defined.

(** [ChannelMgr]: the map goes from the name in lower case to a pointer. *)
Record ChannelMgr := mkMgr { team : Z; channels : gmap (list Z) Z }.

Record ChatState := mkChat {
  alliance_mgr : ChannelMgr;
  horde_mgr : ChannelMgr;
  heap : gmap Z Channel
}.

Definition ChatState_new : ChatState := mkChat (mkMgr 0 ∅) (mkMgr 0 ∅) ∅.

Definition get_mgr (id : MgrId) (st : ChatState) : ChannelMgr :=
  match id with AllianceChannelMgr => alliance_mgr st | HordeChannelMgr => horde_mgr st end.
Definition set_mgr (id : MgrId) (m : ChannelMgr) (st : ChatState) : ChatState :=
  match id with
  | AllianceChannelMgr => mkChat m (horde_mgr st) (heap st)
  | HordeChannelMgr => mkChat (alliance_mgr st) m (heap st)
  end.
Definition set_team (t : Z) (m : ChannelMgr) : ChannelMgr := mkMgr t (channels m).
Definition set_channel_map (cs : gmap (list Z) Z) (m : ChannelMgr) : ChannelMgr := mkMgr (team m) cs.
Definition set_heap (h : gmap Z Channel) (st : ChatState) : ChatState :=
  mkChat (alliance_mgr st) (horde_mgr st) h.

(** A member function called through a pointer. *)
Definition deref {A} (ptr : Z) (st : ChatState) (k : Channel -> outcome A) : outcome A :=
  match heap st !! ptr with Some c => k c | None => UB end.
Definition call (ptr : Z) (f : Channel -> World -> outcome (Channel * World)) (st : ChatState)
    (w : World) : outcome (ChatState * World) :=
  deref ptr st (fun c => let* '(c, w) := f c w in Ok (set_heap (<[ptr := c]> (heap st)) st, w)).
(** One that always runs to its end. *)
Definition returns (f : Channel -> World -> Channel * World) (c : Channel) (w : World)
  : outcome (Channel * World) := Ok (f c w).

(** The key of a name.  A malformed name has the empty key. *)
Definition channel_key (name : string) : outcome (list Z) :=
  let* '(_, wname) := Utf8toWStr name in Ok (wstrToLower wname).

(** Parameters: the configuration, the names of offline characters, the client
    data and table the constructor reads, and the allocator, which returns an
    address that is not in use. *)
Section Managers.
Context `{UnorderedIter} (cfg : Config) (db_name : Z -> option string)
        (dbc : Z -> option Z) (db : string -> Z -> option ChannelRow) (alloc : gset Z -> Z).

Definition channelMgr (team : Z) : option MgrId :=
  if CONFIG_ALLOW_TWO_SIDE_INTERACTION_CHANNEL cfg then Some AllianceChannelMgr
  else if team =? ALLIANCE then Some AllianceChannelMgr
  else if team =? HORDE then Some HordeChannelMgr
  else None.

Definition GetJoinChannel (id : MgrId) (name : string) (channel_id : Z) (st : ChatState) (w : World)
  : outcome (Z * ChatState * World) :=
  let* wname := channel_key name in
  match channels (get_mgr id st) !! wname with
  | Some ptr => Ok (ptr, st, w)
  | None =>
      let ptr := alloc (dom (heap st)) in
      let '(nchan, w) := Channel_new cfg ptr dbc db name channel_id (team (get_mgr id st)) w in
      let st := set_heap (<[ptr := nchan]> (heap st)) st in
      let m := get_mgr id st in
      Ok (ptr, set_mgr id (set_channel_map (<[wname := ptr]> (channels m)) m) st, w)
  end.

Definition MakeNotOnPacket (name : string) : Packet :=
  mkPacket SMSG_CHANNEL_NOTIFY [U8 0x05; Str name].

Definition GetChannel (id : MgrId) (name : string) (p : Player) (pkt : bool) (st : ChatState)
    (w : World) : outcome (option Z * World) :=
  let* wname := channel_key name in
  match channels (get_mgr id st) !! wname with
  | None => Ok (None, if pkt then SendPacket p (MakeNotOnPacket name) w else w)
  | Some ptr => Ok (Some ptr, w)
  end.

(** [ChannelMgr::LeftChannel]: deletes the channel of that name when it is
    empty and not constant. *)
Definition Mgr_LeftChannel (id : MgrId) (name : string) (st : ChatState) : outcome ChatState :=
  let* wname := channel_key name in
  match channels (get_mgr id st) !! wname with
  | None => Ok st
  | Some ptr =>
      deref ptr st (fun channel =>
        if (GetNumPlayers channel =? 0) && negb (IsConstant channel) then
          let m := get_mgr id st in
          let st := set_mgr id (set_channel_map (delete wname (channels m)) m) st in
          Ok (set_heap (delete ptr (heap st)) st)
        else Ok st)
  end.

(** ** Leaving every channel *)

(** [Player::CleanupChannels] for the player with GUID [me]: a round for each
    entry of the player's list, which the rounds only shorten. *)
Fixpoint CleanupChannels_loop (fuel : nat) (me : Z) (st : ChatState) (w : World)
  : outcome (ChatState * World) :=
  match fuel with
  | O => Ok (st, w)
  | S fuel' =>
      match FindPlayer me w with
      | None => Ok (st, w)
      | Some p =>
          match p_channels p with
          | [] => Ok (st, w)
          | ch :: rest =>
              let w := update_player (set_channels rest) p w in
              let* '(st, w) := call ch (returns (Leave cfg me false)) st w in
              let* st :=
                match channelMgr (p_team p) with
                | Some id => deref ch st (fun c => Mgr_LeftChannel id (m_name c) st)
                | None => Ok st
                end in
              CleanupChannels_loop fuel' me st w
          end
      end
  end.
Definition CleanupChannels (me : Z) (st : ChatState) (w : World) : outcome (ChatState * World) :=
  match FindPlayer me w with
  | None => Ok (st, w)
  | Some p => CleanupChannels_loop (length (p_channels p)) me st w
  end.

(** ** The packets of a player

    Each handler reads its fields from the received packet; a packet that is
    too short throws, with nothing done. *)
Definition join_in (t : Z) (p : Player) (name pass : string) (channel_id : Z) (st : ChatState)
    (w : World) : outcome (ChatState * World) :=
  match channelMgr t with
  | None => Ok (st, w)
  | Some id =>
      let st := set_mgr id (set_team t (get_mgr id st)) st in
      let* '(ptr, st, w) := GetJoinChannel id name channel_id st w in
      call ptr (returns (Join cfg (p_GUID p) (c_str pass))) st w
  end.

Definition HandleJoinChannel (recv : ByteBuffer) (p : Player) (st : ChatState) (w : World)
  : outcome (ChatState * World) :=
  let* '(channel_id, recv) := read 4 recv in
  let* '(_, recv) := read 1 recv in
  let* '(_, recv) := read 1 recv in
  let* '(channelname, recv) := read_string recv in
  let* '(pass, recv) := read_string recv in
  (if String.eqb channelname EmptyString then Ok (st, w)
   else if IsVIPorPlayer (p_security p) then
     join_in (p_team p) p channelname pass channel_id st w
   else
     let* '(st, w) := join_in ALLIANCE p channelname pass channel_id st w in
     join_in HORDE p channelname pass channel_id st w).

Definition leave_in (t : Z) (p : Player) (name : string) (st : ChatState) (w : World)
  : outcome (ChatState * World) :=
  match channelMgr t with
  | None => Ok (st, w)
  | Some id =>
      let* '(chn, w) := GetChannel id name p true st w in
      let* '(st, w) :=
        match chn with
        | Some ptr => call ptr (returns (Leave cfg (p_GUID p) true)) st w
        | None => Ok (st, w)
        end in
      let* st := Mgr_LeftChannel id name st in
      Ok (st, w)
  end.

Definition HandleLeaveChannel (recv : ByteBuffer) (p : Player) (st : ChatState) (w : World)
  : outcome (ChatState * World) :=
  let* '(_, recv) := read 4 recv in
  let* '(channelname, recv) := read_string recv in
  (if String.eqb channelname EmptyString then Ok (st, w)
   else if IsVIPorPlayer (p_security p) then leave_in (p_team p) p channelname st w
   else
     let* '(st, w) := leave_in ALLIANCE p channelname st w in
     leave_in HORDE p channelname st w).

(** The common part of the others: look the channel up for the player's
    faction and pass the request on. *)
Definition on_channel (name : string) (r : Request) (p : Player) (st : ChatState) (w : World)
  : outcome (ChatState * World) :=
  match channelMgr (p_team p) with
  | None => Ok (st, w)
  | Some id =>
      let* '(chn, w) := GetChannel id name p true st w in
      match chn with
      | Some ptr => call ptr (handle cfg db_name r) st w
      | None => Ok (st, w)
      end
  end.

(** Reads a channel name and a player's name, which must be one. *)
Definition with_target (r : string -> Request) (recv : ByteBuffer) (p : Player) (st : ChatState)
    (w : World) : outcome (ChatState * World) :=
  let* '(channelname, recv) := read_string recv in
  let* '(otp, recv) := read_string recv in
  let* n := normalizePlayerName otp in
  match n with
  | None => Ok (st, w)
  | Some otp => on_channel channelname (r otp) p st w
  end.

Definition HandleChannelList (recv : ByteBuffer) (p : Player) (st : ChatState) (w : World) :=
  let* '(channelname, recv) := read_string recv in
  on_channel channelname (ReqList p) p st w.

Definition HandleChannelPassword (recv : ByteBuffer) (p : Player) (st : ChatState) (w : World) :=
  let* '(channelname, recv) := read_string recv in
  let* '(pass, recv) := read_string recv in
  match channelMgr (p_team p) with
  | None => Ok (st, w)
  | Some id =>
      let* '(chn, w) := GetChannel id channelname p true st w in
      match chn with
      | Some ptr =>
          if String.eqb (c_str channelname) "World" || String.eqb (c_str channelname) "world"
          then call ptr (handle cfg db_name (ReqPassword (p_GUID p) (c_str pass))) st w
          else Ok (st, w)
      | None => Ok (st, w)
      end
  end.

Definition HandleChannelSetOwner (recv : ByteBuffer) (p : Player) (st : ChatState) (w : World) :=
  with_target (ReqOwner (p_GUID p)) recv p st w.
Definition HandleChannelOwner (recv : ByteBuffer) (p : Player) (st : ChatState) (w : World) :=
  let* '(channelname, recv) := read_string recv in
  on_channel channelname (ReqWhoOwner (p_GUID p)) p st w.
Definition HandleChannelModerator (recv : ByteBuffer) (p : Player) (st : ChatState) (w : World) :=
  with_target (fun otp => ReqMode (p_GUID p) otp true true) recv p st w.
Definition HandleChannelUnmoderator (recv : ByteBuffer) (p : Player) (st : ChatState) (w : World) :=
  with_target (fun otp => ReqMode (p_GUID p) otp true false) recv p st w.
Definition HandleChannelMute (recv : ByteBuffer) (p : Player) (st : ChatState) (w : World) :=
  with_target (fun otp => ReqMode (p_GUID p) otp false true) recv p st w.
Definition HandleChannelUnmute (recv : ByteBuffer) (p : Player) (st : ChatState) (w : World) :=
  with_target (fun otp => ReqMode (p_GUID p) otp false false) recv p st w.
Definition HandleChannelInvite (recv : ByteBuffer) (p : Player) (st : ChatState) (w : World) :=
  with_target (ReqInvite (p_GUID p)) recv p st w.
Definition HandleChannelKick (recv : ByteBuffer) (p : Player) (st : ChatState) (w : World) :=
  with_target (ReqKick (p_GUID p)) recv p st w.
Definition HandleChannelBan (recv : ByteBuffer) (p : Player) (st : ChatState) (w : World) :=
  with_target (ReqBan (p_GUID p)) recv p st w.
Definition HandleChannelUnban (recv : ByteBuffer) (p : Player) (st : ChatState) (w : World) :=
  with_target (ReqUnBan (p_GUID p)) recv p st w.
Definition HandleChannelAnnouncements (recv : ByteBuffer) (p : Player) (st : ChatState) (w : World) :=
  let* '(channelname, recv) := read_string recv in
  on_channel channelname (ReqAnnounce (p_GUID p)) p st w.
Definition HandleChannelDisplayListQuery (recv : ByteBuffer) (p : Player) (st : ChatState) (w : World) :=
  HandleChannelList recv p st w.

(** The two handlers that look at a channel without a request of its own. *)
Definition HandleGetChannelMemberCount (recv : ByteBuffer) (p : Player) (st : ChatState) (w : World)
  : outcome (ChatState * World) :=
  let* '(channelname, recv) := read_string recv in
  match channelMgr (p_team p) with
  | None => Ok (st, w)
  | Some id =>
      let* '(chn, w) := GetChannel id channelname p true st w in
      match chn with
      | Some ptr =>
          deref ptr st (fun c =>
            Ok (st, SendPacket p (mkPacket SMSG_CHANNEL_MEMBER_COUNT
                      [Str (m_name c); U8 (m_flags c); U32 (GetNumPlayers c)]) w))
      | None => Ok (st, w)
      end
  end.

Definition HandleSetChannelWatch (recv : ByteBuffer) (p : Player) (st : ChatState) (w : World)
  : outcome (ChatState * World) :=
  let* '(channelname, recv) := read_string recv in
  match channelMgr (p_team p) with
  | None => Ok (st, w)
  | Some id =>
      let* '(chn, w) := GetChannel id channelname p true st w in
      match chn with
      | Some ptr => deref ptr st (fun c => Ok (st, JoinNotify (p_GUID p) c w))
      | None => Ok (st, w)
      end
  end.
End Managers.

(** * Lemmas *)

(** ** What a request does to the players *)
Lemma SendToOne_players d p w : m_PlayerMap (SendToOne d p w) = m_PlayerMap w.
Proof. by rewrite SendToOne_emits. Qed.
Lemma SendToAll_players d p c w : m_PlayerMap (SendToAll d p c w) = m_PlayerMap w.
Proof. by rewrite SendToAll_emits. Qed.
Lemma SendToAllButOne_players d p c w : m_PlayerMap (SendToAllButOne d p c w) = m_PlayerMap w.
Proof. by destruct (SendToAllButOne_emits d p c w) as [es ->]. Qed.
Lemma JoinNotify_players p c w : m_PlayerMap (JoinNotify p c w) = m_PlayerMap w.
Proof. unfold JoinNotify. cbv zeta. case_if; [apply SendToAllButOne_players|apply SendToAll_players]. Qed.
Lemma LeaveNotify_players p c w : m_PlayerMap (LeaveNotify p c w) = m_PlayerMap w.
Proof. unfold LeaveNotify. cbv zeta. case_if; [apply SendToAllButOne_players|apply SendToAll_players]. Qed.
Lemma UpdateChannelInDB_players c w : m_PlayerMap (UpdateChannelInDB c w) = m_PlayerMap w.
Proof. unfold UpdateChannelInDB. by case_if. Qed.
Create Rewrite HintDb players.
#[export] Hint Rewrite SendToOne_players SendToAll_players SendToAllButOne_players
  JoinNotify_players LeaveNotify_players UpdateChannelInDB_players : players.

Lemma SetOwner_players g e c w : m_PlayerMap (SetOwner g e c w).2 = m_PlayerMap w.
Proof.
  unfold SetOwner. cbv zeta. repeat case_match; cbn [snd]; by autorewrite with players.
Qed.
Lemma SetModerator_players p s c w : m_PlayerMap (SetModerator p s c w).2 = m_PlayerMap w.
Proof. unfold SetModerator. cbv zeta. case_if; cbn [snd]; by autorewrite with players. Qed.
Lemma SetMute_players p s c w : m_PlayerMap (SetMute p s c w).2 = m_PlayerMap w.
Proof. unfold SetMute. cbv zeta. case_if; cbn [snd]; by autorewrite with players. Qed.
#[export] Hint Rewrite SetOwner_players SetModerator_players SetMute_players : players.

Lemma Join_admitted_players cfg p pl c w :
  m_PlayerMap (Join_admitted cfg p pl c w).2 = m_PlayerMap w.
Proof.
  unfold Join_admitted, UpdateChannelUseageInDB. cbv zeta.
  destruct (IsConstant _); cbn [negb snd];
    [|destruct (_ && m_ownership _); [rewrite (surjective_pairing (SetOwner _ _ _ _)); cbn [snd]
                                     |cbn [snd]]];
    repeat (case_if || autorewrite with players); done.
Qed.

(** The list of channels is touched by joining, leaving with notice, and being
    kicked; by nothing else. *)
Lemma Join_players cfg p pass c w :
  world_ok w ->
  m_PlayerMap (Join cfg p pass c w).2
  = if admits cfg p pass c w then alter (World.JoinedChannel (ch_this c)) p (m_PlayerMap w)
    else m_PlayerMap w.
Proof.
  intros Hw. unfold Join, admits, IsLFG. rewrite password_set.
  destruct (IsOn p c); cbn [negb andb]; [case_if; cbn [snd]; by autorewrite with players|].
  destruct (IsBanned p c); cbn [negb andb snd]; [by autorewrite with players|].
  destruct (String.eqb (m_password c) ""); cbn [negb andb orb].
  2: destruct (String.eqb (c_str pass) _); cbn [negb andb orb snd]; [|by autorewrite with players].
  all: destruct (FindPlayer p w) as [pl|] eqn:Hf; cbv zeta.
  all: try (rewrite Join_admitted_players, bool_decide_eq_true_2 by done; cbn [orb]; symmetry;
            apply alter_id; intros q Hq; unfold FindPlayer in Hf; by rewrite Hf in Hq).
  all: rewrite bool_decide_eq_false_2 by done; cbn [orb];
    destruct (HasFlag CHANNEL_FLAG_LFG c && _); cbn [negb snd]; [done|];
    rewrite Join_admitted_players; unfold update_player; cbn; by rewrite (FindPlayer_guid _ _ _ Hw Hf).
Qed.

Lemma Leave_players cfg p send c w :
  world_ok w ->
  m_PlayerMap (Leave cfg p send c w).2
  = if IsOn p c && send then alter (World.LeftChannel (ch_this c)) p (m_PlayerMap w)
    else m_PlayerMap w.
Proof.
  intros Hw. unfold Leave, UpdateChannelUseageInDB.
  destruct (IsOn p c); cbn [negb andb]; [|case_if; cbn [snd]; by autorewrite with players].
  cbv zeta. set (w1 := if send then _ else w).
  assert (m_PlayerMap w1 = if send then alter (World.LeftChannel (ch_this c)) p (m_PlayerMap w)
                           else m_PlayerMap w) as <-.
  { subst w1. destruct send; [|done]. destruct (FindPlayer p w) as [pl|] eqn:Hf.
    - unfold update_player. cbn. rewrite (FindPlayer_guid _ _ _ Hw Hf). by autorewrite with players.
    - autorewrite with players. symmetry. apply alter_id. intros q Hq. unfold FindPlayer in Hf.
      by rewrite Hf in Hq. }
  clearbody w1. repeat case_match; cbn [snd]; by autorewrite with players.
Qed.

Lemma KickOrBan_players `{UnorderedIter} cfg good badname ban c w :
  m_PlayerMap (KickOrBan cfg good badname ban c w).2
  = match kick_granted good badname c w with
    | Some bad => alter (World.LeftChannel (ch_this c)) (p_GUID bad) (m_PlayerMap w)
    | None => m_PlayerMap w
    end.
Proof.
  unfold KickOrBan, kick_granted. cbv zeta.
  destruct (IsOn good c); cbn [negb orb snd]; [|by autorewrite with players].
  destruct (not_moderator _ _ _); cbn [negb orb snd]; [by autorewrite with players|].
  destruct (FindPlayerByName badname w) as [bad|]; [|cbn [snd]; by autorewrite with players].
  destruct (IsOn (p_GUID bad) c); cbn [negb orb]; [|cbn [snd]; by autorewrite with players].
  case_if; [cbn [snd]; by autorewrite with players|].
  destruct (ban && negb (IsBanned (p_GUID bad) c));
    (destruct (_ && negb (bool_decide (players _ = ∅))); [rewrite SetOwner_players|cbn [snd]]);
    unfold update_player; cbn; case_if; by autorewrite with players.
Qed.

(** ** What a request keeps of a channel *)
Definition same_object (c c' : Channel) : Prop := ch_this c' = ch_this c /\ m_name c' = m_name c.

Lemma same_object_SetOwner g e c c' w : same_object c c' -> same_object c (SetOwner g e c' w).1.
Proof. intros [? ?]. unfold SetOwner. cbv zeta. by repeat case_match. Qed.

Lemma handle_same_object `{UnorderedIter} cfg db_name r c w s :
  handle cfg db_name r c w = Ok s -> same_object c s.1.
Proof.
  destruct r; cbn [handle]; intros E; try (injection E as <-).
  - rewrite Join_channel. case_if; [|done]. rewrite Join_admitted_channel. cbv zeta. case_if; [|done].
    change (same_object c (SetOwner p (1 <? Z.of_nat (size (<[p := mkPI p MEMBER_FLAG_NONE]> (players c))))
      (with_players (<[p := mkPI p MEMBER_FLAG_NONE]> (players c)) c) w).1).
    by apply same_object_SetOwner.
  - rewrite Leave_channel. case_if; [done|]. cbv zeta. case_if; [|done]. case_match; [done|].
    case_match. by apply same_object_SetOwner.
  - unfold Kick. rewrite KickOrBan_channel. case_match; [|done]. cbv zeta. unfold expel.
    repeat case_if; try done; by apply same_object_SetOwner.
  - unfold Ban. rewrite KickOrBan_channel. case_match; [|done]. cbv zeta. unfold expel.
    repeat case_if; try done; by apply same_object_SetOwner.
  - unfold UnBan. cbv zeta. by repeat case_match.
  - by apply Password_channel in E as [->| ->].
  - unfold SetMode, SetModerator, SetMute. cbv zeta. by repeat case_match.
  - unfold SetOwner_name. cbv zeta. repeat case_match; try done. by apply same_object_SetOwner.
  - unfold SendWhoOwner. by case_match.
  - unfold Announce. cbv zeta. by repeat case_match.
  - unfold ListMembers. cbv zeta. by case_match.
  - unfold Say. cbv zeta. by repeat case_match.
  - unfold Invite. cbv zeta. by repeat case_match.
Qed.

Lemma IsOn_update_mono f p k c : IsOn k c = true -> IsOn k (update_at f p c) = true.
Proof.
  intros [pi Hk]%IsOn_true. apply IsOn_true. rewrite lookup_update_at.
  case_decide; [by eexists|by exists pi].
Qed.

Lemma IsOn_make_owner_mono g c k : IsOn k c = true -> IsOn k (make_owner g c) = true.
Proof.
  intros [pi Hk]%IsOn_true. apply IsOn_true. rewrite lookup_make_owner, lookup_drop_owner.
  case_decide; [by eexists|]. case_decide; [|by exists pi]. rewrite Hk. by eexists.
Qed.

Lemma IsOn_SetOwner_mono g e c w k : IsOn k c = true -> IsOn k (SetOwner g e c w).1 = true.
Proof.
  intros Hk. destruct (decide (g = 0)) as [->|Hg].
  - unfold SetOwner. cbv zeta. fold (drop_owner c). cbn. change (IsOn k (drop_owner c) = true).
    apply IsOn_true in Hk as [pi Hk]. apply IsOn_true. rewrite lookup_drop_owner, Hk.
    case_decide; by eexists.
  - rewrite SetOwner_channel by done. by apply IsOn_make_owner_mono.
Qed.

(** Who can be out of the channel after a request that was in before: the one
    leaving, or the one kicked. *)
Definition put_out `{UnorderedIter} (r : Request) (c : Channel) (w : World) : option Z :=
  match r with
  | ReqLeave p _ => Some p
  | ReqKick good badname | ReqBan good badname => p_GUID <$> kick_granted good badname c w
  | _ => None
  end.

Lemma handle_stays `{UnorderedIter} cfg db_name r c w k s :
  IsOn k c = true -> put_out r c w <> Some k -> handle cfg db_name r c w = Ok s -> IsOn k s.1 = true.
Proof.
  intros Hk Hout E. destruct r; cbn [handle put_out] in *; try (injection E as <-).
  - rewrite Join_channel. case_if; [|done]. rewrite Join_admitted_channel. cbv zeta.
    assert (IsOn k (with_players (<[p := mkPI p MEMBER_FLAG_NONE]> (players c)) c) = true) as Hk1.
    { apply IsOn_true in Hk as [pi Hk]. apply IsOn_true. cbn.
      destruct (decide (p = k)) as [->|]; [eexists; apply lookup_insert_eq|].
      exists pi. by rewrite lookup_insert_ne. }
    case_if; [|done]. by apply IsOn_update_mono, IsOn_SetOwner_mono.
  - rewrite Leave_channel. case_if; [done|]. cbv zeta.
    assert (IsOn k (with_players (delete p (players c)) c) = true) as Hk1.
    { apply IsOn_true in Hk as [pi Hk]. apply IsOn_true. exists pi. cbn.
      rewrite lookup_delete_ne; [done|]. congruence. }
    case_if; [|done]. case_match; [done|]. case_match.
    by apply IsOn_SetOwner_mono, IsOn_update_mono.
  - unfold Kick. rewrite KickOrBan_channel.
    destruct (kick_granted good badname c w) as [bad|]; [|done]. cbv zeta. cbn in Hout.
    assert (IsOn k (expel (p_GUID bad) false c) = true) as Hk1.
    { rewrite IsOn_expel, Hk, andb_true_r. apply negb_true_iff, Z.eqb_neq. congruence. }
    case_if; [|done]. by apply IsOn_SetOwner_mono, IsOn_update_mono.
  - unfold Ban. rewrite KickOrBan_channel.
    destruct (kick_granted good badname c w) as [bad|]; [|done]. cbv zeta. cbn in Hout.
    assert (IsOn k (expel (p_GUID bad) true c) = true) as Hk1.
    { rewrite IsOn_expel, Hk, andb_true_r. apply negb_true_iff, Z.eqb_neq. congruence. }
    case_if; [|done]. by apply IsOn_SetOwner_mono, IsOn_update_mono.
  - destruct (UnBan_channel good badname c w) as [->|(bad & _ & ->)]; done.
  - by apply Password_channel in E as [->| ->].
  - unfold SetMode, SetModerator, SetMute. cbv zeta.
    assert (forall q, IsOn k (touch q c) = true) as Ht
      by (intros q; by apply (IsOn_update_mono (fun pi => pi))).
    repeat case_match; try done; cbn [fst]; by repeat apply IsOn_update_mono.
  - unfold SetOwner_name. cbv zeta. repeat case_match; try done.
    by apply IsOn_SetOwner_mono, IsOn_update_mono.
  - unfold SendWhoOwner. by case_match.
  - unfold Announce. cbv zeta. by repeat case_match.
  - unfold ListMembers. cbv zeta. by case_match.
  - unfold Say. cbv zeta. by repeat case_match.
  - unfold Invite. cbv zeta. by repeat case_match.
Qed.

Lemma handle_players `{UnorderedIter} cfg db_name r c w s :
  world_ok w -> handle cfg db_name r c w = Ok s ->
  m_PlayerMap s.2
  = match r with
    | ReqJoin p pass =>
        if admits cfg p pass c w then alter (World.JoinedChannel (ch_this c)) p (m_PlayerMap w)
        else m_PlayerMap w
    | ReqLeave p send =>
        if IsOn p c && send then alter (World.LeftChannel (ch_this c)) p (m_PlayerMap w)
        else m_PlayerMap w
    | ReqKick good badname | ReqBan good badname =>
        match kick_granted good badname c w with
        | Some bad => alter (World.LeftChannel (ch_this c)) (p_GUID bad) (m_PlayerMap w)
        | None => m_PlayerMap w
        end
    | _ => m_PlayerMap w
    end.
Proof.
  intros Hw E. destruct r; cbn [handle] in E; try (injection E as <-).
  - by apply Join_players.
  - by apply Leave_players.
  - apply KickOrBan_players.
  - apply KickOrBan_players.
  - unfold UnBan. cbv zeta. repeat case_match; cbn [snd]; by autorewrite with players.
  - unfold Password in E. cbv zeta in E. repeat case_match; try done; injection E as <-; cbn [snd];
      by autorewrite with players.
  - unfold SetMode. cbv zeta. repeat case_match; cbn [snd]; by autorewrite with players.
  - unfold SetOwner_name. cbv zeta. repeat case_match; cbn [snd]; by autorewrite with players.
  - unfold SendWhoOwner. case_match; cbn [snd]; by autorewrite with players.
  - unfold Announce. cbv zeta. repeat case_match; cbn [snd]; by autorewrite with players.
  - unfold ListMembers. cbv zeta. case_match; cbn [snd]; by autorewrite with players.
  - unfold Say. cbv zeta. repeat case_match; cbn [snd]; by autorewrite with players.
  - unfold Invite. cbv zeta. repeat case_match; cbn [snd]; by autorewrite with players.
Qed.

(** ** The invariant of the store

    Managers and players' lists point to live channels; a player is on every
    channel of his list, which names none twice; no channel is filed twice. *)
Record chat_ok (st : ChatState) (w : World) : Prop := {
  co_world : world_ok w;
  co_this : forall a c, heap st !! a = Some c -> ch_this c = a;
  co_named : forall a c, heap st !! a = Some c -> exists k, channel_key (m_name c) = Ok k;
  co_live : forall id k a, channels (get_mgr id st) !! k = Some a -> is_Some (heap st !! a);
  co_once : forall id1 k1 id2 k2 a, channels (get_mgr id1 st) !! k1 = Some a ->
    channels (get_mgr id2 st) !! k2 = Some a -> id1 = id2 /\ k1 = k2;
  co_nodup : forall g p, m_PlayerMap w !! g = Some p -> NoDup (p_channels p);
  co_on : forall g p a, m_PlayerMap w !! g = Some p -> a ∈ p_channels p ->
    exists c, heap st !! a = Some c /\ IsOn g c = true
}.

(** Fewer members in each channel than [GetNumPlayers] can count. *)
Definition countable (st : ChatState) : Prop :=
  forall a c, heap st !! a = Some c -> Z.of_nat (size (players c)) < 2 ^ 32.

Lemma get_set_mgr id id' m st :
  get_mgr id (set_mgr id' m st) = if decide (id' = id) then m else get_mgr id st.
Proof. by destruct id, id'. Qed.
Lemma heap_set_mgr id m st : heap (set_mgr id m st) = heap st.
Proof. by destruct id. Qed.
Lemma get_set_heap id h st : get_mgr id (set_heap h st) = get_mgr id st.
Proof. by destruct id. Qed.

(** What each request leaves in the players' lists. *)
Lemma LeftChannel_in a b p : a ∈ p_channels (World.LeftChannel b p) <-> a ∈ p_channels p /\ a <> b.
Proof.
  unfold World.LeftChannel. cbn. rewrite list_elem_of_In, filter_In, <- list_elem_of_In.
  by rewrite negb_true_iff, Z.eqb_neq.
Qed.
Lemma LeftChannel_nodup b p : NoDup (p_channels p) -> NoDup (p_channels (World.LeftChannel b p)).
Proof. intros H. unfold World.LeftChannel. cbn. apply NoDup_ListNoDup, List.NoDup_filter. by apply NoDup_ListNoDup. Qed.

Lemma Join_enters cfg p pass c w :
  admits cfg p pass c w = true -> IsOn p (Join cfg p pass c w).1 = true.
Proof.
  intros Ha. rewrite Join_channel, Ha, Join_admitted_channel. cbv zeta.
  assert (IsOn p (with_players (<[p := mkPI p MEMBER_FLAG_NONE]> (players c)) c) = true)
    by (apply IsOn_true; eexists; apply lookup_insert_eq).
  case_if; [|done]. by apply IsOn_update_mono, IsOn_SetOwner_mono.
Qed.

(** A change of the players' lists that a request to the channel [ptr], now
    [c'], may make: each list loses some entries or gains [ptr], nobody gains
    it twice, and who has it is on the channel. *)
Definition lists_follow (ptr : Z) (c' : Channel) (w w' : World) : Prop :=
  forall g p', m_PlayerMap w' !! g = Some p' ->
    exists p, m_PlayerMap w !! g = Some p /\ p_GUID p' = p_GUID p
      /\ (NoDup (p_channels p) -> NoDup (p_channels p'))
      /\ (forall a, a ∈ p_channels p' -> a <> ptr -> a ∈ p_channels p)
      /\ (ptr ∈ p_channels p' -> IsOn g c' = true).

Lemma chat_ok_call ptr c c' st w w' :
  chat_ok st w -> heap st !! ptr = Some c -> same_object c c' -> lists_follow ptr c' w w' ->
  chat_ok (set_heap (<[ptr := c']> (heap st)) st) w'.
Proof.
  intros [Hw Ht Hn Hl Ho Hd Hon] Hc [Hs1 Hs2] Hf.
  split; cbn [heap set_heap].
  - intros g p' Hp'. destruct (Hf g p' Hp') as (p & Hp & Hg & _). rewrite Hg. by apply Hw.
  - intros a d. rewrite lookup_insert_Some. intros [[<- <-]|[? ?]]; [|by apply Ht].
    rewrite Hs1. by apply Ht.
  - intros a d. rewrite lookup_insert_Some. intros [[<- <-]|[? ?]]; [|by eapply Hn].
    rewrite Hs2. by eapply Hn.
  - intros id k a Ha. rewrite get_set_heap in Ha. destruct (decide (ptr = a)) as [<-|].
    + rewrite lookup_insert_eq. by eexists.
    + rewrite lookup_insert_ne by done. by eapply Hl.
  - intros id1 k1 id2 k2 a. rewrite !get_set_heap. apply Ho.
  - intros g p' Hp'. destruct (Hf g p' Hp') as (p & Hp & _ & Hnd & _). by apply Hnd, (Hd g).
  - intros g p' a Hp' Ha. destruct (Hf g p' Hp') as (p & Hp & _ & _ & Hin & Hptr).
    destruct (decide (a = ptr)) as [->|Hne].
    + exists c'. rewrite lookup_insert_eq. auto.
    + rewrite lookup_insert_ne by done. eapply Hon; eauto.
Qed.

Lemma lists_follow_handle `{UnorderedIter} cfg db_name r ptr c st w s :
  chat_ok st w -> heap st !! ptr = Some c -> handle cfg db_name r c w = Ok s ->
  (forall p pl, r = ReqLeave p false -> m_PlayerMap w !! p = Some pl -> ptr ∉ p_channels pl) ->
  lists_follow ptr s.1 w s.2.
Proof.
  intros [Hw Ht _ _ _ Hd Hon] Hc E Hleave g p'.
  assert (forall p, m_PlayerMap w !! g = Some p -> ptr ∈ p_channels p -> put_out r c w <> Some g ->
            IsOn g s.1 = true) as Hstay.
  { intros p Hp Hin Hout. apply (handle_stays cfg db_name r c w g s); [|done|exact E].
    destruct (Hon g p ptr Hp Hin) as (c0 & Hc0 & ?). congruence. }
  rewrite (handle_players _ _ _ _ _ _ Hw E).
  assert (forall p0, put_out r c w = Some p0 ->
    alter (World.LeftChannel (ch_this c)) p0 (m_PlayerMap w) !! g = Some p' ->
    exists p, m_PlayerMap w !! g = Some p /\ p_GUID p' = p_GUID p
      /\ (NoDup (p_channels p) -> NoDup (p_channels p'))
      /\ (forall a, a ∈ p_channels p' -> a <> ptr -> a ∈ p_channels p)
      /\ (ptr ∈ p_channels p' -> IsOn g s.1 = true)) as Hout.
  { intros p0 Hp0 Hp'. destruct (decide (p0 = g)) as [->|Hne].
    - rewrite lookup_alter_eq in Hp'. apply fmap_Some in Hp' as (p & Hp & ->).
      exists p. do 2 (split; [done|]). split; [apply LeftChannel_nodup|].
      split; [by intros a [? ?]%LeftChannel_in|].
      rewrite (Ht _ _ Hc). by intros [_ ?]%LeftChannel_in.
    - rewrite lookup_alter_ne in Hp' by done. exists p'. do 4 (split; [done|]).
      intros Hin. apply (Hstay p'); [done..|]. congruence. }
  assert (forall p0, put_out r c w = None \/ put_out r c w = Some p0 /\ ~ (ptr ∈ (from_option p_channels [] (m_PlayerMap w !! p0))) ->
    m_PlayerMap w !! g = Some p' ->
    exists p, m_PlayerMap w !! g = Some p /\ p_GUID p' = p_GUID p
      /\ (NoDup (p_channels p) -> NoDup (p_channels p'))
      /\ (forall a, a ∈ p_channels p' -> a <> ptr -> a ∈ p_channels p)
      /\ (ptr ∈ p_channels p' -> IsOn g s.1 = true)) as Hsame.
  { intros p0 Hp0 Hp'. exists p'. do 4 (split; [done|]). intros Hin. apply (Hstay p'); [done..|].
    destruct Hp0 as [->|[-> Hnot]]; [done|]. intros [= ->]. rewrite Hp' in Hnot. done. }
  destruct r; try (apply (Hsame 0); by left); cbn [put_out] in *.
  - destruct (admits cfg p pass c w) eqn:Ha; [|apply (Hsame 0); by left].
    destruct (decide (p = g)) as [->|Hne].
    + rewrite lookup_alter_eq. intros (q & Hq & ->)%fmap_Some. exists q. do 2 (split; [done|]).
      unfold World.JoinedChannel. cbn [p_channels set_channels]. rewrite (Ht _ _ Hc).
      split; [|split].
      * intros Hnd. apply NoDup_app. split; [done|]. split; [|apply NoDup_singleton].
        intros a Hin Heq. apply list_elem_of_singleton in Heq as ->.
        destruct (Hon g q ptr Hq Hin) as (c0 & Hc0 & Hon0). simplify_eq.
        unfold admits in Ha. by rewrite Hon0 in Ha.
      * intros a [?|Heq]%elem_of_app Hne; [done|]. by apply list_elem_of_singleton in Heq.
      * intros _. cbn in E. injection E as <-. by apply Join_enters.
    + rewrite lookup_alter_ne by done. apply (Hsame 0). by left.
  - destruct (IsOn p c) eqn:Hp; cbn [andb].
    + destruct send; [by apply Hout|]. apply (Hsame p). right. split; [done|].
      destruct (m_PlayerMap w !! p) as [q|] eqn:Hq; [|apply not_elem_of_nil].
      cbn. by apply (Hleave p).
    + apply (Hsame p). right. split; [done|].
      destruct (m_PlayerMap w !! p) as [q|] eqn:Hq; [|apply not_elem_of_nil].
      cbn. intros Hin. destruct (Hon p q ptr Hq Hin) as (c0 & Hc0 & Hon0). congruence.
  - destruct (kick_granted good badname c w) as [bad|]; [by apply Hout|apply (Hsame 0); by left].
  - destruct (kick_granted good badname c w) as [bad|]; [by apply Hout|apply (Hsame 0); by left].
Qed.

Lemma chat_ok_players st w w' : m_PlayerMap w' = m_PlayerMap w -> chat_ok st w -> chat_ok st w'.
Proof.
  intros E [Hw Ht Hn Hl Ho Hd Hon]. unfold world_ok in Hw.
  split; try done; unfold world_ok; by rewrite E.
Qed.

Lemma chat_ok_team id t st w :
  chat_ok st w -> chat_ok (set_mgr id (set_team t (get_mgr id st)) st) w.
Proof.
  intros [Hw Ht Hn Hl Ho Hd Hon].
  assert (forall id', channels (get_mgr id' (set_mgr id (set_team t (get_mgr id st)) st))
                      = channels (get_mgr id' st)) as E.
  { intros id'. rewrite get_set_mgr. case_decide; by subst. }
  split; try done; rewrite ?heap_set_mgr; try done.
  - intros id' k a. rewrite E. apply Hl.
  - intros id1 k1 id2 k2 a. rewrite !E. apply Ho.
Qed.

(** Leaving never makes a channel larger. *)
Lemma drop_owner_dom c : dom (players (drop_owner c)) = dom (players c).
Proof.
  apply set_eq. intros k. rewrite !elem_of_dom, lookup_drop_owner. case_decide; [|done].
  apply fmap_is_Some.
Qed.

Lemma SetOwner_dom g e c w : dom (players (SetOwner g e c w).1) ⊆ {[g]} ∪ dom (players c).
Proof.
  intros k. rewrite elem_of_union, elem_of_singleton. destruct (decide (k = g)) as [->|Hne]; [by left|].
  intros Hk. right. apply elem_of_dom in Hk. unfold SetOwner in Hk. cbv zeta in Hk.
  fold (drop_owner c) in Hk. rewrite <- drop_owner_dom. apply elem_of_dom.
  destruct (negb (m_ownerGUID (with_owner g (drop_owner c)) =? 0)); [|exact Hk].
  cbn [fst m_ownerGUID with_owner] in Hk. cbn in Hk. by rewrite !lookup_insert_ne in Hk by done.
Qed.

Lemma Leave_size cfg p send c w :
  (size (players (Leave cfg p send c w).1) <= size (players c))%nat.
Proof.
  rewrite Leave_channel. destruct (IsOn p c) eqn:Hp; cbn [negb]; [|done]. cbv zeta.
  apply IsOn_true in Hp as [pi Hp].
  assert (S (size (delete p (players c))) = size (players c)) as Hs.
  { pose proof (map_size_insert_None p pi (delete p (players c)) (lookup_delete_eq _ _)) as E.
    by rewrite insert_delete_id in E. }
  case_if; [|cbn; lia]. case_match; [cbn; lia|]. case_match.
  match goal with |- context [SetOwner ?g ?e ?c1 ?w1] => pose proof (SetOwner_dom g e c1 w1) as Hd end.
  apply subseteq_size in Hd. rewrite !size_dom in Hd. etransitivity; [exact Hd|].
  cbn [players update_at with_players]. rewrite dom_insert_L.
  match goal with |- (size ({[?g]} ∪ ({[?g]} ∪ ?X)) <= _)%nat =>
    replace ({[g]} ∪ ({[g]} ∪ X)) with ({[g]} ∪ X) by set_solver end.
  rewrite <- Hs. rewrite <- size_dom.
  match goal with |- (size (?A ∪ ?B) <= _)%nat => pose proof (size_union_alt A B) as Hu end.
  rewrite size_singleton in Hu. rewrite Hu.
  assert (size (dom (delete p (players c)) ∖ {[pi_player p1]}) <= size (dom (delete p (players c))))%nat
    by (apply subseteq_size; set_solver). lia.
Qed.

Section Safety.
Context `{UnorderedIter} (cfg : Config) (db_name : Z -> option string)
        (dbc : Z -> option Z) (db : string -> Z -> option ChannelRow) (alloc : gset Z -> Z).
(** The allocator's contract. *)
Context (alloc_fresh : forall s, alloc s ∉ s).

(** A request through a live pointer. *)
Lemma call_ok r ptr c st w :
  chat_ok st w -> heap st !! ptr = Some c -> asker_there r w ->
  (forall p pl, r = ReqLeave p false -> m_PlayerMap w !! p = Some pl -> ptr ∉ p_channels pl) ->
  exists s, handle cfg db_name r c w = Ok s
    /\ call ptr (handle cfg db_name r) st w = Ok (set_heap (<[ptr := s.1]> (heap st)) st, s.2)
    /\ chat_ok (set_heap (<[ptr := s.1]> (heap st)) st) s.2.
Proof.
  intros Hok Hc Ha Hr. destruct (handle_defined cfg db_name r c w Ha) as [s E].
  exists s. split; [done|]. split.
  - unfold call, deref. rewrite Hc, E. by destruct s.
  - eapply chat_ok_call; [done..| |]; [by eapply handle_same_object|by eapply lists_follow_handle].
Qed.

Lemma Channel_new_frame ptr name channel_id t w :
  m_PlayerMap (Channel_new cfg ptr dbc db name channel_id t w).2 = m_PlayerMap w
  /\ ch_this (Channel_new cfg ptr dbc db name channel_id t w).1 = ptr
  /\ m_name (Channel_new cfg ptr dbc db name channel_id t w).1 = name.
Proof. unfold Channel_new. by repeat case_match. Qed.

Lemma GetJoinChannel_ok id name channel_id st w k :
  chat_ok st w -> channel_key name = Ok k ->
  exists ptr st' w', GetJoinChannel cfg dbc db alloc id name channel_id st w = Ok (ptr, st', w')
    /\ chat_ok st' w' /\ is_Some (heap st' !! ptr).
Proof.
  intros Hok Hk. unfold GetJoinChannel. rewrite Hk. cbn [obind].
  destruct (channels (get_mgr id st) !! k) as [ptr|] eqn:Hfind.
  { exists ptr, st, w. split; [done|]. split; [done|]. by eapply co_live. }
  set (ptr := alloc (dom (heap st))).
  assert (heap st !! ptr = None) as Hfresh by apply not_elem_of_dom, alloc_fresh.
  destruct (Channel_new_frame ptr name channel_id (team (get_mgr id st)) w) as (Hp & Ht' & Hn').
  destruct (Channel_new cfg ptr dbc db name channel_id (team (get_mgr id st)) w) as [nchan w'].
  cbn [fst snd] in *. do 3 eexists. split; [reflexivity|].
  split; [|rewrite heap_set_mgr; cbn; rewrite lookup_insert_eq; by eexists].
  apply (chat_ok_players _ w); [done|]. destruct Hok as [Hw Ht Hn Hl Ho Hd Hon].
  assert (forall id' k' a, channels (get_mgr id' (set_mgr id (set_channel_map
      (<[k:=ptr]> (channels (get_mgr id (set_heap (<[ptr:=nchan]> (heap st)) st))))
      (get_mgr id (set_heap (<[ptr:=nchan]> (heap st)) st)))
      (set_heap (<[ptr:=nchan]> (heap st)) st))) !! k' = Some a ->
    (id' = id /\ k' = k /\ a = ptr) \/ (channels (get_mgr id' st) !! k' = Some a /\ a <> ptr)) as Hmap.
  { intros id' k' a. rewrite get_set_mgr, !get_set_heap. case_decide as Hid.
    - subst id'. cbn. rewrite lookup_insert_Some. intros [[<- <-]|[Hne Ha]]; [by left|].
      right. split; [done|]. intros ->. apply Hl in Ha as [? Ha]. congruence.
    - intros Ha. right. split; [done|]. intros ->. apply Hl in Ha as [? Ha]. congruence. }
  split; rewrite ?heap_set_mgr; cbn [heap set_heap].
  - done.
  - intros a d. rewrite lookup_insert_Some. intros [[<- <-]|[? ?]]; [done|by apply Ht].
  - intros a d. rewrite lookup_insert_Some. intros [[<- <-]|[? ?]]; [rewrite Hn'; by eexists|by eapply Hn].
  - intros id' k' a [(-> & -> & ->)|[Ha Hne]]%Hmap.
    + rewrite lookup_insert_eq. by eexists.
    + rewrite lookup_insert_ne by done. by eapply Hl.
  - intros id1 k1 id2 k2 a Ha1 Ha2. apply Hmap in Ha1, Ha2.
    destruct Ha1 as [(? & ? & ?)|[Ha1 Hne1]], Ha2 as [(? & ? & ?)|[Ha2 Hne2]];
      [split; congruence|congruence|congruence|by eapply Ho].
  - done.
  - intros g p a Hpl Ha. destruct (Hon g p a Hpl Ha) as (d & Hd' & ?). exists d.
    rewrite lookup_insert_ne; [done|]. intros <-. congruence.
Qed.

Lemma GetNumPlayers_zero c :
  Z.of_nat (size (players c)) < 2 ^ 32 -> GetNumPlayers c = 0 -> players c = ∅.
Proof.
  intros Hs H0. unfold GetNumPlayers in H0. rewrite wrap_small in H0 by lia.
  apply map_size_empty_inv. lia.
Qed.

Lemma Mgr_LeftChannel_ok id name st w k :
  chat_ok st w -> countable st -> channel_key name = Ok k ->
  exists st', Mgr_LeftChannel id name st = Ok st' /\ chat_ok st' w
    /\ (forall a c, heap st' !! a = Some c -> heap st !! a = Some c).
Proof.
  intros Hok Hcount Hk. unfold Mgr_LeftChannel. rewrite Hk. cbn [obind].
  destruct (channels (get_mgr id st) !! k) as [ptr|] eqn:Hfind; [|by exists st].
  pose proof (co_live _ _ Hok _ _ _ Hfind) as [c Hc]. unfold deref. rewrite Hc.
  destruct ((GetNumPlayers c =? 0) && _) eqn:Hempty; [|by exists st].
  apply andb_true_iff in Hempty as [H0%Z.eqb_eq _].
  apply GetNumPlayers_zero in H0; [|by eapply Hcount].
  eexists. split; [reflexivity|]. destruct Hok as [Hw Ht Hn Hl Ho Hd Hon].
  assert (forall id' k' a, channels (get_mgr id' (set_heap (delete ptr (heap st)) (set_mgr id
      (set_channel_map (delete k (channels (get_mgr id st))) (get_mgr id st)) st))) !! k' = Some a ->
    channels (get_mgr id' st) !! k' = Some a /\ a <> ptr) as Hmap.
  { intros id' k' a. rewrite get_set_heap, get_set_mgr. case_decide as Hid.
    - subst id'. cbn. rewrite lookup_delete_Some. intros [Hne Ha]. split; [done|]. intros ->.
      by destruct (Ho _ _ _ _ _ Hfind Ha).
    - intros Ha. split; [done|]. intros ->. by destruct (Ho _ _ _ _ _ Hfind Ha). }
  rewrite heap_set_mgr. cbn [heap set_heap]. split.
  - split; rewrite ?heap_set_mgr; cbn [heap set_heap].
    + done.
    + intros a d [_ ?]%lookup_delete_Some. by apply Ht.
    + intros a d [_ ?]%lookup_delete_Some. by eapply Hn.
    + intros id' k' a [Ha Hne]%Hmap. rewrite lookup_delete_ne by done. by eapply Hl.
    + intros id1 k1 id2 k2 a [Ha1 _]%Hmap [Ha2 _]%Hmap. by eapply Ho.
    + done.
    + intros g p a Hp Ha. destruct (Hon g p a Hp Ha) as (d & Hd' & Hg). exists d.
      rewrite lookup_delete_ne; [done|]. intros <-. rewrite Hc in Hd'. injection Hd' as <-.
      apply IsOn_true in Hg as [? Hg]. by rewrite H0 in Hg.
  - by intros a d [_ ?]%lookup_delete_Some.
Qed.

(** A name the server can turn into a key; one with characters outside the
    basic plane overruns the buffer ([Utf8toWStr_overflow]). *)
Definition keyed (name : string) : Prop := exists k, channel_key name = Ok k.

Lemma GetChannel_ok id name p st w :
  chat_ok st w -> keyed name ->
  exists chn w', GetChannel id name p true st w = Ok (chn, w') /\ chat_ok st w'
    /\ m_PlayerMap w' = m_PlayerMap w
    /\ (forall ptr, chn = Some ptr -> is_Some (heap st !! ptr)).
Proof.
  intros Hok [k Hk]. unfold GetChannel. rewrite Hk. cbn [obind].
  destruct (channels (get_mgr id st) !! k) as [ptr|] eqn:Hfind; do 2 eexists; (split; [reflexivity|]).
  - split; [done|]. split; [done|]. intros ptr' [= <-]. by eapply co_live.
  - split; [|split; [by rewrite SendPacket_players|done]].
    eapply chat_ok_players; [|exact Hok]. by rewrite SendPacket_players.
Qed.

Lemma asker_there_players r w w' : m_PlayerMap w' = m_PlayerMap w -> asker_there r w -> asker_there r w'.
Proof. intros E. destruct r; cbn; try done. unfold FindPlayer. by rewrite E. Qed.

Lemma on_channel_ok name r p st w :
  chat_ok st w -> keyed name -> asker_there r w -> (forall q, r <> ReqLeave q false) ->
  exists st' w', on_channel cfg db_name name r p st w = Ok (st', w') /\ chat_ok st' w'.
Proof.
  intros Hok Hk Ha Hr. unfold on_channel. destruct (channelMgr cfg (p_team p)) as [id|]; [|eauto].
  destruct (GetChannel_ok id name p st w Hok Hk) as (chn & w1 & -> & Hok1 & Hp1 & Hlive).
  cbn [obind]. destruct chn as [ptr|]; [|eauto]. destruct (Hlive ptr eq_refl) as [c Hc].
  destruct (call_ok r ptr c st w1 Hok1 Hc) as (s & _ & -> & Hok'); [| |eauto].
  - by eapply asker_there_players.
  - intros q pl E. by destruct (Hr q).
Qed.

Lemma join_in_ok t p name pass channel_id st w :
  chat_ok st w -> keyed name ->
  exists st' w', join_in cfg dbc db alloc t p name pass channel_id st w = Ok (st', w')
    /\ chat_ok st' w'.
Proof.
  intros Hok [k Hk]. unfold join_in. destruct (channelMgr cfg t) as [id|]; [|eauto].
  apply (chat_ok_team id t) in Hok. set (st1 := set_mgr _ _ st) in *.
  destruct (GetJoinChannel_ok id name channel_id st1 w k Hok Hk) as (ptr & st2 & w2 & -> & Hok2 & [c Hc]).
  cbn [obind]. change (returns (Join cfg (p_GUID p) (c_str pass)))
    with (handle cfg db_name (ReqJoin (p_GUID p) (c_str pass))).
  destruct (call_ok (ReqJoin (p_GUID p) (c_str pass)) ptr c st2 w2 Hok2 Hc)
    as (s & _ & -> & Hok'); [done..|eauto].
Qed.

Lemma countable_call ptr c c' st :
  countable st -> heap st !! ptr = Some c -> (size (players c') <= size (players c))%nat ->
  countable (set_heap (<[ptr := c']> (heap st)) st).
Proof.
  intros Hs Hc Hle a d. cbn. rewrite lookup_insert_Some. intros [[<- <-]|[? ?]].
  - specialize (Hs _ _ Hc). lia.
  - by eapply Hs.
Qed.

Lemma countable_sub st st' :
  (forall a c, heap st' !! a = Some c -> heap st !! a = Some c) -> countable st -> countable st'.
Proof. intros Hsub Hs a c Hc. by apply (Hs a), Hsub. Qed.

Lemma leave_in_ok t p name st w :
  chat_ok st w -> countable st -> keyed name ->
  exists st' w', leave_in cfg t p name st w = Ok (st', w') /\ chat_ok st' w' /\ countable st'.
Proof.
  intros Hok Hs Hk. unfold leave_in. destruct (channelMgr cfg t) as [id|]; [|by exists st, w].
  destruct (GetChannel_ok id name p st w Hok Hk) as (chn & w1 & -> & Hok1 & _ & Hlive).
  cbn [obind]. destruct Hk as [k Hk]. destruct chn as [ptr|].
  - destruct (Hlive ptr eq_refl) as [c Hc].
    change (returns (Leave cfg (p_GUID p) true)) with (handle cfg db_name (ReqLeave (p_GUID p) true)).
    destruct (call_ok (ReqLeave (p_GUID p) true) ptr c st w1 Hok1 Hc)
      as (s & E & -> & Hok2); [done..|]. injection E as <-. cbn [obind].
    destruct (Mgr_LeftChannel_ok id name _ _ k Hok2) as (st3 & -> & Hok3 & Hsub); [|done|].
    { eapply countable_call; [done..|]. apply Leave_size. }
    do 2 eexists. split; [reflexivity|]. split; [done|]. eapply countable_sub; [exact Hsub|].
    eapply countable_call; [done..|]. apply Leave_size.
  - cbn [obind].
    destruct (Mgr_LeftChannel_ok id name st w1 k Hok1 Hs Hk) as (st3 & -> & Hok3 & Hsub).
    exists st3, w1. do 2 (split; [done|]). by eapply countable_sub.
Qed.

Lemma chat_ok_pop st w p ch rest :
  chat_ok st w -> m_PlayerMap w !! p_GUID p = Some p -> p_channels p = ch :: rest ->
  chat_ok st (update_player (set_channels rest) p w)
  /\ (forall pl, m_PlayerMap (update_player (set_channels rest) p w) !! p_GUID p = Some pl ->
        p_channels pl = rest /\ p_team pl = p_team p /\ ch ∉ rest).
Proof.
  intros [Hw Ht Hn Hl Ho Hd Hon] Hp Hch. split.
  - split; try done.
    + by apply update_player_ok.
    + intros g q. unfold update_player. cbn. destruct (decide (p_GUID p = g)) as [<-|Hne].
      * rewrite lookup_alter_eq, Hp. intros [= <-]. cbn. specialize (Hd _ _ Hp).
        rewrite Hch in Hd. by apply NoDup_cons in Hd as [_ ?].
      * rewrite lookup_alter_ne by done. apply Hd.
    + intros g q a. unfold update_player. cbn. destruct (decide (p_GUID p = g)) as [<-|Hne].
      * rewrite lookup_alter_eq, Hp. intros [= <-] Ha. apply (Hon _ p); [done|].
        rewrite Hch. by right.
      * rewrite lookup_alter_ne by done. apply Hon.
  - intros pl. unfold update_player. cbn. rewrite lookup_alter_eq, Hp. intros [= <-]. cbn.
    specialize (Hd _ _ Hp). rewrite Hch in Hd. by apply NoDup_cons in Hd as [? _].
Qed.

Lemma CleanupChannels_loop_ok fuel me st w :
  chat_ok st w -> countable st ->
  (forall p, m_PlayerMap w !! me = Some p -> (length (p_channels p) <= fuel)%nat) ->
  exists st' w', CleanupChannels_loop cfg fuel me st w = Ok (st', w') /\ chat_ok st' w'
    /\ (forall p, m_PlayerMap w' !! me = Some p -> p_channels p = []).
Proof.
  revert st w. induction fuel as [|fuel IH]; intros st w Hok Hs Hlen.
  { exists st, w. do 2 (split; [done|]). intros p Hp. specialize (Hlen p Hp).
    destruct (p_channels p); [done|cbn in Hlen; lia]. }
  cbn [CleanupChannels_loop]. unfold FindPlayer.
  destruct (m_PlayerMap w !! me) as [p|] eqn:Hp; [|exists st, w; split; [done|split; [done|congruence]]].
  pose proof (co_world _ _ Hok _ _ Hp) as <-.
  destruct (p_channels p) as [|ch rest] eqn:Hch.
  { exists st, w. do 2 (split; [done|]). intros q Hq. congruence. }
  destruct (co_on _ _ Hok _ _ ch Hp) as (c & Hc & Hon); [rewrite Hch; left|].
  destruct (chat_ok_pop st w p ch rest Hok Hp Hch) as [Hok1 Hpop].
  cbv zeta. set (w1 := update_player (set_channels rest) p w) in *.
  change (returns (Leave cfg (p_GUID p) false)) with (handle cfg db_name (ReqLeave (p_GUID p) false)).
  destruct (call_ok (ReqLeave (p_GUID p) false) ch c st w1 Hok1 Hc) as (s & Es & -> & Hok2); [done| |].
  { intros q pl [= <-] Hpl. by destruct (Hpop pl Hpl) as (-> & _ & ?). }
  cbn [obind]. pose proof (handle_players _ _ _ _ _ _ (co_world _ _ Hok1) Es) as Hpl2.
  cbv beta iota in Hpl2. rewrite Hon in Hpl2. cbn [andb] in Hpl2. injection Es as <-.
  set (c2 := (Leave cfg (p_GUID p) false c w1).1) in *. set (w2 := (Leave cfg (p_GUID p) false c w1).2) in *.
  set (st2 := set_heap (<[ch := c2]> (heap st)) st) in *.
  assert (countable st2) as Hs2 by (eapply countable_call; [done..|]; apply Leave_size).
  assert (exists st3, match channelMgr cfg (p_team p) with
            | Some id => deref ch st2 (fun c => Mgr_LeftChannel id (m_name c) st2)
            | None => Ok st2 end = Ok st3 /\ chat_ok st3 w2 /\ countable st3) as (st3 & -> & Hok3 & Hs3).
  { destruct (channelMgr cfg (p_team p)) as [id|]; [|by exists st2].
    unfold deref, st2 at 1. cbn [heap set_heap]. rewrite lookup_insert_eq.
    assert (exists k, channel_key (m_name c2) = Ok k) as [k Hk]
      by (apply (co_named _ _ Hok2 ch); apply lookup_insert_eq).
    destruct (Mgr_LeftChannel_ok id (m_name c2) st2 w2 k Hok2 Hs2 Hk) as (st3 & -> & ? & Hsub).
    exists st3. split; [done|]. split; [done|]. by eapply countable_sub. }
  cbn [obind]. apply IH; [done..|]. intros q Hq. rewrite Hpl2 in Hq.
  destruct (Hpop q Hq) as (-> & _). specialize (Hlen p eq_refl). rewrite Hch in Hlen. cbn in Hlen. lia.
Qed.
End Safety.

(** ** The packets as one relation *)
Inductive ChatOp :=
| OpJoin | OpLeave | OpList | OpPassword | OpSetOwner | OpOwner | OpModerator | OpUnmoderator
| OpMute | OpUnmute | OpInvite | OpKick | OpBan | OpUnban | OpAnnouncements | OpDisplayList
| OpMemberCount | OpWatch.

Section Runs.
Context `{UnorderedIter} (cfg : Config) (db_name : Z -> option string)
        (dbc : Z -> option Z) (db : string -> Z -> option ChannelRow) (alloc : gset Z -> Z).
Context (alloc_fresh : forall s, alloc s ∉ s).

Definition dispatch (op : ChatOp) (recv : ByteBuffer) (p : Player) (st : ChatState) (w : World)
  : outcome (ChatState * World) :=
  match op with
  | OpJoin => HandleJoinChannel cfg dbc db alloc recv p st w
  | OpLeave => HandleLeaveChannel cfg recv p st w
  | OpList => HandleChannelList cfg db_name recv p st w
  | OpPassword => HandleChannelPassword cfg db_name recv p st w
  | OpSetOwner => HandleChannelSetOwner cfg db_name recv p st w
  | OpOwner => HandleChannelOwner cfg db_name recv p st w
  | OpModerator => HandleChannelModerator cfg db_name recv p st w
  | OpUnmoderator => HandleChannelUnmoderator cfg db_name recv p st w
  | OpMute => HandleChannelMute cfg db_name recv p st w
  | OpUnmute => HandleChannelUnmute cfg db_name recv p st w
  | OpInvite => HandleChannelInvite cfg db_name recv p st w
  | OpKick => HandleChannelKick cfg db_name recv p st w
  | OpBan => HandleChannelBan cfg db_name recv p st w
  | OpUnban => HandleChannelUnban cfg db_name recv p st w
  | OpAnnouncements => HandleChannelAnnouncements cfg db_name recv p st w
  | OpDisplayList => HandleChannelDisplayListQuery cfg db_name recv p st w
  | OpMemberCount => HandleGetChannelMemberCount cfg recv p st w
  | OpWatch => HandleSetChannelWatch cfg recv p st w
  end.

(** Outside the chat, players come (with an empty list), go and change, but
    nothing else writes the lists of channels. *)
Definition outside (w w' : World) : Prop :=
  world_ok w' /\ forall g p', m_PlayerMap w' !! g = Some p' ->
    p_channels p' = [] \/ exists p, m_PlayerMap w !! g = Some p /\ p_channels p' = p_channels p.

Inductive chat_step : ChatState * World -> ChatState * World -> Prop :=
| step_packet op recv p st w st' w' :
    dispatch op recv p st w = Ok (st', w') -> chat_step (st, w) (st', w')
| step_cleanup me st w st' w' :
    CleanupChannels cfg me st w = Ok (st', w') -> chat_step (st, w) (st', w')
| step_outside st w w' : outside w w' -> chat_step (st, w) (st, w').

Inductive chat_reachable : ChatState * World -> Prop :=
| chat_init w :
    world_ok w -> (forall g p, m_PlayerMap w !! g = Some p -> p_channels p = []) ->
    chat_reachable (ChatState_new, w)
| chat_next s s' :
    chat_reachable s -> countable s.1 -> countable s'.1 -> chat_step s s' -> chat_reachable s'.

Definition keeps (o : outcome (ChatState * World)) : Prop :=
  forall st' w', o = Ok (st', w') -> chat_ok st' w'.

Lemma keeps_bind {A} (m : outcome A) k : (forall a, m = Ok a -> keeps (k a)) -> keeps (obind m k).
Proof. intros Hk st' w' E. destruct m as [a| |]; [|done..]. by eapply Hk. Qed.

Lemma keeps_ret st w : chat_ok st w -> keeps (Ok (st, w)).
Proof. intros Hok st' w' E. by simplify_eq. Qed.

Lemma keeps_exists o :
  (exists st' w', o = Ok (st', w') /\ chat_ok st' w') -> keeps o.
Proof. intros (st' & w' & -> & Hok). by apply keeps_ret. Qed.

(** A name that gets as far as a key has one. *)
Lemma key_or_stuck name {A} (k : list Z -> outcome A) a :
  obind (channel_key name) k = Ok a -> keyed name.
Proof. unfold keyed. destruct (channel_key name); [eauto|done..]. Qed.

Lemma keeps_on_channel name r p st w :
  chat_ok st w -> asker_there r w -> (forall q, r <> ReqLeave q false) ->
  keeps (on_channel cfg db_name name r p st w).
Proof.
  intros Hok Ha Hr st' w' E.
  assert (channelMgr cfg (p_team p) = None \/ keyed name) as [Hn|Hk].
  { unfold on_channel in E. destruct (channelMgr cfg (p_team p)) as [id|]; [|by left]. right.
    destruct (GetChannel id name p true st w) as [[chn w1]| |] eqn:G; [|done..].
    by eapply key_or_stuck. }
  - unfold on_channel in E. rewrite Hn in E. by simplify_eq.
  - destruct (on_channel_ok cfg db_name name r p st w Hok Hk Ha Hr) as (? & ? & E' & ?). congruence.
Qed.

Lemma keeps_join_in t p name pass cid st w :
  chat_ok st w -> keeps (join_in cfg dbc db alloc t p name pass cid st w).
Proof.
  intros Hok st' w' E.
  assert (channelMgr cfg t = None \/ keyed name) as [Hn|Hk].
  { unfold join_in in E. destruct (channelMgr cfg t) as [id|]; [|by left]. right. cbv zeta in E.
    destruct (GetJoinChannel _ _ _ _ _ _ _ _ _) as [[[ptr st1] w1]| |] eqn:G; [|done..].
    by eapply key_or_stuck. }
  - unfold join_in in E. rewrite Hn in E. by simplify_eq.
  - destruct (join_in_ok cfg db_name dbc db alloc alloc_fresh t p name pass cid st w Hok Hk)
      as (? & ? & E' & ?). congruence.
Qed.

Lemma keeps_leave_in t p name st w :
  chat_ok st w -> countable st ->
  forall st' w', leave_in cfg t p name st w = Ok (st', w') -> chat_ok st' w' /\ countable st'.
Proof.
  intros Hok Hs st' w' E.
  assert (channelMgr cfg t = None \/ keyed name) as [Hn|Hk].
  { unfold leave_in in E. destruct (channelMgr cfg t) as [id|]; [|by left]. right.
    destruct (GetChannel id name p true st w) as [[chn w1]| |] eqn:G; [|done..].
    by eapply key_or_stuck. }
  - unfold leave_in in E. rewrite Hn in E. by simplify_eq.
  - destruct (leave_in_ok cfg db_name t p name st w Hok Hs Hk) as (? & ? & E' & ? & ?).
    rewrite E' in E. by simplify_eq.
Qed.

Lemma keeps_with_target r recv p st w :
  chat_ok st w -> (forall n, asker_there (r n) w) -> (forall n q, r n <> ReqLeave q false) ->
  keeps (with_target cfg db_name r recv p st w).
Proof.
  intros Hok Ha Hr. unfold with_target.
  apply keeps_bind. intros [name recv1] _. apply keeps_bind. intros [otp recv2] _.
  apply keeps_bind. intros [n|] _; [|by apply keeps_ret].
  by apply keeps_on_channel.
Qed.

Lemma keeps_dispatch op recv p st w :
  chat_ok st w -> countable st -> keeps (dispatch op recv p st w).
Proof.
  intros Hok Hs. destruct op; cbn [dispatch]; try (by apply keeps_with_target);
    try (unfold HandleChannelDisplayListQuery, HandleChannelList, HandleChannelOwner,
           HandleChannelAnnouncements;
         apply keeps_bind; intros [name recv1] _; by apply keeps_on_channel).
  - unfold HandleJoinChannel. do 5 (apply keeps_bind; intros [? ?] _).
    case_if; [by apply keeps_ret|]. case_if; [by apply keeps_join_in|].
    apply keeps_bind. intros [st1 w1] E1. apply keeps_join_in. by eapply keeps_join_in.
  - unfold HandleLeaveChannel. do 2 (apply keeps_bind; intros [? ?] _).
    case_if; [by apply keeps_ret|].
    case_if; [intros ? ? E; by eapply keeps_leave_in in E as [? _]|].
    apply keeps_bind. intros [st1 w1] E1. apply keeps_leave_in in E1 as [Hok1 Hs1]; [|done..].
    intros ? ? E. by eapply keeps_leave_in in E as [? _].
  - unfold HandleChannelPassword. do 2 (apply keeps_bind; intros [? ?] _).
    destruct (channelMgr cfg (p_team p)) as [id|] eqn:Hid; [|by apply keeps_ret].
    apply keeps_bind. intros [chn w1] E1.
    destruct (GetChannel_ok id s p st w Hok (key_or_stuck _ _ _ E1)) as (? & ? & E & Hok1 & _ & Hl).
    rewrite E1 in E. injection E as <- <-. destruct chn as [ptr|]; [|by apply keeps_ret].
    destruct (Hl ptr eq_refl) as [c Hc]. case_if; [|by apply keeps_ret].
    intros st' w' Ec.
    assert (asker_there (ReqPassword (p_GUID p) (c_str s0)) w1) as Ha.
    { unfold call, deref in Ec. rewrite Hc in Ec. cbn [handle] in Ec. unfold Password in Ec. cbn.
      destruct (FindPlayer (p_GUID p) w1); [by eexists|done]. }
    destruct (call_ok cfg db_name (ReqPassword (p_GUID p) (c_str s0)) ptr c st w1 Hok1 Hc Ha)
      as (s' & _ & E' & Hok'); [done|]. rewrite E' in Ec. by injection Ec as <- <-.
  - unfold HandleGetChannelMemberCount. apply keeps_bind; intros [name ?] _.
    destruct (channelMgr cfg (p_team p)) as [id|]; [|by apply keeps_ret].
    apply keeps_bind. intros [chn w1] E1.
    destruct (GetChannel_ok id name p st w Hok (key_or_stuck _ _ _ E1)) as (? & ? & E & Hok1 & _ & Hl).
    rewrite E1 in E. injection E as <- <-. destruct chn as [ptr|]; [|by apply keeps_ret].
    destruct (Hl ptr eq_refl) as [c Hc]. unfold deref. rewrite Hc. apply keeps_ret.
    eapply chat_ok_players; [|exact Hok1]. apply SendPacket_players.
  - unfold HandleSetChannelWatch. apply keeps_bind; intros [name ?] _.
    destruct (channelMgr cfg (p_team p)) as [id|]; [|by apply keeps_ret].
    apply keeps_bind. intros [chn w1] E1.
    destruct (GetChannel_ok id name p st w Hok (key_or_stuck _ _ _ E1)) as (? & ? & E & Hok1 & _ & Hl).
    rewrite E1 in E. injection E as <- <-. destruct chn as [ptr|]; [|by apply keeps_ret].
    destruct (Hl ptr eq_refl) as [c Hc]. unfold deref. rewrite Hc. apply keeps_ret.
    eapply chat_ok_players; [|exact Hok1]. apply JoinNotify_players.
Qed.

(** The names a packet has the server convert: a channel's, and a player's. *)
Definition names_read (op : ChatOp) (recv : ByteBuffer) : outcome (string * option string) :=
  match op with
  | OpJoin =>
      let* '(_, recv) := read 4 recv in
      let* '(_, recv) := read 1 recv in
      let* '(_, recv) := read 1 recv in
      let* '(name, _) := read_string recv in Ok (name, None)
  | OpLeave =>
      let* '(_, recv) := read 4 recv in
      let* '(name, _) := read_string recv in Ok (name, None)
  | OpSetOwner | OpModerator | OpUnmoderator | OpMute | OpUnmute | OpInvite | OpKick | OpBan
  | OpUnban =>
      let* '(name, recv) := read_string recv in
      let* '(otp, _) := read_string recv in Ok (name, Some otp)
  | _ => let* '(name, _) := read_string recv in Ok (name, None)
  end.

(** They stay within the conversion buffers, which characters outside the basic
    plane can overrun ([Utf8toWStr_overflow], [normalize_name_overflow]). *)
Definition names_fit (op : ChatOp) (recv : ByteBuffer) : Prop :=
  forall name otp, names_read op recv = Ok (name, otp) ->
    keyed name /\ forall n, otp = Some n -> normalizePlayerName n <> UB.

Definition fine (o : outcome (ChatState * World)) : Prop := safely o (fun s => chat_ok s.1 s.2).

Lemma fine_ok o : (exists st' w', o = Ok (st', w') /\ chat_ok st' w') -> fine o.
Proof. by intros (st' & w' & -> & Hok). Qed.

(** A packet's next field; what follows may use that it was read. *)
Lemma fine_read {A} (m : outcome (A * ByteBuffer)) k :
  safely m (fun r => received r.2) ->
  (forall a recv, received recv -> m = Ok (a, recv) -> fine (k (a, recv))) -> fine (obind m k).
Proof. intros Hm Hk. destruct m as [[a b]| |]; [by apply Hk|done|done]. Qed.

Ltac read_field :=
  apply fine_read;
    [first [by apply read_string_received | apply read_received; [done|lia]]
    |let a := fresh "a" in let b := fresh "b" in let Hb := fresh "Hb" in let E := fresh "E" in
     intros a b Hb E; cbn beta iota].

Lemma fine_on_channel name r p st w :
  chat_ok st w -> keyed name -> asker_there r w -> (forall q, r <> ReqLeave q false) ->
  fine (on_channel cfg db_name name r p st w).
Proof. intros. apply fine_ok. by apply on_channel_ok. Qed.

Lemma fine_with_target r recv p st w :
  chat_ok st w -> received recv ->
  (forall name recv1 otp recv2, read_string recv = Ok (name, recv1) -> read_string recv1 = Ok (otp, recv2) ->
     keyed name /\ normalizePlayerName otp <> UB) ->
  (forall n, asker_there (r n) w) -> (forall n q, r n <> ReqLeave q false) ->
  fine (with_target cfg db_name r recv p st w).
Proof.
  intros Hok Hrecv Hn Ha Hr. unfold with_target. read_field. read_field.
  destruct (Hn _ _ _ _ E E0) as [Hk Hp].
  destruct (normalizePlayerName a0) as [[n|]| |]; cbn [obind]; [by apply fine_on_channel|done..].
Qed.

Lemma fine_found id name p st w k :
  chat_ok st w -> keyed name ->
  (forall ptr c w1, heap st !! ptr = Some c -> chat_ok st w1 -> m_PlayerMap w1 = m_PlayerMap w ->
     fine (k (Some ptr, w1))) ->
  (forall w1, chat_ok st w1 -> fine (k (None, w1))) ->
  fine (obind (GetChannel id name p true st w) k).
Proof.
  intros Hok Hk Hs Hn. destruct (GetChannel_ok id name p st w Hok Hk) as (chn & w1 & -> & Hok1 & Hp1 & Hl).
  cbn [obind]. destruct chn as [ptr|]; [|by apply Hn]. destruct (Hl ptr eq_refl) as [c Hc]. by eapply Hs.
Qed.

Lemma fine_join recv p st w :
  chat_ok st w -> received recv -> names_fit OpJoin recv ->
  fine (HandleJoinChannel cfg dbc db alloc recv p st w).
Proof.
  intros Hok Hr Hn. unfold HandleJoinChannel. do 4 read_field.
  assert (keyed a2) as Hk.
  { apply (Hn a2 None). cbn. rewrite E. cbn. rewrite E0. cbn. rewrite E1. cbn. by rewrite E2. }
  read_field. case_if; [done|].
  assert (forall t st w, chat_ok st w -> exists st' w', join_in cfg dbc db alloc t p a2 a3 a st w = Ok (st', w')
            /\ chat_ok st' w') as Hj by (intros; by apply (join_in_ok cfg db_name)).
  case_if; [apply fine_ok; by apply Hj|].
  destruct (Hj ALLIANCE st w Hok) as (st1 & w1 & -> & Hok1). cbn [obind]. apply fine_ok. by apply Hj.
Qed.

Lemma fine_leave recv p st w :
  chat_ok st w -> countable st -> received recv -> names_fit OpLeave recv ->
  fine (HandleLeaveChannel cfg recv p st w).
Proof.
  intros Hok Hs Hr Hn. unfold HandleLeaveChannel. do 2 read_field.
  assert (keyed a0) as Hk by (apply (Hn a0 None); cbn; rewrite E; cbn; by rewrite E0).
  case_if; [done|].
  assert (forall t st w, chat_ok st w -> countable st -> exists st' w',
            leave_in cfg t p a0 st w = Ok (st', w') /\ chat_ok st' w' /\ countable st') as Hl
    by (intros; by apply (leave_in_ok cfg db_name)).
  case_if; [destruct (Hl (p_team p) st w Hok Hs) as (? & ? & -> & ? & _); done|].
  destruct (Hl ALLIANCE st w Hok Hs) as (st1 & w1 & -> & Hok1 & Hs1). cbn [obind].
  destruct (Hl HORDE st1 w1 Hok1 Hs1) as (? & ? & -> & ? & _). done.
Qed.

Lemma fine_password recv p st w :
  chat_ok st w -> received recv -> names_fit OpPassword recv -> is_Some (FindPlayer (p_GUID p) w) ->
  fine (HandleChannelPassword cfg db_name recv p st w).
Proof.
  intros Hok Hr Hn Hp. unfold HandleChannelPassword. read_field.
  assert (keyed a) as Hk by (apply (Hn a None); cbn; by rewrite E).
  read_field. destruct (channelMgr cfg (p_team p)) as [id|]; [|done].
  apply fine_found; [done..| |done]. intros ptr c w1 Hc Hok1 Hp1. cbn beta iota. case_if; [|done].
  destruct (call_ok cfg db_name (ReqPassword (p_GUID p) (c_str a0)) ptr c st w1 Hok1 Hc)
    as (s & _ & -> & Hok'); [|done|done]. cbn. unfold FindPlayer. by rewrite Hp1.
Qed.

(** The packets that look at a channel without a request. *)
Lemma fine_look recv p st w (k : Channel -> World -> World) :
  chat_ok st w -> received recv -> names_fit OpWatch recv ->
  (forall c w, m_PlayerMap (k c w) = m_PlayerMap w) ->
  fine (let* '(channelname, recv) := read_string recv in
        match channelMgr cfg (p_team p) with
        | None => Ok (st, w)
        | Some id =>
            let* '(chn, w) := GetChannel id channelname p true st w in
            match chn with
            | Some ptr => deref ptr st (fun c => Ok (st, k c w))
            | None => Ok (st, w)
            end
        end).
Proof.
  intros Hok Hr Hn Hk. read_field.
  assert (keyed a) as Hka by (apply (Hn a None); cbn; by rewrite E).
  destruct (channelMgr cfg (p_team p)) as [id|]; [|done].
  apply fine_found; [done..| |done]. intros ptr c w1 Hc Hok1 Hp1. cbn beta iota. unfold deref. rewrite Hc.
  cbn. by eapply chat_ok_players; [|exact Hok1].
Qed.

Lemma fine_dispatch op recv p st w :
  chat_ok st w -> countable st -> received recv -> names_fit op recv ->
  is_Some (FindPlayer (p_GUID p) w) -> fine (dispatch op recv p st w).
Proof.
  intros Hok Hs Hr Hn Hp. destruct op; cbn [dispatch];
    try (apply fine_with_target; try done; intros name b1 otp b2 E1 E2;
         destruct (Hn name (Some otp)) as [? Ho]; [by cbn; rewrite E1; cbn; rewrite E2|auto]);
    try (unfold HandleChannelDisplayListQuery, HandleChannelList, HandleChannelOwner,
           HandleChannelAnnouncements; read_field;
         apply fine_on_channel; try done; apply (Hn a None); cbn; by rewrite E).
  - by apply fine_join.
  - by apply fine_leave.
  - by apply fine_password.
  - apply (fine_look recv p st w (fun c w => SendPacket p (mkPacket SMSG_CHANNEL_MEMBER_COUNT
             [Str (m_name c); U8 (m_flags c); U32 (GetNumPlayers c)]) w)); [done..|].
    intros. apply SendPacket_players.
  - apply (fine_look recv p st w (JoinNotify (p_GUID p))); [done..|]. intros. apply JoinNotify_players.
Qed.

Lemma chat_ok_outside st w w' : outside w w' -> chat_ok st w -> chat_ok st w'.
Proof.
  intros [Hw' Hout] [Hw Ht Hn Hl Ho Hd Hon]. split; try done.
  - intros g p Hp. destruct (Hout g p Hp) as [->|(q & Hq & ->)]; [constructor|by eapply Hd].
  - intros g p a Hp Ha. destruct (Hout g p Hp) as [E|(q & Hq & E)]; rewrite E in Ha.
    + by apply not_elem_of_nil in Ha.
    + by eapply Hon.
Qed.

Lemma CleanupChannels_ok me st w :
  chat_ok st w -> countable st ->
  exists st' w', CleanupChannels cfg me st w = Ok (st', w') /\ chat_ok st' w'
    /\ (forall p, m_PlayerMap w' !! me = Some p -> p_channels p = []).
Proof.
  intros Hok Hs. unfold CleanupChannels, FindPlayer.
  destruct (m_PlayerMap w !! me) as [p|] eqn:Hp.
  - apply (CleanupChannels_loop_ok cfg db_name); [done..|]. intros q Hq. by simplify_eq.
  - exists st, w. do 2 (split; [done|]). congruence.
Qed.

Lemma chat_reachable_ok s : chat_reachable s -> chat_ok s.1 s.2.
Proof.
  induction 1 as [w Hw Hl|s s' _ IH Hs _ Hstep].
  - split; cbn; try done.
    + intros [] k a; cbn; by rewrite lookup_empty.
    + intros [] k1 id2 k2 a; cbn; by rewrite lookup_empty.
    + intros g p Hp. rewrite (Hl g p Hp). constructor.
    + intros g p a Hp. rewrite (Hl g p Hp). by intros ?%not_elem_of_nil.
  - destruct Hstep as [op recv p st w st' w' E|me st w st' w' E|st w w' Ho]; cbn in *.
    + by eapply keeps_dispatch.
    + destruct (CleanupChannels_ok me st w IH Hs) as (? & ? & E' & ? & _). congruence.
    + by eapply chat_ok_outside.
Qed.
End Runs.

(** * Theorems *)

(** C31. No dangling channel pointer: in every state the packets of players, the
    clean-up at logout and the outside world can lead to, each player's list
    points to channels that exist and that the player is on; so the clean-up of
    any player runs to the end without touching a deleted channel and leaves an
    empty list, and so does the handler of every one of the eighteen channel
    packets, whatever bytes a player in the world sends, or it throws on a packet
    that is too short.  The names in the packet are assumed to stay within the
    conversion buffers ([names_fit]), and no channel to have 2^32 members. *)
Theorem chat_no_dangling `{UnorderedIter} cfg db_name dbc db alloc st w :
  (forall s, alloc s ∉ s) ->
  chat_reachable cfg db_name dbc db alloc (st, w) -> countable st ->
  (forall g p a, m_PlayerMap w !! g = Some p -> a ∈ p_channels p ->
     exists c, heap st !! a = Some c /\ IsOn g c = true)
  /\ (forall me, exists st' w', CleanupChannels cfg me st w = Ok (st', w')
        /\ forall p, m_PlayerMap w' !! me = Some p -> p_channels p = [])
  /\ (forall op recv p, received recv -> names_fit op recv -> is_Some (FindPlayer (p_GUID p) w) ->
        dispatch cfg db_name dbc db alloc op recv p st w <> UB).
Proof.
  intros Halloc Hreach Hs. apply (chat_reachable_ok cfg db_name dbc db alloc Halloc) in Hreach.
  cbn in Hreach. split; [apply Hreach|]. split.
  - intros me. destruct (CleanupChannels_ok cfg db_name me st w Hreach Hs) as (? & ? & ? & _ & ?). eauto.
  - intros op recv p Hr Hn Hp E.
    pose proof (fine_dispatch cfg db_name dbc db alloc Halloc op recv p st w Hreach Hs Hr Hn Hp) as Hf.
    by rewrite E in Hf.
Qed.

(** *** Witness data: two players join a channel by packet *)
Definition pack (fs : list PField) : ByteBuffer :=
  match append_fields fs ByteBuffer_new with Ok b => b | _ => ByteBuffer_new end.
Definition fresh_addr (s : gset Z) : Z := fresh s.
Definition join_packet : ByteBuffer := pack [U32 0; U8 0; U8 0; Str "lobby"; Str ""].
Definition run (o : outcome (ChatState * World)) : ChatState * World :=
  match o with Ok s => s | _ => (ChatState_new, world3) end.
Definition dispatch0 (op : ChatOp) (recv : ByteBuffer) (g : Z) (name : string)
    (s : ChatState * World) : outcome (ChatState * World) :=
  dispatch plain_config no_name (fun _ => None) (fun _ _ => None) fresh_addr op recv
    (mk_player g name 0) s.1 s.2.
Definition chat1 : ChatState * World := run (dispatch0 OpJoin join_packet 7 "Ann" (ChatState_new, world3)).
Definition chat2 : ChatState * World := run (dispatch0 OpJoin join_packet 9 "Bob" chat1).

Lemma fresh_addr_fresh s : fresh_addr s ∉ s.
Proof. apply is_fresh. Qed.

Definition countableb (st : ChatState) : bool :=
  bool_decide (map_Forall (fun _ c => Z.of_nat (size (players c)) < 2 ^ 32) (heap st)).
Lemma countableb_ok st : countableb st = true -> countable st.
Proof. intros H. apply bool_decide_eq_true in H. intros a c Hc. exact (H a c Hc). Qed.

Lemma chat2_reachable :
  chat_reachable plain_config no_name (fun _ => None) (fun _ _ => None) fresh_addr chat2.
Proof.
  apply (chat_next _ _ _ _ _ chat1); [|by apply countableb_ok; vm_compute..|].
  - apply (chat_next _ _ _ _ _ (ChatState_new, world3)); [|by apply countableb_ok; vm_compute..|].
    + apply chat_init; [apply world3_ok|]. intros g p. unfold world3. cbn.
      rewrite !lookup_insert_Some, lookup_empty.
      intros [[_ <-]|[_ [[_ <-]|[_ [[_ <-]|[_ [=]]]]]]]; done.
    + rewrite (surjective_pairing chat1).
      apply (step_packet _ _ _ _ _ OpJoin join_packet (mk_player 7 "Ann" 0)). by vm_compute.
  - rewrite (surjective_pairing chat1), (surjective_pairing chat2).
    apply (step_packet _ _ _ _ _ OpJoin join_packet (mk_player 9 "Bob" 0)). by vm_compute.
Qed.

Definition leave_packet : ByteBuffer := pack [U32 0; Str "lobby"].

Lemma chat_no_dangling_witness :
  (exists st' w', CleanupChannels plain_config 9 chat2.1 chat2.2 = Ok (st', w')
    /\ length (p_channels (default (mk_player 0 "" 0) (m_PlayerMap chat2.2 !! 9))) = 2%nat)
  /\ dispatch0 OpLeave leave_packet 9 "Bob" chat2 <> UB
  /\ dispatch0 OpJoin join_packet 12 "Cid" chat2 <> UB.
Proof.
  destruct (chat_no_dangling plain_config no_name (fun _ => None) (fun _ _ => None) fresh_addr
              chat2.1 chat2.2 fresh_addr_fresh) as (_ & Hclean & Hpacket).
  - rewrite <- (surjective_pairing chat2). apply chat2_reachable.
  - by apply countableb_ok; vm_compute.
  - split; [destruct (Hclean 9) as (st' & w' & E & _); exists st', w'; split; [exact E|by vm_compute]|].
    split; apply Hpacket.
    + split; vm_compute; [split; discriminate|reflexivity].
    + intros name otp E. vm_compute in E. injection E as <- <-. split; [eexists; by vm_compute|done].
    + by vm_compute; eexists.
    + split; vm_compute; [split; discriminate|reflexivity].
    + intros name otp E. vm_compute in E. injection E as <- <-. split; [eexists; by vm_compute|done].
    + by vm_compute; eexists.
Defined.

(** Every joiner enters the channel of both factions, since no account counts
    as a player's; at logout only the own faction's manager is told.  The other
    faction's channel stays behind, empty and with its old owner, and whoever
    joins it next is not made owner. *)
Definition after_logout : ChatState * World := run (CleanupChannels plain_config 7 chat1.1 chat1.2).
Lemma logout_leaves_channel :
  size (heap chat1.1) = 2%nat /\ size (heap after_logout.1) = 1%nat
  /\ map (fun '(_, c) => (m_ownerGUID c, m_Team c, GetNumPlayers c)) (map_to_list (heap after_logout.1))
     = [(7, HORDE, 0)].
Proof. by vm_compute. Qed.
