(* ===== verification/Social.v ===== *)
(** * Friends and ignores: [shade/Character/SocialMgr.h], [SocialMgr.cpp],
    [shade/Handler/SocialHandler.cpp]

    The social list of a player (the record is in [World]), its operations with
    the statements they run, the packets about friends and who gets them, and
    the handlers.  The lists are the entries of [SocialMgr]'s map in the world. *)
From Stdlib Require Import Ascii String ZArith Lia.
From stdpp Require Import base gmap sets list strings sorting.
From S2P Require Import Prelude ByteBuffer Utf8 World.

Open Scope Z_scope.

Definition SMSG_CONTACT_LIST : Z := 0x067.
Definition SMSG_FRIEND_STATUS : Z := 0x068.

Definition FRIEND_LIST_FULL : Z := 0x01.
Definition FRIEND_ONLINE : Z := 0x02.
Definition FRIEND_OFFLINE : Z := 0x03.
Definition FRIEND_NOT_FOUND : Z := 0x04.
Definition FRIEND_REMOVED : Z := 0x05.
Definition FRIEND_ADDED_ONLINE : Z := 0x06.
Definition FRIEND_ADDED_OFFLINE : Z := 0x07.
Definition FRIEND_ALREADY : Z := 0x08.
Definition FRIEND_SELF : Z := 0x09.
Definition FRIEND_ENEMY : Z := 0x0A.
Definition FRIEND_IGNORE_FULL : Z := 0x0B.
Definition FRIEND_IGNORE_SELF : Z := 0x0C.
Definition FRIEND_IGNORE_NOT_FOUND : Z := 0x0D.
Definition FRIEND_IGNORE_ALREADY : Z := 0x0E.
Definition FRIEND_IGNORE_ADDED : Z := 0x0F.
Definition FRIEND_IGNORE_REMOVED : Z := 0x10.

Definition SOCIALMGR_FRIEND_LIMIT : Z := 50.
Definition SOCIALMGR_IGNORE_LIMIT : Z := 50.

(** ** The list of one player *)
Definition set_fi_Flags (f : Z) (fi : FriendInfo) : FriendInfo :=
  mkFriendInfo (fi_Status fi) f (fi_Area fi) (fi_Level fi) (fi_Class fi) (fi_Note fi).
Definition set_fi_Note (n : string) (fi : FriendInfo) : FriendInfo :=
  mkFriendInfo (fi_Status fi) (fi_Flags fi) (fi_Area fi) (fi_Level fi) (fi_Class fi) n.
Definition set_list (m : gmap Z FriendInfo) (s : PlayerSocial) : PlayerSocial :=
  mkSocial m (m_playerGUID s).

Definition GetNumberOfSocialsWithFlag (flag : Z) (s : PlayerSocial) : Z :=
  foldl (fun counter '(_, fi) => if has_flag (fi_Flags fi) flag then u32 (counter + 1) else counter)
    0 (ordered_entries (m_playerSocialMap s)).

Definition social_flag (ignore : bool) : Z :=
  if ignore then SOCIAL_FLAG_IGNORED else SOCIAL_FLAG_FRIEND.

Definition AddToSocialList (friendGuid : Z) (ignore : bool) (s : PlayerSocial) (w : World)
  : bool * PlayerSocial * World :=
  if (if ignore then SOCIALMGR_IGNORE_LIMIT <=? GetNumberOfSocialsWithFlag SOCIAL_FLAG_IGNORED s
      else SOCIALMGR_FRIEND_LIMIT <=? GetNumberOfSocialsWithFlag SOCIAL_FLAG_FRIEND s)
  then (false, s, w)
  else
    let flag := social_flag ignore in
    match m_playerSocialMap s !! friendGuid with
    | Some fi =>
        let w := execute (mkStmt CHAR_UPD_ADD_CHARACTER_SOCIAL_FLAGS
                            [QU8 flag; QU32 (m_playerGUID s); QU32 friendGuid]) w in
        (true, set_list (<[friendGuid := set_fi_Flags (add_flag (fi_Flags fi) flag) fi]>
                           (m_playerSocialMap s)) s, w)
    | None =>
        let w := execute (mkStmt CHAR_INS_CHARACTER_SOCIAL
                            [QU32 (m_playerGUID s); QU32 friendGuid; QU8 flag]) w in
        (true, set_list (<[friendGuid := set_fi_Flags (add_flag 0 flag) FriendInfo_default]>
                           (m_playerSocialMap s)) s, w)
    end.

Definition RemoveFromSocialList (friendGuid : Z) (ignore : bool) (s : PlayerSocial) (w : World)
  : PlayerSocial * World :=
  match m_playerSocialMap s !! friendGuid with
  | None => (s, w)
  | Some fi =>
      let flag := social_flag ignore in
      let fi := set_fi_Flags (del_flag (fi_Flags fi) flag) fi in
      if fi_Flags fi =? 0 then
        (set_list (delete friendGuid (m_playerSocialMap s)) s,
         execute (mkStmt CHAR_DEL_CHARACTER_SOCIAL [QU32 (m_playerGUID s); QU32 friendGuid]) w)
      else
        (set_list (<[friendGuid := fi]> (m_playerSocialMap s)) s,
         execute (mkStmt CHAR_UPD_REM_CHARACTER_SOCIAL_FLAGS
                    [QU8 flag; QU32 (m_playerGUID s); QU32 friendGuid]) w)
  end.

Definition SetFriendNote (friendGuid : Z) (note : string) (s : PlayerSocial) (w : World)
  : outcome (PlayerSocial * World) :=
  match m_playerSocialMap s !! friendGuid with
  | None => Ok (s, w)
  | Some fi =>
      let* note := utf8truncate note 48 in
      Ok (set_list (<[friendGuid := set_fi_Note note fi]> (m_playerSocialMap s)) s,
          execute (mkStmt CHAR_UPD_CHARACTER_SOCIAL_NOTE
                     [QStr note; QU32 (m_playerGUID s); QU32 friendGuid]) w)
  end.

(** ** The manager *)
Section SocialMgr.
Context (cfg : Config).

(** Whether [viewer] is told about [subject]: game masters see everybody,
    players their own team (unless configured otherwise) up to a level of
    staff; and the subject must be visible to the viewer. *)
Definition told_about (viewer subject : Player) : bool :=
  (negb (IsPlayerAccount (p_security viewer))
   || (((p_team subject =? p_team viewer) || CONFIG_ALLOW_TWO_SIDE_WHO_LIST cfg)
       && (p_security subject <=? CONFIG_GM_LEVEL_IN_WHO_LIST cfg)))
  && IsVisibleGloballyFor subject (Some viewer).

(** [GetFriendInfo], with a player given. *)
Definition GetFriendInfo (player : Player) (friendGUID : Z) (friendInfo : FriendInfo) (w : World)
  : FriendInfo :=
  let friendInfo := mkFriendInfo FRIEND_STATUS_OFFLINE (fi_Flags friendInfo) 0 0 0 (fi_Note friendInfo) in
  match FindPlayer friendGUID w with
  | None => friendInfo
  | Some pFriend =>
      let friendInfo :=
        match m_playerSocialMap (GetSocial player w) !! friendGUID with
        | Some own => set_fi_Note (fi_Note own) friendInfo
        | None => friendInfo
        end in
      if told_about player pFriend then
        let status := FRIEND_STATUS_ONLINE in
        let status := if isAFK pFriend then FRIEND_STATUS_AFK else status in
        let status := if isDND pFriend then FRIEND_STATUS_DND else status in
        mkFriendInfo status (fi_Flags friendInfo)
          (if InArena pFriend then 4395 else p_zoneId pFriend)
          (u8 (p_level pFriend)) (u8 (p_class pFriend)) (fi_Note friendInfo)
      else friendInfo
  end.

(** One entry of the contact list. *)
Definition contact_fields (guid : Z) (fi : FriendInfo) : list PField :=
  [U64 guid; U32 (fi_Flags fi); Str (fi_Note fi)] ++
  (if has_flag (fi_Flags fi) SOCIAL_FLAG_FRIEND then
     U8 (fi_Status fi) ::
     (if negb (fi_Status fi =? 0)
      then [U32 (fi_Area fi); U32 (fi_Level fi); U32 (fi_Class fi)] else [])
   else []).

(** [SendSocialList]: refreshes every entry of the list and sends them all. *)
Definition SendSocialList (player : Player) (s : PlayerSocial) (w : World) : PlayerSocial * World :=
  let size_ := u32 (Z.of_nat (size (m_playerSocialMap s))) in
  let m := map_imap (fun g fi => Some (GetFriendInfo player g fi w)) (m_playerSocialMap s) in
  let entries := ordered_entries m in
  (set_list m s,
   SendPacket player (mkPacket SMSG_CONTACT_LIST
     ([U32 7; U32 size_] ++ concat ((fun '(g, fi) => contact_fields g fi) <$> entries))) w).

Definition MakeFriendStatusPacket (result guid : Z) : Packet :=
  mkPacket SMSG_FRIEND_STATUS [U8 result; U64 guid].

Definition BroadcastToFriendListers (player : Player) (packet : Packet) (w : World) : World :=
  foldl (fun w '(g, s) =>
    match m_playerSocialMap s !! p_GUIDLow player with
    | Some fi =>
        if has_flag (fi_Flags fi) SOCIAL_FLAG_FRIEND then
          match FindPlayer (MAKE_NEW_GUID g 0 HIGHGUID_PLAYER) w with
          | Some pFriend => if told_about pFriend player then SendPacket pFriend packet w else w
          | None => w
          end
        else w
    | None => w
    end) w (ordered_entries (m_socialMap w)).

Definition friend_status_packet (player : Player) (result friend_guid : Z) (w : World) : Packet :=
  let fi := GetFriendInfo player friend_guid FriendInfo_default w in
  let data := MakeFriendStatusPacket result friend_guid in
  let note := if (result =? FRIEND_ADDED_OFFLINE) || (result =? FRIEND_ADDED_ONLINE)
              then [Str (fi_Note fi)] else [] in
  let info := if (result =? FRIEND_ADDED_ONLINE) || (result =? FRIEND_ONLINE)
              then [U8 (fi_Status fi); U32 (fi_Area fi); U32 (fi_Level fi); U32 (fi_Class fi)]
              else [] in
  mkPacket (pk_opcode data) (pk_body data ++ note ++ info).

Definition SendFriendStatus (player : Player) (result friend_guid : Z) (broadcast : bool) (w : World)
  : World :=
  let data := friend_status_packet player result friend_guid w in
  if broadcast then BroadcastToFriendListers player data w else SendPacket player data w.

(** [SocialMgr::LoadFromDB]: rows of friend, flags, note; reading stops at the
    combined limit. *)
Fixpoint load_rows (rows : list (Z * Z * string)) (m : gmap Z FriendInfo) : gmap Z FriendInfo :=
  match rows with
  | [] => m
  | (friend_guid, flags, note) :: rows' =>
      let m := <[friend_guid := FriendInfo_new flags note]> m in
      if SOCIALMGR_FRIEND_LIMIT + SOCIALMGR_IGNORE_LIMIT <=? Z.of_nat (size m) then m
      else load_rows rows' m
  end.

Definition SocialMgr_LoadFromDB (rows : list (Z * Z * string)) (guid : Z) (w : World) : World :=
  let social := default PlayerSocial_new (m_socialMap w !! guid) in
  set_social (<[guid := mkSocial (load_rows rows (m_playerSocialMap social)) guid]> (m_socialMap w)) w.

Definition RemovePlayerSocial (guid : Z) (w : World) : World :=
  set_social (delete guid (m_socialMap w)) w.

(** ** Handlers *)

(** A write through [player->GetSocial()]. *)
Definition put_social (player : Player) (s : PlayerSocial) (w : World) : World :=
  set_social (<[p_GUIDLow player := s]> (m_socialMap w)) w.

(** The other values the handlers read: two configuration flags, the race table
    of the client data, and the security level of an account. *)
Context (CONFIG_ALLOW_GM_FRIEND CONFIG_ALLOW_TWO_SIDE_ADD_FRIEND : bool)
        (race_TeamID : Z -> option Z) (GetSecurity : Z -> Z).

Definition TeamForRace (race : Z) : Z :=
  match race_TeamID race with
  | Some t => if t =? 1 then HORDE else ALLIANCE
  | None => ALLIANCE
  end.

Definition HandleContactListOpcode (recv : ByteBuffer) (_player : Player) (w : World)
  : outcome World :=
  let* '(_, recv) := read 4 recv in
  let '(s, w) := SendSocialList _player (GetSocial _player w) w in
  Ok (put_social _player s w).

(** What is asked of the database: the name, with the note kept for the answer. *)
Definition HandleAddFriendOpcode (recv : ByteBuffer) : outcome (option (string * string)) :=
  let* '(friendName, recv) := read_string recv in
  let* '(friendNote, recv) := read_string recv in
  let* n := normalizePlayerName friendName in
  Ok ((fun friendName => (friendName, friendNote)) <$> n).

(** The answer: low GUID, race and account of the character with that name. *)
Definition HandleAddFriendOpcodeCallBack (result : option (Z * Z * Z)) (friendNote : string)
    (player : Player) (w : World) : outcome World :=
  let* '(friendResult, friendGuid, w) :=
    match result with
    | Some (low, race, friendAccountId) =>
        let friendGuid := MAKE_NEW_GUID low 0 HIGHGUID_PLAYER in
        let team := TeamForRace race in
        (if (negb (IsVIPorPlayer (p_security player)) || CONFIG_ALLOW_GM_FRIEND
             || IsVIPorPlayer (GetSecurity friendAccountId)) && negb (friendGuid =? 0) then
          let '(friendResult, w) :=
            if friendGuid =? p_GUID player then (FRIEND_SELF, w)
            else if negb (p_team player =? team) && negb CONFIG_ALLOW_TWO_SIDE_ADD_FRIEND
                    && IsVIPorPlayer (p_security player) && negb (IsVIPAccount (p_security player))
            then (FRIEND_ENEMY, w)
            else if HasFriend (GUID_LOPART friendGuid) (GetSocial player w) then (FRIEND_ALREADY, w)
            else
              let friendResult :=
                match FindPlayer friendGuid w with
                | Some pFriend => if IsVisibleGloballyFor pFriend (Some player)
                                  then FRIEND_ADDED_ONLINE else FRIEND_ADDED_OFFLINE
                | None => FRIEND_ADDED_OFFLINE
                end in
              let '(added, s, w) :=
                AddToSocialList (GUID_LOPART friendGuid) false (GetSocial player w) w in
              (if negb added then FRIEND_LIST_FULL else friendResult, put_social player s w) in
          let* '(s, w) := SetFriendNote (GUID_LOPART friendGuid) friendNote (GetSocial player w) w in
          Ok (friendResult, friendGuid, put_social player s w)
        else Ok (FRIEND_NOT_FOUND, friendGuid, w))
    | None => Ok (FRIEND_NOT_FOUND, 0, w)
    end in
  Ok (SendFriendStatus player friendResult (GUID_LOPART friendGuid) false w).

Definition HandleDelFriendOpcode (recv : ByteBuffer) (_player : Player) (w : World) : outcome World :=
  let* '(FriendGUID, recv) := read 8 recv in
  let '(s, w) := RemoveFromSocialList (GUID_LOPART FriendGUID) false (GetSocial _player w) w in
  Ok (SendFriendStatus _player FRIEND_REMOVED (GUID_LOPART FriendGUID) false (put_social _player s w)).

Definition HandleAddIgnoreOpcode (recv : ByteBuffer) : outcome (option string) :=
  let* '(ignoreName, recv) := read_string recv in
  normalizePlayerName ignoreName.

Definition HandleAddIgnoreOpcodeCallBack (result : option Z) (player : Player) (w : World) : World :=
  let '(ignoreResult, IgnoreGuid, w) :=
    match result with
    | Some low =>
        let IgnoreGuid := MAKE_NEW_GUID low 0 HIGHGUID_PLAYER in
        if negb (IgnoreGuid =? 0) then
          if IgnoreGuid =? p_GUID player then (FRIEND_IGNORE_SELF, IgnoreGuid, w)
          else if HasIgnore (GUID_LOPART IgnoreGuid) (GetSocial player w)
          then (FRIEND_IGNORE_ALREADY, IgnoreGuid, w)
          else
            let '(added, s, w) :=
              AddToSocialList (GUID_LOPART IgnoreGuid) true (GetSocial player w) w in
            (if negb added then FRIEND_IGNORE_FULL else FRIEND_IGNORE_ADDED, IgnoreGuid,
             put_social player s w)
        else (FRIEND_IGNORE_NOT_FOUND, IgnoreGuid, w)
    | None => (FRIEND_IGNORE_NOT_FOUND, 0, w)
    end in
  SendFriendStatus player ignoreResult (GUID_LOPART IgnoreGuid) false w.

Definition HandleDelIgnoreOpcode (recv : ByteBuffer) (_player : Player) (w : World) : outcome World :=
  let* '(IgnoreGUID, recv) := read 8 recv in
  let '(s, w) := RemoveFromSocialList (GUID_LOPART IgnoreGUID) true (GetSocial _player w) w in
  Ok (SendFriendStatus _player FRIEND_IGNORE_REMOVED (GUID_LOPART IgnoreGUID) false
        (put_social _player s w)).

Definition HandleSetContactNotesOpcode (recv : ByteBuffer) (_player : Player) (w : World)
  : outcome World :=
  let* '(guid, recv) := read 8 recv in
  let* '(note, recv) := read_string recv in
  let* '(s, w) := SetFriendNote (GUID_LOPART guid) note (GetSocial _player w) w in
  Ok (put_social _player s w).
End SocialMgr.

(** * Lemmas *)

(** ** Counting *)

(** The number of entries with a flag. *)
Definition count (flag : Z) (m : gmap Z FriendInfo) : nat :=
  length (List.filter (fun '(_, fi) => has_flag (fi_Flags fi) flag) (map_to_list m)).

Lemma foldl_count {A} (P : A -> bool) l n :
  0 <= n -> n + Z.of_nat (length l) < 2 ^ 32 ->
  foldl (fun counter a => if P a then u32 (counter + 1) else counter) n l
  = n + Z.of_nat (length (List.filter P l)).
Proof.
  revert n. induction l as [|a l IH]; intros n Hn Hl; cbn in *; [lia|].
  destruct (P a); cbn; [rewrite wrap_small by lia|]; rewrite IH by lia; lia.
Qed.

Lemma filter_length_perm {A} (P : A -> bool) l l' :
  l ≡ₚ l' -> length (List.filter P l) = length (List.filter P l').
Proof. induction 1; cbn; repeat case_if; cbn; congruence. Qed.

Lemma filter_length_le {A} (P : A -> bool) l : (length (List.filter P l) <= length l)%nat.
Proof. induction l as [|a l IH]; cbn; [lia|]. case_if; cbn; lia. Qed.

Lemma GetNumber_count flag s :
  Z.of_nat (size (m_playerSocialMap s)) < 2 ^ 32 ->
  GetNumberOfSocialsWithFlag flag s = Z.of_nat (count flag (m_playerSocialMap s)).
Proof.
  intros Hs. unfold GetNumberOfSocialsWithFlag, count.
  rewrite (filter_length_perm _ _ _ (symmetry (ordered_entries_perm (m_playerSocialMap s)))).
  rewrite <- (Z.add_0_l (Z.of_nat _)), <- foldl_count.
  { generalize 0. induction (ordered_entries (m_playerSocialMap s)) as [|[g fi] l IH]; intros n; cbn;
      [done|]. by case_if; rewrite IH. }
  { lia. }
  rewrite (Permutation_length (ordered_entries_perm _)), length_map_to_list. lia.
Qed.

Lemma count_insert flag g fi m :
  m !! g = None ->
  count flag (<[g := fi]> m) = ((if has_flag (fi_Flags fi) flag then 1 else 0) + count flag m)%nat.
Proof.
  intros Hg. unfold count. rewrite (filter_length_perm _ _ _ (map_to_list_insert m g fi Hg)).
  cbn. by case_if.
Qed.

Lemma count_delete flag g fi m :
  m !! g = Some fi ->
  count flag m = ((if has_flag (fi_Flags fi) flag then 1 else 0) + count flag (delete g m))%nat.
Proof.
  intros Hg. rewrite <- (insert_delete_id m g fi Hg) at 1. apply count_insert, lookup_delete_eq.
Qed.

Lemma count_update flag g fi fi' m :
  m !! g = Some fi ->
  (count flag (<[g := fi']> m) + (if has_flag (fi_Flags fi) flag then 1 else 0)
   = count flag m + (if has_flag (fi_Flags fi') flag then 1 else 0))%nat.
Proof.
  intros Hg. rewrite <- (insert_delete_eq m g fi'), count_insert by apply lookup_delete_eq.
  rewrite (count_delete flag g fi m Hg). lia.
Qed.

(** ** The invariant of a list

    Every entry is a friend, ignored or both, and there are at most fifty of
    each, which is what the client can hold. *)
Record social_ok (s : PlayerSocial) : Prop := {
  so_flags : forall g fi, m_playerSocialMap s !! g = Some fi -> In (fi_Flags fi) [1; 2; 3];
  so_friends : (count SOCIAL_FLAG_FRIEND (m_playerSocialMap s) <= 50)%nat;
  so_ignores : (count SOCIAL_FLAG_IGNORED (m_playerSocialMap s) <= 50)%nat
}.

Lemma flags_cover f :
  In f [1; 2; 3] -> has_flag f SOCIAL_FLAG_FRIEND = true \/ has_flag f SOCIAL_FLAG_IGNORED = true.
Proof. intros [<-|[<-|[<-|[]]]]; auto. Qed.

Lemma size_counts (m : gmap Z FriendInfo) :
  (forall g fi, m !! g = Some fi -> In (fi_Flags fi) [1; 2; 3]) ->
  (size m <= count SOCIAL_FLAG_FRIEND m + count SOCIAL_FLAG_IGNORED m)%nat.
Proof.
  induction m as [|g fi m Hg IH] using map_ind; intros H; [rewrite map_size_empty; lia|].
  rewrite map_size_insert_None, !count_insert by done.
  assert (size m <= count SOCIAL_FLAG_FRIEND m + count SOCIAL_FLAG_IGNORED m)%nat.
  { apply IH. intros g' fi' H'. apply (H g'). rewrite lookup_insert_ne; [done|]. congruence. }
  destruct (flags_cover (fi_Flags fi)) as [-> | ->].
  - apply (H g). apply lookup_insert_eq.
  - case_if; lia.
  - case_if; lia.
Qed.

Lemma social_ok_size s : social_ok s -> (size (m_playerSocialMap s) <= 100)%nat.
Proof. intros [Hf H1 H2]. pose proof (size_counts _ Hf). lia. Qed.

Lemma social_ok_number s flag :
  social_ok s -> GetNumberOfSocialsWithFlag flag s = Z.of_nat (count flag (m_playerSocialMap s)).
Proof. intros Hs. apply GetNumber_count. pose proof (social_ok_size s Hs). lia. Qed.

(** ** The operations in one form *)
Definition full (ignore : bool) (s : PlayerSocial) : bool :=
  if ignore then SOCIALMGR_IGNORE_LIMIT <=? GetNumberOfSocialsWithFlag SOCIAL_FLAG_IGNORED s
  else SOCIALMGR_FRIEND_LIMIT <=? GetNumberOfSocialsWithFlag SOCIAL_FLAG_FRIEND s.

Definition entry_of (g : Z) (s : PlayerSocial) : FriendInfo :=
  default FriendInfo_default (m_playerSocialMap s !! g).

Definition add_entry (g : Z) (ignore : bool) (s : PlayerSocial) : PlayerSocial :=
  set_list (<[g := set_fi_Flags (add_flag (fi_Flags (entry_of g s)) (social_flag ignore)) (entry_of g s)]>
              (m_playerSocialMap s)) s.

Lemma AddToSocialList_eq g ignore s w :
  AddToSocialList g ignore s w
  = if full ignore s then (false, s, w)
    else (true, add_entry g ignore s,
          emits [Execute (match m_playerSocialMap s !! g with
                          | Some _ => mkStmt CHAR_UPD_ADD_CHARACTER_SOCIAL_FLAGS
                                        [QU8 (social_flag ignore); QU32 (m_playerGUID s); QU32 g]
                          | None => mkStmt CHAR_INS_CHARACTER_SOCIAL
                                      [QU32 (m_playerGUID s); QU32 g; QU8 (social_flag ignore)]
                          end)] w).
Proof.
  unfold AddToSocialList. fold (full ignore s). case_if; [done|]. cbv zeta.
  unfold add_entry, entry_of. by destruct (m_playerSocialMap s !! g).
Qed.

Lemma full_count ignore s :
  social_ok s ->
  full ignore s = (50 <=? Z.of_nat (count (social_flag ignore) (m_playerSocialMap s))).
Proof. intros Hs. unfold full. by destruct ignore; rewrite social_ok_number. Qed.

Lemma HasFlag_entry g (ignore : bool) s :
  (if ignore then HasIgnore g s else HasFriend g s)
  = has_flag (fi_Flags (entry_of g s)) (social_flag ignore).
Proof. unfold HasIgnore, HasFriend, entry_of. by destruct ignore, (m_playerSocialMap s !! g). Qed.

Lemma entry_of_insert g fi m s g' :
  entry_of g' (set_list (<[g := fi]> m) s)
  = if decide (g = g') then fi else default FriendInfo_default (m !! g').
Proof. unfold entry_of. cbn. rewrite lookup_insert. by case_decide. Qed.

(** Adding a flag to, or changing, one entry moves only the count of that flag. *)
Lemma count_put flag g fi s :
  (count flag (<[g := fi]> (m_playerSocialMap s))
   + (if has_flag (fi_Flags (entry_of g s)) flag then 1 else 0)
   = count flag (m_playerSocialMap s) + (if has_flag (fi_Flags fi) flag then 1 else 0))%nat.
Proof.
  unfold entry_of. destruct (m_playerSocialMap s !! g) as [fi0|] eqn:Hg; cbn [default from_option].
  - by apply count_update.
  - rewrite count_insert by done. change (fi_Flags (from_option id FriendInfo_default None)) with 0.
    change (fi_Flags FriendInfo_default) with 0. rewrite has_flag_0. lia.
Qed.

Lemma social_flag_other ignore : Z.land (social_flag ignore) (social_flag (negb ignore)) = 0.
Proof. by destruct ignore. Qed.
Lemma social_flag_nonzero ignore : social_flag ignore <> 0.
Proof. by destruct ignore. Qed.

Lemma flags_add f ignore : In f [0; 1; 2; 3] -> In (add_flag f (social_flag ignore)) [1; 2; 3].
Proof. intros [<-|[<-|[<-|[<-|[]]]]]; destruct ignore; cbn; tauto. Qed.
Lemma flags_del f ignore :
  In f [1; 2; 3] -> del_flag f (social_flag ignore) <> 0 ->
  In (del_flag f (social_flag ignore)) [1; 2; 3].
Proof. intros [<-|[<-|[<-|[]]]]; destruct ignore; cbn; tauto. Qed.

Lemma entry_flags g s : social_ok s -> In (fi_Flags (entry_of g s)) [0; 1; 2; 3].
Proof.
  intros Hs. unfold entry_of. destruct (m_playerSocialMap s !! g) as [fi|] eqn:Hg; [right|by left].
  by eapply so_flags.
Qed.

Lemma social_ok_counts s :
  social_ok s <->
  (forall g fi, m_playerSocialMap s !! g = Some fi -> In (fi_Flags fi) [1; 2; 3])
  /\ forall ignore, (count (social_flag ignore) (m_playerSocialMap s) <= 50)%nat.
Proof.
  split.
  - intros [? ? ?]. split; [done|]. by intros [].
  - intros [Hf Hc]. split; [done|exact (Hc false)|exact (Hc true)].
Qed.

Lemma add_entry_ok g ignore s : social_ok s -> full ignore s = false -> social_ok (add_entry g ignore s).
Proof.
  intros Hs Hfull. pose proof (entry_flags g s Hs) as He. rewrite full_count in Hfull by done.
  apply Z.leb_gt in Hfull. apply social_ok_counts in Hs as [Hf Hc].
  apply social_ok_counts. unfold add_entry. cbn [m_playerSocialMap set_list]. split.
  - intros g' fi. rewrite lookup_insert_Some. intros [[_ <-]|[_ H]]; [by apply flags_add|by eapply Hf].
  - intros i. pose proof (count_put (social_flag i) g
      (set_fi_Flags (add_flag (fi_Flags (entry_of g s)) (social_flag ignore)) (entry_of g s)) s) as Hp.
    cbn [fi_Flags set_fi_Flags] in Hp. specialize (Hc i). destruct (Bool.eqb_spec i ignore) as [->|Hne].
    + rewrite has_flag_add in Hp by apply social_flag_nonzero.
      destruct (has_flag (fi_Flags (entry_of g s)) (social_flag ignore)); lia.
    + assert (i = negb ignore) as -> by (by destruct i, ignore).
      rewrite has_flag_add_other in Hp by apply social_flag_other. lia.
Qed.

Lemma RemoveFromSocialList_eq g ignore s w :
  RemoveFromSocialList g ignore s w
  = match m_playerSocialMap s !! g with
    | None => (s, w)
    | Some fi =>
        if del_flag (fi_Flags fi) (social_flag ignore) =? 0
        then (set_list (delete g (m_playerSocialMap s)) s,
              emits [Execute (mkStmt CHAR_DEL_CHARACTER_SOCIAL [QU32 (m_playerGUID s); QU32 g])] w)
        else (set_list (<[g := set_fi_Flags (del_flag (fi_Flags fi) (social_flag ignore)) fi]>
                          (m_playerSocialMap s)) s,
              emits [Execute (mkStmt CHAR_UPD_REM_CHARACTER_SOCIAL_FLAGS
                       [QU8 (social_flag ignore); QU32 (m_playerGUID s); QU32 g])] w)
    end.
Proof. reflexivity. Qed.

Lemma remove_ok g ignore s w : social_ok s -> social_ok (RemoveFromSocialList g ignore s w).1.
Proof.
  intros Hs. rewrite RemoveFromSocialList_eq. destruct (m_playerSocialMap s !! g) as [fi|] eqn:Hg; [|done].
  apply social_ok_counts in Hs as [Hf Hc]. case_if; bool_props; apply social_ok_counts;
    cbn [fst m_playerSocialMap set_list]; split.
  - intros g' fi' [_ H]%lookup_delete_Some. by eapply Hf.
  - intros i. specialize (Hc i). rewrite (count_delete _ g fi) in Hc by done. lia.
  - intros g' fi'. rewrite lookup_insert_Some. intros [[_ <-]|[_ H]]; [|by eapply Hf].
    apply flags_del; [by eapply Hf|done].
  - intros i. specialize (Hc i).
    pose proof (count_update (social_flag i) g fi
      (set_fi_Flags (del_flag (fi_Flags fi) (social_flag ignore)) fi) _ Hg) as Hu.
    cbn [fi_Flags set_fi_Flags] in Hu. destruct (Bool.eqb_spec i ignore) as [->|Hne].
    + rewrite has_flag_del in Hu. lia.
    + assert (i = negb ignore) as -> by (by destruct i, ignore).
      rewrite has_flag_del_other in Hu by apply social_flag_other. lia.
Qed.

Lemma note_ok g n fi s :
  social_ok s -> m_playerSocialMap s !! g = Some fi ->
  social_ok (set_list (<[g := set_fi_Note n fi]> (m_playerSocialMap s)) s).
Proof.
  intros Hs Hg. apply social_ok_counts in Hs as [Hf Hc]. apply social_ok_counts.
  cbn [m_playerSocialMap set_list]. split.
  - intros g' fi'. rewrite lookup_insert_Some. intros [[_ <-]|[_ H]]; [|by eapply Hf].
    exact (Hf g fi Hg).
  - intros i. specialize (Hc i). pose proof (count_update (social_flag i) g fi (set_fi_Note n fi) _ Hg).
    cbn [fi_Flags set_fi_Note] in *. lia.
Qed.

(** ** Sequences of operations *)
Inductive SocialOp :=
| DoAdd (g : Z) (ignore : bool)
| DoRemove (g : Z) (ignore : bool)
| DoNote (g : Z) (note : string).

Definition social_op (op : SocialOp) (s : PlayerSocial) (w : World) : outcome (PlayerSocial * World) :=
  match op with
  | DoAdd g ignore => let '(_, s, w) := AddToSocialList g ignore s w in Ok (s, w)
  | DoRemove g ignore => Ok (RemoveFromSocialList g ignore s w)
  | DoNote g note => SetFriendNote g note s w
  end.

Fixpoint social_ops (ops : list SocialOp) (s : PlayerSocial) (w : World)
  : outcome (PlayerSocial * World) :=
  match ops with
  | [] => Ok (s, w)
  | op :: ops => let* '(s, w) := social_op op s w in social_ops ops s w
  end.

Lemma social_op_ok op s w s' w' :
  social_ok s -> social_op op s w = Ok (s', w') -> social_ok s'.
Proof.
  intros Hs. destruct op as [g i|g i|g n]; cbn [social_op].
  - rewrite AddToSocialList_eq. destruct (full i s) eqn:Hf; intros [= <- <-]; [done|].
    by apply add_entry_ok.
  - intros [= E]. pose proof (remove_ok g i s w Hs) as H. by rewrite E in H.
  - unfold SetFriendNote. destruct (m_playerSocialMap s !! g) as [fi|] eqn:Hg.
    + destruct (utf8truncate n 48); cbn [obind]; intros [= <- <-]. by apply note_ok.
    + by intros [= <- <-].
Qed.

(** ** The table behind the list

    The social statements, as the queries of [CharacterDatabase.cpp] read:
    rows of [character_social] by owner and friend, a new row getting the
    column's default note. *)
Abbreviation SocialTable := (gmap (Z * Z) (Z * string)).

Definition social_query (note_default : string) (s : Stmt) (t : SocialTable) : SocialTable :=
  match st_id s, st_args s with
  | CHAR_UPD_ADD_CHARACTER_SOCIAL_FLAGS, [QU8 f; QU32 guid; QU32 friend] =>
      alter (fun '(flags, note) => (Z.lor flags f, note)) (guid, friend) t
  | CHAR_UPD_REM_CHARACTER_SOCIAL_FLAGS, [QU8 f; QU32 guid; QU32 friend] =>
      alter (fun '(flags, note) => (Z.land flags (Z.lnot f), note)) (guid, friend) t
  | CHAR_INS_CHARACTER_SOCIAL, [QU32 guid; QU32 friend; QU8 f] =>
      <[(guid, friend) := (f, note_default)]> t
  | CHAR_DEL_CHARACTER_SOCIAL, [QU32 guid; QU32 friend] => delete (guid, friend) t
  | CHAR_UPD_CHARACTER_SOCIAL_NOTE, [QStr n; QU32 guid; QU32 friend] =>
      alter (fun '(flags, _) => (flags, n)) (guid, friend) t
  | _, _ => t
  end.

Definition run_query (note_default : string) (t : SocialTable) (e : Effect) : SocialTable :=
  match e with Execute s => social_query note_default s t | _ => t end.

(** The rows of a list's owner are the list. *)
Definition mirrors (t : SocialTable) (s : PlayerSocial) : Prop :=
  forall g, t !! (m_playerGUID s, g)
            = (fun fi => (fi_Flags fi, fi_Note fi)) <$> m_playerSocialMap s !! g.

Lemma social_op_writes op s w s' w' t :
  social_ok s -> mirrors t s -> social_op op s w = Ok (s', w') ->
  exists es, w' = emits es w /\ m_playerGUID s' = m_playerGUID s
    /\ mirrors (foldl (run_query EmptyString) t es) s'
    /\ (forall o g, o <> m_playerGUID s -> foldl (run_query EmptyString) t es !! (o, g) = t !! (o, g)).
Proof.
  intros Hs Hm. pose proof Hs as [Hf _ _].
  destruct op as [g i|g i|g n]; cbn [social_op].
  - rewrite AddToSocialList_eq. destruct (full i s); intros [= <- <-].
    { exists []. by rewrite emits_nil. }
    eexists. split; [reflexivity|]. split; [done|]. unfold add_entry, entry_of. pose proof (Hm g) as Hg.
    destruct (m_playerSocialMap s !! g) as [fi|]; cbn in Hg |- *; split;
      try (intros o g' Ho; first [rewrite lookup_alter_ne by congruence|rewrite lookup_insert_ne by congruence]; done).
    all: intros g'; unfold mirrors in *; cbn; destruct (decide (g = g')) as [<-|Hne].
    + by rewrite lookup_alter_eq, lookup_insert_eq, Hg.
    + rewrite lookup_alter_ne, lookup_insert_ne by congruence. apply Hm.
    + by rewrite !lookup_insert_eq.
    + rewrite !lookup_insert_ne by congruence. apply Hm.
  - rewrite RemoveFromSocialList_eq. pose proof (Hm g) as Hg.
    destruct (m_playerSocialMap s !! g) as [fi|] eqn:E; cbn in Hg.
    2: { intros [= <- <-]. exists []. by rewrite emits_nil. }
    case_if; intros [= <- <-]; (eexists; split; [reflexivity|]); (split; [done|]); cbn; split;
      try (intros o g' Ho; first [rewrite lookup_alter_ne by congruence|rewrite lookup_delete_ne by congruence]; done).
    all: intros g'; cbn; destruct (decide (g = g')) as [<-|Hne].
    + by rewrite !lookup_delete_eq.
    + rewrite !lookup_delete_ne by congruence. apply Hm.
    + by rewrite lookup_alter_eq, lookup_insert_eq, Hg.
    + rewrite lookup_alter_ne, lookup_insert_ne by congruence. apply Hm.
  - unfold SetFriendNote. pose proof (Hm g) as Hg.
    destruct (m_playerSocialMap s !! g) as [fi|]; cbn in Hg.
    2: { intros [= <- <-]. exists []. by rewrite emits_nil. }
    destruct (utf8truncate n 48) as [n'| |]; cbn [obind]; intros [= <- <-].
    exists [Execute (mkStmt CHAR_UPD_CHARACTER_SOCIAL_NOTE [QStr n'; QU32 (m_playerGUID s); QU32 g])].
    split; [done|]. split; [done|]. cbn. split.
    + intros g'. cbn. destruct (decide (g = g')) as [<-|Hne].
      * by rewrite lookup_alter_eq, lookup_insert_eq, Hg.
      * rewrite lookup_alter_ne, lookup_insert_ne by congruence. apply Hm.
    + intros o g' Ho. by rewrite lookup_alter_ne by congruence.
Qed.

(** * Theorems *)

(** The client's limits hold: starting from a list with at most fifty
    friends and fifty ignores, every sequence of additions, removals and notes
    that runs to its end leaves such a list. *)
Theorem social_limits ops s w s' w' :
  social_ok s -> social_ops ops s w = Ok (s', w') -> social_ok s'.
Proof.
  revert s w. induction ops as [|op ops IH]; intros s w Hs H; cbn in H; [by simplify_eq|].
  destruct (social_op op s w) as [[s1 w1]| |] eqn:E; [|done..]. cbn in H.
  eapply IH; [|exact H]. by eapply social_op_ok.
Qed.

Lemma social_ok_empty g : social_ok (mkSocial ∅ g).
Proof. split; cbn; [intros g' fi; by rewrite lookup_empty|unfold count; rewrite map_to_list_empty; cbn; lia..]. Qed.

Definition ops60 : list SocialOp := (fun n => DoAdd (Z.of_nat n) false) <$> seq 1 60.
Definition list60 : PlayerSocial :=
  match social_ops ops60 (mkSocial ∅ 7) (mkWorld ∅ ∅ ∅ 0 []) with Ok (s, _) => s | _ => PlayerSocial_new end.

Lemma social_limits_witness :
  social_ok list60 /\ size (m_playerSocialMap list60) = 50%nat.
Proof.
  split; [|by vm_compute].
  eapply (social_limits ops60 (mkSocial ∅ 7) (mkWorld ∅ ∅ ∅ 0 [])); [apply social_ok_empty|].
  vm_compute. reflexivity.
Defined.

(** Adding: refused exactly when the list already has fifty with the flag,
    and then nothing happens; otherwise the player has the friend (or ignores
    him), with his other flag and note and everybody else's entry unchanged.
    Removing undoes it for the flag alone. *)
Theorem social_add_remove g ignore s w :
  social_ok s ->
  let '(added, s1, w1) := AddToSocialList g ignore s w in
  let s2 := (RemoveFromSocialList g ignore s1 w1).1 in
  let other := social_flag (negb ignore) in
  added = (Z.of_nat (count (social_flag ignore) (m_playerSocialMap s)) <? 50)
  /\ (added = false -> s1 = s /\ w1 = w)
  /\ (added = true ->
        (if ignore then HasIgnore g s1 else HasFriend g s1) = true
        /\ (if ignore then HasIgnore g s2 else HasFriend g s2) = false
        /\ has_flag (fi_Flags (entry_of g s1)) other = has_flag (fi_Flags (entry_of g s)) other
        /\ has_flag (fi_Flags (entry_of g s2)) other = has_flag (fi_Flags (entry_of g s)) other
        /\ forall g', g' <> g -> m_playerSocialMap s1 !! g' = m_playerSocialMap s !! g'
                                 /\ m_playerSocialMap s2 !! g' = m_playerSocialMap s !! g').
Proof.
  intros Hs. rewrite AddToSocialList_eq, full_count by done. case_if; bool_props.
  { split; [symmetry; apply Z.ltb_ge; lia|]. done. }
  set (w1 := emits _ w). split; [symmetry; apply Z.ltb_lt; lia|]. split; [done|]. intros _.
  set (s1 := add_entry g ignore s).
  set (f1 := add_flag (fi_Flags (entry_of g s)) (social_flag ignore)).
  assert (m_playerSocialMap s1 !! g = Some (set_fi_Flags f1 (entry_of g s))) as Hg
    by apply lookup_insert_eq.
  assert (fi_Flags (entry_of g s1) = f1) as Hf1 by (unfold entry_of; by rewrite Hg).
  assert (fi_Flags (entry_of g (RemoveFromSocialList g ignore s1 w1).1) = del_flag f1 (social_flag ignore)) as Hf2.
  { rewrite RemoveFromSocialList_eq, Hg. cbn [fi_Flags set_fi_Flags]. case_if; bool_props; cbn [fst].
    - unfold entry_of. cbn [m_playerSocialMap set_list]. by rewrite lookup_delete_eq.
    - by rewrite entry_of_insert, decide_True. }
  rewrite !HasFlag_entry, Hf1, Hf2. split; [by apply has_flag_add, social_flag_nonzero|].
  split; [apply has_flag_del|].
  split; [by apply has_flag_add_other, social_flag_other|].
  split; [rewrite has_flag_del_other by apply social_flag_other;
          by apply has_flag_add_other, social_flag_other|].
  intros g' Hne. split; [by apply lookup_insert_ne|].
  rewrite RemoveFromSocialList_eq, Hg. case_if; cbn; [rewrite lookup_delete_ne by done|rewrite lookup_insert_ne by done];
    by apply lookup_insert_ne.
Qed.

Lemma social_add_remove_witness :
  HasFriend 9 (AddToSocialList 9 false (mkSocial ∅ 7) (mkWorld ∅ ∅ ∅ 0 [])).1.2 = true.
Proof.
  pose proof (social_add_remove 9 false (mkSocial ∅ 7) (mkWorld ∅ ∅ ∅ 0 []) (social_ok_empty 7)) as H.
  rewrite AddToSocialList_eq in H |- *. change (full false (mkSocial ∅ 7)) with false in H |- *.
  cbn [fst snd]. destruct H as (_ & _ & H). destruct (H eq_refl) as [Hf _]. exact Hf.
Defined.

(** C40. Write-through: while the rows of the player in [character_social] are
    the list in memory, every operation runs statements after which they are
    again, and touches nobody else's rows.  (The column's default note is the
    empty string, as in the constructor of an entry.) *)
Theorem social_write_through ops s w s' w' t :
  social_ok s -> mirrors t s -> social_ops ops s w = Ok (s', w') ->
  exists es, w' = emits es w
    /\ mirrors (foldl (run_query EmptyString) t es) s'
    /\ (forall o g, o <> m_playerGUID s -> foldl (run_query EmptyString) t es !! (o, g) = t !! (o, g)).
Proof.
  revert s w t. induction ops as [|op ops IH]; intros s w t Hs Hm H; cbn in H.
  { simplify_eq. exists []. by rewrite emits_nil. }
  destruct (social_op op s w) as [[s1 w1]| |] eqn:E; [|done..]. cbn in H.
  destruct (social_op_writes op s w s1 w1 t Hs Hm E) as (es & -> & Hg & Hm1 & Ho1).
  destruct (IH s1 (emits es w) _ (social_op_ok _ _ _ _ _ Hs E) Hm1 H) as (fs & -> & Hm2 & Ho2).
  exists (es ++ fs). rewrite emits_emits, foldl_app. split; [done|]. split; [done|].
  intros o g Ho. rewrite Ho2 by congruence. by apply Ho1.
Qed.

Lemma social_write_through_witness :
  exists es, mirrors (foldl (run_query EmptyString) ∅ es) list60 /\ length es = 50%nat.
Proof.
  assert (mirrors ∅ (mkSocial ∅ 7)) as Hm by (intros g; cbn; by rewrite !lookup_empty).
  destruct (social_write_through ops60 (mkSocial ∅ 7) (mkWorld ∅ ∅ ∅ 0 []) list60
              (match social_ops ops60 (mkSocial ∅ 7) (mkWorld ∅ ∅ ∅ 0 []) with
               | Ok (_, w) => w | _ => mkWorld ∅ ∅ ∅ 0 [] end) ∅
              (social_ok_empty 7) Hm) as (es & E & H & _).
  - vm_compute. reflexivity.
  - exists es. split; [exact H|]. apply (f_equal (fun w => length (w_trace w))) in E.
    cbn in E. rewrite <- E. by vm_compute.
Defined.

(** The players a broadcast about [player] goes to, in the order of the lists. *)
Definition listeners (cfg : Config) (player : Player) (w : World) : list Player :=
  omap (fun '(g, s) =>
    match FindPlayer (MAKE_NEW_GUID g 0 HIGHGUID_PLAYER) w with
    | Some pFriend =>
        if HasFriend (p_GUIDLow player) s && told_about cfg pFriend player then Some pFriend else None
    | None => None
    end) (ordered_entries (m_socialMap w)).

Lemma BroadcastToFriendListers_emits cfg player data w :
  BroadcastToFriendListers cfg player data w
  = emits (concat ((fun pl => sent pl data) <$> listeners cfg player w)) w.
Proof.
  unfold BroadcastToFriendListers.
  set (g := fun (w : World) '((k, s) : Z * PlayerSocial) =>
    match FindPlayer (MAKE_NEW_GUID k 0 HIGHGUID_PLAYER) w with
    | Some pFriend => if HasFriend (p_GUIDLow player) s && told_about cfg pFriend player
                      then sent pFriend data else []
    | None => []
    end).
  rewrite (foldl_emits _ g).
  - f_equal. unfold listeners, g. induction (ordered_entries (m_socialMap w)) as [|[k s] l IH]; [done|].
    cbn. rewrite IH. destruct (FindPlayer _ w); [|done]. by case_if.
  - intros w' [k s]. unfold g, HasFriend.
    destruct (m_playerSocialMap s !! p_GUIDLow player) as [fi|].
    + destruct (has_flag _ _); cbn [andb]; destruct (FindPlayer _ w'); try (by rewrite emits_nil).
      case_if; [apply SendPacket_emits|by rewrite emits_nil].
    + destruct (FindPlayer _ w'); by rewrite emits_nil.
  - by intros es w' [k s].
Qed.

(** A friend's coming, going and changing is broadcast to exactly the
    online players who have him on their list as a friend and may be told about
    him (staff, or players of his team while he is not staff above the
    configured level); nothing else happens. *)
Theorem broadcast_reaches cfg player data w :
  world_ok w ->
  exists es, BroadcastToFriendListers cfg player data w = emits es w
    /\ forall g d, Send g d ∈ es <->
         d = data /\ exists low s pl,
           m_socialMap w !! low = Some s /\ g = MAKE_NEW_GUID low 0 HIGHGUID_PLAYER
           /\ HasFriend (p_GUIDLow player) s = true
           /\ FindPlayer g w = Some pl /\ p_connected pl = true
           /\ told_about cfg pl player = true.
Proof.
  intros Hw. eexists. split; [apply BroadcastToFriendListers_emits|].
  intros g d. rewrite elem_of_sends. apply and_iff_compat_l. split.
  - intros (pl & Hin & Hc & <-). apply list_elem_of_omap in Hin as ([low s] & Hin & Hpl).
    apply elem_of_ordered_entries in Hin.
    destruct (FindPlayer (MAKE_NEW_GUID low 0 HIGHGUID_PLAYER) w) as [q|] eqn:Hf; [|done].
    destruct (HasFriend _ s && _) eqn:Ht; [|done]. injection Hpl as ->. apply andb_true_iff in Ht as [? ?].
    rewrite (FindPlayer_guid _ _ _ Hw Hf). exists low, s, pl. auto 10.
  - intros (low & s & pl & Hs & -> & Hfr & Hf & Hc & Ht). exists pl.
    split; [|split; [done|by eapply FindPlayer_guid]].
    apply list_elem_of_omap. exists (low, s). split; [by apply elem_of_ordered_entries|].
    by rewrite Hf, Hfr, Ht.
Qed.

Definition viewer9 : Player := mkPlayer 9 9 "Bob" 0 1 true ALLIANCE 1 80 1 0 0 [] 0 0 0.
Definition subject7 : Player := mkPlayer 7 7 "Ann" 0 2 true ALLIANCE 1 80 1 0 0 [] 0 0 0.
Definition social_world : World :=
  mkWorld (<[7 := subject7]> (<[9 := viewer9]> ∅))
    (<[9 := (AddToSocialList 7 false (mkSocial ∅ 9) (mkWorld ∅ ∅ ∅ 0 [])).1.2]> ∅) ∅ 0 [].
Definition who_config : Config := mkConfig false false false false false false 3 0.

Lemma social_world_ok : world_ok social_world.
Proof.
  intros g p. cbn. rewrite !lookup_insert_Some, lookup_empty.
  intros [[<- <-]|[_ [[<- <-]|[_ [=]]]]]; done.
Qed.

Lemma broadcast_reaches_witness :
  exists es, BroadcastToFriendListers who_config subject7 (MakeFriendStatusPacket FRIEND_OFFLINE 7)
               social_world = emits es social_world
    /\ Send 9 (MakeFriendStatusPacket FRIEND_OFFLINE 7) ∈ es.
Proof.
  destruct (broadcast_reaches who_config subject7 (MakeFriendStatusPacket FRIEND_OFFLINE 7)
              social_world social_world_ok) as (es & E & H).
  exists es. split; [exact E|]. apply H. split; [reflexivity|].
  exists 9, (AddToSocialList 7 false (mkSocial ∅ 9) (mkWorld ∅ ∅ ∅ 0 [])).1.2, viewer9.
  by vm_compute.
Defined.
