(* ===== verification/Guild.v ===== *)
(** * Guild data: [shade/Guilds/Guilds.h] and the nested classes of [Guilds.cpp]

    The constants, the emblem, the bank rights, the members, the log entries
    and their ring of bounded size, the ranks, the bank tabs and the [Guild]
    record, with the [const] operations.  The operations that change a guild
    are in [GuildOps].

    A member is known by its key in [m_members]; a rank by its index in
    [m_ranks].  [None] is undefined behaviour: an index outside an array, a
    null log holder. *)
From Stdlib Require Import Ascii String ZArith Lia SpecFloat.
From stdpp Require Import base gmap sets list strings.
From S2P Require Import Prelude ByteBuffer Utf8 World.

Open Scope Z_scope.

(** ** Constants *)
Definition GUILD_BANK_MAX_TABS : Z := 6.
Definition GUILD_BANK_MAX_SLOTS : Z := 98.
Definition GUILD_BANK_MONEY_LOGS_TAB : Z := 100.
Definition GUILD_RANKS_MIN_COUNT : Z := 5.
Definition GUILD_RANKS_MAX_COUNT : Z := 10.
Definition GUILD_RANK_NONE : Z := 0xFF.
Definition GUILD_WITHDRAW_MONEY_UNLIMITED : Z := 0xFFFFFFFF.
Definition GUILD_WITHDRAW_SLOT_UNLIMITED : Z := 0xFFFFFFFF.
Definition GUILD_EVENT_LOG_GUID_UNDEFINED : Z := 0xFFFFFFFF.
Definition TAB_UNDEFINED : Z := 0xFF.
Definition GUILD_EVENTLOG_MAX_RECORDS : Z := 100.
Definition GUILD_BANKLOG_MAX_RECORDS : Z := 25.
Definition MAX_GUILD_BANK_TAB_TEXT_LEN : Z := 500.

Definition GUILD_MEMBER_DATA_ZONEID : Z := 0.
Definition GUILD_MEMBER_DATA_LEVEL : Z := 1.

Definition GR_GUILDMASTER : Z := 0.
Definition GR_OFFICER : Z := 1.

Definition GR_RIGHT_EMPTY : Z := 0x40.
Definition GR_RIGHT_GCHATLISTEN : Z := Z.lor GR_RIGHT_EMPTY 0x1.
Definition GR_RIGHT_GCHATSPEAK : Z := Z.lor GR_RIGHT_EMPTY 0x2.
Definition GR_RIGHT_OFFCHATLISTEN : Z := Z.lor GR_RIGHT_EMPTY 0x4.
Definition GR_RIGHT_OFFCHATSPEAK : Z := Z.lor GR_RIGHT_EMPTY 0x8.
Definition GR_RIGHT_INVITE : Z := Z.lor GR_RIGHT_EMPTY 0x10.
Definition GR_RIGHT_REMOVE : Z := Z.lor GR_RIGHT_EMPTY 0x20.
Definition GR_RIGHT_PROMOTE : Z := Z.lor GR_RIGHT_EMPTY 0x80.
Definition GR_RIGHT_DEMOTE : Z := Z.lor GR_RIGHT_EMPTY 0x100.
Definition GR_RIGHT_SETMOTD : Z := Z.lor GR_RIGHT_EMPTY 0x1000.
Definition GR_RIGHT_EPNOTE : Z := Z.lor GR_RIGHT_EMPTY 0x2000.
Definition GR_RIGHT_VIEWOFFNOTE : Z := Z.lor GR_RIGHT_EMPTY 0x4000.
Definition GR_RIGHT_EOFFNOTE : Z := Z.lor GR_RIGHT_EMPTY 0x8000.
Definition GR_RIGHT_MODIFY_GUILD_INFO : Z := Z.lor GR_RIGHT_EMPTY 0x10000.
Definition GR_RIGHT_WITHDRAW_GOLD_LOCK : Z := 0x20000.
Definition GR_RIGHT_WITHDRAW_REPAIR : Z := 0x40000.
Definition GR_RIGHT_WITHDRAW_GOLD : Z := 0x80000.
Definition GR_RIGHT_CREATE_GUILD_EVENT : Z := 0x100000.
Definition GR_RIGHT_ALL : Z := 0x1DF1FF.

Inductive GuildCommandType :=
| GUILD_COMMAND_CREATE | GUILD_COMMAND_INVITE | GUILD_COMMAND_QUIT | GUILD_COMMAND_ROSTER
| GUILD_COMMAND_PROMOTE | GUILD_COMMAND_DEMOTE | GUILD_COMMAND_REMOVE
| GUILD_COMMAND_CHANGE_LEADER | GUILD_COMMAND_EDIT_MOTD | GUILD_COMMAND_GUILD_CHAT
| GUILD_COMMAND_FOUNDER | GUILD_COMMAND_CHANGE_RANK | GUILD_COMMAND_PUBLIC_NOTE
| GUILD_COMMAND_VIEW_TAB | GUILD_COMMAND_MOVE_ITEM | GUILD_COMMAND_REPAIR.
Definition command_code (t : GuildCommandType) : Z :=
  match t with
  | GUILD_COMMAND_CREATE => 0 | GUILD_COMMAND_INVITE => 1 | GUILD_COMMAND_QUIT => 3
  | GUILD_COMMAND_ROSTER => 5 | GUILD_COMMAND_PROMOTE => 6 | GUILD_COMMAND_DEMOTE => 7
  | GUILD_COMMAND_REMOVE => 8 | GUILD_COMMAND_CHANGE_LEADER => 10
  | GUILD_COMMAND_EDIT_MOTD => 11 | GUILD_COMMAND_GUILD_CHAT => 13
  | GUILD_COMMAND_FOUNDER => 14 | GUILD_COMMAND_CHANGE_RANK => 16
  | GUILD_COMMAND_PUBLIC_NOTE => 19 | GUILD_COMMAND_VIEW_TAB => 21
  | GUILD_COMMAND_MOVE_ITEM => 22 | GUILD_COMMAND_REPAIR => 25
  end.

Definition ERR_GUILD_COMMAND_SUCCESS : Z := 0.
Definition ERR_ALREADY_IN_GUILD_S : Z := 3.
Definition ERR_ALREADY_INVITED_TO_GUILD_S : Z := 5.
Definition ERR_GUILD_NAME_INVALID : Z := 6.
Definition ERR_GUILD_LEADER_LEAVE : Z := 8.
Definition ERR_GUILD_PERMISSIONS : Z := 8.
Definition ERR_GUILD_PLAYER_NOT_IN_GUILD : Z := 9.
Definition ERR_GUILD_PLAYER_NOT_FOUND_S : Z := 11.
Definition ERR_GUILD_NOT_ALLIED : Z := 12.
Definition ERR_GUILD_RANK_TOO_HIGH_S : Z := 13.
Definition ERR_GUILD_RANK_TOO_LOW_S : Z := 14.

Definition GE_PROMOTION : Z := 0.
Definition GE_DEMOTION : Z := 1.
Definition GE_MOTD : Z := 2.
Definition GE_JOINED : Z := 3.
Definition GE_LEFT : Z := 4.
Definition GE_REMOVED : Z := 5.
Definition GE_LEADER_CHANGED : Z := 7.
Definition GE_DISBANDED : Z := 8.
Definition GE_RANK_UPDATED : Z := 10.
Definition GE_RANK_DELETED : Z := 11.
Definition GE_SIGNED_ON : Z := 12.
Definition GE_SIGNED_OFF : Z := 13.
Definition GE_BANK_TAB_UPDATED : Z := 16.
Definition GE_BANK_TAB_AND_MONEY_UPDATED : Z := 18.

Definition GUILD_BANK_RIGHT_VIEW_TAB : Z := 0x01.
Definition GUILD_BANK_RIGHT_PUT_ITEM : Z := 0x02.
Definition GUILD_BANK_RIGHT_DEPOSIT_ITEM : Z :=
  Z.lor GUILD_BANK_RIGHT_VIEW_TAB GUILD_BANK_RIGHT_PUT_ITEM.
Definition GUILD_BANK_RIGHT_FULL : Z := 0xFF.

Definition GUILD_BANK_LOG_DEPOSIT_ITEM : Z := 1.
Definition GUILD_BANK_LOG_WITHDRAW_ITEM : Z := 2.
Definition GUILD_BANK_LOG_MOVE_ITEM : Z := 3.
Definition GUILD_BANK_LOG_DEPOSIT_MONEY : Z := 4.
Definition GUILD_BANK_LOG_WITHDRAW_MONEY : Z := 5.
Definition GUILD_BANK_LOG_REPAIR_MONEY : Z := 6.
Definition GUILD_BANK_LOG_MOVE_ITEM2 : Z := 7.

Definition GUILD_EVENT_LOG_INVITE_PLAYER : Z := 1.
Definition GUILD_EVENT_LOG_JOIN_GUILD : Z := 2.
Definition GUILD_EVENT_LOG_PROMOTE_PLAYER : Z := 3.
Definition GUILD_EVENT_LOG_DEMOTE_PLAYER : Z := 4.
Definition GUILD_EVENT_LOG_UNINVITE_PLAYER : Z := 5.
Definition GUILD_EVENT_LOG_LEAVE_GUILD : Z := 6.

Definition GUILDMEMBER_STATUS_NONE : Z := 0.
Definition GUILDMEMBER_STATUS_ONLINE : Z := 1.

Definition CLASS_WARRIOR : Z := 1.
Definition MAX_CLASSES : Z := 12.

Definition SMSG_GUILD_QUERY_RESPONSE : Z := 0x055.
Definition SMSG_GUILD_INVITE : Z := 0x083.
Definition SMSG_GUILD_INFO : Z := 0x088.
Definition SMSG_GUILD_ROSTER : Z := 0x08A.
Definition SMSG_GUILD_EVENT : Z := 0x092.
Definition SMSG_GUILD_COMMAND_RESULT : Z := 0x093.
Definition SMSG_GUILD_BANK_LIST : Z := 0x3E8.
Definition MSG_SAVE_GUILD_EMBLEM : Z := 0x1F1.
Definition MSG_GUILD_BANK_LOG_QUERY : Z := 0x3EE.
Definition MSG_GUILD_PERMISSIONS : Z := 0x3FD.
Definition MSG_GUILD_BANK_MONEY_WITHDRAWN : Z := 0x3FE.
Definition MSG_GUILD_EVENT_LOG_QUERY : Z := 0x3FF.
Definition MSG_QUERY_GUILD_BANK_TEXT : Z := 0x40A.

(** [_GetGuildEventString], by the event's code. *)
Definition _GetGuildEventString (event : Z) : string :=
  default "<None>"%string
    (["Member promotion"; "Member demotion"; "Guild MOTD"; "Member joined"; "Member left";
      "Member removed"; "Leader is"; "Leader changed"; "Guild disbanded"; "Tabard change";
      "Rank updated"; "Rank deleted"; "Member signed on"; "Member signed off";
      "Bank bag slots changed"; "Bank tab purchased"; "Bank tab updated"; "Bank money set";
      "Bank and money updated"; "Bank tab text changed"]%string !! Z.to_nat event).

Definition _GetGuildBankTabPrice (tabId : Z) : Z :=
  match tabId with
  | 0 => 100 | 1 => 250 | 2 => 500 | 3 => 1000 | 4 => 2500 | 5 => 5000
  | _ => 0
  end.

(** ** Emblem *)
Record EmblemInfo := mkEmblem {
  m_style : Z; m_color : Z; m_borderStyle : Z; m_borderColor : Z; m_backgroundColor : Z
}.
Definition EmblemInfo_new : EmblemInfo := mkEmblem 0 0 0 0 0.

Definition EmblemInfo_ReadPacket (b : ByteBuffer) : outcome (EmblemInfo * ByteBuffer) :=
  let* '(style, b) := read 4 b in
  let* '(color, b) := read 4 b in
  let* '(bstyle, b) := read 4 b in
  let* '(bcolor, b) := read 4 b in
  let* '(bg, b) := read 4 b in
  Ok (mkEmblem style color bstyle bcolor bg, b).

Definition EmblemInfo_WritePacket (e : EmblemInfo) : list PField :=
  [U32 (m_style e); U32 (m_color e); U32 (m_borderStyle e); U32 (m_borderColor e);
   U32 (m_backgroundColor e)].

Definition EmblemInfo_SaveToDB (guildId : Z) (e : EmblemInfo) : Stmt :=
  mkStmt CHAR_UPD_GUILD_EMBLEM_INFO
    [QU32 (m_style e); QU32 (m_color e); QU32 (m_borderStyle e); QU32 (m_borderColor e);
     QU32 (m_backgroundColor e); QU32 guildId].

(** ** Bank rights *)
Record GuildBankRightsAndSlots := mkRS { rs_tabId : Z; rs_rights : Z; rs_slots : Z }.
Definition RightsAndSlots_new : GuildBankRightsAndSlots := mkRS TAB_UNDEFINED 0 0.
Definition RightsAndSlots_of (tabId rights slots : Z) : GuildBankRightsAndSlots :=
  mkRS (u8 tabId) (u8 rights) (u32 slots).

Definition SetGuildMasterValues (r : GuildBankRightsAndSlots) : GuildBankRightsAndSlots :=
  mkRS (rs_tabId r) GUILD_BANK_RIGHT_FULL GUILD_WITHDRAW_SLOT_UNLIMITED.
Definition SetTabId (tabId : Z) (r : GuildBankRightsAndSlots) : GuildBankRightsAndSlots :=
  mkRS (u8 tabId) (rs_rights r) (rs_slots r).
(** The getters return signed types. *)
Definition GetTabId (r : GuildBankRightsAndSlots) : Z := s8 (rs_tabId r).
Definition GetSlots (r : GuildBankRightsAndSlots) : Z := s32 (rs_slots r).
Definition GetRights (r : GuildBankRightsAndSlots) : Z := s8 (rs_rights r).

(** ** Members *)
Record Member := mkMember {
  gm_guildId : Z;
  gm_guid : Z;
  gm_name : string;
  gm_zoneId : Z;
  gm_level : Z;
  gm_class : Z;
  gm_flags : Z;
  gm_logoutTime : Z;
  gm_accountId : Z;
  gm_rankId : Z;
  gm_publicNote : string;
  gm_officerNote : string;
  gm_bankWithdraw : list Z
}.

Definition Member_new (now guildId guid rankId : Z) : Member :=
  mkMember guildId guid EmptyString 0 0 0 GUILDMEMBER_STATUS_NONE (u64 now) 0 (u8 rankId)
    EmptyString EmptyString (replicate (Z.to_nat (GUILD_BANK_MAX_TABS + 1)) 0).

Definition set_stats (name : string) (level class zoneId accountId : Z) (m : Member) : Member :=
  mkMember (gm_guildId m) (gm_guid m) name zoneId level class (gm_flags m) (gm_logoutTime m)
    accountId (gm_rankId m) (gm_publicNote m) (gm_officerNote m) (gm_bankWithdraw m).
Definition SetStats_player (p : Player) : Member -> Member :=
  set_stats (c_str (p_name p)) (u8 (p_level p)) (u8 (p_class p)) (p_zoneId p) (p_accountId p).
Definition SetZoneID (id : Z) (m : Member) : Member :=
  set_stats (gm_name m) (gm_level m) (gm_class m) id (gm_accountId m) m.
Definition SetLevel (var : Z) (m : Member) : Member :=
  set_stats (gm_name m) (u8 var) (gm_class m) (gm_zoneId m) (gm_accountId m) m.

Definition set_m_flags (flags : Z) (m : Member) : Member :=
  mkMember (gm_guildId m) (gm_guid m) (gm_name m) (gm_zoneId m) (gm_level m) (gm_class m) flags
    (gm_logoutTime m) (gm_accountId m) (gm_rankId m) (gm_publicNote m) (gm_officerNote m)
    (gm_bankWithdraw m).
Definition AddFlag (var : Z) (m : Member) : Member :=
  set_m_flags (add_flag (gm_flags m) (u8 var)) m.
Definition RemFlag (var : Z) (m : Member) : Member :=
  set_m_flags (del_flag (gm_flags m) (u8 var)) m.
Definition ResetFlags (m : Member) : Member := set_m_flags GUILDMEMBER_STATUS_NONE m.
Definition IsOnline (m : Member) : bool := has_flag (gm_flags m) GUILDMEMBER_STATUS_ONLINE.

Definition set_m_rank (rankId : Z) (m : Member) : Member :=
  mkMember (gm_guildId m) (gm_guid m) (gm_name m) (gm_zoneId m) (gm_level m) (gm_class m)
    (gm_flags m) (gm_logoutTime m) (gm_accountId m) (u8 rankId) (gm_publicNote m)
    (gm_officerNote m) (gm_bankWithdraw m).
Definition set_m_notes (pub off : string) (m : Member) : Member :=
  mkMember (gm_guildId m) (gm_guid m) (gm_name m) (gm_zoneId m) (gm_level m) (gm_class m)
    (gm_flags m) (gm_logoutTime m) (gm_accountId m) (gm_rankId m) pub off (gm_bankWithdraw m).
Definition UpdateLogoutTime (now : Z) (m : Member) : Member :=
  mkMember (gm_guildId m) (gm_guid m) (gm_name m) (gm_zoneId m) (gm_level m) (gm_class m)
    (gm_flags m) (u64 now) (gm_accountId m) (gm_rankId m) (gm_publicNote m) (gm_officerNote m)
    (gm_bankWithdraw m).
Definition set_m_withdraw (l : list Z) (m : Member) : Member :=
  mkMember (gm_guildId m) (gm_guid m) (gm_name m) (gm_zoneId m) (gm_level m) (gm_class m)
    (gm_flags m) (gm_logoutTime m) (gm_accountId m) (gm_rankId m) (gm_publicNote m)
    (gm_officerNote m) l.

Definition IsRank (rankId : Z) (m : Member) : bool := gm_rankId m =? rankId.
Definition IsRankNotLower (rankId : Z) (m : Member) : bool := gm_rankId m <=? rankId.
Definition IsSamePlayer (guid : Z) (m : Member) : bool := gm_guid m =? guid.

Definition CheckStats (m : Member) : bool :=
  negb (gm_level m <? 1) && negb ((gm_class m <? CLASS_WARRIOR) || (MAX_CLASSES <=? gm_class m)).

Definition Member_SaveToDB (m : Member) : Stmt :=
  mkStmt CHAR_INS_GUILD_MEMBER
    [QU32 (gm_guildId m); QU32 (GUID_LOPART (gm_guid m)); QU8 (gm_rankId m);
     QStr (gm_publicNote m); QStr (gm_officerNote m)].

(** The float of the days since the logout, as the bits of a binary32. *)
Definition float_of (z : Z) : spec_float := binary_normalize 24 128 z 0 false.
Definition float_bits (f : spec_float) : Z :=
  match f with
  | S754_zero s => if s then 0x80000000 else 0
  | S754_infinity s => if s then 0xFF800000 else 0x7F800000
  | S754_nan => 0x7FC00000
  | S754_finite s m e =>
      (if s then 0x80000000 else 0)
      + (if Zpos m <? 2 ^ 23 then Zpos m else (e + 150) * 2 ^ 23 + (Zpos m - 2 ^ 23))
  end.
Definition logout_days (now logoutTime : Z) : Z :=
  float_bits (SFdiv 24 128 (float_of (u64 (now - logoutTime))) (float_of DAY)).

Definition Member_WritePacket (now : Z) (sendOfficerNote : bool) (m : Member) : list PField :=
  [U64 (gm_guid m); U8 (gm_flags m); Str (gm_name m); U32 (gm_rankId m); U8 (gm_level m);
   U8 (gm_class m); U8 0; U32 (gm_zoneId m)]
  ++ (if gm_flags m =? 0 then [F32 (logout_days now (gm_logoutTime m))] else [])
  ++ [Str (gm_publicNote m);
      Str (if sendOfficerNote then gm_officerNote m else EmptyString)].

(** [UpdateBankWithdrawValue] on a tab or, at [GUILD_BANK_MAX_TABS], on the money. *)
Definition UpdateBankWithdrawValue (tabId amount : Z) (m : Member) : option (Member * Stmt) :=
  match gm_bankWithdraw m !! Z.to_nat tabId with
  | None => None
  | Some v =>
      let m := set_m_withdraw (<[Z.to_nat tabId := s32 (v + amount)]> (gm_bankWithdraw m)) m in
      Some (m, mkStmt CHAR_INS_GUILD_MEMBER_WITHDRAW
                 (QU32 (GUID_LOPART (gm_guid m)) :: (QU32 <$> (u32 <$> gm_bankWithdraw m))))
  end.
Definition ResetValues (m : Member) : Member :=
  set_m_withdraw (replicate (Z.to_nat (GUILD_BANK_MAX_TABS + 1)) 0) m.
Definition GetBankWithdrawValue (tabId : Z) (m : Member) : option Z :=
  if IsRank GR_GUILDMASTER m then
    Some (s32 (if tabId =? GUILD_BANK_MAX_TABS then GUILD_WITHDRAW_MONEY_UNLIMITED
               else GUILD_WITHDRAW_SLOT_UNLIMITED))
  else gm_bankWithdraw m !! Z.to_nat tabId.

(** ** Event logs *)
Inductive LogEntry :=
| EventLogEntry (guildId guid timestamp eventType playerGuid1 playerGuid2 newRank : Z)
| BankEventLogEntry (guildId guid timestamp eventType bankTabId playerGuid itemOrMoney
                     itemStackCount destTabId : Z).

#[export] Instance LogEntry_eq_dec : EqDecision LogEntry.
Proof. solve_decision. Defined.

Definition entry_guid (e : LogEntry) : Z :=
  match e with EventLogEntry _ g _ _ _ _ _ => g | BankEventLogEntry _ g _ _ _ _ _ _ _ => g end.

Definition IsMoneyEvent (eventType : Z) : bool :=
  (eventType =? GUILD_BANK_LOG_DEPOSIT_MONEY) || (eventType =? GUILD_BANK_LOG_WITHDRAW_MONEY)
  || (eventType =? GUILD_BANK_LOG_REPAIR_MONEY).

(** The statements of [SaveToDB]: delete the row of this number, insert. *)
Definition LogEntry_SaveToDB (e : LogEntry) : list Stmt :=
  match e with
  | EventLogEntry g n t ty p1 p2 r =>
      [mkStmt CHAR_DEL_GUILD_EVENTLOG [QU32 g; QU32 n];
       mkStmt CHAR_INS_GUILD_EVENTLOG [QU32 g; QU32 n; QU8 (u8 ty); QU32 p1; QU32 p2; QU8 r; QU64 t]]
  | BankEventLogEntry g n t ty tab p im c d =>
      [mkStmt CHAR_DEL_GUILD_BANK_EVENTLOG [QU32 g; QU32 n; QU8 tab];
       mkStmt CHAR_INS_GUILD_BANK_EVENTLOG
         [QU32 g; QU32 n; QU8 tab; QU8 (u8 ty); QU32 p; QU32 im; QU16 c; QU8 d; QU64 t]]
  end.

Definition LogEntry_WritePacket (now : Z) (e : LogEntry) : list PField :=
  match e with
  | EventLogEntry _ _ t ty p1 p2 r =>
      [U8 ty; U64 (MAKE_NEW_GUID p1 0 HIGHGUID_PLAYER)]
      ++ (if negb (ty =? GUILD_EVENT_LOG_JOIN_GUILD) && negb (ty =? GUILD_EVENT_LOG_LEAVE_GUILD)
          then [U64 (MAKE_NEW_GUID p2 0 HIGHGUID_PLAYER)] else [])
      ++ (if (ty =? GUILD_EVENT_LOG_PROMOTE_PLAYER) || (ty =? GUILD_EVENT_LOG_DEMOTE_PLAYER)
          then [U8 r] else [])
      ++ [U32 (u32 (now - t))]
  | BankEventLogEntry _ _ t ty _ p im c d =>
      [U8 ty; U64 (MAKE_NEW_GUID p 0 HIGHGUID_PLAYER)]
      ++ (if (ty =? GUILD_BANK_LOG_DEPOSIT_ITEM) || (ty =? GUILD_BANK_LOG_WITHDRAW_ITEM)
          then [U32 im; U32 c]
          else if (ty =? GUILD_BANK_LOG_MOVE_ITEM) || (ty =? GUILD_BANK_LOG_MOVE_ITEM2)
          then [U32 im; U32 c; U8 d]
          else [U32 im])
      ++ [U32 (u32 (now - t))]
  end.

Record LogHolder := mkLogHolder {
  lh_log : list LogEntry; lh_guildId : Z; lh_maxRecords : Z; lh_nextGUID : Z
}.
Definition LogHolder_new (guildId maxRecords : Z) : LogHolder :=
  mkLogHolder [] guildId maxRecords GUILD_EVENT_LOG_GUID_UNDEFINED.

Definition CanInsert (h : LogHolder) : bool := Z.of_nat (length (lh_log h)) <? lh_maxRecords h.

Definition LoadEvent (entry : LogEntry) (h : LogHolder) : LogHolder :=
  mkLogHolder (entry :: lh_log h) (lh_guildId h) (lh_maxRecords h)
    (if lh_nextGUID h =? GUILD_EVENT_LOG_GUID_UNDEFINED then entry_guid entry
     else lh_nextGUID h).

(** The new holder and the statements the entry saves itself with. *)
Definition AddEvent (entry : LogEntry) (h : LogHolder) : option (LogHolder * list Stmt) :=
  let push l :=
    Some (mkLogHolder (l ++ [entry]) (lh_guildId h) (lh_maxRecords h) (lh_nextGUID h),
          LogEntry_SaveToDB entry) in
  if lh_maxRecords h <=? Z.of_nat (length (lh_log h)) then
    match lh_log h with
    | [] => None
    | _ :: l => push l
    end
  else push (lh_log h).

Definition LogHolder_WritePacket (now : Z) (h : LogHolder) : list PField :=
  U8 (u8 (Z.of_nat (length (lh_log h)))) :: concat (LogEntry_WritePacket now <$> lh_log h).

Definition GetNextGUID (h : LogHolder) : option (Z * LogHolder) :=
  let ret n := Some (n, mkLogHolder (lh_log h) (lh_guildId h) (lh_maxRecords h) n) in
  if lh_nextGUID h =? GUILD_EVENT_LOG_GUID_UNDEFINED then ret 0
  else if lh_maxRecords h =? 0 then None
  else ret (u32 (lh_nextGUID h + 1) mod lh_maxRecords h).

(** ** Ranks *)
Record RankInfo := mkRank {
  gr_guildId : Z;
  gr_rankId : Z;
  gr_name : string;
  gr_rights : Z;
  gr_bankMoneyPerDay : Z;
  gr_bankTabRightsAndSlots : list GuildBankRightsAndSlots
}.

Definition no_tabs : list GuildBankRightsAndSlots :=
  replicate (Z.to_nat GUILD_BANK_MAX_TABS) RightsAndSlots_new.
Definition RankInfo_of_guild (guildId : Z) : RankInfo :=
  mkRank guildId GUILD_RANK_NONE EmptyString GR_RIGHT_EMPTY 0 no_tabs.
Definition RankInfo_new (guildId rankId : Z) (name : string) (rights money : Z) : RankInfo :=
  mkRank guildId (u8 rankId) name rights
    (if negb (rankId =? GR_GUILDMASTER) then money else GUILD_WITHDRAW_MONEY_UNLIMITED) no_tabs.

Definition set_r_tabs (l : list GuildBankRightsAndSlots) (r : RankInfo) : RankInfo :=
  mkRank (gr_guildId r) (gr_rankId r) (gr_name r) (gr_rights r) (gr_bankMoneyPerDay r) l.

(** A row of [guild_rank]: guildid, rid, rname, rights, BankMoneyPerDay. *)
Record RankRow := mkRankRow { rr_rid : Z; rr_rname : string; rr_rights : Z; rr_money : Z }.

Definition RankInfo_LoadFromDB (f : RankRow) (r : RankInfo) : RankInfo :=
  let id := u8 (rr_rid f) in
  let rights := u32 (rr_rights f) in
  mkRank (gr_guildId r) id (rr_rname f)
    (if id =? GR_GUILDMASTER then Z.lor rights GR_RIGHT_ALL else rights)
    (u32 (rr_money f)) (gr_bankTabRightsAndSlots r).

Definition RankInfo_SaveToDB (r : RankInfo) : Stmt :=
  mkStmt CHAR_INS_GUILD_RANK
    [QU32 (gr_guildId r); QU8 (gr_rankId r); QStr (gr_name r); QU32 (gr_rights r);
     QU32 (gr_bankMoneyPerDay r)].

Definition bank_right_stmt (guildId tabId rankId : Z) (rs : GuildBankRightsAndSlots) : Stmt :=
  mkStmt CHAR_INS_GUILD_BANK_RIGHT
    [QU32 guildId; QU8 (u8 tabId); QU8 rankId; QU8 (u8 (GetRights rs)); QU32 (u32 (GetSlots rs))].

(** One round of the loop of [CreateMissingTabsIfNeeded], for tab [i]; [None]
    is a tab outside the array. *)
Definition create_missing_tab (i : nat) (r : RankInfo) (trans : list Stmt)
  : option (RankInfo * list Stmt) :=
  match gr_bankTabRightsAndSlots r !! i with
  | None => None
  | Some rs =>
      if GetTabId rs =? Z.of_nat i then Some (r, trans)
      else
        let rs := SetTabId (Z.of_nat i) rs in
        let rs := if gr_rankId r =? GR_GUILDMASTER then SetGuildMasterValues rs else rs in
        Some (set_r_tabs (<[i := rs]> (gr_bankTabRightsAndSlots r)) r,
              trans ++ [bank_right_stmt (gr_guildId r) (Z.of_nat i) (gr_rankId r) rs])
  end.

Definition CreateMissingTabsIfNeeded (tabs : Z) (r : RankInfo) (trans : list Stmt)
  : option (RankInfo * list Stmt) :=
  foldl (fun acc i => '(r, trans) ← acc; create_missing_tab i r trans)
    (Some (r, trans)) (seq 0 (Z.to_nat tabs)).

Definition RankInfo_WritePacket (r : RankInfo) : list PField :=
  [U32 (gr_rights r);
   U32 (if gr_bankMoneyPerDay r =? GUILD_WITHDRAW_MONEY_UNLIMITED
        then GUILD_WITHDRAW_MONEY_UNLIMITED else gr_bankMoneyPerDay r)]
  ++ concat ((fun rs => [U32 (u32 (GetRights rs)); U32 (u32 (GetSlots rs))])
               <$> gr_bankTabRightsAndSlots r).

(** The setters, with the statements they execute. *)
Definition RankInfo_SetName (name : string) (r : RankInfo) : RankInfo * list Stmt :=
  if String.eqb (gr_name r) name then (r, [])
  else (mkRank (gr_guildId r) (gr_rankId r) name (gr_rights r) (gr_bankMoneyPerDay r)
          (gr_bankTabRightsAndSlots r),
        [mkStmt CHAR_UPD_GUILD_RANK_NAME [QStr name; QU8 (gr_rankId r); QU32 (gr_guildId r)]]).

Definition RankInfo_SetRights (rights : Z) (r : RankInfo) : RankInfo * list Stmt :=
  let rights := if gr_rankId r =? GR_GUILDMASTER then GR_RIGHT_ALL else rights in
  if gr_rights r =? rights then (r, [])
  else (mkRank (gr_guildId r) (gr_rankId r) (gr_name r) rights (gr_bankMoneyPerDay r)
          (gr_bankTabRightsAndSlots r),
        [mkStmt CHAR_UPD_GUILD_RANK_RIGHTS [QU32 rights; QU8 (gr_rankId r); QU32 (gr_guildId r)]]).

Definition RankInfo_SetBankMoneyPerDay (money : Z) (r : RankInfo) : RankInfo * list Stmt :=
  let money := if gr_rankId r =? GR_GUILDMASTER then GUILD_WITHDRAW_MONEY_UNLIMITED else money in
  if gr_bankMoneyPerDay r =? money then (r, [])
  else (mkRank (gr_guildId r) (gr_rankId r) (gr_name r) (gr_rights r) money
          (gr_bankTabRightsAndSlots r),
        [mkStmt CHAR_UPD_GUILD_RANK_BANK_MONEY [QU32 money; QU8 (gr_rankId r); QU32 (gr_guildId r)]]).

(** [SetBankTabSlotsAndRights]; the index is the signed [GetTabId]. *)
Definition SetBankTabSlotsAndRights (rs : GuildBankRightsAndSlots) (saveToDB : bool) (r : RankInfo)
  : option (RankInfo * list Stmt) :=
  let rs := if gr_rankId r =? GR_GUILDMASTER then SetGuildMasterValues rs else rs in
  let i := GetTabId rs in
  if (0 <=? i) && (i <? GUILD_BANK_MAX_TABS) then
    Some (set_r_tabs (<[Z.to_nat i := rs]> (gr_bankTabRightsAndSlots r)) r,
          if saveToDB then [bank_right_stmt (gr_guildId r) (GetTabId rs) (gr_rankId r) rs] else [])
  else None.

Definition GetBankMoneyPerDay (r : RankInfo) : Z := s32 (gr_bankMoneyPerDay r).
Definition GetBankTabRights (tabId : Z) (r : RankInfo) : Z :=
  if tabId <? GUILD_BANK_MAX_TABS
  then default 0 (GetRights <$> gr_bankTabRightsAndSlots r !! Z.to_nat tabId) else 0.
Definition GetBankTabSlotsPerDay (tabId : Z) (r : RankInfo) : Z :=
  if tabId <? GUILD_BANK_MAX_TABS
  then default 0 (GetSlots <$> gr_bankTabRightsAndSlots r !! Z.to_nat tabId) else 0.

(** ** Bank tabs *)
Record BankTab := mkBankTab {
  bt_guildId : Z; bt_tabId : Z; bt_name : string; bt_icon : string; bt_text : string
}.
Definition BankTab_new (guildId tabId : Z) : BankTab :=
  mkBankTab guildId (u8 tabId) EmptyString EmptyString EmptyString.

(** A row of [guild_bank_tab]: guildid, TabId, TabName, TabIcon, TabText. *)
Record BankTabRow := mkTabRow { tr_TabId : Z; tr_name : string; tr_icon : string; tr_text : string }.
Definition BankTab_LoadFromDB (f : BankTabRow) (t : BankTab) : BankTab :=
  mkBankTab (bt_guildId t) (bt_tabId t) (tr_name f) (tr_icon f) (tr_text f).
Definition BankTab_LoadItemFromDB (t : BankTab) : bool := true.

(** [WriteSlotPacket] writes nothing and reports every slot as written. *)
Definition WriteSlotPacket (t : BankTab) (slotId : Z) (ignoreEmpty : bool) : bool * list PField :=
  (true, []).
Definition BankTab_WritePacket (t : BankTab) : list PField :=
  let slots := (fun i => WriteSlotPacket t (Z.of_nat i) true)
                 <$> seq 0 (Z.to_nat GUILD_BANK_MAX_SLOTS) in
  U8 (u8 (Z.of_nat (length (List.filter fst slots)))) :: concat (snd <$> slots).
Definition WriteInfoPacket (t : BankTab) : list PField := [Str (bt_name t); Str (bt_icon t)].

Definition BankTab_SetInfo (name icon : string) (t : BankTab) : BankTab * list Stmt :=
  if String.eqb (bt_name t) name && String.eqb (bt_icon t) icon then (t, [])
  else (mkBankTab (bt_guildId t) (bt_tabId t) name icon (bt_text t),
        [mkStmt CHAR_UPD_GUILD_BANK_TAB_INFO
           [QStr name; QStr icon; QU32 (bt_guildId t); QU8 (bt_tabId t)]]).

Definition BankTab_SetText (text : string) (t : BankTab) : outcome (BankTab * list Stmt) :=
  if String.eqb (bt_text t) text then Ok (t, [])
  else
    let* text := utf8truncate text MAX_GUILD_BANK_TAB_TEXT_LEN in
    Ok (mkBankTab (bt_guildId t) (bt_tabId t) (bt_name t) (bt_icon t) text,
        [mkStmt CHAR_UPD_GUILD_BANK_TAB_TEXT [QStr text; QU32 (bt_guildId t); QU8 (bt_tabId t)]]).

Definition SendText_packet (t : BankTab) : Packet :=
  mkPacket MSG_QUERY_GUILD_BANK_TEXT [U8 (bt_tabId t); Str (bt_text t)].

(** ** The guild *)
Record Guild := mkGuild {
  m_id : Z;
  m_name : string;
  m_leaderGuid : Z;
  m_motd : string;
  m_info : string;
  m_createdDate : Z;
  m_emblemInfo : EmblemInfo;
  m_accountsNumber : Z;
  m_bankMoney : Z;
  m_ranks : list RankInfo;
  m_members : gmap Z Member;
  m_bankTabs : list BankTab;
  m_eventLog : option LogHolder;
  m_bankEventLog : list (option LogHolder)
}.

Definition Guild_new : Guild :=
  mkGuild 0 EmptyString 0 EmptyString EmptyString 0 EmblemInfo_new 0 0 [] ∅ [] None
    (replicate (Z.to_nat (GUILD_BANK_MAX_TABS + 1)) None).

Definition set_g_leader (v : Z) (g : Guild) : Guild :=
  mkGuild (m_id g) (m_name g) v (m_motd g) (m_info g) (m_createdDate g) (m_emblemInfo g)
    (m_accountsNumber g) (m_bankMoney g) (m_ranks g) (m_members g) (m_bankTabs g) (m_eventLog g)
    (m_bankEventLog g).
Definition set_g_texts (motd info : string) (g : Guild) : Guild :=
  mkGuild (m_id g) (m_name g) (m_leaderGuid g) motd info (m_createdDate g) (m_emblemInfo g)
    (m_accountsNumber g) (m_bankMoney g) (m_ranks g) (m_members g) (m_bankTabs g) (m_eventLog g)
    (m_bankEventLog g).
Definition set_g_accounts (v : Z) (g : Guild) : Guild :=
  mkGuild (m_id g) (m_name g) (m_leaderGuid g) (m_motd g) (m_info g) (m_createdDate g)
    (m_emblemInfo g) v (m_bankMoney g) (m_ranks g) (m_members g) (m_bankTabs g) (m_eventLog g)
    (m_bankEventLog g).
Definition set_g_money (v : Z) (g : Guild) : Guild :=
  mkGuild (m_id g) (m_name g) (m_leaderGuid g) (m_motd g) (m_info g) (m_createdDate g)
    (m_emblemInfo g) (m_accountsNumber g) v (m_ranks g) (m_members g) (m_bankTabs g) (m_eventLog g)
    (m_bankEventLog g).
Definition set_g_ranks (v : list RankInfo) (g : Guild) : Guild :=
  mkGuild (m_id g) (m_name g) (m_leaderGuid g) (m_motd g) (m_info g) (m_createdDate g)
    (m_emblemInfo g) (m_accountsNumber g) (m_bankMoney g) v (m_members g) (m_bankTabs g)
    (m_eventLog g) (m_bankEventLog g).
Definition set_g_members (v : gmap Z Member) (g : Guild) : Guild :=
  mkGuild (m_id g) (m_name g) (m_leaderGuid g) (m_motd g) (m_info g) (m_createdDate g)
    (m_emblemInfo g) (m_accountsNumber g) (m_bankMoney g) (m_ranks g) v (m_bankTabs g)
    (m_eventLog g) (m_bankEventLog g).
Definition set_g_tabs (v : list BankTab) (g : Guild) : Guild :=
  mkGuild (m_id g) (m_name g) (m_leaderGuid g) (m_motd g) (m_info g) (m_createdDate g)
    (m_emblemInfo g) (m_accountsNumber g) (m_bankMoney g) (m_ranks g) (m_members g) v
    (m_eventLog g) (m_bankEventLog g).
Definition set_g_logs (ev : option LogHolder) (bank : list (option LogHolder)) (g : Guild) : Guild :=
  mkGuild (m_id g) (m_name g) (m_leaderGuid g) (m_motd g) (m_info g) (m_createdDate g)
    (m_emblemInfo g) (m_accountsNumber g) (m_bankMoney g) (m_ranks g) (m_members g) (m_bankTabs g)
    ev bank.

Definition GetMember (guid : Z) (g : Guild) : option Member := m_members g !! GUID_LOPART guid.
Definition _GetRanksSize (g : Guild) : Z := u8 (Z.of_nat (length (m_ranks g))).
Definition GetRankInfo (rankId : Z) (g : Guild) : option RankInfo :=
  if rankId <? _GetRanksSize g then m_ranks g !! Z.to_nat rankId else None.
Definition _GetLowestRankId (g : Guild) : Z := u8 (Z.of_nat (length (m_ranks g)) - 1).
Definition _GetPurchasedTabsSize (g : Guild) : Z := u8 (Z.of_nat (length (m_bankTabs g))).
Definition GetBankTab (tabId : Z) (g : Guild) : option BankTab :=
  if tabId <? Z.of_nat (length (m_bankTabs g)) then m_bankTabs g !! Z.to_nat tabId else None.

Definition _GetRankName (rankId : Z) (g : Guild) : string :=
  match GetRankInfo rankId g with Some r => gr_name r | None => "<unknown>" end.
Definition _GetRankRights (rankId : Z) (g : Guild) : Z :=
  match GetRankInfo rankId g with Some r => gr_rights r | None => 0 end.
Definition _GetRankBankMoneyPerDay (rankId : Z) (g : Guild) : Z :=
  match GetRankInfo rankId g with Some r => GetBankMoneyPerDay r | None => 0 end.
Definition _GetRankBankTabSlotsPerDay (rankId tabId : Z) (g : Guild) : Z :=
  if tabId <? _GetPurchasedTabsSize g then
    match GetRankInfo rankId g with Some r => GetBankTabSlotsPerDay tabId r | None => 0 end
  else 0.
Definition _GetRankBankTabRights (rankId tabId : Z) (g : Guild) : Z :=
  match GetRankInfo rankId g with Some r => GetBankTabRights tabId r | None => 0 end.

Definition _HasRankRight (guid right : Z) (g : Guild) : bool :=
  match GetMember guid g with
  | Some member => negb (Z.land (_GetRankRights (gm_rankId member) g) right =? GR_RIGHT_EMPTY)
  | None => false
  end.

Definition _IsLeader (player : Player) (g : Guild) : bool :=
  if p_GUID player =? m_leaderGuid g then true
  else match GetMember (p_GUID player) g with
       | Some member => IsRank GR_GUILDMASTER member
       | None => false
       end.

(** The differences are of [int32]s and wrap as compiled code does. *)
Definition _GetMemberRemainingSlots (member : Member) (tabId : Z) (g : Guild) : option Z :=
  let rankId := gm_rankId member in
  if rankId =? GR_GUILDMASTER then Some (s32 GUILD_WITHDRAW_SLOT_UNLIMITED)
  else if has_flag (_GetRankBankTabRights rankId tabId g) GUILD_BANK_RIGHT_VIEW_TAB then
    used ← GetBankWithdrawValue tabId member;
    let remaining := s32 (_GetRankBankTabSlotsPerDay rankId tabId g - used) in
    Some (if 0 <? remaining then remaining else 0)
  else Some 0.

Definition _GetMemberRemainingMoney (member : Member) (g : Guild) : option Z :=
  let rankId := gm_rankId member in
  if rankId =? GR_GUILDMASTER then Some (s32 GUILD_WITHDRAW_MONEY_UNLIMITED)
  else if has_flag (_GetRankRights rankId g) (Z.lor GR_RIGHT_WITHDRAW_REPAIR GR_RIGHT_WITHDRAW_GOLD)
  then
    used ← GetBankWithdrawValue GUILD_BANK_MAX_TABS member;
    let remaining := s32 (_GetRankBankMoneyPerDay rankId g - used) in
    Some (if 0 <? remaining then remaining else 0)
  else Some 0.

Definition _MemberHasTabRights (guid tabId rights : Z) (g : Guild) : bool :=
  match GetMember guid g with
  | Some member =>
      if IsRank GR_GUILDMASTER member || (m_leaderGuid g =? guid) then true
      else Z.land (u32 (_GetRankBankTabRights (gm_rankId member) tabId g)) rights =? rights
  | None => false
  end.

Section Iteration.
Context `{UnorderedIter}.

Definition members_in_order (g : Guild) : list (Z * Member) := uiter (m_members g).

(** [GetMember(name)]: the first member with the name, by its key. *)
Definition GetMemberByName (name : string) (g : Guild) : option Z :=
  fst <$> List.find (fun '(_, m) => String.eqb (gm_name m) name) (members_in_order g).

(** The number of distinct accounts of the members. *)
Definition accounts_of (g : Guild) : list Z := (fun '(_, m) => gm_accountId m) <$> members_in_order g.
Definition _UpdateAccountsNumber (g : Guild) : Guild :=
  set_g_accounts (u32 (Z.of_nat (size (list_to_set (accounts_of g) : gset Z)))) g.

(** ** Broadcasts *)
Definition BroadcastPacket (packet : Packet) (g : Guild) (w : World) : World :=
  foldl (fun w '(_, m) =>
           match FindPlayer (gm_guid m) w with
           | Some player => SendPacket player packet w
           | None => w
           end) w (members_in_order g).

Definition BroadcastPacketToRank (packet : Packet) (rankId : Z) (g : Guild) (w : World) : World :=
  foldl (fun w '(_, m) =>
           if IsRank rankId m then
             match FindPlayer (gm_guid m) w with
             | Some player => SendPacket player packet w
             | None => w
             end
           else w) w (members_in_order g).

(** [_BroadcastEvent]: the parameters that are not null, in order. *)
Definition event_packet (guildEvent guid : Z) (params : list string) : Packet :=
  mkPacket SMSG_GUILD_EVENT
    ([U8 guildEvent; U8 (Z.of_nat (length params))] ++ ((fun s => Str (c_str s)) <$> params)
     ++ (if guid =? 0 then [] else [U64 guid])).
Definition _BroadcastEvent (guildEvent guid : Z) (params : list string) (g : Guild) (w : World) : World :=
  BroadcastPacket (event_packet guildEvent guid params) g w.

(** [BroadcastToGuild], with the packet of [ChatHandler::BuildChatPacket] for a
    guild or officer message. *)
Definition CHAT_MSG_GUILD : Z := 0x04.
Definition CHAT_MSG_OFFICER : Z := 0x05.
Definition SMSG_GM_MESSAGECHAT : Z := 0x3B3.

Definition guild_chat_packet (sender : Player) (officerOnly : bool) (language : Z) (msg : string) : Packet :=
  mkPacket (if isGameMaster sender then SMSG_GM_MESSAGECHAT else SMSG_MESSAGECHAT)
    ([U8 (if officerOnly then CHAT_MSG_OFFICER else CHAT_MSG_GUILD); I32 language;
      U64 (p_GUID sender); U32 0]
     ++ (if isGameMaster sender
         then let name := c_str (p_name sender) in
              [U32 (u32 (Z.of_nat (String.length name) + 1)); Str name] else [])
     ++ [U64 0; U32 (u32 (Z.of_nat (String.length msg) + 1)); Str msg; U8 (GetChatTag sender)]).

Definition BroadcastToGuild (session : option Player) (officerOnly : bool) (msg : string) (language : Z)
    (g : Guild) (w : World) : World :=
  match session with
  | None => w
  | Some sender =>
      if _HasRankRight (p_GUID sender)
           (if officerOnly then GR_RIGHT_OFFCHATSPEAK else GR_RIGHT_GCHATSPEAK) g then
        let data := guild_chat_packet sender officerOnly language msg in
        foldl (fun w '(_, m) =>
                 match FindPlayer (gm_guid m) w with
                 | Some player =>
                     if _HasRankRight (p_GUID player)
                          (if officerOnly then GR_RIGHT_OFFCHATLISTEN else GR_RIGHT_GCHATLISTEN) g
                        && negb (HasIgnore (p_GUIDLow sender) (GetSocial player w))
                     then SendPacket player data w else w
                 | None => w
                 end) w (members_in_order g)
      else w
  end.
End Iteration.
