(* ===== verification/GuildOps.v ===== *)
(** * Guild operations: the methods of [shade/Guilds/Guilds.cpp] that act

    A method of [Guild] is a computation on the guild object and the world,
    [G A]; it has no result ([None]) when the code's behaviour is undefined or
    an [ASSERT] fails.  A [ClientSession*] is the GUID of its player, who is
    looked up each time the code dereferences [GetPlayer()]; a [Member*] is the
    member's key, a [RankInfo*] its index.  Calls of other components on the way
    are the functions of [World]; [sGuildMgr->RemoveGuild], the petition store
    and [delete this] are effects of the trace. *)
From Stdlib Require Import Ascii String ZArith Lia.
From stdpp Require Import base gmap sets list strings.
From S2P Require Import Prelude ByteBuffer Utf8 World Guild.

Open Scope Z_scope.

(** ** The monad *)
Definition GState : Type := Guild * World.
Definition G (A : Type) : Type := GState -> option (A * GState).

#[export] Instance G_ret : MRet G := fun A a s => Some (a, s).
#[export] Instance G_bind : MBind G := fun A B f m s =>
  match m s with Some (a, s') => f a s' | None => None end.

Definition undefined {A} : G A := fun _ => None.
Definition getg : G Guild := fun s => Some (fst s, s).
Definition getw : G World := fun s => Some (snd s, s).
Definition modg (f : Guild -> Guild) : G unit := fun s => Some (tt, (f (fst s), snd s)).
Definition modw (f : World -> World) : G unit := fun s => Some (tt, (fst s, f (snd s))).
Definition lift {A} (o : option A) : G A := fun s => match o with Some a => Some (a, s) | None => None end.
Definition when (b : bool) (m : G unit) : G unit := if b then m else mret tt.

Fixpoint for_each {A} (l : list A) (f : A -> G unit) : G unit :=
  match l with
  | [] => mret tt
  | a :: l => f a ;; for_each l f
  end.

Definition exec (s : Stmt) : G unit := modw (execute s).
Definition commit (trans : list Stmt) : G unit := modw (CommitTransaction trans).

(** [session->GetPlayer()] and [session->SendPacket]. *)
Definition GetPlayer (session : Z) : G Player := w ← getw; lift (FindPlayer session w).
Definition send (session : Z) (data : Packet) : G unit :=
  p ← GetPlayer session; modw (SendPacket p data).

(** Reads and writes through a [Member*]. *)
Definition deref (key : Z) : G Member := g ← getg; lift (m_members g !! key).
Definition store (key : Z) (m : Member) : G unit :=
  modg (fun g => set_g_members (<[key := m]> (m_members g)) g).

(** [sprintf(aux, "%u", v)] into [char aux[2]]: room for one digit. *)
Definition sprintf_aux (v : Z) : G string :=
  if v <? 10 then mret (print_u64 v) else undefined.

(** ** Members *)
Definition SetPublicNote (key : Z) (note : string) : G unit :=
  m ← deref key;
  if String.eqb (gm_publicNote m) note then mret tt
  else store key (set_m_notes note (gm_officerNote m) m) ;;
       exec (mkStmt CHAR_UPD_GUILD_MEMBER_PNOTE [QStr note; QU32 (GUID_LOPART (gm_guid m))]).

Definition SetOfficerNote (key : Z) (note : string) : G unit :=
  m ← deref key;
  if String.eqb (gm_officerNote m) note then mret tt
  else store key (set_m_notes (gm_publicNote m) note m) ;;
       exec (mkStmt CHAR_UPD_GUILD_MEMBER_OFFNOTE [QStr note; QU32 (GUID_LOPART (gm_guid m))]).

Definition ChangeRank (key newRank : Z) : G unit :=
  m ← deref key;
  store key (set_m_rank newRank m) ;;
  w ← getw;
  match FindPlayer (gm_guid m) w with
  | Some player => modw (update_player (SetRank newRank) player)
  | None => mret tt
  end ;;
  exec (mkStmt CHAR_UPD_GUILD_MEMBER_RANK [QU8 (u8 newRank); QU32 (GUID_LOPART (gm_guid m))]).

Definition _DeleteMemberFromDB (lowguid : Z) : G unit :=
  exec (mkStmt CHAR_DEL_GUILD_MEMBER [QU32 lowguid]).

(** ** Answers to a session *)
Definition SendCommandResult (session : Z) (type : GuildCommandType) (errCode : Z) (param : string)
  : G unit :=
  send session (mkPacket SMSG_GUILD_COMMAND_RESULT [U32 (command_code type); Str param; U32 errCode]).
Definition SendSaveEmblemResult (session errCode : Z) : G unit :=
  send session (mkPacket MSG_SAVE_GUILD_EMBLEM [U32 errCode]).

(** ** Ranks *)

(** An operation through a [RankInfo*]; the statements are executed at once. *)
Definition on_rank (rankId : Z) (f : RankInfo -> option (RankInfo * list Stmt)) : G unit :=
  g ← getg;
  match GetRankInfo rankId g with
  | None => mret tt
  | Some r =>
      '(r', stmts) ← lift (f r);
      modg (fun g => set_g_ranks (<[Z.to_nat rankId := r']> (m_ranks g)) g) ;;
      for_each stmts exec
  end.

Definition _SetRankBankMoneyPerDay (rankId moneyPerDay : Z) : G unit :=
  on_rank rankId (fun r => Some (RankInfo_SetBankMoneyPerDay moneyPerDay r)).

(** The guard compares the signed [GetTabId] with the unsigned size. *)
Definition _SetRankBankTabRightsAndSlots (rankId : Z) (rs : GuildBankRightsAndSlots) (saveToDB : bool)
  : G unit :=
  g ← getg;
  if _GetPurchasedTabsSize g <=? GetTabId rs then mret tt
  else on_rank rankId (SetBankTabSlotsAndRights rs saveToDB).

Section Guild.
Context `{UnorderedIter} (cfg : Config).
(** The text table of the database, by identifier and locale. *)
Context (GetTrinityString : Z -> Z -> string).
(** The row [CHAR_SEL_CHAR_DATA_FOR_GUILD] gives for a character: name, level,
    class, zone, account. *)
Context (QueryCharData : Z -> option (string * Z * Z * Z * Z)).
(** The C library's [localtime_r]. *)
Context (localtime : Z -> tm).

Definition broadcast (guildEvent guid : Z) (params : list string) : G unit :=
  g ← getg; modw (_BroadcastEvent guildEvent guid params g).

Definition LANG_GUILD_MASTER : Z := 811.
Definition LANG_GUILD_OFFICER : Z := 812.
Definition LANG_GUILD_VETERAN : Z := 813.
Definition LANG_GUILD_MEMBER : Z := 814.
Definition LANG_GUILD_INITIATE : Z := 815.
Definition DEFAULT_LOCALE : Z := 0.

(** [_CreateRank]: the rank is copied into the vector before its tabs are
    created, so the tabs reach the database and not the vector. *)
Definition _CreateRank (name : string) (rights : Z) : G bool :=
  g ← getg;
  let newRankId := _GetRanksSize g in
  if GUILD_RANKS_MAX_COUNT <=? newRankId then mret false
  else
    let info := RankInfo_new (m_id g) newRankId name rights 0 in
    modg (fun g => set_g_ranks (m_ranks g ++ [info]) g) ;;
    '(info, trans) ← lift (CreateMissingTabsIfNeeded (_GetPurchasedTabsSize g) info []);
    commit (trans ++ [RankInfo_SaveToDB info]) ;;
    mret true.

Definition _CreateDefaultGuildRanks (loc : Z) : G unit :=
  g ← getg;
  exec (mkStmt CHAR_DEL_GUILD_RANKS [QU32 (m_id g)]) ;;
  exec (mkStmt CHAR_DEL_GUILD_BANK_RIGHTS [QU32 (m_id g)]) ;;
  let chat := Z.lor GR_RIGHT_GCHATLISTEN GR_RIGHT_GCHATSPEAK in
  _CreateRank (GetTrinityString LANG_GUILD_MASTER loc) GR_RIGHT_ALL ;;
  _CreateRank (GetTrinityString LANG_GUILD_OFFICER loc) GR_RIGHT_ALL ;;
  _CreateRank (GetTrinityString LANG_GUILD_VETERAN loc) chat ;;
  _CreateRank (GetTrinityString LANG_GUILD_MEMBER loc) chat ;;
  _CreateRank (GetTrinityString LANG_GUILD_INITIATE loc) chat ;;
  mret tt.

Definition _SetLeaderGUID (key : Z) : G unit :=
  m ← deref key;
  modg (set_g_leader (gm_guid m)) ;;
  ChangeRank key GR_GUILDMASTER ;;
  g ← getg;
  exec (mkStmt CHAR_UPD_GUILD_LEADER [QU32 (GUID_LOPART (m_leaderGuid g)); QU32 (m_id g)]).

(** ** Logs *)
Definition _CreateLogHolders : G unit :=
  modg (fun g =>
    set_g_logs (Some (LogHolder_new (m_id g) GUILD_EVENTLOG_MAX_RECORDS))
      (replicate (Z.to_nat (GUILD_BANK_MAX_TABS + 1))
         (Some (LogHolder_new (m_id g) GUILD_BANKLOG_MAX_RECORDS))) g).

Definition _LogEvent (eventType playerGuid1 playerGuid2 newRank : Z) : G unit :=
  g ← getg; w ← getw;
  h ← lift (m_eventLog g);
  '(n, h) ← lift (GetNextGUID h);
  '(h, trans) ← lift (AddEvent (EventLogEntry (m_id g) n (w_time w) eventType
                        playerGuid1 playerGuid2 (u8 newRank)) h);
  modg (fun g => set_g_logs (Some h) (m_bankEventLog g) g) ;;
  commit trans.

Definition _LogBankEvent (trans : list Stmt) (eventType tabId lowguid itemOrMoney itemStackCount destTabId : Z)
  : G (list Stmt) :=
  if GUILD_BANK_MAX_TABS <? tabId then mret trans
  else if (eventType =? GUILD_BANK_LOG_MOVE_ITEM) && (tabId =? destTabId) then mret trans
  else
    let money := IsMoneyEvent eventType in
    let dbTabId := if money then GUILD_BANK_MONEY_LOGS_TAB else tabId in
    let tabId := if money then GUILD_BANK_MAX_TABS else tabId in
    g ← getg; w ← getw;
    h ← lift (mjoin (m_bankEventLog g !! Z.to_nat tabId));
    '(n, h) ← lift (GetNextGUID h);
    '(h, stmts) ← lift (AddEvent (BankEventLogEntry (m_id g) n (w_time w) eventType dbTabId
                          lowguid itemOrMoney itemStackCount destTabId) h);
    modg (fun g => set_g_logs (m_eventLog g) (<[Z.to_nat tabId := Some h]> (m_bankEventLog g)) g) ;;
    mret (trans ++ stmts).

(** ** The bank *)
Definition _ModifyBankMoney (trans : list Stmt) (amount : Z) (add : bool) : G (bool * list Stmt) :=
  g ← getg;
  if negb add && (m_bankMoney g <? amount) then mret (false, trans)
  else
    let money := if add then u64 (m_bankMoney g + amount) else m_bankMoney g - amount in
    modg (set_g_money money) ;;
    mret (true, trans ++ [mkStmt CHAR_UPD_GUILD_BANK_MONEY [QU64 money; QU32 (m_id g)]]).

Definition create_tabs_of (tabs : Z) (acc : option (list RankInfo * list Stmt)) (r : RankInfo)
  : option (list RankInfo * list Stmt) :=
  '(rs, trans) ← acc;
  '(r, trans) ← CreateMissingTabsIfNeeded tabs r trans;
  Some (rs ++ [r], trans).

Definition _CreateNewBankTab : G unit :=
  g ← getg;
  let tabId := _GetPurchasedTabsSize g in
  modg (fun g => set_g_tabs (m_bankTabs g ++ [BankTab_new (m_id g) tabId]) g) ;;
  let trans := [mkStmt CHAR_DEL_GUILD_BANK_TAB [QU32 (m_id g); QU8 tabId];
                mkStmt CHAR_INS_GUILD_BANK_TAB [QU32 (m_id g); QU8 tabId]] in
  '(ranks, trans) ← lift (foldl (create_tabs_of (u8 (tabId + 1))) (Some ([], trans)) (m_ranks g));
  modg (set_g_ranks ranks) ;;
  commit trans.

(** [BankTab::Delete] does nothing, so only the tabs go. *)
Definition _DeleteBankItems : G unit := modg (set_g_tabs []).

Definition _UpdateMemberWithdrawSlots (trans : list Stmt) (guid tabId : Z) : G (list Stmt) :=
  g ← getg;
  match GetMember guid g with
  | None => mret trans
  | Some m =>
      if gm_rankId m =? GR_GUILDMASTER then mret trans
      else
        used ← lift (GetBankWithdrawValue tabId m);
        if used <? _GetRankBankTabSlotsPerDay (gm_rankId m) tabId g then
          '(m, stmt) ← lift (UpdateBankWithdrawValue tabId 1 m);
          store (GUID_LOPART guid) m ;;
          mret (trans ++ [stmt])
        else mret trans
  end.

(** [_SendBankList]: the count of remaining slots is written over the
    placeholder before each send. *)
Definition bank_list_packet (tabId : Z) (sendAllSlots : bool) (slots : option (list Z)) (g : Guild)
    (numSlots : Z) : Packet :=
  mkPacket SMSG_GUILD_BANK_LIST
    ([U64 (m_bankMoney g); U8 tabId; U32 (u32 numSlots); U8 (if sendAllSlots then 1 else 0)]
     ++ (if sendAllSlots && (tabId =? 0)
         then U8 (_GetPurchasedTabsSize g) :: concat (WriteInfoPacket <$> m_bankTabs g) else [])
     ++ match GetBankTab tabId g with
        | None => [U8 0]
        | Some tab =>
            if sendAllSlots then BankTab_WritePacket tab
            else match slots with
                 | Some (_ :: _ as l) =>
                     U8 (u8 (Z.of_nat (length l)))
                     :: concat ((fun s => snd (WriteSlotPacket tab s false)) <$> l)
                 | _ => [U8 0]
                 end
        end).

Definition _SendBankList (session : option Z) (tabId : Z) (sendAllSlots : bool) (slots : option (list Z))
  : G unit :=
  g ← getg;
  match session with
  | Some s =>
      numSlots ← match GetMember s g with
                 | Some member => lift (_GetMemberRemainingSlots member tabId g)
                 | None => mret 0
                 end;
      send s (bank_list_packet tabId sendAllSlots slots g numSlots)
  | None =>
      for_each (members_in_order g) (fun '(_, m) =>
        if _MemberHasTabRights (gm_guid m) tabId GUILD_BANK_RIGHT_VIEW_TAB g then
          w ← getw;
          match FindPlayer (gm_guid m) w with
          | None => mret tt
          | Some player =>
              numSlots ← lift (_GetMemberRemainingSlots m tabId g);
              modw (SendPacket player (bank_list_packet tabId sendAllSlots slots g numSlots))
          end
        else mret tt)
  end.

Definition _SendBankContent (session tabId : Z) : G unit :=
  g ← getg;
  when (_MemberHasTabRights session tabId GUILD_BANK_RIGHT_VIEW_TAB g)
    (_SendBankList (Some session) tabId true None).
Definition _SendBankMoneyUpdate (session : Z) : G unit := _SendBankList (Some session) 0 false None.

(** ** Moving items

    [PlayerMoveItemData] and [BankMoveItemData]: the operations on the items are
    empty, [InitItem] finds none. *)
Record MoveItemData := mkMove { mi_bank : bool; mi_player : Z; mi_container : Z; mi_slotId : Z }.

Definition InitItem (d : MoveItemData) : bool := false.
Definition CheckItem (d : MoveItemData) (splitedAmount : Z) : bool := true.
Definition CloneItem (d : MoveItemData) (count : Z) : bool := true.
Definition CopySlots (d : MoveItemData) (ids : list Z) : list Z := ids.

Definition same_tab (d other : MoveItemData) : bool :=
  mi_bank other && (mi_container other =? mi_container d).

Definition HasStoreRights (d other : MoveItemData) (g : Guild) : bool :=
  if negb (mi_bank d) then true
  else if same_tab d other then true
  else _MemberHasTabRights (mi_player d) (mi_container d) GUILD_BANK_RIGHT_DEPOSIT_ITEM g.

Definition HasWithdrawRights (d other : MoveItemData) (g : Guild) : option bool :=
  if negb (mi_bank d) then Some true
  else if same_tab d other then Some true
  else
    match GetMember (mi_player d) g with
    | Some member =>
        slots ← _GetMemberRemainingSlots member (mi_container d) g;
        Some (negb (slots =? 0))
    | None => Some false
    end.

Definition _DoItemsMove (src dest : MoveItemData) (sendError : bool) (splitedAmount : Z) : bool := false.

Definition _SendBankContentUpdate (src dest : MoveItemData) : G unit :=
  if negb (mi_bank src || mi_bank dest) then undefined
  else if mi_bank src then
    let slots := [mi_slotId src] in
    slots ← (if mi_bank dest then
               if mi_container dest =? mi_container src then mret (CopySlots dest slots)
               else _SendBankList None (mi_container dest) false (Some (CopySlots dest [])) ;; mret slots
             else mret slots);
    _SendBankList None (mi_container src) false (Some slots)
  else _SendBankList None (mi_container dest) false (Some (CopySlots dest [])).

Definition _MoveItems (src dest : MoveItemData) (splitedAmount : Z) : G unit :=
  g ← getg;
  if negb (InitItem src) then mret tt
  else if negb (CheckItem src splitedAmount) then mret tt
  else if negb (HasStoreRights dest src g) then mret tt
  else
    ok ← lift (HasWithdrawRights src dest g);
    if negb ok then mret tt
    else if negb (splitedAmount =? 0) then
      if negb (CloneItem src splitedAmount) then mret tt
      else _SendBankContentUpdate src dest
    else if negb (_DoItemsMove src dest false 0) then
      if negb (InitItem dest) then mret tt
      else if negb (HasStoreRights src dest g) then mret tt
      else
        ok ← lift (HasWithdrawRights dest src g);
        if negb ok then mret tt else _SendBankContentUpdate src dest
    else _SendBankContentUpdate src dest.

Definition SwapItems (player tabId slotId destTabId destSlotId splitedAmount : Z) : G unit :=
  g ← getg;
  if (_GetPurchasedTabsSize g <=? tabId) || (GUILD_BANK_MAX_SLOTS <=? slotId)
     || (_GetPurchasedTabsSize g <=? destTabId) || (GUILD_BANK_MAX_SLOTS <=? destSlotId) then mret tt
  else if (tabId =? destTabId) && (slotId =? destSlotId) then mret tt
  else _MoveItems (mkMove true player tabId slotId) (mkMove true player destTabId destSlotId) splitedAmount.

Definition SwapItemsWithInventory (player : Z) (toChar : bool)
    (tabId slotId playerBag playerSlotId splitedAmount : Z) : G unit :=
  g ← getg;
  if ((GUILD_BANK_MAX_SLOTS <=? slotId) && negb (slotId =? 255)) || (_GetPurchasedTabsSize g <=? tabId)
  then mret tt
  else
    let bankData := mkMove true player tabId slotId in
    let charData := mkMove false player playerBag playerSlotId in
    if toChar then _MoveItems bankData charData splitedAmount
    else _MoveItems charData bankData splitedAmount.

Definition SetBankTabText (tabId : Z) (text : string) : G unit :=
  g ← getg;
  match GetBankTab tabId g with
  | None => mret tt
  | Some t =>
      match BankTab_SetText text t with
      | Ok (t, stmts) =>
          modg (fun g => set_g_tabs (<[Z.to_nat tabId := t]> (m_bankTabs g)) g) ;;
          for_each stmts exec ;;
          g ← getg; modw (BroadcastPacket (SendText_packet t) g)
      | _ => undefined
      end
  end.

(** ** What a session is sent *)
Definition roster_packet (session : Z) (g : Guild) (now : Z) : Packet :=
  mkPacket SMSG_GUILD_ROSTER
    ([U32 (Z.of_nat (size (m_members g))); Str (m_motd g); Str (m_info g); U32 (_GetRanksSize g)]
     ++ concat (RankInfo_WritePacket <$> m_ranks g)
     ++ concat ((fun '(_, m) => Member_WritePacket now (_HasRankRight session GR_RIGHT_VIEWOFFNOTE g) m)
                  <$> members_in_order g)).
Definition HandleRoster (session : Z) : G unit :=
  g ← getg; w ← getw; send session (roster_packet session g (w_time w)).

Definition query_packet (g : Guild) : Packet :=
  mkPacket SMSG_GUILD_QUERY_RESPONSE
    ([U32 (m_id g); Str (m_name g)]
     ++ ((fun i => match (if Z.of_nat i <? _GetRanksSize g then m_ranks g !! i else None) with
                   | Some r => Str (gr_name r)
                   | None => U8 0
                   end) <$> seq 0 (Z.to_nat GUILD_RANKS_MAX_COUNT))
     ++ EmblemInfo_WritePacket (m_emblemInfo g) ++ [U32 (_GetRanksSize g)]).
Definition HandleQuery (session : Z) : G unit := g ← getg; send session (query_packet g).

Definition SendInfo (session : Z) : G unit :=
  g ← getg;
  send session (mkPacket SMSG_GUILD_INFO
    [Str (m_name g); U32 (u32 (PackTime (localtime (m_createdDate g))));
     U32 (Z.of_nat (size (m_members g))); U32 (m_accountsNumber g)]).

Definition SendEventLog (session : Z) : G unit :=
  g ← getg; w ← getw;
  h ← lift (m_eventLog g);
  send session (mkPacket MSG_GUILD_EVENT_LOG_QUERY (LogHolder_WritePacket (w_time w) h)).

Definition SendBankLog (session tabId : Z) : G unit :=
  g ← getg; w ← getw;
  if (tabId <? _GetPurchasedTabsSize g) || (tabId =? GUILD_BANK_MAX_TABS) then
    h ← lift (mjoin (m_bankEventLog g !! Z.to_nat tabId));
    send session (mkPacket MSG_GUILD_BANK_LOG_QUERY (U8 tabId :: LogHolder_WritePacket (w_time w) h))
  else mret tt.

Definition SendBankTabData (session tabId : Z) : G unit :=
  g ← getg; when (tabId <? _GetPurchasedTabsSize g) (_SendBankContent session tabId).
Definition SendBankTabsInfo (session : Z) (sendAllSlots : bool) : G unit :=
  _SendBankList (Some session) 0 sendAllSlots None.
Definition SendBankTabText (session tabId : Z) : G unit :=
  g ← getg;
  match GetBankTab tabId g with
  | Some tab => send session (SendText_packet tab)
  | None => mret tt
  end.

Definition tab_permissions (rankId : Z) (member : Member) (g : Guild) (tabId : nat)
  : option (list PField) :=
  slots ← _GetMemberRemainingSlots member (Z.of_nat tabId) g;
  Some [U32 (u32 (_GetRankBankTabRights rankId (Z.of_nat tabId) g)); U32 (u32 slots)].
Definition SendPermissions (session : Z) : G unit :=
  g ← getg;
  match GetMember session g with
  | None => mret tt
  | Some member =>
      let rankId := gm_rankId member in
      money ← lift (_GetMemberRemainingMoney member g);
      tabs ← lift (mapM (tab_permissions rankId member g) (seq 0 (Z.to_nat GUILD_BANK_MAX_TABS)));
      send session (mkPacket MSG_GUILD_PERMISSIONS
        ([U32 rankId; U32 (_GetRankRights rankId g); U32 (u32 money); U8 (_GetPurchasedTabsSize g)]
         ++ concat tabs))
  end.
Definition SendMoneyInfo (session : Z) : G unit :=
  g ← getg;
  match GetMember session g with
  | None => mret tt
  | Some member =>
      amount ← lift (_GetMemberRemainingMoney member g);
      send session (mkPacket MSG_GUILD_BANK_MONEY_WITHDRAWN [I32 amount])
  end.

Definition SendLoginInfo (session : Z) : G unit :=
  g ← getg;
  send session (mkPacket SMSG_GUILD_EVENT [U8 GE_MOTD; U8 1; Str (m_motd g)]) ;;
  SendBankTabsInfo session false ;;
  HandleRoster session ;;
  player ← GetPlayer session;
  broadcast GE_SIGNED_ON (p_GUID player) [p_name player] ;;
  g ← getg;
  match GetMember (p_GUID player) g with
  | Some m => store (GUID_LOPART (p_GUID player)) (AddFlag GUILDMEMBER_STATUS_ONLINE (SetStats_player player m))
  | None => mret tt
  end.

(** ** Members come and go *)

(** The part of [DeleteMember] after the leader's succession. *)
Definition drop_member (guid : Z) (isDisbanding : bool) (player : option Player) : G unit :=
  let lowguid := GUID_LOPART guid in
  modg (fun g => set_g_members (delete lowguid (m_members g)) g) ;;
  match player with
  | Some p => modw (fun w => update_player (SetRank 0) p (SetInGuild 0 p w))
  | None => modw (UpdateGlobalPlayerGuild lowguid 0)
  end ;;
  _DeleteMemberFromDB lowguid ;;
  when (negb isDisbanding) (modg _UpdateAccountsNumber).

(** The loop of [DeleteMember] over the members: the old leader, and the member
    of the lowest rank number among the others, the first one met. *)
Definition succession_step (lowguid : Z) (acc : option Member * option (Z * Member)) (e : Z * Member)
  : option Member * option (Z * Member) :=
  let '(oldLeader, newLeader) := acc in
  let '(key, m) := e in
  if key =? lowguid then (Some m, newLeader)
  else match newLeader with
       | None => (oldLeader, Some (key, m))
       | Some (_, best) => if gm_rankId m <? gm_rankId best then (oldLeader, Some (key, m)) else acc
       end.
Definition succession (lowguid : Z) (g : Guild) : option Member * option (Z * Member) :=
  foldl (succession_step lowguid) (None, None) (members_in_order g).

(** [DeleteMember]; [Disband] is an argument, since the two call each other. *)
Definition DeleteMember_with (Disband : G unit) (guid : Z) (isDisbanding isKicked canDeleteGuild : bool)
  : G unit :=
  let lowguid := GUID_LOPART guid in
  w ← getw; g ← getg;
  let player := FindPlayer guid w in
  if (m_leaderGuid g =? guid) && negb isDisbanding then
    match succession lowguid g with
    | (_, None) => Disband ;; when canDeleteGuild (modw (emit DeleteThis))
    | (oldLeader, Some (newKey, newLeader)) =>
        _SetLeaderGUID newKey ;;
        w ← getw;
        match FindPlayer (gm_guid newLeader) w with
        | Some p => modw (update_player (SetRank GR_GUILDMASTER) p)
        | None => mret tt
        end ;;
        match oldLeader with
        | Some old =>
            broadcast GE_LEADER_CHANGED 0 [gm_name old; gm_name newLeader] ;;
            broadcast GE_LEFT guid [gm_name old]
        | None => mret tt
        end ;;
        drop_member guid isDisbanding player
    end
  else drop_member guid isDisbanding player.

(** [while (!m_members.empty())] of [Disband], one member a round; a round that
    is disbanding does not call [Disband] again. *)
Fixpoint disband_loop (fuel : nat) : G unit :=
  match fuel with
  | O => mret tt
  | S fuel =>
      g ← getg;
      match members_in_order g with
      | [] => mret tt
      | (_, m) :: _ =>
          DeleteMember_with undefined (gm_guid m) true false false ;;
          disband_loop fuel
      end
  end.

Definition Disband : G unit :=
  broadcast GE_DISBANDED 0 [] ;;
  g ← getg;
  disband_loop (size (m_members g)) ;;
  g ← getg;
  let row id := mkStmt id [QU32 (m_id g)] in
  _DeleteBankItems ;;
  commit [row CHAR_DEL_GUILD; row CHAR_DEL_GUILD_RANKS; row CHAR_DEL_GUILD_BANK_TABS;
          row CHAR_DEL_GUILD_BANK_ITEMS; row CHAR_DEL_GUILD_BANK_RIGHTS;
          row CHAR_DEL_GUILD_BANK_EVENTLOGS; row CHAR_DEL_GUILD_EVENTLOGS] ;;
  modw (emit (RemoveGuild (m_id g))).

Definition DeleteMember : Z -> bool -> bool -> bool -> G unit := DeleteMember_with Disband.

Definition GUILD_CHARTER_TYPE : Z := 9.

Definition AddMember (guid rankId : Z) : G bool :=
  w ← getw; g ← getg;
  let lowguid := GUID_LOPART guid in
  let player := FindPlayer guid w in
  let guildId := match player with
                 | Some p => p_GuildId p
                 | None => GetGuildIdFromStorage lowguid w
                 end in
  if negb (guildId =? 0) then mret false
  else
    modw (emit (PetitionsCleared guid GUILD_CHARTER_TYPE)) ;;
    let rankId := if rankId =? GUILD_RANK_NONE then _GetLowestRankId g else rankId in
    let member := Member_new (w_time w) (m_id g) guid rankId in
    name ← (match player with
            | Some p =>
                store lowguid member ;;
                modw (SetInGuild (m_id g) p) ;;
                modw (update_player (SetGuildIdInvited 0) p) ;;
                modw (update_player (SetRank rankId) p) ;;
                store lowguid (SetStats_player p member) ;;
                SendLoginInfo (p_GUID p) ;;
                mret (Some (p_name p))
            | None =>
                match QueryCharData lowguid with
                | Some (name, level, class, zone, account) =>
                    let member := set_stats name (u8 level) (u8 class) (u16 zone) (u32 account)
                                    (ResetFlags member) in
                    if CheckStats member then
                      store lowguid member ;;
                      modw (UpdateGlobalPlayerGuild lowguid (m_id g)) ;;
                      mret (Some name)
                    else mret None
                | None => mret None
                end
            end : G (option string));
    match name with
    | None => mret false
    | Some name =>
        member ← deref lowguid;
        exec (Member_SaveToDB member) ;;
        modg _UpdateAccountsNumber ;;
        _LogEvent GUILD_EVENT_LOG_JOIN_GUILD lowguid 0 0 ;;
        broadcast GE_JOINED guid [name] ;;
        mret true
    end.

Definition ChangeMemberRank (guid newRank : Z) : G bool :=
  g ← getg;
  if newRank <=? _GetLowestRankId g then
    match GetMember guid g with
    | Some _ => ChangeRank (GUID_LOPART guid) newRank ;; mret true
    | None => mret false
    end
  else mret false.

(** [Create]; [nameTaken] and [newId] are what [sGuildMgr->GetGuildByName] and
    [GenerateGuildId] answer. *)
Definition Create (nameTaken : bool) (newId : Z) (leader : Z) (locale : Z) (name : string) : G bool :=
  if nameTaken then mret false
  else
    w ← getw;
    pLeader ← GetPlayer leader;
    modg (fun g => mkGuild newId name (p_GUID pLeader) "No message set." EmptyString (w_time w)
                     (m_emblemInfo g) (m_accountsNumber g) 0 (m_ranks g) (m_members g)
                     (m_bankTabs g) (m_eventLog g) (m_bankEventLog g)) ;;
    _CreateLogHolders ;;
    g ← getg;
    let e := m_emblemInfo g in
    commit [mkStmt CHAR_DEL_GUILD_MEMBERS [QU32 (m_id g)];
            mkStmt CHAR_INS_GUILD
              [QU32 (m_id g); QStr name; QU32 (GUID_LOPART (m_leaderGuid g)); QStr (m_info g);
               QStr (m_motd g); QU64 (u32 (m_createdDate g)); QU32 (m_style e); QU32 (m_color e);
               QU32 (m_borderStyle e); QU32 (m_borderColor e); QU32 (m_backgroundColor e);
               QU64 (m_bankMoney g)]] ;;
    _CreateDefaultGuildRanks locale ;;
    AddMember (m_leaderGuid g) GR_GUILDMASTER.

(** ** Updates from the world nodes *)
Definition UpdateMemberData (player : Player) (dataid value : Z) : G unit :=
  g ← getg;
  match GetMember (p_GUID player) g with
  | Some m =>
      let key := GUID_LOPART (p_GUID player) in
      if dataid =? GUILD_MEMBER_DATA_ZONEID then store key (SetZoneID value m)
      else if dataid =? GUILD_MEMBER_DATA_LEVEL then store key (SetLevel value m)
      else mret tt
  | None => mret tt
  end.

Definition OnPlayerStatusChange (player : Player) (flag : Z) (state : bool) : G unit :=
  g ← getg;
  match GetMember (p_GUID player) g with
  | Some m => store (GUID_LOPART (p_GUID player)) ((if state then AddFlag else RemFlag) flag m)
  | None => mret tt
  end.

Definition ResetTimes : G unit :=
  modg (fun g => set_g_members (ResetValues <$> m_members g) g) ;;
  broadcast GE_BANK_TAB_AND_MONEY_UPDATED 0 [].

(** ** Client commands *)
Definition HandleSetMOTD (session : Z) (motd : string) : G unit :=
  g ← getg;
  if String.eqb (m_motd g) motd then mret tt
  else if negb (_HasRankRight session GR_RIGHT_SETMOTD g) then
    SendCommandResult session GUILD_COMMAND_EDIT_MOTD ERR_GUILD_PERMISSIONS EmptyString
  else
    modg (fun g => set_g_texts motd (m_info g) g) ;;
    exec (mkStmt CHAR_UPD_GUILD_MOTD [QStr motd; QU32 (m_id g)]) ;;
    broadcast GE_MOTD 0 [motd].

Definition HandleSetInfo (session : Z) (info : string) : G unit :=
  g ← getg;
  if String.eqb (m_info g) info then mret tt
  else if _HasRankRight session GR_RIGHT_MODIFY_GUILD_INFO g then
    modg (fun g => set_g_texts (m_motd g) info g) ;;
    exec (mkStmt CHAR_UPD_GUILD_INFO [QStr info; QU32 (m_id g)])
  else mret tt.

Definition HandleSetLeader (session : Z) (name : string) : G unit :=
  player ← GetPlayer session; g ← getg;
  if negb (_IsLeader player g) then
    SendCommandResult session GUILD_COMMAND_CHANGE_LEADER ERR_GUILD_PERMISSIONS EmptyString
  else
    match GetMember (p_GUID player) g, GetMemberByName name g with
    | Some _, Some newKey =>
        _SetLeaderGUID newKey ;;
        ChangeRank (GUID_LOPART (p_GUID player)) GR_OFFICER ;;
        broadcast GE_LEADER_CHANGED 0 [p_name player; name]
    | _, _ => mret tt
    end.

Definition HandleSetBankTabInfo (session tabId : Z) (name icon : string) : G unit :=
  g ← getg;
  match GetBankTab tabId g with
  | None => mret tt
  | Some tab =>
      aux ← sprintf_aux tabId;
      let '(tab, stmts) := BankTab_SetInfo name icon tab in
      modg (fun g => set_g_tabs (<[Z.to_nat tabId := tab]> (m_bankTabs g)) g) ;;
      for_each stmts exec ;;
      broadcast GE_BANK_TAB_UPDATED 0 [aux; name; icon]
  end.

Definition HandleSetMemberNote (session : Z) (name note : string) (isPublic : bool) : G unit :=
  g ← getg;
  if negb (_HasRankRight session (if isPublic then GR_RIGHT_EPNOTE else GR_RIGHT_EOFFNOTE) g) then
    SendCommandResult session GUILD_COMMAND_PUBLIC_NOTE ERR_GUILD_PERMISSIONS EmptyString
  else
    match GetMemberByName name g with
    | Some key =>
        (if isPublic then SetPublicNote key note else SetOfficerNote key note) ;;
        HandleRoster session
    | None => mret tt
    end.

Definition HandleSetRankInfo (session rankId : Z) (name : string) (rights moneyPerDay : Z)
    (rightsAndSlots : list GuildBankRightsAndSlots) : G unit :=
  player ← GetPlayer session; g ← getg;
  if negb (_IsLeader player g) then
    SendCommandResult session GUILD_COMMAND_CHANGE_RANK ERR_GUILD_PERMISSIONS EmptyString
  else
    match GetRankInfo rankId g with
    | None => mret tt
    | Some _ =>
        on_rank rankId (fun r => Some (RankInfo_SetName name r)) ;;
        on_rank rankId (fun r => Some (RankInfo_SetRights rights r)) ;;
        _SetRankBankMoneyPerDay rankId moneyPerDay ;;
        for_each rightsAndSlots (fun rs => _SetRankBankTabRightsAndSlots rankId rs true) ;;
        aux ← sprintf_aux rankId;
        broadcast GE_RANK_UPDATED 0 [aux; name]
    end.

Definition HandleInviteMember (session : Z) (name : string) : G unit :=
  w ← getw; g ← getg;
  match FindPlayerByName name w with
  | None => SendCommandResult session GUILD_COMMAND_INVITE ERR_GUILD_PLAYER_NOT_FOUND_S name
  | Some pInvitee =>
      player ← GetPlayer session;
      if HasIgnore (p_GUIDLow player) (GetSocial pInvitee w) then mret tt
      else if negb (GetTeamId pInvitee =? GetTeamId player) then
        SendCommandResult session GUILD_COMMAND_INVITE ERR_GUILD_NOT_ALLIED name
      else if negb (p_GuildId pInvitee =? 0) then
        SendCommandResult session GUILD_COMMAND_INVITE ERR_ALREADY_IN_GUILD_S name
      else if negb (p_GuildIdInvited pInvitee =? 0) then
        SendCommandResult session GUILD_COMMAND_INVITE ERR_ALREADY_INVITED_TO_GUILD_S name
      else if negb (_HasRankRight (p_GUID player) GR_RIGHT_INVITE g) then
        SendCommandResult session GUILD_COMMAND_INVITE ERR_GUILD_PERMISSIONS EmptyString
      else
        SendCommandResult session GUILD_COMMAND_INVITE ERR_GUILD_COMMAND_SUCCESS name ;;
        modw (update_player (SetGuildIdInvited (m_id g)) pInvitee) ;;
        _LogEvent GUILD_EVENT_LOG_INVITE_PLAYER (p_GUIDLow player) (p_GUIDLow pInvitee) 0 ;;
        modw (SendPacket pInvitee (mkPacket SMSG_GUILD_INVITE
                [Str (c_str (p_name player)); Str (m_name g)]))
  end.

Definition HandleAcceptMember (session : Z) : G unit :=
  player ← GetPlayer session;
  AddMember (p_GUID player) GUILD_RANK_NONE ;; mret tt.

Definition HandleLeaveMember (session : Z) : G unit :=
  player ← GetPlayer session; g ← getg;
  if _IsLeader player g then
    if (1 <? size (m_members g))%nat then
      SendCommandResult session GUILD_COMMAND_QUIT ERR_GUILD_LEADER_LEAVE EmptyString
    else Disband ;; modw (emit DeleteThis)
  else
    DeleteMember (p_GUID player) false false false ;;
    _LogEvent GUILD_EVENT_LOG_LEAVE_GUILD (p_GUIDLow player) 0 0 ;;
    broadcast GE_LEFT (p_GUID player) [p_name player] ;;
    SendCommandResult session GUILD_COMMAND_QUIT ERR_GUILD_COMMAND_SUCCESS (m_name g).

Definition HandleRemoveMember (session : Z) (name : string) : G unit :=
  player ← GetPlayer session; g ← getg;
  if negb (_HasRankRight (p_GUID player) GR_RIGHT_REMOVE g) then
    SendCommandResult session GUILD_COMMAND_REMOVE ERR_GUILD_PERMISSIONS EmptyString
  else
    match GetMemberByName name g with
    | None => mret tt
    | Some key =>
        member ← deref key;
        if IsRank GR_GUILDMASTER member then
          SendCommandResult session GUILD_COMMAND_REMOVE ERR_GUILD_LEADER_LEAVE EmptyString
        else if match GetMember (p_GUID player) g with
                | Some me => IsRankNotLower (gm_rankId me) member
                | None => true
                end then
          SendCommandResult session GUILD_COMMAND_REMOVE ERR_GUILD_RANK_TOO_HIGH_S name
        else
          let guid := gm_guid member in
          DeleteMember guid false true false ;;
          _LogEvent GUILD_EVENT_LOG_UNINVITE_PLAYER (p_GUIDLow player) (GUID_LOPART guid) 0 ;;
          broadcast GE_REMOVED 0 [name; p_name player]
    end.

Definition HandleUpdateMemberRank (session : Z) (name : string) (demote : bool) : G unit :=
  player ← GetPlayer session; g ← getg;
  let type := if demote then GUILD_COMMAND_DEMOTE else GUILD_COMMAND_PROMOTE in
  if negb (_HasRankRight (p_GUID player) (if demote then GR_RIGHT_DEMOTE else GR_RIGHT_PROMOTE) g) then
    SendCommandResult session type ERR_GUILD_PERMISSIONS EmptyString
  else
    match GetMemberByName name g with
    | None => mret tt
    | Some key =>
        member ← deref key;
        if IsSamePlayer (p_GUID player) member then
          SendCommandResult session type ERR_GUILD_NAME_INVALID EmptyString
        else
          memberMe ← lift (GetMember (p_GUID player) g);
          let rankId := gm_rankId memberMe in
          if demote && IsRankNotLower rankId member then
            SendCommandResult session type ERR_GUILD_RANK_TOO_HIGH_S name
          else if demote && (_GetLowestRankId g <=? gm_rankId member) then
            SendCommandResult session type ERR_GUILD_RANK_TOO_LOW_S name
          else if negb demote && IsRankNotLower (u8 (rankId + 1)) member then
            SendCommandResult session type ERR_GUILD_RANK_TOO_HIGH_S name
          else
            let newRankId := u32 (gm_rankId member + (if demote then 1 else -1)) in
            ChangeRank key (u8 newRankId) ;;
            _LogEvent (if demote then GUILD_EVENT_LOG_DEMOTE_PLAYER else GUILD_EVENT_LOG_PROMOTE_PLAYER)
              (p_GUIDLow player) (GUID_LOPART (gm_guid member)) (u8 newRankId) ;;
            g ← getg;
            broadcast (if demote then GE_DEMOTION else GE_PROMOTION) 0
              [p_name player; name; _GetRankName (u8 newRankId) g]
    end.

Definition HandleAddNewRank (session : Z) (name : string) : G unit :=
  g ← getg;
  let size := _GetRanksSize g in
  if GUILD_RANKS_MAX_COUNT <=? size then mret tt
  else
    player ← GetPlayer session;
    if _IsLeader player g then
      created ← _CreateRank name (Z.lor GR_RIGHT_GCHATLISTEN GR_RIGHT_GCHATSPEAK);
      if (created : bool) then
        aux ← sprintf_aux size;
        broadcast GE_RANK_UPDATED 0 [aux; name]
      else mret tt
    else mret tt.

Definition HandleRemoveRank (session rankId : Z) : G unit :=
  player ← GetPlayer session; g ← getg;
  if (_GetRanksSize g <=? GUILD_RANKS_MIN_COUNT) || (_GetRanksSize g <=? rankId)
     || negb (_IsLeader player g) then mret tt
  else
    exec (mkStmt CHAR_DEL_GUILD_BANK_RIGHTS_FOR_RANK [QU32 (m_id g); QU8 rankId]) ;;
    exec (mkStmt CHAR_DEL_GUILD_LOWEST_RANK [QU32 (m_id g); QU8 rankId]) ;;
    modg (fun g => set_g_ranks (removelast (m_ranks g)) g) ;;
    broadcast GE_RANK_DELETED 0 [].

Definition HandleRemoveLowestRank (session : Z) : G unit :=
  g ← getg; HandleRemoveRank session (_GetLowestRankId g).

Definition HandleMemberLogout (session : Z) : G unit :=
  player ← GetPlayer session; g ← getg; w ← getw;
  match GetMember (p_GUID player) g with
  | Some m => store (GUID_LOPART (p_GUID player))
                (ResetFlags (UpdateLogoutTime (w_time w) (SetStats_player player m)))
  | None => mret tt
  end ;;
  broadcast GE_SIGNED_OFF (p_GUID player) [p_name player].

Definition HandleDisband (session : Z) : G unit :=
  player ← GetPlayer session; g ← getg;
  when (_IsLeader player g) (Disband ;; modw (emit DeleteThis)).

(** Handlers whose bodies are empty. *)
Definition HandleSetEmblem (session : Z) (e : EmblemInfo) : G unit := mret tt.
Definition HandleBuyBankTab (session tabId : Z) : G unit := mret tt.
Definition HandleMemberDepositMoney (session amount : Z) : G unit := mret tt.
Definition HandleMemberWithdrawMoney (session amount : Z) (repair : bool) : G bool := mret true.

(** ** Loading

    One record per query of [GuildMgr::LoadGuilds], with its columns; a getter
    of [Field] converts to the width of its name. *)
Record GuildRow := mkGuildRow {
  f_guildid : Z; f_name : string; f_leaderguid : Z; f_emblem : Z * Z * Z * Z * Z;
  f_info : string; f_motd : string; f_createdate : Z; f_BankMoney : Z; f_tabs : Z
}.
Record MemberRow := mkMemberRow {
  f_guid : Z; f_rank : Z; f_pnote : string; f_offnote : string; f_withdraw : list Z;
  f_cname : string; f_level : Z; f_class : Z; f_zone : Z; f_account : Z; f_logout_time : Z
}.
Record BankRightRow := mkRightRow { f_TabId : Z; f_rid : Z; f_gbright : Z; f_SlotPerDay : Z }.
Record EventRow := mkEventRow {
  f_LogGuid : Z; f_EventType : Z; f_PlayerGuid1 : Z; f_PlayerGuid2 : Z; f_NewRank : Z; f_TimeStamp : Z
}.
Record BankEventRow := mkBankEventRow {
  f_bTabId : Z; f_bLogGuid : Z; f_bEventType : Z; f_bPlayerGuid : Z; f_ItemOrMoney : Z;
  f_ItemStackCount : Z; f_DestTabId : Z; f_bTimeStamp : Z
}.

Definition EmblemInfo_LoadFromDB (f : Z * Z * Z * Z * Z) : EmblemInfo :=
  let '(a, b, c, d, e) := f in mkEmblem (u8 a) (u8 b) (u8 c) (u8 d) (u8 e).

Definition LoadFromDB (f : GuildRow) : G unit :=
  let id := u32 (f_guildid f) in
  let tabs := u8 (f_tabs f) in
  let purchasedTabs := if GUILD_BANK_MAX_TABS <? tabs then GUILD_BANK_MAX_TABS else tabs in
  modg (fun g => mkGuild id (f_name f) (MAKE_NEW_GUID (u32 (f_leaderguid f)) 0 HIGHGUID_PLAYER)
                   (f_motd f) (f_info f) (u32 (f_createdate f)) (EmblemInfo_LoadFromDB (f_emblem f))
                   (m_accountsNumber g) (u64 (f_BankMoney f)) (m_ranks g) (m_members g)
                   ((fun i => BankTab_new id (Z.of_nat i)) <$> seq 0 (Z.to_nat purchasedTabs))
                   (m_eventLog g) (m_bankEventLog g)) ;;
  _CreateLogHolders.

Definition LoadRankFromDB (f : RankRow) : G unit :=
  modg (fun g => set_g_ranks (m_ranks g ++ [RankInfo_LoadFromDB f (RankInfo_of_guild (m_id g))]) g).

(** [Member::LoadFromDB], whose result is the member and whether it is sound. *)
Definition Member_LoadFromDB (f : MemberRow) (m : Member) : bool * Member :=
  let m := set_m_notes (f_pnote f) (f_offnote f) m in
  let m := set_m_withdraw ((fun v => s32 (u32 v)) <$> f_withdraw f) m in
  let m := set_stats (f_cname f) (u8 (f_level f)) (u8 (f_class f)) (u16 (f_zone f))
             (u32 (f_account f)) m in
  let m := UpdateLogoutTime (u32 (f_logout_time f)) m in
  if negb (CheckStats m) then (false, m)
  else (true, ResetFlags (if gm_zoneId m =? 0 then SetZoneID 1 m else m)).

Definition LoadMemberFromDB (f : MemberRow) : G bool :=
  let lowguid := u32 (f_guid f) in
  g ← getg; w ← getw;
  let '(ok, member) := Member_LoadFromDB f
        (Member_new (w_time w) (m_id g) (MAKE_NEW_GUID lowguid 0 HIGHGUID_PLAYER) (u8 (f_rank f))) in
  if negb ok then _DeleteMemberFromDB lowguid ;; mret false
  else
    store lowguid member ;;
    modw (UpdateGlobalPlayerGuild lowguid (m_id g)) ;;
    mret true.

Definition LoadBankRightFromDB (f : BankRightRow) : G unit :=
  _SetRankBankTabRightsAndSlots (u8 (f_rid f))
    (RightsAndSlots_of (u8 (f_TabId f)) (u8 (f_gbright f)) (u32 (f_SlotPerDay f))) false.

Definition LoadEventLogFromDB (f : EventRow) : G bool :=
  g ← getg;
  h ← lift (m_eventLog g);
  if CanInsert h then
    modg (fun g => set_g_logs (Some (LoadEvent (EventLogEntry (m_id g) (u32 (f_LogGuid f))
            (u32 (f_TimeStamp f)) (u8 (f_EventType f)) (u32 (f_PlayerGuid1 f)) (u32 (f_PlayerGuid2 f))
            (u8 (f_NewRank f))) h)) (m_bankEventLog g) g) ;;
    mret true
  else mret false.

Definition LoadBankEventLogFromDB (f : BankEventRow) : G bool :=
  g ← getg;
  let dbTabId := u8 (f_bTabId f) in
  let isMoneyTab := dbTabId =? GUILD_BANK_MONEY_LOGS_TAB in
  if (dbTabId <? _GetPurchasedTabsSize g) || isMoneyTab then
    let tabId := if isMoneyTab then GUILD_BANK_MAX_TABS else dbTabId in
    h ← lift (mjoin (m_bankEventLog g !! Z.to_nat tabId));
    if CanInsert h then
      let eventType := u8 (f_bEventType f) in
      if IsMoneyEvent eventType && negb isMoneyTab then mret false
      else if negb (IsMoneyEvent eventType) && isMoneyTab then mret false
      else
        let h := LoadEvent (BankEventLogEntry (m_id g) (u32 (f_bLogGuid f)) (u32 (f_bTimeStamp f))
                   eventType dbTabId (u32 (f_bPlayerGuid f)) (u32 (f_ItemOrMoney f))
                   (u16 (f_ItemStackCount f)) (u8 (f_DestTabId f))) h in
        modg (fun g => set_g_logs (m_eventLog g) (<[Z.to_nat tabId := Some h]> (m_bankEventLog g)) g) ;;
        mret true
    else mret true
  else mret true.

Definition LoadBankTabFromDB (f : BankTabRow) : G unit :=
  g ← getg;
  let tabId := u8 (tr_TabId f) in
  if _GetPurchasedTabsSize g <=? tabId then mret tt
  else modg (fun g => set_g_tabs (alter (BankTab_LoadFromDB f) (Z.to_nat tabId) (m_bankTabs g)) g).

Definition LoadBankItemFromDB (tabId : Z) : G bool :=
  g ← getg;
  if _GetPurchasedTabsSize g <=? u8 tabId then mret false
  else tab ← lift (m_bankTabs g !! Z.to_nat (u8 tabId)); mret (BankTab_LoadItemFromDB tab).

(** The round of [Validate]'s loop over the ranks for one rank: whether the
    sequence is broken there; a rank in place gets its missing tabs. *)
Definition validate_rank (rankId : nat) : G bool :=
  g ← getg;
  r ← lift (GetRankInfo (Z.of_nat rankId) g);
  if negb (gr_rankId r =? Z.of_nat rankId) then mret true
  else
    '(r, trans) ← lift (CreateMissingTabsIfNeeded (_GetPurchasedTabsSize g) r []);
    modg (fun g => set_g_ranks (<[rankId := r]> (m_ranks g)) g) ;;
    commit trans ;;
    mret false.

Fixpoint validate_ranks (l : list nat) (broken : bool) : G bool :=
  match l with
  | [] => mret broken
  | rankId :: l => b ← validate_rank rankId; validate_ranks l (broken || b)
  end.

(** The stages of [Validate]: the ranks, the ranks of the members, the leader
    (whether anybody is left to lead), the other guild masters. *)
Definition validate_sequence : G unit :=
  g ← getg;
  let ranks := _GetRanksSize g in
  broken_ranks ← (if (ranks <? GUILD_RANKS_MIN_COUNT) || (GUILD_RANKS_MAX_COUNT <? ranks)
                  then mret true
                  else validate_ranks (seq 0 (Z.to_nat ranks)) false);
  when broken_ranks (modg (set_g_ranks []) ;; _CreateDefaultGuildRanks DEFAULT_LOCALE).

Definition lower_rank (e : Z * Member) : G unit :=
  m ← deref e.1; g ← getg;
  when (_GetRanksSize g <? gm_rankId m) (ChangeRank e.1 (_GetLowestRankId g)).

Definition validate_leader : G bool :=
  g ← getg;
  match GetMember (m_leaderGuid g) g with
  | None =>
      DeleteMember (m_leaderGuid g) false false false ;;
      g ← getg;
      if (size (m_members g) =? 0)%nat then Disband ;; mret false else mret true
  | Some pLeader =>
      when (negb (IsRank GR_GUILDMASTER pLeader)) (_SetLeaderGUID (GUID_LOPART (m_leaderGuid g))) ;;
      mret true
  end.

Definition demote_master (e : Z * Member) : G unit :=
  m ← deref e.1; g ← getg;
  when ((gm_rankId m =? GR_GUILDMASTER) && negb (IsSamePlayer (m_leaderGuid g) m))
    (ChangeRank e.1 GR_OFFICER).

Definition Validate : G bool :=
  validate_sequence ;;
  g ← getg; for_each (members_in_order g) lower_rank ;;
  alive ← validate_leader;
  if negb alive then mret false
  else
    when (negb (CONFIG_ALLOW_MULTIPLE_GUILDMASTER cfg))
      (g ← getg; for_each (members_in_order g) demote_master) ;;
    modg _UpdateAccountsNumber ;;
    mret true.
End Guild.
