(* ===== verification/GuildLogic.v ===== *)
(** * A program logic for the guild operations

    [wp m Q s]: the method [m] started in [s] is defined, and [Q] holds of its
    result and final state.  The rules for the primitives of the monad, the
    specification of each operation the handlers are made of (its exact effect
    on the guild, the players and the trace), and the tactic [wsteps] that
    applies them. *)
From Stdlib Require Import Ascii String ZArith Lia.
From stdpp Require Import base gmap sets list strings.
From S2P Require Import Prelude ByteBuffer Utf8 World Guild GuildOps.

Open Scope Z_scope.

Definition wp {A} (m : G A) (Q : A -> GState -> Prop) (s : GState) : Prop :=
  match m s with Some (a, s') => Q a s' | None => False end.

Lemma wp_run {A} (m : G A) Q s : wp m Q s <-> exists a s', m s = Some (a, s') /\ Q a s'.
Proof.
  unfold wp. split.
  - intros HQ. destruct (m s) as [[a s']|] eqn:E; [by exists a, s'|done].
  - intros (a & s' & -> & HQ). done.
Qed.

Lemma wp_mono {A} (m : G A) (P Q : A -> GState -> Prop) s :
  wp m P s -> (forall a s', P a s' -> Q a s') -> wp m Q s.
Proof. unfold wp. intros HP HPQ. destruct (m s) as [[a s']|]; [by apply HPQ|done]. Qed.

(** What is known of the run carries over to any postcondition it satisfies. *)
Lemma wp_conj {A} (m : G A) (P Q : A -> GState -> Prop) s :
  wp m P s -> wp m Q s -> wp m (fun a s' => P a s' /\ Q a s') s.
Proof. unfold wp. by destruct (m s) as [[a s']|]. Qed.

Lemma wp_bind {A B} (m : G A) (f : A -> G B) Q s :
  wp m (fun a s' => wp (f a) Q s') s -> wp (m ≫= f) Q s.
Proof. unfold wp, mbind, G_bind. by destruct (m s) as [[a s']|]. Qed.

Lemma wp_ret {A} (a : A) Q s : Q a s -> wp (mret a) Q s.
Proof. done. Qed.
Lemma wp_getg Q g w : Q g (g, w) -> wp getg Q (g, w).
Proof. done. Qed.
Lemma wp_getw Q g w : Q w (g, w) -> wp getw Q (g, w).
Proof. done. Qed.
Lemma wp_modg f Q g w : Q tt (f g, w) -> wp (modg f) Q (g, w).
Proof. done. Qed.
Lemma wp_modw f Q g w : Q tt (g, f w) -> wp (modw f) Q (g, w).
Proof. done. Qed.
Lemma wp_lift {A} (o : option A) a Q s : o = Some a -> Q a s -> wp (lift o) Q s.
Proof. by intros ->. Qed.
Lemma wp_when (b : bool) m Q s :
  (b = true -> wp m Q s) -> (b = false -> Q tt s) -> wp (when b m) Q s.
Proof. destruct b; intros Ht Hf; [by apply Ht|by apply Hf]. Qed.
Lemma wp_exec st Q g w : Q tt (g, emits [Execute st] w) -> wp (exec st) Q (g, w).
Proof. done. Qed.
Lemma wp_commit trans Q g w : Q tt (g, emits [Commit trans] w) -> wp (commit trans) Q (g, w).
Proof. done. Qed.
Lemma wp_emit e Q g w : Q tt (g, emits [e] w) -> wp (modw (emit e)) Q (g, w).
Proof. done. Qed.

(** A loop keeps what each round keeps. *)
Lemma wp_for_each {A} (l : list A) (f : A -> G unit) (I : GState -> Prop) (Q : unit -> GState -> Prop) s :
  I s -> (forall a s', a ∈ l -> I s' -> wp (f a) (fun _ => I) s') ->
  (forall s', I s' -> Q tt s') -> wp (for_each l f) Q s.
Proof.
  intros Hs Hf HQ. revert s Hs. induction l as [|a l IH]; intros s Hs; cbn [for_each]; [by apply wp_ret, HQ|].
  apply wp_bind. eapply wp_mono; [apply Hf; [left|done]|]. cbn. intros _ s' Hs'.
  apply IH; [|done]. intros b t Hb. apply Hf. by right.
Qed.

(** ** The world while a method runs *)
Definition quiet (w w' : World) : Prop := exists es, w' = emits es w.

#[export] Instance quiet_preorder : PreOrder quiet.
Proof.
  split.
  - intros w. exists []. by rewrite emits_nil.
  - intros w1 w2 w3 [es ->] [fs ->]. exists (es ++ fs). apply emits_emits.
Qed.

Lemma quiet_emits es w : quiet w (emits es w).
Proof. by exists es. Qed.
#[export] Hint Resolve quiet_emits : shade.

Lemma update_player_emits f p es w : update_player f p (emits es w) = emits es (update_player f p w).
Proof. reflexivity. Qed.

(** The statements of a list, executed one after the other. *)
Lemma wp_exec_all stmts Q g w :
  Q tt (g, emits (Execute <$> stmts) w) -> wp (for_each stmts exec) Q (g, w).
Proof.
  revert w. induction stmts as [|st l IH]; intros w HQ; cbn [for_each].
  - apply wp_ret. by rewrite emits_nil in HQ.
  - apply wp_bind, wp_exec, IH. by rewrite emits_emits.
Qed.

(** ** Sessions *)
Lemma wp_GetPlayer session p Q g w :
  FindPlayer session w = Some p -> Q p (g, w) -> wp (GetPlayer session) Q (g, w).
Proof. intros Hp HQ. apply wp_bind, wp_getw. by apply (wp_lift _ p). Qed.

Lemma wp_send session p data Q g w :
  FindPlayer session w = Some p -> Q tt (g, emits (sent p data) w) -> wp (send session data) Q (g, w).
Proof.
  intros Hp HQ. apply wp_bind, (wp_GetPlayer _ p), wp_modw; [done|]. by rewrite SendPacket_emits.
Qed.

Definition result_packet (type : GuildCommandType) (errCode : Z) (param : string) : Packet :=
  mkPacket SMSG_GUILD_COMMAND_RESULT [U32 (command_code type); Str param; U32 errCode].

Lemma wp_SendCommandResult session type err param p Q g w :
  FindPlayer session w = Some p -> Q tt (g, emits (sent p (result_packet type err param)) w) ->
  wp (SendCommandResult session type err param) Q (g, w).
Proof. apply wp_send. Qed.

(** ** Members *)
Lemma wp_deref key m Q g w : m_members g !! key = Some m -> Q m (g, w) -> wp (deref key) Q (g, w).
Proof. intros Hm HQ. apply wp_bind, wp_getg. by apply (wp_lift _ m). Qed.

Definition put_member (key : Z) (m : Member) (g : Guild) : Guild :=
  set_g_members (<[key := m]> (m_members g)) g.

Lemma wp_store key m Q g w : Q tt (put_member key m g, w) -> wp (store key m) Q (g, w).
Proof. done. Qed.

Definition rank_stmt (rankId guid : Z) : Stmt :=
  mkStmt CHAR_UPD_GUILD_MEMBER_RANK [QU8 (u8 rankId); QU32 (GUID_LOPART guid)].

(** The players after [player->SetRank(rankId)], when the player is online. *)
Definition rank_player (rankId guid : Z) (w : World) : World :=
  match FindPlayer guid w with Some p => update_player (SetRank rankId) p w | None => w end.

Lemma wp_ChangeRank key newRank m Q g w :
  m_members g !! key = Some m ->
  Q tt (put_member key (set_m_rank newRank m) g,
        emits [Execute (rank_stmt newRank (gm_guid m))] (rank_player newRank (gm_guid m) w)) ->
  wp (ChangeRank key newRank) Q (g, w).
Proof.
  intros Hm HQ. apply wp_bind, (wp_deref _ m); [done|]. apply wp_bind, wp_store, wp_bind, wp_getw, wp_bind.
  unfold rank_player in HQ. destruct (FindPlayer (gm_guid m) w); by apply wp_exec.
Qed.

Section Specs.
Context `{UnorderedIter}.

(** ** Broadcasts *)
Definition told (packet : Packet) (g : Guild) (w : World) : list Effect :=
  concat ((fun '(_, m) => match FindPlayer (gm_guid m) w with
                          | Some p => sent p packet
                          | None => []
                          end) <$> members_in_order g).

Lemma BroadcastPacket_told packet g w : BroadcastPacket packet g w = emits (told packet g w) w.
Proof.
  apply (foldl_emits _ (fun w '(_, m) => match FindPlayer (gm_guid m) w with
                                         | Some p => sent p packet | None => [] end)).
  - intros w' [k m]. destruct (FindPlayer (gm_guid m) w'); [apply SendPacket_emits|by rewrite emits_nil].
  - done.
Qed.

Lemma wp_broadcast ev guid params Q g w :
  Q tt (g, emits (told (event_packet ev guid params) g w) w) -> wp (broadcast ev guid params) Q (g, w).
Proof. intros HQ. apply wp_bind, wp_getg, wp_modw. unfold _BroadcastEvent. by rewrite BroadcastPacket_told. Qed.

Lemma wp_HandleRoster session p Q g w :
  FindPlayer session w = Some p ->
  Q tt (g, emits (sent p (roster_packet session g (w_time w))) w) -> wp (HandleRoster session) Q (g, w).
Proof. intros Hp HQ. apply wp_bind, wp_getg, wp_bind, wp_getw. by apply (wp_send _ p). Qed.

Lemma elem_of_members_in_order g k m : (k, m) ∈ members_in_order g <-> m_members g !! k = Some m.
Proof. unfold members_in_order. rewrite uiter_perm. apply elem_of_map_to_list. Qed.

Lemma GetMemberByName_Some name g k :
  GetMemberByName name g = Some k -> exists m, m_members g !! k = Some m /\ gm_name m = name.
Proof.
  unfold GetMemberByName. intros ([k1 m] & Hf & ->)%fmap_Some. apply find_some in Hf as [Hin He].
  apply list_elem_of_In, elem_of_members_in_order in Hin. apply String.eqb_eq in He. eauto.
Qed.

(** ** Logs *)
Definition log_ok (max : Z) (h : LogHolder) : Prop :=
  lh_maxRecords h = max /\ Z.of_nat (length (lh_log h)) <= max /\ 0 <= lh_nextGUID h < 2 ^ 32.

Lemma GetNextGUID_ok max h :
  0 < max < 2 ^ 32 -> log_ok max h ->
  exists n, GetNextGUID h = Some (n, mkLogHolder (lh_log h) (lh_guildId h) max n)
            /\ 0 <= n < max
            /\ n = if lh_nextGUID h =? GUILD_EVENT_LOG_GUID_UNDEFINED then 0
                   else u32 (lh_nextGUID h + 1) mod max.
Proof.
  intros Hmax (Hm & Hlen & Hn). unfold GetNextGUID. rewrite Hm. case_if; [by exists 0; repeat split; lia|].
  replace (max =? 0) with false by (symmetry; apply Z.eqb_neq; lia).
  eexists. split; [done|]. split; [|done]. apply Z.mod_pos_bound. lia.
Qed.

(** The log after an event: the oldest entry makes room when it is full. *)
Definition push_log (max : Z) (e : LogEntry) (l : list LogEntry) : list LogEntry :=
  (if max <=? Z.of_nat (length l) then tail l else l) ++ [e].

Lemma AddEvent_ok max e h :
  0 < max -> log_ok max h ->
  AddEvent e h = Some (mkLogHolder (push_log max e (lh_log h)) (lh_guildId h) max (lh_nextGUID h),
                       LogEntry_SaveToDB e).
Proof.
  intros Hmax (Hm & Hlen & Hn). unfold AddEvent, push_log. rewrite Hm. case_if; [|done]. bool_props.
  destruct (lh_log h) as [|e0 l]; [cbn in *; lia|done].
Qed.

Lemma push_log_length max e l :
  0 < max -> Z.of_nat (length l) <= max -> Z.of_nat (length (push_log max e l)) <= max.
Proof.
  intros Hmax Hl. unfold push_log. rewrite length_app. cbn.
  case_if; bool_props; destruct l; cbn in *; lia.
Qed.

(** The event log after [_LogEvent], and the entry it appends. *)
Definition next_entry (type p1 p2 r : Z) (h : LogHolder) (g : Guild) (w : World) : LogEntry :=
  EventLogEntry (m_id g)
    (if lh_nextGUID h =? GUILD_EVENT_LOG_GUID_UNDEFINED then 0
     else u32 (lh_nextGUID h + 1) mod GUILD_EVENTLOG_MAX_RECORDS)
    (w_time w) type p1 p2 (u8 r).
Definition logged (type p1 p2 r : Z) (h : LogHolder) (g : Guild) (w : World) : LogHolder :=
  let e := next_entry type p1 p2 r h g w in
  mkLogHolder (push_log GUILD_EVENTLOG_MAX_RECORDS e (lh_log h)) (lh_guildId h)
    GUILD_EVENTLOG_MAX_RECORDS (entry_guid e).

Lemma logged_ok type p1 p2 r h g w :
  log_ok GUILD_EVENTLOG_MAX_RECORDS h -> log_ok GUILD_EVENTLOG_MAX_RECORDS (logged type p1 p2 r h g w).
Proof.
  intros Hh. destruct (GetNextGUID_ok GUILD_EVENTLOG_MAX_RECORDS h ltac:(unfold GUILD_EVENTLOG_MAX_RECORDS; lia) Hh) as (n & _ & Hn & E).
  destruct Hh as (Hm & Hlen & _). split; [done|]. split.
  - apply push_log_length; [done|lia].
  - change (lh_nextGUID (logged type p1 p2 r h g w)) with (entry_guid (next_entry type p1 p2 r h g w)).
    cbn [next_entry entry_guid]. rewrite <- E. unfold GUILD_EVENTLOG_MAX_RECORDS in Hn. lia.
Qed.

Lemma wp_LogEvent type p1 p2 r h Q g w :
  m_eventLog g = Some h -> log_ok GUILD_EVENTLOG_MAX_RECORDS h ->
  Q tt (set_g_logs (Some (logged type p1 p2 r h g w)) (m_bankEventLog g) g,
        emits [Commit (LogEntry_SaveToDB (next_entry type p1 p2 r h g w))] w) ->
  wp (_LogEvent type p1 p2 r) Q (g, w).
Proof.
  intros Hg Hh HQ. apply wp_bind, wp_getg, wp_bind, wp_getw, wp_bind, (wp_lift _ h); [done|].
  destruct (GetNextGUID_ok GUILD_EVENTLOG_MAX_RECORDS h ltac:(unfold GUILD_EVENTLOG_MAX_RECORDS; lia) Hh) as (n & E & Hn & En).
  apply wp_bind, (wp_lift _ _ _ _ E).
  destruct Hh as (Hm & Hlen & _).
  eapply wp_bind, wp_lift.
  { apply (AddEvent_ok GUILD_EVENTLOG_MAX_RECORDS); [done|]. split; [done|]. split; [done|].
    cbn [lh_nextGUID]. unfold GUILD_EVENTLOG_MAX_RECORDS in Hn. lia. }
  apply wp_bind, wp_modg, wp_commit. unfold logged, next_entry in HQ. cbv zeta in HQ. by rewrite <- En in HQ.
Qed.
End Specs.
