(* ===== verification/GuildFacts.v ===== *)
(** * Guild: invariant and theorems

    What a guild always satisfies once it is created, and what each client
    command, each status update and the repair at start-up do to it. *)
From Stdlib Require Import Ascii String ZArith Lia.
From stdpp Require Import base gmap sets list strings.
From S2P Require Import Prelude ByteBuffer Utf8 World Guild GuildOps GuildLogic.

Open Scope Z_scope.

(** ** The invariant *)
Definition rank_ok (i : nat) (r : RankInfo) : Prop :=
  gr_rankId r = Z.of_nat i
  /\ length (gr_bankTabRightsAndSlots r) = Z.to_nat GUILD_BANK_MAX_TABS
  /\ (i = 0%nat -> Z.land (gr_rights r) GR_RIGHT_ALL = GR_RIGHT_ALL).

Definition member_ok (k : Z) (m : Member) : Prop :=
  gm_guid m = k /\ 0 <= k < 2 ^ 32 /\ 0 <= gm_rankId m <= GUILD_RANKS_MAX_COUNT
  /\ length (gm_bankWithdraw m) = Z.to_nat (GUILD_BANK_MAX_TABS + 1).

(** Ranks numbered 0 to 4 at least and 9 at most, the first with every right;
    members filed under their own GUID; every log there and within its size;
    at most six bank tabs. *)
Record guild_ok (g : Guild) : Prop := mkGuildOk {
  go_count : GUILD_RANKS_MIN_COUNT <= Z.of_nat (length (m_ranks g)) <= GUILD_RANKS_MAX_COUNT;
  go_ranks : forall i r, m_ranks g !! i = Some r -> rank_ok i r;
  go_members : forall k m, m_members g !! k = Some m -> member_ok k m;
  go_event : exists h, m_eventLog g = Some h /\ log_ok GUILD_EVENTLOG_MAX_RECORDS h;
  go_bank_len : length (m_bankEventLog g) = Z.to_nat (GUILD_BANK_MAX_TABS + 1);
  go_bank : forall i o, m_bankEventLog g !! i = Some o ->
              exists h, o = Some h /\ log_ok GUILD_BANKLOG_MAX_RECORDS h;
  go_tabs : Z.of_nat (length (m_bankTabs g)) <= GUILD_BANK_MAX_TABS
}.

(** The recorded leader is a member. *)
Definition leader_in (g : Guild) : Prop := is_Some (m_members g !! m_leaderGuid g).

(** The recorded number of accounts is the number of distinct accounts. *)
Definition account_set (g : Guild) : gset Z :=
  list_to_set ((fun e => gm_accountId e.2) <$> map_to_list (m_members g)).
Definition accounts_right (g : Guild) : Prop :=
  m_accountsNumber g = u32 (Z.of_nat (size (account_set g))).

(** Players are filed under their own number, which is also its low part; and a
    member who is online has the account the guild recorded. *)
Definition players_ok (w : World) : Prop :=
  forall k p, m_PlayerMap w !! k = Some p -> p_GUID p = k /\ p_GUIDLow p = k /\ 0 <= k < 2 ^ 32.
Definition agree (g : Guild) (w : World) : Prop :=
  forall k m p, m_members g !! k = Some m -> m_PlayerMap w !! k = Some p -> gm_accountId m = p_accountId p.

Record Inv (s : GState) : Prop := mkInv {
  inv_guild : guild_ok s.1;
  inv_leader : leader_in s.1;
  inv_accounts : accounts_right s.1;
  inv_players : players_ok s.2;
  inv_agree : agree s.1 s.2
}.

(** ** What leaves it in place *)

(** The identity of the players: numbers and account. *)
Definition core (p : Player) : Z * Z * Z := (p_GUID p, p_GUIDLow p, p_accountId p).
Definition steady (w w' : World) : Prop :=
  w_time w' = w_time w /\ forall k, core <$> m_PlayerMap w' !! k = core <$> m_PlayerMap w !! k.

#[export] Instance steady_preorder : PreOrder steady.
Proof.
  split; [done|]. intros w1 w2 w3 [T1 E1] [T2 E2]. split; [by rewrite T2|]. intros k. by rewrite E2, E1.
Qed.

Lemma steady_emits es w : steady w (emits es w).
Proof. done. Qed.

Lemma steady_lookup w w' k p' :
  steady w w' -> m_PlayerMap w' !! k = Some p' -> exists p, m_PlayerMap w !! k = Some p /\ core p = core p'.
Proof.
  intros [_ E] Hp. specialize (E k). rewrite Hp in E. cbn in E. symmetry in E.
  apply fmap_Some in E as (p & Hp0 & Hc). eauto.
Qed.

Lemma steady_online w w' k : steady w w' -> is_Some (FindPlayer k w) -> is_Some (FindPlayer k w').
Proof.
  intros [_ E] [p Hp]. unfold FindPlayer in *. specialize (E k). rewrite Hp in E.
  destruct (m_PlayerMap w' !! k); [by eexists|done].
Qed.

Lemma steady_update f p w :
  (forall q, core (f q) = core q) -> steady w (update_player f p w).
Proof.
  intros Hf. split; [done|]. intros k. unfold update_player. cbn. destruct (decide (p_GUID p = k)) as [<-|Hne].
  - rewrite lookup_alter_eq. destruct (m_PlayerMap w !! p_GUID p); [cbn; by rewrite Hf|done].
  - by rewrite lookup_alter_ne.
Qed.

Lemma steady_global guid id w : steady w (UpdateGlobalPlayerGuild guid id w).
Proof. unfold UpdateGlobalPlayerGuild. by case_match. Qed.

Lemma steady_rank_player r guid w : steady w (rank_player r guid w).
Proof. unfold rank_player. case_match; [by apply steady_update|done]. Qed.

Lemma steady_in_guild id p w : steady w (SetInGuild id p w).
Proof. unfold SetInGuild. etransitivity; [|apply steady_global]. by apply steady_update. Qed.

#[export] Hint Resolve steady_emits steady_global steady_rank_player steady_in_guild : shade.

Lemma players_ok_steady w w' : steady w w' -> players_ok w -> players_ok w'.
Proof.
  intros E Hw k p' Hp. destruct (steady_lookup _ _ _ _ E Hp) as (p & Hp0 & [= E1 E2 E3]).
  rewrite <- E1, <- E2. by apply Hw.
Qed.

Lemma agree_steady g w w' : steady w w' -> agree g w -> agree g w'.
Proof.
  intros E Hw k m p' Hm Hp. destruct (steady_lookup _ _ _ _ E Hp) as (p & Hp0 & [= E1 E2 E3]).
  rewrite <- E3. by apply (Hw k).
Qed.

Lemma Inv_world g w w' : steady w w' -> Inv (g, w) -> Inv (g, w').
Proof.
  intros E [? ? ? ? ?]. split; [done..| |]; cbn in *.
  - by apply (players_ok_steady w).
  - by apply (agree_steady g w).
Qed.

(** A change of the guild that leaves the members alone. *)
Lemma Inv_guild g g' w :
  guild_ok g' -> m_members g' = m_members g -> m_leaderGuid g' = m_leaderGuid g ->
  m_accountsNumber g' = m_accountsNumber g -> Inv (g, w) -> Inv (g', w).
Proof.
  intros Hg Em El Ea [? Hl Hac ? Hag]. split; [done|..]; cbn in *.
  - unfold leader_in. by rewrite Em, El.
  - unfold accounts_right, account_set. by rewrite Em, Ea.
  - done.
  - unfold agree. by rewrite Em.
Qed.

Lemma elem_of_account_set a g :
  a ∈ account_set g <-> exists k m, m_members g !! k = Some m /\ gm_accountId m = a.
Proof.
  unfold account_set. rewrite elem_of_list_to_set, list_elem_of_fmap. split.
  - intros ([k m] & -> & Hin). apply elem_of_map_to_list in Hin. eauto.
  - intros (k & m & Hm & <-). exists (k, m). split; [done|]. by apply elem_of_map_to_list.
Qed.

Lemma guild_ok_put g k m m' :
  m_members g !! k = Some m -> member_ok k m' -> guild_ok g -> guild_ok (put_member k m' g).
Proof.
  intros Hm Hm' []. split; cbn; try done.
  intros j n. destruct (decide (j = k)) as [->|Hne].
  - rewrite lookup_insert_eq. by intros [= <-].
  - rewrite lookup_insert_ne by done. auto.
Qed.

Lemma leader_in_put g k m : leader_in g -> leader_in (put_member k m g).
Proof.
  unfold leader_in. cbn. intros Hl. destruct (decide (k = m_leaderGuid g)) as [->|Hne].
  - rewrite lookup_insert_eq. by eexists.
  - by rewrite lookup_insert_ne.
Qed.

Lemma account_set_put g k m m' :
  m_members g !! k = Some m -> gm_accountId m' = gm_accountId m ->
  account_set (put_member k m' g) = account_set g.
Proof.
  intros Hm Ha. apply set_eq. intros a. rewrite !elem_of_account_set. cbn. split.
  - intros (j & n & Hn & <-). destruct (decide (j = k)) as [->|Hne].
    + rewrite lookup_insert_eq in Hn. injection Hn as <-. by exists k, m.
    + rewrite lookup_insert_ne in Hn by done. eauto.
  - intros (j & n & Hn & <-). destruct (decide (j = k)) as [->|Hne].
    + exists k, m'. rewrite lookup_insert_eq. split; [done|]. congruence.
    + exists j, n. by rewrite lookup_insert_ne.
Qed.

(** A member rewritten in place, with the same account. *)
Lemma Inv_put g w k m m' :
  m_members g !! k = Some m -> member_ok k m' -> gm_accountId m' = gm_accountId m ->
  Inv (g, w) -> Inv (put_member k m' g, w).
Proof.
  intros Hm Hok Ha [Hg Hl Hac Hp Hag]. split; cbn in *.
  - by apply (guild_ok_put g k m).
  - by apply leader_in_put.
  - unfold accounts_right. by rewrite (account_set_put g k m m').
  - done.
  - intros j n p. cbn. destruct (decide (j = k)) as [->|Hne].
    + rewrite lookup_insert_eq. intros [= <-] Hp'. rewrite Ha. by apply (Hag k).
    + rewrite lookup_insert_ne by done. apply Hag.
Qed.

(** *** The fields that matter when a member is rewritten *)
Lemma member_ok_rank k m r :
  0 <= r <= GUILD_RANKS_MAX_COUNT -> member_ok k m -> member_ok k (set_m_rank r m).
Proof.
  intros Hr (? & ? & ? & ?). repeat split; cbn; try done; try tauto; try lia.
  - apply wrap_range. lia.
  - rewrite wrap_small; [tauto|]. unfold GUILD_RANKS_MAX_COUNT in Hr. lia.
Qed.
Lemma member_ok_stats k m n l c z a : member_ok k m -> member_ok k (set_stats n l c z a m).
Proof. done. Qed.
Lemma member_ok_flags k m f : member_ok k m -> member_ok k (set_m_flags f m).
Proof. done. Qed.
Lemma member_ok_notes k m a b : member_ok k m -> member_ok k (set_m_notes a b m).
Proof. done. Qed.
#[export] Hint Resolve member_ok_stats member_ok_flags member_ok_notes : shade.

Lemma GUID_LOPART_key g k m :
  guild_ok g -> m_members g !! k = Some m -> GUID_LOPART (gm_guid m) = k /\ gm_guid m = k.
Proof. intros Hg Hm. destruct (go_members g Hg k m Hm) as (-> & Hk & _). by rewrite GUID_LOPART_small. Qed.

Lemma player_key w s p : players_ok w -> FindPlayer s w = Some p -> p_GUID p = s /\ p_GUIDLow p = s /\ GUID_LOPART s = s.
Proof. intros Hw Hp. destruct (Hw s p Hp) as (? & ? & ?). by rewrite GUID_LOPART_small. Qed.

(** ** Ranks *)
Lemma ranks_size g : guild_ok g -> _GetRanksSize g = Z.of_nat (length (m_ranks g)).
Proof.
  intros Hg. pose proof (go_count g Hg) as Hc. unfold _GetRanksSize. apply wrap_small.
  unfold GUILD_RANKS_MIN_COUNT, GUILD_RANKS_MAX_COUNT in Hc. lia.
Qed.
Lemma lowest_rank g : guild_ok g -> _GetLowestRankId g = Z.of_nat (length (m_ranks g)) - 1.
Proof.
  intros Hg. pose proof (go_count g Hg) as Hc. unfold _GetLowestRankId. apply wrap_small.
  unfold GUILD_RANKS_MIN_COUNT, GUILD_RANKS_MAX_COUNT in Hc. lia.
Qed.
Lemma lowest_rank_range g : guild_ok g -> 4 <= _GetLowestRankId g <= 9.
Proof.
  intros Hg. rewrite lowest_rank by done. pose proof (go_count g Hg) as Hc.
  unfold GUILD_RANKS_MIN_COUNT, GUILD_RANKS_MAX_COUNT in Hc. lia.
Qed.
Lemma tabs_size g : guild_ok g -> _GetPurchasedTabsSize g = Z.of_nat (length (m_bankTabs g)).
Proof.
  intros Hg. pose proof (go_tabs g Hg) as Hc. unfold _GetPurchasedTabsSize. apply wrap_small.
  unfold GUILD_BANK_MAX_TABS in Hc. lia.
Qed.

Lemma guild_ok_ranks g rs :
  GUILD_RANKS_MIN_COUNT <= Z.of_nat (length rs) <= GUILD_RANKS_MAX_COUNT ->
  (forall i r, rs !! i = Some r -> rank_ok i r) -> guild_ok g -> guild_ok (set_g_ranks rs g).
Proof. intros ? ? []. by split. Qed.

Lemma Inv_rank g w i r r' :
  m_ranks g !! i = Some r -> rank_ok i r' -> Inv (g, w) ->
  Inv (set_g_ranks (<[i := r']> (m_ranks g)) g, w).
Proof.
  intros Hi Hr HI. pose proof (inv_guild _ HI) as Hg. cbn in Hg.
  apply (Inv_guild g); [|done..]. apply guild_ok_ranks; [|..|done].
  - rewrite length_insert. apply go_count, Hg.
  - intros j q. destruct (decide (i = j)) as [<-|Hne].
    + rewrite list_lookup_insert_eq by (by eapply lookup_lt_Some). by intros [= <-].
    + rewrite list_lookup_insert_ne by done. apply go_ranks, Hg.
Qed.

Lemma rank_ok_SetName i n r : rank_ok i r -> rank_ok i (RankInfo_SetName n r).1.
Proof. unfold RankInfo_SetName. intros. by case_if. Qed.
Lemma rank_ok_SetRights i v r : rank_ok i r -> rank_ok i (RankInfo_SetRights v r).1.
Proof.
  intros (Hi & Hl & Hr). unfold RankInfo_SetRights.
  destruct (gr_rankId r =? GR_GUILDMASTER) eqn:E; bool_props; cbv zeta; case_if; try done.
  split; [done|]. split; [done|]. intros ->. by rewrite Hi in E.
Qed.
Lemma rank_ok_SetMoney i v r : rank_ok i r -> rank_ok i (RankInfo_SetBankMoneyPerDay v r).1.
Proof. unfold RankInfo_SetBankMoneyPerDay. intros. cbv zeta. by repeat case_if. Qed.
Lemma rank_ok_SetTab i rs save r r' stmts :
  rank_ok i r -> SetBankTabSlotsAndRights rs save r = Some (r', stmts) -> rank_ok i r'.
Proof.
  intros (Hi & Hl & Hr). unfold SetBankTabSlotsAndRights. cbv zeta.
  match goal with |- (if ?b then _ else _) = _ -> _ => destruct b end; [|done].
  intros [= <- _]. split; [done|]. split; [|done]. cbn. by rewrite length_insert.
Qed.
Lemma SetTab_defined rs save r :
  0 <= GetTabId rs < GUILD_BANK_MAX_TABS -> exists r' stmts, SetBankTabSlotsAndRights rs save r = Some (r', stmts).
Proof.
  intros Hrs. unfold SetBankTabSlotsAndRights. cbv zeta.
  set (rs' := if gr_rankId r =? GR_GUILDMASTER then _ else rs).
  assert (GetTabId rs' = GetTabId rs) as -> by (unfold rs'; by case_if).
  replace ((0 <=? GetTabId rs) && (GetTabId rs <? GUILD_BANK_MAX_TABS)) with true; [by eexists _, _|].
  symmetry. apply andb_true_iff. rewrite Z.leb_le, Z.ltb_lt. lia.
Qed.

(** ** Stepping through a method *)
Ltac wstep :=
  lazymatch goal with
  | |- wp (mbind _ _) _ _ => apply wp_bind
  | |- wp (mret _) _ _ => apply wp_ret
  | |- wp getg _ _ => apply wp_getg
  | |- wp getw _ _ => apply wp_getw
  | |- wp (exec _) _ _ => apply wp_exec
  | |- wp (commit _) _ _ => apply wp_commit
  | |- wp (modg _) _ _ => apply wp_modg
  | |- wp (modw (emit _)) _ _ => apply wp_emit
  | |- wp (modw _) _ _ => apply wp_modw
  | |- wp (store _ _) _ _ => apply wp_store
  | |- wp (for_each _ exec) _ _ => apply wp_exec_all
  | |- wp (deref _) _ _ => eapply wp_deref; [eassumption|]
  | |- wp (GetPlayer _) _ _ => eapply wp_GetPlayer; [eassumption|]
  | |- wp (send _ _) _ _ => eapply wp_send; [eassumption|]
  | |- wp (SendCommandResult _ _ _ _) _ _ => eapply wp_SendCommandResult; [eassumption|]
  | |- wp (broadcast _ _ _) _ _ => apply wp_broadcast
  | |- wp (HandleRoster _) _ _ => eapply wp_HandleRoster; [eassumption|]
  end;
  cbn beta.
Ltac wsteps := repeat wstep.

Section Operations.
Context `{UnorderedIter} (cfg : Config) (GetTrinityString : Z -> Z -> string)
        (QueryCharData : Z -> option (string * Z * Z * Z * Z)) (localtime : Z -> tm).

(** ** The bank's limits are defined for every member *)
Lemma withdraw_defined g k m tabId :
  guild_ok g -> m_members g !! k = Some m -> 0 <= tabId <= GUILD_BANK_MAX_TABS ->
  exists v, GetBankWithdrawValue tabId m = Some v.
Proof.
  intros Hg Hm Ht. unfold GetBankWithdrawValue. case_if; [by eexists|].
  apply lookup_lt_is_Some_2. destruct (go_members g Hg k m Hm) as (_ & _ & _ & ->).
  unfold GUILD_BANK_MAX_TABS in *. lia.
Qed.

Lemma remaining_slots_defined g k m tabId :
  guild_ok g -> m_members g !! k = Some m -> 0 <= tabId ->
  exists v, _GetMemberRemainingSlots m tabId g = Some v.
Proof.
  intros Hg Hm Ht. unfold _GetMemberRemainingSlots. case_if; [by eexists|]. case_if; [|by eexists].
  destruct (withdraw_defined g k m tabId Hg Hm) as [v ->]; [|by eexists]. split; [done|].
  destruct (decide (tabId <= GUILD_BANK_MAX_TABS)); [done|].
  exfalso. revert Heqb0. unfold _GetRankBankTabRights, GetBankTabRights. case_match; [|done].
  replace (tabId <? GUILD_BANK_MAX_TABS) with false; [done|]. symmetry. apply Z.ltb_ge. lia.
Qed.

Lemma remaining_money_defined g k m :
  guild_ok g -> m_members g !! k = Some m -> exists v, _GetMemberRemainingMoney m g = Some v.
Proof.
  intros Hg Hm. unfold _GetMemberRemainingMoney. case_if; [by eexists|]. case_if; [|by eexists].
  destruct (withdraw_defined g k m GUILD_BANK_MAX_TABS Hg Hm) as [v ->]; [|by eexists]. done.
Qed.

Lemma GetMember_lookup g guid m :
  GetMember guid g = Some m -> m_members g !! GUID_LOPART guid = Some m.
Proof. done. Qed.

(** ** What a session is sent only adds to the trace *)
Lemma wp_SendBankList session p tabId all slots Q g w :
  guild_ok g -> FindPlayer session w = Some p -> 0 <= tabId ->
  (forall es, Q tt (g, emits es w)) -> wp (_SendBankList (Some session) tabId all slots) Q (g, w).
Proof.
  intros Hg Hp Ht HQ. unfold _SendBankList. do 2 wstep. apply wp_bind.
  destruct (GetMember session g) as [m|] eqn:Hm.
  - destruct (remaining_slots_defined g _ m tabId Hg Hm Ht) as [v Hv].
    apply (wp_lift _ v); [done|]. wsteps. apply HQ.
  - wsteps. apply HQ.
Qed.

Lemma wp_SendBankTabData session p tabId Q g w :
  guild_ok g -> FindPlayer session w = Some p -> 0 <= tabId ->
  (forall es, Q tt (g, emits es w)) -> wp (SendBankTabData session tabId) Q (g, w).
Proof.
  intros Hg Hp Ht HQ. assert (Q tt (g, w)) as H0 by (rewrite <- (emits_nil w); apply HQ).
  unfold SendBankTabData. do 2 wstep. apply wp_when; [intros _|done].
  unfold _SendBankContent. do 2 wstep. apply wp_when; [intros _|done]. by apply (wp_SendBankList _ p).
Qed.

Lemma wp_SendEventLog session p Q g w :
  guild_ok g -> FindPlayer session w = Some p ->
  (forall es, Q tt (g, emits es w)) -> wp (SendEventLog session) Q (g, w).
Proof.
  intros Hg Hp HQ. destruct (go_event g Hg) as (h & Hh & _). unfold SendEventLog. do 5 wstep.
  apply (wp_lift _ h); [done|]. wsteps. apply HQ.
Qed.

Lemma bank_log g i :
  guild_ok g -> 0 <= i <= GUILD_BANK_MAX_TABS ->
  exists h, m_bankEventLog g !! Z.to_nat i = Some (Some h) /\ log_ok GUILD_BANKLOG_MAX_RECORDS h.
Proof.
  intros Hg Hi. assert (is_Some (m_bankEventLog g !! Z.to_nat i)) as [o Ho].
  { apply lookup_lt_is_Some_2. rewrite (go_bank_len g Hg). unfold GUILD_BANK_MAX_TABS in *. lia. }
  destruct (go_bank g Hg _ _ Ho) as (h & -> & Hh). eauto.
Qed.

Lemma wp_SendBankLog session p tabId Q g w :
  guild_ok g -> FindPlayer session w = Some p -> 0 <= tabId ->
  (forall es, Q tt (g, emits es w)) -> wp (SendBankLog session tabId) Q (g, w).
Proof.
  intros Hg Hp Ht HQ. unfold SendBankLog. do 4 wstep. rewrite tabs_size by done.
  destruct (_ || _) eqn:E; [|wsteps; by rewrite <- (emits_nil w)].
  destruct (bank_log g tabId Hg) as (h & Hh & _).
  { split; [done|]. pose proof (go_tabs g Hg). apply orb_true_iff in E as [E|E]; bool_props; lia. }
  apply wp_bind, (wp_lift _ h); [by rewrite Hh|]. wsteps. apply HQ.
Qed.

Lemma tab_permissions_defined g k m l :
  guild_ok g -> m_members g !! k = Some m ->
  exists v, mapM (tab_permissions (gm_rankId m) m g) l = Some v.
Proof.
  intros Hg Hm. apply mapM_is_Some. apply Forall_forall. intros i _. unfold compose, tab_permissions.
  destruct (remaining_slots_defined g k m (Z.of_nat i) Hg Hm) as [v ->]; [lia|by eexists].
Qed.

Lemma wp_SendPermissions session p Q g w :
  guild_ok g -> FindPlayer session w = Some p ->
  (forall es, Q tt (g, emits es w)) -> wp (SendPermissions session) Q (g, w).
Proof.
  intros Hg Hp HQ. unfold SendPermissions. do 2 wstep.
  destruct (GetMember session g) as [m|] eqn:Hm; [|wsteps; by rewrite <- (emits_nil w)].
  destruct (remaining_money_defined g _ m Hg Hm) as [v Hv]. apply wp_bind, (wp_lift _ v); [done|].
  destruct (tab_permissions_defined g _ m (seq 0 (Z.to_nat GUILD_BANK_MAX_TABS)) Hg Hm) as [l Hl].
  apply wp_bind, (wp_lift _ l); [done|]. wsteps. apply HQ.
Qed.

Lemma wp_SendMoneyInfo session p Q g w :
  guild_ok g -> FindPlayer session w = Some p ->
  (forall es, Q tt (g, emits es w)) -> wp (SendMoneyInfo session) Q (g, w).
Proof.
  intros Hg Hp HQ. unfold SendMoneyInfo. do 2 wstep.
  destruct (GetMember session g) as [m|] eqn:Hm; [|wsteps; by rewrite <- (emits_nil w)].
  destruct (remaining_money_defined g _ m Hg Hm) as [v Hv]. apply wp_bind, (wp_lift _ v); [done|].
  wsteps. apply HQ.
Qed.

(** ** Logging in *)
Definition logged_in (guid : Z) (p : Player) (g : Guild) : Guild :=
  match GetMember guid g with
  | Some m => put_member (GUID_LOPART guid) (AddFlag GUILDMEMBER_STATUS_ONLINE (SetStats_player p m)) g
  | None => g
  end.

Lemma wp_SendLoginInfo session p Q g w :
  guild_ok g -> FindPlayer session w = Some p -> p_GUID p = session ->
  (forall es, Q tt (logged_in session p g, emits es w)) -> wp (SendLoginInfo session) Q (g, w).
Proof.
  intros Hg Hp Hs HQ. unfold SendLoginInfo. do 5 wstep.
  apply (wp_SendBankList _ p); [done..|]. intros es. do 2 wstep. wstep.
  eapply wp_GetPlayer; [exact Hp|]. wstep. apply wp_broadcast. do 2 wstep.
  rewrite Hs. unfold logged_in in HQ. repeat setoid_rewrite emits_emits.
  destruct (GetMember session g); wsteps; apply HQ.
Qed.

(** ** Members leave *)
Definition without (guid : Z) (g : Guild) : Guild :=
  set_g_members (delete (GUID_LOPART guid) (m_members g)) g.
Definition forget_guild (guid : Z) (player : option Player) (w : World) : World :=
  match player with
  | Some p => update_player (SetRank 0) p (SetInGuild 0 p w)
  | None => UpdateGlobalPlayerGuild (GUID_LOPART guid) 0 w
  end.
Definition delete_stmt (guid : Z) : Stmt := mkStmt CHAR_DEL_GUILD_MEMBER [QU32 (GUID_LOPART guid)].

Lemma wp_drop_member guid disbanding player Q g w :
  Q tt ((if (disbanding : bool) then without guid g else _UpdateAccountsNumber (without guid g)),
        emits [Execute (delete_stmt guid)] (forget_guild guid player w)) ->
  wp (drop_member guid disbanding player) Q (g, w).
Proof.
  intros HQ. unfold drop_member. do 2 wstep. wstep. destruct player; wsteps; unfold _DeleteMemberFromDB; wsteps;
    destruct disbanding; done.
Qed.

Lemma steady_forget guid player w : steady w (forget_guild guid player w).
Proof.
  unfold forget_guild. destruct player; [|apply steady_global].
  etransitivity; [apply steady_in_guild|by apply steady_update].
Qed.

Lemma accounts_right_update g : accounts_right (_UpdateAccountsNumber g).
Proof.
  unfold accounts_right, _UpdateAccountsNumber, account_set, accounts_of, members_in_order. cbn.
  do 3 f_equal. apply set_eq. intros a. rewrite !elem_of_list_to_set, !list_elem_of_fmap.
  setoid_rewrite uiter_perm. split; intros ([k m] & -> & Hin); by exists (k, m).
Qed.

Lemma guild_ok_accounts v g : guild_ok g -> guild_ok (set_g_accounts v g).
Proof. intros []. by split. Qed.
Lemma guild_ok_leader v g : guild_ok g -> guild_ok (set_g_leader v g).
Proof. intros []. by split. Qed.
Lemma guild_ok_texts a b g : guild_ok g -> guild_ok (set_g_texts a b g).
Proof. intros []. by split. Qed.
Lemma guild_ok_without guid g : guild_ok g -> guild_ok (without guid g).
Proof.
  intros []. split; cbn; try done. intros k m [_ Hm]%lookup_delete_Some. auto.
Qed.
Lemma guild_ok_event h g :
  log_ok GUILD_EVENTLOG_MAX_RECORDS h -> guild_ok g -> guild_ok (set_g_logs (Some h) (m_bankEventLog g) g).
Proof. intros ? []. split; cbn; try done. by exists h. Qed.
Lemma guild_ok_tabs ts g :
  Z.of_nat (length ts) <= GUILD_BANK_MAX_TABS -> guild_ok g -> guild_ok (set_g_tabs ts g).
Proof. intros ? []. by split. Qed.

(** ** The succession *)

(** Who takes over: a member other than the leaving one, of the lowest rank
    number among them; nobody when there is no other. *)
Definition heir (lowguid : Z) (g : Guild) (new : option (Z * Member)) : Prop :=
  match new with
  | Some (k, m) =>
      k <> lowguid /\ m_members g !! k = Some m
      /\ forall j n, j <> lowguid -> m_members g !! j = Some n -> gm_rankId m <= gm_rankId n
  | None => forall j n, m_members g !! j = Some n -> j = lowguid
  end.

Lemma succession_prefix lowguid l :
  let r := foldl (succession_step lowguid) (None, None) l in
  (forall m, r.1 = Some m -> (lowguid, m) ∈ l)
  /\ match r.2 with
     | Some (k, m) => k <> lowguid /\ (k, m) ∈ l
                      /\ forall j n, j <> lowguid -> (j, n) ∈ l -> gm_rankId m <= gm_rankId n
     | None => forall j n, (j, n) ∈ l -> j = lowguid
     end.
Proof.
  induction l as [|[k m] l IH] using rev_ind; [cbn; split; [done|by intros j n ?%not_elem_of_nil]|].
  cbv zeta in *. rewrite foldl_snoc. destruct (foldl _ _ l) as [old new]. cbn [fst snd] in IH.
  destruct IH as [IHo IHn]. unfold succession_step.
  destruct (Z.eqb_spec k lowguid) as [->|Hk]; cbn [fst snd].
  - split; [intros ? [= ->]; apply elem_of_app; right; by apply list_elem_of_singleton|].
    destruct new as [[k1 m1]|]; [|intros j n [?|[= -> _]%list_elem_of_singleton]%elem_of_app; eauto].
    destruct IHn as (? & ? & Hmin). split; [done|]. split; [by apply elem_of_app; left|].
    intros j n Hj [?|[= ? _]%list_elem_of_singleton]%elem_of_app; eauto. done.
  - destruct new as [[k1 m1]|].
    + destruct IHn as (? & ? & Hmin). destruct (Z.ltb_spec (gm_rankId m) (gm_rankId m1)); cbn [fst snd].
      * split; [intros n Hn; apply elem_of_app; left; auto|]. split; [done|].
        split; [apply elem_of_app; right; by apply list_elem_of_singleton|].
        intros j n Hj [Hn|[= -> ->]%list_elem_of_singleton]%elem_of_app; [|lia].
        specialize (Hmin _ _ Hj Hn). lia.
      * split; [intros n Hn; apply elem_of_app; left; auto|]. split; [done|].
        split; [by apply elem_of_app; left|].
        intros j n Hj [Hn|[= -> ->]%list_elem_of_singleton]%elem_of_app; [eauto|lia].
    + cbn [fst snd]. split; [intros n Hn; apply elem_of_app; left; auto|]. split; [done|].
      split; [apply elem_of_app; right; by apply list_elem_of_singleton|].
      intros j n Hj [Hn|[= -> ->]%list_elem_of_singleton]%elem_of_app; [by apply IHn in Hn|lia].
Qed.

Lemma succession_heir lowguid g :
  (forall m, (succession lowguid g).1 = Some m -> m_members g !! lowguid = Some m)
  /\ heir lowguid g (succession lowguid g).2.
Proof.
  destruct (succession_prefix lowguid (members_in_order g)) as [Ho Hn]. fold (succession lowguid g) in *.
  split; [intros m Hm; by apply elem_of_members_in_order, Ho|].
  unfold heir. destruct (succession lowguid g).2 as [[k m]|].
  - destruct Hn as (? & Hin & Hmin). split; [done|]. split; [by apply elem_of_members_in_order|].
    intros j n Hj Hm. apply (Hmin j); [done|]. by apply elem_of_members_in_order.
  - intros j n Hm. apply (Hn j n). by apply elem_of_members_in_order.
Qed.

(** [_SetLeaderGUID]: the member leads, at rank 0. *)
Definition led_by (key : Z) (m : Member) (g : Guild) : Guild :=
  put_member key (set_m_rank GR_GUILDMASTER m) (set_g_leader (gm_guid m) g).
Definition leader_stmt (guid id : Z) : Stmt :=
  mkStmt CHAR_UPD_GUILD_LEADER [QU32 (GUID_LOPART guid); QU32 id].

Lemma wp_SetLeaderGUID key m Q g w :
  m_members g !! key = Some m ->
  Q tt (led_by key m g,
        emits [Execute (rank_stmt GR_GUILDMASTER (gm_guid m)); Execute (leader_stmt (gm_guid m) (m_id g))]
          (rank_player GR_GUILDMASTER (gm_guid m) w)) ->
  wp (_SetLeaderGUID key) Q (g, w).
Proof.
  intros Hm HQ. unfold _SetLeaderGUID. do 4 wstep. apply wp_bind, (wp_ChangeRank _ _ m); [done|].
  wsteps. by rewrite emits_emits.
Qed.

Lemma Inv_led_by g w key m :
  guild_ok g -> accounts_right g -> players_ok w -> agree g w -> m_members g !! key = Some m ->
  Inv (led_by key m g, w).
Proof.
  intros Hg Hac Hp Hag Hm. destruct (GUID_LOPART_key g key m Hg Hm) as [_ Hk].
  assert (member_ok key (set_m_rank GR_GUILDMASTER m)) as Hok.
  { apply member_ok_rank; [unfold GR_GUILDMASTER, GUILD_RANKS_MAX_COUNT; lia|]. by apply (go_members g). }
  assert (forall j n, m_members (led_by key m g) !! j = Some n ->
            exists n', m_members g !! j = Some n' /\ gm_accountId n = gm_accountId n') as Hsame.
  { intros j n. cbn. destruct (decide (j = key)) as [->|Hne].
    - rewrite lookup_insert_eq. intros [= <-]. eauto.
    - rewrite lookup_insert_ne by done. eauto. }
  split; cbn.
  - apply (guild_ok_put _ key m); [done..|]. by apply guild_ok_leader.
  - unfold leader_in. cbn. rewrite Hk, lookup_insert_eq. by eexists.
  - unfold accounts_right. unfold led_by. by rewrite (account_set_put _ key m).
  - done.
  - intros j n p (n' & Hn & ->)%Hsame Hpl. by apply (Hag j).
Qed.

(** ** Disbanding *)
Lemma members_in_order_nil g : members_in_order g = [] <-> m_members g = ∅.
Proof.
  unfold members_in_order. split.
  - intros E. apply map_to_list_empty_iff. apply Permutation_nil_r. rewrite <- E. symmetry. apply uiter_perm.
  - intros E. apply Permutation_nil_r. rewrite uiter_perm, E. by rewrite map_to_list_empty.
Qed.

(** A round of the loop, on the world. *)
Definition drop_round (k : Z) (w : World) : World :=
  emits [Execute (delete_stmt k)] (forget_guild k (FindPlayer k w) w).

Lemma steady_round k w : steady w (drop_round k w).
Proof. etransitivity; [apply steady_forget|apply steady_emits]. Qed.

(** Enough rounds empty the guild, and what a round achieves for its member and
    no round undoes holds for every member at the end. *)
Lemma wp_disband_loop (P : Z -> World -> Prop) n Q g w :
  (forall k w, P k (drop_round k w)) -> (forall j k w, P k w -> P k (drop_round j w)) ->
  guild_ok g -> (size (m_members g) <= n)%nat ->
  (forall w', steady w w' -> (forall k, P k w \/ is_Some (m_members g !! k) -> P k w') ->
     Q tt (set_g_members ∅ g, w')) -> wp (disband_loop n) Q (g, w).
Proof.
  intros HP1 HP2.
  assert (forall g, m_members g = ∅ -> set_g_members ∅ g = g) as Hempty by (intros []; cbn; by intros ->).
  assert (forall g w, m_members g = ∅ -> (forall w', steady w w' -> (forall k, P k w \/ is_Some (m_members g !! k) -> P k w') ->
     Q tt (set_g_members ∅ g, w')) -> Q tt (g, w)) as Hend.
  { intros g0 w0 E HQ. rewrite <- (Hempty g0 E). apply HQ; [done|]. intros k [?|[x Hx]]; [done|].
    by rewrite E, lookup_empty in Hx. }
  revert g w. induction n as [|n IH]; intros g w Hg Hn HQ; cbn [disband_loop].
  - apply wp_ret, Hend; [|done]. apply map_size_empty_iff. lia.
  - do 2 wstep. destruct (members_in_order g) as [|[k m] l] eqn:E.
    + apply wp_ret, Hend; [|done]. by apply members_in_order_nil in E.
    + assert (m_members g !! k = Some m) as Hm by (apply elem_of_members_in_order; rewrite E; left).
      destruct (GUID_LOPART_key g k m Hg Hm) as [Hk Ek]. rewrite Ek in *.
      wstep. unfold DeleteMember_with. cbv zeta. do 4 wstep. rewrite andb_false_r.
      apply wp_drop_member. apply IH.
      * by apply guild_ok_without.
      * cbn. rewrite Hk, map_size_delete_Some by (by eexists). lia.
      * intros w' Hw' HP. apply HQ; [etransitivity; [apply (steady_round k)|exact Hw']|].
        intros j Hj. apply HP. cbn. rewrite Hk. destruct (decide (j = k)) as [->|Hne]; [left; apply HP1|].
        destruct Hj as [Hj|Hj]; [left; by apply HP2|right]. by rewrite lookup_delete_ne.
Qed.

Definition disbanded (g : Guild) : Guild := set_g_tabs [] (set_g_members ∅ g).
Definition row_stmt (id : Z) (s : CharStmt) : Stmt := mkStmt s [QU32 id].
Definition disband_stmts (id : Z) : list Stmt :=
  row_stmt id <$> [CHAR_DEL_GUILD; CHAR_DEL_GUILD_RANKS; CHAR_DEL_GUILD_BANK_TABS;
    CHAR_DEL_GUILD_BANK_ITEMS; CHAR_DEL_GUILD_BANK_RIGHTS; CHAR_DEL_GUILD_BANK_EVENTLOGS;
    CHAR_DEL_GUILD_EVENTLOGS].

Lemma wp_Disband_each (P : Z -> World -> Prop) Q g w :
  (forall k w, P k (drop_round k w)) -> (forall j k w, P k w -> P k (drop_round j w)) ->
  guild_ok g ->
  (forall w', steady w w' -> (forall k, is_Some (m_members g !! k) -> P k w') ->
     Q tt (disbanded g, emits [Commit (disband_stmts (m_id g)); RemoveGuild (m_id g)] w')) ->
  wp Disband Q (g, w).
Proof.
  intros HP1 HP2 Hg HQ. unfold Disband. do 4 wstep. wstep. apply (wp_disband_loop P); [done..|].
  intros w' Hw' HP. do 2 wstep. cbv zeta. wstep. unfold _DeleteBankItems. do 4 wstep. rewrite emits_emits.
  apply HQ; [done|]. intros k Hk. apply HP. by right.
Qed.

Lemma wp_Disband Q g w :
  guild_ok g ->
  (forall w', steady w w' ->
     Q tt (disbanded g, emits [Commit (disband_stmts (m_id g)); RemoveGuild (m_id g)] w')) ->
  wp Disband Q (g, w).
Proof. intros Hg HQ. apply (wp_Disband_each (fun _ _ => True)); [done..|]. intros w' Hw' _. by apply HQ. Qed.

(** ** [DeleteMember] *)
Lemma wp_DeleteMember_other guid kicked can Q g w :
  m_leaderGuid g <> guid ->
  Q tt (_UpdateAccountsNumber (without guid g),
        emits [Execute (delete_stmt guid)] (forget_guild guid (FindPlayer guid w) w)) ->
  wp (DeleteMember guid false kicked can) Q (g, w).
Proof.
  intros Hl HQ. unfold DeleteMember, DeleteMember_with. cbv zeta. do 4 wstep.
  rewrite (proj2 (Z.eqb_neq _ _) Hl). by apply wp_drop_member.
Qed.

Lemma wp_DeleteMember_leader guid kicked can k m Q g w :
  guild_ok g -> m_leaderGuid g = guid -> (succession (GUID_LOPART guid) g).2 = Some (k, m) ->
  (forall w', steady w w' ->
     (exists es fs, w_trace w' = w_trace w
        ++ [Execute (rank_stmt GR_GUILDMASTER k); Execute (leader_stmt k (m_id g))] ++ es
        ++ [Execute (delete_stmt guid)] ++ fs) ->
     Q tt (_UpdateAccountsNumber (without guid (led_by k m g)), w')) ->
  wp (DeleteMember guid false kicked can) Q (g, w).
Proof.
  intros Hg Hl Hs HQ. unfold DeleteMember, DeleteMember_with. cbv zeta. do 4 wstep. rewrite Hl, Z.eqb_refl.
  cbn [negb andb]. pose proof (succession_heir (GUID_LOPART guid) g) as [_ Hh].
  destruct (succession (GUID_LOPART guid) g) as [old new]. cbn in Hs, Hh. subst new.
  destruct Hh as (Hk & Hm & _). destruct (GUID_LOPART_key g k m Hg Hm) as [_ E].
  apply wp_bind, (wp_SetLeaderGUID _ m); [done|]. do 2 wstep. rewrite E.
  assert (forall w1, steady w w1 -> (exists es, w_trace w1 = w_trace w
            ++ [Execute (rank_stmt GR_GUILDMASTER k); Execute (leader_stmt k (m_id g))] ++ es) ->
     wp (match old with
         | Some old0 => broadcast GE_LEADER_CHANGED 0 [gm_name old0; gm_name m] ;;
                        broadcast GE_LEFT guid [gm_name old0]
         | None => mret tt
         end ;; drop_member guid false (FindPlayer guid w)) Q (led_by k m g, w1)) as Hrest.
  { intros w1 Hw1 [es Hes]. wstep.
    assert (forall fs, wp (drop_member guid false (FindPlayer guid w)) Q (led_by k m g, emits fs w1)) as Hd.
    { intros fs. apply wp_drop_member, HQ.
      - etransitivity; [exact Hw1|]. etransitivity; [|apply steady_emits].
        etransitivity; [apply (steady_emits fs)|apply steady_forget].
      - exists (es ++ fs), []. cbn [w_trace emits].
        assert (w_trace (forget_guild guid (FindPlayer guid w) (emits fs w1)) = w_trace w1 ++ fs) as ->.
        { unfold forget_guild, SetInGuild, UpdateGlobalPlayerGuild. by repeat (case_match; cbn). }
        rewrite Hes, <- !app_assoc. done. }
    destruct old; wsteps; [rewrite emits_emits; apply Hd|]. rewrite <- (emits_nil w1). apply Hd. }
  assert (w_trace (rank_player GR_GUILDMASTER k w) = w_trace w) as Ht
    by (unfold rank_player; by destruct (FindPlayer k w)).
  wstep. destruct (FindPlayer k _) eqn:Hf; wstep.
  - apply Hrest.
    + etransitivity; [apply (steady_rank_player GR_GUILDMASTER k)|].
      etransitivity; [apply steady_emits|]. by apply steady_update.
    + exists []. cbn. by rewrite Ht.
  - apply Hrest.
    + etransitivity; [apply (steady_rank_player GR_GUILDMASTER k)|]. apply steady_emits.
    + exists []. cbn. by rewrite Ht.
Qed.

Lemma wp_DeleteMember_last guid kicked Q g w :
  guild_ok g -> m_leaderGuid g = guid -> (succession (GUID_LOPART guid) g).2 = None ->
  (forall w', steady w w' ->
     Q tt (disbanded g, emits [Commit (disband_stmts (m_id g)); RemoveGuild (m_id g)] w')) ->
  wp (DeleteMember guid false kicked false) Q (g, w).
Proof.
  intros Hg Hl Hs HQ. unfold DeleteMember, DeleteMember_with. cbv zeta. do 4 wstep. rewrite Hl, Z.eqb_refl.
  cbn [negb andb]. destruct (succession (GUID_LOPART guid) g) as [old new]. cbn in Hs. subst new.
  wstep. by apply wp_Disband.
Qed.

Lemma agree_without guid g w : agree g w -> agree (without guid g) w.
Proof. unfold agree, without. cbn. intros Hag k m p [_ Hm]%lookup_delete_Some. by apply Hag. Qed.

(** Removing a member other than the leader. *)
Lemma Inv_without g w guid :
  0 <= guid < 2 ^ 32 -> m_leaderGuid g <> guid ->
  guild_ok g -> leader_in g -> players_ok w -> agree g w ->
  Inv (_UpdateAccountsNumber (without guid g), w).
Proof.
  intros Hs Hl Hg Hin Hp Hag. split; cbn.
  - by apply guild_ok_accounts, guild_ok_without.
  - unfold leader_in, _UpdateAccountsNumber, without. cbn. rewrite GUID_LOPART_small by done.
    by rewrite lookup_delete_ne.
  - apply accounts_right_update.
  - done.
  - by apply (agree_without guid).
Qed.

(** ** [AddMember] *)
Lemma put_member_twice k a b g : put_member k b (put_member k a g) = put_member k b g.
Proof. unfold put_member, set_g_members. cbn. by rewrite insert_insert_eq. Qed.

Definition new_member (now id : Z) (p : Player) (rankId : Z) : Member :=
  AddFlag GUILDMEMBER_STATUS_ONLINE (SetStats_player p (Member_new now id (p_GUID p) rankId)).
Definition join_player (id rankId : Z) (p : Player) (w : World) : World :=
  update_player (SetRank rankId) p (update_player (SetGuildIdInvited 0) p (SetInGuild id p w)).
Definition rank_or_lowest (rankId : Z) (g : Guild) : Z :=
  if rankId =? GUILD_RANK_NONE then _GetLowestRankId g else rankId.

Lemma steady_join id r p w : steady w (join_player id r p w).
Proof.
  unfold join_player. etransitivity; [|by apply steady_update].
  etransitivity; [|by apply steady_update]. apply steady_in_guild.
Qed.

(** The player object after [AddMember]. *)
Lemma find_joined guid id r p w :
  players_ok w -> FindPlayer guid w = Some p ->
  FindPlayer guid (join_player id r p w) = Some (SetRank r (SetGuildIdInvited 0 (SetGuildId id p))).
Proof.
  intros Hw Hp. destruct (player_key w guid p Hw Hp) as (Hk & _). unfold FindPlayer, join_player, SetInGuild in *.
  unfold update_player at 1 2. cbn. rewrite Hk, !lookup_alter_eq.
  assert (forall a b w, m_PlayerMap (UpdateGlobalPlayerGuild a b w) = m_PlayerMap w) as ->
    by (intros; unfold UpdateGlobalPlayerGuild; by case_match).
  unfold update_player. cbn. by rewrite Hk, lookup_alter_eq, Hp.
Qed.

(** The guild after a member joined: filed, counted, logged. *)
Definition joined (guid : Z) (m : Member) (h : LogHolder) (g : Guild) (w : World) : Guild :=
  let g := _UpdateAccountsNumber (put_member guid m g) in
  set_g_logs (Some (logged GUILD_EVENT_LOG_JOIN_GUILD guid 0 0 h g w)) (m_bankEventLog g) g.

Lemma logged_time type p1 p2 r h g w w' :
  w_time w' = w_time w -> logged type p1 p2 r h g w' = logged type p1 p2 r h g w.
Proof. intros E. unfold logged, next_entry. by rewrite E. Qed.

Lemma wp_joined guid m name h Q g w :
  m_eventLog g = Some h -> log_ok GUILD_EVENTLOG_MAX_RECORDS h -> m_members g !! guid = Some m ->
  put_member guid m g = g ->
  (forall es, Q true (joined guid m h g w, emits (Execute (Member_SaveToDB m) :: es) w)) ->
  wp (member ← deref guid;
      exec (Member_SaveToDB member) ;;
      modg _UpdateAccountsNumber ;;
      _LogEvent GUILD_EVENT_LOG_JOIN_GUILD guid 0 0 ;;
      broadcast GE_JOINED guid [name] ;;
      mret true) Q (g, w).
Proof.
  intros Hh Hok Hm Hput HQ. wstep. eapply wp_deref; [exact Hm|]. do 5 wstep.
  apply (wp_LogEvent _ _ _ _ h); [done..|]. do 3 wstep. unfold joined in HQ. rewrite Hput in HQ.
  rewrite !emits_emits. apply HQ.
Qed.

Lemma wp_AddMember_online guid p rankId h Q g w :
  guild_ok g -> players_ok w -> FindPlayer guid w = Some p -> p_GuildId p = 0 ->
  m_eventLog g = Some h -> log_ok GUILD_EVENTLOG_MAX_RECORDS h ->
  let r := rank_or_lowest rankId g in
  let m := new_member (w_time w) (m_id g) p r in
  (0 <= r <= GUILD_RANKS_MAX_COUNT) ->
  (forall es fs, Q true (joined guid m h g w,
                   emits (es ++ [Execute (Member_SaveToDB m)] ++ fs) (join_player (m_id g) r p w))) ->
  wp (AddMember QueryCharData guid rankId) Q (g, w).
Proof.
  intros Hg Hw Hp Hid Hh Hok r m Hr HQ. unfold AddMember. do 4 wstep. rewrite Hp, Hid. cbn [Z.eqb negb].
  destruct (player_key w guid p Hw Hp) as (Hk & _ & Hlow). rewrite !Hlow. fold (rank_or_lowest rankId g). fold r.
  do 2 wstep. cbv zeta. do 12 wstep. rewrite put_member_twice.
  set (M := SetStats_player p (Member_new (w_time w) (m_id g) guid r)).
  assert (member_ok guid M) as HM.
  { unfold M, member_ok. cbn. destruct (Hw guid p Hp) as (_ & _ & ?). repeat split; try done; try lia.
    - apply wrap_range. lia.
    - rewrite wrap_small; [lia|]. unfold GUILD_RANKS_MAX_COUNT in Hr. lia. }
  assert (guild_ok (put_member guid M g)) as Hg1.
  { destruct Hg. split; cbn; try done. intros j n. destruct (decide (j = guid)) as [->|Hne].
    - rewrite lookup_insert_eq. by intros [= <-].
    - rewrite lookup_insert_ne by done. auto. }
  rewrite Hk. eapply wp_SendLoginInfo; [done|by apply (find_joined guid)|done|]. intros es. wstep.
  unfold logged_in. unfold GetMember. rewrite Hlow. cbn [m_members put_member set_g_members]. rewrite lookup_insert_eq.
  rewrite put_member_twice.
  assert (AddFlag GUILDMEMBER_STATUS_ONLINE (SetStats_player (SetRank r (SetGuildIdInvited 0 (SetGuildId (m_id g) p))) M) = m) as ->
    by (unfold m, new_member, M; by rewrite Hk).
  apply (wp_joined guid m _ h); [done|done|cbn; by rewrite lookup_insert_eq|by rewrite put_member_twice|].
  intros fs. unfold joined. rewrite put_member_twice. cbv zeta.
  rewrite (logged_time _ _ _ _ _ _ w); [|by destruct (steady_join (m_id g) r p (emit (PetitionsCleared guid GUILD_CHARTER_TYPE) w))].
  match goal with |- Q _ (_, ?x) =>
    assert (x = emits ((PetitionsCleared guid GUILD_CHARTER_TYPE :: es) ++ [Execute (Member_SaveToDB m)] ++ fs)
                  (join_player (m_id g) r p w)) as ->; [|apply HQ]
  end.
  unfold join_player, SetInGuild, UpdateGlobalPlayerGuild. cbn. case_match; unfold emits; cbn; f_equal;
    rewrite <- !app_assoc; done.
Qed.

Lemma Inv_joined guid p rankId h g w :
  guild_ok g -> leader_in g \/ m_leaderGuid g = guid -> players_ok w -> agree g w -> FindPlayer guid w = Some p -> m_eventLog g = Some h -> log_ok GUILD_EVENTLOG_MAX_RECORDS h ->
  0 <= rankId <= GUILD_RANKS_MAX_COUNT ->
  Inv (joined guid (new_member (w_time w) (m_id g) p rankId) h g w, w).
Proof.
  intros Hg Hl Hp Hag Hf Hh Hok Hr. cbn in *. destruct (Hp guid p Hf) as (Hk & _ & Hs).
  set (m := new_member _ _ _ _). unfold joined. cbv zeta.
  assert (member_ok guid m) as Hm.
  { unfold m, new_member, member_ok. cbn. rewrite Hk. repeat split; try done; try lia.
    - apply wrap_range. lia.
    - rewrite wrap_small; [lia|]. unfold GUILD_RANKS_MAX_COUNT in Hr. lia. }
  split; cbn [fst snd].
  - apply guild_ok_event; [by apply logged_ok|]. apply guild_ok_accounts. destruct Hg. split; cbn; try done.
    intros j n. destruct (decide (j = guid)) as [->|Hne].
    + rewrite lookup_insert_eq. by intros [= <-].
    + rewrite lookup_insert_ne by done. auto.
  - destruct Hl as [Hl|Hl]; [by apply (leader_in_put g guid m)|].
    unfold leader_in. cbn. rewrite Hl, lookup_insert_eq. by eexists.
  - apply (accounts_right_update (put_member guid m g)).
  - done.
  - intros j n q. cbn. destruct (decide (j = guid)) as [->|Hne].
    + rewrite lookup_insert_eq. intros [= <-] Hq. unfold FindPlayer in Hf. by rewrite Hf in Hq; injection Hq as <-.
    + rewrite lookup_insert_ne by done. apply Hag.
Qed.

Lemma Inv_joined_world guid m h g w w' : Inv (joined guid m h g w, w) -> steady w w' -> Inv (joined guid m h g w, w').
Proof. intros HI Hs. by apply (Inv_world _ w). Qed.

(** ** The requests a guild receives

    The packets of [GuildHandler.cpp], the updates from the world nodes, the
    login of a member, the daily reset, and the rank change other code asks
    for; a rank's bank rights come one per tab, as the handler reads them. *)
Inductive Request :=
| ReqRoster | ReqQuery | ReqInfo | ReqEventLog | ReqBankLog (tabId : Z) | ReqBankTab (tabId : Z)
| ReqBankTabText (tabId : Z) | ReqPermissions | ReqMoneyInfo | ReqLogin
| ReqMOTD (motd : string) | ReqSetInfo (info : string) | ReqLeader (name : string)
| ReqBankTabInfo (tabId : Z) (name icon : string)
| ReqNote (name note : string) (isPublic : bool)
| ReqRank (rankId : Z) (name : string) (rights money : Z) (tabs : list (Z * Z))
| ReqInvite (name : string) | ReqAccept | ReqLeave | ReqRemove (name : string)
| ReqUpdateRank (name : string) (demote : bool)
| ReqAddRank (name : string) | ReqRemoveRank (rankId : Z) | ReqRemoveLowestRank
| ReqLogout | ReqDisband
| ReqMemberData (dataid value : Z) | ReqStatus (flag : Z) (state : bool)
| ReqResetTimes | ReqChangeRank (guid rankId : Z)
| ReqSwapItems (tabId slotId destTabId destSlotId amount : Z).

(** [HandleGuildRankOpcode] numbers the tabs as it reads them. *)
Definition read_rights (tabs : list (Z * Z)) : list GuildBankRightsAndSlots :=
  imap (fun i '(rights, slots) => RightsAndSlots_of (Z.of_nat i) rights slots) tabs.

Definition handle (session : Z) (r : Request) : G unit :=
  match r with
  | ReqRoster => HandleRoster session
  | ReqQuery => HandleQuery session
  | ReqInfo => SendInfo localtime session
  | ReqEventLog => SendEventLog session
  | ReqBankLog tabId => SendBankLog session tabId
  | ReqBankTab tabId => SendBankTabData session tabId
  | ReqBankTabText tabId => SendBankTabText session tabId
  | ReqPermissions => SendPermissions session
  | ReqMoneyInfo => SendMoneyInfo session
  | ReqLogin => SendLoginInfo session
  | ReqMOTD motd => HandleSetMOTD session motd
  | ReqSetInfo info => HandleSetInfo session info
  | ReqLeader name => HandleSetLeader session name
  | ReqBankTabInfo tabId name icon => HandleSetBankTabInfo session tabId name icon
  | ReqNote name note isPublic => HandleSetMemberNote session name note isPublic
  | ReqRank rankId name rights money tabs =>
      HandleSetRankInfo session (u8 rankId) name rights money (read_rights tabs)
  | ReqInvite name => HandleInviteMember session name
  | ReqAccept => HandleAcceptMember QueryCharData session
  | ReqLeave => HandleLeaveMember session
  | ReqRemove name => HandleRemoveMember session name
  | ReqUpdateRank name demote => HandleUpdateMemberRank session name demote
  | ReqAddRank name => HandleAddNewRank session name
  | ReqRemoveRank rankId => HandleRemoveRank session (u8 rankId)
  | ReqRemoveLowestRank => HandleRemoveLowestRank session
  | ReqLogout => HandleMemberLogout session
  | ReqDisband => HandleDisband session
  | ReqMemberData dataid value => p ← GetPlayer session; UpdateMemberData p dataid value
  | ReqStatus flag state => p ← GetPlayer session; OnPlayerStatusChange p flag state
  | ReqResetTimes => ResetTimes
  | ReqChangeRank guid rankId => ChangeMemberRank guid (u8 rankId) ;; mret tt
  | ReqSwapItems tabId slotId destTabId destSlotId amount =>
      SwapItems session tabId slotId destTabId destSlotId amount
  end.

(** Tabs are numbered by unsigned bytes; the rank packet has one entry a tab. *)
Definition well_formed (r : Request) : Prop :=
  match r with
  | ReqBankLog tabId | ReqBankTab tabId | ReqBankTabText tabId | ReqBankTabInfo tabId _ _ => 0 <= tabId
  | ReqRank _ _ _ _ tabs => length tabs = Z.to_nat GUILD_BANK_MAX_TABS
  | _ => True
  end.

(** After a request: the invariant again, or the guild is disbanded: no member,
    no tab, and off the guild manager's list. *)
Definition sound_after (s : GState) : Prop :=
  Inv s \/ (m_members s.1 = ∅ /\ m_bankTabs s.1 = [] /\ RemoveGuild (m_id s.1) ∈ w_trace s.2).

Lemma sound_emits g w es : Inv (g, w) -> sound_after (g, emits es w).
Proof. intros HI. left. by apply (Inv_world _ w). Qed.

Lemma sound_disbanded g w fs es : sound_after (disbanded g, emits (fs ++ [RemoveGuild (m_id g)] ++ es) w).
Proof. right. split; [done|]. split; [done|]. cbn. set_solver. Qed.

(** *** Handlers that only rewrite members or texts *)
Lemma safe_SetMOTD session p motd g w :
  Inv (g, w) -> FindPlayer session w = Some p ->
  wp (HandleSetMOTD session motd) (fun _ => sound_after) (g, w).
Proof.
  intros HI Hp. unfold HandleSetMOTD. do 2 wstep. case_if; [by apply wp_ret; left|].
  case_if; [wsteps; by apply sound_emits|]. wsteps. rewrite emits_emits. apply sound_emits.
  apply (Inv_guild g); [|done..]. apply guild_ok_texts, (inv_guild _ HI).
Qed.

Lemma safe_SetInfo session info g w :
  Inv (g, w) -> wp (HandleSetInfo session info) (fun _ => sound_after) (g, w).
Proof.
  intros HI. unfold HandleSetInfo. do 2 wstep. case_if; [by apply wp_ret; left|].
  case_if; [|by apply wp_ret; left]. wsteps. apply sound_emits.
  apply (Inv_guild g); [|done..]. apply guild_ok_texts, (inv_guild _ HI).
Qed.

Lemma Inv_put_rank g w k m r :
  0 <= r <= GUILD_RANKS_MAX_COUNT -> m_members g !! k = Some m -> Inv (g, w) ->
  Inv (put_member k (set_m_rank r m) g, w).
Proof.
  intros Hr Hm HI. apply (Inv_put g w k m); [done| |done|done].
  apply member_ok_rank; [done|]. apply (go_members g); [apply (inv_guild _ HI)|done].
Qed.

Lemma safe_ChangeRank key m r g w (Q : unit -> GState -> Prop) :
  0 <= r <= GUILD_RANKS_MAX_COUNT -> m_members g !! key = Some m -> Inv (g, w) ->
  (forall g' w', Inv (g', w') -> steady w w' -> (exists m', g' = put_member key m' g) -> Q tt (g', w')) ->
  wp (ChangeRank key r) Q (g, w).
Proof.
  intros Hr Hm HI HQ. apply (wp_ChangeRank _ _ m); [done|]. apply HQ.
  - apply (Inv_world _ w); [|by apply Inv_put_rank].
    etransitivity; [apply (steady_rank_player r (gm_guid m))|apply steady_emits].
  - etransitivity; [apply (steady_rank_player r (gm_guid m))|apply steady_emits].
  - by eexists.
Qed.

Lemma member_key session p g w m :
  Inv (g, w) -> FindPlayer session w = Some p -> GetMember (p_GUID p) g = Some m ->
  p_GUID p = session /\ GUID_LOPART session = session /\ m_members g !! session = Some m.
Proof.
  intros HI Hp Hm. destruct (player_key w session p (inv_players _ HI) Hp) as (E & _ & El).
  unfold GetMember in Hm. rewrite E, El in Hm. done.
Qed.

Lemma safe_SetLeader session p name g w :
  Inv (g, w) -> FindPlayer session w = Some p ->
  wp (HandleSetLeader session name) (fun _ => sound_after) (g, w).
Proof.
  intros HI Hp. unfold HandleSetLeader. do 4 wstep. case_if; [wsteps; by apply sound_emits|].
  destruct (GetMember (p_GUID p) g) as [m|] eqn:Hm; [|by apply wp_ret; left].
  destruct (GetMemberByName name g) as [k|] eqn:Hn; [|by apply wp_ret; left].
  destruct (GetMemberByName_Some _ _ _ Hn) as (n & Hk & _).
  destruct (member_key session p g w m HI Hp Hm) as (E & El & Hs).
  wstep. apply (wp_SetLeaderGUID _ n); [done|]. rewrite E, El.
  assert (Inv (led_by k n g, rank_player GR_GUILDMASTER (gm_guid n) w)) as HI1.
  { destruct HI as [Hg Hl Hac Hw Hag]. cbn in *. apply (Inv_world _ w); [apply steady_rank_player|].
    by apply Inv_led_by. }
  assert (exists m1, m_members (led_by k n g) !! session = Some m1) as [m1 Hm1].
  { cbn. destruct (decide (k = session)) as [->|Hne]; [rewrite lookup_insert_eq|rewrite lookup_insert_ne by done]; eauto. }
  wstep. apply (safe_ChangeRank _ m1); [unfold GR_OFFICER, GUILD_RANKS_MAX_COUNT; lia|done|
    by apply (Inv_world _ (rank_player GR_GUILDMASTER (gm_guid n) w))|].
  intros g' w' HI' _ _. wsteps. by apply sound_emits.
Qed.

Lemma sprintf_defined v Q s : v < 10 -> Q (print_u64 v) s -> wp (sprintf_aux v) Q s.
Proof. intros Hv HQ. unfold sprintf_aux. rewrite (proj2 (Z.ltb_lt _ _) Hv). by apply wp_ret. Qed.

Lemma bank_tab g tabId tab :
  guild_ok g -> GetBankTab tabId g = Some tab -> tabId < Z.of_nat (length (m_bankTabs g)) /\ tabId < 10.
Proof.
  intros Hg. unfold GetBankTab. case_if; [|done]. bool_props. intros _.
  pose proof (go_tabs g Hg) as Ht. unfold GUILD_BANK_MAX_TABS in Ht. lia.
Qed.

Lemma safe_SetBankTabInfo session tabId name icon g w :
  Inv (g, w) -> wp (HandleSetBankTabInfo session tabId name icon) (fun _ => sound_after) (g, w).
Proof.
  intros HI. unfold HandleSetBankTabInfo. do 2 wstep.
  destruct (GetBankTab tabId g) as [tab|] eqn:Ht; [|by apply wp_ret; left].
  destruct (bank_tab g tabId tab (inv_guild _ HI) Ht) as [_ Hlt].
  wstep. apply sprintf_defined; [done|]. destruct (BankTab_SetInfo name icon tab) as [tab' stmts].
  wsteps. rewrite emits_emits. apply sound_emits. apply (Inv_guild g); [|done..].
  apply guild_ok_tabs; [|apply (inv_guild _ HI)]. rewrite length_insert. apply (go_tabs g (inv_guild _ HI)).
Qed.

Lemma safe_note key m g w (pub : bool) note (Q : unit -> GState -> Prop) :
  m_members g !! key = Some m -> Inv (g, w) ->
  (forall g' es, Inv (g', w) -> Q tt (g', emits es w)) ->
  wp (if pub then SetPublicNote key note else SetOfficerNote key note) Q (g, w).
Proof.
  intros Hm HI HQ. assert (Q tt (g, w)) as H0 by (rewrite <- (emits_nil w); by apply HQ).
  assert (member_ok key m) as Hok by (apply (go_members g); [apply (inv_guild _ HI)|done]).
  destruct pub; unfold SetPublicNote, SetOfficerNote; wstep; wstep; case_if; wsteps; try done;
    apply HQ; apply (Inv_put g w key m); done.
Qed.

Lemma safe_SetMemberNote session p name note pub g w :
  Inv (g, w) -> FindPlayer session w = Some p ->
  wp (HandleSetMemberNote session name note pub) (fun _ => sound_after) (g, w).
Proof.
  intros HI Hp. unfold HandleSetMemberNote. do 2 wstep.
  destruct (negb _); [wsteps; by apply sound_emits|].
  destruct (GetMemberByName name g) as [k|] eqn:Hn; [|by apply wp_ret; left].
  destruct (GetMemberByName_Some _ _ _ Hn) as (m & Hk & _).
  wstep. apply (safe_note _ m); [done..|]. intros g' es HI'. eapply wp_HandleRoster; [exact Hp|].
  rewrite emits_emits. by apply sound_emits.
Qed.

Lemma Inv_put_same g w k m f :
  m_members g !! k = Some m -> Inv (g, w) ->
  (gm_guid (f m) = gm_guid m /\ gm_rankId (f m) = gm_rankId m /\ gm_accountId (f m) = gm_accountId m
   /\ length (gm_bankWithdraw (f m)) = length (gm_bankWithdraw m)) ->
  Inv (put_member k (f m) g, w).
Proof.
  intros Hm HI (E1 & E2 & E3 & E4). apply (Inv_put g w k m); [done| |done|done].
  destruct (go_members g (inv_guild _ HI) k m Hm) as (? & ? & ? & ?).
  split; [congruence|]. split; [done|]. split; [by rewrite E2|by rewrite E4].
Qed.

Lemma safe_login session p g w es :
  Inv (g, w) -> FindPlayer session w = Some p -> sound_after (logged_in session p g, emits es w).
Proof.
  intros HI Hp. apply sound_emits. unfold logged_in.
  destruct (player_key w session p (inv_players _ HI) Hp) as (_ & _ & El).
  destruct (GetMember session g) as [m|] eqn:Hm; [|done]. unfold GetMember in Hm. rewrite El in Hm |- *.
  apply (Inv_put_same g w session m (fun m => AddFlag GUILDMEMBER_STATUS_ONLINE (SetStats_player p m))); [done..|].
  repeat split; cbn; try done. symmetry. by apply (inv_agree _ HI session).
Qed.

(** *** Ranks *)
Lemma safe_on_rank rankId f g w (Q : unit -> GState -> Prop) :
  Inv (g, w) -> 0 <= rankId ->
  (forall r, m_ranks g !! Z.to_nat rankId = Some r -> rank_ok (Z.to_nat rankId) r ->
     exists r' stmts, f r = Some (r', stmts) /\ rank_ok (Z.to_nat rankId) r') ->
  (forall g' w', Inv (g', w') -> steady w w' -> length (m_ranks g') = length (m_ranks g) ->
     m_bankTabs g' = m_bankTabs g -> Q tt (g', w')) ->
  wp (on_rank rankId f) Q (g, w).
Proof.
  intros HI H0 Hf HQ. unfold on_rank. do 2 wstep. destruct (GetRankInfo rankId g) as [r|] eqn:Hr.
  - assert (m_ranks g !! Z.to_nat rankId = Some r) as Hl by (unfold GetRankInfo in Hr; by case_match).
    destruct (Hf r Hl (go_ranks g (inv_guild _ HI) _ _ Hl)) as (r' & stmts & E & Hok).
    wstep. apply (wp_lift _ _ _ _ E). wsteps. apply HQ; [|apply steady_emits|cbn; by rewrite length_insert|done].
    apply (Inv_world _ w); [apply steady_emits|]. by apply (Inv_rank g w _ r).
  - wsteps. by apply HQ.
Qed.

Lemma safe_SetRankTabs rankId l g w (Q : unit -> GState -> Prop) :
  Inv (g, w) -> 0 <= rankId -> Forall (fun rs => 0 <= GetTabId rs < GUILD_BANK_MAX_TABS) l ->
  (forall g' w', Inv (g', w') -> length (m_ranks g') = length (m_ranks g) -> Q tt (g', w')) ->
  wp (for_each l (fun rs => _SetRankBankTabRightsAndSlots rankId rs true)) Q (g, w).
Proof.
  intros HI H0 Hl HQ.
  apply (wp_for_each _ _ (fun s => Inv s /\ length (m_ranks s.1) = length (m_ranks g))).
  - done.
  - intros rs [g1 w1] Hrs [HI1 E1]. unfold _SetRankBankTabRightsAndSlots. do 2 wstep. case_if; [by apply wp_ret|].
    apply safe_on_rank; [done..| |].
    + intros r _ Hok. rewrite Forall_forall in Hl. destruct (SetTab_defined rs true r (Hl rs Hrs)) as (r' & st & E).
      exists r', st. split; [done|]. by apply (rank_ok_SetTab _ rs true r r' st).
    + intros g' w' HI' _ E' _. cbn in *. split; [done|]. by rewrite E'.
  - intros [g1 w1] [HI1 E1]. by apply HQ.
Qed.

Lemma read_rights_tabs tabs :
  length tabs = Z.to_nat GUILD_BANK_MAX_TABS ->
  Forall (fun rs => 0 <= GetTabId rs < GUILD_BANK_MAX_TABS) (read_rights tabs).
Proof.
  intros Hl. apply Forall_lookup. intros i rs Hrs. unfold read_rights in Hrs.
  rewrite list_lookup_imap in Hrs. apply fmap_Some in Hrs as ([a b] & Hi & ->).
  apply lookup_lt_Some in Hi. rewrite Hl in Hi. unfold GetTabId. cbn. unfold GUILD_BANK_MAX_TABS in *.
  rewrite wrap_small by lia. rewrite swrap_small; lia.
Qed.

Lemma safe_SetRankInfo session p rankId name rights money tabs g w :
  Inv (g, w) -> FindPlayer session w = Some p -> 0 <= rankId -> length tabs = Z.to_nat GUILD_BANK_MAX_TABS ->
  wp (HandleSetRankInfo session rankId name rights money (read_rights tabs)) (fun _ => sound_after) (g, w).
Proof.
  intros HI Hp H0 Hl. unfold HandleSetRankInfo. do 4 wstep. case_if; [wsteps; by apply sound_emits|].
  destruct (GetRankInfo rankId g) as [r|] eqn:Hr; [|by apply wp_ret; left].
  assert (rankId < Z.of_nat (length (m_ranks g))) as Hlt.
  { unfold GetRankInfo in Hr. case_match; [|done]. bool_props. by rewrite ranks_size in * by apply (inv_guild _ HI). }
  wstep. apply safe_on_rank; [done..| |].
  { intros q _ Hok. pose proof (rank_ok_SetName _ name q Hok) as Hok'. destruct (RankInfo_SetName name q). by eexists _, _. }
  intros g1 w1 HI1 _ E1 _. wstep. apply safe_on_rank; [done..| |].
  { intros q _ Hok. pose proof (rank_ok_SetRights _ rights q Hok) as Hok'. destruct (RankInfo_SetRights rights q). by eexists _, _. }
  intros g2 w2 HI2 _ E2 _. wstep. apply safe_on_rank; [done..| |].
  { intros q _ Hok. pose proof (rank_ok_SetMoney _ money q Hok) as Hok'. destruct (RankInfo_SetBankMoneyPerDay money q). by eexists _, _. }
  intros g3 w3 HI3 _ E3 _. wstep. apply safe_SetRankTabs; [done..|by apply read_rights_tabs|].
  intros g4 w4 HI4 E4. wstep. apply sprintf_defined.
  { pose proof (go_count g (inv_guild _ HI)) as Hc. unfold GUILD_RANKS_MAX_COUNT in Hc. lia. }
  wsteps. by apply sound_emits.
Qed.

Lemma create_missing_tab_ok i r trans :
  (i < length (gr_bankTabRightsAndSlots r))%nat ->
  exists r' trans', create_missing_tab i r trans = Some (r', trans')
    /\ (gr_rankId r' = gr_rankId r /\ gr_rights r' = gr_rights r
        /\ length (gr_bankTabRightsAndSlots r') = length (gr_bankTabRightsAndSlots r)).
Proof.
  intros Hi. unfold create_missing_tab. destruct (lookup_lt_is_Some_2 _ _ Hi) as [rs ->].
  case_if; [by exists r, trans|]. cbv zeta. eexists _, _. split; [done|]. cbn. by rewrite length_insert.
Qed.

Lemma create_missing_ok tabs r trans :
  0 <= tabs <= GUILD_BANK_MAX_TABS -> length (gr_bankTabRightsAndSlots r) = Z.to_nat GUILD_BANK_MAX_TABS ->
  exists r' trans', CreateMissingTabsIfNeeded tabs r trans = Some (r', trans')
    /\ (gr_rankId r' = gr_rankId r /\ gr_rights r' = gr_rights r
        /\ length (gr_bankTabRightsAndSlots r') = length (gr_bankTabRightsAndSlots r)).
Proof.
  intros Ht Hl. unfold CreateMissingTabsIfNeeded.
  assert (Forall (fun i => (i < length (gr_bankTabRightsAndSlots r))%nat) (seq 0 (Z.to_nat tabs))) as Hall.
  { apply Forall_forall. intros i [_ Hi]%list_elem_of_In%in_seq. unfold GUILD_BANK_MAX_TABS in *. lia. }
  clear Ht Hl. revert r trans Hall. induction (seq 0 (Z.to_nat tabs)) as [|i l IH]; intros r trans Hall.
  { by exists r, trans. }
  apply Forall_cons in Hall as [Hi Hall].
  destruct (create_missing_tab_ok i r trans Hi) as (r1 & trans1 & E & E1 & E2 & E3).
  cbn [foldl]. change (('(r, trans) ← Some (r, trans); create_missing_tab i r trans)) with (create_missing_tab i r trans).
  rewrite E. destruct (IH r1 trans1) as (r' & trans' & E' & F1 & F2 & F3); [by rewrite E3|].
  exists r', trans'. split; [exact E'|]. split; [congruence|]. split; congruence.
Qed.

(** [_CreateRank] below the maximum appends the rank. *)
Lemma wp_CreateRank name rights g w (Q : bool -> GState -> Prop) :
  _GetRanksSize g = Z.of_nat (length (m_ranks g)) -> Z.of_nat (length (m_ranks g)) < GUILD_RANKS_MAX_COUNT ->
  0 <= _GetPurchasedTabsSize g <= GUILD_BANK_MAX_TABS ->
  (forall stmts, Q true (set_g_ranks (m_ranks g ++ [RankInfo_new (m_id g) (Z.of_nat (length (m_ranks g))) name rights 0]) g,
          emits [Commit stmts] w)) ->
  wp (_CreateRank name rights) Q (g, w).
Proof.
  intros Hs Hlt Ht HQ. unfold _CreateRank. do 2 wstep. cbv zeta. rewrite Hs. rewrite (proj2 (Z.leb_gt _ _) Hlt).
  do 2 wstep.
  destruct (create_missing_ok (_GetPurchasedTabsSize g) (RankInfo_new (m_id g) (Z.of_nat (length (m_ranks g))) name rights 0) [])
    as (r' & trans & E & _); [done|done|]. wstep. apply (wp_lift _ _ _ _ E). wsteps. apply HQ.
Qed.

Lemma rank_ok_new id i name rights :
  (i < 256)%nat -> (i = 0%nat -> Z.land rights GR_RIGHT_ALL = GR_RIGHT_ALL) ->
  rank_ok i (RankInfo_new id (Z.of_nat i) name rights 0).
Proof.
  intros Hi Hr. split; [cbn; apply wrap_small; lia|]. split; [done|]. intros ->. by apply Hr.
Qed.

Lemma ranks_snoc g r :
  (forall i q, m_ranks g !! i = Some q -> rank_ok i q) -> rank_ok (length (m_ranks g)) r ->
  forall i q, (m_ranks g ++ [r]) !! i = Some q -> rank_ok i q.
Proof.
  intros Hg Hr i q [Hi|[Hge Hi]]%lookup_app_Some; [by apply Hg|].
  apply list_lookup_singleton_Some in Hi as [Hz <-]. by replace i with (length (m_ranks g)) by lia.
Qed.

Lemma safe_AddNewRank session p name g w :
  Inv (g, w) -> FindPlayer session w = Some p ->
  wp (HandleAddNewRank session name) (fun _ => sound_after) (g, w).
Proof.
  intros HI Hp. pose proof (inv_guild _ HI) as Hg. cbn in Hg.
  unfold HandleAddNewRank. do 2 wstep. cbv zeta. rewrite ranks_size by done.
  case_if; [by apply wp_ret; left|]. bool_props. do 2 wstep. case_if; [|by apply wp_ret; left].
  wstep. apply wp_CreateRank; [by apply ranks_size|done| |].
  { rewrite tabs_size by done. pose proof (go_tabs g Hg). lia. }
  intros stmts. cbv iota. wstep. apply sprintf_defined.
  { unfold GUILD_RANKS_MAX_COUNT in *. lia. }
  wsteps. rewrite emits_emits. apply sound_emits. apply (Inv_guild g); [|done..].
  apply guild_ok_ranks; [| |done].
  - rewrite length_app. cbn. pose proof (go_count g Hg). lia.
  - apply ranks_snoc; [apply (go_ranks g Hg)|]. unfold GUILD_RANKS_MAX_COUNT in *. apply rank_ok_new; [lia|].
    pose proof (go_count g Hg). unfold GUILD_RANKS_MIN_COUNT in *. lia.
Qed.

Lemma removelast_lookup {A} (l : list A) i x : removelast l !! i = Some x -> l !! i = Some x.
Proof.
  destruct (decide (l = [])) as [->|Hne]; [done|]. intros Hi.
  rewrite (app_removelast_last x Hne). by apply lookup_app_l_Some.
Qed.
Lemma removelast_length {A} (l : list A) : l <> [] -> length l = S (length (removelast l)).
Proof.
  intros Hne. destruct l as [|a l]; [done|].
  rewrite (app_removelast_last a Hne) at 1. rewrite length_app. cbn [length]. lia.
Qed.

Lemma safe_RemoveRank session p rankId g w :
  Inv (g, w) -> FindPlayer session w = Some p ->
  wp (HandleRemoveRank session rankId) (fun _ => sound_after) (g, w).
Proof.
  intros HI Hp. pose proof (inv_guild _ HI) as Hg. cbn in Hg. unfold HandleRemoveRank. do 4 wstep.
  rewrite ranks_size by done. destruct (_ || _) eqn:E; [by apply wp_ret; left|]. bool_props.
  wsteps. rewrite !emits_emits. apply sound_emits. apply (Inv_guild g); [|done..].
  assert (m_ranks g <> []) as Hne by (intros E; rewrite E in *; cbn in *; unfold GUILD_RANKS_MIN_COUNT in *; lia).
  pose proof (removelast_length _ Hne) as Hlen. pose proof (go_count g Hg).
  apply guild_ok_ranks; [unfold GUILD_RANKS_MIN_COUNT in *; lia| |done].
  intros i r Hi. apply (go_ranks g Hg). by apply removelast_lookup.
Qed.

(** *** Members come and go *)
Lemma wp_logged type p1 p2 r g w (Q : unit -> GState -> Prop) :
  Inv (g, w) ->
  (forall h es, Inv (set_g_logs (Some h) (m_bankEventLog g) g, w) -> Q tt (set_g_logs (Some h) (m_bankEventLog g) g, emits es w)) ->
  wp (_LogEvent type p1 p2 r) Q (g, w).
Proof.
  intros HI HQ. destruct (go_event g (inv_guild _ HI)) as (h & Hh & Hok).
  apply (wp_LogEvent _ _ _ _ h); [done..|]. apply HQ. apply (Inv_guild g); [|done..].
  apply guild_ok_event; [by apply logged_ok|apply (inv_guild _ HI)].
Qed.

Lemma safe_Invite session p name g w :
  Inv (g, w) -> FindPlayer session w = Some p ->
  wp (HandleInviteMember session name) (fun _ => sound_after) (g, w).
Proof.
  intros HI Hp. unfold HandleInviteMember. do 4 wstep.
  destruct (FindPlayerByName name w) as [q|]; [|wsteps; by apply sound_emits].
  do 2 wstep. do 5 (case_if; [wsteps; first [by left|by apply sound_emits]|]). do 4 wstep.
  wstep. apply wp_logged.
  { apply (Inv_world _ w); [|done]. etransitivity; [|by apply steady_update]. apply steady_emits. }
  intros h es HI'. wsteps. rewrite SendPacket_emits, emits_emits. by apply sound_emits.
Qed.

Lemma safe_Accept session p g w :
  Inv (g, w) -> FindPlayer session w = Some p ->
  wp (HandleAcceptMember QueryCharData session) (fun _ => sound_after) (g, w).
Proof.
  intros HI Hp. pose proof (inv_guild _ HI) as Hg. cbn in Hg. unfold HandleAcceptMember. do 2 wstep.
  destruct (player_key w session p (inv_players _ HI) Hp) as (E & _ & El). rewrite E. wstep.
  destruct (decide (p_GuildId p = 0)) as [Hid|Hid].
  - destruct (go_event g Hg) as (h & Hh & Hok). pose proof (lowest_rank_range g Hg) as Hr.
    assert (0 <= rank_or_lowest GUILD_RANK_NONE g <= GUILD_RANKS_MAX_COUNT) as Hr'
      by (unfold rank_or_lowest, GUILD_RANKS_MAX_COUNT; cbn; lia).
    apply (wp_AddMember_online session p _ h); [done|apply HI|done..|]. intros es fs. wsteps. left.
    apply (Inv_joined_world _ _ _ _ w).
    + destruct HI as [? ? ? ? ?]. apply Inv_joined; cbn in *; auto.
    + etransitivity; [apply steady_join|apply steady_emits].
  - unfold AddMember. do 4 wstep. rewrite Hp. rewrite (proj2 (Z.eqb_neq _ _) Hid). cbn [negb]. do 2 wstep. by left.
Qed.

Lemma Inv_leader_replaced g w guid k m :
  Inv (g, w) -> m_leaderGuid g = guid -> 0 <= guid < 2 ^ 32 -> k <> guid -> m_members g !! k = Some m ->
  Inv (_UpdateAccountsNumber (without guid (led_by k m g)), w).
Proof.
  intros [Hg Hl Hac Hp Hag] Hlead Hs Hk Hm. cbn in *.
  pose proof (Inv_led_by g w k m Hg Hac Hp Hag Hm) as [Hg1 Hl1 _ _ Hag1]. cbn [fst snd] in *.
  destruct (GUID_LOPART_key g k m Hg Hm) as [_ E].
  apply Inv_without; [done| |done..]. cbn. by rewrite E.
Qed.

Lemma safe_DeleteMember guid kicked g w (Q : unit -> GState -> Prop) :
  Inv (g, w) -> 0 <= guid < 2 ^ 32 ->
  (forall g' w', Inv (g', w') -> steady w w' -> Q tt (g', w')) ->
  (m_leaderGuid g = guid -> (forall j n, m_members g !! j = Some n -> j = guid) ->
     forall w', steady w w' -> Q tt (disbanded g, emits [Commit (disband_stmts (m_id g)); RemoveGuild (m_id g)] w')) ->
  wp (DeleteMember guid false kicked false) Q (g, w).
Proof.
  intros HI Hs HQ HQd. pose proof (inv_guild _ HI) as Hg. cbn in Hg.
  destruct (decide (m_leaderGuid g = guid)) as [Hl|Hl].
  - pose proof (succession_heir (GUID_LOPART guid) g) as [_ Hh]. rewrite GUID_LOPART_small in Hh by done.
    destruct (succession guid g).2 as [[k m]|] eqn:Hn.
    + destruct Hh as (Hk & Hm & _). apply (wp_DeleteMember_leader _ _ _ k m); [done..|by rewrite GUID_LOPART_small|].
      intros w' Hw' _. apply HQ; [|done]. apply (Inv_world _ w); [done|]. by apply Inv_leader_replaced.
    + apply wp_DeleteMember_last; [done..|by rewrite GUID_LOPART_small|]. intros w' Hw'. by apply HQd.
  - apply wp_DeleteMember_other; [done|].
    assert (steady w (emits [Execute (delete_stmt guid)] (forget_guild guid (FindPlayer guid w) w))) as Hw'
      by (etransitivity; [apply steady_forget|apply steady_emits]).
    apply HQ; [|done]. apply (Inv_world _ w); [done|]. destruct HI. by apply Inv_without.
Qed.

(** The session is still there. *)
Lemma still_online session p w w' :
  FindPlayer session w = Some p -> steady w w' -> exists p', FindPlayer session w' = Some p'.
Proof. intros Hp Hw. destruct (steady_online w w' session Hw) as [p' Hp']; eauto. Qed.

Lemma IsLeader_false p g : _IsLeader p g = false -> m_leaderGuid g <> p_GUID p.
Proof. unfold _IsLeader. case_if; [done|]. bool_props. intros _ E. by rewrite E in *. Qed.

Lemma safe_Disband_delete g w :
  Inv (g, w) -> wp (Disband ;; modw (emit DeleteThis)) (fun _ => sound_after) (g, w).
Proof.
  intros HI. wstep. apply wp_Disband; [apply (inv_guild _ HI)|]. intros w' _. wsteps. rewrite emits_emits.
  apply (sound_disbanded g w' [Commit (disband_stmts (m_id g))] [DeleteThis]).
Qed.

Lemma safe_Leave session p g w :
  Inv (g, w) -> FindPlayer session w = Some p ->
  wp (HandleLeaveMember session) (fun _ => sound_after) (g, w).
Proof.
  intros HI Hp. destruct (player_key w session p (inv_players _ HI) Hp) as (E & _ & El).
  unfold HandleLeaveMember. do 4 wstep. destruct (_IsLeader p g) eqn:Hlead.
  - case_if; [wsteps; by apply sound_emits|]. by apply safe_Disband_delete.
  - apply IsLeader_false in Hlead. wstep. apply safe_DeleteMember; [done| | |done].
    { rewrite E. destruct (inv_players _ HI session p Hp) as (_ & _ & ?). done. }
    intros g' w' HI' Hw'. destruct (still_online session p w w' Hp Hw') as [p' Hp'].
    wstep. apply wp_logged; [done|]. intros h es HI''. do 2 wstep. eapply wp_SendCommandResult; [exact Hp'|].
    rewrite !emits_emits. by apply sound_emits.
Qed.

Lemma safe_Remove session p name g w :
  Inv (g, w) -> FindPlayer session w = Some p ->
  wp (HandleRemoveMember session name) (fun _ => sound_after) (g, w).
Proof.
  intros HI Hp. unfold HandleRemoveMember. do 4 wstep. destruct (negb _); [wsteps; by apply sound_emits|].
  destruct (GetMemberByName name g) as [k|] eqn:Hn; [|by apply wp_ret; left].
  destruct (GetMemberByName_Some _ _ _ Hn) as (m & Hk & _). do 2 wstep.
  destruct (IsRank GR_GUILDMASTER m); [wsteps; by apply sound_emits|].
  destruct (GetMember (p_GUID p) g) as [me|] eqn:Hme; [|wsteps; by apply sound_emits].
  destruct (IsRankNotLower (gm_rankId me) m) eqn:Hr; [wsteps; by apply sound_emits|].
  destruct (member_key session p g w me HI Hp Hme) as (E & El & Hs).
  destruct (go_members g (inv_guild _ HI) k m Hk) as (Eg & Hkr & _). rewrite Eg.
  wstep. apply safe_DeleteMember; [done|done| |].
  - intros g' w' HI' Hw'. wstep. apply wp_logged; [done|]. intros h es HI''. wsteps.
    rewrite emits_emits. by apply sound_emits.
  - intros _ Honly. exfalso. rewrite (Honly session me Hs) in Hs. rewrite Hk in Hs. injection Hs as ->.
    unfold IsRankNotLower in Hr. bool_props. lia.
Qed.

Lemma safe_UpdateRank session p name demote g w :
  Inv (g, w) -> FindPlayer session w = Some p ->
  wp (HandleUpdateMemberRank session name demote) (fun _ => sound_after) (g, w).
Proof.
  intros HI Hp. unfold HandleUpdateMemberRank. do 4 wstep. cbv zeta.
  destruct (negb (_HasRankRight _ _ g)) eqn:Hright; [wsteps; by apply sound_emits|].
  destruct (GetMemberByName name g) as [k|] eqn:Hn; [|by apply wp_ret; left].
  destruct (GetMemberByName_Some _ _ _ Hn) as (m & Hk & _). do 2 wstep.
  case_if; [wsteps; by apply sound_emits|].
  unfold _HasRankRight in Hright. destruct (GetMember (p_GUID p) g) as [me|] eqn:Hme; [|done].
  wstep. apply (wp_lift _ me); [done|].
  do 3 (match goal with |- wp (if ?b then _ else _) _ _ => destruct b eqn:? end; [wsteps; by apply sound_emits|]).
  destruct (go_members g (inv_guild _ HI) k m Hk) as (Eg & Hkr & Hrank & _).
  destruct (member_key session p g w me HI Hp Hme) as (E & El & Hs).
  destruct (go_members g (inv_guild _ HI) session me Hs) as (_ & _ & Hrme & _).
  pose proof (lowest_rank_range g (inv_guild _ HI)) as Hlow. unfold GUILD_RANKS_MAX_COUNT in *.
  assert (0 <= gm_rankId m + (if demote then 1 else -1) <= 10) as Hnew.
  { unfold IsRankNotLower in *. destruct demote; cbn [andb negb] in *; bool_props; [lia|].
    rewrite wrap_small in * by lia. lia. }
  rewrite (wrap_small 32) by lia. rewrite (wrap_small 8) by lia.
  wstep. apply (safe_ChangeRank _ m); [done..|]. intros g' w' HI' _ _. wstep. apply wp_logged; [done|].
  intros h es HI''. wsteps. rewrite emits_emits. by apply sound_emits.
Qed.

Lemma safe_Logout session p g w :
  Inv (g, w) -> FindPlayer session w = Some p ->
  wp (HandleMemberLogout session) (fun _ => sound_after) (g, w).
Proof.
  intros HI Hp. unfold HandleMemberLogout. do 6 wstep. wstep.
  destruct (GetMember (p_GUID p) g) as [m|] eqn:Hm.
  - destruct (member_key session p g w m HI Hp Hm) as (E & El & Hs). rewrite E, El. wsteps. apply sound_emits.
    apply (Inv_put_same g w session m (fun m => ResetFlags (UpdateLogoutTime (w_time w) (SetStats_player p m))));
      [done..|]. repeat split; cbn; try done. symmetry. by apply (inv_agree _ HI session).
  - wsteps. by apply sound_emits.
Qed.

Lemma safe_Disband session p g w :
  Inv (g, w) -> FindPlayer session w = Some p -> wp (HandleDisband session) (fun _ => sound_after) (g, w).
Proof.
  intros HI Hp. unfold HandleDisband. do 4 wstep. apply wp_when; intros _; [by apply safe_Disband_delete|by left].
Qed.

Lemma safe_MemberData session p dataid value g w :
  Inv (g, w) -> FindPlayer session w = Some p ->
  wp (UpdateMemberData p dataid value) (fun _ => sound_after) (g, w).
Proof.
  intros HI Hp. unfold UpdateMemberData. do 2 wstep.
  destruct (GetMember (p_GUID p) g) as [m|] eqn:Hm; [|by apply wp_ret; left].
  destruct (member_key session p g w m HI Hp Hm) as (E & El & Hs). rewrite E, El. cbv zeta.
  case_if; [wsteps; left; by apply (Inv_put_same g w session m (SetZoneID value))|].
  case_if; [wsteps; left; by apply (Inv_put_same g w session m (SetLevel value))|]. wsteps. by left.
Qed.

Lemma safe_Status session p flag state g w :
  Inv (g, w) -> FindPlayer session w = Some p ->
  wp (OnPlayerStatusChange p flag state) (fun _ => sound_after) (g, w).
Proof.
  intros HI Hp. unfold OnPlayerStatusChange. do 2 wstep.
  destruct (GetMember (p_GUID p) g) as [m|] eqn:Hm; [|by apply wp_ret; left].
  destruct (member_key session p g w m HI Hp Hm) as (E & El & Hs). rewrite E, El. wsteps. left.
  apply (Inv_put_same g w session m ((if state then AddFlag else RemFlag) flag)); [done..|]. by destruct state.
Qed.

Lemma safe_ResetTimes g w : Inv (g, w) -> wp ResetTimes (fun _ => sound_after) (g, w).
Proof.
  intros HI. unfold ResetTimes. wsteps. apply sound_emits. destruct HI as [Hg Hl Hac Hp Hag]. cbn in *.
  assert (forall k m, (ResetValues <$> m_members g) !! k = Some m ->
            exists n, m_members g !! k = Some n /\ m = ResetValues n) as Hinv.
  { intros k m. rewrite lookup_fmap. intros (n & Hn & ->)%fmap_Some. eauto. }
  split; cbn.
  - destruct Hg. split; cbn; try done. intros k m (n & Hn & ->)%Hinv.
    destruct (go_members0 k n Hn) as (? & ? & ? & _). done.
  - unfold leader_in in *. cbn. rewrite lookup_fmap. by destruct Hl as [? ->].
  - unfold accounts_right in *. cbn. rewrite Hac. do 3 f_equal. apply set_eq. intros a.
    rewrite !elem_of_account_set. cbn. split.
    + intros (k & m & Hm & <-). exists k, (ResetValues m). by rewrite lookup_fmap, Hm.
    + intros (k & m & (n & Hn & ->)%Hinv & <-). eauto.
  - done.
  - intros k m p (n & Hn & ->)%Hinv Hpl. by apply (Hag k n).
Qed.

Lemma safe_ChangeMemberRank guid rankId g w :
  Inv (g, w) -> 0 <= rankId ->
  wp (ChangeMemberRank guid rankId ;; mret tt) (fun _ => sound_after) (g, w).
Proof.
  intros HI Hr. pose proof (lowest_rank_range g (inv_guild _ HI)) as Hlow. unfold ChangeMemberRank. do 3 wstep.
  case_if; [|wsteps; by left]. bool_props.
  destruct (GetMember guid g) as [m|] eqn:Hm; [|wsteps; by left]. wstep.
  apply (safe_ChangeRank _ m); [unfold GUILD_RANKS_MAX_COUNT; lia|done..|]. intros g' w' HI' _ _. wsteps. by left.
Qed.

Lemma SwapItems_nothing player tabId slotId destTabId destSlotId amount g w :
  SwapItems player tabId slotId destTabId destSlotId amount (g, w) = Some (tt, (g, w)).
Proof.
  cbv beta delta [SwapItems mbind G_bind getg] iota. cbn [fst].
  do 2 (match goal with |- (if ?b then _ else _) _ = _ => destruct b; [done|] end). done.
Qed.

Lemma handle_safe session p r g w :
  Inv (g, w) -> FindPlayer session w = Some p -> well_formed r ->
  wp (handle session r) (fun _ => sound_after) (g, w).
Proof.
  intros HI Hp Hwf. pose proof (inv_guild _ HI) as Hg. cbn in Hg. pose proof (sound_emits g w) as Hout.
  destruct r; cbn [handle well_formed] in *.
  - wsteps. by apply Hout.
  - unfold HandleQuery. wsteps. by apply Hout.
  - unfold SendInfo. wsteps. by apply Hout.
  - apply (wp_SendEventLog _ p); [done..|]. intros es. by apply Hout.
  - apply (wp_SendBankLog _ p); [done..|]. intros es. by apply Hout.
  - apply (wp_SendBankTabData _ p); [done..|]. intros es. by apply Hout.
  - unfold SendBankTabText. do 2 wstep. case_match; wsteps; [by apply Hout|by left].
  - apply (wp_SendPermissions _ p); [done..|]. intros es. by apply Hout.
  - apply (wp_SendMoneyInfo _ p); [done..|]. intros es. by apply Hout.
  - apply (wp_SendLoginInfo _ p); [done..|by apply (player_key w session p (inv_players _ HI))|].
    intros es. by apply safe_login.
  - by apply (safe_SetMOTD _ p).
  - by apply safe_SetInfo.
  - by apply (safe_SetLeader _ p).
  - by apply safe_SetBankTabInfo.
  - by apply (safe_SetMemberNote _ p).
  - apply (safe_SetRankInfo _ p); [done|done|apply wrap_range; lia|done].
  - by apply (safe_Invite _ p).
  - by apply (safe_Accept _ p).
  - by apply (safe_Leave _ p).
  - by apply (safe_Remove _ p).
  - by apply (safe_UpdateRank _ p).
  - by apply (safe_AddNewRank _ p).
  - by apply (safe_RemoveRank _ p).
  - unfold HandleRemoveLowestRank. do 2 wstep. by apply (safe_RemoveRank _ p).
  - by apply (safe_Logout _ p).
  - by apply (safe_Disband _ p).
  - do 2 wstep. by apply (safe_MemberData session).
  - do 2 wstep. by apply (safe_Status session).
  - by apply safe_ResetTimes.
  - apply safe_ChangeMemberRank; [done|apply wrap_range; lia].
  - unfold wp. rewrite SwapItems_nothing. by left.
Qed.
End Operations.
