(* ===== verification/GuildTheorems.v ===== *)
(** * Guild: theorems

    The states a guild can reach, from its creation or from the tables through
    the repair of [Validate], and what each command of a client does there. *)
From Stdlib Require Import Ascii String ZArith Lia.
From stdpp Require Import base gmap sets list strings.
From S2P Require Import Prelude ByteBuffer Utf8 World Guild GuildOps GuildLogic GuildFacts.

Open Scope Z_scope.

Section Reachability.
Context `{UnorderedIter} (cfg : Config) (GetTrinityString : Z -> Z -> string)
        (QueryCharData : Z -> option (string * Z * Z * Z * Z)) (localtime : Z -> tm).

(** ** Default ranks *)
Definition chat_rights : Z := Z.lor GR_RIGHT_GCHATLISTEN GR_RIGHT_GCHATSPEAK.
Definition default_ranks (id loc : Z) : list RankInfo :=
  imap (fun i '(text, rights) => RankInfo_new id (Z.of_nat i) (GetTrinityString text loc) rights 0)
    [(LANG_GUILD_MASTER, GR_RIGHT_ALL); (LANG_GUILD_OFFICER, GR_RIGHT_ALL);
     (LANG_GUILD_VETERAN, chat_rights); (LANG_GUILD_MEMBER, chat_rights);
     (LANG_GUILD_INITIATE, chat_rights)].

Lemma wp_next_rank name rights g w (Q : bool -> GState -> Prop) :
  (length (m_ranks g) < 10)%nat -> Z.of_nat (length (m_bankTabs g)) <= GUILD_BANK_MAX_TABS ->
  (forall es, Q true (set_g_ranks (m_ranks g ++ [RankInfo_new (m_id g) (Z.of_nat (length (m_ranks g))) name rights 0]) g,
                      emits es w)) ->
  wp (_CreateRank name rights) Q (g, w).
Proof.
  intros Hl Ht HQ. apply wp_CreateRank; [apply wrap_small; lia|unfold GUILD_RANKS_MAX_COUNT; lia| |].
  - unfold _GetPurchasedTabsSize. rewrite wrap_small; unfold GUILD_BANK_MAX_TABS in *; lia.
  - intros stmts. apply HQ.
Qed.

Lemma wp_default_ranks loc g w (Q : unit -> GState -> Prop) :
  m_ranks g = [] -> Z.of_nat (length (m_bankTabs g)) <= GUILD_BANK_MAX_TABS ->
  (forall es, Q tt (set_g_ranks (default_ranks (m_id g) loc) g, emits es w)) ->
  wp (_CreateDefaultGuildRanks GetTrinityString loc) Q (g, w).
Proof.
  intros Hr Ht HQ. unfold _CreateDefaultGuildRanks. do 6 wstep. cbv zeta.
  wstep. apply wp_next_rank; [rewrite Hr; cbn; lia|done|]. intros es1.
  wstep. apply wp_next_rank; [cbn; rewrite Hr; cbn; lia|done|]. intros es2.
  wstep. apply wp_next_rank; [cbn; rewrite Hr; cbn; lia|done|]. intros es3.
  wstep. apply wp_next_rank; [cbn; rewrite Hr; cbn; lia|done|]. intros es4.
  wstep. apply wp_next_rank; [cbn; rewrite Hr; cbn; lia|done|]. intros es5.
  apply wp_ret. rewrite !emits_emits. cbn [m_ranks m_id set_g_ranks]. rewrite Hr. apply HQ.
Qed.

Lemma default_ranks_ok id loc i r : default_ranks id loc !! i = Some r -> rank_ok i r.
Proof.
  intros Hi. unfold default_ranks in Hi. rewrite list_lookup_imap in Hi.
  apply fmap_Some in Hi as ([t rights] & Hi & ->). apply rank_ok_new.
  - apply lookup_lt_Some in Hi. cbn in Hi. lia.
  - intros ->. injection Hi as _ <-. done.
Qed.

(** ** Creation *)
Definition created_base (newId : Z) (p : Player) (name : string) (now : Z) (loc : Z) : Guild :=
  mkGuild newId name (p_GUID p) "No message set." EmptyString now EmblemInfo_new 0 0
    (default_ranks newId loc) ∅ [] (Some (LogHolder_new newId GUILD_EVENTLOG_MAX_RECORDS))
    (replicate 7 (Some (LogHolder_new newId GUILD_BANKLOG_MAX_RECORDS))).

Lemma log_ok_new id max : 0 < max -> log_ok max (LogHolder_new id max).
Proof. intros Hm. split; [done|]. cbn. unfold GUILD_EVENT_LOG_GUID_UNDEFINED. lia. Qed.

Lemma created_base_ok newId p name now loc : guild_ok (created_base newId p name now loc).
Proof.
  split; cbn [created_base m_ranks m_members m_eventLog m_bankEventLog m_bankTabs].
  - done.
  - apply default_ranks_ok.
  - intros k m. by rewrite lookup_empty.
  - eexists. split; [done|]. by apply log_ok_new.
  - done.
  - intros i o Ho. apply (list_elem_of_lookup_2 _ i), elem_of_replicate in Ho as [-> _].
    eexists. split; [done|]. by apply log_ok_new.
  - done.
Qed.

(** The guild after [Create]: its creator alone in it. *)
Definition created (newId : Z) (p : Player) (name : string) (loc : Z) (w : World) : Guild :=
  joined (p_GUID p) (new_member (w_time w) newId p GR_GUILDMASTER)
    (LogHolder_new newId GUILD_EVENTLOG_MAX_RECORDS) (created_base newId p name (w_time w) loc) w.

Lemma wp_Create leader p newId loc name w (Q : bool -> GState -> Prop) :
  players_ok w -> FindPlayer leader w = Some p -> p_GuildId p = 0 ->
  (forall es, Q true (created newId p name loc w, emits es (join_player newId GR_GUILDMASTER p w))) ->
  wp (Create GetTrinityString QueryCharData false newId leader loc name) Q (Guild_new, w).
Proof.
  intros Hw Hp Hid HQ. destruct (player_key w leader p Hw Hp) as (E & _ & El). unfold Create. do 5 wstep.
  wstep. unfold _CreateLogHolders. do 6 wstep. wstep. apply wp_default_ranks; [done..|]. intros es.
  match goal with |- wp _ _ (?g, _) => change g with (created_base newId p name (w_time w) loc) end.
  cbn [m_leaderGuid set_g_logs set_g_ranks m_id]. rewrite E, emits_emits.
  eapply (wp_AddMember_online _ leader p _ (LogHolder_new newId GUILD_EVENTLOG_MAX_RECORDS));
    [apply created_base_ok|done|done|done|done|by apply log_ok_new|done|]. intros fs hs.
  unfold created in HQ. rewrite E in HQ.
  assert (forall es es' : list Effect, emits es' (join_player newId GR_GUILDMASTER p (emits es w))
            = emits (es ++ es') (join_player newId GR_GUILDMASTER p w)) as Hj.
  { intros. unfold join_player, SetInGuild, UpdateGlobalPlayerGuild. cbn.
    case_match; unfold emits; cbn; f_equal; by rewrite app_assoc. }
  cbn [m_id created_base]. unfold rank_or_lowest. cbn [Z.eqb]. rewrite Hj.
  unfold joined. rewrite (logged_time _ _ _ _ _ _ w) by done. apply HQ.
Qed.

Lemma Inv_created leader p newId loc name w :
  players_ok w -> FindPlayer leader w = Some p -> Inv (created newId p name loc w, w).
Proof.
  intros Hw Hp. destruct (player_key w leader p Hw Hp) as (E & _ & El). unfold created. rewrite E.
  apply (Inv_joined leader p GR_GUILDMASTER _ (created_base newId p name (w_time w) loc) w);
    [apply created_base_ok|right; exact E|done| |done|done|by apply log_ok_new|done].
  intros k m q Hm. cbn in Hm. by rewrite lookup_empty in Hm.
Qed.

(** ** From the tables *)

(** What the loading functions leave: members and logs in order, but the ranks
    as many as the table holds (its key is a byte), in whatever sequence, and
    members of any rank. *)
Record loaded (g : Guild) : Prop := mkLoaded {
  ld_count : (length (m_ranks g) <= 256)%nat;
  ld_ranks : forall i r, m_ranks g !! i = Some r ->
               length (gr_bankTabRightsAndSlots r) = Z.to_nat GUILD_BANK_MAX_TABS
               /\ (gr_rankId r = GR_GUILDMASTER -> Z.land (gr_rights r) GR_RIGHT_ALL = GR_RIGHT_ALL);
  ld_members : forall k m, m_members g !! k = Some m ->
               gm_guid m = k /\ 0 <= k < 2 ^ 32 /\ 0 <= gm_rankId m < 256
               /\ length (gm_bankWithdraw m) = Z.to_nat (GUILD_BANK_MAX_TABS + 1);
  ld_leader : 0 <= m_leaderGuid g < 2 ^ 32;
  ld_event : exists h, m_eventLog g = Some h /\ log_ok GUILD_EVENTLOG_MAX_RECORDS h;
  ld_bank_len : length (m_bankEventLog g) = Z.to_nat (GUILD_BANK_MAX_TABS + 1);
  ld_bank : forall i o, m_bankEventLog g !! i = Some o ->
              exists h, o = Some h /\ log_ok GUILD_BANKLOG_MAX_RECORDS h;
  ld_tabs : Z.of_nat (length (m_bankTabs g)) <= GUILD_BANK_MAX_TABS
}.

Definition sequence_ok (g : Guild) : Prop :=
  GUILD_RANKS_MIN_COUNT <= Z.of_nat (length (m_ranks g)) <= GUILD_RANKS_MAX_COUNT
  /\ forall i r, m_ranks g !! i = Some r -> rank_ok i r.
Definition rank_in_range (g : Guild) (m : Member) : Prop := gm_rankId m <= Z.of_nat (length (m_ranks g)).

Lemma loaded_guild_ok g :
  loaded g -> sequence_ok g -> (forall k m, m_members g !! k = Some m -> rank_in_range g m) -> guild_ok g.
Proof.
  intros [] [Hc Hr] Hm. split; try done. intros k m Hk. destruct (ld_members0 k m Hk) as (? & ? & ? & ?).
  specialize (Hm k m Hk). unfold rank_in_range in Hm. repeat split; try done; lia.
Qed.

Lemma loaded_ranks g rs :
  loaded g -> (length rs <= 256)%nat ->
  (forall i r, rs !! i = Some r ->
     length (gr_bankTabRightsAndSlots r) = Z.to_nat GUILD_BANK_MAX_TABS
     /\ (gr_rankId r = GR_GUILDMASTER -> Z.land (gr_rights r) GR_RIGHT_ALL = GR_RIGHT_ALL)) ->
  loaded (set_g_ranks rs g).
Proof. intros [] ? ?. by split. Qed.

Lemma set_ranks_same g : set_g_ranks (m_ranks g) g = g.
Proof. by destruct g. Qed.

Definition ids (l : list RankInfo) : list Z := gr_rankId <$> l.

(** The loop over the ranks: they keep their numbers; nothing broken means each
    rank looked at has its own index. *)
Lemma wp_validate_ranks l b g w (Q : bool -> GState -> Prop) :
  loaded g -> (forall i, i ∈ l -> (i < length (m_ranks g) < 256)%nat) ->
  (forall b' rs es, loaded (set_g_ranks rs g) -> ids rs = ids (m_ranks g) ->
     (b' = false -> b = false /\ forall i, i ∈ l -> ids rs !! i = Some (Z.of_nat i)) ->
     Q b' (set_g_ranks rs g, emits es w)) ->
  wp (validate_ranks l b) Q (g, w).
Proof.
  revert b g w. induction l as [|i l IH]; intros b g w Hld Hl HQ; cbn [validate_ranks].
  { apply wp_ret. specialize (HQ b (m_ranks g) []). rewrite set_ranks_same, emits_nil in HQ.
    apply HQ; [done..|]. intros ->. split; [done|]. by intros i ?%not_elem_of_nil. }
  destruct (Hl i ltac:(left)) as [Hi H256]. destruct (lookup_lt_is_Some_2 _ _ Hi) as [r Hr].
  wstep. unfold validate_rank. do 3 wstep.
  assert (GetRankInfo (Z.of_nat i) g = Some r) as Hg.
  { unfold GetRankInfo, _GetRanksSize. rewrite wrap_small by lia. rewrite (proj2 (Z.ltb_lt _ _)) by lia.
    by rewrite Nat2Z.id. }
  apply (wp_lift _ r); [done|]. cbn beta. case_if.
  - apply wp_ret. rewrite orb_true_r. apply IH; [done|by intros j Hj; apply Hl; right|].
    intros b' rs es H1 H2 H3. apply HQ; [done..|]. intros E. by destruct (H3 E).
  - bool_props. destruct (ld_ranks g Hld i r Hr) as [Hlen Hall].
    destruct (create_missing_ok (_GetPurchasedTabsSize g) r []) as (r' & trans & E & E1 & E2 & E3); [|done|].
    { unfold _GetPurchasedTabsSize. pose proof (ld_tabs g Hld). unfold GUILD_BANK_MAX_TABS in *.
      rewrite wrap_small; lia. }
    wstep. apply (wp_lift _ _ _ _ E). do 4 wstep. wstep. rewrite orb_false_r.
    set (rs1 := <[i := r']> (m_ranks g)).
    assert (ids rs1 = ids (m_ranks g)) as Hids.
    { unfold ids, rs1. rewrite list_fmap_insert, E1. apply list_insert_id. by rewrite list_lookup_fmap, Hr. }
    assert (length rs1 = length (m_ranks g)) as Hlen1 by apply length_insert.
    assert (loaded (set_g_ranks rs1 g)) as Hld1.
    { apply loaded_ranks; [done|rewrite Hlen1; by destruct Hld|]. intros j q Hj. unfold rs1 in Hj.
      destruct (decide (i = j)) as [<-|Hne].
      - rewrite list_lookup_insert_eq in Hj by done. injection Hj as <-. rewrite E3, E1, E2. done.
      - rewrite list_lookup_insert_ne in Hj by done. by apply (ld_ranks g Hld j). }
    apply IH; [done|intros j Hj; cbn; rewrite Hlen1; apply Hl; by right|].
    intros b' rs es H1 H2 H3. pose proof (eq_trans H2 Hids) as H4. rewrite emits_emits. apply HQ; [done|done|].
    intros Eb. destruct (H3 Eb) as [Hb Hrest]. split; [done|]. intros j [->|Hj]%elem_of_cons; [|by apply Hrest].
    rewrite H4. unfold ids. rewrite list_lookup_fmap, Hr. cbn. by f_equal.
Qed.

(** A loop that deals with the elements one after the other. *)
Lemma wp_for_each_list {A} (l : list A) (f : A -> G unit) (I : list A -> GState -> Prop) (Q : unit -> GState -> Prop) s :
  I l s -> (forall a l s', I (a :: l) s' -> wp (f a) (fun _ => I l) s') ->
  (forall s', I [] s' -> Q tt s') -> wp (for_each l f) Q s.
Proof.
  intros Hs Hf HQ. revert s Hs. induction l as [|a l IH]; intros s Hs; cbn [for_each]; [by apply wp_ret, HQ|].
  apply wp_bind. eapply wp_mono; [by apply Hf|]. cbn. intros _ s1 Hs1. by apply IH.
Qed.

Lemma loaded_put g k m m' :
  m_members g !! k = Some m -> gm_guid m' = gm_guid m -> 0 <= gm_rankId m' < 256 ->
  length (gm_bankWithdraw m') = length (gm_bankWithdraw m) -> loaded g -> loaded (put_member k m' g).
Proof.
  intros Hm E1 E2 E3 [Hc Hrk Hmb]. split; cbn; try done. intros j n. destruct (decide (j = k)) as [->|Hne].
  - rewrite lookup_insert_eq. intros [= <-]. destruct (Hmb k m Hm) as (? & ? & _ & ?).
    rewrite E1, E3. done.
  - rewrite lookup_insert_ne by done. apply Hmb.
Qed.

Lemma agree_put g k m m' w :
  m_members g !! k = Some m -> gm_accountId m' = gm_accountId m -> agree g w -> agree (put_member k m' g) w.
Proof.
  intros Hm E Hag j n p. cbn. destruct (decide (j = k)) as [->|Hne].
  - rewrite lookup_insert_eq. intros [= <-] Hp. rewrite E. by apply (Hag k).
  - rewrite lookup_insert_ne by done. apply Hag.
Qed.

(** The loop that brings the members' ranks down: [rest] are still to be seen. *)
Definition fixing_ranks (leader : Z) (w : World) (rest : list (Z * Member)) (s : GState) : Prop :=
  loaded s.1 /\ sequence_ok s.1 /\ steady w s.2 /\ agree s.1 s.2 /\ m_leaderGuid s.1 = leader
  /\ (forall e, e ∈ rest -> is_Some (m_members s.1 !! e.1))
  /\ forall k m, m_members s.1 !! k = Some m -> rank_in_range s.1 m \/ k ∈ rest.*1.

Lemma ranks_size_seq g : sequence_ok g -> _GetRanksSize g = Z.of_nat (length (m_ranks g)).
Proof. intros [Hc _]. apply wrap_small. unfold GUILD_RANKS_MIN_COUNT, GUILD_RANKS_MAX_COUNT in Hc. lia. Qed.
Lemma lowest_rank_seq g : sequence_ok g -> _GetLowestRankId g = Z.of_nat (length (m_ranks g)) - 1.
Proof. intros [Hc _]. apply wrap_small. unfold GUILD_RANKS_MIN_COUNT, GUILD_RANKS_MAX_COUNT in Hc. lia. Qed.

Lemma fix_rank_round leader w a l s :
  fixing_ranks leader w (a :: l) s ->
  wp (lower_rank a)
    (fun _ => fixing_ranks leader w l) s.
Proof.
  unfold lower_rank. destruct a as [k n], s as [g1 w1]. intros (Hld & Hsq & Hw & Hag & Hlead & Hin & Hr). cbn [fst snd] in *.
  destruct (Hin (k, n) ltac:(left)) as [m Hm]. cbn in Hm.
  wstep. apply (wp_deref _ m); [done|]. do 2 wstep. rewrite ranks_size_seq by done.
  assert (forall e, e ∈ l -> is_Some (m_members g1 !! e.1)) as Hin' by (intros e He; apply Hin; by right).
  apply wp_when; intros Hb; bool_props.
  - apply (wp_ChangeRank _ _ m); [done|]. rewrite lowest_rank_seq by done.
    set (m' := set_m_rank (Z.of_nat (length (m_ranks g1)) - 1) m).
    destruct Hsq as [Hc Hrk]. unfold GUILD_RANKS_MIN_COUNT, GUILD_RANKS_MAX_COUNT in Hc.
    assert (gm_rankId m' = Z.of_nat (length (m_ranks g1)) - 1) as Em' by (cbn; rewrite wrap_small; lia).
    split; [apply (loaded_put g1 k m); [done|done|rewrite Em'; lia|done|done]|].
    split; [by split|]. cbn [fst snd].
    assert (steady w1 (emits [Execute (rank_stmt (Z.of_nat (length (m_ranks g1)) - 1) (gm_guid m))]
      (rank_player (Z.of_nat (length (m_ranks g1)) - 1) (gm_guid m) w1))) as Hst
      by (etransitivity; [apply steady_rank_player|apply steady_emits]).
    split; [etransitivity; [exact Hw|exact Hst]|].
    split; [apply (agree_steady _ w1); [exact Hst|by apply (agree_put g1 k m)]|].
    split; [done|]. split.
    + intros e He. cbn. destruct (decide (e.1 = k)) as [->|Hne]; [rewrite lookup_insert_eq; by eexists|].
      rewrite lookup_insert_ne by done. by apply Hin'.
    + intros j q. cbn [put_member set_g_members m_members]. destruct (decide (j = k)) as [->|Hne].
      * rewrite lookup_insert_eq. intros [= <-]. left. unfold rank_in_range. rewrite Em'. cbn. lia.
      * rewrite lookup_insert_ne by done. intros Hq. destruct (Hr j q Hq) as [?|[E|?]%elem_of_cons]; auto; done.
  - split; [done|]. split; [done|]. split; [done|]. split; [done|]. split; [done|]. split; [done|].
    cbn [fst snd]. intros j q Hq. destruct (Hr j q Hq) as [?|[E|?]%elem_of_cons]; auto. cbn in E. subst j.
    rewrite Hm in Hq. injection Hq as <-. left. unfold rank_in_range. lia.
Qed.

(** The loop that leaves the leader alone at rank 0. *)
Definition leads (g : Guild) : Prop :=
  exists m, m_members g !! m_leaderGuid g = Some m /\ gm_rankId m = GR_GUILDMASTER.
Definition in_range (g : Guild) : Prop := forall k m, m_members g !! k = Some m -> rank_in_range g m.

Definition demoting (w : World) (rest : list (Z * Member)) (s : GState) : Prop :=
  guild_ok s.1 /\ in_range s.1 /\ leads s.1 /\ steady w s.2 /\ agree s.1 s.2
  /\ (forall e, e ∈ rest -> is_Some (m_members s.1 !! e.1))
  /\ forall k m, m_members s.1 !! k = Some m -> gm_rankId m = GR_GUILDMASTER ->
       k = m_leaderGuid s.1 \/ k ∈ rest.*1.

Lemma demote_round w a l s :
  demoting w (a :: l) s ->
  wp (demote_master a)
    (fun _ => demoting w l) s.
Proof.
  unfold demote_master. destruct a as [k n], s as [g1 w1]. intros (Hg & Hrg & Hl & Hw & Hag & Hin & Hr). cbn [fst snd] in *.
  destruct (Hin (k, n) ltac:(left)) as [m Hm]. cbn in Hm. destruct (GUID_LOPART_key g1 k m Hg Hm) as [_ Ek].
  wstep. apply (wp_deref _ m); [done|]. do 2 wstep.
  assert (forall e, e ∈ l -> is_Some (m_members g1 !! e.1)) as Hin' by (intros e He; apply Hin; by right).
  unfold IsSamePlayer. rewrite Ek. apply wp_when; intros Heqb.
  - apply andb_true_iff in Heqb as [H0 Hne%negb_true_iff]. bool_props.
    apply (wp_ChangeRank _ _ m); [done|]. split; cbn [fst snd].
    { apply (guild_ok_put g1 k m); [done| |done]. apply member_ok_rank; [unfold GR_OFFICER, GUILD_RANKS_MAX_COUNT; lia|].
      by apply (go_members g1). }
    split.
    { intros j q. unfold rank_in_range. cbn [put_member set_g_members m_members m_ranks].
      pose proof (go_count g1 Hg) as Hc. unfold GUILD_RANKS_MIN_COUNT in Hc.
      destruct (decide (j = k)) as [->|Hj]; [rewrite lookup_insert_eq; intros [= <-]; cbn; rewrite wrap_small; unfold GR_OFFICER; lia|].
      rewrite lookup_insert_ne by done. apply Hrg. }
    split.
    { destruct Hl as (q & Hq & Hq0). exists q. split; [|done]. cbn. by rewrite lookup_insert_ne. }
    assert (steady w1 (emits [Execute (rank_stmt GR_OFFICER (gm_guid m))] (rank_player GR_OFFICER (gm_guid m) w1)))
      as Hst by (etransitivity; [apply steady_rank_player|apply steady_emits]).
    split; [etransitivity; [exact Hw|exact Hst]|].
    split; [apply (agree_steady _ w1); [exact Hst|by apply (agree_put g1 k m)]|]. split.
    + intros e He. cbn. destruct (decide (e.1 = k)) as [->|Hj]; [rewrite lookup_insert_eq; by eexists|].
      rewrite lookup_insert_ne by done. by apply Hin'.
    + intros j q. cbn [put_member set_g_members m_members m_leaderGuid]. destruct (decide (j = k)) as [->|Hj].
      * rewrite lookup_insert_eq. by intros [= <-].
      * rewrite lookup_insert_ne by done. intros Hq Hq0.
        destruct (Hr j q Hq Hq0) as [?|[E|?]%elem_of_cons]; auto; done.
  - do 6 (split; [done|]). cbn [fst snd]. intros j q Hq Hq0.
    destruct (Hr j q Hq Hq0) as [?|[E|?]%elem_of_cons]; auto. cbn in E. subst j.
    rewrite Hm in Hq. injection Hq as <-. left. rewrite Hq0 in Heqb. cbn in Heqb. bool_props. done.
Qed.

(** What the repair promises of a guild it keeps. *)
Record repaired (s : GState) : Prop := mkRepaired {
  rp_inv : Inv s;
  rp_leads : leads s.1;
  rp_range : in_range s.1;
  rp_single : CONFIG_ALLOW_MULTIPLE_GUILDMASTER cfg = false ->
    forall k m, m_members s.1 !! k = Some m -> gm_rankId m = GR_GUILDMASTER -> k = m_leaderGuid s.1
}.


Lemma wp_validate_end g w (Q : bool -> GState -> Prop) :
  guild_ok g -> in_range g -> leads g -> players_ok w -> agree g w ->
  (forall s', repaired s' -> Q true s') ->
  wp (when (negb (CONFIG_ALLOW_MULTIPLE_GUILDMASTER cfg))
        (g ← getg; for_each (members_in_order g) demote_master) ;;
      modg _UpdateAccountsNumber ;; mret true) Q (g, w).
Proof.
  intros Hg Hr Hl Hw Hag HQ.
  assert (forall g1 w1, guild_ok g1 -> in_range g1 -> leads g1 -> steady w w1 -> agree g1 w1 ->
    (CONFIG_ALLOW_MULTIPLE_GUILDMASTER cfg = false -> forall k m, m_members g1 !! k = Some m ->
       gm_rankId m = GR_GUILDMASTER -> k = m_leaderGuid g1) -> Q true (_UpdateAccountsNumber g1, w1)) as Hend.
  { intros g1 w1 Hg1 Hr1 Hl1 Hs1 Hag1 H1. apply HQ. split; [|done..]. split; cbn [fst snd].
    - by apply guild_ok_accounts.
    - destruct Hl1 as (m & Hm & _). by exists m.
    - apply accounts_right_update.
    - by apply (players_ok_steady w).
    - done. }
  wstep. apply wp_when; intros Hc; bool_props.
  - do 2 wstep. apply (wp_for_each_list _ _ (demoting w)).
    + repeat (split; [done|]). cbn. split; [intros [k m] He; apply elem_of_members_in_order in He; by eexists|].
      intros k m Hm _. right. apply list_elem_of_fmap. exists (k, m). split; [done|]. by apply elem_of_members_in_order.
    + intros a l s'. apply demote_round.
    + intros [g1 w1] (Hg1 & Hr1 & Hl1 & Hs1 & Hag1 & _ & H1). cbn [fst snd] in *. do 3 wstep.
      apply Hend; try done. intros _ k m Hm Hm0. destruct (H1 k m Hm Hm0) as [?|Hx]; [done|].
      by apply not_elem_of_nil in Hx.
  - wsteps. apply Hend; try done. by rewrite Hc.
Qed.

Lemma in_range_led_by g k m : in_range g -> in_range (led_by k m g).
Proof.
  intros Hr j n. cbn. unfold rank_in_range. cbn. destruct (decide (j = k)) as [->|Hne].
  - rewrite lookup_insert_eq. intros [= <-]. cbn. rewrite wrap_small; unfold GR_GUILDMASTER; lia.
  - rewrite lookup_insert_ne by done. apply Hr.
Qed.

Lemma leads_led_by g k m : guild_ok g -> m_members g !! k = Some m -> leads (led_by k m g).
Proof.
  intros Hg Hm. destruct (GUID_LOPART_key g k m Hg Hm) as [_ E]. exists (set_m_rank GR_GUILDMASTER m).
  split; [|done]. cbn. by rewrite E, lookup_insert_eq.
Qed.

Lemma guild_ok_led_by g k m : guild_ok g -> m_members g !! k = Some m -> guild_ok (led_by k m g).
Proof.
  intros Hg Hm. apply (guild_ok_put _ k m); [done| |by apply guild_ok_leader].
  apply member_ok_rank; [unfold GR_GUILDMASTER, GUILD_RANKS_MAX_COUNT; lia|]. by apply (go_members g).
Qed.

Lemma agree_led_by g k m w : m_members g !! k = Some m -> agree g w -> agree (led_by k m g) w.
Proof. intros Hm Hag. by apply (agree_put _ k m). Qed.

(** When somebody else takes over from a leader who is not a member. *)
Lemma replaced_leader g k n w w' :
  guild_ok g -> in_range g -> agree g w -> steady w w' -> 0 <= m_leaderGuid g < 2 ^ 32 ->
  k <> m_leaderGuid g -> m_members g !! k = Some n ->
  let g' := _UpdateAccountsNumber (without (m_leaderGuid g) (led_by k n g)) in
  guild_ok g' /\ in_range g' /\ leads g' /\ agree g' w' /\ size (m_members g') <> 0%nat.
Proof.
  intros Hg Hr Hag Hst Hs Hk Hkn g'.
  assert (m_members g' !! k = Some (set_m_rank GR_GUILDMASTER n)) as Hkn'.
  { unfold g'. cbn. rewrite GUID_LOPART_small by done. by rewrite lookup_delete_ne, lookup_insert_eq. }
  destruct (GUID_LOPART_key g k n Hg Hkn) as [_ Ek]. split; [|split; [|split; [|split]]].
  - by apply guild_ok_accounts, guild_ok_without, guild_ok_led_by.
  - intros j q Hq. unfold g' in Hq. cbn in Hq. apply lookup_delete_Some in Hq as [_ Hq].
    by apply (in_range_led_by g k n Hr j).
  - exists (set_m_rank GR_GUILDMASTER n). split; [|done].
    replace (m_leaderGuid g') with k by (unfold g'; cbn; by rewrite Ek). done.
  - apply (agree_steady _ w); [done|]. apply (agree_without (m_leaderGuid g) (led_by k n g)). by apply agree_led_by.
  - intros Hz. apply map_size_empty_iff in Hz. by rewrite Hz, lookup_empty in Hkn'.
Qed.

Lemma guild_ok_disbanded g : guild_ok g -> guild_ok (disbanded g).
Proof. intros []. by split. Qed.

Lemma wp_validate_leader g w (Q : bool -> GState -> Prop) :
  guild_ok g -> in_range g -> players_ok w -> agree g w -> 0 <= m_leaderGuid g < 2 ^ 32 ->
  (forall g' w', guild_ok g' -> in_range g' -> leads g' -> steady w w' -> agree g' w' -> Q true (g', w')) ->
  (forall w', RemoveGuild (m_id g) ∈ w_trace w' -> Q false (disbanded (disbanded g), w')) ->
  wp validate_leader Q (g, w).
Proof.
  intros Hg Hr Hw Hag Hs HQ HQd. unfold validate_leader. do 2 wstep.
  destruct (GetMember (m_leaderGuid g) g) as [m|] eqn:Hm.
  - unfold GetMember in Hm. rewrite GUID_LOPART_small in * by done. wstep. unfold IsRank. apply wp_when; intros Hb; bool_props.
    + apply (wp_SetLeaderGUID _ m); [done|]. apply wp_ret.
      assert (steady w (emits [Execute (rank_stmt GR_GUILDMASTER (gm_guid m)); Execute (leader_stmt (gm_guid m) (m_id g))]
         (rank_player GR_GUILDMASTER (gm_guid m) w))) as Hst by (etransitivity; [apply steady_rank_player|apply steady_emits]).
      apply HQ; [by apply guild_ok_led_by|by apply in_range_led_by|by apply leads_led_by|done|].
      apply (agree_steady _ w); [done|]. by apply agree_led_by.
    + apply wp_ret. apply HQ; try done. by exists m.
  - pose proof (succession_heir (GUID_LOPART (m_leaderGuid g)) g) as [_ Hh].
    destruct (succession (GUID_LOPART (m_leaderGuid g)) g).2 as [[k n]|] eqn:Hn; wstep.
    + rewrite GUID_LOPART_small in Hh by done. destruct Hh as (Hk & Hkn & _).
      apply (wp_DeleteMember_leader _ _ _ k n); [done..|]. intros w' Hst _. do 2 wstep.
      destruct (replaced_leader g k n w w') as (? & ? & ? & ? & Hz); [done..|].
      rewrite (proj2 (Nat.eqb_neq _ _) Hz). apply wp_ret. by apply HQ.
    + apply wp_DeleteMember_last; [done..|]. intros w' Hst. do 2 wstep.
      match goal with |- wp (if ?b then _ else _) _ _ => replace b with true by done end.
      wstep. apply wp_Disband; [by apply guild_ok_disbanded|]. intros w2 _. wsteps. apply HQd. cbn. set_solver.
Qed.

(** The ranks after the first stage are a sequence. *)
Lemma wp_validate_sequence g w (Q : unit -> GState -> Prop) :
  loaded g ->
  (forall rs es, loaded (set_g_ranks rs g) -> sequence_ok (set_g_ranks rs g) -> Q tt (set_g_ranks rs g, emits es w)) ->
  wp (validate_sequence GetTrinityString) Q (g, w).
Proof.
  intros Hld HQ. unfold validate_sequence. do 2 wstep. cbv zeta.
  assert (forall rs es, loaded (set_g_ranks rs g) ->
    wp (modg (set_g_ranks []) ;; _CreateDefaultGuildRanks GetTrinityString DEFAULT_LOCALE) Q (set_g_ranks rs g, emits es w)) as Hreset.
  { intros rs es H1. do 2 wstep. apply wp_default_ranks; [done|apply (ld_tabs g Hld)|]. intros fs.
    rewrite emits_emits. apply (HQ (default_ranks (m_id g) DEFAULT_LOCALE)).
    - apply loaded_ranks; [done|cbn; lia|]. intros i r (E1 & E2 & E3)%default_ranks_ok. split; [done|].
      intros E0. apply E3. rewrite E0 in E1. unfold GR_GUILDMASTER in E1. lia.
    - split; [done|]. apply default_ranks_ok. }
  assert (_GetRanksSize g = Z.of_nat (length (m_ranks g)) \/ length (m_ranks g) = 256%nat) as Hsz.
  { pose proof (ld_count g Hld). destruct (decide (length (m_ranks g) = 256%nat)); [by right|].
    left. apply wrap_small. lia. }
  wstep. case_if.
  - apply wp_ret. cbn [when]. specialize (Hreset (m_ranks g) []). rewrite set_ranks_same, emits_nil in Hreset. by apply Hreset.
  - bool_props. destruct Hsz as [Hsz|Hsz]; [|exfalso; unfold _GetRanksSize in *; rewrite Hsz in *; done].
    rewrite Hsz in *. apply wp_validate_ranks; [done| |].
    + intros i [_ Hi]%list_elem_of_In%in_seq. unfold GUILD_RANKS_MAX_COUNT in *. lia.
    + intros b rs es Ha1 Ha2 Ha3. apply wp_when; intros Eb; [by apply Hreset|]. apply HQ; [done|].
      destruct (Ha3 Eb) as [_ Hall]. assert (length rs = length (m_ranks g)) as Hlen.
      { apply (f_equal length) in Ha2. unfold ids in Ha2. by rewrite !length_fmap in Ha2. }
      split; [cbn; by rewrite Hlen|]. cbn. intros i r Hi.
      destruct (ld_ranks _ Ha1 i r Hi) as [Hl Hall']. pose proof (lookup_lt_Some _ _ _ Hi).
      assert (gr_rankId r = Z.of_nat i) as Hid.
      { specialize (Hall i). unfold ids in Hall. rewrite list_lookup_fmap, Hi in Hall.
        assert (i ∈ seq 0 (Z.to_nat (Z.of_nat (length (m_ranks g))))) as Hin by (apply list_elem_of_In, in_seq; lia).
        apply Hall in Hin. by injection Hin. }
      split; [done|]. split; [done|]. intros ->. by apply Hall'.
Qed.

Lemma wp_lower_all leader g w (Q : unit -> GState -> Prop) :
  loaded g -> sequence_ok g -> agree g w -> m_leaderGuid g = leader ->
  (forall g' w', guild_ok g' -> in_range g' -> steady w w' -> agree g' w' ->
     m_leaderGuid g' = leader -> 0 <= leader < 2 ^ 32 -> m_id g' = m_id g -> Q tt (g', w')) ->
  wp (for_each (members_in_order g) lower_rank) Q (g, w).
Proof.
  intros Hld Hsq Hag Hl HQ.
  apply (wp_for_each_list _ _ (fun l s => fixing_ranks leader w l s /\ m_id s.1 = m_id g)).
  - split; [|done]. do 5 (split; [done|]). cbn.
    split; [intros [k m] He; apply elem_of_members_in_order in He; by eexists|].
    intros k m Hm. right. apply list_elem_of_fmap. exists (k, m). split; [done|]. by apply elem_of_members_in_order.
  - intros [k n] l [g3 w3] [Hf Hid]. apply wp_conj; [by apply (fix_rank_round leader w (k, n))|].
    destruct Hf as (_ & _ & _ & _ & _ & Hin & _). destruct (Hin (k, n) ltac:(left)) as [m Hm]. cbn in Hm.
    unfold lower_rank. wstep. apply (wp_deref _ m); [done|]. do 2 wstep.
    apply wp_when; intros _; [by apply (wp_ChangeRank _ _ m)|done].
  - intros [g3 w3] [(Hld3 & Hsq3 & Hst3 & Hag3 & Hl3 & _ & Hr3) Hid3]. cbn [fst snd] in *.
    assert (in_range g3) as Hr3' by (intros k m Hm; destruct (Hr3 k m Hm) as [?|Hx]; [done|by apply not_elem_of_nil in Hx]).
    apply HQ; [by apply loaded_guild_ok|done..| |done]. rewrite <- Hl3. apply (ld_leader g3 Hld3).
Qed.

(** [Validate] is defined on whatever the loading left, and keeps its promise. *)
Lemma wp_Validate g w (Q : bool -> GState -> Prop) :
  loaded g -> players_ok w -> agree g w ->
  (forall s', repaired s' -> Q true s') ->
  (forall g' w', m_members g' = ∅ -> RemoveGuild (m_id g) ∈ w_trace w' -> Q false (g', w')) ->
  wp (Validate cfg GetTrinityString) Q (g, w).
Proof.
  intros Hld Hw Hag HQ HQd. unfold Validate. wstep. apply wp_validate_sequence; [done|]. intros rs es H1 H2.
  do 3 wstep. apply (wp_lower_all (m_leaderGuid g)); [done..|].
  intros g3 w3 Hg3 Hr3 Hst3 Hag3 Hl3 Hs3 Hid3. wstep.
  apply wp_validate_leader; [done|done|by apply (players_ok_steady w)|done|by rewrite Hl3|..].
  - intros g4 w4 Hg4 Hr4 Hl4 Hst4 Hag4. cbn [negb]. apply wp_validate_end; try done.
    apply (players_ok_steady w); [|done]. by etransitivity.
  - intros w4 Ht4. cbn [negb]. apply wp_ret. rewrite Hid3 in Ht4. by apply HQd.
Qed.

(** ** Loading

    The rows [GuildMgr::LoadGuilds] hands to one guild, after its own. *)
Inductive Row :=
| RowRank (f : RankRow) | RowMember (f : MemberRow) | RowRight (f : BankRightRow)
| RowEvent (f : EventRow) | RowBankEvent (f : BankEventRow) | RowTab (f : BankTabRow)
| RowItem (tabId : Z).

Definition load_row (r : Row) : G unit :=
  match r with
  | RowRank f => LoadRankFromDB f
  | RowMember f => LoadMemberFromDB f ;; mret tt
  | RowRight f => LoadBankRightFromDB f
  | RowEvent f => LoadEventLogFromDB f ;; mret tt
  | RowBankEvent f => LoadBankEventLogFromDB f ;; mret tt
  | RowTab f => LoadBankTabFromDB f
  | RowItem tabId => LoadBankItemFromDB tabId ;; mret tt
  end.
Definition load_guild (f : GuildRow) (rows : list Row) : G unit := LoadFromDB f ;; for_each rows load_row.

(** The query has seven withdrawal columns; a tab of the rights table is below
    128; the ranks have distinct byte numbers. *)
Definition row_ok (r : Row) : Prop :=
  match r with
  | RowMember f => length (f_withdraw f) = Z.to_nat (GUILD_BANK_MAX_TABS + 1)
  | RowRight f => 0 <= f_TabId f < 128
  | _ => True
  end.
Definition is_rank_row (r : Row) : bool := match r with RowRank _ => true | _ => false end.
Definition rank_rows (rows : list Row) : nat := length (List.filter is_rank_row rows).

Lemma land_lor_ALL r : Z.land (Z.lor r GR_RIGHT_ALL) GR_RIGHT_ALL = GR_RIGHT_ALL.
Proof.
  apply Z.bits_inj'. intros n Hn. rewrite Z.land_spec, Z.lor_spec.
  by destruct (Z.testbit r n), (Z.testbit GR_RIGHT_ALL n).
Qed.

Lemma loaded_event g h :
  log_ok GUILD_EVENTLOG_MAX_RECORDS h -> loaded g -> loaded (set_g_logs (Some h) (m_bankEventLog g) g).
Proof. intros Hh []. split; cbn; try done. by exists h. Qed.

Lemma loaded_bank g i h :
  log_ok GUILD_BANKLOG_MAX_RECORDS h -> loaded g -> loaded (set_g_logs (m_eventLog g) (<[i := Some h]> (m_bankEventLog g)) g).
Proof.
  intros Hh []. split; cbn; try done; [by rewrite length_insert|]. intros j o Ho.
  destruct (decide (i = j)) as [<-|Hne].
  - apply list_lookup_insert_Some in Ho as [(_ & <- & _)|(? & _)]; [by exists h|done].
  - rewrite list_lookup_insert_ne in Ho by done. by apply (ld_bank0 j).
Qed.

Lemma LoadEvent_ok max e h :
  log_ok max h -> CanInsert h = true -> 0 <= entry_guid e < 2 ^ 32 -> log_ok max (LoadEvent e h).
Proof.
  intros (Hm & Hlen & Hn) Hc He. unfold CanInsert in Hc. bool_props. split; [done|]. cbn. split; [lia|].
  by case_if.
Qed.

Lemma loaded_bank_log g i :
  loaded g -> 0 <= i <= GUILD_BANK_MAX_TABS ->
  exists h, m_bankEventLog g !! Z.to_nat i = Some (Some h) /\ log_ok GUILD_BANKLOG_MAX_RECORDS h.
Proof.
  intros Hg Hi. assert (is_Some (m_bankEventLog g !! Z.to_nat i)) as [o Ho].
  { apply lookup_lt_is_Some_2. rewrite (ld_bank_len g Hg). unfold GUILD_BANK_MAX_TABS in *. lia. }
  destruct (ld_bank g Hg _ _ Ho) as (h & -> & Hh). eauto.
Qed.

Lemma loaded_tabs_size g : loaded g -> _GetPurchasedTabsSize g = Z.of_nat (length (m_bankTabs g)).
Proof.
  intros Hld. pose proof (ld_tabs g Hld) as Ht. unfold _GetPurchasedTabsSize. apply wrap_small.
  unfold GUILD_BANK_MAX_TABS in Ht. lia.
Qed.

Lemma load_rank f g w (Q : unit -> GState -> Prop) :
  loaded g -> (length (m_ranks g) < 256)%nat ->
  (forall g' w', loaded g' -> steady w w' -> length (m_ranks g') = S (length (m_ranks g)) -> Q tt (g', w')) ->
  wp (LoadRankFromDB f) Q (g, w).
Proof.
  intros Hld Hl HQ. unfold LoadRankFromDB. wstep. apply HQ; [|done|cbn; rewrite length_app; cbn; lia].
  apply loaded_ranks; [done|rewrite length_app; cbn; lia|].
  intros i r [Hi|[_ Hi]]%lookup_app_Some; [by apply (ld_ranks g Hld i)|].
  apply list_lookup_singleton_Some in Hi as [_ <-]. split; [done|]. unfold RankInfo_LoadFromDB. cbn.
  intros E. rewrite E. apply land_lor_ALL.
Qed.

Lemma load_member f g w (Q : unit -> GState -> Prop) :
  loaded g -> length (f_withdraw f) = Z.to_nat (GUILD_BANK_MAX_TABS + 1) ->
  (forall g' w', loaded g' -> steady w w' -> m_ranks g' = m_ranks g -> Q tt (g', w')) ->
  wp (LoadMemberFromDB f ;; mret tt) Q (g, w).
Proof.
  intros Hld Hf HQ. unfold LoadMemberFromDB, Member_LoadFromDB. wstep. cbv zeta. do 4 wstep.
  destruct (negb (CheckStats _)) eqn:Ec; cbn [negb].
  - unfold _DeleteMemberFromDB. wsteps. by apply HQ.
  - wsteps. pose proof (wrap_range 32 (f_guid f) ltac:(lia)) as Hk. rewrite MAKE_NEW_GUID_player by done.
    apply HQ; [|apply steady_global|done]. destruct Hld as [Hc Hrk Hmb]. split; cbn; try done. intros k m.
    destruct (decide (k = u32 (f_guid f))) as [->|Hne].
    + rewrite lookup_insert_eq. intros [= <-].
      case_if; (split; [done|]); (split; [done|]); (split; [apply (wrap_range 8); lia|]); cbn; by rewrite length_fmap.
    + rewrite lookup_insert_ne by done. apply Hmb.
Qed.

Lemma load_right f g w (Q : unit -> GState -> Prop) :
  loaded g -> 0 <= f_TabId f < 128 ->
  (forall g' w', loaded g' -> steady w w' -> length (m_ranks g') = length (m_ranks g) -> Q tt (g', w')) ->
  wp (LoadBankRightFromDB f) Q (g, w).
Proof.
  intros Hld Hf HQ. unfold LoadBankRightFromDB, _SetRankBankTabRightsAndSlots. do 2 wstep.
  set (rs := RightsAndSlots_of _ _ _).
  assert (GetTabId rs = f_TabId f) as Et.
  { unfold GetTabId, rs. cbn. rewrite !(wrap_small 8 (f_TabId f)) by lia. rewrite swrap_small; lia. }
  rewrite Et. case_if; [wsteps; by apply HQ|]. bool_props. unfold on_rank. do 2 wstep.
  destruct (GetRankInfo _ g) as [r|] eqn:Hr; [|wsteps; by apply HQ].
  unfold GetRankInfo in Hr. case_match; [|done]. set (i := Z.to_nat (u8 (f_rid f))) in *.
  destruct (ld_ranks g Hld i r Hr) as [Hl Hall]. pose proof (ld_tabs g Hld) as Ht.
  destruct (SetTab_defined rs false r) as (r' & stmts & E).
  { rewrite Et. rewrite loaded_tabs_size in * by done. lia. }
  assert (length (gr_bankTabRightsAndSlots r') = Z.to_nat GUILD_BANK_MAX_TABS
          /\ gr_rankId r' = gr_rankId r /\ gr_rights r' = gr_rights r) as (E1 & E2 & E3).
  { unfold SetBankTabSlotsAndRights in E. cbv zeta in E.
    match type of E with (if ?b then _ else _) = _ => destruct b; [|done] end.
    injection E as <- _. cbn. by rewrite length_insert. }
  wstep. apply (wp_lift _ _ _ _ E). wsteps. apply HQ; [|apply steady_emits|cbn; by rewrite length_insert].
  apply loaded_ranks; [done|rewrite length_insert; by destruct Hld|]. intros j q Hj.
  destruct (decide (i = j)) as [<-|Hne].
  - rewrite list_lookup_insert_eq in Hj by (by eapply lookup_lt_Some). injection Hj as <-. by rewrite E1, E2, E3.
  - rewrite list_lookup_insert_ne in Hj by done. by apply (ld_ranks g Hld j).
Qed.

Lemma load_event f g w (Q : unit -> GState -> Prop) :
  loaded g -> (forall g' w', loaded g' -> steady w w' -> m_ranks g' = m_ranks g -> Q tt (g', w')) ->
  wp (LoadEventLogFromDB f ;; mret tt) Q (g, w).
Proof.
  intros Hld HQ. destruct (ld_event g Hld) as (h & Hh & Hok). unfold LoadEventLogFromDB. do 4 wstep.
  apply (wp_lift _ h); [done|]. cbn beta. case_if; wsteps; [|by apply HQ]. apply HQ; [|done..].
  apply loaded_event; [|done]. apply LoadEvent_ok; [done..|]. apply wrap_range. lia.
Qed.

Lemma load_bank_event f g w (Q : unit -> GState -> Prop) :
  loaded g -> (forall g' w', loaded g' -> steady w w' -> m_ranks g' = m_ranks g -> Q tt (g', w')) ->
  wp (LoadBankEventLogFromDB f ;; mret tt) Q (g, w).
Proof.
  intros Hld HQ. unfold LoadBankEventLogFromDB. do 3 wstep. cbv zeta.
  pose proof (ld_tabs g Hld) as Ht. pose proof (wrap_range 8 (f_bTabId f) ltac:(lia)) as Hb.
  rewrite loaded_tabs_size by done.
  match goal with |- wp (if ?b then _ else _) _ _ => destruct b eqn:Hin end; [|wsteps; by apply HQ].
  set (tab := if u8 (f_bTabId f) =? GUILD_BANK_MONEY_LOGS_TAB then GUILD_BANK_MAX_TABS else u8 (f_bTabId f)).
  assert (0 <= tab <= GUILD_BANK_MAX_TABS) as Htab.
  { unfold tab. case_if; [done|]. rewrite orb_false_r in Hin. bool_props. lia. }
  destruct (loaded_bank_log g tab Hld Htab) as (h & Hh & Hok).
  wstep. apply (wp_lift _ h); [by rewrite Hh|]. cbn beta. case_if; [|wsteps; by apply HQ].
  do 2 (match goal with |- wp (if ?b then _ else _) _ _ => destruct b; [wsteps; by apply HQ|] end).
  wsteps. apply HQ; [|done..]. apply loaded_bank; [|done]. apply LoadEvent_ok; [done..|]. apply wrap_range. lia.
Qed.

(** A row keeps the guild loadable, one more rank at most. *)
Lemma wp_load_row r n s :
  row_ok r -> loaded s.1 -> (length (m_ranks s.1) + (n + if is_rank_row r then 1 else 0) <= 256)%nat ->
  wp (load_row r) (fun _ s' => loaded s'.1 /\ steady s.2 s'.2 /\ (length (m_ranks s'.1) + n <= 256)%nat) s.
Proof.
  destruct s as [g w]. cbn [fst]. intros Hr Hld Hn. destruct r; cbn [load_row row_ok is_rank_row] in *.
  - apply load_rank; [done|lia|]. intros g' w' H1 H2 H3. cbn. repeat (split; [done|]). lia.
  - apply load_member; [done..|]. intros g' w' H1 H2 H3. cbn. rewrite H3. repeat (split; [done|]). lia.
  - apply load_right; [done..|]. intros g' w' H1 H2 H3. cbn. repeat (split; [done|]). lia.
  - apply load_event; [done|]. intros g' w' H1 H2 H3. cbn. rewrite H3. repeat (split; [done|]). lia.
  - apply load_bank_event; [done|]. intros g' w' H1 H2 H3. cbn. rewrite H3. repeat (split; [done|]). lia.
  - unfold LoadBankTabFromDB. do 2 wstep. case_if; wsteps; cbn; (split; [|split; [done|lia]]); [done|].
    destruct Hld. split; cbn; try done. by rewrite length_alter.
  - unfold LoadBankItemFromDB. do 3 wstep. case_if; wsteps; [cbn; split; [done|split; [done|lia]]|]. bool_props.
    pose proof (wrap_range 8 tabId ltac:(lia)). pose proof (ld_tabs g Hld).
    destruct (lookup_lt_is_Some_2 (m_bankTabs g) (Z.to_nat (u8 tabId))) as [t Ht].
    { rewrite loaded_tabs_size in * by done. lia. }
    apply (wp_lift _ t); [done|]. wsteps. split; [done|split; [done|cbn; lia]].
Qed.

Lemma wp_load_guild f rows w (Q : unit -> GState -> Prop) :
  Forall row_ok rows -> (rank_rows rows <= 256)%nat ->
  (forall g' w', loaded g' -> steady w w' -> Q tt (g', w')) -> wp (load_guild f rows) Q (Guild_new, w).
Proof.
  intros Hrows Hn HQ. unfold load_guild, LoadFromDB, _CreateLogHolders. cbv zeta. do 4 wstep.
  match goal with |- wp _ _ (?g, _) => assert (loaded g) as Hld end.
  { split; cbn [set_g_logs m_ranks m_members m_leaderGuid m_eventLog m_bankEventLog m_bankTabs Guild_new].
    - cbn. lia.
    - intros i r. by rewrite lookup_nil.
    - intros k m. by rewrite lookup_empty.
    - pose proof (wrap_range 32 (f_leaderguid f) ltac:(lia)). by rewrite MAKE_NEW_GUID_player.
    - eexists. split; [done|]. by apply log_ok_new.
    - done.
    - intros i o Ho. apply (list_elem_of_lookup_2 _ i), elem_of_replicate in Ho as [-> _].
      eexists. split; [done|]. by apply log_ok_new.
    - rewrite length_fmap, length_seq. pose proof (wrap_range 8 (f_tabs f) ltac:(lia)).
      case_if; bool_props; unfold GUILD_BANK_MAX_TABS in *; lia. }
  apply (wp_for_each_list _ _ (fun l s => loaded s.1 /\ steady w s.2 /\ Forall row_ok l /\ (length (m_ranks s.1) + rank_rows l <= 256)%nat)).
  - split; [done|]. split; [done|]. split; [done|]. cbn. lia.
  - intros r l s' (H1 & Hst & H2 & H3). apply Forall_cons in H2 as [Hr Hl].
    eapply wp_mono; [apply (wp_load_row r (rank_rows l)); [done|done|]|].
    + unfold rank_rows in *. cbn in H3. destruct (is_rank_row r); cbn in *; lia.
    + cbn. intros _ s2 (H4 & H5 & H6). split; [done|]. split; [by etransitivity|done].
  - intros [g' w'] (H1 & H2 & _). by apply HQ.
Qed.

(** ** The states a guild can reach *)
Inductive guild_reachable : GState -> Prop :=
| reach_create leader p loc newId name w s :
    players_ok w -> FindPlayer leader w = Some p -> p_GuildId p = 0 ->
    Create GetTrinityString QueryCharData false newId leader loc name (Guild_new, w) = Some (true, s) ->
    guild_reachable s
| reach_load f rows w s1 s2 :
    m_PlayerMap w = ∅ -> Forall row_ok rows -> (rank_rows rows <= 256)%nat ->
    load_guild f rows (Guild_new, w) = Some (tt, s1) ->
    Validate cfg GetTrinityString s1 = Some (true, s2) -> guild_reachable s2
| reach_request session r s s' :
    guild_reachable s -> m_members s.1 <> ∅ -> is_Some (FindPlayer session s.2) -> well_formed r ->
    handle QueryCharData localtime session r s = Some (tt, s') -> guild_reachable s'
| reach_world g w w' :
    guild_reachable (g, w) -> players_ok w' -> agree g w' -> guild_reachable (g, w').

Lemma wp_result {A} (m : G A) Q s a s' : wp m Q s -> m s = Some (a, s') -> Q a s'.
Proof. unfold wp. intros HQ E. by rewrite E in HQ. Qed.

Lemma nobody_online w w' g : m_PlayerMap w = ∅ -> steady w w' -> players_ok w' /\ agree g w'.
Proof.
  intros E Hst. assert (forall k p, m_PlayerMap w' !! k = Some p -> False) as Hno.
  { intros k p Hp. destruct (steady_lookup _ _ _ _ Hst Hp) as (q & Hq & _). by rewrite E, lookup_empty in Hq. }
  split; [intros k p Hp; by destruct (Hno k p)|intros k m p _ Hp; by destruct (Hno k p)].
Qed.

Lemma handle_sound session r s s' :
  Inv s -> is_Some (FindPlayer session s.2) -> well_formed r ->
  handle QueryCharData localtime session r s = Some (tt, s') -> sound_after s'.
Proof.
  destruct s as [g w]. cbn. intros HI [p Hp] Hwf E.
  by apply (wp_result _ _ _ _ _ (handle_safe QueryCharData localtime session p r g w HI Hp Hwf) E).
Qed.

Lemma reachable_Inv s : guild_reachable s -> m_members s.1 <> ∅ -> Inv s.
Proof.
  induction 1 as [leader p loc newId name w s Hw Hp Hid E|f rows w s1 s2 Hw Hr Hn E1 E2
                 |session r s s' _ IH Hal Hon Hwf E|g w w' _ IH Hw' Hag]; intros Hne.
  - refine (wp_result _ (fun _ s => Inv s) _ _ _ _ E). apply (wp_Create leader p); [done..|]. intros es.
    apply (Inv_world _ w); [|by apply (Inv_created leader)].
    etransitivity; [apply steady_join|apply steady_emits].
  - assert (loaded s1.1 /\ steady w s1.2) as [Hld Hst].
    { refine (wp_result _ (fun _ s => loaded s.1 /\ steady w s.2) _ _ _ _ E1). by apply wp_load_guild. }
    destruct s1 as [g1 w1]. cbn in *. destruct (nobody_online w w1 g1 Hw Hst) as [Hp Hag].
    refine (wp_result _ (fun b s => b = true -> Inv s) _ _ _ _ E2 eq_refl).
    apply wp_Validate; [done..|by intros s' [] |done].
  - destruct (handle_sound session r s s' (IH Hal) Hon Hwf E) as [HI|(Hm & _)]; [done|by rewrite Hm in Hne].
  - destruct (IH Hne) as [? ? ? _ _]. by split.
Qed.

(** * Theorems *)

(** C30. In every state a guild reaches, from its creation or from the tables
    after the repair, through any requests and any comings and goings of
    players, as long as it has members: its ranks are numbered 0, 1, ... without
    gap, five to ten of them, the first with every right; members are filed
    under their own GUID at a rank of at most ten; the recorded leader is a
    member; the recorded number of accounts is that of the members' distinct
    accounts; every log is within its size; there are at most six bank tabs. *)
Theorem guild_invariant s : guild_reachable s -> m_members s.1 <> ∅ -> Inv s.
Proof. apply reachable_Inv. Qed.

(** Every request of an online player to a guild in a reachable state has a
    defined outcome (no index outside an array, no null log, no dereferenced
    member that is not there), and leaves the invariant or a disbanded guild:
    without members and tabs and removed from the guild manager. *)
Theorem guild_requests_defined session r s :
  guild_reachable s -> m_members s.1 <> ∅ -> is_Some (FindPlayer session s.2) -> well_formed r ->
  exists s', handle QueryCharData localtime session r s = Some (tt, s') /\ sound_after s'.
Proof.
  intros Hs Hne [p Hp] Hwf. destruct s as [g w].
  pose proof (handle_safe QueryCharData localtime session p r g w (reachable_Inv _ Hs Hne) Hp Hwf) as Hsafe.
  apply wp_run in Hsafe as ([] & s' & E & HQ). eauto.
Qed.

(** Loading a guild from its rows (seven withdrawal columns, bank rights of
    tabs below 128, at most 256 ranks) and validating it always comes to an
    end.  When the guild is kept, the invariant holds, the leader is a member
    of rank 0 and, unless several guild masters are allowed, the only one; no
    member's rank exceeds the number of ranks.  Otherwise it has no members
    and is removed. *)
Theorem validate_repairs f rows w :
  m_PlayerMap w = ∅ -> Forall row_ok rows -> (rank_rows rows <= 256)%nat ->
  exists s1 kept s2,
    load_guild f rows (Guild_new, w) = Some (tt, s1)
    /\ Validate cfg GetTrinityString s1 = Some (kept, s2)
    /\ if (kept : bool) then repaired s2
       else m_members s2.1 = ∅ /\ RemoveGuild (m_id s1.1) ∈ w_trace s2.2.
Proof.
  intros Hw Hrows Hn.
  assert (wp (load_guild f rows) (fun _ s => loaded s.1 /\ steady w s.2) (Guild_new, w)) as H1 by by apply wp_load_guild.
  apply wp_run in H1 as ([] & [g1 w1] & E1 & Hld & Hst). cbn in Hld, Hst.
  destruct (nobody_online w w1 g1 Hw Hst) as [Hp Hag].
  assert (wp (Validate cfg GetTrinityString) (fun kept s2 => if (kept : bool) then repaired s2
            else m_members s2.1 = ∅ /\ RemoveGuild (m_id g1) ∈ w_trace s2.2) (g1, w1)) as H2 by by apply wp_Validate.
  apply wp_run in H2 as (kept & s2 & E2 & HQ). eauto 7.
Qed.

(** ** Ranks of members *)

(** The rank of one member changed, lawfully: the player acting ([me]) has the
    right, the member has the given name and is somebody else, of strictly
    lower standing than the player before and after; a promotion is by one, a
    demotion by one to a rank that exists; the row is updated. *)
Definition lawful_change (session : Z) (name : string) (demote : bool) (g : Guild) (s : GState) : Prop :=
  exists me k m, let r := gm_rankId m + (if demote then 1 else -1) in
    m_members g !! session = Some me /\ m_members g !! k = Some m /\ gm_name m = name /\ k <> session
    /\ _HasRankRight session (if demote then GR_RIGHT_DEMOTE else GR_RIGHT_PROMOTE) g = true
    /\ gm_rankId me < gm_rankId m /\ gm_rankId me < r /\ (demote = true -> r <= _GetLowestRankId g)
    /\ m_members s.1 = <[k := set_m_rank r m]> (m_members g)
    /\ Execute (rank_stmt r k) ∈ w_trace s.2.

(** [HandleUpdateMemberRank] leaves every member as they are, or changes the
    rank of one member lawfully: by one step, of somebody of strictly lower
    standing than the player acting before and after, with the right to do it. *)
Theorem rank_change_lawful session p name (demote : bool) g w :
  Inv (g, w) -> FindPlayer session w = Some p ->
  exists s', HandleUpdateMemberRank session name demote (g, w) = Some (tt, s')
             /\ (m_members s'.1 = m_members g \/ lawful_change session name demote g s').
Proof.
  intros HI Hp.
  enough (wp (HandleUpdateMemberRank session name demote)
            (fun _ s' => m_members s'.1 = m_members g \/ lawful_change session name demote g s') (g, w)) as Hwp
    by (apply wp_run in Hwp as ([] & s' & ? & ?); eauto).
  unfold HandleUpdateMemberRank. do 4 wstep. cbv zeta.
  destruct (player_key w session p (inv_players _ HI) Hp) as (E & _ & El). rewrite E.
  destruct (negb (_HasRankRight _ _ g)) eqn:Hright; [wsteps; by left|]. apply negb_false_iff in Hright.
  destruct (GetMemberByName name g) as [k|] eqn:Hn; [|by apply wp_ret; left].
  destruct (GetMemberByName_Some _ _ _ Hn) as (m & Hk & Hname). do 2 wstep.
  destruct (go_members g (inv_guild _ HI) k m Hk) as (Eg & Hkr & Hrank & _).
  destruct (IsSamePlayer session m) eqn:Hsame; [wsteps; by left|]. unfold IsSamePlayer in Hsame. bool_props.
  pose proof Hright as Hme. unfold _HasRankRight, GetMember in Hme. rewrite El in Hme.
  destruct (m_members g !! session) as [me|] eqn:Hs; [|done]. clear Hme.
  wstep. apply (wp_lift _ me); [unfold GetMember; by rewrite El|].
  do 3 (match goal with |- wp (if ?b then _ else _) _ _ => destruct b eqn:? end; [wsteps; by left|]).
  destruct (go_members g (inv_guild _ HI) session me Hs) as (_ & _ & Hrme & _).
  pose proof (lowest_rank_range g (inv_guild _ HI)) as Hlow. unfold GUILD_RANKS_MAX_COUNT, IsRankNotLower in *.
  set (r := gm_rankId m + (if demote then 1 else -1)).
  assert (gm_rankId me < gm_rankId m /\ gm_rankId me < r /\ 0 <= r <= 10 /\ (demote = true -> r <= _GetLowestRankId g)) as (H1 & H2 & H3 & H4).
  { unfold r. destruct demote; cbn [andb negb] in *; bool_props; [lia|]. rewrite wrap_small in * by lia. repeat split; try lia; done. }
  rewrite (wrap_small 32) by lia. rewrite (wrap_small 8) by lia.
  wstep. apply (wp_ChangeRank _ _ m); [done|]. wstep.
  destruct (go_event g (inv_guild _ HI)) as (h & Hh & Hok). apply (wp_LogEvent _ _ _ _ h); [done..|].
  wsteps. right. exists me, k, m. cbv zeta. fold r. rewrite Eg in Hsame. rewrite Eg.
  repeat (split; [done|]). cbn. rewrite <- !app_assoc.
  apply elem_of_app. right. left.
Qed.

(** ** Members leave and are removed *)

(** The player object, if online, that is in no guild. *)
Definition guildless (k : Z) (w : World) : Prop :=
  forall p, FindPlayer k w = Some p -> p_GuildId p = 0 /\ p_GuildRankid p = 0.

Lemma forget_players guid o w :
  m_PlayerMap (forget_guild guid o w)
  = match o with
    | Some p => alter (SetRank 0) (p_GUID p) (alter (SetGuildId 0) (p_GUID p) (m_PlayerMap w))
    | None => m_PlayerMap w
    end.
Proof. unfold forget_guild, SetInGuild, UpdateGlobalPlayerGuild, update_player. by repeat case_match. Qed.

Lemma guildless_forget guid w : players_ok w -> guildless guid (forget_guild guid (FindPlayer guid w) w).
Proof.
  intros Hw p Hp. unfold FindPlayer in *. rewrite forget_players in Hp.
  destruct (m_PlayerMap w !! guid) as [q|] eqn:Hq; [|by rewrite Hq in Hp].
  destruct (Hw guid q Hq) as (Eq & _). rewrite Eq, !lookup_alter_eq, Hq in Hp. by injection Hp as <-.
Qed.

Definition lawful_removal (session : Z) (name : string) (g : Guild) (s : GState) : Prop :=
  exists me k m,
    m_members g !! session = Some me /\ m_members g !! k = Some m /\ gm_name m = name
    /\ _HasRankRight session GR_RIGHT_REMOVE g = true
    /\ gm_rankId m <> GR_GUILDMASTER /\ gm_rankId me < gm_rankId m
    /\ (k <> m_leaderGuid g ->
          m_members s.1 = delete k (m_members g) /\ m_leaderGuid s.1 = m_leaderGuid g
          /\ guildless k s.2 /\ Execute (delete_stmt k) ∈ w_trace s.2).

(** [HandleRemoveMember] leaves every member in place, or removes one whose
    name was given, who is no guild master and of strictly lower standing than
    the player acting, who has the right to remove; unless they are the
    recorded leader, exactly that member goes, their row is deleted and, if
    online, they are in no guild. *)
Theorem removal_lawful session p name g w :
  Inv (g, w) -> FindPlayer session w = Some p ->
  exists s', HandleRemoveMember session name (g, w) = Some (tt, s')
             /\ (m_members s'.1 = m_members g \/ lawful_removal session name g s').
Proof.
  intros HI Hp.
  enough (wp (HandleRemoveMember session name)
            (fun _ s' => m_members s'.1 = m_members g \/ lawful_removal session name g s') (g, w)) as Hwp
    by (apply wp_run in Hwp as ([] & s' & ? & ?); eauto).
  destruct (player_key w session p (inv_players _ HI) Hp) as (E & _ & El).
  unfold HandleRemoveMember. do 4 wstep. rewrite E.
  destruct (negb _) eqn:Hright; [wsteps; by left|]. apply negb_false_iff in Hright.
  destruct (GetMemberByName name g) as [k|] eqn:Hn; [|by apply wp_ret; left].
  destruct (GetMemberByName_Some _ _ _ Hn) as (m & Hk & Hname). do 2 wstep.
  destruct (IsRank GR_GUILDMASTER m) eqn:Hgm; [wsteps; by left|]. unfold IsRank in Hgm. bool_props.
  destruct (GetMember session g) as [me|] eqn:Hs; [|wsteps; by left]. unfold GetMember in Hs. rewrite El in Hs.
  destruct (IsRankNotLower (gm_rankId me) m) eqn:Hr; [wsteps; by left|]. unfold IsRankNotLower in Hr. bool_props.
  destruct (go_members g (inv_guild _ HI) k m Hk) as (Eg & Hkr & _). rewrite Eg.
  destruct (decide (m_leaderGuid g = k)) as [Hl|Hl]; wstep.
  - apply safe_DeleteMember; [done..| |].
    + intros g' w' HI' _. wstep. apply wp_logged; [done|]. intros h es _. wsteps. right. by exists me, k, m.
    + intros _ Honly. pose proof (Honly session me Hs) as ->. rewrite Hk in Hs. injection Hs as ->. lia.
  - apply wp_DeleteMember_other; [done|]. wstep.
    destruct (go_event g (inv_guild _ HI)) as (h & Hh & Hok). apply (wp_LogEvent _ _ _ _ h); [done..|].
    wsteps. right. exists me, k, m. repeat (split; [done|]). intros _. rewrite !emits_emits.
    split; [cbn; by rewrite GUID_LOPART_small|]. split; [done|].
    split; [exact (guildless_forget k w (inv_players _ HI))|]. cbn.
    apply elem_of_app. right. by left.
Qed.

(** A member who is not a leader leaves: exactly they go, their row is
    deleted and they are in no guild.  A leader cannot leave others behind:
    they are told so and nothing else happens.  A leader who is alone disbands
    the guild, which is taken off the manager's list and destroyed. *)
Theorem leave_outcomes session p g w :
  Inv (g, w) -> FindPlayer session w = Some p ->
  exists g' w', HandleLeaveMember session (g, w) = Some (tt, (g', w')) /\
  if negb (_IsLeader p g) then
    m_members g' = delete session (m_members g) /\ m_leaderGuid g' = m_leaderGuid g
    /\ guildless session w' /\ Execute (delete_stmt session) ∈ w_trace w'
  else if (1 <? size (m_members g))%nat then
    g' = g /\ w' = emits (sent p (result_packet GUILD_COMMAND_QUIT ERR_GUILD_LEADER_LEAVE "")) w
  else m_members g' = ∅ /\ RemoveGuild (m_id g) ∈ w_trace w' /\ last (w_trace w') = Some DeleteThis.
Proof.
  intros HI Hp.
  enough (wp (HandleLeaveMember session) (fun _ '(g', w') =>
    if negb (_IsLeader p g) then
      m_members g' = delete session (m_members g) /\ m_leaderGuid g' = m_leaderGuid g
      /\ guildless session w' /\ Execute (delete_stmt session) ∈ w_trace w'
    else if (1 <? size (m_members g))%nat then
      g' = g /\ w' = emits (sent p (result_packet GUILD_COMMAND_QUIT ERR_GUILD_LEADER_LEAVE "")) w
    else m_members g' = ∅ /\ RemoveGuild (m_id g) ∈ w_trace w' /\ last (w_trace w') = Some DeleteThis) (g, w)) as Hwp
    by (apply wp_run in Hwp as ([] & [g' w'] & ? & ?); eauto).
  destruct (player_key w session p (inv_players _ HI) Hp) as (E & _ & El).
  unfold HandleLeaveMember. do 4 wstep. destruct (_IsLeader p g) eqn:Hlead; cbn [negb].
  - case_if; [wsteps; done|]. wstep. apply wp_Disband; [apply (inv_guild _ HI)|]. intros w' _. wsteps.
    split; [done|]. cbn. split; [set_solver|]. by rewrite last_snoc.
  - apply IsLeader_false in Hlead. rewrite E in *. wstep. apply wp_DeleteMember_other; [done|]. wstep.
    destruct (go_event g (inv_guild _ HI)) as (h & Hh & Hok). apply (wp_LogEvent _ _ _ _ h); [done..|].
    do 2 wstep. destruct (still_online session p w (forget_guild session (FindPlayer session w) w) Hp) as [p' Hp'];
      [apply steady_forget|]. eapply wp_SendCommandResult; [exact Hp'|].
    rewrite !emits_emits. split; [cbn; by rewrite El|]. split; [done|].
    split; [exact (guildless_forget session w (inv_players _ HI))|]. cbn.
    apply elem_of_app. right. by left.
Qed.

(** Handing the guild on, changing, adding or removing a rank and
    disbanding are the leader's: requested by anybody else they leave the guild
    as it is, and at most an answer is sent. *)
Theorem leader_only session p r g w :
  FindPlayer session w = Some p -> _IsLeader p g = false ->
  match r with
  | ReqLeader _ | ReqRank _ _ _ _ _ | ReqAddRank _ | ReqRemoveRank _ | ReqRemoveLowestRank | ReqDisband => True
  | _ => False
  end ->
  exists w', handle QueryCharData localtime session r (g, w) = Some (tt, (g, w')) /\ quiet w w'.
Proof.
  intros Hp Hl Hr.
  enough (wp (handle QueryCharData localtime session r) (fun _ s' => s'.1 = g /\ quiet w s'.2) (g, w)) as Hwp
    by (apply wp_run in Hwp as ([] & [g' w'] & ? & ? & ?); cbn in *; subst g'; eauto).
  destruct r; try done; cbn [handle];
    unfold HandleSetLeader, HandleSetRankInfo, HandleAddNewRank, HandleRemoveLowestRank, HandleRemoveRank, HandleDisband.
  - do 4 wstep. rewrite Hl. cbn [negb]. wsteps. split; [done|apply quiet_emits].
  - do 4 wstep. rewrite Hl. cbn [negb]. wsteps. split; [done|apply quiet_emits].
  - do 2 wstep. cbv zeta. case_if; [by wsteps|]. do 2 wstep. rewrite Hl. by wsteps.
  - do 4 wstep. rewrite Hl, orb_true_r. by wsteps.
  - do 6 wstep. rewrite Hl, orb_true_r. by wsteps.
  - do 4 wstep. by rewrite Hl.
Qed.

(** When the leader is removed and others remain, the first member of the
    lowest rank number among them becomes guild master: recorded as leader in
    the guild and in its row, at rank 0; the old leader is out, the others are
    as before. *)
Theorem leader_succession g w kicked can k m :
  Inv (g, w) -> k <> m_leaderGuid g -> m_members g !! k = Some m ->
  exists k' m' g' w',
    DeleteMember (m_leaderGuid g) false kicked can (g, w) = Some (tt, (g', w'))
    /\ k' <> m_leaderGuid g /\ m_members g !! k' = Some m'
    /\ (forall j n, j <> m_leaderGuid g -> m_members g !! j = Some n -> gm_rankId m' <= gm_rankId n)
    /\ m_leaderGuid g' = k'
    /\ m_members g' = delete (m_leaderGuid g) (<[k' := set_m_rank GR_GUILDMASTER m']> (m_members g))
    /\ Execute (leader_stmt k' (m_id g)) ∈ w_trace w'
    /\ Execute (delete_stmt (m_leaderGuid g)) ∈ w_trace w'.
Proof.
  clear cfg GetTrinityString QueryCharData localtime.
  intros HI Hk Hm. pose proof (inv_guild _ HI) as Hg. cbn in Hg. destruct (inv_leader _ HI) as [ml Hml]. cbn in Hml.
  destruct (go_members g Hg _ _ Hml) as (_ & Hs & _).
  pose proof (succession_heir (GUID_LOPART (m_leaderGuid g)) g) as [_ Hh].
  destruct (succession (GUID_LOPART (m_leaderGuid g)) g).2 as [[k' m']|] eqn:Hn; rewrite GUID_LOPART_small in Hh by done.
  - destruct Hh as (Hk' & Hm' & Hmin). destruct (GUID_LOPART_key g k' m' Hg Hm') as [_ Ek].
    assert (wp (DeleteMember (m_leaderGuid g) false kicked can) (fun _ s' =>
      s'.1 = _UpdateAccountsNumber (without (m_leaderGuid g) (led_by k' m' g))
      /\ Execute (leader_stmt k' (m_id g)) ∈ w_trace s'.2
      /\ Execute (delete_stmt (m_leaderGuid g)) ∈ w_trace s'.2) (g, w)) as Hwp.
    { apply (wp_DeleteMember_leader _ _ _ k' m'); [done..|]. intros w' _ (es & fs & Ht). cbn. split; [done|].
      rewrite Ht. split; set_solver. }
    apply wp_run in Hwp as ([] & [g' w'] & E & E1 & E2 & E3). cbn in E1, E2, E3. subst g'.
    exists k', m', (_UpdateAccountsNumber (without (m_leaderGuid g) (led_by k' m' g))), w'.
    do 4 (split; [done|]). split; [exact Ek|]. split; [|done]. cbn. by rewrite GUID_LOPART_small.
  - by destruct Hk; apply (Hh k m).
Qed.

(** ** Members join *)

(** A player who is in a guild is refused.  Otherwise accepting an
    invitation makes them a member at the lowest rank: filed under their GUID
    with their account and marked online; their player object has the guild,
    the rank and no invitation left; the row is inserted and the number of
    accounts counts them. *)
Theorem accept_invitation session p g w :
  Inv (g, w) -> FindPlayer session w = Some p ->
  exists g' w', HandleAcceptMember QueryCharData session (g, w) = Some (tt, (g', w')) /\
  if negb (p_GuildId p =? 0) then g' = g /\ w' = w
  else
    let m := new_member (w_time w) (m_id g) p (_GetLowestRankId g) in
    m_members g' = <[session := m]> (m_members g)
    /\ accounts_right g'
    /\ FindPlayer session w' = Some (SetRank (_GetLowestRankId g) (SetGuildIdInvited 0 (SetGuildId (m_id g) p)))
    /\ Execute (Member_SaveToDB m) ∈ w_trace w'.
Proof.
  intros HI Hp. pose proof (inv_guild _ HI) as Hg. cbn in Hg.
  destruct (player_key w session p (inv_players _ HI) Hp) as (E & _ & El).
  destruct (Z.eqb_spec (p_GuildId p) 0) as [Hid|Hid]; cbn [negb].
  - destruct (go_event g Hg) as (h & Hh & Hok). pose proof (lowest_rank_range g Hg) as Hr.
    set (m := new_member (w_time w) (m_id g) p (_GetLowestRankId g)). cbv zeta.
    assert (wp (HandleAcceptMember QueryCharData session) (fun _ s' =>
      s'.1 = joined session m h g w
      /\ exists es fs, s'.2 = emits (es ++ [Execute (Member_SaveToDB m)] ++ fs)
                               (join_player (m_id g) (_GetLowestRankId g) p w)) (g, w)) as Hwp.
    { unfold HandleAcceptMember. do 3 wstep. rewrite E.
      apply (wp_AddMember_online _ session p _ h); [done|apply HI|done|done|done|done| |].
      - unfold rank_or_lowest, GUILD_RANKS_MAX_COUNT. cbn. lia.
      - intros es fs. wsteps. eauto. }
    apply wp_run in Hwp as ([] & [g' w'] & Er & E1 & es & fs & E2). cbn in E1, E2. subst g' w'.
    eexists _, _. split; [exact Er|]. split; [done|]. split; [exact (accounts_right_update (put_member session m g))|].
    split; [exact (find_joined session (m_id g) (_GetLowestRankId g) p w (inv_players _ HI) Hp)|]. set_solver.
  - assert (wp (HandleAcceptMember QueryCharData session) (fun _ s' => s' = (g, w)) (g, w)) as Hwp.
    { unfold HandleAcceptMember. do 3 wstep. rewrite E. unfold AddMember. do 4 wstep. rewrite Hp.
      rewrite (proj2 (Z.eqb_neq _ _) Hid). cbn [negb]. by do 2 wstep. }
    apply wp_run in Hwp as ([] & s' & Er & ->). exists g, w. done.
Qed.

Lemma created_accounts newId p name loc w : account_set (created newId p name loc w) = {[ p_accountId p ]}.
Proof.
  apply set_eq. intros a. rewrite elem_of_singleton, elem_of_account_set.
  set (M := new_member (w_time w) newId p GR_GUILDMASTER).
  change (m_members (created newId p name loc w)) with (<[p_GUID p := M]> (∅ : gmap Z Member)). split.
  - intros (k & m & Hm & <-). destruct (decide (k = p_GUID p)) as [->|Hne].
    + rewrite lookup_insert_eq in Hm. by injection Hm as <-.
    + by rewrite lookup_insert_ne, lookup_empty in Hm by done.
  - intros ->. exists (p_GUID p), M. by rewrite lookup_insert_eq.
Qed.

(** Creating a guild, with a name that is free and by an online player who
    is in none: the guild has its creator as its only member and recorded
    leader at rank 0, five ranks, empty logs but for the creator's joining, and
    satisfies the invariant; with a name that is taken, nothing happens. *)
Theorem creation leader p loc newId name w :
  players_ok w -> FindPlayer leader w = Some p -> p_GuildId p = 0 ->
  (exists g' w', Create GetTrinityString QueryCharData false newId leader loc name (Guild_new, w) = Some (true, (g', w'))
    /\ Inv (g', w')
    /\ m_members g' = {[ leader := new_member (w_time w) newId p GR_GUILDMASTER ]}
    /\ m_leaderGuid g' = leader /\ m_name g' = name /\ m_bankTabs g' = []
    /\ m_ranks g' = default_ranks newId loc /\ m_accountsNumber g' = 1)
  /\ Create GetTrinityString QueryCharData true newId leader loc name (Guild_new, w) = Some (false, (Guild_new, w)).
Proof.
  intros Hw Hp Hid. split; [|done]. destruct (player_key w leader p Hw Hp) as (E & _ & El).
  assert (wp (Create GetTrinityString QueryCharData false newId leader loc name) (fun b s =>
    b = true /\ s.1 = created newId p name loc w /\ steady w s.2) (Guild_new, w)) as Hwp.
  { apply (wp_Create leader p); [done..|]. intros es. split; [done|]. split; [done|].
    etransitivity; [apply steady_join|apply steady_emits]. }
  apply wp_run in Hwp as (b & [g' w'] & Er & -> & E1 & Hst). cbn in E1, Hst. subst g'.
  exists (created newId p name loc w), w'. split; [exact Er|].
  pose proof (Inv_world _ _ _ Hst (Inv_created leader p newId loc name w Hw Hp)) as HI.
  split; [done|]. unfold created. rewrite E. split; [done|]. split; [exact E|]. do 3 (split; [done|]).
  pose proof (inv_accounts _ HI) as Hac. unfold accounts_right in Hac. cbn [fst] in Hac.
  rewrite created_accounts, size_singleton in Hac. unfold created in Hac. by rewrite E in Hac.
Qed.

(** ** Disbanding *)
Definition gone (k : Z) (w : World) : Prop := guildless k w /\ Execute (delete_stmt k) ∈ w_trace w.

Lemma players_ok_round j w : players_ok (drop_round j w) -> players_ok w.
Proof.
  intros Hw. apply (players_ok_steady (drop_round j w)); [|done].
  destruct (steady_round j w) as [Et E]. split; [done|]. intros k. by rewrite E.
Qed.

Lemma gone_round k w : players_ok (drop_round k w) -> gone k (drop_round k w).
Proof.
  intros Hw%players_ok_round. split; [by apply guildless_forget|]. cbn. apply elem_of_app. right. by left.
Qed.

Lemma gone_stable j k w : players_ok (drop_round j w) -> gone k w -> gone k (drop_round j w).
Proof.
  intros Hw%players_ok_round [Hg Ht]. split.
  - intros p Hp. unfold FindPlayer, drop_round in Hp. cbn [emits m_PlayerMap] in Hp. rewrite forget_players in Hp.
    unfold FindPlayer in Hp. destruct (m_PlayerMap w !! j) as [q|] eqn:Hq; [|by apply Hg].
    destruct (Hw j q Hq) as (Eq & _). rewrite Eq in Hp. destruct (decide (k = j)) as [->|Hne].
    + rewrite !lookup_alter_eq, Hq in Hp. by injection Hp as <-.
    + rewrite !lookup_alter_ne in Hp by done. by apply Hg.
  - cbn. apply elem_of_app. left.
    assert (w_trace (forget_guild j (FindPlayer j w) w) = w_trace w) as ->; [|done].
    unfold forget_guild, SetInGuild, UpdateGlobalPlayerGuild. by repeat case_match.
Qed.

(** Disbanding ends, however many members there are: all are out, each
    one's row is deleted and each one online is in no guild; then the guild's
    own rows (ranks, tabs, items, rights and logs) are deleted in one
    transaction and the manager forgets the guild. *)
Theorem disband_complete g w :
  guild_ok g -> players_ok w ->
  exists w' w0, Disband (g, w) = Some (tt, (disbanded g, w'))
    /\ w' = emits [Commit (disband_stmts (m_id g)); RemoveGuild (m_id g)] w0
    /\ forall k, is_Some (m_members g !! k) -> gone k w0.
Proof.
  intros Hg Hw.
  assert (wp Disband (fun _ s' => s'.1 = disbanded g /\ exists w0,
    s'.2 = emits [Commit (disband_stmts (m_id g)); RemoveGuild (m_id g)] w0
    /\ forall k, is_Some (m_members g !! k) -> gone k w0) (g, w)) as Hwp.
  { apply (wp_Disband_each (fun k w => players_ok w -> gone k w)).
    - intros k w1. apply gone_round.
    - intros j k w1 Hk Hj. apply gone_stable; [done|]. apply Hk. by apply players_ok_round in Hj.
    - done.
    - intros w' Hst HP. split; [done|]. exists w'. split; [done|]. intros k Hk. apply HP; [done|].
      by apply (players_ok_steady w). }
  apply wp_run in Hwp as ([] & [g' w'] & E & E1 & w0 & E2 & HP). cbn in *. subst g'. eauto.
Qed.

(** ** Chat *)

(** A member who hears: online, with the right to listen, not ignoring the
    sender. *)
Definition hears (officer : bool) (sender : Player) (g : Guild) (w : World) (m : Member) (p : Player) : Prop :=
  FindPlayer (gm_guid m) w = Some p
  /\ _HasRankRight (p_GUID p) (if officer then GR_RIGHT_OFFCHATLISTEN else GR_RIGHT_GCHATLISTEN) g = true
  /\ HasIgnore (p_GUIDLow sender) (GetSocial p w) = false.

(** What a guild or officer message does is send it: to a connected player
    exactly if the sender has the right to speak and that player is one of the
    members who hear; and it is the chat packet of the sender. *)
Theorem guild_chat_audience sender officer msg language g w :
  exists es, BroadcastToGuild (Some sender) officer msg language g w = emits es w
  /\ forall k d, Send k d ∈ es <->
       _HasRankRight (p_GUID sender) (if officer then GR_RIGHT_OFFCHATSPEAK else GR_RIGHT_GCHATSPEAK) g = true
       /\ d = guild_chat_packet sender officer language msg
       /\ exists j m p, m_members g !! j = Some m /\ hears officer sender g w m p
                        /\ p_connected p = true /\ p_GUID p = k.
Proof.
  unfold BroadcastToGuild. destruct (_HasRankRight (p_GUID sender) _ g).
  2: { exists []. rewrite emits_nil. split; [done|]. intros k d. split; [by intros ?%not_elem_of_nil|by intros [? _]]. }
  set (data := guild_chat_packet sender officer language msg). cbv zeta.
  set (to := fun (w : World) (e : Z * Member) =>
    match FindPlayer (gm_guid e.2) w with
    | Some p => if _HasRankRight (p_GUID p) (if officer then GR_RIGHT_OFFCHATLISTEN else GR_RIGHT_GCHATLISTEN) g
                   && negb (HasIgnore (p_GUIDLow sender) (GetSocial p w)) then sent p data else []
    | None => []
    end).
  exists (concat (to w <$> members_in_order g)). split.
  - apply (foldl_emits _ to); [|done]. intros w' [k m]. unfold to. cbn [snd].
    destruct (FindPlayer (gm_guid m) w'); [|by rewrite emits_nil]. case_if; [apply SendPacket_emits|by rewrite emits_nil].
  - intros k d. rewrite list_elem_of_In, in_concat. setoid_rewrite <- list_elem_of_In. split.
    + intros (es & ([j m] & -> & Hin)%list_elem_of_fmap & Hd). apply elem_of_members_in_order in Hin.
      unfold to in Hd. cbn [snd] in Hd. destruct (FindPlayer (gm_guid m) w) as [p|] eqn:Hp; [|by apply not_elem_of_nil in Hd].
      destruct (_ && _) eqn:Hb; [|by apply not_elem_of_nil in Hd]. apply andb_true_iff in Hb as [Hr Hi%negb_true_iff].
      unfold sent in Hd. destruct (p_connected p) eqn:Hc; [|by apply not_elem_of_nil in Hd].
      apply list_elem_of_singleton in Hd as [= -> ->]. split; [done|]. split; [done|]. by exists j, m, p.
    + intros (_ & -> & j & m & p & Hm & (Hp & Hr & Hi) & Hc & <-). exists (to w (j, m)). split.
      * apply list_elem_of_fmap. exists (j, m). split; [done|]. by apply elem_of_members_in_order.
      * unfold to. cbn [snd]. rewrite Hp, Hr, Hi. unfold sent. rewrite Hc. by apply list_elem_of_singleton.
Qed.
End Reachability.
