(* ===== verification/GuildLedger.v ===== *)
(** * Guild: the ledgers

    The event log of a guild as it stands in memory and in the table
    [guild_eventlog], and the accounts of the guild bank: the money and the
    members' daily withdrawals. *)
From Stdlib Require Import Ascii String ZArith Lia.
From stdpp Require Import base gmap sets list strings sorting.
From S2P Require Import Prelude ByteBuffer Utf8 World Guild GuildOps GuildLogic GuildFacts.

Open Scope Z_scope.

(** ** The table [guild_eventlog]: the rows with the guild each belongs to *)
Definition event_stmt (t : list (Z * EventRow)) (s : Stmt) : list (Z * EventRow) :=
  match st_id s, st_args s with
  | CHAR_DEL_GUILD_EVENTLOG, [QU32 g; QU32 n] =>
      filter (fun e => ~ (e.1 = g /\ f_LogGuid e.2 = n)) t
  | CHAR_INS_GUILD_EVENTLOG, [QU32 g; QU32 n; QU8 ty; QU32 p1; QU32 p2; QU8 r; QU64 time] =>
      t ++ [(g, mkEventRow n ty p1 p2 r time)]
  | CHAR_DEL_GUILD_EVENTLOGS, [QU32 g] => filter (fun e => e.1 <> g) t
  | _, _ => t
  end.

Definition event_effect (t : list (Z * EventRow)) (e : Effect) : list (Z * EventRow) :=
  match e with
  | Execute s => event_stmt t s
  | Commit l => foldl event_stmt t l
  | _ => t
  end.

(** The table after the effects of a world. *)
Definition event_table (w : World) : list (Z * EventRow) := foldl event_effect [] (w_trace w).
Definition guild_rows (id : Z) (t : list (Z * EventRow)) : list EventRow :=
  (filter (fun e => e.1 = id) t).*2.

(** The row of an entry. *)
Definition row_of (e : LogEntry) : EventRow :=
  match e with
  | EventLogEntry _ n t ty p1 p2 r => mkEventRow n (u8 ty) p1 p2 r t
  | BankEventLogEntry _ n t ty _ p _ _ _ => mkEventRow n (u8 ty) p 0 0 t
  end.

Definition entry_of (id : Z) (f : EventRow) : LogEntry :=
  EventLogEntry id (f_LogGuid f) (f_TimeStamp f) (f_EventType f) (f_PlayerGuid1 f) (f_PlayerGuid2 f)
    (f_NewRank f).

(** [ORDER BY TimeStamp DESC, LogGuid DESC], the order [LoadGuilds] asks for. *)
Definition order_by (a b : EventRow) : Prop :=
  f_TimeStamp b < f_TimeStamp a \/ (f_TimeStamp b = f_TimeStamp a /\ f_LogGuid b <= f_LogGuid a).

(** ** The ring *)
(** The entry at position [i] of a log of [len] entries, the last numbered [next]. *)
Definition ring_guid (next : Z) (len i : nat) : Z :=
  (next + 1 + GUILD_EVENTLOG_MAX_RECORDS - Z.of_nat len + Z.of_nat i) mod GUILD_EVENTLOG_MAX_RECORDS.

Record ring (id : Z) (h : LogHolder) : Prop := mkRing {
  ring_max : lh_maxRecords h = GUILD_EVENTLOG_MAX_RECORDS;
  ring_len : Z.of_nat (length (lh_log h)) <= GUILD_EVENTLOG_MAX_RECORDS;
  ring_next : if decide (lh_log h = []) then lh_nextGUID h = GUILD_EVENT_LOG_GUID_UNDEFINED
              else 0 <= lh_nextGUID h < GUILD_EVENTLOG_MAX_RECORDS;
  ring_entry : forall i e, lh_log h !! i = Some e ->
    (exists t ty p1 p2 r, e = EventLogEntry id (entry_guid e) t ty p1 p2 r)
    /\ entry_guid e = ring_guid (lh_nextGUID h) (length (lh_log h)) i
}.

Lemma ring_log_ok id h : ring id h -> log_ok GUILD_EVENTLOG_MAX_RECORDS h.
Proof.
  intros [Hm Hl Hn _]. split; [done|]. split; [done|].
  destruct (decide _); [rewrite Hn; done|]. unfold GUILD_EVENTLOG_MAX_RECORDS in Hn. lia.
Qed.

Lemma ring_new id : ring id (LogHolder_new id GUILD_EVENTLOG_MAX_RECORDS).
Proof. split; [done|done|done|]. intros i e Hi. by destruct i. Qed.

Lemma mod_inj m a b : 0 < m -> a mod m = b mod m -> Z.abs (a - b) < m -> a = b.
Proof.
  intros Hm E Hab. assert ((a - b) mod m = 0) as H0 by (rewrite Zminus_mod, E, Z.sub_diag; apply Z.mod_0_l; lia).
  apply Z.mod_divide in H0; [|lia]. destruct H0 as [k Hk].
  assert (k = 0) by (destruct (Z.abs_spec (a - b)) as [[? Ha]|[? Ha]]; rewrite Ha in Hab; nia). nia.
Qed.

Lemma ring_guid_inj next len i j :
  (i < len)%nat -> (j < len)%nat -> Z.of_nat len <= GUILD_EVENTLOG_MAX_RECORDS ->
  ring_guid next len i = ring_guid next len j -> i = j.
Proof. unfold ring_guid, GUILD_EVENTLOG_MAX_RECORDS. intros Hi Hj Hl E%mod_inj; lia. Qed.

(** The number the next entry gets. *)
Definition ring_succ (h : LogHolder) : Z :=
  if lh_nextGUID h =? GUILD_EVENT_LOG_GUID_UNDEFINED then 0 else u32 (lh_nextGUID h + 1) mod GUILD_EVENTLOG_MAX_RECORDS.

Lemma ring_succ_guid id h :
  ring id h -> lh_log h <> [] -> ring_succ h = (lh_nextGUID h + 1) mod GUILD_EVENTLOG_MAX_RECORDS.
Proof.
  intros [_ _ Hn _] Hl. rewrite decide_False in Hn by done. unfold ring_succ, GUILD_EVENTLOG_MAX_RECORDS, GUILD_EVENT_LOG_GUID_UNDEFINED in *.
  replace (_ =? _) with false by (symmetry; apply Z.eqb_neq; lia). by rewrite wrap_small by lia.
Qed.

(** A number of the log's is not the next one, unless the log is full and the
    number is the oldest entry's. *)
Lemma ring_fresh id h i e :
  ring id h -> lh_log h !! i = Some e ->
  (entry_guid e = ring_succ h <-> i = 0%nat /\ Z.of_nat (length (lh_log h)) = GUILD_EVENTLOG_MAX_RECORDS).
Proof.
  intros Hr Hi. destruct Hr as [Hm Hl Hn He] eqn:Hr'. pose proof Hi as Hlt%lookup_lt_Some.
  assert (lh_log h <> []) as Hne by (intros E; rewrite E in Hlt; cbn in Hlt; lia).
  rewrite (ring_succ_guid id h Hr Hne). destruct (He i e Hi) as [_ ->]. unfold ring_guid, GUILD_EVENTLOG_MAX_RECORDS in *. split.
  - intros E. destruct (decide (Z.of_nat (length (lh_log h)) = 100)) as [E1|].
    + rewrite E1 in E. apply mod_inj in E; lia.
    + apply mod_inj in E; lia.
  - intros [-> ->]. f_equal. lia.
Qed.

Lemma list_filter_true {A} (P : A -> Prop) `{forall x, Decision (P x)} (l : list A) :
  (forall i x, l !! i = Some x -> P x) -> filter P l = l.
Proof.
  induction l as [|x l IH]; intros Hl; [done|]. rewrite filter_cons_True by (by apply (Hl 0%nat)).
  f_equal. apply IH. intros i. apply (Hl (S i)).
Qed.

(** What is left of the log once the next number is cleared is what
    [AddEvent] keeps. *)
Lemma ring_clear id h :
  ring id h ->
  filter (fun e => entry_guid e <> ring_succ h) (lh_log h)
  = if GUILD_EVENTLOG_MAX_RECORDS <=? Z.of_nat (length (lh_log h)) then tail (lh_log h) else lh_log h.
Proof.
  intros Hr. pose proof (fun i e => ring_fresh id h i e Hr) as Hf. pose proof (ring_len id h Hr) as Hl.
  case_if; bool_props.
  - destruct (lh_log h) as [|e l]; [done|]. rewrite filter_cons_False.
    + apply list_filter_true. intros i x Hi E%(Hf (S i)); [lia|done].
    + intros Hne. apply Hne, (Hf 0%nat); [done|]. split; [done|]. lia.
  - apply list_filter_true. intros i x Hi E%(Hf i); [lia|done].
Qed.

(** ** One event *)
Definition ring_add (id time type p1 p2 r : Z) (h : LogHolder) : LogHolder :=
  mkLogHolder (push_log GUILD_EVENTLOG_MAX_RECORDS (EventLogEntry id (ring_succ h) time type p1 p2 r) (lh_log h))
    (lh_guildId h) GUILD_EVENTLOG_MAX_RECORDS (ring_succ h).

Lemma ring_succ_range h : 0 <= ring_succ h < GUILD_EVENTLOG_MAX_RECORDS.
Proof. unfold ring_succ. case_if; [done|]. by apply Z.mod_pos_bound. Qed.

Lemma ring_guid_succ next len i :
  ring_guid ((next + 1) mod GUILD_EVENTLOG_MAX_RECORDS) len i
  = (next + 2 + GUILD_EVENTLOG_MAX_RECORDS - Z.of_nat len + Z.of_nat i) mod GUILD_EVENTLOG_MAX_RECORDS.
Proof.
  unfold ring_guid. transitivity (((next + 1) mod GUILD_EVENTLOG_MAX_RECORDS
    + (1 + GUILD_EVENTLOG_MAX_RECORDS - Z.of_nat len + Z.of_nat i)) mod GUILD_EVENTLOG_MAX_RECORDS).
  - f_equal. generalize ((next + 1) mod GUILD_EVENTLOG_MAX_RECORDS). lia.
  - rewrite Z.add_mod_idemp_l by done. f_equal. lia.
Qed.

Lemma ring_add_ok id time type p1 p2 r h : ring id h -> ring id (ring_add id time type p1 p2 r h).
Proof.
  intros Hr. pose proof (ring_len id h Hr) as Hl. split; cbn [ring_add lh_maxRecords lh_log lh_nextGUID].
  - done.
  - by apply push_log_length.
  - rewrite decide_False; [apply ring_succ_range|]. unfold push_log. by intros [_ ?]%app_nil.
  - intros i e Hi. unfold push_log in *. set (new := EventLogEntry _ _ _ _ _ _ _) in *.
    rewrite length_app. cbn [length]. apply lookup_app_Some in Hi as [Hi|[Hi E]].
    + assert (lh_log h <> []) as Hne by (intros E; rewrite E in Hi; by destruct (_ <=? _), i).
      rewrite (ring_succ_guid id h Hr Hne), ring_guid_succ. revert Hi.
      destruct (GUILD_EVENTLOG_MAX_RECORDS <=? _) eqn:Hfull; bool_props; [rewrite lookup_tail, length_tl|];
        intros Hi; pose proof Hi as Hlt%lookup_lt_Some; destruct (ring_entry id h Hr _ _ Hi) as [Hsh Eg];
        (split; [done|]); rewrite Eg; unfold ring_guid, GUILD_EVENTLOG_MAX_RECORDS in *; f_equal; lia.
    + apply list_lookup_singleton_Some in E as [E <-]. split; [cbn; unfold new; eauto 10|].
      cbn [new entry_guid]. assert (i = length (if GUILD_EVENTLOG_MAX_RECORDS <=? Z.of_nat (length (lh_log h)) then tail (lh_log h) else lh_log h)) as -> by lia.
      unfold ring_guid. rewrite <- (Z.mod_small _ _ (ring_succ_range h)) at 1.
      replace (ring_succ h + 1 + _ - _ + _) with (ring_succ h + 1 * GUILD_EVENTLOG_MAX_RECORDS) by lia.
      by rewrite Z.mod_add.
Qed.

(** ** The table keeps up *)
Lemma guild_rows_del id n t :
  guild_rows id (event_stmt t (mkStmt CHAR_DEL_GUILD_EVENTLOG [QU32 id; QU32 n]))
  = filter (fun f => f_LogGuid f <> n) (guild_rows id t).
Proof.
  unfold guild_rows. cbn [event_stmt st_id st_args]. induction t as [|[g f] t IH]; [done|].
  rewrite !filter_cons. cbn [fst snd]. destruct (decide (g = id)) as [->|Hg]; repeat case_decide; try tauto;
    rewrite ?filter_cons, ?fmap_cons; cbn [fst snd]; rewrite ?filter_cons; repeat case_decide; try tauto;
    rewrite ?fmap_cons; by rewrite IH.
Qed.

Lemma guild_rows_ins id f t : guild_rows id (t ++ [(id, f)]) = guild_rows id t ++ [f].
Proof. unfold guild_rows. rewrite filter_app, fmap_app. cbn. by rewrite decide_True. Qed.

Lemma filter_fmap_list {A B} (f : A -> B) (P : B -> Prop) `{forall x, Decision (P x)} (l : list A) :
  filter P (f <$> l) = f <$> filter (fun x => P (f x)) l.
Proof.
  induction l as [|x l IH]; [done|]. rewrite fmap_cons, !filter_cons. case_decide; [|done]. by rewrite IH, fmap_cons.
Qed.

Lemma row_of_guid e : f_LogGuid (row_of e) = entry_guid e.
Proof. by destruct e. Qed.

(** Every row of the guild is an entry of the log, and the other way round. *)
Definition tabled (id : Z) (t : list (Z * EventRow)) (h : LogHolder) : Prop :=
  guild_rows id t ≡ₚ row_of <$> lh_log h.

Lemma tabled_add id time type p1 p2 r h t :
  ring id h -> tabled id t h ->
  tabled id (foldl event_stmt t (LogEntry_SaveToDB (EventLogEntry id (ring_succ h) time type p1 p2 r)))
    (ring_add id time type p1 p2 r h).
Proof.
  intros Hr Ht. unfold tabled in *.
  change (foldl event_stmt t _) with (event_stmt t (mkStmt CHAR_DEL_GUILD_EVENTLOG [QU32 id; QU32 (ring_succ h)])
    ++ [(id, row_of (EventLogEntry id (ring_succ h) time type p1 p2 r))]).
  rewrite guild_rows_ins, guild_rows_del. cbn [ring_add lh_log]. unfold push_log. rewrite fmap_app.
  apply Permutation_app_tail. rewrite Ht, filter_fmap_list, <- (ring_clear id h Hr).
  erewrite list_filter_iff; [done|]. intros e. by rewrite row_of_guid.
Qed.

(** ** A history of events *)
Record Event := mkEvent { ev_time : Z; ev_type : Z; ev_player1 : Z; ev_player2 : Z; ev_rank : Z }.

Definition set_time (t : Z) (w : World) : World :=
  mkWorld (m_PlayerMap w) (m_socialMap w) (_globalPlayerDataStore w) t (w_trace w).
Definition log_events (l : list Event) : G unit :=
  for_each l (fun e => modw (set_time (ev_time e)) ;;
                       _LogEvent (ev_type e) (ev_player1 e) (ev_player2 e) (ev_rank e)).

(** The specification: the events, numbered around the ring, the newest last,
    as many as fit. *)
Definition numbered (id : Z) (i : nat) (e : Event) : LogEntry :=
  EventLogEntry id (Z.of_nat i mod GUILD_EVENTLOG_MAX_RECORDS) (ev_time e) (ev_type e) (ev_player1 e)
    (ev_player2 e) (u8 (ev_rank e)).
Definition newest (l : list LogEntry) : list LogEntry :=
  drop (length l - Z.to_nat GUILD_EVENTLOG_MAX_RECORDS) l.

Lemma tail_drop {A} (l : list A) k : tail (drop k l) = drop (S k) l.
Proof. revert k. induction l as [|x l IH]; intros [|k]; [done..|apply IH]. Qed.

Lemma newest_snoc l e : newest (l ++ [e]) = push_log GUILD_EVENTLOG_MAX_RECORDS e (newest l).
Proof.
  unfold newest, push_log, GUILD_EVENTLOG_MAX_RECORDS. rewrite length_app, length_drop. cbn [length].
  rewrite drop_app_le by lia. f_equal. case_if; bool_props.
  - rewrite tail_drop. f_equal. lia.
  - f_equal. lia.
Qed.

(** What the history so far has made of the guild and of the table. *)
Record kept (id : Z) (past : list Event) (s : GState) : Prop := mkKept {
  kept_id : m_id s.1 = id;
  kept_log : exists h, m_eventLog s.1 = Some h /\ ring id h /\ tabled id (event_table s.2) h
               /\ lh_log h = newest (imap (numbered id) past)
               /\ (past <> [] -> lh_nextGUID h = (Z.of_nat (length past) - 1) mod GUILD_EVENTLOG_MAX_RECORDS)
}.

Lemma kept_nonempty id past h :
  lh_log h = newest (imap (numbered id) past) -> past <> [] -> lh_log h <> [].
Proof.
  intros -> Hp E. apply (f_equal length) in E. unfold newest, GUILD_EVENTLOG_MAX_RECORDS in E.
  rewrite length_drop, length_imap in E. destruct past; cbn in *; [done|lia].
Qed.

Lemma kept_succ id past h :
  ring id h -> lh_log h = newest (imap (numbered id) past) ->
  (past <> [] -> lh_nextGUID h = (Z.of_nat (length past) - 1) mod GUILD_EVENTLOG_MAX_RECORDS) ->
  ring_succ h = Z.of_nat (length past) mod GUILD_EVENTLOG_MAX_RECORDS.
Proof.
  intros Hr Hl Hn. destruct (decide (past = [])) as [->|Hp].
  - unfold ring_succ. pose proof (ring_next id h Hr) as E. rewrite Hl in E. rewrite decide_True in E by done. by rewrite E.
  - rewrite (ring_succ_guid id h Hr) by (by apply (kept_nonempty id past)). rewrite (Hn Hp), Z.add_mod_idemp_l by done.
    f_equal. lia.
Qed.

Lemma kept_event id past e g w :
  kept id past (g, w) ->
  wp (modw (set_time (ev_time e)) ;; _LogEvent (ev_type e) (ev_player1 e) (ev_player2 e) (ev_rank e))
     (fun _ => kept id (past ++ [e])) (g, w).
Proof.
  intros [Hid (h & Hh & Hr & Ht & Hl & Hn)]. cbn in *. apply wp_bind, wp_modw.
  apply (wp_LogEvent _ _ _ _ h); [done|by apply (ring_log_ok id)|]. split; [done|].
  exists (ring_add id (ev_time e) (ev_type e) (ev_player1 e) (ev_player2 e) (u8 (ev_rank e)) h).
  pose proof (kept_succ id past h Hr Hl Hn) as Es. split; [|split; [|split; [|split]]].
  - unfold logged, next_entry, ring_add, ring_succ. cbn. by rewrite Hid.
  - by apply ring_add_ok.
  - unfold event_table. cbn [emits w_trace set_time snd]. rewrite foldl_app. cbn [foldl event_effect].
    unfold next_entry. rewrite Hid. by apply (tabled_add id).
  - cbn [ring_add lh_log]. rewrite Hl, imap_app. cbn [imap]. rewrite newest_snoc. f_equal. unfold numbered. cbn. by rewrite ?Nat.add_0_r, Es.
  - intros _. cbn [ring_add lh_nextGUID]. rewrite Es, length_app. cbn [length]. f_equal. lia.
Qed.

(** The event log in memory and in the table refine one ring: whatever is
    logged from the creation of the log on, the log holds the last hundred
    events in their order, numbered around the ring, and the rows of the guild
    in [guild_eventlog], after all the statements committed, are exactly these
    entries. *)
Theorem log_ring l g w :
  m_eventLog g = Some (LogHolder_new (m_id g) GUILD_EVENTLOG_MAX_RECORDS) ->
  guild_rows (m_id g) (event_table w) = [] ->
  exists g' w' h, log_events l (g, w) = Some (tt, (g', w'))
    /\ m_eventLog g' = Some h
    /\ lh_log h = newest (imap (numbered (m_id g)) l)
    /\ guild_rows (m_id g) (event_table w') ≡ₚ row_of <$> lh_log h.
Proof.
  intros Hh Ht. assert (forall past s, kept (m_id g) past s ->
    wp (log_events l) (fun _ => kept (m_id g) (past ++ l)) s) as Hall.
  { induction l as [|e l IH]; intros past [g1 w1] Hk; cbn [log_events for_each].
    - apply wp_ret. by rewrite app_nil_r.
    - apply wp_bind. eapply wp_mono; [by apply kept_event|]. intros [] s Hs. cbn in Hs |- *.
      eapply wp_mono; [by apply IH|]. intros [] s'. cbn. by rewrite <- app_assoc. }
  assert (kept (m_id g) [] (g, w)) as Hk.
  { split; [done|]. exists (LogHolder_new (m_id g) GUILD_EVENTLOG_MAX_RECORDS).
    split; [done|]. split; [apply ring_new|]. split; [unfold tabled; cbn; by rewrite Ht|]. done. }
  destruct (proj1 (wp_run _ _ _) (Hall [] _ Hk)) as ([] & [g' w'] & E & [_ (h & E1 & _ & E2 & E3 & _)]).
  by exists g', w', h.
Qed.

(** ** Loading the log back *)

(** An entry whose fields fit their columns. *)
Definition entry_fits (e : LogEntry) : Prop :=
  match e with
  | EventLogEntry _ n t ty p1 p2 r =>
      0 <= t < 2 ^ 32 /\ 0 <= ty < 2 ^ 8 /\ 0 <= p1 < 2 ^ 32 /\ 0 <= p2 < 2 ^ 32 /\ 0 <= r < 2 ^ 8
  | BankEventLogEntry _ _ _ _ _ _ _ _ _ => False
  end.

(** Later entries of the log are newer: the clock moved on, or the number grew
    within a second. *)
Definition older (a b : LogEntry) : Prop := order_by (row_of b) (row_of a).

Definition load_events (rows : list EventRow) : G unit :=
  for_each rows (fun f => LoadEventLogFromDB f ;; mret tt).

Lemma entry_of_row id next i l e :
  (exists t ty p1 p2 r, e = EventLogEntry id (entry_guid e) t ty p1 p2 r) ->
  entry_guid e = ring_guid next l i -> entry_fits e ->
  EventLogEntry id (u32 (f_LogGuid (row_of e))) (u32 (f_TimeStamp (row_of e))) (u8 (f_EventType (row_of e)))
    (u32 (f_PlayerGuid1 (row_of e))) (u32 (f_PlayerGuid2 (row_of e))) (u8 (f_NewRank (row_of e))) = e.
Proof.
  intros (t & ty & p1 & p2 & r & E) En Hf.
  assert (0 <= entry_guid e < GUILD_EVENTLOG_MAX_RECORDS) as Hn by (rewrite En; by apply Z.mod_pos_bound).
  rewrite E in *. cbn in *. destruct Hf as (Ht & Hty & H1 & H2 & Hr). unfold GUILD_EVENTLOG_MAX_RECORDS in Hn.
  rewrite !wrap_small by (rewrite ?wrap_small; lia). by f_equal.
Qed.

(** Loading rows, newest first, puts their entries before what is there. *)
Lemma wp_load_events (l : list LogEntry) h g w Q :
  m_eventLog g = Some h -> lh_maxRecords h = GUILD_EVENTLOG_MAX_RECORDS ->
  Z.of_nat (length l + length (lh_log h)) <= GUILD_EVENTLOG_MAX_RECORDS ->
  (forall e, e ∈ l ->
     EventLogEntry (m_id g) (u32 (f_LogGuid (row_of e))) (u32 (f_TimeStamp (row_of e))) (u8 (f_EventType (row_of e)))
       (u32 (f_PlayerGuid1 (row_of e))) (u32 (f_PlayerGuid2 (row_of e))) (u8 (f_NewRank (row_of e))) = e) ->
  Q tt (set_g_logs (Some (foldl (fun h e => LoadEvent e h) h l)) (m_bankEventLog g) g, w) ->
  wp (load_events (row_of <$> l)) Q (g, w).
Proof.
  revert h g. induction l as [|e l IH]; intros h g Hg Hm Hl He HQ.
  - apply wp_ret. cbn in HQ. rewrite <- Hg in HQ. by destruct g.
  - unfold load_events. rewrite fmap_cons. cbn [for_each]. apply wp_bind, wp_bind, wp_bind, wp_getg, wp_bind, (wp_lift _ h); [done|].
    cbn [length] in Hl. replace (CanInsert h) with true by (symmetry; unfold CanInsert; rewrite Hm; apply Z.ltb_lt; lia).
    apply wp_bind, wp_modg, wp_ret, wp_ret. rewrite He by left.
    apply (IH (LoadEvent e h)); [done|by rewrite <- Hm|cbn; lia| |done]. intros e' Hin. apply He. by right.
Qed.

Lemma foldl_LoadEvent l h :
  foldl (fun h e => LoadEvent e h) h l
  = mkLogHolder (rev l ++ lh_log h) (lh_guildId h) (lh_maxRecords h)
      (foldl (fun n e => if n =? GUILD_EVENT_LOG_GUID_UNDEFINED then entry_guid e else n) (lh_nextGUID h) l).
Proof.
  revert h. induction l as [|e l IH]; intros h; [by destruct h|]. cbn [foldl rev]. rewrite IH. cbn. by rewrite <- app_assoc.
Qed.

Lemma first_guid n l : n <> GUILD_EVENT_LOG_GUID_UNDEFINED ->
  foldl (fun n e => if n =? GUILD_EVENT_LOG_GUID_UNDEFINED then entry_guid e else n) n l = n.
Proof. intros Hn. induction l as [|e l IH]; [done|]. cbn. by rewrite (proj2 (Z.eqb_neq _ _) Hn). Qed.

(** The holder the reversed log of a ring loads into. *)
Lemma reload_ring id h :
  ring id h -> lh_guildId h = id ->
  foldl (fun h e => LoadEvent e h) (LogHolder_new id GUILD_EVENTLOG_MAX_RECORDS) (rev (lh_log h)) = h.
Proof.
  intros Hr Hid. rewrite foldl_LoadEvent, rev_involutive. cbn. rewrite app_nil_r.
  destruct h as [log i max next]. destruct Hr as [Hm Hl Hn He]. cbn in *. subst i max. f_equal.
  destruct log as [|e log _] using rev_ind; [done|].
  rewrite decide_False in Hn by (by intros [_ ?]%app_nil). rewrite rev_unit. cbn.
  destruct (He (length log) e) as [_ E]; [by rewrite lookup_app_r, Nat.sub_diag by lia|].
  assert (entry_guid e = next) as ->.
  { rewrite E. unfold ring_guid. rewrite length_app. cbn [length].
    replace (_ + 1 + _ - _ + _) with (next + 1 * GUILD_EVENTLOG_MAX_RECORDS) by lia.
    rewrite Z.mod_add by done. by apply Z.mod_small. }
  apply first_guid. unfold GUILD_EVENTLOG_MAX_RECORDS, GUILD_EVENT_LOG_GUID_UNDEFINED in *. lia.
Qed.

Lemma StronglySorted_rev {A} (R : A -> A -> Prop) (l : list A) :
  StronglySorted R l -> StronglySorted (fun a b => R b a) (rev l).
Proof.
  induction 1 as [|a l Hl IH Ha]; [constructor|]. cbn. apply StronglySorted_app_2; [|done|repeat constructor].
  intros x y Hx ->%list_elem_of_singleton. rewrite Forall_forall in Ha. apply Ha.
  by rewrite list_elem_of_In, <- in_rev, <- list_elem_of_In in Hx.
Qed.

Lemma rows_unique id h x y :
  ring id h -> x ∈ row_of <$> lh_log h -> y ∈ row_of <$> lh_log h -> order_by x y -> order_by y x -> x = y.
Proof.
  intros Hr (a & -> & [i Hi]%list_elem_of_lookup)%list_elem_of_fmap (b & -> & [j Hj]%list_elem_of_lookup)%list_elem_of_fmap.
  unfold order_by. rewrite !row_of_guid. intros H1 H2. assert (entry_guid a = entry_guid b) as E by lia.
  destruct (ring_entry id h Hr _ _ Hi) as [_ Ea], (ring_entry id h Hr _ _ Hj) as [_ Eb].
  rewrite Ea, Eb in E. apply ring_guid_inj in E; [|by eapply lookup_lt_Some|by eapply lookup_lt_Some|by apply (ring_len id)].
  subst j. by simplify_eq.
Qed.

(** Loading round-trips: if the rows of the guild in the table are the
    entries of a log, and later entries are newer (by time, then by number),
    then the rows in the order the query asks for load into that very log, with
    the counter of numbers where it was. *)
Theorem log_reload id h rows t g w :
  ring id h -> lh_guildId h = id -> Forall entry_fits (lh_log h) -> StronglySorted older (lh_log h) ->
  guild_rows id t ≡ₚ row_of <$> lh_log h ->
  rows ≡ₚ guild_rows id t -> StronglySorted order_by rows ->
  m_id g = id -> m_eventLog g = Some (LogHolder_new id GUILD_EVENTLOG_MAX_RECORDS) ->
  load_events rows (g, w) = Some (tt, (set_g_logs (Some h) (m_bankEventLog g) g, w)).
Proof.
  intros Hr Hid Hfit Hold Ht Hrows Hsort Hgid Hg.
  assert (rows = row_of <$> rev (lh_log h)) as ->.
  { apply (StronglySorted_unique_strong order_by); [|done| |].
    - intros x y Hx Hy. apply (rows_unique id h); [done| |].
      + by rewrite <- Ht, <- Hrows.
      + revert Hy. by rewrite <- (Permutation_rev (lh_log h)).
    - apply (StronglySorted_fmap _ (fun a b => older b a)); [done|]. by apply StronglySorted_rev.
    - rewrite <- (Permutation_rev (lh_log h)). by rewrite Hrows, Ht. }
  assert (wp (load_events (row_of <$> rev (lh_log h)))
    (fun _ s => s = (set_g_logs (Some h) (m_bankEventLog g) g, w)) (g, w)) as Hwp.
  { eapply wp_load_events; [done|done| | |].
    - rewrite length_rev. cbn. rewrite Nat.add_0_r. by apply (ring_len id).
    - intros e He. rewrite list_elem_of_In, <- in_rev, <- list_elem_of_In in He. pose proof He as [i Hi]%list_elem_of_lookup.
      destruct (ring_entry id h Hr _ _ Hi) as [Hs En]. rewrite Hgid.
      apply (entry_of_row id (lh_nextGUID h) i (length (lh_log h))); [done|done|]. rewrite Forall_forall in Hfit. by apply Hfit.
    - by rewrite reload_ring. }
  apply wp_run in Hwp as ([] & s & -> & ->). done.
Qed.

(** Two events of one second across the wrap of the numbers load in the wrong
    order, and the counter with them: the next event gets the number 0 again. *)
Lemma reload_same_second :
  let a := EventLogEntry 1 99 5 GUILD_EVENT_LOG_JOIN_GUILD 2 0 0 in
  let b := EventLogEntry 1 0 5 GUILD_EVENT_LOG_JOIN_GUILD 3 0 0 in
  let g := set_g_logs (Some (LogHolder_new 1 GUILD_EVENTLOG_MAX_RECORDS)) []
             (mkGuild 1 EmptyString 1 EmptyString EmptyString 0 EmblemInfo_new 0 0 [] ∅ [] None []) in
  StronglySorted order_by (row_of <$> [a; b])
  /\ forall w, load_events (row_of <$> [a; b]) (g, w)
     = Some (tt, (set_g_logs (Some (mkLogHolder [b; a] 1 GUILD_EVENTLOG_MAX_RECORDS 99)) [] g, w)).
Proof.
  split; [|done]. cbn. constructor; [constructor; constructor|]. constructor; [|constructor]. right. cbn. lia.
Qed.

(** ** The money of the bank *)
Fixpoint run_money (ops : list (bool * Z)) (trans : list Stmt) : G (list bool * list Stmt) :=
  match ops with
  | [] => mret ([], trans)
  | (add, amount) :: ops =>
      '(b, trans) ← _ModifyBankMoney trans amount add;
      '(bs, trans) ← run_money ops trans;
      mret (b :: bs, trans)
  end.

(** The specification: the account a bank keeps, with the balances it writes. *)
Fixpoint account (balance : Z) (ops : list (bool * Z)) : list bool * list Z * Z :=
  match ops with
  | [] => ([], [], balance)
  | (add, amount) :: ops =>
      if negb add && (balance <? amount) then
        let '(bs, l, b) := account balance ops in (false :: bs, l, b)
      else
        let balance := if add then balance + amount else balance - amount in
        let '(bs, l, b) := account balance ops in (true :: bs, balance :: l, b)
  end.

Definition deposits (ops : list (bool * Z)) : Z :=
  foldr Z.add 0 ((fun op : bool * Z => if op.1 then op.2 else 0) <$> ops).

Definition money_stmt (id balance : Z) : Stmt := mkStmt CHAR_UPD_GUILD_BANK_MONEY [QU64 balance; QU32 id].

Lemma deposits_nonneg ops : Forall (fun op => 0 <= op.2) ops -> 0 <= deposits ops.
Proof. induction 1 as [|[[] a] ops Ha _ IH]; cbn in *; [lia|unfold deposits in *; cbn; lia..]. Qed.

Lemma set_money_twice a b g : set_g_money b (set_g_money a g) = set_g_money b g.
Proof. done. Qed.

(** The bank keeps an account: short of the width of the balance, a sequence
    of deposits and withdrawals answers, writes and leaves what the account
    does; a withdrawal goes through exactly if the money is there, and the
    balance is never negative. *)
Theorem bank_account ops trans g w :
  Forall (fun op : bool * Z => 0 <= op.2) ops -> 0 <= m_bankMoney g -> m_bankMoney g + deposits ops < 2 ^ 64 ->
  let '(answers, balances, balance) := account (m_bankMoney g) ops in
  run_money ops trans (g, w)
  = Some ((answers, trans ++ (money_stmt (m_id g) <$> balances)), (set_g_money balance g, w))
  /\ 0 <= balance <= m_bankMoney g + deposits ops.
Proof.
  revert trans g. induction ops as [|[add a] ops IH]; intros trans g Hops Hb Hw; cbn [account run_money].
  - rewrite fmap_nil, app_nil_r. split; [by destruct g|]. unfold deposits. cbn. lia.
  - apply Forall_cons in Hops as [Ha Hops]. cbn in Ha. pose proof (deposits_nonneg ops Hops) as Hd.
    assert (deposits ((add, a) :: ops) = (if add then a else 0) + deposits ops) as E by done. rewrite E in *.
    assert (forall {A B} (m : G A) (f : A -> G B) a s s', m s = Some (a, s') -> (m ≫= f) s = f a s') as Hbind
      by (intros A B m f x s s' Es; unfold mbind, G_bind; by rewrite Es).
    destruct (negb add && (m_bankMoney g <? a)) eqn:Hno.
    + apply andb_true_iff in Hno as [Hadd%negb_true_iff Hlt]. subst add.
      specialize (IH trans g Hops Hb ltac:(lia)). destruct (account (m_bankMoney g) ops) as [[bs l] b].
      destruct IH as [IH Hr]. rewrite (Hbind _ _ _ _ (false, trans) (g, w) (g, w)).
      * cbn. rewrite (Hbind _ _ _ _ _ _ _ IH). split; [done|lia].
      * unfold _ModifyBankMoney, mbind, G_bind, getg. cbn [fst snd negb andb]. by rewrite Hlt.
    + set (bal := if add then m_bankMoney g + a else m_bankMoney g - a).
      assert (0 <= bal /\ bal + deposits ops < 2 ^ 64 /\ bal + deposits ops <= m_bankMoney g + ((if add then a else 0) + deposits ops)) as (H0 & H1 & H2).
      { unfold bal. destruct add; cbn in Hno; [lia|]. apply Z.ltb_ge in Hno. lia. }
      assert ((if add then u64 (m_bankMoney g + a) else m_bankMoney g - a) = bal) as Hm.
      { unfold bal. destruct add; [|done]. apply wrap_small. unfold bal in *. lia. }
      specialize (IH (trans ++ [money_stmt (m_id g) bal]) (set_g_money bal g) Hops H0 H1).
      cbn [m_bankMoney set_g_money m_id] in IH. destruct (account bal ops) as [[bs l] b]. destruct IH as [IH Hr].
      rewrite (Hbind _ _ _ _ (true, trans ++ [money_stmt (m_id g) bal]) (g, w) (set_g_money bal g, w)).
      * cbn. rewrite (Hbind _ _ _ _ _ _ _ IH). cbn. rewrite <- app_assoc. split; [done|lia].
      * unfold _ModifyBankMoney, mbind, G_bind, getg. cbn [fst snd]. rewrite Hno. cbv zeta. by rewrite Hm.
Qed.

(** ** Daily withdrawals *)

(** A member under a limit: not the master, in a rank that sees the purchased
    tab and may take [limit] items from it a day; [used] are taken. *)
Record limited (key tabId limit used : Z) (m : Member) (g : Guild) : Prop := mkLimited {
  lim_member : m_members g !! key = Some m;
  lim_key : gm_guid m = key /\ 0 <= key < 2 ^ 32;
  lim_rank : gm_rankId m <> GR_GUILDMASTER;
  lim_rights : has_flag (_GetRankBankTabRights (gm_rankId m) tabId g) GUILD_BANK_RIGHT_VIEW_TAB = true;
  lim_limit : _GetRankBankTabSlotsPerDay (gm_rankId m) tabId g = limit;
  lim_width : 0 <= limit < 2 ^ 31;
  lim_tab : 0 <= tabId;
  lim_used : gm_bankWithdraw m !! Z.to_nat tabId = Some used
}.

Lemma limited_remaining key tabId limit used m g :
  limited key tabId limit used m g -> 0 <= used <= limit ->
  _GetMemberRemainingSlots m tabId g = Some (limit - used).
Proof.
  intros [Hm Hk Hr Hv Hl Hw Ht Hu] Hused. unfold _GetMemberRemainingSlots, GetBankWithdrawValue, IsRank.
  rewrite (proj2 (Z.eqb_neq _ _) Hr), Hv, Hl. cbn. rewrite Hu. cbn [option_bind mbind]. rewrite swrap_small by lia.
  case_if; bool_props; f_equal; lia.
Qed.

Fixpoint take_items (n : nat) (key tabId : Z) (trans : list Stmt) : G (list Stmt) :=
  match n with
  | O => mret trans
  | S n => trans ← _UpdateMemberWithdrawSlots trans key tabId; take_items n key tabId trans
  end.

Definition taken (tabId n : Z) (m : Member) : Member :=
  set_m_withdraw (<[Z.to_nat tabId := n]> (gm_bankWithdraw m)) m.

Lemma take_one trans key tabId limit used m g w :
  limited key tabId limit used m g -> 0 <= used <= limit ->
  exists l, length l = (if decide (used < limit) then 1%nat else 0%nat)
    /\ _UpdateMemberWithdrawSlots trans key tabId (g, w)
       = Some (trans ++ l, (put_member key (taken tabId (Z.min limit (used + 1)) m) g, w)).
Proof.
  intros [Hm (Hk & Hkr) Hr Hv Hl Hw Ht Hu] Hused.
  assert (GetMember key g = Some m) as Hg by (unfold GetMember; by rewrite GUID_LOPART_small).
  unfold _UpdateMemberWithdrawSlots, mbind, G_bind, getg. cbn [fst snd]. rewrite Hg.
  unfold GetBankWithdrawValue, IsRank. rewrite (proj2 (Z.eqb_neq _ _) Hr), Hu. cbn [lift]. rewrite Hl.
  destruct (decide (used < limit)) as [Hlt|Hge].
  - rewrite (proj2 (Z.ltb_lt _ _) Hlt). unfold UpdateBankWithdrawValue. rewrite Hu. eexists [_]. split; [done|]. unfold store, modg, mret, G_ret. cbn [lift fst snd].
    rewrite swrap_small, Z.min_r by lia. by rewrite (GUID_LOPART_small key).
  - replace (used <? limit) with false by (symmetry; apply Z.ltb_ge; lia). exists []. split; [done|].
    rewrite app_nil_r, Z.min_l by lia. replace limit with used by lia. cbn. do 3 f_equal.
    unfold taken, put_member. rewrite list_insert_id by done.
    replace (set_m_withdraw (gm_bankWithdraw m) m) with m by (by destruct m). rewrite insert_id by done. by destruct g.
Qed.

Lemma limited_taken key tabId limit used n m g :
  limited key tabId limit used m g ->
  limited key tabId limit n (taken tabId n m) (put_member key (taken tabId n m) g).
Proof.
  intros [Hm Hk Hr Hv Hl Hw Ht Hu]. split; try done; cbn.
  - by apply lookup_insert_eq.
  - apply list_lookup_insert_eq. by eapply lookup_lt_Some.
Qed.

(** The daily limit of items is kept: a member who may take [limit] items
    from a tab a day, and has taken none, has [limit - n] left after [n] taken
    and none once the limit is reached; every one taken within the limit is
    written to the database, none beyond it, and no other tab's account and no
    other member changes. *)
Theorem daily_withdrawals n key tabId limit m g w trans :
  limited key tabId limit 0 m g ->
  exists l m', take_items n key tabId trans (g, w) = Some (trans ++ l, (put_member key m' g, w))
    /\ _GetMemberRemainingSlots m' tabId (put_member key m' g) = Some (Z.max 0 (limit - Z.of_nat n))
    /\ Z.of_nat (length l) = Z.min limit (Z.of_nat n)
    /\ forall i, i <> Z.to_nat tabId -> gm_bankWithdraw m' !! i = gm_bankWithdraw m !! i.
Proof.
  intros Hlim. assert (forall used, 0 <= used <= limit -> forall m g trans, limited key tabId limit used m g ->
    exists l, take_items n key tabId trans (g, w)
       = Some (trans ++ l, (put_member key (taken tabId (Z.min limit (used + Z.of_nat n)) m) g, w))
      /\ Z.of_nat (length l) = Z.min (limit - used) (Z.of_nat n)) as Hall.
  { clear Hlim m g trans. induction n as [|n IH]; intros used Hu m g trans Hlim; cbn [take_items].
    - exists []. rewrite app_nil_r. split; [|cbn; lia]. rewrite Z.add_0_r, Z.min_r by lia.
      destruct Hlim as [Hm _ _ _ _ _ _ Hused]. unfold mret, G_ret, taken, put_member.
      rewrite list_insert_id by done.
      replace (set_m_withdraw (gm_bankWithdraw m) m) with m by (by destruct m). rewrite insert_id by done. by destruct g.
    - destruct (take_one trans key tabId limit used m g w Hlim Hu) as (l & Hl & E).
      destruct (IH (Z.min limit (used + 1)) ltac:(lia) _ _ (trans ++ l) (limited_taken _ _ _ _ (Z.min limit (used + 1)) _ _ Hlim))
        as (l' & E' & Hl').
      exists (l ++ l'). unfold mbind, G_bind. rewrite E, E', <- app_assoc. split.
      + do 2 f_equal. rewrite put_member_twice. unfold taken. cbn [set_m_withdraw gm_bankWithdraw].
        rewrite list_insert_insert_eq. replace (Z.min limit (Z.min limit (used + 1) + Z.of_nat n)) with (Z.min limit (used + Z.of_nat (S n))) by lia.
        done.
      + rewrite length_app, Nat2Z.inj_add, Hl'. destruct (decide (used < limit)); lia. }
  destruct (lim_width _ _ _ _ _ _ Hlim) as [H0 _].
  destruct (Hall 0 ltac:(lia) m g trans Hlim) as (l & E & Hl). rewrite Z.add_0_l in E.
  set (k := Z.min limit (Z.of_nat n)) in *.
  exists l, (taken tabId k m). split; [done|]. split; [|split; [lia|]].
  - rewrite (limited_remaining key tabId limit k); [f_equal; lia| |lia]. by apply limited_taken with 0.
  - intros i Hi. cbn. by apply list_lookup_insert_ne.
Qed.
