(* ===== verification/GuildScene.v ===== *)
(** * Guild: a scenario

    The theorems on guilds at a concrete guild: three players, two of them
    invited by the one who creates it. *)
From Stdlib Require Import Ascii String ZArith Lia.
From stdpp Require Import base gmap sets list strings sorting.
From S2P Require Import Prelude ByteBuffer Utf8 World Guild GuildOps GuildLogic GuildFacts GuildTheorems GuildLedger.

Open Scope Z_scope.

(** * A scenario

    Ann creates a guild; Bob and Cid, whom she invites, join. *)
Definition scene_player (guid : Z) (name : string) : Player :=
  mkPlayer guid guid name 0 guid true ALLIANCE 1 10 1 0 0 [] 0 0 0.
Definition scene_world : World :=
  mkWorld (<[1 := scene_player 1 "Ann"]> (<[2 := scene_player 2 "Bob"]> (<[3 := scene_player 3 "Cid"]> ∅)))
    ∅ ∅ 1000 [].
Definition scene_text (i loc : Z) : string := print_u64 i.
Definition scene_query (guid : Z) : option (string * Z * Z * Z * Z) := None.
Definition scene_config : Config := mkConfig false false false false false false 0 0.
Definition scene_time (t : Z) : tm := mkTm 0 0 1 0 100 0.

Definition after {A} (m : G A) (s : GState) : GState :=
  match m s with Some (_, s') => s' | None => s end.
Definition scene_created : GState :=
  after (Create scene_text scene_query false 7 1 0 "Guild") (Guild_new, scene_world).
Definition scene_requests : list (Z * Request) :=
  [(1, ReqInvite "Bob"); (2, ReqAccept); (1, ReqInvite "Cid"); (3, ReqAccept)].

Fixpoint run_requests (l : list (Z * Request)) (s : GState) : option GState :=
  match l with
  | [] => Some s
  | (session, r) :: l =>
      if bool_decide (m_members s.1 = ∅) then None
      else match FindPlayer session s.2, handle scene_query scene_time session r s with
           | Some _, Some (_, s) => run_requests l s
           | _, _ => None
           end
  end.
Definition scene : GState := default scene_created (run_requests scene_requests scene_created).

Lemma run_requests_reachable l s s' :
  guild_reachable scene_config scene_text scene_query scene_time s ->
  Forall (fun e => well_formed e.2) l -> run_requests l s = Some s' ->
  guild_reachable scene_config scene_text scene_query scene_time s'.
Proof.
  revert s. induction l as [|[session r] l IH]; intros s Hs Hl E; cbn in E; [by simplify_eq|].
  apply Forall_cons in Hl as [Hr Hl]. case_bool_decide as Hm; [done|].
  destruct (FindPlayer session s.2) eqn:Hp; [|done].
  destruct (handle _ _ session r s) as [[[] s1]|] eqn:Eh; [|done].
  apply (IH s1); [|done..]. by apply (reach_request _ _ _ _ session r s).
Qed.

Lemma players_ok_scene : players_ok scene_world.
Proof.
  intros k p Hk. unfold scene_world in Hk. cbn [m_PlayerMap] in Hk.
  repeat (apply lookup_insert_Some in Hk as [[<- <-]|[_ Hk]]; [done|]). by rewrite lookup_empty in Hk.
Qed.

Lemma scene_start : guild_reachable scene_config scene_text scene_query scene_time scene_created.
Proof.
  apply (reach_create _ _ _ _ 1 (scene_player 1 "Ann") 0 7 "Guild" scene_world scene_created players_ok_scene);
    vm_compute; reflexivity.
Qed.

Lemma scene_reached : guild_reachable scene_config scene_text scene_query scene_time scene.
Proof.
  apply (run_requests_reachable scene_requests scene_created); [apply scene_start|by repeat constructor|].
  vm_compute. reflexivity.
Qed.

Lemma scene_members : m_members scene.1 <> ∅.
Proof. intros E. apply (f_equal size) in E. vm_compute in E. discriminate. Qed.

Lemma scene_Inv : Inv (scene.1, scene.2).
Proof.
  rewrite <- surjective_pairing.
  exact (reachable_Inv scene_config scene_text scene_query scene_time scene scene_reached scene_members).
Qed.

Lemma Inv_parts g w : Inv (g, w) -> guild_ok g /\ players_ok w.
Proof. intros [Hg _ _ Hp _]. by split. Qed.

Lemma scene_ok : guild_ok scene.1 /\ players_ok scene.2.
Proof. exact (Inv_parts scene.1 scene.2 scene_Inv). Qed.

Definition scene_online (n : Z) : Player := default (scene_player n EmptyString) (FindPlayer n scene.2).

Lemma scene_player_1 : FindPlayer 1 scene.2 = Some (scene_online 1).
Proof. vm_compute. reflexivity. Qed.
Lemma scene_player_2 : FindPlayer 2 scene.2 = Some (scene_online 2).
Proof. vm_compute. reflexivity. Qed.
Lemma scene_player_3 : FindPlayer 3 scene.2 = Some (scene_online 3).
Proof. vm_compute. reflexivity. Qed.

(** * The theorems at the scenario *)
Lemma guild_invariant_witness : Inv scene.
Proof.
  exact (guild_invariant scene_config scene_text scene_query scene_time scene scene_reached scene_members).
Defined.

Lemma guild_requests_defined_witness :
  exists s, handle scene_query scene_time 1 ReqDisband scene = Some (tt, s) /\ sound_after s.
Proof.
  apply (guild_requests_defined scene_config scene_text scene_query scene_time 1 ReqDisband scene
           scene_reached scene_members); [|exact I].
  exists (scene_online 1). exact scene_player_1.
Defined.

Lemma rank_change_lawful_witness :
  exists s, HandleUpdateMemberRank 1 "Bob" false (scene.1, scene.2) = Some (tt, s)
    /\ (m_members s.1 = m_members scene.1 \/ lawful_change 1 "Bob" false scene.1 s).
Proof. exact (rank_change_lawful 1 (scene_online 1) "Bob" false scene.1 scene.2 scene_Inv scene_player_1). Defined.

Lemma removal_lawful_witness :
  exists s, HandleRemoveMember 1 "Cid" (scene.1, scene.2) = Some (tt, s)
    /\ (m_members s.1 = m_members scene.1 \/ lawful_removal 1 "Cid" scene.1 s).
Proof. exact (removal_lawful 1 (scene_online 1) "Cid" scene.1 scene.2 scene_Inv scene_player_1). Defined.

Lemma leave_outcomes_witness :
  exists g' w', HandleLeaveMember 2 (scene.1, scene.2) = Some (tt, (g', w'))
    /\ m_members g' = delete 2 (m_members scene.1) /\ guildless 2 w'.
Proof.
  destruct (leave_outcomes 2 (scene_online 2) scene.1 scene.2 scene_Inv scene_player_2) as (g' & w' & E & H).
  exists g', w'. split; [exact E|].
  assert (_IsLeader (scene_online 2) scene.1 = false) as Hl by (vm_compute; reflexivity).
  rewrite Hl in H. destruct H as (H1 & _ & H2 & _). split; [exact H1|exact H2].
Defined.

Lemma leader_only_witness :
  exists w', handle scene_query scene_time 2 ReqDisband (scene.1, scene.2) = Some (tt, (scene.1, w'))
    /\ quiet scene.2 w'.
Proof.
  apply (leader_only scene_query scene_time 2 (scene_online 2) ReqDisband scene.1 scene.2 scene_player_2); [|exact I].
  vm_compute. reflexivity.
Defined.

Lemma leader_succession_witness :
  exists k' m' g' w',
    DeleteMember (m_leaderGuid scene.1) false false false (scene.1, scene.2) = Some (tt, (g', w'))
    /\ m_leaderGuid g' = k' /\ m_members scene.1 !! k' = Some m'.
Proof.
  assert (2 <> m_leaderGuid scene.1) as Hne by (vm_compute; discriminate).
  destruct (m_members scene.1 !! 2) as [m|] eqn:Hm; [|vm_compute in Hm; discriminate].
  destruct (leader_succession scene.1 scene.2 false false 2 m scene_Inv Hne Hm)
    as (k' & m' & g' & w' & E & _ & Hm' & _ & Hl & _).
  exists k', m', g', w'. split; [exact E|]. split; [exact Hl|exact Hm'].
Defined.

(** Bob is invited, and has not answered. *)
Definition scene_invited : GState :=
  default scene_created (run_requests [(1, ReqInvite "Bob")] scene_created).

Lemma scene_invited_Inv : Inv (scene_invited.1, scene_invited.2).
Proof.
  rewrite <- surjective_pairing.
  apply (reachable_Inv scene_config scene_text scene_query scene_time).
  - apply (run_requests_reachable [(1, ReqInvite "Bob")] scene_created); [apply scene_start|by repeat constructor|].
    vm_compute. reflexivity.
  - intros E. apply (f_equal size) in E. vm_compute in E. discriminate.
Qed.

Lemma accept_invitation_witness :
  exists g' w', HandleAcceptMember scene_query 2 (scene_invited.1, scene_invited.2) = Some (tt, (g', w'))
    /\ accounts_right g' /\ gm_rankId <$> (m_members g' !! 2) = Some 4.
Proof.
  destruct (FindPlayer 2 scene_invited.2) as [p|] eqn:Hp; [|vm_compute in Hp; discriminate].
  destruct (accept_invitation scene_query 2 p scene_invited.1 scene_invited.2 scene_invited_Inv Hp)
    as (g' & w' & E & H).
  exists g', w'. split; [exact E|].
  assert (p_GuildId p = 0) as Hid by (vm_compute in Hp; injection Hp as <-; reflexivity).
  rewrite Hid in H. cbn [Z.eqb negb] in H. cbv zeta in H. destruct H as (Hm & Ha & _). split; [exact Ha|].
  rewrite Hm, lookup_insert_eq. vm_compute. reflexivity.
Defined.

Lemma creation_witness :
  exists g' w', Create scene_text scene_query false 7 1 0 "Guild" (Guild_new, scene_world) = Some (true, (g', w'))
    /\ Inv (g', w') /\ m_leaderGuid g' = 1.
Proof.
  destruct (creation scene_text scene_query 1 (scene_player 1 "Ann") 0 7 "Guild" scene_world
              players_ok_scene eq_refl eq_refl) as [(g' & w' & E & HI & _ & Hl & _) _].
  exists g', w'. split; [exact E|]. split; [exact HI|exact Hl].
Defined.

Lemma disband_complete_witness :
  exists w' w0, Disband (scene.1, scene.2) = Some (tt, (disbanded scene.1, w')) /\ gone 3 w0.
Proof.
  destruct (disband_complete scene.1 scene.2 (proj1 scene_ok) (proj2 scene_ok))
    as (w' & w0 & E & _ & H).
  exists w', w0. split; [exact E|]. apply H. apply (bool_decide_unpack _). vm_compute. exact I.
Defined.

(** A guild loaded with no rank, a leader who is no guild master and a member
    of a rank there is not: the ranks are made anew, the members put right. *)
Definition scene_rows : list Row :=
  [RowMember (mkMemberRow 1 3 EmptyString EmptyString [0; 0; 0; 0; 0; 0; 0] "Ann" 10 1 1 1 0);
   RowMember (mkMemberRow 2 9 EmptyString EmptyString [0; 0; 0; 0; 0; 0; 0] "Bob" 10 1 1 2 0)].

Lemma validate_repairs_witness :
  exists s1 s2, load_guild (mkGuildRow 7 "Guild" 1 (0, 0, 0, 0, 0) EmptyString EmptyString 0 0 0) scene_rows
      (Guild_new, mkWorld ∅ ∅ ∅ 1000 []) = Some (tt, s1)
    /\ Validate scene_config scene_text s1 = Some (true, s2)
    /\ gm_rankId <$> (m_members s2.1 !! 1) = Some 0 /\ gm_rankId <$> (m_members s2.1 !! 2) = Some 4.
Proof.
  destruct (validate_repairs scene_config scene_text
     (mkGuildRow 7 "Guild" 1 (0, 0, 0, 0, 0) EmptyString EmptyString 0 0 0) scene_rows
     (mkWorld ∅ ∅ ∅ 1000 []) eq_refl) as (s1 & kept & s2 & E1 & E2 & _).
  - repeat constructor.
  - cbn. lia.
  - exists s1, s2. split; [exact E1|]. vm_compute in E1. injection E1 as <-.
    vm_compute in E2. injection E2 as <- <-. vm_compute. repeat split.
Defined.

(** ** The ledgers *)
Definition scene_events : list Event := repeat (mkEvent 5 GUILD_EVENT_LOG_JOIN_GUILD 2 0 0) 101.
Definition scene_log : LogHolder := LogHolder_new (m_id Guild_new) GUILD_EVENTLOG_MAX_RECORDS.
Definition scene_fresh : Guild := set_g_logs (Some scene_log) [] Guild_new.

Lemma log_ring_witness :
  exists g' w' h, log_events scene_events (scene_fresh, scene_world) = Some (tt, (g', w'))
    /\ m_eventLog g' = Some h /\ (entry_guid <$> lh_log h) = map Z.of_nat (seq 1 99) ++ [0].
Proof.
  destruct (log_ring scene_events scene_fresh scene_world eq_refl eq_refl) as (g' & w' & h & E & Eh & El & _).
  exists g', w', h. split; [exact E|]. split; [exact Eh|]. rewrite El. vm_compute. reflexivity.
Defined.

Definition scene_two : list LogEntry :=
  [EventLogEntry 7 99 5 GUILD_EVENT_LOG_JOIN_GUILD 2 0 0; EventLogEntry 7 0 6 GUILD_EVENT_LOG_JOIN_GUILD 3 0 0].
Definition scene_held : LogHolder := mkLogHolder scene_two 7 GUILD_EVENTLOG_MAX_RECORDS 0.

Lemma log_reload_witness :
  let g := set_g_logs (Some (LogHolder_new 7 GUILD_EVENTLOG_MAX_RECORDS)) [] scene.1 in
  load_events (row_of <$> rev scene_two) (g, scene_world)
  = Some (tt, (set_g_logs (Some scene_held) [] g, scene_world)).
Proof.
  cbv zeta.
  apply (log_reload 7 scene_held (row_of <$> rev scene_two) ((fun f => (7, f)) <$> (row_of <$> scene_two))
           (set_g_logs (Some (LogHolder_new 7 GUILD_EVENTLOG_MAX_RECORDS)) [] scene.1) scene_world).
  - split; [reflexivity|vm_compute; discriminate|vm_compute; split; [discriminate|reflexivity]|].
    intros [|[|i]] e Hi; [injection Hi as <-..|discriminate]; (split; [|vm_compute; reflexivity]).
    + exists 5, GUILD_EVENT_LOG_JOIN_GUILD, 2, 0, 0. reflexivity.
    + exists 6, GUILD_EVENT_LOG_JOIN_GUILD, 3, 0, 0. reflexivity.
  - reflexivity.
  - unfold scene_held, scene_two. cbn. unfold GUILD_EVENT_LOG_JOIN_GUILD. repeat constructor; lia.
  - unfold scene_held, scene_two. cbn. constructor; [constructor; constructor|]. constructor; [|constructor].
    left. cbn. lia.
  - reflexivity.
  - apply Permutation_swap.
  - cbn. constructor; [constructor; constructor|]. constructor; [|constructor]. left. cbn. lia.
  - vm_compute. reflexivity.
  - reflexivity.
Defined.

Lemma bank_account_witness :
  run_money [(true, 50); (false, 60); (false, 20)] [] (Guild_new, scene_world)
  = Some (([true; false; true], money_stmt 0 <$> [50; 30]), (set_g_money 30 Guild_new, scene_world)).
Proof.
  assert (0 <= m_bankMoney Guild_new) as H0 by (vm_compute; discriminate).
  assert (m_bankMoney Guild_new + deposits [(true, 50); (false, 60); (false, 20)] < 2 ^ 64) as H1
    by (vm_compute; reflexivity).
  pose proof (bank_account [(true, 50); (false, 60); (false, 20)] [] Guild_new scene_world
                ltac:(repeat constructor; cbn; lia) H0 H1) as [H _].
  exact H.
Defined.

(** Bob's rank may take three items a day from the one tab. *)
Definition scene_limit : Guild :=
  set_g_ranks (<[4%nat := mkRank 7 4 "Initiate" GR_RIGHT_GCHATLISTEN 0
                   (<[0%nat := RightsAndSlots_of 0 GUILD_BANK_RIGHT_VIEW_TAB 3]> no_tabs)]> (m_ranks scene.1))
    (set_g_tabs [BankTab_new 7 0] scene.1).

Lemma daily_withdrawals_witness :
  exists l m', take_items 2 2 0 [] (scene_limit, scene_world)
      = Some ([] ++ l, (put_member 2 m' scene_limit, scene_world))
    /\ _GetMemberRemainingSlots m' 0 (put_member 2 m' scene_limit) = Some 1.
Proof.
  destruct (m_members scene_limit !! 2) as [m|] eqn:Hm; [|vm_compute in Hm; discriminate].
  destruct (daily_withdrawals 2 2 0 3 m scene_limit scene_world []) as (l & m' & E & Er & _).
  - vm_compute in Hm. injection Hm as <-. split; try (vm_compute; reflexivity); try lia.
    + split; [vm_compute; reflexivity|lia].
    + vm_compute. discriminate.
  - exists l, m'. split; [exact E|]. rewrite Er. reflexivity.
Defined.

(** * What the code does that a reader would not expect *)

(** A member whose rank has no rights at all, or whose rank does not exist, has
    every right: [(rights & right) != GR_RIGHT_EMPTY] compares with [0x40]. *)
Lemma no_rights_every_right guid m right g :
  GetMember guid g = Some m -> _GetRankRights (gm_rankId m) g = 0 -> _HasRankRight guid right g = true.
Proof. intros Hm Hr. unfold _HasRankRight. by rewrite Hm, Hr, Z.land_0_l. Qed.

(** A leader who hands the guild to themselves stays the leader, at the rank of
    an officer. *)
Lemma leader_to_self :
  let s := after (HandleSetLeader 1 "Ann") scene in
  m_leaderGuid s.1 = 1 /\ gm_rankId <$> (m_members s.1 !! 1) = Some GR_OFFICER.
Proof. vm_compute. auto. Qed.

(** Removing the lowest rank leaves its members at a rank that does not exist,
    and with that every right. *)
Lemma removed_rank_members :
  let s := after (HandleAddNewRank 1 "Sixth" ;; ChangeMemberRank 3 5 ;; HandleRemoveRank 1 5) scene in
  length (m_ranks s.1) = 5%nat /\ gm_rankId <$> (m_members s.1 !! 3) = Some 5
  /\ _HasRankRight 3 GR_RIGHT_REMOVE s.1 = true.
Proof. vm_compute. auto. Qed.

(** [Validate] keeps a member whose rank is the number of ranks. *)
Lemma validate_keeps_rank_past_end :
  let rows := [RowMember (mkMemberRow 1 0 EmptyString EmptyString [0; 0; 0; 0; 0; 0; 0] "Ann" 10 1 1 1 0);
               RowMember (mkMemberRow 2 5 EmptyString EmptyString [0; 0; 0; 0; 0; 0; 0] "Bob" 10 1 1 2 0)] in
  let s := after (load_guild (mkGuildRow 7 "Guild" 1 (0, 0, 0, 0, 0) EmptyString EmptyString 0 0 0) rows ;;
                  Validate scene_config scene_text) (Guild_new, mkWorld ∅ ∅ ∅ 1000 []) in
  length (m_ranks s.1) = 5%nat /\ gm_rankId <$> (m_members s.1 !! 2) = Some 5.
Proof. vm_compute. auto. Qed.
