(* ===== verification/GuildMgr.v ===== *)
(** * Guild manager and guild opcodes

    [shade/Guilds/GuildsMgr.h], [GuildsMgr.cpp]: the guilds by identifier, and
    their loading from the database; [shade/Handler/GuildHandler.cpp]: the
    packets by which players act on them; [Player::GetGuild].  A method called
    on a guild of the store runs on the stored object; what it calls back on
    the manager, [sGuildMgr->RemoveGuild], takes the guild off the store. *)
From Stdlib Require Import Ascii String ZArith Lia.
From stdpp Require Import base gmap sets list strings sorting.
From S2P Require Import Prelude ByteBuffer Utf8 World Guild GuildOps.

Open Scope Z_scope.

(** ** The manager *)
Record GuildMgr := mkGuildMgr { NextGuildId : Z; GuildStore : gmap Z Guild }.
Definition GuildMgr_new : GuildMgr := mkGuildMgr 1 ∅.

Definition ERROR_EXIT_CODE : Z := 1.

(** What the guild requests work on: the manager, the players and the trace,
    and the exit code once [Logon::StopNow] was called. *)
Record Server := mkServer { sv_guilds : GuildMgr; sv_world : World; sv_stop : option Z }.

Definition set_store (gs : gmap Z Guild) (st : Server) : Server :=
  mkServer (mkGuildMgr (NextGuildId (sv_guilds st)) gs) (sv_world st) (sv_stop st).
Definition set_world (w : World) (st : Server) : Server := mkServer (sv_guilds st) w (sv_stop st).
Definition guilds (st : Server) : gmap Z Guild := GuildStore (sv_guilds st).

Definition AddGuild (g : Guild) (st : Server) : Server := set_store (<[m_id g := g]> (guilds st)) st.
Definition RemoveGuild (guildId : Z) (st : Server) : Server := set_store (delete guildId (guilds st)) st.
Definition SetNextGuildId (Id : Z) (st : Server) : Server :=
  mkServer (mkGuildMgr Id (guilds st)) (sv_world st) (sv_stop st).
Definition StopNow (exitcode : Z) (st : Server) : Server :=
  mkServer (sv_guilds st) (sv_world st) (Some exitcode).

Definition GenerateGuildId (st : Server) : Z * Server :=
  let n := NextGuildId (sv_guilds st) in
  let st := if 0xFFFFFFFE <=? n then StopNow ERROR_EXIT_CODE st else st in
  (n, SetNextGuildId (u32 (n + 1)) st).

Definition GetGuildById (guildId : Z) (st : Server) : option Guild := guilds st !! guildId.
Definition GetGuildNameById (guildId : Z) (st : Server) : string :=
  match GetGuildById guildId st with Some g => m_name g | None => EmptyString end.

(** [Player::GetGuild], as the identifier the guild is stored under. *)
Definition GetGuild (p : Player) (st : Server) : option Z :=
  if p_GuildId p =? 0 then None
  else match GetGuildById (p_GuildId p) st with Some _ => Some (p_GuildId p) | None => None end.

(** ** A method of a stored guild

    It runs on a trace of its own, from which the calls of [RemoveGuild] are
    carried out; the trace then goes after what was there. *)
Definition set_trace (es : list Effect) (w : World) : World :=
  mkWorld (m_PlayerMap w) (m_socialMap w) (_globalPlayerDataStore w) (w_time w) es.

Definition carry_out (st : Server) (e : Effect) : Server :=
  match e with World.RemoveGuild guildId => RemoveGuild guildId st | _ => st end.

Definition call_guild {A} (guildId : Z) (m : G A) (st : Server) : option (A * Server) :=
  g ← GetGuildById guildId st;
  let w := sv_world st in
  '(a, (g', w')) ← m (g, set_trace [] w);
  Some (a, foldl carry_out
             (set_world (set_trace (w_trace w ++ w_trace w') w')
                (set_store (<[guildId := g']> (guilds st)) st))
             (w_trace w')).

(** The same for its effect; nothing for a null [Guild*] is the callers' test. *)
Definition run {A} (guildId : Z) (m : G A) (st : Server) : outcome Server :=
  match call_guild guildId m st with Some (_, st) => Ok st | None => UB end.

Section Manager.
Context `{UnorderedIter}.

(** The first guild, in the order of the hash map, with the name in capitals. *)
Definition GetGuildByName (guildName : string) (st : Server) : option Guild :=
  let search := string_map toupper guildName in
  snd <$> List.find (fun '(_, g) => String.eqb search (string_map toupper (m_name g)))
            (uiter (guilds st)).
Definition GetGuildByLeader (guid : Z) (st : Server) : option Guild :=
  snd <$> List.find (fun '(_, g) => m_leaderGuid g =? guid) (uiter (guilds st)).

(** One after the other, in an order that is not the manager's choice. *)
Fixpoint run_all (ids : list Z) (m : G unit) (st : Server) : outcome Server :=
  match ids with
  | [] => Ok st
  | id :: ids => let* st := run id m st in run_all ids m st
  end.

Definition direct (sql : string) (st : Server) : Server :=
  set_world (emit (DirectExecute sql) (sv_world st)) st.

Definition Mgr_ResetTimes (st : Server) : outcome Server :=
  let* st := run_all (fst <$> uiter (guilds st)) ResetTimes st in
  Ok (direct "TRUNCATE guild_member_withdraw" st).

Context (cfg : Config) (GetTrinityString : Z -> Z -> string)
        (QueryCharData : Z -> option (string * Z * Z * Z * Z)) (localtime : Z -> tm).

(** ** The packets of a player

    A handler reads its fields from the packet, a packet that is too short
    throws; [session] is the GUID of the session's player, if it has one.
    Calling a method through a null [GetPlayer()] is undefined. *)
Definition with_player (session : Z) (st : Server) (k : Player -> outcome Server) : outcome Server :=
  match FindPlayer session (sv_world st) with Some p => k p | None => UB end.

Definition on_own_guild (session : Z) (m : G unit) (st : Server) : outcome Server :=
  with_player session st (fun p =>
    match GetGuild p st with Some id => run id m st | None => Ok st end).

(** The name a packet carries, when it is well formed. *)
Definition on_named (name : string) (st : Server) (k : string -> outcome Server) : outcome Server :=
  let* n := normalizePlayerName name in
  match n with Some name => k name | None => Ok st end.

Definition HandleGuildQueryOpcode (recv : ByteBuffer) (session : Z) (st : Server) : outcome Server :=
  let* '(guildId, recv) := read 4 recv in
  with_player session st (fun p =>
    if guildId =? 0 then Ok st
    else match GetGuildById guildId st with
         | Some _ => run guildId (HandleQuery session) st
         | None => Ok st
         end).

Definition HandleGuildCreateOpcode (recv : ByteBuffer) (session : Z) (st : Server) : outcome Server := Ok st.

Definition HandleGuildInviteOpcode (recv : ByteBuffer) (session : Z) (st : Server) : outcome Server :=
  let* '(invitedName, recv) := read_string recv in
  on_named invitedName st (fun n => on_own_guild session (HandleInviteMember session n) st).

Definition HandleGuildRemoveOpcode (recv : ByteBuffer) (session : Z) (st : Server) : outcome Server :=
  let* '(playerName, recv) := read_string recv in
  on_named playerName st (fun n => on_own_guild session (HandleRemoveMember session n) st).

Definition HandleGuildAcceptOpcode (recv : ByteBuffer) (session : Z) (st : Server) : outcome Server :=
  with_player session st (fun p =>
    if p_GuildId p =? 0 then
      match GetGuildById (p_GuildIdInvited p) st with
      | Some _ => run (p_GuildIdInvited p) (HandleAcceptMember QueryCharData session) st
      | None => Ok st
      end
    else Ok st).

Definition HandleGuildDeclineOpcode (recv : ByteBuffer) (session : Z) (st : Server) : outcome Server :=
  with_player session st (fun p =>
    Ok (set_world (SetInGuild 0 p (update_player (SetGuildIdInvited 0) p (sv_world st))) st)).

Definition HandleGuildInfoOpcode (recv : ByteBuffer) (session : Z) (st : Server) : outcome Server :=
  on_own_guild session (SendInfo localtime session) st.

(** [Guild::SendCommandResult] is static: it needs no guild. *)
Definition HandleGuildRosterOpcode (recv : ByteBuffer) (session : Z) (st : Server) : outcome Server :=
  with_player session st (fun p =>
    match GetGuild p st with
    | Some id => run id (HandleRoster session) st
    | None =>
        Ok (set_world (SendPacket p (mkPacket SMSG_GUILD_COMMAND_RESULT
              [U32 (command_code GUILD_COMMAND_ROSTER); Str EmptyString; U32 ERR_GUILD_PLAYER_NOT_IN_GUILD])
              (sv_world st)) st)
    end).

Definition HandleGuildPromoteOpcode (recv : ByteBuffer) (session : Z) (st : Server) : outcome Server :=
  let* '(playerName, recv) := read_string recv in
  on_named playerName st (fun n => on_own_guild session (HandleUpdateMemberRank session n false) st).

Definition HandleGuildDemoteOpcode (recv : ByteBuffer) (session : Z) (st : Server) : outcome Server :=
  let* '(playerName, recv) := read_string recv in
  on_named playerName st (fun n => on_own_guild session (HandleUpdateMemberRank session n true) st).

Definition HandleGuildLeaveOpcode (recv : ByteBuffer) (session : Z) (st : Server) : outcome Server :=
  on_own_guild session (HandleLeaveMember session) st.

Definition HandleGuildDisbandOpcode (recv : ByteBuffer) (session : Z) (st : Server) : outcome Server :=
  on_own_guild session (HandleDisband session) st.

Definition HandleGuildLeaderOpcode (recv : ByteBuffer) (session : Z) (st : Server) : outcome Server :=
  let* '(name, recv) := read_string recv in
  on_named name st (fun n => on_own_guild session (HandleSetLeader session n) st).

Definition HandleGuildMOTDOpcode (recv : ByteBuffer) (session : Z) (st : Server) : outcome Server :=
  let* '(motd, recv) := read_string recv in
  on_own_guild session (HandleSetMOTD session motd) st.

Definition HandleGuildSetPublicNoteOpcode (recv : ByteBuffer) (session : Z) (st : Server) : outcome Server :=
  let* '(playerName, recv) := read_string recv in
  let* '(note, recv) := read_string recv in
  on_named playerName st (fun n => on_own_guild session (HandleSetMemberNote session n note true) st).

Definition HandleGuildSetOfficerNoteOpcode (recv : ByteBuffer) (session : Z) (st : Server) : outcome Server :=
  let* '(playerName, recv) := read_string recv in
  let* '(note, recv) := read_string recv in
  on_named playerName st (fun n => on_own_guild session (HandleSetMemberNote session n note false) st).

(** The loop over the tabs: rights and slots of each, numbered as they come. *)
Fixpoint read_tabs (n : nat) (tabId : Z) (recv : ByteBuffer)
  : outcome (list GuildBankRightsAndSlots * ByteBuffer) :=
  match n with
  | O => Ok ([], recv)
  | S n =>
      let* '(bankRights, recv) := read 4 recv in
      let* '(slots, recv) := read 4 recv in
      let* '(rest, recv) := read_tabs n (tabId + 1) recv in
      Ok (RightsAndSlots_of tabId bankRights slots :: rest, recv)
  end.

Definition HandleGuildRankOpcode (recv : ByteBuffer) (session : Z) (st : Server) : outcome Server :=
  let* '(rankId, recv) := read 4 recv in
  let* '(rights, recv) := read 4 recv in
  let* '(rankName, recv) := read_string recv in
  let* '(money, recv) := read 4 recv in
  with_player session st (fun p =>
    match GetGuild p st with
    | None => Ok st
    | Some id =>
        let* '(rightsAndSlots, recv) := read_tabs (Z.to_nat GUILD_BANK_MAX_TABS) 0 recv in
        run id (HandleSetRankInfo session (u8 rankId) rankName rights money rightsAndSlots) st
    end).

Definition HandleGuildAddRankOpcode (recv : ByteBuffer) (session : Z) (st : Server) : outcome Server :=
  let* '(rankName, recv) := read_string recv in
  on_own_guild session (HandleAddNewRank session rankName) st.

Definition HandleGuildDelRankOpcode (recv : ByteBuffer) (session : Z) (st : Server) : outcome Server :=
  on_own_guild session (HandleRemoveLowestRank session) st.

Definition HandleGuildChangeInfoTextOpcode (recv : ByteBuffer) (session : Z) (st : Server) : outcome Server :=
  let* '(info, recv) := read_string recv in
  on_own_guild session (HandleSetInfo session info) st.

Definition HandleGuildEventLogQueryOpcode (recv : ByteBuffer) (session : Z) (st : Server) : outcome Server :=
  on_own_guild session (SendEventLog session) st.

(** Updates from the world nodes: [Player::UpdateZone] and
    [ClientSession::Handle_SMSG_LEVELUP_INFO], their guild part. *)
Definition update_member (session dataid value : Z) (st : Server) : outcome Server :=
  with_player session st (fun p =>
    match GetGuild p st with
    | Some id => run id (UpdateMemberData p dataid value) st
    | None => Ok st
    end).

(** The guild packets of the opcode table, with the handler each one has there. *)
Inductive GuildOpcode :=
| CMSG_GUILD_QUERY | CMSG_GUILD_INVITE | CMSG_GUILD_ACCEPT | CMSG_GUILD_DECLINE | CMSG_GUILD_ROSTER
| CMSG_GUILD_PROMOTE | CMSG_GUILD_DEMOTE | CMSG_GUILD_LEAVE | CMSG_GUILD_REMOVE | CMSG_GUILD_DISBAND
| CMSG_GUILD_LEADER | CMSG_GUILD_MOTD | CMSG_GUILD_RANK | CMSG_GUILD_ADD_RANK | CMSG_GUILD_DEL_RANK
| CMSG_GUILD_SET_PUBLIC_NOTE | CMSG_GUILD_SET_OFFICER_NOTE | CMSG_GUILD_INFO_TEXT
| CMSG_GUILD_EVENT_LOG_QUERY.

Definition guild_handler (op : GuildOpcode) : ByteBuffer -> Z -> Server -> outcome Server :=
  match op with
  | CMSG_GUILD_QUERY => HandleGuildQueryOpcode
  | CMSG_GUILD_INVITE => HandleGuildInviteOpcode
  | CMSG_GUILD_ACCEPT => HandleGuildAcceptOpcode
  | CMSG_GUILD_DECLINE => HandleGuildDeclineOpcode
  | CMSG_GUILD_ROSTER => HandleGuildRosterOpcode
  | CMSG_GUILD_PROMOTE => HandleGuildPromoteOpcode
  | CMSG_GUILD_DEMOTE => HandleGuildDemoteOpcode
  | CMSG_GUILD_LEAVE => HandleGuildLeaveOpcode
  | CMSG_GUILD_REMOVE => HandleGuildRemoveOpcode
  | CMSG_GUILD_DISBAND => HandleGuildDisbandOpcode
  | CMSG_GUILD_LEADER => HandleGuildLeaderOpcode
  | CMSG_GUILD_MOTD => HandleGuildMOTDOpcode
  | CMSG_GUILD_RANK => HandleGuildRankOpcode
  | CMSG_GUILD_ADD_RANK => HandleGuildAddRankOpcode
  | CMSG_GUILD_DEL_RANK => HandleGuildDelRankOpcode
  | CMSG_GUILD_SET_PUBLIC_NOTE => HandleGuildSetPublicNoteOpcode
  | CMSG_GUILD_SET_OFFICER_NOTE => HandleGuildSetOfficerNoteOpcode
  | CMSG_GUILD_INFO_TEXT => HandleGuildChangeInfoTextOpcode
  | CMSG_GUILD_EVENT_LOG_QUERY => HandleGuildEventLogQueryOpcode
  end.

(** ** Loading

    The results of the queries of [LoadGuilds], in their order: for each row
    the guild it names and its other columns; of an item only the tab. *)
Record Tables := mkTables {
  t_guild : list GuildRow;
  t_rank : list (Z * RankRow);
  t_member : list (Z * MemberRow);
  t_right : list (Z * BankRightRow);
  t_eventlog : list (Z * EventRow);
  t_bank_eventlog : list (Z * BankEventRow);
  t_tab : list (Z * BankTabRow);
  t_item : list (Z * Z)
}.

(** A row goes to the guild it names, when there is one. *)
Definition load_one {A} (load : A -> G unit) (row : Z * A) (st : Server) : outcome Server :=
  match GetGuildById (u32 row.1) st with
  | Some _ => run (u32 row.1) (load row.2) st
  | None => Ok st
  end.
Fixpoint load_table {A} (load : A -> G unit) (rows : list (Z * A)) (st : Server) : outcome Server :=
  match rows with
  | [] => Ok st
  | row :: rows => let* st := load_one load row st in load_table load rows st
  end.

(** [new Guild()], [LoadFromDB] (which always succeeds) and [AddGuild]. *)
Definition load_definition (st : Server) (f : GuildRow) : Server :=
  match LoadFromDB f (Guild_new, sv_world st) with
  | Some (_, (g, w)) => AddGuild g (set_world w st)
  | None => st
  end.

(** [if (guild && !guild->Validate()) delete guild;]: a guild deleted while it
    is still stored would be left dangling. *)
Definition validate_one (guildId : Z) (st : Server) : outcome Server :=
  match GetGuildById guildId st with
  | None => UB
  | Some _ =>
      match call_guild guildId (Validate cfg GetTrinityString) st with
      | None => UB
      | Some (true, st) => Ok st
      | Some (false, st) => match GetGuildById guildId st with Some _ => UB | None => Ok st end
      end
  end.
Fixpoint validate_all (ids : list Z) (st : Server) : outcome Server :=
  match ids with
  | [] => Ok st
  | id :: ids => let* st := validate_one id st in validate_all ids st
  end.

Definition ignore {A B} (f : A -> G B) : A -> G unit := fun a => f a ;; mret tt.

Definition LoadGuilds (t : Tables) (st : Server) : outcome Server :=
  let st := direct "DELETE g FROM guild g LEFT JOIN guild_member gm ON g.guildid = gm.guildid WHERE gm.guildid IS NULL" st in
  let st := foldl load_definition st (t_guild t) in
  let st := direct "DELETE gr FROM guild_rank gr LEFT JOIN guild g ON gr.guildId = g.guildId WHERE g.guildId IS NULL" st in
  let* st := load_table LoadRankFromDB (t_rank t) st in
  let st := direct "DELETE gm FROM guild_member gm LEFT JOIN guild g ON gm.guildId = g.guildId WHERE g.guildId IS NULL" st in
  let st := direct "DELETE gm FROM guild_member_withdraw gm LEFT JOIN guild_member g ON gm.guid = g.guid WHERE g.guid IS NULL" st in
  let* st := load_table (ignore LoadMemberFromDB) (t_member t) st in
  let st := direct "DELETE gbr FROM guild_bank_right gbr LEFT JOIN guild g ON gbr.guildId = g.guildId WHERE g.guildId IS NULL" st in
  let* st := load_table LoadBankRightFromDB (t_right t) st in
  let st := direct "DELETE FROM guild_eventlog WHERE LogGuid > 100" st in
  let* st := load_table (ignore LoadEventLogFromDB) (t_eventlog t) st in
  let st := direct "DELETE FROM guild_bank_eventlog WHERE LogGuid > 25" st in
  let* st := load_table (ignore LoadBankEventLogFromDB) (t_bank_eventlog t) st in
  let st := direct "DELETE gbt FROM guild_bank_tab gbt LEFT JOIN guild g ON gbt.guildId = g.guildId WHERE g.guildId IS NULL" st in
  let* st := load_table LoadBankTabFromDB (t_tab t) st in
  let st := direct "DELETE gbi FROM guild_bank_item gbi LEFT JOIN guild g ON gbi.guildId = g.guildId WHERE g.guildId IS NULL" st in
  let* st := load_table (ignore LoadBankItemFromDB) (t_item t) st in
  validate_all (fst <$> uiter (guilds st)) st.
End Manager.
