(* ===== verification/GuildFrame.v ===== *)
(** * What a guild method leaves alone

    A method of one guild runs while other guilds and the players of the whole
    server are there.  [tame]: seen from there, the methods of a guild keep its
    identifier, the identity of the players and the guild each player is in,
    unless it is this guild, and take no other guild off the manager's store.
    [tames m] is the closure property of the methods; the hints of the database
    [tame] carry it through their bodies. *)
From Stdlib Require Import Ascii String ZArith Lia.
From stdpp Require Import base gmap sets list strings.
From S2P Require Import Prelude ByteBuffer Utf8 World Guild GuildOps GuildLogic GuildFacts.

Open Scope Z_scope.

Create HintDb tame.

(** ** Partial correctness *)
Definition wlp {A} (m : G A) (Q : A -> GState -> Prop) (s : GState) : Prop :=
  match m s with Some (a, s') => Q a s' | None => True end.

Lemma wlp_bind {A B} (m : G A) (f : A -> G B) Q s :
  wlp m (fun a s' => wlp (f a) Q s') s -> wlp (m ≫= f) Q s.
Proof. unfold wlp, mbind, G_bind. by destruct (m s) as [[a s']|]. Qed.
Lemma wlp_mono {A} (m : G A) (P Q : A -> GState -> Prop) s :
  wlp m P s -> (forall a s', P a s' -> Q a s') -> wlp m Q s.
Proof. unfold wlp. intros HP HPQ. destruct (m s) as [[a s']|]; [by apply HPQ|done]. Qed.
Lemma wlp_lift {A} (o : option A) Q s : (forall a, o = Some a -> Q a s) -> wlp (lift o) Q s.
Proof. unfold wlp, lift. destruct o; [by intros HQ; apply HQ|done]. Qed.
Lemma wlp_deref key Q g w : (forall m, m_members g !! key = Some m -> Q m (g, w)) -> wlp (deref key) Q (g, w).
Proof. intros HQ. apply wlp_bind. by apply wlp_lift. Qed.
Lemma wlp_store key m Q g w : Q tt (put_member key m g, w) -> wlp (store key m) Q (g, w).
Proof. done. Qed.
Lemma wlp_wp {A} (m : G A) P Q s : wp m P s -> wlp m Q s -> wp m (fun a s' => P a s' /\ Q a s') s.
Proof. unfold wp, wlp. by destruct (m s) as [[a s']|]. Qed.
Lemma wlp_run {A} (m : G A) Q s a s' : wlp m Q s -> m s = Some (a, s') -> Q a s'.
Proof. unfold wlp. intros HQ E. by rewrite E in HQ. Qed.

(** ** Mild changes of the world *)
Definition mild (w w' : World) : Prop :=
  steady w w'
  /\ (forall i, RemoveGuild i ∈ w_trace w' -> RemoveGuild i ∈ w_trace w)
  /\ (forall k, p_GuildId <$> m_PlayerMap w' !! k = p_GuildId <$> m_PlayerMap w !! k).

#[export] Instance mild_preorder : PreOrder mild.
Proof.
  split; [done|]. intros w1 w2 w3 (S1 & T1 & G1) (S2 & T2 & G2). split; [by etransitivity|].
  split; [auto|]. intros k. by rewrite G2, G1.
Qed.

Definition is_removal (e : Effect) : bool := match e with RemoveGuild _ => true | _ => false end.

Lemma mild_emits es w : List.existsb is_removal es = false -> mild w (emits es w).
Proof.
  intros He. split; [apply steady_emits|]. split; [|done]. intros i. cbn.
  rewrite elem_of_app. intros [Hi|Hi]; [done|].
  exfalso. assert (List.existsb is_removal es = true) as Ht; [|congruence].
  apply existsb_exists. exists (RemoveGuild i). split; [by apply list_elem_of_In|done].
Qed.
Lemma mild_emit e w : is_removal e = false -> mild w (emit e w).
Proof. intros He. apply (mild_emits [e]). cbn. by rewrite He. Qed.
Lemma mild_SendPacket p d w : mild w (SendPacket p d w).
Proof. unfold SendPacket. case_if; [by apply mild_emit|done]. Qed.
Lemma mild_execute st w : mild w (execute st w).
Proof. by apply mild_emit. Qed.
Lemma mild_Commit st w : mild w (CommitTransaction st w).
Proof. by apply mild_emit. Qed.

Lemma mild_update f p w :
  (forall q, core (f q) = core q) -> (forall q, p_GuildId (f q) = p_GuildId q) -> mild w (update_player f p w).
Proof.
  intros Hf Hg. split; [by apply steady_update|]. split; [done|]. intros k. unfold update_player. cbn.
  destruct (decide (p_GUID p = k)) as [<-|Hne].
  - rewrite lookup_alter_eq. destruct (m_PlayerMap w !! p_GUID p); [cbn; by rewrite Hg|done].
  - by rewrite lookup_alter_ne.
Qed.
Lemma mild_global guid id w : mild w (UpdateGlobalPlayerGuild guid id w).
Proof. split; [apply steady_global|]. unfold UpdateGlobalPlayerGuild. by case_match. Qed.

Lemma foldl_mild {A} (f : World -> A -> World) l w : (forall w a, mild w (f w a)) -> mild w (foldl f w l).
Proof.
  intros Hf. revert w. induction l as [|a l IH]; intros w; cbn; [done|]. etransitivity; [apply Hf|apply IH].
Qed.

Section Frame.
Context `{UnorderedIter} (id : Z) (w0 : World).

(** ** The guild [id], and the world it started in *)
Record tame (s : GState) : Prop := mkTame {
  tame_id : m_id s.1 = id;
  tame_keys : forall k m, m_members s.1 !! k = Some m -> gm_guid m = k /\ 0 <= k < 2 ^ 32;
  tame_leader : 0 <= m_leaderGuid s.1 < 2 ^ 32;
  tame_steady : steady w0 s.2;
  tame_gone : forall i, RemoveGuild i ∈ w_trace s.2 -> i = id /\ m_members s.1 = ∅;
  tame_standing : forall k p, m_PlayerMap s.2 !! k = Some p ->
    p_GuildId p = 0
    \/ (p_GuildId p = id /\ is_Some (m_members s.1 !! k))
    \/ (exists p0, m_PlayerMap w0 !! k = Some p0 /\ p_GuildId p0 = p_GuildId p /\ p_GuildId p0 <> id)
}.

Definition tames {A} (m : G A) : Prop := forall s, tame s -> wlp m (fun _ => tame) s.

Lemma tame_world g w w' : mild w w' -> tame (g, w) -> tame (g, w').
Proof.
  intros (Hs & Ht & Hg) [Hid Hkeys Hlead Hst Hgone Hstand]. split; cbn in *; [done|done|done|by etransitivity|auto|].
  intros k p Hp. specialize (Hg k). rewrite Hp in Hg. cbn in Hg. symmetry in Hg.
  apply fmap_Some in Hg as (q & Hq & ->). by apply Hstand.
Qed.
Lemma tame_guild g g' w :
  m_id g' = m_id g -> m_members g' = m_members g -> m_leaderGuid g' = m_leaderGuid g ->
  tame (g, w) -> tame (g', w).
Proof. intros Ei Em El [Hid Hkeys Hlead Hst Hgone Hstand]. split; cbn in *; rewrite ?Ei, ?Em, ?El; done. Qed.

(** A member rewritten in place. *)
Lemma tame_put g w k m m' :
  m_members g !! k = Some m -> gm_guid m' = gm_guid m -> tame (g, w) -> tame (put_member k m' g, w).
Proof.
  intros Hm Hg [Hid Hkeys Hlead Hst Hgone Hstand]. split; cbn in *; [done| |done|done| |].
  - intros j n. destruct (decide (j = k)) as [->|Hne];
      [rewrite lookup_insert_eq; intros [= <-]; rewrite Hg; auto|rewrite lookup_insert_ne by done; auto].
  - intros i Hi. destruct (Hgone i Hi) as [_ He]. by rewrite He, lookup_empty in Hm.
  - intros j p Hp. destruct (Hstand j p Hp) as [?|[[? ?]|?]]; [by left| |by auto].
    right. left. split; [done|]. destruct (decide (j = k)) as [->|Hne];
      [rewrite lookup_insert_eq; by eexists|by rewrite lookup_insert_ne].
Qed.

(** ** Closure *)
Lemma tames_at {A} (m : G A) s : tame s -> tames m -> wlp m (fun _ => tame) s.
Proof. auto. Qed.
Lemma tames_wlp {A} (m : G A) Q g w :
  tames m -> tame (g, w) -> (forall a g' w', tame (g', w') -> Q a (g', w')) -> wlp m Q (g, w).
Proof. intros Hm Hs HQ. eapply wlp_mono; [by apply Hm|]. intros a [g' w']. apply HQ. Qed.
Lemma tames_bind {A B} (m : G A) (f : A -> G B) : tames m -> (forall a, tames (f a)) -> tames (m ≫= f).
Proof. intros Hm Hf s Hs. apply wlp_bind. eapply wlp_mono; [by apply Hm|]. intros a s' Hs'. by apply Hf. Qed.
Lemma tames_ret {A} (a : A) : tames (mret a).
Proof. by intros s Hs. Qed.
Lemma tames_getg : tames getg.
Proof. by intros s Hs. Qed.
Lemma tames_getw : tames getw.
Proof. by intros s Hs. Qed.
Lemma tames_lift {A} (o : option A) : tames (lift o).
Proof. intros s Hs. by apply wlp_lift. Qed.
Lemma tames_undefined {A} : tames (@undefined A).
Proof. by intros s Hs. Qed.
Lemma tames_when b m : tames m -> tames (when b m).
Proof. destruct b; [done|]. intros _. apply tames_ret. Qed.
Lemma tames_modw f : (forall w, mild w (f w)) -> tames (modw f).
Proof. intros Hf [g w] Hs. by apply (tame_world g w). Qed.
Lemma tames_modg f : (forall g, m_id (f g) = m_id g) -> (forall g, m_members (f g) = m_members g) ->
  (forall g, m_leaderGuid (f g) = m_leaderGuid g) -> tames (modg f).
Proof. intros Hi Hm Hl [g w] Hs. by apply (tame_guild g). Qed.
Lemma tames_for_each {A} (l : list A) f : (forall a, tames (f a)) -> tames (for_each l f).
Proof.
  intros Hf. induction l as [|a l IH]; cbn [for_each]; [apply tames_ret|]. apply tames_bind; [apply Hf|done].
Qed.
Lemma tames_deref k : tames (deref k).
Proof. apply tames_bind; [apply tames_getg|]. intros g. apply tames_lift. Qed.
Lemma tames_exec st : tames (exec st).
Proof. apply tames_modw. intros w. apply mild_execute. Qed.
Lemma tames_commit st : tames (commit st).
Proof. apply tames_modw. intros w. apply mild_Commit. Qed.
Lemma tames_GetPlayer k : tames (GetPlayer k).
Proof. apply tames_bind; [apply tames_getw|]. intros g. apply tames_lift. Qed.
Lemma tames_send k d : tames (send k d).
Proof. apply tames_bind; [apply tames_GetPlayer|]. intros p. apply tames_modw. intros w. apply mild_SendPacket. Qed.
Lemma tames_BroadcastPacket d g : tames (modw (BroadcastPacket d g)).
Proof.
  apply tames_modw. intros w. apply foldl_mild. intros w1 [k m].
  case_match; [apply mild_SendPacket|done].
Qed.
Lemma tames_broadcast ev guid params : tames (broadcast ev guid params).
Proof. apply tames_bind; [apply tames_getg|]. intros g. apply tames_BroadcastPacket. Qed.
Lemma tames_SendCommandResult k t e p : tames (SendCommandResult k t e p).
Proof. apply tames_send. Qed.
End Frame.

#[export] Hint Resolve tames_ret tames_getg tames_getw tames_lift tames_undefined tames_deref tames_exec
  tames_commit tames_GetPlayer tames_send tames_BroadcastPacket tames_broadcast tames_SendCommandResult
  mild_SendPacket mild_execute mild_Commit mild_global : tame.

(** Follows the body of a method down to what the database knows. *)
Ltac tame_step :=
  lazymatch goal with
  | |- forall _, _ => intros ?
  | |- tames _ _ (mbind _ _) => apply tames_bind
  | |- tames _ _ (when _ _) => apply tames_when
  | |- tames _ _ (for_each _ _) => apply tames_for_each
  | |- tames _ _ (modw (emit _)) => apply tames_modw; intros ?; apply mild_emit; reflexivity
  | |- tames _ _ (match ?x with _ => _ end) => destruct x
  | |- tames _ _ (let _ := _ in _) => cbv zeta
  | |- tames _ _ _ =>
      first [ solve [eauto 2 with tame] | apply tames_modg; intros ?; solve [repeat case_match; done]
            | apply tames_modw; intros ?; first [apply mild_update; done | solve [auto with tame] | done] ]
  end.
Ltac tame_body := repeat tame_step.

Section Methods.
Context `{UnorderedIter} (id : Z) (w0 : World) (Hplayers : players_ok w0).
Abbreviation tame := (tame id w0).
Abbreviation tames := (tames id w0).

Lemma tame_players s : tame s -> players_ok s.2.
Proof. intros Hs. apply (players_ok_steady w0); [apply Hs|done]. Qed.

Lemma tames_player {A} session (f : Player -> G A) :
  (forall p, p_GUID p = session -> p_GUIDLow p = session -> 0 <= session < 2 ^ 32 -> tames (f p)) ->
  tames (GetPlayer session ≫= f).
Proof.
  intros Hf [g w] Hs. apply wlp_bind. unfold GetPlayer. apply wlp_bind, wlp_lift. intros p Hp.
  destruct (tame_players _ Hs session p Hp) as (? & ? & ?). by apply Hf.
Qed.
Lemma tames_member {A} key (f : Member -> G A) :
  (forall m, gm_guid m = key -> 0 <= key < 2 ^ 32 -> tames (f m)) -> tames (deref key ≫= f).
Proof.
  intros Hf [g w] Hs. apply wlp_bind, wlp_deref. intros m Hm.
  destruct (tame_keys _ _ _ Hs key m Hm) as [? ?]. by apply Hf.
Qed.

(** A member looked up and rewritten at once. *)
Lemma tames_rewrite key (f : Member -> Member) :
  (forall m, gm_guid (f m) = gm_guid m) -> tames (m ← deref key; store key (f m)).
Proof.
  intros Hf [g w] Hs. apply wlp_bind, wlp_deref. intros m Hm. by apply (tame_put _ _ g w key m).
Qed.
Lemma tames_update key (f : Member -> Member) (k : Guild -> G unit) :
  (forall m, gm_guid (f m) = gm_guid m) -> (forall g, tames (k g)) ->
  tames (g ← getg; match m_members g !! key with Some m => store key (f m) | None => mret tt end ;; k g).
Proof.
  intros Hf Hk [g w] Hs. apply wlp_bind. cbn. apply wlp_bind. destruct (m_members g !! key) eqn:Hm.
  - apply Hk. by apply (tame_put _ _ g w key m).
  - by apply Hk.
Qed.

(** ** Members and ranks *)
Lemma tames_ChangeRank key r : tames (ChangeRank key r).
Proof.
  intros [g w] Hs. apply wlp_bind, wlp_deref. intros m Hm. apply wlp_bind, wlp_store, tames_at.
  - by apply (tame_put _ _ g w key m).
  - tame_body.
Qed.
Hint Resolve tames_ChangeRank : tame.
Lemma tames_SetLeaderGUID key : tames (_SetLeaderGUID key).
Proof.
  unfold _SetLeaderGUID. apply tames_member. intros m Hm Hk. apply tames_bind; [|tame_body].
  intros [g w] [? ? ? ? ? ?]. split; cbn in *; [done|done|by rewrite Hm|done..].
Qed.
Hint Resolve tames_SetLeaderGUID : tame.

Lemma tames_SetPublicNote key note : tames (SetPublicNote key note).
Proof.
  intros [g w] Hs. apply wlp_bind, wlp_deref. intros m Hm. case_if; [done|].
  apply wlp_bind, wlp_store, tames_exec. by apply (tame_put _ _ g w key m).
Qed.
Lemma tames_SetOfficerNote key note : tames (SetOfficerNote key note).
Proof.
  intros [g w] Hs. apply wlp_bind, wlp_deref. intros m Hm. case_if; [done|].
  apply wlp_bind, wlp_store, tames_exec. by apply (tame_put _ _ g w key m).
Qed.
Hint Resolve tames_SetPublicNote tames_SetOfficerNote : tame.

Lemma tames_on_rank r f : tames (on_rank r f).
Proof. unfold on_rank. tame_body. Qed.
Hint Resolve tames_on_rank : tame.
Lemma tames_rank_money r v : tames (_SetRankBankMoneyPerDay r v).
Proof. unfold _SetRankBankMoneyPerDay. tame_body. Qed.
Lemma tames_rank_tab r rs save : tames (_SetRankBankTabRightsAndSlots r rs save).
Proof. unfold _SetRankBankTabRightsAndSlots. tame_body. Qed.
Hint Resolve tames_rank_money tames_rank_tab : tame.
Lemma tames_CreateRank name rights : tames (_CreateRank name rights).
Proof. unfold _CreateRank. tame_body. Qed.
Hint Resolve tames_CreateRank : tame.
Lemma tames_CreateDefaultGuildRanks texts loc : tames (_CreateDefaultGuildRanks texts loc).
Proof. unfold _CreateDefaultGuildRanks. tame_body. Qed.
Hint Resolve tames_CreateDefaultGuildRanks : tame.
Lemma tames_LogEvent a b c d : tames (_LogEvent a b c d).
Proof. unfold _LogEvent. tame_body. Qed.
Hint Resolve tames_LogEvent : tame.

(** ** What a session is sent *)
Lemma tames_HandleRoster session : tames (HandleRoster session).
Proof. unfold HandleRoster. tame_body. Qed.
Hint Resolve tames_HandleRoster : tame.
Lemma tames_SendBankList s tab all slots : tames (_SendBankList s tab all slots).
Proof. unfold _SendBankList. tame_body. Qed.
Hint Resolve tames_SendBankList : tame.
Lemma tames_SendBankContent s tab : tames (_SendBankContent s tab).
Proof. unfold _SendBankContent. tame_body. Qed.
Hint Resolve tames_SendBankContent : tame.

(** [SendLoginInfo] marks the member online last. *)
Lemma tames_SendLoginInfo session : tames (SendLoginInfo session).
Proof.
  unfold SendLoginInfo, SendBankTabsInfo. do 5 (apply tames_bind; [tame_body|intros ?]).
  apply tames_bind; [tame_body|]. intros _ [g w] Hs. apply wlp_bind. cbn. unfold GetMember.
  destruct (m_members g !! _) eqn:Hm; [|done]. by apply (tame_put _ _ g w _ m).
Qed.
Hint Resolve tames_SendLoginInfo : tame.

(** ** Members come and go *)
(** What the lookup of a player says from then on. *)
Definition known (guid : Z) (player : option Player) : Prop :=
  match player with
  | Some p => p_GUID p = guid /\ p_GUIDLow p = guid
  | None => m_PlayerMap w0 !! guid = None
  end.
Lemma known_player g w guid : tame (g, w) -> known guid (FindPlayer guid w).
Proof.
  intros Hs. unfold FindPlayer, known. destruct (m_PlayerMap w !! guid) eqn:E.
  - by destruct (tame_players _ Hs guid p E) as (? & ? & _).
  - destruct (tame_steady _ _ _ Hs) as [_ Hc]. specialize (Hc guid). cbn in Hc. rewrite E in Hc.
    by destruct (m_PlayerMap w0 !! guid).
Qed.

Lemma tame_drop g w guid p :
  0 <= guid < 2 ^ 32 -> known guid p ->
  tame (g, w) ->
  tame (set_g_members (delete guid (m_members g)) g,
        match p with
        | Some p => update_player (SetRank 0) p (SetInGuild 0 p w)
        | None => UpdateGlobalPlayerGuild guid 0 w
        end).
Proof.
  intros Hr Hp Hs. pose proof (tame_players _ Hs) as Hw. destruct Hs as [Hid Hkeys Hlead Hst Hgone Hstand].
  cbn in *.
  assert (forall i, RemoveGuild i ∈ w_trace w -> i = id /\ delete guid (m_members g) = ∅) as Hrem.
  { intros i Hi. destruct (Hgone i Hi) as [-> ->]. by rewrite delete_empty. }
  assert (forall v, w_trace (UpdateGlobalPlayerGuild guid v w) = w_trace w) as Htr
    by (intros v; unfold UpdateGlobalPlayerGuild; by case_match).
  destruct p as [p|].
  - destruct Hp as (Eg & El). split; cbn; [done| |done| | |].
    + intros k m. rewrite lookup_delete_Some. intros [_ ?]. by apply Hkeys.
    + etransitivity; [exact Hst|]. etransitivity; [apply steady_in_guild|]. by apply steady_update.
    + unfold SetInGuild, UpdateGlobalPlayerGuild. intros i Hi.
      assert (RemoveGuild i ∈ w_trace w) as Hi' by (revert Hi; by case_match).
      by apply Hrem.
    + intros k q. unfold SetInGuild, UpdateGlobalPlayerGuild.
      assert (alter (SetRank 0) (p_GUID p) (alter (SetGuildId 0) (p_GUID p) (m_PlayerMap w)) !! k = Some q ->
              p_GuildId q = 0 \/ (p_GuildId q = id /\ is_Some (delete guid (m_members g) !! k)) \/
              exists p0, m_PlayerMap w0 !! k = Some p0 /\ p_GuildId p0 = p_GuildId q /\ p_GuildId p0 <> id) as Hk.
      { rewrite Eg. destruct (decide (guid = k)) as [<-|Hne].
        - rewrite !lookup_alter_eq. intros (q1 & (q2 & Hq & ->)%fmap_Some & ->)%fmap_Some. by left.
        - rewrite !lookup_alter_ne by done. intros Hq. rewrite lookup_delete_ne by done. by apply Hstand. }
      by case_match.
  - unfold UpdateGlobalPlayerGuild.
    assert (tame (set_g_members (delete guid (m_members g)) g, w)) as Hd.
    { split; cbn; [done| |done|done| |].
      - intros k m. rewrite lookup_delete_Some. intros [_ ?]. by apply Hkeys.
      - done.
      - intros k q Hq. destruct (decide (guid = k)) as [<-|Hne].
        { destruct Hst as [_ Hc]. specialize (Hc guid). cbn in Hp. by rewrite Hp, Hq in Hc. }
        rewrite lookup_delete_ne by done. by apply Hstand. }
    case_match; [|done]. by apply (tame_world _ _ _ w).
Qed.

Lemma wlp_drop_member guid isd player g w :
  0 <= guid < 2 ^ 32 -> known guid player -> tame (g, w) ->
  wlp (drop_member guid isd player)
    (fun _ s => tame s /\ m_members s.1 = delete guid (m_members g)) (g, w).
Proof.
  intros Hr Hp Hs. pose proof (tame_drop g w guid player Hr Hp Hs) as Hd.
  unfold drop_member. rewrite GUID_LOPART_small by done. cbv zeta. apply wlp_bind. cbn.
  apply wlp_bind. set (g1 := set_g_members _ g) in *.
  assert (m_members g1 = delete guid (m_members g)) as Hm by done. clearbody g1.
  match type of Hd with tame (_, ?w1) =>
    change (wlp (_DeleteMemberFromDB guid ;; when (negb isd) (modg _UpdateAccountsNumber))
      (fun _ s => tame s /\ m_members s.1 = delete guid (m_members g)) (g1, w1)) || idtac end.
  destruct player as [p|]; cbn; (destruct isd; cbn; (split; [|done]));
    apply (tame_world _ _ _ _ _ (mild_execute _ _)); try apply (tame_guild _ _ g1); done.
Qed.

Lemma tames_drop_member guid isd player :
  0 <= guid < 2 ^ 32 -> known guid player -> tames (drop_member guid isd player).
Proof. intros Hr Hp [g w] Hs. eapply wlp_mono; [by apply wlp_drop_member|]. by intros [] s' [? _]. Qed.

Lemma tames_DeleteMember_with D guid isd kicked can :
  0 <= guid < 2 ^ 32 -> tames D -> tames (DeleteMember_with D guid isd kicked can).
Proof.
  intros Hr HD [g w] Hs. unfold DeleteMember_with. cbv zeta. apply wlp_bind. cbn. apply wlp_bind. cbn.
  pose proof (known_player g w guid Hs) as Hk.
  apply tames_at; [done|]. case_if; [|by apply tames_drop_member].
  destruct (succession _ g) as [old [[k n]|]]; [|tame_body].
  repeat first [apply tames_drop_member; done | tame_step].
Qed.

Lemma wlp_disband_loop n g w :
  (size (m_members g) <= n)%nat -> tame (g, w) ->
  wlp (disband_loop n) (fun _ s => tame s /\ m_members s.1 = ∅) (g, w).
Proof.
  revert g w. induction n as [|n IH]; intros g w Hn Hs; cbn [disband_loop].
  { split; [done|]. apply map_size_empty_inv. cbn. lia. }
  apply wlp_bind. cbn. destruct (members_in_order g) as [|[k m] l] eqn:E.
  { split; [done|]. apply map_eq. intros i. rewrite lookup_empty. apply eq_None_not_Some. cbn [fst]. intros [m Hm].
    apply (@elem_of_members_in_order H) in Hm. rewrite E in Hm. by apply not_elem_of_nil in Hm. }
  assert (m_members g !! k = Some m) as Hm by (apply (@elem_of_members_in_order H); rewrite E; left).
  destruct (tame_keys _ _ _ Hs k m Hm) as [Hk Hr]. apply wlp_bind.
  unfold DeleteMember_with. cbv zeta. apply wlp_bind. cbn. apply wlp_bind. cbn [getg wlp fst].
  rewrite andb_false_r, Hk. eapply wlp_mono; [apply wlp_drop_member; [done|by eapply known_player|done]|].
  intros [] [g' w'] [Hs' Hm']. apply IH; [|done]. cbn in Hm'. rewrite Hm', map_size_delete_Some; [lia|by eexists].
Qed.

Lemma tame_removed g w l :
  m_members g = ∅ -> tame (g, w) ->
  tame (set_g_tabs [] g, emit (RemoveGuild (m_id g)) (CommitTransaction l w)).
Proof.
  intros Hm Hs. pose proof (tame_id _ _ _ Hs) as Hid. cbn in Hid.
  pose proof (tame_guild _ _ g (set_g_tabs [] g) w eq_refl eq_refl eq_refl Hs) as Hs3.
  destruct (tame_world _ _ _ _ _ (mild_Commit l w) Hs3) as [? ? ? Hst Hgone Hstand].
  split; cbn [fst snd] in *; [done..| |done].
  intros i Hi. apply elem_of_app in Hi as [Hi|Hi]; [by apply Hgone|].
  apply list_elem_of_singleton in Hi as [= ->]. by rewrite Hid.
Qed.

Lemma tames_Disband : tames Disband.
Proof.
  intros [g w] Hs. unfold Disband. apply wlp_bind. eapply wlp_mono; [by apply tames_broadcast|].
  intros [] [g1 w1] Hs1. apply wlp_bind. cbn [getg wlp fst]. apply wlp_bind.
  eapply wlp_mono; [by apply wlp_disband_loop|]. intros [] [g2 w2] [Hs2 Hm].
  by apply (tame_removed g2 w2).
Qed.
Hint Resolve tames_Disband : tame.

Lemma tames_DeleteMember guid isd kicked can :
  0 <= guid < 2 ^ 32 -> tames (DeleteMember guid isd kicked can).
Proof. intros Hr. apply tames_DeleteMember_with; [done|apply tames_Disband]. Qed.

(** *** Joining *)
Lemma tame_join g w p k m :
  p_GUID p = k -> 0 <= k < 2 ^ 32 -> gm_guid m = k -> (forall i, RemoveGuild i ∉ w_trace w) ->
  tame (g, w) -> tame (put_member k m g, SetInGuild (m_id g) p w).
Proof.
  intros Hp Hk Hm Hno [Hid Hkeys Hlead Hst Hgone Hstand]. cbn in *.
  assert (m_PlayerMap (SetInGuild (m_id g) p w) = alter (SetGuildId (m_id g)) k (m_PlayerMap w)
          /\ w_trace (SetInGuild (m_id g) p w) = w_trace w) as [Epl Etr].
  { unfold SetInGuild, UpdateGlobalPlayerGuild. rewrite <- Hp. by case_match. }
  split; cbn [fst snd]; [done| |done| | |].
  - intros j n. cbn. destruct (decide (j = k)) as [->|Hne];
      [rewrite lookup_insert_eq; by intros [= <-]|rewrite lookup_insert_ne by done; auto].
  - etransitivity; [exact Hst|apply steady_in_guild].
  - intros i. rewrite Etr. intros Hi. by destruct (Hno i).
  - intros j q. rewrite Epl. cbn. destruct (decide (j = k)) as [->|Hne].
    + rewrite lookup_alter_eq. intros (q0 & _ & ->)%fmap_Some. right. left.
      split; [done|]. rewrite lookup_insert_eq. by eexists.
    + rewrite lookup_alter_ne, lookup_insert_ne by done. apply Hstand.
Qed.

Lemma tame_accept query session g w :
  (forall i, RemoveGuild i ∉ w_trace w) -> tame (g, w) ->
  wlp (HandleAcceptMember query session) (fun _ => tame) (g, w).
Proof.
  intros Hno Hs. unfold HandleAcceptMember. apply wlp_bind. unfold GetPlayer. apply wlp_bind, wlp_lift.
  intros p Hp. destruct (tame_players _ Hs session p Hp) as (Eg & El & Hr). cbn [getw snd] in Hp.
  apply wlp_bind. apply (wlp_mono _ (fun _ => tame)); [|by intros]. rewrite Eg.
  unfold AddMember. apply wlp_bind. cbn [getw wlp snd]. apply wlp_bind. cbn [getg wlp fst]. cbv zeta.
  cbn [fst snd]. rewrite GUID_LOPART_small, Hp by done. case_if; [done|]. apply wlp_bind. cbn [modw wlp fst snd].
  apply wlp_bind, wlp_bind, wlp_store, wlp_bind. cbn [modw wlp fst snd].
  match goal with |- context [put_member session ?m g] =>
    pose proof (tame_join g (emit (PetitionsCleared session GUILD_CHARTER_TYPE) w) p session m Eg Hr eq_refl) as Hj end.
  specialize (Hj ltac:(intros i; cbn; rewrite elem_of_app; intros [Hi|Hi%list_elem_of_singleton]; [by apply (Hno i)|done])
                 (tame_world _ _ _ _ _ (mild_emit (PetitionsCleared session GUILD_CHARTER_TYPE) w eq_refl) Hs)).
  match type of Hj with tame (put_member _ ?m _, ?w1) =>
    assert (m_members (put_member session m g) !! session = Some m) as Hlook by apply lookup_insert_eq end.
  revert Hlook Hj. generalize (SetInGuild (m_id g) p (emit (PetitionsCleared session GUILD_CHARTER_TYPE) w)).
  match goal with |- context [put_member session ?m g] =>
    generalize (put_member session m g); generalize m as m0 end.
  intros m0 g1 w1 Hlook Hj.
  apply wlp_bind. cbn [modw wlp fst snd]. apply wlp_bind. cbn [modw wlp fst snd]. apply wlp_bind, wlp_store.
  rewrite Eg. eapply wlp_mono; [apply tames_at; [|tame_body]|].
  - apply (tame_put _ _ g1 _ session m0); [done|done|]. eapply tame_world; [|exact Hj].
    etransitivity; by apply mild_update.
  - intros o s' Hs'. apply tames_at; [done|]. tame_body.
Qed.

(** *** The other requests *)
Lemma tames_stats f : (forall m, gm_guid (f m) = gm_guid m) ->
  forall key (k : Guild -> G unit), (forall g, tames (k g)) ->
  tames (g ← getg; match GetMember key g with
                   | Some m => store (GUID_LOPART key) (f m)
                   | None => mret tt end ;; k g).
Proof. intros Hf key k Hk. by apply (tames_update (GUID_LOPART key)). Qed.

Lemma tames_members_map f : (forall m, gm_guid (f m) = gm_guid m) ->
  tames (modg (fun g => set_g_members (f <$> m_members g) g)).
Proof.
  intros Hf [g w] [Hid Hkeys Hlead Hst Hgone Hstand]. cbn in *. split; cbn; [done| |done|done| |].
  - intros k m. rewrite lookup_fmap. intros (n & Hn & ->)%fmap_Some. rewrite Hf. by apply Hkeys.
  - intros i Hi. destruct (Hgone i Hi) as [-> ->]. by rewrite fmap_empty.
  - intros k p Hp. rewrite lookup_fmap. destruct (Hstand k p Hp) as [?|[[? [? ->]]|?]]; [by left| |by auto].
    right. left. by split.
Qed.

Lemma tames_member_update key (c1 c2 : bool) f1 f2 :
  (forall m, gm_guid (f1 m) = gm_guid m) -> (forall m, gm_guid (f2 m) = gm_guid m) ->
  tames (g ← getg; match GetMember key g with
                   | Some m => if c1 then store (GUID_LOPART key) (f1 m)
                               else if c2 then store (GUID_LOPART key) (f2 m) else mret tt
                   | None => mret tt end).
Proof.
  intros H1 H2 [g w] Hs. apply wlp_bind. cbn [getg wlp fst]. destruct (GetMember key g) as [m|] eqn:Hm; [|done].
  destruct c1; [by apply (tame_put _ _ g w _ m)|]. destruct c2; [by apply (tame_put _ _ g w _ m)|done].
Qed.

Lemma tames_UpdateMemberData p dataid value : tames (UpdateMemberData p dataid value).
Proof. unfold UpdateMemberData. cbv zeta. by apply tames_member_update. Qed.
Lemma tames_OnPlayerStatusChange p flag state : tames (OnPlayerStatusChange p flag state).
Proof.
  intros [g w] Hs. unfold OnPlayerStatusChange. apply wlp_bind. cbn [getg wlp fst].
  destruct (GetMember (p_GUID p) g) as [m|] eqn:Hm; [|done]. by apply (tame_put _ _ g w _ m); [|destruct state|].
Qed.
Hint Resolve tames_UpdateMemberData tames_OnPlayerStatusChange : tame.

Lemma tames_HandleMemberLogout session : tames (HandleMemberLogout session).
Proof.
  unfold HandleMemberLogout. apply tames_bind; [tame_body|intros p]. intros [g w] Hs.
  apply wlp_bind. cbn [getg wlp fst]. apply wlp_bind. cbn [getw wlp snd]. apply wlp_bind.
  destruct (GetMember (p_GUID p) g) as [m|] eqn:Hm; [|by apply tames_broadcast].
  apply wlp_store, tames_broadcast. by apply (tame_put _ _ g w _ m).
Qed.
Lemma tames_HandleLeaveMember session : tames (HandleLeaveMember session).
Proof.
  unfold HandleLeaveMember. apply tames_player. intros p -> -> Hr.
  repeat first [apply tames_DeleteMember; done | tame_step].
Qed.
Lemma tames_HandleRemoveMember session name : tames (HandleRemoveMember session name).
Proof.
  unfold HandleRemoveMember. apply tames_player. intros p -> -> Hr.
  repeat first [apply tames_member; intros m Hm Hk | rewrite Hm; apply tames_DeleteMember; done | tame_step].
Qed.
Lemma tames_ResetTimes : tames ResetTimes.
Proof. unfold ResetTimes. apply tames_bind; [by apply tames_members_map|tame_body]. Qed.
Hint Resolve tames_HandleMemberLogout tames_HandleLeaveMember tames_HandleRemoveMember tames_ResetTimes : tame.

Lemma tames_SendBankContentUpdate src dest : tames (_SendBankContentUpdate src dest).
Proof. unfold _SendBankContentUpdate. tame_body. Qed.
Hint Resolve tames_SendBankContentUpdate : tame.

Lemma tame_handle query localtime session r g w :
  (forall i, RemoveGuild i ∉ w_trace w) -> tame (g, w) ->
  wlp (handle query localtime session r) (fun _ => tame) (g, w).
Proof.
  intros Hno Hs. destruct r; cbn [handle]; try (by apply tame_accept); apply tames_at; try done.
  all: try solve [auto with tame].
  all: cbv beta delta [HandleQuery SendInfo SendEventLog SendBankLog SendBankTabData SendBankTabText
    SendPermissions SendMoneyInfo HandleSetMOTD HandleSetInfo HandleSetLeader HandleSetBankTabInfo
    HandleSetMemberNote HandleSetRankInfo HandleInviteMember HandleUpdateMemberRank HandleAddNewRank
    HandleRemoveLowestRank HandleRemoveRank HandleDisband ChangeMemberRank SwapItems sprintf_aux
    _MoveItems InitItem] zeta; tame_body.
Qed.

(** ** The repair *)
Lemma tames_leader (f : Guild -> G bool) :
  (forall g, 0 <= m_leaderGuid g < 2 ^ 32 -> tames (f g)) -> tames (getg ≫= f).
Proof. intros Hf [g w] Hs. apply wlp_bind. cbn. apply Hf; [by destruct Hs|done]. Qed.

Lemma tames_validate_leader : tames validate_leader.
Proof.
  unfold validate_leader. apply tames_leader. intros g Hl.
  repeat first [apply tames_DeleteMember; done | tame_step].
Qed.
Lemma tames_validate_ranks l b : tames (validate_ranks l b).
Proof. revert b. induction l as [|i l IH]; intros b; cbn [validate_ranks]; unfold validate_rank; [tame_body|].
  apply tames_bind; [tame_body|auto]. Qed.
Hint Resolve tames_validate_leader tames_validate_ranks : tame.

Lemma tames_Validate cfg texts : tames (Validate cfg texts).
Proof. unfold Validate, validate_sequence, lower_rank, demote_master. tame_body. Qed.
End Methods.
