(* ===== verification/GuildServer.v ===== *)
(** * Guilds: the server

    The invariant of the guilds of the whole server and the players online, and
    that loading, every guild packet and every update keep it. *)
From Stdlib Require Import Ascii String ZArith Lia.
From stdpp Require Import base gmap sets list strings.
From S2P Require Import Prelude ByteBuffer Utf8 World Guild GuildOps GuildLogic GuildFacts GuildTheorems GuildFrame GuildMgr.

Open Scope Z_scope.

(** Every stored guild is filed under its identifier and satisfies the guild
    invariant; a player who is in a guild is a member of a stored one. *)
Record server_ok (st : Server) : Prop := mkServerOk {
  so_guilds : forall id g, guilds st !! id = Some g -> m_id g = id /\ Inv (g, sv_world st);
  so_players : players_ok (sv_world st);
  so_standing : forall k p, m_PlayerMap (sv_world st) !! k = Some p ->
    p_GuildId p = 0 \/ exists g, guilds st !! p_GuildId p = Some g /\ is_Some (m_members g !! k)
}.

(** ** A call of a stored guild's method *)
Lemma carry_out_world es st : sv_world (foldl carry_out st es) = sv_world st.
Proof. revert st. induction es as [|e es IH]; intros st; cbn; [done|]. rewrite IH. by destruct e. Qed.

Lemma carry_out_guilds id es st :
  (forall i, World.RemoveGuild i ∈ es -> i = id) ->
  guilds (foldl carry_out st es)
  = if List.existsb is_removal es then delete id (guilds st) else guilds st.
Proof.
  revert st. induction es as [|e es IH]; intros st Hes; cbn; [done|]. rewrite IH by set_solver.
  destruct e as [| | |i| | |]; cbn; try done. rewrite (Hes i) by left. cbn.
  case_if; [|done]. apply delete_delete_eq.
Qed.

Lemma existsb_removal es :
  List.existsb is_removal es = true <-> exists i, World.RemoveGuild i ∈ es.
Proof.
  rewrite existsb_exists. split.
  - intros ([| | |i| | |] & Hin & He); try done. exists i. by apply list_elem_of_In.
  - intros [i Hi]. exists (World.RemoveGuild i). split; [by apply list_elem_of_In|done].
Qed.

Lemma tame_start id g st :
  server_ok st -> guilds st !! id = Some g ->
  tame id (set_trace [] (sv_world st)) (g, set_trace [] (sv_world st)).
Proof.
  intros [Hg Hp Hs] Hid. destruct (Hg id g Hid) as [Hm [Hok [lm Hlm] _ _ _]]. cbn in *. split; cbn.
  - done.
  - intros k m Hk. by destruct (go_members g Hok k m Hk) as (? & ? & _).
  - by destruct (go_members g Hok _ _ Hlm) as (? & ? & _).
  - done.
  - intros i Hi. by apply not_elem_of_nil in Hi.
  - intros k p Hk. destruct (Hs k p Hk) as [?|(g2 & Hg2 & Hin)]; [by left|right].
    destruct (decide (p_GuildId p = id)) as [E|Hne].
    + left. split; [done|]. rewrite E in Hg2. congruence.
    + right. eauto.
Qed.

Lemma call_guild_ok {A} id (m : G A) g st :
  server_ok st -> guilds st !! id = Some g ->
  wp m (fun _ s => sound_after s /\ tame id (set_trace [] (sv_world st)) s) (g, set_trace [] (sv_world st)) ->
  exists a st', call_guild id m st = Some (a, st') /\ server_ok st'
    /\ forall j, j <> id -> guilds st' !! j = guilds st !! j.
Proof.
  intros Hst Hid Hm. apply wp_run in Hm as (a & [g' w'] & E & Hs & Ht).
  unfold call_guild, GetGuildById. rewrite Hid. cbn. rewrite E. cbn. eexists _, _. split; [reflexivity|].
  destruct Ht as [Eid _ _ Hsteady Hgone Hstand]. cbn [fst snd] in *.
  assert (steady (sv_world st) (set_trace (w_trace (sv_world st) ++ w_trace w') w')) as Hw by exact Hsteady.
  assert (guilds (foldl carry_out (set_world (set_trace (w_trace (sv_world st) ++ w_trace w') w')
            (set_store (<[id := g']> (guilds st)) st)) (w_trace w'))
          = if List.existsb is_removal (w_trace w') then delete id (<[id := g']> (guilds st))
            else <[id := g']> (guilds st)) as Eg.
  { apply (carry_out_guilds id). intros i Hi. by destruct (Hgone i Hi). }
  split; [|intros j Hne; rewrite Eg; case_if; by rewrite ?lookup_delete_ne, lookup_insert_ne].
  assert (forall j h, j <> id -> guilds st !! j = Some h ->
            m_id h = j /\ Inv (h, set_trace (w_trace (sv_world st) ++ w_trace w') w')) as Hother.
  { intros j h Hne Hj. destruct (so_guilds st Hst j h Hj) as [? HI]. split; [done|]. by apply (Inv_world _ (sv_world st)). }
  assert (m_members g' <> ∅ -> List.existsb is_removal (w_trace w') = false /\ Inv (g', w')) as Halive.
  { intros Hne. destruct Hs as [HI|(He & _)]; [|done]. split; [|done].
    apply not_true_is_false. rewrite existsb_removal. intros [i Hi]. by destruct (Hgone i Hi). }
  split; rewrite ?carry_out_world, ?Eg; cbn [sv_world set_world set_store].
  - intros j h. case_if.
    + intros [Hne Hj]%lookup_delete_Some. rewrite lookup_insert_ne in Hj by done. by apply Hother.
    + intros [[<- <-]|[Hne Hj]]%lookup_insert_Some; [|by apply Hother]. split; [done|].
      destruct Hs as [HI|(_ & _ & Hr)]; [by apply (Inv_world _ w')|].
      assert (List.existsb is_removal (w_trace w') = true) as Ht by (apply existsb_removal; eauto). cbn in *. congruence.
  - apply (players_ok_steady (sv_world st)); [done|apply Hst].
  - intros k p Hk. cbn in Hk. destruct (Hstand k p Hk) as [?|[[Ep Hin]|(p0 & Hp0 & Ep & Hne)]]; [by left|right|].
    + destruct Halive as [-> _]; [intros He; rewrite He, lookup_empty in Hin; by destruct Hin|].
      exists g'. by rewrite Ep, lookup_insert_eq.
    + cbn in Hp0. destruct (so_standing st Hst k p0 Hp0) as [E0|(h & Hh & Hin)]; [left; congruence|right].
      exists h. rewrite <- Ep. split; [|done].
      case_if; rewrite ?lookup_delete_ne, lookup_insert_ne by done; done.
Qed.

Section Server.
Context `{UnorderedIter} (cfg : Config) (GetTrinityString : Z -> Z -> string)
        (QueryCharData : Z -> option (string * Z * Z * Z * Z)) (localtime : Z -> tm).

Abbreviation handle := (handle QueryCharData localtime).

Lemma run_handle id session p r g st :
  server_ok st -> guilds st !! id = Some g -> FindPlayer session (sv_world st) = Some p -> well_formed r ->
  exists st', run id (handle session r) st = Ok st' /\ server_ok st'
    /\ forall j, j <> id -> guilds st' !! j = guilds st !! j.
Proof.
  intros Hst Hid Hp Hr. destruct (so_guilds st Hst id g Hid) as [Em HI].
  destruct (call_guild_ok id (handle session r) g st Hst Hid) as ([] & st' & E & Hst' & Hw).
  - apply wlp_wp.
    + apply (handle_safe _ _ _ p); [by apply (Inv_world _ (sv_world st))|done|done].
    + apply tame_handle; [apply Hst|by intros i Hi%not_elem_of_nil|by apply tame_start].
  - exists st'. unfold run. by rewrite E.
Qed.

Lemma server_world st w :
  server_ok st -> steady (sv_world st) w ->
  (forall k p, m_PlayerMap w !! k = Some p -> p_GuildId p = 0
     \/ exists p0, m_PlayerMap (sv_world st) !! k = Some p0 /\ p_GuildId p0 = p_GuildId p) ->
  server_ok (set_world w st).
Proof.
  intros [Hg Hp Hs] Hw Hid. split; cbn.
  - intros id g Hin. destruct (Hg id g Hin) as [? HI]. split; [done|]. by apply (Inv_world _ (sv_world st)).
  - by apply (players_ok_steady (sv_world st)).
  - intros k p Hk. destruct (Hid k p Hk) as [?|(p0 & Hp0 & <-)]; [by left|]. by apply (Hs k).
Qed.

Lemma server_mild st w : server_ok st -> mild (sv_world st) w -> server_ok (set_world w st).
Proof.
  intros Hst (Hw & _ & Hid). apply server_world; [done..|]. intros k p Hk. right.
  specialize (Hid k). rewrite Hk in Hid. cbn in Hid. symmetry in Hid.
  apply fmap_Some in Hid as (p0 & ? & ?). eauto.
Qed.

(** What a packet of [p] may do: keep the invariant, and change no guild but the
    player's own and the one they are invited to. *)
Definition fine (p : Player) (st st' : Server) : Prop :=
  server_ok st'
  /\ forall id, id <> p_GuildId p -> id <> p_GuildIdInvited p -> guilds st' !! id = guilds st !! id.

Lemma fine_same p st : server_ok st -> fine p st st.
Proof. by split. Qed.
Hint Resolve fine_same : core.

Lemma GetGuild_stored p id st :
  GetGuild p st = Some id -> id = p_GuildId p /\ exists g, guilds st !! id = Some g.
Proof. unfold GetGuild, GetGuildById. repeat case_match; intros [= <-]; eauto. Qed.

Lemma own_run session p id r st :
  server_ok st -> FindPlayer session (sv_world st) = Some p -> GetGuild p st = Some id -> well_formed r ->
  safely (run id (handle session r) st) (fine p st).
Proof.
  intros Hst Hp Hid Hr. destruct (GetGuild_stored _ _ _ Hid) as [-> [g Hg]].
  destruct (run_handle _ session p r g st Hst Hg Hp Hr) as (st' & -> & Hst' & Hoth).
  split; [done|]. intros j Hj _. by apply Hoth.
Qed.

Lemma own_handle session p r st :
  server_ok st -> FindPlayer session (sv_world st) = Some p -> well_formed r ->
  safely (on_own_guild session (handle session r) st) (fine p st).
Proof.
  intros Hst Hp Hr. unfold on_own_guild, with_player. rewrite Hp.
  destruct (GetGuild p st) as [id|] eqn:Hid; [by apply own_run|by apply fine_same].
Qed.

(** A name whose conversion stays within the buffer (see [normalize_name]). *)
Definition name_fits (recv : ByteBuffer) : Prop :=
  forall name rest, read_string recv = Ok (name, rest) -> normalizePlayerName name <> UB.

Lemma on_named_safe recv (st : Server) (k : string -> outcome Server) (P : Server -> Prop) :
  received recv -> name_fits recv -> P st -> (forall n, safely (k n) P) ->
  safely (let* '(name, recv) := read_string recv in on_named name st k) P.
Proof.
  intros Hr Hn Hst Hk. apply safely_bind. pose proof (read_string_received recv Hr) as Hs.
  destruct (read_string recv) as [[name rest]| |] eqn:E; [|done..]. cbn. unfold on_named.
  specialize (Hn name rest E). destruct (normalizePlayerName name) as [[n|]| |]; cbn; auto.
Qed.

Lemma on_named_note recv (st : Server) (k : string -> string -> outcome Server) (P : Server -> Prop) :
  received recv -> name_fits recv -> P st -> (forall note n, safely (k note n) P) ->
  safely (let* '(name, recv) := read_string recv in
          let* '(note, recv) := read_string recv in on_named name st (k note)) P.
Proof.
  intros Hr Hn Hst Hk. apply safely_bind. pose proof (read_string_received recv Hr) as Hs.
  destruct (read_string recv) as [[name rest]| |] eqn:E; [|done..]. cbn in Hs |- *. apply safely_bind.
  eapply safely_mono; [by apply read_string_received|]. intros [note rest2] _. unfold on_named.
  specialize (Hn name rest E). destruct (normalizePlayerName name) as [[n|]| |]; cbn; auto.
Qed.

Lemma on_text_safe recv (k : string -> outcome Server) (P : Server -> Prop) :
  received recv -> (forall text, safely (k text) P) ->
  safely (let* '(text, recv) := read_string recv in k text) P.
Proof.
  intros Hr Hk. apply safely_bind. eapply safely_mono; [by apply read_string_received|]. intros [t b] _. apply Hk.
Qed.

Lemma read_tabs_safe n t recv :
  received recv -> safely (read_tabs n t recv) (fun r => exists tabs,
    length tabs = n /\ r.1 = imap (fun i '(rights, slots) => RightsAndSlots_of (t + Z.of_nat i) rights slots) tabs).
Proof.
  revert t recv. induction n as [|n IH]; intros t recv Hr; cbn [read_tabs]; [by exists []|].
  apply safely_bind. eapply safely_mono; [apply (read_received 4 recv Hr); lia|]. intros [a b1] Hb1. cbn in Hb1.
  apply safely_bind. eapply safely_mono; [apply (read_received 4 b1 Hb1); lia|]. intros [c b2] Hb2. cbn in Hb2.
  apply safely_bind. eapply safely_mono; [by apply IH|]. intros [l b3] (tabs & Hl & E). cbn in E.
  exists ((a, c) :: tabs). cbn. split; [by rewrite Hl|]. rewrite Z.add_0_r, E. f_equal.
  apply imap_ext. intros i [x y] _. cbn. f_equal. lia.
Qed.

Lemma rank_packet_safe recv session p (st : Server) :
  received recv -> server_ok st -> FindPlayer session (sv_world st) = Some p ->
  safely (HandleGuildRankOpcode recv session st) (fine p st).
Proof.
  intros Hr Hst Hp. unfold HandleGuildRankOpcode.
  apply safely_bind. eapply safely_mono; [apply (read_received 4 recv Hr); lia|]. intros [rankId b1] Hb1. cbn in Hb1.
  apply safely_bind. eapply safely_mono; [apply (read_received 4 b1 Hb1); lia|]. intros [rights b2] Hb2. cbn in Hb2.
  apply safely_bind. eapply safely_mono; [by apply read_string_received|]. intros [name b3] Hb3. cbn in Hb3.
  apply safely_bind. eapply safely_mono; [apply (read_received 4 b3 Hb3); lia|]. intros [money b4] Hb4. cbn in Hb4.
  cbn beta iota. unfold with_player. rewrite Hp.
  destruct (GetGuild p st) as [id|] eqn:Hid; [|by apply fine_same].
  apply safely_bind. eapply safely_mono; [by apply read_tabs_safe|]. intros [l b5] (tabs & Hl & El). cbn [fst] in El. cbn beta iota.
  rewrite El. by apply (own_run session p id (ReqRank rankId name rights money tabs)).
Qed.

Lemma accept_safe recv session p (st : Server) :
  server_ok st -> FindPlayer session (sv_world st) = Some p ->
  safely (HandleGuildAcceptOpcode QueryCharData recv session st) (fine p st).
Proof.
  intros Hst Hp. unfold HandleGuildAcceptOpcode, with_player. rewrite Hp. case_if; [|by apply fine_same].
  unfold GetGuildById. destruct (guilds st !! p_GuildIdInvited p) as [g|] eqn:Hg; [|by apply fine_same].
  destruct (run_handle _ session p ReqAccept g st Hst Hg Hp I) as (st' & E & Hst' & Hoth).
  cbn [GuildFacts.handle] in E. rewrite E. split; [done|]. intros j _ Hj. by apply Hoth.
Qed.

Lemma decline_safe recv session p (st : Server) :
  server_ok st -> FindPlayer session (sv_world st) = Some p ->
  safely (HandleGuildDeclineOpcode recv session st) (fine p st).
Proof.
  intros Hst Hp. unfold HandleGuildDeclineOpcode, with_player. rewrite Hp. cbn. split; [|done]. apply server_world; [done| |].
  - etransitivity; [by apply (steady_update (SetGuildIdInvited 0) p)|apply steady_in_guild].
  - intros k q. unfold SetInGuild, UpdateGlobalPlayerGuild.
    assert (alter (SetGuildId 0) (p_GUID p) (alter (SetGuildIdInvited 0) (p_GUID p) (m_PlayerMap (sv_world st))) !! k
            = Some q -> p_GuildId q = 0 \/ exists p0, m_PlayerMap (sv_world st) !! k = Some p0 /\ p_GuildId p0 = p_GuildId q) as H1.
    { destruct (decide (p_GUID p = k)) as [<-|Hne].
      - rewrite !lookup_alter_eq. intros (q1 & _ & ->)%fmap_Some. by left.
      - rewrite !lookup_alter_ne by done. eauto. }
    by case_match.
Qed.

(** A query changes no guild. *)
Lemma query_guilds session p id g st st' :
  guilds st !! id = Some g -> FindPlayer session (sv_world st) = Some p ->
  run id (HandleQuery session) st = Ok st' -> guilds st' = <[id := g]> (guilds st).
Proof.
  intros Hg Hp. set (w := set_trace [] (sv_world st)).
  assert (wp (HandleQuery session) (fun _ s => s = (g, emits (sent p (query_packet g)) w)) (g, w)) as Hq
    by (unfold HandleQuery; wsteps; done).
  apply wp_run in Hq as ([] & s & E & ->). unfold run, call_guild, GetGuildById. rewrite Hg. cbn [mbind option_bind].
  fold w. rewrite E. cbn. unfold sent. destruct (p_connected p); cbn; by intros [= <-].
Qed.

Lemma query_safe recv session p (st : Server) :
  received recv -> server_ok st -> FindPlayer session (sv_world st) = Some p ->
  safely (HandleGuildQueryOpcode recv session st) (fine p st).
Proof.
  intros Hr Hst Hp. unfold HandleGuildQueryOpcode.
  apply safely_bind. eapply safely_mono; [apply (read_received 4 recv Hr); lia|]. intros [id b1] _.
  cbn beta iota. unfold with_player. rewrite Hp. case_if; [by apply fine_same|]. unfold GetGuildById.
  destruct (guilds st !! id) as [g|] eqn:Hg; [|by apply fine_same].
  destruct (run_handle id session p ReqQuery g st Hst Hg Hp I) as (st' & E & Hst' & Hoth).
  cbn [GuildFacts.handle] in E. rewrite E. split; [done|]. intros j _ _.
  destruct (decide (j = id)) as [->|Hne]; [|by apply Hoth].
  rewrite (query_guilds session p id g st st' Hg Hp E). by rewrite lookup_insert_eq.
Qed.

Lemma roster_safe recv session p (st : Server) :
  server_ok st -> FindPlayer session (sv_world st) = Some p ->
  safely (HandleGuildRosterOpcode recv session st) (fine p st).
Proof.
  intros Hst Hp. unfold HandleGuildRosterOpcode, with_player. rewrite Hp.
  destruct (GetGuild p st) as [id|] eqn:Hid.
  - by apply (own_run session p id ReqRoster).
  - cbn. split; [|done]. apply server_mild; [done|apply mild_SendPacket].
Qed.

Abbreviation guild_handler := (guild_handler QueryCharData).

Lemma packet_safe op recv session p st :
  server_ok st -> received recv -> name_fits recv -> FindPlayer session (sv_world st) = Some p ->
  safely (guild_handler op recv session st) (fine p st).
Proof.
  intros Hst Hr Hn Hp. pose proof (fun r => own_handle session p r st Hst Hp) as Hown.
  destruct op; cbn [GuildMgr.guild_handler].
  - by apply (query_safe _ _ p).
  - apply on_named_safe; [done|done|by apply fine_same|]. intros n. by apply (Hown (ReqInvite n)).
  - by apply (accept_safe _ _ p).
  - by apply (decline_safe _ _ p).
  - by apply (roster_safe _ _ p).
  - apply on_named_safe; [done|done|by apply fine_same|]. intros n. by apply (Hown (ReqUpdateRank n false)).
  - apply on_named_safe; [done|done|by apply fine_same|]. intros n. by apply (Hown (ReqUpdateRank n true)).
  - by apply (Hown ReqLeave).
  - apply on_named_safe; [done|done|by apply fine_same|]. intros n. by apply (Hown (ReqRemove n)).
  - by apply (Hown ReqDisband).
  - apply on_named_safe; [done|done|by apply fine_same|]. intros n. by apply (Hown (ReqLeader n)).
  - apply on_text_safe; [done|]. intros n. by apply (Hown (ReqMOTD n)).
  - by apply (rank_packet_safe _ _ p).
  - apply on_text_safe; [done|]. intros n. by apply (Hown (ReqAddRank n)).
  - by apply (Hown ReqRemoveLowestRank).
  - apply on_named_note; [done|done|by apply fine_same|]. intros note n. by apply (Hown (ReqNote n note true)).
  - apply on_named_note; [done|done|by apply fine_same|]. intros note n. by apply (Hown (ReqNote n note false)).
  - apply on_text_safe; [done|]. intros n. by apply (Hown (ReqSetInfo n)).
  - by apply (Hown ReqEventLog).
Qed.

Lemma update_safe session p dataid value st :
  server_ok st -> FindPlayer session (sv_world st) = Some p ->
  safely (update_member session dataid value st) server_ok.
Proof.
  intros Hst Hp. unfold update_member, with_player. rewrite Hp.
  destruct (GetGuild p st) as [id|] eqn:Hid; [|done]. destruct (GetGuild_stored _ _ _ Hid) as [_ [g Hg]].
  destruct (so_guilds st Hst id g Hg) as [_ HI].
  destruct (call_guild_ok id (UpdateMemberData p dataid value) g st Hst Hg) as ([] & st' & E & Hst' & _).
  - apply wlp_wp; [apply (safe_MemberData session); [by apply (Inv_world _ (sv_world st))|done]|].
    apply tames_UpdateMemberData. by apply tame_start.
  - unfold run. by rewrite E.
Qed.
End Server.
