(* ===== verification/GuildLoad.v ===== *)
(** * Guilds: start-up, and the states the server reaches

    [GuildMgr::LoadGuilds] from the tables; the theorems on the guilds of the
    whole server, with their scenario. *)
From Stdlib Require Import Ascii String ZArith Lia.
From stdpp Require Import base gmap sets list strings.
From S2P Require Import Prelude ByteBuffer Utf8 World Guild GuildOps GuildLogic GuildFacts GuildTheorems GuildScene GuildFrame GuildMgr GuildServer.

Open Scope Z_scope.

(** ** Loading a row touches one guild *)
Definition calm (id : Z) (s : GState) : Prop :=
  m_id s.1 = id /\ forall i, World.RemoveGuild i ∉ w_trace s.2.
Definition calms {A} (m : G A) : Prop := forall id s, calm id s -> wlp m (fun _ => calm id) s.

Lemma calms_bind {A B} (m : G A) (f : A -> G B) : calms m -> (forall a, calms (f a)) -> calms (m ≫= f).
Proof. intros Hm Hf id s Hs. apply wlp_bind. eapply wlp_mono; [by apply Hm|]. intros a s' Hs'. by apply Hf. Qed.
Lemma calms_ret {A} (a : A) : calms (mret a).
Proof. by intros id s Hs. Qed.
Lemma calms_getg : calms getg.
Proof. by intros id s Hs. Qed.
Lemma calms_getw : calms getw.
Proof. by intros id s Hs. Qed.
Lemma calms_lift {A} (o : option A) : calms (lift o).
Proof. intros id s Hs. by apply wlp_lift. Qed.
Lemma calms_modg f : (forall g, m_id (f g) = m_id g) -> calms (modg f).
Proof. intros Hf id [g w] [Hi Ht]. split; [|done]. cbn in *. by rewrite Hf. Qed.
Lemma calms_store k m : calms (store k m).
Proof. by apply calms_modg. Qed.
Lemma calms_modw f : (forall w, mild w (f w)) -> calms (modw f).
Proof. intros Hf id [g w] [Hi Ht]. split; [done|]. cbn in *. intros i Hin. destruct (Hf w) as (_ & Hm & _). by apply (Ht i), Hm. Qed.
Lemma calms_exec st : calms (exec st).
Proof. apply calms_modw, mild_execute. Qed.
Lemma calms_for_each {A} (l : list A) f : (forall a, calms (f a)) -> calms (for_each l f).
Proof.
  intros Hf. induction l as [|a l IH]; cbn [for_each]; [apply calms_ret|]. apply calms_bind; [apply Hf|done].
Qed.

Ltac calm_step :=
  lazymatch goal with
  | |- forall _, _ => intros ?
  | |- calms (mbind _ _) => apply calms_bind
  | |- calms (mret _) => apply calms_ret
  | |- calms getg => apply calms_getg
  | |- calms getw => apply calms_getw
  | |- calms (lift _) => apply calms_lift
  | |- calms (store _ _) => apply calms_store
  | |- calms (exec _) => apply calms_exec
  | |- calms (for_each _ _) => apply calms_for_each
  | |- calms (modg _) => apply calms_modg; done
  | |- calms (modw _) => apply calms_modw; intros ?; apply mild_global
  | |- calms (match ?x with _ => _ end) => destruct x
  end.

Lemma calms_load_row r : calms (load_row r).
Proof.
  destruct r; cbn [load_row]; cbv beta delta [LoadRankFromDB LoadMemberFromDB LoadBankRightFromDB
    _SetRankBankTabRightsAndSlots on_rank LoadEventLogFromDB LoadBankEventLogFromDB LoadBankTabFromDB
    LoadBankItemFromDB _DeleteMemberFromDB] zeta; repeat calm_step.
Qed.

(** ** Loading, table after table *)
Lemma steady_nobody w w' : m_PlayerMap w = ∅ -> steady w w' -> m_PlayerMap w' = ∅.
Proof.
  intros E Hs. apply map_eq. intros k. rewrite lookup_empty. apply eq_None_not_Some. intros [p Hp].
  destruct (steady_lookup _ _ _ _ Hs Hp) as (q & Hq & _). by rewrite E, lookup_empty in Hq.
Qed.

Section Load.
Context `{UnorderedIter} (cfg : Config) (GetTrinityString : Z -> Z -> string).

(** Every guild is still to be validated. *)
Record loading (pend : Z -> nat) (st : Server) : Prop := mkLoading {
  lg_nobody : m_PlayerMap (sv_world st) = ∅;
  lg_guilds : forall id g, guilds st !! id = Some g ->
    m_id g = id /\ loaded g /\ (length (m_ranks g) + pend id <= 256)%nat
}.

Lemma loading_direct pend sql st : loading pend st -> loading pend (direct sql st).
Proof. intros [Hn Hg]. by split. Qed.

Lemma load_one_ok r id pend st :
  row_ok r -> loading (fun j => if decide (j = u32 id) then (pend j + if is_rank_row r then 1 else 0)%nat else pend j) st ->
  exists st', load_one load_row (id, r) st = Ok st' /\ loading pend st'.
Proof.
  intros Hr [Hn Hg]. unfold load_one, GetGuildById. cbn [fst snd].
  destruct (guilds st !! u32 id) as [g|] eqn:Hid.
  - destruct (Hg _ g Hid) as (Em & Hld & Hlen). rewrite decide_True in Hlen by done.
    set (w := set_trace [] (sv_world st)).
    assert (calm (u32 id) (g, w)) as Hc by (split; [done|by intros i Hi%not_elem_of_nil]).
    pose proof (wlp_wp _ _ _ _ (wp_load_row r (pend (u32 id)) (g, w) Hr Hld Hlen)
                  (calms_load_row r _ _ Hc)) as Hw.
    apply wp_run in Hw as ([] & [g' w'] & E & (Hld' & Hst & Hlen') & Hid' & Htr). cbn [fst snd] in *.
    unfold run, call_guild, GetGuildById. rewrite Hid. cbn [mbind option_bind]. fold w. rewrite E. cbn.
    eexists. split; [reflexivity|].
    split; rewrite ?carry_out_world; cbn [sv_world set_world set_store].
    + by apply (steady_nobody w).
    + intros j h. rewrite (carry_out_guilds (u32 id)) by (intros i Hi; by destruct (Htr i)).
      replace (List.existsb is_removal (w_trace w')) with false.
      * cbn. intros [[<- <-]|[Hne Hj]]%lookup_insert_Some; [done|].
        destruct (Hg j h Hj) as (? & ? & Hl). by rewrite decide_False in Hl.
      * symmetry. apply not_true_is_false. rewrite existsb_removal. intros [i Hi]. by destruct (Htr i).
  - eexists. split; [reflexivity|]. split; [done|]. intros j g Hj. destruct (Hg j g Hj) as (? & ? & Hl).
    rewrite decide_False in Hl; [done|]. intros ->. congruence.
Qed.

(** How many rows of a table name a guild. *)
Definition rows_of {A} (id : Z) (rows : list (Z * A)) : nat :=
  length (List.filter (fun row => u32 row.1 =? id) rows).

Lemma load_table_ok {A} (C : A -> Row) (ranks : bool) rows pend st :
  (forall a, is_rank_row (C a) = ranks) -> Forall (fun row => row_ok (C row.2)) rows ->
  loading (fun j => pend j + if ranks then rows_of j rows else 0)%nat st ->
  exists st', load_table (fun a => load_row (C a)) rows st = Ok st' /\ loading pend st'.
Proof.
  intros HC. revert st. induction rows as [|[id a] rows IH]; intros st Hrows Hl; cbn [load_table].
  - exists st. split; [done|]. destruct Hl as [Hn Hg]. split; [done|]. intros j g Hj.
    destruct (Hg j g Hj) as (? & ? & Hlen). do 2 (split; [done|]). unfold rows_of in Hlen. cbn in Hlen.
    destruct ranks; lia.
  - apply Forall_cons in Hrows as [Ha Hrows]. cbn [snd] in Ha.
    destruct (load_one_ok (C a) id (fun j => pend j + if ranks then rows_of j rows else 0)%nat st Ha)
      as (st' & E & Hl').
    { destruct Hl as [Hn Hg]. split; [done|]. intros j g Hj. destruct (Hg j g Hj) as (? & ? & Hlen).
      do 2 (split; [done|]). rewrite HC. unfold rows_of in *. cbn in Hlen.
      destruct ranks, (Z.eqb_spec (u32 id) j) as [<-|Hne]; cbn in Hlen; case_decide; try congruence; lia. }
    change (load_one (fun a => load_row (C a)) (id, a) st) with (load_one load_row (id, C a) st).
    rewrite E. cbn [obind]. by apply IH.
Qed.

(** The guild a row defines. *)
Lemma load_definition_ok pend st f :
  (forall j, (pend j <= 256)%nat) -> loading pend st -> loading pend (load_definition st f).
Proof.
  intros Hp [Hn Hg]. unfold load_definition.
  assert (wp (load_guild f []) (fun _ s => loaded s.1 /\ m_ranks s.1 = [] /\ steady (sv_world st) s.2) (Guild_new, sv_world st)) as Hw.
  { pose proof (wp_load_guild f [] (sv_world st) (fun _ s => loaded s.1 /\ steady (sv_world st) s.2)
      (Forall_nil_2 _) ltac:(cbn; lia) (fun g w a b => conj a b)) as Hw.
    eapply wp_mono; [apply (wp_conj _ _ (fun _ s => m_ranks s.1 = []) _ Hw); done|]. cbn. tauto. }
  unfold load_guild in Hw. cbn [for_each] in Hw.
  apply wp_run in Hw as ([] & [g w] & E & Hld & Hr & Hst). cbn [fst snd] in *.
  assert (LoadFromDB f (Guild_new, sv_world st) = Some (tt, (g, w))) as E1.
  { unfold mbind, G_bind in E. destruct (LoadFromDB f _) as [[[] s]|]; [|done]. by cbn in E; simplify_eq. }
  rewrite E1. split; cbn; [by apply (steady_nobody (sv_world st))|].
  intros j h [[<- <-]|[Hne Hj]]%lookup_insert_Some; [|by apply Hg].
  split; [done|]. split; [done|]. rewrite Hr. cbn. apply Hp.
Qed.

Lemma load_definitions_ok fs pend st :
  (forall j, (pend j <= 256)%nat) -> loading pend st -> loading pend (foldl load_definition st fs).
Proof.
  intros Hp. revert st. induction fs as [|f fs IH]; intros st Hl; cbn; [done|].
  by apply IH, load_definition_ok.
Qed.

(** ** Validation

    The guilds still to be validated are loadable, the others satisfy the
    invariant. *)
Record validating (todo : list Z) (st : Server) : Prop := mkValidating {
  vg_nobody : m_PlayerMap (sv_world st) = ∅;
  vg_todo : forall id, id ∈ todo -> is_Some (guilds st !! id);
  vg_guilds : forall id g, guilds st !! id = Some g -> m_id g = id
    /\ if decide (id ∈ todo) then loaded g else Inv (g, sv_world st)
}.

Lemma nobody_ok w g : m_PlayerMap w = ∅ -> players_ok w /\ agree g w.
Proof. intros E. by apply (nobody_online w). Qed.

Lemma tame_loaded id g w :
  m_id g = id -> loaded g -> m_PlayerMap w = ∅ -> w_trace w = [] -> tame id w (g, w).
Proof.
  intros Hid Hld Hw Ht. split; cbn; [done| |apply Hld|done| |].
  - intros k m Hm. by destruct (ld_members g Hld k m Hm) as (? & ? & _).
  - intros i. rewrite Ht. intros Hi. by apply not_elem_of_nil in Hi.
  - intros k p. by rewrite Hw, lookup_empty.
Qed.

Lemma validate_run id g w :
  m_id g = id -> loaded g -> m_PlayerMap w = ∅ -> w_trace w = [] ->
  wp (Validate cfg GetTrinityString)
    (fun b s => (if b : bool then Inv s else m_members s.1 = ∅ /\ World.RemoveGuild id ∈ w_trace s.2) /\ tame id w s)
    (g, w).
Proof.
  intros Hid Hld Hw Ht. destruct (nobody_ok w g Hw) as [Hp Hag]. apply wlp_wp.
  - apply wp_Validate; [done..| |]; [by intros s' []|]. rewrite Hid. by intros.
  - apply tames_Validate; [done|]. by apply tame_loaded.
Qed.

Lemma validate_one_ok id todo st :
  NoDup (id :: todo) -> validating (id :: todo) st ->
  exists st', validate_one cfg GetTrinityString id st = Ok st' /\ validating todo st'.
Proof.
  intros [Hnin Hnd]%NoDup_cons [Hn Ht Hg]. destruct (Ht id) as [g Hid]; [left|].
  destruct (Hg id g Hid) as [Em Hld]. rewrite decide_True in Hld by left.
  set (w := set_trace [] (sv_world st)).
  pose proof (validate_run id g w Em Hld Hn eq_refl) as Hw.
  apply wp_run in Hw as (b & [g' w'] & E & Hb & [Eid _ _ Hst Hgone _]). cbn [fst snd] in *.
  unfold validate_one, call_guild, GetGuildById. rewrite Hid. cbn [mbind option_bind]. fold w. rewrite E. cbn.
  set (st1 := foldl carry_out _ _).
  assert (sv_world st1 = set_trace (w_trace (sv_world st) ++ w_trace w') w') as Ew
    by (unfold st1; by rewrite carry_out_world).
  assert (m_PlayerMap (sv_world st1) = ∅) as Hn1 by (rewrite Ew; by apply (steady_nobody w)).
  assert (guilds st1 = if List.existsb is_removal (w_trace w') then delete id (<[id := g']> (guilds st))
                       else <[id := g']> (guilds st)) as Eg.
  { unfold st1. apply (carry_out_guilds id). intros i Hi. by destruct (Hgone i Hi). }
  assert (forall gs, guilds st1 = gs -> (forall j, j <> id -> gs !! j = guilds st !! j) ->
    (forall h, gs !! id = Some h -> m_id h = id /\ Inv (h, sv_world st1)) -> validating todo st1) as Hdone.
  { intros gs Egs Hoth Hself. split; rewrite ?Egs.
    - done.
    - intros j Hj. rewrite Hoth by (by intros ->). apply Ht. by right.
    - intros j h Hj. destruct (decide (j = id)) as [->|Hne].
      + destruct (Hself h Hj) as [? ?]. by rewrite decide_False.
      + rewrite Hoth in Hj by done. destruct (Hg j h Hj) as [? Hh]. split; [done|].
        destruct (decide (j ∈ todo)).
        * rewrite decide_True in Hh; [done|by right].
        * rewrite decide_False in Hh; [|by intros [?|?]%elem_of_cons].
          apply (Inv_world _ (sv_world st)); [|done]. by rewrite Ew. }
  destruct b; cbn [fst snd].
  - assert (List.existsb is_removal (w_trace w') = false) as Enr.
    { apply not_true_is_false. rewrite existsb_removal. intros [i Hi]. destruct (Hgone i Hi) as [_ He].
      destruct (inv_leader _ Hb) as [lm Hlm]. cbn in Hlm. by rewrite He, lookup_empty in Hlm. }
    rewrite Enr in Eg. exists st1. split; [done|]. apply (Hdone _ Eg).
    + intros j Hne. by rewrite lookup_insert_ne.
    + intros h. rewrite lookup_insert_eq. intros [= <-]. split; [done|]. rewrite Ew. by apply (Inv_world _ w').
  - destruct Hb as [Hm Hr].
    assert (List.existsb is_removal (w_trace w') = true) as Er by (apply existsb_removal; eauto).
    rewrite Er in Eg. rewrite Eg, lookup_delete_eq. exists st1. split; [done|]. apply (Hdone _ Eg).
    + intros j Hne. by rewrite lookup_delete_ne, lookup_insert_ne.
    + intros h. by rewrite lookup_delete_eq.
Qed.

Lemma validate_all_ok todo st :
  NoDup todo -> validating todo st ->
  exists st', validate_all cfg GetTrinityString todo st = Ok st' /\ validating [] st'.
Proof.
  revert st. induction todo as [|id todo IH]; intros st Hnd Hv; cbn [validate_all]; [eauto|].
  destruct (validate_one_ok id todo st Hnd Hv) as (st1 & -> & Hv1). cbn [obind].
  apply IH; [|done]. by apply NoDup_cons in Hnd as [_ ?].
Qed.

(** ** All of it *)

(** The columns the queries give: see [row_ok]; at most 256 ranks a guild,
    whose numbers are distinct bytes. *)
Record tables_ok (t : Tables) : Prop := mkTablesOk {
  tk_member : Forall (fun row => row_ok (RowMember row.2)) (t_member t);
  tk_right : Forall (fun row => row_ok (RowRight row.2)) (t_right t);
  tk_ranks : forall id, (rows_of id (t_rank t) <= 256)%nat
}.

Lemma Forall_row_ok {A} (C : A -> Row) rows : (forall a, row_ok (C a)) -> Forall (fun row : Z * A => row_ok (C row.2)) rows.
Proof. intros HC. by apply Forall_true. Qed.

Lemma loading_table {A} (C : A -> Row) (load : A -> G unit) rows st (k : Server -> outcome Server) (P : Server -> Prop) :
  (forall a, is_rank_row (C a) = false) -> (load = fun a => load_row (C a)) ->
  Forall (fun row => row_ok (C row.2)) rows -> loading (fun _ => 0%nat) st ->
  (forall st', loading (fun _ => 0%nat) st' -> exists st'', k st' = Ok st'' /\ P st'') ->
  exists st'', (let* st' := load_table load rows st in k st') = Ok st'' /\ P st''.
Proof.
  intros HC -> Hr Hl Hk. destruct (load_table_ok C false rows (fun _ => 0%nat) st HC Hr) as (st1 & -> & Hl1).
  { destruct Hl as [Hn Hg]. split; [done|]. intros j g Hj. destruct (Hg j g Hj) as (? & ? & ?). split; [done|]. split; [done|]. cbn in *. lia. }
  cbn [obind]. by apply Hk.
Qed.

Lemma LoadGuilds_ok t st :
  m_PlayerMap (sv_world st) = ∅ -> guilds st = ∅ -> tables_ok t ->
  exists st', LoadGuilds cfg GetTrinityString t st = Ok st' /\ server_ok st' /\ m_PlayerMap (sv_world st') = ∅.
Proof.
  intros Hn Hg [Hm Hr Hk]. unfold LoadGuilds. cbv zeta.
  assert (loading (fun j => 0 + rows_of j (t_rank t))%nat
    (direct "DELETE g FROM guild g LEFT JOIN guild_member gm ON g.guildid = gm.guildid WHERE gm.guildid IS NULL" st)) as H0.
  { split; [done|]. intros id g Hid. change (guilds st !! id = Some g) in Hid. by rewrite Hg, lookup_empty in Hid. }
  apply (load_definitions_ok (t_guild t)) in H0; [|intros j; apply Hk].
  eapply (loading_direct _ _ _) in H0.
  destruct (load_table_ok RowRank true (t_rank t) (fun _ => 0%nat) _ (fun _ => eq_refl)
              (Forall_row_ok RowRank _ (fun _ => I)) H0) as (st1 & E1 & H1).
  change (fun a => load_row (RowRank a)) with LoadRankFromDB in E1. setoid_rewrite E1. cbn [obind].
  assert (forall st', loading (fun _ => 0%nat) st' -> exists st'',
            validate_all cfg GetTrinityString (fst <$> uiter (guilds st')) st' = Ok st''
            /\ server_ok st'' /\ m_PlayerMap (sv_world st'') = ∅) as Hend.
  { intros st' [Hn' Hg']. destruct (validate_all_ok (fst <$> uiter (guilds st')) st') as (st'' & E & [Hn2 _ Hg2]).
    - rewrite uiter_perm. apply NoDup_fst_map_to_list.
    - split; [done| |].
      + intros id Hid. apply list_elem_of_fmap in Hid as ([j g] & -> & Hj). rewrite uiter_perm in Hj.
        apply elem_of_map_to_list in Hj. by eexists.
      + intros id g Hid. destruct (Hg' id g Hid) as (? & ? & _). split; [done|]. rewrite decide_True; [done|].
        apply list_elem_of_fmap. exists (id, g). split; [done|]. rewrite uiter_perm. by apply elem_of_map_to_list.
    - exists st''. split; [done|]. split; [|done]. split.
      + intros id g Hid. destruct (Hg2 id g Hid) as [? Hi]. split; [done|]. by rewrite decide_False in Hi by apply not_elem_of_nil.
      + by apply (nobody_ok _ Guild_new).
      + intros k p. by rewrite Hn2, lookup_empty. }
  eapply (loading_table RowMember); [done|done|done|by do 2 apply loading_direct|intros st2 H2].
  eapply (loading_table RowRight); [done|done|done|by apply loading_direct|intros st3 H3].
  eapply (loading_table RowEvent); [done|done|by apply Forall_row_ok|by apply loading_direct|intros st4 H4].
  eapply (loading_table RowBankEvent); [done|done|by apply Forall_row_ok|by apply loading_direct|intros st5 H5].
  eapply (loading_table RowTab); [done|done|by apply Forall_row_ok|by apply loading_direct|intros st6 H6].
  eapply (loading_table RowItem); [done|done|by apply Forall_row_ok|by apply loading_direct|]. apply Hend.
Qed.
End Load.

Lemma told_removal `{UnorderedIter} d g w : List.existsb is_removal (told d g w) = false.
Proof.
  unfold told. induction (members_in_order g) as [|[k m] l IH]; cbn; [done|].
  rewrite existsb_app, IH, orb_false_r. case_match; [|done]. unfold sent. by case_if.
Qed.

Section Reach.
Context `{UnorderedIter} (cfg : Config) (GetTrinityString : Z -> Z -> string)
        (QueryCharData : Z -> option (string * Z * Z * Z * Z)).

(** ** The daily reset *)
Lemma reset_run id g st :
  server_ok st -> guilds st !! id = Some g ->
  exists st', run id ResetTimes st = Ok st' /\ server_ok st'
    /\ forall j, is_Some (guilds st !! j) -> is_Some (guilds st' !! j).
Proof.
  intros Hst Hid. destruct (so_guilds st Hst id g Hid) as [Em HI]. set (w := set_trace [] (sv_world st)).
  pose (g' := set_g_members (ResetValues <$> m_members g) g).
  pose (d := event_packet GE_BANK_TAB_AND_MONEY_UPDATED 0 []).
  assert (ResetTimes (g, w) = Some (tt, (g', emits (told d g' w) w))) as E.
  { unfold ResetTimes, broadcast, _BroadcastEvent, mbind, G_bind, modg, modw, getg. cbn.
    by rewrite BroadcastPacket_told. }
  destruct (call_guild_ok id ResetTimes g st Hst Hid) as ([] & st' & Ec & Hst' & Hoth).
  { apply wlp_wp; [apply safe_ResetTimes; by apply (Inv_world _ (sv_world st))|].
    apply tames_ResetTimes. by apply tame_start. }
  exists st'. unfold run. rewrite Ec. do 2 (split; [done|]). intros j Hj.
  destruct (decide (j = id)) as [->|Hne]; [|by rewrite Hoth].
  unfold call_guild, GetGuildById in Ec. rewrite Hid in Ec. cbn [mbind option_bind] in Ec. fold w in Ec. rewrite E in Ec.
  cbn in Ec. injection Ec as <-. rewrite (carry_out_guilds id).
  - rewrite told_removal. cbn. rewrite lookup_insert_eq. by eexists.
  - intros i Hi. exfalso. assert (List.existsb is_removal (told d g' w) = true) as Ht by (apply existsb_removal; eauto).
    by rewrite told_removal in Ht.
Qed.

Lemma reset_all ids st :
  server_ok st -> (forall id, id ∈ ids -> is_Some (guilds st !! id)) ->
  exists st', run_all ids ResetTimes st = Ok st' /\ server_ok st'.
Proof.
  revert st. induction ids as [|id ids IH]; intros st Hst Hids; cbn [run_all]; [eauto|].
  destruct (Hids id) as [g Hg]; [left|]. destruct (reset_run id g st Hst Hg) as (st1 & -> & Hst1 & Hkeep).
  cbn [obind]. apply IH; [done|]. intros j Hj. apply Hkeep, Hids. by right.
Qed.

Lemma Mgr_ResetTimes_ok st : server_ok st -> exists st', Mgr_ResetTimes st = Ok st' /\ server_ok st'.
Proof.
  intros Hst. unfold Mgr_ResetTimes. destruct (reset_all (fst <$> uiter (guilds st)) st Hst) as (st' & -> & Hst').
  - intros id Hid. apply list_elem_of_fmap in Hid as ([j g] & -> & Hj). rewrite uiter_perm in Hj.
    apply elem_of_map_to_list in Hj. by eexists.
  - eexists. split; [reflexivity|]. apply server_mild; [done|by apply mild_emit].
Qed.

(** ** The states the server reaches

    Loading; the packets of players, the updates from the nodes, the reset;
    and what other parts of the server do to the players: they come and go,
    but keep their account, and are put in no guild of which they are not a
    member. *)
Definition elsewhere (st : Server) (w : World) : Prop :=
  players_ok w /\ (forall id g, guilds st !! id = Some g -> agree g w)
  /\ forall k p, m_PlayerMap w !! k = Some p ->
       p_GuildId p = 0 \/ exists g, guilds st !! p_GuildId p = Some g /\ is_Some (m_members g !! k).

Inductive server_reachable : Server -> Prop :=
| sr_load t st st' :
    m_PlayerMap (sv_world st) = ∅ -> guilds st = ∅ -> tables_ok t ->
    LoadGuilds cfg GetTrinityString t st = Ok st' -> server_reachable st'
| sr_packet op recv session st st' :
    server_reachable st -> received recv -> name_fits recv -> is_Some (FindPlayer session (sv_world st)) ->
    guild_handler QueryCharData op recv session st = Ok st' -> server_reachable st'
| sr_update session dataid value st st' :
    server_reachable st -> is_Some (FindPlayer session (sv_world st)) ->
    update_member session dataid value st = Ok st' -> server_reachable st'
| sr_reset st st' : server_reachable st -> Mgr_ResetTimes st = Ok st' -> server_reachable st'
| sr_elsewhere st w : server_reachable st -> elsewhere st w -> server_reachable (set_world w st).

Lemma safely_Ok {A} (m : outcome A) P a : safely m P -> m = Ok a -> P a.
Proof. by intros Hm ->. Qed.

Lemma reachable_server_ok st : server_reachable st -> server_ok st.
Proof.
  induction 1 as [t st st' Hn Hg Ht E|op recv session st st' _ IH Hr Hf [p Hp] E
                 |session d v st st' _ IH [p Hp] E|st st' _ IH E|st w _ IH (Hp & Ha & Hs)].
  - destruct (LoadGuilds_ok cfg GetTrinityString t st Hn Hg Ht) as (st2 & E2 & H2 & _). rewrite E in E2. injection E2 as <-. done.
  - by destruct (safely_Ok _ _ _ (packet_safe QueryCharData (fun _ => mkTm 0 0 0 0 0 0) op recv session p st IH Hr Hf Hp) E).
  - exact (safely_Ok _ _ _ (update_safe session p d v st IH Hp) E).
  - destruct (Mgr_ResetTimes_ok st IH) as (st2 & E2 & H2). rewrite E in E2. injection E2 as <-. done.
  - split; [|done..]. intros id g Hg. cbn in Hg. destruct (so_guilds st IH id g Hg) as [? [? ? ? _ _]].
    split; [done|]. split; try done. by apply (Ha id).
Qed.

(** * Theorems *)

(** C1. The guilds of the server, in every state it reaches from the tables through
    any guild packets and updates of any players: every stored guild is filed
    under its own identifier and satisfies the guild invariant; a player who is
    in a guild is a member of a stored guild. *)
Theorem server_invariant st : server_reachable st -> server_ok st.
Proof. apply reachable_server_ok. Qed.

(** C3. Whatever bytes an online player sends as a guild packet, as long as
    [normalizePlayerName] is defined on the name in it ([name_fits]: it stays
    within the buffer of the conversion, which [normalize_name_overflow] leaves),
    the server is done with it in a defined way: it throws on a packet that is too short, or ends in a state
    with the invariant, in which no guild has changed but the player's own and
    the one they were invited to. *)
Theorem guild_packets_defined op recv session p st :
  server_reachable st -> received recv -> name_fits recv -> FindPlayer session (sv_world st) = Some p ->
  (exists st', guild_handler QueryCharData op recv session st = Ok st' /\ server_ok st'
     /\ forall id, id <> p_GuildId p -> id <> p_GuildIdInvited p -> guilds st' !! id = guilds st !! id)
  \/ exists e, guild_handler QueryCharData op recv session st = Throw e.
Proof.
  intros Hst Hr Hf Hp. pose proof (packet_safe QueryCharData (fun _ => mkTm 0 0 0 0 0 0) op recv session p st
                                     (reachable_server_ok st Hst) Hr Hf Hp) as Hs.
  destruct (GuildMgr.guild_handler _ op recv session st) as [st'| |]; [left|right; eauto|done].
  exists st'. split; [done|]. exact Hs.
Qed.

(** [LoadGuilds] on tables whose rows have the columns of the queries and at
    most 256 ranks a guild comes to an end with the invariant: whatever the
    tables say of the guilds, the rows of a guild that is not there are passed
    over, the others repaired or removed. *)
Theorem load_guilds t st :
  m_PlayerMap (sv_world st) = ∅ -> guilds st = ∅ -> tables_ok t ->
  exists st', LoadGuilds cfg GetTrinityString t st = Ok st' /\ server_ok st'.
Proof.
  intros Hn Hg Ht. destruct (LoadGuilds_ok cfg GetTrinityString t st Hn Hg Ht) as (st' & ? & ? & _). eauto.
Qed.
End Reach.

(** * A scenario

    Two guilds: Ann leads Alpha, with Bob; Cid leads Beta.  They log in. *)
Definition realm_member (guid rank : Z) (name : string) : MemberRow :=
  mkMemberRow guid rank EmptyString EmptyString [0; 0; 0; 0; 0; 0; 0] name 10 1 1 guid 0.
Definition realm_guild (id leader : Z) (name : string) : GuildRow :=
  mkGuildRow id name leader (0, 0, 0, 0, 0) EmptyString EmptyString 0 0 0.
Definition realm_tables : Tables :=
  mkTables [realm_guild 7 1 "Alpha"; realm_guild 9 3 "Beta"] []
    [(7, realm_member 1 0 "Ann"); (7, realm_member 2 4 "Bob"); (9, realm_member 3 0 "Cid");
     (8, realm_member 4 0 "Dan")] [] [] [] [] [].
Definition realm_empty : Server := mkServer GuildMgr_new (mkWorld ∅ ∅ ∅ 1000 []) None.

Definition ok_or {A} (a : A) (m : outcome A) : A := match m with Ok b => b | _ => a end.
Definition realm_loaded : Server := ok_or realm_empty (LoadGuilds scene_config scene_text realm_tables realm_empty).
Definition realm_player (guid guild : Z) (name : string) : Player :=
  set_p_guild 0 guild 0 (scene_player guid name).
Definition realm_world : World :=
  mkWorld (<[1 := realm_player 1 7 "Ann"]> (<[2 := realm_player 2 7 "Bob"]> (<[3 := realm_player 3 9 "Cid"]> ∅)))
    ∅ ∅ 1000 [].
Definition realm : Server := set_world realm_world realm_loaded.

Lemma realm_tables_ok : tables_ok realm_tables.
Proof. split; [repeat constructor|constructor|]. intros id. vm_compute. lia. Qed.

Lemma realm_loaded_eq : LoadGuilds scene_config scene_text realm_tables realm_empty = Ok realm_loaded.
Proof.
  destruct (LoadGuilds_ok scene_config scene_text realm_tables realm_empty eq_refl eq_refl realm_tables_ok)
    as (st & E & _). unfold realm_loaded. by rewrite E.
Qed.

(** What a guild of the store holds: the members, with their accounts. *)
Definition roll (st : Server) : list (Z * list (Z * Z)) :=
  (fun e => (e.1, (fun m => (m.1, gm_accountId m.2)) <$> ordered_entries (m_members e.2))) <$> ordered_entries (guilds st).

Lemma realm_roll : roll realm_loaded = [(7, [(1, 1); (2, 2)]); (9, [(3, 3)])].
Proof. vm_compute. reflexivity. Qed.

Lemma realm_guilds id g : guilds realm_loaded !! id = Some g ->
  ((id = 7 /\ is_Some (m_members g !! 1) /\ is_Some (m_members g !! 2)) \/ (id = 9 /\ is_Some (m_members g !! 3)))
  /\ forall k m, m_members g !! k = Some m -> gm_accountId m = k.
Proof.
  intros Hg. set (l := (fun m => (m.1, gm_accountId m.2)) <$> ordered_entries (m_members g)).
  assert ((id, l) ∈ roll realm_loaded) as Hin.
  { apply list_elem_of_fmap. exists (id, g). split; [done|]. by apply elem_of_ordered_entries. }
  assert (forall k a, (k, a) ∈ l -> is_Some (m_members g !! k)) as Hk.
  { intros k a Ha. apply list_elem_of_fmap in Ha as ([j m] & [= -> ->] & Hm).
    apply elem_of_ordered_entries in Hm. by eexists. }
  assert (forall k m, m_members g !! k = Some m -> (k, gm_accountId m) ∈ l) as Ha.
  { intros k m Hm. apply list_elem_of_fmap. exists (k, m). split; [done|]. by apply elem_of_ordered_entries. }
  clearbody l. rewrite realm_roll in Hin. clear Hg.
  assert ((id = 7 /\ l = [(1, 1); (2, 2)]) \/ (id = 9 /\ l = [(3, 3)])) as [[-> ->]|[-> ->]].
  { apply elem_of_cons in Hin as [E|Hin]; [left; by injection E|].
    apply list_elem_of_singleton in Hin as E. right. by injection E. }
  - split; [left; split; [done|]; split; [apply (Hk 1 1)|apply (Hk 2 2)]; set_solver|].
    intros k m Hm. specialize (Ha k m Hm). set_solver.
  - split; [right; split; [done|]; apply (Hk 3 3); set_solver|].
    intros k m Hm. specialize (Ha k m Hm). set_solver.
Qed.

#[local] Opaque realm_loaded.

Abbreviation realm_reachable := (server_reachable scene_config scene_text scene_query).

Lemma realm_players k p : m_PlayerMap realm_world !! k = Some p ->
  (k = 1 /\ p = realm_player 1 7 "Ann") \/ (k = 2 /\ p = realm_player 2 7 "Bob") \/ (k = 3 /\ p = realm_player 3 9 "Cid").
Proof.
  unfold realm_world. cbn [m_PlayerMap]. intros Hk.
  repeat (apply lookup_insert_Some in Hk as [[<- <-]|[_ Hk]]; [auto|]). by rewrite lookup_empty in Hk.
Qed.

Lemma realm_stored : is_Some (guilds realm_loaded !! 7) /\ is_Some (guilds realm_loaded !! 9).
Proof. split; vm_compute; by eexists. Qed.

Lemma realm_start : realm_reachable realm.
Proof.
  apply (sr_elsewhere _ _ _ realm_loaded realm_world).
  - exact (sr_load scene_config scene_text scene_query realm_tables realm_empty realm_loaded
             eq_refl eq_refl realm_tables_ok realm_loaded_eq).
  - destruct realm_stored as [[g7 H7] [g9 H9]]. split; [|split].
    + intros k p Hk. apply realm_players in Hk as [[-> ->]|[[-> ->]|[-> ->]]]; clear; cbn; lia.
    + intros id g Hg k m p Hm Hk. destruct (realm_guilds id g Hg) as [_ Ha]. rewrite (Ha k m Hm).
      apply realm_players in Hk as [[-> ->]|[[-> ->]|[-> ->]]]; reflexivity.
    + intros k p Hk. right. destruct (realm_guilds 7 g7 H7) as [[(_ & M1 & M2)|[E _]] _]; [|discriminate E].
      destruct (realm_guilds 9 g9 H9) as [[[E _]|[_ M3]] _]; [discriminate E|].
      apply realm_players in Hk as [[-> ->]|[[-> ->]|[-> ->]]];
        [exists g7; exact (conj H7 M1)|exists g7; exact (conj H7 M2)|exists g9; exact (conj H9 M3)].
Qed.

Definition packet_of (bytes : list Z) : ByteBuffer := mkBB 0 (Z.of_nat (length bytes)) bytes.
Definition name_packet (name : string) : ByteBuffer := packet_of (str_bytes name ++ [0]).

(** Bob, of Alpha, declines an invitation nobody gave him. *)
Lemma server_invariant_witness :
  server_ok (ok_or realm (HandleGuildDeclineOpcode (packet_of []) 2 realm)).
Proof.
  apply (server_invariant scene_config scene_text scene_query).
  apply (sr_packet _ _ _ CMSG_GUILD_DECLINE (packet_of []) 2 realm).
  - exact realm_start.
  - vm_compute. repeat split; discriminate.
  - intros name rest E. vm_compute in E. injection E as <- <-. vm_compute. discriminate.
  - vm_compute. eexists. reflexivity.
  - vm_compute. reflexivity.
Defined.

Lemma guild_packets_defined_witness :
  exists st', HandleGuildInviteOpcode (name_packet "bob") 3 realm = Ok st' /\ server_ok st'
    /\ guilds st' !! 7 = guilds realm !! 7.
Proof.
  destruct (guild_packets_defined scene_config scene_text scene_query CMSG_GUILD_INVITE (name_packet "bob") 3
              (realm_player 3 9 "Cid") realm) as [(st' & E & Hst & Hk)|[e E]].
  - exact realm_start.
  - vm_compute. repeat split; discriminate.
  - intros name rest E. vm_compute in E. injection E as <- <-. vm_compute. discriminate.
  - vm_compute. reflexivity.
  - exists st'. split; [exact E|]. split; [exact Hst|]. apply Hk; vm_compute; discriminate.
  - exfalso. vm_compute in E. discriminate.
Defined.

Lemma load_guilds_witness :
  exists st', LoadGuilds scene_config scene_text realm_tables realm_empty = Ok st' /\ server_ok st'
    /\ roll st' = [(7, [(1, 1); (2, 2)]); (9, [(3, 3)])].
Proof.
  destruct (load_guilds scene_config scene_text realm_tables realm_empty eq_refl eq_refl realm_tables_ok)
    as (st' & E & Hst). exists st'. split; [exact E|]. split; [exact Hst|].
  vm_compute in E. injection E as <-. vm_compute. reflexivity.
Defined.

(** Declining takes a player out of their guild on the player's side only: Bob
    declines, is invited to Beta and accepts, and is then on the rolls of both
    guilds. *)
Lemma decline_two_guilds :
  (let* st := HandleGuildDeclineOpcode (packet_of []) 2 realm in
   let* st := HandleGuildInviteOpcode (name_packet "bob") 3 st in
   let* st := HandleGuildAcceptOpcode scene_query (packet_of []) 2 st in
   Ok (roll st))
  = Ok [(7, [(1, 1); (2, 2)]); (9, [(2, 2); (3, 3)])].
Proof. vm_compute. reflexivity. Qed.

(** The counter of identifiers starts at 1 whatever was loaded: the identifier
    it gives may be that of a stored guild. *)
Lemma fresh_id_taken :
  let st := ok_or realm_empty (LoadGuilds scene_config scene_text
              (mkTables [realm_guild 1 1 "Alpha"] [] [(1, realm_member 1 0 "Ann")] [] [] [] [] []) realm_empty) in
  is_Some (guilds st !! fst (GenerateGuildId st)).
Proof. vm_compute. by eexists. Qed.
