(* ===== verification/OpcodeTable.v ===== *)
(** * The opcode table of the cluster server

    The opcode numbers of [shared/OpcodeDefines.hpp] and the table of
    [shade/Server/Protocol/Opcodes.cpp], which says for each opcode who may
    send it and whether it is handled by the cluster server, by the node, by
    both or by nobody.  The table is data: it is split into parts only to keep
    the definitions short.  The routing it drives is in [Opcodes]. *)
From Stdlib Require Import Ascii String ZArith Lia.
From stdpp Require Import base list strings.
From S2P Require Import Prelude.

Open Scope Z_scope.
#[local] Open Scope string_scope.

(** ** Entries *)
Inductive SessionStatus :=
| STATUS_AUTHED | STATUS_LOGGEDIN | STATUS_TRANSFER | STATUS_LOGGEDIN_OR_RECENTLY_LOGGOUT
| STATUS_NEVER | STATUS_UNHANDLED.

Inductive PacketState :=
| PACKET_STATE_NULL | PACKET_STATE_LOGON | PACKET_STATE_NODE | PACKET_STATE_BOTH | PACKET_STATE_PASS.

#[export] Instance SessionStatus_eq_dec : EqDecision SessionStatus.
Proof. solve_decision. Defined.
#[export] Instance PacketState_eq_dec : EqDecision PacketState.
Proof. solve_decision. Defined.

(** The methods of [ClientSession] the table points to. *)
Module ClientSession.
Inductive method :=
| Handle_NULL | Handle_ServerSide | HandleCharEnumOpcode | HandlePlayerLoginOpcode 
| HandlePlayerLogoutRequest | Handle_SMSG_LOGOUT_RESPONSE | Handle_SMSG_LOGOUT_COMPLETE 
| HandleLogoutCancelOpcode | HandleGuildQueryOpcode | HandleItemQuerySingleOpcode 
| HandleSMSG_ITEM_QUERY_SINGLE | HandleQuestQueryOpcode | HandleGameObjectQueryOpcode 
| HandleSMSG_GAMEOBJECT_QUERY | HandleCreatureQueryOpcode | HandleSMSG_CREATURE_QUERY 
| HandleWhoisOpcode | HandleContactListOpcode | HandleAddFriendOpcode 
| HandleDelFriendOpcode | HandleSetContactNotesOpcode | HandleAddIgnoreOpcode 
| HandleDelIgnoreOpcode | HandleGuildInviteOpcode | HandleGuildAcceptOpcode 
| HandleGuildDeclineOpcode | HandleGuildInfoOpcode | HandleGuildRosterOpcode 
| HandleGuildPromoteOpcode | HandleGuildDemoteOpcode | HandleGuildLeaveOpcode 
| HandleGuildRemoveOpcode | HandleGuildDisbandOpcode | HandleGuildLeaderOpcode 
| HandleGuildMOTDOpcode | HandleMessagechatOpcode | HandleJoinChannel | HandleLeaveChannel 
| HandleChannelAnnouncements | HandleChannelPassword | HandleChannelSetOwner 
| HandleChannelOwner | HandleChannelModerator | HandleChannelUnmoderator | HandleChannelMute 
| HandleChannelUnmute | HandleChannelInvite | HandleChannelKick | HandleChannelBan 
| HandleChannelUnban | Handle_SMSG_LEVELUP_INFO | Handle_SMSG_AUTH_CHALLENGE 
| Handle_SMSG_AUTH_RESPONSE | HandleGMTicketCreateOpcode | HandleGMTicketUpdateOpcode 
| HandleGMTicketGetTicketOpcode | HandleGMTicketDeleteOpcode 
| HandleGMTicketSystemStatusOpcode | HandleGuildRankOpcode | HandleGuildAddRankOpcode 
| HandleGuildDelRankOpcode | HandleGuildSetPublicNoteOpcode 
| HandleGuildSetOfficerNoteOpcode | SMSG_LOGIN_VERIFY_WORLD | HandleSendMail 
| HandleWardenDataOpcode | HandleGuildChangeInfoTextOpcode | HandleGMSurveySubmit 
| HandleChannelDisplayListQuery | HandleGetChannelMemberCount 
| HandleGuildEventLogQueryOpcode | HandleQueryInspectAchievements | HandleGMResponseResolve 
| HandleWorldStateUITimerUpdate | HandleReportLag | Handle_NODE_PLAYER_CHANGED_ZONE 
| Handle_NODE_PLAYER_DATA | Handle_NODE_MISC_DATA.
End ClientSession.

#[export] Instance method_eq_dec : EqDecision ClientSession.method.
Proof. solve_decision. Defined.

(** A null name or handler is [None]: the entries the initialiser leaves out. *)
Record OpcodeHandler := mkOpcodeHandler {
  name : option string;
  multipass : bool;
  status : SessionStatus;
  to_node : PacketState;
  from_node : PacketState;
  handler : option ClientSession.method
}.

Definition entry (n : string) (mp : bool) (st : SessionStatus) (to from : PacketState)
  (h : ClientSession.method) : OpcodeHandler := mkOpcodeHandler (Some n) mp st to from (Some h).

Definition NUM_CLIENT_MSG_TYPES : Z := 0x51F.
Definition NUM_MSG_TYPES : Z := 0x52D.

(** ** The opcode numbers *)
Definition enum_000 : list (string * Z) := [
  ("MSG_NULL_ACTION", 0x000);
  ("CMSG_BOOTME", 0x001);
  ("CMSG_DBLOOKUP", 0x002);
  ("SMSG_DBLOOKUP", 0x003);
  ("CMSG_QUERY_OBJECT_POSITION", 0x004);
  ("SMSG_QUERY_OBJECT_POSITION", 0x005);
  ("CMSG_QUERY_OBJECT_ROTATION", 0x006);
  ("SMSG_QUERY_OBJECT_ROTATION", 0x007);
  ("CMSG_WORLD_TELEPORT", 0x008);
  ("CMSG_TELEPORT_TO_UNIT", 0x009);
  ("CMSG_ZONE_MAP", 0x00A);
  ("SMSG_ZONE_MAP", 0x00B);
  ("CMSG_DEBUG_CHANGECELLZONE", 0x00C);
  ("CMSG_MOVE_CHARACTER_CHEAT", 0x00D);
  ("SMSG_MOVE_CHARACTER_CHEAT", 0x00E);
  ("CMSG_RECHARGE", 0x00F);
  ("CMSG_LEARN_SPELL", 0x010);
  ("CMSG_CREATEMONSTER", 0x011);
  ("CMSG_DESTROYMONSTER", 0x012);
  ("CMSG_CREATEITEM", 0x013);
  ("CMSG_CREATEGAMEOBJECT", 0x014);
  ("SMSG_CHECK_FOR_BOTS", 0x015);
  ("CMSG_MAKEMONSTERATTACKGUID", 0x016);
  ("CMSG_BOT_DETECTED2", 0x017);
  ("CMSG_FORCEACTION", 0x018);
  ("CMSG_FORCEACTIONONOTHER", 0x019);
  ("CMSG_FORCEACTIONSHOW", 0x01A);
  ("SMSG_FORCEACTIONSHOW", 0x01B);
  ("CMSG_PETGODMODE", 0x01C);
  ("SMSG_PETGODMODE", 0x01D);
  ("SMSG_REFER_A_FRIEND_EXPIRED", 0x01E);
  ("CMSG_WEATHER_SPEED_CHEAT", 0x01F);
  ("CMSG_UNDRESSPLAYER", 0x020);
  ("CMSG_BEASTMASTER", 0x021);
  ("CMSG_GODMODE", 0x022);
  ("SMSG_GODMODE", 0x023);
  ("CMSG_CHEAT_SETMONEY", 0x024);
  ("CMSG_LEVEL_CHEAT", 0x025);
  ("CMSG_PET_LEVEL_CHEAT", 0x026);
  ("CMSG_SET_WORLDSTATE", 0x027);
  ("CMSG_COOLDOWN_CHEAT", 0x028);
  ("CMSG_USE_SKILL_CHEAT", 0x029);
  ("CMSG_FLAG_QUEST", 0x02A);
  ("CMSG_FLAG_QUEST_FINISH", 0x02B);
  ("CMSG_CLEAR_QUEST", 0x02C);
  ("CMSG_SEND_EVENT", 0x02D);
  ("CMSG_DEBUG_AISTATE", 0x02E);
  ("SMSG_DEBUG_AISTATE", 0x02F);
  ("CMSG_DISABLE_PVP_CHEAT", 0x030);
  ("CMSG_ADVANCE_SPAWN_TIME", 0x031);
  ("SMSG_DESTRUCTIBLE_BUILDING_DAMAGE", 0x032);
  ("CMSG_AUTH_SRP6_BEGIN", 0x033);
  ("CMSG_AUTH_SRP6_PROOF", 0x034);
  ("CMSG_AUTH_SRP6_RECODE", 0x035);
  ("CMSG_CHAR_CREATE", 0x036);
  ("CMSG_CHAR_ENUM", 0x037);
  ("CMSG_CHAR_DELETE", 0x038);
  ("SMSG_AUTH_SRP6_RESPONSE", 0x039);
  ("SMSG_CHAR_CREATE", 0x03A);
  ("SMSG_CHAR_ENUM", 0x03B);
  ("SMSG_CHAR_DELETE", 0x03C);
  ("CMSG_PLAYER_LOGIN", 0x03D);
  ("SMSG_NEW_WORLD", 0x03E);
  ("SMSG_TRANSFER_PENDING", 0x03F);
  ("SMSG_TRANSFER_ABORTED", 0x040);
  ("SMSG_CHARACTER_LOGIN_FAILED", 0x041);
  ("SMSG_LOGIN_SETTIMESPEED", 0x042);
  ("SMSG_GAMETIME_UPDATE", 0x043);
  ("CMSG_GAMETIME_SET", 0x044);
  ("SMSG_GAMETIME_SET", 0x045);
  ("CMSG_GAMESPEED_SET", 0x046);
  ("SMSG_GAMESPEED_SET", 0x047);
  ("CMSG_SERVERTIME", 0x048);
  ("SMSG_SERVERTIME", 0x049);
  ("CMSG_PLAYER_LOGOUT", 0x04A);
  ("CMSG_LOGOUT_REQUEST", 0x04B);
  ("SMSG_LOGOUT_RESPONSE", 0x04C);
  ("SMSG_LOGOUT_COMPLETE", 0x04D);
  ("CMSG_LOGOUT_CANCEL", 0x04E);
  ("SMSG_LOGOUT_CANCEL_ACK", 0x04F);
  ("CMSG_NAME_QUERY", 0x050);
  ("SMSG_NAME_QUERY_RESPONSE", 0x051);
  ("CMSG_PET_NAME_QUERY", 0x052);
  ("SMSG_PET_NAME_QUERY_RESPONSE", 0x053);
  ("CMSG_GUILD_QUERY", 0x054);
  ("SMSG_GUILD_QUERY_RESPONSE", 0x055);
  ("CMSG_ITEM_QUERY_SINGLE", 0x056);
  ("CMSG_ITEM_QUERY_MULTIPLE", 0x057);
  ("SMSG_ITEM_QUERY_SINGLE_RESPONSE", 0x058);
  ("SMSG_ITEM_QUERY_MULTIPLE_RESPONSE", 0x059);
  ("CMSG_PAGE_TEXT_QUERY", 0x05A);
  ("SMSG_PAGE_TEXT_QUERY_RESPONSE", 0x05B);
  ("CMSG_QUEST_QUERY", 0x05C);
  ("SMSG_QUEST_QUERY_RESPONSE", 0x05D);
  ("CMSG_GAMEOBJECT_QUERY", 0x05E);
  ("SMSG_GAMEOBJECT_QUERY_RESPONSE", 0x05F);
  ("CMSG_CREATURE_QUERY", 0x060);
  ("SMSG_CREATURE_QUERY_RESPONSE", 0x061);
  ("CMSG_WHO", 0x062);
  ("SMSG_WHO", 0x063);
  ("CMSG_WHOIS", 0x064);
  ("SMSG_WHOIS", 0x065);
  ("CMSG_CONTACT_LIST", 0x066);
  ("SMSG_CONTACT_LIST", 0x067);
  ("SMSG_FRIEND_STATUS", 0x068);
  ("CMSG_ADD_FRIEND", 0x069);
  ("CMSG_DEL_FRIEND", 0x06A);
  ("CMSG_SET_CONTACT_NOTES", 0x06B);
  ("CMSG_ADD_IGNORE", 0x06C);
  ("CMSG_DEL_IGNORE", 0x06D);
  ("CMSG_GROUP_INVITE", 0x06E);
  ("SMSG_GROUP_INVITE", 0x06F);
  ("CMSG_GROUP_CANCEL", 0x070);
  ("SMSG_GROUP_CANCEL", 0x071);
  ("CMSG_GROUP_ACCEPT", 0x072);
  ("CMSG_GROUP_DECLINE", 0x073);
  ("SMSG_GROUP_DECLINE", 0x074);
  ("CMSG_GROUP_UNINVITE", 0x075);
  ("CMSG_GROUP_UNINVITE_GUID", 0x076);
  ("SMSG_GROUP_UNINVITE", 0x077);
  ("CMSG_GROUP_SET_LEADER", 0x078);
  ("SMSG_GROUP_SET_LEADER", 0x079);
  ("CMSG_LOOT_METHOD", 0x07A);
  ("CMSG_GROUP_DISBAND", 0x07B);
  ("SMSG_GROUP_DESTROYED", 0x07C);
  ("SMSG_GROUP_LIST", 0x07D);
  ("SMSG_PARTY_MEMBER_STATS", 0x07E);
  ("SMSG_PARTY_COMMAND_RESULT", 0x07F);
  ("UMSG_UPDATE_GROUP_MEMBERS", 0x080);
  ("CMSG_GUILD_CREATE", 0x081);
  ("CMSG_GUILD_INVITE", 0x082);
  ("SMSG_GUILD_INVITE", 0x083);
  ("CMSG_GUILD_ACCEPT", 0x084);
  ("CMSG_GUILD_DECLINE", 0x085);
  ("SMSG_GUILD_DECLINE", 0x086);
  ("CMSG_GUILD_INFO", 0x087);
  ("SMSG_GUILD_INFO", 0x088);
  ("CMSG_GUILD_ROSTER", 0x089);
  ("SMSG_GUILD_ROSTER", 0x08A);
  ("CMSG_GUILD_PROMOTE", 0x08B);
  ("CMSG_GUILD_DEMOTE", 0x08C);
  ("CMSG_GUILD_LEAVE", 0x08D);
  ("CMSG_GUILD_REMOVE", 0x08E);
  ("CMSG_GUILD_DISBAND", 0x08F);
  ("CMSG_GUILD_LEADER", 0x090);
  ("CMSG_GUILD_MOTD", 0x091);
  ("SMSG_GUILD_EVENT", 0x092)
].

Definition enum_093 : list (string * Z) := [
  ("SMSG_GUILD_COMMAND_RESULT", 0x093);
  ("UMSG_UPDATE_GUILD", 0x094);
  ("CMSG_MESSAGECHAT", 0x095);
  ("SMSG_MESSAGECHAT", 0x096);
  ("CMSG_JOIN_CHANNEL", 0x097);
  ("CMSG_LEAVE_CHANNEL", 0x098);
  ("SMSG_CHANNEL_NOTIFY", 0x099);
  ("CMSG_CHANNEL_LIST", 0x09A);
  ("SMSG_CHANNEL_LIST", 0x09B);
  ("CMSG_CHANNEL_PASSWORD", 0x09C);
  ("CMSG_CHANNEL_SET_OWNER", 0x09D);
  ("CMSG_CHANNEL_OWNER", 0x09E);
  ("CMSG_CHANNEL_MODERATOR", 0x09F);
  ("CMSG_CHANNEL_UNMODERATOR", 0x0A0);
  ("CMSG_CHANNEL_MUTE", 0x0A1);
  ("CMSG_CHANNEL_UNMUTE", 0x0A2);
  ("CMSG_CHANNEL_INVITE", 0x0A3);
  ("CMSG_CHANNEL_KICK", 0x0A4);
  ("CMSG_CHANNEL_BAN", 0x0A5);
  ("CMSG_CHANNEL_UNBAN", 0x0A6);
  ("CMSG_CHANNEL_ANNOUNCEMENTS", 0x0A7);
  ("CMSG_CHANNEL_MODERATE", 0x0A8);
  ("SMSG_UPDATE_OBJECT", 0x0A9);
  ("SMSG_DESTROY_OBJECT", 0x0AA);
  ("CMSG_USE_ITEM", 0x0AB);
  ("CMSG_OPEN_ITEM", 0x0AC);
  ("CMSG_READ_ITEM", 0x0AD);
  ("SMSG_READ_ITEM_OK", 0x0AE);
  ("SMSG_READ_ITEM_FAILED", 0x0AF);
  ("SMSG_ITEM_COOLDOWN", 0x0B0);
  ("CMSG_GAMEOBJ_USE", 0x0B1);
  ("CMSG_DESTROY_ITEMS", 0x0B2);
  ("SMSG_GAMEOBJECT_CUSTOM_ANIM", 0x0B3);
  ("CMSG_AREATRIGGER", 0x0B4);
  ("MSG_MOVE_START_FORWARD", 0x0B5);
  ("MSG_MOVE_START_BACKWARD", 0x0B6);
  ("MSG_MOVE_STOP", 0x0B7);
  ("MSG_MOVE_START_STRAFE_LEFT", 0x0B8);
  ("MSG_MOVE_START_STRAFE_RIGHT", 0x0B9);
  ("MSG_MOVE_STOP_STRAFE", 0x0BA);
  ("MSG_MOVE_JUMP", 0x0BB);
  ("MSG_MOVE_START_TURN_LEFT", 0x0BC);
  ("MSG_MOVE_START_TURN_RIGHT", 0x0BD);
  ("MSG_MOVE_STOP_TURN", 0x0BE);
  ("MSG_MOVE_START_PITCH_UP", 0x0BF);
  ("MSG_MOVE_START_PITCH_DOWN", 0x0C0);
  ("MSG_MOVE_STOP_PITCH", 0x0C1);
  ("MSG_MOVE_SET_RUN_MODE", 0x0C2);
  ("MSG_MOVE_SET_WALK_MODE", 0x0C3);
  ("MSG_MOVE_TOGGLE_LOGGING", 0x0C4);
  ("MSG_MOVE_TELEPORT", 0x0C5);
  ("MSG_MOVE_TELEPORT_CHEAT", 0x0C6);
  ("MSG_MOVE_TELEPORT_ACK", 0x0C7);
  ("MSG_MOVE_TOGGLE_FALL_LOGGING", 0x0C8);
  ("MSG_MOVE_FALL_LAND", 0x0C9);
  ("MSG_MOVE_START_SWIM", 0x0CA);
  ("MSG_MOVE_STOP_SWIM", 0x0CB);
  ("MSG_MOVE_SET_RUN_SPEED_CHEAT", 0x0CC);
  ("MSG_MOVE_SET_RUN_SPEED", 0x0CD);
  ("MSG_MOVE_SET_RUN_BACK_SPEED_CHEAT", 0x0CE);
  ("MSG_MOVE_SET_RUN_BACK_SPEED", 0x0CF);
  ("MSG_MOVE_SET_WALK_SPEED_CHEAT", 0x0D0);
  ("MSG_MOVE_SET_WALK_SPEED", 0x0D1);
  ("MSG_MOVE_SET_SWIM_SPEED_CHEAT", 0x0D2);
  ("MSG_MOVE_SET_SWIM_SPEED", 0x0D3);
  ("MSG_MOVE_SET_SWIM_BACK_SPEED_CHEAT", 0x0D4);
  ("MSG_MOVE_SET_SWIM_BACK_SPEED", 0x0D5);
  ("MSG_MOVE_SET_ALL_SPEED_CHEAT", 0x0D6);
  ("MSG_MOVE_SET_TURN_RATE_CHEAT", 0x0D7);
  ("MSG_MOVE_SET_TURN_RATE", 0x0D8);
  ("MSG_MOVE_TOGGLE_COLLISION_CHEAT", 0x0D9);
  ("MSG_MOVE_SET_FACING", 0x0DA);
  ("MSG_MOVE_SET_PITCH", 0x0DB);
  ("MSG_MOVE_WORLDPORT_ACK", 0x0DC);
  ("SMSG_MONSTER_MOVE", 0x0DD);
  ("SMSG_MOVE_WATER_WALK", 0x0DE);
  ("SMSG_MOVE_LAND_WALK", 0x0DF);
  ("CMSG_MOVE_CHARM_PORT_CHEAT", 0x0E0);
  ("CMSG_MOVE_SET_RAW_POSITION", 0x0E1);
  ("SMSG_FORCE_RUN_SPEED_CHANGE", 0x0E2);
  ("CMSG_FORCE_RUN_SPEED_CHANGE_ACK", 0x0E3);
  ("SMSG_FORCE_RUN_BACK_SPEED_CHANGE", 0x0E4);
  ("CMSG_FORCE_RUN_BACK_SPEED_CHANGE_ACK", 0x0E5);
  ("SMSG_FORCE_SWIM_SPEED_CHANGE", 0x0E6);
  ("CMSG_FORCE_SWIM_SPEED_CHANGE_ACK", 0x0E7);
  ("SMSG_FORCE_MOVE_ROOT", 0x0E8);
  ("CMSG_FORCE_MOVE_ROOT_ACK", 0x0E9);
  ("SMSG_FORCE_MOVE_UNROOT", 0x0EA);
  ("CMSG_FORCE_MOVE_UNROOT_ACK", 0x0EB);
  ("MSG_MOVE_ROOT", 0x0EC);
  ("MSG_MOVE_UNROOT", 0x0ED);
  ("MSG_MOVE_HEARTBEAT", 0x0EE);
  ("SMSG_MOVE_KNOCK_BACK", 0x0EF);
  ("CMSG_MOVE_KNOCK_BACK_ACK", 0x0F0);
  ("MSG_MOVE_KNOCK_BACK", 0x0F1);
  ("SMSG_MOVE_FEATHER_FALL", 0x0F2);
  ("SMSG_MOVE_NORMAL_FALL", 0x0F3);
  ("SMSG_MOVE_SET_HOVER", 0x0F4);
  ("SMSG_MOVE_UNSET_HOVER", 0x0F5);
  ("CMSG_MOVE_HOVER_ACK", 0x0F6);
  ("MSG_MOVE_HOVER", 0x0F7);
  ("CMSG_TRIGGER_CINEMATIC_CHEAT", 0x0F8);
  ("CMSG_OPENING_CINEMATIC", 0x0F9);
  ("SMSG_TRIGGER_CINEMATIC", 0x0FA);
  ("CMSG_NEXT_CINEMATIC_CAMERA", 0x0FB);
  ("CMSG_COMPLETE_CINEMATIC", 0x0FC);
  ("SMSG_TUTORIAL_FLAGS", 0x0FD);
  ("CMSG_TUTORIAL_FLAG", 0x0FE);
  ("CMSG_TUTORIAL_CLEAR", 0x0FF);
  ("CMSG_TUTORIAL_RESET", 0x100);
  ("CMSG_STANDSTATECHANGE", 0x101);
  ("CMSG_EMOTE", 0x102);
  ("SMSG_EMOTE", 0x103);
  ("CMSG_TEXT_EMOTE", 0x104);
  ("SMSG_TEXT_EMOTE", 0x105);
  ("CMSG_AUTOEQUIP_GROUND_ITEM", 0x106);
  ("CMSG_AUTOSTORE_GROUND_ITEM", 0x107);
  ("CMSG_AUTOSTORE_LOOT_ITEM", 0x108);
  ("CMSG_STORE_LOOT_IN_SLOT", 0x109);
  ("CMSG_AUTOEQUIP_ITEM", 0x10A);
  ("CMSG_AUTOSTORE_BAG_ITEM", 0x10B);
  ("CMSG_SWAP_ITEM", 0x10C);
  ("CMSG_SWAP_INV_ITEM", 0x10D);
  ("CMSG_SPLIT_ITEM", 0x10E);
  ("CMSG_AUTOEQUIP_ITEM_SLOT", 0x10F);
  ("CMSG_UNCLAIM_LICENSE", 0x110);
  ("CMSG_DESTROYITEM", 0x111);
  ("SMSG_INVENTORY_CHANGE_FAILURE", 0x112);
  ("SMSG_OPEN_CONTAINER", 0x113);
  ("CMSG_INSPECT", 0x114);
  ("SMSG_INSPECT_RESULTS_UPDATE", 0x115);
  ("CMSG_INITIATE_TRADE", 0x116);
  ("CMSG_BEGIN_TRADE", 0x117);
  ("CMSG_BUSY_TRADE", 0x118);
  ("CMSG_IGNORE_TRADE", 0x119);
  ("CMSG_ACCEPT_TRADE", 0x11A);
  ("CMSG_UNACCEPT_TRADE", 0x11B);
  ("CMSG_CANCEL_TRADE", 0x11C);
  ("CMSG_SET_TRADE_ITEM", 0x11D);
  ("CMSG_CLEAR_TRADE_ITEM", 0x11E);
  ("CMSG_SET_TRADE_GOLD", 0x11F);
  ("SMSG_TRADE_STATUS", 0x120);
  ("SMSG_TRADE_STATUS_EXTENDED", 0x121);
  ("SMSG_INITIALIZE_FACTIONS", 0x122);
  ("SMSG_SET_FACTION_VISIBLE", 0x123);
  ("SMSG_SET_FACTION_STANDING", 0x124);
  ("CMSG_SET_FACTION_ATWAR", 0x125)
].

Definition enum_126 : list (string * Z) := [
  ("CMSG_SET_FACTION_CHEAT", 0x126);
  ("SMSG_SET_PROFICIENCY", 0x127);
  ("CMSG_SET_ACTION_BUTTON", 0x128);
  ("SMSG_ACTION_BUTTONS", 0x129);
  ("SMSG_INITIAL_SPELLS", 0x12A);
  ("SMSG_LEARNED_SPELL", 0x12B);
  ("SMSG_SUPERCEDED_SPELL", 0x12C);
  ("CMSG_NEW_SPELL_SLOT", 0x12D);
  ("CMSG_CAST_SPELL", 0x12E);
  ("CMSG_CANCEL_CAST", 0x12F);
  ("SMSG_CAST_FAILED", 0x130);
  ("SMSG_SPELL_START", 0x131);
  ("SMSG_SPELL_GO", 0x132);
  ("SMSG_SPELL_FAILURE", 0x133);
  ("SMSG_SPELL_COOLDOWN", 0x134);
  ("SMSG_COOLDOWN_EVENT", 0x135);
  ("CMSG_CANCEL_AURA", 0x136);
  ("SMSG_EQUIPMENT_SET_SAVED", 0x137);
  ("SMSG_PET_CAST_FAILED", 0x138);
  ("MSG_CHANNEL_START", 0x139);
  ("MSG_CHANNEL_UPDATE", 0x13A);
  ("CMSG_CANCEL_CHANNELLING", 0x13B);
  ("SMSG_AI_REACTION", 0x13C);
  ("CMSG_SET_SELECTION", 0x13D);
  ("CMSG_DELETEEQUIPMENT_SET", 0x13E);
  ("CMSG_INSTANCE_LOCK_RESPONSE", 0x13F);
  ("CMSG_DEBUG_PASSIVE_AURA", 0x140);
  ("CMSG_ATTACKSWING", 0x141);
  ("CMSG_ATTACKSTOP", 0x142);
  ("SMSG_ATTACKSTART", 0x143);
  ("SMSG_ATTACKSTOP", 0x144);
  ("SMSG_ATTACKSWING_NOTINRANGE", 0x145);
  ("SMSG_ATTACKSWING_BADFACING", 0x146);
  ("SMSG_INSTANCE_LOCK_WARNING_QUERY", 0x147);
  ("SMSG_ATTACKSWING_DEADTARGET", 0x148);
  ("SMSG_ATTACKSWING_CANT_ATTACK", 0x149);
  ("SMSG_ATTACKERSTATEUPDATE", 0x14A);
  ("SMSG_BATTLEFIELD_PORT_DENIED", 0x14B);
  ("CMSG_PERFORM_ACTION_SET", 0x14C);
  ("SMSG_RESUME_CAST_BAR", 0x14D);
  ("SMSG_CANCEL_COMBAT", 0x14E);
  ("SMSG_SPELLBREAKLOG", 0x14F);
  ("SMSG_SPELLHEALLOG", 0x150);
  ("SMSG_SPELLENERGIZELOG", 0x151);
  ("SMSG_BREAK_TARGET", 0x152);
  ("CMSG_SAVE_PLAYER", 0x153);
  ("CMSG_SETDEATHBINDPOINT", 0x154);
  ("SMSG_BINDPOINTUPDATE", 0x155);
  ("CMSG_GETDEATHBINDZONE", 0x156);
  ("SMSG_BINDZONEREPLY", 0x157);
  ("SMSG_PLAYERBOUND", 0x158);
  ("SMSG_CLIENT_CONTROL_UPDATE", 0x159);
  ("CMSG_REPOP_REQUEST", 0x15A);
  ("SMSG_RESURRECT_REQUEST", 0x15B);
  ("CMSG_RESURRECT_RESPONSE", 0x15C);
  ("CMSG_LOOT", 0x15D);
  ("CMSG_LOOT_MONEY", 0x15E);
  ("CMSG_LOOT_RELEASE", 0x15F);
  ("SMSG_LOOT_RESPONSE", 0x160);
  ("SMSG_LOOT_RELEASE_RESPONSE", 0x161);
  ("SMSG_LOOT_REMOVED", 0x162);
  ("SMSG_LOOT_MONEY_NOTIFY", 0x163);
  ("SMSG_LOOT_ITEM_NOTIFY", 0x164);
  ("SMSG_LOOT_CLEAR_MONEY", 0x165);
  ("SMSG_ITEM_PUSH_RESULT", 0x166);
  ("SMSG_DUEL_REQUESTED", 0x167);
  ("SMSG_DUEL_OUTOFBOUNDS", 0x168);
  ("SMSG_DUEL_INBOUNDS", 0x169);
  ("SMSG_DUEL_COMPLETE", 0x16A);
  ("SMSG_DUEL_WINNER", 0x16B);
  ("CMSG_DUEL_ACCEPTED", 0x16C);
  ("CMSG_DUEL_CANCELLED", 0x16D);
  ("SMSG_MOUNTRESULT", 0x16E);
  ("SMSG_DISMOUNTRESULT", 0x16F);
  ("SMSG_REMOVED_FROM_PVP_QUEUE", 0x170);
  ("CMSG_MOUNTSPECIAL_ANIM", 0x171);
  ("SMSG_MOUNTSPECIAL_ANIM", 0x172);
  ("SMSG_PET_TAME_FAILURE", 0x173);
  ("CMSG_PET_SET_ACTION", 0x174);
  ("CMSG_PET_ACTION", 0x175);
  ("CMSG_PET_ABANDON", 0x176);
  ("CMSG_PET_RENAME", 0x177);
  ("SMSG_PET_NAME_INVALID", 0x178);
  ("SMSG_PET_SPELLS", 0x179);
  ("SMSG_PET_MODE", 0x17A);
  ("CMSG_GOSSIP_HELLO", 0x17B);
  ("CMSG_GOSSIP_SELECT_OPTION", 0x17C);
  ("SMSG_GOSSIP_MESSAGE", 0x17D);
  ("SMSG_GOSSIP_COMPLETE", 0x17E);
  ("CMSG_NPC_TEXT_QUERY", 0x17F);
  ("SMSG_NPC_TEXT_UPDATE", 0x180);
  ("SMSG_NPC_WONT_TALK", 0x181);
  ("CMSG_QUESTGIVER_STATUS_QUERY", 0x182);
  ("SMSG_QUESTGIVER_STATUS", 0x183);
  ("CMSG_QUESTGIVER_HELLO", 0x184);
  ("SMSG_QUESTGIVER_QUEST_LIST", 0x185);
  ("CMSG_QUESTGIVER_QUERY_QUEST", 0x186);
  ("CMSG_QUESTGIVER_QUEST_AUTOLAUNCH", 0x187);
  ("SMSG_QUESTGIVER_QUEST_DETAILS", 0x188);
  ("CMSG_QUESTGIVER_ACCEPT_QUEST", 0x189);
  ("CMSG_QUESTGIVER_COMPLETE_QUEST", 0x18A);
  ("SMSG_QUESTGIVER_REQUEST_ITEMS", 0x18B);
  ("CMSG_QUESTGIVER_REQUEST_REWARD", 0x18C);
  ("SMSG_QUESTGIVER_OFFER_REWARD", 0x18D);
  ("CMSG_QUESTGIVER_CHOOSE_REWARD", 0x18E);
  ("SMSG_QUESTGIVER_QUEST_INVALID", 0x18F);
  ("CMSG_QUESTGIVER_CANCEL", 0x190);
  ("SMSG_QUESTGIVER_QUEST_COMPLETE", 0x191);
  ("SMSG_QUESTGIVER_QUEST_FAILED", 0x192);
  ("CMSG_QUESTLOG_SWAP_QUEST", 0x193);
  ("CMSG_QUESTLOG_REMOVE_QUEST", 0x194);
  ("SMSG_QUESTLOG_FULL", 0x195);
  ("SMSG_QUESTUPDATE_FAILED", 0x196);
  ("SMSG_QUESTUPDATE_FAILEDTIMER", 0x197);
  ("SMSG_QUESTUPDATE_COMPLETE", 0x198);
  ("SMSG_QUESTUPDATE_ADD_KILL", 0x199);
  ("SMSG_QUESTUPDATE_ADD_ITEM", 0x19A);
  ("CMSG_QUEST_CONFIRM_ACCEPT", 0x19B);
  ("SMSG_QUEST_CONFIRM_ACCEPT", 0x19C);
  ("CMSG_PUSHQUESTTOPARTY", 0x19D);
  ("CMSG_LIST_INVENTORY", 0x19E);
  ("SMSG_LIST_INVENTORY", 0x19F);
  ("CMSG_SELL_ITEM", 0x1A0);
  ("SMSG_SELL_ITEM", 0x1A1);
  ("CMSG_BUY_ITEM", 0x1A2);
  ("CMSG_BUY_ITEM_IN_SLOT", 0x1A3);
  ("SMSG_BUY_ITEM", 0x1A4);
  ("SMSG_BUY_FAILED", 0x1A5);
  ("CMSG_TAXICLEARALLNODES", 0x1A6);
  ("CMSG_TAXIENABLEALLNODES", 0x1A7);
  ("CMSG_TAXISHOWNODES", 0x1A8);
  ("SMSG_SHOWTAXINODES", 0x1A9);
  ("CMSG_TAXINODE_STATUS_QUERY", 0x1AA);
  ("SMSG_TAXINODE_STATUS", 0x1AB);
  ("CMSG_TAXIQUERYAVAILABLENODES", 0x1AC);
  ("CMSG_ACTIVATETAXI", 0x1AD);
  ("SMSG_ACTIVATETAXIREPLY", 0x1AE);
  ("SMSG_NEW_TAXI_PATH", 0x1AF);
  ("CMSG_TRAINER_LIST", 0x1B0);
  ("SMSG_TRAINER_LIST", 0x1B1);
  ("CMSG_TRAINER_BUY_SPELL", 0x1B2);
  ("SMSG_TRAINER_BUY_SUCCEEDED", 0x1B3);
  ("SMSG_TRAINER_BUY_FAILED", 0x1B4);
  ("CMSG_BINDER_ACTIVATE", 0x1B5);
  ("SMSG_PLAYERBINDERROR", 0x1B6);
  ("CMSG_BANKER_ACTIVATE", 0x1B7);
  ("SMSG_SHOW_BANK", 0x1B8)
].

Definition enum_1B9 : list (string * Z) := [
  ("CMSG_BUY_BANK_SLOT", 0x1B9);
  ("SMSG_BUY_BANK_SLOT_RESULT", 0x1BA);
  ("CMSG_PETITION_SHOWLIST", 0x1BB);
  ("SMSG_PETITION_SHOWLIST", 0x1BC);
  ("CMSG_PETITION_BUY", 0x1BD);
  ("CMSG_PETITION_SHOW_SIGNATURES", 0x1BE);
  ("SMSG_PETITION_SHOW_SIGNATURES", 0x1BF);
  ("CMSG_PETITION_SIGN", 0x1C0);
  ("SMSG_PETITION_SIGN_RESULTS", 0x1C1);
  ("MSG_PETITION_DECLINE", 0x1C2);
  ("CMSG_OFFER_PETITION", 0x1C3);
  ("CMSG_TURN_IN_PETITION", 0x1C4);
  ("SMSG_TURN_IN_PETITION_RESULTS", 0x1C5);
  ("CMSG_PETITION_QUERY", 0x1C6);
  ("SMSG_PETITION_QUERY_RESPONSE", 0x1C7);
  ("SMSG_FISH_NOT_HOOKED", 0x1C8);
  ("SMSG_FISH_ESCAPED", 0x1C9);
  ("CMSG_BUG", 0x1CA);
  ("SMSG_NOTIFICATION", 0x1CB);
  ("CMSG_PLAYED_TIME", 0x1CC);
  ("SMSG_PLAYED_TIME", 0x1CD);
  ("CMSG_QUERY_TIME", 0x1CE);
  ("SMSG_QUERY_TIME_RESPONSE", 0x1CF);
  ("SMSG_LOG_XPGAIN", 0x1D0);
  ("SMSG_AURACASTLOG", 0x1D1);
  ("CMSG_RECLAIM_CORPSE", 0x1D2);
  ("CMSG_WRAP_ITEM", 0x1D3);
  ("SMSG_LEVELUP_INFO", 0x1D4);
  ("MSG_MINIMAP_PING", 0x1D5);
  ("SMSG_RESISTLOG", 0x1D6);
  ("SMSG_ENCHANTMENTLOG", 0x1D7);
  ("CMSG_SET_SKILL_CHEAT", 0x1D8);
  ("SMSG_START_MIRROR_TIMER", 0x1D9);
  ("SMSG_PAUSE_MIRROR_TIMER", 0x1DA);
  ("SMSG_STOP_MIRROR_TIMER", 0x1DB);
  ("CMSG_PING", 0x1DC);
  ("SMSG_PONG", 0x1DD);
  ("SMSG_CLEAR_COOLDOWN", 0x1DE);
  ("SMSG_GAMEOBJECT_PAGETEXT", 0x1DF);
  ("CMSG_SETSHEATHED", 0x1E0);
  ("SMSG_COOLDOWN_CHEAT", 0x1E1);
  ("SMSG_SPELL_DELAYED", 0x1E2);
  ("CMSG_QUEST_POI_QUERY", 0x1E3);
  ("SMSG_QUEST_POI_QUERY_RESPONSE", 0x1E4);
  ("CMSG_GHOST", 0x1E5);
  ("CMSG_GM_INVIS", 0x1E6);
  ("SMSG_INVALID_PROMOTION_CODE", 0x1E7);
  ("MSG_GM_BIND_OTHER", 0x1E8);
  ("MSG_GM_SUMMON", 0x1E9);
  ("SMSG_ITEM_TIME_UPDATE", 0x1EA);
  ("SMSG_ITEM_ENCHANT_TIME_UPDATE", 0x1EB);
  ("SMSG_AUTH_CHALLENGE", 0x1EC);
  ("CMSG_AUTH_SESSION", 0x1ED);
  ("SMSG_AUTH_RESPONSE", 0x1EE);
  ("MSG_GM_SHOWLABEL", 0x1EF);
  ("CMSG_PET_CAST_SPELL", 0x1F0);
  ("MSG_SAVE_GUILD_EMBLEM", 0x1F1);
  ("MSG_TABARDVENDOR_ACTIVATE", 0x1F2);
  ("SMSG_PLAY_SPELL_VISUAL", 0x1F3);
  ("CMSG_ZONEUPDATE", 0x1F4);
  ("SMSG_PARTYKILLLOG", 0x1F5);
  ("SMSG_COMPRESSED_UPDATE_OBJECT", 0x1F6);
  ("SMSG_PLAY_SPELL_IMPACT", 0x1F7);
  ("SMSG_EXPLORATION_EXPERIENCE", 0x1F8);
  ("CMSG_GM_SET_SECURITY_GROUP", 0x1F9);
  ("CMSG_GM_NUKE", 0x1FA);
  ("MSG_RANDOM_ROLL", 0x1FB);
  ("SMSG_ENVIRONMENTALDAMAGELOG", 0x1FC);
  ("CMSG_CHANGEPLAYER_DIFFICULTY", 0x1FD);
  ("SMSG_RWHOIS", 0x1FE);
  ("SMSG_LFG_PLAYER_REWARD", 0x1FF);
  ("SMSG_LFG_TELEPORT_DENIED", 0x200);
  ("CMSG_UNLEARN_SPELL", 0x201);
  ("CMSG_UNLEARN_SKILL", 0x202);
  ("SMSG_REMOVED_SPELL", 0x203);
  ("CMSG_DECHARGE", 0x204);
  ("CMSG_GMTICKET_CREATE", 0x205);
  ("SMSG_GMTICKET_CREATE", 0x206);
  ("CMSG_GMTICKET_UPDATETEXT", 0x207);
  ("SMSG_GMTICKET_UPDATETEXT", 0x208);
  ("SMSG_ACCOUNT_DATA_TIMES", 0x209);
  ("CMSG_REQUEST_ACCOUNT_DATA", 0x20A);
  ("CMSG_UPDATE_ACCOUNT_DATA", 0x20B);
  ("SMSG_UPDATE_ACCOUNT_DATA", 0x20C);
  ("SMSG_CLEAR_FAR_SIGHT_IMMEDIATE", 0x20D);
  ("SMSG_CHANGEPLAYER_DIFFICULTY_RESULT", 0x20E);
  ("CMSG_GM_TEACH", 0x20F);
  ("CMSG_GM_CREATE_ITEM_TARGET", 0x210);
  ("CMSG_GMTICKET_GETTICKET", 0x211);
  ("SMSG_GMTICKET_GETTICKET", 0x212);
  ("CMSG_UNLEARN_TALENTS", 0x213);
  ("SMSG_UPDATE_INSTANCE_ENCOUNTER_UNIT", 0x214);
  ("SMSG_GAMEOBJECT_DESPAWN_ANIM", 0x215);
  ("MSG_CORPSE_QUERY", 0x216);
  ("CMSG_GMTICKET_DELETETICKET", 0x217);
  ("SMSG_GMTICKET_DELETETICKET", 0x218);
  ("SMSG_CHAT_WRONG_FACTION", 0x219);
  ("CMSG_GMTICKET_SYSTEMSTATUS", 0x21A);
  ("SMSG_GMTICKET_SYSTEMSTATUS", 0x21B);
  ("CMSG_SPIRIT_HEALER_ACTIVATE", 0x21C);
  ("CMSG_SET_STAT_CHEAT", 0x21D);
  ("SMSG_QUEST_FORCE_REMOVE", 0x21E);
  ("CMSG_SKILL_BUY_STEP", 0x21F);
  ("CMSG_SKILL_BUY_RANK", 0x220);
  ("CMSG_XP_CHEAT", 0x221);
  ("SMSG_SPIRIT_HEALER_CONFIRM", 0x222);
  ("CMSG_CHARACTER_POINT_CHEAT", 0x223);
  ("SMSG_GOSSIP_POI", 0x224);
  ("CMSG_CHAT_IGNORED", 0x225);
  ("CMSG_GM_VISION", 0x226);
  ("CMSG_SERVER_COMMAND", 0x227);
  ("CMSG_GM_SILENCE", 0x228);
  ("CMSG_GM_REVEALTO", 0x229);
  ("CMSG_GM_RESURRECT", 0x22A);
  ("CMSG_GM_SUMMONMOB", 0x22B);
  ("CMSG_GM_MOVECORPSE", 0x22C);
  ("CMSG_GM_FREEZE", 0x22D);
  ("CMSG_GM_UBERINVIS", 0x22E);
  ("CMSG_GM_REQUEST_PLAYER_INFO", 0x22F);
  ("SMSG_GM_PLAYER_INFO", 0x230);
  ("CMSG_GUILD_RANK", 0x231);
  ("CMSG_GUILD_ADD_RANK", 0x232);
  ("CMSG_GUILD_DEL_RANK", 0x233);
  ("CMSG_GUILD_SET_PUBLIC_NOTE", 0x234);
  ("CMSG_GUILD_SET_OFFICER_NOTE", 0x235);
  ("SMSG_LOGIN_VERIFY_WORLD", 0x236);
  ("CMSG_CLEAR_EXPLORATION", 0x237);
  ("CMSG_SEND_MAIL", 0x238);
  ("SMSG_SEND_MAIL_RESULT", 0x239);
  ("CMSG_GET_MAIL_LIST", 0x23A);
  ("SMSG_MAIL_LIST_RESULT", 0x23B);
  ("CMSG_BATTLEFIELD_LIST", 0x23C);
  ("SMSG_BATTLEFIELD_LIST", 0x23D);
  ("CMSG_BATTLEFIELD_JOIN", 0x23E);
  ("SMSG_FORCE_SET_VEHICLE_REC_ID", 0x23F);
  ("CMSG_SET_VEHICLE_REC_ID_ACK", 0x240);
  ("CMSG_TAXICLEARNODE", 0x241);
  ("CMSG_TAXIENABLENODE", 0x242);
  ("CMSG_ITEM_TEXT_QUERY", 0x243);
  ("SMSG_ITEM_TEXT_QUERY_RESPONSE", 0x244);
  ("CMSG_MAIL_TAKE_MONEY", 0x245);
  ("CMSG_MAIL_TAKE_ITEM", 0x246);
  ("CMSG_MAIL_MARK_AS_READ", 0x247);
  ("CMSG_MAIL_RETURN_TO_SENDER", 0x248);
  ("CMSG_MAIL_DELETE", 0x249);
  ("CMSG_MAIL_CREATE_TEXT_ITEM", 0x24A);
  ("SMSG_SPELLLOGMISS", 0x24B)
].

Definition enum_24C : list (string * Z) := [
  ("SMSG_SPELLLOGEXECUTE", 0x24C);
  ("SMSG_DEBUGAURAPROC", 0x24D);
  ("SMSG_PERIODICAURALOG", 0x24E);
  ("SMSG_SPELLDAMAGESHIELD", 0x24F);
  ("SMSG_SPELLNONMELEEDAMAGELOG", 0x250);
  ("CMSG_LEARN_TALENT", 0x251);
  ("SMSG_RESURRECT_FAILED", 0x252);
  ("CMSG_TOGGLE_PVP", 0x253);
  ("SMSG_ZONE_UNDER_ATTACK", 0x254);
  ("MSG_AUCTION_HELLO", 0x255);
  ("CMSG_AUCTION_SELL_ITEM", 0x256);
  ("CMSG_AUCTION_REMOVE_ITEM", 0x257);
  ("CMSG_AUCTION_LIST_ITEMS", 0x258);
  ("CMSG_AUCTION_LIST_OWNER_ITEMS", 0x259);
  ("CMSG_AUCTION_PLACE_BID", 0x25A);
  ("SMSG_AUCTION_COMMAND_RESULT", 0x25B);
  ("SMSG_AUCTION_LIST_RESULT", 0x25C);
  ("SMSG_AUCTION_OWNER_LIST_RESULT", 0x25D);
  ("SMSG_AUCTION_BIDDER_NOTIFICATION", 0x25E);
  ("SMSG_AUCTION_OWNER_NOTIFICATION", 0x25F);
  ("SMSG_PROCRESIST", 0x260);
  ("SMSG_COMBAT_EVENT_FAILED", 0x261);
  ("SMSG_DISPEL_FAILED", 0x262);
  ("SMSG_SPELLORDAMAGE_IMMUNE", 0x263);
  ("CMSG_AUCTION_LIST_BIDDER_ITEMS", 0x264);
  ("SMSG_AUCTION_BIDDER_LIST_RESULT", 0x265);
  ("SMSG_SET_FLAT_SPELL_MODIFIER", 0x266);
  ("SMSG_SET_PCT_SPELL_MODIFIER", 0x267);
  ("CMSG_SET_AMMO", 0x268);
  ("SMSG_CORPSE_RECLAIM_DELAY", 0x269);
  ("CMSG_SET_ACTIVE_MOVER", 0x26A);
  ("CMSG_PET_CANCEL_AURA", 0x26B);
  ("CMSG_PLAYER_AI_CHEAT", 0x26C);
  ("CMSG_CANCEL_AUTO_REPEAT_SPELL", 0x26D);
  ("MSG_GM_ACCOUNT_ONLINE", 0x26E);
  ("MSG_LIST_STABLED_PETS", 0x26F);
  ("CMSG_STABLE_PET", 0x270);
  ("CMSG_UNSTABLE_PET", 0x271);
  ("CMSG_BUY_STABLE_SLOT", 0x272);
  ("SMSG_STABLE_RESULT", 0x273);
  ("CMSG_STABLE_REVIVE_PET", 0x274);
  ("CMSG_STABLE_SWAP_PET", 0x275);
  ("MSG_QUEST_PUSH_RESULT", 0x276);
  ("SMSG_PLAY_MUSIC", 0x277);
  ("SMSG_PLAY_OBJECT_SOUND", 0x278);
  ("CMSG_REQUEST_PET_INFO", 0x279);
  ("CMSG_FAR_SIGHT", 0x27A);
  ("SMSG_SPELLDISPELLOG", 0x27B);
  ("SMSG_DAMAGE_CALC_LOG", 0x27C);
  ("CMSG_ENABLE_DAMAGE_LOG", 0x27D);
  ("CMSG_GROUP_CHANGE_SUB_GROUP", 0x27E);
  ("CMSG_REQUEST_PARTY_MEMBER_STATS", 0x27F);
  ("CMSG_GROUP_SWAP_SUB_GROUP", 0x280);
  ("CMSG_RESET_FACTION_CHEAT", 0x281);
  ("CMSG_AUTOSTORE_BANK_ITEM", 0x282);
  ("CMSG_AUTOBANK_ITEM", 0x283);
  ("MSG_QUERY_NEXT_MAIL_TIME", 0x284);
  ("SMSG_RECEIVED_MAIL", 0x285);
  ("SMSG_RAID_GROUP_ONLY", 0x286);
  ("CMSG_SET_DURABILITY_CHEAT", 0x287);
  ("CMSG_SET_PVP_RANK_CHEAT", 0x288);
  ("CMSG_ADD_PVP_MEDAL_CHEAT", 0x289);
  ("CMSG_DEL_PVP_MEDAL_CHEAT", 0x28A);
  ("CMSG_SET_PVP_TITLE", 0x28B);
  ("SMSG_PVP_CREDIT", 0x28C);
  ("SMSG_AUCTION_REMOVED_NOTIFICATION", 0x28D);
  ("CMSG_GROUP_RAID_CONVERT", 0x28E);
  ("CMSG_GROUP_ASSISTANT_LEADER", 0x28F);
  ("CMSG_BUYBACK_ITEM", 0x290);
  ("SMSG_SERVER_MESSAGE", 0x291);
  ("CMSG_SET_SAVED_INSTANCE_EXTEND", 0x292);
  ("SMSG_LFG_OFFER_CONTINUE", 0x293);
  ("CMSG_TEST_DROP_RATE", 0x294);
  ("SMSG_TEST_DROP_RATE_RESULT", 0x295);
  ("CMSG_LFG_GET_STATUS", 0x296);
  ("SMSG_SHOW_MAILBOX", 0x297);
  ("SMSG_RESET_RANGED_COMBAT_TIMER", 0x298);
  ("SMSG_CHAT_NOT_IN_PARTY", 0x299);
  ("CMSG_GMTICKETSYSTEM_TOGGLE", 0x29A);
  ("CMSG_CANCEL_GROWTH_AURA", 0x29B);
  ("SMSG_CANCEL_AUTO_REPEAT", 0x29C);
  ("SMSG_STANDSTATE_UPDATE", 0x29D);
  ("SMSG_LOOT_ALL_PASSED", 0x29E);
  ("SMSG_LOOT_ROLL_WON", 0x29F);
  ("CMSG_LOOT_ROLL", 0x2A0);
  ("SMSG_LOOT_START_ROLL", 0x2A1);
  ("SMSG_LOOT_ROLL", 0x2A2);
  ("CMSG_LOOT_MASTER_GIVE", 0x2A3);
  ("SMSG_LOOT_MASTER_LIST", 0x2A4);
  ("SMSG_SET_FORCED_REACTIONS", 0x2A5);
  ("SMSG_SPELL_FAILED_OTHER", 0x2A6);
  ("SMSG_GAMEOBJECT_RESET_STATE", 0x2A7);
  ("CMSG_REPAIR_ITEM", 0x2A8);
  ("SMSG_CHAT_PLAYER_NOT_FOUND", 0x2A9);
  ("MSG_TALENT_WIPE_CONFIRM", 0x2AA);
  ("SMSG_SUMMON_REQUEST", 0x2AB);
  ("CMSG_SUMMON_RESPONSE", 0x2AC);
  ("MSG_DEV_SHOWLABEL", 0x2AD);
  ("SMSG_MONSTER_MOVE_TRANSPORT", 0x2AE);
  ("SMSG_PET_BROKEN", 0x2AF);
  ("MSG_MOVE_FEATHER_FALL", 0x2B0);
  ("MSG_MOVE_WATER_WALK", 0x2B1);
  ("CMSG_SERVER_BROADCAST", 0x2B2);
  ("CMSG_SELF_RES", 0x2B3);
  ("SMSG_FEIGN_DEATH_RESISTED", 0x2B4);
  ("CMSG_RUN_SCRIPT", 0x2B5);
  ("SMSG_SCRIPT_MESSAGE", 0x2B6);
  ("SMSG_DUEL_COUNTDOWN", 0x2B7);
  ("SMSG_AREA_TRIGGER_MESSAGE", 0x2B8);
  ("CMSG_SHOWING_HELM", 0x2B9);
  ("CMSG_SHOWING_CLOAK", 0x2BA);
  ("SMSG_LFG_ROLE_CHOSEN", 0x2BB);
  ("SMSG_PLAYER_SKINNED", 0x2BC);
  ("SMSG_DURABILITY_DAMAGE_DEATH", 0x2BD);
  ("CMSG_SET_EXPLORATION", 0x2BE);
  ("CMSG_SET_ACTIONBAR_TOGGLES", 0x2BF);
  ("UMSG_DELETE_GUILD_CHARTER", 0x2C0);
  ("MSG_PETITION_RENAME", 0x2C1);
  ("SMSG_INIT_WORLD_STATES", 0x2C2);
  ("SMSG_UPDATE_WORLD_STATE", 0x2C3);
  ("CMSG_ITEM_NAME_QUERY", 0x2C4);
  ("SMSG_ITEM_NAME_QUERY_RESPONSE", 0x2C5);
  ("SMSG_PET_ACTION_FEEDBACK", 0x2C6);
  ("CMSG_CHAR_RENAME", 0x2C7);
  ("SMSG_CHAR_RENAME", 0x2C8);
  ("CMSG_MOVE_SPLINE_DONE", 0x2C9);
  ("CMSG_MOVE_FALL_RESET", 0x2CA);
  ("SMSG_INSTANCE_SAVE_CREATED", 0x2CB);
  ("SMSG_RAID_INSTANCE_INFO", 0x2CC);
  ("CMSG_REQUEST_RAID_INFO", 0x2CD);
  ("CMSG_MOVE_TIME_SKIPPED", 0x2CE);
  ("CMSG_MOVE_FEATHER_FALL_ACK", 0x2CF);
  ("CMSG_MOVE_WATER_WALK_ACK", 0x2D0);
  ("CMSG_MOVE_NOT_ACTIVE_MOVER", 0x2D1);
  ("SMSG_PLAY_SOUND", 0x2D2);
  ("CMSG_BATTLEFIELD_STATUS", 0x2D3);
  ("SMSG_BATTLEFIELD_STATUS", 0x2D4);
  ("CMSG_BATTLEFIELD_PORT", 0x2D5);
  ("MSG_INSPECT_HONOR_STATS", 0x2D6);
  ("CMSG_BATTLEMASTER_HELLO", 0x2D7);
  ("CMSG_MOVE_START_SWIM_CHEAT", 0x2D8);
  ("CMSG_MOVE_STOP_SWIM_CHEAT", 0x2D9);
  ("SMSG_FORCE_WALK_SPEED_CHANGE", 0x2DA);
  ("CMSG_FORCE_WALK_SPEED_CHANGE_ACK", 0x2DB);
  ("SMSG_FORCE_SWIM_BACK_SPEED_CHANGE", 0x2DC);
  ("CMSG_FORCE_SWIM_BACK_SPEED_CHANGE_ACK", 0x2DD);
  ("SMSG_FORCE_TURN_RATE_CHANGE", 0x2DE)
].

Definition enum_2DF : list (string * Z) := [
  ("CMSG_FORCE_TURN_RATE_CHANGE_ACK", 0x2DF);
  ("MSG_PVP_LOG_DATA", 0x2E0);
  ("CMSG_LEAVE_BATTLEFIELD", 0x2E1);
  ("CMSG_AREA_SPIRIT_HEALER_QUERY", 0x2E2);
  ("CMSG_AREA_SPIRIT_HEALER_QUEUE", 0x2E3);
  ("SMSG_AREA_SPIRIT_HEALER_TIME", 0x2E4);
  ("CMSG_GM_UNTEACH", 0x2E5);
  ("SMSG_WARDEN_DATA", 0x2E6);
  ("CMSG_WARDEN_DATA", 0x2E7);
  ("SMSG_GROUP_JOINED_BATTLEGROUND", 0x2E8);
  ("MSG_BATTLEGROUND_PLAYER_POSITIONS", 0x2E9);
  ("CMSG_PET_STOP_ATTACK", 0x2EA);
  ("SMSG_BINDER_CONFIRM", 0x2EB);
  ("SMSG_BATTLEGROUND_PLAYER_JOINED", 0x2EC);
  ("SMSG_BATTLEGROUND_PLAYER_LEFT", 0x2ED);
  ("CMSG_BATTLEMASTER_JOIN", 0x2EE);
  ("SMSG_ADDON_INFO", 0x2EF);
  ("CMSG_PET_UNLEARN", 0x2F0);
  ("SMSG_PET_UNLEARN_CONFIRM", 0x2F1);
  ("SMSG_PARTY_MEMBER_STATS_FULL", 0x2F2);
  ("CMSG_PET_SPELL_AUTOCAST", 0x2F3);
  ("SMSG_WEATHER", 0x2F4);
  ("SMSG_PLAY_TIME_WARNING", 0x2F5);
  ("SMSG_MINIGAME_SETUP", 0x2F6);
  ("SMSG_MINIGAME_STATE", 0x2F7);
  ("CMSG_MINIGAME_MOVE", 0x2F8);
  ("SMSG_MINIGAME_MOVE_FAILED", 0x2F9);
  ("SMSG_RAID_INSTANCE_MESSAGE", 0x2FA);
  ("SMSG_COMPRESSED_MOVES", 0x2FB);
  ("CMSG_GUILD_INFO_TEXT", 0x2FC);
  ("SMSG_CHAT_RESTRICTED", 0x2FD);
  ("SMSG_SPLINE_SET_RUN_SPEED", 0x2FE);
  ("SMSG_SPLINE_SET_RUN_BACK_SPEED", 0x2FF);
  ("SMSG_SPLINE_SET_SWIM_SPEED", 0x300);
  ("SMSG_SPLINE_SET_WALK_SPEED", 0x301);
  ("SMSG_SPLINE_SET_SWIM_BACK_SPEED", 0x302);
  ("SMSG_SPLINE_SET_TURN_RATE", 0x303);
  ("SMSG_SPLINE_MOVE_UNROOT", 0x304);
  ("SMSG_SPLINE_MOVE_FEATHER_FALL", 0x305);
  ("SMSG_SPLINE_MOVE_NORMAL_FALL", 0x306);
  ("SMSG_SPLINE_MOVE_SET_HOVER", 0x307);
  ("SMSG_SPLINE_MOVE_UNSET_HOVER", 0x308);
  ("SMSG_SPLINE_MOVE_WATER_WALK", 0x309);
  ("SMSG_SPLINE_MOVE_LAND_WALK", 0x30A);
  ("SMSG_SPLINE_MOVE_START_SWIM", 0x30B);
  ("SMSG_SPLINE_MOVE_STOP_SWIM", 0x30C);
  ("SMSG_SPLINE_MOVE_SET_RUN_MODE", 0x30D);
  ("SMSG_SPLINE_MOVE_SET_WALK_MODE", 0x30E);
  ("CMSG_GM_NUKE_ACCOUNT", 0x30F);
  ("MSG_GM_DESTROY_CORPSE", 0x310);
  ("CMSG_GM_DESTROY_ONLINE_CORPSE", 0x311);
  ("CMSG_ACTIVATETAXIEXPRESS", 0x312);
  ("SMSG_SET_FACTION_ATWAR", 0x313);
  ("SMSG_GAMETIMEBIAS_SET", 0x314);
  ("CMSG_DEBUG_ACTIONS_START", 0x315);
  ("CMSG_DEBUG_ACTIONS_STOP", 0x316);
  ("CMSG_SET_FACTION_INACTIVE", 0x317);
  ("CMSG_SET_WATCHED_FACTION", 0x318);
  ("MSG_MOVE_TIME_SKIPPED", 0x319);
  ("SMSG_SPLINE_MOVE_ROOT", 0x31A);
  ("CMSG_SET_EXPLORATION_ALL", 0x31B);
  ("SMSG_INVALIDATE_PLAYER", 0x31C);
  ("CMSG_RESET_INSTANCES", 0x31D);
  ("SMSG_INSTANCE_RESET", 0x31E);
  ("SMSG_INSTANCE_RESET_FAILED", 0x31F);
  ("SMSG_UPDATE_LAST_INSTANCE", 0x320);
  ("MSG_RAID_TARGET_UPDATE", 0x321);
  ("MSG_RAID_READY_CHECK", 0x322);
  ("CMSG_LUA_USAGE", 0x323);
  ("SMSG_PET_ACTION_SOUND", 0x324);
  ("SMSG_PET_DISMISS_SOUND", 0x325);
  ("SMSG_GHOSTEE_GONE", 0x326);
  ("CMSG_GM_UPDATE_TICKET_STATUS", 0x327);
  ("SMSG_GM_TICKET_STATUS_UPDATE", 0x328);
  ("MSG_SET_DUNGEON_DIFFICULTY", 0x329);
  ("CMSG_GMSURVEY_SUBMIT", 0x32A);
  ("SMSG_UPDATE_INSTANCE_OWNERSHIP", 0x32B);
  ("CMSG_IGNORE_KNOCKBACK_CHEAT", 0x32C);
  ("SMSG_CHAT_PLAYER_AMBIGUOUS", 0x32D);
  ("MSG_DELAY_GHOST_TELEPORT", 0x32E);
  ("SMSG_SPELLINSTAKILLLOG", 0x32F);
  ("SMSG_SPELL_UPDATE_CHAIN_TARGETS", 0x330);
  ("CMSG_CHAT_FILTERED", 0x331);
  ("SMSG_EXPECTED_SPAM_RECORDS", 0x332);
  ("SMSG_SPELLSTEALLOG", 0x333);
  ("CMSG_LOTTERY_QUERY_OBSOLETE", 0x334);
  ("SMSG_LOTTERY_QUERY_RESULT_OBSOLETE", 0x335);
  ("CMSG_BUY_LOTTERY_TICKET_OBSOLETE", 0x336);
  ("SMSG_LOTTERY_RESULT_OBSOLETE", 0x337);
  ("SMSG_CHARACTER_PROFILE", 0x338);
  ("SMSG_CHARACTER_PROFILE_REALM_CONNECTED", 0x339);
  ("SMSG_DEFENSE_MESSAGE", 0x33A);
  ("SMSG_INSTANCE_DIFFICULTY", 0x33B);
  ("MSG_GM_RESETINSTANCELIMIT", 0x33C);
  ("SMSG_MOTD", 0x33D);
  ("SMSG_MOVE_SET_CAN_TRANSITION_BETWEEN_SWIM_AND_FLY", 0x33E);
  ("SMSG_MOVE_UNSET_CAN_TRANSITION_BETWEEN_SWIM_AND_FLY", 0x33F);
  ("CMSG_MOVE_SET_CAN_TRANSITION_BETWEEN_SWIM_AND_FLY_ACK", 0x340);
  ("MSG_MOVE_START_SWIM_CHEAT", 0x341);
  ("MSG_MOVE_STOP_SWIM_CHEAT", 0x342);
  ("SMSG_MOVE_SET_CAN_FLY", 0x343);
  ("SMSG_MOVE_UNSET_CAN_FLY", 0x344);
  ("CMSG_MOVE_SET_CAN_FLY_ACK", 0x345);
  ("CMSG_MOVE_SET_FLY", 0x346);
  ("CMSG_SOCKET_GEMS", 0x347);
  ("CMSG_ARENA_TEAM_CREATE", 0x348);
  ("SMSG_ARENA_TEAM_COMMAND_RESULT", 0x349);
  ("MSG_MOVE_UPDATE_CAN_TRANSITION_BETWEEN_SWIM_AND_FLY", 0x34A);
  ("CMSG_ARENA_TEAM_QUERY", 0x34B);
  ("SMSG_ARENA_TEAM_QUERY_RESPONSE", 0x34C);
  ("CMSG_ARENA_TEAM_ROSTER", 0x34D);
  ("SMSG_ARENA_TEAM_ROSTER", 0x34E);
  ("CMSG_ARENA_TEAM_INVITE", 0x34F);
  ("SMSG_ARENA_TEAM_INVITE", 0x350);
  ("CMSG_ARENA_TEAM_ACCEPT", 0x351);
  ("CMSG_ARENA_TEAM_DECLINE", 0x352);
  ("CMSG_ARENA_TEAM_LEAVE", 0x353);
  ("CMSG_ARENA_TEAM_REMOVE", 0x354);
  ("CMSG_ARENA_TEAM_DISBAND", 0x355);
  ("CMSG_ARENA_TEAM_LEADER", 0x356);
  ("SMSG_ARENA_TEAM_EVENT", 0x357);
  ("CMSG_BATTLEMASTER_JOIN_ARENA", 0x358);
  ("MSG_MOVE_START_ASCEND", 0x359);
  ("MSG_MOVE_STOP_ASCEND", 0x35A);
  ("SMSG_ARENA_TEAM_STATS", 0x35B);
  ("CMSG_LFG_JOIN", 0x35C);
  ("CMSG_LFG_LEAVE", 0x35D);
  ("CMSG_SEARCH_LFG_JOIN", 0x35E);
  ("CMSG_SEARCH_LFG_LEAVE", 0x35F);
  ("SMSG_UPDATE_LFG_LIST", 0x360);
  ("SMSG_LFG_PROPOSAL_UPDATE", 0x361);
  ("CMSG_LFG_PROPOSAL_RESULT", 0x362);
  ("SMSG_LFG_ROLE_CHECK_UPDATE", 0x363);
  ("SMSG_LFG_JOIN_RESULT", 0x364);
  ("SMSG_LFG_QUEUE_STATUS", 0x365);
  ("CMSG_SET_LFG_COMMENT", 0x366);
  ("SMSG_LFG_UPDATE_PLAYER", 0x367);
  ("SMSG_LFG_UPDATE_PARTY", 0x368);
  ("SMSG_LFG_UPDATE_SEARCH", 0x369);
  ("CMSG_LFG_SET_ROLES", 0x36A);
  ("CMSG_LFG_SET_NEEDS", 0x36B);
  ("CMSG_LFG_SET_BOOT_VOTE", 0x36C);
  ("SMSG_LFG_BOOT_PROPOSAL_UPDATE", 0x36D);
  ("CMSG_LFD_PLAYER_LOCK_INFO_REQUEST", 0x36E);
  ("SMSG_LFG_PLAYER_INFO", 0x36F);
  ("CMSG_LFG_TELEPORT", 0x370);
  ("CMSG_LFD_PARTY_LOCK_INFO_REQUEST", 0x371)
].

Definition enum_372 : list (string * Z) := [
  ("SMSG_LFG_PARTY_INFO", 0x372);
  ("SMSG_TITLE_EARNED", 0x373);
  ("CMSG_SET_TITLE", 0x374);
  ("CMSG_CANCEL_MOUNT_AURA", 0x375);
  ("SMSG_ARENA_ERROR", 0x376);
  ("MSG_INSPECT_ARENA_TEAMS", 0x377);
  ("SMSG_DEATH_RELEASE_LOC", 0x378);
  ("CMSG_CANCEL_TEMP_ENCHANTMENT", 0x379);
  ("SMSG_FORCED_DEATH_UPDATE", 0x37A);
  ("CMSG_CHEAT_SET_HONOR_CURRENCY", 0x37B);
  ("CMSG_CHEAT_SET_ARENA_CURRENCY", 0x37C);
  ("MSG_MOVE_SET_FLIGHT_SPEED_CHEAT", 0x37D);
  ("MSG_MOVE_SET_FLIGHT_SPEED", 0x37E);
  ("MSG_MOVE_SET_FLIGHT_BACK_SPEED_CHEAT", 0x37F);
  ("MSG_MOVE_SET_FLIGHT_BACK_SPEED", 0x380);
  ("SMSG_FORCE_FLIGHT_SPEED_CHANGE", 0x381);
  ("CMSG_FORCE_FLIGHT_SPEED_CHANGE_ACK", 0x382);
  ("SMSG_FORCE_FLIGHT_BACK_SPEED_CHANGE", 0x383);
  ("CMSG_FORCE_FLIGHT_BACK_SPEED_CHANGE_ACK", 0x384);
  ("SMSG_SPLINE_SET_FLIGHT_SPEED", 0x385);
  ("SMSG_SPLINE_SET_FLIGHT_BACK_SPEED", 0x386);
  ("CMSG_MAELSTROM_INVALIDATE_CACHE", 0x387);
  ("SMSG_FLIGHT_SPLINE_SYNC", 0x388);
  ("CMSG_SET_TAXI_BENCHMARK_MODE", 0x389);
  ("SMSG_JOINED_BATTLEGROUND_QUEUE", 0x38A);
  ("SMSG_REALM_SPLIT", 0x38B);
  ("CMSG_REALM_SPLIT", 0x38C);
  ("CMSG_MOVE_CHNG_TRANSPORT", 0x38D);
  ("MSG_PARTY_ASSIGNMENT", 0x38E);
  ("SMSG_OFFER_PETITION_ERROR", 0x38F);
  ("SMSG_TIME_SYNC_REQ", 0x390);
  ("CMSG_TIME_SYNC_RESP", 0x391);
  ("CMSG_SEND_LOCAL_EVENT", 0x392);
  ("CMSG_SEND_GENERAL_TRIGGER", 0x393);
  ("CMSG_SEND_COMBAT_TRIGGER", 0x394);
  ("CMSG_MAELSTROM_GM_SENT_MAIL", 0x395);
  ("SMSG_RESET_FAILED_NOTIFY", 0x396);
  ("SMSG_REAL_GROUP_UPDATE", 0x397);
  ("SMSG_LFG_DISABLED", 0x398);
  ("CMSG_ACTIVE_PVP_CHEAT", 0x399);
  ("CMSG_CHEAT_DUMP_ITEMS_DEBUG_ONLY", 0x39A);
  ("SMSG_CHEAT_DUMP_ITEMS_DEBUG_ONLY_RESPONSE", 0x39B);
  ("SMSG_CHEAT_DUMP_ITEMS_DEBUG_ONLY_RESPONSE_WRITE_FILE", 0x39C);
  ("SMSG_UPDATE_COMBO_POINTS", 0x39D);
  ("SMSG_VOICE_SESSION_ROSTER_UPDATE", 0x39E);
  ("SMSG_VOICE_SESSION_LEAVE", 0x39F);
  ("SMSG_VOICE_SESSION_ADJUST_PRIORITY", 0x3A0);
  ("CMSG_VOICE_SET_TALKER_MUTED_REQUEST", 0x3A1);
  ("SMSG_VOICE_SET_TALKER_MUTED", 0x3A2);
  ("SMSG_INIT_EXTRA_AURA_INFO_OBSOLETE", 0x3A3);
  ("SMSG_SET_EXTRA_AURA_INFO_OBSOLETE", 0x3A4);
  ("SMSG_SET_EXTRA_AURA_INFO_NEED_UPDATE_OBSOLETE", 0x3A5);
  ("SMSG_CLEAR_EXTRA_AURA_INFO_OBSOLETE", 0x3A6);
  ("MSG_MOVE_START_DESCEND", 0x3A7);
  ("CMSG_IGNORE_REQUIREMENTS_CHEAT", 0x3A8);
  ("SMSG_IGNORE_REQUIREMENTS_CHEAT", 0x3A9);
  ("SMSG_SPELL_CHANCE_PROC_LOG", 0x3AA);
  ("CMSG_MOVE_SET_RUN_SPEED", 0x3AB);
  ("SMSG_DISMOUNT", 0x3AC);
  ("MSG_MOVE_UPDATE_CAN_FLY", 0x3AD);
  ("MSG_RAID_READY_CHECK_CONFIRM", 0x3AE);
  ("CMSG_VOICE_SESSION_ENABLE", 0x3AF);
  ("SMSG_VOICE_SESSION_ENABLE", 0x3B0);
  ("SMSG_VOICE_PARENTAL_CONTROLS", 0x3B1);
  ("CMSG_GM_WHISPER", 0x3B2);
  ("SMSG_GM_MESSAGECHAT", 0x3B3);
  ("MSG_GM_GEARRATING", 0x3B4);
  ("CMSG_COMMENTATOR_ENABLE", 0x3B5);
  ("SMSG_COMMENTATOR_STATE_CHANGED", 0x3B6);
  ("CMSG_COMMENTATOR_GET_MAP_INFO", 0x3B7);
  ("SMSG_COMMENTATOR_MAP_INFO", 0x3B8);
  ("CMSG_COMMENTATOR_GET_PLAYER_INFO", 0x3B9);
  ("SMSG_COMMENTATOR_GET_PLAYER_INFO", 0x3BA);
  ("SMSG_COMMENTATOR_PLAYER_INFO", 0x3BB);
  ("CMSG_COMMENTATOR_ENTER_INSTANCE", 0x3BC);
  ("CMSG_COMMENTATOR_EXIT_INSTANCE", 0x3BD);
  ("CMSG_COMMENTATOR_INSTANCE_COMMAND", 0x3BE);
  ("SMSG_CLEAR_TARGET", 0x3BF);
  ("CMSG_BOT_DETECTED", 0x3C0);
  ("SMSG_CROSSED_INEBRIATION_THRESHOLD", 0x3C1);
  ("CMSG_CHEAT_PLAYER_LOGIN", 0x3C2);
  ("CMSG_CHEAT_PLAYER_LOOKUP", 0x3C3);
  ("SMSG_CHEAT_PLAYER_LOOKUP", 0x3C4);
  ("SMSG_KICK_REASON", 0x3C5);
  ("MSG_RAID_READY_CHECK_FINISHED", 0x3C6);
  ("CMSG_COMPLAIN", 0x3C7);
  ("SMSG_COMPLAIN_RESULT", 0x3C8);
  ("SMSG_FEATURE_SYSTEM_STATUS", 0x3C9);
  ("CMSG_GM_SHOW_COMPLAINTS", 0x3CA);
  ("CMSG_GM_UNSQUELCH", 0x3CB);
  ("CMSG_CHANNEL_SILENCE_VOICE", 0x3CC);
  ("CMSG_CHANNEL_SILENCE_ALL", 0x3CD);
  ("CMSG_CHANNEL_UNSILENCE_VOICE", 0x3CE);
  ("CMSG_CHANNEL_UNSILENCE_ALL", 0x3CF);
  ("CMSG_TARGET_CAST", 0x3D0);
  ("CMSG_TARGET_SCRIPT_CAST", 0x3D1);
  ("CMSG_CHANNEL_DISPLAY_LIST", 0x3D2);
  ("CMSG_SET_ACTIVE_VOICE_CHANNEL", 0x3D3);
  ("CMSG_GET_CHANNEL_MEMBER_COUNT", 0x3D4);
  ("SMSG_CHANNEL_MEMBER_COUNT", 0x3D5);
  ("CMSG_CHANNEL_VOICE_ON", 0x3D6);
  ("CMSG_CHANNEL_VOICE_OFF", 0x3D7);
  ("CMSG_DEBUG_LIST_TARGETS", 0x3D8);
  ("SMSG_DEBUG_LIST_TARGETS", 0x3D9);
  ("SMSG_AVAILABLE_VOICE_CHANNEL", 0x3DA);
  ("CMSG_ADD_VOICE_IGNORE", 0x3DB);
  ("CMSG_DEL_VOICE_IGNORE", 0x3DC);
  ("CMSG_PARTY_SILENCE", 0x3DD);
  ("CMSG_PARTY_UNSILENCE", 0x3DE);
  ("MSG_NOTIFY_PARTY_SQUELCH", 0x3DF);
  ("SMSG_COMSAT_RECONNECT_TRY", 0x3E0);
  ("SMSG_COMSAT_DISCONNECT", 0x3E1);
  ("SMSG_COMSAT_CONNECT_FAIL", 0x3E2);
  ("SMSG_VOICE_CHAT_STATUS", 0x3E3);
  ("CMSG_REPORT_PVP_AFK", 0x3E4);
  ("SMSG_REPORT_PVP_AFK_RESULT", 0x3E5);
  ("CMSG_GUILD_BANKER_ACTIVATE", 0x3E6);
  ("CMSG_GUILD_BANK_QUERY_TAB", 0x3E7);
  ("SMSG_GUILD_BANK_LIST", 0x3E8);
  ("CMSG_GUILD_BANK_SWAP_ITEMS", 0x3E9);
  ("CMSG_GUILD_BANK_BUY_TAB", 0x3EA);
  ("CMSG_GUILD_BANK_UPDATE_TAB", 0x3EB);
  ("CMSG_GUILD_BANK_DEPOSIT_MONEY", 0x3EC);
  ("CMSG_GUILD_BANK_WITHDRAW_MONEY", 0x3ED);
  ("MSG_GUILD_BANK_LOG_QUERY", 0x3EE);
  ("CMSG_SET_CHANNEL_WATCH", 0x3EF);
  ("SMSG_USERLIST_ADD", 0x3F0);
  ("SMSG_USERLIST_REMOVE", 0x3F1);
  ("SMSG_USERLIST_UPDATE", 0x3F2);
  ("CMSG_CLEAR_CHANNEL_WATCH", 0x3F3);
  ("SMSG_INSPECT_TALENT", 0x3F4);
  ("SMSG_GOGOGO_OBSOLETE", 0x3F5);
  ("SMSG_ECHO_PARTY_SQUELCH", 0x3F6);
  ("CMSG_SET_TITLE_SUFFIX", 0x3F7);
  ("CMSG_SPELLCLICK", 0x3F8);
  ("SMSG_LOOT_LIST", 0x3F9);
  ("CMSG_GM_CHARACTER_RESTORE", 0x3FA);
  ("CMSG_GM_CHARACTER_SAVE", 0x3FB);
  ("SMSG_VOICESESSION_FULL", 0x3FC);
  ("MSG_GUILD_PERMISSIONS", 0x3FD);
  ("MSG_GUILD_BANK_MONEY_WITHDRAWN", 0x3FE);
  ("MSG_GUILD_EVENT_LOG_QUERY", 0x3FF);
  ("CMSG_MAELSTROM_RENAME_GUILD", 0x400);
  ("CMSG_GET_MIRRORIMAGE_DATA", 0x401);
  ("SMSG_MIRRORIMAGE_DATA", 0x402);
  ("SMSG_FORCE_DISPLAY_UPDATE", 0x403);
  ("SMSG_SPELL_CHANCE_RESIST_PUSHBACK", 0x404)
].

Definition enum_405 : list (string * Z) := [
  ("CMSG_IGNORE_DIMINISHING_RETURNS_CHEAT", 0x405);
  ("SMSG_IGNORE_DIMINISHING_RETURNS_CHEAT", 0x406);
  ("CMSG_KEEP_ALIVE", 0x407);
  ("SMSG_RAID_READY_CHECK_ERROR", 0x408);
  ("CMSG_OPT_OUT_OF_LOOT", 0x409);
  ("MSG_QUERY_GUILD_BANK_TEXT", 0x40A);
  ("CMSG_SET_GUILD_BANK_TEXT", 0x40B);
  ("CMSG_SET_GRANTABLE_LEVELS", 0x40C);
  ("CMSG_GRANT_LEVEL", 0x40D);
  ("CMSG_REFER_A_FRIEND", 0x40E);
  ("MSG_GM_CHANGE_ARENA_RATING", 0x40F);
  ("CMSG_DECLINE_CHANNEL_INVITE", 0x410);
  ("SMSG_GROUPACTION_THROTTLED", 0x411);
  ("SMSG_OVERRIDE_LIGHT", 0x412);
  ("SMSG_TOTEM_CREATED", 0x413);
  ("CMSG_TOTEM_DESTROYED", 0x414);
  ("CMSG_EXPIRE_RAID_INSTANCE", 0x415);
  ("CMSG_NO_SPELL_VARIANCE", 0x416);
  ("CMSG_QUESTGIVER_STATUS_MULTIPLE_QUERY", 0x417);
  ("SMSG_QUESTGIVER_STATUS_MULTIPLE", 0x418);
  ("CMSG_SET_PLAYER_DECLINED_NAMES", 0x419);
  ("SMSG_SET_PLAYER_DECLINED_NAMES_RESULT", 0x41A);
  ("CMSG_QUERY_SERVER_BUCK_DATA", 0x41B);
  ("CMSG_CLEAR_SERVER_BUCK_DATA", 0x41C);
  ("SMSG_SERVER_BUCK_DATA", 0x41D);
  ("SMSG_SEND_UNLEARN_SPELLS", 0x41E);
  ("SMSG_PROPOSE_LEVEL_GRANT", 0x41F);
  ("CMSG_ACCEPT_LEVEL_GRANT", 0x420);
  ("SMSG_REFER_A_FRIEND_FAILURE", 0x421);
  ("SMSG_SPLINE_MOVE_SET_FLYING", 0x422);
  ("SMSG_SPLINE_MOVE_UNSET_FLYING", 0x423);
  ("SMSG_SUMMON_CANCEL", 0x424);
  ("CMSG_CHANGE_PERSONAL_ARENA_RATING", 0x425);
  ("CMSG_ALTER_APPEARANCE", 0x426);
  ("SMSG_ENABLE_BARBER_SHOP", 0x427);
  ("SMSG_BARBER_SHOP_RESULT", 0x428);
  ("CMSG_CALENDAR_GET_CALENDAR", 0x429);
  ("CMSG_CALENDAR_GET_EVENT", 0x42A);
  ("CMSG_CALENDAR_GUILD_FILTER", 0x42B);
  ("CMSG_CALENDAR_ARENA_TEAM", 0x42C);
  ("CMSG_CALENDAR_ADD_EVENT", 0x42D);
  ("CMSG_CALENDAR_UPDATE_EVENT", 0x42E);
  ("CMSG_CALENDAR_REMOVE_EVENT", 0x42F);
  ("CMSG_CALENDAR_COPY_EVENT", 0x430);
  ("CMSG_CALENDAR_EVENT_INVITE", 0x431);
  ("CMSG_CALENDAR_EVENT_RSVP", 0x432);
  ("CMSG_CALENDAR_EVENT_REMOVE_INVITE", 0x433);
  ("CMSG_CALENDAR_EVENT_STATUS", 0x434);
  ("CMSG_CALENDAR_EVENT_MODERATOR_STATUS", 0x435);
  ("SMSG_CALENDAR_SEND_CALENDAR", 0x436);
  ("SMSG_CALENDAR_SEND_EVENT", 0x437);
  ("SMSG_CALENDAR_FILTER_GUILD", 0x438);
  ("SMSG_CALENDAR_ARENA_TEAM", 0x439);
  ("SMSG_CALENDAR_EVENT_INVITE", 0x43A);
  ("SMSG_CALENDAR_EVENT_INVITE_REMOVED", 0x43B);
  ("SMSG_CALENDAR_EVENT_STATUS", 0x43C);
  ("SMSG_CALENDAR_COMMAND_RESULT", 0x43D);
  ("SMSG_CALENDAR_RAID_LOCKOUT_ADDED", 0x43E);
  ("SMSG_CALENDAR_RAID_LOCKOUT_REMOVED", 0x43F);
  ("SMSG_CALENDAR_EVENT_INVITE_ALERT", 0x440);
  ("SMSG_CALENDAR_EVENT_INVITE_REMOVED_ALERT", 0x441);
  ("SMSG_CALENDAR_EVENT_INVITE_STATUS_ALERT", 0x442);
  ("SMSG_CALENDAR_EVENT_REMOVED_ALERT", 0x443);
  ("SMSG_CALENDAR_EVENT_UPDATED_ALERT", 0x444);
  ("SMSG_CALENDAR_EVENT_MODERATOR_STATUS_ALERT", 0x445);
  ("CMSG_CALENDAR_COMPLAIN", 0x446);
  ("CMSG_CALENDAR_GET_NUM_PENDING", 0x447);
  ("SMSG_CALENDAR_SEND_NUM_PENDING", 0x448);
  ("CMSG_SAVE_DANCE", 0x449);
  ("SMSG_NOTIFY_DANCE", 0x44A);
  ("CMSG_PLAY_DANCE", 0x44B);
  ("SMSG_PLAY_DANCE", 0x44C);
  ("CMSG_LOAD_DANCES", 0x44D);
  ("CMSG_STOP_DANCE", 0x44E);
  ("SMSG_STOP_DANCE", 0x44F);
  ("CMSG_SYNC_DANCE", 0x450);
  ("CMSG_DANCE_QUERY", 0x451);
  ("SMSG_DANCE_QUERY_RESPONSE", 0x452);
  ("SMSG_INVALIDATE_DANCE", 0x453);
  ("CMSG_DELETE_DANCE", 0x454);
  ("SMSG_LEARNED_DANCE_MOVES", 0x455);
  ("CMSG_LEARN_DANCE_MOVE", 0x456);
  ("CMSG_UNLEARN_DANCE_MOVE", 0x457);
  ("CMSG_SET_RUNE_COUNT", 0x458);
  ("CMSG_SET_RUNE_COOLDOWN", 0x459);
  ("MSG_MOVE_SET_PITCH_RATE_CHEAT", 0x45A);
  ("MSG_MOVE_SET_PITCH_RATE", 0x45B);
  ("SMSG_FORCE_PITCH_RATE_CHANGE", 0x45C);
  ("CMSG_FORCE_PITCH_RATE_CHANGE_ACK", 0x45D);
  ("SMSG_SPLINE_SET_PITCH_RATE", 0x45E);
  ("CMSG_CALENDAR_EVENT_INVITE_NOTES", 0x45F);
  ("SMSG_CALENDAR_EVENT_INVITE_NOTES", 0x460);
  ("SMSG_CALENDAR_EVENT_INVITE_NOTES_ALERT", 0x461);
  ("CMSG_UPDATE_MISSILE_TRAJECTORY", 0x462);
  ("SMSG_UPDATE_ACCOUNT_DATA_COMPLETE", 0x463);
  ("SMSG_TRIGGER_MOVIE", 0x464);
  ("CMSG_COMPLETE_MOVIE", 0x465);
  ("CMSG_SET_GLYPH_SLOT", 0x466);
  ("CMSG_SET_GLYPH", 0x467);
  ("SMSG_ACHIEVEMENT_EARNED", 0x468);
  ("SMSG_DYNAMIC_DROP_ROLL_RESULT", 0x469);
  ("SMSG_CRITERIA_UPDATE", 0x46A);
  ("CMSG_QUERY_INSPECT_ACHIEVEMENTS", 0x46B);
  ("SMSG_RESPOND_INSPECT_ACHIEVEMENTS", 0x46C);
  ("CMSG_DISMISS_CONTROLLED_VEHICLE", 0x46D);
  ("CMSG_COMPLETE_ACHIEVEMENT_CHEAT", 0x46E);
  ("SMSG_QUESTUPDATE_ADD_PVP_KILL", 0x46F);
  ("CMSG_SET_CRITERIA_CHEAT", 0x470);
  ("SMSG_CALENDAR_RAID_LOCKOUT_UPDATED", 0x471);
  ("CMSG_UNITANIMTIER_CHEAT", 0x472);
  ("CMSG_CHAR_CUSTOMIZE", 0x473);
  ("SMSG_CHAR_CUSTOMIZE", 0x474);
  ("SMSG_PET_RENAMEABLE", 0x475);
  ("CMSG_REQUEST_VEHICLE_EXIT", 0x476);
  ("CMSG_REQUEST_VEHICLE_PREV_SEAT", 0x477);
  ("CMSG_REQUEST_VEHICLE_NEXT_SEAT", 0x478);
  ("CMSG_REQUEST_VEHICLE_SWITCH_SEAT", 0x479);
  ("CMSG_PET_LEARN_TALENT", 0x47A);
  ("CMSG_PET_UNLEARN_TALENTS", 0x47B);
  ("SMSG_SET_PHASE_SHIFT", 0x47C);
  ("SMSG_ALL_ACHIEVEMENT_DATA", 0x47D);
  ("CMSG_FORCE_SAY_CHEAT", 0x47E);
  ("SMSG_HEALTH_UPDATE", 0x47F);
  ("SMSG_POWER_UPDATE", 0x480);
  ("CMSG_GAMEOBJ_REPORT_USE", 0x481);
  ("SMSG_HIGHEST_THREAT_UPDATE", 0x482);
  ("SMSG_THREAT_UPDATE", 0x483);
  ("SMSG_THREAT_REMOVE", 0x484);
  ("SMSG_THREAT_CLEAR", 0x485);
  ("SMSG_CONVERT_RUNE", 0x486);
  ("SMSG_RESYNC_RUNES", 0x487);
  ("SMSG_ADD_RUNE_POWER", 0x488);
  ("CMSG_START_QUEST", 0x489);
  ("CMSG_REMOVE_GLYPH", 0x48A);
  ("CMSG_DUMP_OBJECTS", 0x48B);
  ("SMSG_DUMP_OBJECTS_DATA", 0x48C);
  ("CMSG_DISMISS_CRITTER", 0x48D);
  ("SMSG_NOTIFY_DEST_LOC_SPELL_CAST", 0x48E);
  ("CMSG_AUCTION_LIST_PENDING_SALES", 0x48F);
  ("SMSG_AUCTION_LIST_PENDING_SALES", 0x490);
  ("SMSG_MODIFY_COOLDOWN", 0x491);
  ("SMSG_PET_UPDATE_COMBO_POINTS", 0x492);
  ("CMSG_ENABLETAXI", 0x493);
  ("SMSG_PRE_RESURRECT", 0x494);
  ("SMSG_AURA_UPDATE_ALL", 0x495);
  ("SMSG_AURA_UPDATE", 0x496);
  ("CMSG_FLOOD_GRACE_CHEAT", 0x497)
].

Definition enum_498 : list (string * Z) := [
  ("SMSG_SERVER_FIRST_ACHIEVEMENT", 0x498);
  ("SMSG_PET_LEARNED_SPELL", 0x499);
  ("SMSG_PET_REMOVED_SPELL", 0x49A);
  ("CMSG_CHANGE_SEATS_ON_CONTROLLED_VEHICLE", 0x49B);
  ("CMSG_HEARTH_AND_RESURRECT", 0x49C);
  ("SMSG_ON_CANCEL_EXPECTED_RIDE_VEHICLE_AURA", 0x49D);
  ("SMSG_CRITERIA_DELETED", 0x49E);
  ("SMSG_ACHIEVEMENT_DELETED", 0x49F);
  ("CMSG_SERVER_INFO_QUERY", 0x4A0);
  ("SMSG_SERVER_INFO_RESPONSE", 0x4A1);
  ("CMSG_CHECK_LOGIN_CRITERIA", 0x4A2);
  ("SMSG_SERVER_BUCK_DATA_START", 0x4A3);
  ("CMSG_SET_BREATH", 0x4A4);
  ("CMSG_QUERY_VEHICLE_STATUS", 0x4A5);
  ("SMSG_BATTLEGROUND_INFO_THROTTLED", 0x4A6);
  ("SMSG_PLAYER_VEHICLE_DATA", 0x4A7);
  ("CMSG_PLAYER_VEHICLE_ENTER", 0x4A8);
  ("CMSG_CONTROLLER_EJECT_PASSENGER", 0x4A9);
  ("SMSG_PET_GUIDS", 0x4AA);
  ("SMSG_CLIENTCACHE_VERSION", 0x4AB);
  ("CMSG_CHANGE_GDF_ARENA_RATING", 0x4AC);
  ("CMSG_SET_ARENA_TEAM_RATING_BY_INDEX", 0x4AD);
  ("CMSG_SET_ARENA_TEAM_WEEKLY_GAMES", 0x4AE);
  ("CMSG_SET_ARENA_TEAM_SEASON_GAMES", 0x4AF);
  ("CMSG_SET_ARENA_MEMBER_WEEKLY_GAMES", 0x4B0);
  ("CMSG_SET_ARENA_MEMBER_SEASON_GAMES", 0x4B1);
  ("SMSG_ITEM_REFUND_INFO_RESPONSE", 0x4B2);
  ("CMSG_ITEM_REFUND_INFO", 0x4B3);
  ("CMSG_ITEM_REFUND", 0x4B4);
  ("SMSG_ITEM_REFUND_RESULT", 0x4B5);
  ("CMSG_CORPSE_MAP_POSITION_QUERY", 0x4B6);
  ("SMSG_CORPSE_MAP_POSITION_QUERY_RESPONSE", 0x4B7);
  ("CMSG_UNUSED5", 0x4B8);
  ("CMSG_UNUSED6", 0x4B9);
  ("CMSG_CALENDAR_EVENT_SIGNUP", 0x4BA);
  ("SMSG_CALENDAR_CLEAR_PENDING_ACTION", 0x4BB);
  ("SMSG_EQUIPMENT_SET_LIST", 0x4BC);
  ("CMSG_EQUIPMENT_SET_SAVE", 0x4BD);
  ("CMSG_UPDATE_PROJECTILE_POSITION", 0x4BE);
  ("SMSG_SET_PROJECTILE_POSITION", 0x4BF);
  ("SMSG_TALENTS_INFO", 0x4C0);
  ("CMSG_LEARN_PREVIEW_TALENTS", 0x4C1);
  ("CMSG_LEARN_PREVIEW_TALENTS_PET", 0x4C2);
  ("CMSG_SET_ACTIVE_TALENT_GROUP_OBSOLETE", 0x4C3);
  ("CMSG_GM_GRANT_ACHIEVEMENT", 0x4C4);
  ("CMSG_GM_REMOVE_ACHIEVEMENT", 0x4C5);
  ("CMSG_GM_SET_CRITERIA_FOR_PLAYER", 0x4C6);
  ("SMSG_ARENA_UNIT_DESTROYED", 0x4C7);
  ("SMSG_ARENA_TEAM_CHANGE_FAILED_QUEUED", 0x4C8);
  ("CMSG_PROFILEDATA_REQUEST", 0x4C9);
  ("SMSG_PROFILEDATA_RESPONSE", 0x4CA);
  ("CMSG_START_BATTLEFIELD_CHEAT", 0x4CB);
  ("CMSG_END_BATTLEFIELD_CHEAT", 0x4CC);
  ("SMSG_MULTIPLE_PACKETS", 0x4CD);
  ("SMSG_MOVE_GRAVITY_DISABLE", 0x4CE);
  ("CMSG_MOVE_GRAVITY_DISABLE_ACK", 0x4CF);
  ("SMSG_MOVE_GRAVITY_ENABLE", 0x4D0);
  ("CMSG_MOVE_GRAVITY_ENABLE_ACK", 0x4D1);
  ("MSG_MOVE_GRAVITY_CHNG", 0x4D2);
  ("SMSG_SPLINE_MOVE_GRAVITY_DISABLE", 0x4D3);
  ("SMSG_SPLINE_MOVE_GRAVITY_ENABLE", 0x4D4);
  ("CMSG_EQUIPMENT_SET_USE", 0x4D5);
  ("SMSG_EQUIPMENT_SET_USE_RESULT", 0x4D6);
  ("CMSG_FORCE_ANIM", 0x4D7);
  ("SMSG_FORCE_ANIM", 0x4D8);
  ("CMSG_CHAR_FACTION_CHANGE", 0x4D9);
  ("SMSG_CHAR_FACTION_CHANGE", 0x4DA);
  ("CMSG_PVP_QUEUE_STATS_REQUEST", 0x4DB);
  ("SMSG_PVP_QUEUE_STATS", 0x4DC);
  ("CMSG_SET_PAID_SERVICE_CHEAT", 0x4DD);
  ("SMSG_BATTLEFIELD_MGR_ENTRY_INVITE", 0x4DE);
  ("CMSG_BATTLEFIELD_MGR_ENTRY_INVITE_RESPONSE", 0x4DF);
  ("SMSG_BATTLEFIELD_MGR_ENTERED", 0x4E0);
  ("SMSG_BATTLEFIELD_MGR_QUEUE_INVITE", 0x4E1);
  ("CMSG_BATTLEFIELD_MGR_QUEUE_INVITE_RESPONSE", 0x4E2);
  ("CMSG_BATTLEFIELD_MGR_QUEUE_REQUEST", 0x4E3);
  ("SMSG_BATTLEFIELD_MGR_QUEUE_REQUEST_RESPONSE", 0x4E4);
  ("SMSG_BATTLEFIELD_MGR_EJECT_PENDING", 0x4E5);
  ("SMSG_BATTLEFIELD_MGR_EJECTED", 0x4E6);
  ("CMSG_BATTLEFIELD_MGR_EXIT_REQUEST", 0x4E7);
  ("SMSG_BATTLEFIELD_MGR_STATE_CHANGE", 0x4E8);
  ("CMSG_BATTLEFIELD_MANAGER_ADVANCE_STATE", 0x4E9);
  ("CMSG_BATTLEFIELD_MANAGER_SET_NEXT_TRANSITION_TIME", 0x4EA);
  ("MSG_SET_RAID_DIFFICULTY", 0x4EB);
  ("CMSG_TOGGLE_XP_GAIN", 0x4EC);
  ("SMSG_TOGGLE_XP_GAIN", 0x4ED);
  ("SMSG_GMRESPONSE_DB_ERROR", 0x4EE);
  ("SMSG_GMRESPONSE_RECEIVED", 0x4EF);
  ("CMSG_GMRESPONSE_RESOLVE", 0x4F0);
  ("SMSG_GMRESPONSE_STATUS_UPDATE", 0x4F1);
  ("SMSG_GMRESPONSE_CREATE_TICKET", 0x4F2);
  ("CMSG_GMRESPONSE_CREATE_TICKET", 0x4F3);
  ("CMSG_SERVERINFO", 0x4F4);
  ("SMSG_SERVERINFO", 0x4F5);
  ("CMSG_WORLD_STATE_UI_TIMER_UPDATE", 0x4F6);
  ("SMSG_WORLD_STATE_UI_TIMER_UPDATE", 0x4F7);
  ("CMSG_CHAR_RACE_CHANGE", 0x4F8);
  ("MSG_VIEW_PHASE_SHIFT", 0x4F9);
  ("SMSG_TALENTS_INVOLUNTARILY_RESET", 0x4FA);
  ("CMSG_DEBUG_SERVER_GEO", 0x4FB);
  ("SMSG_DEBUG_SERVER_GEO", 0x4FC);
  ("SMSG_LOOT_SLOT_CHANGED", 0x4FD);
  ("UMSG_UPDATE_GROUP_INFO", 0x4FE);
  ("CMSG_READY_FOR_ACCOUNT_DATA_TIMES", 0x4FF);
  ("CMSG_QUERY_QUESTS_COMPLETED", 0x500);
  ("SMSG_QUERY_QUESTS_COMPLETED_RESPONSE", 0x501);
  ("CMSG_GM_REPORT_LAG", 0x502);
  ("CMSG_AFK_MONITOR_INFO_REQUEST", 0x503);
  ("SMSG_AFK_MONITOR_INFO_RESPONSE", 0x504);
  ("CMSG_AFK_MONITOR_INFO_CLEAR", 0x505);
  ("SMSG_CORPSE_NOT_IN_INSTANCE", 0x506);
  ("CMSG_GM_NUKE_CHARACTER", 0x507);
  ("CMSG_SET_ALLOW_LOW_LEVEL_RAID1", 0x508);
  ("CMSG_SET_ALLOW_LOW_LEVEL_RAID2", 0x509);
  ("SMSG_CAMERA_SHAKE", 0x50A);
  ("SMSG_SOCKET_GEMS_RESULT", 0x50B);
  ("CMSG_SET_CHARACTER_MODEL", 0x50C);
  ("SMSG_REDIRECT_CLIENT", 0x50D);
  ("CMSG_REDIRECTION_FAILED", 0x50E);
  ("SMSG_SUSPEND_COMMS", 0x50F);
  ("CMSG_SUSPEND_COMMS_ACK", 0x510);
  ("SMSG_FORCE_SEND_QUEUED_PACKETS", 0x511);
  ("CMSG_REDIRECTION_AUTH_PROOF", 0x512);
  ("CMSG_DROP_NEW_CONNECTION", 0x513);
  ("SMSG_SEND_ALL_COMBAT_LOG", 0x514);
  ("SMSG_OPEN_LFG_DUNGEON_FINDER", 0x515);
  ("SMSG_MOVE_SET_COLLISION_HGT", 0x516);
  ("CMSG_MOVE_SET_COLLISION_HGT_ACK", 0x517);
  ("MSG_MOVE_SET_COLLISION_HGT", 0x518);
  ("CMSG_CLEAR_RANDOM_BG_WIN_TIME", 0x519);
  ("CMSG_CLEAR_HOLIDAY_BG_WIN_TIME", 0x51A);
  ("CMSG_COMMENTATOR_SKIRMISH_QUEUE_COMMAND", 0x51B);
  ("SMSG_COMMENTATOR_SKIRMISH_QUEUE_RESULT1", 0x51C);
  ("SMSG_COMMENTATOR_SKIRMISH_QUEUE_RESULT2", 0x51D);
  ("SMSG_MULTIPLE_MOVES", 0x51E);
  ("NUM_CLIENT_MSG_TYPES", 0x51F);
  ("LOGON_AUTH_MASTER", 0x520);
  ("LOGON_INIT_NODE", 0x521);
  ("NODE_INIT_ACK", 0x522);
  ("LOGON_SYNC_DATA", 0x523);
  ("NODE_SYNC_DATA", 0x524);
  ("NODE_PLAYER_CHANGED_ZONE", 0x525);
  ("NODE_PLAYER_DATA", 0x526);
  ("NODE_MISC_DATA", 0x527);
  ("NODE_PLAYERHOLDER_DATA", 0x528);
  ("CLUSTER_PLAYER_DATA", 0x529);
  ("NUM_MSG_TYPES", 0x52D)
].

Definition Opcodes : list (string * Z) :=
  enum_000 ++ enum_093 ++ enum_126 ++ enum_1B9 ++ enum_24C ++ enum_2DF ++ enum_372 ++ enum_405 ++ enum_498.

(** ** The table *)
Definition table_000 : list OpcodeHandler := [
  entry "MSG_NULL_ACTION" true STATUS_NEVER PACKET_STATE_NULL PACKET_STATE_NULL ClientSession.Handle_NULL;
  entry "CMSG_BOOTME" true STATUS_NEVER PACKET_STATE_NODE PACKET_STATE_PASS ClientSession.Handle_NULL;
  entry "CMSG_DBLOOKUP" true STATUS_NEVER PACKET_STATE_NODE PACKET_STATE_PASS ClientSession.Handle_NULL;
  entry "SMSG_DBLOOKUP" true STATUS_NEVER PACKET_STATE_NULL PACKET_STATE_PASS ClientSession.Handle_ServerSide;
  entry "CMSG_QUERY_OBJECT_POSITION" true STATUS_NEVER PACKET_STATE_NODE PACKET_STATE_PASS ClientSession.Handle_NULL;
  entry "SMSG_QUERY_OBJECT_POSITION" true STATUS_NEVER PACKET_STATE_NULL PACKET_STATE_PASS ClientSession.Handle_ServerSide;
  entry "CMSG_QUERY_OBJECT_ROTATION" true STATUS_NEVER PACKET_STATE_NODE PACKET_STATE_PASS ClientSession.Handle_NULL;
  entry "SMSG_QUERY_OBJECT_ROTATION" true STATUS_NEVER PACKET_STATE_NULL PACKET_STATE_PASS ClientSession.Handle_ServerSide;
  entry "CMSG_WORLD_TELEPORT" true STATUS_LOGGEDIN PACKET_STATE_NODE PACKET_STATE_PASS ClientSession.Handle_NULL;
  entry "CMSG_TELEPORT_TO_UNIT" true STATUS_LOGGEDIN PACKET_STATE_NODE PACKET_STATE_PASS ClientSession.Handle_NULL;
  entry "CMSG_ZONE_MAP" true STATUS_NEVER PACKET_STATE_NODE PACKET_STATE_PASS ClientSession.Handle_NULL;
  entry "SMSG_ZONE_MAP" true STATUS_NEVER PACKET_STATE_NULL PACKET_STATE_PASS ClientSession.Handle_ServerSide;
  entry "CMSG_DEBUG_CHANGECELLZONE" true STATUS_NEVER PACKET_STATE_NODE PACKET_STATE_PASS ClientSession.Handle_NULL;
  entry "CMSG_MOVE_CHARACTER_CHEAT" true STATUS_NEVER PACKET_STATE_NODE PACKET_STATE_PASS ClientSession.Handle_NULL;
  entry "SMSG_MOVE_CHARACTER_CHEAT" true STATUS_NEVER PACKET_STATE_NULL PACKET_STATE_PASS ClientSession.Handle_NULL;
  entry "CMSG_RECHARGE" true STATUS_NEVER PACKET_STATE_NODE PACKET_STATE_PASS ClientSession.Handle_NULL;
  entry "CMSG_LEARN_SPELL" true STATUS_NEVER PACKET_STATE_NODE PACKET_STATE_PASS ClientSession.Handle_NULL;
  entry "CMSG_CREATEMONSTER" true STATUS_NEVER PACKET_STATE_NODE PACKET_STATE_PASS ClientSession.Handle_NULL;
  entry "CMSG_DESTROYMONSTER" true STATUS_NEVER PACKET_STATE_NODE PACKET_STATE_PASS ClientSession.Handle_NULL;
  entry "CMSG_CREATEITEM" true STATUS_NEVER PACKET_STATE_NODE PACKET_STATE_PASS ClientSession.Handle_NULL;
  entry "CMSG_CREATEGAMEOBJECT" true STATUS_NEVER PACKET_STATE_NODE PACKET_STATE_PASS ClientSession.Handle_NULL;
  entry "SMSG_CHECK_FOR_BOTS" true STATUS_NEVER PACKET_STATE_NODE PACKET_STATE_PASS ClientSession.Handle_ServerSide;
  entry "CMSG_MAKEMONSTERATTACKGUID" true STATUS_NEVER PACKET_STATE_NODE PACKET_STATE_PASS ClientSession.Handle_NULL;
  entry "CMSG_BOT_DETECTED2" true STATUS_NEVER PACKET_STATE_NODE PACKET_STATE_PASS ClientSession.Handle_NULL;
  entry "CMSG_FORCEACTION" true STATUS_NEVER PACKET_STATE_NODE PACKET_STATE_PASS ClientSession.Handle_NULL;
  entry "CMSG_FORCEACTIONONOTHER" true STATUS_NEVER PACKET_STATE_NODE PACKET_STATE_PASS ClientSession.Handle_NULL;
  entry "CMSG_FORCEACTIONSHOW" true STATUS_NEVER PACKET_STATE_NODE PACKET_STATE_PASS ClientSession.Handle_NULL;
  entry "SMSG_FORCEACTIONSHOW" true STATUS_NEVER PACKET_STATE_NODE PACKET_STATE_PASS ClientSession.Handle_ServerSide;
  entry "CMSG_PETGODMODE" true STATUS_NEVER PACKET_STATE_NODE PACKET_STATE_PASS ClientSession.Handle_NULL;
  entry "SMSG_PETGODMODE" true STATUS_NEVER PACKET_STATE_NODE PACKET_STATE_PASS ClientSession.Handle_ServerSide;
  entry "SMSG_REFER_A_FRIEND_EXPIRED" true STATUS_NEVER PACKET_STATE_NODE PACKET_STATE_PASS ClientSession.Handle_ServerSide;
  entry "CMSG_WEATHER_SPEED_CHEAT" true STATUS_NEVER PACKET_STATE_NODE PACKET_STATE_PASS ClientSession.Handle_NULL;
  entry "CMSG_UNDRESSPLAYER" true STATUS_NEVER PACKET_STATE_NODE PACKET_STATE_PASS ClientSession.Handle_NULL;
  entry "CMSG_BEASTMASTER" true STATUS_NEVER PACKET_STATE_NODE PACKET_STATE_PASS ClientSession.Handle_NULL;
  entry "CMSG_GODMODE" true STATUS_NEVER PACKET_STATE_NODE PACKET_STATE_PASS ClientSession.Handle_NULL;
  entry "SMSG_GODMODE" true STATUS_NEVER PACKET_STATE_NODE PACKET_STATE_PASS ClientSession.Handle_ServerSide;
  entry "CMSG_CHEAT_SETMONEY" true STATUS_NEVER PACKET_STATE_NODE PACKET_STATE_PASS ClientSession.Handle_NULL;
  entry "CMSG_LEVEL_CHEAT" true STATUS_NEVER PACKET_STATE_NODE PACKET_STATE_PASS ClientSession.Handle_NULL;
  entry "CMSG_PET_LEVEL_CHEAT" true STATUS_NEVER PACKET_STATE_NODE PACKET_STATE_PASS ClientSession.Handle_NULL;
  entry "CMSG_SET_WORLDSTATE" true STATUS_NEVER PACKET_STATE_NODE PACKET_STATE_PASS ClientSession.Handle_NULL;
  entry "CMSG_COOLDOWN_CHEAT" true STATUS_NEVER PACKET_STATE_NODE PACKET_STATE_PASS ClientSession.Handle_NULL;
  entry "CMSG_USE_SKILL_CHEAT" true STATUS_NEVER PACKET_STATE_NODE PACKET_STATE_PASS ClientSession.Handle_NULL;
  entry "CMSG_FLAG_QUEST" true STATUS_NEVER PACKET_STATE_NODE PACKET_STATE_PASS ClientSession.Handle_NULL;
  entry "CMSG_FLAG_QUEST_FINISH" true STATUS_NEVER PACKET_STATE_NODE PACKET_STATE_PASS ClientSession.Handle_NULL;
  entry "CMSG_CLEAR_QUEST" true STATUS_NEVER PACKET_STATE_NODE PACKET_STATE_PASS ClientSession.Handle_NULL;
  entry "CMSG_SEND_EVENT" true STATUS_NEVER PACKET_STATE_NODE PACKET_STATE_PASS ClientSession.Handle_NULL;
  entry "CMSG_DEBUG_AISTATE" true STATUS_NEVER PACKET_STATE_NODE PACKET_STATE_PASS ClientSession.Handle_NULL;
  entry "SMSG_DEBUG_AISTATE" true STATUS_NEVER PACKET_STATE_NODE PACKET_STATE_PASS ClientSession.Handle_ServerSide;
  entry "CMSG_DISABLE_PVP_CHEAT" true STATUS_NEVER PACKET_STATE_NODE PACKET_STATE_PASS ClientSession.Handle_NULL;
  entry "CMSG_ADVANCE_SPAWN_TIME" true STATUS_NEVER PACKET_STATE_NODE PACKET_STATE_PASS ClientSession.Handle_NULL;
  entry "SMSG_DESTRUCTIBLE_BUILDING_DAMAGE" true STATUS_NEVER PACKET_STATE_NODE PACKET_STATE_PASS ClientSession.Handle_NULL;
  entry "CMSG_AUTH_SRP6_BEGIN" true STATUS_NEVER PACKET_STATE_NODE PACKET_STATE_PASS ClientSession.Handle_NULL;
  entry "CMSG_AUTH_SRP6_PROOF" true STATUS_NEVER PACKET_STATE_NODE PACKET_STATE_PASS ClientSession.Handle_NULL;
  entry "CMSG_AUTH_SRP6_RECODE" true STATUS_NEVER PACKET_STATE_NODE PACKET_STATE_PASS ClientSession.Handle_NULL;
  entry "CMSG_CHAR_CREATE" true STATUS_AUTHED PACKET_STATE_NODE PACKET_STATE_PASS ClientSession.Handle_NULL;
  entry "CMSG_CHAR_ENUM" true STATUS_AUTHED PACKET_STATE_LOGON PACKET_STATE_NULL ClientSession.HandleCharEnumOpcode;
  entry "CMSG_CHAR_DELETE" true STATUS_AUTHED PACKET_STATE_NODE PACKET_STATE_PASS ClientSession.Handle_NULL;
  entry "SMSG_AUTH_SRP6_RESPONSE" true STATUS_NEVER PACKET_STATE_NODE PACKET_STATE_PASS ClientSession.Handle_ServerSide;
  entry "SMSG_CHAR_CREATE" true STATUS_NEVER PACKET_STATE_NODE PACKET_STATE_PASS ClientSession.Handle_ServerSide;
  entry "SMSG_CHAR_ENUM" true STATUS_NEVER PACKET_STATE_NULL PACKET_STATE_PASS ClientSession.Handle_ServerSide;
  entry "SMSG_CHAR_DELETE" true STATUS_NEVER PACKET_STATE_NODE PACKET_STATE_PASS ClientSession.Handle_ServerSide;
  entry "CMSG_PLAYER_LOGIN" false STATUS_AUTHED PACKET_STATE_LOGON PACKET_STATE_PASS ClientSession.HandlePlayerLoginOpcode;
  entry "SMSG_NEW_WORLD" true STATUS_NEVER PACKET_STATE_NULL PACKET_STATE_PASS ClientSession.Handle_ServerSide;
  entry "SMSG_TRANSFER_PENDING" true STATUS_NEVER PACKET_STATE_NODE PACKET_STATE_PASS ClientSession.Handle_ServerSide;
  entry "SMSG_TRANSFER_ABORTED" true STATUS_NEVER PACKET_STATE_NODE PACKET_STATE_PASS ClientSession.Handle_ServerSide;
  entry "SMSG_CHARACTER_LOGIN_FAILED" true STATUS_NEVER PACKET_STATE_NODE PACKET_STATE_PASS ClientSession.Handle_ServerSide;
  entry "SMSG_LOGIN_SETTIMESPEED" true STATUS_NEVER PACKET_STATE_NODE PACKET_STATE_PASS ClientSession.Handle_ServerSide;
  entry "SMSG_GAMETIME_UPDATE" true STATUS_NEVER PACKET_STATE_NODE PACKET_STATE_PASS ClientSession.Handle_ServerSide;
  entry "CMSG_GAMETIME_SET" true STATUS_NEVER PACKET_STATE_NODE PACKET_STATE_PASS ClientSession.Handle_NULL;
  entry "SMSG_GAMETIME_SET" true STATUS_NEVER PACKET_STATE_NODE PACKET_STATE_PASS ClientSession.Handle_ServerSide;
  entry "CMSG_GAMESPEED_SET" true STATUS_NEVER PACKET_STATE_NODE PACKET_STATE_PASS ClientSession.Handle_NULL;
  entry "SMSG_GAMESPEED_SET" true STATUS_NEVER PACKET_STATE_NODE PACKET_STATE_PASS ClientSession.Handle_ServerSide;
  entry "CMSG_SERVERTIME" true STATUS_NEVER PACKET_STATE_NODE PACKET_STATE_PASS ClientSession.Handle_NULL;
  entry "SMSG_SERVERTIME" true STATUS_NEVER PACKET_STATE_NODE PACKET_STATE_PASS ClientSession.Handle_ServerSide;
  entry "CMSG_PLAYER_LOGOUT" true STATUS_LOGGEDIN PACKET_STATE_NODE PACKET_STATE_PASS ClientSession.Handle_NULL;
  entry "CMSG_LOGOUT_REQUEST" true STATUS_LOGGEDIN PACKET_STATE_BOTH PACKET_STATE_NULL ClientSession.HandlePlayerLogoutRequest;
  entry "SMSG_LOGOUT_RESPONSE" false STATUS_NEVER PACKET_STATE_NULL PACKET_STATE_BOTH ClientSession.Handle_SMSG_LOGOUT_RESPONSE;
  entry "SMSG_LOGOUT_COMPLETE" false STATUS_NEVER PACKET_STATE_NULL PACKET_STATE_LOGON ClientSession.Handle_SMSG_LOGOUT_COMPLETE;
  entry "CMSG_LOGOUT_CANCEL" true STATUS_LOGGEDIN PACKET_STATE_BOTH PACKET_STATE_NULL ClientSession.HandleLogoutCancelOpcode;
  entry "SMSG_LOGOUT_CANCEL_ACK" true STATUS_NEVER PACKET_STATE_NODE PACKET_STATE_PASS ClientSession.Handle_ServerSide;
  entry "CMSG_NAME_QUERY" true STATUS_LOGGEDIN PACKET_STATE_NODE PACKET_STATE_PASS ClientSession.Handle_NULL;
  entry "SMSG_NAME_QUERY_RESPONSE" true STATUS_NEVER PACKET_STATE_NODE PACKET_STATE_PASS ClientSession.Handle_ServerSide;
  entry "CMSG_PET_NAME_QUERY" true STATUS_LOGGEDIN PACKET_STATE_NODE PACKET_STATE_PASS ClientSession.Handle_NULL;
  entry "SMSG_PET_NAME_QUERY_RESPONSE" true STATUS_NEVER PACKET_STATE_NODE PACKET_STATE_PASS ClientSession.Handle_ServerSide;
  entry "CMSG_GUILD_QUERY" true STATUS_AUTHED PACKET_STATE_LOGON PACKET_STATE_LOGON ClientSession.HandleGuildQueryOpcode;
  entry "SMSG_GUILD_QUERY_RESPONSE" true STATUS_NEVER PACKET_STATE_LOGON PACKET_STATE_LOGON ClientSession.Handle_ServerSide;
  entry "CMSG_ITEM_QUERY_SINGLE" true STATUS_LOGGEDIN PACKET_STATE_LOGON PACKET_STATE_NULL ClientSession.HandleItemQuerySingleOpcode;
  entry "CMSG_ITEM_QUERY_MULTIPLE" true STATUS_NEVER PACKET_STATE_NODE PACKET_STATE_PASS ClientSession.Handle_NULL;
  entry "SMSG_ITEM_QUERY_SINGLE_RESPONSE" true STATUS_LOGGEDIN PACKET_STATE_NULL PACKET_STATE_BOTH ClientSession.HandleSMSG_ITEM_QUERY_SINGLE;
  entry "SMSG_ITEM_QUERY_MULTIPLE_RESPONSE" true STATUS_NEVER PACKET_STATE_NODE PACKET_STATE_PASS ClientSession.Handle_ServerSide;
  entry "CMSG_PAGE_TEXT_QUERY" true STATUS_LOGGEDIN PACKET_STATE_NODE PACKET_STATE_PASS ClientSession.Handle_NULL;
  entry "SMSG_PAGE_TEXT_QUERY_RESPONSE" true STATUS_NEVER PACKET_STATE_NODE PACKET_STATE_PASS ClientSession.Handle_ServerSide;
  entry "CMSG_QUEST_QUERY" true STATUS_LOGGEDIN PACKET_STATE_LOGON PACKET_STATE_NULL ClientSession.HandleQuestQueryOpcode;
  entry "SMSG_QUEST_QUERY_RESPONSE" true STATUS_NEVER PACKET_STATE_NULL PACKET_STATE_PASS ClientSession.Handle_ServerSide;
  entry "CMSG_GAMEOBJECT_QUERY" true STATUS_LOGGEDIN PACKET_STATE_LOGON PACKET_STATE_NULL ClientSession.HandleGameObjectQueryOpcode;
  entry "SMSG_GAMEOBJECT_QUERY_RESPONSE" true STATUS_LOGGEDIN PACKET_STATE_NULL PACKET_STATE_BOTH ClientSession.HandleSMSG_GAMEOBJECT_QUERY;
  entry "CMSG_CREATURE_QUERY" true STATUS_LOGGEDIN PACKET_STATE_LOGON PACKET_STATE_NULL ClientSession.HandleCreatureQueryOpcode;
  entry "SMSG_CREATURE_QUERY_RESPONSE" true STATUS_LOGGEDIN PACKET_STATE_NULL PACKET_STATE_BOTH ClientSession.HandleSMSG_CREATURE_QUERY;
  entry "CMSG_WHO" true STATUS_LOGGEDIN PACKET_STATE_NODE PACKET_STATE_PASS ClientSession.Handle_NULL;
  entry "SMSG_WHO" true STATUS_NEVER PACKET_STATE_NODE PACKET_STATE_PASS ClientSession.Handle_ServerSide;
  entry "CMSG_WHOIS" false STATUS_LOGGEDIN PACKET_STATE_LOGON PACKET_STATE_NULL ClientSession.HandleWhoisOpcode;
  entry "SMSG_WHOIS" true STATUS_NEVER PACKET_STATE_NULL PACKET_STATE_PASS ClientSession.Handle_ServerSide;
  entry "CMSG_CONTACT_LIST" false STATUS_LOGGEDIN PACKET_STATE_LOGON PACKET_STATE_NULL ClientSession.HandleContactListOpcode;
  entry "SMSG_CONTACT_LIST" true STATUS_NEVER PACKET_STATE_NULL PACKET_STATE_NULL ClientSession.Handle_ServerSide;
  entry "SMSG_FRIEND_STATUS" true STATUS_NEVER PACKET_STATE_NULL PACKET_STATE_NULL ClientSession.Handle_ServerSide;
  entry "CMSG_ADD_FRIEND" false STATUS_LOGGEDIN PACKET_STATE_BOTH PACKET_STATE_NULL ClientSession.HandleAddFriendOpcode;
  entry "CMSG_DEL_FRIEND" false STATUS_LOGGEDIN PACKET_STATE_BOTH PACKET_STATE_NULL ClientSession.HandleDelFriendOpcode;
  entry "CMSG_SET_CONTACT_NOTES" false STATUS_LOGGEDIN PACKET_STATE_LOGON PACKET_STATE_NULL ClientSession.HandleSetContactNotesOpcode;
  entry "CMSG_ADD_IGNORE" false STATUS_LOGGEDIN PACKET_STATE_BOTH PACKET_STATE_NULL ClientSession.HandleAddIgnoreOpcode;
  entry "CMSG_DEL_IGNORE" false STATUS_LOGGEDIN PACKET_STATE_BOTH PACKET_STATE_NULL ClientSession.HandleDelIgnoreOpcode;
  entry "CMSG_GROUP_INVITE" true STATUS_LOGGEDIN PACKET_STATE_NODE PACKET_STATE_PASS ClientSession.Handle_NULL;
  entry "SMSG_GROUP_INVITE" true STATUS_NEVER PACKET_STATE_NODE PACKET_STATE_PASS ClientSession.Handle_ServerSide;
  entry "CMSG_GROUP_CANCEL" true STATUS_LOGGEDIN PACKET_STATE_NODE PACKET_STATE_PASS ClientSession.Handle_NULL;
  entry "SMSG_GROUP_CANCEL" true STATUS_NEVER PACKET_STATE_NODE PACKET_STATE_PASS ClientSession.Handle_ServerSide;
  entry "CMSG_GROUP_ACCEPT" true STATUS_LOGGEDIN PACKET_STATE_NODE PACKET_STATE_PASS ClientSession.Handle_NULL;
  entry "CMSG_GROUP_DECLINE" true STATUS_LOGGEDIN PACKET_STATE_NODE PACKET_STATE_PASS ClientSession.Handle_NULL;
  entry "SMSG_GROUP_DECLINE" true STATUS_NEVER PACKET_STATE_NODE PACKET_STATE_PASS ClientSession.Handle_ServerSide;
  entry "CMSG_GROUP_UNINVITE" true STATUS_LOGGEDIN PACKET_STATE_NODE PACKET_STATE_PASS ClientSession.Handle_NULL;
  entry "CMSG_GROUP_UNINVITE_GUID" true STATUS_LOGGEDIN PACKET_STATE_NODE PACKET_STATE_PASS ClientSession.Handle_NULL;
  entry "SMSG_GROUP_UNINVITE" true STATUS_NEVER PACKET_STATE_NODE PACKET_STATE_PASS ClientSession.Handle_ServerSide;
  entry "CMSG_GROUP_SET_LEADER" true STATUS_LOGGEDIN PACKET_STATE_NODE PACKET_STATE_PASS ClientSession.Handle_NULL;
  entry "SMSG_GROUP_SET_LEADER" true STATUS_NEVER PACKET_STATE_NODE PACKET_STATE_PASS ClientSession.Handle_ServerSide;
  entry "CMSG_LOOT_METHOD" true STATUS_LOGGEDIN PACKET_STATE_NODE PACKET_STATE_PASS ClientSession.Handle_NULL;
  entry "CMSG_GROUP_DISBAND" true STATUS_LOGGEDIN PACKET_STATE_NODE PACKET_STATE_PASS ClientSession.Handle_NULL;
  entry "SMSG_GROUP_DESTROYED" true STATUS_NEVER PACKET_STATE_NODE PACKET_STATE_PASS ClientSession.Handle_ServerSide;
  entry "SMSG_GROUP_LIST" true STATUS_NEVER PACKET_STATE_NODE PACKET_STATE_PASS ClientSession.Handle_ServerSide;
  entry "SMSG_PARTY_MEMBER_STATS" true STATUS_NEVER PACKET_STATE_NODE PACKET_STATE_PASS ClientSession.Handle_ServerSide;
  entry "SMSG_PARTY_COMMAND_RESULT" true STATUS_NEVER PACKET_STATE_NODE PACKET_STATE_PASS ClientSession.Handle_ServerSide;
  entry "UMSG_UPDATE_GROUP_MEMBERS" true STATUS_NEVER PACKET_STATE_NODE PACKET_STATE_PASS ClientSession.Handle_NULL;
  entry "CMSG_GUILD_CREATE" true STATUS_LOGGEDIN PACKET_STATE_NODE PACKET_STATE_PASS ClientSession.Handle_NULL;
  entry "CMSG_GUILD_INVITE" true STATUS_LOGGEDIN PACKET_STATE_LOGON PACKET_STATE_NULL ClientSession.HandleGuildInviteOpcode;
  entry "SMSG_GUILD_INVITE" true STATUS_NEVER PACKET_STATE_LOGON PACKET_STATE_NULL ClientSession.Handle_ServerSide;
  entry "CMSG_GUILD_ACCEPT" true STATUS_LOGGEDIN PACKET_STATE_LOGON PACKET_STATE_NULL ClientSession.HandleGuildAcceptOpcode;
  entry "CMSG_GUILD_DECLINE" true STATUS_LOGGEDIN PACKET_STATE_LOGON PACKET_STATE_NULL ClientSession.HandleGuildDeclineOpcode;
  entry "SMSG_GUILD_DECLINE" true STATUS_NEVER PACKET_STATE_LOGON PACKET_STATE_NULL ClientSession.Handle_NULL;
  entry "CMSG_GUILD_INFO" true STATUS_LOGGEDIN PACKET_STATE_LOGON PACKET_STATE_NULL ClientSession.Handle_NULL;
  entry "SMSG_GUILD_INFO" true STATUS_NEVER PACKET_STATE_LOGON PACKET_STATE_NULL ClientSession.HandleGuildInfoOpcode;
  entry "CMSG_GUILD_ROSTER" true STATUS_LOGGEDIN PACKET_STATE_LOGON PACKET_STATE_NULL ClientSession.HandleGuildRosterOpcode;
  entry "SMSG_GUILD_ROSTER" true STATUS_NEVER PACKET_STATE_LOGON PACKET_STATE_NULL ClientSession.Handle_NULL;
  entry "CMSG_GUILD_PROMOTE" true STATUS_LOGGEDIN PACKET_STATE_LOGON PACKET_STATE_NULL ClientSession.HandleGuildPromoteOpcode;
  entry "CMSG_GUILD_DEMOTE" true STATUS_LOGGEDIN PACKET_STATE_LOGON PACKET_STATE_NULL ClientSession.HandleGuildDemoteOpcode;
  entry "CMSG_GUILD_LEAVE" true STATUS_LOGGEDIN PACKET_STATE_LOGON PACKET_STATE_NULL ClientSession.HandleGuildLeaveOpcode;
  entry "CMSG_GUILD_REMOVE" true STATUS_LOGGEDIN PACKET_STATE_LOGON PACKET_STATE_NULL ClientSession.HandleGuildRemoveOpcode;
  entry "CMSG_GUILD_DISBAND" true STATUS_LOGGEDIN PACKET_STATE_LOGON PACKET_STATE_NULL ClientSession.HandleGuildDisbandOpcode;
  entry "CMSG_GUILD_LEADER" true STATUS_LOGGEDIN PACKET_STATE_LOGON PACKET_STATE_NULL ClientSession.HandleGuildLeaderOpcode;
  entry "CMSG_GUILD_MOTD" true STATUS_LOGGEDIN PACKET_STATE_LOGON PACKET_STATE_NULL ClientSession.HandleGuildMOTDOpcode;
  entry "SMSG_GUILD_EVENT" true STATUS_NEVER PACKET_STATE_LOGON PACKET_STATE_NULL ClientSession.Handle_ServerSide
].

Definition table_093 : list OpcodeHandler := [
  entry "SMSG_GUILD_COMMAND_RESULT" true STATUS_NEVER PACKET_STATE_LOGON PACKET_STATE_NULL ClientSession.Handle_ServerSide;
  entry "UMSG_UPDATE_GUILD" true STATUS_NEVER PACKET_STATE_LOGON PACKET_STATE_NULL ClientSession.Handle_NULL;
  entry "CMSG_MESSAGECHAT" false STATUS_LOGGEDIN PACKET_STATE_LOGON PACKET_STATE_NULL ClientSession.HandleMessagechatOpcode;
  entry "SMSG_MESSAGECHAT" true STATUS_NEVER PACKET_STATE_NULL PACKET_STATE_PASS ClientSession.Handle_ServerSide;
  entry "CMSG_JOIN_CHANNEL" false STATUS_LOGGEDIN PACKET_STATE_LOGON PACKET_STATE_NULL ClientSession.HandleJoinChannel;
  entry "CMSG_LEAVE_CHANNEL" false STATUS_LOGGEDIN PACKET_STATE_LOGON PACKET_STATE_NULL ClientSession.HandleLeaveChannel;
  entry "SMSG_CHANNEL_NOTIFY" true STATUS_NEVER PACKET_STATE_NULL PACKET_STATE_PASS ClientSession.Handle_ServerSide;
  entry "CMSG_CHANNEL_LIST" false STATUS_LOGGEDIN PACKET_STATE_LOGON PACKET_STATE_NULL ClientSession.HandleChannelAnnouncements;
  entry "SMSG_CHANNEL_LIST" true STATUS_NEVER PACKET_STATE_NULL PACKET_STATE_PASS ClientSession.Handle_ServerSide;
  entry "CMSG_CHANNEL_PASSWORD" false STATUS_LOGGEDIN PACKET_STATE_LOGON PACKET_STATE_NULL ClientSession.HandleChannelPassword;
  entry "CMSG_CHANNEL_SET_OWNER" false STATUS_LOGGEDIN PACKET_STATE_LOGON PACKET_STATE_NULL ClientSession.HandleChannelSetOwner;
  entry "CMSG_CHANNEL_OWNER" false STATUS_LOGGEDIN PACKET_STATE_LOGON PACKET_STATE_NULL ClientSession.HandleChannelOwner;
  entry "CMSG_CHANNEL_MODERATOR" false STATUS_LOGGEDIN PACKET_STATE_LOGON PACKET_STATE_NULL ClientSession.HandleChannelModerator;
  entry "CMSG_CHANNEL_UNMODERATOR" false STATUS_LOGGEDIN PACKET_STATE_LOGON PACKET_STATE_NULL ClientSession.HandleChannelUnmoderator;
  entry "CMSG_CHANNEL_MUTE" false STATUS_LOGGEDIN PACKET_STATE_LOGON PACKET_STATE_NULL ClientSession.HandleChannelMute;
  entry "CMSG_CHANNEL_UNMUTE" false STATUS_LOGGEDIN PACKET_STATE_LOGON PACKET_STATE_NULL ClientSession.HandleChannelUnmute;
  entry "CMSG_CHANNEL_INVITE" false STATUS_LOGGEDIN PACKET_STATE_LOGON PACKET_STATE_NULL ClientSession.HandleChannelInvite;
  entry "CMSG_CHANNEL_KICK" false STATUS_LOGGEDIN PACKET_STATE_LOGON PACKET_STATE_NULL ClientSession.HandleChannelKick;
  entry "CMSG_CHANNEL_BAN" false STATUS_LOGGEDIN PACKET_STATE_LOGON PACKET_STATE_NULL ClientSession.HandleChannelBan;
  entry "CMSG_CHANNEL_UNBAN" false STATUS_LOGGEDIN PACKET_STATE_LOGON PACKET_STATE_NULL ClientSession.HandleChannelUnban;
  entry "CMSG_CHANNEL_ANNOUNCEMENTS" false STATUS_LOGGEDIN PACKET_STATE_LOGON PACKET_STATE_NULL ClientSession.HandleChannelAnnouncements;
  entry "CMSG_CHANNEL_MODERATE" true STATUS_LOGGEDIN PACKET_STATE_NODE PACKET_STATE_PASS ClientSession.Handle_NULL;
  entry "SMSG_UPDATE_OBJECT" true STATUS_NEVER PACKET_STATE_NULL PACKET_STATE_PASS ClientSession.Handle_ServerSide;
  entry "SMSG_DESTROY_OBJECT" true STATUS_NEVER PACKET_STATE_NULL PACKET_STATE_PASS ClientSession.Handle_ServerSide;
  entry "CMSG_USE_ITEM" true STATUS_LOGGEDIN PACKET_STATE_NODE PACKET_STATE_PASS ClientSession.Handle_NULL;
  entry "CMSG_OPEN_ITEM" true STATUS_LOGGEDIN PACKET_STATE_NODE PACKET_STATE_PASS ClientSession.Handle_NULL;
  entry "CMSG_READ_ITEM" true STATUS_LOGGEDIN PACKET_STATE_NODE PACKET_STATE_PASS ClientSession.Handle_NULL;
  entry "SMSG_READ_ITEM_OK" true STATUS_NEVER PACKET_STATE_NODE PACKET_STATE_PASS ClientSession.Handle_ServerSide;
  entry "SMSG_READ_ITEM_FAILED" true STATUS_NEVER PACKET_STATE_NODE PACKET_STATE_PASS ClientSession.Handle_ServerSide;
  entry "SMSG_ITEM_COOLDOWN" true STATUS_NEVER PACKET_STATE_NODE PACKET_STATE_PASS ClientSession.Handle_ServerSide;
  entry "CMSG_GAMEOBJ_USE" true STATUS_LOGGEDIN PACKET_STATE_NODE PACKET_STATE_PASS ClientSession.Handle_NULL;
  entry "CMSG_DESTROY_ITEMS" true STATUS_NEVER PACKET_STATE_NODE PACKET_STATE_PASS ClientSession.Handle_NULL;
  entry "SMSG_GAMEOBJECT_CUSTOM_ANIM" true STATUS_NEVER PACKET_STATE_NODE PACKET_STATE_PASS ClientSession.Handle_ServerSide;
  entry "CMSG_AREATRIGGER" true STATUS_LOGGEDIN PACKET_STATE_NODE PACKET_STATE_PASS ClientSession.Handle_NULL;
  entry "MSG_MOVE_START_FORWARD" true STATUS_LOGGEDIN PACKET_STATE_NODE PACKET_STATE_PASS ClientSession.Handle_NULL;
  entry "MSG_MOVE_START_BACKWARD" true STATUS_LOGGEDIN PACKET_STATE_NODE PACKET_STATE_PASS ClientSession.Handle_NULL;
  entry "MSG_MOVE_STOP" true STATUS_LOGGEDIN PACKET_STATE_NODE PACKET_STATE_PASS ClientSession.Handle_NULL;
  entry "MSG_MOVE_START_STRAFE_LEFT" true STATUS_LOGGEDIN PACKET_STATE_NODE PACKET_STATE_PASS ClientSession.Handle_NULL;
  entry "MSG_MOVE_START_STRAFE_RIGHT" true STATUS_LOGGEDIN PACKET_STATE_NODE PACKET_STATE_PASS ClientSession.Handle_NULL;
  entry "MSG_MOVE_STOP_STRAFE" true STATUS_LOGGEDIN PACKET_STATE_NODE PACKET_STATE_PASS ClientSession.Handle_NULL;
  entry "MSG_MOVE_JUMP" true STATUS_LOGGEDIN PACKET_STATE_NODE PACKET_STATE_PASS ClientSession.Handle_NULL;
  entry "MSG_MOVE_START_TURN_LEFT" true STATUS_LOGGEDIN PACKET_STATE_NODE PACKET_STATE_PASS ClientSession.Handle_NULL;
  entry "MSG_MOVE_START_TURN_RIGHT" true STATUS_LOGGEDIN PACKET_STATE_NODE PACKET_STATE_PASS ClientSession.Handle_NULL;
  entry "MSG_MOVE_STOP_TURN" true STATUS_LOGGEDIN PACKET_STATE_NODE PACKET_STATE_PASS ClientSession.Handle_NULL;
  entry "MSG_MOVE_START_PITCH_UP" true STATUS_LOGGEDIN PACKET_STATE_NODE PACKET_STATE_PASS ClientSession.Handle_NULL;
  entry "MSG_MOVE_START_PITCH_DOWN" true STATUS_LOGGEDIN PACKET_STATE_NODE PACKET_STATE_PASS ClientSession.Handle_NULL;
  entry "MSG_MOVE_STOP_PITCH" true STATUS_LOGGEDIN PACKET_STATE_NODE PACKET_STATE_PASS ClientSession.Handle_NULL;
  entry "MSG_MOVE_SET_RUN_MODE" true STATUS_LOGGEDIN PACKET_STATE_NODE PACKET_STATE_PASS ClientSession.Handle_NULL;
  entry "MSG_MOVE_SET_WALK_MODE" true STATUS_LOGGEDIN PACKET_STATE_NODE PACKET_STATE_PASS ClientSession.Handle_NULL;
  entry "MSG_MOVE_TOGGLE_LOGGING" true STATUS_NEVER PACKET_STATE_NODE PACKET_STATE_PASS ClientSession.Handle_NULL;
  entry "MSG_MOVE_TELEPORT" true STATUS_NEVER PACKET_STATE_NODE PACKET_STATE_PASS ClientSession.Handle_NULL;
  entry "MSG_MOVE_TELEPORT_CHEAT" true STATUS_NEVER PACKET_STATE_NODE PACKET_STATE_PASS ClientSession.Handle_NULL;
  entry "MSG_MOVE_TELEPORT_ACK" true STATUS_LOGGEDIN PACKET_STATE_NODE PACKET_STATE_PASS ClientSession.Handle_NULL;
  entry "MSG_MOVE_TOGGLE_FALL_LOGGING" true STATUS_NEVER PACKET_STATE_NODE PACKET_STATE_PASS ClientSession.Handle_NULL;
  entry "MSG_MOVE_FALL_LAND" true STATUS_LOGGEDIN PACKET_STATE_NODE PACKET_STATE_PASS ClientSession.Handle_NULL;
  entry "MSG_MOVE_START_SWIM" true STATUS_LOGGEDIN PACKET_STATE_NODE PACKET_STATE_PASS ClientSession.Handle_NULL;
  entry "MSG_MOVE_STOP_SWIM" true STATUS_LOGGEDIN PACKET_STATE_NODE PACKET_STATE_PASS ClientSession.Handle_NULL;
  entry "MSG_MOVE_SET_RUN_SPEED_CHEAT" true STATUS_NEVER PACKET_STATE_NODE PACKET_STATE_PASS ClientSession.Handle_NULL;
  entry "MSG_MOVE_SET_RUN_SPEED" true STATUS_NEVER PACKET_STATE_NODE PACKET_STATE_PASS ClientSession.Handle_NULL;
  entry "MSG_MOVE_SET_RUN_BACK_SPEED_CHEAT" true STATUS_NEVER PACKET_STATE_NODE PACKET_STATE_PASS ClientSession.Handle_NULL;
  entry "MSG_MOVE_SET_RUN_BACK_SPEED" true STATUS_NEVER PACKET_STATE_NODE PACKET_STATE_PASS ClientSession.Handle_NULL;
  entry "MSG_MOVE_SET_WALK_SPEED_CHEAT" true STATUS_NEVER PACKET_STATE_NODE PACKET_STATE_PASS ClientSession.Handle_NULL;
  entry "MSG_MOVE_SET_WALK_SPEED" true STATUS_NEVER PACKET_STATE_NODE PACKET_STATE_PASS ClientSession.Handle_NULL;
  entry "MSG_MOVE_SET_SWIM_SPEED_CHEAT" true STATUS_NEVER PACKET_STATE_NODE PACKET_STATE_PASS ClientSession.Handle_NULL;
  entry "MSG_MOVE_SET_SWIM_SPEED" true STATUS_NEVER PACKET_STATE_NODE PACKET_STATE_PASS ClientSession.Handle_NULL;
  entry "MSG_MOVE_SET_SWIM_BACK_SPEED_CHEAT" true STATUS_NEVER PACKET_STATE_NODE PACKET_STATE_PASS ClientSession.Handle_NULL;
  entry "MSG_MOVE_SET_SWIM_BACK_SPEED" true STATUS_NEVER PACKET_STATE_NODE PACKET_STATE_PASS ClientSession.Handle_NULL;
  entry "MSG_MOVE_SET_ALL_SPEED_CHEAT" true STATUS_NEVER PACKET_STATE_NODE PACKET_STATE_PASS ClientSession.Handle_NULL;
  entry "MSG_MOVE_SET_TURN_RATE_CHEAT" true STATUS_NEVER PACKET_STATE_NODE PACKET_STATE_PASS ClientSession.Handle_NULL;
  entry "MSG_MOVE_SET_TURN_RATE" true STATUS_NEVER PACKET_STATE_NODE PACKET_STATE_PASS ClientSession.Handle_NULL;
  entry "MSG_MOVE_TOGGLE_COLLISION_CHEAT" true STATUS_NEVER PACKET_STATE_NODE PACKET_STATE_PASS ClientSession.Handle_NULL;
  entry "MSG_MOVE_SET_FACING" true STATUS_LOGGEDIN PACKET_STATE_NODE PACKET_STATE_PASS ClientSession.Handle_NULL;
  entry "MSG_MOVE_SET_PITCH" true STATUS_LOGGEDIN PACKET_STATE_NODE PACKET_STATE_PASS ClientSession.Handle_NULL;
  entry "MSG_MOVE_WORLDPORT_ACK" true STATUS_TRANSFER PACKET_STATE_NODE PACKET_STATE_PASS ClientSession.Handle_NULL;
  entry "SMSG_MONSTER_MOVE" true STATUS_NEVER PACKET_STATE_NODE PACKET_STATE_PASS ClientSession.Handle_ServerSide;
  entry "SMSG_MOVE_WATER_WALK" true STATUS_NEVER PACKET_STATE_NODE PACKET_STATE_PASS ClientSession.Handle_ServerSide;
  entry "SMSG_MOVE_LAND_WALK" true STATUS_NEVER PACKET_STATE_NODE PACKET_STATE_PASS ClientSession.Handle_ServerSide;
  entry "MSG_MOVE_SET_RAW_POSITION_ACK" true STATUS_NEVER PACKET_STATE_NODE PACKET_STATE_PASS ClientSession.Handle_NULL;
  entry "CMSG_MOVE_SET_RAW_POSITION" true STATUS_NEVER PACKET_STATE_NODE PACKET_STATE_PASS ClientSession.Handle_NULL;
  entry "SMSG_FORCE_RUN_SPEED_CHANGE" true STATUS_NEVER PACKET_STATE_NODE PACKET_STATE_PASS ClientSession.Handle_ServerSide;
  entry "CMSG_FORCE_RUN_SPEED_CHANGE_ACK" true STATUS_LOGGEDIN PACKET_STATE_NODE PACKET_STATE_PASS ClientSession.Handle_NULL;
  entry "SMSG_FORCE_RUN_BACK_SPEED_CHANGE" true STATUS_NEVER PACKET_STATE_NODE PACKET_STATE_PASS ClientSession.Handle_ServerSide;
  entry "CMSG_FORCE_RUN_BACK_SPEED_CHANGE_ACK" true STATUS_LOGGEDIN PACKET_STATE_NODE PACKET_STATE_PASS ClientSession.Handle_NULL;
  entry "SMSG_FORCE_SWIM_SPEED_CHANGE" true STATUS_NEVER PACKET_STATE_NODE PACKET_STATE_PASS ClientSession.Handle_ServerSide;
  entry "CMSG_FORCE_SWIM_SPEED_CHANGE_ACK" true STATUS_LOGGEDIN PACKET_STATE_NODE PACKET_STATE_PASS ClientSession.Handle_NULL;
  entry "SMSG_FORCE_MOVE_ROOT" true STATUS_NEVER PACKET_STATE_NODE PACKET_STATE_PASS ClientSession.Handle_ServerSide;
  entry "CMSG_FORCE_MOVE_ROOT_ACK" true STATUS_LOGGEDIN PACKET_STATE_NODE PACKET_STATE_PASS ClientSession.Handle_NULL;
  entry "SMSG_FORCE_MOVE_UNROOT" true STATUS_NEVER PACKET_STATE_NODE PACKET_STATE_PASS ClientSession.Handle_ServerSide;
  entry "CMSG_FORCE_MOVE_UNROOT_ACK" true STATUS_LOGGEDIN PACKET_STATE_NODE PACKET_STATE_PASS ClientSession.Handle_NULL;
  entry "MSG_MOVE_ROOT" true STATUS_NEVER PACKET_STATE_NODE PACKET_STATE_PASS ClientSession.Handle_NULL;
  entry "MSG_MOVE_UNROOT" true STATUS_NEVER PACKET_STATE_NODE PACKET_STATE_PASS ClientSession.Handle_NULL;
  entry "MSG_MOVE_HEARTBEAT" true STATUS_LOGGEDIN PACKET_STATE_NODE PACKET_STATE_PASS ClientSession.Handle_NULL;
  entry "SMSG_MOVE_KNOCK_BACK" true STATUS_NEVER PACKET_STATE_NODE PACKET_STATE_PASS ClientSession.Handle_ServerSide;
  entry "CMSG_MOVE_KNOCK_BACK_ACK" true STATUS_LOGGEDIN PACKET_STATE_NODE PACKET_STATE_PASS ClientSession.Handle_NULL;
  entry "MSG_MOVE_KNOCK_BACK" true STATUS_NEVER PACKET_STATE_NODE PACKET_STATE_PASS ClientSession.Handle_NULL;
  entry "SMSG_MOVE_FEATHER_FALL" true STATUS_NEVER PACKET_STATE_NODE PACKET_STATE_PASS ClientSession.Handle_ServerSide;
  entry "SMSG_MOVE_NORMAL_FALL" true STATUS_NEVER PACKET_STATE_NODE PACKET_STATE_PASS ClientSession.Handle_ServerSide;
  entry "SMSG_MOVE_SET_HOVER" true STATUS_NEVER PACKET_STATE_NODE PACKET_STATE_PASS ClientSession.Handle_ServerSide;
  entry "SMSG_MOVE_UNSET_HOVER" true STATUS_NEVER PACKET_STATE_NODE PACKET_STATE_PASS ClientSession.Handle_ServerSide;
  entry "CMSG_MOVE_HOVER_ACK" true STATUS_LOGGEDIN PACKET_STATE_NODE PACKET_STATE_PASS ClientSession.Handle_NULL;
  entry "MSG_MOVE_HOVER" true STATUS_NEVER PACKET_STATE_NODE PACKET_STATE_PASS ClientSession.Handle_NULL;
  entry "CMSG_TRIGGER_CINEMATIC_CHEAT" true STATUS_NEVER PACKET_STATE_NODE PACKET_STATE_PASS ClientSession.Handle_NULL;
  entry "CMSG_OPENING_CINEMATIC" true STATUS_NEVER PACKET_STATE_NODE PACKET_STATE_PASS ClientSession.Handle_NULL;
  entry "SMSG_TRIGGER_CINEMATIC" true STATUS_NEVER PACKET_STATE_NODE PACKET_STATE_PASS ClientSession.Handle_ServerSide;
  entry "CMSG_NEXT_CINEMATIC_CAMERA" true STATUS_LOGGEDIN PACKET_STATE_NODE PACKET_STATE_PASS ClientSession.Handle_NULL;
  entry "CMSG_COMPLETE_CINEMATIC" true STATUS_LOGGEDIN PACKET_STATE_NODE PACKET_STATE_PASS ClientSession.Handle_NULL;
  entry "SMSG_TUTORIAL_FLAGS" true STATUS_NEVER PACKET_STATE_NODE PACKET_STATE_PASS ClientSession.Handle_ServerSide;
  entry "CMSG_TUTORIAL_FLAG" true STATUS_LOGGEDIN PACKET_STATE_NODE PACKET_STATE_PASS ClientSession.Handle_NULL;
  entry "CMSG_TUTORIAL_CLEAR" true STATUS_LOGGEDIN PACKET_STATE_NODE PACKET_STATE_PASS ClientSession.Handle_NULL;
  entry "CMSG_TUTORIAL_RESET" true STATUS_LOGGEDIN PACKET_STATE_NODE PACKET_STATE_PASS ClientSession.Handle_NULL;
  entry "CMSG_STANDSTATECHANGE" true STATUS_LOGGEDIN PACKET_STATE_NODE PACKET_STATE_PASS ClientSession.Handle_NULL;
  entry "CMSG_EMOTE" true STATUS_LOGGEDIN PACKET_STATE_NODE PACKET_STATE_PASS ClientSession.Handle_NULL;
  entry "SMSG_EMOTE" true STATUS_NEVER PACKET_STATE_NODE PACKET_STATE_PASS ClientSession.Handle_ServerSide;
  entry "CMSG_TEXT_EMOTE" true STATUS_LOGGEDIN PACKET_STATE_NODE PACKET_STATE_PASS ClientSession.Handle_NULL;
  entry "SMSG_TEXT_EMOTE" true STATUS_NEVER PACKET_STATE_NODE PACKET_STATE_PASS ClientSession.Handle_ServerSide;
  entry "CMSG_AUTOEQUIP_GROUND_ITEM" true STATUS_NEVER PACKET_STATE_NODE PACKET_STATE_PASS ClientSession.Handle_NULL;
  entry "CMSG_AUTOSTORE_GROUND_ITEM" true STATUS_NEVER PACKET_STATE_NODE PACKET_STATE_PASS ClientSession.Handle_NULL;
  entry "CMSG_AUTOSTORE_LOOT_ITEM" true STATUS_LOGGEDIN PACKET_STATE_NODE PACKET_STATE_PASS ClientSession.Handle_NULL;
  entry "CMSG_STORE_LOOT_IN_SLOT" true STATUS_NEVER PACKET_STATE_NODE PACKET_STATE_PASS ClientSession.Handle_NULL;
  entry "CMSG_AUTOEQUIP_ITEM" true STATUS_LOGGEDIN PACKET_STATE_NODE PACKET_STATE_PASS ClientSession.Handle_NULL;
  entry "CMSG_AUTOSTORE_BAG_ITEM" true STATUS_LOGGEDIN PACKET_STATE_NODE PACKET_STATE_PASS ClientSession.Handle_NULL;
  entry "CMSG_SWAP_ITEM" true STATUS_LOGGEDIN PACKET_STATE_NODE PACKET_STATE_PASS ClientSession.Handle_NULL;
  entry "CMSG_SWAP_INV_ITEM" true STATUS_LOGGEDIN PACKET_STATE_NODE PACKET_STATE_PASS ClientSession.Handle_NULL;
  entry "CMSG_SPLIT_ITEM" true STATUS_LOGGEDIN PACKET_STATE_NODE PACKET_STATE_PASS ClientSession.Handle_NULL;
  entry "CMSG_AUTOEQUIP_ITEM_SLOT" true STATUS_LOGGEDIN PACKET_STATE_NODE PACKET_STATE_PASS ClientSession.Handle_NULL;
  entry "OBSOLETE_DROP_ITEM" true STATUS_NEVER PACKET_STATE_NODE PACKET_STATE_PASS ClientSession.Handle_NULL;
  entry "CMSG_DESTROYITEM" true STATUS_LOGGEDIN PACKET_STATE_NODE PACKET_STATE_PASS ClientSession.Handle_NULL;
  entry "SMSG_INVENTORY_CHANGE_FAILURE" true STATUS_NEVER PACKET_STATE_NODE PACKET_STATE_PASS ClientSession.Handle_ServerSide;
  entry "SMSG_OPEN_CONTAINER" true STATUS_NEVER PACKET_STATE_NODE PACKET_STATE_PASS ClientSession.Handle_ServerSide;
  entry "CMSG_INSPECT" true STATUS_LOGGEDIN PACKET_STATE_NODE PACKET_STATE_PASS ClientSession.Handle_NULL;
  entry "SMSG_INSPECT" true STATUS_NEVER PACKET_STATE_NODE PACKET_STATE_PASS ClientSession.Handle_ServerSide;
  entry "CMSG_INITIATE_TRADE" true STATUS_LOGGEDIN PACKET_STATE_NODE PACKET_STATE_PASS ClientSession.Handle_NULL;
  entry "CMSG_BEGIN_TRADE" true STATUS_LOGGEDIN PACKET_STATE_NODE PACKET_STATE_PASS ClientSession.Handle_NULL;
  entry "CMSG_BUSY_TRADE" true STATUS_LOGGEDIN PACKET_STATE_NODE PACKET_STATE_PASS ClientSession.Handle_NULL;
  entry "CMSG_IGNORE_TRADE" true STATUS_LOGGEDIN PACKET_STATE_NODE PACKET_STATE_PASS ClientSession.Handle_NULL;
  entry "CMSG_ACCEPT_TRADE" true STATUS_LOGGEDIN PACKET_STATE_NODE PACKET_STATE_PASS ClientSession.Handle_NULL;
  entry "CMSG_UNACCEPT_TRADE" true STATUS_LOGGEDIN PACKET_STATE_NODE PACKET_STATE_PASS ClientSession.Handle_NULL;
  entry "CMSG_CANCEL_TRADE" true STATUS_LOGGEDIN PACKET_STATE_NODE PACKET_STATE_PASS ClientSession.Handle_NULL;
  entry "CMSG_SET_TRADE_ITEM" true STATUS_LOGGEDIN PACKET_STATE_NODE PACKET_STATE_PASS ClientSession.Handle_NULL;
  entry "CMSG_CLEAR_TRADE_ITEM" true STATUS_LOGGEDIN PACKET_STATE_NODE PACKET_STATE_PASS ClientSession.Handle_NULL;
  entry "CMSG_SET_TRADE_GOLD" true STATUS_LOGGEDIN PACKET_STATE_NODE PACKET_STATE_PASS ClientSession.Handle_NULL;
  entry "SMSG_TRADE_STATUS" true STATUS_NEVER PACKET_STATE_NODE PACKET_STATE_PASS ClientSession.Handle_ServerSide;
  entry "SMSG_TRADE_STATUS_EXTENDED" true STATUS_NEVER PACKET_STATE_NODE PACKET_STATE_PASS ClientSession.Handle_ServerSide;
  entry "SMSG_INITIALIZE_FACTIONS" true STATUS_NEVER PACKET_STATE_NODE PACKET_STATE_PASS ClientSession.Handle_ServerSide;
  entry "SMSG_SET_FACTION_VISIBLE" true STATUS_NEVER PACKET_STATE_NODE PACKET_STATE_PASS ClientSession.Handle_ServerSide;
  entry "SMSG_SET_FACTION_STANDING" true STATUS_NEVER PACKET_STATE_NODE PACKET_STATE_PASS ClientSession.Handle_ServerSide;
  entry "CMSG_SET_FACTION_ATWAR" true STATUS_LOGGEDIN PACKET_STATE_NODE PACKET_STATE_PASS ClientSession.Handle_NULL
].

Definition table_126 : list OpcodeHandler := [
  entry "CMSG_SET_FACTION_CHEAT" true STATUS_LOGGEDIN PACKET_STATE_NODE PACKET_STATE_PASS ClientSession.Handle_NULL;
  entry "SMSG_SET_PROFICIENCY" true STATUS_NEVER PACKET_STATE_NODE PACKET_STATE_PASS ClientSession.Handle_ServerSide;
  entry "CMSG_SET_ACTION_BUTTON" true STATUS_LOGGEDIN PACKET_STATE_NODE PACKET_STATE_PASS ClientSession.Handle_NULL;
  entry "SMSG_ACTION_BUTTONS" true STATUS_NEVER PACKET_STATE_NODE PACKET_STATE_PASS ClientSession.Handle_ServerSide;
  entry "SMSG_INITIAL_SPELLS" true STATUS_NEVER PACKET_STATE_NODE PACKET_STATE_PASS ClientSession.Handle_ServerSide;
  entry "SMSG_LEARNED_SPELL" true STATUS_NEVER PACKET_STATE_NODE PACKET_STATE_PASS ClientSession.Handle_ServerSide;
  entry "SMSG_SUPERCEDED_SPELL" true STATUS_NEVER PACKET_STATE_NODE PACKET_STATE_PASS ClientSession.Handle_ServerSide;
  entry "CMSG_NEW_SPELL_SLOT" true STATUS_NEVER PACKET_STATE_NODE PACKET_STATE_PASS ClientSession.Handle_NULL;
  entry "CMSG_CAST_SPELL" true STATUS_LOGGEDIN PACKET_STATE_NODE PACKET_STATE_PASS ClientSession.Handle_NULL;
  entry "CMSG_CANCEL_CAST" true STATUS_LOGGEDIN PACKET_STATE_NODE PACKET_STATE_PASS ClientSession.Handle_NULL;
  entry "SMSG_CAST_FAILED" true STATUS_NEVER PACKET_STATE_NODE PACKET_STATE_PASS ClientSession.Handle_ServerSide;
  entry "SMSG_SPELL_START" true STATUS_NEVER PACKET_STATE_NODE PACKET_STATE_PASS ClientSession.Handle_ServerSide;
  entry "SMSG_SPELL_GO" true STATUS_NEVER PACKET_STATE_NODE PACKET_STATE_PASS ClientSession.Handle_ServerSide;
  entry "SMSG_SPELL_FAILURE" true STATUS_NEVER PACKET_STATE_NODE PACKET_STATE_PASS ClientSession.Handle_ServerSide;
  entry "SMSG_SPELL_COOLDOWN" true STATUS_NEVER PACKET_STATE_NODE PACKET_STATE_PASS ClientSession.Handle_ServerSide;
  entry "SMSG_COOLDOWN_EVENT" true STATUS_NEVER PACKET_STATE_NODE PACKET_STATE_PASS ClientSession.Handle_ServerSide;
  entry "CMSG_CANCEL_AURA" true STATUS_LOGGEDIN PACKET_STATE_NODE PACKET_STATE_PASS ClientSession.Handle_NULL;
  entry "SMSG_EQUIPMENT_SET_SAVED" true STATUS_NEVER PACKET_STATE_NODE PACKET_STATE_PASS ClientSession.Handle_ServerSide;
  entry "SMSG_PET_CAST_FAILED" true STATUS_NEVER PACKET_STATE_NODE PACKET_STATE_PASS ClientSession.Handle_ServerSide;
  entry "MSG_CHANNEL_START" true STATUS_NEVER PACKET_STATE_NODE PACKET_STATE_PASS ClientSession.Handle_NULL;
  entry "MSG_CHANNEL_UPDATE" true STATUS_NEVER PACKET_STATE_NODE PACKET_STATE_PASS ClientSession.Handle_NULL;
  entry "CMSG_CANCEL_CHANNELLING" true STATUS_LOGGEDIN PACKET_STATE_NODE PACKET_STATE_PASS ClientSession.Handle_NULL;
  entry "SMSG_AI_REACTION" true STATUS_NEVER PACKET_STATE_NODE PACKET_STATE_PASS ClientSession.Handle_ServerSide;
  entry "CMSG_SET_SELECTION" true STATUS_LOGGEDIN PACKET_STATE_NODE PACKET_STATE_PASS ClientSession.Handle_NULL;
  entry "CMSG_EQUIPMENT_SET_DELETE" true STATUS_LOGGEDIN PACKET_STATE_NODE PACKET_STATE_PASS ClientSession.Handle_NULL;
  entry "CMSG_INSTANCE_LOCK_WARNING_RESPONSE" true STATUS_LOGGEDIN PACKET_STATE_NODE PACKET_STATE_PASS ClientSession.Handle_NULL;
  entry "CMSG_UNUSED2" true STATUS_NEVER PACKET_STATE_NODE PACKET_STATE_PASS ClientSession.Handle_NULL;
  entry "CMSG_ATTACKSWING" true STATUS_LOGGEDIN PACKET_STATE_NODE PACKET_STATE_PASS ClientSession.Handle_NULL;
  entry "CMSG_ATTACKSTOP" true STATUS_LOGGEDIN PACKET_STATE_NODE PACKET_STATE_PASS ClientSession.Handle_NULL;
  entry "SMSG_ATTACKSTART" true STATUS_NEVER PACKET_STATE_NODE PACKET_STATE_PASS ClientSession.Handle_ServerSide;
  entry "SMSG_ATTACKSTOP" true STATUS_NEVER PACKET_STATE_NODE PACKET_STATE_PASS ClientSession.Handle_ServerSide;
  entry "SMSG_ATTACKSWING_NOTINRANGE" true STATUS_NEVER PACKET_STATE_NODE PACKET_STATE_PASS ClientSession.Handle_ServerSide;
  entry "SMSG_ATTACKSWING_BADFACING" true STATUS_NEVER PACKET_STATE_NODE PACKET_STATE_PASS ClientSession.Handle_ServerSide;
  entry "SMSG_INSTANCE_LOCK_WARNING_QUERY" true STATUS_NEVER PACKET_STATE_NODE PACKET_STATE_PASS ClientSession.Handle_ServerSide;
  entry "SMSG_ATTACKSWING_DEADTARGET" true STATUS_NEVER PACKET_STATE_NODE PACKET_STATE_PASS ClientSession.Handle_ServerSide;
  entry "SMSG_ATTACKSWING_CANT_ATTACK" true STATUS_NEVER PACKET_STATE_NODE PACKET_STATE_PASS ClientSession.Handle_ServerSide;
  entry "SMSG_ATTACKERSTATEUPDATE" true STATUS_NEVER PACKET_STATE_NODE PACKET_STATE_PASS ClientSession.Handle_ServerSide;
  entry "SMSG_BATTLEFIELD_PORT_DENIED" true STATUS_NEVER PACKET_STATE_NODE PACKET_STATE_PASS ClientSession.Handle_ServerSide;
  entry "SMSG_DAMAGE_DONE_OBSOLETE" true STATUS_NEVER PACKET_STATE_NODE PACKET_STATE_PASS ClientSession.Handle_ServerSide;
  entry "SMSG_UNIT_SPELLCAST_START" true STATUS_NEVER PACKET_STATE_NODE PACKET_STATE_PASS ClientSession.Handle_ServerSide;
  entry "SMSG_CANCEL_COMBAT" true STATUS_NEVER PACKET_STATE_NODE PACKET_STATE_PASS ClientSession.Handle_ServerSide;
  entry "SMSG_SPELLBREAKLOG" true STATUS_NEVER PACKET_STATE_NODE PACKET_STATE_PASS ClientSession.Handle_ServerSide;
  entry "SMSG_SPELLHEALLOG" true STATUS_NEVER PACKET_STATE_NODE PACKET_STATE_PASS ClientSession.Handle_ServerSide;
  entry "SMSG_SPELLENERGIZELOG" true STATUS_NEVER PACKET_STATE_NODE PACKET_STATE_PASS ClientSession.Handle_ServerSide;
  entry "SMSG_BREAK_TARGET" true STATUS_NEVER PACKET_STATE_NODE PACKET_STATE_PASS ClientSession.Handle_ServerSide;
  entry "CMSG_SAVE_PLAYER" true STATUS_NEVER PACKET_STATE_NODE PACKET_STATE_PASS ClientSession.Handle_NULL;
  entry "CMSG_SETDEATHBINDPOINT" true STATUS_NEVER PACKET_STATE_NODE PACKET_STATE_PASS ClientSession.Handle_NULL;
  entry "SMSG_BINDPOINTUPDATE" true STATUS_NEVER PACKET_STATE_NODE PACKET_STATE_PASS ClientSession.Handle_ServerSide;
  entry "CMSG_GETDEATHBINDZONE" true STATUS_NEVER PACKET_STATE_NODE PACKET_STATE_PASS ClientSession.Handle_NULL;
  entry "SMSG_BINDZONEREPLY" true STATUS_NEVER PACKET_STATE_NODE PACKET_STATE_PASS ClientSession.Handle_ServerSide;
  entry "SMSG_PLAYERBOUND" true STATUS_NEVER PACKET_STATE_NODE PACKET_STATE_PASS ClientSession.Handle_ServerSide;
  entry "SMSG_CLIENT_CONTROL_UPDATE" true STATUS_NEVER PACKET_STATE_NODE PACKET_STATE_PASS ClientSession.Handle_ServerSide;
  entry "CMSG_REPOP_REQUEST" true STATUS_LOGGEDIN PACKET_STATE_NODE PACKET_STATE_PASS ClientSession.Handle_NULL;
  entry "SMSG_RESURRECT_REQUEST" true STATUS_NEVER PACKET_STATE_NODE PACKET_STATE_PASS ClientSession.Handle_ServerSide;
  entry "CMSG_RESURRECT_RESPONSE" true STATUS_LOGGEDIN PACKET_STATE_NODE PACKET_STATE_PASS ClientSession.Handle_NULL;
  entry "CMSG_LOOT" true STATUS_LOGGEDIN PACKET_STATE_NODE PACKET_STATE_PASS ClientSession.Handle_NULL;
  entry "CMSG_LOOT_MONEY" true STATUS_LOGGEDIN PACKET_STATE_NODE PACKET_STATE_PASS ClientSession.Handle_NULL;
  entry "CMSG_LOOT_RELEASE" true STATUS_LOGGEDIN PACKET_STATE_NODE PACKET_STATE_PASS ClientSession.Handle_NULL;
  entry "SMSG_LOOT_RESPONSE" true STATUS_NEVER PACKET_STATE_NODE PACKET_STATE_PASS ClientSession.Handle_ServerSide;
  entry "SMSG_LOOT_RELEASE_RESPONSE" true STATUS_NEVER PACKET_STATE_NODE PACKET_STATE_PASS ClientSession.Handle_ServerSide;
  entry "SMSG_LOOT_REMOVED" true STATUS_NEVER PACKET_STATE_NODE PACKET_STATE_PASS ClientSession.Handle_ServerSide;
  entry "SMSG_LOOT_MONEY_NOTIFY" true STATUS_NEVER PACKET_STATE_NODE PACKET_STATE_PASS ClientSession.Handle_ServerSide;
  entry "SMSG_LOOT_ITEM_NOTIFY" true STATUS_NEVER PACKET_STATE_NODE PACKET_STATE_PASS ClientSession.Handle_ServerSide;
  entry "SMSG_LOOT_CLEAR_MONEY" true STATUS_NEVER PACKET_STATE_NODE PACKET_STATE_PASS ClientSession.Handle_ServerSide;
  entry "SMSG_ITEM_PUSH_RESULT" true STATUS_NEVER PACKET_STATE_NODE PACKET_STATE_PASS ClientSession.Handle_ServerSide;
  entry "SMSG_DUEL_REQUESTED" true STATUS_NEVER PACKET_STATE_NODE PACKET_STATE_PASS ClientSession.Handle_ServerSide;
  entry "SMSG_DUEL_OUTOFBOUNDS" true STATUS_NEVER PACKET_STATE_NODE PACKET_STATE_PASS ClientSession.Handle_ServerSide;
  entry "SMSG_DUEL_INBOUNDS" true STATUS_NEVER PACKET_STATE_NODE PACKET_STATE_PASS ClientSession.Handle_ServerSide;
  entry "SMSG_DUEL_COMPLETE" true STATUS_NEVER PACKET_STATE_NODE PACKET_STATE_PASS ClientSession.Handle_ServerSide;
  entry "SMSG_DUEL_WINNER" true STATUS_NEVER PACKET_STATE_NODE PACKET_STATE_PASS ClientSession.Handle_ServerSide;
  entry "CMSG_DUEL_ACCEPTED" true STATUS_LOGGEDIN PACKET_STATE_NODE PACKET_STATE_PASS ClientSession.Handle_NULL;
  entry "CMSG_DUEL_CANCELLED" true STATUS_LOGGEDIN PACKET_STATE_NODE PACKET_STATE_PASS ClientSession.Handle_NULL;
  entry "SMSG_MOUNTRESULT" true STATUS_NEVER PACKET_STATE_NODE PACKET_STATE_PASS ClientSession.Handle_ServerSide;
  entry "SMSG_DISMOUNTRESULT" true STATUS_NEVER PACKET_STATE_NODE PACKET_STATE_PASS ClientSession.Handle_ServerSide;
  entry "SMSG_PUREMOUNT_CANCELLED_OBSOLETE" true STATUS_NEVER PACKET_STATE_NODE PACKET_STATE_PASS ClientSession.Handle_ServerSide;
  entry "CMSG_MOUNTSPECIAL_ANIM" true STATUS_LOGGEDIN PACKET_STATE_NODE PACKET_STATE_PASS ClientSession.Handle_NULL;
  entry "SMSG_MOUNTSPECIAL_ANIM" true STATUS_NEVER PACKET_STATE_NODE PACKET_STATE_PASS ClientSession.Handle_ServerSide;
  entry "SMSG_PET_TAME_FAILURE" true STATUS_NEVER PACKET_STATE_NODE PACKET_STATE_PASS ClientSession.Handle_ServerSide;
  entry "CMSG_PET_SET_ACTION" true STATUS_LOGGEDIN PACKET_STATE_NODE PACKET_STATE_PASS ClientSession.Handle_NULL;
  entry "CMSG_PET_ACTION" true STATUS_LOGGEDIN PACKET_STATE_NODE PACKET_STATE_PASS ClientSession.Handle_NULL;
  entry "CMSG_PET_ABANDON" true STATUS_LOGGEDIN PACKET_STATE_NODE PACKET_STATE_PASS ClientSession.Handle_NULL;
  entry "CMSG_PET_RENAME" true STATUS_LOGGEDIN PACKET_STATE_NODE PACKET_STATE_PASS ClientSession.Handle_NULL;
  entry "SMSG_PET_NAME_INVALID" true STATUS_NEVER PACKET_STATE_NODE PACKET_STATE_PASS ClientSession.Handle_ServerSide;
  entry "SMSG_PET_SPELLS" true STATUS_NEVER PACKET_STATE_NODE PACKET_STATE_PASS ClientSession.Handle_ServerSide;
  entry "SMSG_PET_MODE" true STATUS_NEVER PACKET_STATE_NODE PACKET_STATE_PASS ClientSession.Handle_ServerSide;
  entry "CMSG_GOSSIP_HELLO" true STATUS_LOGGEDIN PACKET_STATE_NODE PACKET_STATE_PASS ClientSession.Handle_NULL;
  entry "CMSG_GOSSIP_SELECT_OPTION" true STATUS_LOGGEDIN PACKET_STATE_NODE PACKET_STATE_PASS ClientSession.Handle_NULL;
  entry "SMSG_GOSSIP_MESSAGE" true STATUS_NEVER PACKET_STATE_NODE PACKET_STATE_PASS ClientSession.Handle_ServerSide;
  entry "SMSG_GOSSIP_COMPLETE" true STATUS_NEVER PACKET_STATE_NODE PACKET_STATE_PASS ClientSession.Handle_ServerSide;
  entry "CMSG_NPC_TEXT_QUERY" true STATUS_LOGGEDIN PACKET_STATE_NODE PACKET_STATE_PASS ClientSession.Handle_NULL;
  entry "SMSG_NPC_TEXT_UPDATE" true STATUS_NEVER PACKET_STATE_NODE PACKET_STATE_PASS ClientSession.Handle_ServerSide;
  entry "SMSG_NPC_WONT_TALK" true STATUS_NEVER PACKET_STATE_NODE PACKET_STATE_PASS ClientSession.Handle_ServerSide;
  entry "CMSG_QUESTGIVER_STATUS_QUERY" true STATUS_LOGGEDIN PACKET_STATE_NODE PACKET_STATE_PASS ClientSession.Handle_NULL;
  entry "SMSG_QUESTGIVER_STATUS" true STATUS_NEVER PACKET_STATE_NODE PACKET_STATE_PASS ClientSession.Handle_ServerSide;
  entry "CMSG_QUESTGIVER_HELLO" true STATUS_LOGGEDIN PACKET_STATE_NODE PACKET_STATE_PASS ClientSession.Handle_NULL;
  entry "SMSG_QUESTGIVER_QUEST_LIST" true STATUS_NEVER PACKET_STATE_NODE PACKET_STATE_PASS ClientSession.Handle_ServerSide;
  entry "CMSG_QUESTGIVER_QUERY_QUEST" true STATUS_LOGGEDIN PACKET_STATE_NODE PACKET_STATE_PASS ClientSession.Handle_NULL;
  entry "CMSG_QUESTGIVER_QUEST_AUTOLAUNCH" true STATUS_LOGGEDIN PACKET_STATE_NODE PACKET_STATE_PASS ClientSession.Handle_NULL;
  entry "SMSG_QUESTGIVER_QUEST_DETAILS" true STATUS_NEVER PACKET_STATE_NODE PACKET_STATE_PASS ClientSession.Handle_ServerSide;
  entry "CMSG_QUESTGIVER_ACCEPT_QUEST" true STATUS_LOGGEDIN PACKET_STATE_NODE PACKET_STATE_PASS ClientSession.Handle_NULL;
  entry "CMSG_QUESTGIVER_COMPLETE_QUEST" true STATUS_LOGGEDIN PACKET_STATE_NODE PACKET_STATE_PASS ClientSession.Handle_NULL;
  entry "SMSG_QUESTGIVER_REQUEST_ITEMS" true STATUS_NEVER PACKET_STATE_NODE PACKET_STATE_PASS ClientSession.Handle_ServerSide;
  entry "CMSG_QUESTGIVER_REQUEST_REWARD" true STATUS_LOGGEDIN PACKET_STATE_NODE PACKET_STATE_PASS ClientSession.Handle_NULL;
  entry "SMSG_QUESTGIVER_OFFER_REWARD" true STATUS_NEVER PACKET_STATE_NODE PACKET_STATE_PASS ClientSession.Handle_ServerSide;
  entry "CMSG_QUESTGIVER_CHOOSE_REWARD" true STATUS_LOGGEDIN PACKET_STATE_NODE PACKET_STATE_PASS ClientSession.Handle_NULL;
  entry "SMSG_QUESTGIVER_QUEST_INVALID" true STATUS_NEVER PACKET_STATE_NODE PACKET_STATE_PASS ClientSession.Handle_ServerSide;
  entry "CMSG_QUESTGIVER_CANCEL" true STATUS_LOGGEDIN PACKET_STATE_NODE PACKET_STATE_PASS ClientSession.Handle_NULL;
  entry "SMSG_QUESTGIVER_QUEST_COMPLETE" true STATUS_NEVER PACKET_STATE_NODE PACKET_STATE_PASS ClientSession.Handle_ServerSide;
  entry "SMSG_QUESTGIVER_QUEST_FAILED" true STATUS_NEVER PACKET_STATE_NODE PACKET_STATE_PASS ClientSession.Handle_ServerSide;
  entry "CMSG_QUESTLOG_SWAP_QUEST" true STATUS_LOGGEDIN PACKET_STATE_NODE PACKET_STATE_PASS ClientSession.Handle_NULL;
  entry "CMSG_QUESTLOG_REMOVE_QUEST" true STATUS_LOGGEDIN PACKET_STATE_NODE PACKET_STATE_PASS ClientSession.Handle_NULL;
  entry "SMSG_QUESTLOG_FULL" true STATUS_NEVER PACKET_STATE_NODE PACKET_STATE_PASS ClientSession.Handle_ServerSide;
  entry "SMSG_QUESTUPDATE_FAILED" true STATUS_NEVER PACKET_STATE_NODE PACKET_STATE_PASS ClientSession.Handle_ServerSide;
  entry "SMSG_QUESTUPDATE_FAILEDTIMER" true STATUS_NEVER PACKET_STATE_NODE PACKET_STATE_PASS ClientSession.Handle_ServerSide;
  entry "SMSG_QUESTUPDATE_COMPLETE" true STATUS_NEVER PACKET_STATE_NODE PACKET_STATE_PASS ClientSession.Handle_ServerSide;
  entry "SMSG_QUESTUPDATE_ADD_KILL" true STATUS_NEVER PACKET_STATE_NODE PACKET_STATE_PASS ClientSession.Handle_ServerSide;
  entry "SMSG_QUESTUPDATE_ADD_ITEM" true STATUS_NEVER PACKET_STATE_NODE PACKET_STATE_PASS ClientSession.Handle_ServerSide;
  entry "CMSG_QUEST_CONFIRM_ACCEPT" true STATUS_LOGGEDIN PACKET_STATE_NODE PACKET_STATE_PASS ClientSession.Handle_NULL;
  entry "SMSG_QUEST_CONFIRM_ACCEPT" true STATUS_NEVER PACKET_STATE_NODE PACKET_STATE_PASS ClientSession.Handle_ServerSide;
  entry "CMSG_PUSHQUESTTOPARTY" true STATUS_LOGGEDIN PACKET_STATE_NODE PACKET_STATE_PASS ClientSession.Handle_NULL;
  entry "CMSG_LIST_INVENTORY" true STATUS_LOGGEDIN PACKET_STATE_NODE PACKET_STATE_PASS ClientSession.Handle_NULL;
  entry "SMSG_LIST_INVENTORY" true STATUS_NEVER PACKET_STATE_NODE PACKET_STATE_PASS ClientSession.Handle_ServerSide;
  entry "CMSG_SELL_ITEM" true STATUS_LOGGEDIN PACKET_STATE_NODE PACKET_STATE_PASS ClientSession.Handle_NULL;
  entry "SMSG_SELL_ITEM" true STATUS_NEVER PACKET_STATE_NODE PACKET_STATE_PASS ClientSession.Handle_ServerSide;
  entry "CMSG_BUY_ITEM" true STATUS_LOGGEDIN PACKET_STATE_NODE PACKET_STATE_PASS ClientSession.Handle_NULL;
  entry "CMSG_BUY_ITEM_IN_SLOT" true STATUS_LOGGEDIN PACKET_STATE_NODE PACKET_STATE_PASS ClientSession.Handle_NULL;
  entry "SMSG_BUY_ITEM" true STATUS_NEVER PACKET_STATE_NODE PACKET_STATE_PASS ClientSession.Handle_ServerSide;
  entry "SMSG_BUY_FAILED" true STATUS_NEVER PACKET_STATE_NODE PACKET_STATE_PASS ClientSession.Handle_ServerSide;
  entry "CMSG_TAXICLEARALLNODES" true STATUS_NEVER PACKET_STATE_NODE PACKET_STATE_PASS ClientSession.Handle_NULL;
  entry "CMSG_TAXIENABLEALLNODES" true STATUS_NEVER PACKET_STATE_NODE PACKET_STATE_PASS ClientSession.Handle_NULL;
  entry "CMSG_TAXISHOWNODES" true STATUS_NEVER PACKET_STATE_NODE PACKET_STATE_PASS ClientSession.Handle_NULL;
  entry "SMSG_SHOWTAXINODES" true STATUS_NEVER PACKET_STATE_NODE PACKET_STATE_PASS ClientSession.Handle_ServerSide;
  entry "CMSG_TAXINODE_STATUS_QUERY" true STATUS_LOGGEDIN PACKET_STATE_NODE PACKET_STATE_PASS ClientSession.Handle_NULL;
  entry "SMSG_TAXINODE_STATUS" true STATUS_NEVER PACKET_STATE_NODE PACKET_STATE_PASS ClientSession.Handle_ServerSide;
  entry "CMSG_TAXIQUERYAVAILABLENODES" true STATUS_LOGGEDIN PACKET_STATE_NODE PACKET_STATE_PASS ClientSession.Handle_NULL;
  entry "CMSG_ACTIVATETAXI" true STATUS_LOGGEDIN PACKET_STATE_NODE PACKET_STATE_PASS ClientSession.Handle_NULL;
  entry "SMSG_ACTIVATETAXIREPLY" true STATUS_NEVER PACKET_STATE_NODE PACKET_STATE_PASS ClientSession.Handle_ServerSide;
  entry "SMSG_NEW_TAXI_PATH" true STATUS_NEVER PACKET_STATE_NODE PACKET_STATE_PASS ClientSession.Handle_ServerSide;
  entry "CMSG_TRAINER_LIST" true STATUS_LOGGEDIN PACKET_STATE_NODE PACKET_STATE_PASS ClientSession.Handle_NULL;
  entry "SMSG_TRAINER_LIST" true STATUS_NEVER PACKET_STATE_NODE PACKET_STATE_PASS ClientSession.Handle_ServerSide;
  entry "CMSG_TRAINER_BUY_SPELL" true STATUS_LOGGEDIN PACKET_STATE_NODE PACKET_STATE_PASS ClientSession.Handle_NULL;
  entry "SMSG_TRAINER_BUY_SUCCEEDED" true STATUS_NEVER PACKET_STATE_NODE PACKET_STATE_PASS ClientSession.Handle_ServerSide;
  entry "SMSG_TRAINER_BUY_FAILED" true STATUS_NEVER PACKET_STATE_NODE PACKET_STATE_PASS ClientSession.Handle_ServerSide;
  entry "CMSG_BINDER_ACTIVATE" true STATUS_LOGGEDIN PACKET_STATE_NODE PACKET_STATE_PASS ClientSession.Handle_NULL;
  entry "SMSG_PLAYERBINDERROR" true STATUS_NEVER PACKET_STATE_NODE PACKET_STATE_PASS ClientSession.Handle_ServerSide;
  entry "CMSG_BANKER_ACTIVATE" true STATUS_LOGGEDIN PACKET_STATE_NODE PACKET_STATE_PASS ClientSession.Handle_NULL;
  entry "SMSG_SHOW_BANK" true STATUS_NEVER PACKET_STATE_NODE PACKET_STATE_PASS ClientSession.Handle_ServerSide
].

Definition table_1B9 : list OpcodeHandler := [
  entry "CMSG_BUY_BANK_SLOT" true STATUS_LOGGEDIN PACKET_STATE_NODE PACKET_STATE_PASS ClientSession.Handle_NULL;
  entry "SMSG_BUY_BANK_SLOT_RESULT" true STATUS_NEVER PACKET_STATE_NODE PACKET_STATE_PASS ClientSession.Handle_ServerSide;
  entry "CMSG_PETITION_SHOWLIST" true STATUS_LOGGEDIN PACKET_STATE_NODE PACKET_STATE_PASS ClientSession.Handle_NULL;
  entry "SMSG_PETITION_SHOWLIST" true STATUS_NEVER PACKET_STATE_NODE PACKET_STATE_PASS ClientSession.Handle_ServerSide;
  entry "CMSG_PETITION_BUY" true STATUS_LOGGEDIN PACKET_STATE_NODE PACKET_STATE_PASS ClientSession.Handle_NULL;
  entry "CMSG_PETITION_SHOW_SIGNATURES" true STATUS_LOGGEDIN PACKET_STATE_NODE PACKET_STATE_PASS ClientSession.Handle_NULL;
  entry "SMSG_PETITION_SHOW_SIGNATURES" true STATUS_NEVER PACKET_STATE_NODE PACKET_STATE_PASS ClientSession.Handle_ServerSide;
  entry "CMSG_PETITION_SIGN" true STATUS_LOGGEDIN PACKET_STATE_NODE PACKET_STATE_PASS ClientSession.Handle_NULL;
  entry "SMSG_PETITION_SIGN_RESULTS" true STATUS_NEVER PACKET_STATE_NODE PACKET_STATE_PASS ClientSession.Handle_ServerSide;
  entry "MSG_PETITION_DECLINE" true STATUS_LOGGEDIN PACKET_STATE_NODE PACKET_STATE_PASS ClientSession.Handle_NULL;
  entry "CMSG_OFFER_PETITION" true STATUS_LOGGEDIN PACKET_STATE_NODE PACKET_STATE_PASS ClientSession.Handle_NULL;
  entry "CMSG_TURN_IN_PETITION" true STATUS_LOGGEDIN PACKET_STATE_NODE PACKET_STATE_PASS ClientSession.Handle_NULL;
  entry "SMSG_TURN_IN_PETITION_RESULTS" true STATUS_NEVER PACKET_STATE_NODE PACKET_STATE_PASS ClientSession.Handle_ServerSide;
  entry "CMSG_PETITION_QUERY" true STATUS_LOGGEDIN PACKET_STATE_NODE PACKET_STATE_PASS ClientSession.Handle_NULL;
  entry "SMSG_PETITION_QUERY_RESPONSE" true STATUS_NEVER PACKET_STATE_NODE PACKET_STATE_PASS ClientSession.Handle_ServerSide;
  entry "SMSG_FISH_NOT_HOOKED" true STATUS_NEVER PACKET_STATE_NODE PACKET_STATE_PASS ClientSession.Handle_ServerSide;
  entry "SMSG_FISH_ESCAPED" true STATUS_NEVER PACKET_STATE_NODE PACKET_STATE_PASS ClientSession.Handle_ServerSide;
  entry "CMSG_BUG" true STATUS_LOGGEDIN PACKET_STATE_NODE PACKET_STATE_PASS ClientSession.Handle_NULL;
  entry "SMSG_NOTIFICATION" true STATUS_NEVER PACKET_STATE_NODE PACKET_STATE_PASS ClientSession.Handle_ServerSide;
  entry "CMSG_PLAYED_TIME" true STATUS_LOGGEDIN PACKET_STATE_NODE PACKET_STATE_PASS ClientSession.Handle_NULL;
  entry "SMSG_PLAYED_TIME" true STATUS_NEVER PACKET_STATE_NODE PACKET_STATE_PASS ClientSession.Handle_ServerSide;
  entry "CMSG_QUERY_TIME" true STATUS_LOGGEDIN PACKET_STATE_NODE PACKET_STATE_PASS ClientSession.Handle_NULL;
  entry "SMSG_QUERY_TIME_RESPONSE" true STATUS_NEVER PACKET_STATE_NODE PACKET_STATE_PASS ClientSession.Handle_ServerSide;
  entry "SMSG_LOG_XPGAIN" true STATUS_NEVER PACKET_STATE_NODE PACKET_STATE_PASS ClientSession.Handle_ServerSide;
  entry "SMSG_AURACASTLOG" true STATUS_NEVER PACKET_STATE_NODE PACKET_STATE_PASS ClientSession.Handle_ServerSide;
  entry "CMSG_RECLAIM_CORPSE" true STATUS_LOGGEDIN PACKET_STATE_NODE PACKET_STATE_PASS ClientSession.Handle_NULL;
  entry "CMSG_WRAP_ITEM" true STATUS_LOGGEDIN PACKET_STATE_NODE PACKET_STATE_PASS ClientSession.Handle_NULL;
  entry "SMSG_LEVELUP_INFO" false STATUS_LOGGEDIN PACKET_STATE_NULL PACKET_STATE_BOTH ClientSession.Handle_SMSG_LEVELUP_INFO;
  entry "MSG_MINIMAP_PING" true STATUS_LOGGEDIN PACKET_STATE_NODE PACKET_STATE_PASS ClientSession.Handle_NULL;
  entry "SMSG_RESISTLOG" true STATUS_NEVER PACKET_STATE_NODE PACKET_STATE_PASS ClientSession.Handle_ServerSide;
  entry "SMSG_ENCHANTMENTLOG" true STATUS_NEVER PACKET_STATE_NODE PACKET_STATE_PASS ClientSession.Handle_ServerSide;
  entry "CMSG_SET_SKILL_CHEAT" true STATUS_NEVER PACKET_STATE_NODE PACKET_STATE_PASS ClientSession.Handle_NULL;
  entry "SMSG_START_MIRROR_TIMER" true STATUS_NEVER PACKET_STATE_NODE PACKET_STATE_PASS ClientSession.Handle_ServerSide;
  entry "SMSG_PAUSE_MIRROR_TIMER" true STATUS_NEVER PACKET_STATE_NODE PACKET_STATE_PASS ClientSession.Handle_ServerSide;
  entry "SMSG_STOP_MIRROR_TIMER" true STATUS_NEVER PACKET_STATE_NODE PACKET_STATE_PASS ClientSession.Handle_ServerSide;
  entry "CMSG_PING" true STATUS_NEVER PACKET_STATE_NODE PACKET_STATE_PASS ClientSession.Handle_NULL;
  entry "SMSG_PONG" true STATUS_NEVER PACKET_STATE_NODE PACKET_STATE_PASS ClientSession.Handle_ServerSide;
  entry "SMSG_CLEAR_COOLDOWN" true STATUS_NEVER PACKET_STATE_NODE PACKET_STATE_PASS ClientSession.Handle_ServerSide;
  entry "SMSG_GAMEOBJECT_PAGETEXT" true STATUS_NEVER PACKET_STATE_NODE PACKET_STATE_PASS ClientSession.Handle_ServerSide;
  entry "CMSG_SETSHEATHED" true STATUS_LOGGEDIN PACKET_STATE_NODE PACKET_STATE_PASS ClientSession.Handle_NULL;
  entry "SMSG_COOLDOWN_CHEAT" true STATUS_NEVER PACKET_STATE_NODE PACKET_STATE_PASS ClientSession.Handle_ServerSide;
  entry "SMSG_SPELL_DELAYED" true STATUS_NEVER PACKET_STATE_NODE PACKET_STATE_PASS ClientSession.Handle_ServerSide;
  entry "CMSG_QUEST_POI_QUERY" true STATUS_LOGGEDIN PACKET_STATE_NODE PACKET_STATE_PASS ClientSession.Handle_NULL;
  entry "SMSG_QUEST_POI_QUERY_RESPONSE" true STATUS_NEVER PACKET_STATE_NODE PACKET_STATE_PASS ClientSession.Handle_ServerSide;
  entry "CMSG_GHOST" true STATUS_NEVER PACKET_STATE_NODE PACKET_STATE_PASS ClientSession.Handle_NULL;
  entry "CMSG_GM_INVIS" true STATUS_NEVER PACKET_STATE_NODE PACKET_STATE_PASS ClientSession.Handle_NULL;
  entry "SMSG_INVALID_PROMOTION_CODE" true STATUS_NEVER PACKET_STATE_NODE PACKET_STATE_PASS ClientSession.Handle_ServerSide;
  entry "MSG_GM_BIND_OTHER" true STATUS_NEVER PACKET_STATE_NODE PACKET_STATE_PASS ClientSession.Handle_NULL;
  entry "MSG_GM_SUMMON" true STATUS_NEVER PACKET_STATE_NODE PACKET_STATE_PASS ClientSession.Handle_NULL;
  entry "SMSG_ITEM_TIME_UPDATE" true STATUS_NEVER PACKET_STATE_NODE PACKET_STATE_PASS ClientSession.Handle_ServerSide;
  entry "SMSG_ITEM_ENCHANT_TIME_UPDATE" true STATUS_NEVER PACKET_STATE_NODE PACKET_STATE_PASS ClientSession.Handle_ServerSide;
  entry "SMSG_AUTH_CHALLENGE" true STATUS_NEVER PACKET_STATE_NODE PACKET_STATE_LOGON ClientSession.Handle_SMSG_AUTH_CHALLENGE;
  entry "CMSG_AUTH_SESSION" true STATUS_NEVER PACKET_STATE_NULL PACKET_STATE_PASS ClientSession.Handle_NULL;
  entry "SMSG_AUTH_RESPONSE" true STATUS_NEVER PACKET_STATE_NULL PACKET_STATE_LOGON ClientSession.Handle_SMSG_AUTH_RESPONSE;
  entry "MSG_GM_SHOWLABEL" true STATUS_NEVER PACKET_STATE_NODE PACKET_STATE_PASS ClientSession.Handle_NULL;
  entry "CMSG_PET_CAST_SPELL" true STATUS_LOGGEDIN PACKET_STATE_NODE PACKET_STATE_PASS ClientSession.Handle_NULL;
  entry "MSG_SAVE_GUILD_EMBLEM" true STATUS_LOGGEDIN PACKET_STATE_NODE PACKET_STATE_PASS ClientSession.Handle_NULL;
  entry "MSG_TABARDVENDOR_ACTIVATE" true STATUS_LOGGEDIN PACKET_STATE_NODE PACKET_STATE_PASS ClientSession.Handle_NULL;
  entry "SMSG_PLAY_SPELL_VISUAL" true STATUS_NEVER PACKET_STATE_NODE PACKET_STATE_PASS ClientSession.Handle_ServerSide;
  entry "CMSG_ZONEUPDATE" true STATUS_LOGGEDIN PACKET_STATE_NODE PACKET_STATE_PASS ClientSession.Handle_NULL;
  entry "SMSG_PARTYKILLLOG" true STATUS_NEVER PACKET_STATE_NODE PACKET_STATE_PASS ClientSession.Handle_ServerSide;
  entry "SMSG_COMPRESSED_UPDATE_OBJECT" true STATUS_NEVER PACKET_STATE_NODE PACKET_STATE_PASS ClientSession.Handle_ServerSide;
  entry "SMSG_PLAY_SPELL_IMPACT" true STATUS_NEVER PACKET_STATE_NODE PACKET_STATE_PASS ClientSession.Handle_ServerSide;
  entry "SMSG_EXPLORATION_EXPERIENCE" true STATUS_NEVER PACKET_STATE_NODE PACKET_STATE_PASS ClientSession.Handle_ServerSide;
  entry "CMSG_GM_SET_SECURITY_GROUP" true STATUS_NEVER PACKET_STATE_NODE PACKET_STATE_PASS ClientSession.Handle_NULL;
  entry "CMSG_GM_NUKE" true STATUS_NEVER PACKET_STATE_NODE PACKET_STATE_PASS ClientSession.Handle_NULL;
  entry "MSG_RANDOM_ROLL" true STATUS_LOGGEDIN PACKET_STATE_NODE PACKET_STATE_PASS ClientSession.Handle_NULL;
  entry "SMSG_ENVIRONMENTALDAMAGELOG" true STATUS_NEVER PACKET_STATE_NODE PACKET_STATE_PASS ClientSession.Handle_ServerSide;
  entry "CMSG_PLAYER_DIFFICULTY_CHANGE" true STATUS_NEVER PACKET_STATE_NODE PACKET_STATE_PASS ClientSession.Handle_NULL;
  entry "SMSG_RWHOIS" true STATUS_NEVER PACKET_STATE_NODE PACKET_STATE_PASS ClientSession.Handle_ServerSide;
  entry "SMSG_LFG_PLAYER_REWARD" true STATUS_NEVER PACKET_STATE_NODE PACKET_STATE_PASS ClientSession.Handle_ServerSide;
  entry "SMSG_LFG_TELEPORT_DENIED" true STATUS_NEVER PACKET_STATE_NODE PACKET_STATE_PASS ClientSession.Handle_ServerSide;
  entry "CMSG_UNLEARN_SPELL" true STATUS_NEVER PACKET_STATE_NODE PACKET_STATE_PASS ClientSession.Handle_NULL;
  entry "CMSG_UNLEARN_SKILL" true STATUS_LOGGEDIN PACKET_STATE_NODE PACKET_STATE_PASS ClientSession.Handle_NULL;
  entry "SMSG_REMOVED_SPELL" true STATUS_NEVER PACKET_STATE_NODE PACKET_STATE_PASS ClientSession.Handle_ServerSide;
  entry "CMSG_DECHARGE" true STATUS_NEVER PACKET_STATE_NODE PACKET_STATE_PASS ClientSession.Handle_NULL;
  entry "CMSG_GMTICKET_CREATE" true STATUS_LOGGEDIN PACKET_STATE_LOGON PACKET_STATE_PASS ClientSession.HandleGMTicketCreateOpcode;
  entry "SMSG_GMTICKET_CREATE" true STATUS_NEVER PACKET_STATE_NULL PACKET_STATE_PASS ClientSession.Handle_ServerSide;
  entry "CMSG_GMTICKET_UPDATETEXT" true STATUS_LOGGEDIN PACKET_STATE_LOGON PACKET_STATE_PASS ClientSession.HandleGMTicketUpdateOpcode;
  entry "SMSG_GMTICKET_UPDATETEXT" true STATUS_NEVER PACKET_STATE_NULL PACKET_STATE_PASS ClientSession.Handle_ServerSide;
  entry "SMSG_ACCOUNT_DATA_TIMES" true STATUS_NEVER PACKET_STATE_NULL PACKET_STATE_PASS ClientSession.Handle_ServerSide;
  entry "CMSG_REQUEST_ACCOUNT_DATA" true STATUS_AUTHED PACKET_STATE_NODE PACKET_STATE_NULL ClientSession.Handle_NULL;
  entry "CMSG_UPDATE_ACCOUNT_DATA" true STATUS_AUTHED PACKET_STATE_NODE PACKET_STATE_NULL ClientSession.Handle_NULL;
  entry "SMSG_UPDATE_ACCOUNT_DATA" true STATUS_NEVER PACKET_STATE_NULL PACKET_STATE_PASS ClientSession.Handle_ServerSide;
  entry "SMSG_CLEAR_FAR_SIGHT_IMMEDIATE" true STATUS_NEVER PACKET_STATE_NODE PACKET_STATE_PASS ClientSession.Handle_ServerSide;
  entry "SMSG_PLAYER_DIFFICULTY_CHANGE" true STATUS_NEVER PACKET_STATE_NODE PACKET_STATE_PASS ClientSession.Handle_ServerSide;
  entry "CMSG_GM_TEACH" true STATUS_NEVER PACKET_STATE_NODE PACKET_STATE_PASS ClientSession.Handle_NULL;
  entry "CMSG_GM_CREATE_ITEM_TARGET" true STATUS_NEVER PACKET_STATE_NODE PACKET_STATE_PASS ClientSession.Handle_NULL;
  entry "CMSG_GMTICKET_GETTICKET" true STATUS_LOGGEDIN PACKET_STATE_LOGON PACKET_STATE_PASS ClientSession.HandleGMTicketGetTicketOpcode;
  entry "SMSG_GMTICKET_GETTICKET" true STATUS_NEVER PACKET_STATE_NULL PACKET_STATE_PASS ClientSession.Handle_ServerSide;
  entry "CMSG_UNLEARN_TALENTS" true STATUS_NEVER PACKET_STATE_NODE PACKET_STATE_PASS ClientSession.Handle_NULL;
  entry "SMSG_GAMEOBJECT_SPAWN_ANIM_OBSOLETE" true STATUS_NEVER PACKET_STATE_NODE PACKET_STATE_PASS ClientSession.Handle_ServerSide;
  entry "SMSG_GAMEOBJECT_DESPAWN_ANIM" true STATUS_NEVER PACKET_STATE_NODE PACKET_STATE_PASS ClientSession.Handle_ServerSide;
  entry "MSG_CORPSE_QUERY" true STATUS_LOGGEDIN PACKET_STATE_NODE PACKET_STATE_PASS ClientSession.Handle_NULL;
  entry "CMSG_GMTICKET_DELETETICKET" true STATUS_LOGGEDIN PACKET_STATE_LOGON PACKET_STATE_PASS ClientSession.HandleGMTicketDeleteOpcode;
  entry "SMSG_GMTICKET_DELETETICKET" true STATUS_NEVER PACKET_STATE_NULL PACKET_STATE_PASS ClientSession.Handle_ServerSide;
  entry "SMSG_CHAT_WRONG_FACTION" true STATUS_NEVER PACKET_STATE_NODE PACKET_STATE_PASS ClientSession.Handle_ServerSide;
  entry "CMSG_GMTICKET_SYSTEMSTATUS" true STATUS_LOGGEDIN PACKET_STATE_LOGON PACKET_STATE_PASS ClientSession.HandleGMTicketSystemStatusOpcode;
  entry "SMSG_GMTICKET_SYSTEMSTATUS" true STATUS_NEVER PACKET_STATE_NULL PACKET_STATE_PASS ClientSession.Handle_ServerSide;
  entry "CMSG_SPIRIT_HEALER_ACTIVATE" true STATUS_LOGGEDIN PACKET_STATE_NODE PACKET_STATE_PASS ClientSession.Handle_NULL;
  entry "CMSG_SET_STAT_CHEAT" true STATUS_NEVER PACKET_STATE_NODE PACKET_STATE_PASS ClientSession.Handle_NULL;
  entry "SMSG_QUEST_FORCE_REMOVE" true STATUS_NEVER PACKET_STATE_NODE PACKET_STATE_PASS ClientSession.Handle_ServerSide;
  entry "CMSG_SKILL_BUY_STEP" true STATUS_NEVER PACKET_STATE_NODE PACKET_STATE_PASS ClientSession.Handle_NULL;
  entry "CMSG_SKILL_BUY_RANK" true STATUS_NEVER PACKET_STATE_NODE PACKET_STATE_PASS ClientSession.Handle_NULL;
  entry "CMSG_XP_CHEAT" true STATUS_NEVER PACKET_STATE_NODE PACKET_STATE_PASS ClientSession.Handle_NULL;
  entry "SMSG_SPIRIT_HEALER_CONFIRM" true STATUS_NEVER PACKET_STATE_NODE PACKET_STATE_PASS ClientSession.Handle_ServerSide;
  entry "CMSG_CHARACTER_POINT_CHEAT" true STATUS_NEVER PACKET_STATE_NODE PACKET_STATE_PASS ClientSession.Handle_NULL;
  entry "SMSG_GOSSIP_POI" true STATUS_NEVER PACKET_STATE_NODE PACKET_STATE_PASS ClientSession.Handle_ServerSide;
  entry "CMSG_CHAT_IGNORED" true STATUS_LOGGEDIN PACKET_STATE_NODE PACKET_STATE_PASS ClientSession.Handle_NULL;
  entry "CMSG_GM_VISION" true STATUS_NEVER PACKET_STATE_NODE PACKET_STATE_PASS ClientSession.Handle_NULL;
  entry "CMSG_SERVER_COMMAND" true STATUS_NEVER PACKET_STATE_NODE PACKET_STATE_PASS ClientSession.Handle_NULL;
  entry "CMSG_GM_SILENCE" true STATUS_NEVER PACKET_STATE_NODE PACKET_STATE_PASS ClientSession.Handle_NULL;
  entry "CMSG_GM_REVEALTO" true STATUS_NEVER PACKET_STATE_NODE PACKET_STATE_PASS ClientSession.Handle_NULL;
  entry "CMSG_GM_RESURRECT" true STATUS_NEVER PACKET_STATE_NODE PACKET_STATE_PASS ClientSession.Handle_NULL;
  entry "CMSG_GM_SUMMONMOB" true STATUS_NEVER PACKET_STATE_NODE PACKET_STATE_PASS ClientSession.Handle_NULL;
  entry "CMSG_GM_MOVECORPSE" true STATUS_NEVER PACKET_STATE_NODE PACKET_STATE_PASS ClientSession.Handle_NULL;
  entry "CMSG_GM_FREEZE" true STATUS_NEVER PACKET_STATE_NODE PACKET_STATE_PASS ClientSession.Handle_NULL;
  entry "CMSG_GM_UBERINVIS" true STATUS_NEVER PACKET_STATE_NODE PACKET_STATE_PASS ClientSession.Handle_NULL;
  entry "CMSG_GM_REQUEST_PLAYER_INFO" true STATUS_NEVER PACKET_STATE_NODE PACKET_STATE_PASS ClientSession.Handle_NULL;
  entry "SMSG_GM_PLAYER_INFO" true STATUS_NEVER PACKET_STATE_NODE PACKET_STATE_PASS ClientSession.Handle_NULL;
  entry "CMSG_GUILD_RANK" true STATUS_LOGGEDIN PACKET_STATE_LOGON PACKET_STATE_LOGON ClientSession.HandleGuildRankOpcode;
  entry "CMSG_GUILD_ADD_RANK" true STATUS_LOGGEDIN PACKET_STATE_LOGON PACKET_STATE_LOGON ClientSession.HandleGuildAddRankOpcode;
  entry "CMSG_GUILD_DEL_RANK" true STATUS_LOGGEDIN PACKET_STATE_LOGON PACKET_STATE_LOGON ClientSession.HandleGuildDelRankOpcode;
  entry "CMSG_GUILD_SET_PUBLIC_NOTE" true STATUS_LOGGEDIN PACKET_STATE_LOGON PACKET_STATE_LOGON ClientSession.HandleGuildSetPublicNoteOpcode;
  entry "CMSG_GUILD_SET_OFFICER_NOTE" true STATUS_LOGGEDIN PACKET_STATE_LOGON PACKET_STATE_LOGON ClientSession.HandleGuildSetOfficerNoteOpcode;
  entry "SMSG_LOGIN_VERIFY_WORLD" false STATUS_NEVER PACKET_STATE_NULL PACKET_STATE_BOTH ClientSession.SMSG_LOGIN_VERIFY_WORLD;
  entry "CMSG_CLEAR_EXPLORATION" true STATUS_NEVER PACKET_STATE_NODE PACKET_STATE_PASS ClientSession.Handle_NULL;
  entry "CMSG_SEND_MAIL" true STATUS_LOGGEDIN PACKET_STATE_LOGON PACKET_STATE_PASS ClientSession.HandleSendMail;
  entry "SMSG_SEND_MAIL_RESULT" true STATUS_NEVER PACKET_STATE_NODE PACKET_STATE_PASS ClientSession.Handle_ServerSide;
  entry "CMSG_GET_MAIL_LIST" true STATUS_LOGGEDIN PACKET_STATE_NODE PACKET_STATE_PASS ClientSession.Handle_NULL;
  entry "SMSG_MAIL_LIST_RESULT" true STATUS_NEVER PACKET_STATE_NODE PACKET_STATE_PASS ClientSession.Handle_ServerSide;
  entry "CMSG_BATTLEFIELD_LIST" true STATUS_LOGGEDIN PACKET_STATE_NODE PACKET_STATE_PASS ClientSession.Handle_NULL;
  entry "SMSG_BATTLEFIELD_LIST" true STATUS_NEVER PACKET_STATE_NODE PACKET_STATE_PASS ClientSession.Handle_ServerSide;
  entry "CMSG_BATTLEFIELD_JOIN" true STATUS_NEVER PACKET_STATE_NODE PACKET_STATE_PASS ClientSession.Handle_NULL;
  entry "SMSG_BATTLEFIELD_WIN_OBSOLETE" true STATUS_NEVER PACKET_STATE_NODE PACKET_STATE_PASS ClientSession.Handle_ServerSide;
  entry "SMSG_BATTLEFIELD_LOSE_OBSOLETE" true STATUS_NEVER PACKET_STATE_NODE PACKET_STATE_PASS ClientSession.Handle_ServerSide;
  entry "CMSG_TAXICLEARNODE" true STATUS_NEVER PACKET_STATE_NODE PACKET_STATE_PASS ClientSession.Handle_NULL;
  entry "CMSG_TAXIENABLENODE" true STATUS_NEVER PACKET_STATE_NODE PACKET_STATE_PASS ClientSession.Handle_NULL;
  entry "CMSG_ITEM_TEXT_QUERY" true STATUS_LOGGEDIN PACKET_STATE_NODE PACKET_STATE_PASS ClientSession.Handle_NULL;
  entry "SMSG_ITEM_TEXT_QUERY_RESPONSE" true STATUS_NEVER PACKET_STATE_NODE PACKET_STATE_PASS ClientSession.Handle_ServerSide;
  entry "CMSG_MAIL_TAKE_MONEY" true STATUS_LOGGEDIN PACKET_STATE_NODE PACKET_STATE_PASS ClientSession.Handle_NULL;
  entry "CMSG_MAIL_TAKE_ITEM" true STATUS_LOGGEDIN PACKET_STATE_NODE PACKET_STATE_PASS ClientSession.Handle_NULL;
  entry "CMSG_MAIL_MARK_AS_READ" true STATUS_LOGGEDIN PACKET_STATE_NODE PACKET_STATE_PASS ClientSession.Handle_NULL;
  entry "CMSG_MAIL_RETURN_TO_SENDER" true STATUS_LOGGEDIN PACKET_STATE_NODE PACKET_STATE_PASS ClientSession.Handle_NULL;
  entry "CMSG_MAIL_DELETE" true STATUS_LOGGEDIN PACKET_STATE_NODE PACKET_STATE_PASS ClientSession.Handle_NULL;
  entry "CMSG_MAIL_CREATE_TEXT_ITEM" true STATUS_LOGGEDIN PACKET_STATE_NODE PACKET_STATE_PASS ClientSession.Handle_NULL;
  entry "SMSG_SPELLLOGMISS" true STATUS_NEVER PACKET_STATE_NODE PACKET_STATE_PASS ClientSession.Handle_ServerSide
].

Definition table_24C : list OpcodeHandler := [
  entry "SMSG_SPELLLOGEXECUTE" true STATUS_NEVER PACKET_STATE_NODE PACKET_STATE_PASS ClientSession.Handle_ServerSide;
  entry "SMSG_DEBUGAURAPROC" true STATUS_NEVER PACKET_STATE_NODE PACKET_STATE_PASS ClientSession.Handle_ServerSide;
  entry "SMSG_PERIODICAURALOG" true STATUS_NEVER PACKET_STATE_NODE PACKET_STATE_PASS ClientSession.Handle_ServerSide;
  entry "SMSG_SPELLDAMAGESHIELD" true STATUS_NEVER PACKET_STATE_NODE PACKET_STATE_PASS ClientSession.Handle_ServerSide;
  entry "SMSG_SPELLNONMELEEDAMAGELOG" true STATUS_NEVER PACKET_STATE_NODE PACKET_STATE_PASS ClientSession.Handle_ServerSide;
  entry "CMSG_LEARN_TALENT" true STATUS_LOGGEDIN PACKET_STATE_NODE PACKET_STATE_PASS ClientSession.Handle_NULL;
  entry "SMSG_RESURRECT_FAILED" true STATUS_NEVER PACKET_STATE_NODE PACKET_STATE_PASS ClientSession.Handle_ServerSide;
  entry "CMSG_TOGGLE_PVP" true STATUS_LOGGEDIN PACKET_STATE_NODE PACKET_STATE_PASS ClientSession.Handle_NULL;
  entry "SMSG_ZONE_UNDER_ATTACK" true STATUS_NEVER PACKET_STATE_NODE PACKET_STATE_PASS ClientSession.Handle_ServerSide;
  entry "MSG_AUCTION_HELLO" true STATUS_LOGGEDIN PACKET_STATE_NODE PACKET_STATE_PASS ClientSession.Handle_NULL;
  entry "CMSG_AUCTION_SELL_ITEM" true STATUS_LOGGEDIN PACKET_STATE_NODE PACKET_STATE_PASS ClientSession.Handle_NULL;
  entry "CMSG_AUCTION_REMOVE_ITEM" true STATUS_LOGGEDIN PACKET_STATE_NODE PACKET_STATE_PASS ClientSession.Handle_NULL;
  entry "CMSG_AUCTION_LIST_ITEMS" true STATUS_LOGGEDIN PACKET_STATE_NODE PACKET_STATE_PASS ClientSession.Handle_NULL;
  entry "CMSG_AUCTION_LIST_OWNER_ITEMS" true STATUS_LOGGEDIN PACKET_STATE_NODE PACKET_STATE_PASS ClientSession.Handle_NULL;
  entry "CMSG_AUCTION_PLACE_BID" true STATUS_LOGGEDIN PACKET_STATE_NODE PACKET_STATE_PASS ClientSession.Handle_NULL;
  entry "SMSG_AUCTION_COMMAND_RESULT" true STATUS_NEVER PACKET_STATE_NODE PACKET_STATE_PASS ClientSession.Handle_ServerSide;
  entry "SMSG_AUCTION_LIST_RESULT" true STATUS_NEVER PACKET_STATE_NODE PACKET_STATE_PASS ClientSession.Handle_ServerSide;
  entry "SMSG_AUCTION_OWNER_LIST_RESULT" true STATUS_NEVER PACKET_STATE_NODE PACKET_STATE_PASS ClientSession.Handle_ServerSide;
  entry "SMSG_AUCTION_BIDDER_NOTIFICATION" true STATUS_NEVER PACKET_STATE_NODE PACKET_STATE_PASS ClientSession.Handle_ServerSide;
  entry "SMSG_AUCTION_OWNER_NOTIFICATION" true STATUS_NEVER PACKET_STATE_NODE PACKET_STATE_PASS ClientSession.Handle_ServerSide;
  entry "SMSG_PROCRESIST" true STATUS_NEVER PACKET_STATE_NODE PACKET_STATE_PASS ClientSession.Handle_ServerSide;
  entry "SMSG_STANDSTATE_CHANGE_FAILURE_OBSOLETE" true STATUS_NEVER PACKET_STATE_NODE PACKET_STATE_PASS ClientSession.Handle_ServerSide;
  entry "SMSG_DISPEL_FAILED" true STATUS_NEVER PACKET_STATE_NODE PACKET_STATE_PASS ClientSession.Handle_ServerSide;
  entry "SMSG_SPELLORDAMAGE_IMMUNE" true STATUS_NEVER PACKET_STATE_NODE PACKET_STATE_PASS ClientSession.Handle_ServerSide;
  entry "CMSG_AUCTION_LIST_BIDDER_ITEMS" true STATUS_LOGGEDIN PACKET_STATE_NODE PACKET_STATE_PASS ClientSession.Handle_NULL;
  entry "SMSG_AUCTION_BIDDER_LIST_RESULT" true STATUS_NEVER PACKET_STATE_NODE PACKET_STATE_PASS ClientSession.Handle_ServerSide;
  entry "SMSG_SET_FLAT_SPELL_MODIFIER" true STATUS_NEVER PACKET_STATE_NODE PACKET_STATE_PASS ClientSession.Handle_ServerSide;
  entry "SMSG_SET_PCT_SPELL_MODIFIER" true STATUS_NEVER PACKET_STATE_NODE PACKET_STATE_PASS ClientSession.Handle_ServerSide;
  entry "CMSG_SET_AMMO" true STATUS_LOGGEDIN PACKET_STATE_NODE PACKET_STATE_PASS ClientSession.Handle_NULL;
  entry "SMSG_CORPSE_RECLAIM_DELAY" true STATUS_NEVER PACKET_STATE_NODE PACKET_STATE_PASS ClientSession.Handle_ServerSide;
  entry "CMSG_SET_ACTIVE_MOVER" true STATUS_LOGGEDIN PACKET_STATE_NODE PACKET_STATE_PASS ClientSession.Handle_NULL;
  entry "CMSG_PET_CANCEL_AURA" true STATUS_LOGGEDIN PACKET_STATE_NODE PACKET_STATE_PASS ClientSession.Handle_NULL;
  entry "CMSG_PLAYER_AI_CHEAT" true STATUS_NEVER PACKET_STATE_NODE PACKET_STATE_PASS ClientSession.Handle_NULL;
  entry "CMSG_CANCEL_AUTO_REPEAT_SPELL" true STATUS_LOGGEDIN PACKET_STATE_NODE PACKET_STATE_PASS ClientSession.Handle_NULL;
  entry "MSG_GM_ACCOUNT_ONLINE" true STATUS_NEVER PACKET_STATE_NODE PACKET_STATE_PASS ClientSession.Handle_NULL;
  entry "MSG_LIST_STABLED_PETS" true STATUS_LOGGEDIN PACKET_STATE_NODE PACKET_STATE_PASS ClientSession.Handle_NULL;
  entry "CMSG_STABLE_PET" true STATUS_LOGGEDIN PACKET_STATE_NODE PACKET_STATE_PASS ClientSession.Handle_NULL;
  entry "CMSG_UNSTABLE_PET" true STATUS_LOGGEDIN PACKET_STATE_NODE PACKET_STATE_PASS ClientSession.Handle_NULL;
  entry "CMSG_BUY_STABLE_SLOT" true STATUS_LOGGEDIN PACKET_STATE_NODE PACKET_STATE_PASS ClientSession.Handle_NULL;
  entry "SMSG_STABLE_RESULT" true STATUS_NEVER PACKET_STATE_NODE PACKET_STATE_PASS ClientSession.Handle_ServerSide;
  entry "CMSG_STABLE_REVIVE_PET" true STATUS_LOGGEDIN PACKET_STATE_NODE PACKET_STATE_PASS ClientSession.Handle_NULL;
  entry "CMSG_STABLE_SWAP_PET" true STATUS_LOGGEDIN PACKET_STATE_NODE PACKET_STATE_PASS ClientSession.Handle_NULL;
  entry "MSG_QUEST_PUSH_RESULT" true STATUS_LOGGEDIN PACKET_STATE_NODE PACKET_STATE_PASS ClientSession.Handle_NULL;
  entry "SMSG_PLAY_MUSIC" true STATUS_NEVER PACKET_STATE_NODE PACKET_STATE_PASS ClientSession.Handle_ServerSide;
  entry "SMSG_PLAY_OBJECT_SOUND" true STATUS_NEVER PACKET_STATE_NODE PACKET_STATE_PASS ClientSession.Handle_ServerSide;
  entry "CMSG_REQUEST_PET_INFO" true STATUS_LOGGEDIN PACKET_STATE_NODE PACKET_STATE_PASS ClientSession.Handle_NULL;
  entry "CMSG_FAR_SIGHT" true STATUS_LOGGEDIN PACKET_STATE_NODE PACKET_STATE_PASS ClientSession.Handle_NULL;
  entry "SMSG_SPELLDISPELLOG" true STATUS_NEVER PACKET_STATE_NODE PACKET_STATE_PASS ClientSession.Handle_ServerSide;
  entry "SMSG_DAMAGE_CALC_LOG" true STATUS_NEVER PACKET_STATE_NODE PACKET_STATE_PASS ClientSession.Handle_ServerSide;
  entry "CMSG_ENABLE_DAMAGE_LOG" true STATUS_NEVER PACKET_STATE_NODE PACKET_STATE_PASS ClientSession.Handle_NULL;
  entry "CMSG_GROUP_CHANGE_SUB_GROUP" true STATUS_LOGGEDIN PACKET_STATE_NODE PACKET_STATE_PASS ClientSession.Handle_NULL;
  entry "CMSG_REQUEST_PARTY_MEMBER_STATS" true STATUS_LOGGEDIN PACKET_STATE_NODE PACKET_STATE_PASS ClientSession.Handle_NULL;
  entry "CMSG_GROUP_SWAP_SUB_GROUP" true STATUS_UNHANDLED PACKET_STATE_NODE PACKET_STATE_PASS ClientSession.Handle_NULL;
  entry "CMSG_RESET_FACTION_CHEAT" true STATUS_NEVER PACKET_STATE_NODE PACKET_STATE_PASS ClientSession.Handle_NULL;
  entry "CMSG_AUTOSTORE_BANK_ITEM" true STATUS_LOGGEDIN PACKET_STATE_NODE PACKET_STATE_PASS ClientSession.Handle_NULL;
  entry "CMSG_AUTOBANK_ITEM" true STATUS_LOGGEDIN PACKET_STATE_NODE PACKET_STATE_PASS ClientSession.Handle_NULL;
  entry "MSG_QUERY_NEXT_MAIL_TIME" true STATUS_LOGGEDIN PACKET_STATE_NODE PACKET_STATE_PASS ClientSession.Handle_NULL;
  entry "SMSG_RECEIVED_MAIL" true STATUS_NEVER PACKET_STATE_NODE PACKET_STATE_PASS ClientSession.Handle_ServerSide;
  entry "SMSG_RAID_GROUP_ONLY" true STATUS_NEVER PACKET_STATE_NODE PACKET_STATE_PASS ClientSession.Handle_ServerSide;
  entry "CMSG_SET_DURABILITY_CHEAT" true STATUS_NEVER PACKET_STATE_NODE PACKET_STATE_PASS ClientSession.Handle_NULL;
  entry "CMSG_SET_PVP_RANK_CHEAT" true STATUS_NEVER PACKET_STATE_NODE PACKET_STATE_PASS ClientSession.Handle_NULL;
  entry "CMSG_ADD_PVP_MEDAL_CHEAT" true STATUS_NEVER PACKET_STATE_NODE PACKET_STATE_PASS ClientSession.Handle_NULL;
  entry "CMSG_DEL_PVP_MEDAL_CHEAT" true STATUS_NEVER PACKET_STATE_NODE PACKET_STATE_PASS ClientSession.Handle_NULL;
  entry "CMSG_SET_PVP_TITLE" true STATUS_NEVER PACKET_STATE_NODE PACKET_STATE_PASS ClientSession.Handle_NULL;
  entry "SMSG_PVP_CREDIT" true STATUS_NEVER PACKET_STATE_NODE PACKET_STATE_PASS ClientSession.Handle_ServerSide;
  entry "SMSG_AUCTION_REMOVED_NOTIFICATION" true STATUS_NEVER PACKET_STATE_NODE PACKET_STATE_PASS ClientSession.Handle_ServerSide;
  entry "CMSG_GROUP_RAID_CONVERT" true STATUS_LOGGEDIN PACKET_STATE_NODE PACKET_STATE_PASS ClientSession.Handle_NULL;
  entry "CMSG_GROUP_ASSISTANT_LEADER" true STATUS_LOGGEDIN PACKET_STATE_NODE PACKET_STATE_PASS ClientSession.Handle_NULL;
  entry "CMSG_BUYBACK_ITEM" true STATUS_LOGGEDIN PACKET_STATE_NODE PACKET_STATE_PASS ClientSession.Handle_NULL;
  entry "SMSG_SERVER_MESSAGE" true STATUS_NEVER PACKET_STATE_BOTH PACKET_STATE_PASS ClientSession.Handle_ServerSide;
  entry "CMSG_SET_SAVED_INSTANCE_EXTEND" true STATUS_LOGGEDIN PACKET_STATE_NODE PACKET_STATE_PASS ClientSession.Handle_NULL;
  entry "SMSG_LFG_OFFER_CONTINUE" true STATUS_NEVER PACKET_STATE_NODE PACKET_STATE_PASS ClientSession.Handle_ServerSide;
  entry "CMSG_MEETINGSTONE_CHEAT" true STATUS_NEVER PACKET_STATE_NODE PACKET_STATE_PASS ClientSession.Handle_NULL;
  entry "SMSG_MEETINGSTONE_SETQUEUE" true STATUS_NEVER PACKET_STATE_NODE PACKET_STATE_PASS ClientSession.Handle_ServerSide;
  entry "CMSG_MEETINGSTONE_INFO" true STATUS_LOGGEDIN PACKET_STATE_NODE PACKET_STATE_PASS ClientSession.Handle_NULL;
  entry "SMSG_MEETINGSTONE_COMPLETE" true STATUS_NEVER PACKET_STATE_NODE PACKET_STATE_PASS ClientSession.Handle_ServerSide;
  entry "SMSG_MEETINGSTONE_IN_PROGRESS" true STATUS_NEVER PACKET_STATE_NODE PACKET_STATE_PASS ClientSession.Handle_ServerSide;
  entry "SMSG_MEETINGSTONE_MEMBER_ADDED" true STATUS_NEVER PACKET_STATE_NODE PACKET_STATE_PASS ClientSession.Handle_ServerSide;
  entry "CMSG_GMTICKETSYSTEM_TOGGLE" true STATUS_NEVER PACKET_STATE_NODE PACKET_STATE_PASS ClientSession.Handle_NULL;
  entry "CMSG_CANCEL_GROWTH_AURA" true STATUS_LOGGEDIN PACKET_STATE_NODE PACKET_STATE_PASS ClientSession.Handle_NULL;
  entry "SMSG_CANCEL_AUTO_REPEAT" true STATUS_NEVER PACKET_STATE_NODE PACKET_STATE_PASS ClientSession.Handle_ServerSide;
  entry "SMSG_STANDSTATE_UPDATE" true STATUS_NEVER PACKET_STATE_NODE PACKET_STATE_PASS ClientSession.Handle_ServerSide;
  entry "SMSG_LOOT_ALL_PASSED" true STATUS_NEVER PACKET_STATE_NODE PACKET_STATE_PASS ClientSession.Handle_ServerSide;
  entry "SMSG_LOOT_ROLL_WON" true STATUS_NEVER PACKET_STATE_NODE PACKET_STATE_PASS ClientSession.Handle_ServerSide;
  entry "CMSG_LOOT_ROLL" true STATUS_LOGGEDIN PACKET_STATE_NODE PACKET_STATE_PASS ClientSession.Handle_NULL;
  entry "SMSG_LOOT_START_ROLL" true STATUS_NEVER PACKET_STATE_NODE PACKET_STATE_PASS ClientSession.Handle_ServerSide;
  entry "SMSG_LOOT_ROLL" true STATUS_NEVER PACKET_STATE_NODE PACKET_STATE_PASS ClientSession.Handle_ServerSide;
  entry "CMSG_LOOT_MASTER_GIVE" true STATUS_LOGGEDIN PACKET_STATE_NODE PACKET_STATE_PASS ClientSession.Handle_NULL;
  entry "SMSG_LOOT_MASTER_LIST" true STATUS_NEVER PACKET_STATE_NODE PACKET_STATE_PASS ClientSession.Handle_ServerSide;
  entry "SMSG_SET_FORCED_REACTIONS" true STATUS_NEVER PACKET_STATE_NODE PACKET_STATE_PASS ClientSession.Handle_ServerSide;
  entry "SMSG_SPELL_FAILED_OTHER" true STATUS_NEVER PACKET_STATE_NODE PACKET_STATE_PASS ClientSession.Handle_ServerSide;
  entry "SMSG_GAMEOBJECT_RESET_STATE" true STATUS_NEVER PACKET_STATE_NODE PACKET_STATE_PASS ClientSession.Handle_ServerSide;
  entry "CMSG_REPAIR_ITEM" true STATUS_LOGGEDIN PACKET_STATE_NODE PACKET_STATE_PASS ClientSession.Handle_NULL;
  entry "SMSG_CHAT_PLAYER_NOT_FOUND" true STATUS_NEVER PACKET_STATE_NODE PACKET_STATE_PASS ClientSession.Handle_ServerSide;
  entry "MSG_TALENT_WIPE_CONFIRM" true STATUS_LOGGEDIN PACKET_STATE_NODE PACKET_STATE_PASS ClientSession.Handle_NULL;
  entry "SMSG_SUMMON_REQUEST" true STATUS_NEVER PACKET_STATE_NODE PACKET_STATE_PASS ClientSession.Handle_ServerSide;
  entry "CMSG_SUMMON_RESPONSE" true STATUS_LOGGEDIN PACKET_STATE_NODE PACKET_STATE_PASS ClientSession.Handle_NULL;
  entry "MSG_MOVE_TOGGLE_GRAVITY_CHEAT" true STATUS_NEVER PACKET_STATE_NODE PACKET_STATE_PASS ClientSession.Handle_NULL;
  entry "SMSG_MONSTER_MOVE_TRANSPORT" true STATUS_NEVER PACKET_STATE_NODE PACKET_STATE_PASS ClientSession.Handle_ServerSide;
  entry "SMSG_PET_BROKEN" true STATUS_NEVER PACKET_STATE_NODE PACKET_STATE_PASS ClientSession.Handle_ServerSide;
  entry "MSG_MOVE_FEATHER_FALL" true STATUS_NEVER PACKET_STATE_NODE PACKET_STATE_PASS ClientSession.Handle_NULL;
  entry "MSG_MOVE_WATER_WALK" true STATUS_NEVER PACKET_STATE_NODE PACKET_STATE_PASS ClientSession.Handle_NULL;
  entry "CMSG_SERVER_BROADCAST" true STATUS_NEVER PACKET_STATE_NODE PACKET_STATE_PASS ClientSession.Handle_NULL;
  entry "CMSG_SELF_RES" true STATUS_LOGGEDIN PACKET_STATE_NODE PACKET_STATE_PASS ClientSession.Handle_NULL;
  entry "SMSG_FEIGN_DEATH_RESISTED" true STATUS_NEVER PACKET_STATE_NODE PACKET_STATE_PASS ClientSession.Handle_ServerSide;
  entry "CMSG_RUN_SCRIPT" true STATUS_NEVER PACKET_STATE_NODE PACKET_STATE_PASS ClientSession.Handle_NULL;
  entry "SMSG_SCRIPT_MESSAGE" true STATUS_NEVER PACKET_STATE_NODE PACKET_STATE_PASS ClientSession.Handle_ServerSide;
  entry "SMSG_DUEL_COUNTDOWN" true STATUS_NEVER PACKET_STATE_NODE PACKET_STATE_PASS ClientSession.Handle_ServerSide;
  entry "SMSG_AREA_TRIGGER_MESSAGE" true STATUS_NEVER PACKET_STATE_NODE PACKET_STATE_PASS ClientSession.Handle_ServerSide;
  entry "CMSG_SHOWING_HELM" true STATUS_LOGGEDIN PACKET_STATE_NODE PACKET_STATE_PASS ClientSession.Handle_NULL;
  entry "CMSG_SHOWING_CLOAK" true STATUS_LOGGEDIN PACKET_STATE_NODE PACKET_STATE_PASS ClientSession.Handle_NULL;
  entry "SMSG_LFG_ROLE_CHOSEN" true STATUS_NEVER PACKET_STATE_NODE PACKET_STATE_PASS ClientSession.Handle_ServerSide;
  entry "SMSG_PLAYER_SKINNED" true STATUS_NEVER PACKET_STATE_NODE PACKET_STATE_PASS ClientSession.Handle_ServerSide;
  entry "SMSG_DURABILITY_DAMAGE_DEATH" true STATUS_NEVER PACKET_STATE_NODE PACKET_STATE_PASS ClientSession.Handle_ServerSide;
  entry "CMSG_SET_EXPLORATION" true STATUS_NEVER PACKET_STATE_NODE PACKET_STATE_PASS ClientSession.Handle_NULL;
  entry "CMSG_SET_ACTIONBAR_TOGGLES" true STATUS_AUTHED PACKET_STATE_NODE PACKET_STATE_PASS ClientSession.Handle_NULL;
  entry "UMSG_DELETE_GUILD_CHARTER" true STATUS_NEVER PACKET_STATE_NODE PACKET_STATE_PASS ClientSession.Handle_NULL;
  entry "MSG_PETITION_RENAME" true STATUS_LOGGEDIN PACKET_STATE_NODE PACKET_STATE_PASS ClientSession.Handle_NULL;
  entry "SMSG_INIT_WORLD_STATES" true STATUS_NEVER PACKET_STATE_NODE PACKET_STATE_PASS ClientSession.Handle_ServerSide;
  entry "SMSG_UPDATE_WORLD_STATE" true STATUS_NEVER PACKET_STATE_NODE PACKET_STATE_PASS ClientSession.Handle_ServerSide;
  entry "CMSG_ITEM_NAME_QUERY" true STATUS_LOGGEDIN PACKET_STATE_NODE PACKET_STATE_PASS ClientSession.Handle_NULL;
  entry "SMSG_ITEM_NAME_QUERY_RESPONSE" true STATUS_NEVER PACKET_STATE_NODE PACKET_STATE_PASS ClientSession.Handle_ServerSide;
  entry "SMSG_PET_ACTION_FEEDBACK" true STATUS_NEVER PACKET_STATE_NODE PACKET_STATE_PASS ClientSession.Handle_ServerSide;
  entry "CMSG_CHAR_RENAME" true STATUS_AUTHED PACKET_STATE_NODE PACKET_STATE_PASS ClientSession.Handle_NULL;
  entry "SMSG_CHAR_RENAME" true STATUS_NEVER PACKET_STATE_NODE PACKET_STATE_PASS ClientSession.Handle_ServerSide;
  entry "CMSG_MOVE_SPLINE_DONE" true STATUS_LOGGEDIN PACKET_STATE_NODE PACKET_STATE_PASS ClientSession.Handle_NULL;
  entry "CMSG_MOVE_FALL_RESET" true STATUS_LOGGEDIN PACKET_STATE_NODE PACKET_STATE_PASS ClientSession.Handle_NULL;
  entry "SMSG_INSTANCE_SAVE_CREATED" true STATUS_NEVER PACKET_STATE_NODE PACKET_STATE_PASS ClientSession.Handle_ServerSide;
  entry "SMSG_RAID_INSTANCE_INFO" true STATUS_NEVER PACKET_STATE_NODE PACKET_STATE_PASS ClientSession.Handle_ServerSide;
  entry "CMSG_REQUEST_RAID_INFO" true STATUS_LOGGEDIN PACKET_STATE_NODE PACKET_STATE_PASS ClientSession.Handle_NULL;
  entry "CMSG_MOVE_TIME_SKIPPED" true STATUS_LOGGEDIN PACKET_STATE_NODE PACKET_STATE_PASS ClientSession.Handle_NULL;
  entry "CMSG_MOVE_FEATHER_FALL_ACK" true STATUS_LOGGEDIN PACKET_STATE_NODE PACKET_STATE_PASS ClientSession.Handle_NULL;
  entry "CMSG_MOVE_WATER_WALK_ACK" true STATUS_LOGGEDIN PACKET_STATE_NODE PACKET_STATE_PASS ClientSession.Handle_NULL;
  entry "CMSG_MOVE_NOT_ACTIVE_MOVER" true STATUS_LOGGEDIN PACKET_STATE_NODE PACKET_STATE_PASS ClientSession.Handle_NULL;
  entry "SMSG_PLAY_SOUND" true STATUS_NEVER PACKET_STATE_NODE PACKET_STATE_PASS ClientSession.Handle_ServerSide;
  entry "CMSG_BATTLEFIELD_STATUS" true STATUS_LOGGEDIN PACKET_STATE_NODE PACKET_STATE_PASS ClientSession.Handle_NULL;
  entry "SMSG_BATTLEFIELD_STATUS" true STATUS_NEVER PACKET_STATE_NODE PACKET_STATE_PASS ClientSession.Handle_ServerSide;
  entry "CMSG_BATTLEFIELD_PORT" true STATUS_LOGGEDIN PACKET_STATE_NODE PACKET_STATE_PASS ClientSession.Handle_NULL;
  entry "MSG_INSPECT_HONOR_STATS" true STATUS_LOGGEDIN PACKET_STATE_NODE PACKET_STATE_PASS ClientSession.Handle_NULL;
  entry "CMSG_BATTLEMASTER_HELLO" true STATUS_LOGGEDIN PACKET_STATE_NODE PACKET_STATE_PASS ClientSession.Handle_NULL;
  entry "CMSG_MOVE_START_SWIM_CHEAT" true STATUS_NEVER PACKET_STATE_NODE PACKET_STATE_PASS ClientSession.Handle_NULL;
  entry "CMSG_MOVE_STOP_SWIM_CHEAT" true STATUS_NEVER PACKET_STATE_NODE PACKET_STATE_PASS ClientSession.Handle_NULL;
  entry "SMSG_FORCE_WALK_SPEED_CHANGE" true STATUS_NEVER PACKET_STATE_NODE PACKET_STATE_PASS ClientSession.Handle_ServerSide;
  entry "CMSG_FORCE_WALK_SPEED_CHANGE_ACK" true STATUS_LOGGEDIN PACKET_STATE_NODE PACKET_STATE_PASS ClientSession.Handle_NULL;
  entry "SMSG_FORCE_SWIM_BACK_SPEED_CHANGE" true STATUS_NEVER PACKET_STATE_NODE PACKET_STATE_PASS ClientSession.Handle_ServerSide;
  entry "CMSG_FORCE_SWIM_BACK_SPEED_CHANGE_ACK" true STATUS_LOGGEDIN PACKET_STATE_NODE PACKET_STATE_PASS ClientSession.Handle_NULL;
  entry "SMSG_FORCE_TURN_RATE_CHANGE" true STATUS_NEVER PACKET_STATE_NODE PACKET_STATE_PASS ClientSession.Handle_ServerSide
].

Definition table_2DF : list OpcodeHandler := [
  entry "CMSG_FORCE_TURN_RATE_CHANGE_ACK" true STATUS_LOGGEDIN PACKET_STATE_NODE PACKET_STATE_PASS ClientSession.Handle_NULL;
  entry "MSG_PVP_LOG_DATA" true STATUS_LOGGEDIN PACKET_STATE_NODE PACKET_STATE_PASS ClientSession.Handle_NULL;
  entry "CMSG_LEAVE_BATTLEFIELD" true STATUS_LOGGEDIN PACKET_STATE_NODE PACKET_STATE_PASS ClientSession.Handle_NULL;
  entry "CMSG_AREA_SPIRIT_HEALER_QUERY" true STATUS_LOGGEDIN PACKET_STATE_NODE PACKET_STATE_PASS ClientSession.Handle_NULL;
  entry "CMSG_AREA_SPIRIT_HEALER_QUEUE" true STATUS_LOGGEDIN PACKET_STATE_NODE PACKET_STATE_PASS ClientSession.Handle_NULL;
  entry "SMSG_AREA_SPIRIT_HEALER_TIME" true STATUS_NEVER PACKET_STATE_NODE PACKET_STATE_PASS ClientSession.Handle_ServerSide;
  entry "CMSG_GM_UNTEACH" true STATUS_NEVER PACKET_STATE_NODE PACKET_STATE_PASS ClientSession.Handle_NULL;
  entry "SMSG_WARDEN_DATA" true STATUS_NEVER PACKET_STATE_NULL PACKET_STATE_NULL ClientSession.Handle_ServerSide;
  entry "CMSG_WARDEN_DATA" false STATUS_AUTHED PACKET_STATE_LOGON PACKET_STATE_NULL ClientSession.HandleWardenDataOpcode;
  entry "SMSG_GROUP_JOINED_BATTLEGROUND" true STATUS_NEVER PACKET_STATE_NODE PACKET_STATE_PASS ClientSession.Handle_ServerSide;
  entry "MSG_BATTLEGROUND_PLAYER_POSITIONS" true STATUS_LOGGEDIN PACKET_STATE_NODE PACKET_STATE_PASS ClientSession.Handle_NULL;
  entry "CMSG_PET_STOP_ATTACK" true STATUS_LOGGEDIN PACKET_STATE_NODE PACKET_STATE_PASS ClientSession.Handle_NULL;
  entry "SMSG_BINDER_CONFIRM" true STATUS_NEVER PACKET_STATE_NODE PACKET_STATE_PASS ClientSession.Handle_ServerSide;
  entry "SMSG_BATTLEGROUND_PLAYER_JOINED" true STATUS_NEVER PACKET_STATE_NODE PACKET_STATE_PASS ClientSession.Handle_ServerSide;
  entry "SMSG_BATTLEGROUND_PLAYER_LEFT" true STATUS_NEVER PACKET_STATE_NODE PACKET_STATE_PASS ClientSession.Handle_ServerSide;
  entry "CMSG_BATTLEMASTER_JOIN" true STATUS_LOGGEDIN PACKET_STATE_NODE PACKET_STATE_PASS ClientSession.Handle_NULL;
  entry "SMSG_ADDON_INFO" true STATUS_NEVER PACKET_STATE_NULL PACKET_STATE_NULL ClientSession.Handle_ServerSide;
  entry "CMSG_PET_UNLEARN" true STATUS_NEVER PACKET_STATE_NODE PACKET_STATE_PASS ClientSession.Handle_NULL;
  entry "SMSG_PET_UNLEARN_CONFIRM" true STATUS_NEVER PACKET_STATE_NODE PACKET_STATE_PASS ClientSession.Handle_ServerSide;
  entry "SMSG_PARTY_MEMBER_STATS_FULL" true STATUS_NEVER PACKET_STATE_NODE PACKET_STATE_PASS ClientSession.Handle_ServerSide;
  entry "CMSG_PET_SPELL_AUTOCAST" true STATUS_LOGGEDIN PACKET_STATE_NODE PACKET_STATE_PASS ClientSession.Handle_NULL;
  entry "SMSG_WEATHER" true STATUS_NEVER PACKET_STATE_NODE PACKET_STATE_PASS ClientSession.Handle_ServerSide;
  entry "SMSG_PLAY_TIME_WARNING" true STATUS_NEVER PACKET_STATE_NODE PACKET_STATE_PASS ClientSession.Handle_ServerSide;
  entry "SMSG_MINIGAME_SETUP" true STATUS_NEVER PACKET_STATE_NODE PACKET_STATE_PASS ClientSession.Handle_ServerSide;
  entry "SMSG_MINIGAME_STATE" true STATUS_NEVER PACKET_STATE_NODE PACKET_STATE_PASS ClientSession.Handle_ServerSide;
  entry "CMSG_MINIGAME_MOVE" true STATUS_NEVER PACKET_STATE_NODE PACKET_STATE_PASS ClientSession.Handle_NULL;
  entry "SMSG_MINIGAME_MOVE_FAILED" true STATUS_NEVER PACKET_STATE_NODE PACKET_STATE_PASS ClientSession.Handle_ServerSide;
  entry "SMSG_RAID_INSTANCE_MESSAGE" true STATUS_NEVER PACKET_STATE_NODE PACKET_STATE_PASS ClientSession.Handle_ServerSide;
  entry "SMSG_COMPRESSED_MOVES" true STATUS_NEVER PACKET_STATE_NODE PACKET_STATE_PASS ClientSession.Handle_ServerSide;
  entry "CMSG_GUILD_INFO_TEXT" true STATUS_LOGGEDIN PACKET_STATE_LOGON PACKET_STATE_LOGON ClientSession.HandleGuildChangeInfoTextOpcode;
  entry "SMSG_CHAT_RESTRICTED" true STATUS_NEVER PACKET_STATE_NODE PACKET_STATE_PASS ClientSession.Handle_ServerSide;
  entry "SMSG_SPLINE_SET_RUN_SPEED" true STATUS_NEVER PACKET_STATE_NODE PACKET_STATE_PASS ClientSession.Handle_ServerSide;
  entry "SMSG_SPLINE_SET_RUN_BACK_SPEED" true STATUS_NEVER PACKET_STATE_NODE PACKET_STATE_PASS ClientSession.Handle_ServerSide;
  entry "SMSG_SPLINE_SET_SWIM_SPEED" true STATUS_NEVER PACKET_STATE_NODE PACKET_STATE_PASS ClientSession.Handle_ServerSide;
  entry "SMSG_SPLINE_SET_WALK_SPEED" true STATUS_NEVER PACKET_STATE_NODE PACKET_STATE_PASS ClientSession.Handle_ServerSide;
  entry "SMSG_SPLINE_SET_SWIM_BACK_SPEED" true STATUS_NEVER PACKET_STATE_NODE PACKET_STATE_PASS ClientSession.Handle_ServerSide;
  entry "SMSG_SPLINE_SET_TURN_RATE" true STATUS_NEVER PACKET_STATE_NODE PACKET_STATE_PASS ClientSession.Handle_ServerSide;
  entry "SMSG_SPLINE_MOVE_UNROOT" true STATUS_NEVER PACKET_STATE_NODE PACKET_STATE_PASS ClientSession.Handle_ServerSide;
  entry "SMSG_SPLINE_MOVE_FEATHER_FALL" true STATUS_NEVER PACKET_STATE_NODE PACKET_STATE_PASS ClientSession.Handle_ServerSide;
  entry "SMSG_SPLINE_MOVE_NORMAL_FALL" true STATUS_NEVER PACKET_STATE_NODE PACKET_STATE_PASS ClientSession.Handle_ServerSide;
  entry "SMSG_SPLINE_MOVE_SET_HOVER" true STATUS_NEVER PACKET_STATE_NODE PACKET_STATE_PASS ClientSession.Handle_ServerSide;
  entry "SMSG_SPLINE_MOVE_UNSET_HOVER" true STATUS_NEVER PACKET_STATE_NODE PACKET_STATE_PASS ClientSession.Handle_ServerSide;
  entry "SMSG_SPLINE_MOVE_WATER_WALK" true STATUS_NEVER PACKET_STATE_NODE PACKET_STATE_PASS ClientSession.Handle_ServerSide;
  entry "SMSG_SPLINE_MOVE_LAND_WALK" true STATUS_NEVER PACKET_STATE_NODE PACKET_STATE_PASS ClientSession.Handle_ServerSide;
  entry "SMSG_SPLINE_MOVE_START_SWIM" true STATUS_NEVER PACKET_STATE_NODE PACKET_STATE_PASS ClientSession.Handle_ServerSide;
  entry "SMSG_SPLINE_MOVE_STOP_SWIM" true STATUS_NEVER PACKET_STATE_NODE PACKET_STATE_PASS ClientSession.Handle_ServerSide;
  entry "SMSG_SPLINE_MOVE_SET_RUN_MODE" true STATUS_NEVER PACKET_STATE_NODE PACKET_STATE_PASS ClientSession.Handle_ServerSide;
  entry "SMSG_SPLINE_MOVE_SET_WALK_MODE" true STATUS_NEVER PACKET_STATE_NODE PACKET_STATE_PASS ClientSession.Handle_ServerSide;
  entry "CMSG_GM_NUKE_ACCOUNT" true STATUS_NEVER PACKET_STATE_NODE PACKET_STATE_PASS ClientSession.Handle_NULL;
  entry "MSG_GM_DESTROY_CORPSE" true STATUS_NEVER PACKET_STATE_NODE PACKET_STATE_PASS ClientSession.Handle_NULL;
  entry "CMSG_GM_DESTROY_ONLINE_CORPSE" true STATUS_NEVER PACKET_STATE_NODE PACKET_STATE_PASS ClientSession.Handle_NULL;
  entry "CMSG_ACTIVATETAXIEXPRESS" true STATUS_LOGGEDIN PACKET_STATE_NODE PACKET_STATE_PASS ClientSession.Handle_NULL;
  entry "SMSG_SET_FACTION_ATWAR" true STATUS_NEVER PACKET_STATE_NODE PACKET_STATE_PASS ClientSession.Handle_ServerSide;
  entry "SMSG_GAMETIMEBIAS_SET" true STATUS_NEVER PACKET_STATE_NODE PACKET_STATE_PASS ClientSession.Handle_ServerSide;
  entry "CMSG_DEBUG_ACTIONS_START" true STATUS_NEVER PACKET_STATE_NODE PACKET_STATE_PASS ClientSession.Handle_NULL;
  entry "CMSG_DEBUG_ACTIONS_STOP" true STATUS_NEVER PACKET_STATE_NODE PACKET_STATE_PASS ClientSession.Handle_NULL;
  entry "CMSG_SET_FACTION_INACTIVE" true STATUS_LOGGEDIN PACKET_STATE_NODE PACKET_STATE_PASS ClientSession.Handle_NULL;
  entry "CMSG_SET_WATCHED_FACTION" true STATUS_LOGGEDIN PACKET_STATE_NODE PACKET_STATE_PASS ClientSession.Handle_NULL;
  entry "MSG_MOVE_TIME_SKIPPED" true STATUS_NEVER PACKET_STATE_NODE PACKET_STATE_PASS ClientSession.Handle_NULL;
  entry "SMSG_SPLINE_MOVE_ROOT" true STATUS_NEVER PACKET_STATE_NODE PACKET_STATE_PASS ClientSession.Handle_ServerSide;
  entry "CMSG_SET_EXPLORATION_ALL" true STATUS_NEVER PACKET_STATE_NODE PACKET_STATE_PASS ClientSession.Handle_NULL;
  entry "SMSG_INVALIDATE_PLAYER" true STATUS_NEVER PACKET_STATE_NODE PACKET_STATE_PASS ClientSession.Handle_ServerSide;
  entry "CMSG_RESET_INSTANCES" true STATUS_LOGGEDIN PACKET_STATE_NODE PACKET_STATE_PASS ClientSession.Handle_NULL;
  entry "SMSG_INSTANCE_RESET" true STATUS_NEVER PACKET_STATE_NODE PACKET_STATE_PASS ClientSession.Handle_ServerSide;
  entry "SMSG_INSTANCE_RESET_FAILED" true STATUS_NEVER PACKET_STATE_NODE PACKET_STATE_PASS ClientSession.Handle_ServerSide;
  entry "SMSG_UPDATE_LAST_INSTANCE" true STATUS_NEVER PACKET_STATE_NODE PACKET_STATE_PASS ClientSession.Handle_ServerSide;
  entry "MSG_RAID_TARGET_UPDATE" true STATUS_LOGGEDIN PACKET_STATE_NODE PACKET_STATE_PASS ClientSession.Handle_NULL;
  entry "MSG_RAID_READY_CHECK" true STATUS_LOGGEDIN PACKET_STATE_NODE PACKET_STATE_PASS ClientSession.Handle_NULL;
  entry "CMSG_LUA_USAGE" true STATUS_NEVER PACKET_STATE_NODE PACKET_STATE_PASS ClientSession.Handle_NULL;
  entry "SMSG_PET_ACTION_SOUND" true STATUS_NEVER PACKET_STATE_NODE PACKET_STATE_PASS ClientSession.Handle_ServerSide;
  entry "SMSG_PET_DISMISS_SOUND" true STATUS_NEVER PACKET_STATE_NODE PACKET_STATE_PASS ClientSession.Handle_ServerSide;
  entry "SMSG_GHOSTEE_GONE" true STATUS_NEVER PACKET_STATE_NODE PACKET_STATE_PASS ClientSession.Handle_ServerSide;
  entry "CMSG_GM_UPDATE_TICKET_STATUS" true STATUS_NEVER PACKET_STATE_NODE PACKET_STATE_PASS ClientSession.Handle_NULL;
  entry "SMSG_GM_TICKET_STATUS_UPDATE" true STATUS_NEVER PACKET_STATE_NODE PACKET_STATE_PASS ClientSession.Handle_ServerSide;
  entry "MSG_SET_DUNGEON_DIFFICULTY" true STATUS_LOGGEDIN PACKET_STATE_NODE PACKET_STATE_PASS ClientSession.Handle_NULL;
  entry "CMSG_GMSURVEY_SUBMIT" true STATUS_LOGGEDIN PACKET_STATE_LOGON PACKET_STATE_PASS ClientSession.HandleGMSurveySubmit;
  entry "SMSG_UPDATE_INSTANCE_OWNERSHIP" true STATUS_NEVER PACKET_STATE_NODE PACKET_STATE_PASS ClientSession.Handle_ServerSide;
  entry "CMSG_IGNORE_KNOCKBACK_CHEAT" true STATUS_NEVER PACKET_STATE_NODE PACKET_STATE_PASS ClientSession.Handle_NULL;
  entry "SMSG_CHAT_PLAYER_AMBIGUOUS" true STATUS_NEVER PACKET_STATE_NODE PACKET_STATE_PASS ClientSession.Handle_ServerSide;
  entry "MSG_DELAY_GHOST_TELEPORT" true STATUS_NEVER PACKET_STATE_NODE PACKET_STATE_PASS ClientSession.Handle_NULL;
  entry "SMSG_SPELLINSTAKILLLOG" true STATUS_NEVER PACKET_STATE_NODE PACKET_STATE_PASS ClientSession.Handle_ServerSide;
  entry "SMSG_SPELL_UPDATE_CHAIN_TARGETS" true STATUS_NEVER PACKET_STATE_NODE PACKET_STATE_PASS ClientSession.Handle_ServerSide;
  entry "CMSG_CHAT_FILTERED" true STATUS_NEVER PACKET_STATE_NODE PACKET_STATE_PASS ClientSession.Handle_NULL;
  entry "SMSG_EXPECTED_SPAM_RECORDS" true STATUS_NEVER PACKET_STATE_NODE PACKET_STATE_PASS ClientSession.Handle_ServerSide;
  entry "SMSG_SPELLSTEALLOG" true STATUS_NEVER PACKET_STATE_NODE PACKET_STATE_PASS ClientSession.Handle_ServerSide;
  entry "CMSG_LOTTERY_QUERY_OBSOLETE" true STATUS_NEVER PACKET_STATE_NODE PACKET_STATE_PASS ClientSession.Handle_NULL;
  entry "SMSG_LOTTERY_QUERY_RESULT_OBSOLETE" true STATUS_NEVER PACKET_STATE_NODE PACKET_STATE_PASS ClientSession.Handle_ServerSide;
  entry "CMSG_BUY_LOTTERY_TICKET_OBSOLETE" true STATUS_NEVER PACKET_STATE_NODE PACKET_STATE_PASS ClientSession.Handle_NULL;
  entry "SMSG_LOTTERY_RESULT_OBSOLETE" true STATUS_NEVER PACKET_STATE_NODE PACKET_STATE_PASS ClientSession.Handle_ServerSide;
  entry "SMSG_CHARACTER_PROFILE" true STATUS_NEVER PACKET_STATE_NODE PACKET_STATE_PASS ClientSession.Handle_ServerSide;
  entry "SMSG_CHARACTER_PROFILE_REALM_CONNECTED" true STATUS_NEVER PACKET_STATE_NODE PACKET_STATE_PASS ClientSession.Handle_ServerSide;
  entry "SMSG_DEFENSE_MESSAGE" true STATUS_NEVER PACKET_STATE_NODE PACKET_STATE_PASS ClientSession.Handle_ServerSide;
  entry "SMSG_INSTANCE_DIFFICULTY" true STATUS_NEVER PACKET_STATE_NODE PACKET_STATE_PASS ClientSession.Handle_ServerSide;
  entry "MSG_GM_RESETINSTANCELIMIT" true STATUS_NEVER PACKET_STATE_NODE PACKET_STATE_PASS ClientSession.Handle_NULL;
  entry "SMSG_MOTD" true STATUS_NEVER PACKET_STATE_NODE PACKET_STATE_PASS ClientSession.Handle_ServerSide;
  entry "SMSG_MOVE_SET_FLIGHT" true STATUS_NEVER PACKET_STATE_NODE PACKET_STATE_PASS ClientSession.Handle_ServerSide;
  entry "SMSG_MOVE_UNSET_FLIGHT" true STATUS_NEVER PACKET_STATE_NODE PACKET_STATE_PASS ClientSession.Handle_ServerSide;
  entry "CMSG_MOVE_FLIGHT_ACK" true STATUS_NEVER PACKET_STATE_NODE PACKET_STATE_PASS ClientSession.Handle_NULL;
  entry "MSG_MOVE_START_SWIM_CHEAT" true STATUS_NEVER PACKET_STATE_NODE PACKET_STATE_PASS ClientSession.Handle_NULL;
  entry "MSG_MOVE_STOP_SWIM_CHEAT" true STATUS_NEVER PACKET_STATE_NODE PACKET_STATE_PASS ClientSession.Handle_NULL;
  entry "SMSG_MOVE_SET_CAN_FLY" true STATUS_NEVER PACKET_STATE_NODE PACKET_STATE_PASS ClientSession.Handle_ServerSide;
  entry "SMSG_MOVE_UNSET_CAN_FLY" true STATUS_NEVER PACKET_STATE_NODE PACKET_STATE_PASS ClientSession.Handle_ServerSide;
  entry "CMSG_MOVE_SET_CAN_FLY_ACK" true STATUS_LOGGEDIN PACKET_STATE_NODE PACKET_STATE_PASS ClientSession.Handle_NULL;
  entry "CMSG_MOVE_SET_FLY" true STATUS_LOGGEDIN PACKET_STATE_NODE PACKET_STATE_PASS ClientSession.Handle_NULL;
  entry "CMSG_SOCKET_GEMS" true STATUS_LOGGEDIN PACKET_STATE_NODE PACKET_STATE_PASS ClientSession.Handle_NULL;
  entry "CMSG_ARENA_TEAM_CREATE" true STATUS_NEVER PACKET_STATE_NODE PACKET_STATE_PASS ClientSession.Handle_NULL;
  entry "SMSG_ARENA_TEAM_COMMAND_RESULT" true STATUS_NEVER PACKET_STATE_NODE PACKET_STATE_PASS ClientSession.Handle_ServerSide;
  entry "UMSG_UPDATE_ARENA_TEAM_OBSOLETE" true STATUS_NEVER PACKET_STATE_NODE PACKET_STATE_PASS ClientSession.Handle_NULL;
  entry "CMSG_ARENA_TEAM_QUERY" true STATUS_LOGGEDIN PACKET_STATE_NODE PACKET_STATE_PASS ClientSession.Handle_NULL;
  entry "SMSG_ARENA_TEAM_QUERY_RESPONSE" true STATUS_NEVER PACKET_STATE_NODE PACKET_STATE_PASS ClientSession.Handle_ServerSide;
  entry "CMSG_ARENA_TEAM_ROSTER" true STATUS_LOGGEDIN PACKET_STATE_NODE PACKET_STATE_PASS ClientSession.Handle_NULL;
  entry "SMSG_ARENA_TEAM_ROSTER" true STATUS_NEVER PACKET_STATE_NODE PACKET_STATE_PASS ClientSession.Handle_ServerSide;
  entry "CMSG_ARENA_TEAM_INVITE" true STATUS_LOGGEDIN PACKET_STATE_NODE PACKET_STATE_PASS ClientSession.Handle_NULL;
  entry "SMSG_ARENA_TEAM_INVITE" true STATUS_NEVER PACKET_STATE_NODE PACKET_STATE_PASS ClientSession.Handle_ServerSide;
  entry "CMSG_ARENA_TEAM_ACCEPT" true STATUS_LOGGEDIN PACKET_STATE_NODE PACKET_STATE_PASS ClientSession.Handle_NULL;
  entry "CMSG_ARENA_TEAM_DECLINE" true STATUS_LOGGEDIN PACKET_STATE_NODE PACKET_STATE_PASS ClientSession.Handle_NULL;
  entry "CMSG_ARENA_TEAM_LEAVE" true STATUS_LOGGEDIN PACKET_STATE_NODE PACKET_STATE_PASS ClientSession.Handle_NULL;
  entry "CMSG_ARENA_TEAM_REMOVE" true STATUS_LOGGEDIN PACKET_STATE_NODE PACKET_STATE_PASS ClientSession.Handle_NULL;
  entry "CMSG_ARENA_TEAM_DISBAND" true STATUS_LOGGEDIN PACKET_STATE_NODE PACKET_STATE_PASS ClientSession.Handle_NULL;
  entry "CMSG_ARENA_TEAM_LEADER" true STATUS_LOGGEDIN PACKET_STATE_NODE PACKET_STATE_PASS ClientSession.Handle_NULL;
  entry "SMSG_ARENA_TEAM_EVENT" true STATUS_NEVER PACKET_STATE_NODE PACKET_STATE_PASS ClientSession.Handle_ServerSide;
  entry "CMSG_BATTLEMASTER_JOIN_ARENA" true STATUS_LOGGEDIN PACKET_STATE_NODE PACKET_STATE_PASS ClientSession.Handle_NULL;
  entry "MSG_MOVE_START_ASCEND" true STATUS_LOGGEDIN PACKET_STATE_NODE PACKET_STATE_PASS ClientSession.Handle_NULL;
  entry "MSG_MOVE_STOP_ASCEND" true STATUS_LOGGEDIN PACKET_STATE_NODE PACKET_STATE_PASS ClientSession.Handle_NULL;
  entry "SMSG_ARENA_TEAM_STATS" true STATUS_NEVER PACKET_STATE_NODE PACKET_STATE_PASS ClientSession.Handle_ServerSide;
  entry "CMSG_LFG_JOIN" true STATUS_LOGGEDIN PACKET_STATE_NODE PACKET_STATE_PASS ClientSession.Handle_NULL;
  entry "CMSG_LFG_LEAVE" true STATUS_LOGGEDIN PACKET_STATE_NODE PACKET_STATE_PASS ClientSession.Handle_NULL;
  entry "CMSG_SEARCH_LFG_JOIN" true STATUS_LOGGEDIN PACKET_STATE_NODE PACKET_STATE_PASS ClientSession.Handle_NULL;
  entry "CMSG_SEARCH_LFG_LEAVE" true STATUS_LOGGEDIN PACKET_STATE_NODE PACKET_STATE_PASS ClientSession.Handle_NULL;
  entry "SMSG_UPDATE_LFG_LIST" true STATUS_NEVER PACKET_STATE_NODE PACKET_STATE_PASS ClientSession.Handle_ServerSide;
  entry "SMSG_LFG_PROPOSAL_UPDATE" true STATUS_NEVER PACKET_STATE_NODE PACKET_STATE_PASS ClientSession.Handle_ServerSide;
  entry "CMSG_LFG_PROPOSAL_RESULT" true STATUS_LOGGEDIN PACKET_STATE_NODE PACKET_STATE_PASS ClientSession.Handle_NULL;
  entry "SMSG_LFG_ROLE_CHECK_UPDATE" true STATUS_NEVER PACKET_STATE_NODE PACKET_STATE_PASS ClientSession.Handle_ServerSide;
  entry "SMSG_LFG_JOIN_RESULT" true STATUS_NEVER PACKET_STATE_NODE PACKET_STATE_PASS ClientSession.Handle_ServerSide;
  entry "SMSG_LFG_QUEUE_STATUS" true STATUS_NEVER PACKET_STATE_NODE PACKET_STATE_PASS ClientSession.Handle_ServerSide;
  entry "CMSG_SET_LFG_COMMENT" true STATUS_LOGGEDIN PACKET_STATE_NODE PACKET_STATE_PASS ClientSession.Handle_NULL;
  entry "SMSG_LFG_UPDATE_PLAYER" true STATUS_NEVER PACKET_STATE_NODE PACKET_STATE_PASS ClientSession.Handle_ServerSide;
  entry "SMSG_LFG_UPDATE_PARTY" true STATUS_NEVER PACKET_STATE_NODE PACKET_STATE_PASS ClientSession.Handle_ServerSide;
  entry "SMSG_LFG_UPDATE_SEARCH" true STATUS_NEVER PACKET_STATE_NODE PACKET_STATE_PASS ClientSession.Handle_ServerSide;
  entry "CMSG_LFG_SET_ROLES" true STATUS_LOGGEDIN PACKET_STATE_NODE PACKET_STATE_PASS ClientSession.Handle_NULL;
  entry "CMSG_LFG_SET_NEEDS" true STATUS_NEVER PACKET_STATE_NODE PACKET_STATE_PASS ClientSession.Handle_NULL;
  entry "CMSG_LFG_SET_BOOT_VOTE" true STATUS_LOGGEDIN PACKET_STATE_NODE PACKET_STATE_PASS ClientSession.Handle_NULL;
  entry "SMSG_LFG_BOOT_PROPOSAL_UPDATE" true STATUS_NEVER PACKET_STATE_NODE PACKET_STATE_PASS ClientSession.Handle_ServerSide;
  entry "CMSG_LFD_PLAYER_LOCK_INFO_REQUEST" true STATUS_LOGGEDIN PACKET_STATE_NODE PACKET_STATE_PASS ClientSession.Handle_NULL;
  entry "SMSG_LFG_PLAYER_INFO" true STATUS_NEVER PACKET_STATE_NODE PACKET_STATE_PASS ClientSession.Handle_ServerSide;
  entry "CMSG_LFG_TELEPORT" true STATUS_LOGGEDIN PACKET_STATE_NODE PACKET_STATE_PASS ClientSession.Handle_NULL;
  entry "CMSG_LFD_PARTY_LOCK_INFO_REQUEST" true STATUS_LOGGEDIN PACKET_STATE_NODE PACKET_STATE_PASS ClientSession.Handle_NULL
].

Definition table_372 : list OpcodeHandler := [
  entry "SMSG_LFG_PARTY_INFO" true STATUS_NEVER PACKET_STATE_NODE PACKET_STATE_PASS ClientSession.Handle_ServerSide;
  entry "SMSG_TITLE_EARNED" true STATUS_NEVER PACKET_STATE_NODE PACKET_STATE_PASS ClientSession.Handle_ServerSide;
  entry "CMSG_SET_TITLE" true STATUS_LOGGEDIN PACKET_STATE_NODE PACKET_STATE_PASS ClientSession.Handle_NULL;
  entry "CMSG_CANCEL_MOUNT_AURA" true STATUS_LOGGEDIN PACKET_STATE_NODE PACKET_STATE_PASS ClientSession.Handle_NULL;
  entry "SMSG_ARENA_ERROR" true STATUS_NEVER PACKET_STATE_NODE PACKET_STATE_PASS ClientSession.Handle_ServerSide;
  entry "MSG_INSPECT_ARENA_TEAMS" true STATUS_LOGGEDIN PACKET_STATE_NODE PACKET_STATE_PASS ClientSession.Handle_NULL;
  entry "SMSG_DEATH_RELEASE_LOC" true STATUS_NEVER PACKET_STATE_NODE PACKET_STATE_PASS ClientSession.Handle_ServerSide;
  entry "CMSG_CANCEL_TEMP_ENCHANTMENT" true STATUS_LOGGEDIN PACKET_STATE_NODE PACKET_STATE_PASS ClientSession.Handle_NULL;
  entry "SMSG_FORCED_DEATH_UPDATE" true STATUS_NEVER PACKET_STATE_NODE PACKET_STATE_PASS ClientSession.Handle_ServerSide;
  entry "CMSG_CHEAT_SET_HONOR_CURRENCY" true STATUS_NEVER PACKET_STATE_NODE PACKET_STATE_PASS ClientSession.Handle_NULL;
  entry "CMSG_CHEAT_SET_ARENA_CURRENCY" true STATUS_NEVER PACKET_STATE_NODE PACKET_STATE_PASS ClientSession.Handle_NULL;
  entry "MSG_MOVE_SET_FLIGHT_SPEED_CHEAT" true STATUS_NEVER PACKET_STATE_NODE PACKET_STATE_PASS ClientSession.Handle_NULL;
  entry "MSG_MOVE_SET_FLIGHT_SPEED" true STATUS_NEVER PACKET_STATE_NODE PACKET_STATE_PASS ClientSession.Handle_NULL;
  entry "MSG_MOVE_SET_FLIGHT_BACK_SPEED_CHEAT" true STATUS_NEVER PACKET_STATE_NODE PACKET_STATE_PASS ClientSession.Handle_NULL;
  entry "MSG_MOVE_SET_FLIGHT_BACK_SPEED" true STATUS_NEVER PACKET_STATE_NODE PACKET_STATE_PASS ClientSession.Handle_NULL;
  entry "SMSG_FORCE_FLIGHT_SPEED_CHANGE" true STATUS_NEVER PACKET_STATE_NODE PACKET_STATE_PASS ClientSession.Handle_ServerSide;
  entry "CMSG_FORCE_FLIGHT_SPEED_CHANGE_ACK" true STATUS_LOGGEDIN PACKET_STATE_NODE PACKET_STATE_PASS ClientSession.Handle_NULL;
  entry "SMSG_FORCE_FLIGHT_BACK_SPEED_CHANGE" true STATUS_NEVER PACKET_STATE_NODE PACKET_STATE_PASS ClientSession.Handle_ServerSide;
  entry "CMSG_FORCE_FLIGHT_BACK_SPEED_CHANGE_ACK" true STATUS_LOGGEDIN PACKET_STATE_NODE PACKET_STATE_PASS ClientSession.Handle_NULL;
  entry "SMSG_SPLINE_SET_FLIGHT_SPEED" true STATUS_NEVER PACKET_STATE_NODE PACKET_STATE_PASS ClientSession.Handle_ServerSide;
  entry "SMSG_SPLINE_SET_FLIGHT_BACK_SPEED" true STATUS_NEVER PACKET_STATE_NODE PACKET_STATE_PASS ClientSession.Handle_ServerSide;
  entry "CMSG_MAELSTROM_INVALIDATE_CACHE" true STATUS_NEVER PACKET_STATE_NODE PACKET_STATE_PASS ClientSession.Handle_NULL;
  entry "SMSG_FLIGHT_SPLINE_SYNC" true STATUS_NEVER PACKET_STATE_NODE PACKET_STATE_PASS ClientSession.Handle_ServerSide;
  entry "CMSG_SET_TAXI_BENCHMARK_MODE" true STATUS_AUTHED PACKET_STATE_NULL PACKET_STATE_PASS ClientSession.Handle_NULL;
  entry "SMSG_JOINED_BATTLEGROUND_QUEUE" true STATUS_NEVER PACKET_STATE_NODE PACKET_STATE_PASS ClientSession.Handle_ServerSide;
  entry "SMSG_REALM_SPLIT" true STATUS_NEVER PACKET_STATE_NODE PACKET_STATE_PASS ClientSession.Handle_ServerSide;
  entry "CMSG_REALM_SPLIT" true STATUS_AUTHED PACKET_STATE_NODE PACKET_STATE_PASS ClientSession.Handle_NULL;
  entry "CMSG_MOVE_CHNG_TRANSPORT" true STATUS_LOGGEDIN PACKET_STATE_NODE PACKET_STATE_PASS ClientSession.Handle_NULL;
  entry "MSG_PARTY_ASSIGNMENT" true STATUS_LOGGEDIN PACKET_STATE_NODE PACKET_STATE_PASS ClientSession.Handle_NULL;
  entry "SMSG_OFFER_PETITION_ERROR" true STATUS_NEVER PACKET_STATE_NODE PACKET_STATE_PASS ClientSession.Handle_ServerSide;
  entry "SMSG_TIME_SYNC_REQ" true STATUS_NEVER PACKET_STATE_NODE PACKET_STATE_PASS ClientSession.Handle_ServerSide;
  entry "CMSG_TIME_SYNC_RESP" true STATUS_LOGGEDIN PACKET_STATE_NODE PACKET_STATE_PASS ClientSession.Handle_NULL;
  entry "CMSG_SEND_LOCAL_EVENT" true STATUS_NEVER PACKET_STATE_NODE PACKET_STATE_PASS ClientSession.Handle_NULL;
  entry "CMSG_SEND_GENERAL_TRIGGER" true STATUS_NEVER PACKET_STATE_NODE PACKET_STATE_PASS ClientSession.Handle_NULL;
  entry "CMSG_SEND_COMBAT_TRIGGER" true STATUS_NEVER PACKET_STATE_NODE PACKET_STATE_PASS ClientSession.Handle_NULL;
  entry "CMSG_MAELSTROM_GM_SENT_MAIL" true STATUS_NEVER PACKET_STATE_NODE PACKET_STATE_PASS ClientSession.Handle_NULL;
  entry "SMSG_RESET_FAILED_NOTIFY" true STATUS_NEVER PACKET_STATE_NODE PACKET_STATE_PASS ClientSession.Handle_ServerSide;
  entry "SMSG_REAL_GROUP_UPDATE" true STATUS_NEVER PACKET_STATE_NODE PACKET_STATE_PASS ClientSession.Handle_ServerSide;
  entry "SMSG_LFG_DISABLED" true STATUS_NEVER PACKET_STATE_NODE PACKET_STATE_PASS ClientSession.Handle_ServerSide;
  entry "CMSG_ACTIVE_PVP_CHEAT" true STATUS_NEVER PACKET_STATE_NODE PACKET_STATE_PASS ClientSession.Handle_NULL;
  entry "CMSG_CHEAT_DUMP_ITEMS_DEBUG_ONLY" true STATUS_NEVER PACKET_STATE_NODE PACKET_STATE_PASS ClientSession.Handle_NULL;
  entry "SMSG_CHEAT_DUMP_ITEMS_DEBUG_ONLY_RESPONSE" true STATUS_NEVER PACKET_STATE_NODE PACKET_STATE_PASS ClientSession.Handle_ServerSide;
  entry "SMSG_CHEAT_DUMP_ITEMS_DEBUG_ONLY_RESPONSE_WRITE_FILE" true STATUS_NEVER PACKET_STATE_NODE PACKET_STATE_PASS ClientSession.Handle_ServerSide;
  entry "SMSG_UPDATE_COMBO_POINTS" true STATUS_NEVER PACKET_STATE_NODE PACKET_STATE_PASS ClientSession.Handle_ServerSide;
  entry "SMSG_VOICE_SESSION_ROSTER_UPDATE" true STATUS_NEVER PACKET_STATE_NODE PACKET_STATE_PASS ClientSession.Handle_ServerSide;
  entry "SMSG_VOICE_SESSION_LEAVE" true STATUS_NEVER PACKET_STATE_NODE PACKET_STATE_PASS ClientSession.Handle_ServerSide;
  entry "SMSG_VOICE_SESSION_ADJUST_PRIORITY" true STATUS_NEVER PACKET_STATE_NODE PACKET_STATE_PASS ClientSession.Handle_ServerSide;
  entry "CMSG_VOICE_SET_TALKER_MUTED_REQUEST" true STATUS_LOGGEDIN PACKET_STATE_NULL PACKET_STATE_NULL ClientSession.Handle_NULL;
  entry "SMSG_VOICE_SET_TALKER_MUTED" true STATUS_NEVER PACKET_STATE_NULL PACKET_STATE_NULL ClientSession.Handle_ServerSide;
  entry "SMSG_INIT_EXTRA_AURA_INFO_OBSOLETE" true STATUS_NEVER PACKET_STATE_NODE PACKET_STATE_PASS ClientSession.Handle_ServerSide;
  entry "SMSG_SET_EXTRA_AURA_INFO_OBSOLETE" true STATUS_NEVER PACKET_STATE_NODE PACKET_STATE_PASS ClientSession.Handle_ServerSide;
  entry "SMSG_SET_EXTRA_AURA_INFO_NEED_UPDATE_OBSOLETE" true STATUS_NEVER PACKET_STATE_NODE PACKET_STATE_PASS ClientSession.Handle_ServerSide;
  entry "SMSG_CLEAR_EXTRA_AURA_INFO_OBSOLETE" true STATUS_NEVER PACKET_STATE_NODE PACKET_STATE_PASS ClientSession.Handle_ServerSide;
  entry "MSG_MOVE_START_DESCEND" true STATUS_LOGGEDIN PACKET_STATE_NODE PACKET_STATE_PASS ClientSession.Handle_NULL;
  entry "CMSG_IGNORE_REQUIREMENTS_CHEAT" true STATUS_NEVER PACKET_STATE_NODE PACKET_STATE_PASS ClientSession.Handle_NULL;
  entry "SMSG_IGNORE_REQUIREMENTS_CHEAT" true STATUS_NEVER PACKET_STATE_NODE PACKET_STATE_PASS ClientSession.Handle_ServerSide;
  entry "SMSG_SPELL_CHANCE_PROC_LOG" true STATUS_NEVER PACKET_STATE_NODE PACKET_STATE_PASS ClientSession.Handle_ServerSide;
  entry "CMSG_MOVE_SET_RUN_SPEED" true STATUS_NEVER PACKET_STATE_NODE PACKET_STATE_PASS ClientSession.Handle_NULL;
  entry "SMSG_DISMOUNT" true STATUS_NEVER PACKET_STATE_NODE PACKET_STATE_PASS ClientSession.Handle_ServerSide;
  entry "MSG_MOVE_UPDATE_CAN_FLY" true STATUS_NEVER PACKET_STATE_NODE PACKET_STATE_PASS ClientSession.Handle_NULL;
  entry "MSG_RAID_READY_CHECK_CONFIRM" true STATUS_NEVER PACKET_STATE_NODE PACKET_STATE_PASS ClientSession.Handle_NULL;
  entry "CMSG_VOICE_SESSION_ENABLE" true STATUS_AUTHED PACKET_STATE_NODE PACKET_STATE_PASS ClientSession.Handle_NULL;
  entry "SMSG_VOICE_SESSION_ENABLE" true STATUS_NEVER PACKET_STATE_NODE PACKET_STATE_PASS ClientSession.Handle_NULL;
  entry "SMSG_VOICE_PARENTAL_CONTROLS" true STATUS_NEVER PACKET_STATE_NODE PACKET_STATE_PASS ClientSession.Handle_ServerSide;
  entry "CMSG_GM_WHISPER" true STATUS_NEVER PACKET_STATE_NODE PACKET_STATE_PASS ClientSession.Handle_NULL;
  entry "SMSG_GM_MESSAGECHAT" true STATUS_NEVER PACKET_STATE_NODE PACKET_STATE_PASS ClientSession.Handle_ServerSide;
  entry "MSG_GM_GEARRATING" true STATUS_NEVER PACKET_STATE_NODE PACKET_STATE_PASS ClientSession.Handle_NULL;
  entry "CMSG_COMMENTATOR_ENABLE" true STATUS_NEVER PACKET_STATE_NODE PACKET_STATE_PASS ClientSession.Handle_NULL;
  entry "SMSG_COMMENTATOR_STATE_CHANGED" true STATUS_NEVER PACKET_STATE_NODE PACKET_STATE_PASS ClientSession.Handle_ServerSide;
  entry "CMSG_COMMENTATOR_GET_MAP_INFO" true STATUS_NEVER PACKET_STATE_NODE PACKET_STATE_PASS ClientSession.Handle_NULL;
  entry "SMSG_COMMENTATOR_MAP_INFO" true STATUS_NEVER PACKET_STATE_NODE PACKET_STATE_PASS ClientSession.Handle_ServerSide;
  entry "CMSG_COMMENTATOR_GET_PLAYER_INFO" true STATUS_NEVER PACKET_STATE_NODE PACKET_STATE_PASS ClientSession.Handle_NULL;
  entry "SMSG_COMMENTATOR_GET_PLAYER_INFO" true STATUS_NEVER PACKET_STATE_NODE PACKET_STATE_PASS ClientSession.Handle_ServerSide;
  entry "SMSG_COMMENTATOR_PLAYER_INFO" true STATUS_NEVER PACKET_STATE_NODE PACKET_STATE_PASS ClientSession.Handle_ServerSide;
  entry "CMSG_COMMENTATOR_ENTER_INSTANCE" true STATUS_NEVER PACKET_STATE_NODE PACKET_STATE_PASS ClientSession.Handle_NULL;
  entry "CMSG_COMMENTATOR_EXIT_INSTANCE" true STATUS_NEVER PACKET_STATE_NODE PACKET_STATE_PASS ClientSession.Handle_NULL;
  entry "CMSG_COMMENTATOR_INSTANCE_COMMAND" true STATUS_NEVER PACKET_STATE_NODE PACKET_STATE_PASS ClientSession.Handle_NULL;
  entry "SMSG_CLEAR_TARGET" true STATUS_NEVER PACKET_STATE_NODE PACKET_STATE_PASS ClientSession.Handle_ServerSide;
  entry "CMSG_BOT_DETECTED" true STATUS_NEVER PACKET_STATE_NODE PACKET_STATE_PASS ClientSession.Handle_NULL;
  entry "SMSG_CROSSED_INEBRIATION_THRESHOLD" true STATUS_NEVER PACKET_STATE_NODE PACKET_STATE_PASS ClientSession.Handle_ServerSide;
  entry "CMSG_CHEAT_PLAYER_LOGIN" true STATUS_NEVER PACKET_STATE_NODE PACKET_STATE_PASS ClientSession.Handle_NULL;
  entry "CMSG_CHEAT_PLAYER_LOOKUP" true STATUS_NEVER PACKET_STATE_NODE PACKET_STATE_PASS ClientSession.Handle_NULL;
  entry "SMSG_CHEAT_PLAYER_LOOKUP" true STATUS_NEVER PACKET_STATE_NODE PACKET_STATE_PASS ClientSession.Handle_ServerSide;
  entry "SMSG_KICK_REASON" true STATUS_NEVER PACKET_STATE_NODE PACKET_STATE_PASS ClientSession.Handle_ServerSide;
  entry "MSG_RAID_READY_CHECK_FINISHED" true STATUS_LOGGEDIN PACKET_STATE_NODE PACKET_STATE_PASS ClientSession.Handle_NULL;
  entry "CMSG_COMPLAIN" true STATUS_LOGGEDIN PACKET_STATE_NODE PACKET_STATE_PASS ClientSession.Handle_NULL;
  entry "SMSG_COMPLAIN_RESULT" true STATUS_NEVER PACKET_STATE_NODE PACKET_STATE_PASS ClientSession.Handle_ServerSide;
  entry "SMSG_FEATURE_SYSTEM_STATUS" true STATUS_NEVER PACKET_STATE_NODE PACKET_STATE_PASS ClientSession.Handle_ServerSide;
  entry "CMSG_GM_SHOW_COMPLAINTS" true STATUS_NEVER PACKET_STATE_NODE PACKET_STATE_PASS ClientSession.Handle_NULL;
  entry "CMSG_GM_UNSQUELCH" true STATUS_NEVER PACKET_STATE_NODE PACKET_STATE_PASS ClientSession.Handle_NULL;
  entry "CMSG_CHANNEL_SILENCE_VOICE" true STATUS_LOGGEDIN PACKET_STATE_NODE PACKET_STATE_PASS ClientSession.Handle_NULL;
  entry "CMSG_CHANNEL_SILENCE_ALL" true STATUS_LOGGEDIN PACKET_STATE_NODE PACKET_STATE_PASS ClientSession.Handle_NULL;
  entry "CMSG_CHANNEL_UNSILENCE_VOICE" true STATUS_LOGGEDIN PACKET_STATE_NODE PACKET_STATE_PASS ClientSession.Handle_NULL;
  entry "CMSG_CHANNEL_UNSILENCE_ALL" true STATUS_LOGGEDIN PACKET_STATE_NODE PACKET_STATE_PASS ClientSession.Handle_NULL;
  entry "CMSG_TARGET_CAST" true STATUS_NEVER PACKET_STATE_NODE PACKET_STATE_PASS ClientSession.Handle_NULL;
  entry "CMSG_TARGET_SCRIPT_CAST" true STATUS_NEVER PACKET_STATE_NODE PACKET_STATE_PASS ClientSession.Handle_NULL;
  entry "CMSG_CHANNEL_DISPLAY_LIST" false STATUS_LOGGEDIN PACKET_STATE_LOGON PACKET_STATE_PASS ClientSession.HandleChannelDisplayListQuery;
  entry "CMSG_SET_ACTIVE_VOICE_CHANNEL" true STATUS_AUTHED PACKET_STATE_NULL PACKET_STATE_NULL ClientSession.Handle_NULL;
  entry "CMSG_GET_CHANNEL_MEMBER_COUNT" false STATUS_LOGGEDIN PACKET_STATE_LOGON PACKET_STATE_NULL ClientSession.HandleGetChannelMemberCount;
  entry "SMSG_CHANNEL_MEMBER_COUNT" true STATUS_NEVER PACKET_STATE_NULL PACKET_STATE_PASS ClientSession.Handle_ServerSide;
  entry "CMSG_CHANNEL_VOICE_ON" true STATUS_LOGGEDIN PACKET_STATE_NULL PACKET_STATE_NULL ClientSession.Handle_NULL;
  entry "CMSG_CHANNEL_VOICE_OFF" true STATUS_LOGGEDIN PACKET_STATE_NULL PACKET_STATE_NULL ClientSession.Handle_NULL;
  entry "CMSG_DEBUG_LIST_TARGETS" true STATUS_NEVER PACKET_STATE_NODE PACKET_STATE_PASS ClientSession.Handle_NULL;
  entry "SMSG_DEBUG_LIST_TARGETS" true STATUS_NEVER PACKET_STATE_NODE PACKET_STATE_PASS ClientSession.Handle_ServerSide;
  entry "SMSG_AVAILABLE_VOICE_CHANNEL" true STATUS_LOGGEDIN PACKET_STATE_NODE PACKET_STATE_PASS ClientSession.Handle_ServerSide;
  entry "CMSG_ADD_VOICE_IGNORE" true STATUS_LOGGEDIN PACKET_STATE_NODE PACKET_STATE_PASS ClientSession.Handle_NULL;
  entry "CMSG_DEL_VOICE_IGNORE" true STATUS_LOGGEDIN PACKET_STATE_NODE PACKET_STATE_PASS ClientSession.Handle_NULL;
  entry "CMSG_PARTY_SILENCE" true STATUS_LOGGEDIN PACKET_STATE_NODE PACKET_STATE_PASS ClientSession.Handle_NULL;
  entry "CMSG_PARTY_UNSILENCE" true STATUS_LOGGEDIN PACKET_STATE_NODE PACKET_STATE_PASS ClientSession.Handle_NULL;
  entry "MSG_NOTIFY_PARTY_SQUELCH" true STATUS_NEVER PACKET_STATE_NODE PACKET_STATE_PASS ClientSession.Handle_NULL;
  entry "SMSG_COMSAT_RECONNECT_TRY" true STATUS_NEVER PACKET_STATE_NODE PACKET_STATE_PASS ClientSession.Handle_ServerSide;
  entry "SMSG_COMSAT_DISCONNECT" true STATUS_NEVER PACKET_STATE_NODE PACKET_STATE_PASS ClientSession.Handle_ServerSide;
  entry "SMSG_COMSAT_CONNECT_FAIL" true STATUS_NEVER PACKET_STATE_NODE PACKET_STATE_PASS ClientSession.Handle_ServerSide;
  entry "SMSG_VOICE_CHAT_STATUS" true STATUS_NEVER PACKET_STATE_NODE PACKET_STATE_PASS ClientSession.Handle_ServerSide;
  entry "CMSG_REPORT_PVP_AFK" true STATUS_LOGGEDIN PACKET_STATE_NODE PACKET_STATE_PASS ClientSession.Handle_NULL;
  entry "SMSG_REPORT_PVP_AFK_RESULT" true STATUS_NEVER PACKET_STATE_NODE PACKET_STATE_PASS ClientSession.Handle_NULL;
  entry "CMSG_GUILD_BANKER_ACTIVATE" true STATUS_LOGGEDIN PACKET_STATE_NODE PACKET_STATE_PASS ClientSession.Handle_NULL;
  entry "CMSG_GUILD_BANK_QUERY_TAB" true STATUS_LOGGEDIN PACKET_STATE_NODE PACKET_STATE_PASS ClientSession.Handle_NULL;
  entry "SMSG_GUILD_BANK_LIST" true STATUS_NEVER PACKET_STATE_NODE PACKET_STATE_PASS ClientSession.Handle_ServerSide;
  entry "CMSG_GUILD_BANK_SWAP_ITEMS" true STATUS_LOGGEDIN PACKET_STATE_NODE PACKET_STATE_PASS ClientSession.Handle_NULL;
  entry "CMSG_GUILD_BANK_BUY_TAB" true STATUS_LOGGEDIN PACKET_STATE_NODE PACKET_STATE_PASS ClientSession.Handle_NULL;
  entry "CMSG_GUILD_BANK_UPDATE_TAB" true STATUS_LOGGEDIN PACKET_STATE_NODE PACKET_STATE_PASS ClientSession.Handle_NULL;
  entry "CMSG_GUILD_BANK_DEPOSIT_MONEY" true STATUS_LOGGEDIN PACKET_STATE_NODE PACKET_STATE_PASS ClientSession.Handle_NULL;
  entry "CMSG_GUILD_BANK_WITHDRAW_MONEY" true STATUS_LOGGEDIN PACKET_STATE_NODE PACKET_STATE_PASS ClientSession.Handle_NULL;
  entry "MSG_GUILD_BANK_LOG_QUERY" true STATUS_LOGGEDIN PACKET_STATE_NODE PACKET_STATE_PASS ClientSession.Handle_NULL;
  entry "CMSG_SET_CHANNEL_WATCH" true STATUS_LOGGEDIN PACKET_STATE_NULL PACKET_STATE_NULL ClientSession.Handle_NULL;
  entry "SMSG_USERLIST_ADD" true STATUS_NEVER PACKET_STATE_NODE PACKET_STATE_PASS ClientSession.Handle_ServerSide;
  entry "SMSG_USERLIST_REMOVE" true STATUS_NEVER PACKET_STATE_NODE PACKET_STATE_PASS ClientSession.Handle_ServerSide;
  entry "SMSG_USERLIST_UPDATE" true STATUS_NEVER PACKET_STATE_NODE PACKET_STATE_PASS ClientSession.Handle_ServerSide;
  entry "CMSG_CLEAR_CHANNEL_WATCH" true STATUS_NEVER PACKET_STATE_NODE PACKET_STATE_PASS ClientSession.Handle_NULL;
  entry "SMSG_INSPECT_TALENT" true STATUS_NEVER PACKET_STATE_NODE PACKET_STATE_PASS ClientSession.Handle_ServerSide;
  entry "SMSG_GOGOGO_OBSOLETE" true STATUS_NEVER PACKET_STATE_NODE PACKET_STATE_PASS ClientSession.Handle_ServerSide;
  entry "SMSG_ECHO_PARTY_SQUELCH" true STATUS_NEVER PACKET_STATE_NODE PACKET_STATE_PASS ClientSession.Handle_ServerSide;
  entry "CMSG_SET_TITLE_SUFFIX" true STATUS_NEVER PACKET_STATE_NODE PACKET_STATE_PASS ClientSession.Handle_NULL;
  entry "CMSG_SPELLCLICK" true STATUS_LOGGEDIN PACKET_STATE_NODE PACKET_STATE_PASS ClientSession.Handle_NULL;
  entry "SMSG_LOOT_LIST" true STATUS_NEVER PACKET_STATE_NODE PACKET_STATE_PASS ClientSession.Handle_ServerSide;
  entry "CMSG_GM_CHARACTER_RESTORE" true STATUS_NEVER PACKET_STATE_NODE PACKET_STATE_PASS ClientSession.Handle_NULL;
  entry "CMSG_GM_CHARACTER_SAVE" true STATUS_NEVER PACKET_STATE_NODE PACKET_STATE_PASS ClientSession.Handle_NULL;
  entry "SMSG_VOICESESSION_FULL" true STATUS_NEVER PACKET_STATE_NODE PACKET_STATE_PASS ClientSession.Handle_ServerSide;
  entry "MSG_GUILD_PERMISSIONS" true STATUS_LOGGEDIN PACKET_STATE_NODE PACKET_STATE_PASS ClientSession.Handle_NULL;
  entry "MSG_GUILD_BANK_MONEY_WITHDRAWN" true STATUS_LOGGEDIN PACKET_STATE_NODE PACKET_STATE_PASS ClientSession.Handle_NULL;
  entry "MSG_GUILD_EVENT_LOG_QUERY" true STATUS_LOGGEDIN PACKET_STATE_LOGON PACKET_STATE_LOGON ClientSession.HandleGuildEventLogQueryOpcode;
  entry "CMSG_MAELSTROM_RENAME_GUILD" true STATUS_NEVER PACKET_STATE_NODE PACKET_STATE_PASS ClientSession.Handle_NULL;
  entry "CMSG_GET_MIRRORIMAGE_DATA" true STATUS_LOGGEDIN PACKET_STATE_NODE PACKET_STATE_PASS ClientSession.Handle_NULL;
  entry "SMSG_MIRRORIMAGE_DATA" true STATUS_NEVER PACKET_STATE_NODE PACKET_STATE_PASS ClientSession.Handle_ServerSide;
  entry "SMSG_FORCE_DISPLAY_UPDATE" true STATUS_NEVER PACKET_STATE_NODE PACKET_STATE_PASS ClientSession.Handle_ServerSide;
  entry "SMSG_SPELL_CHANCE_RESIST_PUSHBACK" true STATUS_NEVER PACKET_STATE_NODE PACKET_STATE_PASS ClientSession.Handle_ServerSide
].

Definition table_405 : list OpcodeHandler := [
  entry "CMSG_IGNORE_DIMINISHING_RETURNS_CHEAT" true STATUS_NEVER PACKET_STATE_NODE PACKET_STATE_PASS ClientSession.Handle_NULL;
  entry "SMSG_IGNORE_DIMINISHING_RETURNS_CHEAT" true STATUS_NEVER PACKET_STATE_NODE PACKET_STATE_PASS ClientSession.Handle_ServerSide;
  entry "CMSG_KEEP_ALIVE" true STATUS_NEVER PACKET_STATE_NODE PACKET_STATE_PASS ClientSession.Handle_NULL;
  entry "SMSG_RAID_READY_CHECK_ERROR" true STATUS_NEVER PACKET_STATE_NODE PACKET_STATE_PASS ClientSession.Handle_ServerSide;
  entry "CMSG_OPT_OUT_OF_LOOT" true STATUS_AUTHED PACKET_STATE_NODE PACKET_STATE_PASS ClientSession.Handle_NULL;
  entry "MSG_QUERY_GUILD_BANK_TEXT" true STATUS_LOGGEDIN PACKET_STATE_NODE PACKET_STATE_PASS ClientSession.Handle_NULL;
  entry "CMSG_SET_GUILD_BANK_TEXT" true STATUS_LOGGEDIN PACKET_STATE_NODE PACKET_STATE_PASS ClientSession.Handle_NULL;
  entry "CMSG_SET_GRANTABLE_LEVELS" true STATUS_NEVER PACKET_STATE_NODE PACKET_STATE_PASS ClientSession.Handle_NULL;
  entry "CMSG_GRANT_LEVEL" true STATUS_NEVER PACKET_STATE_NODE PACKET_STATE_PASS ClientSession.Handle_NULL;
  entry "CMSG_REFER_A_FRIEND" true STATUS_NEVER PACKET_STATE_NODE PACKET_STATE_PASS ClientSession.Handle_NULL;
  entry "MSG_GM_CHANGE_ARENA_RATING" true STATUS_NEVER PACKET_STATE_NODE PACKET_STATE_PASS ClientSession.Handle_NULL;
  entry "CMSG_DECLINE_CHANNEL_INVITE" true STATUS_LOGGEDIN PACKET_STATE_NODE PACKET_STATE_PASS ClientSession.Handle_NULL;
  entry "SMSG_GROUPACTION_THROTTLED" true STATUS_NEVER PACKET_STATE_NODE PACKET_STATE_PASS ClientSession.Handle_ServerSide;
  entry "SMSG_OVERRIDE_LIGHT" true STATUS_NEVER PACKET_STATE_NODE PACKET_STATE_PASS ClientSession.Handle_ServerSide;
  entry "SMSG_TOTEM_CREATED" true STATUS_NEVER PACKET_STATE_NODE PACKET_STATE_PASS ClientSession.Handle_ServerSide;
  entry "CMSG_TOTEM_DESTROYED" true STATUS_LOGGEDIN PACKET_STATE_NODE PACKET_STATE_PASS ClientSession.Handle_NULL;
  entry "CMSG_EXPIRE_RAID_INSTANCE" true STATUS_NEVER PACKET_STATE_NODE PACKET_STATE_PASS ClientSession.Handle_NULL;
  entry "CMSG_NO_SPELL_VARIANCE" true STATUS_NEVER PACKET_STATE_NODE PACKET_STATE_PASS ClientSession.Handle_NULL;
  entry "CMSG_QUESTGIVER_STATUS_MULTIPLE_QUERY" true STATUS_LOGGEDIN PACKET_STATE_NODE PACKET_STATE_PASS ClientSession.Handle_NULL;
  entry "SMSG_QUESTGIVER_STATUS_MULTIPLE" true STATUS_NEVER PACKET_STATE_NODE PACKET_STATE_PASS ClientSession.Handle_ServerSide;
  entry "CMSG_SET_PLAYER_DECLINED_NAMES" true STATUS_AUTHED PACKET_STATE_NODE PACKET_STATE_PASS ClientSession.Handle_NULL;
  entry "SMSG_SET_PLAYER_DECLINED_NAMES_RESULT" true STATUS_NEVER PACKET_STATE_NODE PACKET_STATE_PASS ClientSession.Handle_ServerSide;
  entry "CMSG_QUERY_SERVER_BUCK_DATA" true STATUS_NEVER PACKET_STATE_NODE PACKET_STATE_PASS ClientSession.Handle_NULL;
  entry "CMSG_CLEAR_SERVER_BUCK_DATA" true STATUS_NEVER PACKET_STATE_NODE PACKET_STATE_PASS ClientSession.Handle_NULL;
  entry "SMSG_SERVER_BUCK_DATA" true STATUS_NEVER PACKET_STATE_NODE PACKET_STATE_PASS ClientSession.Handle_ServerSide;
  entry "SMSG_SEND_UNLEARN_SPELLS" true STATUS_NEVER PACKET_STATE_NODE PACKET_STATE_PASS ClientSession.Handle_ServerSide;
  entry "SMSG_PROPOSE_LEVEL_GRANT" true STATUS_NEVER PACKET_STATE_NODE PACKET_STATE_PASS ClientSession.Handle_ServerSide;
  entry "CMSG_ACCEPT_LEVEL_GRANT" true STATUS_NEVER PACKET_STATE_NODE PACKET_STATE_PASS ClientSession.Handle_NULL;
  entry "SMSG_REFER_A_FRIEND_FAILURE" true STATUS_NEVER PACKET_STATE_NODE PACKET_STATE_PASS ClientSession.Handle_ServerSide;
  entry "SMSG_SPLINE_MOVE_SET_FLYING" true STATUS_NEVER PACKET_STATE_NODE PACKET_STATE_PASS ClientSession.Handle_ServerSide;
  entry "SMSG_SPLINE_MOVE_UNSET_FLYING" true STATUS_NEVER PACKET_STATE_NODE PACKET_STATE_PASS ClientSession.Handle_ServerSide;
  entry "SMSG_SUMMON_CANCEL" true STATUS_NEVER PACKET_STATE_NODE PACKET_STATE_PASS ClientSession.Handle_ServerSide;
  entry "CMSG_CHANGE_PERSONAL_ARENA_RATING" true STATUS_NEVER PACKET_STATE_NODE PACKET_STATE_PASS ClientSession.Handle_NULL;
  entry "CMSG_ALTER_APPEARANCE" true STATUS_LOGGEDIN PACKET_STATE_NODE PACKET_STATE_PASS ClientSession.Handle_NULL;
  entry "SMSG_ENABLE_BARBER_SHOP" true STATUS_NEVER PACKET_STATE_NODE PACKET_STATE_PASS ClientSession.Handle_ServerSide;
  entry "SMSG_BARBER_SHOP_RESULT" true STATUS_NEVER PACKET_STATE_NODE PACKET_STATE_PASS ClientSession.Handle_ServerSide;
  entry "CMSG_CALENDAR_GET_CALENDAR" true STATUS_LOGGEDIN PACKET_STATE_NODE PACKET_STATE_PASS ClientSession.Handle_NULL;
  entry "CMSG_CALENDAR_GET_EVENT" true STATUS_LOGGEDIN PACKET_STATE_NODE PACKET_STATE_PASS ClientSession.Handle_NULL;
  entry "CMSG_CALENDAR_GUILD_FILTER" true STATUS_LOGGEDIN PACKET_STATE_NODE PACKET_STATE_PASS ClientSession.Handle_NULL;
  entry "CMSG_CALENDAR_ARENA_TEAM" true STATUS_LOGGEDIN PACKET_STATE_NODE PACKET_STATE_PASS ClientSession.Handle_NULL;
  entry "CMSG_CALENDAR_ADD_EVENT" true STATUS_LOGGEDIN PACKET_STATE_NODE PACKET_STATE_PASS ClientSession.Handle_NULL;
  entry "CMSG_CALENDAR_UPDATE_EVENT" true STATUS_LOGGEDIN PACKET_STATE_NODE PACKET_STATE_PASS ClientSession.Handle_NULL;
  entry "CMSG_CALENDAR_REMOVE_EVENT" true STATUS_LOGGEDIN PACKET_STATE_NODE PACKET_STATE_PASS ClientSession.Handle_NULL;
  entry "CMSG_CALENDAR_COPY_EVENT" true STATUS_LOGGEDIN PACKET_STATE_NODE PACKET_STATE_PASS ClientSession.Handle_NULL;
  entry "CMSG_CALENDAR_EVENT_INVITE" true STATUS_LOGGEDIN PACKET_STATE_NODE PACKET_STATE_PASS ClientSession.Handle_NULL;
  entry "CMSG_CALENDAR_EVENT_RSVP" true STATUS_LOGGEDIN PACKET_STATE_NODE PACKET_STATE_PASS ClientSession.Handle_NULL;
  entry "CMSG_CALENDAR_EVENT_REMOVE_INVITE" true STATUS_LOGGEDIN PACKET_STATE_NODE PACKET_STATE_PASS ClientSession.Handle_NULL;
  entry "CMSG_CALENDAR_EVENT_STATUS" true STATUS_LOGGEDIN PACKET_STATE_NODE PACKET_STATE_PASS ClientSession.Handle_NULL;
  entry "CMSG_CALENDAR_EVENT_MODERATOR_STATUS" true STATUS_LOGGEDIN PACKET_STATE_NODE PACKET_STATE_PASS ClientSession.Handle_NULL;
  entry "SMSG_CALENDAR_SEND_CALENDAR" true STATUS_NEVER PACKET_STATE_NODE PACKET_STATE_PASS ClientSession.Handle_ServerSide;
  entry "SMSG_CALENDAR_SEND_EVENT" true STATUS_NEVER PACKET_STATE_NODE PACKET_STATE_PASS ClientSession.Handle_ServerSide;
  entry "SMSG_CALENDAR_FILTER_GUILD" true STATUS_NEVER PACKET_STATE_NODE PACKET_STATE_PASS ClientSession.Handle_ServerSide;
  entry "SMSG_CALENDAR_ARENA_TEAM" true STATUS_NEVER PACKET_STATE_NODE PACKET_STATE_PASS ClientSession.Handle_ServerSide;
  entry "SMSG_CALENDAR_EVENT_INVITE" true STATUS_NEVER PACKET_STATE_NODE PACKET_STATE_PASS ClientSession.Handle_ServerSide;
  entry "SMSG_CALENDAR_EVENT_INVITE_REMOVED" true STATUS_NEVER PACKET_STATE_NODE PACKET_STATE_PASS ClientSession.Handle_ServerSide;
  entry "SMSG_CALENDAR_EVENT_STATUS" true STATUS_NEVER PACKET_STATE_NODE PACKET_STATE_PASS ClientSession.Handle_ServerSide;
  entry "SMSG_CALENDAR_COMMAND_RESULT" true STATUS_NEVER PACKET_STATE_NODE PACKET_STATE_PASS ClientSession.Handle_ServerSide;
  entry "SMSG_CALENDAR_RAID_LOCKOUT_ADDED" true STATUS_NEVER PACKET_STATE_NODE PACKET_STATE_PASS ClientSession.Handle_ServerSide;
  entry "SMSG_CALENDAR_RAID_LOCKOUT_REMOVED" true STATUS_NEVER PACKET_STATE_NODE PACKET_STATE_PASS ClientSession.Handle_ServerSide;
  entry "SMSG_CALENDAR_EVENT_INVITE_ALERT" true STATUS_NEVER PACKET_STATE_NODE PACKET_STATE_PASS ClientSession.Handle_ServerSide;
  entry "SMSG_CALENDAR_EVENT_INVITE_REMOVED_ALERT" true STATUS_NEVER PACKET_STATE_NODE PACKET_STATE_PASS ClientSession.Handle_ServerSide;
  entry "SMSG_CALENDAR_EVENT_INVITE_STATUS_ALERT" true STATUS_NEVER PACKET_STATE_NODE PACKET_STATE_PASS ClientSession.Handle_ServerSide;
  entry "SMSG_CALENDAR_EVENT_REMOVED_ALERT" true STATUS_NEVER PACKET_STATE_NODE PACKET_STATE_PASS ClientSession.Handle_ServerSide;
  entry "SMSG_CALENDAR_EVENT_UPDATED_ALERT" true STATUS_NEVER PACKET_STATE_NODE PACKET_STATE_PASS ClientSession.Handle_ServerSide;
  entry "SMSG_CALENDAR_EVENT_MODERATOR_STATUS_ALERT" true STATUS_NEVER PACKET_STATE_NODE PACKET_STATE_PASS ClientSession.Handle_ServerSide;
  entry "CMSG_CALENDAR_COMPLAIN" true STATUS_LOGGEDIN PACKET_STATE_NODE PACKET_STATE_PASS ClientSession.Handle_NULL;
  entry "CMSG_CALENDAR_GET_NUM_PENDING" true STATUS_LOGGEDIN PACKET_STATE_NODE PACKET_STATE_PASS ClientSession.Handle_NULL;
  entry "SMSG_CALENDAR_SEND_NUM_PENDING" true STATUS_NEVER PACKET_STATE_NODE PACKET_STATE_PASS ClientSession.Handle_ServerSide;
  entry "CMSG_SAVE_DANCE" true STATUS_NEVER PACKET_STATE_NODE PACKET_STATE_PASS ClientSession.Handle_NULL;
  entry "SMSG_NOTIFY_DANCE" true STATUS_NEVER PACKET_STATE_NODE PACKET_STATE_PASS ClientSession.Handle_ServerSide;
  entry "CMSG_PLAY_DANCE" true STATUS_NEVER PACKET_STATE_NODE PACKET_STATE_PASS ClientSession.Handle_NULL;
  entry "SMSG_PLAY_DANCE" true STATUS_NEVER PACKET_STATE_NODE PACKET_STATE_PASS ClientSession.Handle_ServerSide;
  entry "CMSG_LOAD_DANCES" true STATUS_NEVER PACKET_STATE_NODE PACKET_STATE_PASS ClientSession.Handle_NULL;
  entry "CMSG_STOP_DANCE" true STATUS_NEVER PACKET_STATE_NODE PACKET_STATE_PASS ClientSession.Handle_NULL;
  entry "SMSG_STOP_DANCE" true STATUS_NEVER PACKET_STATE_NODE PACKET_STATE_PASS ClientSession.Handle_ServerSide;
  entry "CMSG_SYNC_DANCE" true STATUS_NEVER PACKET_STATE_NODE PACKET_STATE_PASS ClientSession.Handle_NULL;
  entry "CMSG_DANCE_QUERY" true STATUS_NEVER PACKET_STATE_NODE PACKET_STATE_PASS ClientSession.Handle_NULL;
  entry "SMSG_DANCE_QUERY_RESPONSE" true STATUS_NEVER PACKET_STATE_NODE PACKET_STATE_PASS ClientSession.Handle_ServerSide;
  entry "SMSG_INVALIDATE_DANCE" true STATUS_NEVER PACKET_STATE_NODE PACKET_STATE_PASS ClientSession.Handle_ServerSide;
  entry "CMSG_DELETE_DANCE" true STATUS_NEVER PACKET_STATE_NODE PACKET_STATE_PASS ClientSession.Handle_NULL;
  entry "SMSG_LEARNED_DANCE_MOVES" true STATUS_NEVER PACKET_STATE_NODE PACKET_STATE_PASS ClientSession.Handle_ServerSide;
  entry "CMSG_LEARN_DANCE_MOVE" true STATUS_NEVER PACKET_STATE_NODE PACKET_STATE_PASS ClientSession.Handle_NULL;
  entry "CMSG_UNLEARN_DANCE_MOVE" true STATUS_NEVER PACKET_STATE_NODE PACKET_STATE_PASS ClientSession.Handle_NULL;
  entry "CMSG_SET_RUNE_COUNT" true STATUS_NEVER PACKET_STATE_NODE PACKET_STATE_PASS ClientSession.Handle_NULL;
  entry "CMSG_SET_RUNE_COOLDOWN" true STATUS_NEVER PACKET_STATE_NODE PACKET_STATE_PASS ClientSession.Handle_NULL;
  entry "MSG_MOVE_SET_PITCH_RATE_CHEAT" true STATUS_NEVER PACKET_STATE_NODE PACKET_STATE_PASS ClientSession.Handle_NULL;
  entry "MSG_MOVE_SET_PITCH_RATE" true STATUS_NEVER PACKET_STATE_NODE PACKET_STATE_PASS ClientSession.Handle_NULL;
  entry "SMSG_FORCE_PITCH_RATE_CHANGE" true STATUS_NEVER PACKET_STATE_NODE PACKET_STATE_PASS ClientSession.Handle_ServerSide;
  entry "CMSG_FORCE_PITCH_RATE_CHANGE_ACK" true STATUS_NEVER PACKET_STATE_NODE PACKET_STATE_PASS ClientSession.Handle_NULL;
  entry "SMSG_SPLINE_SET_PITCH_RATE" true STATUS_NEVER PACKET_STATE_NODE PACKET_STATE_PASS ClientSession.Handle_ServerSide;
  entry "SMSG_MOVE_ABANDON_TRANSPORT" true STATUS_NEVER PACKET_STATE_NODE PACKET_STATE_PASS ClientSession.Handle_ServerSide;
  entry "SMSG_CALENDAR_UPDATE_INVITE_LIST" true STATUS_NEVER PACKET_STATE_NODE PACKET_STATE_PASS ClientSession.Handle_NULL;
  entry "SMSG_CALENDAR_UPDATE_INVITE_LIST2" true STATUS_NEVER PACKET_STATE_NODE PACKET_STATE_PASS ClientSession.Handle_NULL;
  entry "CMSG_UPDATE_MISSILE_TRAJECTORY" true STATUS_LOGGEDIN PACKET_STATE_NODE PACKET_STATE_NULL ClientSession.Handle_NULL;
  entry "SMSG_UPDATE_ACCOUNT_DATA_COMPLETE" true STATUS_NEVER PACKET_STATE_NODE PACKET_STATE_PASS ClientSession.Handle_ServerSide;
  entry "SMSG_TRIGGER_MOVIE" true STATUS_NEVER PACKET_STATE_NODE PACKET_STATE_PASS ClientSession.Handle_ServerSide;
  entry "CMSG_COMPLETE_MOVIE" true STATUS_NEVER PACKET_STATE_NODE PACKET_STATE_PASS ClientSession.Handle_NULL;
  entry "CMSG_SET_GLYPH_SLOT" true STATUS_NEVER PACKET_STATE_NODE PACKET_STATE_PASS ClientSession.Handle_NULL;
  entry "CMSG_SET_GLYPH" true STATUS_NEVER PACKET_STATE_NODE PACKET_STATE_NULL ClientSession.Handle_NULL;
  entry "SMSG_ACHIEVEMENT_EARNED" true STATUS_NEVER PACKET_STATE_NULL PACKET_STATE_PASS ClientSession.Handle_NULL;
  entry "SMSG_DYNAMIC_DROP_ROLL_RESULT" true STATUS_NEVER PACKET_STATE_NODE PACKET_STATE_PASS ClientSession.Handle_ServerSide;
  entry "SMSG_CRITERIA_UPDATE" true STATUS_NEVER PACKET_STATE_NODE PACKET_STATE_PASS ClientSession.Handle_ServerSide;
  entry "CMSG_QUERY_INSPECT_ACHIEVEMENTS" false STATUS_LOGGEDIN PACKET_STATE_LOGON PACKET_STATE_NULL ClientSession.HandleQueryInspectAchievements;
  entry "SMSG_RESPOND_INSPECT_ACHIEVEMENTS" true STATUS_NEVER PACKET_STATE_NULL PACKET_STATE_NULL ClientSession.Handle_ServerSide;
  entry "CMSG_DISMISS_CONTROLLED_VEHICLE" true STATUS_LOGGEDIN PACKET_STATE_NODE PACKET_STATE_PASS ClientSession.Handle_NULL;
  entry "CMSG_COMPLETE_ACHIEVEMENT_CHEAT" true STATUS_NEVER PACKET_STATE_NULL PACKET_STATE_NULL ClientSession.Handle_NULL;
  entry "SMSG_QUESTUPDATE_ADD_PVP_KILL" true STATUS_NEVER PACKET_STATE_NODE PACKET_STATE_PASS ClientSession.Handle_ServerSide;
  entry "CMSG_SET_CRITERIA_CHEAT" true STATUS_NEVER PACKET_STATE_NODE PACKET_STATE_PASS ClientSession.Handle_NULL;
  entry "SMSG_CALENDAR_UPDATE_INVITE_LIST3" true STATUS_NEVER PACKET_STATE_NODE PACKET_STATE_PASS ClientSession.Handle_ServerSide;
  entry "CMSG_UNITANIMTIER_CHEAT" true STATUS_NEVER PACKET_STATE_NODE PACKET_STATE_PASS ClientSession.Handle_NULL;
  entry "CMSG_CHAR_CUSTOMIZE" true STATUS_AUTHED PACKET_STATE_NODE PACKET_STATE_PASS ClientSession.Handle_NULL;
  entry "SMSG_CHAR_CUSTOMIZE" true STATUS_NEVER PACKET_STATE_NODE PACKET_STATE_PASS ClientSession.Handle_ServerSide;
  entry "SMSG_PET_RENAMEABLE" true STATUS_NEVER PACKET_STATE_NODE PACKET_STATE_PASS ClientSession.Handle_ServerSide;
  entry "CMSG_REQUEST_VEHICLE_EXIT" true STATUS_LOGGEDIN PACKET_STATE_NODE PACKET_STATE_PASS ClientSession.Handle_NULL;
  entry "CMSG_REQUEST_VEHICLE_PREV_SEAT" true STATUS_LOGGEDIN PACKET_STATE_NODE PACKET_STATE_PASS ClientSession.Handle_NULL;
  entry "CMSG_REQUEST_VEHICLE_NEXT_SEAT" true STATUS_LOGGEDIN PACKET_STATE_NODE PACKET_STATE_PASS ClientSession.Handle_NULL;
  entry "CMSG_REQUEST_VEHICLE_SWITCH_SEAT" true STATUS_LOGGEDIN PACKET_STATE_NODE PACKET_STATE_PASS ClientSession.Handle_NULL;
  entry "CMSG_PET_LEARN_TALENT" true STATUS_LOGGEDIN PACKET_STATE_NODE PACKET_STATE_PASS ClientSession.Handle_NULL;
  entry "CMSG_PET_UNLEARN_TALENTS" true STATUS_NEVER PACKET_STATE_NODE PACKET_STATE_PASS ClientSession.Handle_NULL;
  entry "SMSG_SET_PHASE_SHIFT" true STATUS_NEVER PACKET_STATE_NODE PACKET_STATE_PASS ClientSession.Handle_ServerSide;
  entry "SMSG_ALL_ACHIEVEMENT_DATA" true STATUS_NEVER PACKET_STATE_NULL PACKET_STATE_NULL ClientSession.Handle_ServerSide;
  entry "CMSG_FORCE_SAY_CHEAT" true STATUS_NEVER PACKET_STATE_NODE PACKET_STATE_PASS ClientSession.Handle_NULL;
  entry "SMSG_HEALTH_UPDATE" true STATUS_NEVER PACKET_STATE_NODE PACKET_STATE_PASS ClientSession.Handle_ServerSide;
  entry "SMSG_POWER_UPDATE" true STATUS_NEVER PACKET_STATE_NODE PACKET_STATE_PASS ClientSession.Handle_ServerSide;
  entry "CMSG_GAMEOBJ_REPORT_USE" true STATUS_LOGGEDIN PACKET_STATE_NODE PACKET_STATE_PASS ClientSession.Handle_NULL;
  entry "SMSG_HIGHEST_THREAT_UPDATE" true STATUS_NEVER PACKET_STATE_NODE PACKET_STATE_PASS ClientSession.Handle_ServerSide;
  entry "SMSG_THREAT_UPDATE" true STATUS_NEVER PACKET_STATE_NODE PACKET_STATE_PASS ClientSession.Handle_ServerSide;
  entry "SMSG_THREAT_REMOVE" true STATUS_NEVER PACKET_STATE_NODE PACKET_STATE_PASS ClientSession.Handle_ServerSide;
  entry "SMSG_THREAT_CLEAR" true STATUS_NEVER PACKET_STATE_NODE PACKET_STATE_PASS ClientSession.Handle_ServerSide;
  entry "SMSG_CONVERT_RUNE" true STATUS_NEVER PACKET_STATE_NODE PACKET_STATE_PASS ClientSession.Handle_ServerSide;
  entry "SMSG_RESYNC_RUNES" true STATUS_NEVER PACKET_STATE_NODE PACKET_STATE_PASS ClientSession.Handle_ServerSide;
  entry "SMSG_ADD_RUNE_POWER" true STATUS_NEVER PACKET_STATE_NODE PACKET_STATE_PASS ClientSession.Handle_ServerSide;
  entry "CMSG_START_QUEST" true STATUS_NEVER PACKET_STATE_NODE PACKET_STATE_PASS ClientSession.Handle_NULL;
  entry "CMSG_REMOVE_GLYPH" true STATUS_LOGGEDIN PACKET_STATE_NODE PACKET_STATE_PASS ClientSession.Handle_NULL;
  entry "CMSG_DUMP_OBJECTS" true STATUS_NEVER PACKET_STATE_NODE PACKET_STATE_PASS ClientSession.Handle_NULL;
  entry "SMSG_DUMP_OBJECTS_DATA" true STATUS_NEVER PACKET_STATE_NODE PACKET_STATE_PASS ClientSession.Handle_ServerSide;
  entry "CMSG_DISMISS_CRITTER" true STATUS_LOGGEDIN PACKET_STATE_NODE PACKET_STATE_PASS ClientSession.Handle_NULL;
  entry "SMSG_NOTIFY_DEST_LOC_SPELL_CAST" true STATUS_NEVER PACKET_STATE_NODE PACKET_STATE_PASS ClientSession.Handle_ServerSide;
  entry "CMSG_AUCTION_LIST_PENDING_SALES" true STATUS_LOGGEDIN PACKET_STATE_NODE PACKET_STATE_PASS ClientSession.Handle_NULL;
  entry "SMSG_AUCTION_LIST_PENDING_SALES" true STATUS_NEVER PACKET_STATE_NODE PACKET_STATE_PASS ClientSession.Handle_ServerSide;
  entry "SMSG_MODIFY_COOLDOWN" true STATUS_NEVER PACKET_STATE_NODE PACKET_STATE_PASS ClientSession.Handle_ServerSide;
  entry "SMSG_PET_UPDATE_COMBO_POINTS" true STATUS_NEVER PACKET_STATE_NODE PACKET_STATE_PASS ClientSession.Handle_ServerSide;
  entry "CMSG_ENABLETAXI" true STATUS_LOGGEDIN PACKET_STATE_NODE PACKET_STATE_PASS ClientSession.Handle_NULL;
  entry "SMSG_PRE_RESURRECT" true STATUS_NEVER PACKET_STATE_NODE PACKET_STATE_PASS ClientSession.Handle_ServerSide;
  entry "SMSG_AURA_UPDATE_ALL" true STATUS_NEVER PACKET_STATE_NODE PACKET_STATE_PASS ClientSession.Handle_ServerSide;
  entry "SMSG_AURA_UPDATE" true STATUS_NEVER PACKET_STATE_NODE PACKET_STATE_PASS ClientSession.Handle_ServerSide;
  entry "CMSG_FLOOD_GRACE_CHEAT" true STATUS_NEVER PACKET_STATE_NODE PACKET_STATE_PASS ClientSession.Handle_NULL
].

Definition table_498 : list OpcodeHandler := [
  entry "SMSG_SERVER_FIRST_ACHIEVEMENT" true STATUS_NEVER PACKET_STATE_NODE PACKET_STATE_PASS ClientSession.Handle_ServerSide;
  entry "SMSG_PET_LEARNED_SPELL" true STATUS_NEVER PACKET_STATE_NODE PACKET_STATE_PASS ClientSession.Handle_ServerSide;
  entry "SMSG_PET_REMOVED_SPELL" true STATUS_NEVER PACKET_STATE_NODE PACKET_STATE_PASS ClientSession.Handle_ServerSide;
  entry "CMSG_CHANGE_SEATS_ON_CONTROLLED_VEHICLE" true STATUS_LOGGEDIN PACKET_STATE_NODE PACKET_STATE_PASS ClientSession.Handle_NULL;
  entry "CMSG_HEARTH_AND_RESURRECT" true STATUS_LOGGEDIN PACKET_STATE_NODE PACKET_STATE_PASS ClientSession.Handle_NULL;
  entry "SMSG_ON_CANCEL_EXPECTED_RIDE_VEHICLE_AURA" true STATUS_NEVER PACKET_STATE_NODE PACKET_STATE_PASS ClientSession.Handle_ServerSide;
  entry "SMSG_CRITERIA_DELETED" true STATUS_NEVER PACKET_STATE_NODE PACKET_STATE_PASS ClientSession.Handle_ServerSide;
  entry "SMSG_ACHIEVEMENT_DELETED" true STATUS_NEVER PACKET_STATE_NODE PACKET_STATE_PASS ClientSession.Handle_ServerSide;
  entry "CMSG_SERVER_INFO_QUERY" true STATUS_NEVER PACKET_STATE_NODE PACKET_STATE_PASS ClientSession.Handle_NULL;
  entry "SMSG_SERVER_INFO_RESPONSE" true STATUS_NEVER PACKET_STATE_NODE PACKET_STATE_PASS ClientSession.Handle_ServerSide;
  entry "CMSG_CHECK_LOGIN_CRITERIA" true STATUS_NEVER PACKET_STATE_NODE PACKET_STATE_PASS ClientSession.Handle_NULL;
  entry "SMSG_SERVER_BUCK_DATA_START" true STATUS_NEVER PACKET_STATE_NODE PACKET_STATE_PASS ClientSession.Handle_ServerSide;
  entry "CMSG_QUERY_VEHICLE_STATUS" true STATUS_NEVER PACKET_STATE_NODE PACKET_STATE_PASS ClientSession.Handle_NULL;
  entry "UMSG_UNKNOWN_1189" true STATUS_NEVER PACKET_STATE_NODE PACKET_STATE_PASS ClientSession.Handle_NULL;
  entry "SMSG_BATTLEGROUND_INFO_THROTTLED" true STATUS_NEVER PACKET_STATE_NODE PACKET_STATE_PASS ClientSession.Handle_ServerSide;
  entry "SMSG_PLAYER_VEHICLE_DATA" true STATUS_NEVER PACKET_STATE_NODE PACKET_STATE_PASS ClientSession.Handle_ServerSide;
  entry "CMSG_PLAYER_VEHICLE_ENTER" true STATUS_LOGGEDIN PACKET_STATE_NODE PACKET_STATE_PASS ClientSession.Handle_NULL;
  entry "CMSG_EJECT_PASSENGER" true STATUS_LOGGEDIN PACKET_STATE_NODE PACKET_STATE_PASS ClientSession.Handle_NULL;
  entry "SMSG_PET_GUIDS" true STATUS_NEVER PACKET_STATE_NODE PACKET_STATE_PASS ClientSession.Handle_ServerSide;
  entry "SMSG_CLIENTCACHE_VERSION" true STATUS_NEVER PACKET_STATE_NODE PACKET_STATE_PASS ClientSession.Handle_ServerSide;
  entry "UMSG_UNKNOWN_1196" true STATUS_NEVER PACKET_STATE_NODE PACKET_STATE_PASS ClientSession.Handle_NULL;
  entry "UMSG_UNKNOWN_1197" true STATUS_NEVER PACKET_STATE_NODE PACKET_STATE_PASS ClientSession.Handle_NULL;
  entry "UMSG_UNKNOWN_1198" true STATUS_NEVER PACKET_STATE_NODE PACKET_STATE_PASS ClientSession.Handle_NULL;
  entry "UMSG_UNKNOWN_1199" true STATUS_NEVER PACKET_STATE_NODE PACKET_STATE_PASS ClientSession.Handle_NULL;
  entry "UMSG_UNKNOWN_1200" true STATUS_NEVER PACKET_STATE_NODE PACKET_STATE_PASS ClientSession.Handle_NULL;
  entry "UMSG_UNKNOWN_1201" true STATUS_NEVER PACKET_STATE_NODE PACKET_STATE_PASS ClientSession.Handle_NULL;
  entry "SMSG_ITEM_REFUND_INFO_RESPONSE" true STATUS_NEVER PACKET_STATE_NODE PACKET_STATE_PASS ClientSession.Handle_ServerSide;
  entry "CMSG_ITEM_REFUND_INFO" true STATUS_LOGGEDIN PACKET_STATE_NODE PACKET_STATE_PASS ClientSession.Handle_NULL;
  entry "CMSG_ITEM_REFUND" true STATUS_LOGGEDIN PACKET_STATE_NODE PACKET_STATE_PASS ClientSession.Handle_NULL;
  entry "SMSG_ITEM_REFUND_RESULT" true STATUS_NEVER PACKET_STATE_NODE PACKET_STATE_PASS ClientSession.Handle_ServerSide;
  entry "CMSG_CORPSE_MAP_POSITION_QUERY" true STATUS_LOGGEDIN PACKET_STATE_NODE PACKET_STATE_PASS ClientSession.Handle_NULL;
  entry "SMSG_CORPSE_MAP_POSITION_QUERY_RESPONSE" true STATUS_NEVER PACKET_STATE_NODE PACKET_STATE_PASS ClientSession.Handle_ServerSide;
  entry "CMSG_LFG_SET_ROLES_2" true STATUS_LOGGEDIN PACKET_STATE_NODE PACKET_STATE_PASS ClientSession.Handle_NULL;
  entry "UMSG_UNKNOWN_1209" true STATUS_NEVER PACKET_STATE_NODE PACKET_STATE_PASS ClientSession.Handle_NULL;
  entry "CMSG_CALENDAR_CONTEXT_EVENT_SIGNUP" true STATUS_NEVER PACKET_STATE_NODE PACKET_STATE_PASS ClientSession.Handle_NULL;
  entry "SMSG_CALENDAR_ACTION_PENDING" true STATUS_NEVER PACKET_STATE_NODE PACKET_STATE_PASS ClientSession.Handle_ServerSide;
  entry "SMSG_EQUIPMENT_SET_LIST" true STATUS_NEVER PACKET_STATE_NODE PACKET_STATE_PASS ClientSession.Handle_ServerSide;
  entry "CMSG_EQUIPMENT_SET_SAVE" true STATUS_LOGGEDIN PACKET_STATE_NODE PACKET_STATE_PASS ClientSession.Handle_NULL;
  entry "CMSG_UPDATE_PROJECTILE_POSITION" true STATUS_LOGGEDIN PACKET_STATE_NODE PACKET_STATE_PASS ClientSession.Handle_NULL;
  entry "SMSG_SET_PROJECTILE_POSITION" true STATUS_NEVER PACKET_STATE_NODE PACKET_STATE_PASS ClientSession.Handle_ServerSide;
  entry "SMSG_TALENTS_INFO" true STATUS_NEVER PACKET_STATE_NODE PACKET_STATE_PASS ClientSession.Handle_ServerSide;
  entry "CMSG_LEARN_PREVIEW_TALENTS" true STATUS_LOGGEDIN PACKET_STATE_NODE PACKET_STATE_PASS ClientSession.Handle_NULL;
  entry "CMSG_LEARN_PREVIEW_TALENTS_PET" true STATUS_LOGGEDIN PACKET_STATE_NODE PACKET_STATE_PASS ClientSession.Handle_NULL;
  entry "UMSG_UNKNOWN_1219" true STATUS_NEVER PACKET_STATE_NODE PACKET_STATE_PASS ClientSession.Handle_NULL;
  entry "UMSG_UNKNOWN_1220" true STATUS_NEVER PACKET_STATE_NODE PACKET_STATE_PASS ClientSession.Handle_NULL;
  entry "UMSG_UNKNOWN_1221" true STATUS_NEVER PACKET_STATE_NODE PACKET_STATE_PASS ClientSession.Handle_NULL;
  entry "UMSG_UNKNOWN_1222" true STATUS_NEVER PACKET_STATE_NODE PACKET_STATE_PASS ClientSession.Handle_NULL;
  entry "SMSG_ARENA_OPPONENT_UPDATE" true STATUS_NEVER PACKET_STATE_NODE PACKET_STATE_PASS ClientSession.Handle_ServerSide;
  entry "SMSG_ARENA_TEAM_CHANGE_FAILED_QUEUED" true STATUS_NEVER PACKET_STATE_NODE PACKET_STATE_PASS ClientSession.Handle_ServerSide;
  entry "UMSG_UNKNOWN_1225" true STATUS_NEVER PACKET_STATE_NODE PACKET_STATE_PASS ClientSession.Handle_NULL;
  entry "UMSG_UNKNOWN_1226" true STATUS_NEVER PACKET_STATE_NODE PACKET_STATE_PASS ClientSession.Handle_NULL;
  entry "UMSG_UNKNOWN_1227" true STATUS_NEVER PACKET_STATE_NODE PACKET_STATE_PASS ClientSession.Handle_NULL;
  entry "UMSG_UNKNOWN_1228" true STATUS_NEVER PACKET_STATE_NODE PACKET_STATE_PASS ClientSession.Handle_NULL;
  entry "SMSG_MULTIPLE_PACKETS" true STATUS_NEVER PACKET_STATE_NODE PACKET_STATE_PASS ClientSession.Handle_ServerSide;
  entry "SMSG_FORCE_UNK1_SPEED_CHANGE" true STATUS_NEVER PACKET_STATE_NODE PACKET_STATE_PASS ClientSession.Handle_ServerSide;
  entry "CMSG_FORCE_UNK1_SPEED_CHANGE_ACK" true STATUS_NEVER PACKET_STATE_NODE PACKET_STATE_PASS ClientSession.Handle_NULL;
  entry "SMSG_FORCE_UNK2_SPEED_CHANGE" true STATUS_NEVER PACKET_STATE_NODE PACKET_STATE_PASS ClientSession.Handle_ServerSide;
  entry "CMSG_FORCE_UNK2_SPEED_CHANGE_ACK" true STATUS_NEVER PACKET_STATE_NODE PACKET_STATE_PASS ClientSession.Handle_NULL;
  entry "MSG_MOVE_UNKNOWN_1234" true STATUS_NEVER PACKET_STATE_NODE PACKET_STATE_PASS ClientSession.Handle_ServerSide;
  entry "SMSG_SPLINE_MOVE_UNKNOWN_1235" true STATUS_NEVER PACKET_STATE_NODE PACKET_STATE_PASS ClientSession.Handle_ServerSide;
  entry "SMSG_SPLINE_MOVE_UNKNOWN_1236" true STATUS_NEVER PACKET_STATE_NODE PACKET_STATE_PASS ClientSession.Handle_ServerSide;
  entry "CMSG_EQUIPMENT_SET_USE" true STATUS_LOGGEDIN PACKET_STATE_NODE PACKET_STATE_PASS ClientSession.Handle_NULL;
  entry "SMSG_EQUIPMENT_SET_USE_RESULT" true STATUS_NEVER PACKET_STATE_NODE PACKET_STATE_PASS ClientSession.Handle_ServerSide;
  entry "UMSG_UNKNOWN_1239" true STATUS_NEVER PACKET_STATE_NODE PACKET_STATE_PASS ClientSession.Handle_NULL;
  entry "SMSG_UNKNOWN_1240" true STATUS_NEVER PACKET_STATE_NODE PACKET_STATE_PASS ClientSession.Handle_ServerSide;
  entry "CMSG_CHAR_FACTION_CHANGE" true STATUS_AUTHED PACKET_STATE_NODE PACKET_STATE_PASS ClientSession.Handle_NULL;
  entry "SMSG_CHAR_FACTION_CHANGE" true STATUS_NEVER PACKET_STATE_NODE PACKET_STATE_PASS ClientSession.Handle_ServerSide;
  entry "UMSG_UNKNOWN_1243" true STATUS_NEVER PACKET_STATE_NODE PACKET_STATE_PASS ClientSession.Handle_NULL;
  entry "UMSG_UNKNOWN_1244" true STATUS_NEVER PACKET_STATE_NODE PACKET_STATE_PASS ClientSession.Handle_NULL;
  entry "UMSG_UNKNOWN_1245" true STATUS_NEVER PACKET_STATE_NODE PACKET_STATE_PASS ClientSession.Handle_NULL;
  entry "SMSG_BATTLEFIELD_MGR_ENTRY_INVITE" true STATUS_NEVER PACKET_STATE_NODE PACKET_STATE_PASS ClientSession.Handle_ServerSide;
  entry "CMSG_BATTLEFIELD_MGR_ENTRY_INVITE_RESPONSE" true STATUS_LOGGEDIN PACKET_STATE_NODE PACKET_STATE_PASS ClientSession.Handle_NULL;
  entry "SMSG_BATTLEFIELD_MGR_ENTERED" true STATUS_NEVER PACKET_STATE_NODE PACKET_STATE_PASS ClientSession.Handle_ServerSide;
  entry "SMSG_BATTLEFIELD_MGR_QUEUE_INVITE" true STATUS_NEVER PACKET_STATE_NODE PACKET_STATE_PASS ClientSession.Handle_ServerSide;
  entry "CMSG_BATTLEFIELD_MGR_QUEUE_INVITE_RESPONSE" true STATUS_LOGGEDIN PACKET_STATE_NODE PACKET_STATE_PASS ClientSession.Handle_NULL;
  entry "CMSG_BATTLEFIELD_MGR_QUEUE_REQUEST" true STATUS_LOGGEDIN PACKET_STATE_NODE PACKET_STATE_PASS ClientSession.Handle_NULL;
  entry "SMSG_BATTLEFIELD_MGR_QUEUE_REQUEST_RESPONSE" true STATUS_NEVER PACKET_STATE_NODE PACKET_STATE_PASS ClientSession.Handle_ServerSide;
  entry "SMSG_BATTLEFIELD_MGR_EJECT_PENDING" true STATUS_NEVER PACKET_STATE_NODE PACKET_STATE_PASS ClientSession.Handle_ServerSide;
  entry "SMSG_BATTLEFIELD_MGR_EJECTED" true STATUS_NEVER PACKET_STATE_NODE PACKET_STATE_PASS ClientSession.Handle_ServerSide;
  entry "CMSG_BATTLEFIELD_MGR_EXIT_REQUEST" true STATUS_LOGGEDIN PACKET_STATE_NODE PACKET_STATE_PASS ClientSession.Handle_NULL;
  entry "SMSG_BATTLEFIELD_MGR_STATE_CHANGE" true STATUS_NEVER PACKET_STATE_NODE PACKET_STATE_PASS ClientSession.Handle_ServerSide;
  entry "UMSG_UNKNOWN_1257" true STATUS_NEVER PACKET_STATE_NODE PACKET_STATE_PASS ClientSession.Handle_NULL;
  entry "UMSG_UNKNOWN_1258" true STATUS_NEVER PACKET_STATE_NODE PACKET_STATE_PASS ClientSession.Handle_NULL;
  entry "MSG_SET_RAID_DIFFICULTY" true STATUS_LOGGEDIN PACKET_STATE_NODE PACKET_STATE_PASS ClientSession.Handle_NULL;
  entry "UMSG_UNKNOWN_1260" true STATUS_NEVER PACKET_STATE_NODE PACKET_STATE_PASS ClientSession.Handle_NULL;
  entry "SMSG_TOGGLE_XP_GAIN" true STATUS_NEVER PACKET_STATE_NODE PACKET_STATE_PASS ClientSession.Handle_ServerSide;
  entry "SMSG_GMRESPONSE_DB_ERROR" true STATUS_NEVER PACKET_STATE_NULL PACKET_STATE_PASS ClientSession.Handle_ServerSide;
  entry "SMSG_GMRESPONSE_RECEIVED" true STATUS_NEVER PACKET_STATE_NULL PACKET_STATE_PASS ClientSession.Handle_ServerSide;
  entry "CMSG_GMRESPONSE_RESOLVE" true STATUS_LOGGEDIN PACKET_STATE_LOGON PACKET_STATE_PASS ClientSession.HandleGMResponseResolve;
  entry "SMSG_GMRESPONSE_STATUS_UPDATE" true STATUS_NEVER PACKET_STATE_NULL PACKET_STATE_PASS ClientSession.Handle_ServerSide;
  entry "UMSG_UNKNOWN_1266" true STATUS_NEVER PACKET_STATE_NODE PACKET_STATE_PASS ClientSession.Handle_NULL;
  entry "UMSG_UNKNOWN_1267" true STATUS_NEVER PACKET_STATE_NODE PACKET_STATE_PASS ClientSession.Handle_NULL;
  entry "UMSG_UNKNOWN_1268" true STATUS_NEVER PACKET_STATE_NODE PACKET_STATE_PASS ClientSession.Handle_NULL;
  entry "UMSG_UNKNOWN_1269" true STATUS_NEVER PACKET_STATE_NODE PACKET_STATE_PASS ClientSession.Handle_NULL;
  entry "CMSG_WORLD_STATE_UI_TIMER_UPDATE" true STATUS_LOGGEDIN PACKET_STATE_LOGON PACKET_STATE_NULL ClientSession.HandleWorldStateUITimerUpdate;
  entry "SMSG_WORLD_STATE_UI_TIMER_UPDATE" true STATUS_NEVER PACKET_STATE_NULL PACKET_STATE_NULL ClientSession.Handle_ServerSide;
  entry "CMSG_CHAR_RACE_CHANGE" true STATUS_AUTHED PACKET_STATE_NODE PACKET_STATE_PASS ClientSession.Handle_NULL;
  entry "UMSG_UNKNOWN_1273" true STATUS_NEVER PACKET_STATE_NODE PACKET_STATE_PASS ClientSession.Handle_NULL;
  entry "SMSG_TALENTS_INVOLUNTARILY_RESET" true STATUS_NEVER PACKET_STATE_NODE PACKET_STATE_PASS ClientSession.Handle_ServerSide;
  entry "UMSG_UNKNOWN_1275" true STATUS_NEVER PACKET_STATE_NODE PACKET_STATE_PASS ClientSession.Handle_NULL;
  entry "SMSG_UNKNOWN_1276" true STATUS_NEVER PACKET_STATE_NODE PACKET_STATE_PASS ClientSession.Handle_ServerSide;
  entry "SMSG_LOOT_SLOT_CHANGED" true STATUS_NEVER PACKET_STATE_NODE PACKET_STATE_PASS ClientSession.Handle_ServerSide;
  entry "UMSG_UPDATE_GROUP_INFO" true STATUS_NEVER PACKET_STATE_NODE PACKET_STATE_PASS ClientSession.Handle_NULL;
  entry "CMSG_READY_FOR_ACCOUNT_DATA_TIMES" true STATUS_AUTHED PACKET_STATE_NODE PACKET_STATE_NULL ClientSession.Handle_NULL;
  entry "CMSG_QUERY_QUESTS_COMPLETED" true STATUS_LOGGEDIN PACKET_STATE_NODE PACKET_STATE_PASS ClientSession.Handle_NULL;
  entry "SMSG_QUERY_QUESTS_COMPLETED_RESPONSE" true STATUS_NEVER PACKET_STATE_NODE PACKET_STATE_PASS ClientSession.Handle_ServerSide;
  entry "CMSG_GM_REPORT_LAG" true STATUS_LOGGEDIN PACKET_STATE_LOGON PACKET_STATE_PASS ClientSession.HandleReportLag;
  entry "CMSG_AFK_MONITOR_INFO_REQUEST" true STATUS_NEVER PACKET_STATE_NODE PACKET_STATE_PASS ClientSession.Handle_NULL;
  entry "SMSG_AFK_MONITOR_INFO_RESPONSE" true STATUS_NEVER PACKET_STATE_NODE PACKET_STATE_PASS ClientSession.Handle_NULL;
  entry "CMSG_AFK_MONITOR_INFO_CLEAR" true STATUS_NEVER PACKET_STATE_NODE PACKET_STATE_PASS ClientSession.Handle_NULL;
  entry "SMSG_CORPSE_IS_NOT_IN_INSTANCE" true STATUS_NEVER PACKET_STATE_NODE PACKET_STATE_PASS ClientSession.Handle_ServerSide;
  entry "CMSG_GM_NUKE_CHARACTER" true STATUS_NEVER PACKET_STATE_NODE PACKET_STATE_PASS ClientSession.Handle_NULL;
  entry "CMSG_SET_ALLOW_LOW_LEVEL_RAID1" true STATUS_NEVER PACKET_STATE_NODE PACKET_STATE_PASS ClientSession.Handle_NULL;
  entry "CMSG_SET_ALLOW_LOW_LEVEL_RAID2" true STATUS_NEVER PACKET_STATE_NODE PACKET_STATE_PASS ClientSession.Handle_NULL;
  entry "SMSG_CAMERA_SHAKE" true STATUS_NEVER PACKET_STATE_NODE PACKET_STATE_PASS ClientSession.Handle_ServerSide;
  entry "SMSG_UPDATE_ITEM_ENCHANTMENTS" true STATUS_NEVER PACKET_STATE_NODE PACKET_STATE_PASS ClientSession.Handle_ServerSide;
  entry "CMSG_SET_CHARACTER_MODEL" true STATUS_NEVER PACKET_STATE_NODE PACKET_STATE_PASS ClientSession.Handle_NULL;
  entry "SMSG_REDIRECT_CLIENT" true STATUS_NEVER PACKET_STATE_NODE PACKET_STATE_PASS ClientSession.Handle_ServerSide;
  entry "CMSG_REDIRECTION_FAILED" true STATUS_NEVER PACKET_STATE_NODE PACKET_STATE_PASS ClientSession.Handle_NULL;
  entry "SMSG_SUSPEND_COMMS" true STATUS_NEVER PACKET_STATE_NODE PACKET_STATE_PASS ClientSession.Handle_ServerSide;
  entry "CMSG_SUSPEND_COMMS_ACK" true STATUS_NEVER PACKET_STATE_NODE PACKET_STATE_PASS ClientSession.Handle_NULL;
  entry "SMSG_FORCE_SEND_QUEUED_PACKETS" true STATUS_NEVER PACKET_STATE_NODE PACKET_STATE_PASS ClientSession.Handle_ServerSide;
  entry "CMSG_REDIRECTION_AUTH_PROOF" true STATUS_NEVER PACKET_STATE_NODE PACKET_STATE_PASS ClientSession.Handle_NULL;
  entry "CMSG_DROP_NEW_CONNECTION" true STATUS_NEVER PACKET_STATE_NODE PACKET_STATE_PASS ClientSession.Handle_NULL;
  entry "SMSG_COMBAT_LOG_MULTIPLE" true STATUS_NEVER PACKET_STATE_NODE PACKET_STATE_PASS ClientSession.Handle_ServerSide;
  entry "SMSG_LFG_OPEN_FROM_GOSSIP" true STATUS_NEVER PACKET_STATE_NODE PACKET_STATE_PASS ClientSession.Handle_ServerSide;
  entry "SMSG_MOVE_SET_COLLISION_HGT" true STATUS_NEVER PACKET_STATE_NODE PACKET_STATE_PASS ClientSession.Handle_ServerSide;
  entry "CMSG_MOVE_SET_COLLISION_HGT_ACK" true STATUS_NEVER PACKET_STATE_NODE PACKET_STATE_PASS ClientSession.Handle_NULL;
  entry "MSG_MOVE_SET_COLLISION_HGT" true STATUS_NEVER PACKET_STATE_NODE PACKET_STATE_PASS ClientSession.Handle_ServerSide;
  entry "CMSG_CLEAR_RANDOM_BG_WIN_TIME" true STATUS_NEVER PACKET_STATE_NODE PACKET_STATE_PASS ClientSession.Handle_NULL;
  entry "CMSG_CLEAR_HOLIDAY_BG_WIN_TIME" true STATUS_NEVER PACKET_STATE_NODE PACKET_STATE_PASS ClientSession.Handle_NULL;
  entry "CMSG_COMMENTATOR_SKIRMISH_QUEUE_COMMAND" true STATUS_NEVER PACKET_STATE_NODE PACKET_STATE_PASS ClientSession.Handle_NULL;
  entry "SMSG_COMMENTATOR_SKIRMISH_QUEUE_RESULT1" true STATUS_NEVER PACKET_STATE_NODE PACKET_STATE_PASS ClientSession.Handle_ServerSide;
  entry "SMSG_COMMENTATOR_SKIRMISH_QUEUE_RESULT2" true STATUS_NEVER PACKET_STATE_NODE PACKET_STATE_PASS ClientSession.Handle_ServerSide;
  entry "SMSG_UNKNOWN_1310" true STATUS_NEVER PACKET_STATE_NODE PACKET_STATE_PASS ClientSession.Handle_ServerSide;
  entry "NUM_CLIENT_MSG_TYPES" true STATUS_NEVER PACKET_STATE_NULL PACKET_STATE_NULL ClientSession.Handle_NULL;
  entry "LOGON_AUTH_MASTER" true STATUS_NEVER PACKET_STATE_NULL PACKET_STATE_NULL ClientSession.Handle_ServerSide;
  entry "LOGON_NODE_INIT" true STATUS_NEVER PACKET_STATE_NULL PACKET_STATE_NULL ClientSession.Handle_ServerSide;
  entry "NODE_INIT_ACK" true STATUS_NEVER PACKET_STATE_NULL PACKET_STATE_NULL ClientSession.Handle_NULL;
  entry "LOGON_SYNC_DATA" true STATUS_NEVER PACKET_STATE_NULL PACKET_STATE_LOGON ClientSession.Handle_NULL;
  entry "NODE_SYNC_DATA" true STATUS_NEVER PACKET_STATE_NULL PACKET_STATE_LOGON ClientSession.Handle_NULL;
  entry "NODE_PLAYER_CHANGED_ZONE" true STATUS_LOGGEDIN PACKET_STATE_NULL PACKET_STATE_LOGON ClientSession.Handle_NODE_PLAYER_CHANGED_ZONE;
  entry "NODE_PLAYER_DATA" true STATUS_LOGGEDIN PACKET_STATE_NULL PACKET_STATE_LOGON ClientSession.Handle_NODE_PLAYER_DATA;
  entry "NODE_MISC_DATA" true STATUS_LOGGEDIN PACKET_STATE_NULL PACKET_STATE_LOGON ClientSession.Handle_NODE_MISC_DATA;
  entry "CLUSTER_PLAYER_DATA" true STATUS_NEVER PACKET_STATE_NODE PACKET_STATE_PASS ClientSession.Handle_NULL
].

Definition listed : list OpcodeHandler :=
  table_000 ++ table_093 ++ table_126 ++ table_1B9 ++ table_24C ++ table_2DF ++ table_372 ++ table_405 ++ table_498.

(** An entry without an initialiser is zero. *)
Definition zero_entry : OpcodeHandler :=
  mkOpcodeHandler None false STATUS_AUTHED PACKET_STATE_NULL PACKET_STATE_NULL None.

Definition opcodeTable : list OpcodeHandler :=
  listed ++ replicate (Z.to_nat NUM_MSG_TYPES - length listed) zero_entry.
