(* ===== verification/Opcodes.v ===== *)
(** * Routing of packets between clients, the cluster server and the nodes

    [ClientSession::HandlePacket] and the bodies of the four I/O loops of
    [shade/Server/Client/ClientSession.cpp]: what the opcode table makes of a
    packet that arrives from a client or from a node.  The loops themselves
    and the state they work on are in [Session]. *)
From Stdlib Require Import Ascii String ZArith Lia.
From stdpp Require Import base list strings.
From S2P Require Import Prelude ByteBuffer OpcodeTable.

Open Scope Z_scope.

(** ** Routing *)
Definition PACKET_SEND_CLIENT : Z := 0x1.
Definition PACKET_SEND_NODE : Z := 0x2.
Definition PACKET_PROCESS : Z := 0x4.

(** What a packet leads to: it is passed on, or the handler of its entry is
    called; [CallNull] is the call through a null member pointer. *)
Inductive Action :=
| ToNode (p : WorldPacket)
| ToClient (p : WorldPacket)
| CallHandler (h : ClientSession.method) (p : WorldPacket)
| CallNull (p : WorldPacket).

Definition opcode_entry (opcode : Z) : option OpcodeHandler :=
  if opcode <? NUM_MSG_TYPES then opcodeTable !! Z.to_nat opcode else None.

Definition LookupOpcodeName (opcode : Z) : option string :=
  match opcode_entry opcode with
  | None => Some "Received unknown opcode, it's more than max!"%string
  | Some e => name e
  end.

Definition HandlePacket (e : OpcodeHandler) (p : WorldPacket) (procedure : Z) : list Action :=
  (if has_flag procedure PACKET_SEND_NODE then [ToNode p] else [])
  ++ (if has_flag procedure PACKET_SEND_CLIENT then [ToClient p] else [])
  ++ (if has_flag procedure PACKET_PROCESS
      then [match handler e with Some h => CallHandler h p | None => CallNull p end] else []).

(** The two [switch] statements; both fall through from [PACKET_STATE_BOTH]. *)
Definition from_node_procedure (e : OpcodeHandler) : Z :=
  match from_node e with
  | PACKET_STATE_PASS => Z.lor 0 PACKET_SEND_CLIENT
  | PACKET_STATE_BOTH => Z.lor (Z.lor 0 PACKET_SEND_CLIENT) PACKET_PROCESS
  | PACKET_STATE_LOGON => Z.lor 0 PACKET_PROCESS
  | _ => 0
  end.

Definition to_node_procedure (e : OpcodeHandler) : Z :=
  match to_node e with
  | PACKET_STATE_NODE => Z.lor 0 PACKET_SEND_NODE
  | PACKET_STATE_BOTH => Z.lor (Z.lor 0 PACKET_SEND_NODE) PACKET_PROCESS
  | PACKET_STATE_LOGON => Z.lor 0 PACKET_PROCESS
  | _ => 0
  end.

Definition client_admitted (authed player : bool) (e : OpcodeHandler) : bool :=
  (bool_decide (status e = STATUS_AUTHED) && authed)
  || (bool_decide (status e = STATUS_LOGGEDIN) && player)
  || (bool_decide (status e = STATUS_TRANSFER) && player).

(** One round of [UpdateSingleNodeIO] or [UpdateMultiNodeIO]. *)
Definition route_from_node (p : WorldPacket) : list Action :=
  match opcode_entry (GetOpcode p) with
  | None => []
  | Some e => HandlePacket e p (from_node_procedure e)
  end.

(** One round of [UpdateSingleClientIO] or [UpdateMultiClientIO]. *)
Definition route_from_client (authed player : bool) (p : WorldPacket) : list Action :=
  match opcode_entry (GetOpcode p) with
  | None => []
  | Some e =>
      if client_admitted authed player e then HandlePacket e p (to_node_procedure e) else []
  end.

(** ** What the table says, entry by entry *)
Definition entries : list (nat * OpcodeHandler) := zip (seq 0 (length opcodeTable)) opcodeTable.

Definition table_check (f : nat -> OpcodeHandler -> bool) : bool :=
  forallb (fun '(k, e) => f k e) entries.

Lemma table_checked f k e :
  table_check f = true -> opcodeTable !! k = Some e -> f k e = true.
Proof.
  unfold table_check. rewrite forallb_forall. intros Hall He. apply (Hall (k, e)).
  apply list_elem_of_In, list_elem_of_lookup. exists k. unfold entries.
  rewrite lookup_zip_with, lookup_seq_lt, He by eauto using lookup_lt_Some.
  by rewrite Nat.add_0_l.
Qed.

Lemma table_length : length opcodeTable = Z.to_nat NUM_MSG_TYPES.
Proof. vm_compute. reflexivity. Qed.

Lemma opcode_entry_Some opcode :
  0 <= opcode < NUM_MSG_TYPES -> exists e, opcode_entry opcode = Some e /\ opcodeTable !! Z.to_nat opcode = Some e.
Proof.
  intros [? ?]. unfold opcode_entry. rewrite (proj2 (Z.ltb_lt _ _)) by done.
  destruct (lookup_lt_is_Some_2 opcodeTable (Z.to_nat opcode)) as [e He].
  - rewrite table_length. by apply Z2Nat.inj_lt.
  - eauto.
Qed.

Lemma opcode_entry_lookup opcode e :
  opcode_entry opcode = Some e -> opcodeTable !! Z.to_nat opcode = Some e.
Proof. unfold opcode_entry. by destruct (_ <? _). Qed.

(** The handlers a client that has not entered the world can reach. *)
Definition login_handlers : list ClientSession.method :=
  [ClientSession.HandleCharEnumOpcode; ClientSession.HandlePlayerLoginOpcode;
   ClientSession.HandleGuildQueryOpcode; ClientSession.HandleWardenDataOpcode].

Definition processed (procedure : Z) : bool := has_flag procedure PACKET_PROCESS.

Definition has_handler (_ : nat) (e : OpcodeHandler) : bool :=
  bool_decide (is_Some (handler e))
  || negb (processed (to_node_procedure e) || processed (from_node_procedure e)).

Lemma table_handlers : table_check has_handler = true.
Proof. vm_compute. reflexivity. Qed.

Definition login_entry (_ : nat) (e : OpcodeHandler) : bool :=
  negb (bool_decide (status e = STATUS_AUTHED)) || negb (processed (to_node_procedure e))
  || match handler e with Some h => bool_decide (h ∈ login_handlers) | None => false end.

Lemma table_login : table_check login_entry = true.
Proof. vm_compute. reflexivity. Qed.

(** Server messages, and the opcodes nodes and the cluster server use among
    themselves. *)
Definition server_message (e : OpcodeHandler) : bool :=
  match name e with Some n => String.prefix "SMSG_" n | None => false end.

Definition SMSG_AVAILABLE_VOICE_CHANNEL : Z := 0x3DA.

Definition reserved (k : nat) (e : OpcodeHandler) : bool :=
  (NUM_CLIENT_MSG_TYPES <=? Z.of_nat k)
  || (server_message e && negb (Z.of_nat k =? SMSG_AVAILABLE_VOICE_CHANNEL)).

Definition reserved_entry (k : nat) (e : OpcodeHandler) : bool :=
  negb (reserved k e) || negb (client_admitted true true e) || (to_node_procedure e =? 0).

Lemma table_reserved : table_check reserved_entry = true.
Proof. vm_compute. reflexivity. Qed.

(** Entries whose name is that of another opcode. *)
Definition misplaced : list string := ["CMSG_QUERY_VEHICLE_STATUS"; "CLUSTER_PLAYER_DATA"]%string.

Definition named_at (n : string) : list Z :=
  snd <$> List.filter (fun '(m, _) => String.eqb m n) Opcodes.

Definition aligned_entry (k : nat) (e : OpcodeHandler) : bool :=
  match name e with
  | None => true
  | Some n =>
      let shift := if bool_decide (n ∈ misplaced) then 1 else 0 in
      forallb (fun v => v =? Z.of_nat k + shift) (named_at n)
  end.

Lemma table_aligned : table_check aligned_entry = true.
Proof. vm_compute. reflexivity. Qed.

Lemma elem_of_named_at n v : v ∈ named_at n <-> (n, v) ∈ Opcodes.
Proof.
  unfold named_at. rewrite list_elem_of_fmap. split.
  - intros ([m w] & -> & H). apply list_elem_of_In, filter_In in H as [H E]. cbn in E.
    apply String.eqb_eq in E as ->. by apply list_elem_of_In.
  - intros H. exists (n, v). split; [done|]. apply list_elem_of_In, filter_In.
    split; [by apply list_elem_of_In|]. cbn. apply String.eqb_refl.
Qed.

Lemma elem_of_HandlePacket e p procedure a :
  a ∈ HandlePacket e p procedure <->
  (a = ToNode p /\ has_flag procedure PACKET_SEND_NODE = true)
  \/ (a = ToClient p /\ has_flag procedure PACKET_SEND_CLIENT = true)
  \/ (processed procedure = true
      /\ a = match handler e with Some h => CallHandler h p | None => CallNull p end).
Proof.
  unfold HandlePacket, processed. rewrite !elem_of_app.
  destruct (has_flag procedure PACKET_SEND_NODE), (has_flag procedure PACKET_SEND_CLIENT),
    (has_flag procedure PACKET_PROCESS); rewrite ?list_elem_of_singleton, ?elem_of_nil; intuition congruence.
Qed.

Lemma to_node_flags e : has_flag (to_node_procedure e) PACKET_SEND_CLIENT = false.
Proof. unfold to_node_procedure. by destruct (to_node e). Qed.

Lemma from_node_flags e : has_flag (from_node_procedure e) PACKET_SEND_NODE = false.
Proof. unfold from_node_procedure. by destruct (from_node e). Qed.

(** What the destinations of an entry stand for. *)
Lemma to_node_sent e : has_flag (to_node_procedure e) PACKET_SEND_NODE = true
  <-> to_node e = PACKET_STATE_NODE \/ to_node e = PACKET_STATE_BOTH.
Proof. unfold to_node_procedure. destruct (to_node e); vm_compute; intuition congruence. Qed.
Lemma to_node_processed e : processed (to_node_procedure e) = true
  <-> to_node e = PACKET_STATE_LOGON \/ to_node e = PACKET_STATE_BOTH.
Proof. unfold to_node_procedure. destruct (to_node e); vm_compute; intuition congruence. Qed.
Lemma from_node_sent e : has_flag (from_node_procedure e) PACKET_SEND_CLIENT = true
  <-> from_node e = PACKET_STATE_PASS \/ from_node e = PACKET_STATE_BOTH.
Proof. unfold from_node_procedure. destruct (from_node e); vm_compute; intuition congruence. Qed.
Lemma from_node_processed e : processed (from_node_procedure e) = true
  <-> from_node e = PACKET_STATE_LOGON \/ from_node e = PACKET_STATE_BOTH.
Proof. unfold from_node_procedure. destruct (from_node e); vm_compute; intuition congruence. Qed.

Lemma called_iff (e : OpcodeHandler) (p : WorldPacket) (a : Action) (P : Prop) :
  (P -> is_Some (handler e)) ->
  P /\ a = match handler e with Some h => CallHandler h p | None => CallNull p end
  <-> exists h, handler e = Some h /\ a = CallHandler h p /\ P.
Proof.
  intros Hh. split.
  - intros [HP ->]. destruct (Hh HP) as [h ->]. eauto.
  - by intros (h & -> & -> & HP).
Qed.

Lemma elem_of_route_from_client authed player p a :
  a ∈ route_from_client authed player p <->
  exists e, opcode_entry (GetOpcode p) = Some e /\ client_admitted authed player e = true
    /\ a ∈ HandlePacket e p (to_node_procedure e).
Proof.
  unfold route_from_client. destruct (opcode_entry _) as [e|] eqn:He.
  - destruct (client_admitted authed player e) eqn:Hc; [|rewrite elem_of_nil]; split;
      [eauto|by intros (? & [= <-] & _ & ?)|done|by intros (? & [= <-] & ? & _); congruence].
  - rewrite elem_of_nil. split; [done|by intros (? & ? & _)].
Qed.

Lemma elem_of_route_from_node p a :
  a ∈ route_from_node p <->
  exists e, opcode_entry (GetOpcode p) = Some e /\ a ∈ HandlePacket e p (from_node_procedure e).
Proof.
  unfold route_from_node. destruct (opcode_entry _) as [e|]; [|rewrite elem_of_nil; split; [done|by intros (? & ? & _)]].
  split; [eauto|by intros (? & [= <-] & ?)].
Qed.

Lemma client_admitted_mono authed player e :
  client_admitted authed player e = true -> client_admitted true true e = true.
Proof. unfold client_admitted. do 3 case_bool_decide; destruct authed, player; done. Qed.

(** ** Properties *)

(** C35. Routing follows the table, exactly: what a packet from a client leads
    to is what the entry of its opcode says, if the entry admits the client:
    the packet is passed to the node when the entry's destination is the node or
    both, and the handler of that very entry is called when it is the cluster
    server or both; and a packet from a node is passed to the client, or given
    to the handler of its entry, in the same way.  No entry the table sends to
    the cluster server lacks a handler, so that none is called through null, and
    no packet goes back where it came from. *)
Theorem routing_typed authed player p a :
  (a ∈ route_from_client authed player p <->
     exists e, opcode_entry (GetOpcode p) = Some e /\ client_admitted authed player e = true
       /\ (a = ToNode p /\ (to_node e = PACKET_STATE_NODE \/ to_node e = PACKET_STATE_BOTH)
           \/ exists h, handler e = Some h /\ a = CallHandler h p
                /\ (to_node e = PACKET_STATE_LOGON \/ to_node e = PACKET_STATE_BOTH)))
  /\ (a ∈ route_from_node p <->
     exists e, opcode_entry (GetOpcode p) = Some e
       /\ (a = ToClient p /\ (from_node e = PACKET_STATE_PASS \/ from_node e = PACKET_STATE_BOTH)
           \/ exists h, handler e = Some h /\ a = CallHandler h p
                /\ (from_node e = PACKET_STATE_LOGON \/ from_node e = PACKET_STATE_BOTH))).
Proof.
  split.
  - rewrite elem_of_route_from_client. apply exist_proper. intros e.
    apply and_iff_compat_l'. intros He. apply and_iff_compat_l. rewrite elem_of_HandlePacket, to_node_flags, to_node_sent, to_node_processed.
    pose proof (table_checked _ _ _ table_handlers (opcode_entry_lookup _ _ He)) as Hh. unfold has_handler in Hh.
    rewrite (called_iff _ _ _ (to_node e = PACKET_STATE_LOGON \/ to_node e = PACKET_STATE_BOTH));
      [split; [intros [?|[[_ ?]|?]]; [by left|done|by right]|intros [?|?]; [by left|by right; right]]|].
    intros Hp%to_node_processed. rewrite Hp, orb_false_r in Hh. by apply bool_decide_eq_true in Hh.
  - rewrite elem_of_route_from_node. apply exist_proper. intros e.
    apply and_iff_compat_l'. intros He. rewrite elem_of_HandlePacket, from_node_flags, from_node_sent, from_node_processed.
    pose proof (table_checked _ _ _ table_handlers (opcode_entry_lookup _ _ He)) as Hh. unfold has_handler in Hh.
    rewrite (called_iff _ _ _ (from_node e = PACKET_STATE_LOGON \/ from_node e = PACKET_STATE_BOTH));
      [split; [intros [[_ ?]|[?|?]]; [done|by left|by right]|intros [?|?]; [by right; left|by right; right]]|].
    intros Hp%from_node_processed. rewrite Hp, orb_true_r, orb_false_r in Hh. by apply bool_decide_eq_true in Hh.
Qed.

Lemma routing_typed_witness :
  let p := WorldPacket_new 0x37 in
  CallHandler ClientSession.HandleCharEnumOpcode p ∈ route_from_client true false p
  /\ ToNode p ∉ route_from_client true false p.
Proof.
  cbv zeta. set (p := WorldPacket_new 0x37). split.
  - apply (proj1 (routing_typed true false p (CallHandler ClientSession.HandleCharEnumOpcode p))).
    eexists. split; [vm_compute; reflexivity|]. split; [vm_compute; reflexivity|]. right.
    eexists. split; [vm_compute; reflexivity|]. split; [reflexivity|]. left. vm_compute. reflexivity.
  - intros H. apply (proj1 (routing_typed true false p (ToNode p))) in H as (e & He & _ & [[_ Hn]|(h & _ & Hc & _)]); [|done].
    vm_compute in He. injection He as <-. by destruct Hn.
Defined.

(** C8. What a client can make the server do: nothing before it is
    authenticated and has no player; while it has no player in the world, it
    reaches at most the four handlers of the character selection; and it can
    never have an effect with a packet that bears an opcode reserved for the
    cluster (the ones nodes and the cluster server exchange) or the number of
    a server message, [SMSG_AVAILABLE_VOICE_CHANNEL] excepted. *)
Theorem client_gate authed player p a :
  0 <= GetOpcode p -> a ∈ route_from_client authed player p ->
  authed || player = true
  /\ (player = false -> forall h q, a = CallHandler h q -> h ∈ login_handlers)
  /\ GetOpcode p < NUM_CLIENT_MSG_TYPES
  /\ (GetOpcode p <> SMSG_AVAILABLE_VOICE_CHANNEL ->
      forall n, LookupOpcodeName (GetOpcode p) = Some n -> String.prefix "SMSG_" n = false).
Proof.
  intros H0 Ha. apply elem_of_route_from_client in Ha as (e & He & Hadm & Ha).
  pose proof (opcode_entry_lookup _ _ He) as Hl.
  pose proof (table_checked _ _ _ table_login Hl) as Hlogin.
  pose proof (table_checked _ _ _ table_reserved Hl) as Hres.
  unfold reserved_entry in Hres. rewrite (client_admitted_mono _ _ _ Hadm), orb_false_r in Hres.
  assert (to_node_procedure e =? 0 = false) as Hz.
  { apply Z.eqb_neq. intros E. rewrite E in Ha. by apply elem_of_nil in Ha. }
  rewrite Hz, orb_false_r in Hres. apply negb_true_iff in Hres. unfold reserved in Hres.
  rewrite Z2Nat.id in Hres by done. apply orb_false_iff in Hres as [Hc Hs].
  split; [|split; [|split]].
  - unfold client_admitted in Hadm. by destruct authed, player; rewrite ?andb_false_r in Hadm.
  - intros -> h q ->. unfold client_admitted in Hadm. rewrite !andb_false_r, !orb_false_r in Hadm.
    apply andb_true_iff in Hadm as [Hst _]. unfold login_entry in Hlogin. rewrite Hst in Hlogin.
    apply elem_of_HandlePacket in Ha as [[? _]|[[? _]|[Hp Hh]]]; [done..|].
    rewrite Hp in Hlogin. destruct (handler e); simplify_eq. by apply bool_decide_eq_true in Hlogin.
  - by bool_props.
  - intros Hv n Hn. unfold LookupOpcodeName in Hn. rewrite He in Hn.
    apply Z.eqb_neq in Hv. rewrite Hv, andb_true_r in Hs. unfold server_message in Hs. by rewrite Hn in Hs.
Qed.

Lemma client_gate_witness :
  let p := WorldPacket_new 0x37 in
  CallHandler ClientSession.HandleCharEnumOpcode p ∈ route_from_client true false p
  /\ ClientSession.HandleCharEnumOpcode ∈ login_handlers.
Proof.
  cbv zeta. set (p := WorldPacket_new 0x37).
  assert (CallHandler ClientSession.HandleCharEnumOpcode p ∈ route_from_client true false p) as H
    by (vm_compute; left).
  split; [exact H|].
  destruct (client_gate true false p (CallHandler ClientSession.HandleCharEnumOpcode p)) as (_ & Hl & _).
  - vm_compute. discriminate.
  - exact H.
  - exact (Hl eq_refl _ _ eq_refl).
Defined.

(** The table agrees with the enumeration: an entry stands at the position
    of the opcode whose name it bears, so that a packet is routed by the entry
    written for it.  The two entries in [misplaced] stand one position before
    the opcode they are named after. *)
Theorem opcode_alignment n v k e :
  (n, v) ∈ Opcodes -> opcodeTable !! k = Some e -> name e = Some n ->
  v = Z.of_nat k + (if bool_decide (n ∈ misplaced) then 1 else 0).
Proof.
  intros Hv He Hn. pose proof (table_checked _ _ _ table_aligned He) as H.
  unfold aligned_entry in H. rewrite Hn, forallb_forall in H.
  apply Z.eqb_eq, H, list_elem_of_In, elem_of_named_at, Hv.
Qed.

Lemma opcode_alignment_witness :
  exists e, opcodeTable !! 0x37%nat = Some e /\ name e = Some "CMSG_CHAR_ENUM"%string /\ 0x37 = Z.of_nat 0x37 + 0.
Proof.
  eexists. split; [vm_compute; reflexivity|]. split; [reflexivity|].
  apply (opcode_alignment "CMSG_CHAR_ENUM" 0x37 0x37%nat
    (entry "CMSG_CHAR_ENUM" true STATUS_AUTHED PACKET_STATE_LOGON PACKET_STATE_NULL
       ClientSession.HandleCharEnumOpcode)).
  - apply elem_of_named_at. vm_compute. left.
  - vm_compute. reflexivity.
  - reflexivity.
Defined.

(** The number the nodes use for [CLUSTER_PLAYER_DATA] has the zero entry, and
    its entry stands at the number of [NODE_PLAYERHOLDER_DATA]. *)
Example cluster_player_data_misplaced :
  ("CLUSTER_PLAYER_DATA"%string, 0x529) ∈ Opcodes
  /\ opcode_entry 0x529 = Some zero_entry
  /\ LookupOpcodeName 0x528 = Some "CLUSTER_PLAYER_DATA"%string
  /\ LookupOpcodeName 0x529 = None.
Proof. repeat split; try (vm_compute; reflexivity). apply elem_of_named_at. vm_compute. left. Qed.

(** A client in the world can have a server message forwarded to its node. *)
Example voice_channel_forwarded :
  let p := WorldPacket_new SMSG_AVAILABLE_VOICE_CHANNEL in
  route_from_client true true p = [ToNode p]
  /\ LookupOpcodeName SMSG_AVAILABLE_VOICE_CHANNEL = Some "SMSG_AVAILABLE_VOICE_CHANNEL"%string.
Proof. vm_compute. split; reflexivity. Qed.
