(* ===== verification/Stream.v ===== *)
(** * Sockets: packets over a byte stream

    [shade/Server/Generics/Socket.cpp] with the framing of the links between
    the cluster server and the nodes ([shared/FlexiHeader.hpp],
    [ControlSocket.cpp], [NodeSocket.cpp]) and of the clients
    ([shared/BlizzardHeader.hpp], [ClientSocket.cpp]).  Input is the automaton
    [handle_input_missing_data] fed with whatever pieces [recv] returns;
    output is the buffer and the queue behind it, emptied in whatever pieces
    [send] accepts.  The header format and the treatment of a complete packet
    are the virtual methods of [Socket]: the interface [SocketProtocol]. *)
From Stdlib Require Import Ascii String ZArith Lia.
From stdpp Require Import base list strings.
From S2P Require Import Prelude ByteBuffer OpcodeTable Opcodes.

Open Scope Z_scope.

(** ** Headers

    The host is little-endian: [EndianConvert] does nothing and
    [EndianConvertReverse] reverses the [n] bytes of a value. *)
Definition EndianConvertReverse (n : nat) (v : Z) : Z := le_combine (rev (le_split n v)).

Module Flexi.
Definition ServerPktHeader (size cmd : Z) : list Z :=
  let m_size := u32 size in
  let cmd := u16 cmd in
  [Z.land 0xFF (Z.shiftr m_size 24); Z.land 0xFF (Z.shiftr m_size 16);
   Z.land 0xFF (Z.shiftr m_size 8); Z.land 0xFF m_size;
   Z.land 0xFF cmd; Z.land 0xFF (Z.shiftr cmd 8)].

(** [struct ClientPktHeader { uint32 size; uint16 cmd; }], packed. *)
Definition sizeof_ClientPktHeader : nat := 6.
Definition load_size (h : list Z) : Z := le_combine (take 4 h).
Definition load_cmd (h : list Z) : Z := le_combine (take 2 (drop 4 h)).
End Flexi.

Module Blizzard.
Definition isLargePacket (size : Z) : bool := 0x7FFF <? size.

Definition ServerPktHeader (size cmd : Z) : list Z :=
  let size := u32 size in
  let cmd := u16 cmd in
  (if isLargePacket size then [u8 (Z.lor 0x80 (Z.land 0xFF (Z.shiftr size 16)))] else [])
  ++ [Z.land 0xFF (Z.shiftr size 8); Z.land 0xFF size;
      Z.land 0xFF cmd; Z.land 0xFF (Z.shiftr cmd 8)].

Definition getHeaderLength (size : Z) : Z := 2 + (if isLargePacket (u32 size) then 3 else 2).

(** [struct ClientPktHeader { uint16 size; uint32 cmd; }], packed. *)
Definition sizeof_ClientPktHeader : nat := 6.
Definition load_size (h : list Z) : Z := le_combine (take 2 h).
Definition load_cmd (h : list Z) : Z := le_combine (take 4 (drop 2 h)).
End Blizzard.

(** ** Header encryption

    [AuthCrypt]: the cipher itself, ARC4 of the OpenSSL library, is a
    parameter of the definitions that use it. *)
Section AuthCrypt.
Context {Key : Type} (UpdateData : list Z -> Key -> list Z * Key).

Record AuthCrypt := mkAuthCrypt {
  _clientDecrypt : Key; _serverEncrypt : Key; _initialized : bool
}.

Definition DecryptRecv (data : list Z) (c : AuthCrypt) : list Z * AuthCrypt :=
  if negb (_initialized c) then (data, c)
  else let '(data, k) := UpdateData data (_clientDecrypt c) in
       (data, mkAuthCrypt k (_serverEncrypt c) (_initialized c)).

Definition EncryptSend (data : list Z) (c : AuthCrypt) : list Z * AuthCrypt :=
  if negb (_initialized c) then (data, c)
  else let '(data, k) := UpdateData data (_serverEncrypt c) in
       (data, mkAuthCrypt (_clientDecrypt c) k (_initialized c)).
End AuthCrypt.
Arguments AuthCrypt : clear implicits.

(** ** Input *)

(** The virtual methods: the size of a header, what [_handleInputHeader] makes
    of a complete one (opcode and payload size, or an error), and what
    [_processIncoming] does with a complete packet ([-1] closes the socket). *)
Class SocketProtocol (P : Type) := {
  _clientHeaderSize : nat;
  _handleInputHeader : list Z -> P -> option (Z * Z) * P;
  _processIncoming : WorldPacket -> P -> Z * P;
  header_nonempty : (0 < _clientHeaderSize)%nat
}.

(** [_header] holds the bytes of the header received so far; [_recvWPct] the
    opcode and size of the packet being received, [_recvPct] its bytes so far. *)
Record SocketIn (P : Type) := mkSocketIn {
  _header : list Z;
  _recvWPct : option (Z * Z);
  _recvPct : list Z;
  proto : P
}.
Arguments mkSocketIn {P}.
Arguments _header {P}.
Arguments _recvWPct {P}.
Arguments _recvPct {P}.
Arguments proto {P}.

#[local] Arguments Nat.ltb : simpl never.
#[local] Arguments Nat.leb : simpl never.
#[local] Arguments Nat.eqb : simpl never.
#[local] Arguments Nat.sub : simpl never.
#[local] Arguments Z.leb : simpl never.
#[local] Arguments take : simpl never.
#[local] Arguments drop : simpl never.
#[local] Arguments Z.to_nat : simpl never.

(** How [handle_input_missing_data] ends: all bytes used at a packet's end, in
    the middle of a packet ([EWOULDBLOCK]), with an error, or in a failed
    [ACE_ASSERT]. *)
Inductive verdict := Drained | WouldBlock | Failed | Aborted | OutOfFuel.

Inductive round_result (P : Type) :=
| Stop (v : verdict) (s : SocketIn P)
| Next (message_block : list Z) (s : SocketIn P).
Arguments Stop {P}.
Arguments Next {P}.

(** [WorldPacket(cmd, size)], resized to the payload and filled with it. *)
Definition received_packet (cmd : Z) (payload : list Z) : WorldPacket :=
  let b := bb_resize (Z.of_nat (length payload)) ByteBuffer_new in
  mkWP (u16 cmd) (mkBB (_rpos b) (_wpos b) payload).

Section Input.
Context `{SocketProtocol P}.

Definition SocketIn_new (p : P) : SocketIn P := mkSocketIn [] None [] p.

Definition header_space (s : SocketIn P) : nat := _clientHeaderSize - length (_header s).
Definition payload_space (s : SocketIn P) : nat :=
  match _recvWPct s with
  | Some (_, size) => Z.to_nat size - length (_recvPct s)
  | None => 0
  end.

Definition handle_input_payload (mb : list Z) (s : SocketIn P) : round_result P :=
  match _recvWPct s with
  | None => Stop Aborted s
  | Some (cmd, _) =>
      if negb (payload_space s =? 0)%nat || negb (header_space s =? 0)%nat then Stop Aborted s
      else
        let '(ret, p) := _processIncoming (received_packet cmd (_recvPct s)) (proto s) in
        let s := mkSocketIn [] None [] p in
        if ret =? -1 then Stop Failed s else Next mb s
  end.

Definition handle_payload_bytes (mb : list Z) (s : SocketIn P) : round_result P :=
  match _recvWPct s with
  | None => Stop Failed s
  | Some _ =>
      if (0 <? payload_space s)%nat then
        let to_data := Nat.min (length mb) (payload_space s) in
        let s := mkSocketIn (_header s) (_recvWPct s) (_recvPct s ++ take to_data mb) (proto s) in
        let mb := drop to_data mb in
        if (0 <? payload_space s)%nat
        then if (length mb =? 0)%nat then Stop WouldBlock s else Stop Aborted s
        else handle_input_payload mb s
      else handle_input_payload mb s
  end.

(** One round of the [while] loop. *)
Definition round (mb : list Z) (s : SocketIn P) : round_result P :=
  if (0 <? header_space s)%nat then
    let to_header := Nat.min (length mb) (header_space s) in
    let s := mkSocketIn (_header s ++ take to_header mb) (_recvWPct s) (_recvPct s) (proto s) in
    let mb := drop to_header mb in
    if (0 <? header_space s)%nat
    then if (length mb =? 0)%nat then Stop WouldBlock s else Stop Aborted s
    else if bool_decide (is_Some (_recvWPct s)) then Stop Aborted s
    else
      match _handleInputHeader (_header s) (proto s) with
      | (None, p) => Stop Failed (mkSocketIn (_header s) (_recvWPct s) (_recvPct s) p)
      | (Some (cmd, size), p) =>
          handle_payload_bytes mb (mkSocketIn (_header s) (Some (cmd, size)) [] p)
      end
  else handle_payload_bytes mb s.

Fixpoint input_loop (fuel : nat) (mb : list Z) (s : SocketIn P) : verdict * SocketIn P :=
  match mb with
  | [] => (Drained, s)
  | _ :: _ =>
      match fuel with
      | O => (OutOfFuel, s)
      | S fuel =>
          match round mb s with
          | Stop v s => (v, s)
          | Next mb s => input_loop fuel mb s
          end
      end
  end.

(** Every round uses at least one byte. *)
Definition handle_input_missing_data (chunk : list Z) (s : SocketIn P) : verdict * SocketIn P :=
  input_loop (length chunk) chunk s.

(** What [recv] may return. *)
Inductive recv_result := Received (chunk : list Z) | RecvError (again : bool) | PeerClosed.

(** [handle_input] of a socket that is not closing; [recv_size] is 4096. *)
Definition handle_input (r : recv_result) (s : SocketIn P) : Z * SocketIn P :=
  match r with
  | RecvError again => ((if again then 0 else -1), s)
  | PeerClosed => (-1, s)
  | Received chunk =>
      let '(v, s) := handle_input_missing_data chunk s in
      ((match v with
        | Drained => if (length chunk =? 4096)%nat then 1 else 0
        | WouldBlock => 0
        | _ => -1
        end), s)
  end.

(** The reference: the stream taken one byte at a time. *)
Definition deliver (s : SocketIn P) (cmd : Z) (payload : list Z) : option (SocketIn P) :=
  let '(ret, p) := _processIncoming (received_packet cmd payload) (proto s) in
  if ret =? -1 then None else Some (SocketIn_new p).

Definition feed1 (s : SocketIn P) (b : Z) : option (SocketIn P) :=
  match _recvWPct s with
  | None =>
      let h := _header s ++ [b] in
      if (length h <? _clientHeaderSize)%nat then Some (mkSocketIn h None [] (proto s))
      else
        match _handleInputHeader h (proto s) with
        | (None, _) => None
        | (Some (cmd, size), p) =>
            let s := mkSocketIn h (Some (cmd, size)) [] p in
            if size <=? 0 then deliver s cmd [] else Some s
        end
  | Some (cmd, size) =>
      let d := _recvPct s ++ [b] in
      if (length d <? Z.to_nat size)%nat then Some (mkSocketIn (_header s) (_recvWPct s) d (proto s))
      else deliver s cmd d
  end.

Fixpoint feed (bytes : list Z) (s : SocketIn P) : option (SocketIn P) :=
  match bytes with
  | [] => Some s
  | b :: bytes => match feed1 s b with Some s => feed bytes s | None => None end
  end.

(** Pieces as they arrive; [None] once the socket is to be closed. *)
Fixpoint receive (chunks : list (list Z)) (s : SocketIn P) : option (SocketIn P) :=
  match chunks with
  | [] => Some s
  | c :: chunks =>
      let '(ret, s) := handle_input (Received c) s in
      if ret =? -1 then None else receive chunks s
  end.

(** Between two bytes: in a header, or in a payload with bytes to come. *)
Definition in_ok (s : SocketIn P) : Prop :=
  match _recvWPct s with
  | None => (length (_header s) < _clientHeaderSize)%nat /\ _recvPct s = []
  | Some (_, size) =>
      length (_header s) = _clientHeaderSize /\ (length (_recvPct s) < Z.to_nat size)%nat
  end.

Lemma in_ok_new p : in_ok (SocketIn_new p).
Proof. split; [apply header_nonempty|done]. Qed.

Lemma feed_app a b s : feed (a ++ b) s = feed a s ≫= feed b.
Proof. revert s. induction a as [|x a IH]; intros s; cbn; [done|]. by destruct (feed1 s x). Qed.

Lemma deliver_ok s cmd d s' : deliver s cmd d = Some s' -> in_ok s'.
Proof.
  unfold deliver. destruct (_processIncoming _ _) as [r p]. case_if; [done|].
  intros [= <-]. apply in_ok_new.
Qed.

Lemma feed1_ok s b s' : in_ok s -> feed1 s b = Some s' -> in_ok s'.
Proof.
  unfold in_ok at 1, feed1. destruct (_recvWPct s) as [[cmd size]|] eqn:Ew.
  - intros [Hh Hp]. destruct (Nat.ltb_spec (length (_recvPct s ++ [b])) (Z.to_nat size)) as [Hd|Hd].
    + intros [= <-]. done.
    + apply deliver_ok.
  - intros [Hh Hp]. destruct (Nat.ltb_spec (length (_header s ++ [b])) _clientHeaderSize) as [Hd|Hd].
    + intros [= <-]. done.
    + destruct (_handleInputHeader _ _) as [[[cmd size]|] p]; [|done].
      destruct (Z.leb_spec size 0).
      * apply deliver_ok.
      * intros [= <-]. unfold in_ok. cbn in *. rewrite length_app in *. cbn in *. lia.
Qed.

Lemma feed_ok bytes s s' : in_ok s -> feed bytes s = Some s' -> in_ok s'.
Proof.
  revert s. induction bytes as [|b bytes IH]; cbn; intros s Hs H'; [by simplify_eq|].
  destruct (feed1 s b) eqn:E; [|done]. eauto using feed1_ok.
Qed.

(** Bytes that do not complete the header, or the payload, are only stored. *)
Lemma feed_header bytes s :
  _recvWPct s = None -> _recvPct s = [] -> (length (_header s ++ bytes) < _clientHeaderSize)%nat ->
  feed bytes s = Some (mkSocketIn (_header s ++ bytes) None [] (proto s)).
Proof.
  revert s. induction bytes as [|b bytes IH]; intros s Hw Hr Hl; cbn.
  - rewrite app_nil_r. destruct s; cbn in *. by subst.
  - unfold feed1. rewrite Hw. rewrite length_app in Hl. cbn in Hl.
    rewrite (proj2 (Nat.ltb_lt _ _)) by (rewrite length_app; cbn; lia).
    rewrite IH; cbn; [by rewrite <- app_assoc|done..|rewrite !length_app; cbn; lia].
Qed.

Lemma feed_payload bytes s cmd size :
  _recvWPct s = Some (cmd, size) -> (length (_recvPct s ++ bytes) < Z.to_nat size)%nat ->
  feed bytes s = Some (mkSocketIn (_header s) (_recvWPct s) (_recvPct s ++ bytes) (proto s)).
Proof.
  revert s. induction bytes as [|b bytes IH]; intros s Hw Hl; cbn.
  - rewrite app_nil_r. by destruct s.
  - unfold feed1. rewrite Hw. rewrite length_app in Hl. cbn in Hl.
    rewrite (proj2 (Nat.ltb_lt _ _)) by (rewrite length_app; cbn; lia).
    rewrite IH; cbn; [by rewrite <- app_assoc|done..|rewrite !length_app; cbn; lia].
Qed.

Lemma split_at (k : nat) (mb : list Z) :
  (0 < k <= length mb)%nat -> exists b, mb = take (k - 1) mb ++ [b] ++ drop k mb /\ take k mb = take (k - 1) mb ++ [b].
Proof.
  intros Hk. destruct (lookup_lt_is_Some_2 mb (k - 1)%nat) as [b Hb]; [lia|]. exists b.
  assert (take k mb = take (k - 1) mb ++ [b]) as E.
  { replace k with (S (k - 1))%nat at 1 by lia. by apply take_S_r. }
  split; [|done]. by rewrite app_assoc, <- E, take_drop.
Qed.

(** Bytes that complete the header. *)
Lemma feed_header_full mb s :
  in_ok s -> _recvWPct s = None -> (header_space s <= length mb)%nat ->
  feed mb s =
    (let h := _header s ++ take (header_space s) mb in
     match _handleInputHeader h (proto s) with
     | (None, _) => None
     | (Some (cmd, size), p) =>
         let s1 := mkSocketIn h (Some (cmd, size)) [] p in
         (if size <=? 0 then deliver s1 cmd [] else Some s1) ≫= feed (drop (header_space s) mb)
     end).
Proof.
  unfold in_ok, header_space. intros Hs Hw Hk. rewrite Hw in Hs. destruct Hs as [Hh Hp].
  set (k := (_clientHeaderSize - length (_header s))%nat) in *.
  destruct (split_at k mb) as (b & Emb & Etk); [lia|].
  rewrite Emb at 1. rewrite Etk. rewrite feed_app, feed_header; [|done|done|].
  2: { rewrite length_app, length_take. lia. }
  cbn. unfold feed1. cbn. rewrite <- app_assoc.
  rewrite (proj2 (Nat.ltb_ge _ _)) by (rewrite !length_app, length_take; cbn; lia).
  destruct (_handleInputHeader _ _) as [[[cmd size]|] p]; [|done]. cbn.
  by destruct (if size <=? 0 then _ else _).
Qed.

(** Bytes that complete the payload. *)
Lemma feed_payload_full mb s cmd size :
  in_ok s -> _recvWPct s = Some (cmd, size) -> (payload_space s <= length mb)%nat ->
  feed mb s = deliver s cmd (_recvPct s ++ take (payload_space s) mb) ≫= feed (drop (payload_space s) mb).
Proof.
  unfold in_ok, payload_space. intros Hs Hw. rewrite Hw in Hs |- *. intros Hk. destruct Hs as [Hh Hp].
  set (k := (Z.to_nat size - length (_recvPct s))%nat) in *.
  destruct (split_at k mb) as (b & Emb & Etk); [lia|].
  rewrite Emb at 1. rewrite Etk. rewrite feed_app, (feed_payload _ _ cmd size); [|done|].
  2: { rewrite length_app, length_take. lia. }
  cbn. unfold feed1. cbn. rewrite Hw, <- app_assoc.
  rewrite (proj2 (Nat.ltb_ge _ _)) by (rewrite !length_app, length_take; cbn; lia).
  unfold deliver. cbn. destruct (_processIncoming _ _) as [r p]. by case_if.
Qed.

#[local] Arguments handle_input_payload : simpl never.
#[local] Arguments handle_payload_bytes : simpl never.
#[local] Arguments payload_space : simpl never.
#[local] Arguments header_space : simpl never.

(** What a round amounts to in terms of the reference. *)
Definition round_agrees (whole : option (SocketIn P)) (len : nat) (r : round_result P) : Prop :=
  match r with
  | Stop WouldBlock s => whole = Some s
  | Stop Failed _ => whole = None
  | Stop _ _ => False
  | Next mb s => in_ok s /\ (length mb < len)%nat /\ whole = feed mb s
  end.
#[local] Arguments round_agrees : simpl never.

Lemma payload_space_eq h cmd size d (p : P) :
  payload_space (mkSocketIn h (Some (cmd, size)) d p) = (Z.to_nat size - length d)%nat.
Proof. done. Qed.
Lemma header_space_eq h w d (p : P) :
  header_space (mkSocketIn h w d p) = (_clientHeaderSize - length h)%nat.
Proof. done. Qed.

Lemma payload_agrees mb s cmd size len :
  _recvWPct s = Some (cmd, size) -> Z.to_nat size = length (_recvPct s) ->
  length (_header s) = _clientHeaderSize -> (length mb < len)%nat ->
  round_agrees (deliver s cmd (_recvPct s) ≫= feed mb) len (handle_input_payload mb s).
Proof.
  intros Hw Hz Hh Hl. unfold handle_input_payload, payload_space, header_space, deliver.
  rewrite Hw, Hh, Hz, !Nat.sub_diag. cbn [Nat.eqb negb orb].
  destruct (_processIncoming _ _) as [r p]. unfold round_agrees.
  destruct (r =? -1); [done|]. split_and!; [apply in_ok_new|done|done].
Qed.

Lemma payload_bytes_agree mb s cmd size len :
  _recvWPct s = Some (cmd, size) -> in_ok s -> (length mb <= len)%nat ->
  round_agrees (feed mb s) len (handle_payload_bytes mb s).
Proof.
  intros Hw Hok Hlen. pose proof Hok as Hs. unfold in_ok in Hs. rewrite Hw in Hs. destruct Hs as [Hh Hp].
  unfold handle_payload_bytes. rewrite Hw.
  assert (payload_space s = Z.to_nat size - length (_recvPct s))%nat as Es
    by (unfold payload_space; by rewrite Hw).
  rewrite (proj2 (Nat.ltb_lt 0 (payload_space s))) by lia.
  set (k := payload_space s) in *. cbv zeta. rewrite payload_space_eq.
  destruct (Nat.le_gt_cases k (length mb)) as [Hk|Hk].
  - rewrite (feed_payload_full mb s cmd size) by done. fold k.
    rewrite Nat.min_r by done. rewrite length_app, length_take, (proj2 (Nat.ltb_ge 0 _)) by lia.
    set (s1 := mkSocketIn _ _ _ _).
    change (deliver s) with (deliver s1). change (_recvPct s ++ take k mb) with (_recvPct s1).
    apply (payload_agrees _ _ _ size); [done| |done|rewrite length_drop; lia].
    cbn. rewrite length_app, length_take. lia.
  - rewrite Nat.min_l, firstn_all, skipn_all by lia. rewrite length_app, (proj2 (Nat.ltb_lt 0 _)) by lia.
    unfold round_agrees. cbn.
    rewrite (feed_payload _ _ cmd size); [by rewrite Hw|done|rewrite length_app; lia].
Qed.

Lemma round_agree mb s :
  in_ok s -> mb <> [] -> round_agrees (feed mb s) (length mb) (round mb s).
Proof.
  intros Hok Hmb. assert (0 < length mb)%nat by (destruct mb; cbn; [done|lia]).
  destruct (_recvWPct s) as [[cmd size]|] eqn:Hw.
  { unfold round, header_space. pose proof Hok as Hs. unfold in_ok in Hs. rewrite Hw in Hs.
    destruct Hs as [-> _]. rewrite Nat.sub_diag. cbn. by apply (payload_bytes_agree mb s cmd size). }
  pose proof Hok as Hs. unfold in_ok in Hs. rewrite Hw in Hs. destruct Hs as [Hh Hp].
  unfold round. assert (header_space s = _clientHeaderSize - length (_header s))%nat as Es by done.
  rewrite (proj2 (Nat.ltb_lt 0 (header_space s))) by lia.
  set (k := header_space s) in *. cbv zeta. rewrite Hw, header_space_eq. cbn [_header _recvWPct proto].
  destruct (Nat.le_gt_cases k (length mb)) as [Hk|Hk].
  - rewrite feed_header_full by done. fold k.
    rewrite Nat.min_r by done. rewrite length_app, length_take, (proj2 (Nat.ltb_ge 0 _)) by lia.
    rewrite bool_decide_eq_false_2 by (by intros [? ?]).
    cbv zeta. destruct (_handleInputHeader _ _) as [[[cmd size]|] p]; [|by unfold round_agrees].
    set (s1 := mkSocketIn _ _ _ _).
    assert (length (_header s1) = _clientHeaderSize) as E1
      by (cbn; rewrite length_app, length_take; lia).
    destruct (Z.leb_spec size 0) as [Hz|Hz].
    + unfold handle_payload_bytes. change (_recvWPct s1) with (Some (cmd, size)). cbv iota.
      assert (payload_space s1 = 0%nat) as -> by (unfold s1; rewrite payload_space_eq; cbn; lia).
      apply (payload_agrees (drop k mb) s1 cmd size); [done|cbn; lia|exact E1|rewrite length_drop; lia].
    + apply (payload_bytes_agree (drop k mb) s1 cmd size); [done|split; [exact E1|cbn; lia]|rewrite length_drop; lia].
  - rewrite Nat.min_l, firstn_all, skipn_all by lia. rewrite length_app, (proj2 (Nat.ltb_lt 0 _)) by lia.
    unfold round_agrees. cbn.
    rewrite feed_header; [by rewrite Hp|done..|rewrite length_app; lia].
Qed.

Lemma loop_agrees fuel mb s :
  in_ok s -> (length mb <= fuel)%nat ->
  match feed mb s with
  | Some s' => exists v, input_loop fuel mb s = (v, s') /\ (v = Drained \/ v = WouldBlock)
  | None => exists s', input_loop fuel mb s = (Failed, s')
  end.
Proof.
  revert mb s. induction fuel as [|fuel IH]; intros mb s Hok Hl.
  { destruct mb; [|cbn in Hl; lia]. exists Drained. auto. }
  destruct (decide (mb = [])) as [->|Hmb]; [exists Drained; auto|].
  pose proof (round_agree mb s Hok Hmb) as Hr. destruct mb as [|b mb]; [done|].
  cbn [input_loop]. unfold round_agrees in Hr. destruct (round (b :: mb) s) as [v s'|mb' s'].
  - destruct v; try done; rewrite Hr; eauto.
  - destruct Hr as (Hok' & Hl' & ->). apply IH; [done|lia].
Qed.

Lemma handle_input_agrees chunk s :
  in_ok s ->
  match feed chunk s with
  | Some s' => exists r, handle_input (Received chunk) s = (r, s') /\ r <> -1
  | None => exists s', handle_input (Received chunk) s = (-1, s')
  end.
Proof.
  intros Hok. pose proof (loop_agrees (length chunk) chunk s Hok ltac:(lia)) as Hl.
  unfold handle_input, handle_input_missing_data. destruct (feed chunk s) as [s'|].
  - destruct Hl as (v & -> & [-> | ->]); eexists; (split; [reflexivity|]); [|done].
    by case_if.
  - destruct Hl as [s' ->]. eauto.
Qed.

Lemma receive_feed chunks s : in_ok s -> receive chunks s = feed (concat chunks) s.
Proof.
  revert s. induction chunks as [|c chunks IH]; intros s Hok; [done|].
  cbn [receive concat]. rewrite feed_app. pose proof (handle_input_agrees c s Hok) as Hc.
  destruct (feed c s) as [s'|] eqn:Ef; cbn [mbind option_bind].
  - destruct Hc as (r & -> & Hr%Z.eqb_neq). rewrite Hr. eauto using feed_ok.
  - by destruct Hc as [s' ->].
Qed.
End Input.

(** ** The links between the cluster server and the nodes

    [ControlSocket] and [NodeSocket]; [PoolSocket], the node's end, has the
    same text. *)
Section FlexiLink.
Context {Key : Type} (UpdateData : list Z -> Key -> list Z * Key).

Record Link := mkLink {
  _crypt : AuthCrypt Key;
  _singlePacketQueue : list WorldPacket;
  _multiPacketQueue : list WorldPacket
}.

Definition link_handleInputHeader (h : list Z) (l : Link) : option (Z * Z) * Link :=
  let '(h, c) := DecryptRecv UpdateData h (_crypt l) in
  let l := mkLink c (_singlePacketQueue l) (_multiPacketQueue l) in
  let size := EndianConvertReverse 4 (Flexi.load_size h) in
  let cmd := Flexi.load_cmd h in
  if size <? 2 then (None, l) else (Some (u16 cmd, size - 2), l).

Definition link_processIncoming (newPacket : WorldPacket) (l : Link) : Z * Link :=
  match opcode_entry (GetOpcode newPacket) with
  | None => (0, l)
  | Some e =>
      (0, if multipass e
          then mkLink (_crypt l) (_singlePacketQueue l) (_multiPacketQueue l ++ [newPacket])
          else mkLink (_crypt l) (_singlePacketQueue l ++ [newPacket]) (_multiPacketQueue l))
  end.

#[local] Instance link_protocol : SocketProtocol Link := {|
  _clientHeaderSize := Flexi.sizeof_ClientPktHeader;
  _handleInputHeader := link_handleInputHeader;
  _processIncoming := link_processIncoming;
  header_nonempty := ltac:(unfold Flexi.sizeof_ClientPktHeader; lia)
|}.

(** The bytes of a packet on the wire, before encryption. *)
Definition frame (p : WorldPacket) : list Z :=
  Flexi.ServerPktHeader (bb_size (wp_buf p) + 2) (GetOpcode p) ++ _storage (wp_buf p).

Definition delivered (ps : list WorldPacket) (l : Link) : Link :=
  foldl (fun l p => (link_processIncoming p l).2) l ps.

(** [AuthCrypt()]: the links never call [Init]. *)
Definition AuthCrypt_new (k1 k2 : Key) : AuthCrypt Key := mkAuthCrypt k1 k2 false.
Definition Link_new (k1 k2 : Key) : Link := mkLink (AuthCrypt_new k1 k2) [] [].
End FlexiLink.
Arguments Link : clear implicits.

(** ** The clients' end

    [ClientSocket::_handleInputHeader]: the sizes a client may send are
    limited. *)
Section ClientHeader.
Context {Key : Type} (UpdateData : list Z -> Key -> list Z * Key).

Definition client_handleInputHeader (h : list Z) (m_Crypt : AuthCrypt Key)
  : option (Z * Z) * AuthCrypt Key :=
  let '(h, c) := DecryptRecv UpdateData h m_Crypt in
  let size := EndianConvertReverse 2 (Blizzard.load_size h) in
  let cmd := Blizzard.load_cmd h in
  if (size <? 4) || (10240 <? size) || (10240 <? cmd) then (None, c)
  else (Some (u16 cmd, size - 4), c).

Lemma client_header_limits h c cmd size c' :
  client_handleInputHeader h c = (Some (cmd, size), c') -> 0 <= size <= 10236.
Proof.
  unfold client_handleInputHeader. destruct (DecryptRecv _ _ _) as [h' k].
  destruct ((_ || _) || _) eqn:E; [done|]. bool_props. intros [= <- <- _]. lia.
Qed.
End ClientHeader.

Lemma server_header_length size cmd :
  Z.of_nat (length (Blizzard.ServerPktHeader size cmd)) = Blizzard.getHeaderLength size.
Proof.
  unfold Blizzard.ServerPktHeader, Blizzard.getHeaderLength. by destruct (Blizzard.isLargePacket _).
Qed.

(** ** Output *)
Section Output.
(** [ACE_Message_Queue]: whether the queue is over its high water mark, so
    that [enqueue_tail] and [enqueue_head] fail. *)
Context (queue_full : list (list Z) -> bool).

(** [_outBuffer]: its capacity, the position of the read pointer and the bytes
    from there to the write pointer; [wire] is what [send] has taken. *)
Record SocketOut := mkSocketOut {
  _outBufferSize : nat;
  out_rd : nat;
  out_data : list Z;
  msg_queue : list (list Z);
  wire : list Z
}.

Definition SocketOut_new (size : nat) : SocketOut := mkSocketOut size 0 [] [] [].
Definition out_space (o : SocketOut) : nat := _outBufferSize o - (out_rd o + length (out_data o)).

(** [_sendPacket], the header being encrypted. *)
Definition send_bytes (header contents : list Z) (o : SocketOut) : Z * SocketOut :=
  if (length contents + length header <=? out_space o)%nat && bool_decide (msg_queue o = [])
  then (0, mkSocketOut (_outBufferSize o) (out_rd o) (out_data o ++ header ++ contents)
             (msg_queue o) (wire o))
  else if queue_full (msg_queue o) then (-1, o)
  else (0, mkSocketOut (_outBufferSize o) (out_rd o) (out_data o)
             (msg_queue o ++ [header ++ contents]) (wire o)).

(** [wakeup] is whether the reactor takes the request to be woken up. *)
Definition wakeup_output (wakeup : bool) : Z := if wakeup then 0 else -1.

Definition SendPacket (closing wakeup : bool) (header contents : list Z) (o : SocketOut) : Z * SocketOut :=
  if closing then (-1, o)
  else
    let '(r, o) := send_bytes header contents o in
    if r <? 0 then (-1, o) else (wakeup_output wakeup, o).

(** What [send] may return: a number of bytes, or -1. *)
Inductive send_result := Sent (n : nat) | SendError (again : bool).

Definition WRITE_MASK : Z := 2.

Definition with_queue (q : list (list Z)) (sent : list Z) (o : SocketOut) : SocketOut :=
  mkSocketOut (_outBufferSize o) (out_rd o) (out_data o) q (wire o ++ sent).

Definition handle_output_queue (wakeup : bool) (r : send_result) (o : SocketOut) : Z * SocketOut :=
  match msg_queue o with
  | [] => (wakeup_output wakeup, o)
  | mblk :: q =>
      match r with
      | Sent n =>
          if (n =? 0)%nat then (-1, with_queue q [] o)
          else if (n <? length mblk)%nat
          then if queue_full q then (-1, with_queue q (take n mblk) o)
               else (wakeup_output wakeup, with_queue (drop n mblk :: q) (take n mblk) o)
          else ((if bool_decide (q = []) then wakeup_output wakeup else WRITE_MASK), with_queue q mblk o)
      | SendError true =>
          (wakeup_output wakeup, with_queue (if queue_full q then q else mblk :: q) [] o)
      | SendError false => (-1, with_queue q [] o)
      end
  end.

Definition handle_output (closing wakeup : bool) (r1 r2 : send_result) (o : SocketOut) : Z * SocketOut :=
  if closing then (-1, o)
  else if (length (out_data o) =? 0)%nat then handle_output_queue wakeup r2 o
  else
    match r1 with
    | Sent n =>
        if (n =? 0)%nat then (-1, o)
        else if (n <? length (out_data o))%nat
        then (wakeup_output wakeup,
              mkSocketOut (_outBufferSize o) 0 (drop n (out_data o)) (msg_queue o)
                (wire o ++ take n (out_data o)))
        else handle_output_queue wakeup r2
               (mkSocketOut (_outBufferSize o) 0 [] (msg_queue o) (wire o ++ out_data o))
    | SendError true => (wakeup_output wakeup, o)
    | SendError false => (-1, o)
    end.

(** ** Order of the bytes *)
Definition outstanding (o : SocketOut) : list Z := out_data o ++ concat (msg_queue o).
Definition stream (o : SocketOut) : list Z := wire o ++ outstanding o.

Lemma send_stream closing wakeup header contents o r o' :
  SendPacket closing wakeup header contents o = (r, o') -> r <> -1 ->
  stream o' = stream o ++ header ++ contents.
Proof.
  unfold SendPacket, send_bytes. destruct closing; [intros [= <- <-]; done|].
  destruct (_ && _) eqn:Eb; [|destruct (queue_full _)]; cbn; intros [= <- <-] Hr; try done.
  - apply andb_true_iff in Eb as [_ Hq%bool_decide_eq_true]. unfold stream, outstanding. cbn.
    by rewrite Hq, <- !app_assoc, app_nil_r.
  - unfold stream, outstanding. cbn. rewrite concat_app. cbn. by rewrite app_nil_r, <- !app_assoc.
Qed.

Lemma output_queue_stream wakeup r o ret o' :
  queue_full (tail (msg_queue o)) = false ->
  handle_output_queue wakeup r o = (ret, o') -> ret <> -1 -> out_data o = [] ->
  stream o' = stream o.
Proof.
  unfold handle_output_queue. intros Hq. destruct (msg_queue o) as [|mblk q] eqn:Em;
    [by intros [= <- <-]|]. cbn in Hq. rewrite Hq. unfold stream, outstanding, with_queue.
  destruct r as [n|[]]; [|intros [= <- <-]|intros [= <- <-]]; cbn; [| |done].
  - destruct (n =? 0)%nat; [by intros [= <- <-]|].
    destruct (n <? length mblk)%nat; intros [= <- <-] _ ->; rewrite Em; cbn; rewrite <- app_assoc.
    + by rewrite (app_assoc (take n mblk)), take_drop.
    + done.
  - intros _ ->. rewrite Em. by rewrite app_nil_r.
Qed.

Lemma output_stream closing wakeup r1 r2 o ret o' :
  queue_full (tail (msg_queue o)) = false ->
  handle_output closing wakeup r1 r2 o = (ret, o') -> ret <> -1 ->
  stream o' = stream o.
Proof.
  unfold handle_output. intros Hq. destruct closing; [by intros [= <- <-]|].
  destruct (Nat.eqb_spec (length (out_data o)) 0) as [Hz|Hz].
  { intros Ho Hr. eapply output_queue_stream; eauto using nil_length_inv. }
  destruct r1 as [n|[]]; [|by intros [= <- <-]..].
  destruct (n =? 0)%nat; [by intros [= <- <-]|].
  destruct (n <? length (out_data o))%nat.
  - intros [= <- <-] _. unfold stream, outstanding. cbn.
    by rewrite <- app_assoc, (app_assoc (take n _)), take_drop.
  - intros Ho Hr.
    rewrite (output_queue_stream wakeup r2
      (mkSocketOut (_outBufferSize o) 0 [] (msg_queue o) (wire o ++ out_data o)) ret o') by done.
    unfold stream, outstanding. cbn. by rewrite <- app_assoc.
Qed.

(** ** One end of a link sends

    The calls its owner and the reactor make.  A run stops at the first call
    that fails, as the socket is closed then, and is not continued when a block
    taken from the queue could not be put back because the rest of the queue
    is over the mark. *)
Context {Key : Type} (UpdateData : list Z -> Key -> list Z * Key).

Inductive out_op :=
| OpSend (p : WorldPacket) (wakeup : bool)
| OpOutput (wakeup : bool) (r1 r2 : send_result).

Record Sender := mkSender { snd_crypt : AuthCrypt Key; snd_out : SocketOut; snd_sent : list WorldPacket }.

Definition Sender_new (k1 k2 : Key) (size : nat) : Sender :=
  mkSender (AuthCrypt_new k1 k2) (SocketOut_new size) [].

Definition out_step (op : out_op) (s : Sender) : option Sender :=
  match op with
  | OpSend p wakeup =>
      let '(header, c) := EncryptSend UpdateData
        (Flexi.ServerPktHeader (bb_size (wp_buf p) + 2) (GetOpcode p)) (snd_crypt s) in
      let '(r, o) := SendPacket false wakeup header (_storage (wp_buf p)) (snd_out s) in
      if r =? -1 then None else Some (mkSender c o (snd_sent s ++ [p]))
  | OpOutput wakeup r1 r2 =>
      if queue_full (tail (msg_queue (snd_out s))) then None
      else
        let '(r, o) := handle_output false wakeup r1 r2 (snd_out s) in
        if r =? -1 then None else Some (mkSender (snd_crypt s) o (snd_sent s))
  end.

Fixpoint transmit (ops : list out_op) (s : Sender) : option Sender :=
  match ops with
  | [] => Some s
  | op :: ops => match out_step op s with Some s => transmit ops s | None => None end
  end.

Lemma out_step_stream op s s' :
  _initialized (snd_crypt s) = false -> out_step op s = Some s' ->
  stream (snd_out s) = concat (frame <$> snd_sent s) ->
  _initialized (snd_crypt s') = false /\ stream (snd_out s') = concat (frame <$> snd_sent s').
Proof.
  intros Hi. destruct op as [p w|w r1 r2]; cbn [out_step].
  - unfold EncryptSend. rewrite Hi. cbn [negb].
    destruct (SendPacket _ _ _ _ _) as [r o] eqn:Es. destruct (Z.eqb_spec r (-1)); [done|].
    intros [= <-] Hs. cbn. split; [done|].
    rewrite (send_stream _ _ _ _ _ _ _ Es), Hs, fmap_app, concat_app by done. cbn.
    by rewrite app_nil_r.
  - destruct (queue_full _) eqn:Hq; [done|].
    destruct (handle_output _ _ _ _ _) as [r o] eqn:Eo. destruct (Z.eqb_spec r (-1)); [done|].
    intros [= <-] Hs. cbn. split; [done|]. by rewrite (output_stream _ _ _ _ _ _ _ Hq Eo).
Qed.

Lemma transmit_stream ops s s' :
  _initialized (snd_crypt s) = false -> transmit ops s = Some s' ->
  stream (snd_out s) = concat (frame <$> snd_sent s) ->
  stream (snd_out s') = concat (frame <$> snd_sent s').
Proof.
  revert s. induction ops as [|op ops IH]; cbn; intros s Hi Ht Hs; [by simplify_eq|].
  destruct (out_step op s) as [s1|] eqn:E; [|done].
  destruct (out_step_stream _ _ _ Hi E Hs). eauto.
Qed.
End Output.

(** ** Frames *)

(** A packet as the buffer builds it, small enough for the header. *)
Definition packet_ok (p : WorldPacket) : Prop :=
  _rpos (wp_buf p) = 0 /\ _wpos (wp_buf p) = bb_size (wp_buf p)
  /\ 0 <= m_opcode p < 2 ^ 16 /\ bb_size (wp_buf p) + 2 < 2 ^ 32.

Lemma byte_shift v i : 0 <= v -> 0 <= i -> Z.land 0xFF (Z.shiftr v i) = (v / 2 ^ i) mod 256.
Proof.
  intros. rewrite Z.land_comm, (Z.land_ones _ 8) by lia. by rewrite Z.shiftr_div_pow2.
Qed.

Lemma byte_low v : Z.land 0xFF v = v mod 256.
Proof. rewrite Z.land_comm. by rewrite (Z.land_ones _ 8) by lia. Qed.

Lemma flexi_header size cmd :
  0 <= size < 2 ^ 32 -> 0 <= cmd < 2 ^ 16 ->
  Flexi.ServerPktHeader size cmd = rev (le_split 4 size) ++ le_split 2 cmd.
Proof.
  intros Hs Hc. unfold Flexi.ServerPktHeader. rewrite !wrap_small by done.
  rewrite !byte_shift, !byte_low by lia. cbn [le_split rev app].
  rewrite !Z.div_div by lia. done.
Qed.

Lemma rev_le_combine l : Forall is_byte l -> EndianConvertReverse (length l) (le_combine l) = le_combine (rev l).
Proof. intros Hl. unfold EndianConvertReverse. by rewrite le_split_combine. Qed.

Lemma flexi_load size cmd :
  0 <= size < 2 ^ 32 -> 0 <= cmd < 2 ^ 16 ->
  EndianConvertReverse 4 (Flexi.load_size (Flexi.ServerPktHeader size cmd)) = size
  /\ Flexi.load_cmd (Flexi.ServerPktHeader size cmd) = cmd.
Proof.
  intros Hs Hc. rewrite flexi_header by done. unfold Flexi.load_size, Flexi.load_cmd.
  assert (length (rev (le_split 4 size)) = 4%nat) as Hl by (by rewrite length_rev, length_le_split).
  rewrite take_app_length', drop_app_length', take_ge by (rewrite ?length_le_split; lia).
  split.
  - rewrite <- Hl, rev_le_combine, rev_involutive, le_combine_split
      by (apply Forall_rev, le_split_byte). apply Z.mod_small. exact Hs.
  - rewrite le_combine_split. apply Z.mod_small. exact Hc.
Qed.

Section Link.
Context {Key : Type} (UpdateData : list Z -> Key -> list Z * Key).
#[local] Instance link : SocketProtocol (Link Key) := link_protocol UpdateData.
#[local] Arguments received_packet : simpl never.

Definition plain (l : Link Key) : Prop := _initialized (_crypt l) = false.

Lemma link_header p l :
  plain l -> packet_ok p ->
  link_handleInputHeader UpdateData (Flexi.ServerPktHeader (bb_size (wp_buf p) + 2) (GetOpcode p)) l
  = (Some (GetOpcode p, bb_size (wp_buf p)), l).
Proof.
  intros Hl (_ & _ & Ho & Hs). unfold link_handleInputHeader, DecryptRecv. rewrite Hl. cbn [negb].
  assert (0 <= bb_size (wp_buf p)) by (unfold bb_size; lia).
  unfold GetOpcode. destruct (flexi_load (bb_size (wp_buf p) + 2) (m_opcode p)) as [-> ->]; [lia|done|].
  rewrite (proj2 (Z.ltb_ge _ _)), wrap_small by lia. destruct l; cbn. do 3 f_equal. lia.
Qed.

Lemma received_frame p :
  packet_ok p -> received_packet (GetOpcode p) (_storage (wp_buf p)) = p.
Proof.
  intros (Hr & Hw & Ho & _). unfold received_packet, GetOpcode. rewrite wrap_small by done.
  destruct p as [op [r w st]]; cbn in *. by rewrite Hr, Hw.
Qed.

Lemma link_process_ok p (l : Link Key) : (link_processIncoming p l).1 = 0.
Proof. unfold link_processIncoming. by destruct (opcode_entry _). Qed.

Lemma plain_process p l : plain l -> plain (link_processIncoming p l).2.
Proof.
  unfold plain, link_processIncoming. destruct (opcode_entry _) as [e|]; [|done]. by destruct (multipass e).
Qed.

Lemma length_header size cmd : length (Flexi.ServerPktHeader size cmd) = _clientHeaderSize (P := Link Key).
Proof. done. Qed.

Lemma link_deliver s p :
  packet_ok p ->
  deliver s (GetOpcode p) (_storage (wp_buf p)) = Some (SocketIn_new (link_processIncoming p (proto s)).2).
Proof.
  intros Hp. unfold deliver. rewrite received_frame by done. cbn [_processIncoming link link_protocol].
  pose proof (link_process_ok p (proto s)) as E. destruct (link_processIncoming p (proto s)) as [r l].
  cbn in E. by subst r.
Qed.

(** The state after the header of [p]. *)
Definition in_frame (p : WorldPacket) (l : Link Key) : SocketIn (Link Key) :=
  mkSocketIn (Flexi.ServerPktHeader (bb_size (wp_buf p) + 2) (GetOpcode p))
    (Some (GetOpcode p, bb_size (wp_buf p))) [] l.

Lemma feed_link_header p l rest :
  plain l -> packet_ok p ->
  feed (Flexi.ServerPktHeader (bb_size (wp_buf p) + 2) (GetOpcode p) ++ rest) (SocketIn_new l)
  = (if bb_size (wp_buf p) <=? 0 then deliver (in_frame p l) (GetOpcode p) []
     else Some (in_frame p l)) ≫= feed rest.
Proof.
  intros Hl Hp. rewrite feed_header_full; [|apply in_ok_new|done|
    unfold header_space; rewrite length_app, length_header; cbn [SocketIn_new _header length]; lia].
  unfold header_space. cbn [SocketIn_new _header proto length app]. rewrite Nat.sub_0_r.
  rewrite take_app_length', drop_app_length' by done. cbn [_handleInputHeader link link_protocol].
  by rewrite link_header.
Qed.

Lemma feed_frame p l rest :
  plain l -> packet_ok p ->
  feed (frame p ++ rest) (SocketIn_new l) = feed rest (SocketIn_new (link_processIncoming p l).2).
Proof.
  intros Hl Hp. unfold frame. rewrite <- app_assoc, feed_link_header by done.
  destruct (Z.leb_spec (bb_size (wp_buf p)) 0) as [Hz|Hz].
  - assert (_storage (wp_buf p) = []) as E by (apply nil_length_inv; unfold bb_size in Hz; lia).
    rewrite <- E at 1. rewrite link_deliver by done. cbn [mbind option_bind]. by rewrite E.
  - cbn [mbind option_bind].
    assert (payload_space (in_frame p l) = length (_storage (wp_buf p))) as Es
      by (unfold payload_space, in_frame, bb_size; cbn; lia).
    rewrite (feed_payload_full _ _ (GetOpcode p) (bb_size (wp_buf p)));
      [|split; [done|cbn; unfold bb_size in *; lia]|done|rewrite Es, length_app; lia].
    rewrite Es, take_app_length, drop_app_length. cbn [in_frame _recvPct app].
    by rewrite link_deliver.
Qed.

(** The first bytes of a frame deliver nothing. *)
Lemma feed_partial p l w rest :
  plain l -> packet_ok p -> frame p = w ++ rest -> rest <> [] ->
  exists s, feed w (SocketIn_new l) = Some s /\ proto s = l.
Proof.
  intros Hl Hp Ef Hr. unfold frame in Ef.
  destruct (Nat.lt_ge_cases (length w) (_clientHeaderSize (P := Link Key))) as [Hw|Hw].
  { rewrite feed_header; [|done..]. by eexists. }
  apply (f_equal (take (length w))) in Ef as Ew. rewrite take_app_length, take_app in Ew.
  rewrite take_ge in Ew by (rewrite length_header; lia).
  rewrite <- Ew, feed_link_header by done. apply (f_equal length) in Ef.
  rewrite !length_app, length_header in Ef.
  assert (0 < length rest)%nat by (destruct rest; cbn; [done|lia]).
  assert (0 < bb_size (wp_buf p)) by (unfold bb_size; lia).
  rewrite (proj2 (Z.leb_gt _ _)) by lia. cbn [mbind option_bind].
  rewrite (feed_payload _ _ (GetOpcode p) (bb_size (wp_buf p))); [by eexists|done|].
  cbn [in_frame _recvPct app]. rewrite length_take, length_header. unfold bb_size. lia.
Qed.

Lemma feed_frames ps l w rest :
  plain l -> Forall packet_ok ps -> concat (frame <$> ps) = w ++ rest ->
  exists n s, feed w (SocketIn_new l) = Some s /\ proto s = delivered (take n ps) l
    /\ (rest = [] -> n = length ps).
Proof.
  revert l w. induction ps as [|p ps IH]; intros l w Hl Hps Ef;
    cbn [fmap list_fmap concat] in Ef.
  { symmetry in Ef. apply app_eq_nil in Ef as [-> ->]. exists 0%nat. by eexists. }
  apply Forall_cons in Hps as [Hp Hps].
  destruct (Nat.le_gt_cases (length (frame p)) (length w)) as [Hw|Hw].
  - apply app_eq_inv in Ef as [(k & Ek & ->)|(k & -> & Ek)].
    + assert (k = []) as -> by (apply nil_length_inv; apply (f_equal length) in Ek; rewrite length_app in Ek; lia).
      rewrite app_nil_r in Ek. subst w.
      destruct (IH (link_processIncoming p l).2 []) as (n & s & Hf & Hs & Hn); [by apply plain_process|done|done|].
      exists (S n), s. rewrite <- (app_nil_r (frame p)), feed_frame by done.
      split_and!; [done|done|]. intros ?. cbn. by rewrite Hn.
    + destruct (IH (link_processIncoming p l).2 k) as (n & s & Hf & Hs & Hn); [by apply plain_process|done|done|].
      exists (S n), s. rewrite feed_frame by done. split_and!; [done|done|]. intros ?. cbn. by rewrite Hn.
  - apply app_eq_inv in Ef as [(k & Ek & ->)|(k & -> & Ek)]; [|rewrite length_app in Hw; lia].
    assert (k <> []) by (intros ->; rewrite app_nil_r in Ek; rewrite Ek in Hw; lia).
    destruct (feed_partial p l w k) as (s & Hf & Hs); [done..|].
    exists 0%nat, s. split_and!; [done|done|]. intros [? ?]%app_eq_nil. done.
Qed.

(** ** Properties *)

(** Which queue a packet goes to. *)
Definition goes_to (multi : bool) (p : WorldPacket) : bool :=
  match opcode_entry (GetOpcode p) with Some e => eqb (multipass e) multi | None => false end.

Lemma delivered_queues ps (l : Link Key) :
  _singlePacketQueue (delivered ps l) = _singlePacketQueue l ++ List.filter (goes_to false) ps
  /\ _multiPacketQueue (delivered ps l) = _multiPacketQueue l ++ List.filter (goes_to true) ps.
Proof.
  revert l. induction ps as [|p ps IH]; intros l; cbn; [by rewrite !app_nil_r|].
  destruct (IH (link_processIncoming p l).2) as [E1 E2]. unfold delivered in E1, E2. rewrite E1, E2.
  unfold link_processIncoming, goes_to.
  destruct (opcode_entry (GetOpcode p)) as [e|]; [destruct (multipass e)|]; cbn;
    by rewrite <- ?app_assoc.
Qed.

(** C7. A link between the cluster server and a node is a reliable FIFO of
    packets.  Whatever packets one end sends, in whatever pieces the system
    takes the bytes of its buffer and of its queue, and in whatever pieces the
    other end receives what has been taken so far: the other end has put into
    its two queues exactly the first packets sent, each into the queue its
    opcode asks for, in the order in which they were sent and with the same
    contents; and once nothing is outstanding at the sender, all of them. *)
Theorem link_delivery (queue_full : list (list Z) -> bool) ops k1 k2 size s chunks :
  transmit queue_full UpdateData ops (Sender_new k1 k2 size) = Some s ->
  Forall packet_ok (snd_sent s) -> concat chunks = wire (snd_out s) ->
  exists n r, receive chunks (SocketIn_new (Link_new k1 k2)) = Some r
    /\ _singlePacketQueue (proto r) = List.filter (goes_to false) (take n (snd_sent s))
    /\ _multiPacketQueue (proto r) = List.filter (goes_to true) (take n (snd_sent s))
    /\ (outstanding (snd_out s) = [] -> n = length (snd_sent s)).
Proof.
  intros Ht Hok Hw. apply transmit_stream in Ht; [|done|done]. unfold stream in Ht.
  rewrite receive_feed by apply in_ok_new. rewrite Hw.
  destruct (feed_frames (snd_sent s) (Link_new k1 k2) (wire (snd_out s)) (outstanding (snd_out s)))
    as (n & r & Hf & Hp & Hn); [done|done|by rewrite Ht|].
  exists n, r. destruct (delivered_queues (take n (snd_sent s)) (Link_new k1 k2)) as [E1 E2].
  rewrite Hf, Hp, E1, E2. auto.
Qed.
End Link.

(** Reassembly does not depend on how the stream is cut: feeding the
    automaton of [handle_input_missing_data] with the pieces [recv] returns
    comes to the same state, or to the same failure, as taking the bytes of the
    whole stream one at a time; and on the way none of its assertions fails and
    every call ends within one round per byte. *)
Theorem reassembly `{SocketProtocol P} (p : P) chunks :
  receive chunks (SocketIn_new p) = feed (concat chunks) (SocketIn_new p)
  /\ forall s c, receive chunks (SocketIn_new p) = Some s ->
      (handle_input_missing_data c s).1 ∈ [Drained; WouldBlock; Failed].
Proof.
  pose proof (in_ok_new p) as Hok. rewrite receive_feed by done. split; [done|]. intros s c Hs.
  apply (feed_ok _ _ _ Hok) in Hs. pose proof (loop_agrees (length c) c s Hs ltac:(lia)) as Hl.
  unfold handle_input_missing_data. destruct (feed c s).
  - destruct Hl as (v & -> & [-> | ->]); cbn; [left|right; left].
  - destruct Hl as [s' ->]. cbn. do 2 right. left.
Qed.

(** *** A concrete link: two packets, sent while the system takes 20 bytes and
    then the rest, received in pieces of 7 and 30 bytes. *)
Definition no_cipher (data : list Z) (k : unit) : list Z * unit := (data, k).
Definition sync_packet (v : Z) : WorldPacket :=
  mkWP 0x524 (mkBB 0 12 (le_split 4 0 ++ le_split 4 1 ++ le_split 4 v)).
Definition link_ops : list out_op :=
  [OpSend (sync_packet 7) true; OpOutput true (Sent 10) (SendError true);
   OpSend (sync_packet 300) true; OpOutput true (Sent 8) (SendError true); OpOutput true (Sent 100) (Sent 100)].
Definition link_sent : Sender :=
  match transmit (fun _ => false) no_cipher link_ops (Sender_new tt tt 24) with
  | Some s => s
  | None => Sender_new tt tt 0
  end.

Lemma link_delivery_witness :
  let w := wire (snd_out link_sent) in
  exists n r, receive (H := link_protocol no_cipher) [take 7 w; drop 7 w] (SocketIn_new (Link_new tt tt)) = Some r
    /\ _singlePacketQueue (proto r) = List.filter (goes_to false) (take n [sync_packet 7; sync_packet 300])
    /\ _multiPacketQueue (proto r) = List.filter (goes_to true) (take n [sync_packet 7; sync_packet 300])
    /\ (outstanding (snd_out link_sent) = [] -> n = 2%nat).
Proof.
  cbv zeta.
  apply (link_delivery no_cipher (fun _ => false) link_ops tt tt 24 link_sent
    [take 7 (wire (snd_out link_sent)); drop 7 (wire (snd_out link_sent))]).
  - vm_compute. reflexivity.
  - repeat constructor; vm_compute; try done.
  - cbn [concat]. by rewrite app_nil_r, take_drop.
Defined.

Lemma reassembly_witness :
  (handle_input_missing_data (H := link_protocol no_cipher) [0; 0; 0]
    (SocketIn_new (Link_new tt tt))).1 ∈ [Drained; WouldBlock; Failed].
Proof.
  destruct (reassembly (H := link_protocol no_cipher) (Link_new tt tt) []) as [_ Hv].
  exact (Hv _ [0; 0; 0] eq_refl).
Defined.

(** When the queue is over its mark, a block that the system does not take is
    lost although [handle_output_queue] reports no error: the failure of
    [enqueue_head] is not looked at. *)
Example block_lost :
  let o := mkSocketOut 8 0 [] [[1; 2; 3]; [4; 5]] [] in
  handle_output_queue (fun q => (0 <? length q)%nat) true (SendError true) o
  = (0, mkSocketOut 8 0 [] [[4; 5]] []).
Proof. reflexivity. Qed.
