(* ===== verification/Routing.v ===== *)
(** * Routing: which node serves which map, and which nodes can be entered

    [RoutingHelper] of [shade/Server/RoutingHelper.h] and [RoutingHelper.cpp]:
    the directory of nodes and the assignment of maps to nodes, loaded from
    the logon database, the choice of the master node for a new session, and
    the last GUIDs the nodes have used. *)
From Stdlib Require Import Ascii String ZArith Lia.
From stdpp Require Import base gmap list strings.
From S2P Require Import Prelude ByteBuffer.

Open Scope Z_scope.

(** ** Data *)
Definition ENTITYID_ITEM : Z := 1.
Definition ENTITYID_MAIL : Z := 2.
Definition ENTITYID_CORPSE : Z := 3.
Definition ENTITYID_GROUP : Z := 4.

(** The fields of [struct NodeMap] that are written; the others are never
    read. *)
Record NodeMap := mkNodeMap {
  nm_NodeID : Z;
  nm_BackupNodeID : Z;
  nm_SubNodeID : Z;
  nm_Name : string;
  nm_Color : string
}.

Record NodeList := mkNodeList {
  nl_name : string;
  nl_IP : string;
  nl_port : Z;
  nl_controlport : Z;
  online : bool;
  can_enter : bool;
  nl_type : Z;
  LastItemGUID : Z;
  LastMailGUID : Z;
  LastGroupGUID : Z;
  LastCorpseID : Z
}.

Record RoutingHelper := mkRouting {
  m_maplist : gmap Z NodeMap;
  m_nodelist : gmap Z NodeList;
  m_OnMaster : bool;
  MasterNode : Z
}.

Definition set_nodelist (m : gmap Z NodeList) (r : RoutingHelper) : RoutingHelper :=
  mkRouting (m_maplist r) m (m_OnMaster r) (MasterNode r).

Definition set_node_state (on enter : bool) (n : NodeList) : NodeList :=
  mkNodeList (nl_name n) (nl_IP n) (nl_port n) (nl_controlport n) on enter (nl_type n)
    (LastItemGUID n) (LastMailGUID n) (LastGroupGUID n) (LastCorpseID n).
Definition set_node_guids (item mail group corpse : Z) (n : NodeList) : NodeList :=
  mkNodeList (nl_name n) (nl_IP n) (nl_port n) (nl_controlport n) (online n) (can_enter n) (nl_type n)
    item mail group corpse.

(** ** Loading *)

(** A row of [map_table]. *)
Record MapRow := mkMapRow {
  mr_map : Z; mr_node : Z; mr_backup : Z; mr_sub : Z; mr_name : string; mr_color : string
}.

Definition load_map_row (row : MapRow) (m : gmap Z NodeMap) : gmap Z NodeMap :=
  <[u32 (mr_map row) := mkNodeMap (u32 (mr_node row)) (u32 (mr_backup row)) (u32 (mr_sub row))
                         (mr_name row) (mr_color row)]> m.

(** A query without rows gives a null result: the master is then not set. *)
Definition LoadNodeMap (rows : list MapRow) (r : RoutingHelper) : RoutingHelper :=
  match rows with
  | [] => r
  | _ => mkRouting (foldl (fun m row => load_map_row row m) (m_maplist r) rows) (m_nodelist r) true 1
  end.

(** A row of [nodelist]. *)
Record NodeRow := mkNodeRow {
  nr_id : Z; nr_name : string; nr_ip : string; nr_port : Z; nr_control : Z; nr_online : bool; nr_type : Z
}.

(** What a [NodeList] on the stack holds in the two members [LoadNodeList]
    does not set: unspecified, so an argument. *)
Record Unspecified := mkUnspecified { un_can_enter : bool; un_LastCorpseID : Z }.

Definition load_node_row (un : Z -> Unspecified) (row : NodeRow) (m : gmap Z NodeList) : gmap Z NodeList :=
  let NodeID := u32 (nr_id row) in
  <[NodeID := mkNodeList (nr_name row) (nr_ip row) (u16 (nr_port row)) (u16 (nr_control row))
                (nr_online row) (un_can_enter (un NodeID)) (u8 (nr_type row))
                0 0 0 (u32 (un_LastCorpseID (un NodeID)))]> m.

Definition LoadNodeList (un : Z -> Unspecified) (rows : list NodeRow) (r : RoutingHelper) : RoutingHelper :=
  match rows with
  | [] => r
  | _ => set_nodelist (foldl (fun m row => load_node_row un row m) (m_nodelist r) rows) r
  end.

(** ** Maps *)
Section Maps.
Context `{UnorderedIter}.

(** The first entry, in the order of the hash map, that satisfies [f]. *)
Definition find_map (f : NodeMap -> bool) (r : RoutingHelper) : option NodeMap :=
  snd <$> List.find (fun '(_, m) => f m) (uiter (m_maplist r)).

Definition GetNodeForMap (Map_ID : Z) (r : RoutingHelper) : Z :=
  match m_maplist r !! Map_ID with None => -1 | Some m => s32 (nm_NodeID m) end.

Definition no_node : string := "|cffFF0000 error |r".
Definition GetNameForMapNode (m : Z) (r : RoutingHelper) : string :=
  match find_map (fun e => nm_NodeID e =? m) r with Some e => nm_Name e | None => no_node end.
Definition GetColorForMapNode (m : Z) (r : RoutingHelper) : string :=
  match find_map (fun e => nm_NodeID e =? m) r with Some e => nm_Color e | None => no_node end.

Definition GetBackupNodeForMap (Map_ID : Z) (r : RoutingHelper) : Z :=
  match m_maplist r !! Map_ID with None => 0 | Some m => nm_SubNodeID m end.
Definition GetNodeForID (Node_ID : Z) (r : RoutingHelper) : Z :=
  match find_map (fun e => nm_BackupNodeID e =? Node_ID) r with Some e => nm_NodeID e | None => 0 end.
Definition GetBackupNodeForID (Node_ID : Z) (r : RoutingHelper) : Z :=
  match find_map (fun e => nm_NodeID e =? Node_ID) r with Some e => nm_BackupNodeID e | None => 0 end.
Definition GetSubNodeForMap (Map_ID : Z) (r : RoutingHelper) : Z :=
  match m_maplist r !! Map_ID with None => 0 | Some m => nm_SubNodeID m end.

(** ** Nodes *)
Definition CheckNodeID (NodeID : Z) (r : RoutingHelper) : bool :=
  match m_nodelist r !! NodeID with None => false | Some n => if online n then true else false end.
Definition CanEnterNodeID (NodeID : Z) (r : RoutingHelper) : bool :=
  match m_nodelist r !! NodeID with None => false | Some n => if can_enter n then true else false end.
Definition GetFirstNode : Z := 1.

(** For an unknown node the result is an uninitialised [NodeList]. *)
Definition GetNodeConnectionData (unset : NodeList) (NodeID : Z) (r : RoutingHelper) : NodeList :=
  match m_nodelist r !! NodeID with None => unset | Some n => n end.

Definition GetNodeCount (r : RoutingHelper) : Z :=
  foldl (fun count '(id, _) => Z.max count id) 0 (uiter (m_nodelist r)).

Definition ConnectToMaster (r : RoutingHelper) : Z * RoutingHelper :=
  let r := mkRouting (m_maplist r) (m_nodelist r) (m_OnMaster r) 1 in
  if CheckNodeID (MasterNode r) r then (MasterNode r, r)
  else if m_OnMaster r then
    let NewMasterNode := GetBackupNodeForID (MasterNode r) r in
    if (0 <? NewMasterNode) && CheckNodeID NewMasterNode r
    then (NewMasterNode, mkRouting (m_maplist r) (m_nodelist r) false NewMasterNode)
    else (0, r)
  else
    let NewMasterNode := GetNodeForID (MasterNode r) r in
    if (0 <? NewMasterNode) && CheckNodeID NewMasterNode r
    then (NewMasterNode, mkRouting (m_maplist r) (m_nodelist r) true NewMasterNode)
    else (0, r).

(** [m_nodelist[node] = ...] for a node that is there. *)
Definition on_node (f : NodeList -> NodeList) (Node : Z) (r : RoutingHelper) : RoutingHelper :=
  set_nodelist (alter f Node (m_nodelist r)) r.

Definition SetNodeOnline (Node : Z) : RoutingHelper -> RoutingHelper :=
  on_node (fun n => set_node_state (online n) true n) Node.
Definition SetNodeOffline (Node : Z) : RoutingHelper -> RoutingHelper :=
  on_node (set_node_state false false) Node.

Definition SetLastGUID (Node type GUID : Z) : RoutingHelper -> RoutingHelper :=
  on_node (fun n =>
    let item := LastItemGUID n in
    let mail := LastMailGUID n in
    let group := LastGroupGUID n in
    let corpse := LastCorpseID n in
    if type =? ENTITYID_ITEM then set_node_guids GUID mail group corpse n
    else if type =? ENTITYID_MAIL then set_node_guids item GUID group corpse n
    else if type =? ENTITYID_GROUP then set_node_guids item mail GUID corpse n
    else if type =? ENTITYID_CORPSE then set_node_guids item mail group GUID n
    else n) Node.

Definition ResetLastGUID (r : RoutingHelper) : RoutingHelper :=
  foldl (fun r '(id, _) => on_node (fun n => set_node_guids 0 0 0 (LastCorpseID n) n) id r)
    r (uiter (m_nodelist r)).

(** The column [online] of a node's row; a node without a row is dereferenced
    through the null result. *)
Definition refresh_one (query : Z -> option bool) (id : Z) (r : RoutingHelper) : outcome RoutingHelper :=
  if CheckNodeID id r then Ok r
  else match query id with
       | None => UB
       | Some on => Ok (on_node (fun n => set_node_state on (can_enter n) n) id r)
       end.

Definition RefreshOnlineStat (query : Z -> option bool) (r : RoutingHelper) : outcome RoutingHelper :=
  foldl (fun acc '(id, _) => let* r := acc in refresh_one query id r) (Ok r) (uiter (m_nodelist r)).
End Maps.

(** ** Lemmas *)
Lemma lookup_on_node f Node r k :
  m_nodelist (on_node f Node r) !! k = if k =? Node then f <$> m_nodelist r !! k else m_nodelist r !! k.
Proof.
  unfold on_node. cbn. destruct (Z.eqb_spec k Node) as [->|Hk].
  - by rewrite lookup_alter_eq.
  - by rewrite lookup_alter_ne.
Qed.

Lemma CheckNodeID_online Node r : CheckNodeID Node r = true <-> exists n, m_nodelist r !! Node = Some n /\ online n = true.
Proof.
  unfold CheckNodeID. destruct (m_nodelist r !! Node) as [n|].
  - destruct (online n) eqn:E; split; [eauto|done|done|]. intros (? & [= <-] & ?). congruence.
  - split; [done|]. by intros (? & ? & _).
Qed.

Section Facts.
Context `{UnorderedIter}.

Lemma elem_of_nodes r k n : (k, n) ∈ uiter (m_nodelist r) <-> m_nodelist r !! k = Some n.
Proof. rewrite uiter_perm. apply elem_of_map_to_list. Qed.

Lemma fold_max_ge (l : list (Z * NodeList)) c k n :
  c <= foldl (fun count '(id, _) => Z.max count id) c l
  /\ ((k, n) ∈ l -> k <= foldl (fun count '(id, _) => Z.max count id) c l).
Proof.
  revert c. induction l as [|[i m] l IH]; intros c; cbn.
  - split; [lia|]. by intros ?%elem_of_nil.
  - destruct (IH (Z.max c i)) as [H1 H2]. split; [lia|].
    intros [E|?]%elem_of_cons; [injection E as -> ->; lia|auto].
Qed.

(** Every node's number is at most the count. *)
Lemma GetNodeCount_ge r k : is_Some (m_nodelist r !! k) -> k <= GetNodeCount r.
Proof. intros [n Hn%elem_of_nodes]. by apply (fold_max_ge _ 0 k n). Qed.
End Facts.
