(* ===== verification/Node.v ===== *)
(** * The nodes' end of the cluster: GUID counters, rates, control packets

    What a node ([src/src/server/game]) does with the control packets of the
    cluster server and how it hands out GUIDs: [PoolSession.cpp],
    [PoolSessionMgr::SendGUIDSync] and the generators of
    [game/Globals/ObjectMgr.cpp]. *)
From Stdlib Require Import Ascii String ZArith Lia.
From stdpp Require Import base gmap list strings.
From S2P Require Import Prelude ByteBuffer Routing.

Open Scope Z_scope.

(** ** Constants of [ClusterDefines.h] and the packets *)
Definition NODE_INIT_ACK_FAIL : Z := 0.
Definition NODE_INIT_ACK_ITEM_GUID_FAIL : Z := 1.
Definition NODE_INIT_ACK_MAIL_GUID_FAIL : Z := 2.
Definition NODE_INIT_ACK_CORPSE_GUID_FAIL : Z := 3.
Definition NODE_INIT_ACK_OK : Z := 254.

Definition CL_DEF_GUID_SYNC : Z := 0.
Definition CL_DEF_SHUTDOWN : Z := 1.

Definition SMSG_AUTH_CHALLENGE : Z := 0x1EC.
Definition SMSG_AUTH_RESPONSE : Z := 0x1EE.
Definition LOGON_AUTH_MASTER : Z := 0x520.
Definition LOGON_INIT_NODE : Z := 0x521.
Definition NODE_INIT_ACK : Z := 0x522.
Definition LOGON_SYNC_DATA : Z := 0x523.
Definition NODE_SYNC_DATA : Z := 0x524.

(** A packet built by [<<] from its fields. *)
Definition make (opcode : Z) (fs : list PField) : outcome WorldPacket :=
  let* b := append_fields fs ByteBuffer_new in Ok (mkWP (u16 opcode) b).

(** ** Rates *)
Inductive Rate :=
| RATE_HEALTH | RATE_POWER_MANA | RATE_POWER_RAGE_INCOME | RATE_POWER_RAGE_LOSS
| RATE_POWER_RUNICPOWER_INCOME | RATE_POWER_RUNICPOWER_LOSS | RATE_POWER_FOCUS | RATE_POWER_ENERGY
| RATE_SKILL_DISCOVERY | RATE_DROP_ITEM_POOR | RATE_DROP_ITEM_NORMAL | RATE_DROP_ITEM_UNCOMMON
| RATE_DROP_ITEM_RARE | RATE_DROP_ITEM_EPIC | RATE_DROP_ITEM_LEGENDARY | RATE_DROP_ITEM_ARTIFACT
| RATE_DROP_ITEM_REFERENCED | RATE_DROP_ITEM_REFERENCED_AMOUNT | RATE_DROP_MONEY | RATE_XP_KILL
| RATE_XP_QUEST | RATE_XP_EXPLORE | RATE_REPAIRCOST | RATE_REST_INGAME
| RATE_REST_OFFLINE_IN_TAVERN_OR_CITY | RATE_REST_OFFLINE_IN_WILDERNESS | RATE_DAMAGE_FALL
| RATE_AUCTION_TIME | RATE_AUCTION_DEPOSIT | RATE_AUCTION_CUT | RATE_HONOR | RATE_MINING_AMOUNT
| RATE_MINING_NEXT | RATE_TALENT | RATE_REPUTATION_GAIN | RATE_REPUTATION_LOWLEVEL_KILL
| RATE_REPUTATION_LOWLEVEL_QUEST | RATE_REPUTATION_RECRUIT_A_FRIEND_BONUS.

Inductive IntConfig :=
| CONFIG_SKILL_GAIN_CRAFTING | CONFIG_SKILL_GAIN_DEFENSE | CONFIG_SKILL_GAIN_GATHERING
| CONFIG_SKILL_GAIN_WEAPON | CONFIG_SKILL_CHANCE_ORANGE | CONFIG_SKILL_CHANCE_YELLOW
| CONFIG_SKILL_CHANCE_GREEN | CONFIG_SKILL_CHANCE_GREY | CONFIG_SKILL_CHANCE_MINING_STEPS
| CONFIG_SKILL_CHANCE_SKINNING_STEPS.

#[export] Instance Rate_eq_dec : EqDecision Rate.
Proof. solve_decision. Defined.
#[export] Instance IntConfig_eq_dec : EqDecision IntConfig.
Proof. solve_decision. Defined.

(** ** State *)
Record ObjectMgr := mkObjectMgr {
  _hiRange : Z;
  _hiItemGuid : Z;
  _mailId : Z;
  _hiCorpseGuid : Z
}.

Record Node := mkNode {
  n_objmgr : ObjectMgr;
  rate_values : Rate -> Z;
  m_int_configs : IntConfig -> Z;
  n_shutdown : option Z;          (* [World::ShutdownServ] *)
  n_stopped : bool;               (* [World::StopNow] *)
  n_session : bool;               (* [m_sessions] holds a session *)
  n_sent : list WorldPacket       (* what that session has sent *)
}.

Definition set_objmgr (o : ObjectMgr) (n : Node) : Node :=
  mkNode o (rate_values n) (m_int_configs n) (n_shutdown n) (n_stopped n) (n_session n) (n_sent n).
Definition set_hiRange (v : Z) (n : Node) : Node :=
  let o := n_objmgr n in set_objmgr (mkObjectMgr v (_hiItemGuid o) (_mailId o) (_hiCorpseGuid o)) n.
Definition set_hiItemGuid (v : Z) (n : Node) : Node :=
  let o := n_objmgr n in set_objmgr (mkObjectMgr (_hiRange o) v (_mailId o) (_hiCorpseGuid o)) n.
Definition set_mailId (v : Z) (n : Node) : Node :=
  let o := n_objmgr n in set_objmgr (mkObjectMgr (_hiRange o) (_hiItemGuid o) v (_hiCorpseGuid o)) n.
Definition set_hiCorpseGuid (v : Z) (n : Node) : Node :=
  let o := n_objmgr n in set_objmgr (mkObjectMgr (_hiRange o) (_hiItemGuid o) (_mailId o) v) n.

Definition setRate (r : Rate) (v : Z) (n : Node) : Node :=
  mkNode (n_objmgr n) (fun r' => if decide (r' = r) then v else rate_values n r') (m_int_configs n)
    (n_shutdown n) (n_stopped n) (n_session n) (n_sent n).
Definition setIntConfig (c : IntConfig) (v : Z) (n : Node) : Node :=
  mkNode (n_objmgr n) (rate_values n) (fun c' => if decide (c' = c) then v else m_int_configs n c')
    (n_shutdown n) (n_stopped n) (n_session n) (n_sent n).
Definition ShutdownServ (time : Z) (n : Node) : Node :=
  mkNode (n_objmgr n) (rate_values n) (m_int_configs n) (Some time) (n_stopped n) (n_session n) (n_sent n).
Definition StopNow (n : Node) : Node :=
  mkNode (n_objmgr n) (rate_values n) (m_int_configs n) (n_shutdown n) true (n_session n) (n_sent n).
Definition node_send (p : WorldPacket) (n : Node) : Node :=
  mkNode (n_objmgr n) (rate_values n) (m_int_configs n) (n_shutdown n) (n_stopped n) (n_session n)
    (n_sent n ++ [p]).

(** ** Handlers

    A handler changes the node while it reads, so that an exception leaves what
    was assigned before it: the state is returned beside the outcome. *)
Definition NodeM (A : Type) : Type := Node * ByteBuffer -> (Node * ByteBuffer) * outcome A.

Definition nret {A} (a : A) : NodeM A := fun s => (s, Ok a).
Definition nbind {A B} (m : NodeM A) (k : A -> NodeM B) : NodeM B :=
  fun s => match m s with
           | (s', Ok a) => k a s'
           | (s', Throw e) => (s', Throw e)
           | (s', UB) => (s', UB)
           end.
Notation "'let$' x ':=' m 'in' k" := (nbind m (fun x => k))
  (at level 200, x name, m at level 100, k at level 200, only parsing).
Notation "m ;> k" := (nbind m (fun _ => k)) (at level 101, right associativity, only parsing).

Definition extract {A} (f : ByteBuffer -> outcome (A * ByteBuffer)) : NodeM A :=
  fun '(n, b) => match f b with
                 | Ok (a, b') => ((n, b'), Ok a)
                 | Throw e => ((n, b), Throw e)
                 | UB => ((n, b), UB)
                 end.
Definition update (f : Node -> Node) : NodeM unit := fun '(n, b) => ((f n, b), Ok tt).

Definition read_u32 : NodeM Z := extract (read 4).

(** [SendInitACK]; a packet of one byte is always built. *)
Definition SendInitACK (ack : Z) : NodeM unit :=
  fun '(n, b) => match make NODE_INIT_ACK [U8 ack] with
                 | Ok p => ((node_send p n, b), Ok tt)
                 | Throw e => ((n, b), Throw e)
                 | UB => ((n, b), UB)
                 end.

Fixpoint read_times {A} (k : nat) (m : NodeM A) : NodeM (list A) :=
  match k with
  | O => nret []
  | S k => let$ v := m in let$ vs := read_times k m in nret (v :: vs)
  end.

(** [rate_float_value[i]] sets the rate at place [i]; two are left out. *)
Definition float_targets : list (option Rate) :=
  [Some RATE_HEALTH; Some RATE_POWER_MANA; Some RATE_POWER_RAGE_INCOME; Some RATE_POWER_RAGE_LOSS;
   Some RATE_POWER_RUNICPOWER_INCOME; Some RATE_POWER_RUNICPOWER_LOSS; Some RATE_POWER_FOCUS;
   Some RATE_POWER_ENERGY; Some RATE_SKILL_DISCOVERY; Some RATE_DROP_ITEM_POOR;
   Some RATE_DROP_ITEM_NORMAL; Some RATE_DROP_ITEM_UNCOMMON; Some RATE_DROP_ITEM_RARE;
   Some RATE_DROP_ITEM_EPIC; Some RATE_DROP_ITEM_LEGENDARY; Some RATE_DROP_ITEM_ARTIFACT;
   Some RATE_DROP_ITEM_REFERENCED; Some RATE_DROP_ITEM_REFERENCED_AMOUNT; Some RATE_DROP_MONEY;
   Some RATE_XP_KILL; Some RATE_XP_QUEST; Some RATE_XP_EXPLORE; Some RATE_REPAIRCOST;
   Some RATE_REST_INGAME; Some RATE_REST_OFFLINE_IN_TAVERN_OR_CITY;
   Some RATE_REST_OFFLINE_IN_WILDERNESS; Some RATE_DAMAGE_FALL; Some RATE_AUCTION_TIME;
   Some RATE_AUCTION_DEPOSIT; Some RATE_AUCTION_CUT; Some RATE_HONOR; None; None; Some RATE_TALENT;
   Some RATE_REPUTATION_GAIN; Some RATE_REPUTATION_LOWLEVEL_KILL;
   Some RATE_REPUTATION_LOWLEVEL_QUEST; Some RATE_REPUTATION_RECRUIT_A_FRIEND_BONUS].

Definition int_targets : list IntConfig :=
  [CONFIG_SKILL_GAIN_CRAFTING; CONFIG_SKILL_GAIN_DEFENSE; CONFIG_SKILL_GAIN_GATHERING;
   CONFIG_SKILL_GAIN_WEAPON; CONFIG_SKILL_CHANCE_ORANGE; CONFIG_SKILL_CHANCE_YELLOW;
   CONFIG_SKILL_CHANCE_GREEN; CONFIG_SKILL_CHANCE_GREY; CONFIG_SKILL_CHANCE_MINING_STEPS;
   CONFIG_SKILL_CHANCE_SKINNING_STEPS].

Definition set_rates (vs : list Z) (n : Node) : Node :=
  foldl (fun n '(r, v) => match r with Some r => setRate r v n | None => n end) n (zip float_targets vs).
Definition set_ints (vs : list Z) (n : Node) : Node :=
  foldl (fun n '(c, v) => setIntConfig c v n) n (zip int_targets vs).

Definition Handle_LOGON_INIT_NODE : NodeM unit :=
  let$ range := read_u32 in update (set_hiRange range) ;>
  let$ ItemGuid := read_u32 in
  if 0xFFFFFFFE <=? ItemGuid then SendInitACK NODE_INIT_ACK_ITEM_GUID_FAIL else
  update (set_hiItemGuid ItemGuid) ;>
  let$ MailGuid := read_u32 in
  if 0xFFFFFFFE <=? MailGuid then SendInitACK NODE_INIT_ACK_MAIL_GUID_FAIL else
  update (set_mailId MailGuid) ;>
  let$ GroupGuid := read_u32 in
  let$ CorpseGuid := read_u32 in
  if 0xFFFFFFFE <=? CorpseGuid then SendInitACK NODE_INIT_ACK_CORPSE_GUID_FAIL else
  update (set_hiCorpseGuid CorpseGuid) ;>
  let$ rate_float_value := read_times 38 (extract read_float) in
  update (set_rates rate_float_value) ;>
  let$ rate_int_value := read_times 10 read_u32 in
  update (set_ints rate_int_value) ;>
  SendInitACK NODE_INIT_ACK_OK.

Definition Handle_LOGON_SYNC_DATA : NodeM unit :=
  let$ cmd := read_u32 in
  if cmd =? CL_DEF_GUID_SYNC then
    let$ subCommand := read_u32 in
    (if subCommand =? ENTITYID_ITEM then let$ v := read_u32 in update (set_hiItemGuid v)
     else if subCommand =? ENTITYID_MAIL then let$ v := read_u32 in update (set_mailId v)
     else if subCommand =? ENTITYID_GROUP then nret tt
     else if subCommand =? ENTITYID_CORPSE then let$ v := read_u32 in update (set_hiCorpseGuid v)
     else nret tt) ;>
    let$ v := read_u32 in update (set_hiRange v)
  else if cmd =? CL_DEF_SHUTDOWN then let$ time := read_u32 in update (ShutdownServ time)
  else nret tt.

(** One packet of the loop of [UpdateServerIO]: a [ByteBufferException] is
    caught. *)
Definition UpdateServerIO_packet (p : WorldPacket) (n : Node) : outcome Node :=
  let handler :=
    if GetOpcode p =? LOGON_INIT_NODE then Handle_LOGON_INIT_NODE
    else if GetOpcode p =? LOGON_SYNC_DATA then Handle_LOGON_SYNC_DATA
    else nret tt in
  match handler (n, wp_buf p) with
  | ((n, _), Ok _) => Ok n
  | ((n, _), Throw AssertFailure) => Throw AssertFailure
  | ((n, _), Throw _) => Ok n
  | (_, UB) => UB
  end.

(** ** Handing out GUIDs *)
Definition SendGUIDSync (type guid : Z) (n : Node) : outcome Node :=
  if negb (n_session n) then Ok n
  else let* p := make NODE_SYNC_DATA [U32 CL_DEF_GUID_SYNC; U32 type; U32 guid] in Ok (node_send p n).

Definition GenerateMailIDWhenNode (n : Node) : outcome (Z * Node) :=
  let n := if 0xFFFFFFFE <=? _mailId (n_objmgr n) then StopNow n else n in
  let id := u32 (_mailId (n_objmgr n) + _hiRange (n_objmgr n)) in
  let* n := SendGUIDSync ENTITYID_MAIL id (set_mailId id n) in Ok (id, n).
Definition GenerateMailID : Node -> outcome (Z * Node) := GenerateMailIDWhenNode.

(** The branches of [GenerateLowGuidWhenNode] the cluster takes part in; the
    others count in the node alone. *)
Inductive HighGuid := GUID_ITEM | GUID_CORPSE.

Definition GenerateLowGuidWhenNode (guidhigh : HighGuid) (n : Node) : outcome (Z * Node) :=
  let o := n_objmgr n in
  match guidhigh with
  | GUID_ITEM =>
      if negb (_hiItemGuid o <? 0xFFFFFFFE) then Throw AssertFailure
      else let id := u32 (_hiItemGuid o + _hiRange o) in
           let* n := SendGUIDSync ENTITYID_ITEM id (set_hiItemGuid id n) in Ok (id, n)
  | GUID_CORPSE =>
      if negb (_hiCorpseGuid o <? 0xFFFFFFFE) then Throw AssertFailure
      else let id := u32 (_hiCorpseGuid o + _hiRange o) in
           let* n := SendGUIDSync ENTITYID_CORPSE id (set_hiCorpseGuid id n) in Ok (id, n)
  end.
Definition GenerateLowGuid : HighGuid -> Node -> outcome (Z * Node) := GenerateLowGuidWhenNode.
