(* ===== verification/Control.v ===== *)
(** * Control sessions: the cluster server's links to the nodes

    [ControlSession] of [shade/Server/Control/ControlSession.cpp] and
    [ControlSessionRoutines.cpp], the manager that updates them
    ([ControlSessionMgr.cpp]) and the GUID counters they start the nodes from
    ([ObjectMgr::SetHighestGuids] of [shade/Objects/ObjectMgr.cpp]).  A session
    owns at most one socket; the socket's queues are filled as [Stream] says. *)
From Stdlib Require Import Ascii String ZArith Lia.
From stdpp Require Import base gmap list strings.
From S2P Require Import Prelude ByteBuffer Routing Node.

Open Scope Z_scope.

Definition AUTH_OK : Z := 0x0C.
Definition RECONNECT_INTERVAL : Z := 2000.

(** ** The counters of the cluster server *)
Record Highest := mkHighest {
  m_hiCharGuid : Z; m_hiCreatureGuid : Z; m_hiItemGuid : Z; m_hiGoGuid : Z; m_hiMoTransGuid : Z;
  m_auctionid : Z; m_mailid : Z; m_hiCorpseGuid : Z; m_equipmentSetGuid : Z; m_hiGroupGuid : Z
}.

(** [SELECT MAX(...)] of the ten tables; [None] is a null result. *)
Record MaxQueries := mkMaxQueries {
  q_characters : option Z; q_creature : option Z; q_item_instance : option Z; q_gameobject : option Z;
  q_transports : option Z; q_auctionhouse : option Z; q_mail : option Z; q_corpse : option Z;
  q_equipmentsets : option Z; q_groups : option Z
}.

Definition next_of (w : Z) (q : option Z) (old : Z) : Z :=
  match q with Some v => wrap w (wrap w v + 1) | None => old end.

(** The counters, and the tables from which rows at or above [m_hiItemGuid]
    are deleted. *)
Definition cleaned_tables : list string :=
  ["character_inventory"; "mail_items"; "auctionhouse"; "guild_bank_item"]%string.

Definition SetHighestGuids (q : MaxQueries) (h : Highest) : Highest * list (string * Z) :=
  let item := next_of 32 (q_item_instance q) (m_hiItemGuid h) in
  (mkHighest (next_of 32 (q_characters q) (m_hiCharGuid h)) (next_of 32 (q_creature q) (m_hiCreatureGuid h))
     item (next_of 32 (q_gameobject q) (m_hiGoGuid h)) (next_of 32 (q_transports q) (m_hiMoTransGuid h))
     (next_of 32 (q_auctionhouse q) (m_auctionid h)) (next_of 32 (q_mail q) (m_mailid h))
     (next_of 32 (q_corpse q) (m_hiCorpseGuid h)) (next_of 64 (q_equipmentsets q) (m_equipmentSetGuid h))
     (next_of 32 (q_groups q) 1),
   (fun t => (t, item)) <$> cleaned_tables).

(** ** State *)

(** A socket: whether it is closing, whether it takes packets, the packets it
    has received, and those it was given to send. *)
Record CtlSocket := mkCtlSocket {
  cs_closing : bool;
  cs_accepts : bool;
  cs_single : list WorldPacket;
  cs_multi : list WorldPacket;
  cs_sent : list WorldPacket
}.

Record ControlSession := mkControlSession {
  _nodeId : Z;
  _nodeType : Z;
  m_Socket : option CtlSocket;
  _reconnect_timer : Z;
  CTL_FLAG_NODE_RECONNECT : bool;
  CTL_FLAG_NODE_AUTHED : bool
}.

Definition set_socket (s : option CtlSocket) (c : ControlSession) : ControlSession :=
  mkControlSession (_nodeId c) (_nodeType c) s (_reconnect_timer c) (CTL_FLAG_NODE_RECONNECT c)
    (CTL_FLAG_NODE_AUTHED c).
Definition set_timer (t : Z) (c : ControlSession) : ControlSession :=
  mkControlSession (_nodeId c) (_nodeType c) (m_Socket c) t (CTL_FLAG_NODE_RECONNECT c)
    (CTL_FLAG_NODE_AUTHED c).
Definition set_reconnect (b : bool) (c : ControlSession) : ControlSession :=
  mkControlSession (_nodeId c) (_nodeType c) (m_Socket c) (_reconnect_timer c) b (CTL_FLAG_NODE_AUTHED c).
Definition set_authed (b : bool) (c : ControlSession) : ControlSession :=
  mkControlSession (_nodeId c) (_nodeType c) (m_Socket c) (_reconnect_timer c)
    (CTL_FLAG_NODE_RECONNECT c) b.

(** What the session works with: itself and the node directory. *)
Record Ctl := mkCtl { ctl_session : ControlSession; ctl_routing : RoutingHelper }.

Definition on_session (f : ControlSession -> ControlSession) (s : Ctl) : Ctl :=
  mkCtl (f (ctl_session s)) (ctl_routing s).
Definition on_routing (f : RoutingHelper -> RoutingHelper) (s : Ctl) : Ctl :=
  mkCtl (ctl_session s) (f (ctl_routing s)).

(** The configuration, the realm's row in [realmlist] and the counters. *)
Record CtlEnv := mkCtlEnv {
  getRate : Rate -> Z;
  getIntConfig : IntConfig -> Z;
  realm_name : option string;
  highest : Highest;
  unset_node : NodeList        (* what [GetNodeConnectionData] returns of an unknown node *)
}.

(** ** Sending *)
Definition CloseSocket (c : ControlSession) : ControlSession :=
  match m_Socket c with
  | None => c
  | Some k => set_socket (Some (mkCtlSocket true (cs_accepts k) (cs_single k) (cs_multi k) (cs_sent k))) c
  end.

Definition SendPacket (p : WorldPacket) (c : ControlSession) : ControlSession :=
  match m_Socket c with
  | None => c
  | Some k =>
      if cs_closing k || negb (cs_accepts k) then CloseSocket c
      else set_socket (Some (mkCtlSocket (cs_closing k) (cs_accepts k) (cs_single k) (cs_multi k)
                               (cs_sent k ++ [p]))) c
  end.

(** The rates and settings in the order in which they are written. *)
Definition sent_rates : list Rate :=
  [RATE_HEALTH; RATE_POWER_MANA; RATE_POWER_RAGE_INCOME; RATE_POWER_RAGE_LOSS;
   RATE_POWER_RUNICPOWER_INCOME; RATE_POWER_RUNICPOWER_LOSS; RATE_POWER_FOCUS; RATE_POWER_ENERGY;
   RATE_SKILL_DISCOVERY; RATE_DROP_ITEM_POOR; RATE_DROP_ITEM_NORMAL; RATE_DROP_ITEM_UNCOMMON;
   RATE_DROP_ITEM_RARE; RATE_DROP_ITEM_EPIC; RATE_DROP_ITEM_LEGENDARY; RATE_DROP_ITEM_ARTIFACT;
   RATE_DROP_ITEM_REFERENCED; RATE_DROP_ITEM_REFERENCED_AMOUNT; RATE_DROP_MONEY; RATE_XP_KILL;
   RATE_XP_QUEST; RATE_XP_EXPLORE; RATE_REPAIRCOST; RATE_REST_INGAME;
   RATE_REST_OFFLINE_IN_TAVERN_OR_CITY; RATE_REST_OFFLINE_IN_WILDERNESS; RATE_DAMAGE_FALL;
   RATE_AUCTION_TIME; RATE_AUCTION_DEPOSIT; RATE_AUCTION_CUT; RATE_HONOR; RATE_MINING_AMOUNT;
   RATE_MINING_NEXT; RATE_TALENT; RATE_REPUTATION_GAIN; RATE_REPUTATION_LOWLEVEL_KILL;
   RATE_REPUTATION_LOWLEVEL_QUEST; RATE_REPUTATION_RECRUIT_A_FRIEND_BONUS].

Definition sent_ints : list IntConfig :=
  [CONFIG_SKILL_GAIN_CRAFTING; CONFIG_SKILL_GAIN_DEFENSE; CONFIG_SKILL_GAIN_GATHERING;
   CONFIG_SKILL_GAIN_WEAPON; CONFIG_SKILL_CHANCE_ORANGE; CONFIG_SKILL_CHANCE_YELLOW;
   CONFIG_SKILL_CHANCE_GREEN; CONFIG_SKILL_CHANCE_GREY; CONFIG_SKILL_CHANCE_MINING_STEPS;
   CONFIG_SKILL_CHANCE_SKINNING_STEPS].

Section Control.
Context `{UnorderedIter} (env : CtlEnv).

(** The last GUID the node has used, or the counter's start for the node when
    there is none; in that case it is recorded. *)
Definition start_guid (last : NodeList -> Z) (type hi : Z) (s : Ctl) : Z * Ctl :=
  let id := _nodeId (ctl_session s) in
  let v := last (GetNodeConnectionData (unset_node env) id (ctl_routing s)) in
  if negb (v =? 0) then (v, s)
  else let v := u32 (hi + u32 (id - 1)) in (v, on_routing (SetLastGUID id type v) s).

Definition SendInitAuthedNode (s : Ctl) : outcome Ctl :=
  let id := _nodeId (ctl_session s) in
  let count := GetNodeCount (ctl_routing s) in
  let '(item, s) := start_guid LastItemGUID ENTITYID_ITEM (m_hiItemGuid (highest env)) s in
  let '(mail, s) := start_guid LastMailGUID ENTITYID_MAIL (m_mailid (highest env)) s in
  let '(corpse, s) := start_guid LastCorpseID ENTITYID_CORPSE (m_hiCorpseGuid (highest env)) s in
  let* p := make LOGON_INIT_NODE
              ([U32 count; U32 item; U32 mail; U32 id; U32 corpse]
               ++ ((fun r => F32 (getRate env r)) <$> sent_rates)
               ++ ((fun c => U32 (getIntConfig env c)) <$> sent_ints)) in
  Ok (on_session (SendPacket p) s).

(** ** Handlers *)
Definition Handle_SMSG_AUTH_RESPONSE (p : WorldPacket) (s : Ctl) : outcome Ctl :=
  let* '(code, _) := read 1 (wp_buf p) in
  if code =? AUTH_OK then SendInitAuthedNode (on_session (set_authed true) s)
  else Ok (on_session CloseSocket s).

Definition Handle_NODE_INIT_ACK (p : WorldPacket) (s : Ctl) : outcome Ctl :=
  let* '(ack_code, _) := read 1 (wp_buf p) in
  if ack_code =? NODE_INIT_ACK_OK then Ok (on_routing (SetNodeOnline (_nodeId (ctl_session s))) s)
  else Ok (on_session CloseSocket s).

Definition Handle_NODE_SYNC_DATA (p : WorldPacket) (s : Ctl) : outcome Ctl :=
  let* '(cmd, b) := read 4 (wp_buf p) in
  if cmd =? CL_DEF_GUID_SYNC then
    let* '(Type_, b) := read 4 b in
    let* '(GUID, b) := read 4 b in
    Ok (on_routing (SetLastGUID (_nodeId (ctl_session s)) Type_ GUID) s)
  else Ok s.

(** Without a row for the realm the socket is closed and the null result is
    used all the same. *)
Definition Handle_SMSG_AUTH_CHALLENGE (p : WorldPacket) (s : Ctl) : outcome Ctl :=
  match realm_name env with
  | None => UB
  | Some name => let* q := make LOGON_AUTH_MASTER [Str name] in Ok (on_session (SendPacket q) s)
  end.

Definition dispatch (p : WorldPacket) (s : Ctl) : outcome Ctl :=
  if GetOpcode p =? SMSG_AUTH_RESPONSE then Handle_SMSG_AUTH_RESPONSE p s
  else if GetOpcode p =? NODE_INIT_ACK then Handle_NODE_INIT_ACK p s
  else if GetOpcode p =? NODE_SYNC_DATA then Handle_NODE_SYNC_DATA p s
  else if GetOpcode p =? SMSG_AUTH_CHALLENGE then Handle_SMSG_AUTH_CHALLENGE p s
  else Ok s.

(** A [ByteBufferException] is caught; the handlers read before they change
    anything. *)
Definition HandlePacket (p : WorldPacket) (s : Ctl) : outcome Ctl :=
  match dispatch p s with
  | Throw AssertFailure => Throw AssertFailure
  | Throw _ => Ok s
  | r => r
  end.

(** ** The update

    [GetNextSinglePacket] and [GetNextMultiPacket] give nothing once the socket
    is closing; no handler puts packets into the queues, so that the loops run
    over what the queues hold. *)
Definition next_packet (multi : bool) (c : ControlSession) : option (WorldPacket * ControlSession) :=
  match m_Socket c with
  | None => None
  | Some k =>
      if cs_closing k then None
      else match multi, cs_single k, cs_multi k with
           | false, p :: q, m =>
               Some (p, set_socket (Some (mkCtlSocket (cs_closing k) (cs_accepts k) q m (cs_sent k))) c)
           | true, q, p :: m =>
               Some (p, set_socket (Some (mkCtlSocket (cs_closing k) (cs_accepts k) q m (cs_sent k))) c)
           | _, _, _ => None
           end
  end.

Fixpoint drain (fuel : nat) (multi : bool) (s : Ctl) : outcome Ctl :=
  match next_packet multi (ctl_session s) with
  | None => Ok s
  | Some (p, c) =>
      match fuel with
      | O => Ok s
      | S fuel => let* s := HandlePacket p (mkCtl c (ctl_routing s)) in drain fuel multi s
      end
  end.

Definition queued (multi : bool) (c : ControlSession) : nat :=
  match m_Socket c with
  | None => 0
  | Some k => length (if multi then cs_multi k else cs_single k)
  end.

Definition UpdateControlIO (s : Ctl) : outcome Ctl :=
  let* s := drain (queued false (ctl_session s)) false s in
  drain (queued true (ctl_session s)) true s.

(** [connect] is what [OpenNodeConnection] would return. *)
Definition reconnect (connect : option CtlSocket) (diff : Z) (s : Ctl) : Ctl :=
  let c := ctl_session s in
  if CTL_FLAG_NODE_RECONNECT c then
    if _reconnect_timer c <=? diff then
      let s := on_session (set_timer RECONNECT_INTERVAL) s in
      if CheckNodeID (_nodeId c) (ctl_routing s) then
        match connect with
        | Some k => on_session (fun c => set_reconnect false (set_socket (Some k) c)) s
        | None => s
        end
      else s
    else on_session (set_timer (_reconnect_timer c - diff)) s
  else s.

Definition closing_check (s : Ctl) : Ctl :=
  let c := ctl_session s in
  match m_Socket c with
  | Some k =>
      if cs_closing k then
        on_session (fun c => set_reconnect true (set_timer RECONNECT_INTERVAL (set_socket None c)))
          (on_routing (SetNodeOffline (_nodeId c)) s)
      else s
  | None => s
  end.

Definition Update (connect : option CtlSocket) (diff : Z) (s : Ctl) : outcome (bool * Ctl) :=
  let s := reconnect connect diff s in
  let* s := UpdateControlIO s in
  Ok (true, closing_check s).

(** The constructor; a timer and a flag it does not set are unspecified. *)
Definition ControlSession_new (un_timer : Z) (un_authed : bool) (connect : option CtlSocket)
  (NodeID NodeType : Z) : ControlSession :=
  match connect with
  | Some k => mkControlSession NodeID NodeType (Some k) un_timer false un_authed
  | None => mkControlSession NodeID NodeType None RECONNECT_INTERVAL true un_authed
  end.

(** ** The manager

    [addSessQueue] and the sessions by node; a session is filed under its
    node's number, and is deleted once its update returns false. *)
Record ControlSessionMgr := mkControlSessionMgr {
  addSessQueue : list ControlSession;
  m_ctl_sessions : gmap Z ControlSession
}.

Definition AddSession (s : ControlSession) (m : ControlSessionMgr) : ControlSessionMgr :=
  mkControlSessionMgr (addSessQueue m ++ [s]) (m_ctl_sessions m).
Definition AddSession_ (s : ControlSession) (m : gmap Z ControlSession) : gmap Z ControlSession :=
  <[_nodeId s := s]> m.

(** [connect] is what [OpenNodeConnection] would return for each node. *)
Fixpoint update_each (connect : Z -> option CtlSocket) (diff : Z) (ids : list Z)
  (m : gmap Z ControlSession) (r : RoutingHelper) : outcome (gmap Z ControlSession * RoutingHelper) :=
  match ids with
  | [] => Ok (m, r)
  | id :: ids =>
      match m !! id with
      | None => update_each connect diff ids m r
      | Some c =>
          let* '(keep, s) := Update (connect id) diff (mkCtl c r) in
          update_each connect diff ids
            (if keep : bool then <[id := ctl_session s]> m else delete id m) (ctl_routing s)
      end
  end.

Definition Mgr_Update (connect : Z -> option CtlSocket) (diff : Z) (m : ControlSessionMgr) (r : RoutingHelper)
  : outcome (ControlSessionMgr * RoutingHelper) :=
  let sessions := foldl (fun m s => AddSession_ s m) (m_ctl_sessions m) (addSessQueue m) in
  let* '(sessions, r) := update_each connect diff (fst <$> uiter sessions) sessions r in
  Ok (mkControlSessionMgr [] sessions, r).

Definition findNodebyID (id : Z) (m : ControlSessionMgr) : option ControlSession := m_ctl_sessions m !! id.

Definition SendGlobal (p : WorldPacket) (m : ControlSessionMgr) : ControlSessionMgr :=
  mkControlSessionMgr (addSessQueue m) (SendPacket p <$> m_ctl_sessions m).
Definition SendToNodeType (Type_ : Z) (p : WorldPacket) (m : ControlSessionMgr) : ControlSessionMgr :=
  mkControlSessionMgr (addSessQueue m)
    ((fun c => if _nodeType c =? Type_ then SendPacket p c else c) <$> m_ctl_sessions m).

Definition Mgr_ServerClose (m : ControlSessionMgr) : ControlSessionMgr := mkControlSessionMgr (addSessQueue m) ∅.
End Control.
