(* ===== verification/ControlFacts.v ===== *)
(** * Facts about control packets: what one end writes the other reads

    Packets as lists of fields, the evaluation of the nodes' handlers on them,
    and the handshake that starts a node: [SendInitAuthedNode] at one end,
    [Handle_LOGON_INIT_NODE] at the other. *)
From Stdlib Require Import Ascii String ZArith Lia.
From stdpp Require Import base gmap list strings.
From S2P Require Import Prelude ByteBuffer Routing Node Control.

Open Scope Z_scope.

(** ** Messages *)
Definition message (opcode : Z) (fs : list PField) : WorldPacket :=
  mkWP opcode (mkBB 0 (Z.of_nat (length (fields_bytes fs))) (fields_bytes fs)).

Definition holds (b : ByteBuffer) (fs : list PField) : Prop :=
  readable b /\ pending b = fields_bytes fs.

Lemma make_message opcode fs :
  0 <= opcode < 2 ^ 16 -> Z.of_nat (length (fields_bytes fs)) <= max_size ->
  make opcode fs = Ok (message opcode fs).
Proof.
  intros Ho Hl. unfold make, message. rewrite append_fields_end by (done || (cbn; lia)).
  cbn [obind]. rewrite wrap_small by done. do 3 f_equal.
Qed.

Lemma holds_message opcode fs :
  Z.of_nat (length (fields_bytes fs)) <= max_size -> holds (wp_buf (message opcode fs)) fs.
Proof. unfold max_size. intros Hl. split; [split; unfold bb_size; cbn; lia|done]. Qed.

Lemma holds_next b f fs :
  holds b (f :: fs) -> holds (set_rpos (_rpos b + Z.of_nat (length (field_bytes f))) b) fs.
Proof.
  intros [Hr Hp]. split; [apply readable_skip; [done|lia]|].
  by apply (pending_skip _ _ (field_bytes f)).
Qed.

Lemma read_holds n v b f fs :
  holds b (f :: fs) -> field_bytes f = le_split n v -> (0 < n)%nat ->
  exists b', read n b = Ok (wrap (8 * Z.of_nat n) v, b') /\ holds b' fs.
Proof.
  intros Hb Hf Hn. pose proof (holds_next _ _ _ Hb) as Hn'. destruct Hb as [Hr Hp].
  eexists. split; [|exact Hn']. rewrite Hf, length_le_split.
  apply (read_int_pending n v b (fields_bytes fs)); [done|by rewrite <- Hf|done].
Qed.

Definition norm_float (bits : Z) : Z := if float_finite (u32 bits) then u32 bits else 0.

(** ** Running the nodes' handlers *)
Section Run.
Context {A : Type}.

Lemma run_read_u32 b v fs :
  holds b (U32 v :: fs) ->
  exists b', holds b' fs /\ forall (k : Z -> NodeM A) n, nbind read_u32 k (n, b) = k (u32 v) (n, b').
Proof.
  intros Hb. destruct (read_holds 4 v b (U32 v) fs Hb eq_refl ltac:(lia)) as (b' & E & Hb').
  exists b'. split; [done|]. intros k n. unfold nbind, read_u32, extract. by rewrite E.
Qed.

Lemma run_update f (k : unit -> NodeM A) n b : nbind (update f) k (n, b) = k tt (f n, b).
Proof. done. Qed.
End Run.

Lemma read_float_holds b v fs :
  holds b (F32 v :: fs) -> exists b', holds b' fs /\ read_float b = Ok (norm_float v, b').
Proof.
  intros Hb. destruct (read_holds 4 v b (F32 v) fs Hb eq_refl ltac:(lia)) as (b' & E & Hb').
  exists b'. split; [done|]. unfold read_float. by rewrite E.
Qed.

Lemma read_u32_holds b v fs :
  holds b (U32 v :: fs) -> exists b', holds b' fs /\ read 4 b = Ok (u32 v, b').
Proof.
  intros Hb. destruct (read_holds 4 v b (U32 v) fs Hb eq_refl ltac:(lia)) as (b' & E & Hb'). eauto.
Qed.

(** Reading a run of fields of one kind. *)
Lemma run_times {V} (enc : V -> PField) (f : ByteBuffer -> outcome (Z * ByteBuffer)) (dec : V -> Z) vs b fs :
  (forall b v fs, holds b (enc v :: fs) -> exists b', holds b' fs /\ f b = Ok (dec v, b')) ->
  holds b ((enc <$> vs) ++ fs) ->
  exists b', holds b' fs /\ forall n, read_times (length vs) (extract f) (n, b) = ((n, b'), Ok (dec <$> vs)).
Proof.
  intros Hf. revert b. induction vs as [|v vs IH]; intros b Hb; cbn.
  - exists b. by split.
  - destruct (Hf b v _ Hb) as (b1 & Hb1 & E1). destruct (IH b1 Hb1) as (b2 & Hb2 & E2).
    exists b2. split; [done|]. intros n. unfold nbind, extract at 1. rewrite E1, E2. done.
Qed.

(** ** The first packet to a node *)
Definition init_fields (env : CtlEnv) (count item mail id corpse : Z) : list PField :=
  [U32 count; U32 item; U32 mail; U32 id; U32 corpse]
  ++ ((fun r => F32 (getRate env r)) <$> sent_rates)
  ++ ((fun c => U32 (getIntConfig env c)) <$> sent_ints).

Lemma init_fields_length env count item mail id corpse :
  length (fields_bytes (init_fields env count item mail id corpse)) = 212%nat.
Proof. reflexivity. Qed.

(** The node after it has taken the values over. *)
Definition initialised (env : CtlEnv) (count item mail corpse : Z) (n : Node) : Node :=
  node_send (message NODE_INIT_ACK [U8 NODE_INIT_ACK_OK])
    (set_ints ((fun c => u32 (getIntConfig env c)) <$> sent_ints)
      (set_rates ((fun r => norm_float (getRate env r)) <$> sent_rates)
        (set_hiCorpseGuid corpse (set_mailId mail (set_hiItemGuid item (set_hiRange count n)))))).

Lemma initialised_node env count item mail corpse n :
  let n' := initialised env count item mail corpse n in
  n_objmgr n' = mkObjectMgr count item mail corpse /\ n_session n' = n_session n
  /\ n_sent n' = n_sent n ++ [message NODE_INIT_ACK [U8 NODE_INIT_ACK_OK]].
Proof. cbv zeta. by vm_compute. Qed.

Lemma SendInitACK_run ack n b :
  SendInitACK ack (n, b) = ((node_send (message NODE_INIT_ACK [U8 ack]) n, b), Ok tt).
Proof. unfold SendInitACK. by rewrite make_message. Qed.

Lemma init_node_run env count item mail id corpse n b :
  holds b (init_fields env count item mail id corpse) ->
  0 <= count < 2 ^ 32 -> 0 <= item < 0xFFFFFFFE -> 0 <= mail < 0xFFFFFFFE -> 0 <= corpse < 0xFFFFFFFE ->
  exists b', Handle_LOGON_INIT_NODE (n, b) = ((initialised env count item mail corpse n, b'), Ok tt).
Proof.
  intros H0 Hc Hi Hm Hp. unfold Handle_LOGON_INIT_NODE.
  destruct (run_read_u32 (A := unit) _ _ _ H0) as (b1 & H1 & E1). rewrite E1, run_update, wrap_small by lia.
  destruct (run_read_u32 (A := unit) _ _ _ H1) as (b2 & H2 & E2). rewrite E2, wrap_small by lia.
  rewrite (proj2 (Z.leb_gt _ _)), run_update by lia.
  destruct (run_read_u32 (A := unit) _ _ _ H2) as (b3 & H3 & E3). rewrite E3, wrap_small by lia.
  rewrite (proj2 (Z.leb_gt _ _)), run_update by lia.
  destruct (run_read_u32 (A := unit) _ _ _ H3) as (b4 & H4 & E4). rewrite E4.
  destruct (run_read_u32 (A := unit) _ _ _ H4) as (b5 & H5 & E5). rewrite E5, wrap_small by lia.
  rewrite (proj2 (Z.leb_gt _ _)), run_update by lia.
  destruct (run_times (fun r => F32 (getRate env r)) read_float (fun r => norm_float (getRate env r))
    sent_rates b5 _ (fun b v fs => read_float_holds b (getRate env v) fs) H5) as (b6 & H6 & E6).
  change (length sent_rates) with 38%nat in E6. unfold nbind at 1. rewrite E6, run_update.
  rewrite <- (app_nil_r (_ <$> sent_ints)) in H6.
  destruct (run_times (fun c => U32 (getIntConfig env c)) (read 4) (fun c => u32 (getIntConfig env c))
    sent_ints b6 [] (fun b v fs => read_u32_holds b (getIntConfig env v) fs) H6) as (b7 & H7 & E7).
  change (length sent_ints) with 10%nat in E7. unfold nbind at 1, read_u32. rewrite E7, run_update, SendInitACK_run.
  by exists b7.
Qed.

Lemma init_node_refused env count item mail id corpse n b :
  holds b (init_fields env count item mail id corpse) ->
  0 <= count < 2 ^ 32 -> 0 <= item < 2 ^ 32 -> 0 <= mail < 2 ^ 32 -> 0 <= corpse < 2 ^ 32 ->
  0xFFFFFFFE <= item \/ 0xFFFFFFFE <= mail \/ 0xFFFFFFFE <= corpse ->
  exists b' n' ack, Handle_LOGON_INIT_NODE (n, b) = ((n', b'), Ok tt)
    /\ n_sent n' = n_sent n ++ [message NODE_INIT_ACK [U8 ack]] /\ n_session n' = n_session n
    /\ ack ∈ [NODE_INIT_ACK_ITEM_GUID_FAIL; NODE_INIT_ACK_MAIL_GUID_FAIL; NODE_INIT_ACK_CORPSE_GUID_FAIL].
Proof.
  intros H0 Hc Hi Hm Hp Hbad. unfold Handle_LOGON_INIT_NODE.
  destruct (run_read_u32 (A := unit) _ _ _ H0) as (b1 & H1 & E1). rewrite E1, run_update.
  destruct (run_read_u32 (A := unit) _ _ _ H1) as (b2 & H2 & E2). rewrite E2, !wrap_small by lia.
  destruct (Z.leb_spec 0xFFFFFFFE item) as [Hx|Hx].
  { rewrite SendInitACK_run. do 3 eexists. split_and!; [done..|left]. }
  rewrite run_update. destruct (run_read_u32 (A := unit) _ _ _ H2) as (b3 & H3 & E3).
  rewrite E3, wrap_small by lia. destruct (Z.leb_spec 0xFFFFFFFE mail) as [Hy|Hy].
  { rewrite SendInitACK_run. do 3 eexists. split_and!; [done..|right; left]. }
  rewrite run_update. destruct (run_read_u32 (A := unit) _ _ _ H3) as (b4 & H4 & E4). rewrite E4.
  destruct (run_read_u32 (A := unit) _ _ _ H4) as (b5 & H5 & E5). rewrite E5, wrap_small by lia.
  rewrite (proj2 (Z.leb_le _ _)) by lia.
  rewrite SendInitACK_run. do 3 eexists. split_and!; [done..|do 2 right; left].
Qed.

(** ** What the cluster server sends *)

(** The directory holds values of 32 bits. *)
Definition guids_ok (n : NodeList) : Prop :=
  0 <= LastItemGUID n < 2 ^ 32 /\ 0 <= LastMailGUID n < 2 ^ 32 /\ 0 <= LastCorpseID n < 2 ^ 32.

Definition nodes_ok (r : RoutingHelper) : Prop :=
  forall id n, m_nodelist r !! id = Some n -> 0 <= id < 2 ^ 32 /\ guids_ok n.

(** The value a node is started with. *)
Definition start_value (last hi id : Z) : Z := if negb (last =? 0) then last else u32 (hi + u32 (id - 1)).

(** The node's entry once the values are recorded. *)
Definition started (h : Highest) (id : Z) (n : NodeList) : NodeList :=
  set_node_guids (start_value (LastItemGUID n) (m_hiItemGuid h) id)
    (start_value (LastMailGUID n) (m_mailid h) id) (LastGroupGUID n)
    (start_value (LastCorpseID n) (m_hiCorpseGuid h) id) n.

Section Start.
Context `{UnorderedIter}.

Lemma fold_max_bound (l : list (Z * NodeList)) c :
  0 <= c < 2 ^ 32 -> Forall (fun e => 0 <= e.1 < 2 ^ 32) l ->
  0 <= foldl (fun count '(id, _) => Z.max count id) c l < 2 ^ 32.
Proof.
  intros Hc Hl. revert c Hc. induction Hl as [|[i n] l Hi Hl IH]; intros c Hc; cbn in *; [done|].
  apply IH. lia.
Qed.

Lemma GetNodeCount_range r : nodes_ok r -> 0 <= GetNodeCount r < 2 ^ 32.
Proof.
  intros Hr. apply fold_max_bound; [lia|]. apply Forall_forall. intros [i n] Hin.
  apply (@elem_of_nodes H) in Hin. exact (proj1 (Hr _ _ Hin)).
Qed.

Lemma start_value_range last hi id : 0 <= last < 2 ^ 32 -> 0 <= start_value last hi id < 2 ^ 32.
Proof. unfold start_value. intros. case_if; [done|]. apply wrap_range; lia. Qed.

(** Recording one value. *)
Definition recorded (k v : Z) (n : NodeList) : NodeList :=
  if k =? ENTITYID_ITEM then set_node_guids v (LastMailGUID n) (LastGroupGUID n) (LastCorpseID n) n
  else if k =? ENTITYID_MAIL then set_node_guids (LastItemGUID n) v (LastGroupGUID n) (LastCorpseID n) n
  else if k =? ENTITYID_GROUP then set_node_guids (LastItemGUID n) (LastMailGUID n) v (LastCorpseID n) n
  else if k =? ENTITYID_CORPSE then set_node_guids (LastItemGUID n) (LastMailGUID n) (LastGroupGUID n) v n
  else n.

Lemma SetLastGUID_recorded Node k v r :
  SetLastGUID Node k v r = on_node (recorded k v) Node r.
Proof. done. Qed.

Lemma start_guid_run env s last type hi n :
  m_nodelist (ctl_routing s) !! _nodeId (ctl_session s) = Some n ->
  recorded type (last n) n = n ->
  start_guid env last type hi s
  = (start_value (last n) hi (_nodeId (ctl_session s)),
     mkCtl (ctl_session s) (set_nodelist
       (<[_nodeId (ctl_session s) := recorded type (start_value (last n) hi (_nodeId (ctl_session s))) n]>
          (m_nodelist (ctl_routing s))) (ctl_routing s))).
Proof.
  intros Hn Hself. unfold start_guid, start_value, GetNodeConnectionData. rewrite Hn.
  destruct s as [c r]; cbn in *. destruct (last n =? 0); cbn.
  - unfold on_routing. cbn. do 2 f_equal. rewrite SetLastGUID_recorded. unfold on_node. f_equal.
    apply map_eq. intros k. destruct (decide (k = _nodeId c)) as [->|].
    + rewrite lookup_alter_eq, lookup_insert_eq, Hn. done.
    + by rewrite lookup_alter_ne, lookup_insert_ne.
  - do 2 f_equal. rewrite Hself, insert_id by done. by destruct r.
Qed.

(** The whole of [SendInitAuthedNode] for a node of the directory. *)
Lemma SendInit_run env s n :
  m_nodelist (ctl_routing s) !! _nodeId (ctl_session s) = Some n ->
  let id := _nodeId (ctl_session s) in
  let n' := started (highest env) id n in
  SendInitAuthedNode env s
  = Ok (mkCtl
      (SendPacket (message LOGON_INIT_NODE (init_fields env (GetNodeCount (ctl_routing s))
         (LastItemGUID n') (LastMailGUID n') id (LastCorpseID n'))) (ctl_session s))
      (set_nodelist (<[id := n']> (m_nodelist (ctl_routing s))) (ctl_routing s))).
Proof.
  intros Hn. cbv zeta. unfold SendInitAuthedNode.
  rewrite (start_guid_run env s LastItemGUID ENTITYID_ITEM _ n Hn) by (by destruct n).
  set (n1 := recorded ENTITYID_ITEM _ n). set (r1 := set_nodelist _ _).
  rewrite (start_guid_run env (mkCtl (ctl_session s) r1) LastMailGUID ENTITYID_MAIL _ n1)
    by (cbn; try apply lookup_insert_eq; by destruct n).
  cbn [ctl_session ctl_routing]. set (n2 := recorded ENTITYID_MAIL _ n1). set (r2 := set_nodelist _ _).
  rewrite (start_guid_run env (mkCtl (ctl_session s) r2) LastCorpseID ENTITYID_CORPSE _ n2)
    by (cbn; try apply lookup_insert_eq; by destruct n).
  cbn [ctl_session ctl_routing]. rewrite make_message by done. cbn [obind]. unfold on_session.
  cbn [ctl_session ctl_routing]. do 2 f_equal. unfold r2, r1, set_nodelist. cbn.
  rewrite !insert_insert_eq. done.
Qed.

Lemma started_ok h id n : guids_ok n -> guids_ok (started h id n).
Proof. intros (? & ? & ?). split_and!; cbn; by apply start_value_range. Qed.

(** C32. The handshake that starts a node is a round trip: the one packet
    [SendInitAuthedNode] sends is read by [Handle_LOGON_INIT_NODE] value by
    value, whatever its 53 fields are.  The node then counts its GUIDs from
    the values recorded for it in the directory, in strides of the number of
    nodes, and its rates (the two mining rates excepted) and skill settings
    are the cluster server's; a GUID too close to the end of its range is
    refused with a code other than [NODE_INIT_ACK_OK]. *)
Theorem node_initialisation env s n k node :
  nodes_ok (ctl_routing s) -> m_nodelist (ctl_routing s) !! _nodeId (ctl_session s) = Some n ->
  m_Socket (ctl_session s) = Some k -> cs_closing k = false -> cs_accepts k = true ->
  let id := _nodeId (ctl_session s) in
  let n' := started (highest env) id n in
  exists p s' node',
    SendInitAuthedNode env s = Ok s'
    /\ m_Socket (ctl_session s') = Some (mkCtlSocket false true (cs_single k) (cs_multi k) (cs_sent k ++ [p]))
    /\ m_nodelist (ctl_routing s') = <[id := n']> (m_nodelist (ctl_routing s))
    /\ UpdateServerIO_packet p node = Ok node'
    /\ if (LastItemGUID n' <? 0xFFFFFFFE) && (LastMailGUID n' <? 0xFFFFFFFE) && (LastCorpseID n' <? 0xFFFFFFFE)
       then n_objmgr node' = mkObjectMgr (GetNodeCount (ctl_routing s)) (LastItemGUID n') (LastMailGUID n')
                               (LastCorpseID n')
            /\ (forall r, r <> RATE_MINING_AMOUNT -> r <> RATE_MINING_NEXT ->
                 rate_values node' r = norm_float (getRate env r))
            /\ (forall c, m_int_configs node' c = u32 (getIntConfig env c))
            /\ n_sent node' = n_sent node ++ [message NODE_INIT_ACK [U8 NODE_INIT_ACK_OK]]
       else exists ack, ack <> NODE_INIT_ACK_OK /\ n_sent node' = n_sent node ++ [message NODE_INIT_ACK [U8 ack]].
Proof.
  intros Hr Hn Hk Hc Ha id n'. pose proof (GetNodeCount_range _ Hr) as Hcount.
  destruct (started_ok (highest env) id n (proj2 (Hr _ _ Hn))) as (Hi & Hm & Hp). fold n' in Hi, Hm, Hp.
  set (p := message LOGON_INIT_NODE (init_fields env (GetNodeCount (ctl_routing s))
              (LastItemGUID n') (LastMailGUID n') id (LastCorpseID n'))).
  assert (holds (wp_buf p) (init_fields env (GetNodeCount (ctl_routing s))
              (LastItemGUID n') (LastMailGUID n') id (LastCorpseID n'))) as Hh by (apply holds_message; done).
  assert (SendPacket p (ctl_session s)
    = set_socket (Some (mkCtlSocket false true (cs_single k) (cs_multi k) (cs_sent k ++ [p]))) (ctl_session s)) as Es
    by (unfold SendPacket; by rewrite Hk, Hc, Ha).
  exists p. eexists. rewrite (SendInit_run env s n Hn). fold id n' p. rewrite Es.
  unfold UpdateServerIO_packet. change (GetOpcode p =? LOGON_INIT_NODE) with true. cbv iota.
  destruct (_ && _) eqn:E.
  - apply andb_true_iff in E as [[Hi' Hm']%andb_true_iff Hp']. bool_props.
    destruct (init_node_run env _ _ _ _ _ node _ Hh) as (b' & ->); [done|lia..|].
    eexists. split_and!; [done..|by intros []|by intros []|done].
  - destruct (init_node_refused env _ _ _ _ _ node _ Hh) as (b' & node' & ack & -> & Hs & _ & Hack); [done..| |].
    { apply andb_false_iff in E as [[E|E]%andb_false_iff|E]; bool_props; auto. }
    exists node'. split_and!; [done..|]. exists ack. split; [|done].
    rewrite !elem_of_cons, elem_of_nil in Hack. unfold NODE_INIT_ACK_OK. destruct Hack as [->|[->|[->|[]]]]; done.
Qed.
End Start.

(** A directory with one node, a counter of items at 100. *)
Definition one_env : CtlEnv :=
  mkCtlEnv (fun _ => 0x3F800000) (fun _ => 1) (Some "realm"%string) (mkHighest 1 1 100 1 1 1 200 300 1 1)
    (mkNodeList "" "" 0 0 false false 0 0 0 0 0).
Definition one_entry : NodeList := mkNodeList "one" "10.0.0.1" 8085 8086 true false 0 0 0 0 0.
Definition one_link : CtlSocket := mkCtlSocket false true [] [] [].
Definition one_ctl : Ctl :=
  mkCtl (mkControlSession 1 0 (Some one_link) 0 false true) (mkRouting ∅ {[1 := one_entry]} true 1).
Definition blank_node : Node := mkNode (mkObjectMgr 0 0 0 0) (fun _ => 0) (fun _ => 0) None false true [].

Lemma node_initialisation_witness :
  exists s' node' p, SendInitAuthedNode one_env one_ctl = Ok s'
    /\ UpdateServerIO_packet p blank_node = Ok node' /\ n_objmgr node' = mkObjectMgr 1 100 200 300.
Proof.
  destruct (node_initialisation one_env one_ctl one_entry one_link blank_node) as (p & s' & node' & E1 & _ & _ & E2 & E3);
    [|reflexivity..|].
  { intros id n Hn. change (({[1 := one_entry]} : gmap Z NodeList) !! id = Some n) in Hn.
    apply lookup_singleton_Some in Hn as [<- <-]. split; [lia|]. split_and!; cbn; lia. }
  exists s', node', p. split; [exact E1|]. split; [exact E2|]. exact (proj1 E3).
Defined.
