(* ===== verification/Cluster.v ===== *)
(** * The cluster: control sessions, nodes and the GUIDs they hand out

    The composition of [Routing], [Control] and [Node]: the cluster server
    updates its control sessions, nodes come and go, take the values they are
    given and hand out GUIDs for items, mails and corpses, telling the cluster
    server about each.  Links are those of [Stream]: reliable and in order
    while they stand. *)
From Stdlib Require Import Ascii String ZArith Lia.
From stdpp Require Import base gmap list strings.
From S2P Require Import Prelude ByteBuffer Routing Node Control ControlFacts.

Open Scope Z_scope.

(** ** Kinds of GUIDs *)
Inductive Kind := KItem | KMail | KCorpse.

#[export] Instance Kind_eq_dec : EqDecision Kind.
Proof. solve_decision. Defined.

Definition type_of (k : Kind) : Z :=
  match k with KItem => ENTITYID_ITEM | KMail => ENTITYID_MAIL | KCorpse => ENTITYID_CORPSE end.
Definition last_of (k : Kind) (n : NodeList) : Z :=
  match k with KItem => LastItemGUID n | KMail => LastMailGUID n | KCorpse => LastCorpseID n end.
Definition hi_of (k : Kind) (n : Node) : Z :=
  match k with
  | KItem => _hiItemGuid (n_objmgr n) | KMail => _mailId (n_objmgr n) | KCorpse => _hiCorpseGuid (n_objmgr n)
  end.
Definition base_of (k : Kind) (h : Highest) : Z :=
  match k with KItem => m_hiItemGuid h | KMail => m_mailid h | KCorpse => m_hiCorpseGuid h end.
Definition generate (k : Kind) : Node -> outcome (Z * Node) :=
  match k with KItem => GenerateLowGuid GUID_ITEM | KMail => GenerateMailID | KCorpse => GenerateLowGuid GUID_CORPSE end.

(** ** Messages from a node *)
Inductive Msg := MAuth | MAck (code : Z) | MSync (k : Kind) (v : Z).

Definition enc (m : Msg) : WorldPacket :=
  match m with
  | MAuth => message SMSG_AUTH_RESPONSE [U16 AUTH_OK]
  | MAck code => message NODE_INIT_ACK [U8 code]
  | MSync k v => message NODE_SYNC_DATA [U32 CL_DEF_GUID_SYNC; U32 (type_of k); U32 v]
  end.

(** A new connection: the node's [AddSession_] accepts it at once. *)
Definition fresh_link : CtlSocket := mkCtlSocket false true [] [enc MAuth] [].

(** ** State

    [cl_ready] says which nodes have been started over their present link;
    [cl_issued] records every GUID handed out, by node and kind. *)
Record Cluster := mkCluster {
  cl_routing : RoutingHelper;
  cl_sessions : gmap Z ControlSession;
  cl_nodes : Z -> Node;
  cl_ready : Z -> bool;
  cl_issued : list (Z * Kind * Z)
}.

Definition upd {V} (f : Z -> V) (i : Z) (v : V) : Z -> V := fun j => if j =? i then v else f j.

(** [SetupControler]. *)
Definition SetupControler (un_timer : Z) (un_authed : bool) (connect : Z -> bool) (r : RoutingHelper)
  : gmap Z ControlSession :=
  map_imap (fun id n => Some (ControlSession_new un_timer un_authed
    (if connect id then Some fresh_link else None) id (nl_type n))) (m_nodelist r).

(** Packets of the node enter the session's queue. *)
Definition relay (ps : list WorldPacket) (c : ControlSession) : ControlSession :=
  match m_Socket c with
  | None => c
  | Some k => set_socket (Some (mkCtlSocket (cs_closing k) (cs_accepts k) (cs_single k) (cs_multi k ++ ps)
                                  (cs_sent k))) c
  end.
Definition sent_off (n : Node) : Node :=
  mkNode (n_objmgr n) (rate_values n) (m_int_configs n) (n_shutdown n) (n_stopped n) (n_session n) [].

Definition started_now (n : Node) : bool :=
  existsb (fun p => bool_decide (GetOpcode p = NODE_INIT_ACK)
                    && bool_decide (_storage (wp_buf p) = [NODE_INIT_ACK_OK])) (n_sent n).

Definition linked (c : ControlSession) : bool :=
  match m_Socket c with Some _ => true | None => false end.

Section Steps.
Context `{UnorderedIter} (env : CtlEnv).

(** One step of the cluster server, of a node or of the network. *)
Inductive cluster_step (cl : Cluster) : Cluster -> Prop :=
(** The manager updates the session of node [id].  When this opens a
    connection, the node at the other end may be a new process: it holds
    whatever it holds, and has not been started. *)
| Step_update id c diff (conn : bool) c' r' node :
    cl_sessions cl !! id = Some c -> 0 <= diff ->
    let connect := if conn then Some fresh_link else None in
    Update env connect diff (mkCtl c (cl_routing cl)) = Ok (true, mkCtl c' r') ->
    n_sent node = [] -> n_session node = true ->
    let opened := negb (linked c) && linked (ctl_session (reconnect connect diff (mkCtl c (cl_routing cl)))) in
    cluster_step cl (mkCluster r' (<[id := c']> (cl_sessions cl))
      (if opened then upd (cl_nodes cl) id node else cl_nodes cl)
      (if linked c' then (if opened then upd (cl_ready cl) id false else cl_ready cl)
       else upd (cl_ready cl) id false)
      (cl_issued cl))
(** The node takes the next packet the cluster server has sent to it. *)
| Step_node id c k p sent node' :
    cl_sessions cl !! id = Some c -> m_Socket c = Some k -> cs_closing k = false -> cs_sent k = p :: sent ->
    UpdateServerIO_packet p (cl_nodes cl id) = Ok node' ->
    cluster_step cl (mkCluster (cl_routing cl)
      (<[id := relay (n_sent node')
                 (set_socket (Some (mkCtlSocket (cs_closing k) (cs_accepts k) (cs_single k) (cs_multi k) sent)) c)]>
         (cl_sessions cl))
      (upd (cl_nodes cl) id (sent_off node'))
      (if started_now node' then upd (cl_ready cl) id true else cl_ready cl)
      (cl_issued cl))
(** A node that has been started hands out a GUID; it is not within a stride
    of the end of the 32-bit range. *)
| Step_generate id c k kind g node' :
    cl_sessions cl !! id = Some c -> m_Socket c = Some k -> cs_closing k = false -> cl_ready cl id = true ->
    hi_of kind (cl_nodes cl id) + _hiRange (n_objmgr (cl_nodes cl id)) < 2 ^ 32 ->
    generate kind (cl_nodes cl id) = Ok (g, node') ->
    cluster_step cl (mkCluster (cl_routing cl) (<[id := relay (n_sent node') c]> (cl_sessions cl))
      (upd (cl_nodes cl) id (sent_off node')) (cl_ready cl) (cl_issued cl ++ [(id, kind, g)]))
(** A link goes down, with nothing under way from a node that has been
    started; the node hands out nothing until it has been started again. *)
| Step_drop id c k :
    cl_sessions cl !! id = Some c -> m_Socket c = Some k ->
    (cl_ready cl id = true -> cs_single k = [] /\ cs_multi k = []) ->
    cluster_step cl (mkCluster (cl_routing cl)
      (<[id := CloseSocket c]> (cl_sessions cl)) (cl_nodes cl) (upd (cl_ready cl) id false) (cl_issued cl))
(** The system stops, or starts again, to take packets for a node. *)
| Step_accepts id c k b :
    cl_sessions cl !! id = Some c -> m_Socket c = Some k ->
    cluster_step cl (mkCluster (cl_routing cl)
      (<[id := set_socket (Some (mkCtlSocket (cs_closing k) b (cs_single k) (cs_multi k) (cs_sent k))) c]>
         (cl_sessions cl)) (cl_nodes cl) (cl_ready cl) (cl_issued cl))
(** The states of the nodes are read from the database again. *)
| Step_refresh query r' :
    RefreshOnlineStat query (cl_routing cl) = Ok r' ->
    cluster_step cl (mkCluster r' (cl_sessions cl) (cl_nodes cl) (cl_ready cl) (cl_issued cl)).

(** The cluster after the directory has been loaded. *)
Inductive cluster_reachable (un : Z -> Unspecified) (rows : list NodeRow) : Cluster -> Prop :=
| Reach_start un_timer un_authed connect nodes r :
    m_nodelist r = ∅ -> (forall id, n_sent (nodes id) = [] /\ n_session (nodes id) = true) ->
    cluster_reachable un rows
      (let r := LoadNodeList un rows r in
       mkCluster r (SetupControler un_timer un_authed connect r) nodes (fun _ => false) [])
| Reach_step cl cl' :
    cluster_reachable un rows cl -> cluster_step cl cl' -> cluster_reachable un rows cl'.
End Steps.
