(* ===== verification/ClusterFacts.v ===== *)
(** * The invariant of the cluster

    What connects the directory, the control sessions, the packets under way
    and the nodes: a node that has been started counts from the last value the
    cluster server has recorded for it, brought up to date by the packets that
    are still under way. *)
From Stdlib Require Import Ascii String ZArith Lia.
From stdpp Require Import base gmap list strings.
From S2P Require Import Prelude ByteBuffer Routing Node Control ControlFacts Cluster.

Open Scope Z_scope.

(** ** The directory *)
Section Count.
Context `{UnorderedIter}.

Lemma fold_max_in (l : list (Z * NodeList)) c :
  foldl (fun count '(id, _) => Z.max count id) c l = c
  \/ exists n, (foldl (fun count '(id, _) => Z.max count id) c l, n) ∈ l.
Proof.
  revert c. induction l as [|[i n] l IH]; intros c; cbn; [by left|].
  destruct (IH (Z.max c i)) as [E|[m Hm]].
  - rewrite E. destruct (Z.max_spec c i) as [[_ ->]|[_ ->]]; [|by left].
    right. exists n. left.
  - right. exists m. by right.
Qed.

(** The count depends on the numbers of the nodes only. *)
Lemma GetNodeCount_dom r r' :
  (forall id, is_Some (m_nodelist r !! id) <-> is_Some (m_nodelist r' !! id)) ->
  (forall id, is_Some (m_nodelist r !! id) -> 0 <= id) ->
  GetNodeCount r = GetNodeCount r'.
Proof.
  intros Hdom H0. unfold GetNodeCount.
  set (f := fun (count : Z) '((id, _) : Z * NodeList) => Z.max count id).
  assert (forall a b : RoutingHelper, (forall id, is_Some (m_nodelist a !! id) -> is_Some (m_nodelist b !! id)) ->
    foldl f 0 (uiter (m_nodelist a)) <= foldl f 0 (uiter (m_nodelist b))) as Hle.
  { intros a b Hab. destruct (fold_max_in (uiter (m_nodelist a)) 0) as [E|[n Hn]].
    - fold f in E. rewrite E. apply (proj1 (fold_max_ge (uiter (m_nodelist b)) 0 0 (mkNodeList "" "" 0 0 false false 0 0 0 0 0))).
    - fold f in Hn. apply (@elem_of_nodes H) in Hn. destruct (Hab _ (ex_intro _ _ Hn)) as [m Hm].
      apply (@elem_of_nodes H) in Hm.
      apply (proj2 (fold_max_ge (uiter (m_nodelist b)) 0 _ m)), Hm. }
  apply Z.le_antisymm; apply Hle; intros id; apply Hdom.
Qed.
End Count.

Lemma last_of_recorded k k' v n :
  last_of k' (recorded (type_of k) v n) = if decide (k' = k) then v else last_of k' n.
Proof. by destruct k, k'. Qed.

Lemma recorded_state k v n :
  online (recorded (type_of k) v n) = online n /\ can_enter (recorded (type_of k) v n) = can_enter n.
Proof. by destruct k. Qed.

Lemma guids_last n : guids_ok n <-> forall k, 0 <= last_of k n < 2 ^ 32.
Proof.
  split; [intros (? & ? & ?) []; done|]. intros Hk.
  split; [|split]; [apply (Hk KItem)|apply (Hk KMail)|apply (Hk KCorpse)].
Qed.

Lemma last_of_started h id n k :
  last_of k (started h id n) = start_value (last_of k n) (base_of k h) id.
Proof. by destruct k. Qed.

(** ** Handling one message *)
Section Handle.
Context `{UnorderedIter} (env : CtlEnv).

Lemma handle_auth s : HandlePacket env (enc MAuth) s
  = match SendInitAuthedNode env (on_session (set_authed true) s) with
    | Throw AssertFailure => Throw AssertFailure
    | Throw _ => Ok s
    | r => r
    end.
Proof. reflexivity. Qed.

Lemma handle_ack a s :
  0 <= a < 256 ->
  HandlePacket env (enc (MAck a)) s
  = Ok (if a =? NODE_INIT_ACK_OK then on_routing (SetNodeOnline (_nodeId (ctl_session s))) s
        else on_session CloseSocket s).
Proof.
  intros Ha. unfold HandlePacket, dispatch. cbn [enc GetOpcode message m_opcode].
  change (NODE_INIT_ACK =? SMSG_AUTH_RESPONSE) with false.
  change (NODE_INIT_ACK =? NODE_INIT_ACK) with true. cbv iota.
  unfold Handle_NODE_INIT_ACK.
  destruct (read_holds 1 a (wp_buf (message NODE_INIT_ACK [U8 a])) (U8 a) []) as (b & E & _);
    [by apply holds_message|done|lia|].
  rewrite E. cbn [obind]. rewrite wrap_small by (cbn; lia). by case_if.
Qed.

Lemma handle_sync k v s :
  0 <= v < 2 ^ 32 ->
  HandlePacket env (enc (MSync k v)) s
  = Ok (on_routing (SetLastGUID (_nodeId (ctl_session s)) (type_of k) v) s).
Proof.
  intros Hv. unfold HandlePacket, dispatch. cbn [enc GetOpcode message m_opcode].
  change (NODE_SYNC_DATA =? SMSG_AUTH_RESPONSE) with false.
  change (NODE_SYNC_DATA =? NODE_INIT_ACK) with false.
  change (NODE_SYNC_DATA =? NODE_SYNC_DATA) with true. cbv iota.
  unfold Handle_NODE_SYNC_DATA.
  destruct (read_u32_holds (wp_buf (enc (MSync k v))) CL_DEF_GUID_SYNC [U32 (type_of k); U32 v])
    as (b1 & H1 & E1); [by apply holds_message|].
  cbn [enc] in E1. rewrite E1. cbn [obind]. change (u32 CL_DEF_GUID_SYNC =? CL_DEF_GUID_SYNC) with true. cbv iota.
  destruct (read_u32_holds _ _ _ H1) as (b2 & H2 & E2). rewrite E2. cbn [obind].
  destruct (read_u32_holds _ _ _ H2) as (b3 & H3 & E3). rewrite E3. cbn [obind].
  rewrite (wrap_small 32 v) by lia. by destruct k.
Qed.
End Handle.

(** ** What is under way *)

(** The last value of a kind after the messages have arrived. *)
Definition cur (k : Kind) (v : Z) (ms : list Msg) : Z :=
  foldl (fun v m => match m with MSync k' w => if decide (k' = k) then w else v | _ => v end) v ms.

(** The entry of the node after messages of a started node have arrived. *)
Definition arrive (n : NodeList) (m : Msg) : NodeList :=
  match m with
  | MAck _ => set_node_state (online n) true n
  | MSync k v => recorded (type_of k) v n
  | MAuth => n
  end.

Lemma last_of_arrive k ms n : last_of k (foldl arrive n ms) = cur k (last_of k n) ms.
Proof.
  revert n. induction ms as [|m ms IH]; intros n; cbn; [done|]. rewrite IH.
  unfold cur. cbn. f_equal. destruct m as [|a|k' v]; cbn; [done|by destruct k|].
  rewrite last_of_recorded. by destruct (decide (k = k')), (decide (k' = k)).
Qed.

Lemma cur_snoc k v ms k' w :
  cur k v (ms ++ [MSync k' w]) = if decide (k' = k) then w else cur k v ms.
Proof. unfold cur. by rewrite foldl_app. Qed.

Section Inv.
Context `{UnorderedIter} (env : CtlEnv) (N : Z).

(** The values of a kind a node may use: its own residue, from its start on. *)
Definition stride (k : Kind) (id v : Z) : Prop :=
  base_of k (highest env) + id - 1 <= v < 2 ^ 32
  /\ (v - (base_of k (highest env) + id - 1)) mod N = 0.

Definition running (id : Z) (m : Msg) : Prop :=
  match m with
  | MAuth => False
  | MAck a => a = NODE_INIT_ACK_OK
  | MSync k v => stride k id v
  end.

Definition init_packet (id : Z) (n : NodeList) : WorldPacket :=
  message LOGON_INIT_NODE (init_fields env N (LastItemGUID n) (LastMailGUID n) id (LastCorpseID n)).

(** The stages of a link that stands: what is under way to the cluster server,
    and what to the node. *)
Inductive phase (id : Z) (n : NodeList) (nd : Node) : bool -> list Msg -> list WorldPacket -> Prop :=
| Ph_auth : phase id n nd false [MAuth] []
| Ph_init : (forall k, last_of k n <> 0) -> phase id n nd false [] [init_packet id n]
| Ph_refused a : 0 <= a < 256 -> a <> NODE_INIT_ACK_OK -> phase id n nd false [MAck a] []
| Ph_run ms :
    (forall k, last_of k n <> 0) -> _hiRange (n_objmgr nd) = N ->
    (forall k, hi_of k nd = cur k (last_of k n) ms) -> Forall (running id) ms ->
    phase id n nd true ms [].

Definition entry_ok (id : Z) (n : NodeList) : Prop :=
  guids_ok n /\ forall k, last_of k n = 0 \/ stride k id (last_of k n).

Definition socket_ok (id : Z) (n : NodeList) (nd : Node) (ready : bool) (s : option CtlSocket) : Prop :=
  match s with
  | None => ready = false
  | Some k =>
      cs_single k = [] /\
      if cs_closing k then ready = false
      else n_sent nd = [] /\ n_session nd = true /\
           exists ms, cs_multi k = enc <$> ms /\ phase id n nd ready ms (cs_sent k)
  end.

(** A node that can be entered has been started over its link, or the link is
    about to be cleared away. *)
Definition enter_ok (ready : bool) (s : option CtlSocket) : Prop :=
  match s with None => False | Some k => cs_closing k = false -> ready = true end.

Record sess_ok (id : Z) (n : NodeList) (c : ControlSession) (nd : Node) (ready : bool) : Prop := {
  so_id : _nodeId c = id;
  so_flag : CTL_FLAG_NODE_RECONNECT c = negb (linked c);
  so_entry : entry_ok id n;
  so_enter : can_enter n = true -> enter_ok ready (m_Socket c);
  so_socket : socket_ok id n nd ready (m_Socket c)
}.

Definition top (k : Kind) (n : NodeList) (nd : Node) (ready : bool) : Z :=
  if ready then hi_of k nd else last_of k n.

Record cluster_ok (cl : Cluster) : Prop := {
  co_nodes : nodes_ok (cl_routing cl);
  co_count : GetNodeCount (cl_routing cl) = N;
  co_sessions : forall id n, m_nodelist (cl_routing cl) !! id = Some n ->
    1 <= id /\ exists c, cl_sessions cl !! id = Some c /\ sess_ok id n c (cl_nodes cl id) (cl_ready cl id);
  co_known : forall id c, cl_sessions cl !! id = Some c -> is_Some (m_nodelist (cl_routing cl) !! id);
  co_issued : forall id k g, (id, k, g) ∈ cl_issued cl ->
    exists n, m_nodelist (cl_routing cl) !! id = Some n /\ stride k id g
      /\ g <= top k n (cl_nodes cl id) (cl_ready cl id);
  co_unique : NoDup ((fun '(_, k, g) => (k, g)) <$> cl_issued cl)
}.

(** The counters leave room for one stride. *)
Definition bases_ok : Prop := forall k, 1 <= base_of k (highest env) /\ base_of k (highest env) + N < 2 ^ 32.

Lemma stride_start k id last :
  bases_ok -> 1 <= id <= N -> last = 0 \/ stride k id last ->
  stride k id (start_value last (base_of k (highest env)) id)
  /\ start_value last (base_of k (highest env)) id <> 0 /\ last <= start_value last (base_of k (highest env)) id.
Proof.
  intros Hb Hid Hl. destruct (Hb k) as [Hb1 Hb2]. unfold start_value.
  destruct (Z.eqb_spec last 0) as [->|Hz]; cbn [negb].
  - rewrite !wrap_small by (rewrite ?wrap_small; lia). split; [|lia]. split; [lia|].
    replace (_ - _) with 0 by lia. apply Z.mod_0_l. lia.
  - destruct Hl as [?|Hl]; [done|]. split; [done|]. lia.
Qed.

Lemma on_node_insert f id r n :
  m_nodelist r !! id = Some n -> on_node f id r = set_nodelist (<[id := f n]> (m_nodelist r)) r.
Proof.
  intros Hn. unfold on_node. f_equal. apply map_eq. intros k. destruct (decide (k = id)) as [->|].
  - by rewrite lookup_alter_eq, lookup_insert_eq, Hn.
  - by rewrite lookup_alter_ne, lookup_insert_ne.
Qed.

Definition with_node (id : Z) (n : NodeList) (r : RoutingHelper) : RoutingHelper :=
  set_nodelist (<[id := n]> (m_nodelist r)) r.

Lemma with_node_id id n r : m_nodelist r !! id = Some n -> with_node id n r = r.
Proof. intros Hn. unfold with_node. rewrite insert_id by done. by destruct r. Qed.

Lemma with_node_twice id n n' r : with_node id n (with_node id n' r) = with_node id n r.
Proof. unfold with_node, set_nodelist. cbn. by rewrite insert_insert_eq. Qed.

Lemma with_node_lookup id n r : m_nodelist (with_node id n r) !! id = Some n.
Proof. apply lookup_insert_eq. Qed.

Lemma drain_stop fuel multi s : next_packet multi (ctl_session s) = None -> drain env fuel multi s = Ok s.
Proof. intros E. destruct fuel; cbn; by rewrite E. Qed.

Definition open_socket (acc : bool) (ms : list Msg) (sent : list WorldPacket) (c : ControlSession) : ControlSession :=
  set_socket (Some (mkCtlSocket false acc [] (enc <$> ms) sent)) c.

Lemma drain_running id acc ms sent c r n :
  bases_ok -> 1 <= id -> _nodeId c = id -> m_nodelist r !! id = Some n -> Forall (running id) ms ->
  drain env (length ms) true (mkCtl (open_socket acc ms sent c) r)
  = Ok (mkCtl (open_socket acc [] sent c) (with_node id (foldl arrive n ms) r)).
Proof.
  intros Hb H1 Hid Hn Hms. revert r n Hn. induction Hms as [|m ms Hm Hms IH]; intros r n Hn.
  - cbn. by rewrite with_node_id.
  - cbn [length drain]. cbn [ctl_session open_socket set_socket next_packet m_Socket cs_closing cs_multi fmap list_fmap].
    change (set_socket _ (open_socket acc (m :: ms) sent c)) with (open_socket acc ms sent c).
    cbn [ctl_routing].
    assert (HandlePacket env (enc m) (mkCtl (open_socket acc ms sent c) r)
      = Ok (mkCtl (open_socket acc ms sent c) (with_node id (arrive n m) r))) as ->.
    { destruct m as [|a|k v]; cbn in Hm; [done| |].
      - subst a. rewrite handle_ack by done. cbn. unfold on_routing, SetNodeOnline. cbn.
        rewrite Hid, (on_node_insert _ _ _ n) by done. done.
      - rewrite handle_sync by (pose proof (Hb k); destruct Hm; lia). unfold on_routing. cbn.
        rewrite Hid, SetLastGUID_recorded, (on_node_insert _ _ _ n) by done. done. }
    cbn [obind]. rewrite (IH _ (arrive n m)) by apply with_node_lookup. by rewrite with_node_twice.
Qed.

Context (Hbases : bases_ok).

(** The conclusion of one part of an update. *)
Definition advanced (id : Z) (n : NodeList) (r : RoutingHelper) (nd : Node) (ready : bool) (s : Ctl) : Prop :=
  exists n' c', s = mkCtl c' (with_node id n' r) /\ sess_ok id n' c' nd ready
    /\ (forall k, top k n nd ready <= top k n' nd ready).

Lemma advanced_same id n r nd ready c :
  m_nodelist r !! id = Some n -> sess_ok id n c nd ready -> advanced id n r nd ready (mkCtl c r).
Proof. intros Hn Hs. exists n, c. by rewrite with_node_id. Qed.

Lemma entry_ok_last id n' :
  1 <= id -> (forall k, last_of k n' = 0 \/ stride k id (last_of k n')) -> entry_ok id n'.
Proof.
  intros H1 Hl. split; [|done]. apply guids_last. intros k. pose proof (Hbases k).
  destruct (Hl k) as [->|[? _]]; lia.
Qed.

Lemma cur_running id k v ms :
  Forall (running id) ms -> cur k v ms = v \/ stride k id (cur k v ms).
Proof.
  intros Hms. revert v. induction Hms as [|m ms Hm Hms IH]; intros v; [by left|].
  unfold cur. cbn. destruct m as [|a|k' w]; cbn in Hm; [done|apply IH|].
  destruct (decide (k' = k)) as [->|]; [|apply IH].
  destruct (IH w) as [E|E]; [|by right]. right. unfold cur in E. by rewrite E.
Qed.

(** The first answer: the node is sent its values, or the link is closed. *)
Lemma advance_auth id n c r nd acc :
  m_nodelist r !! id = Some n -> nodes_ok r -> GetNodeCount r = N -> 1 <= id <= N ->
  sess_ok id n (open_socket acc [MAuth] [] c) nd false -> n_sent nd = [] -> n_session nd = true ->
  exists s, drain env 1 true (mkCtl (open_socket acc [MAuth] [] c) r) = Ok s /\ advanced id n r nd false s.
Proof.
  intros Hn Hr Hc Hid [Hi Hf [Hg Hl] He _] Hsent Hsess. cbn in Hi.
  cbn [drain ctl_session open_socket set_socket next_packet m_Socket cs_closing cs_multi fmap list_fmap].
  change (set_socket _ (open_socket acc [MAuth] [] c)) with (open_socket acc [] [] c). cbn [ctl_routing].
  rewrite handle_auth, (SendInit_run env _ n) by (cbn; by rewrite Hi).
  cbn [ctl_routing on_session ctl_session set_authed]. cbv iota.
  set (c1 := set_authed true (open_socket acc [] [] c)).
  change (_nodeId c1) with (_nodeId c). rewrite Hi, Hc. fold (init_packet id (started (highest env) id n)).
  set (n' := started (highest env) id n). cbn [obind].
  assert (forall k, stride k id (last_of k n') /\ last_of k n' <> 0 /\ last_of k n <= last_of k n') as Hst.
  { intros k. unfold n'. rewrite last_of_started. by apply stride_start. }
  assert (entry_ok id n') as Hen by (apply entry_ok_last; [lia|right; apply Hst]).
  assert (can_enter n' = can_enter n) as Hce by done.
  cbn [ctl_session].
  assert (next_packet true (SendPacket (init_packet id n') c1) = None) as -> by (unfold SendPacket; cbn; by destruct acc).
  eexists. split; [done|]. exists n'. eexists. split; [done|]. split; [|apply Hst].
  unfold SendPacket, c1. cbn. destruct acc; cbn; split; cbn; try done;
    try (split; [done|]; split_and!; [done|done|]; exists []; split; [done|]; constructor; apply Hst).
Qed.

(** A started node's messages are taken over. *)
Lemma advance_running id n c r nd acc ms :
  m_nodelist r !! id = Some n -> 1 <= id ->
  sess_ok id n (open_socket acc ms [] c) nd true -> n_sent nd = [] -> n_session nd = true ->
  (forall k, last_of k n <> 0) -> _hiRange (n_objmgr nd) = N ->
  (forall k, hi_of k nd = cur k (last_of k n) ms) -> Forall (running id) ms ->
  exists s, drain env (length ms) true (mkCtl (open_socket acc ms [] c) r) = Ok s /\ advanced id n r nd true s.
Proof.
  intros Hn Hid [Hi Hf [Hg Hl] He _] Hsent Hsess Hz Hrange Hhi Hms. cbn in Hi.
  eexists. rewrite (drain_running id acc ms [] c r n) by done. split; [done|].
  exists (foldl arrive n ms), (open_socket acc [] [] c). split; [done|].
  assert (forall k, last_of k (foldl arrive n ms) = hi_of k nd) as El
    by (intros k; by rewrite last_of_arrive, Hhi).
  split; [|done].
  assert (forall k, stride k id (hi_of k nd)) as Hs.
  { intros k. rewrite Hhi. destruct (cur_running id k (last_of k n) ms Hms) as [E|E]; [|done].
    rewrite E. destruct (Hl k) as [Hk|Hk]; [by destruct (Hz k)|done]. }
  split; cbn; try done.
  - apply entry_ok_last; [done|]. intros k. right. by rewrite El.
  - split; [done|]. split_and!; [done|done|]. exists []. split; [done|].
    constructor; [|done| |done]; intros k; rewrite El; [|done].
    pose proof (Hbases k). destruct (Hs k). lia.
Qed.

Lemma io_none c r : (forall k, m_Socket c = Some k -> cs_closing k = true) -> UpdateControlIO env (mkCtl c r) = Ok (mkCtl c r).
Proof.
  intros Hc. assert (forall b, next_packet b c = None) as Hn.
  { intros b. unfold next_packet. destruct (m_Socket c) as [k|]; [|done]. by rewrite (Hc k). }
  unfold UpdateControlIO. rewrite drain_stop by apply Hn. cbn [obind]. by rewrite drain_stop by apply Hn.
Qed.

(** Packets only come into the queue of the second loop. *)
Lemma io_open acc ms sent c r :
  UpdateControlIO env (mkCtl (open_socket acc ms sent c) r)
  = drain env (length ms) true (mkCtl (open_socket acc ms sent c) r).
Proof.
  unfold UpdateControlIO. rewrite (drain_stop _ false) by done. cbn [obind]. f_equal.
  unfold queued. cbn. apply length_fmap.
Qed.

Lemma open_socket_eq c k ms :
  m_Socket c = Some k -> cs_closing k = false -> cs_single k = [] -> cs_multi k = enc <$> ms ->
  c = open_socket (cs_accepts k) ms (cs_sent k) c.
Proof.
  intros Hk Hc Hs Hm. destruct c, k; cbn in *. subst. done.
Qed.

Lemma io_ok id n c r nd ready :
  m_nodelist r !! id = Some n -> nodes_ok r -> GetNodeCount r = N -> 1 <= id <= N ->
  sess_ok id n c nd ready ->
  exists s, UpdateControlIO env (mkCtl c r) = Ok s /\ advanced id n r nd ready s.
Proof.
  intros Hn Hr Hc Hid Hs. pose proof (so_socket _ _ _ _ _ Hs) as Hk. unfold socket_ok in Hk.
  destruct (m_Socket c) as [k|] eqn:Ek.
  2: { exists (mkCtl c r). split; [by apply io_none; intros ? ?; simplify_eq|by apply advanced_same]. }
  destruct Hk as [Hsingle Hk]. destruct (cs_closing k) eqn:Eclosing.
  { exists (mkCtl c r). split; [apply io_none; intros ? ?; by simplify_eq|by apply advanced_same]. }
  destruct Hk as (Hsent & Hsess & ms & Hm & Hp).
  pose proof (open_socket_eq c k ms Ek Eclosing Hsingle Hm) as Ec.
  inversion Hp as [E1 E2 E3|Hz E1 E2 E3|a Ha Hne E1 E2 E3|ms' Hz Hrange Hhi Hrun E1 E2 E3]; subst ready ms.
  - rewrite <- E3 in Ec. rewrite Ec, io_open. apply advance_auth; try done. by rewrite <- Ec.
  - rewrite Ec, io_open, drain_stop by done. eexists. split; [done|]. rewrite <- Ec. by apply advanced_same.
  - rewrite Ec, io_open. rewrite <- E3 in *. cbn [length drain].
    cbn [ctl_session open_socket set_socket next_packet m_Socket cs_closing cs_multi fmap list_fmap ctl_routing].
    rewrite handle_ack by done. apply Z.eqb_neq in Hne. rewrite Hne. cbn [obind]. eexists. split; [done|].
    destruct Hs as [Hi Hf He Hce _]. apply advanced_same; [done|].
    split; cbn; try done. rewrite Hf. unfold linked. by rewrite Ek.
  - rewrite <- E3 in Ec. rewrite Ec, io_open. apply advance_running; try done; [lia|by rewrite <- Ec].
Qed.

Lemma closing_ok id n c r nd ready :
  m_nodelist r !! id = Some n -> sess_ok id n c nd ready ->
  exists n' c', closing_check (mkCtl c r) = mkCtl c' (with_node id n' r)
    /\ sess_ok id n' c' nd (if linked c' then ready else false)
    /\ (forall k, last_of k n' = last_of k n) /\ (linked c' = false -> ready = false).
Proof.
  intros Hn [Hi Hf He Hce Hk]. unfold closing_check, socket_ok in *. cbn [ctl_session].
  destruct (m_Socket c) as [k|] eqn:Ek.
  - destruct (cs_closing k) eqn:Ec.
    + exists (set_node_state false false n). eexists.
      unfold on_routing, on_session, SetNodeOffline. cbn. rewrite Hi, (on_node_insert _ _ _ n) by done.
      split; [done|]. destruct Hk as [_ ->].
      split; [|by split; [intros []|]]. split; cbn; try done.
    + exists n, c. rewrite with_node_id by done. split; [done|].
      assert (linked c = true) as El by (unfold linked; by rewrite Ek). rewrite El.
      split; [|done]. split; rewrite ?Ek; try done; unfold socket_ok; by rewrite Ec.
  - exists n, c. rewrite with_node_id by done. split; [done|].
    assert (linked c = false) as El by (unfold linked; by rewrite Ek). rewrite El. subst ready.
    split; [|done]. split; by rewrite ?Ek.
Qed.

(** The link opened by an update, if there is none. *)
Lemma reconnect_ok id n c r nd ready node (conn : bool) diff :
  sess_ok id n c nd ready -> n_sent node = [] -> n_session node = true ->
  let connect := if conn then Some fresh_link else None in
  let s := reconnect connect diff (mkCtl c r) in
  let opened := negb (linked c) && linked (ctl_session s) in
  ctl_routing s = r /\ (opened = true -> ready = false)
  /\ sess_ok id n (ctl_session s) (if opened then node else nd) (if opened then false else ready).
Proof.
  intros [Hi Hf He Hce Hk] Hsent Hsess connect s opened. unfold opened, s, connect, reconnect.
  cbn [ctl_session]. rewrite Hf. destruct (linked c) eqn:El; cbn [negb].
  { cbn. split_and!; try done. split; try done; by rewrite El. }
  unfold linked in El. destruct (m_Socket c) as [k|] eqn:Ek; [done|]. cbn in Hk. subst ready.
  assert (forall t, linked (set_timer t c) = false) as Ht by (intros t; unfold linked; cbn; by rewrite Ek).
  assert (forall t, sess_ok id n (set_timer t c) nd false) as Hst
    by (intros t; split; rewrite ?Ht; cbn; rewrite ?Ek; done).
  destruct (_ <=? _); [|cbn; rewrite Ht; by split_and!].
  cbn. destruct (CheckNodeID _ _); [|cbn; rewrite Ht; by split_and!].
  destruct conn; cbn; [|rewrite Ht; by split_and!].
  split_and!; [done..|]. split; cbn; try done; [intros Hx; by destruct (Hce Hx)|].
  split; [done|]. split_and!; [done..|]. exists [MAuth]. split; [done|]. constructor.
Qed.

(** One update of a session. *)
Lemma update_ok id n c r nd ready node (conn : bool) diff :
  m_nodelist r !! id = Some n -> nodes_ok r -> GetNodeCount r = N -> 1 <= id <= N ->
  sess_ok id n c nd ready -> n_sent node = [] -> n_session node = true ->
  let connect := if conn then Some fresh_link else None in
  let opened := negb (linked c) && linked (ctl_session (reconnect connect diff (mkCtl c r))) in
  let nd' := if opened then node else nd in
  exists n' c', Update env connect diff (mkCtl c r) = Ok (true, mkCtl c' (with_node id n' r))
    /\ (let ready' := if linked c' then if opened then false else ready else false in
        sess_ok id n' c' nd' ready' /\ forall k, top k n nd ready <= top k n' nd' ready').
Proof.
  intros Hn Hr Hc Hid Hs Hsent Hsess connect opened nd'.
  destruct (reconnect_ok id n c r nd ready node conn diff Hs Hsent Hsess) as (Er & Hop & Hs1).
  fold connect in Er, Hop, Hs1. fold opened in Hop, Hs1. fold nd' in Hs1. unfold Update.
  destruct (reconnect connect diff (mkCtl c r)) as [c1 r1] eqn:Erec. cbn in Er, Hs1. subst r1.
  destruct (io_ok id n c1 r nd' _ Hn Hr Hc Hid Hs1) as (s & -> & n2 & c2 & -> & Hs2 & Ht2). cbn [obind].
  destruct (closing_ok id n2 c2 (with_node id n2 r) nd' _ (with_node_lookup _ _ _) Hs2)
    as (n3 & c3 & E3 & Hs3 & Hl3 & Hr3).
  rewrite E3, with_node_twice. exists n3, c3. split; [done|]. cbv zeta. split; [done|].
  intros k. assert (top k n nd ready = top k n nd' (if opened then false else ready)) as ->.
  { unfold nd'. destruct opened; [|done]. by rewrite Hop. }
  etrans; [apply Ht2|]. unfold top. destruct (linked c3); [|rewrite Hr3 by done].
  - destruct (if opened then false else ready); [done|]. by rewrite Hl3.
  - by rewrite Hl3.
Qed.
End Inv.
