(* ===== verification/ClusterSafety.v ===== *)
(** * GUIDs are handed out once

    Every step of the cluster keeps the invariant of [ClusterFacts]; with it,
    no two nodes, and no node twice, hand out the same GUID, and only a node
    that is linked can be entered. *)
From Stdlib Require Import Ascii String ZArith Lia.
From stdpp Require Import base gmap list strings.
From S2P Require Import Prelude ByteBuffer Routing Node Control ControlFacts Cluster ClusterFacts.

Open Scope Z_scope.

Section Steps.
Context `{UnorderedIter} (env : CtlEnv) (N : Z).
Context (Hbases : bases_ok env N).

(** Strides of different nodes never meet. *)
Lemma stride_apart k i j v :
  stride env N k i v -> stride env N k j v -> 1 <= i <= N -> 1 <= j <= N -> i = j.
Proof.
  intros [_ Hi] [_ Hj] Hir Hjr.
  apply Z.mod_divide in Hi as [a Ha]; [|lia]. apply Z.mod_divide in Hj as [b Hb]; [|lia].
  assert ((a - b) * N = j - i) by lia.
  destruct (Z.lt_trichotomy a b) as [?|[->|?]]; [nia|lia|nia].
Qed.

(** The steps of one node. *)
Lemma cluster_ok_at cl id n c n' c' nodes' ready' :
  cluster_ok env N cl -> m_nodelist (cl_routing cl) !! id = Some n -> cl_sessions cl !! id = Some c ->
  (forall j, j <> id -> nodes' j = cl_nodes cl j) -> (forall j, j <> id -> ready' j = cl_ready cl j) ->
  sess_ok env N id n' c' (nodes' id) (ready' id) ->
  (forall k, top k n (cl_nodes cl id) (cl_ready cl id) <= top k n' (nodes' id) (ready' id)) ->
  cluster_ok env N (mkCluster (with_node id n' (cl_routing cl)) (<[id := c']> (cl_sessions cl))
                      nodes' ready' (cl_issued cl)).
Proof.
  intros [Hnodes Hcount Hsess Hknown Hissued Huniq] Hn Hc Hnd Hrd Hs Ht.
  assert (forall j, is_Some (m_nodelist (with_node id n' (cl_routing cl)) !! j)
                    <-> is_Some (m_nodelist (cl_routing cl) !! j)) as Hdom.
  { intros j. cbn. destruct (decide (j = id)) as [->|]; [rewrite lookup_insert_eq, Hn; by split; eauto|].
    by rewrite lookup_insert_ne. }
  split; cbn.
  - intros j m. cbn. destruct (decide (j = id)) as [->|].
    + rewrite lookup_insert_eq. intros [= <-]. split; [exact (proj1 (Hnodes _ _ Hn))|].
      exact (proj1 (so_entry _ _ _ _ _ _ _ Hs)).
    + rewrite lookup_insert_ne by done. apply Hnodes.
  - rewrite <- Hcount. apply GetNodeCount_dom; [done|]. intros j Hj. apply Hdom in Hj as [m Hm].
    apply (proj1 (Hnodes _ _ Hm)).
  - intros j m. destruct (decide (j = id)) as [->|Hne].
    + rewrite !lookup_insert_eq. intros [= <-]. split; [apply (proj1 (Hsess _ _ Hn))|]. eauto.
    + rewrite !lookup_insert_ne by done. rewrite Hnd, Hrd by done. apply Hsess.
  - intros j d Hd. apply Hdom. destruct (decide (j = id)) as [->|Hne]; [by rewrite Hn|].
    rewrite lookup_insert_ne in Hd by done. by apply (Hknown _ d).
  - intros j k g Hin. destruct (Hissued _ _ _ Hin) as (m & Hm & Hst & Hle).
    destruct (decide (j = id)) as [->|Hne].
    + rewrite Hn in Hm. injection Hm as <-. exists n'. rewrite lookup_insert_eq. split_and!; [done..|].
      etrans; [exact Hle|apply Ht].
    + exists m. rewrite lookup_insert_ne by done. rewrite Hnd, Hrd by done. done.
  - done.
Qed.

(** A GUID is handed out. *)
Lemma cluster_ok_issue cl id n k g r nodes' ready' sessions' :
  cluster_ok env N (mkCluster r sessions' nodes' ready' (cl_issued cl)) ->
  cluster_ok env N cl ->
  m_nodelist r !! id = Some n -> is_Some (m_nodelist (cl_routing cl) !! id) ->
  stride env N k id g -> g = top k n (nodes' id) (ready' id) ->
  (forall n, m_nodelist (cl_routing cl) !! id = Some n -> top k n (cl_nodes cl id) (cl_ready cl id) < g) ->
  cluster_ok env N (mkCluster r sessions' nodes' ready' (cl_issued cl ++ [(id, k, g)])).
Proof.
  intros [Hnodes Hcount Hsess Hknown Hissued Huniq] Hold Hn Hin Hst Hg Hlt. split; cbn in *; try done.
  - intros j k' g' [Hj|Hj%list_elem_of_singleton]%elem_of_app; [by apply Hissued|].
    injection Hj as -> -> ->. exists n. split_and!; [done..|lia].
  - rewrite fmap_app. apply NoDup_app. split_and!; [done| |apply NoDup_singleton].
    intros [k' g'] Hel Hx. apply list_elem_of_singleton in Hx. injection Hx as -> ->.
    apply list_elem_of_fmap in Hel as ([[j k'] g'] & E & Hel). injection E as <- <-.
    destruct (co_issued _ _ _ Hold _ _ _ Hel) as (m & Hm & Hst' & Hle).
    assert (forall i, is_Some (m_nodelist (cl_routing cl) !! i) -> 1 <= i <= N) as Hrange.
    { intros i Hi. rewrite <- (co_count _ _ _ Hold). split; [|by apply GetNodeCount_ge].
      destruct Hi as [? Hi]. apply (proj1 (co_sessions _ _ _ Hold _ _ Hi)). }
    assert (j = id) as ->
      by (eapply stride_apart; [exact Hst'|exact Hst|apply Hrange; eauto|apply Hrange; eauto]).
    specialize (Hlt m Hm). lia.
Qed.

(** What handing out a GUID does to the node. *)
Lemma generate_run kind nd g nd' :
  n_session nd = true -> n_sent nd = [] -> _hiRange (n_objmgr nd) = N ->
  0 <= hi_of kind nd + N < 2 ^ 32 -> generate kind nd = Ok (g, nd') ->
  g = hi_of kind nd + N /\ n_sent nd' = [enc (MSync kind g)] /\ n_session nd' = true
  /\ _hiRange (n_objmgr nd') = N
  /\ forall k, hi_of k nd' = if decide (k = kind) then g else hi_of k nd.
Proof.
  intros Hs He HN Hlt. destruct nd as [[range item mail corpse] rates ints sd st ses sent]. cbn in *. subst.
  assert (forall v, make NODE_SYNC_DATA [U32 CL_DEF_GUID_SYNC; U32 (type_of kind); U32 v]
                    = Ok (enc (MSync kind v))) as Hmk by (intros v; by rewrite make_message).
  destruct kind; cbn in Hlt, Hmk; cbn [generate].
  - unfold GenerateLowGuid, GenerateLowGuidWhenNode. cbn [n_objmgr _hiItemGuid _hiRange].
    destruct (negb _); [done|]. unfold SendGUIDSync. cbn. rewrite !Hmk. cbn. rewrite wrap_small by lia.
    intros [= <- <-]. split_and!; [done..|]. by intros [].
  - unfold GenerateMailID, GenerateMailIDWhenNode, SendGUIDSync.
    destruct (_ <=? _); cbn; rewrite !Hmk; cbn; rewrite wrap_small by lia;
      (intros [= <- <-]; split_and!; [done..|by intros []]).
  - unfold GenerateLowGuid, GenerateLowGuidWhenNode. cbn [n_objmgr _hiCorpseGuid _hiRange].
    destruct (negb _); [done|]. unfold SendGUIDSync. cbn. rewrite !Hmk. cbn. rewrite wrap_small by lia.
    intros [= <- <-]. split_and!; [done..|]. by intros [].
Qed.

(** The node takes the one packet it is sent. *)
Lemma node_step_ok id n c nd ready k p sent nd' :
  1 <= id <= N -> N < 2 ^ 32 -> sess_ok env N id n c nd ready ->
  m_Socket c = Some k -> cs_closing k = false -> cs_sent k = p :: sent ->
  UpdateServerIO_packet p nd = Ok nd' ->
  let ready' := if started_now nd' then true else ready in
  sess_ok env N id n
    (relay (n_sent nd')
       (set_socket (Some (mkCtlSocket (cs_closing k) (cs_accepts k) (cs_single k) (cs_multi k) sent)) c))
    (sent_off nd') ready'
  /\ forall kd, top kd n nd ready <= top kd n (sent_off nd') ready'.
Proof.
  intros Hid HN [Hi Hf [Hg Hl] Hce Hk] Ek Ec Es Hrun. unfold socket_ok in Hk. rewrite Ek, Ec, Es in Hk. rewrite Ek in Hce.
  destruct Hk as (Hsingle & Hsent & Hsess & ms & Hm & Hp).
  inversion Hp as [|Hz E1 E2 E3| |]; subst ready ms p sent.
  destruct (proj1 (guids_last n) Hg KItem) as [Hi0 Hi1], (proj1 (guids_last n) Hg KMail) as [Hm0 Hm1],
    (proj1 (guids_last n) Hg KCorpse) as [Hc0 Hc1]. cbn [last_of] in *.
  set (flds := init_fields env N (LastItemGUID n) (LastMailGUID n) id (LastCorpseID n)).
  assert (holds (wp_buf (init_packet env N id n)) flds) as Hh by (apply holds_message; done).
  unfold UpdateServerIO_packet in Hrun. change (GetOpcode _ =? LOGON_INIT_NODE) with true in Hrun. cbv iota in Hrun.
  assert (linked c = true) as El by (unfold linked; by rewrite Ek).
  destruct (decide (LastItemGUID n < 0xFFFFFFFE /\ LastMailGUID n < 0xFFFFFFFE /\ LastCorpseID n < 0xFFFFFFFE))
    as [(Hi2 & Hm2 & Hc2)|Hbad].
  - destruct (init_node_run env N _ _ _ _ nd _ Hh) as (b' & E); [lia..|]. rewrite E in Hrun.
    destruct (initialised_node env N (LastItemGUID n) (LastMailGUID n) (LastCorpseID n) nd) as (Eo & Ese & Est).
    injection Hrun as E'. rewrite E', Hsess in *. clear E E'. rewrite Hsent in Est.
    assert (started_now nd' = true) as -> by (unfold started_now; by rewrite Est).
    assert (forall kd, hi_of kd (sent_off nd') = last_of kd n) as Eh by (intros kd; cbn; destruct kd; cbn; by rewrite Eo).
    split; [|intros kd; cbn; by rewrite Eh]. unfold relay. cbn. split; cbn; try done; [by rewrite Hf, El|].
    rewrite Ec, Hm, Est. cbn. split_and!; [done..|]. exists [MAck NODE_INIT_ACK_OK]. split; [done|].
    constructor; [done|cbn; by rewrite Eo|done|]. by constructor.
  - destruct (init_node_refused env N _ _ _ _ nd _ Hh) as (b' & nd1 & ack & E & Hs1 & Hs2 & Hack); [lia..|].
    rewrite E in Hrun. injection Hrun as <-. rewrite Hs1, Hsent. unfold started_now. rewrite Hs1, Hsent. cbn.
    assert (0 <= ack < 4 /\ ack <> NODE_INIT_ACK_OK) as [Hr Hne].
    { rewrite !elem_of_cons, elem_of_nil in Hack. unfold NODE_INIT_ACK_OK. by destruct Hack as [->|[->|[->|[]]]]. }
    rewrite (bool_decide_eq_false_2 ([_] = _))
      by (intros [= E']; rewrite Z.mod_small in E' by lia; by apply Hne).
    rewrite andb_false_r. cbn. split; [|done]. unfold relay. cbn. split; cbn; try done; [by rewrite Hf, El|].
    rewrite Ec, Hm, Hs2. cbn. split_and!; [done..|]. exists [MAck ack]. split; [done|]. constructor; [lia|done].
Qed.

(** A started node hands out a GUID. *)
Lemma generate_step_ok id n c nd k kind g nd' :
  1 <= id <= N -> sess_ok env N id n c nd true ->
  m_Socket c = Some k -> cs_closing k = false ->
  hi_of kind nd + _hiRange (n_objmgr nd) < 2 ^ 32 -> generate kind nd = Ok (g, nd') ->
  sess_ok env N id n (relay (n_sent nd') c) (sent_off nd') true
  /\ (forall kd, top kd n nd true <= top kd n (sent_off nd') true)
  /\ stride env N kind id g /\ g = top kind n (sent_off nd') true /\ top kind n nd true < g.
Proof.
  intros Hid [Hi Hf [Hg Hl] Hce Hk] Ek Ec Hlt Hgen. unfold socket_ok in Hk. rewrite Ek, Ec in Hk. rewrite Ek in Hce.
  destruct Hk as (Hsingle & Hsent & Hsess & ms & Hm & Hp).
  inversion Hp as [| | |ms' Hz HN Hhi Hms E1 E2 E3]. subst ms'. clear E1.
  assert (stride env N kind id (hi_of kind nd)) as Hst.
  { rewrite Hhi. destruct (cur_running env N id kind (last_of kind n) ms Hms) as [E|E]; [|done].
    rewrite E. destruct (Hl kind) as [Hl0|Hl0]; [by destruct (Hz kind)|done]. }
  pose proof Hst as [[Hlo Hup] Hmod]. pose proof (Hbases kind) as [Hb _]. rewrite HN in Hlt.
  destruct (generate_run kind nd g nd' Hsess Hsent HN) as (Eg & Es & Ese & EN & Eh); [lia|done|].
  assert (stride env N kind id g) as Hstg.
  { split; [lia|]. rewrite Eg. replace (_ - _) with (hi_of kind nd - (base_of kind (highest env) + id - 1) + 1 * N) by lia.
    by rewrite Z.mod_add by lia. }
  assert (linked c = true) as El by (unfold linked; by rewrite Ek).
  assert (forall kd, hi_of kd (sent_off nd') = hi_of kd nd') as Eoff by (by intros []).
  split_and!.
  - unfold relay. rewrite Ek. split; cbn; try done; [by rewrite Hf, El|].
    rewrite Ec, Hm, Es, <- E3. split_and!; [done..|]. exists (ms ++ [MSync kind g]). split; [by rewrite fmap_app|].
    constructor; [done|done| |].
    + intros kd. rewrite Eoff, Eh, cur_snoc. destruct (decide (kd = kind)) as [->|Hne].
      * by rewrite decide_True.
      * by rewrite decide_False by done.
    + apply Forall_app. split; [done|]. by constructor.
  - intros kd. cbn. rewrite Eoff, Eh. destruct (decide _) as [->|]; lia.
  - done.
  - cbn. by rewrite Eoff, Eh, decide_True.
  - cbn. lia.
Qed.

(** A link goes down. *)
Lemma drop_step_ok id n c nd ready k :
  sess_ok env N id n c nd ready -> m_Socket c = Some k ->
  (ready = true -> cs_single k = [] /\ cs_multi k = []) ->
  sess_ok env N id n (CloseSocket c) nd false
  /\ forall kd, top kd n nd ready <= top kd n nd false.
Proof.
  intros [Hi Hf He Hce Hk] Ek Hquiet. unfold socket_ok in Hk. rewrite Ek in Hk, Hce. destruct Hk as [Hsingle Hk].
  assert (linked c = true) as El by (unfold linked; by rewrite Ek).
  unfold CloseSocket. rewrite Ek. split.
  { split; cbn; try done. by rewrite Hf, El. }
  intros kd. destruct ready; [|done]. destruct (cs_closing k); [done|].
  destruct Hk as (_ & _ & ms & Hm & Hp). destruct (Hquiet eq_refl) as [_ Hq]. rewrite Hq in Hm.
  symmetry in Hm. apply fmap_nil_inv in Hm as ->. inversion Hp as [| | |ms' Hz HN Hhi]. cbn. by rewrite Hhi.
Qed.

Lemma accepts_step_ok id n c nd ready k b :
  sess_ok env N id n c nd ready -> m_Socket c = Some k ->
  sess_ok env N id n
    (set_socket (Some (mkCtlSocket (cs_closing k) b (cs_single k) (cs_multi k) (cs_sent k))) c) nd ready.
Proof.
  intros [Hi Hf He Hce Hk] Ek. unfold socket_ok in Hk. rewrite Ek in Hk, Hce.
  assert (linked c = true) as El by (unfold linked; by rewrite Ek).
  split; cbn; try done. by rewrite Hf, El.
Qed.

(** *** The directory is read again *)
Definition refreshed (r r' : RoutingHelper) : Prop :=
  forall id, match m_nodelist r !! id, m_nodelist r' !! id with
             | None, None => True
             | Some n, Some n' => n' = set_node_state (online n') (can_enter n) n
             | _, _ => False
             end.

Lemma refreshed_refl r : refreshed r r.
Proof. intros id. by destruct (_ !! id) as [[]|]. Qed.

Lemma refreshed_one query id r r' : refresh_one query id r = Ok r' -> refreshed r r'.
Proof.
  unfold refresh_one. destruct (CheckNodeID _ _); [intros [= <-]; apply refreshed_refl|].
  destruct (query id) as [on|]; [|done]. intros [= <-] j. rewrite lookup_on_node.
  destruct (_ =? _), (_ !! j) as [[]|]; cbn; done.
Qed.

Lemma refreshed_trans r1 r2 r3 : refreshed r1 r2 -> refreshed r2 r3 -> refreshed r1 r3.
Proof.
  intros H1 H2 id. specialize (H1 id). specialize (H2 id).
  destruct (m_nodelist r1 !! id), (m_nodelist r2 !! id), (m_nodelist r3 !! id); try done.
  rewrite H2, H1. done.
Qed.

Lemma RefreshOnlineStat_refreshed query r r' : RefreshOnlineStat query r = Ok r' -> refreshed r r'.
Proof.
  unfold RefreshOnlineStat. set (l := uiter (m_nodelist r)). clearbody l.
  assert (forall acc, foldl (fun acc '(id, _) => let* r := acc in refresh_one query id r) acc l = Ok r' ->
    exists r1, acc = Ok r1 /\ refreshed r1 r') as Hf.
  { induction l as [|[i m] l IH]; intros acc E; cbn in E; [exists r'; split; [done|apply refreshed_refl]|].
    destruct (IH _ E) as (r2 & E2 & H2). destruct acc as [r1| |]; cbn in E2; [|done..].
    exists r1. split; [done|]. eapply refreshed_trans; [eapply refreshed_one; exact E2|done]. }
  intros E. destruct (Hf _ E) as (r1 & [= <-] & Hr). done.
Qed.

Lemma refresh_ok cl r' :
  cluster_ok env N cl -> refreshed (cl_routing cl) r' ->
  cluster_ok env N (mkCluster r' (cl_sessions cl) (cl_nodes cl) (cl_ready cl) (cl_issued cl)).
Proof.
  intros [Hnodes Hcount Hsess Hknown Hissued Huniq] Hr.
  assert (forall id n', m_nodelist r' !! id = Some n' ->
    exists n, m_nodelist (cl_routing cl) !! id = Some n /\ n' = set_node_state (online n') (can_enter n) n) as Hback.
  { intros id n' Hn'. specialize (Hr id). rewrite Hn' in Hr. destruct (_ !! id) as [n|]; [eauto|done]. }
  assert (forall id, is_Some (m_nodelist (cl_routing cl) !! id) <-> is_Some (m_nodelist r' !! id)) as Hdom.
  { intros id. specialize (Hr id). by destruct (m_nodelist (cl_routing cl) !! id), (m_nodelist r' !! id). }
  assert (forall id n n', m_nodelist (cl_routing cl) !! id = Some n -> m_nodelist r' !! id = Some n' ->
    n' = set_node_state (online n') (can_enter n) n) as Hsame.
  { intros id n n' Hn Hn'. specialize (Hr id). by rewrite Hn, Hn' in Hr. }
  split; cbn.
  - intros id n' Hn'. destruct (Hback _ _ Hn') as (n & Hn & ->). exact (Hnodes _ _ Hn).
  - rewrite <- Hcount. symmetry. apply GetNodeCount_dom; [done|]. intros id [n Hn]. apply (Hnodes _ _ Hn).
  - intros id n' Hn'. destruct (Hback _ _ Hn') as (n & Hn & En). destruct (Hsess _ _ Hn) as (Hid & c & Hc & Hs).
    split; [done|]. exists c. split; [done|]. destruct Hs as [Hi Hf [Hg Hl] Hce Hk].
    rewrite En. split; try done.
    unfold socket_ok in *. destruct (m_Socket c) as [k|]; [|done]. destruct Hk as [Hsingle Hk].
    split; [done|]. destruct (cs_closing k); [done|]. destruct Hk as (? & ? & ms & ? & Hp). split_and!; [done..|].
    exists ms. split; [done|].
    destruct Hp as [|Hz|a Ha Hne|ms Hz Hrange Hhi Hms]; [constructor| | |].
    + exact (Ph_init env N id (set_node_state _ _ n) (cl_nodes cl id) Hz).
    + by constructor.
    + by constructor.
  - intros id c Hc. apply Hdom. by apply (Hknown _ c).
  - intros id k g Hin. destruct (Hissued _ _ _ Hin) as (n & Hn & Hst & Hle).
    destruct (proj1 (Hdom id) (ex_intro _ _ Hn)) as [n' Hn']. exists n'. split_and!; [done..|].
    rewrite (Hsame _ _ _ Hn Hn'). unfold top in *. by destruct (cl_ready cl id), k.
  - done.
Qed.

(** *** Every step *)
Lemma upd_same {V} (f : Z -> V) i v : upd f i v i = v.
Proof. unfold upd. by rewrite Z.eqb_refl. Qed.
Lemma upd_other {V} (f : Z -> V) i j v : j <> i -> upd f i v j = f j.
Proof. intros Hj. unfold upd. by apply Z.eqb_neq in Hj as ->. Qed.

Lemma known_node cl id c :
  cluster_ok env N cl -> cl_sessions cl !! id = Some c ->
  exists n, m_nodelist (cl_routing cl) !! id = Some n /\ 1 <= id <= N
    /\ sess_ok env N id n c (cl_nodes cl id) (cl_ready cl id).
Proof.
  intros Hok Hc. destruct (co_known _ _ _ Hok _ _ Hc) as [n Hn].
  destruct (co_sessions _ _ _ Hok _ _ Hn) as (Hid & c' & Hc' & Hs). rewrite Hc in Hc'. injection Hc' as <-.
  exists n. split; [done|]. split; [|done]. rewrite <- (co_count _ _ _ Hok). split; [done|].
  apply GetNodeCount_ge. eauto.
Qed.

Lemma cluster_step_ok cl cl' :
  N < 2 ^ 32 -> cluster_ok env N cl -> cluster_step env cl cl' -> cluster_ok env N cl'.
Proof.
  intros HN Hok Hstep.
  destruct Hstep as [id c diff conn c' r' node Hc Hdiff connect Hupd Hsent Hsess opened
    |id c k p sent node' Hc Ek Ec Es Hrun|id c k kind g node' Hc Ek Ec Hready Hlt Hgen
    |id c k Hc Ek Hquiet|id c k b Hc Ek|query r' Hr];
    try (destruct (known_node _ _ _ Hok Hc) as (n & Hn & Hid & Hs)).
  - destruct (update_ok env N Hbases id n c (cl_routing cl) _ _ node conn diff Hn (co_nodes _ _ _ Hok)
      (co_count _ _ _ Hok) Hid Hs Hsent Hsess) as (n' & c2 & E & Hs' & Ht).
    fold connect in E, Hs', Ht. fold opened in Hs', Ht. rewrite E in Hupd. injection Hupd as -> <-.
    apply (cluster_ok_at cl id n c); [done..| | | |]; destruct (linked c'), opened;
      intros; rewrite ?upd_same, ?upd_other by done; done.
  - destruct (node_step_ok id n c _ _ k p sent node' Hid HN Hs Ek Ec Es Hrun) as [Hs' Ht].
    rewrite <- (with_node_id id n (cl_routing cl)) by done.
    apply (cluster_ok_at cl id n c); [done..| | | |]; destruct (started_now node');
      intros; rewrite ?upd_same, ?upd_other by done; done.
  - rewrite Hready in Hs.
    destruct (generate_step_ok id n c _ k kind g node' Hid Hs Ek Ec Hlt Hgen) as (Hs' & Ht & Hst & Hg & Hlt').
    apply (cluster_ok_issue cl id n kind g); rewrite ?upd_same, ?Hready; [|done..|].
    + rewrite <- (with_node_id id n (cl_routing cl)) by done.
      apply (cluster_ok_at cl id n c); [done..| | | |]; intros; rewrite ?upd_same, ?upd_other, ?Hready by done; done.
    + intros m Hm. rewrite Hn in Hm. by injection Hm as <-.
  - destruct (drop_step_ok id n c _ _ k Hs Ek Hquiet) as [Hs' Ht].
    rewrite <- (with_node_id id n (cl_routing cl)) by done.
    apply (cluster_ok_at cl id n c); [done..| | | |]; intros; rewrite ?upd_same, ?upd_other by done; done.
  - rewrite <- (with_node_id id n (cl_routing cl)) by done.
    apply (cluster_ok_at cl id n c); [done..| |done]. by apply accepts_step_ok.
  - apply refresh_ok; [done|]. by apply (RefreshOnlineStat_refreshed query).
Qed.
End Steps.

(** ** Runs

    Steps chosen by an action.  With [strict] off, what the steps ask of a
    drop and of the room left is not asked. *)
Inductive Action :=
| AUpdate (id diff : Z) (conn : bool)
| ANode (id : Z)
| AGenerate (id : Z) (kind : Kind)
| ADrop (id : Z)
| ARefresh (query : Z -> option bool).

Definition idle_node : Node := mkNode (mkObjectMgr 0 0 0 0) (fun _ => 0) (fun _ => 0) None false true [].

Section Runs.
Context `{UnorderedIter} (env : CtlEnv).

Definition exec (strict : bool) (a : Action) (cl : Cluster) : option Cluster :=
  match a with
  | AUpdate id diff conn =>
      c ← cl_sessions cl !! id;
      if diff <? 0 then None else
      let connect := if conn then Some fresh_link else None in
      let opened := negb (linked c) && linked (ctl_session (reconnect connect diff (mkCtl c (cl_routing cl)))) in
      match Update env connect diff (mkCtl c (cl_routing cl)) with
      | Ok (true, mkCtl c' r') =>
          Some (mkCluster r' (<[id := c']> (cl_sessions cl))
            (if opened then upd (cl_nodes cl) id idle_node else cl_nodes cl)
            (if linked c' then (if opened then upd (cl_ready cl) id false else cl_ready cl)
             else upd (cl_ready cl) id false)
            (cl_issued cl))
      | _ => None
      end
  | ANode id =>
      c ← cl_sessions cl !! id;
      k ← m_Socket c;
      match cs_closing k, cs_sent k with
      | false, p :: sent =>
          match UpdateServerIO_packet p (cl_nodes cl id) with
          | Ok node' =>
              Some (mkCluster (cl_routing cl)
                (<[id := relay (n_sent node')
                           (set_socket (Some (mkCtlSocket (cs_closing k) (cs_accepts k) (cs_single k)
                                                (cs_multi k) sent)) c)]> (cl_sessions cl))
                (upd (cl_nodes cl) id (sent_off node'))
                (if started_now node' then upd (cl_ready cl) id true else cl_ready cl)
                (cl_issued cl))
          | _ => None
          end
      | _, _ => None
      end
  | AGenerate id kind =>
      c ← cl_sessions cl !! id;
      k ← m_Socket c;
      let nd := cl_nodes cl id in
      if cs_closing k || negb (cl_ready cl id)
         || (strict && negb (hi_of kind nd + _hiRange (n_objmgr nd) <? 2 ^ 32)) then None
      else match generate kind nd with
           | Ok (g, node') =>
               Some (mkCluster (cl_routing cl) (<[id := relay (n_sent node') c]> (cl_sessions cl))
                 (upd (cl_nodes cl) id (sent_off node')) (cl_ready cl) (cl_issued cl ++ [(id, kind, g)]))
           | _ => None
           end
  | ADrop id =>
      c ← cl_sessions cl !! id;
      k ← m_Socket c;
      if strict && cl_ready cl id && negb (match cs_single k, cs_multi k with [], [] => true | _, _ => false end)
      then None
      else Some (mkCluster (cl_routing cl) (<[id := CloseSocket c]> (cl_sessions cl)) (cl_nodes cl)
                   (upd (cl_ready cl) id false) (cl_issued cl))
  | ARefresh query =>
      match RefreshOnlineStat query (cl_routing cl) with
      | Ok r' => Some (mkCluster r' (cl_sessions cl) (cl_nodes cl) (cl_ready cl) (cl_issued cl))
      | _ => None
      end
  end.

Definition run (strict : bool) (l : list Action) (cl : Cluster) : option Cluster :=
  foldl (fun acc a => cl ← acc; exec strict a cl) (Some cl) l.

Lemma exec_step a cl cl' : exec true a cl = Some cl' -> cluster_step env cl cl'.
Proof.
  destruct a as [id diff conn|id|id kind|id|query]; cbn [exec]; intros Hx.
  - destruct (cl_sessions cl !! id) as [c|] eqn:Ec; [|done]. cbn in Hx.
    destruct (Z.ltb_spec diff 0); [done|]. destruct (Update _ _ _ _) as [[[] [c' r']]| |] eqn:Eu; [|done..].
    injection Hx as <-. by apply (Step_update env cl id c diff conn c' r' idle_node).
  - destruct (cl_sessions cl !! id) as [c|] eqn:Ec; [|done]. cbn in Hx.
    destruct (m_Socket c) as [k|] eqn:Ek; [|done]. cbn in Hx.
    destruct (cs_closing k) eqn:Ecl; [done|]. destruct (cs_sent k) as [|p sent] eqn:Es; [done|].
    destruct (UpdateServerIO_packet _ _) as [node'| |] eqn:En; [|done..].
    injection Hx as <-. rewrite <- Ecl. by apply (Step_node env cl id c k p sent node').
  - destruct (cl_sessions cl !! id) as [c|] eqn:Ec; [|done]. cbn in Hx.
    destruct (m_Socket c) as [k|] eqn:Ek; [|done]. cbn in Hx.
    destruct (_ || _) eqn:Eg in Hx; [done|]. bool_props.
    destruct (generate _ _) as [[g node']| |] eqn:En; [|done..]. injection Hx as <-.
    by apply (Step_generate env cl id c k kind g node').
  - destruct (cl_sessions cl !! id) as [c|] eqn:Ec; [|done]. cbn in Hx.
    destruct (m_Socket c) as [k|] eqn:Ek; [|done]. cbn in Hx.
    destruct (_ && _) eqn:Eg in Hx; [done|]. injection Hx as <-. apply (Step_drop env cl id c k); try done.
    intros Hr. rewrite Hr in Eg. by destruct (cs_single k), (cs_multi k).
  - destruct (RefreshOnlineStat _ _) as [r'| |] eqn:Er; [|done..]. injection Hx as <-.
    by apply (Step_refresh env cl query).
Qed.

Lemma run_reachable un rows l cl cl' :
  cluster_reachable env un rows cl -> run true l cl = Some cl' -> cluster_reachable env un rows cl'.
Proof.
  unfold run. revert cl. induction l as [|a l IH]; intros cl Hcl; cbn; [by intros [= <-]|].
  destruct (exec true a cl) as [cl1|] eqn:E.
  - apply IH. eapply Reach_step; [exact Hcl|]. by apply (exec_step a).
  - intros Hn. exfalso. revert Hn. clear. induction l as [|b l IH]; cbn; [done|exact IH].
Qed.
End Runs.

(** *** The manager's update takes steps *)
Lemma step_dom `{UnorderedIter} env cl cl' :
  cluster_step env cl cl' -> dom (cl_sessions cl') = dom (cl_sessions cl).
Proof. by destruct 1; cbn; rewrite ?dom_insert_lookup_L by eauto. Qed.

Section Manager.
Context `{UnorderedIter} (env : CtlEnv) (N : Z).

(** Which connections succeed. *)
Definition connector (conn : Z -> bool) (id : Z) : option CtlSocket :=
  if conn id then Some fresh_link else None.

Lemma update_each_steps conn diff ids cl :
  bases_ok env N -> N < 2 ^ 32 -> 0 <= diff -> cluster_ok env N cl ->
  exists cl', update_each env (connector conn) diff ids (cl_sessions cl) (cl_routing cl)
              = Ok (cl_sessions cl', cl_routing cl')
    /\ rtc (cluster_step env) cl cl' /\ cl_issued cl' = cl_issued cl.
Proof.
  intros Hb HN Hd. revert cl. induction ids as [|id ids IH]; intros cl Hok; cbn [update_each].
  { exists cl. split_and!; [done|constructor|done]. }
  destruct (cl_sessions cl !! id) as [c|] eqn:Hc; [|by apply IH].
  destruct (known_node env N cl id c Hok Hc) as (n & Hn & Hid & Hs).
  destruct (update_ok env N Hb id n c (cl_routing cl) _ _ idle_node (conn id) diff Hn (co_nodes _ _ _ Hok)
    (co_count _ _ _ Hok) Hid Hs eq_refl eq_refl) as (n' & c' & E & _).
  fold (connector conn id) in E. rewrite E. cbn [obind ctl_session ctl_routing].
  pose proof (Step_update env cl id c diff (conn id) c' _ idle_node Hc Hd E eq_refl eq_refl) as Hstep.
  cbv zeta in Hstep. match type of Hstep with cluster_step _ _ ?x => set (cl1 := x) in Hstep end.
  destruct (IH cl1 (cluster_step_ok env N Hb cl cl1 HN Hok Hstep)) as (cl' & E' & Hrtc & Hi).
  exists cl'. split_and!; [exact E'| |by rewrite Hi]. by eapply rtc_l.
Qed.
End Manager.

(** ** From the start *)
Section Start.
Context `{UnorderedIter} (env : CtlEnv) (un : Z -> Unspecified) (rows : list NodeRow).

(** The number of nodes the directory has when it has been loaded. *)
Definition node_count : Z := GetNodeCount (LoadNodeList un rows (mkRouting ∅ ∅ false 0)).

(** The rows number the nodes from 1 on; the two members that [LoadNodeList]
    leaves unset happen to be zero. *)
Definition configured : Prop :=
  (forall row, row ∈ rows -> 1 <= nr_id row < 2 ^ 32)
  /\ forall id, un_can_enter (un id) = false /\ un_LastCorpseID (un id) = 0.

Definition blank (id : Z) (n : NodeList) : Prop :=
  1 <= id < 2 ^ 32 /\ can_enter n = false /\ forall k, last_of k n = 0.

Lemma loaded_blank r id n :
  configured -> m_nodelist r = ∅ -> m_nodelist (LoadNodeList un rows r) !! id = Some n -> blank id n.
Proof.
  intros [Hids Hun] Hr.
  assert (forall l m, (forall row, row ∈ l -> 1 <= nr_id row < 2 ^ 32) ->
    (forall id n, m !! id = Some n -> blank id n) ->
    foldl (fun m row => load_node_row un row m) m l !! id = Some n -> blank id n) as Hfold.
  { induction l as [|row l IH]; intros m Hl Hm; cbn; [apply Hm|]. apply IH; [intros; apply Hl; by right|].
    intros j x. unfold load_node_row. specialize (Hl row ltac:(left)).
    assert (u32 (nr_id row) = nr_id row) as -> by (apply wrap_small; lia).
    destruct (decide (j = nr_id row)) as [->|Hne]; [|rewrite lookup_insert_ne by done; apply Hm].
    rewrite lookup_insert_eq. intros [= <-]. destruct (Hun (nr_id row)) as [He Hc].
    split; [done|]. cbn. split; [done|]. intros []; cbn; [done..|]. by rewrite Hc. }
  unfold LoadNodeList. destruct rows as [|row l]; [by rewrite Hr|]. cbn [m_nodelist set_nodelist].
  apply Hfold; [done|]. rewrite Hr. by intros ? ? ?%lookup_empty_Some.
Qed.

Lemma loaded_count r : m_nodelist r = ∅ -> GetNodeCount (LoadNodeList un rows r) = node_count.
Proof. intros Hr. unfold node_count, GetNodeCount, LoadNodeList. destruct rows; cbn; by rewrite Hr. Qed.

Lemma start_ok un_timer un_authed connect nodes r :
  configured -> m_nodelist r = ∅ -> (forall id, n_sent (nodes id) = [] /\ n_session (nodes id) = true) ->
  cluster_ok env node_count
    (let r := LoadNodeList un rows r in
     mkCluster r (SetupControler un_timer un_authed connect r) nodes (fun _ => false) []).
Proof.
  intros Hc Hr Hn. cbv zeta. pose proof (loaded_count r Hr) as Hcount.
  pose proof (fun id n => loaded_blank r id n Hc Hr) as Hbl.
  set (r1 := LoadNodeList un rows r) in *. split; cbn.
  - intros id n E. destruct (Hbl _ _ E) as (Hid & _ & Hz). split; [lia|]. apply guids_last. intros k. rewrite Hz. lia.
  - done.
  - intros id n E. destruct (Hbl _ _ E) as (Hid & Hen & Hz). split; [lia|].
    unfold SetupControler. rewrite map_lookup_imap, E. cbn. eexists. split; [done|].
    assert (entry_ok env node_count id n) as He.
    { split; [apply guids_last; intros k; rewrite Hz; lia|]. intros k. left. apply Hz. }
    destruct (connect id); (split; [done|done|done|by rewrite Hen|]); [|done].
    cbn. split; [done|]. destruct (Hn id). split_and!; [done..|]. exists [MAuth]. split; [done|]. constructor.
  - intros id c E. unfold SetupControler in E. rewrite map_lookup_imap in E.
    destruct (m_nodelist r1 !! id); [eauto|done].
  - intros id k g Hin. by apply elem_of_nil in Hin.
  - constructor.
Qed.

Lemma reachable_ok cl :
  configured -> bases_ok env node_count -> cluster_reachable env un rows cl -> cluster_ok env node_count cl.
Proof.
  intros Hc Hb. induction 1 as [un_timer un_authed connect nodes r Hr Hn|cl cl' _ IH Hstep].
  - by apply start_ok.
  - eapply cluster_step_ok; [done| |exact IH|exact Hstep]. pose proof (Hb KItem). lia.
Qed.

(** C2. No GUID is handed out twice, under four conditions: the node
    directory numbers its nodes from 1 and the two members [LoadNodeList]
    leaves unset happen to be zero ([configured]); the counters read from the
    tables leave room for one stride ([bases_ok]); a started node's link is
    lost only with nothing under way from it ([Step_drop]); and a node hands
    out GUIDs only over a link that is up, once it has been started, and not
    within a stride of the end of the 32-bit range ([Step_generate]).  Then, in
    every state the cluster reaches by updates, connections, starts, such
    losses and generations and reloads of the directory, interleaved in any
    way, the items, mails and corpses created on all the nodes have GUIDs that
    are distinct within their kind.  Without the third condition
    ([reissued_after_drop]) or the first ([corpse_from_stack]) there are
    duplicates. *)
Theorem guids_unique cl :
  configured -> bases_ok env node_count -> cluster_reachable env un rows cl ->
  NoDup ((fun '(_, k, g) => (k, g)) <$> cl_issued cl).
Proof. intros Hc Hb Hr. by apply (co_unique env node_count), reachable_ok. Qed.

(** C4. Players are let in only where they can play: when the two members that
    [LoadNodeList] leaves unset happen to be zero ([configured]; otherwise see
    [entered_from_stack]) and the counters leave room for one stride
    ([bases_ok]), in every state the cluster reaches, with links lost only when
    nothing is under way from a started node, a node with [can_enter] set has a
    control session with a socket, and unless that socket is closing, the node
    has taken over its counters and rates over that very link. *)
Theorem enterable_started cl id n :
  configured -> bases_ok env node_count -> cluster_reachable env un rows cl ->
  m_nodelist (cl_routing cl) !! id = Some n -> CanEnterNodeID id (cl_routing cl) = true ->
  exists c k, cl_sessions cl !! id = Some c /\ m_Socket c = Some k
    /\ (cs_closing k = false -> cl_ready cl id = true /\ _hiRange (n_objmgr (cl_nodes cl id)) = node_count).
Proof.
  intros Hc Hb Hr Hn Hen. pose proof (reachable_ok cl Hc Hb Hr) as Hok.
  destruct (co_sessions _ _ _ Hok _ _ Hn) as (_ & c & Hs & [Hi Hf He Hce Hk]).
  unfold CanEnterNodeID in Hen. rewrite Hn in Hen. destruct (can_enter n); [|done]. specialize (Hce eq_refl).
  unfold enter_ok in Hce. unfold socket_ok in Hk. destruct (m_Socket c) as [k|] eqn:Ek; [|done].
  exists c, k. split_and!; [done..|]. intros Hcl. rewrite Hcl in Hk. specialize (Hce Hcl). split; [done|].
  destruct Hk as (_ & _ & _ & ms & _ & Hp). rewrite Hce in Hp. by inversion Hp.
Qed.

(** The manager's update is made of steps of the cluster: in every state
    the cluster reaches, [ControlSessionMgr::Update], whichever connections
    come about, goes through all the control sessions without a failure (no
    null result, no exception leaves a handler, no session is deleted), leaves
    its queue of new sessions empty, and ends in a state of routing and
    sessions that the cluster reaches from there one session at a time. *)
Theorem manager_update cl conn diff :
  configured -> bases_ok env node_count -> cluster_reachable env un rows cl -> 0 <= diff ->
  exists cl', Mgr_Update env (connector conn) diff (mkControlSessionMgr [] (cl_sessions cl)) (cl_routing cl)
              = Ok (mkControlSessionMgr [] (cl_sessions cl'), cl_routing cl')
    /\ rtc (cluster_step env) cl cl' /\ dom (cl_sessions cl') = dom (cl_sessions cl).
Proof.
  intros Hc Hb Hr Hd. pose proof (reachable_ok cl Hc Hb Hr) as Hok. pose proof (Hb KItem) as [Hb1 Hb2].
  destruct (update_each_steps env node_count conn diff (fst <$> uiter (cl_sessions cl)) cl Hb ltac:(lia) Hd Hok)
    as (cl' & E & Hrtc & _).
  exists cl'. unfold Mgr_Update. cbn [foldl addSessQueue m_ctl_sessions]. rewrite E. split_and!; [done..|].
  clear - Hrtc. induction Hrtc as [|cl1 cl2 cl3 Hs _ IH]; [done|]. rewrite IH. by apply (step_dom env).
Qed.
End Start.

(** ** A cluster of two nodes *)
Definition ex_env : CtlEnv :=
  mkCtlEnv (fun _ => 0x3F800000) (fun _ => 1) (Some "realm"%string) (mkHighest 1 1 100 1 1 1 200 300 1 1)
    (mkNodeList "" "" 0 0 false false 0 0 0 0 0).
Definition ex_rows : list NodeRow :=
  [mkNodeRow 1 "one" "10.0.0.1" 8085 8086 true 0; mkNodeRow 2 "two" "10.0.0.2" 8085 8086 true 0].
Definition ex_zero : Z -> Unspecified := fun _ => mkUnspecified false 0.

Definition ex_start (un : Z -> Unspecified) : Cluster :=
  let r := LoadNodeList un ex_rows (mkRouting ∅ ∅ false 0) in
  mkCluster r (SetupControler 0 false (fun _ => true) r) (fun _ => idle_node) (fun _ => false) [].

(** Node [id] is started: its answer to the handshake, the packet with the
    values, the acknowledgement. *)
Definition ex_enter (id : Z) : list Action := [AUpdate id 50 true; ANode id; AUpdate id 50 true].

Definition ex_refresh : Action := ARefresh (fun _ => Some true).

(** Both nodes are started and hand out items; the link of the first goes down
    and comes up again; it hands out another item and a mail. *)
Definition ex_actions : list Action :=
  ex_enter 1 ++ ex_enter 2
  ++ [AGenerate 1 KItem; AGenerate 2 KItem; AGenerate 2 KMail; AGenerate 1 KItem; AUpdate 1 50 true;
      ADrop 1; AUpdate 1 50 true; ex_refresh; AUpdate 1 2000 true; ANode 1; AUpdate 1 50 true;
      AGenerate 1 KItem; AGenerate 1 KMail].

Definition ex_cluster : option Cluster := run ex_env true ex_actions (ex_start ex_zero).

Example ex_cluster_issued :
  cl_issued <$> ex_cluster
  = Some [(1, KItem, 102); (2, KItem, 103); (2, KMail, 203); (1, KItem, 104); (1, KItem, 106); (1, KMail, 202)].
Proof. vm_compute. reflexivity. Qed.

Lemma ex_start_reachable un : cluster_reachable ex_env un ex_rows (ex_start un).
Proof. by apply (Reach_start ex_env un ex_rows 0 false (fun _ => true) (fun _ => idle_node) (mkRouting ∅ ∅ false 0)). Qed.

Lemma ex_configured : configured ex_zero ex_rows.
Proof.
  split; [|done]. intros row. unfold ex_rows. rewrite !elem_of_cons, elem_of_nil. intros [->|[->|[]]]; cbn; lia.
Qed.

Lemma ex_bases : bases_ok ex_env (node_count ex_zero ex_rows).
Proof. intros []; vm_compute; by split. Qed.

Lemma guids_unique_witness :
  match ex_cluster with
  | Some cl => length (cl_issued cl) = 6%nat /\ NoDup ((fun '(_, k, g) => (k, g)) <$> cl_issued cl)
  | None => False
  end.
Proof.
  assert (length <$> (cl_issued <$> ex_cluster) = Some 6%nat) as E by (rewrite ex_cluster_issued; reflexivity).
  pose proof (fun cl => run_reachable ex_env ex_zero ex_rows ex_actions _ cl (ex_start_reachable ex_zero)) as Hr.
  fold ex_cluster in Hr. destruct ex_cluster as [cl|]; [|discriminate E].
  injection E as E. split; [exact E|].
  exact (guids_unique ex_env ex_zero ex_rows cl ex_configured ex_bases (Hr cl eq_refl)).
Defined.

Lemma enterable_started_witness :
  match ex_cluster with
  | Some cl => CanEnterNodeID 2 (cl_routing cl) = true
      /\ exists c k, cl_sessions cl !! 2 = Some c /\ m_Socket c = Some k
           /\ (cs_closing k = false -> cl_ready cl 2 = true /\ _hiRange (n_objmgr (cl_nodes cl 2)) = 2)
  | None => False
  end.
Proof.
  assert ((fun cl => CanEnterNodeID 2 (cl_routing cl)) <$> ex_cluster = Some true) as E by (vm_compute; reflexivity).
  pose proof (fun cl => run_reachable ex_env ex_zero ex_rows ex_actions _ cl (ex_start_reachable ex_zero)) as Hr.
  fold ex_cluster in Hr. destruct ex_cluster as [cl|]; [|discriminate E].
  injection E as E. split; [exact E|].
  destruct (m_nodelist (cl_routing cl) !! 2) as [n|] eqn:En; [|unfold CanEnterNodeID in E; rewrite En in E; discriminate E].
  exact (enterable_started ex_env ex_zero ex_rows cl 2 n ex_configured ex_bases (Hr cl eq_refl) En E).
Defined.

Lemma manager_update_witness :
  match ex_cluster with
  | Some cl => exists cl', Mgr_Update ex_env (connector (fun _ => true)) 50
                             (mkControlSessionMgr [] (cl_sessions cl)) (cl_routing cl)
                           = Ok (mkControlSessionMgr [] (cl_sessions cl'), cl_routing cl')
  | None => False
  end.
Proof.
  assert (length <$> (cl_issued <$> ex_cluster) = Some 6%nat) as E by (rewrite ex_cluster_issued; reflexivity).
  pose proof (fun cl => run_reachable ex_env ex_zero ex_rows ex_actions _ cl (ex_start_reachable ex_zero)) as Hr.
  fold ex_cluster in Hr. destruct ex_cluster as [cl|]; [|discriminate E].
  destruct (manager_update ex_env ex_zero ex_rows cl (fun _ => true) 50 ex_configured ex_bases (Hr cl eq_refl))
    as (cl' & Hu & _); [lia|].
  exists cl'. exact Hu.
Defined.

(** *** What the steps ask for *)

(** A GUID that was still under way when the link went down is handed out
    again. *)
Example reissued_after_drop :
  cl_issued <$> run ex_env false
    (ex_enter 1 ++ [AGenerate 1 KItem; ADrop 1; AUpdate 1 50 true; ex_refresh; AUpdate 1 2000 true; ANode 1; AUpdate 1 50 true;
                    AGenerate 1 KItem]) (ex_start ex_zero)
  = Some [(1, KItem, 102); (1, KItem, 102)].
Proof. vm_compute. reflexivity. Qed.

(** A [LastCorpseID] that is not zero is taken for the last GUID used: the
    nodes then count from it, whatever the corpses in the database. *)
Example corpse_from_stack :
  cl_issued <$> run ex_env true
    (ex_enter 1 ++ ex_enter 2 ++ [AGenerate 1 KCorpse; AGenerate 2 KCorpse])
    (ex_start (fun _ => mkUnspecified false 7))
  = Some [(1, KCorpse, 9); (2, KCorpse, 9)].
Proof. vm_compute. reflexivity. Qed.

(** With [can_enter] not zero on the stack, a node can be entered before it
    has been started. *)
Example entered_from_stack :
  CanEnterNodeID 1 (cl_routing (ex_start (fun _ => mkUnspecified true 0))) = true.
Proof. vm_compute. reflexivity. Qed.
