(* ===== verification/Session.v ===== *)
(** * Client sessions: the cluster server's link between a client and its node

    [ClientSession] of [shade/Server/Client/ClientSession.cpp], with the parts
    of [Character/CharacterHandler.cpp] and [Handler/MiscHandler.cpp] that act
    on a session's links: one socket to the client, at most one to the node
    the player is on, and the flags and timers by which the session connects,
    moves on to another node, and is thrown out. *)
From Stdlib Require Import Ascii String ZArith Lia.
From stdpp Require Import base gmap list strings.
From S2P Require Import Prelude ByteBuffer OpcodeTable Opcodes Routing Node Control.

Open Scope Z_scope.

(** ** Constants *)
Definition FLAG_ACCOUNT_RECONNECT : Z := 0x1.
Definition FLAG_ACCOUNT_WAIT_FOR_OK : Z := 0x2.
Definition FLAG_LOGOUT_REQUEST : Z := 0x4.
Definition FLAG_TRANSFER_PENDING : Z := 0x10.
Definition FLAG_FORCE_TELEPORT : Z := 0x40.
Definition FLAG_ACCOUNT_KICKED : Z := 0x100.

Definition CL_DEF_TRANSFER_TO_NODE : Z := 4.

Definition CMSG_PLAYER_LOGIN : Z := 0x3D.
Definition SMSG_CHARACTER_LOGIN_FAILED : Z := 0x41.
Definition SMSG_LOGOUT_COMPLETE : Z := 0x4D.
Definition SMSG_MESSAGECHAT : Z := 0x96.
Definition SMSG_FORCE_MOVE_ROOT : Z := 0xE8.
Definition SMSG_FORCE_MOVE_UNROOT : Z := 0xEA.
Definition CMSG_AUTH_SESSION : Z := 0x1ED.

Definition CHAR_LOGIN_NO_WORLD : Z := 0x4E.
Definition CHAR_LOGIN_DUPLICATE_CHARACTER : Z := 0x4F.

(** ** State

    The sockets are [Control]'s: whether they are closing, whether they take
    packets, the queues of packets received, the packets they were given.
    [s_player] is the GUID of the player object [_player] points to. *)
Record ClientSession := mkClientSession {
  _accountId : Z;
  _security : Z;
  _expansion : Z;
  _ClientSocket : option CtlSocket;
  _lastActionTime : Z;                 (* of the client's socket *)
  _NodeSocket : option CtlSocket;
  s_reconnect_timer : Z;
  _callback_timer : Z;
  _sessionflags : Z;
  s_nodeId : Z;
  _authed : bool;
  s_player : option Z;
  m_playerLoading : bool;
  _allowedCharsToLogin : list Z;
  m_Warden : bool                      (* whether [InitWarden] has made one *)
}.

Definition with_links (c n : option CtlSocket) (s : ClientSession) : ClientSession :=
  mkClientSession (_accountId s) (_security s) (_expansion s) c (_lastActionTime s) n (s_reconnect_timer s)
    (_callback_timer s) (_sessionflags s) (s_nodeId s) (_authed s) (s_player s) (m_playerLoading s)
    (_allowedCharsToLogin s) (m_Warden s).
Definition set_client (c : option CtlSocket) (s : ClientSession) : ClientSession := with_links c (_NodeSocket s) s.
Definition set_node (n : option CtlSocket) (s : ClientSession) : ClientSession := with_links (_ClientSocket s) n s.

Definition with_timers (r c : Z) (s : ClientSession) : ClientSession :=
  mkClientSession (_accountId s) (_security s) (_expansion s) (_ClientSocket s) (_lastActionTime s) (_NodeSocket s)
    r c (_sessionflags s) (s_nodeId s) (_authed s) (s_player s) (m_playerLoading s)
    (_allowedCharsToLogin s) (m_Warden s).
Definition set_reconnect_timer (t : Z) (s : ClientSession) : ClientSession := with_timers t (_callback_timer s) s.
Definition set_callback_timer (t : Z) (s : ClientSession) : ClientSession := with_timers (s_reconnect_timer s) t s.

Definition with_state (flags node : Z) (s : ClientSession) : ClientSession :=
  mkClientSession (_accountId s) (_security s) (_expansion s) (_ClientSocket s) (_lastActionTime s) (_NodeSocket s)
    (s_reconnect_timer s) (_callback_timer s) flags node (_authed s) (s_player s) (m_playerLoading s)
    (_allowedCharsToLogin s) (m_Warden s).
Definition set_flags (f : Z) (s : ClientSession) : ClientSession := with_state f (s_nodeId s) s.
Definition set_nodeId (n : Z) (s : ClientSession) : ClientSession := with_state (_sessionflags s) n s.

Definition with_account (authed : bool) (player : option Z) (loading : bool) (allowed : list Z)
  (s : ClientSession) : ClientSession :=
  mkClientSession (_accountId s) (_security s) (_expansion s) (_ClientSocket s) (_lastActionTime s) (_NodeSocket s)
    (s_reconnect_timer s) (_callback_timer s) (_sessionflags s) (s_nodeId s) authed player loading
    allowed (m_Warden s).
Definition SetAuthed (b : bool) (s : ClientSession) : ClientSession :=
  with_account b (s_player s) (m_playerLoading s) (_allowedCharsToLogin s) s.
Definition SetPlayer (p : option Z) (s : ClientSession) : ClientSession :=
  with_account (_authed s) p (m_playerLoading s) (_allowedCharsToLogin s) s.
Definition set_loading (b : bool) (s : ClientSession) : ClientSession :=
  with_account (_authed s) (s_player s) b (_allowedCharsToLogin s) s.
Definition set_allowed (l : list Z) (s : ClientSession) : ClientSession :=
  with_account (_authed s) (s_player s) (m_playerLoading s) l s.

(** ** Flags *)
Definition SetFlag (newFlag : Z) (s : ClientSession) : ClientSession :=
  set_flags (add_flag (_sessionflags s) newFlag) s.
Definition RemoveFlag (oldFlag : Z) (s : ClientSession) : ClientSession :=
  set_flags (del_flag (_sessionflags s) oldFlag) s.
Definition HasFlag (flag : Z) (s : ClientSession) : bool := has_flag (_sessionflags s) flag.

Definition KickPlayer (s : ClientSession) : ClientSession :=
  RemoveFlag FLAG_ACCOUNT_RECONNECT (SetFlag FLAG_ACCOUNT_KICKED s).

(** ** Sending *)
Definition socket_close (k : CtlSocket) : CtlSocket :=
  mkCtlSocket true (cs_accepts k) (cs_single k) (cs_multi k) (cs_sent k).

(** [SendPacket] of a socket, closed when it fails. *)
Definition socket_send (p : WorldPacket) (k : CtlSocket) : CtlSocket :=
  if cs_closing k || negb (cs_accepts k) then socket_close k
  else mkCtlSocket (cs_closing k) (cs_accepts k) (cs_single k) (cs_multi k) (cs_sent k ++ [p]).

Definition CloseSocket (s : ClientSession) : ClientSession := set_client (socket_close <$> _ClientSocket s) s.
Definition CloseSubSocket (s : ClientSession) : ClientSession := set_node (socket_close <$> _NodeSocket s) s.
Definition SendPacket (p : WorldPacket) (s : ClientSession) : ClientSession :=
  set_client (socket_send p <$> _ClientSocket s) s.
Definition SendPacketToNode (p : WorldPacket) (s : ClientSession) : ClientSession :=
  set_node (socket_send p <$> _NodeSocket s) s.

(** ** The session and what it works with

    Handlers change the session while they read, so what was done before an
    exception stays; the master node is chosen by the routing helper. *)
Record Sess := mkSess { ses : ClientSession; ses_routing : RoutingHelper }.

Definition SM (A : Type) : Type := Sess -> Sess * outcome A.
Definition sret {A} (a : A) : SM A := fun s => (s, Ok a).
Definition sbind {A B} (m : SM A) (k : A -> SM B) : SM B :=
  fun s => match m s with
           | (s', Ok a) => k a s'
           | (s', Throw e) => (s', Throw e)
           | (s', UB) => (s', UB)
           end.
Definition sdo (f : ClientSession -> ClientSession) : SM unit :=
  fun s => (mkSess (f (ses s)) (ses_routing s), Ok tt).
Definition sget {A} (f : ClientSession -> A) : SM A := fun s => (s, Ok (f (ses s))).
Definition slift {A} (o : outcome A) : SM A := fun s => (s, o).
Notation "'let$$' x ':=' m 'in' k" := (sbind m (fun x => k))
  (at level 200, x name, m at level 100, k at level 200, only parsing).
Notation "m ;>> k" := (sbind m (fun _ => k)) (at level 101, right associativity, only parsing).

Definition swhen (b : bool) (m : SM unit) : SM unit := if b then m else sret tt.

Section Session.
Context `{UnorderedIter}.

Definition ConnectToMaster_ : SM Z :=
  fun s => let '(n, r) := ConnectToMaster (ses_routing s) in (mkSess (ses s) r, Ok n).
Definition routing {A} (f : RoutingHelper -> A) : SM A := fun s => (s, Ok (f (ses_routing s))).

(** ** Messages to the client *)
Definition packet (opcode : Z) (fs : list PField) : SM WorldPacket := slift (make opcode fs).

Definition SendServerMessageToPlayer (msg : string) : SM unit :=
  let$$ data := packet SMSG_MESSAGECHAT
    [U8 0; U32 0; U64 0; U32 0; U64 0; U32 (Z.of_nat (String.length msg) + 1); Str msg; U8 0] in
  sdo (SendPacket data).

(** A packed GUID and a zero counter. *)
Definition move_packet (opcode guid : Z) : outcome WorldPacket :=
  let* b := appendPackGUID guid ByteBuffer_new in
  let* b := append_field (U32 0) b in
  Ok (mkWP (u16 opcode) b).

Definition lost_message : string :=
  "|cffFF0000ALERT:|r We have lost connection to the node, please wait till we reconnect...".
Definition found_message : string := "|cff00FF00ALERT:|r Reconnected to the node successfully.".

Definition SetStunned (apply : bool) : SM unit :=
  let$$ player := sget s_player in
  match player with
  | None => sret tt
  | Some guid =>
      SendServerMessageToPlayer (if apply then lost_message else found_message) ;>>
      let$$ data := slift (move_packet (if apply then SMSG_FORCE_MOVE_ROOT else SMSG_FORCE_MOVE_UNROOT) guid) in
      sdo (SendPacket data)
  end.

Definition SendAuthResponse (code : Z) (shortForm : bool) (queuePos : Z) : SM unit :=
  let$$ e := sget _expansion in
  let$$ p := packet SMSG_AUTH_RESPONSE
    ([U8 code; U32 0; U8 0; U32 0; U8 e; U8 e] ++ if shortForm then [] else [U32 queuePos; U8 0]) in
  sdo (SendPacket p).

(** [_player] is dereferenced. *)
Definition SendPlayerLogin : SM unit :=
  let$$ player := sget s_player in
  match player with
  | None => slift UB
  | Some guid => let$$ p := packet CMSG_PLAYER_LOGIN [U64 guid] in sdo (SendPacketToNode p)
  end.

(** ** What the database and the other components answer *)

(** What handlers of other components, callbacks and the client checks do to
    the session they belong to. *)
Inductive Call :=
| CallKick
| CallClose
| CallSend (p : WorldPacket)
| CallSendToNode (p : WorldPacket)
| CallSetPlayer (guid : option Z)
| CallSetAuthed (b : bool)
| CallAllow (guids : list Z).

Definition run_call (c : Call) (s : ClientSession) : ClientSession :=
  match c with
  | CallKick => KickPlayer s
  | CallClose => CloseSocket s
  | CallSend p => SendPacket p s
  | CallSendToNode p => SendPacketToNode p s
  | CallSetPlayer g => SetPlayer g s
  | CallSetAuthed b => SetAuthed b s
  | CallAllow l => set_allowed l s
  end.
Definition run_calls (l : list Call) (s : ClientSession) : ClientSession := foldl (fun s c => run_call c s) s l.

Record SessEnv := mkSessEnv {
  username : Z -> option string;                                      (* of an account *)
  queries_prepared : Z -> bool;                                       (* [LoginQueryHolder::Initialize] *)
  other_handler : ClientSession.method -> WorldPacket -> ClientSession -> list Call
}.
Context (env : SessEnv).

(** ** Handlers that act on the links *)
Definition Handle_SMSG_AUTH_RESPONSE (p : WorldPacket) : SM unit :=
  let$$ r := slift (read 1 (wp_buf p)) in
  if fst r =? AUTH_OK then
    (let$$ wait := sget (HasFlag FLAG_ACCOUNT_WAIT_FOR_OK) in
     swhen wait
       (let$$ player := sget s_player in
        swhen (match player with Some _ => true | None => false end) SendPlayerLogin ;>>
        sdo (RemoveFlag FLAG_ACCOUNT_WAIT_FOR_OK))) ;>>
    let$$ pending := sget (HasFlag FLAG_TRANSFER_PENDING) in
    swhen pending (sdo (RemoveFlag FLAG_TRANSFER_PENDING))
  else sret tt.

(** A [bool] is written by [operator<<(int32)]. *)
Definition b2z (b : bool) : Z := if b then 1 else 0.

(** Without the account's row the session is kicked, and the null result is
    used all the same. *)
Definition Handle_SMSG_AUTH_CHALLENGE (p : WorldPacket) : SM unit :=
  let$$ b := slift (read_skip 4 (wp_buf p)) in
  let$$ seed := slift (read 4 b) in
  let$$ account := sget _accountId in
  match username env account with
  | None => sdo KickPlayer ;>> slift UB
  | Some name =>
      let$$ security := sget _security in
      let$$ authed := sget _authed in
      let$$ teleport := sget (HasFlag FLAG_FORCE_TELEPORT) in
      let$$ q := packet CMSG_AUTH_SESSION
        [Str name; U32 account; U32 security; I32 (b2z authed); I32 (b2z teleport)] in
      swhen teleport (sdo (RemoveFlag FLAG_FORCE_TELEPORT)) ;>>
      sdo (SendPacketToNode q)
  end.

Definition PlayerLogout : SM unit := sdo (SetPlayer None).

Definition restart_timer (n : Z) : Z := if n =? 0 then 2000000 else 100000.

Definition Handle_SMSG_LOGOUT_COMPLETE (p : WorldPacket) : SM unit :=
  let$$ requested := sget (HasFlag FLAG_LOGOUT_REQUEST) in
  if negb requested then sret tt else
  PlayerLogout ;>>
  let$$ data := packet SMSG_LOGOUT_COMPLETE [] in
  sdo (SendPacket data) ;>>
  let$$ node := sget s_nodeId in
  let$$ master := ConnectToMaster_ in
  if node =? master then sret tt else
  sdo CloseSubSocket ;>>
  sdo (set_flags 0) ;>>
  sdo (set_nodeId 0) ;>>
  let$$ master := ConnectToMaster_ in
  sdo (set_nodeId master) ;>>
  sdo (set_reconnect_timer (restart_timer master)) ;>>
  sdo (SetFlag FLAG_ACCOUNT_RECONNECT).

Definition Handle_SMSG_LOGOUT_RESPONSE (p : WorldPacket) : SM unit :=
  let$$ reason := slift (read 1 (wp_buf p)) in
  let$$ time := slift (read 4 (snd reason)) in
  swhen (negb (fst reason =? 0)) (sdo (RemoveFlag FLAG_LOGOUT_REQUEST)).

Definition Handle_NODE_MISC_DATA (p : WorldPacket) : SM unit :=
  let$$ cmd := slift (read 4 (wp_buf p)) in
  if fst cmd =? CL_DEF_TRANSFER_TO_NODE then
    let$$ node := slift (read 4 (snd cmd)) in
    let$$ current := sget s_nodeId in
    if current =? fst node then sret tt else
    let$$ known := routing (CheckNodeID (fst node)) in
    if negb known then sret tt else
    sdo (set_nodeId (fst node)) ;>>
    sdo CloseSubSocket ;>>
    sdo (set_reconnect_timer 500) ;>>
    sdo (SetFlag FLAG_ACCOUNT_RECONNECT)
  else sret tt.

Definition HandlePlayerLogoutRequest : SM unit := sdo (SetFlag FLAG_LOGOUT_REQUEST).
Definition HandleLogoutCancelOpcode : SM unit := sdo (RemoveFlag FLAG_LOGOUT_REQUEST).

(** The queries are answered by a callback. *)
Definition HandlePlayerLoginOpcode (p : WorldPacket) : SM unit :=
  let$$ node := sget s_nodeId in
  let$$ loading := sget m_playerLoading in
  let$$ known := routing (CheckNodeID node) in
  if negb known || (node =? 0) && loading then
    let$$ data := packet SMSG_CHARACTER_LOGIN_FAILED [U8 CHAR_LOGIN_DUPLICATE_CHARACTER] in
    sdo (SendPacket data) ;>>
    SendAuthResponse CHAR_LOGIN_NO_WORLD false 0
  else
    sdo (SetPlayer None) ;>>
    sdo (set_loading true) ;>>
    let$$ guid := slift (read 8 (wp_buf p)) in
    let$$ allowed := sget _allowedCharsToLogin in
    if negb (bool_decide (u32 (fst guid) ∈ allowed)) then sdo KickPlayer
    else if queries_prepared env (u32 (fst guid)) then sret tt
    else sdo (set_loading false).

Definition call_handler (h : ClientSession.method) (p : WorldPacket) : SM unit :=
  match h with
  | ClientSession.Handle_NULL | ClientSession.Handle_ServerSide => sret tt
  | ClientSession.Handle_SMSG_AUTH_RESPONSE => Handle_SMSG_AUTH_RESPONSE p
  | ClientSession.Handle_SMSG_AUTH_CHALLENGE => Handle_SMSG_AUTH_CHALLENGE p
  | ClientSession.Handle_SMSG_LOGOUT_COMPLETE => Handle_SMSG_LOGOUT_COMPLETE p
  | ClientSession.Handle_SMSG_LOGOUT_RESPONSE => Handle_SMSG_LOGOUT_RESPONSE p
  | ClientSession.Handle_NODE_MISC_DATA => Handle_NODE_MISC_DATA p
  | ClientSession.HandlePlayerLogoutRequest => HandlePlayerLogoutRequest
  | ClientSession.HandleLogoutCancelOpcode => HandleLogoutCancelOpcode
  | ClientSession.HandlePlayerLoginOpcode => HandlePlayerLoginOpcode p
  | h => fun s => (mkSess (run_calls (other_handler env h p (ses s)) (ses s)) (ses_routing s), Ok tt)
  end.

(** ** Packets

    An exception is caught around the handler. *)
Definition guarded (m : SM unit) : SM unit :=
  fun s => match m s with
           | (s', Throw AssertFailure) => (s', Throw AssertFailure)
           | (s', Throw _) => (s', Ok tt)
           | r => r
           end.

Definition perform (a : Action) : SM unit :=
  match a with
  | ToNode p => sdo (SendPacketToNode p)
  | ToClient p => sdo (SendPacket p)
  | CallHandler h p => guarded (call_handler h p)
  | CallNull _ => slift UB
  end.

Fixpoint perform_all (l : list Action) : SM unit :=
  match l with [] => sret tt | a :: l => perform a ;>> perform_all l end.

(** [GetNextSinglePacket] and [GetNextMultiPacket]: nothing once the socket is
    closing. *)
Definition next_of_socket (multi : bool) (k : CtlSocket) : option (WorldPacket * CtlSocket) :=
  if cs_closing k then None
  else match multi, cs_single k, cs_multi k with
       | false, p :: q, m => Some (p, mkCtlSocket (cs_closing k) (cs_accepts k) q m (cs_sent k))
       | true, q, p :: m => Some (p, mkCtlSocket (cs_closing k) (cs_accepts k) q m (cs_sent k))
       | _, _, _ => None
       end.

(** The loops run over what the queues hold: no handler adds to them. *)
Fixpoint NodeIO (fuel : nat) (multi : bool) : SM unit :=
  fun s =>
    match k ← _NodeSocket (ses s); next_of_socket multi k, fuel with
    | Some (p, k), S fuel =>
        (sdo (set_node (Some k)) ;>> perform_all (route_from_node p) ;>> NodeIO fuel multi) s
    | _, _ => (s, Ok tt)
    end.

Fixpoint ClientIO (fuel : nat) (multi : bool) : SM unit :=
  fun s =>
    match k ← _ClientSocket (ses s); next_of_socket multi k, fuel with
    | Some (p, k), S fuel =>
        (sdo (set_client (Some k)) ;>>
         (let$$ authed := sget _authed in
          let$$ player := sget s_player in
          perform_all (route_from_client authed (match player with Some _ => true | None => false end) p)) ;>>
         ClientIO fuel multi) s
    | _, _ => (s, Ok tt)
    end.

Definition queue_of (multi : bool) (k : option CtlSocket) : nat :=
  match k with None => 0 | Some k => length (if multi then cs_multi k else cs_single k) end.

Definition UpdateNodeIO (multi : bool) : SM unit :=
  fun s => NodeIO (queue_of multi (_NodeSocket (ses s))) multi s.
Definition UpdateClientIO (multi : bool) : SM unit :=
  fun s => ClientIO (queue_of multi (_ClientSocket (ses s))) multi s.

(** ** Updates *)
Definition is_closing (k : option CtlSocket) : bool :=
  match k with Some k => cs_closing k | None => false end.
Definition is_null (k : option CtlSocket) : bool :=
  match k with Some _ => false | None => true end.

Definition UpdateSingle : SM bool :=
  let$$ kicked := sget (HasFlag FLAG_ACCOUNT_KICKED) in
  if kicked then sret false else
  UpdateNodeIO false ;>>
  let$$ c := sget _ClientSocket in
  if is_null c || is_closing c then sret false else
  UpdateClientIO false ;>> sret true.

(** What one [UpdateMulti] is given: the time since the last one, the clock and
    the configured timeout, what connecting to the node returns, what the query
    callbacks and the client checks do. *)
Record Tick := mkTick {
  t_diff : Z;
  t_now : Z;
  t_timeout : Z;
  t_connect : option CtlSocket;
  t_callbacks : list Call;
  t_warden : list Call
}.

Definition check_timeout (t : Tick) : SM unit :=
  let$$ s := sget (fun s => s) in
  swhen (negb (is_null (_ClientSocket s)) && (t_now t + t_timeout t <? _lastActionTime s)) (sdo KickPlayer).

Definition callbacks (t : Tick) : SM unit :=
  let$$ timer := sget _callback_timer in
  if timer <=? t_diff t then sdo (set_callback_timer 50000) ;>> sdo (run_calls (t_callbacks t))
  else sdo (set_callback_timer (timer - t_diff t)).

(** What [NodeSocketConnector] opens: nothing for a node that is not online. *)
Definition OpenNodeConnection (node : Z) (t : Tick) (r : RoutingHelper) : option CtlSocket :=
  if CheckNodeID node r then t_connect t else None.

Definition try_connect (t : Tick) : SM unit :=
  let$$ node := sget s_nodeId in
  if node =? 0 then let$$ master := ConnectToMaster_ in sdo (set_nodeId master)
  else
    let$$ opened := routing (fun r => if CanEnterNodeID node r then OpenNodeConnection node t r else None) in
    match opened with
    | None => sret tt
    | Some k =>
        sdo (set_node (Some k)) ;>>
        sdo (RemoveFlag FLAG_ACCOUNT_RECONNECT) ;>>
        sdo (SetFlag FLAG_ACCOUNT_WAIT_FOR_OK) ;>>
        SetStunned false
    end.

Definition reconnect_node (t : Tick) : SM unit :=
  let$$ s := sget (fun s => s) in
  if HasFlag FLAG_ACCOUNT_RECONNECT s then
    if t_diff t <? s_reconnect_timer s then sdo (set_reconnect_timer (s_reconnect_timer s - t_diff t))
    else try_connect t ;>> sdo (set_reconnect_timer 5000000)
  else sret tt.

(** A node's socket that is closing is given up. *)
Definition drop_node : SM unit :=
  let$$ s := sget (fun s => s) in
  if is_closing (_NodeSocket s) then
    sdo (set_node None) ;>>
    SetStunned true ;>>
    swhen (match s_player s with Some _ => true | None => false end) (sdo (SetFlag FLAG_FORCE_TELEPORT)) ;>>
    sdo (SetFlag FLAG_ACCOUNT_RECONNECT)
  else sret tt.

(** [m_Warden] is dereferenced. *)
Definition update_warden (t : Tick) : SM unit :=
  let$$ w := sget m_Warden in
  if w then sdo (run_calls (t_warden t)) else slift UB.

Definition drop_client : SM unit :=
  let$$ s := sget (fun s => s) in swhen (is_closing (_ClientSocket s)) (sdo (set_client None)).

Definition UpdateMulti (t : Tick) : SM bool :=
  let$$ kicked := sget (HasFlag FLAG_ACCOUNT_KICKED) in
  if kicked then sret false else
  check_timeout t ;>>
  callbacks t ;>>
  reconnect_node t ;>>
  UpdateNodeIO true ;>>
  drop_node ;>>
  UpdateClientIO true ;>>
  update_warden t ;>>
  drop_client ;>>
  sget (fun s => negb (is_null (_ClientSocket s))).

(** The constructor; the members it leaves unset are arguments. *)
Definition ClientSession_new (un_loading un_warden : bool) (now account security expansion : Z)
  (sock : option CtlSocket) (r : RoutingHelper) : Sess :=
  let '(n, r) := ConnectToMaster r in
  mkSess (SetFlag FLAG_ACCOUNT_RECONNECT
            (mkClientSession account security expansion sock now None (restart_timer n) 5000 0 n true None
               un_loading [] un_warden)) r.
End Session.

(** ** The node's end

    What [WorldSocket::HandleAuthSession] of the node reads of
    [CMSG_AUTH_SESSION]: the account's name, its id, its security level,
    whether it is authenticated, whether the player is to be teleported. *)
Definition HandleAuthSession_read (p : WorldPacket) : outcome (string * Z * Z * bool * bool) :=
  let* '(account, b) := read_string (wp_buf p) in
  let* '(id, b) := read 4 b in
  let* '(security, b) := read 4 b in
  let* '(authed, b) := read_bool b in
  let* '(forceTele, b) := read_bool b in
  Ok (account, id, security, authed, forceTele).
