(* ===== verification/SessionFacts.v ===== *)
(** * The life of a client session's link to its node

    The invariant that ties the flags to the sockets, and the proof that a
    session that waits for its node gets it. *)
From Stdlib Require Import Ascii String ZArith Lia.
From stdpp Require Import base gmap list strings.
From S2P Require Import Prelude ByteBuffer OpcodeTable Opcodes Routing Node Control ControlFacts Session.

Open Scope Z_scope.

(** ** Flags *)
Ltac flag_simpl :=
  unfold KickPlayer, HasFlag, SetFlag, RemoveFlag in *;
  cbn [set_flags with_state _sessionflags set_node set_client with_links set_reconnect_timer set_callback_timer
       with_timers set_nodeId SetPlayer SetAuthed set_loading set_allowed with_account SendPacket SendPacketToNode
       CloseSocket CloseSubSocket _NodeSocket _ClientSocket s_nodeId s_reconnect_timer s_player] in *;
  repeat first [ rewrite has_flag_add by done | rewrite has_flag_del | rewrite has_flag_0
               | rewrite has_flag_add_other by done | rewrite has_flag_del_other by done ].

(** ** What a session's link may look like *)

(** No link: there is none, or it is closing. *)
Definition gone (k : option CtlSocket) : bool :=
  match k with None => true | Some k => cs_closing k end.

(** While it tries to connect a session has no link that works; unless it has
    been thrown out, it has a link or tries to connect. *)
Definition session_ok (s : ClientSession) : Prop :=
  (HasFlag FLAG_ACCOUNT_RECONNECT s = true -> gone (_NodeSocket s) = true)
  /\ (HasFlag FLAG_ACCOUNT_KICKED s = false ->
      HasFlag FLAG_ACCOUNT_RECONNECT s = true \/ is_null (_NodeSocket s) = false).

(** What most of the code does to a session at most: use its sockets and throw
    it out. *)
Record gentle_ses (s s' : ClientSession) : Prop := {
  ge_kicked : HasFlag FLAG_ACCOUNT_KICKED s = true -> HasFlag FLAG_ACCOUNT_KICKED s' = true;
  ge_waits : HasFlag FLAG_ACCOUNT_KICKED s' = false ->
    HasFlag FLAG_ACCOUNT_RECONNECT s' = HasFlag FLAG_ACCOUNT_RECONNECT s;
  ge_not : HasFlag FLAG_ACCOUNT_RECONNECT s' = true -> HasFlag FLAG_ACCOUNT_RECONNECT s = true;
  ge_timer : s_reconnect_timer s' = s_reconnect_timer s;
  ge_node : s_nodeId s' = s_nodeId s;
  ge_null : is_null (_NodeSocket s') = is_null (_NodeSocket s);
  ge_gone : gone (_NodeSocket s) = true -> gone (_NodeSocket s') = true
}.

#[export] Instance gentle_ses_preorder : PreOrder gentle_ses.
Proof.
  split.
  - intros s. by split.
  - intros a b c [K1 W1 R1 T1 N1 U1 G1] [K2 W2 R2 T2 N2 U2 G2].
    split; try congruence; auto. intros Hc. rewrite W2 by done.
    apply W1. destruct (HasFlag FLAG_ACCOUNT_KICKED b) eqn:E; [|done]. by rewrite K2 in Hc.
Qed.

Lemma gentle_session_ok s s' : gentle_ses s s' -> session_ok s -> session_ok s'.
Proof.
  intros [K W R T N U G] [Ha Hb]. split; [auto|]. intros Hk.
  assert (HasFlag FLAG_ACCOUNT_KICKED s = false) as Hk0.
  { destruct (HasFlag FLAG_ACCOUNT_KICKED s) eqn:E; [|done]. by rewrite K in Hk. }
  rewrite W, U by done. by apply Hb.
Qed.

Lemma gone_send p k : gone k = true -> gone (socket_send p <$> k) = true.
Proof. destruct k as [k|]; [|done]. cbn. intros E. unfold socket_send. by rewrite E. Qed.
Lemma gone_close k : gone (socket_close <$> k) = true.
Proof. by destruct k. Qed.
Lemma null_fmap (f : CtlSocket -> CtlSocket) k : is_null (f <$> k) = is_null k.
Proof. by destruct k. Qed.

(** *** The steps that are gentle *)
Create HintDb gentle.

Lemma gentle_client c s : gentle_ses s (set_client c s).
Proof. by split. Qed.
Lemma gentle_callback t s : gentle_ses s (set_callback_timer t s).
Proof. by split. Qed.
Lemma gentle_account a p l x s : gentle_ses s (with_account a p l x s).
Proof. by split. Qed.
Lemma gentle_to_node p s : gentle_ses s (SendPacketToNode p s).
Proof. split; try done; cbn; [apply null_fmap|apply gone_send]. Qed.
Lemma gentle_kick s : gentle_ses s (KickPlayer s).
Proof.
  assert (HasFlag FLAG_ACCOUNT_KICKED (KickPlayer s) = true) as Hk by (by flag_simpl).
  assert (HasFlag FLAG_ACCOUNT_RECONNECT (KickPlayer s) = false) as Hr by (by flag_simpl).
  split; rewrite ?Hk, ?Hr; done.
Qed.

(** A flag that says neither. *)
Definition plain_flag (f : Z) : Prop :=
  Z.land f FLAG_ACCOUNT_KICKED = 0 /\ Z.land f FLAG_ACCOUNT_RECONNECT = 0.
Lemma gentle_set f s : plain_flag f -> gentle_ses s (SetFlag f s).
Proof.
  intros [H1 H2]. split; try done; unfold HasFlag, SetFlag; cbn [_sessionflags set_flags with_state];
    by rewrite ?(has_flag_add_other _ f _ H1), ?(has_flag_add_other _ f _ H2).
Qed.
Lemma gentle_remove f s : plain_flag f -> gentle_ses s (RemoveFlag f s).
Proof.
  intros [H1 H2]. split; try done; unfold HasFlag, RemoveFlag; cbn [_sessionflags set_flags with_state];
    by rewrite ?(has_flag_del_other _ f _ H1), ?(has_flag_del_other _ f _ H2).
Qed.

#[export] Hint Resolve gentle_client gentle_callback gentle_account gentle_to_node gentle_kick : gentle.
#[export] Hint Extern 1 (gentle_ses _ (SendPacket _ _)) => apply gentle_client : gentle.
#[export] Hint Extern 1 (gentle_ses _ (CloseSocket _)) => apply gentle_client : gentle.
#[export] Hint Extern 1 (gentle_ses _ (SetPlayer _ _)) => apply gentle_account : gentle.
#[export] Hint Extern 1 (gentle_ses _ (SetAuthed _ _)) => apply gentle_account : gentle.
#[export] Hint Extern 1 (gentle_ses _ (set_loading _ _)) => apply gentle_account : gentle.
#[export] Hint Extern 1 (gentle_ses _ (set_allowed _ _)) => apply gentle_account : gentle.
#[export] Hint Extern 1 (gentle_ses _ (SetFlag _ _)) => apply gentle_set; by split : gentle.
#[export] Hint Extern 1 (gentle_ses _ (RemoveFlag _ _)) => apply gentle_remove; by split : gentle.

Lemma gentle_calls l s : gentle_ses s (run_calls l s).
Proof.
  revert s. induction l as [|c l IH]; intros s; [reflexivity|]. cbn.
  etrans; [|apply IH]. destruct c; cbn [run_call]; auto with gentle.
Qed.
#[export] Hint Resolve gentle_calls : gentle.

(** ** Code that keeps a relation

    Of the state before and the state after, however it ends. *)
Section Keeps.
Context (R : Sess -> Sess -> Prop) `{!PreOrder R}.

Definition keeps {A} (m : SM A) : Prop := forall s, R s (fst (m s)).

Lemma carry_ret {A} (a : A) : keeps (sret a).
Proof. intros s. reflexivity. Qed.
Lemma keeps_get {A} (f : ClientSession -> A) : keeps (sget f).
Proof. intros s. reflexivity. Qed.
Lemma keeps_lift {A} (o : outcome A) : keeps (slift o).
Proof. intros s. reflexivity. Qed.
Lemma keeps_routing {A} (f : RoutingHelper -> A) : keeps (routing f).
Proof. intros s. reflexivity. Qed.
Lemma keeps_packet opcode fs : keeps (packet opcode fs).
Proof. intros s. reflexivity. Qed.
Lemma carry_bind {A B} (m : SM A) (k : A -> SM B) : keeps m -> (forall a, keeps (k a)) -> keeps (sbind m k).
Proof.
  intros Hm Hk s. unfold sbind. specialize (Hm s). destruct (m s) as [s1 [a| |]]; cbn in *; [|done..].
  etrans; [exact Hm|apply Hk].
Qed.
Lemma keeps_when b (m : SM unit) : keeps m -> keeps (swhen b m).
Proof. destruct b; [done|]. intros _. apply carry_ret. Qed.
Lemma keeps_guarded m : keeps m -> keeps (guarded m).
Proof. intros Hm s. specialize (Hm s). unfold guarded. by destruct (m s) as [s' [|[]|]]. Qed.
End Keeps.


(** The relations of whole states. *)
Definition gentle (s s' : Sess) : Prop := gentle_ses (ses s) (ses s').
#[export] Instance gentle_preorder : PreOrder gentle.
Proof. split; [intros s; unfold gentle; reflexivity|]. unfold gentle. intros a b c H1 H2. by transitivity (ses b). Qed.

Definition keeps_ok (s s' : Sess) : Prop := session_ok (ses s) -> session_ok (ses s').
#[export] Instance keeps_ok_preorder : PreOrder keeps_ok.
Proof. split; unfold keeps_ok; [by intros s Hs|]. intros a b c H1 H2 Ha. by apply H2, H1. Qed.

Lemma gentle_do f : (forall s, gentle_ses s (f s)) -> keeps gentle (sdo f).
Proof. intros Hf s. apply Hf. Qed.

Lemma keeps_gentle_ok {A} (m : SM A) : keeps gentle m -> keeps keeps_ok m.
Proof. intros Hm s. exact (gentle_session_ok _ _ (Hm s)). Qed.

(** Taking a program apart. *)
Ltac keep_step :=
  lazymatch goal with
  | |- keeps _ (sbind _ _) => apply carry_bind; [exact _| |intros ?]
  | |- keeps _ (swhen _ _) => apply keeps_when; [exact _|]
  | |- keeps _ (guarded _) => apply keeps_guarded
  | |- keeps _ (sret _) => apply carry_ret; exact _
  | |- keeps _ (sget _) => apply keeps_get; exact _
  | |- keeps _ (slift _) => apply keeps_lift; exact _
  | |- keeps _ (routing _) => apply keeps_routing; exact _
  | |- keeps _ (packet _ _) => apply keeps_packet; exact _
  | |- keeps _ (match ?x with _ => _ end) => destruct x
  | |- keeps gentle (sdo _) => apply gentle_do; intros ?; auto with gentle
  end.
Ltac keep_steps := repeat keep_step.

Section Session.
Context `{UnorderedIter} (env : SessEnv).

Abbreviation calm m := (keeps gentle m).

Lemma keeps_master : calm ConnectToMaster_.
Proof. intros s. unfold ConnectToMaster_. destruct (ConnectToMaster _). unfold gentle. reflexivity. Qed.

Lemma calm_message msg : calm (SendServerMessageToPlayer msg).
Proof. unfold SendServerMessageToPlayer. keep_steps. Qed.
Lemma calm_stunned b : calm (SetStunned b).
Proof. unfold SetStunned. keep_steps; try apply calm_message; keep_steps. Qed.
Lemma calm_auth_reply code b q : calm (SendAuthResponse code b q).
Proof. unfold SendAuthResponse. keep_steps. Qed.
Lemma calm_player_login : calm SendPlayerLogin.
Proof. unfold SendPlayerLogin. keep_steps. Qed.
Lemma calm_auth_response p : calm (Handle_SMSG_AUTH_RESPONSE p).
Proof. unfold Handle_SMSG_AUTH_RESPONSE. keep_steps; try apply calm_player_login; keep_steps. Qed.
Lemma calm_auth_challenge p : calm (Handle_SMSG_AUTH_CHALLENGE env p).
Proof. unfold Handle_SMSG_AUTH_CHALLENGE. keep_steps. Qed.
Lemma calm_logout_response p : calm (Handle_SMSG_LOGOUT_RESPONSE p).
Proof. unfold Handle_SMSG_LOGOUT_RESPONSE. keep_steps. Qed.
Lemma calm_login p : calm (HandlePlayerLoginOpcode env p).
Proof. unfold HandlePlayerLoginOpcode. keep_steps; try apply calm_auth_reply; keep_steps. Qed.

(** The handlers that move a session to another node. *)
Definition moves (h : ClientSession.method) : bool :=
  match h with
  | ClientSession.Handle_SMSG_LOGOUT_COMPLETE | ClientSession.Handle_NODE_MISC_DATA => true
  | _ => false
  end.

Lemma calm_handler h p : moves h = false -> calm (call_handler env h p).
Proof.
  intros Hm s. destruct h; try discriminate Hm; cbn [call_handler];
    first [ apply calm_auth_response | apply calm_auth_challenge | apply calm_logout_response
          | apply calm_login | (unfold gentle; reflexivity) | apply gentle_calls
          | (apply gentle_do; intros ?; auto with gentle) ].
Qed.

(** *** Moving on *)
Lemma ok_transfer p : keeps keeps_ok (Handle_NODE_MISC_DATA p).
Proof.
  assert (keeps keeps_ok (sret tt)) as Hret by apply carry_ret, _.
  unfold Handle_NODE_MISC_DATA. apply carry_bind; [apply _|apply keeps_lift, _|]. intros [cmd b].
  destruct (_ =? _); [|done]. apply carry_bind; [apply _|apply keeps_lift, _|]. intros [node b'].
  apply carry_bind; [apply _|apply keeps_get, _|]. intros current. destruct (_ =? _); [done|].
  apply carry_bind; [apply _|apply keeps_routing, _|]. intros []; [|done]. cbn [negb].
  intros s [Ha Hb]. cbn. split; [intros _; apply gone_close|]. intros _. left. by flag_simpl.
Qed.

Lemma ok_logout_complete p : keeps keeps_ok (Handle_SMSG_LOGOUT_COMPLETE p).
Proof.
  assert (keeps keeps_ok (sret tt)) as Hret by apply carry_ret, _.
  unfold Handle_SMSG_LOGOUT_COMPLETE. apply carry_bind; [apply _|apply keeps_get, _|]. intros []; [|done].
  cbn [negb]. apply carry_bind; [apply _|apply keeps_gentle_ok; unfold PlayerLogout; keep_steps|]. intros _.
  apply carry_bind; [apply _|apply keeps_packet, _|]. intros data.
  apply carry_bind; [apply _|apply keeps_gentle_ok; keep_steps|]. intros _.
  apply carry_bind; [apply _|apply keeps_get, _|]. intros node.
  apply carry_bind; [apply _|apply keeps_gentle_ok, keeps_master|]. intros master.
  destruct (_ =? _); [done|]. intros s _. unfold sbind, sdo, ConnectToMaster_. cbn [ses ses_routing].
  destruct (ConnectToMaster _) as [n r]. cbn [fst ses].
  split; [intros _; apply gone_close|]. intros _. left. by flag_simpl.
Qed.

Lemma ok_handler h p : keeps keeps_ok (call_handler env h p).
Proof.
  destruct (moves h) eqn:E; [|by apply keeps_gentle_ok, calm_handler].
  destruct h; try discriminate E; cbn [call_handler]; [apply ok_logout_complete|apply ok_transfer].
Qed.

(** *** Packets *)
Definition still (a : Action) : Prop :=
  match a with CallHandler h _ => moves h = false | _ => True end.

Lemma calm_perform a : still a -> calm (perform env a).
Proof.
  intros Ha. destruct a; cbn [perform]; keep_steps; by apply calm_handler.
Qed.
Lemma ok_perform a : keeps keeps_ok (perform env a).
Proof.
  destruct a; cbn [perform]; try (apply keeps_gentle_ok; keep_steps; fail).
  apply keeps_guarded, ok_handler.
Qed.

Lemma calm_perform_all l : Forall still l -> calm (perform_all env l).
Proof. induction 1; cbn [perform_all]; keep_steps; [by apply calm_perform|done]. Qed.
Lemma ok_perform_all l : keeps keeps_ok (perform_all env l).
Proof. induction l; cbn [perform_all]; keep_steps; [apply ok_perform|done]. Qed.

(** No client packet leads to a handler that moves the session. *)
Definition client_still (_ : nat) (e : OpcodeHandler) : bool :=
  negb (processed (to_node_procedure e)) || match handler e with Some h => negb (moves h) | None => true end.
Lemma table_client_still : table_check client_still = true.
Proof. vm_compute. reflexivity. Qed.

Lemma client_actions_still authed player p : Forall still (route_from_client authed player p).
Proof.
  apply Forall_forall. intros a Ha. apply elem_of_route_from_client in Ha as (e & He & _ & Ha).
  pose proof (table_checked _ _ _ table_client_still (opcode_entry_lookup _ _ He)) as Hc.
  apply elem_of_HandlePacket in Ha as [[-> _]|[[-> _]|[Hp ->]]]; [done..|].
  unfold client_still in Hc. rewrite Hp in Hc. destruct (handler e); [|done]. cbn in Hc. by apply negb_true_iff.
Qed.

Lemma next_of_socket_open multi k p k' : next_of_socket multi k = Some (p, k') -> cs_closing k = false.
Proof. unfold next_of_socket. by destruct (cs_closing k). Qed.

Lemma calm_ClientIO fuel multi : calm (ClientIO env fuel multi).
Proof.
  induction fuel as [|fuel IH]; intros s; cbn [ClientIO];
    destruct (_ ≫= _) as [[p k]|]; try (unfold gentle; reflexivity).
  apply (carry_bind gentle (sdo (set_client (Some k)))); [keep_steps|]. intros _.
  keep_steps; [apply calm_perform_all, client_actions_still|apply IH].
Qed.

Lemma gone_NodeIO fuel multi s : gone (_NodeSocket (ses s)) = true -> NodeIO env fuel multi s = (s, Ok tt).
Proof.
  intros Hg. destruct fuel; cbn [NodeIO]; destruct (_NodeSocket (ses s)) as [k|]; cbn in *; try done;
    unfold next_of_socket; by rewrite Hg.
Qed.

Lemma ok_NodeIO fuel multi : keeps keeps_ok (NodeIO env fuel multi).
Proof.
  induction fuel as [|fuel IH]; intros s; cbn [NodeIO];
    destruct (_NodeSocket (ses s)) as [k|] eqn:Ek; cbn [mbind option_bind]; try (intros Hs; exact Hs; fail);
    destruct (next_of_socket multi k) as [[p k']|] eqn:En; try (intros Hs; exact Hs; fail).
  unfold sbind at 1, sdo at 1.
  set (s1 := mkSess _ _). assert (keeps_ok s s1) as H1.
  { refine (gentle_session_ok (ses s) (ses s1) _). split; try done; cbn; rewrite Ek; [done|]. cbn.
    by rewrite (next_of_socket_open _ _ _ _ En). }
  etrans; [exact H1|].
  apply (carry_bind keeps_ok (perform_all env (route_from_node p))); [apply ok_perform_all|]. intros _. apply IH.
Qed.

(** *** The parts of an update *)
Lemma fields_make opcode fs :
  0 <= opcode < 2 ^ 16 -> Z.of_nat (length (fields_bytes fs)) <= max_size -> exists p, make opcode fs = Ok p.
Proof. intros Ho Hl. exists (message opcode fs). by apply make_message. Qed.

Lemma packGUID_loop_length fuel i guid mask acc :
  (length (snd (packGUID_loop fuel i guid mask acc)) <= length acc + fuel)%nat.
Proof.
  revert i guid mask acc. induction fuel as [|fuel IH]; intros i guid mask acc; cbn; [lia|].
  destruct (guid =? 0); cbn; [lia|]. destruct (has_flag guid 255);
    (etrans; [apply IH|]); rewrite ?length_app; cbn; lia.
Qed.

Lemma move_packet_ok opcode guid : exists p, move_packet opcode guid = Ok p.
Proof.
  unfold move_packet, appendPackGUID, packGUID.
  pose proof (packGUID_loop_length 8 0 guid 0 []) as Hl. destruct (packGUID_loop 8 0 guid 0 []) as [mask l].
  cbn [snd length] in Hl. rewrite append_end; [|done|done|done|unfold bb_size; cbn [ByteBuffer_new _storage length]; lia].
  cbn [obind]. rewrite append_field_end; [eexists; reflexivity|done|].
  unfold bb_size, max_size. cbn [ByteBuffer_new _storage app length field_bytes]. rewrite length_le_split. lia.
Qed.

(** Telling the player changes nothing but the client's socket. *)
Lemma stunned_run b s : exists c, SetStunned b s = (mkSess (set_client c (ses s)) (ses_routing s), Ok tt).
Proof.
  unfold SetStunned, sbind at 1, sget. destruct (s_player (ses s)) as [guid|].
  2: { exists (_ClientSocket (ses s)). by destruct s as [[]]. }
  unfold SendServerMessageToPlayer, packet.
  destruct (fields_make SMSG_MESSAGECHAT
    [U8 0; U32 0; U64 0; U32 0; U64 0;
     U32 (Z.of_nat (String.length (if b then lost_message else found_message)) + 1);
     Str (if b then lost_message else found_message); U8 0]) as [p1 E1]; [done|by destruct b|].
  destruct (move_packet_ok (if b then SMSG_FORCE_MOVE_ROOT else SMSG_FORCE_MOVE_UNROOT) guid) as [p2 E2].
  unfold sbind, slift, sdo. rewrite E1. cbn [ses ses_routing]. rewrite E2. cbn [ses ses_routing].
  eexists. reflexivity.
Qed.

Lemma sdo_bind {A} f (k : unit -> SM A) s : sbind (sdo f) k s = k tt (mkSess (f (ses s)) (ses_routing s)).
Proof. reflexivity. Qed.

Lemma ok_drop_node : keeps keeps_ok drop_node.
Proof.
  unfold drop_node. apply carry_bind; [exact _|apply keeps_get; exact _|]. intros s0.
  destruct (is_closing _); [|apply carry_ret; exact _]. intros s _. rewrite sdo_bind. unfold sbind at 1.
  destruct (stunned_run true (mkSess (set_node None (ses s)) (ses_routing s))) as [c ->].
  destruct (s_player s0); cbn [swhen]; rewrite ?sdo_bind; unfold sbind, sret, sdo; cbn [fst ses ses_routing];
    (split; [done|intros _; left; by flag_simpl]).
Qed.

Lemma ok_try_connect t : keeps keeps_ok (try_connect t).
Proof.
  unfold try_connect. apply carry_bind; [exact _|apply keeps_get; exact _|]. intros node.
  destruct (node =? 0).
  { apply carry_bind; [exact _|apply keeps_gentle_ok, keeps_master|]. intros master s Hs. exact Hs. }
  apply carry_bind; [exact _|apply keeps_routing; exact _|].
  intros [k|]; [|apply carry_ret; exact _].
  intros s _. rewrite !sdo_bind. eapply gentle_session_ok; [apply calm_stunned|]. cbn [ses].
  split; [by flag_simpl|]. intros _. by right.
Qed.

Lemma ok_reconnect t : keeps keeps_ok (reconnect_node t).
Proof.
  unfold reconnect_node. apply carry_bind; [exact _|apply keeps_get; exact _|]. intros s0.
  destruct (HasFlag _ _); [|apply carry_ret; exact _]. destruct (_ <? _); [by intros s Hs|].
  apply carry_bind; [exact _|apply ok_try_connect|]. intros _ s Hs. exact Hs.
Qed.

Lemma calm_timeout t : calm (check_timeout t).
Proof. unfold check_timeout. keep_steps. Qed.
Lemma calm_callbacks t : calm (callbacks t).
Proof. unfold callbacks. keep_steps. Qed.
Lemma calm_warden t : calm (update_warden t).
Proof. unfold update_warden. keep_steps. Qed.
Lemma calm_drop_client : calm drop_client.
Proof. unfold drop_client. keep_steps. Qed.

Lemma ok_UpdateMulti t : keeps keeps_ok (UpdateMulti env t).
Proof.
  unfold UpdateMulti. apply carry_bind; [exact _|apply keeps_get; exact _|]. intros []; [apply carry_ret; exact _|].
  repeat (apply carry_bind; [exact _| |intros _]).
  - apply keeps_gentle_ok, calm_timeout.
  - apply keeps_gentle_ok, calm_callbacks.
  - apply ok_reconnect.
  - intros s. apply ok_NodeIO.
  - apply ok_drop_node.
  - apply keeps_gentle_ok. intros s. apply calm_ClientIO.
  - apply keeps_gentle_ok, calm_warden.
  - apply keeps_gentle_ok, calm_drop_client.
  - apply keeps_get, _.
Qed.

Lemma ok_UpdateSingle : keeps keeps_ok (UpdateSingle env).
Proof.
  unfold UpdateSingle. apply carry_bind; [exact _|apply keeps_get; exact _|]. intros []; [apply carry_ret; exact _|].
  apply carry_bind; [exact _|intros s; apply ok_NodeIO|]. intros _.
  apply keeps_gentle_ok. keep_steps. intros s. apply calm_ClientIO.
Qed.

(** ** What happens to a session *)
Inductive SEvent :=
| EvMulti (t : Tick)             (* its thread updates it *)
| EvSingle                       (* the manager updates it *)
| EvClientSocket (k : CtlSocket) (* packets arrive from the client, its socket closes or blocks *)
| EvNodeSocket (k : CtlSocket)   (* the same for the node's *)
| EvRouting (r : RoutingHelper)  (* the directory changes *)
| EvCall (c : Call).             (* another component acts on it *)

(** A socket that is closing stays so. *)
Definition socket_becomes (k : CtlSocket) (old : option CtlSocket) : option CtlSocket :=
  match old with
  | None => None
  | Some o => Some (mkCtlSocket (cs_closing o || cs_closing k) (cs_accepts k) (cs_single k) (cs_multi k) (cs_sent o))
  end.

Definition result {A} (x : Sess * outcome A) : option Sess :=
  match x with (s, Ok _) => Some s | _ => None end.

Definition session_step (e : SEvent) (s : Sess) : option Sess :=
  match e with
  | EvMulti t => result (UpdateMulti env t s)
  | EvSingle => result (UpdateSingle env s)
  | EvClientSocket k => Some (mkSess (set_client (socket_becomes k (_ClientSocket (ses s))) (ses s)) (ses_routing s))
  | EvNodeSocket k => Some (mkSess (set_node (socket_becomes k (_NodeSocket (ses s))) (ses s)) (ses_routing s))
  | EvRouting r => Some (mkSess (ses s) r)
  | EvCall c => Some (mkSess (run_call c (ses s)) (ses_routing s))
  end.

Fixpoint session_run (l : list SEvent) (s : Sess) : option Sess :=
  match l with [] => Some s | e :: l => s ← session_step e s; session_run l s end.

Lemma becomes_gone k old : gone old = true -> gone (socket_becomes k old) = true.
Proof. destruct old as [o|]; [|done]. cbn. by intros ->. Qed.
Lemma becomes_null k old : is_null (socket_becomes k old) = is_null old.
Proof. by destruct old. Qed.

(** Everything but an update is gentle. *)
Lemma event_gentle e s s' :
  match e with EvMulti _ | EvSingle => False | _ => True end ->
  session_step e s = Some s' -> gentle_ses (ses s) (ses s').
Proof.
  destruct e as [t| |k|k|r|c]; cbn; intros He; try done; intros [= <-]; cbn.
  - apply gentle_client.
  - split; try done; cbn; [apply becomes_null|apply becomes_gone].
  - reflexivity.
  - exact (gentle_calls [c] (ses s)).
Qed.

Lemma session_step_ok e s s' : session_step e s = Some s' -> session_ok (ses s) -> session_ok (ses s').
Proof.
  intros E Hs. destruct e as [t| | | | |];
    try (refine (gentle_session_ok _ _ (event_gentle _ _ _ _ E) Hs); exact I); cbn [session_step] in E.
  - pose proof (ok_UpdateMulti t s Hs) as Hk. destruct (UpdateMulti env t s) as [s1 [b| |]]; by simplify_eq/=.
  - pose proof (ok_UpdateSingle s Hs) as Hk. destruct (UpdateSingle env s) as [s1 [b| |]]; by simplify_eq/=.
Qed.

(** ** Waiting for the node *)
Lemma bind_inv {A B} (m : SM A) (k : A -> SM B) s s' b :
  sbind m k s = (s', Ok b) -> exists s1 a, m s = (s1, Ok a) /\ k a s1 = (s', Ok b).
Proof. unfold sbind. destruct (m s) as [s1 [a| |]]; [eauto|done..]. Qed.

Lemma calm_inv {A} (m : SM A) s s' o : calm m -> m s = (s', o) -> gentle_ses (ses s) (ses s').
Proof. intros Hm E. specialize (Hm s). by rewrite E in Hm. Qed.

(** Giving up a link that does not work. *)
Lemma drop_node_gone s :
  gone (_NodeSocket (ses s)) = true ->
  exists s', drop_node s = (s', Ok tt)
    /\ HasFlag FLAG_ACCOUNT_KICKED (ses s') = HasFlag FLAG_ACCOUNT_KICKED (ses s)
    /\ (HasFlag FLAG_ACCOUNT_RECONNECT (ses s) = true -> HasFlag FLAG_ACCOUNT_RECONNECT (ses s') = true)
    /\ s_reconnect_timer (ses s') = s_reconnect_timer (ses s) /\ s_nodeId (ses s') = s_nodeId (ses s).
Proof.
  intros Hg. unfold drop_node, sbind at 1, sget. destruct (is_closing (_NodeSocket (ses s))); [|by exists s].
  rewrite sdo_bind. unfold sbind at 1.
  destruct (stunned_run true (mkSess (set_node None (ses s)) (ses_routing s))) as [c ->].
  destruct (s_player (ses s)); cbn [swhen]; rewrite ?sdo_bind; unfold sbind, sret, sdo; cbn [ses ses_routing];
    (eexists; split; [reflexivity|]; cbn [ses]; split_and!; [by flag_simpl| |done|done]; intros Hr; by flag_simpl).
Qed.

(** The last parts of an update, on a session without a link that works. *)
Definition update_rest (t : Tick) : SM bool :=
  UpdateClientIO env true ;>> update_warden t ;>> drop_client ;>> sget (fun s => negb (is_null (_ClientSocket s))).
Definition update_tail (t : Tick) : SM bool := UpdateNodeIO env true ;>> drop_node ;>> update_rest t.

Lemma calm_rest t : calm (update_rest t).
Proof.
  unfold update_rest. keep_steps; [intros s; apply calm_ClientIO|apply calm_warden|apply calm_drop_client].
Qed.

Lemma tail_gone t s s' b :
  gone (_NodeSocket (ses s)) = true -> update_tail t s = (s', Ok b) ->
  HasFlag FLAG_ACCOUNT_KICKED (ses s') = true
  \/ (HasFlag FLAG_ACCOUNT_KICKED (ses s) = false /\
      (HasFlag FLAG_ACCOUNT_RECONNECT (ses s) = true -> HasFlag FLAG_ACCOUNT_RECONNECT (ses s') = true)
      /\ s_reconnect_timer (ses s') = s_reconnect_timer (ses s) /\ s_nodeId (ses s') = s_nodeId (ses s)).
Proof.
  intros Hg E. unfold update_tail in E. apply bind_inv in E as (s1 & [] & E1 & E).
  unfold UpdateNodeIO in E1. rewrite gone_NodeIO in E1 by done. injection E1 as <-.
  apply bind_inv in E as (s2 & [] & E2 & E).
  destruct (drop_node_gone s Hg) as (s2' & E2' & Hk & Hr & Ht & Hn). rewrite E2 in E2'. injection E2' as <-.
  pose proof (calm_inv _ _ _ _ (calm_rest t) E) as [K W R T Nd _ _].
  destruct (HasFlag FLAG_ACCOUNT_KICKED (ses s')) eqn:Ek; [by left|right].
  split; [|split_and!; [|congruence|congruence]].
  - rewrite Hk in K. destruct (HasFlag FLAG_ACCOUNT_KICKED (ses s)); [discriminate (K eq_refl)|done].
  - intros Hr0. by rewrite W, Hr.
Qed.

(** A link has been opened. *)
Definition attached (s : ClientSession) : Prop :=
  HasFlag FLAG_ACCOUNT_RECONNECT s = false /\ is_null (_NodeSocket s) = false.

Lemma tail_fresh t s s' b k :
  _NodeSocket (ses s) = Some k -> cs_closing k = false -> cs_multi k = [] ->
  HasFlag FLAG_ACCOUNT_RECONNECT (ses s) = false -> update_tail t s = (s', Ok b) ->
  attached (ses s').
Proof.
  intros Ek Hc Hm Hr E. unfold update_tail in E. apply bind_inv in E as (s1 & [] & E1 & E).
  unfold UpdateNodeIO in E1. rewrite Ek in E1. cbn [queue_of] in E1. rewrite Hm in E1. cbn [length] in E1.
  assert (s1 = s) as ->.
  { revert E1. cbn [NodeIO]. destruct (_ ≫= _) as [[]|]; by intros [= <-]. }
  apply bind_inv in E as (s2 & [] & E2 & E).
  unfold drop_node, sbind, sget in E2. rewrite Ek in E2. cbn [is_closing] in E2. rewrite Hc in E2.
  injection E2 as <-. pose proof (calm_inv _ _ _ _ (calm_rest t) E) as [K W R T Nd Nu _].
  split; [|by rewrite Nu, Ek]. destruct (HasFlag FLAG_ACCOUNT_RECONNECT (ses s')) eqn:Er; [|done].
  by rewrite R in Hr.
Qed.

(** *** One update of a session that waits *)

(** The node can be entered and is online: the one the session is to go to or, when it has
    none yet, a master node to start from. *)
Definition available (s : Sess) : Prop :=
  if s_nodeId (ses s) =? 0 then fst (ConnectToMaster (ses_routing s)) <> 0
  else CanEnterNodeID (s_nodeId (ses s)) (ses_routing s) = true /\ CheckNodeID (s_nodeId (ses s)) (ses_routing s) = true.

(** The connection comes about, and nothing has come over it yet. *)
Definition connects (t : Tick) : Prop :=
  exists k, t_connect t = Some k /\ cs_closing k = false /\ cs_multi k = [].

(** The time that passes at most before the link is opened, when no update
    takes longer than [D]. *)
Definition needed (D : Z) (s : ClientSession) : Z :=
  s_reconnect_timer s + if s_nodeId s =? 0 then 5000000 + D else 0.

Definition waiting (s : ClientSession) : Prop :=
  session_ok s /\ HasFlag FLAG_ACCOUNT_RECONNECT s = true /\ HasFlag FLAG_ACCOUNT_KICKED s = false
  /\ 0 <= s_reconnect_timer s.

Lemma before_reconnect t s :
  exists x, (check_timeout t ;>> callbacks t) s = (mkSess x (ses_routing s), Ok tt) /\ gentle_ses (ses s) x.
Proof.
  assert (forall m : SM unit, (m = check_timeout t \/ m = callbacks t) -> forall s,
    exists x, m s = (mkSess x (ses_routing s), Ok tt)) as Hm.
  { intros m [Em|Em] s0; rewrite Em; unfold check_timeout, callbacks, sbind, sget.
    - destruct (_ && _); cbn; [by eexists|]. exists (ses s0). by destruct s0.
    - destruct (_ <=? _); by eexists. }
  unfold sbind. destruct (Hm _ (or_introl eq_refl) s) as [x1 E1]. rewrite E1.
  destruct (Hm _ (or_intror eq_refl) (mkSess x1 (ses_routing s))) as [x2 E2]. rewrite E2.
  exists x2. split; [done|]. pose proof (calm_timeout t s) as G1. rewrite E1 in G1.
  pose proof (calm_callbacks t (mkSess x1 (ses_routing s))) as G2. rewrite E2 in G2.
  unfold gentle in *. cbn in *. by transitivity x1.
Qed.

(** What the attempt to connect leaves. *)
Lemma reconnect_waiting t s :
  HasFlag FLAG_ACCOUNT_RECONNECT (ses s) = true -> available s -> connects t ->
  exists s', reconnect_node t s = (s', Ok tt)
    /\ HasFlag FLAG_ACCOUNT_KICKED (ses s') = HasFlag FLAG_ACCOUNT_KICKED (ses s)
    /\ ((HasFlag FLAG_ACCOUNT_RECONNECT (ses s') = false
         /\ exists k, _NodeSocket (ses s') = Some k /\ cs_closing k = false /\ cs_multi k = [])
        \/ (HasFlag FLAG_ACCOUNT_RECONNECT (ses s') = true /\ _NodeSocket (ses s') = _NodeSocket (ses s)
            /\ if t_diff t <? s_reconnect_timer (ses s)
               then s_reconnect_timer (ses s') = s_reconnect_timer (ses s) - t_diff t
                    /\ s_nodeId (ses s') = s_nodeId (ses s)
               else s_reconnect_timer (ses s') = 5000000 /\ s_nodeId (ses s) = 0 /\ s_nodeId (ses s') <> 0)).
Proof.
  intros Hr Hav (k & Hk & Hc & Hm). unfold reconnect_node, sbind at 1, sget. rewrite Hr.
  destruct (t_diff t <? s_reconnect_timer (ses s)).
  { eexists. split; [reflexivity|]. cbn [ses]. split; [done|]. right. split; [exact Hr|done]. }
  unfold available in Hav. unfold try_connect, sbind, sget, ConnectToMaster_, routing.
  destruct (s_nodeId (ses s) =? 0) eqn:En.
  - destruct (ConnectToMaster (ses_routing s)) as [n r]. cbn in Hav. unfold sdo. cbn [ses ses_routing].
    eexists. split; [reflexivity|]. cbn [ses]. split; [done|]. right. apply Z.eqb_eq in En. split; [exact Hr|done].
  - destruct Hav as [Hav Hon]. unfold OpenNodeConnection. rewrite Hav, Hon, Hk. unfold sdo at 1 2 3. cbn [ses ses_routing].
    destruct (stunned_run false (mkSess (SetFlag FLAG_ACCOUNT_WAIT_FOR_OK
      (RemoveFlag FLAG_ACCOUNT_RECONNECT (set_node (Some k) (ses s)))) (ses_routing s))) as [c ->].
    unfold sdo. cbn [ses ses_routing]. eexists. split; [reflexivity|]. cbn [ses].
    split; [by flag_simpl|]. left. split; [by flag_simpl|]. by exists k.
Qed.

Lemma reconnect_kicked t s :
  HasFlag FLAG_ACCOUNT_RECONNECT (ses s) = false -> reconnect_node t s = (s, Ok tt).
Proof. intros Hr. unfold reconnect_node, sbind, sget. by rewrite Hr. Qed.

Lemma tick_progress D t s s' :
  waiting (ses s) -> available s -> connects t -> 0 <= t_diff t <= D ->
  session_step (EvMulti t) s = Some s' ->
  HasFlag FLAG_ACCOUNT_KICKED (ses s') = true \/ attached (ses s')
  \/ (waiting (ses s') /\ needed D (ses s') <= needed D (ses s) - t_diff t).
Proof.
  intros (Hok & Hr & Hk & Ht) Hav Hcon Hd E. pose proof (session_step_ok _ _ _ E Hok) as Hok'.
  cbn [session_step] in E. unfold result in E.
  destruct (UpdateMulti env t s) as [s1 [b| |]] eqn:Eu; [|done..]. injection E as ->.
  unfold UpdateMulti in Eu. unfold sbind at 1, sget in Eu. rewrite Hk in Eu.
  change ((check_timeout t ;>> callbacks t ;>> reconnect_node t ;>> update_tail t) s = (s', Ok b)) in Eu.
  destruct (before_reconnect t s) as (x & Ex & [Gk Gw Gr Gt Gn _ Gg]).
  apply bind_inv in Eu as (s1 & [] & E1 & Eu). apply bind_inv in Eu as (s2 & [] & E2 & Eu).
  unfold sbind in Ex. rewrite E1, E2 in Ex. injection Ex as ->.
  apply bind_inv in Eu as (s3 & [] & E3 & Eu). specialize (Gg (proj1 Hok Hr)).
  destruct (HasFlag FLAG_ACCOUNT_RECONNECT x) eqn:Erx.
  2: { (* thrown out before *)
    rewrite reconnect_kicked in E3 by done. injection E3 as <-.
    destruct (tail_gone t (mkSess x (ses_routing s)) s' b Gg Eu) as [?|(Hkx & _)]; [by left|].
    cbn [ses] in Hkx. specialize (Gw Hkx). congruence. }
  assert (available (mkSess x (ses_routing s))) as Hav' by (unfold available in *; cbn; by rewrite Gn).
  destruct (reconnect_waiting t (mkSess x (ses_routing s)) Erx Hav' Hcon) as (s3' & E3' & Hk3 & Hcases).
  rewrite E3 in E3'. injection E3' as <-. destruct Hcases as [(Hr3 & k & Hk3' & Hcl & Hmu)|(Hr3 & Hn3 & Hfire)].
  { right. left. by eapply tail_fresh. }
  destruct (tail_gone t s3 s' b) as [?|(Hk' & Hr' & Ht' & Hn')]; [by rewrite Hn3|done|by left|].
  destruct (HasFlag FLAG_ACCOUNT_KICKED (ses s')) eqn:Ek'; [by left|]. right. right.
  specialize (Hr' Hr3). cbn [ses] in Hfire. unfold waiting, needed. rewrite Ht', Hn'.
  destruct (Z.ltb_spec (t_diff t) (s_reconnect_timer x)) as [Hlt|Hge]; destruct Hfire as [Hf1 Hf2].
  - rewrite Hf1, Hf2, Gt, Gn. rewrite Gt in Hlt. split; [|lia]. split_and!; [done..|lia].
  - destruct Hf2 as [Hz Hnz]. rewrite Hf1. rewrite Gt in Hge. rewrite Gn in Hz. rewrite Hz.
    apply Z.eqb_neq in Hnz. rewrite Hnz. cbn. split; [|lia]. by split_and!.
Qed.
End Session.

(** ** Runs *)
Section Runs.
Context `{UnorderedIter} (env : SessEnv).

Abbreviation session_run := (session_run env).
Abbreviation session_step := (session_step env).

Lemma session_run_app l1 l2 s : session_run (l1 ++ l2) s = (s1 ← session_run l1 s; session_run l2 s1).
Proof. revert s. induction l1 as [|e l1 IH]; intros s; [done|]. cbn. destruct (session_step e s); [apply IH|done]. Qed.

Lemma session_run_ok l s s' : session_run l s = Some s' -> session_ok (ses s) -> session_ok (ses s').
Proof.
  revert s. induction l as [|e l IH]; intros s; cbn; [by intros [= ->]|].
  destruct (session_step e s) as [s1|] eqn:E; [|done]. cbn. intros Hr Hs.
  exact (IH s1 Hr (session_step_ok env e s s1 E Hs)).
Qed.

Lemma session_new_ok ul uw now a sec e sock r : session_ok (ses (ClientSession_new ul uw now a sec e sock r)).
Proof.
  unfold ClientSession_new. destruct (ConnectToMaster r) as [n r']. cbn [ses].
  split; [done|]. intros _. left. by flag_simpl.
Qed.

Lemma sget_bind {A B} (f : ClientSession -> A) (k : A -> SM B) s : sbind (sget f) k s = k (f (ses s)) s.
Proof. reflexivity. Qed.

(** A step that is not a [UpdateMulti] leaves a waiting session waiting, or
    throws it out. *)
Lemma calm_UpdateSingle s : gone (_NodeSocket (ses s)) = true -> gentle s (fst (UpdateSingle env s)).
Proof.
  intros Hg. unfold UpdateSingle. rewrite sget_bind. destruct (HasFlag _ _); [unfold gentle; reflexivity|].
  unfold sbind at 1, UpdateNodeIO. rewrite gone_NodeIO by done.
  match goal with |- gentle _ (fst (?m s)) => assert (keeps gentle m) as Hm; [|apply Hm] end.
  keep_steps. intros s1. apply calm_ClientIO.
Qed.

Lemma step_gentle e s s' :
  match e with EvMulti _ => False | _ => True end -> gone (_NodeSocket (ses s)) = true ->
  session_step e s = Some s' -> gentle_ses (ses s) (ses s').
Proof.
  intros He Hg E. destruct e; try done; try (by eapply event_gentle; [|exact E]).
  pose proof (calm_UpdateSingle s Hg) as G. cbn [SessionFacts.session_step] in E. unfold result in E.
  destruct (UpdateSingle env s) as [s1 [b| |]]; by simplify_eq/=.
Qed.

Lemma gentle_waiting D s s' :
  gentle_ses s s' -> waiting s ->
  HasFlag FLAG_ACCOUNT_KICKED s' = true \/ (waiting s' /\ needed D s' = needed D s).
Proof.
  intros G (Hok & Hr & Hk & Ht). destruct (HasFlag FLAG_ACCOUNT_KICKED s') eqn:E; [by left|right].
  pose proof (gentle_session_ok _ _ G Hok) as Hok'. destruct G as [K W R T N U Gn].
  unfold waiting, needed. rewrite T, N, W by done. split; [|done]. by split_and!.
Qed.

(** Time that passes for the session. *)
Fixpoint elapsed (l : list SEvent) : Z :=
  match l with [] => 0 | EvMulti t :: l => t_diff t + elapsed l | _ :: l => elapsed l end.

(** At every update of the run the node can be entered and the connection
    comes about; no update comes later than [D] after the one before. *)
Fixpoint favourable (D : Z) (l : list SEvent) (s : Sess) : Prop :=
  match l with
  | [] => True
  | e :: l =>
      match e with EvMulti t => available s /\ connects t /\ 0 <= t_diff t <= D | _ => True end
      /\ match session_step e s with Some s' => favourable D l s' | None => True end
  end.

(** C36. Whatever happens to a session, from its first moment on: while it tries to
    connect it has no link to a node that works, and unless it has been thrown
    out it has a link to a node or tries to connect. *)
Theorem session_links ul uw now a sec e sock r l s :
  session_run l (ClientSession_new ul uw now a sec e sock r) = Some s -> session_ok (ses s).
Proof. intros Hr. eapply session_run_ok; [exact Hr|apply session_new_ok]. Qed.

(** C6. A session that waits for its node gets there, if at every one of its
    updates that node is online and can be entered (or, when it has none yet,
    the routing knows a master to start from), the connection comes about, and
    no more than [D] has passed since the update before ([favourable]; without
    it a session may wait for ever, [no_failover]): when more time passes than
    what its timer holds, plus one more period and [D] when it still has to
    choose a node, then at some point of the run its link is open or it has
    been thrown out, whatever packets arrive and whatever other components do
    to the session between the updates. *)
Theorem session_connects D l s s' :
  waiting (ses s) -> 0 <= D -> favourable D l s -> session_run l s = Some s' -> needed D (ses s) < elapsed l ->
  exists l1 l2 s1, l = l1 ++ l2 /\ session_run l1 s = Some s1
    /\ (attached (ses s1) \/ HasFlag FLAG_ACCOUNT_KICKED (ses s1) = true).
Proof.
  intros Hw HD. revert s Hw. induction l as [|e l IH]; intros s Hw Hf Hr Hn.
  { cbn in Hn. unfold needed in Hn. destruct Hw as (_ & _ & _ & Ht). destruct (_ =? _); lia. }
  cbn [favourable] in Hf. destruct Hf as [He Hf]. cbn [SessionFacts.session_run] in Hr.
  destruct (session_step e s) as [s1|] eqn:E; [|done]. cbn in Hr.
  assert (HasFlag FLAG_ACCOUNT_KICKED (ses s1) = true \/ attached (ses s1)
          \/ (waiting (ses s1) /\ needed D (ses s1) < elapsed l)) as [Hk|[Ha|[Hw1 Hn1]]].
  { destruct Hw as (Hok & Hrest). destruct e as [t| | | | |].
    1: destruct He as (Hav & Hco & Hd); cbn [elapsed] in Hn;
       destruct (tick_progress env D t s s1 (conj Hok Hrest) Hav Hco Hd E) as [?|[?|[? ?]]]; [by left|by right; left|];
       right; right; split; [done|lia].
    all: assert (gentle_ses (ses s) (ses s1)) as G
           by (refine (step_gentle _ _ _ _ (proj1 Hok (proj1 Hrest)) E); exact I);
         destruct (gentle_waiting D _ _ G (conj Hok Hrest)) as [?|[? Eq]]; [by left|]; right; right; split; [done|]; cbn [elapsed] in Hn; lia. }
  1,2: exists [e], l, s1; split; [done|]; cbn [SessionFacts.session_run]; rewrite E; cbn; auto.
  destruct (IH s1 Hw1 Hf Hr Hn1) as (l1 & l2 & s2 & -> & Hr2 & Hs2).
  exists (e :: l1), l2, s2. split; [done|]. cbn [SessionFacts.session_run]. rewrite E. auto.
Qed.
End Runs.
