(* ===== verification/SessionAuth.v ===== *)
(** * A session meets its node

    The packets exchanged when the cluster server has connected to a node: the
    node's challenge, the answer that tells it who the player is, and the
    login that follows once; what the session keeps doing wrong on the way. *)
From Stdlib Require Import Ascii String ZArith Lia.
From stdpp Require Import base gmap list strings.
From S2P Require Import Prelude ByteBuffer OpcodeTable Opcodes Routing Node Control ControlFacts Session SessionFacts.

Open Scope Z_scope.

(** ** What the node reads *)
Lemma read_bool_pending v b rest :
  readable b -> pending b = v :: rest -> 0 <= v < 128 ->
  read_bool b = Ok (0 <? v, set_rpos (_rpos b + 1) b).
Proof.
  intros Hb Hp Hv. unfold read_bool, read_signed.
  rewrite (read_pending 1 b [v] rest Hb Hp) by (done || lia). cbn [obind le_combine].
  rewrite Z.mul_0_r, Z.add_0_r. unfold swrap. rewrite wrap_small by (cbn; lia).
  destruct (Z.ltb_spec v (2 ^ (8 * Z.of_nat 1 - 1))); [done|cbn in *; lia].
Qed.

Lemma le_split_bool (b : bool) : le_split 4 (b2z b) = [b2z b; 0; 0; 0].
Proof. by destruct b. Qed.

Definition auth_fields (name : string) (account security : Z) (authed teleport : bool) : list PField :=
  [Str name; U32 account; U32 security; I32 (b2z authed); I32 (b2z teleport)].

(** The second [bool] is looked for in the second byte of the first, which is
    written as four bytes. *)
Lemma node_reads name account security authed teleport :
  field_ok (Str name) = true -> (String.length name <= 1000)%nat ->
  HandleAuthSession_read (message CMSG_AUTH_SESSION (auth_fields name account security authed teleport))
  = Ok (name, u32 account, u32 security, authed, false).
Proof.
  intros Hok Hl. unfold HandleAuthSession_read, message. cbn [wp_buf].
  set (b0 := mkBB _ _ _).
  assert (readable b0) as Hb0.
  { split; [cbn; lia|]. unfold b0, bb_size, fields_bytes, auth_fields. cbn [_storage fmap list_fmap concat field_bytes].
    rewrite !length_app, !length_le_split, str_bytes_length. cbn [length]. lia. }
  assert (pending b0 = str_bytes name ++ 0 :: le_split 4 account ++ le_split 4 security
                         ++ le_split 4 (b2z authed) ++ le_split 4 (b2z teleport)) as Hp0.
  { unfold pending, b0, fields_bytes, auth_fields. cbn [_storage _rpos fmap list_fmap concat field_bytes].
    rewrite app_nil_r, <- !app_assoc. done. }
  rewrite (read_string_pending name b0 _ Hb0 Hp0 Hok). cbn [obind].
  set (b1 := set_rpos _ b0). assert (readable b1) as Hb1 by (apply readable_skip; [done|lia]).
  assert (pending b1 = le_split 4 account ++ le_split 4 security ++ le_split 4 (b2z authed) ++ le_split 4 (b2z teleport)) as Hp1.
  { unfold b1. apply (pending_skip _ _ (str_bytes name ++ [0])); [done|by rewrite Hp0, <- app_assoc|].
    rewrite length_app, str_bytes_length. cbn. lia. }
  rewrite (read_int_pending 4 account b1 _ Hb1 Hp1) by lia. cbn [obind].
  set (b2 := set_rpos _ b1). assert (readable b2) as Hb2 by (apply readable_skip; [done|lia]).
  assert (pending b2 = le_split 4 security ++ le_split 4 (b2z authed) ++ le_split 4 (b2z teleport)) as Hp2
    by (by apply (pending_skip _ _ (le_split 4 account))).
  rewrite (read_int_pending 4 security b2 _ Hb2 Hp2) by lia. cbn [obind].
  set (b3 := set_rpos _ b2). assert (readable b3) as Hb3 by (apply readable_skip; [done|lia]).
  assert (pending b3 = le_split 4 (b2z authed) ++ le_split 4 (b2z teleport)) as Hp3
    by (by apply (pending_skip _ _ (le_split 4 security))).
  rewrite le_split_bool in Hp3. rewrite (read_bool_pending _ b3 _ Hb3 Hp3) by (destruct authed; cbn; lia). cbn [obind].
  set (b4 := set_rpos _ b3). assert (readable b4) as Hb4 by (apply readable_skip; [done|lia]).
  assert (pending b4 = 0 :: 0 :: 0 :: le_split 4 (b2z teleport)) as Hp4 by (by apply (pending_skip _ _ [b2z authed])).
  rewrite (read_bool_pending _ b4 _ Hb4 Hp4) by lia. cbn [obind]. by destruct authed.
Qed.

(** ** The session's answers *)
Definition sent_more (q : WorldPacket) (k : CtlSocket) : CtlSocket :=
  mkCtlSocket (cs_closing k) (cs_accepts k) (cs_single k) (cs_multi k) (cs_sent k ++ [q]).

Lemma socket_send_open q k : cs_closing k = false -> cs_accepts k = true -> socket_send q k = sent_more q k.
Proof. intros Hc Ha. unfold socket_send, sent_more. by rewrite Hc, Ha. Qed.

(** The node's challenge is answered with the account's name, id and level and
    whether the session is authenticated, the node reads them back as they
    are, and the session no longer asks for a teleport; but the node always
    reads that no teleport is wanted, whatever the session asked for. *)
Theorem challenge_answered env p name k s :
  readable (wp_buf p) -> _rpos (wp_buf p) + 8 <= bb_size (wp_buf p) ->
  username env (_accountId (ses s)) = Some name -> field_ok (Str name) = true -> (String.length name <= 1000)%nat ->
  _NodeSocket (ses s) = Some k -> cs_closing k = false -> cs_accepts k = true ->
  exists s' q, Handle_SMSG_AUTH_CHALLENGE env p s = (s', Ok tt)
    /\ _NodeSocket (ses s') = Some (sent_more q k)
    /\ HasFlag FLAG_FORCE_TELEPORT (ses s') = false
    /\ m_opcode q = CMSG_AUTH_SESSION
    /\ HandleAuthSession_read q
       = Ok (name, u32 (_accountId (ses s)), u32 (_security (ses s)), _authed (ses s), false).
Proof.
  intros Hb Hsz Hname Hok Hl Hk Hc Ha. destruct Hb as [Hr Hlt].
  unfold Handle_SMSG_AUTH_CHALLENGE, sbind, slift, sget, packet.
  unfold read_skip. rewrite wrap_small by lia. rewrite (proj2 (Z.ltb_ge _ _)) by lia.
  unfold read, read_at. cbn [set_rpos _rpos]. change (bb_size (set_rpos _ (wp_buf p))) with (bb_size (wp_buf p)).
  rewrite (wrap_small 64 (_ + 4 + _)) by lia. rewrite (proj2 (Z.ltb_ge _ _)) by lia.
  cbn [obind]. rewrite Hname.
  set (tele := HasFlag FLAG_FORCE_TELEPORT (ses s)).
  pose proof (node_reads name (_accountId (ses s)) (_security (ses s)) (_authed (ses s)) tele Hok Hl) as Hq.
  change [Str name; U32 (_accountId (ses s)); U32 (_security (ses s)); I32 (b2z (_authed (ses s))); I32 (b2z tele)]
    with (auth_fields name (_accountId (ses s)) (_security (ses s)) (_authed (ses s)) tele).
  rewrite make_message; [|done|].
  2: { unfold fields_bytes, auth_fields, max_size. cbn [fmap list_fmap concat field_bytes].
       rewrite !length_app, !length_le_split, str_bytes_length. cbn [length]. lia. }
  unfold sdo. destruct tele eqn:Et; cbn [swhen sret ses ses_routing];
    (eexists _, _; split; [reflexivity|]; cbn [ses]; split_and!;
      [by unfold SendPacketToNode; cbn; rewrite Hk; cbn; rewrite socket_send_open | | done | exact Hq]).
  - by flag_simpl.
  - exact Et.
Qed.

(** [AUTH_OK] *)
Definition auth_ok (p : WorldPacket) : Prop := exists b, read 1 (wp_buf p) = Ok (AUTH_OK, b).

Lemma not_waiting_no_login p s :
  auth_ok p -> HasFlag FLAG_ACCOUNT_WAIT_FOR_OK (ses s) = false ->
  exists s', Handle_SMSG_AUTH_RESPONSE p s = (s', Ok tt)
    /\ _NodeSocket (ses s') = _NodeSocket (ses s) /\ HasFlag FLAG_ACCOUNT_WAIT_FOR_OK (ses s') = false.
Proof.
  intros [b Hp] Hw. unfold Handle_SMSG_AUTH_RESPONSE, sbind, slift, sget, sdo. rewrite Hp. cbn [fst].
  rewrite Z.eqb_refl, Hw. cbn [swhen sret ses ses_routing].
  destruct (HasFlag FLAG_TRANSFER_PENDING (ses s)); cbn [swhen sret];
    (eexists; split; [reflexivity|]; cbn [ses]; split; [done|]); [by flag_simpl|done].
Qed.

(** The node's [AUTH_OK] logs the player in at the node, when there is a player,
    and does so once: a second [AUTH_OK] over the same link sends nothing. *)
Theorem login_once p1 p2 k s :
  auth_ok p1 -> auth_ok p2 -> HasFlag FLAG_ACCOUNT_WAIT_FOR_OK (ses s) = true ->
  _NodeSocket (ses s) = Some k -> cs_closing k = false -> cs_accepts k = true ->
  exists s1 s2, Handle_SMSG_AUTH_RESPONSE p1 s = (s1, Ok tt) /\ Handle_SMSG_AUTH_RESPONSE p2 s1 = (s2, Ok tt)
    /\ _NodeSocket (ses s1)
       = Some (match s_player (ses s) with
               | Some guid => sent_more (message CMSG_PLAYER_LOGIN [U64 guid]) k
               | None => k
               end)
    /\ _NodeSocket (ses s2) = _NodeSocket (ses s1).
Proof.
  intros [b Hp1] Hp2 Hw Hk Hc Ha.
  assert (exists s1, Handle_SMSG_AUTH_RESPONSE p1 s = (s1, Ok tt)
    /\ HasFlag FLAG_ACCOUNT_WAIT_FOR_OK (ses s1) = false
    /\ _NodeSocket (ses s1) = Some (match s_player (ses s) with
               | Some guid => sent_more (message CMSG_PLAYER_LOGIN [U64 guid]) k | None => k end)) as (s1 & E1 & Hw1 & Hn1).
  { unfold Handle_SMSG_AUTH_RESPONSE, SendPlayerLogin, packet, sbind, slift, sget, sdo. rewrite Hp1. cbn [fst].
    rewrite Z.eqb_refl, Hw. cbn [swhen]. destruct (s_player (ses s)) as [guid|] eqn:Eg; cbn [swhen sret].
    2: destruct (HasFlag FLAG_TRANSFER_PENDING _) eqn:E.
    1: rewrite Eg, make_message by (done || (rewrite fields_bytes_1; rewrite length_le_split; unfold max_size; lia));
       cbn [ses ses_routing]; destruct (HasFlag FLAG_TRANSFER_PENDING _) eqn:E.
    all: cbn [swhen sret ses ses_routing]; eexists; (split; [reflexivity|]); cbn [ses]; split;
      [by flag_simpl| unfold SendPacketToNode; cbn; rewrite ?Hk; cbn; by rewrite ?socket_send_open]. }
  destruct (not_waiting_no_login p2 s1 Hp2 Hw1) as (s2 & E2 & Hn2 & _).
  exists s1, s2. by split_and!.
Qed.

(** ** What a session keeps to *)

(** A session that has a node waits for that one: another node that could be
    entered is not tried. *)
Lemma no_failover t s :
  s_nodeId (ses s) <> 0 -> CanEnterNodeID (s_nodeId (ses s)) (ses_routing s) = false ->
  try_connect t s = (s, Ok tt).
Proof.
  intros Hn He. unfold try_connect. rewrite sget_bind. apply Z.eqb_neq in Hn. rewrite Hn.
  unfold sbind, routing. by rewrite He.
Qed.

(** Silence, however long, does not throw a session out: the clock would have
    to be behind the last packet. *)
Lemma timeout_never `{UnorderedIter} t s :
  _lastActionTime (ses s) <= t_now t -> 0 <= t_timeout t -> check_timeout t s = (s, Ok tt).
Proof.
  intros Hl Ht. unfold check_timeout. rewrite sget_bind.
  rewrite (proj2 (Z.ltb_ge _ _)) by lia. by rewrite andb_false_r.
Qed.

(** ** A small cluster *)
Definition ex_up (enter : bool) : NodeList := mkNodeList "node"%string "10.0.0.1"%string 8085 9000 true enter 0 0 0 0 0.
Definition ex_routing : RoutingHelper := mkRouting ∅ {[ 1 := ex_up true; 2 := ex_up true ]} false 0.
Definition ex_sock : CtlSocket := mkCtlSocket false true [] [] [].
Definition ex_senv : SessEnv :=
  mkSessEnv (fun a => if a =? 7 then Some "ALICE"%string else None) (fun _ => true) (fun _ _ _ => []).
Definition ex_session : Sess := ClientSession_new false true 0 7 0 2 (Some ex_sock) ex_routing.
Definition ex_tick (diff : Z) : Tick := mkTick diff 1000 60 (Some ex_sock) [] [].
Definition ex_events : list SEvent :=
  [EvMulti (ex_tick 60000); EvSingle; EvCall (CallSetPlayer (Some 5)); EvMulti (ex_tick 60000)].

Lemma session_links_witness :
  match session_run ex_senv ex_events ex_session with
  | Some s => attached (ses s) /\ session_ok (ses s)
  | None => False
  end.
Proof.
  destruct (session_run ex_senv ex_events ex_session) as [s|] eqn:E; [|vm_compute in E; discriminate E].
  split.
  - vm_compute in E. injection E as <-. by split.
  - exact (session_links ex_senv false true 0 7 0 2 (Some ex_sock) ex_routing ex_events s E).
Defined.

Lemma session_connects_witness :
  waiting (ses ex_session) /\ needed 60000 (ses ex_session) = 100000 /\
  exists l1 l2 s1, ex_events = l1 ++ l2 /\ session_run ex_senv l1 ex_session = Some s1
    /\ (attached (ses s1) \/ HasFlag FLAG_ACCOUNT_KICKED (ses s1) = true).
Proof.
  assert (waiting (ses ex_session)) as Hw.
  { split; [apply session_new_ok|]. by vm_compute. }
  assert (favourable ex_senv 60000 ex_events ex_session) as Hf.
  { assert (forall d, connects (ex_tick d)) as Hc by (intros d; by exists ex_sock).
    unfold ex_events. repeat (cbn [favourable]; split;
      [first [exact I|split; [vm_compute; first [by split|reflexivity|discriminate]|split; [apply Hc|cbn; lia]]]|];
      destruct (session_step _ _ _) as [?|] eqn:E; [vm_compute in E; injection E as <-|exact I]).
    exact I. }
  split; [exact Hw|]. split; [reflexivity|].
  destruct (session_run ex_senv ex_events ex_session) as [s|] eqn:E; [|vm_compute in E; discriminate E].
  refine (session_connects ex_senv 60000 ex_events ex_session s Hw _ Hf E _); [lia|vm_compute; reflexivity].
Defined.

Definition with_node (flags : Z) (player : option Z) : Sess :=
  mkSess (SetPlayer player (set_flags flags (set_nodeId 2 (set_node (Some ex_sock) (ses ex_session))))) ex_routing.

Definition ex_challenge : WorldPacket := message SMSG_AUTH_CHALLENGE [U32 1; U32 0xABCD].
Lemma challenge_answered_witness :
  HasFlag FLAG_FORCE_TELEPORT (ses (with_node FLAG_FORCE_TELEPORT (Some 5))) = true /\
  exists s' q, Handle_SMSG_AUTH_CHALLENGE ex_senv ex_challenge (with_node FLAG_FORCE_TELEPORT (Some 5)) = (s', Ok tt)
    /\ _NodeSocket (ses s') = Some (sent_more q ex_sock)
    /\ HasFlag FLAG_FORCE_TELEPORT (ses s') = false
    /\ m_opcode q = CMSG_AUTH_SESSION
    /\ HandleAuthSession_read q = Ok ("ALICE"%string, 7, 0, true, false).
Proof.
  split; [reflexivity|].
  apply (challenge_answered ex_senv ex_challenge "ALICE"%string ex_sock (with_node FLAG_FORCE_TELEPORT (Some 5)));
    try reflexivity; vm_compute; repeat split; try discriminate; lia.
Defined.

Definition ex_auth_ok : WorldPacket := message SMSG_AUTH_RESPONSE [U8 AUTH_OK].
Lemma login_once_witness :
  exists s1 s2, Handle_SMSG_AUTH_RESPONSE ex_auth_ok (with_node FLAG_ACCOUNT_WAIT_FOR_OK (Some 5)) = (s1, Ok tt)
    /\ Handle_SMSG_AUTH_RESPONSE ex_auth_ok s1 = (s2, Ok tt)
    /\ _NodeSocket (ses s1) = Some (sent_more (message CMSG_PLAYER_LOGIN [U64 5]) ex_sock)
    /\ _NodeSocket (ses s2) = _NodeSocket (ses s1).
Proof.
  assert (auth_ok ex_auth_ok) as Ha by (eexists; vm_compute; reflexivity).
  exact (login_once ex_auth_ok ex_auth_ok ex_sock (with_node FLAG_ACCOUNT_WAIT_FOR_OK (Some 5))
           Ha Ha eq_refl eq_refl eq_refl eq_refl).
Defined.

(** *** What goes wrong *)

(** The end of a logout clears every flag: a session that has been kicked goes
    on. *)
Example kick_forgotten :
  let '(s, _) := Handle_SMSG_LOGOUT_COMPLETE (message SMSG_LOGOUT_COMPLETE [])
                   (with_node (Z.lor FLAG_LOGOUT_REQUEST FLAG_ACCOUNT_KICKED) (Some 5)) in
  HasFlag FLAG_ACCOUNT_KICKED (ses s) = false /\ HasFlag FLAG_ACCOUNT_RECONNECT (ses s) = true.
Proof. vm_compute. by split. Qed.

(** A second login while a player is in the world drops the player's object
    and goes on: the test for it comes after. *)
Example login_over_player :
  let '(s, o) := HandlePlayerLoginOpcode ex_senv (message CMSG_PLAYER_LOGIN [U64 6])
                   (mkSess (set_allowed [5; 6] (ses (with_node 0 (Some 5)))) ex_routing) in
  o = Ok tt /\ s_player (ses s) = None /\ m_playerLoading (ses s) = true.
Proof. vm_compute. by split_and!. Qed.

(** A transfer whose timer runs out in the same update puts the new link in
    the place of the old one, which is never given up. *)
Example link_overwritten :
  let '(s, _) := UpdateMulti ex_senv (ex_tick 600)
                   (mkSess (set_node (Some (socket_close ex_sock)) (set_reconnect_timer 500
                              (set_flags FLAG_ACCOUNT_RECONNECT (ses (with_node 0 None))))) ex_routing) in
  attached (ses s) /\ HasFlag FLAG_FORCE_TELEPORT (ses s) = false.
Proof. vm_compute. by repeat split. Qed.

(** Without a warden the update uses an unset pointer. *)
Example warden_unset :
  snd (UpdateMulti ex_senv (ex_tick 50) (ClientSession_new false false 0 7 0 2 (Some ex_sock) ex_routing)) = UB.
Proof. vm_compute. reflexivity. Qed.
