(* ===== verification/ClientAuth.v ===== *)
(** * A client's socket before and at its authentication

    [shade/Server/Client/ClientSocket.cpp] and [Generics/AcceptSocket.h]: the
    challenge, the check of a client's digest against the session key that the
    authentication server stored, pings, and what happens to packets until
    then. *)
From Stdlib Require Import Ascii String ZArith Lia.
From stdpp Require Import base list strings.
From S2P Require Import Prelude ByteBuffer BigNumber StateM World OpcodeTable Opcodes Routing Node Control Session Addons.

Open Scope Z_scope.

Definition CMSG_PING : Z := 0x1DC.
Definition SMSG_PONG : Z := 0x1DD.
Definition CMSG_KEEP_ALIVE : Z := 0x407.
Definition AUTH_FAILED : Z := 0x0D.
Definition AUTH_REJECT : Z := 0x0E.
Definition AUTH_UNAVAILABLE : Z := 0x10.
Definition AUTH_UNKNOWN_ACCOUNT : Z := 0x15.
Definition AUTH_BANNED : Z := 0x1C.
Definition TOTAL_LOCALES : Z := 9.
Definition LOCALE_enUS : Z := 0.

(** ** The database and the rest of the server *)

(** [LOGIN_SEL_ACCOUNT_INFO_BY_NAME] *)
Record AccountRow := mkAccountRow {
  ar_id : Z; ar_sessionkey : string; ar_last_ip : string; ar_locked : Z; ar_expansion : Z;
  ar_mutetime : Z; ar_locale : Z; ar_recruiter : Z; ar_os : string
}.

Record ClientEnv := mkClientEnv {
  ce_closed : bool;                                 (* [IsClosed] or [IsHalted] of the session manager *)
  ce_account : string -> option AccountRow;
  ce_gmlevel : Z -> Z -> option Z;                  (* account, realm *)
  ce_banned : Z -> string -> bool;                  (* account, address *)
  ce_recruiter : Z -> bool;
  ce_address : string;
  ce_expansion : Z;                                 (* [CONFIG_EXPANSION] *)
  ce_security_limit : Z;
  ce_realmID : Z;
  ce_overspeed : Z;                                 (* [CONFIG_MAX_OVERSPEED_PINGS] *)
  ce_time : Z;
  ce_usec : Z                                       (* [gettimeofday], in microseconds *)
}.

(** The arguments of the session's constructor. *)
Record NewSession := mkNewSession {
  ns_id : Z; ns_security : Z; ns_expansion : Z; ns_mutetime : Z; ns_locale : Z; ns_recruiter : Z; ns_isRecruiter : bool
}.

(** What the handler does besides changing the socket, in order.  A bound
    parameter is given with its index. *)
Inductive SockEvent :=
| EvSend (p : WorldPacket)
| EvMuteTime (params : list (Z * Z))
| EvLastIp (address account : string)
| EvSession (s : NewSession)
| EvCrypt (k : Z)
| EvReadAddons (l : list AddonInfo)
| EvInitWarden (k : Z) (os : string)
| EvAddSession.

Record ClientSock := mkClientSock {
  ck_closing : bool;
  ck_authenticated : bool;
  ck_events : list SockEvent;
  ck_single : list WorldPacket;
  ck_multi : list WorldPacket;
  m_LastPingTime : Z;
  m_OverSpeedPings : Z;
  m_Seed : Z;
  _latency : Z;
  ck_lastActionTime : Z;
  ck_addons : AddonMgr                              (* the server's, shared by all sockets *)
}.

Abbreviation CS := (ST ClientSock).

Definition event (e : SockEvent) : CS unit :=
  modS (fun k => mkClientSock (ck_closing k) (ck_authenticated k) (ck_events k ++ [e]) (ck_single k) (ck_multi k)
                   (m_LastPingTime k) (m_OverSpeedPings k) (m_Seed k) (_latency k) (ck_lastActionTime k) (ck_addons k)).
Definition SetAuthenticated : CS unit :=
  modS (fun k => mkClientSock (ck_closing k) true (ck_events k) (ck_single k) (ck_multi k)
                   (m_LastPingTime k) (m_OverSpeedPings k) (m_Seed k) (_latency k) (ck_lastActionTime k) (ck_addons k)).
Definition set_ping (last over lat : Z) : CS unit :=
  modS (fun k => mkClientSock (ck_closing k) (ck_authenticated k) (ck_events k) (ck_single k) (ck_multi k)
                   last over (m_Seed k) lat (ck_lastActionTime k) (ck_addons k)).
Definition enqueue (multi : bool) (now : Z) (p : WorldPacket) : CS unit :=
  modS (fun k => mkClientSock (ck_closing k) (ck_authenticated k) (ck_events k)
                   (if multi then ck_single k else ck_single k ++ [p]) (if multi then ck_multi k ++ [p] else ck_multi k)
                   (m_LastPingTime k) (m_OverSpeedPings k) (m_Seed k) (_latency k) now (ck_addons k)).

Definition set_addons (m : AddonMgr) (k : ClientSock) : ClientSock :=
  mkClientSock (ck_closing k) (ck_authenticated k) (ck_events k) (ck_single k) (ck_multi k) (m_LastPingTime k)
    (m_OverSpeedPings k) (m_Seed k) (_latency k) (ck_lastActionTime k) m.

(** [SendPacket]: the result is [-1] on a socket that is closing. *)
Definition ck_SendPacket (p : WorldPacket) : CS Z :=
  let! closing := getS ck_closing in
  if closing then retS (-1) else event (EvSend p) ;! retS 0.

Definition send_fields (opcode : Z) (fs : list PField) : CS Z :=
  let! p := liftS (make opcode fs) in ck_SendPacket p.

(** Reading from the packet; what is left is handed on. *)
Definition read_auth_session (p : ByteBuffer) : outcome (string * Z * list Z * ByteBuffer) :=
  let* '(_, p) := read 4 p in                       (* BuiltNumberClient *)
  let* '(_, p) := read 4 p in                       (* unk2 *)
  let* '(account, p) := read_string p in
  let* '(_, p) := read 4 p in                       (* unk3 *)
  let* '(clientSeed, p) := read 4 p in
  let* '(_, p) := read 4 p in                       (* unk5, unk6, unk7 *)
  let* '(_, p) := read 4 p in
  let* '(_, p) := read 4 p in
  let* '(_, p) := read 8 p in                       (* unk4 *)
  let* '(digest, p) := read_bytes 20 p in
  Ok (account, clientSeed, digest, p).

Section ClientSocket.
  Context `{OpenSSL} `{ZLib}.
  Variable env : ClientEnv.

(** ** [_buildAuthChallengePacket] *)
Definition _buildAuthChallengePacket (seed1 seed2 : Z) (k : ClientSock) : outcome WorldPacket :=
  let* b := append_fields [U32 1; U32 (m_Seed k)] ByteBuffer_new in
  let* b := append (take 16 (AsByteArray 16 true seed1)) b in
  let* b := append (take 16 (AsByteArray 16 true seed2)) b in
  Ok (mkWP SMSG_AUTH_CHALLENGE b).

(** ** [_handleAuthSession] *)
Definition session_digest (account : string) (clientSeed seed k : Z) : list Z :=
  Finalize (UpdateBigNumbers [k] (UpdateData (le_split 4 seed) (UpdateData (le_split 4 clientSeed)
    (UpdateData (le_split 4 0) (UpdateData (str_bytes account) SHA1_Init))))).

Definition deny (code : Z) : CS Z := send_fields SMSG_AUTH_RESPONSE [U8 code] ;! retS (-1).

Definition effective_locale (locale : Z) : Z := if TOTAL_LOCALES <=? locale then LOCALE_enUS else locale.

(** A negative time counts from the next login, which is now.  The statement
    has four parameters: the reason and its author come before the account. *)
Definition effective_mutetime (row : AccountRow) : Z :=
  if ar_mutetime row <? 0 then ce_time env + Z.abs (ar_mutetime row) else ar_mutetime row.

(** Reading the addons into the new session; an exception leaves the session
    behind. *)
Definition read_addons (rest : ByteBuffer) : CS unit :=
  fun k => match ReadAddonsInfo rest (mkAddonState [] (ck_addons k)) with
           | (s, Ok _) => event (EvReadAddons (as_list s)) (set_addons (as_mgr s) k)
           | (s, Throw e) => (set_addons (as_mgr s) k, Throw e)
           | (s, UB) => (set_addons (as_mgr s) k, UB)
           end.

(** What a client with the right digest gets. *)
Definition grant_session (account : string) (row : AccountRow) (id security expansion mutetime k : Z) (rest : ByteBuffer) : CS Z :=
  event (EvLastIp (ce_address env) account) ;!
  event (EvSession (mkNewSession id security expansion mutetime (effective_locale (ar_locale row))
                      (ar_recruiter row) (ce_recruiter env id))) ;!
  event (EvCrypt k) ;!
  read_addons rest ;!
  event (EvInitWarden k (ar_os row)) ;!
  SetAuthenticated ;!
  event EvAddSession ;!
  retS 0.

Definition _handleAuthSession (recvPacket : WorldPacket) : CS Z :=
  if ce_closed env then deny AUTH_REJECT
  else
    let! '(account, clientSeed, digest, rest) := liftS (read_auth_session (wp_buf recvPacket)) in
    match ce_account env account with
    | None => deny AUTH_UNKNOWN_ACCOUNT
    | Some row =>
        let expansion := if ce_expansion env <? ar_expansion row then u8 (ce_expansion env) else ar_expansion row in
        if (ar_locked row =? 1) && negb (String.eqb (ar_last_ip row) (ce_address env)) then deny AUTH_FAILED
        else
          let id := ar_id row in
          let k := SetHexStr (ar_sessionkey row) 0 in
          let mutetime := effective_mutetime row in
          whenS (ar_mutetime row <? 0) (event (EvMuteTime [(0, mutetime); (1, id)])) ;!
          let security := default 0 (ce_gmlevel env id (ce_realmID env)) in
          if ce_banned env id (ce_address env) then deny AUTH_BANNED
          else if security <? ce_security_limit env then
            (* the packet that was filled is [Packet]; the one that is sent is [packet] *)
            ck_SendPacket (WorldPacket_new 0) ;! retS (-1)
          else
            let! seed := getS m_Seed in
            if negb (bool_decide (session_digest account clientSeed seed k = digest)) then deny AUTH_FAILED
            else
              grant_session account row id security expansion mutetime k rest
    end.

(** ** [_handlePing] *)
Definition _handlePing (recvPacket : WorldPacket) : CS Z :=
  let! '(ping, p) := liftS (read 4 (wp_buf recvPacket)) in
  let! '(latency, _) := liftS (read 4 p) in
  let! k := getS (fun k => k) in
  let cur_time := ce_usec env in
  let over :=
    if m_LastPingTime k =? 0 then m_OverSpeedPings k
    else if cur_time - m_LastPingTime k <? 27 * 1000000 then u32 (m_OverSpeedPings k + 1) else 0 in
  if negb (m_LastPingTime k =? 0) && (cur_time - m_LastPingTime k <? 27 * 1000000)
     && negb (ce_overspeed env =? 0) && (ce_overspeed env <? over)
  then set_ping cur_time over (_latency k) ;! retS (-1)
  else
    set_ping cur_time over latency ;!
    send_fields SMSG_PONG [U32 ping].

(** ** [_processIncoming] *)

(** [catch (ByteBufferException &)] *)
Definition catch_buffer (m : CS Z) : CS Z :=
  fun k => match m k with
           | (k', Throw AssertFailure) => (k', Throw AssertFailure)
           | (k', Throw _) => (k', Ok (-1))
           | r => r
           end.

Definition _processIncoming (newPacket : WorldPacket) : CS Z :=
  let opcode := GetOpcode newPacket in
  let! k := getS (fun k => k) in
  if ck_closing k then retS (-1)
  else
    catch_buffer (
      if opcode =? CMSG_PING then _handlePing newPacket
      else if opcode =? CMSG_AUTH_SESSION then
        if ck_authenticated k then retS (-1) else _handleAuthSession newPacket
      else if opcode =? CMSG_KEEP_ALIVE then retS 0
      else
        match opcode_entry opcode with
        | Some e =>
            if ck_authenticated k then enqueue (multipass e) (ce_time env) newPacket ;! retS 0 else retS 0
        | None => retS 0
        end).
End ClientSocket.
