(* ===== verification/ClientAuthFacts.v ===== *)
(** * A client's socket: what it takes to get a session

    Before authentication nothing reaches the queues; a session is opened once
    per socket, and only for a client that knows the stored session key; and a
    client that went through the exchange of the authentication server does. *)
From Stdlib Require Import Ascii String ZArith Lia.
From stdpp Require Import base gmap list strings.
From S2P Require Import Prelude ByteBuffer BigNumber StateM World OpcodeTable Opcodes Routing Node Control Session Addons ClientAuth RealmList AuthSocket AuthFacts AuthSrp.

Open Scope Z_scope.

(** ** Running the handlers *)
Ltac ck_proj :=
  cbn [ck_closing ck_authenticated ck_events ck_single ck_multi m_LastPingTime m_OverSpeedPings m_Seed _latency
       ck_lastActionTime ck_addons set_addons fst snd] in *.
Ltac ck_step :=
  match goal with
  | |- wp (event _) _ _ _ => unfold event
  | |- wp SetAuthenticated _ _ _ => unfold SetAuthenticated
  | |- wp (set_ping _ _ _) _ _ _ => unfold set_ping
  | |- wp (enqueue _ _ _) _ _ _ => unfold enqueue
  | |- wp (ck_SendPacket _) _ _ _ => unfold ck_SendPacket
  | |- wp (send_fields _ _) _ _ _ => unfold send_fields
  | |- wp (deny _) _ _ _ => unfold deny
  | |- wp (match ?p with pair _ _ => _ end) _ _ _ => destruct p
  | _ => wp_step
  end; ck_proj.
Ltac ck_steps := repeat ck_step.

(** Sessions handed to the session manager in a trace. *)
Definition handed (e : SockEvent) : bool := match e with EvAddSession => true | _ => false end.

Section Facts.
  Context `{OpenSSL} `{ZLib}.
  Variable env : ClientEnv.

Lemma wp_catch (m : CS Z) (Q : Z -> ClientSock -> Prop) E k :
  wp m Q (fun k' => Q (-1) k' /\ E k') k -> wp (catch_buffer m) Q E k.
Proof. unfold wp, catch_buffer. destruct (m k) as [k' [a|[]|]]; tauto. Qed.

(** What the handler may do without opening a session. *)
Definition quiet_step (k k' : ClientSock) : Prop :=
  ck_authenticated k' = ck_authenticated k /\ ck_single k' = ck_single k /\ ck_multi k' = ck_multi k
  /\ ck_closing k' = ck_closing k /\ m_Seed k' = m_Seed k
  /\ (exists l, ck_events k' = ck_events k ++ l /\ Forall (fun e => handed e = false) l).

Lemma quiet_refl k : quiet_step k k.
Proof. split_and!; try done. exists []. by rewrite app_nil_r. Qed.

Definition session_granted (p : WorldPacket) (k k' : ClientSock) : Prop :=
  exists account clientSeed digest rest row l addons,
    ce_closed env = false
    /\ read_auth_session (wp_buf p) = Ok (account, clientSeed, digest, rest)
    /\ ce_account env account = Some row
    /\ (ar_locked row = 1 -> ar_last_ip row = ce_address env)
    /\ ce_banned env (ar_id row) (ce_address env) = false
    /\ ce_security_limit env <= default 0 (ce_gmlevel env (ar_id row) (ce_realmID env))
    /\ session_digest account clientSeed (m_Seed k) (SetHexStr (ar_sessionkey row) 0) = digest
    /\ ck_authenticated k' = true /\ ck_single k' = ck_single k /\ ck_multi k' = ck_multi k
    /\ ck_closing k' = ck_closing k
    /\ Forall (fun e => handed e = false) l
    /\ recorded (mkAddonState [] (ck_addons k)) (mkAddonState addons (ck_addons k'))
    /\ ck_events k' = ck_events k ++ l ++
         [EvLastIp (ce_address env) account;
          EvSession (mkNewSession (ar_id row) (default 0 (ce_gmlevel env (ar_id row) (ce_realmID env)))
            (if ce_expansion env <? ar_expansion row then u8 (ce_expansion env) else ar_expansion row)
            (effective_mutetime env row) (effective_locale (ar_locale row)) (ar_recruiter row) (ce_recruiter env (ar_id row)));
          EvCrypt (SetHexStr (ar_sessionkey row) 0); EvReadAddons addons; EvInitWarden (SetHexStr (ar_sessionkey row) 0) (ar_os row);
          EvAddSession].

Ltac quiet_end := split_and!; try done; first
  [ exists []; rewrite ?app_nil_r; by repeat constructor
  | eexists; rewrite <- ?app_assoc; split; [reflexivity|by repeat constructor] ].

Lemma wp_read_addons rest (Q : unit -> ClientSock -> Prop) (E : ClientSock -> Prop) k :
  (forall l m, recorded (mkAddonState [] (ck_addons k)) (mkAddonState l m) -> wp (event (EvReadAddons l)) Q E (set_addons m k)) ->
  (forall m, E (set_addons m k)) ->
  wp (read_addons rest) Q E k.
Proof.
  intros HQ HE. pose proof (wp_ReadAddonsInfo rest (mkAddonState [] (ck_addons k))) as Hw. unfold wp, read_addons in *.
  destruct (ReadAddonsInfo rest (mkAddonState [] (ck_addons k))) as [[l m] [b|e|]]; [|apply HE..].
  destruct Hw as [_ Hr]. by apply HQ.
Qed.

(** Granting a session: everything, or, when the addons cannot be read, no
    more than a session that nobody is told of. *)
Lemma wp_grant_session account row id security expansion mutetime key rest k :
  wp (grant_session env account row id security expansion mutetime key rest)
     (fun r k' => r = 0 /\ exists addons, ck_authenticated k' = true /\ ck_single k' = ck_single k /\ ck_multi k' = ck_multi k
        /\ ck_closing k' = ck_closing k
        /\ recorded (mkAddonState [] (ck_addons k)) (mkAddonState addons (ck_addons k'))
        /\ ck_events k' = ck_events k ++
             [EvLastIp (ce_address env) account;
              EvSession (mkNewSession id security expansion mutetime (effective_locale (ar_locale row)) (ar_recruiter row) (ce_recruiter env id));
              EvCrypt key; EvReadAddons addons; EvInitWarden key (ar_os row); EvAddSession])
     (fun k' => quiet_step k k') k.
Proof.
  unfold grant_session. do 6 ck_step. apply wpS_bind, wp_read_addons; ck_proj.
  - intros l m Hr. ck_steps. split; [done|]. exists l. ck_proj. split_and!; try done. by rewrite <- !app_assoc.
  - intros m. split_and!; try done. eexists. rewrite <- !app_assoc. split; [reflexivity|by repeat constructor].
Qed.

Lemma wp_handleAuthSession p k :
  wp (_handleAuthSession env p)
     (fun r k' => r = 0 /\ session_granted p k k' \/ r = -1 /\ quiet_step k k')
     (fun k' => quiet_step k k') k.
Proof.
  unfold _handleAuthSession, deny. apply wp_if; intros Hcl; [ck_steps; try (right; split; [done|]); quiet_end|].
  apply wpS_bind, wpS_lift; [|quiet_end]. intros [[[account clientSeed] digest] rest] Hread.
  destruct (ce_account env account) as [row|] eqn:Hrow; [|ck_steps; try (right; split; [done|]); quiet_end].
  apply wp_if; intros Hip; [ck_steps; try (right; split; [done|]); quiet_end|].
  cbv zeta. apply wpS_bind.
  apply (wpS_mono _ (fun _ k' => quiet_step k k' /\ ck_addons k' = ck_addons k) _ (fun _ => False)); [ck_steps; (split; [quiet_end|done])| |done].
  intros _ k1 [(Ha & Hs & Hm & Hc & Hseed & l & Hl & Hop) Had0].
  assert (forall e, handed e = false -> exists l', (ck_events k ++ l) ++ [e] = ck_events k ++ l' /\ Forall (fun e => handed e = false) l') as Hmore.
  { intros e He. exists (l ++ [e]). rewrite app_assoc. split; [done|]. apply Forall_app. split; [done|by constructor]. }
  assert (quiet_step k k1) as Hq by (split_and!; try done; by exists l).
  assert (forall k2 e, handed e = false -> ck_events k2 = ck_events k1 ++ [e] -> ck_authenticated k2 = ck_authenticated k1 ->
    ck_single k2 = ck_single k1 -> ck_multi k2 = ck_multi k1 -> ck_closing k2 = ck_closing k1 -> m_Seed k2 = m_Seed k1 -> quiet_step k k2) as Hq2.
  { intros k2 e He Hev ? ? ? ? ?. split_and!; try congruence. rewrite Hev, Hl. by apply Hmore. }
  apply wp_if; intros Hban.
  { ck_steps; try (right; split; [done|]); try exact Hq; by eapply (Hq2 _ (EvSend _)). }
  apply wp_if; intros Hsec.
  { ck_steps; try (right; split; [done|]); try exact Hq; by eapply (Hq2 _ (EvSend _)). }
  ck_step. ck_step. apply wp_if; intros Hdig.
  { ck_steps; try (right; split; [done|]); try exact Hq; by eapply (Hq2 _ (EvSend _)). }
  bool_props. apply bool_decide_eq_true in Hdig.
  eapply wpS_mono; [apply wp_grant_session| |].
  - intros r k' [-> (addons & Hau & Hs' & Hm' & Hc' & Had & Hev)]. left. split; [done|].
    exists account, clientSeed, digest, rest, row, l, addons. rewrite Had0 in Had. rewrite Hev, Hl, <- !app_assoc.
    split_and!; try done; try congruence.
    intros Hlk. apply andb_false_iff in Hip as [Hip|Hip]; bool_props; [done|]. by apply String.eqb_eq.
  - intros k' (Hau & Hs' & Hm' & Hc' & Hsd & l' & Hl' & Hno). split_and!; try congruence.
    exists (l ++ l'). rewrite Hl', Hl, app_assoc. split; [done|]. by apply Forall_app.
Qed.

Lemma wp_handlePing p k :
  wp (_handlePing env p) (fun _ k' => quiet_step k k') (fun k' => quiet_step k k') k.
Proof. unfold _handlePing. ck_steps; quiet_end. Qed.

(** The invariant of a socket: not authenticated, nothing queued and no session;
    authenticated, one session, handed over once. *)
Definition socket_ok (k : ClientSock) : Prop :=
  if ck_authenticated k then length (filter (fun e => handed e = true) (ck_events k)) = 1%nat
  else ck_single k = [] /\ ck_multi k = [] /\ Forall (fun e => handed e = false) (ck_events k).

Lemma filter_closed l : Forall (fun e => handed e = false) l -> filter (fun e => handed e = true) l = [].
Proof.
  induction 1 as [|e l He Hl IH]; [done|]. rewrite filter_cons. rewrite decide_False by congruence. exact IH.
Qed.

Lemma quiet_step_ok k k' : quiet_step k k' -> socket_ok k -> socket_ok k'.
Proof.
  intros (Ha & Hs & Hm & _ & _ & l & Hl & Ho). unfold socket_ok. rewrite Ha, Hl. destruct (ck_authenticated k).
  - intros Hf. rewrite filter_app, (filter_closed l) by done. by rewrite app_nil_r.
  - intros (H1 & H2 & H3). split_and!; [congruence|congruence|]. by apply Forall_app.
Qed.

Lemma granted_ok p k k' : session_granted p k k' -> ck_authenticated k = false -> socket_ok k -> socket_ok k'.
Proof.
  intros (acc & cs & dg & rest & row & l & addons & _ & _ & _ & _ & _ & _ & _ & Ha & _ & _ & _ & Hl & _ & Hev) Hna. unfold socket_ok.
  rewrite Ha, Hna, Hev. intros (_ & _ & Ho). rewrite !filter_app, (filter_closed _ Ho), (filter_closed _ Hl). done.
Qed.

Lemma wp_processIncoming p k :
  socket_ok k ->
  wp (_processIncoming env p)
     (fun _ k' => socket_ok k' /\ (ck_authenticated k' = true -> ck_authenticated k = true
                                     \/ GetOpcode p = CMSG_AUTH_SESSION /\ session_granted p k k'))
     (fun k' => socket_ok k') k.
Proof.
  intros Hok. unfold _processIncoming. cbv zeta. apply wpS_bind, wp_get.
  assert (forall k', quiet_step k k' -> socket_ok k' /\ (ck_authenticated k' = true -> ck_authenticated k = true
       \/ GetOpcode p = CMSG_AUTH_SESSION /\ session_granted p k k')) as Hq.
  { intros k' Hq. split; [by eapply quiet_step_ok|]. destruct Hq as (Ha & _). rewrite Ha. by left. }
  apply wp_if; intros Hc; [apply wpS_ret, Hq, quiet_refl|]. apply wp_catch.
  apply wp_if; intros H1.
  { eapply wpS_mono; [apply wp_handlePing|intros ? k' Hs; by apply Hq|intros k' Hs; split; [by apply Hq|by apply Hq]]. }
  apply wp_if; intros H2; bool_props.
  { apply wp_if; intros Hau; [apply wpS_ret, Hq, quiet_refl|].
    eapply wpS_mono; [apply wp_handleAuthSession| |intros k' Hs; split; [by apply Hq|by apply Hq]].
    intros r k' [[_ Hg]|[_ Hs]]; [|by apply Hq]. split; [by eapply granted_ok|]. intros _. by right. }
  apply wp_if; intros H3; [apply wpS_ret, Hq, quiet_refl|].
  destruct (opcode_entry _) as [e|]; [|apply wpS_ret, Hq, quiet_refl].
  apply wp_if; intros Hau; [|apply wpS_ret, Hq, quiet_refl].
  unfold socket_ok in Hok. rewrite Hau in Hok. ck_steps. split; [|by left].
  unfold socket_ok. ck_proj. by rewrite Hau.
Qed.

(** A socket that was just opened, and what it comes to: packets arrive, other
    parts of the server take packets off the queues, write, close it. *)
Definition socket_opened (seed now : Z) (m : AddonMgr) : ClientSock := mkClientSock false false [] [] [] 0 0 seed 0 now m.

Inductive socket_reaches : ClientSock -> Prop :=
| reach_open seed now m : socket_reaches (socket_opened seed now m)
| reach_packet p k k' r : socket_reaches k -> _processIncoming env p k = (k', Ok r) -> socket_reaches k'
| reach_others k k' :
    socket_reaches k -> ck_authenticated k' = ck_authenticated k ->
    sublist (ck_single k') (ck_single k) -> sublist (ck_multi k') (ck_multi k) ->
    filter (fun e => handed e = true) (ck_events k') = filter (fun e => handed e = true) (ck_events k) ->
    socket_reaches k'.

Lemma closed_filter l : filter (fun e => handed e = true) l = [] -> Forall (fun e => handed e = false) l.
Proof.
  intros Hf. apply Forall_forall. intros e He. destruct (handed e) eqn:Eo; [|done].
  assert (e ∈ filter (fun e => handed e = true) l) as Hin by (by apply list_elem_of_filter).
  rewrite Hf in Hin. by apply elem_of_nil in Hin.
Qed.

Lemma reaches_ok k : socket_reaches k -> socket_ok k.
Proof.
  induction 1 as [seed now m|p k k' r Hk IH Hp|k k' Hk IH Ha Hs Hm Hf].
  - done.
  - pose proof (wp_processIncoming p k IH) as Hw. by apply (wp_elim _ _ _ _ _ _ Hp) in Hw as [? _].
  - unfold socket_ok in *. rewrite Ha. destruct (ck_authenticated k); [by rewrite Hf|].
    destruct IH as (E1 & E2 & E3). rewrite E1 in Hs. rewrite E2 in Hm.
    apply sublist_nil_r in Hs. apply sublist_nil_r in Hm. split_and!; [done|done|].
    apply closed_filter. rewrite Hf. by apply filter_closed.
Qed.

(** C27. A client's packets wait until it is authenticated, and it is authenticated
    once: on every socket, before that nothing is queued and no session exists;
    after it there is exactly one session, handed over exactly once; and the
    packet that changes it is an authentication packet whose digest was made
    with the stored session key, from an address and an account that are not
    banned, not locked elsewhere and of sufficient level. *)
Theorem session_once_authenticated p k k' r :
  socket_reaches k -> _processIncoming env p k = (k', Ok r) ->
  socket_ok k' /\ (ck_authenticated k' = true -> ck_authenticated k = false ->
                    GetOpcode p = CMSG_AUTH_SESSION /\ session_granted p k k').
Proof.
  intros Hk Hp. pose proof (wp_processIncoming p k (reaches_ok k Hk)) as Hw.
  apply (wp_elim _ _ _ _ _ _ Hp) in Hw as [Hok Ha]. split; [done|]. intros Ht Hf. destruct (Ha Ht); [congruence|done].
Qed.
End Facts.

(** ** A client of the authentication server *)
Lemma read_bytes_pending n b bs rest :
  readable b -> pending b = bs ++ rest -> n = Z.of_nat (length bs) -> bs <> [] ->
  read_bytes n b = Ok (bs, set_rpos (_rpos b + n) b).
Proof.
  intros Hb Hp -> Hne. pose proof (pending_size b bs rest Hb Hp Hne) as Hsz. destruct Hb as [Hr Hs].
  unfold read_bytes. rewrite !wrap_small by lia. rewrite ! (proj2 (Z.ltb_ge _ _)) by lia.
  rewrite Nat2Z.id. fold (pending b). rewrite Hp, take_app_length. done.
Qed.

(** The packet of a client. *)
Definition auth_session (build unk2 unk3 clientSeed unk5 unk6 unk7 unk4 : Z) (account : string) (digest : list Z) : list Z :=
  le_split 4 build ++ le_split 4 unk2 ++ str_bytes account ++ [0] ++ le_split 4 unk3 ++ le_split 4 clientSeed
  ++ le_split 4 unk5 ++ le_split 4 unk6 ++ le_split 4 unk7 ++ le_split 8 unk4 ++ digest.

Ltac read_next lem bs :=
  match goal with
  | Hb : readable ?b, Hp : pending ?b = _ |- _ =>
      rewrite (lem b _ Hb Hp) by (done || lia); cbn [obind];
      let Hb' := fresh "Hb" in let Hp' := fresh "Hp" in
      pose proof (readable_skip b (Z.of_nat (length bs)) Hb ltac:(lia)) as Hb';
      pose proof (pending_skip b (Z.of_nat (length bs)) bs _ Hb Hp eq_refl) as Hp';
      rewrite ?length_le_split in Hb', Hp'; clear Hb Hp
  end.

Lemma read_auth_session_pending b build unk2 unk3 clientSeed unk5 unk6 unk7 unk4 account digest rest :
  readable b -> field_ok (Str account) = true -> length digest = 20%nat ->
  pending b = auth_session build unk2 unk3 clientSeed unk5 unk6 unk7 unk4 account digest ++ rest ->
  exists b', read_auth_session b = Ok (account, u32 clientSeed, digest, b') /\ pending b' = rest.
Proof.
  intros Hb Hok Hd Hp. unfold auth_session in Hp. rewrite <- !app_assoc in Hp. unfold read_auth_session.
  read_next (read_int_pending 4 build) (le_split 4 build).
  read_next (read_int_pending 4 unk2) (le_split 4 unk2).
  match goal with Hb : readable ?b, Hp : pending ?b = _ |- _ =>
    rewrite (read_string_pending account b _ Hb Hp Hok); cbn [obind];
    pose proof (readable_skip b (Z.of_nat (S (String.length account))) Hb ltac:(lia)) as Hb';
    assert (pending (set_rpos (_rpos b + Z.of_nat (S (String.length account))) b)
      = le_split 4 unk3 ++ le_split 4 clientSeed ++ le_split 4 unk5 ++ le_split 4 unk6 ++ le_split 4 unk7 ++ le_split 8 unk4 ++ digest ++ rest) as Hp'
      by (apply (pending_skip _ _ (str_bytes account ++ [0])); [exact Hb|by rewrite Hp, <- app_assoc|
            rewrite length_app, str_bytes_length; cbn; lia]); clear Hb Hp end.
  read_next (read_int_pending 4 unk3) (le_split 4 unk3).
  read_next (read_int_pending 4 clientSeed) (le_split 4 clientSeed).
  read_next (read_int_pending 4 unk5) (le_split 4 unk5).
  read_next (read_int_pending 4 unk6) (le_split 4 unk6).
  read_next (read_int_pending 4 unk7) (le_split 4 unk7).
  read_next (read_int_pending 8 unk4) (le_split 8 unk4).
  match goal with Hb : readable ?b, Hp : pending ?b = _ |- _ =>
    rewrite (read_bytes_pending 20 b digest rest Hb Hp) by (rewrite ?Hd; done || by destruct digest); cbn [obind];
    eexists; split; [reflexivity|by apply (pending_skip b 20 digest); rewrite ?Hd] end.
Qed.

(** ** From the authentication server to a world *)
Section Composition.
  Context `{OpenSSLSpec} `{ACE} `{ZLib}.
  Variable env : AuthEnv.
  Variable cenv : ClientEnv.

(** The digest a client makes of the world's seed and its session key. *)
Definition world_digest (account : string) (clientSeed seed : Z) (keyb : list Z) : list Z :=
  SHA1 (str_bytes account ++ le_split 4 0 ++ le_split 4 clientSeed ++ le_split 4 seed ++ keyb).

Lemma session_digest_key account clientSeed seed keyb :
  Forall is_byte keyb -> full keyb -> session_digest account clientSeed seed (le_combine keyb) = world_digest account clientSeed seed keyb.
Proof.
  intros Hk Hf. unfold session_digest, world_digest, Finalize, UpdateData, SHA1_Init.
  rewrite UpdateBigNumbers_spec by (constructor; [by apply bytes_nonneg|constructor]).
  cbn [fmap list_fmap concat app]. by rewrite full_bytes, app_nil_r, <- !app_assoc.
Qed.

(** What a world asks of an account besides the key. *)
Definition admitted (account : string) (row : AccountRow) : Prop :=
  ce_closed cenv = false /\ ce_account cenv account = Some row
  /\ (ar_locked row = 1 -> ar_last_ip row = ce_address cenv)
  /\ ce_banned cenv (ar_id row) (ce_address cenv) = false
  /\ ce_security_limit cenv <= default 0 (ce_gmlevel cenv (ar_id row) (ce_realmID cenv)).

Definition in_world (keyb : list Z) (k k' : ClientSock) : Prop :=
  ck_authenticated k' = true
  /\ exists l s addons os, ck_events k' = ck_events k ++ l ++ [EvSession s; EvCrypt (le_combine keyb); EvReadAddons addons;
       EvInitWarden (le_combine keyb) os; EvAddSession].

(** A session that nobody knows of: made, but not handed over. *)
Definition session_lost (keyb : list Z) (k k' : ClientSock) : Prop :=
  ck_authenticated k' = ck_authenticated k
  /\ exists l s, ck_events k' = ck_events k ++ l ++ [EvSession s; EvCrypt (le_combine keyb)].

(** The packet comes to the granting of a session. *)
Lemma key_right p k account row keyb clientSeed rest :
  admitted account row -> Forall is_byte keyb -> full keyb -> ar_sessionkey row = AsHexStr (le_combine keyb) ->
  GetOpcode p = CMSG_AUTH_SESSION -> ck_closing k = false -> ck_authenticated k = false ->
  read_auth_session (wp_buf p) = Ok (account, clientSeed, world_digest account clientSeed (m_Seed k) keyb, rest) ->
  exists k1 l security expansion mutetime,
    ck_events k1 = ck_events k ++ l /\ ck_authenticated k1 = false /\ ck_addons k1 = ck_addons k
    /\ _processIncoming cenv p k
       = catch_buffer (grant_session cenv account row (ar_id row) security expansion mutetime (le_combine keyb) rest) k1.
Proof.
  intros (Hcl & Hrow & Hlk & Hban & Hsec) Hkb Hfk Hkey Hop Hc Ha Hread.
  set (mute := effective_mutetime cenv row).
  set (k1 := (whenS (ar_mutetime row <? 0) (event (EvMuteTime [(0, mute); (1, ar_id row)])) k).1).
  assert (whenS (ar_mutetime row <? 0) (event (EvMuteTime [(0, mute); (1, ar_id row)])) k = (k1, Ok tt)) as Hmute
    by (unfold k1; by destruct (ar_mutetime row <? 0)).
  exists k1, (if ar_mutetime row <? 0 then [EvMuteTime [(0, mute); (1, ar_id row)]] else []).
  exists (default 0 (ce_gmlevel cenv (ar_id row) (ce_realmID cenv))).
  exists (if ce_expansion cenv <? ar_expansion row then u8 (ce_expansion cenv) else ar_expansion row), mute.
  assert (m_Seed k1 = m_Seed k) as Hseed by (unfold k1; by destruct (ar_mutetime row <? 0)).
  split_and!; [unfold k1; destruct (ar_mutetime row <? 0); [done|by rewrite app_nil_r]
    |unfold k1; by destruct (ar_mutetime row <? 0)..|].
  clearbody k1. unfold _processIncoming, bindS at 1, getS at 1. rewrite Hc, Hop, Ha.
  change (CMSG_AUTH_SESSION =? CMSG_PING) with false. rewrite Z.eqb_refl. cbn match.
  unfold catch_buffer. enough (_handleAuthSession cenv p k = grant_session cenv account row (ar_id row)
    (default 0 (ce_gmlevel cenv (ar_id row) (ce_realmID cenv)))
    (if ce_expansion cenv <? ar_expansion row then u8 (ce_expansion cenv) else ar_expansion row) mute (le_combine keyb) rest k1) as -> by done.
  unfold _handleAuthSession. rewrite Hcl. unfold bindS at 1, liftS at 1. rewrite Hread, Hrow. cbn match.
  replace ((ar_locked row =? 1) && negb (ar_last_ip row =? ce_address cenv)%string) with false.
  2: { destruct (Z.eqb_spec (ar_locked row) 1) as [El|]; [|done]. by rewrite (Hlk El), String.eqb_refl. }
  cbv zeta. rewrite Hkey, SetHexStr_AsHexStr by (by apply bytes_nonneg). unfold bindS at 1. fold mute. rewrite Hmute. cbn match.
  rewrite Hban, (proj2 (Z.ltb_ge _ _) Hsec). unfold bindS at 1, getS at 1.
  rewrite Hseed, session_digest_key, bool_decide_eq_true_2 by done. done.
Qed.

Lemma wp_key_accepted p k account row keyb clientSeed rest l m ok :
  admitted account row -> Forall is_byte keyb -> full keyb -> ar_sessionkey row = AsHexStr (le_combine keyb) ->
  GetOpcode p = CMSG_AUTH_SESSION -> ck_closing k = false -> ck_authenticated k = false ->
  read_auth_session (wp_buf p) = Ok (account, clientSeed, world_digest account clientSeed (m_Seed k) keyb, rest) ->
  ReadAddonsInfo rest (mkAddonState [] (ck_addons k)) = (mkAddonState l m, Ok ok) ->
  wp (_processIncoming cenv p) (fun r k' => r = 0 /\ in_world keyb k k') (fun _ => False) k.
Proof.
  intros Hadm Hkb Hfk Hkey Hop Hc Ha Hread Hadd. 
  destruct (key_right p k account row keyb clientSeed rest) as (k1 & l1 & sec & exp & mute & Hl1 & Hau1 & Had1 & Hrun); [done..|].
  unfold wp. rewrite Hrun. change (wp (catch_buffer (grant_session cenv account row (ar_id row) sec exp mute (le_combine keyb) rest))
    (fun r k' => r = 0 /\ in_world keyb k k') (fun _ => False) k1). apply wp_catch.
  unfold grant_session. do 6 ck_step. apply wpS_bind. unfold wp at 1, read_addons. ck_proj.
  rewrite Had1, Hadd. cbn [event modS as_list as_mgr]. ck_steps. split; [done|]. split; [done|]. ck_proj.
  rewrite Hl1, <- !app_assoc. cbn [app]. exists (l1 ++ [EvLastIp (ce_address cenv) account]). do 3 eexists. by rewrite <- app_assoc.
Qed.

(** A client with the right key whose list of addons breaks off: its session
    stays behind, with its reference to the socket, and the account online. *)
Lemma wp_addons_lose_session p k account row keyb clientSeed rest s e :
  admitted account row -> Forall is_byte keyb -> full keyb -> ar_sessionkey row = AsHexStr (le_combine keyb) ->
  GetOpcode p = CMSG_AUTH_SESSION -> ck_closing k = false -> ck_authenticated k = false ->
  read_auth_session (wp_buf p) = Ok (account, clientSeed, world_digest account clientSeed (m_Seed k) keyb, rest) ->
  ReadAddonsInfo rest (mkAddonState [] (ck_addons k)) = (s, Throw e) -> e <> AssertFailure ->
  wp (_processIncoming cenv p) (fun r k' => r = -1 /\ session_lost keyb k k') (fun _ => False) k.
Proof.
  intros Hadm Hkb Hfk Hkey Hop Hc Ha Hread Hadd He. 
  destruct (key_right p k account row keyb clientSeed rest) as (k1 & l1 & sec & exp & mute & Hl1 & Hau1 & Had1 & Hrun); [done..|].
  unfold wp. rewrite Hrun. unfold catch_buffer, grant_session, bindS, read_addons, event, modS. ck_proj. rewrite Had1, Hadd.
  assert (session_lost keyb k (set_addons (as_mgr s) (mkClientSock (ck_closing k1) (ck_authenticated k1)
    (((ck_events k1 ++ [EvLastIp (ce_address cenv) account]) ++ [EvSession (mkNewSession (ar_id row) sec exp mute
        (effective_locale (ar_locale row)) (ar_recruiter row) (ce_recruiter cenv (ar_id row)))]) ++ [EvCrypt (le_combine keyb)])
    (ck_single k1) (ck_multi k1) (m_LastPingTime k1) (m_OverSpeedPings k1) (m_Seed k1) (_latency k1) (ck_lastActionTime k1) (ck_addons k1)))) as Hlost.
  { split; [cbn; congruence|]. cbn. rewrite Hl1, <- !app_assoc. cbn [app]. exists (l1 ++ [EvLastIp (ce_address cenv) account]).
    eexists. by rewrite <- app_assoc. }
  by destruct e.
Qed.

(** What a client with the right key gets, by what becomes of its list of
    addons. *)
Definition served (keyb : list Z) (k k' : ClientSock) (addons : outcome bool) (r : outcome Z) : Prop :=
  match addons with
  | Ok _ => r = Ok 0 /\ in_world keyb k k'
  | Throw AssertFailure => r = Throw AssertFailure
  | Throw _ => r = Ok (-1) /\ session_lost keyb k k'
  | UB => r = UB
  end.

Lemma key_served p k account row keyb clientSeed rest :
  admitted account row -> Forall is_byte keyb -> full keyb -> ar_sessionkey row = AsHexStr (le_combine keyb) ->
  GetOpcode p = CMSG_AUTH_SESSION -> ck_closing k = false -> ck_authenticated k = false ->
  read_auth_session (wp_buf p) = Ok (account, clientSeed, world_digest account clientSeed (m_Seed k) keyb, rest) ->
  served keyb k (_processIncoming cenv p k).1 (ReadAddonsInfo rest (mkAddonState [] (ck_addons k))).2 (_processIncoming cenv p k).2.
Proof.
  intros Hadm Hkb Hfk Hkey Hop Hc Ha Hread.
  destruct (ReadAddonsInfo rest (mkAddonState [] (ck_addons k))) as [[l m] a] eqn:Hadd. cbn [snd served].
  assert (forall (P : Z -> ClientSock -> Prop) z, wp (_processIncoming cenv p) (fun r k' => r = z /\ P z k') (fun _ => False) k ->
    (_processIncoming cenv p k).2 = Ok z /\ P z (_processIncoming cenv p k).1) as Hrun.
  { intros P z Hwp. apply wpS_run in Hwp as (r & k' & E & -> & HP). by rewrite E. }
  destruct a as [ok|e|].
  - apply (Hrun (fun _ k' => in_world keyb k k')). by eapply wp_key_accepted.
  - assert (e = AssertFailure \/ e <> AssertFailure) as [->|He] by (destruct e; first [by left|by right]).
    + destruct (key_right p k account row keyb clientSeed rest) as (k1 & l1 & sec & exp & mute & Hl1 & Hau1 & Had1 & E); [done..|].
      rewrite E. unfold catch_buffer, grant_session, bindS, read_addons, event, modS. ck_proj. by rewrite Had1, Hadd.
    + destruct e; try done; apply (Hrun (fun _ k' => session_lost keyb k k')); by eapply wp_addons_lose_session.
  - destruct (key_right p k account row keyb clientSeed rest) as (k1 & l1 & sec & exp & mute & Hl1 & Hau1 & Had1 & E); [done..|].
    rewrite E. unfold catch_buffer, grant_session, bindS, read_addons, event, modS. ck_proj. by rewrite Had1, Hadd.
Qed.

(** The session key that the database holds for an account after the statements
    of the authentication server. *)
Fixpoint stored_key (l : list AuthStmt) (name : string) : option string :=
  match l with
  | [] => None
  | s :: l' =>
      match stored_key l' name with
      | Some key => Some key
      | None => match s with
                | LOGIN_UPD_LOGONPROOF key _ _ _ u => if String.eqb u name then Some key else None
                | _ => None
                end
      end
  end.

Lemma stored_key_last l name key ip loc os : stored_key (l ++ [LOGIN_UPD_LOGONPROOF key ip loc os name]) name = Some key.
Proof. induction l as [|s l IH]; cbn; [by rewrite String.eqb_refl|]. by rewrite IH. Qed.

(** C9. The two servers agree.  A client that knows the password logs in at the
    authentication server; a world whose database holds what that server
    stored, and that has no objection to the account (open, not locked
    elsewhere, not banned, of sufficient level), then opens a session for the
    digest the client makes of the world's seed and its own session key,
    encrypts the connection with that key, and reads the client's addons: when
    the list can be read, the session is handed over and the client is
    authenticated; when it breaks off, the packet is refused and the session
    stays behind.  This is for an exchange no number of which is short of a
    byte ([no_short]; a short one fails the login), a client of a known
    expansion, an account without an authenticator's token, and a proof packet
    that announces none. *)
Theorem login_reaches_world c crc keys flags rest w p k row build unk2 unk3 clientSeed unk5 unk6 unk7 unk4 addons :
  challenged c (conn w) -> no_short c ->
  _expversion (conn w) <> NO_VALID_EXP_FLAG -> _tokenKey (conn w) = EmptyString ->
  length crc = 20%nat -> has_flag flags 0x04 = false ->
  input_buffer (sock w) = proof_packet c crc keys flags ++ rest ->
  (forall w', logged_in env c rest w w' -> stored_key (executed w') (cl_login c) = Some (ar_sessionkey row)) ->
  admitted (cl_login c) row -> field_ok (Str (cl_login c)) = true ->
  GetOpcode p = CMSG_AUTH_SESSION -> ck_closing k = false -> ck_authenticated k = false -> readable (wp_buf p) ->
  0 <= clientSeed < 2 ^ 32 ->
  let digest := world_digest (cl_login c) clientSeed (m_Seed k) (c_K c) in
  pending (wp_buf p) = auth_session build unk2 unk3 clientSeed unk5 unk6 unk7 unk4 (cl_login c) digest ++ addons ->
  exists w' b k' r, _HandleLogonProof env w = (w', Ok true) /\ _authed (conn w') = true
    /\ read_auth_session (wp_buf p) = Ok (cl_login c, clientSeed, digest, b)
    /\ _processIncoming cenv p k = (k', r)
    /\ served (c_K c) k k' (ReadAddonsInfo b (mkAddonState [] (ck_addons k))).2 r.
Proof.
  intros Hk Hs Hexp Htok Hcrc Hfl Hbuf Hstore Hadm Hname Hop Hc Ha Hrd Hseed digest Hp.
  pose proof (wp_login env c crc keys flags rest w Hk Hs Hexp Htok Hcrc Hfl Hbuf) as Hwp.
  apply wpS_run in Hwp as (ok & w' & Hrun & -> & Hin). pose proof (Hstore w' Hin) as Hkey.
  destruct Hin as (Hau & _ & _ & He). rewrite He, stored_key_last in Hkey. injection Hkey as Hkey.
  destruct (read_auth_session_pending (wp_buf p) _ _ _ _ _ _ _ _ _ _ _ Hrd Hname (SHA1_length _) Hp) as (b' & Hread & _).
  rewrite wrap_small in Hread by done.
  assert (full (c_K c)) as HfK by apply Hs.
  exists w', b', (_processIncoming cenv p k).1, (_processIncoming cenv p k).2. split_and!; [done..|apply surjective_pairing|].
  exact (key_served p k (cl_login c) row (c_K c) clientSeed b' Hadm (c_K_bytes c) HfK (eq_sym Hkey) Hop Hc Ha Hread).
Qed.
End Composition.
