(* ===== verification/AuthScene.v ===== *)
(** * Authentication: a worked example

    A concrete server, database and client, with real digests: the theorems of
    the authentication part at inputs where their hypotheses hold. *)
From Stdlib Require Import Ascii String ZArith Lia Zpow_facts.
From stdpp Require Import base gmap list strings.
From S2P Require Import Prelude ByteBuffer BigNumber World StateM OpcodeTable Opcodes Routing Node Control Session Addons ClientAuth Totp RealmList AuthSocket AuthFacts AuthSrp AuthBypass OpenSSLRef ClientAuthFacts.

Open Scope Z_scope.

(** ** The surroundings *)
#[local] Existing Instance reference_openssl.

(** Addresses are not looked into. *)
#[local] Instance scene_ace : ACE := {|
  inet_addr port _ := mkAddr 0 port;
  is_loopback _ := true;
  GetAddressString _ := "127.0.0.1:8085"%string
|}.

Definition player : string := "PLAYER".
Definition player_bytes : list Z := Eval vm_compute in str_bytes player.

(** The private key that salt and password give, and both sides' exponents. *)
Definition x : Z := 0x5DE2A1.
Definition a : Z := 0x11223344.
Definition b : Z := 0x55667788.

(** Powers, by squaring. *)
Definition pow (g e : Z) : Z := Zpow_mod g e srp_N_const.

Lemma pow_spec g e : 0 <= e -> g ^ e mod srp_N_const = pow g e.
Proof. intros He. symmetry. by apply Zpow_mod_correct. Qed.

Definition v : Z := Eval vm_compute in pow 7 x.
Definition B : Z := Eval vm_compute in (v * 3 + pow 7 b) mod srp_N_const.
Definition s : Z := 2 ^ 255 + 12345.

Definition player_client : Client := mkClient player x a (le_split 32 B) (le_split 32 s).

(** The client's numbers, evaluated. *)
Definition A_bytes : list Z := Eval vm_compute in le_split 32 (pow 7 a).
Definition u : Z := Eval vm_compute in le_combine (SHA1 (A_bytes ++ le_split 32 B)).
Definition S_bytes : list Z := Eval vm_compute in le_split 32 (pow ((B - 3 * v) mod srp_N_const) (a + u * x)).
Definition K_bytes : list Z := Eval vm_compute in interleave (SHA1 (evens S_bytes)) (SHA1 (evens (drop 1 S_bytes))).
Definition M1_bytes : list Z :=
  Eval vm_compute in SHA1 (c_group ++ SHA1 player_bytes ++ le_split 32 s ++ A_bytes ++ le_split 32 B ++ K_bytes).

Lemma scene_v : 7 ^ x mod srp_N_const = v.
Proof. rewrite pow_spec by done. vm_compute. done. Qed.
Lemma scene_A : c_A player_client = A_bytes.
Proof. unfold c_A. cbn [cl_a player_client]. rewrite pow_spec by done. vm_compute. done. Qed.
Lemma scene_u : c_u player_client = u.
Proof. unfold c_u. rewrite scene_A. vm_compute. done. Qed.
Lemma scene_S : c_S player_client = S_bytes.
Proof.
  unfold c_S. rewrite scene_u. cbn [cl_a cl_x cl_B player_client]. rewrite scene_v, pow_spec by done. vm_compute. done.
Qed.
Lemma scene_K : c_K player_client = K_bytes.
Proof. unfold c_K. rewrite scene_S. vm_compute. done. Qed.
Lemma scene_M1 : c_M1 player_client = M1_bytes.
Proof. unfold c_M1. rewrite scene_A, scene_K. vm_compute. done. Qed.

Lemma scene_no_short : no_short player_client.
Proof. unfold no_short. rewrite scene_A, scene_S, scene_K, scene_M1. by vm_compute. Qed.

(** ** The connection after its challenge *)
Definition scene_conn (tokenKey : string) : AuthSocket :=
  mkAuthSocket srp_N_const s 7 v b B 0 0 false player tokenKey "enUS" "Win" 12340 POST_BC_EXP_FLAG 0.

Definition scene_world (c : AuthSocket) (input : list Z) : AuthServer :=
  mkAuthServer c (mkRealmSocket input [] false) ∅ 0 (RealmList_new 0) [] 0 0.

Lemma scene_challenged tokenKey input : challenged player_client (conn (scene_world (scene_conn tokenKey) input)).
Proof.
  unfold challenged. cbn [conn scene_world scene_conn srp_N srp_g srp_v srp_b srp_B srp_s _login cl_x cl_B cl_s cl_login cl_a player_client].
  rewrite scene_v, pow_spec by done. by split_and!; try apply le_split_byte; try done; vm_compute.
Qed.

Definition crc : list Z := replicate 20 0.

(** The account, as the queries answer: the last stored session key is found
    again. *)
Definition stored_session (l : list AuthStmt) (name : string) : option (string * Z * Z) :=
  (fun key => (key, 7, 0)) <$> stored_key l name.

Definition scene_db : LoginDB :=
  mkLoginDB (fun _ _ => false) (fun _ _ => None) (fun _ _ => None) stored_session (fun _ _ => None)
    (fun _ n => if String.eqb n player then Some 7 else None) (fun _ _ _ => None) (fun _ => []).
Definition scene_env : AuthEnv := mkAuthEnv scene_db (fun n => 1700000000 + Z.of_nat n) 0 0 false "10.0.0.7" (mkAddr 0 0).

Lemma srp_login_witness :
  exists w', _HandleLogonProof scene_env (scene_world (scene_conn "") (proof_packet player_client crc 0 0 ++ [16])) = (w', Ok true)
    /\ logged_in scene_env player_client [16] (scene_world (scene_conn "") (proof_packet player_client crc 0 0 ++ [16])) w'.
Proof.
  apply (srp_login scene_env player_client crc 0 0 [16] (scene_world (scene_conn "") (proof_packet player_client crc 0 0 ++ [16])));
    [apply scene_challenged|apply scene_no_short|done..].
Defined.

(** What holds of the honest login's outcome, used where the theorems about
    one run are applied to it. *)
Definition honest_world : AuthServer := scene_world (scene_conn "") (proof_packet player_client crc 0 0 ++ [16]).

Lemma honest_run :
  exists w', _HandleLogonProof scene_env honest_world = (w', Ok true) /\ logged_in scene_env player_client [16] honest_world w'.
Proof.
  pose proof (wp_login scene_env player_client crc 0 0 [16] honest_world (scene_challenged _ _) scene_no_short
    ltac:(done) eq_refl eq_refl eq_refl eq_refl) as Hwp.
  destruct (proj1 (wpS_run _ _ _) Hwp) as (ok & w' & Hrun & -> & Hin). exists w'. split; [exact Hrun|exact Hin].
Qed.

Lemma authenticated_by_proof_witness :
  exists w', _HandleLogonProof scene_env honest_world = (w', Ok true) /\ proof_accepted scene_env honest_world w'.
Proof.
  destruct honest_run as (w' & Hrun & Hin). exists w'. split; [exact Hrun|].
  apply (authenticated_by_proof scene_env honest_world w' (Ok true) Hrun). apply Hin.
Defined.

Lemma token_six_digits_witness : exists t, GenerateToken 1700000000 "JBSWY3DPEHPK3PXP" = Ok t /\ 0 <= t < 1000000.
Proof. exact (token_six_digits 1700000000 "JBSWY3DPEHPK3PXP"). Defined.

(** A connection that was just accepted. *)
Definition accepted : AuthServer := scene_world AuthSocket_new [].

Lemma scene_connection : connection scene_env accepted.
Proof. by apply conn_accept. Qed.

Lemma OnRead_ends_witness : wp (OnRead scene_env) (fun returned _ => returned = true) (fun _ => True) accepted.
Proof. exact (OnRead_ends scene_env accepted scene_connection). Defined.

(** ** The ways around the password *)
Definition wrong_token_world : AuthServer :=
  scene_world (scene_conn "JBSWY3DPEHPK3PXP") (proof_packet player_client crc 0 4 ++ 1 :: [48] ++ []).

Lemma scene_token : GenerateToken 1700000000 "JBSWY3DPEHPK3PXP" = Ok 324550.
Proof. by vm_compute. Qed.

Lemma wrong_token_stores_key_witness :
  exists w', _HandleLogonProof scene_env wrong_token_world = (w', Ok false) /\ _authed (conn w') = false
    /\ executed w' = [LOGIN_UPD_LOGONPROOF (AsHexStr (le_combine (c_K player_client))) "10.0.0.7" 0 "Win" player].
Proof.
  destruct (wrong_token_stores_key scene_env player_client crc 0 4 1 [48] [] wrong_token_world 324550) as (w' & Hrun & Ha & _ & He);
    [exact (scene_challenged _ _)|exact scene_no_short|discriminate|discriminate|reflexivity|lia|reflexivity|exact scene_token|vm_compute; discriminate|reflexivity|].
  exists w'. split; [exact Hrun|]. split; [exact Ha|exact He].
Defined.

Lemma authentication_bypass_witness :
  exists w1 w2, handle_input scene_env (Some (forged_challenge player_bytes)) accepted = (w1, Ok 0)
    /\ handle_input scene_env (Some (forged_proof player_bytes crc 0)) w1 = (w2, Ok 0)
    /\ _authed (conn w2) = true /\ _login (conn w2) = player.
Proof.
  destruct (authentication_bypass scene_env accepted player_bytes crc 0) as (w1 & w2 & H1 & H2 & Ha & Hl & _);
    [done|done|done|cbn; lia|by repeat constructor|done|by vm_compute|by vm_compute|by vm_compute|done|].
  exists w1, w2. split_and!; [exact H1|exact H2|exact Ha|exact Hl].
Defined.

(** The bypass, then the realm list: the handlers run. *)
Definition feed (bytes : list Z) (w : AuthServer) : AuthServer := (handle_input scene_env (Some bytes) w).1.

Lemma feed_connection bytes w :
  connection scene_env w -> (handle_input scene_env (Some bytes) w).2 = Ok 0 -> connection scene_env (feed bytes w).
Proof.
  intros Hw Hr. eapply (conn_input _ w (Some bytes) _ 0); [exact Hw|]. unfold feed.
  destruct (handle_input _ _ _). cbn in *. by subst.
Qed.

Definition after_bypass : AuthServer :=
  Eval vm_compute in feed [REALM_LIST; 0; 0; 0; 0] (feed (forged_proof player_bytes crc 0) (feed (forged_challenge player_bytes) accepted)).

Lemma after_bypass_connection : connection scene_env after_bypass.
Proof.
  assert (after_bypass = feed [REALM_LIST; 0; 0; 0; 0] (feed (forged_proof player_bytes crc 0) (feed (forged_challenge player_bytes) accepted)))
    as -> by (by vm_compute).
  apply feed_connection; [apply feed_connection; [apply feed_connection; [apply scene_connection|]|]|]; by vm_compute.
Qed.

Lemma realm_list_after_login_witness :
  _authed (conn after_bypass) = true /\ length (sk_sent (sock after_bypass)) = 2%nat
  /\ Exists (fun q => login_success q = true) (take 1 (sk_sent (sock after_bypass))).
Proof.
  split; [done|]. split; [done|].
  pose proof (realm_list_after_login scene_env after_bypass after_bypass_connection) as [_ Hr].
  eapply (Hr 1%nat); [vm_compute; reflexivity|vm_compute; reflexivity].
Defined.

(** ** Into the world *)
Definition scene_row : AccountRow :=
  mkAccountRow 7 (AsHexStr (le_combine K_bytes)) "10.0.0.7" 0 2 0 0 0 "Win".
Definition scene_cenv : ClientEnv :=
  mkClientEnv false (fun n => if String.eqb n player then Some scene_row else None) (fun _ _ => None) (fun _ _ => false)
    (fun _ => false) "10.0.0.7" 2 0 1 2 1700000100 1700000100000000.

Definition world_seed : Z := 0xCAFE1234.
Definition scene_socket : ClientSock := socket_opened world_seed 1700000100 (mkAddonMgr [] []).

(** Data that were stored, not compressed. *)
#[local] Instance scene_zlib : ZLib := {| uncompress l n := Some (take (Z.to_nat n) l) |}.

(** One addon, and the time. *)
Definition addon_bytes : list Z :=
  le_split 4 20 ++ le_split 4 1 ++ [65; 66; 0; 1] ++ le_split 4 0x4c1c776d ++ le_split 4 0 ++ le_split 4 0.

Definition session_bytes : list Z :=
  auth_session 12340 0 0 0xBEEF 0 0 1 0 player (world_digest player 0xBEEF world_seed K_bytes) ++ addon_bytes.
Definition session_packet : WorldPacket := mkWP CMSG_AUTH_SESSION (mkBB 0 0 session_bytes).

Lemma scene_admitted : admitted scene_cenv player scene_row.
Proof. by split_and!. Qed.

Lemma scene_readable : readable (wp_buf session_packet).
Proof. by vm_compute. Qed.

Lemma scene_pending :
  pending (wp_buf session_packet)
  = auth_session 12340 0 0 0xBEEF 0 0 1 0 player (world_digest player 0xBEEF (m_Seed scene_socket) (c_K player_client)) ++ addon_bytes.
Proof. rewrite scene_K. reflexivity. Qed.

Lemma scene_addons account seed digest b :
  read_auth_session (wp_buf session_packet) = Ok (account, seed, digest, b) ->
  (ReadAddonsInfo b (mkAddonState [] (ck_addons scene_socket))).2 = Ok true.
Proof. intros Hr. vm_compute in Hr. injection Hr as <- <- <- <-. vm_compute. reflexivity. Qed.

Lemma scene_stored w' :
  logged_in scene_env player_client [16] honest_world w' -> stored_key (executed w') player = Some (ar_sessionkey scene_row).
Proof.
  intros (_ & _ & _ & He). rewrite He, scene_K. change (cl_login player_client) with player.
  by rewrite stored_key_last.
Qed.

Lemma login_reaches_world_witness :
  exists w' k', _HandleLogonProof scene_env honest_world = (w', Ok true) /\ _authed (conn w') = true
    /\ _processIncoming scene_cenv session_packet scene_socket = (k', Ok 0) /\ in_world (c_K player_client) scene_socket k'.
Proof.
  destruct (login_reaches_world scene_env scene_cenv player_client crc 0 0 [16] honest_world session_packet scene_socket scene_row
    12340 0 0 0xBEEF 0 0 1 0 addon_bytes
    (scene_challenged _ _) scene_no_short ltac:(discriminate) eq_refl eq_refl eq_refl eq_refl scene_stored scene_admitted eq_refl
    eq_refl eq_refl eq_refl scene_readable ltac:(lia) scene_pending) as (w' & b & k' & r & H1 & H2 & H3 & H4 & H5).
  rewrite (scene_addons _ _ _ _ H3) in H5. destruct H5 as [-> H5]. exists w', k'. exact (conj H1 (conj H2 (conj H4 H5))).
Defined.

Definition entered : ClientSock := Eval vm_compute in (_processIncoming scene_cenv session_packet scene_socket).1.

Lemma scene_entered : _processIncoming scene_cenv session_packet scene_socket = (entered, Ok 0).
Proof. by vm_compute. Qed.

Lemma session_once_authenticated_witness :
  socket_ok entered /\ ck_authenticated entered = true /\ session_granted scene_cenv session_packet scene_socket entered.
Proof.
  destruct (session_once_authenticated scene_cenv session_packet scene_socket entered 0
    (reach_open scene_cenv world_seed 1700000100 (mkAddonMgr [] [])) scene_entered) as [Hok Hg].
  split; [exact Hok|]. split; [reflexivity|]. apply Hg; reflexivity.
Defined.
