(* ===== verification/SessionMgr.v ===== *)
(** * The manager of client sessions and its update threads

    [ClientSessionMgr] and [SessionUpdater] of [shade/Server/Client] and
    [shade/Server]: the sessions by account, the login queue, the threads that
    update them, and the references by which a session is kept alive. *)
From Stdlib Require Import Ascii String ZArith Lia.
From stdpp Require Import base gmap list strings.
From S2P Require Import Prelude ByteBuffer World OpcodeTable Opcodes Routing Node Control Session Addons.

Open Scope Z_scope.

(** ** Constants *)
Definition AUTH_WAIT_QUEUE : Z := 0x1B.
Definition SMSG_SERVER_MESSAGE : Z := 0x291.
Definition SMSG_ADDON_INFO : Z := 0x2EF.
Definition SMSG_CLIENTCACHE_VERSION : Z := 0x4AB.
Definition SERVER_MSG_STRING : Z := 3.
Definition STANDARD_ADDON_CRC : Z := 0x4c1c776d.

Definition addonPublicKey : list Z :=
  [0xC3;0x5B;0x50;0x84;0xB9;0x3E;0x32;0x42;0x8C;0xD0;0xC7;0x48;0xFA;0x0E;0x5D;0x54;
   0x5A;0xA3;0x0E;0x14;0xBA;0x9E;0x0D;0xB9;0x5D;0x8B;0xEE;0xB6;0x84;0x93;0x45;0x75;
   0xFF;0x31;0xFE;0x2F;0x64;0x3F;0x3D;0x6D;0x07;0xD9;0x44;0x9B;0x40;0x85;0x59;0x34;
   0x4E;0x10;0xE1;0xE7;0x43;0x69;0xEF;0x7C;0x16;0xFC;0xB4;0xED;0x1B;0x95;0x28;0xA8;
   0x23;0x76;0x51;0x31;0x57;0x30;0x2B;0x79;0x08;0x50;0x10;0x1C;0x4A;0x1A;0x2C;0xC8;
   0x8B;0x8F;0x05;0x2D;0x22;0x3D;0xDB;0x5A;0x24;0x7A;0x0F;0x13;0x50;0x37;0x8F;0x5A;
   0xCC;0x9E;0x04;0x44;0x0E;0x87;0x01;0xD4;0xA3;0x15;0x94;0x16;0x34;0xC6;0xC2;0xC3;
   0xFB;0x49;0xFE;0xE1;0xF9;0xDA;0x8C;0x50;0x3C;0xBE;0x2C;0xBB;0x57;0xED;0x46;0xB9;
   0xAD;0x8B;0xC6;0xDF;0x0E;0xD6;0x0F;0xBE;0x80;0xB3;0x8B;0x1E;0x77;0xCF;0xAD;0x22;
   0xCF;0xB7;0x4B;0xCF;0xFB;0xF0;0x6B;0x11;0x45;0x2D;0x7A;0x81;0x18;0xF2;0x92;0x7E;
   0x98;0x56;0x5D;0x5E;0x69;0x72;0x0A;0x0D;0x03;0x0A;0x85;0xA2;0x85;0x9C;0xCB;0xFB;
   0x56;0x6E;0x8F;0x44;0xBB;0x8F;0x02;0x22;0x68;0x63;0x97;0xBC;0x85;0xBA;0xA8;0xF7;
   0xB5;0x40;0x68;0x3C;0x77;0x86;0x6F;0x4B;0xD7;0x88;0xCA;0x8A;0xD7;0xCE;0x36;0xF0;
   0x45;0x6E;0xD5;0x64;0x79;0x0F;0x17;0xFC;0x64;0xDD;0x10;0x6F;0xF3;0xF5;0xE0;0xA6;
   0xC3;0xFB;0x1B;0x8C;0x29;0xEF;0x8E;0xE5;0x34;0xCB;0xD1;0x2A;0xCE;0x79;0xC3;0x9A;
   0x0D;0x36;0xEA;0x01;0xE0;0xAA;0x91;0x20;0x54;0xF0;0x72;0xD8;0x1E;0xC7;0x89;0xD2].

(** ** State

    Sessions are shared between the manager and its threads, so they live in a
    store, at addresses, and are deleted when the last reference goes. *)
Record Object := mkObject {
  ob_ses : ClientSession;
  _referenceCount : Z;
  _inQueue : bool;
  _addonsList : list AddonInfo
}.

(** [SessionUpdater]: a thread's new sessions, a queue, and its sessions, a set
    ordered by address. *)
Record Updater := mkUpdater {
  m_Counter : Z;
  _newSessions : list Z;
  m_Sessions : list Z;
  _sleep : bool
}.

Record Mgr := mkMgr {
  heap : gmap Z Object;
  mg_routing : RoutingHelper;
  _addSessQueue : list Z;
  _sessions : gmap Z Z;                (* by account *)
  _sessionupdater : list Updater;
  _QueuedPlayer : list Z;
  _maxActiveSessionCount : Z;
  _maxQueuedSessionCount : Z;
  _dyn_timer : Z
}.

Record MgrConfig := mkMgrConfig {
  _playerLimit : Z;
  _dyn_max : Z;
  _dyn_enabled : bool;
  dyn_interval : Z;                    (* [CONFIG_SESSION_DYN_TIMER] *)
  clientcache_version : Z              (* [CONFIG_CLIENTCACHE_VERSION] *)
}.

Definition with_heap (h : gmap Z Object) (r : RoutingHelper) (m : Mgr) : Mgr :=
  mkMgr h r (_addSessQueue m) (_sessions m) (_sessionupdater m) (_QueuedPlayer m)
    (_maxActiveSessionCount m) (_maxQueuedSessionCount m) (_dyn_timer m).
Definition set_heap (h : gmap Z Object) (m : Mgr) : Mgr := with_heap h (mg_routing m) m.
Definition with_holders (q : list Z) (s : gmap Z Z) (u : list Updater) (m : Mgr) : Mgr :=
  mkMgr (heap m) (mg_routing m) q s u (_QueuedPlayer m)
    (_maxActiveSessionCount m) (_maxQueuedSessionCount m) (_dyn_timer m).
Definition set_addq (q : list Z) (m : Mgr) : Mgr := with_holders q (_sessions m) (_sessionupdater m) m.
Definition set_sessions (s : gmap Z Z) (m : Mgr) : Mgr := with_holders (_addSessQueue m) s (_sessionupdater m) m.
Definition set_updaters (u : list Updater) (m : Mgr) : Mgr := with_holders (_addSessQueue m) (_sessions m) u m.
Definition with_counts (q : list Z) (a b t : Z) (m : Mgr) : Mgr :=
  mkMgr (heap m) (mg_routing m) (_addSessQueue m) (_sessions m) (_sessionupdater m) q a b t.
Definition set_queue (q : list Z) (m : Mgr) : Mgr :=
  with_counts q (_maxActiveSessionCount m) (_maxQueuedSessionCount m) (_dyn_timer m) m.
Definition set_dyn_timer (t : Z) (m : Mgr) : Mgr :=
  with_counts (_QueuedPlayer m) (_maxActiveSessionCount m) (_maxQueuedSessionCount m) t m.

(** ** Code that uses sessions

    It ends, or uses a session that has been deleted, or what it calls in a
    session fails (an assertion, or behaviour that is undefined). *)
Inductive fate (A : Type) : Type :=
| Fine (a : A)
| Freed (p : Z)
| Crashed.
Arguments Fine {A} a.
Arguments Freed {A} p.
Arguments Crashed {A}.

Definition MM (A : Type) : Type := Mgr -> fate (Mgr * A).
Definition ok {A} (a : A) : MM A := fun m => Fine (m, a).
Definition andthen {A B} (x : MM A) (k : A -> MM B) : MM B :=
  fun m => match x m with Fine (m, a) => k a m | Freed p => Freed p | Crashed => Crashed end.
Notation "'let!!' x ':=' m 'in' k" := (andthen m (fun x => k))
  (at level 200, x name, m at level 100, k at level 200, only parsing).
Notation "m ;!! k" := (andthen m (fun _ => k)) (at level 101, right associativity, only parsing).

Definition mdo (f : Mgr -> Mgr) : MM unit := fun m => Fine (f m, tt).
Definition mget {A} (f : Mgr -> A) : MM A := fun m => Fine (m, f m).
Definition mwhen (b : bool) (x : MM unit) : MM unit := if b then x else ok tt.
Fixpoint each {A} (l : list A) (f : A -> MM unit) : MM unit :=
  match l with [] => ok tt | x :: l => f x ;!! each l f end.

(** [p->...] *)
Definition deref (p : Z) : MM Object :=
  fun m => match heap m !! p with Some o => Fine (m, o) | None => Freed p end.
Definition update_object (p : Z) (f : Object -> Object) : MM unit :=
  let!! o := deref p in mdo (fun m => set_heap (<[p := f o]> (heap m)) m).
Definition with_ses (s : ClientSession) (o : Object) : Object :=
  mkObject s (_referenceCount o) (_inQueue o) (_addonsList o).
Definition with_refs (n : Z) (o : Object) : Object := mkObject (ob_ses o) n (_inQueue o) (_addonsList o).
Definition SetInQueue (b : bool) (o : Object) : Object := mkObject (ob_ses o) (_referenceCount o) b (_addonsList o).
Definition clear_addons (o : Object) : Object := mkObject (ob_ses o) (_referenceCount o) (_inQueue o) [].

(** A member function of a session. *)
Definition call {A} (p : Z) (x : SM A) : MM A :=
  let!! o := deref p in
  fun m => match x (mkSess (ob_ses o) (mg_routing m)) with
           | (s, Ok a) => Fine (with_heap (<[p := with_ses (ses s) o]> (heap m)) (ses_routing s) m, a)
           | _ => Crashed
           end.

(** *** References *)
Definition add_reference (p : Z) : MM unit := update_object p (fun o => with_refs (_referenceCount o + 1) o).
(** The last one deletes the session. *)
Definition remove_reference (p : Z) : MM unit :=
  let!! o := deref p in
  let n := _referenceCount o - 1 in
  mdo (fun m => set_heap (if n =? 0 then delete p (heap m) else <[p := with_refs n o]> (heap m)) m).

(** *** What is sent to a session that logs in *)
Definition SendAuthWaitQue (position : Z) : SM unit :=
  let$$ p := packet SMSG_AUTH_RESPONSE
    (if position =? 0 then [U8 AUTH_OK] else [U8 AUTH_WAIT_QUEUE; U32 position; U8 0]) in
  sdo (SendPacket p).

Definition SendClientCacheVersion (version : Z) : SM unit :=
  let$$ p := packet SMSG_CLIENTCACHE_VERSION [U32 version] in sdo (SendPacket p).

Definition addon_fields (a : AddonInfo) : list PField :=
  [U8 (ai_State a); U8 (b2z (UsePublicKeyOrCRC a))]
  ++ (if UsePublicKeyOrCRC a then
        let usepk := negb (ai_CRC a =? STANDARD_ADDON_CRC) in
        [U8 (b2z usepk)] ++ (if usepk then U8 <$> addonPublicKey else []) ++ [U32 0]
      else [])
  ++ [U8 0].

Definition SendAddonsInfo (p : Z) : MM unit :=
  let!! o := deref p in
  update_object p clear_addons ;!!
  call p (let$$ data := packet SMSG_ADDON_INFO (concat (addon_fields <$> _addonsList o) ++ [U32 0]) in
          sdo (SendPacket data)).

(** ** The threads *)
Module SessionUpdater.

Definition on_updater (i : nat) (f : Updater -> Updater) : MM unit :=
  mdo (fun m => set_updaters (alter f i (_sessionupdater m)) m).

Definition take_in (session : Z) (u : Updater) : Updater :=
  mkUpdater (m_Counter u + 1) (_newSessions u ++ [session]) (m_Sessions u) (_sleep u).
Definition AddSession (i : nat) (session : Z) : MM unit :=
  add_reference session ;!! on_updater i (take_in session).

(** [std::set::insert] *)
Fixpoint set_insert (p : Z) (l : list Z) : list Z :=
  match l with
  | [] => [p]
  | q :: l' => if p <? q then p :: l else if p =? q then l else q :: set_insert p l'
  end.
Definition AddNewSessions (u : Updater) : Updater :=
  mkUpdater (m_Counter u) [] (foldl (fun l p => set_insert p l) (m_Sessions u) (_newSessions u)) (_sleep u).

Definition Sleep (u : Updater) : Updater := mkUpdater (m_Counter u) (_newSessions u) (m_Sessions u) true.
Definition SetSleep (u : Updater) : Updater :=
  match _newSessions u with
  | [] => mkUpdater 0 [] [] false
  | _ => mkUpdater (m_Counter u) (_newSessions u) (m_Sessions u) false
  end.
Definition erase (p : Z) (u : Updater) : Updater :=
  mkUpdater (m_Counter u - 1) (_newSessions u) (List.filter (fun q => negb (q =? p)) (m_Sessions u)) (_sleep u).

Definition begin_pass (u : Updater) : Updater := AddNewSessions (if _sleep u then SetSleep u else u).

Section Svc.
Context `{UnorderedIter} (env : SessEnv).

(** The update of one session of a thread's set. *)
Definition update_one (i : nat) (t : Tick) (p : Z) : MM unit :=
  let!! alive := call p (UpdateMulti env t) in
  mwhen (negb alive) (remove_reference p ;!! on_updater i (erase p)).

(** One round of [svc]; each session is updated with its own [Tick]. *)
Definition svc (i : nat) (t : Z -> Tick) : MM unit :=
  on_updater i begin_pass ;!!
  let!! l := mget (fun m => match _sessionupdater m !! i with Some u => m_Sessions u | None => [] end) in
  each l (fun p => update_one i (t p) p).
End Svc.
End SessionUpdater.

(** ** The manager *)
Module ClientSessionMgr.
Section Manager.
Context `{UnorderedIter} (cfg : MgrConfig) (env : SessEnv).

(** *** Counts *)
Definition GetActiveAndQueuedSessionCount (m : Mgr) : Z := u32 (Z.of_nat (size (_sessions m))).
Definition GetQueuedSessionCount (m : Mgr) : Z := u32 (Z.of_nat (length (_QueuedPlayer m))).
Definition GetActiveSessionCount (m : Mgr) : Z :=
  u32 (Z.of_nat (size (_sessions m)) - Z.of_nat (length (_QueuedPlayer m))).

Definition UpdateMaxSessionCounters (m : Mgr) : Mgr :=
  with_counts (_QueuedPlayer m)
    (Z.max (_maxActiveSessionCount m) (GetActiveSessionCount m))
    (Z.max (_maxQueuedSessionCount m) (GetQueuedSessionCount m)) (_dyn_timer m) m.

(** *** The login queue *)
Fixpoint position_of (sess : Z) (position : Z) (q : list Z) : Z :=
  match q with
  | [] => 0
  | p :: q => if p =? sess then position else position_of sess (position + 1) q
  end.
Definition GetQueuePos (sess : Z) (m : Mgr) : Z := position_of sess 1 (_QueuedPlayer m).

Definition AddQueuedPlayer (sess : Z) : MM unit :=
  update_object sess (SetInQueue true) ;!!
  mdo (fun m => set_queue (_QueuedPlayer m ++ [sess]) m) ;!!
  let!! pos := mget (GetQueuePos sess) in
  call sess (SendAuthResponse AUTH_WAIT_QUEUE false pos).

(** The queue around the first entry that is [sess]. *)
Fixpoint split_queue (sess : Z) (q : list Z) : option (list Z * list Z) :=
  match q with
  | [] => None
  | p :: q =>
      if p =? sess then Some ([], q)
      else match split_queue sess q with Some (a, b) => Some (p :: a, b) | None => None end
  end.

Fixpoint send_positions (l : list Z) (position : Z) : MM unit :=
  match l with
  | [] => ok tt
  | p :: l => call p (SendAuthWaitQue position) ;!! send_positions l (position + 1)
  end.

(** The first in the queue is let in. *)
Definition admit_first (pop_sess : Z) : MM unit :=
  update_object pop_sess (SetInQueue false) ;!!
  call pop_sess (SendAuthWaitQue 0) ;!!
  SendAddonsInfo pop_sess ;!!
  call pop_sess (SendClientCacheVersion (clientcache_version cfg)) ;!!
  mdo (fun m => set_queue (tail (_QueuedPlayer m)) m).

Definition RemoveQueuedPlayer (sess : Z) : MM bool :=
  let!! sessions := mget GetActiveSessionCount in
  let!! q := mget _QueuedPlayer in
  let found := split_queue sess q in
  (match found with
   | Some (a, b) => update_object sess (SetInQueue false) ;!! mdo (set_queue (a ++ b))
   | None => ok tt
   end) ;!!
  let sessions := if negb (bool_decide (is_Some found)) && negb (sessions =? 0) then sessions - 1 else sessions in
  let!! q := mget _QueuedPlayer in
  (match q with
   | pop_sess :: rest =>
       if (_playerLimit cfg =? 0) || (sessions <? _playerLimit cfg)
       then admit_first pop_sess ;!! send_positions rest 1
       else match found with Some (a, b) => send_positions b (Z.of_nat (length a) + 1) | None => ok tt end
   | [] => ok tt
   end) ;!!
  ok (bool_decide (is_Some found)).

(** *** Sessions *)
Definition AddSession (s : Z) : MM unit :=
  add_reference s ;!! mdo (fun m => set_addq (_addSessQueue m ++ [s]) m).

Definition FindSession (id : Z) (m : Mgr) : option Z := _sessions m !! id.

Definition RemoveSession (id : Z) : MM bool :=
  let!! s := mget (FindSession id) in
  (match s with Some p => call p (sdo KickPlayer) | None => ok tt end) ;!! ok true.

(** The thread with the smallest counter, the first of them. *)
Definition counter (i : nat) (m : Mgr) : Z :=
  match _sessionupdater m !! i with Some u => m_Counter u | None => 0 end.
Definition least_loaded (m : Mgr) : nat :=
  foldl (fun min i => if counter i m <? counter min m then i else min) 0%nat (seq 0 (length (_sessionupdater m))).
Definition choose_updater (m : Mgr) : nat :=
  if _dyn_enabled cfg then (if _dyn_max cfg <=? counter 0 m then least_loaded m else 0%nat)
  else least_loaded m.

Definition AddSession_ (s : Z) : MM unit :=
  let!! o := deref s in
  let account := _accountId (ob_ses o) in
  RemoveSession account ;!!
  let!! old := mget (FindSession account) in
  let!! was_queued := (match old with Some p => RemoveQueuedPlayer p | None => ok false end) in
  mdo (fun m => set_sessions (<[account := s]> (_sessions m)) m) ;!!
  let!! min := mget choose_updater in
  SessionUpdater.AddSession min s ;!!
  let!! count := mget GetActiveAndQueuedSessionCount in
  let Sessions := if was_queued then count else u32 (count - 1) in
  if (0 <? _playerLimit cfg) && (_playerLimit cfg <=? Sessions) && (_security (ob_ses o) =? SEC_PLAYER)
  then AddQueuedPlayer s ;!! mdo UpdateMaxSessionCounters
  else
    call s (SendAuthResponse AUTH_OK true 0) ;!!
    SendAddonsInfo s ;!!
    mdo UpdateMaxSessionCounters.

(** *** The threads are put to sleep when there are few sessions *)
Definition UpdateDynamics (diff : Z) : MM unit :=
  let!! m := mget (fun m => m) in
  if (length (_sessionupdater m) =? 1)%nat then ok tt
  else if diff <=? _dyn_timer m then mdo (set_dyn_timer (_dyn_timer m - diff))
  else
    mdo (set_dyn_timer (dyn_interval cfg)) ;!!
    if _dyn_max cfg <=? Z.of_nat (size (_sessions m)) then ok tt
    else if existsb (fun i => counter i m =? 0) (seq 1 (length (_sessionupdater m) - 1)) then ok tt
    else
      mdo (fun m => set_updaters (SessionUpdater.Sleep <$> _sessionupdater m) m) ;!!
      let!! l := mget (fun m => uiter (_sessions m)) in
      each l (fun '(_, p) => SessionUpdater.AddSession 0 p).

(** *** The update *)
Definition add_new : MM unit :=
  let!! l := mget _addSessQueue in
  each l (fun s => mdo (fun m => set_addq (tail (_addSessQueue m)) m) ;!! AddSession_ s).

Definition update_session (account p : Z) : MM unit :=
  let!! alive := call p (UpdateSingle env) in
  mwhen (negb alive)
    (call p (sdo KickPlayer) ;!!
     remove_reference p ;!!
     mdo (fun m => set_sessions (delete account (_sessions m)) m)).

Definition Update (diff : Z) : MM unit :=
  add_new ;!!
  let!! l := mget (fun m => uiter (_sessions m)) in
  each l (fun '(account, p) => update_session account p) ;!!
  mwhen (_dyn_enabled cfg) (UpdateDynamics diff).

(** *** The end *)
Definition ServerClose : MM unit :=
  let!! l := mget (fun m => uiter (_sessions m)) in
  each l (fun '(account, p) => remove_reference p ;!! mdo (fun m => set_sessions (delete account (_sessions m)) m)).

(** *** Broadcasts *)
Definition SendGlobalMessage (packet : WorldPacket) (self : option Z) (team : Z) (teams : Z -> Z) : MM unit :=
  let!! l := mget (fun m => uiter (_sessions m)) in
  each l (fun '(_, p) =>
    let!! o := deref p in
    match s_player (ob_ses o) with
    | Some guid =>
        mwhen (negb (bool_decide (Some p = self)) && ((team =? 0) || (teams guid =? team))) (call p (sdo (SendPacket packet)))
    | None => ok tt
    end).

Definition SendServerMessage (type : Z) (text : string) (player : option Z) (teams : Z -> Z) : MM unit :=
  match make SMSG_SERVER_MESSAGE (U32 type :: if type <=? SERVER_MSG_STRING then [Str text] else []) with
  | Ok data =>
      match player with
      | Some p => call p (sdo (SendPacket data))
      | None => SendGlobalMessage data None 0 teams
      end
  | _ => fun _ => Crashed
  end.
End Manager.
End ClientSessionMgr.

(** ** The whole

    A client that logs in gets a session, which its socket holds until it has
    handed it over; the threads and the manager take turns at any session. *)
Definition login_session (p : Z) (s : ClientSession) (addons : list AddonInfo) : MM unit :=
  mdo (fun m => set_heap (<[p := mkObject s 1 false addons]> (heap m)) m) ;!!
  ClientSessionMgr.AddSession p.

Inductive MgrAction :=
| MLogin (p : Z) (s : ClientSession) (addons : list AddonInfo)  (* at an address that is free *)
| MHandedOver (n : nat)                                         (* the [n]-th socket drops its reference *)
| MSession (p : Z) (s : ClientSession)                          (* packets arrive, other components act *)
| MRouting (r : RoutingHelper)
| MUpdate (diff : Z)
| MBegin (i : nat)                                              (* a thread starts a round *)
| MOne (i : nat) (t : Tick) (p : Z)                             (* and updates a session of its set *)
| MRound (i : nat) (t : Z -> Tick)                              (* a round without interruption *)
| MSay (type : Z) (text : string) (teams : Z -> Z)
| MClose.

Definition of_thread (i : nat) (m : Mgr) : list Z :=
  match _sessionupdater m !! i with Some u => m_Sessions u | None => [] end.

Section Whole.
Context `{UnorderedIter} (cfg : MgrConfig) (env : SessEnv).

Definition mgr_step (a : MgrAction) (c : list Z) : MM (list Z) :=
  fun m =>
  match a with
  | MLogin p s addons =>
      match heap m !! p with Some _ => ok c m | None => (login_session p s addons ;!! ok (p :: c)) m end
  | MHandedOver n =>
      match c !! n with Some p => (remove_reference p ;!! ok (delete n c)) m | None => ok c m end
  | MSession p s =>
      match heap m !! p with Some _ => (update_object p (with_ses s) ;!! ok c) m | None => ok c m end
  | MRouting r => Fine (with_heap (heap m) r m, c)
  | MUpdate diff => (ClientSessionMgr.Update cfg env diff ;!! ok c) m
  | MBegin i => (SessionUpdater.on_updater i SessionUpdater.begin_pass ;!! ok c) m
  | MOne i t p =>
      if bool_decide (p ∈ of_thread i m) then (SessionUpdater.update_one env i t p ;!! ok c) m else ok c m
  | MRound i t => (SessionUpdater.svc env i t ;!! ok c) m
  | MSay type text teams => (ClientSessionMgr.SendServerMessage type text None teams ;!! ok c) m
  | MClose => (ClientSessionMgr.ServerClose ;!! ok c) m
  end.

Fixpoint mgr_run (l : list MgrAction) (c : list Z) : MM (list Z) :=
  match l with [] => ok c | a :: l => let!! c := mgr_step a c in mgr_run l c end.

(** [Initialize] and [Start] with [n] threads. *)
Definition mgr_start (n : nat) (r : RoutingHelper) : Mgr :=
  mkMgr ∅ r [] ∅ (replicate n (mkUpdater 0 [] [] false)) [] 0 0 (dyn_interval cfg).
End Whole.
