(* ===== verification/SessionMgrFacts.v ===== *)
(** * No session is used after it has been deleted

    The references count the places from which the manager and its threads
    reach a session: the queue of new sessions, the table by account, the
    threads' queues and sets, the socket that made it. As long as nobody is
    put in the login queue, which counts nothing, no step uses a session that
    is gone. *)
From Stdlib Require Import Ascii String ZArith Lia Sorted.
From stdpp Require Import base gmap list strings.
From S2P Require Import Prelude ByteBuffer World OpcodeTable Opcodes Routing Node Control Session SessionMgr.

Open Scope Z_scope.

(** ** Who holds a session *)
Definition occ (p : Z) (l : list Z) : Z := Z.of_nat (count_occ Z.eq_dec l p).

Lemma occ_app p l k : occ p (l ++ k) = occ p l + occ p k.
Proof. unfold occ. rewrite count_occ_app. lia. Qed.
Lemma occ_cons p q l : occ p (q :: l) = (if decide (q = p) then 1 else 0) + occ p l.
Proof. unfold occ. cbn. destruct (Z.eq_dec q p), (decide (q = p)); try done; lia. Qed.
Lemma occ_submseteq p l k : l ⊆+ k -> occ p l <= occ p k.
Proof.
  intros [m Hm]%submseteq_Permutation. unfold occ.
  rewrite (proj1 (Permutation_count_occ Z.eq_dec _ _) Hm), count_occ_app. lia.
Qed.
Lemma occ_in p l : p ∈ l -> 0 < occ p l.
Proof.
  intros Hp. unfold occ. apply list_elem_of_In, (count_occ_In Z.eq_dec) in Hp. lia.
Qed.

Definition refs (h : gmap Z Object) (p : Z) : Z :=
  match h !! p with Some o => _referenceCount o | None => 0 end.

(** The references of the sessions are enough for the places in [l]. *)
Definition held (l : list Z) (h : gmap Z Object) : Prop :=
  (forall p, occ p l <= refs h p) /\ (forall p o, h !! p = Some o -> 0 < _referenceCount o).

Definition carried (u : Updater) : list Z := _newSessions u ++ m_Sessions u.
Definition holders (m : Mgr) : list Z :=
  _addSessQueue m ++ (snd <$> map_to_list (_sessions m)) ++ concat (carried <$> _sessionupdater m).

Definition sets_ok (m : Mgr) : Prop :=
  Forall (fun u => StronglySorted Z.lt (m_Sessions u)) (_sessionupdater m).

(** [x] are the places outside the manager. *)
Definition inv (x : list Z) (m : Mgr) : Prop :=
  held (x ++ holders m) (heap m) /\ sets_ok m /\ _QueuedPlayer m = [].

Definition alive (p : Z) (m : Mgr) : Prop := is_Some (heap m !! p).

Lemma held_alive l h p : held l h -> p ∈ l -> is_Some (h !! p).
Proof.
  intros [Hc _] Hp%occ_in. specialize (Hc p). unfold refs in Hc. destruct (h !! p); [eauto|lia].
Qed.
Lemma held_weaken l k h : l ⊆+ k -> held k h -> held l h.
Proof. intros Hs [Hc Hp]. split; [|done]. intros p. etrans; [by apply occ_submseteq|apply Hc]. Qed.

Lemma held_same l h h' :
  (forall p, _referenceCount <$> h' !! p = _referenceCount <$> h !! p) -> held l h -> held l h'.
Proof.
  intros Hr [Hc Hp]. split.
  - intros p. specialize (Hr p). specialize (Hc p). unfold refs in *.
    destruct (h' !! p), (h !! p); cbn in Hr; try discriminate Hr; [by injection Hr as ->|done].
  - intros p o Ho. specialize (Hr p). rewrite Ho in Hr. destruct (h !! p) as [o'|] eqn:E; [|discriminate Hr].
    injection Hr as ->. by eapply Hp.
Qed.

Lemma held_take l h p o :
  h !! p = Some o -> held l h -> held (p :: l) (<[p := with_refs (_referenceCount o + 1) o]> h).
Proof.
  intros Ho [Hc Hp]. split.
  - intros q. specialize (Hc q). rewrite occ_cons. unfold refs in *.
    destruct (decide (p = q)) as [<-|Hn]; [rewrite lookup_insert_eq|rewrite lookup_insert_ne by done; lia].
    rewrite Ho in Hc. cbn. lia.
  - intros q o' Hq. destruct (decide (p = q)) as [<-|Hn].
    + rewrite lookup_insert_eq in Hq. injection Hq as <-. cbn. specialize (Hp _ _ Ho). lia.
    + rewrite lookup_insert_ne in Hq by done. by eapply Hp.
Qed.

Lemma held_give l h p o :
  h !! p = Some o -> held (p :: l) h ->
  held l (if _referenceCount o - 1 =? 0 then delete p h else <[p := with_refs (_referenceCount o - 1) o]> h).
Proof.
  intros Ho [Hc Hp]. pose proof (Hp _ _ Ho) as Hpos. split.
  - intros q. specialize (Hc q). rewrite occ_cons in Hc. unfold refs in *.
    destruct (Z.eqb_spec (_referenceCount o - 1) 0), (decide (p = q)) as [<-|Hn];
      rewrite ?lookup_delete_eq, ?lookup_insert_eq, ?lookup_delete_ne, ?lookup_insert_ne by done;
      rewrite ?Ho in Hc; cbn; lia.
  - intros q o' Hq. destruct (Z.eqb_spec (_referenceCount o - 1) 0), (decide (p = q)) as [<-|Hn];
      rewrite ?lookup_delete_eq, ?lookup_insert_eq, ?lookup_delete_ne, ?lookup_insert_ne in Hq by done;
      try discriminate Hq; try (by eapply Hp). injection Hq as <-. cbn. lia.
Qed.

Lemma held_new l h p o :
  h !! p = None -> _referenceCount o = 1 -> held l h -> held (p :: l) (<[p := o]> h).
Proof.
  intros Hn Ho [Hc Hp]. split.
  - intros q. specialize (Hc q). rewrite occ_cons. unfold refs in *.
    destruct (decide (p = q)) as [<-|Hne]; [rewrite lookup_insert_eq|rewrite lookup_insert_ne by done; lia].
    rewrite Hn in Hc. lia.
  - intros q o' Hq. destruct (decide (p = q)) as [<-|Hne].
    + rewrite lookup_insert_eq in Hq. injection Hq as <-. lia.
    + rewrite lookup_insert_ne in Hq by done. by eapply Hp.
Qed.

(** ** What code ensures when it ends, without using a deleted session *)
Definition safe {A} (x : MM A) (m : Mgr) (Q : A -> Mgr -> Prop) : Prop :=
  match x m with Fine (m', a) => Q a m' | Freed _ => False | Crashed => True end.

Lemma safe_bind {A B} (x : MM A) (k : A -> MM B) m Q :
  safe x m (fun a m' => safe (k a) m' Q) -> safe (andthen x k) m Q.
Proof. unfold safe, andthen. destruct (x m) as [[m' a]| |]; done. Qed.
Lemma safe_mono {A} (x : MM A) m (Q Q' : A -> Mgr -> Prop) :
  safe x m Q -> (forall a m', Q a m' -> Q' a m') -> safe x m Q'.
Proof. unfold safe. destruct (x m) as [[m' a]| |]; auto. Qed.
Lemma safe_when b (x : MM unit) m Q :
  (b = true -> safe x m Q) -> (b = false -> Q tt m) -> safe (mwhen b x) m Q.
Proof. destruct b; intros H1 H2; [by apply H1|by apply H2]. Qed.

Lemma safe_each {A} (I : list A -> Mgr -> Prop) (f : A -> MM unit) l m (Q : unit -> Mgr -> Prop) :
  I l m -> (forall x l m, I (x :: l) m -> safe (f x) m (fun _ m' => I l m')) ->
  (forall m', I [] m' -> Q tt m') -> safe (each l f) m Q.
Proof.
  intros HI Hf HQ. revert m HI. induction l as [|x l IH]; intros m HI; [by apply HQ|].
  cbn [each]. apply safe_bind. eapply safe_mono; [by apply Hf|]. intros [] m' HI'. by apply IH.
Qed.

(** What looking at sessions leaves as it was. *)
Record kept (m m' : Mgr) : Prop := {
  ke_refs : forall p, _referenceCount <$> heap m' !! p = _referenceCount <$> heap m !! p;
  ke_queue : _addSessQueue m' = _addSessQueue m;
  ke_sessions : _sessions m' = _sessions m;
  ke_updaters : _sessionupdater m' = _sessionupdater m;
  ke_login : _QueuedPlayer m' = _QueuedPlayer m
}.

#[export] Instance kept_preorder : PreOrder kept.
Proof.
  split; [by intros m|]. intros a b c [R1 Q1 S1 U1 L1] [R2 Q2 S2 U2 L2].
  split; [intros p; by rewrite R2|congruence..].
Qed.

Lemma kept_holders m m' : kept m m' -> holders m' = holders m.
Proof. intros [_ Hq Hs Hu _]. unfold holders. by rewrite Hq, Hs, Hu. Qed.

Lemma kept_inv x m m' : kept m m' -> inv x m -> inv x m'.
Proof.
  intros Hk (Hh & Hs & Hq). split_and!.
  - rewrite (kept_holders _ _ Hk). by eapply held_same; [apply Hk|].
  - unfold sets_ok. by rewrite (ke_updaters _ _ Hk).
  - by rewrite (ke_login _ _ Hk).
Qed.
Lemma kept_alive p m m' : kept m m' -> alive p m -> alive p m'.
Proof.
  intros Hk [o Ho]. pose proof (ke_refs _ _ Hk p) as Hr. unfold alive. rewrite Ho in Hr.
  destruct (heap m' !! p); [eauto|discriminate Hr].
Qed.
Lemma inv_alive x m p : inv x m -> p ∈ x ++ holders m -> alive p m.
Proof. intros (Hh & _) Hp. by eapply held_alive. Qed.

Lemma in_sessions m a p : _sessions m !! a = Some p -> p ∈ holders m.
Proof.
  intros Hp. unfold holders. rewrite !elem_of_app. right. left. apply list_elem_of_fmap.
  exists (a, p). split; [done|]. by apply elem_of_map_to_list.
Qed.

(** ** Rules for the operations on sessions *)
Lemma safe_deref p m (Q : Object -> Mgr -> Prop) :
  alive p m -> (forall o, heap m !! p = Some o -> Q o m) -> safe (deref p) m Q.
Proof. intros [o Ho] HQ. unfold safe, deref. rewrite Ho. by apply HQ. Qed.

Lemma kept_update p o f m :
  heap m !! p = Some o -> _referenceCount (f o) = _referenceCount o ->
  kept m (set_heap (<[p := f o]> (heap m)) m).
Proof.
  intros Ho Hf. split; try done. intros q. cbn. destruct (decide (p = q)) as [<-|Hn].
  - by rewrite lookup_insert_eq, Ho; cbn; rewrite Hf.
  - by rewrite lookup_insert_ne.
Qed.

Lemma safe_update p f m (Q : unit -> Mgr -> Prop) :
  alive p m -> (forall o, _referenceCount (f o) = _referenceCount o) ->
  (forall m', kept m m' -> Q tt m') -> safe (update_object p f) m Q.
Proof.
  intros Ha Hf HQ. apply safe_bind. apply safe_deref; [done|]. intros o Ho. apply HQ. by apply kept_update.
Qed.

Lemma safe_call {A} p (x : SM A) m (Q : A -> Mgr -> Prop) :
  alive p m -> (forall a m', kept m m' -> Q a m') -> safe (call p x) m Q.
Proof.
  intros Ha HQ. apply safe_bind. apply safe_deref; [done|]. intros o Ho. unfold safe.
  destruct (x _) as [s [a| |]]; [|done..]. apply HQ.
  destruct (kept_update p o (with_ses (ses s)) m Ho eq_refl) as [R Q' S U L]. by split.
Qed.

Lemma safe_addons p m (Q : unit -> Mgr -> Prop) :
  alive p m -> (forall m', kept m m' -> Q tt m') -> safe (SendAddonsInfo p) m Q.
Proof.
  intros Ha HQ. apply safe_bind, safe_deref; [done|]. intros o _. apply safe_bind, safe_update; [done..|].
  intros m1 K1. apply safe_call; [by eapply kept_alive|]. intros a m2 K2. destruct a. apply HQ. by etrans.
Qed.

(** References *)
Definition same_places (m m' : Mgr) : Prop :=
  _addSessQueue m' = _addSessQueue m /\ _sessions m' = _sessions m
  /\ _sessionupdater m' = _sessionupdater m /\ _QueuedPlayer m' = _QueuedPlayer m.
Lemma same_holders m m' : same_places m m' -> holders m' = holders m.
Proof. intros (Hq & Hs & Hu & _). unfold holders. by rewrite Hq, Hs, Hu. Qed.

Lemma safe_add_reference x p m :
  inv x m -> alive p m -> safe (add_reference p) m (fun _ m' => inv (p :: x) m' /\ same_places m m').
Proof.
  intros (Hh & Hs & Hq) Ha. apply safe_bind, safe_deref; [done|]. intros o Ho.
  split; [|done]. split; [|done]. cbn. by apply held_take.
Qed.

Lemma safe_remove_reference x p m :
  inv (p :: x) m -> safe (remove_reference p) m (fun _ m' => inv x m' /\ same_places m m').
Proof.
  intros (Hh & Hs & Hq). apply safe_bind, safe_deref.
  { eapply held_alive; [exact Hh|]. by left. }
  intros o Ho. split; [|done]. split; [|done]. cbn. by apply held_give.
Qed.

(** ** Moving sessions between places *)
Lemma inv_places x y m m' :
  heap m' = heap m -> y ++ holders m' ⊆+ x ++ holders m -> sets_ok m' -> _QueuedPlayer m' = [] ->
  inv x m -> inv y m'.
Proof. intros Eh Hsub Hs Hq (Hh & _). split; [|done]. rewrite Eh. by eapply held_weaken. Qed.

(** From [inv] of [Hi]: what is left is where the sessions are and the sets. *)
Ltac places Hi := eapply inv_places; [..|exact Hi]; [reflexivity| | |exact (proj2 (proj2 Hi))].

Lemma values_insert a s (M : gmap Z Z) : snd <$> map_to_list (<[a := s]> M) ⊆+ s :: (snd <$> map_to_list M).
Proof.
  rewrite <- insert_delete_eq, map_to_list_insert by apply lookup_delete_eq. cbn. apply submseteq_skip.
  apply fmap_submseteq, map_to_list_submseteq, delete_subseteq.
Qed.
Lemma values_delete a p (M : gmap Z Z) :
  M !! a = Some p -> snd <$> map_to_list M ≡ₚ p :: (snd <$> map_to_list (delete a M)).
Proof. intros Hp. by rewrite <- (map_to_list_delete M a p Hp). Qed.

Lemma concat_alter (f : Updater -> Updater) i us :
  (forall u, us !! i = Some u -> carried (f u) ⊆+ carried u) ->
  concat (carried <$> alter f i us) ⊆+ concat (carried <$> us).
Proof.
  revert i. induction us as [|u us IH]; intros [|i] Hf; try done; cbn.
  - apply submseteq_app; [by apply Hf|done].
  - apply submseteq_app; [done|]. by apply IH.
Qed.
Lemma concat_alter_take i s us :
  concat (carried <$> alter (SessionUpdater.take_in s) i us) ⊆+ s :: concat (carried <$> us).
Proof.
  revert i. induction us as [|u us IH]; intros [|i]; cbn; try (by apply submseteq_cons).
  - unfold carried at 1. cbn. solve_submseteq.
  - etrans; [apply submseteq_app; [reflexivity|apply IH]|]. solve_submseteq.
Qed.
Lemma concat_alter_erase i p u us :
  us !! i = Some u -> p ∈ m_Sessions u ->
  p :: concat (carried <$> alter (SessionUpdater.erase p) i us) ⊆+ concat (carried <$> us).
Proof.
  intros Hu Hp. assert (p :: carried (SessionUpdater.erase p u) ⊆+ carried u) as He.
  { unfold carried, SessionUpdater.erase. cbn.
    assert (forall l, p ∈ l -> p :: List.filter (fun q => negb (q =? p)) l ⊆+ l) as Hl.
    { intros l. induction l as [|q l IH]; [by intros ?%not_elem_of_nil|]. cbn.
      destruct (Z.eqb_spec q p) as [->|Hn]; cbn.
      - intros _. apply submseteq_skip. clear IH. induction l as [|q l IH]; [done|]. cbn.
        destruct (negb _); [by apply submseteq_skip|by apply submseteq_cons].
      - rewrite elem_of_cons. intros [->|Hl]; [done|]. specialize (IH Hl).
        etrans; [apply submseteq_swap|]. by apply submseteq_skip. }
    specialize (Hl _ Hp). rewrite Permutation_middle. by apply submseteq_app. }
  revert i Hu. induction us as [|v us IH]; intros [|i] Hu; try done; cbn in *.
  - injection Hu as ->. exact (submseteq_app _ _ _ _ He (reflexivity _)).
  - rewrite Permutation_middle. apply submseteq_app; [done|]. by apply IH.
Qed.

(** *** The sets of the threads *)
Lemma set_insert_submseteq p l : SessionUpdater.set_insert p l ⊆+ p :: l.
Proof.
  induction l as [|q l IH]; [done|]. cbn. destruct (p <? q); [done|]. destruct (p =? q); [by apply submseteq_cons|].
  etrans; [apply submseteq_skip, IH|]. apply submseteq_swap.
Qed.
Lemma set_insert_all_submseteq new l :
  foldl (fun l p => SessionUpdater.set_insert p l) l new ⊆+ new ++ l.
Proof.
  revert l. induction new as [|p new IH]; intros l; [done|]. cbn. etrans; [apply IH|].
  etrans; [apply submseteq_app; [reflexivity|apply set_insert_submseteq]|]. by rewrite <- Permutation_middle.
Qed.
Lemma set_insert_bound p q l : q < p -> Forall (Z.lt q) l -> Forall (Z.lt q) (SessionUpdater.set_insert p l).
Proof.
  intros Hp Hl. apply Forall_forall. intros x Hx.
  assert (x ∈ p :: l) as [->|Hx']%elem_of_cons by (by eapply elem_of_submseteq; [|apply set_insert_submseteq]); [done|].
  rewrite Forall_forall in Hl. by apply Hl.
Qed.
Lemma set_insert_sorted p l : StronglySorted Z.lt l -> StronglySorted Z.lt (SessionUpdater.set_insert p l).
Proof.
  induction 1 as [|q l Hl IH Hq]; cbn; [by repeat constructor|].
  destruct (Z.ltb_spec p q).
  - constructor; [by constructor|]. constructor; [done|]. eapply Forall_impl; [exact Hq|]. intros x Hx. cbn in Hx. lia.
  - destruct (Z.eqb_spec p q); [by constructor|]. constructor; [done|]. apply set_insert_bound; [lia|done].
Qed.
Lemma begin_pass_sorted u :
  StronglySorted Z.lt (m_Sessions u) -> StronglySorted Z.lt (m_Sessions (SessionUpdater.begin_pass u)).
Proof.
  intros Hs. unfold SessionUpdater.begin_pass.
  assert (forall v, StronglySorted Z.lt (m_Sessions v) -> StronglySorted Z.lt (m_Sessions (SessionUpdater.AddNewSessions v))) as Ha.
  { intros v Hv. cbn. revert Hv. generalize (m_Sessions v). induction (_newSessions v) as [|p new IH]; intros l Hl; [done|].
    cbn. by apply IH, set_insert_sorted. }
  apply Ha. destruct (_sleep u); [|done]. unfold SessionUpdater.SetSleep. destruct (_newSessions u); [constructor|done].
Qed.
Lemma begin_pass_carried u : carried (SessionUpdater.begin_pass u) ⊆+ carried u.
Proof.
  unfold SessionUpdater.begin_pass.
  assert (forall v, carried (SessionUpdater.AddNewSessions v) ⊆+ carried v) as Ha
    by (intros v; apply set_insert_all_submseteq).
  etrans; [apply Ha|]. destruct (_sleep u); [|done]. unfold SessionUpdater.SetSleep, carried.
  destruct (_newSessions u) eqn:E; cbn; [apply submseteq_nil_l|done].
Qed.
Lemma erase_sorted p u :
  StronglySorted Z.lt (m_Sessions u) -> StronglySorted Z.lt (m_Sessions (SessionUpdater.erase p u)).
Proof.
  cbn. induction 1 as [|q l Hl IH Hq]; cbn; [constructor|]. destruct (negb _); [|done].
  constructor; [done|]. apply Forall_forall. intros x Hx%list_elem_of_In%filter_In.
  rewrite Forall_forall in Hq. apply Hq, list_elem_of_In, Hx.
Qed.

Lemma sets_alter f i m :
  (forall u, StronglySorted Z.lt (m_Sessions u) -> StronglySorted Z.lt (m_Sessions (f u))) ->
  sets_ok m -> sets_ok (set_updaters (alter f i (_sessionupdater m)) m).
Proof. intros Hf Hs. unfold sets_ok in *. cbn. apply Forall_alter; [done|]. intros u _. apply Hf. Qed.

(** ** The operations *)
Section Manager.
Context `{UnorderedIter} (cfg : MgrConfig) (env : SessEnv).
Hypothesis no_limit : _playerLimit cfg = 0.

Import ClientSessionMgr.

Lemma safe_updater_add x i s m :
  inv x m -> alive s m ->
  safe (SessionUpdater.AddSession i s) m (fun _ m' => inv x m' /\ _addSessQueue m' = _addSessQueue m /\ _sessions m' = _sessions m).
Proof.
  intros Hi Ha. apply safe_bind. eapply safe_mono; [by apply (safe_add_reference x)|].
  intros [] m1 [Hi1 Hp]. cbn. split; [|by destruct Hp as (-> & -> & _)].
  pose proof Hi1 as (_ & Hs1 & Hq1). places Hi1.
  - unfold holders. cbn. rewrite Permutation_middle. apply submseteq_app; [done|].
    rewrite !Permutation_middle. do 2 (apply submseteq_app; [done|]). apply concat_alter_take.
  - by apply (sets_alter (SessionUpdater.take_in s)).
Qed.

Lemma safe_remove_session x id m (Q : bool -> Mgr -> Prop) :
  inv x m -> (forall m', kept m m' -> Q true m') -> safe (RemoveSession id) m Q.
Proof.
  intros Hi HQ. apply safe_bind. cbn. apply safe_bind. unfold FindSession.
  destruct (_sessions m !! id) as [p|] eqn:E; [|by apply HQ].
  apply safe_call; [|by intros [] m' Hk; apply HQ].
  eapply inv_alive; [exact Hi|]. apply elem_of_app. right. by eapply in_sessions.
Qed.

Lemma remove_queued_none p m : _QueuedPlayer m = [] -> RemoveQueuedPlayer cfg p m = Fine (m, false).
Proof. intros Hq. unfold RemoveQueuedPlayer, andthen, mget. cbn. rewrite Hq. cbn. by rewrite Hq. Qed.

Lemma safe_AddSession_ x s m :
  inv (s :: x) m ->
  safe (AddSession_ cfg s) m (fun _ m' => inv x m' /\ _addSessQueue m' = _addSessQueue m).
Proof.
  intros Hi. unfold AddSession_.
  apply safe_bind, safe_deref; [eapply inv_alive; [exact Hi|]; by left|]. intros o Ho.
  apply safe_bind, (safe_remove_session (s :: x)); [done|]. intros m1 K1.
  pose proof (kept_inv _ _ _ K1 Hi) as Hi1.
  apply safe_bind. cbn. apply safe_bind. unfold FindSession.
  assert (safe (match _sessions m1 !! _accountId (ob_ses o) with Some p => RemoveQueuedPlayer cfg p | None => ok false end) m1
            (fun b m' => b = false /\ m' = m1)) as Hq.
  { destruct (_sessions m1 !! _) as [p|]; [|done]. unfold safe. by rewrite remove_queued_none by apply Hi1. }
  eapply safe_mono; [exact Hq|]. intros b m' [-> ->].
  apply safe_bind. cbn. set (m2 := set_sessions _ m1).
  assert (inv x m2) as Hi2.
  { pose proof Hi1 as (_ & Hs1 & Hq1). places Hi1; [|exact Hs1].
    unfold holders, m2. cbn. rewrite (Permutation_middle x). apply submseteq_app; [done|].
    rewrite (Permutation_middle (_addSessQueue m1)). apply submseteq_app; [done|].
    change (?a :: ?b ++ ?c) with ((a :: b) ++ c). apply submseteq_app; [|done]. apply values_insert. }
  assert (_sessions m2 !! _accountId (ob_ses o) = Some s) as Hs2 by (unfold m2; cbn; apply lookup_insert_eq).
  assert (_addSessQueue m2 = _addSessQueue m) as Hq2 by apply K1.
  assert (forall m', inv x m' -> _sessions m' = _sessions m2 -> alive s m') as Hal.
  { intros m' Hm' Es. eapply inv_alive; [exact Hm'|]. apply elem_of_app. right. eapply in_sessions. by rewrite Es. }
  apply safe_bind. cbn. apply safe_bind. eapply safe_mono; [by apply (safe_updater_add x); [|apply Hal]|].
  intros [] m3 (Hi3 & Hq3 & Hs3). apply safe_bind. cbn. rewrite no_limit. cbn.
  apply safe_bind, safe_call; [by apply Hal|]. intros [] m4 K4.
  apply safe_bind, safe_addons; [eapply kept_alive; [exact K4|by apply Hal]|]. intros m5 K5.
  assert (kept m3 m5) as K by (by etrans). split.
  - exact (kept_inv _ _ _ K Hi3).
  - cbn. rewrite (ke_queue _ _ K). congruence.
Qed.

Lemma safe_add_new x m : inv x m -> safe (add_new cfg) m (fun _ => inv x).
Proof.
  intros Hi. apply safe_bind. cbn.
  apply (safe_each (fun l m => inv x m /\ _addSessQueue m = l)); [done| |by intros m' []].
  intros s l m1 [Hi1 Hq1]. apply safe_bind. cbn. rewrite Hq1. cbn. set (m2 := set_addq _ m1).
  eapply safe_mono; [apply (safe_AddSession_ x s)|by intros [] m3 [Hi3 ->]].
  pose proof Hi1 as (_ & Hs1 & Hl1). places Hi1; [|exact Hs1].
  unfold holders, m2. cbn. rewrite Hq1. cbn. by rewrite (Permutation_middle x).
Qed.

(** The entries a loop over the table has still to come to. *)
Definition entries_left (l : list (Z * Z)) (m : Mgr) : Prop :=
  NoDup (fst <$> l) /\ forall a p, (a, p) ∈ l -> _sessions m !! a = Some p.

Lemma entries_all m : entries_left (uiter (_sessions m)) m.
Proof.
  split; [rewrite uiter_perm; apply NoDup_fst_map_to_list|].
  intros a p Hp. rewrite uiter_perm in Hp. by apply elem_of_map_to_list.
Qed.
Lemma entries_head a p l m : entries_left ((a, p) :: l) m -> _sessions m !! a = Some p.
Proof. intros [_ He]. apply He. by left. Qed.
Lemma entries_next a p l m m' :
  entries_left ((a, p) :: l) m -> (_sessions m' = _sessions m \/ _sessions m' = delete a (_sessions m)) ->
  entries_left l m'.
Proof.
  intros [Hd He] Hs. cbn in Hd. apply NoDup_cons in Hd as [Hn Hd]. split; [done|].
  intros b q Hq. assert (_sessions m !! b = Some q) as Hb by (apply He; by right).
  destruct Hs as [->| ->]; [done|]. rewrite lookup_delete_ne; [done|]. intros ->. apply Hn.
  apply list_elem_of_fmap. by exists (b, q).
Qed.

(** A session leaves the table with its reference. *)
Lemma safe_forget x a p m :
  inv x m -> _sessions m !! a = Some p ->
  safe (remove_reference p ;!! mdo (fun m => set_sessions (delete a (_sessions m)) m)) m
    (fun _ m' => inv x m' /\ _sessions m' = delete a (_sessions m)).
Proof.
  intros Hi Hp. set (m0 := set_sessions (delete a (_sessions m)) m).
  assert (inv (p :: x) m0) as Hi0.
  { pose proof Hi as (_ & Hs & Hq). places Hi; [|exact Hs].
    unfold holders, m0. cbn. rewrite (values_delete a p (_sessions m) Hp). cbn.
    rewrite (Permutation_middle x), (Permutation_middle (_addSessQueue m)). done. }
  apply safe_bind. apply safe_bind, safe_deref.
  { eapply inv_alive; [exact Hi|]. apply elem_of_app. right. by eapply in_sessions. }
  intros o Ho. cbn. split; [|done]. destruct Hi0 as (Hh0 & Hs0 & Hq0). split; [|done].
  by apply (held_give _ (heap m) p o).
Qed.

Lemma safe_update_session x a p l m :
  inv x m -> entries_left ((a, p) :: l) m ->
  safe (update_session env a p) m (fun _ m' => inv x m' /\ entries_left l m').
Proof.
  intros Hi He. pose proof (entries_head _ _ _ _ He) as Hp.
  assert (alive p m) as Ha by (eapply inv_alive; [exact Hi|]; apply elem_of_app; right; by eapply in_sessions).
  apply safe_bind, safe_call; [done|]. intros b m1 K1. pose proof (kept_inv _ _ _ K1 Hi) as Hi1.
  apply safe_when; intros _.
  2: { split; [done|]. eapply entries_next; [exact He|]. left. apply K1. }
  apply safe_bind, safe_call; [by eapply kept_alive|]. intros [] m2 K2.
  assert (kept m m2) as K by (by etrans). pose proof (kept_inv _ _ _ K Hi) as Hi2.
  eapply safe_mono; [apply (safe_forget x a p); [done|by rewrite (ke_sessions _ _ K)]|].
  intros [] m3 [Hi3 Es]. split; [done|]. eapply entries_next; [exact He|]. right.
  by rewrite Es, (ke_sessions _ _ K).
Qed.

Lemma sets_sleep m : sets_ok m -> sets_ok (set_updaters (SessionUpdater.Sleep <$> _sessionupdater m) m).
Proof. intros Hs. unfold sets_ok in *. cbn. apply Forall_fmap. exact Hs. Qed.
Lemma carried_sleep (us : list Updater) : carried <$> (SessionUpdater.Sleep <$> us) = carried <$> us.
Proof. rewrite <- list_fmap_compose. apply list_fmap_ext. done. Qed.

Lemma safe_dynamics x diff m : inv x m -> safe (UpdateDynamics cfg diff) m (fun _ => inv x).
Proof.
  intros Hi. unfold UpdateDynamics. apply safe_bind. cbn.
  destruct (_ =? 1)%nat; [done|]. destruct (_ <=? _); [done|]. apply safe_bind. cbn.
  destruct (_ <=? _); [done|]. destruct (existsb _ _); [done|]. apply safe_bind. cbn.
  set (m1 := set_updaters _ _). assert (inv x m1) as Hi1.
  { pose proof Hi as (_ & Hs & Hq). places Hi.
    - unfold holders, m1. cbn. by rewrite carried_sleep.
    - by apply (sets_sleep (set_dyn_timer (dyn_interval cfg) m)). }
  apply safe_bind. cbn. apply (safe_each (fun l m => inv x m /\ entries_left l m)).
  - split; [done|]. apply (entries_all m1).
  - intros [a p] l m2 [Hi2 He2]. pose proof (entries_head _ _ _ _ He2) as Hp.
    eapply safe_mono; [apply (safe_updater_add x); [done|]|].
    + eapply inv_alive; [exact Hi2|]. apply elem_of_app. right. by eapply in_sessions.
    + intros [] m3 (Hi3 & _ & Hs3). split; [done|]. eapply entries_next; [exact He2|]. by left.
  - by intros m' [].
Qed.

Lemma safe_Update x diff m : inv x m -> safe (Update cfg env diff) m (fun _ => inv x).
Proof.
  intros Hi. apply safe_bind. eapply safe_mono; [by apply (safe_add_new x)|]. intros [] m1 Hi1.
  apply safe_bind. cbn. apply safe_bind.
  apply (safe_each (fun l m => inv x m /\ entries_left l m)).
  - split; [done|]. apply entries_all.
  - intros [a p] l m2 [Hi2 He2]. by apply safe_update_session.
  - intros m2 [Hi2 _]. apply safe_when; intros _; [by apply safe_dynamics|done].
Qed.

Lemma safe_ServerClose x m : inv x m -> safe ServerClose m (fun _ => inv x).
Proof.
  intros Hi. apply safe_bind. cbn. apply (safe_each (fun l m => inv x m /\ entries_left l m)).
  - split; [done|]. apply entries_all.
  - intros [a p] l m1 [Hi1 He1]. eapply safe_mono; [by apply (safe_forget x); [|eapply entries_head]|].
    intros [] m2 [Hi2 Es]. split; [done|]. eapply entries_next; [exact He1|]. by right.
  - by intros m' [].
Qed.

(** Broadcasts go to the sessions of the table. *)
Lemma safe_broadcast x data self team teams m :
  inv x m -> safe (SendGlobalMessage data self team teams) m (fun _ => inv x).
Proof.
  intros Hi. apply safe_bind. cbn. apply (safe_each (fun l m => inv x m /\ entries_left l m)).
  - split; [done|]. apply entries_all.
  - intros [a p] l m1 [Hi1 He1]. pose proof (entries_head _ _ _ _ He1) as Hp.
    assert (alive p m1) as Ha by (eapply inv_alive; [exact Hi1|]; apply elem_of_app; right; by eapply in_sessions).
    apply safe_bind, safe_deref; [done|]. intros o _.
    assert (inv x m1 /\ entries_left l m1) as Hsame by (split; [done|]; eapply entries_next; [exact He1|]; by left).
    destruct (s_player (ob_ses o)); [|done]. apply safe_when; intros _; [|done].
    apply safe_call; [done|]. intros [] m2 K. split; [by eapply kept_inv|].
    eapply entries_next; [exact He1|]. left. apply K.
  - by intros m' [].
Qed.

(** *** The threads *)
Lemma thread_holds i p m : p ∈ of_thread i m -> p ∈ holders m.
Proof.
  unfold of_thread, holders. destruct (_sessionupdater m !! i) as [u|] eqn:E; [|by intros ?%not_elem_of_nil].
  intros Hp. rewrite !elem_of_app. right. right. apply list_elem_of_In, in_concat. exists (carried u).
  split; [apply list_elem_of_In, list_elem_of_fmap; exists u; split; [done|by eapply list_elem_of_lookup_2]|].
  apply list_elem_of_In. unfold carried. rewrite elem_of_app. by right.
Qed.

Lemma safe_begin x i m : inv x m -> safe (SessionUpdater.on_updater i SessionUpdater.begin_pass) m (fun _ => inv x).
Proof.
  intros Hi. pose proof Hi as (_ & Hs & Hq). cbn. places Hi.
  - unfold holders. cbn. repeat (apply submseteq_app; [done|]). apply concat_alter. intros u _. apply begin_pass_carried.
  - apply sets_alter; [apply begin_pass_sorted|done].
Qed.

Lemma safe_update_one x i t p m :
  inv x m -> p ∈ of_thread i m ->
  safe (SessionUpdater.update_one env i t p) m (fun _ m' => inv x m'
    /\ forall q, q <> p -> q ∈ of_thread i m -> q ∈ of_thread i m').
Proof.
  intros Hi Hp. assert (alive p m) as Ha by (eapply inv_alive; [exact Hi|]; apply elem_of_app; right; by eapply thread_holds).
  apply safe_bind, safe_call; [done|]. intros b m1 K. pose proof (kept_inv _ _ _ K Hi) as Hi1.
  assert (of_thread i m1 = of_thread i m) as Et by (unfold of_thread; by rewrite (ke_updaters _ _ K)).
  rewrite <- Et in Hp. apply safe_when; intros _; [|split; [done|]; intros q _; by rewrite Et].
  rewrite <- Et. clear Et. pose proof Hp as Hp1. unfold of_thread in Hp.
  destruct (_sessionupdater m1 !! i) as [u|] eqn:Eu; [|by apply not_elem_of_nil in Hp].
  set (m2 := set_updaters (alter (SessionUpdater.erase p) i (_sessionupdater m1)) m1).
  assert (inv (p :: x) m2) as Hi2.
  { pose proof Hi1 as (_ & Hs & Hq). places Hi1.
    - unfold holders, m2. cbn. rewrite (Permutation_middle x), (Permutation_middle (_addSessQueue m1)),
        (Permutation_middle (snd <$> _)). repeat (apply submseteq_app; [done|]). by eapply concat_alter_erase.
    - apply sets_alter; [apply erase_sorted|done]. }
  apply safe_bind, safe_bind, safe_deref; [eapply inv_alive; [exact Hi1|]; apply elem_of_app; right; by eapply thread_holds|].
  intros o Ho. cbn. destruct Hi2 as (Hh2 & Hs2 & Hq2). split.
  - split; [|done]. by apply (held_give _ (heap m1) p o).
  - intros q Hq Hqi. unfold of_thread in *. cbn. rewrite list_lookup_alter_eq, Eu in *. cbn.
    apply list_elem_of_In, filter_In. split; [by apply list_elem_of_In|]. by apply negb_true_iff, Z.eqb_neq.
Qed.

Lemma safe_svc x i t m : inv x m -> safe (SessionUpdater.svc env i t) m (fun _ => inv x).
Proof.
  intros Hi. apply safe_bind. eapply safe_mono; [by apply (safe_begin x)|]. intros [] m1 Hi1.
  apply safe_bind. cbn. apply (safe_each (fun l m => inv x m /\ NoDup l /\ forall q, q ∈ l -> q ∈ of_thread i m)).
  - split; [done|]. split; [|done]. destruct Hi1 as (_ & Hs & _). unfold sets_ok in Hs.
    destruct (_sessionupdater m1 !! i) as [u|] eqn:E; [|constructor].
    rewrite Forall_lookup in Hs. specialize (Hs _ _ E). clear -Hs. induction Hs as [|q l Hl IH Hq]; [constructor|].
    constructor; [|done]. intros Hin. rewrite Forall_forall in Hq. specialize (Hq _ Hin). lia.
  - intros p l m2 (Hi2 & Hd & Hl). apply NoDup_cons in Hd as [Hn Hd].
    eapply safe_mono; [apply (safe_update_one x); [done|]; apply Hl; by left|].
    intros [] m3 [Hi3 Hk]. split; [done|]. split; [done|]. intros q Hq. apply Hk; [by intros ->|]. apply Hl. by right.
  - by intros m' [].
Qed.

(** *** Every step *)
Lemma safe_login_session p s addons x m :
  heap m !! p = None -> inv x m -> safe (login_session p s addons) m (fun _ => inv (p :: x)).
Proof.
  intros Hn Hi. apply safe_bind. cbn. set (m1 := set_heap _ m).
  assert (inv (p :: x) m1) as Hi1.
  { destruct Hi as (Hh & Hs & Hq). split; [|done]. by apply held_new. }
  apply safe_bind. eapply safe_mono; [apply (safe_add_reference (p :: x)); [done|]|].
  - exists (mkObject s 1 false addons). unfold m1. cbn. apply lookup_insert_eq.
  - intros [] m2 [Hi2 _]. cbn. places Hi2; [|exact (proj1 (proj2 Hi2))].
    unfold holders. cbn. rewrite <- (app_assoc _ [p]). cbn.
    by rewrite <- (Permutation_middle (_addSessQueue m2)), <- (Permutation_middle x).
Qed.

Lemma safe_step a c m : inv c m -> safe (mgr_step cfg env a c) m (fun c' m' => inv c' m').
Proof.
  intros Hi. unfold safe, mgr_step.
  assert (forall (x : MM unit) c', safe x m (fun _ => inv c') -> safe (x ;!! ok c') m (fun c' m' => inv c' m')) as Hok
    by (intros x c' Hx; by apply safe_bind; eapply safe_mono; [exact Hx|intros [] m' Hm']).
  destruct a as [p s addons|n|p s|r|diff|i|i t p|i t|type text teams|].
  - destruct (heap m !! p) eqn:E; [done|]. by apply Hok, safe_login_session.
  - destruct (c !! n) as [p|] eqn:E; [|done]. apply Hok. eapply safe_mono; [apply (safe_remove_reference (delete n c))|].
    + places Hi; [|exact (proj1 (proj2 Hi))].
      change (p :: ?a ++ ?b) with ((p :: a) ++ b). apply submseteq_app; [|done].
      by rewrite <- (delete_Permutation c n p E).
    + by intros [] m' [Hi' _].
  - destruct (heap m !! p) eqn:E; [|done]. apply Hok, safe_update; [by exists o|done|].
    intros m' K. by eapply kept_inv.
  - exact Hi.
  - by apply Hok, safe_Update.
  - by apply Hok, safe_begin.
  - case_bool_decide; [|done]. apply Hok. eapply safe_mono; [by apply (safe_update_one c)|]. by intros [] m' [].
  - by apply Hok, safe_svc.
  - apply Hok. unfold SendServerMessage. destruct (make _ _); [|done..]. by apply safe_broadcast.
  - by apply Hok, safe_ServerClose.
Qed.

Lemma safe_run l c m : inv c m -> safe (mgr_run cfg env l c) m (fun c' m' => inv c' m').
Proof.
  revert c m. induction l as [|a l IH]; intros c m Hi; [done|]. cbn.
  apply safe_bind. eapply safe_mono; [by apply safe_step|]. intros c' m' Hi'. by apply IH.
Qed.

Lemma inv_start n r : inv [] (mgr_start cfg n r).
Proof.
  assert (concat (carried <$> replicate n (mkUpdater 0 [] [] false)) = []) as E by (by induction n).
  split; [|split; [|done]].
  - unfold holders. cbn. rewrite map_to_list_empty. cbn. rewrite E. split; intros p; cbn; [done|].
    intros o Ho. by rewrite lookup_empty in Ho.
  - unfold sets_ok. cbn. apply Forall_replicate. constructor.
Qed.
End Manager.

(** C5. Without a limit on the number of players, no interleaving of logins, the
    manager's updates, the rounds of its threads, broadcasts and the shutdown
    ever uses a session that has been deleted, and every session that one of
    them can still reach is alive. *)
Theorem sessions_alive `{UnorderedIter} cfg env n r l :
  _playerLimit cfg = 0 ->
  match mgr_run cfg env l [] (mgr_start cfg n r) with
  | Fine (m, c) => forall p, p ∈ c ++ holders m -> alive p m
  | Freed _ => False
  | Crashed => True
  end.
Proof.
  intros Hl. pose proof (safe_run cfg env Hl l [] _ (inv_start cfg n r)) as Hs. unfold safe in Hs.
  destruct (mgr_run _ _ _ _ _) as [[m c]| |]; [|done..]. intros p Hp. by eapply inv_alive.
Qed.
