(* ===== verification/SessionMgrScene.v ===== *)
(** * Clients log in and leave: runs of the session manager

    Small runs that show the theorem at work, and what the manager does
    wrong. *)
From Stdlib Require Import Ascii String ZArith Lia.
From stdpp Require Import base gmap list strings.
From S2P Require Import Prelude ByteBuffer World Routing Node Control Session SessionAuth SessionMgr SessionMgrFacts.

Open Scope Z_scope.

Definition ex_cfg (limit : Z) : MgrConfig := mkMgrConfig limit 30 false 90000 12340.

Definition ex_client (account : Z) (closing : bool) : ClientSession :=
  let sock := if closing then socket_close ex_sock else ex_sock in
  ses (ClientSession_new false true 0 account 0 2 (Some sock) ex_routing).
Definition ex_login (p account : Z) : list MgrAction :=
  [MLogin p (ex_client account false) []; MHandedOver 0; MUpdate 50].
(** The client closes the connection; the manager and the first thread notice. *)
Definition ex_leave (p account : Z) : list MgrAction :=
  [MSession p (ex_client account true); MUpdate 50; MRound 0 (fun _ => ex_tick 50)].

Definition ex_run (limit : Z) (l : list MgrAction) : fate (Mgr * list Z) :=
  mgr_run (ex_cfg limit) ex_senv l [] (mgr_start (ex_cfg limit) 2 ex_routing).

(** What can be seen of the outcome: the sessions that are there with their
    references, the table, the threads' counters, the login queue. *)
Definition seen (x : fate (Mgr * list Z)) :=
  match x with
  | Fine (m, _) => Fine (prod_map id _referenceCount <$> map_to_list (heap m), map_to_list (_sessions m),
                         m_Counter <$> _sessionupdater m, _QueuedPlayer m)
  | Freed p => Freed p
  | Crashed => Crashed
  end.

(** Two clients come, each to a thread of their own; one leaves and is gone. *)
Definition ex_two : list MgrAction :=
  ex_login 101 1 ++ ex_login 102 2 ++ [MRound 0 (fun _ => ex_tick 50); MRound 1 (fun _ => ex_tick 50)] ++ ex_leave 101 1.
Example two_clients : seen (ex_run 0 ex_two) = Fine ([(102, 2)], [(2, 102)], [0; 1], []).
Proof. vm_compute. reflexivity. Qed.

Lemma sessions_alive_witness :
  match ex_run 0 ex_two with
  | Fine (m, c) => forall p, p ∈ c ++ holders m -> alive p m
  | Freed _ => False
  | Crashed => True
  end.
Proof.
  unfold ex_run. pose proof (sessions_alive (ex_cfg 0) ex_senv 2 ex_routing ex_two eq_refl) as Hs. exact Hs.
Defined.

(** *** What goes wrong *)

(** An account that logs in a second time: its old session loses its place in
    the table and keeps the reference, so it is never deleted. *)
Example old_session_kept :
  seen (ex_run 0 (ex_login 101 1 ++ [MRound 0 (fun _ => ex_tick 50)] ++ ex_login 102 1
          ++ [MRound 0 (fun _ => ex_tick 50); MRound 1 (fun _ => ex_tick 50)]
          ++ ex_leave 102 1 ++ [MRound 1 (fun _ => ex_tick 50)]))
  = Fine ([(101, 1)], [], [0; 0], []).
Proof. vm_compute. reflexivity. Qed.

(** Nobody moves up in the login queue when a player leaves. *)
Example queue_stands :
  seen (ex_run 1 (ex_login 101 1 ++ ex_login 102 2 ++ [MRound 0 (fun _ => ex_tick 50); MRound 1 (fun _ => ex_tick 50)]
          ++ ex_leave 101 1 ++ [MUpdate 50; MUpdate 50]))
  = Fine ([(102, 2)], [(2, 102)], [0; 1], [102]).
Proof. vm_compute. reflexivity. Qed.

(** A player who leaves while queued stays in the queue after their session has
    been deleted; the next account that logs in again makes the manager use
    it. *)
Example queued_session_deleted :
  seen (ex_run 1 (ex_login 101 1 ++ ex_login 102 2 ++ ex_login 103 3
          ++ [MRound 0 (fun _ => ex_tick 50); MRound 1 (fun _ => ex_tick 50)]
          ++ ex_leave 102 2 ++ [MRound 1 (fun _ => ex_tick 50)] ++ ex_login 104 3))
  = Freed 102.
Proof. vm_compute. reflexivity. Qed.
