(* ===== verification/Rebase.v ===== *)
(** * The renumbering of item GUIDs

    [RebaseClass] of [shade/Database/DatabaseRoutines.cpp], which empties the
    tables that refer to items and fills them again from copies, with the items
    numbered from 1 on; [WorldDatabaseRebase], which does the like for
    creatures; and the timers that start it ([UpdateTimers]).  A component is a
    function from the rows it reads to the statements it sends. *)
From Stdlib Require Import Ascii String ZArith Lia.
From stdpp Require Import base gmap list strings.
From S2P Require Import Prelude ByteBuffer Util World Routing Node Control.

Open Scope Z_scope.

Definition WRAPS : nat := 1000.
Definition SEC_IN_DAY : Z := 86400.
Definition MAX_QUERY_LEN : nat := 32 * 1024.
Definition LOGON_REBASE_STATE : Z := 1.
Definition SHUTDOWN_MASK_HALT : Z := 3.

(** ** Rows *)
Record Cell := mkCell {
  c_value : option string;             (* [NULL], or the text MySQL sends *)
  c_numeric : bool
}.
Abbreviation Row := (list Cell).

(** [fields[i]] *)
Definition field (i : nat) (fields : Row) : outcome Cell :=
  match fields !! i with Some c => Ok c | None => UB end.

Definition GetString (c : Cell) : string := match c_value c with Some s => c_str s | None => "" end.
Definition GetUInt32 (c : Cell) : Z := match c_value c with Some s => u32 (atol (c_str s)) | None => 0 end.

(** The GUIDs in the order of the query, numbered from 1, are added to
    [_ItemMap], which keeps what earlier runs have left in it. *)
Fixpoint number_from (count : Z) (guids : list Z) (m : gmap Z Z) : gmap Z Z :=
  match guids with
  | [] => m
  | g :: guids => let count := u32 (count + 1) in number_from count guids (<[g := count]> m)
  end.
Fixpoint column (i : nat) (rows : list Row) : outcome (list Z) :=
  match rows with
  | [] => Ok []
  | r :: rows => let* c := field i r in let* l := column i rows in Ok (GetUInt32 c :: l)
  end.
Definition collect (_ItemMap : gmap Z Z) (rows : list Row) : outcome (gmap Z Z) :=
  let* l := column 0 rows in Ok (number_from 0 l _ItemMap).

Section Text.
(** [mysql_real_escape_string] *)
Context (escape : string -> string).
Local Open Scope string_scope.

(** ** The text of a row *)
Definition EscapeString (s : string) : string :=
  match s with EmptyString => EmptyString | _ => c_str (escape s) end.

Definition quoted (s : string) : string := "'" ++ s ++ "'".
Definition cell_text (c : Cell) : string :=
  let s := EscapeString (GetString c) in
  match s with EmptyString => if c_numeric c then "null" else "''" | _ => quoted s end.

Fixpoint fields_text (value : nat -> option Z) (i : nat) (fields : Row) : string :=
  match fields with
  | [] => ""
  | c :: rest =>
      (match value i with Some v => quoted (print_u64 v) | None => cell_text c end)
      ++ (match rest with [] => "" | _ => ", " end)
      ++ fields_text value (S i) rest
  end.

Definition SingleGUID (offset : nat) (value : Z) (fields : Row) : string :=
  " (" ++ fields_text (fun i => if (i =? offset)%nat then Some value else None) 0 fields ++ ")".
Definition DoubleGUID (offset : nat) (value : Z) (offsetb : nat) (valueb : Z) (fields : Row) : string :=
  " (" ++ fields_text (fun i => if (i =? offset)%nat then Some value
                                else if (i =? offsetb)%nat then Some valueb else None) 0 fields ++ ")".

(** ** Statements built row by row

    The rows waiting in the stream and their number, the statements sent. *)
Record Build := mkBuild { counter : nat; ss : string; sent : list string }.
Definition start : Build := mkBuild 0 "" [].

Definition newline : string := String (ascii_of_nat 10) "".
Definition insert_into (table : string) : string := "INSERT IGNORE INTO " ++ table ++ " VALUES".

(** What follows the first row of a statement and the others. *)
Record Style := mkStyle { first_end : string; next_end : string }.

Definition append_row (sty : Style) (table text : string) (b : Build) : Build :=
  mkBuild (S (counter b))
    (ss b ++ (if (counter b =? 0)%nat then insert_into table ++ text ++ first_end sty
              else "," ++ text ++ next_end sty))
    (sent b).
Definition flush (b : Build) : Build := mkBuild 0 "" (sent b ++ [ss b])%list.

(** The loop over the rows of a result; [render] skips rows of items that are
    not there. *)
Fixpoint build_rows (sty : Style) (table : string) (limit : nat) (render : Row -> outcome (option string))
  (rows : list Row) (b : Build) : outcome Build :=
  match rows with
  | [] => Ok b
  | r :: rows =>
      let* t := render r in
      build_rows sty table limit render rows
        (match t with
         | None => b
         | Some text => let b := append_row sty table text b in if (counter b =? limit)%nat then flush b else b
         end)
  end.

Definition render_single (items : gmap Z Z) (offset : nat) (fields : Row) : outcome (option string) :=
  let* c := field offset fields in
  Ok (match items !! GetUInt32 c with
      | None => None
      | Some new_guid => Some (SingleGUID offset new_guid fields)
      end).

Definition render_double (items : gmap Z Z) (a b : nat) (fields : Row) : outcome (option string) :=
  let* ca := field a fields in
  let* cb := field b fields in
  Ok (match items !! GetUInt32 ca, items !! GetUInt32 cb with
      | Some ga, Some gb => Some (DoubleGUID a ga b gb fields)
      | _, _ => None
      end).

(** Every table but the two large ones: the rest is sent after the loop, even
    when it is empty. *)
Definition rebase_table (sty : Style) (table : string) (limit : nat) (render : Row -> outcome (option string))
  (rows : list Row) : outcome (list string) :=
  match rows with
  | [] => Ok []
  | _ => let* b := build_rows sty table limit render rows start in Ok (sent b ++ [ss b])%list
  end.

Definition style : Style := mkStyle "" newline.

Definition Auctionhouse (items : gmap Z Z) := rebase_table style "auctionhouse" (WRAPS / 4) (render_single items 2).
Definition CharacterGifts (items : gmap Z Z) := rebase_table style "character_gifts" (WRAPS / 2) (render_single items 1).
Definition GuildBankItem (items : gmap Z Z) := rebase_table style "guild_bank_item" (WRAPS / 2) (render_single items 3).
Definition ItemRefundInstance (items : gmap Z Z) :=
  rebase_table style "item_refund_instance" (WRAPS / 10) (render_single items 0).
Definition ItemSoulboundTradeData (items : gmap Z Z) :=
  rebase_table style "item_soulbound_trade_data" (WRAPS / 10) (render_single items 0).
Definition MailItems (items : gmap Z Z) := rebase_table style "mail_items" (WRAPS / 2) (render_single items 1).
Definition Petition (items : gmap Z Z) := rebase_table style "petition" WRAPS (render_single items 1).
Definition PetitionSign (items : gmap Z Z) := rebase_table style "petition_sign" WRAPS (render_single items 1).

(** *** The large tables, read in blocks *)
Definition add : Z := 500000.

(** [SELECT * FROM temp_... LIMIT min, n] *)
Definition block_rows (min : Z) (n : option Z) (rows : list Row) : list Row :=
  let rest := drop (Z.to_nat min) rows in match n with Some n => take (Z.to_nat n) rest | None => rest end.

Fixpoint block_loop (fuel : nat) (sty : Style) (table : string) (limit : nat)
  (render : Row -> outcome (option string)) (rows : list Row) (max_loops min_loops : Z) (b : Build)
  : outcome (option Build) :=
  match fuel with
  | O => Ok None
  | S fuel =>
      if (min_loops <? max_loops)%Z then
        let result := block_rows min_loops (if (u32 (min_loops + add) <? max_loops)%Z then Some add else None) rows in
        let* b := build_rows sty table limit render result b in
        let b := if (counter b =? 0)%nat then b else flush b in
        block_loop fuel sty table limit render rows max_loops (u32 (min_loops + add)%Z) b
      else Ok (Some b)
  end.

Definition rebase_blocks (fuel : nat) (sty : Style) (table : string) (limit : nat)
  (render : Row -> outcome (option string)) (rows : list Row) : outcome (option (list string)) :=
  let* b := block_loop fuel sty table limit render rows (u32 (Z.of_nat (length rows))) 0 start in
  Ok (sent <$> b).

(** An item in a bag refers to the bag, too. *)
Definition render_inventory (items : gmap Z Z) (fields : Row) : outcome (option string) :=
  let* bag := field 1 fields in
  if (GetUInt32 bag =? 0)%Z then render_single items 3 fields else render_double items 1 3 fields.

Definition CharacterInventory (fuel : nat) (items : gmap Z Z) :=
  rebase_blocks fuel (mkStyle "" "") "character_inventory" 1000 (render_inventory items).
Definition ItemInstance (fuel : nat) (items : gmap Z Z) :=
  rebase_blocks fuel style "item_instance" 5000 (render_single items 0).

(** *** Creatures

    [WorldDatabaseRebase]; only the first and the last are called. *)
Definition world_style : Style := mkStyle newline newline.
Definition RebaseCreatures (creatures : gmap Z Z) :=
  rebase_table world_style "temp_creature" (WRAPS / 10) (render_single creatures 0).
Definition RebaseCreatureAddons (creatures : gmap Z Z) :=
  rebase_table world_style "creature_addon" (WRAPS / 10) (render_single creatures 0).
Definition RebaseCreatureFormations (creatures : gmap Z Z) :=
  rebase_table world_style "creature_formations" (WRAPS / 10) (render_double creatures 0 1).
Definition RebaseLinkedRespawn (creatures : gmap Z Z) :=
  rebase_table world_style "temp_linked_respawn" (WRAPS / 10) (render_single creatures 0).

(** ** What reaches the database

    [PExecute] and [DirectPExecute] take the text for a format without
    arguments and cut it to their buffer. *)
Definition PExecute (sql : string) : outcome string :=
  let* t := formatted sql in Ok (substring 0 (MAX_QUERY_LEN - 1) t).

(** ** The whole *)
Definition rebased_tables : list string :=
  ["auctionhouse"; "character_gifts"; "guild_bank_item"; "item_refund_instance"; "item_soulbound_trade_data";
   "mail_items"; "petition"; "petition_sign"; "character_inventory"; "item_instance"].

(** In what order things happen: statements sent at once, statements put in the
    queue, a packet to all nodes. The two threads run beside the main one. *)
Inductive Step :=
| Direct (sql : string)
| Queued (sql : string)
| ToNodes (p : WorldPacket)
| Continue.

Definition Init : list Step :=
  ((fun t => Direct ("CREATE TABLE temp_" ++ t ++ " SELECT * FROM " ++ t)) <$> rebased_tables)
  ++ ((fun t => Direct ("TRUNCATE " ++ t)) <$>
        ["auctionhouse"; "character_gifts"; "character_inventory"; "guild_bank_item"; "item_instance";
         "item_refund_instance"; "item_soulbound_trade_data"; "mail_items"; "petition"; "petition_sign"]).
Definition Cleanup : list Step :=
  (fun t => Queued ("DROP TABLE IF EXISTS temp_" ++ t)) <$>
    ["auctionhouse"; "character_gifts"; "character_inventory"; "guild_bank_item"; "item_instance";
     "item_refund_instance"; "item_soulbound_trade_data"; "mail_items"; "petition"; "petition_sign"].

(** The statements of [SetHighestGuids]. *)
Definition item_column (table : string) : string :=
  if String.eqb table "character_inventory" then "item"
  else if String.eqb table "auctionhouse" then "itemguid" else "item_guid".
Definition clean_statement (table : string) (guid : Z) : string :=
  "DELETE FROM " ++ table ++ " WHERE " ++ item_column table ++ " >= " ++ quoted (print_u64 guid).

Definition shutdown_packet : outcome WorldPacket := make LOGON_SYNC_DATA [U32 CL_DEF_SHUTDOWN; U32 1].

Definition queue_all (l : list string) : outcome (list Step) :=
  foldr (fun s acc => let* t := PExecute s in let* acc := acc in Ok (Queued t :: acc)) (Ok []) l.

Record Run := mkRun {
  run_main : list Step;              (* up to the point where the threads are waited for *)
  run_items : list Step;             (* the two threads *)
  run_inventory : list Step;
  run_after : list Step
}.

Context `{UnorderedIter}.

(** [db] is the content of each table when it starts. Without items everything
    ends after the tables have been emptied. [None]: a block loop has not come
    to its end. *)
Definition Begin (fuel : nat) (realmID : Z) (_ItemMap : gmap Z Z) (db : string -> list Row) (r : RoutingHelper)
  (q : MaxQueries) (h : Highest) : outcome (option (Run * gmap Z Z * RoutingHelper * Highest)) :=
  match db "item_instance" with
  | [] => Ok (Some (mkRun Init [] [] [], _ItemMap, r, h))
  | rows =>
      let* items := collect _ItemMap rows in
      let* it := ItemInstance fuel items (db "item_instance") in
      let* inv := CharacterInventory fuel items (db "character_inventory") in
      let* a := Auctionhouse items (db "auctionhouse") in
      let* g := CharacterGifts items (db "character_gifts") in
      let* gb := GuildBankItem items (db "guild_bank_item") in
      let* rf := ItemRefundInstance items (db "item_refund_instance") in
      let* sb := ItemSoulboundTradeData items (db "item_soulbound_trade_data") in
      let* m := MailItems items (db "mail_items") in
      let* p := Petition items (db "petition") in
      let* s := PetitionSign items (db "petition_sign") in
      let* main := queue_all (a ++ g ++ gb ++ rf ++ sb ++ m ++ p ++ s)%list in
      let* packet := shutdown_packet in
      match it, inv with
      | Some it, Some inv =>
          let (h, cleaned) := SetHighestGuids q h in
          Ok (Some (mkRun (Init ++ main)%list (Direct <$> it) (Direct <$> inv)
                      (Cleanup ++ [ToNodes packet]
                       ++ ((fun '(t, g) => Queued (clean_statement t g)) <$> cleaned)
                       ++ [Continue; Direct ("UPDATE realmlist SET flag = flag & 1, population = 0 WHERE id = "
                                             ++ quoted (print_u64 realmID))])%list,
                    items, ResetLastGUID r, h))
      | _, _ => Ok None
      end
  end.
End Text.

(** ** When it starts *)
Record Halt := mkHalt { m_HaltTimer : Z; m_haltEvent : bool; m_ShutdownMask : Z }.
Record Timers := mkTimers { m_NextRebaseTime : Z; m_NextRebaseTimePlus : Z }.

Definition HaltServ (time options : Z) (h : Halt) : Halt :=
  if u32 time =? 0 then mkHalt (m_HaltTimer h) true options else mkHalt (u32 time) (m_haltEvent h) options.

Definition InitAutomaticRebase (state curtime : Z) : Timers :=
  if state <? curtime then mkTimers curtime (curtime + 180) else mkTimers state (state + 180).

Inductive TimerAction :=
| SetLogonState (index value : Z)
| ShutdownNodes                        (* the packet of [shutdown_packet], to all nodes *)
| BeginRebase.

(** [time(NULL)] is the same throughout. *)
Definition UpdateTimers (now interval : Z) (h : Halt) (t : Timers) : Timers * Halt * list TimerAction :=
  if (m_NextRebaseTime t - 43200 <? now) && (0 <? m_HaltTimer h) then (t, h, [])
  else
    let h := if m_NextRebaseTime t - 43200 <? now then
               let temp := m_NextRebaseTime t - now in
               if temp <=? 1 then HaltServ 0 SHUTDOWN_MASK_HALT h else HaltServ temp SHUTDOWN_MASK_HALT h
             else h in
    let '(t, a) :=
      if m_NextRebaseTime t <? now then
        let next := m_NextRebaseTime t + SEC_IN_DAY * interval in
        (mkTimers next (m_NextRebaseTimePlus t), [SetLogonState LOGON_REBASE_STATE next; ShutdownNodes])
      else (t, []) in
    if m_NextRebaseTimePlus t <? now
    then (mkTimers (m_NextRebaseTime t) (m_NextRebaseTime t + 180), h, a ++ [BeginRebase])
    else (t, h, a).
