(* ===== verification/RebaseFacts.v ===== *)
(** * The renumbering is consistent

    Every item gets a number of its own, from 1 without gaps; every table is
    filled again with exactly the rows whose items there are, each reference
    replaced by the item's number, in statements of bounded numbers of rows;
    the loops over blocks of a large table come to an end. *)
From Stdlib Require Import Ascii String ZArith Lia.
From stdpp Require Import base gmap list strings.
From S2P Require Import Prelude ByteBuffer Util World Routing Node Control Rebase.

Open Scope Z_scope.

(** ** Numbers *)
Lemma number_from_other count guids m g :
  g ∉ guids -> number_from count guids m !! g = m !! g.
Proof.
  revert count m. induction guids as [|x guids IH]; intros count m Hg; [done|].
  apply not_elem_of_cons in Hg as [Hx Hg]. cbn. rewrite IH by done. by apply lookup_insert_ne.
Qed.

Lemma number_from_at count guids m i g :
  NoDup guids -> 0 <= count -> count + Z.of_nat (length guids) < 2 ^ 32 -> guids !! i = Some g ->
  number_from count guids m !! g = Some (count + 1 + Z.of_nat i).
Proof.
  intros Hd. revert count m i. induction Hd as [|x guids Hx Hd IH]; intros count m i Hc Hl Hi; [done|].
  cbn [length] in Hl. cbn. rewrite wrap_small by lia. destruct i as [|i]; cbn in Hi.
  - injection Hi as ->. rewrite number_from_other by done. rewrite lookup_insert_eq. f_equal. lia.
  - rewrite (IH _ _ i) by (done || lia). f_equal. lia.
Qed.

Lemma column_length i rows l : column i rows = Ok l -> length l = length rows.
Proof.
  revert l. induction rows as [|r rows IH]; intros l; cbn; [by intros [= <-]|].
  destruct (field i r); cbn; [|done..]. destruct (column i rows) as [l'| |]; cbn; [|done..].
  intros [= <-]. cbn. f_equal. by apply IH.
Qed.

(** C38. The renumbering of items: with distinct GUIDs in the table, the item in the
    k-th row gets the number k, so the numbers are those from 1 to the number
    of items, each given to one item; what else is in the map is left from an
    earlier run. *)
Theorem renumbering m0 rows guids :
  column 0 rows = Ok guids -> NoDup guids -> Z.of_nat (length rows) < 2 ^ 32 ->
  exists items, collect m0 rows = Ok items
    /\ (forall i g, guids !! i = Some g -> items !! g = Some (Z.of_nat i + 1))
    /\ (forall g k, items !! g = Some k ->
          (1 <= k <= Z.of_nat (length rows) /\ guids !! Z.to_nat (k - 1) = Some g) \/ (g ∉ guids /\ m0 !! g = Some k))
    /\ (forall g g' k, g ∈ guids -> g' ∈ guids -> items !! g = Some k -> items !! g' = Some k -> g = g').
Proof.
  intros Hc Hd Hl. pose proof (column_length _ _ _ Hc) as Hlen.
  unfold collect. rewrite Hc. cbn. eexists. split; [reflexivity|].
  assert (forall i g, guids !! i = Some g -> number_from 0 guids m0 !! g = Some (Z.of_nat i + 1)) as Hat.
  { intros i g Hi. rewrite (number_from_at 0 guids m0 i g) by (done || lia). f_equal. lia. }
  assert (forall g k, g ∈ guids -> number_from 0 guids m0 !! g = Some k ->
            1 <= k <= Z.of_nat (length rows) /\ guids !! Z.to_nat (k - 1) = Some g) as Hinv.
  { intros g k [i Hi]%list_elem_of_lookup Hk. rewrite (Hat _ _ Hi) in Hk. injection Hk as <-.
    pose proof (lookup_lt_Some _ _ _ Hi). split; [lia|]. by replace (Z.to_nat (Z.of_nat i + 1 - 1)) with i by lia. }
  split; [exact Hat|]. split.
  - intros g k Hk. destruct (decide (g ∈ guids)) as [Hg|Hg]; [left; by apply Hinv|right].
    split; [done|]. by rewrite number_from_other in Hk.
  - intros g g' k Hg Hg' Hk Hk'. apply (Hinv _ _ Hg) in Hk as [_ Hk]. apply (Hinv _ _ Hg') in Hk' as [_ Hk']. congruence.
Qed.

(** ** Statements *)
Section Text.
Context (escape : string -> string).
Local Open Scope string_scope.

(** The statement for some rows, and nothing at all for none. *)
Definition statement (sty : Style) (table : string) (l : list string) : string :=
  match l with
  | [] => ""
  | t :: l => insert_into table ++ t ++ first_end sty ++ foldr (fun t acc => "," ++ t ++ next_end sty ++ acc) "" l
  end.

Lemma statement_snoc sty table l t :
  l <> [] -> statement sty table (l ++ [t])%list = statement sty table l ++ "," ++ t ++ next_end sty.
Proof.
  destruct l as [|x l]; [done|]. intros _. cbn [statement app].
  assert (foldr (fun t acc => "," ++ t ++ next_end sty ++ acc) "" (l ++ [t])%list
          = foldr (fun t acc => "," ++ t ++ next_end sty ++ acc) "" l ++ "," ++ t ++ next_end sty) as ->.
  { induction l as [|y l IH]; [cbn; by rewrite string_app_nil_r|]. cbn [foldr app]. rewrite IH.
    cbn. by rewrite !string_app_assoc. }
  by rewrite !string_app_assoc.
Qed.

(** The state of a loop: the groups of rows sent, and the rows that wait. *)
Definition building (sty : Style) (table : string) (b : Build) (cs : list (list string)) (last : list string) : Prop :=
  sent b = statement sty table <$> cs /\ ss b = statement sty table last /\ counter b = length last.

Lemma append_row_building sty table text b cs last :
  building sty table b cs last -> building sty table (append_row sty table text b) cs (last ++ [text])%list.
Proof.
  intros (Hs & Ht & Hc). split; [done|]. cbn. rewrite Hc, Ht, length_app. cbn. split; [|lia].
  destruct last as [|x last]; cbn [length Nat.eqb app].
  - cbn [statement foldr]. by rewrite !string_app_nil_r.
  - change (x :: (last ++ [text])%list) with ((x :: last) ++ [text])%list. by rewrite statement_snoc.
Qed.

Lemma flush_building sty table b cs last :
  building sty table b cs last -> building sty table (flush b) (cs ++ [last])%list [].
Proof. intros (Hs & Ht & Hc). split; [|done]. cbn. by rewrite Hs, Ht, fmap_app. Qed.

Lemma build_spec sty table limit render f rows b cs last :
  (0 < limit)%nat -> (forall r, r ∈ rows -> render r = Ok (f r)) ->
  building sty table b cs last -> (length last < limit)%nat ->
  exists b' cs' last', build_rows sty table limit render rows b = Ok b' /\ building sty table b' (cs ++ cs')%list last'
    /\ Forall (fun c => length c = limit) cs' /\ (length last' < limit)%nat
    /\ (concat cs' ++ last')%list = (last ++ omap f rows)%list.
Proof.
  intros Hl. revert b cs last. induction rows as [|r rows IH]; intros b cs last Hf Hb Hlast.
  { exists b, [], last. cbn. rewrite !app_nil_r. by split_and!. }
  assert (forall r, r ∈ rows -> render r = Ok (f r)) as Hf' by (intros x Hx; apply Hf; by right).
  cbn [build_rows]. rewrite Hf by (by left). cbn [obind omap list_omap]. destruct (f r) as [text|].
  2: { destruct (IH b cs last Hf' Hb Hlast) as (b' & cs' & last' & E & H). by exists b', cs', last'. }
  pose proof (append_row_building _ _ text _ _ _ Hb) as Ha.
  pose proof (proj2 (proj2 Ha)) as Hc. rewrite length_app in Hc. cbn [length] in Hc.
  destruct (Nat.eqb_spec (counter (append_row sty table text b)) limit) as [E|E].
  - destruct (IH _ _ [] Hf' (flush_building _ _ _ _ _ Ha) Hl) as (b' & cs' & last' & E' & Hb' & Hcs & Hl' & Hcat).
    exists b', ((last ++ [text]) :: cs')%list, last'. split; [done|]. split_and!; [|constructor; [|done]|done|].
    + by rewrite <- app_assoc in Hb'.
    + rewrite length_app. cbn. lia.
    + cbn. by rewrite <- !app_assoc, Hcat.
  - destruct (IH _ _ _ Hf' Ha) as (b' & cs' & last' & E' & Hb' & Hcs & Hl' & Hcat).
    { rewrite length_app. cbn. lia. }
    exists b', cs', last'. split_and!; [done..|]. by rewrite Hcat, <- app_assoc.
Qed.

Lemma rebase_table_spec sty table limit render f rows :
  (0 < limit)%nat -> (forall r, r ∈ rows -> render r = Ok (f r)) ->
  exists cs, rebase_table sty table limit render rows = Ok (statement sty table <$> cs)
    /\ concat cs = omap f rows /\ Forall (fun c => (length c <= limit)%nat) cs.
Proof.
  intros Hl Hf. unfold rebase_table. destruct rows as [|r0 rows0] eqn:E; [by exists []|]. rewrite <- E in *. clear E.
  destruct (build_spec sty table limit render f rows start [] [] Hl Hf) as (b & cs & last & Eb & (Hs & Ht & _) & Hcs & Hlast & Hcat);
    [done|cbn; lia|].
  rewrite Eb. cbn [obind app] in *. exists (cs ++ [last])%list. rewrite Hs, Ht, fmap_app. split; [done|]. split.
  - rewrite concat_app. cbn. by rewrite app_nil_r.
  - apply Forall_app. split; [eapply Forall_impl; [exact Hcs|]; cbn; lia|]. constructor; [lia|done].
Qed.

(** *** Blocks *)
Lemma block_loop_spec fuel sty table limit render f rows min_loops b cs :
  (0 < limit)%nat -> (forall r, r ∈ rows -> render r = Ok (f r)) ->
  (0 <= min_loops)%Z -> (min_loops < 2 ^ 32)%Z -> (Z.of_nat (length rows) <= 2 ^ 32 - add)%Z ->
  (0 < fuel)%nat -> (Z.of_nat (length rows) <= min_loops + Z.of_nat fuel * add - add)%Z ->
  building sty table b cs [] ->
  exists cs' b', block_loop fuel sty table limit render rows (Z.of_nat (length rows)) min_loops b = Ok (Some b')
    /\ building sty table b' (cs ++ cs')%list []
    /\ concat cs' = omap f (drop (Z.to_nat min_loops) rows)
    /\ Forall (fun c => (0 < length c <= limit)%nat) cs'.
Proof.
  intros Hl Hf. revert min_loops b cs. induction fuel as [|fuel IH]; intros min_loops b cs Hm Hm2 Hr Hf0 Hfu Hb; [lia|].
  cbn [block_loop]. unfold add in *. destruct (Z.ltb_spec min_loops (Z.of_nat (length rows))) as [Hlt|Hge].
  2: { exists [], b. rewrite app_nil_r, drop_ge by lia. by split_and!. }
  rewrite wrap_small by lia.
  set (result := block_rows min_loops _ rows).
  assert (exists n, result = take n (drop (Z.to_nat min_loops) rows)
     /\ drop n (drop (Z.to_nat min_loops) rows) = drop (Z.to_nat (min_loops + 500000)) rows) as (n & Hres & Hdrop).
  { unfold result, block_rows. destruct (Z.ltb_spec (min_loops + 500000) (Z.of_nat (length rows))).
    - exists (Z.to_nat 500000). split; [done|]. rewrite drop_drop. f_equal. lia.
    - exists (length rows). split; [by rewrite take_ge by (rewrite length_drop; lia)|].
      rewrite drop_ge by (rewrite length_drop; lia). by rewrite drop_ge by lia. }
  destruct (build_spec sty table limit render f result b cs [] Hl) as (b1 & cs1 & last & Eb & Hb1 & Hcs1 & Hlast & Hcat);
    [|done|done|].
  { intros r Hin. apply Hf. rewrite Hres in Hin. apply elem_of_take in Hin as (i & Hi & _).
    rewrite lookup_drop in Hi. by eapply list_elem_of_lookup_2. }
  rewrite Eb. cbn [obind].
  assert (exists cs2, building sty table (if (counter b1 =? 0)%nat then b1 else flush b1) (cs ++ cs2)%list []
     /\ concat cs2 = omap f result /\ Forall (fun c => (0 < length c <= limit)%nat) cs2) as (cs2 & Hb2 & Hcat2 & Hcs2).
  { pose proof (proj2 (proj2 Hb1)) as Hc1.
    assert (Forall (fun c => (0 < length c <= limit)%nat) cs1) as Hcs1' by (eapply Forall_impl; [exact Hcs1|]; cbn; lia).
    destruct (Nat.eqb_spec (counter b1) 0) as [E|E].
    - destruct last; [|cbn in Hc1; lia]. exists cs1. split_and!; [done| |done]. by rewrite app_nil_r in Hcat.
    - exists (cs1 ++ [last])%list. rewrite app_assoc. split_and!; [by apply flush_building| |].
      + rewrite concat_app. cbn. by rewrite app_nil_r, Hcat.
      + apply Forall_app. split; [done|]. constructor; [lia|done]. }
  destruct (IH (min_loops + 500000)%Z _ _ ltac:(lia) ltac:(lia) Hr ltac:(lia) ltac:(lia) Hb2) as (cs3 & b3 & E3 & Hb3 & Hcat3 & Hcs3).
  exists (cs2 ++ cs3)%list, b3. split; [exact E3|]. split_and!.
  - by rewrite app_assoc.
  - rewrite concat_app, Hcat2, Hcat3, <- Hdrop, <- omap_app, Hres. by rewrite take_drop.
  - by apply Forall_app.
Qed.
End Text.
