(* ===== verification/RebaseTables.v ===== *)
(** * The renumbering of all tables

    The ten tables of items and what each refers to; what the whole of
    [RebaseClass::Begin] sends, and what becomes of it. *)
From Stdlib Require Import Ascii String ZArith Lia.
From stdpp Require Import base gmap list strings.
From S2P Require Import Prelude ByteBuffer Util World Routing Node Control ControlFacts Rebase RebaseFacts.

Open Scope Z_scope.

(** ** The tables *)
Inductive Table :=
| TAuctionhouse | TGifts | TGuildBank | TRefund | TSoulbound | TMail | TPetition | TPetitionSign | TInventory | TItems.

Definition name_of (t : Table) : string :=
  match t with
  | TAuctionhouse => "auctionhouse" | TGifts => "character_gifts" | TGuildBank => "guild_bank_item"
  | TRefund => "item_refund_instance" | TSoulbound => "item_soulbound_trade_data" | TMail => "mail_items"
  | TPetition => "petition" | TPetitionSign => "petition_sign" | TInventory => "character_inventory"
  | TItems => "item_instance"
  end.
Definition style_of (t : Table) : Style := match t with TInventory => mkStyle "" "" | _ => style end.
(** The most rows a statement has. *)
Definition limit_of (t : Table) : nat :=
  match t with
  | TAuctionhouse => 250 | TGifts | TGuildBank | TMail => 500 | TRefund | TSoulbound => 100
  | TPetition | TPetitionSign | TInventory => 1000 | TItems => 5000
  end.
(** The columns there must be. *)
Definition width (t : Table) : nat :=
  match t with
  | TAuctionhouse => 3 | TGifts | TMail | TPetition | TPetitionSign => 2
  | TRefund | TSoulbound | TItems => 1 | TGuildBank | TInventory => 4
  end.
(** The columns of a row that hold the GUID of an item; a bag only when there
    is one. *)
Definition references (t : Table) (row : Row) : list nat :=
  match t with
  | TAuctionhouse => [2%nat] | TGifts | TMail | TPetition | TPetitionSign => [1%nat]
  | TRefund | TSoulbound | TItems => [0%nat] | TGuildBank => [3%nat]
  | TInventory => match row !! 1%nat with
                  | Some bag => if GetUInt32 bag =? 0 then [3%nat] else [1%nat; 3%nat]
                  | None => []
                  end
  end.

Section Tables.
Context (escape : string -> string).

Definition rebase_of (fuel : nat) (items : gmap Z Z) (t : Table) (rows : list Row) : outcome (option (list string)) :=
  let some x := let* l := x in Ok (Some l) in
  match t with
  | TAuctionhouse => some (Auctionhouse escape items rows)
  | TGifts => some (CharacterGifts escape items rows)
  | TGuildBank => some (GuildBankItem escape items rows)
  | TRefund => some (ItemRefundInstance escape items rows)
  | TSoulbound => some (ItemSoulboundTradeData escape items rows)
  | TMail => some (MailItems escape items rows)
  | TPetition => some (Petition escape items rows)
  | TPetitionSign => some (PetitionSign escape items rows)
  | TInventory => CharacterInventory escape fuel items rows
  | TItems => ItemInstance escape fuel items rows
  end.

(** The number of the item a column refers to. *)
Definition number_of (items : gmap Z Z) (row : Row) (i : nat) : option Z := c ← row !! i; items !! GetUInt32 c.

(** A row with its references replaced, when all of them are there. *)
Definition new_row (items : gmap Z Z) (refs : Row -> list nat) (row : Row) : option string :=
  if forallb (fun i => bool_decide (is_Some (number_of items row i))) (refs row)
  then Some (String.append " ("
               (String.append (fields_text escape
                  (fun i => if bool_decide (i ∈ refs row) then number_of items row i else None) 0 row) ")"))
  else None.

Lemma fields_text_ext f g i row : (forall j, f j = g j) -> fields_text escape f i row = fields_text escape g i row.
Proof. intros Hfg. revert i. induction row as [|c row IH]; intros i; [done|]. cbn [fields_text]. by rewrite Hfg, IH. Qed.

Lemma number_of_cell items row i c : row !! i = Some c -> number_of items row i = items !! GetUInt32 c.
Proof. intros Hc. unfold number_of. by rewrite Hc. Qed.

Lemma new_row_single items k refs row :
  refs row = [k] -> (k < length row)%nat -> render_single escape items k row = Ok (new_row items refs row).
Proof.
  intros Hr Hk. apply lookup_lt_is_Some in Hk as [c Hc]. unfold render_single, field, new_row. rewrite Hr, Hc.
  cbn [forallb obind]. rewrite (number_of_cell _ _ _ _ Hc).
  destruct (items !! GetUInt32 c) as [g|] eqn:E; cbn [bool_decide andb]; [|done]. do 2 f_equal.
  unfold SingleGUID. do 2 f_equal. apply fields_text_ext. intros j.
  destruct (Nat.eqb_spec j k) as [->|Hn].
  - rewrite bool_decide_eq_true_2 by (by left). by rewrite (number_of_cell _ _ _ _ Hc).
  - rewrite bool_decide_eq_false_2; [done|]. by intros ->%list_elem_of_singleton.
Qed.

Lemma new_row_double items a b refs row :
  refs row = [a; b] -> (a < length row)%nat -> (b < length row)%nat ->
  render_double escape items a b row = Ok (new_row items refs row).
Proof.
  intros Hr Ha Hb. apply lookup_lt_is_Some in Ha as [ca Hca], Hb as [cb Hcb].
  unfold render_double, field, new_row. rewrite Hr, Hca, Hcb. cbn [forallb obind].
  rewrite (number_of_cell _ _ _ _ Hca), (number_of_cell _ _ _ _ Hcb).
  destruct (items !! GetUInt32 ca) as [ga|] eqn:Ea; [|done].
  destruct (items !! GetUInt32 cb) as [gb|] eqn:Eb; [|done]. cbn [andb]. do 2 f_equal.
  unfold DoubleGUID. do 2 f_equal. apply fields_text_ext. intros j.
  destruct (Nat.eqb_spec j a) as [->|Hn].
  - rewrite bool_decide_eq_true_2 by (by left). by rewrite (number_of_cell _ _ _ _ Hca).
  - destruct (Nat.eqb_spec j b) as [->|Hn'].
    + rewrite bool_decide_eq_true_2 by (by right; left). by rewrite (number_of_cell _ _ _ _ Hcb).
    + rewrite bool_decide_eq_false_2; [done|]. intros [-> | ->%list_elem_of_singleton]%elem_of_cons; done.
Qed.

Lemma new_row_inventory items row :
  (4 <= length row)%nat -> render_inventory escape items row = Ok (new_row items (references TInventory) row).
Proof.
  intros Hl. unfold render_inventory, field. destruct (lookup_lt_is_Some_2 row 1 ltac:(lia)) as [bag Hbag].
  rewrite Hbag. cbn [obind]. destruct (GetUInt32 bag =? 0) eqn:E.
  - apply new_row_single; [|lia]. cbn. by rewrite Hbag, E.
  - apply new_row_double; [|lia..]. cbn. by rewrite Hbag, E.
Qed.

(** Every table is filled with exactly its rows whose items are there, in
    order, each reference replaced by the item's number, in statements of at
    most so many rows; the loops over the blocks of the two large tables end. *)
Lemma rebase_statements fuel items t rows :
  (forall row, row ∈ rows -> (width t <= length row)%nat) ->
  Z.of_nat (length rows) <= 2 ^ 32 - add -> 2 ^ 32 <= Z.of_nat fuel * add ->
  exists cs, rebase_of fuel items t rows = Ok (Some (statement (style_of t) (name_of t) <$> cs))
    /\ concat cs = omap (new_row items (references t)) rows
    /\ Forall (fun c => (length c <= limit_of t)%nat) cs.
Proof.
  intros Hw Hl Hf.
  assert (forall k limit, (0 < limit)%nat -> (forall row, references t row = [k]) -> (k < width t)%nat ->
    exists cs, rebase_table style (name_of t) limit (render_single escape items k) rows
        = Ok (statement style (name_of t) <$> cs)
      /\ concat cs = omap (new_row items (references t)) rows /\ Forall (fun c => (length c <= limit)%nat) cs) as Hone.
  { intros k limit Hlim Hk Hkw. apply rebase_table_spec; [done|]. intros row Hr. specialize (Hw _ Hr).
    apply new_row_single; [apply Hk|lia]. }
  assert (forall sty limit render, (0 < limit)%nat -> (forall row, row ∈ rows -> render row = Ok (new_row items (references t) row)) ->
    exists cs, rebase_blocks fuel sty (name_of t) limit render rows = Ok (Some (statement sty (name_of t) <$> cs))
      /\ concat cs = omap (new_row items (references t)) rows /\ Forall (fun c => (length c <= limit)%nat) cs) as Hblocks.
  { intros sty limit render Hlim Hr. unfold rebase_blocks. unfold add in *. rewrite wrap_small by lia.
    destruct (block_loop_spec fuel sty (name_of t) limit render _ rows 0 start [] Hlim Hr)
      as (cs & b & E & Hb & Hcat & Hcs); [lia|lia|done|lia|unfold add; lia|done|].
    rewrite E. cbn [obind fmap option_fmap option_map]. destruct Hb as [-> _]. cbn [app]. exists cs.
    split; [done|]. split; [exact Hcat|]. eapply Forall_impl; [exact Hcs|]. cbn. lia. }
  destruct t; cbn [rebase_of limit_of style_of];
    match goal with
    | |- context [CharacterInventory] =>
        apply Hblocks; [lia|]; intros row Hr; apply new_row_inventory; exact (Hw _ Hr)
    | |- context [ItemInstance _ _ _ _] =>
        apply Hblocks; [lia|]; intros row Hr; apply new_row_single; [done|]; specialize (Hw _ Hr); cbn in Hw; lia
    | |- context [references ?t] =>
        let k := eval cbn in (match references t [] with [k] => k | _ => 0%nat end) in
        destruct (Hone k (limit_of t)) as (cs & E & Hcs); [cbn; lia|done|cbn; lia|];
        cbn [limit_of] in *; exists cs; split; [|exact Hcs];
        match goal with |- (let* l := ?x in _) = _ => change x with (rebase_table style (name_of t) (limit_of t) (render_single escape items k) rows) end;
        cbn [limit_of]; rewrite E; reflexivity
    end.
Qed.

(** ** The whole *)
Ltac plain_text :=
  repeat first [ apply percent_free_app | (by repeat split) ].

Lemma fields_plain value i row :
  (forall j v, value j = Some v -> 0 <= v) -> (forall c, c ∈ row -> percent_free (cell_text escape c)) ->
  percent_free (fields_text escape value i row).
Proof.
  intros Hv. revert i. induction row as [|c row IH]; intros i Hc; [done|]. cbn [fields_text].
  apply percent_free_app; [|apply percent_free_app].
  - destruct (value i) as [v|] eqn:E; [|apply Hc; by left]. unfold quoted. plain_text.
    apply percent_free_u64. by eapply Hv.
  - destruct row; by repeat split.
  - apply IH. intros c' Hc'. apply Hc. by right.
Qed.

Lemma new_row_plain items refs row text :
  (forall g k, items !! g = Some k -> 0 <= k) -> (forall c, c ∈ row -> percent_free (cell_text escape c)) ->
  new_row items refs row = Some text -> percent_free text.
Proof.
  intros Hi Hc. unfold new_row. destruct (forallb _ _); [|done]. intros [= <-]. plain_text.
  apply fields_plain; [|done]. intros j v. case_bool_decide; [|done]. unfold number_of.
  destruct (row !! j); cbn; [|done]. apply Hi.
Qed.

Lemma statement_plain t l : Forall percent_free l -> percent_free (statement (style_of t) (name_of t) l).
Proof.
  assert (percent_free (first_end (style_of t)) /\ percent_free (next_end (style_of t))) as [Hf Hn]
    by (destruct t; by repeat split).
  destruct 1 as [|x l Hx Hl]; [done|]. cbn [statement].
  apply percent_free_app; [unfold insert_into; plain_text; by destruct t; repeat split|].
  do 2 (apply percent_free_app; [done|]). induction Hl as [|y l Hy Hl IH]; [done|]. cbn [foldr].
  apply percent_free_app; [by repeat split|]. by repeat apply percent_free_app.
Qed.

(** A statement that comes to the queue: cut to the buffer. *)
Definition cut (sql : string) : string := substring 0 (MAX_QUERY_LEN - 1) sql.

Lemma queue_all_plain l : Forall percent_free l -> queue_all l = Ok ((fun s => Queued (cut s)) <$> l).
Proof.
  induction 1 as [|s l Hs Hl IH]; [done|].
  change (queue_all (s :: l)) with (let* t := PExecute s in let* acc := queue_all l in Ok (Queued t :: acc)).
  assert (PExecute s = Ok (cut s)) as -> by (unfold PExecute; by rewrite (formatted_plain s Hs)). cbn [obind].
  by rewrite IH.
Qed.

Definition main_tables : list Table :=
  [TAuctionhouse; TGifts; TGuildBank; TRefund; TSoulbound; TMail; TPetition; TPetitionSign].

(** What the tables must be like. *)
Record db_ok (db : string -> list Row) : Prop := {
  db_width : forall t row, row ∈ db (name_of t) -> (width t <= length row)%nat;
  db_size : forall t, Z.of_nat (length (db (name_of t))) <= 2 ^ 32 - add;
  db_plain : forall t row c, row ∈ db (name_of t) -> c ∈ row -> percent_free (cell_text escape c)
}.

Lemma column_ok rows : (forall row, row ∈ rows -> (1 <= length row)%nat) -> exists l, column 0 rows = Ok l.
Proof.
  induction rows as [|r rows IH]; intros Hr; [by exists []|]. cbn.
  destruct (lookup_lt_is_Some_2 r 0 (Hr r ltac:(by left))) as [c Hc]. unfold field. rewrite Hc. cbn.
  destruct IH as [l ->]; [intros row Hrow; apply Hr; by right|]. by eexists.
Qed.

Lemma number_from_nonneg count guids (m : gmap Z Z) :
  (forall g k, m !! g = Some k -> 0 <= k) -> forall g k, number_from count guids m !! g = Some k -> 0 <= k.
Proof.
  revert count m. induction guids as [|x guids IH]; intros count m Hm; [done|]. cbn. apply IH.
  intros g k Hk. destruct (decide (x = g)) as [->|Hn].
  - rewrite lookup_insert_eq in Hk. injection Hk as <-. by apply wrap_range.
  - rewrite lookup_insert_ne in Hk by done. by eapply Hm.
Qed.

Lemma table_choice {A} (P : Table -> A -> Prop) : (forall t, exists a, P t a) -> exists f, forall t, P t (f t).
Proof.
  intros HP.
  destruct (HP TAuctionhouse) as [a1 H1], (HP TGifts) as [a2 H2], (HP TGuildBank) as [a3 H3],
    (HP TRefund) as [a4 H4], (HP TSoulbound) as [a5 H5], (HP TMail) as [a6 H6], (HP TPetition) as [a7 H7],
    (HP TPetitionSign) as [a8 H8], (HP TInventory) as [a9 H9], (HP TItems) as [a10 H10].
  exists (fun t => match t with
    | TAuctionhouse => a1 | TGifts => a2 | TGuildBank => a3 | TRefund => a4 | TSoulbound => a5 | TMail => a6
    | TPetition => a7 | TPetitionSign => a8 | TInventory => a9 | TItems => a10 end).
  by intros [].
Qed.

Lemma some_inv {A} (x : outcome A) y : (let* l := x in Ok (Some l)) = Ok (Some y) -> x = Ok y.
Proof. destruct x; cbn; congruence. Qed.

(** What [rebase_statements] says of one table. *)
Definition rebased (fuel : nat) (items : gmap Z Z) (db : string -> list Row) (t : Table) (cs : list (list string)) : Prop :=
  rebase_of fuel items t (db (name_of t)) = Ok (Some (statement (style_of t) (name_of t) <$> cs))
  /\ concat cs = omap (new_row items (references t)) (db (name_of t))
  /\ Forall (fun c => (length c <= limit_of t)%nat) cs.

Lemma rebased_plain fuel items db t cs :
  db_ok db -> (forall g k, items !! g = Some k -> 0 <= k) -> rebased fuel items db t cs ->
  Forall percent_free (statement (style_of t) (name_of t) <$> cs).
Proof.
  intros Hdb Hi (_ & Hcat & _). apply Forall_fmap, Forall_forall. intros c Hc. apply statement_plain.
  apply Forall_forall. intros text Ht.
  assert (text ∈ omap (new_row items (references t)) (db (name_of t))) as Hin.
  { rewrite <- Hcat. apply list_elem_of_In, in_concat. exists c. by rewrite <- !list_elem_of_In. }
  apply list_elem_of_omap in Hin as (row & Hrow & Htext). eapply new_row_plain; [exact Hi| |exact Htext].
  intros x Hx. by eapply db_plain.
Qed.
End Tables.

Lemma cut_fits s : (String.length s < MAX_QUERY_LEN)%nat -> cut s = s.
Proof.
  unfold cut. intros Hs. assert (String.length s <= MAX_QUERY_LEN - 1)%nat as Hl by lia. clear Hs.
  revert s Hl. generalize (MAX_QUERY_LEN - 1)%nat as n. intros n s. revert n.
  induction s as [|c s IH]; intros [|n] Hl; cbn in *; try done; [lia|]. f_equal. apply IH. lia.
Qed.

(** C37. The whole renumbering, for tables with their columns, of a size that 32-bit
    counters can count, and without percent signs ([percent_undefined] shows
    what one does).  Without items the tables are emptied and that is all: they
    stay empty, and the counters as they are.  Otherwise it comes to its end;
    the items are numbered; for each table statements are made that fill it with
    exactly its rows whose items have numbers, in order and with those numbers,
    at most so many rows in each; the two threads send theirs as they are; of
    the others, which go to the queue, each arrives cut to the size of a buffer,
    hence whole where it fits ([signatures_cut] is one that does not); then the
    nodes' counters are reset. *)
Theorem rebase_complete `{UnorderedIter} escape fuel realmID m0 db r q h :
  db_ok escape db -> (forall g k, m0 !! g = Some k -> 0 <= k) -> 2 ^ 32 <= Z.of_nat fuel * add ->
  (db "item_instance"%string = [] /\ Begin escape fuel realmID m0 db r q h = Ok (Some (mkRun Init [] [] [], m0, r, h)))
  \/ exists items run cs,
    collect m0 (db "item_instance"%string) = Ok items
    /\ Begin escape fuel realmID m0 db r q h = Ok (Some (run, items, ResetLastGUID r, fst (SetHighestGuids q h)))
    /\ (forall t, concat (cs t) = omap (new_row escape items (references t)) (db (name_of t))
                  /\ Forall (fun c => (length c <= limit_of t)%nat) (cs t))
    /\ run_items run = Direct <$> (statement (style_of TItems) (name_of TItems) <$> cs TItems)
    /\ run_inventory run = Direct <$> (statement (style_of TInventory) (name_of TInventory) <$> cs TInventory)
    /\ let queued := concat ((fun t => statement (style_of t) (name_of t) <$> cs t) <$> main_tables) in
       run_main run = Init ++ ((fun s => Queued (cut s)) <$> queued)
       /\ forall s, s ∈ queued -> (String.length s < MAX_QUERY_LEN)%nat -> cut s = s.
Proof.
  intros Hdb Hm0 Hf. destruct (decide (db "item_instance"%string = [])) as [He|Hne].
  { left. split; [done|]. unfold Begin. by rewrite He. }
  right.
  destruct (column_ok (db "item_instance"%string)) as [guids Hg].
  { intros row Hr. exact (db_width _ _ Hdb TItems row Hr). }
  set (items := number_from 0 guids m0).
  assert (collect m0 (db "item_instance"%string) = Ok items) as Hc by (unfold collect; by rewrite Hg).
  assert (forall g k, items !! g = Some k -> 0 <= k) as Hnn.
  { by apply number_from_nonneg. }
  destruct (table_choice (rebased escape fuel items db)) as [cs Hcs].
  { intros t. apply rebase_statements; [apply (db_width _ _ Hdb)|apply (db_size _ _ Hdb)|done]. }
  assert (Forall percent_free (concat ((fun t => statement (style_of t) (name_of t) <$> cs t) <$> main_tables))) as Hp.
  { apply Forall_concat, Forall_fmap, Forall_forall. intros t _. by apply (rebased_plain escape fuel items db). }
  pose proof (queue_all_plain _ Hp) as Hq.
  assert (exists p, shutdown_packet = Ok p) as [packet Hpk] by (unfold shutdown_packet; rewrite make_message by done; by eexists).
  pose proof (fun t => proj1 (Hcs t)) as E.
  pose proof (some_inv _ _ (E TAuctionhouse)) as E1. pose proof (some_inv _ _ (E TGifts)) as E2.
  pose proof (some_inv _ _ (E TGuildBank)) as E3. pose proof (some_inv _ _ (E TRefund)) as E4.
  pose proof (some_inv _ _ (E TSoulbound)) as E5. pose proof (some_inv _ _ (E TMail)) as E6.
  pose proof (some_inv _ _ (E TPetition)) as E7. pose proof (some_inv _ _ (E TPetitionSign)) as E8.
  pose proof (E TInventory) as E9. pose proof (E TItems) as E10. cbn [rebase_of name_of] in *.
  exists items. unfold Begin. destruct (db "item_instance"%string) as [|row rows] eqn:Edb; [done|]. rewrite <- Edb in *.
  rewrite Hc. cbn [obind]. rewrite E10. cbn [obind]. rewrite E9. cbn [obind].
  rewrite E1. cbn [obind]. rewrite E2. cbn [obind]. rewrite E3. cbn [obind]. rewrite E4. cbn [obind].
  rewrite E5. cbn [obind]. rewrite E6. cbn [obind]. rewrite E7. cbn [obind]. rewrite E8. cbn [obind].
  cbn [main_tables fmap list_fmap concat] in Hq. rewrite app_nil_r in Hq. cbn [name_of] in Hq.
  rewrite Hq, Hpk. cbn [obind]. destruct (SetHighestGuids q h) as [h' cleaned]. cbn [fst].
  eexists _, cs. split; [done|]. split; [reflexivity|]. cbn [run_items run_inventory run_main].
  split; [intros t; apply Hcs|]. split; [done|]. split; [done|].
  split; [|intros s _; apply cut_fits].
  cbn [main_tables fmap list_fmap concat]. by rewrite app_nil_r.
Qed.
