(* ===== verification/RebaseScene.v ===== *)
(** * A small database renumbered

    The theorems at a concrete database, and what the renumbering loses. *)
From Stdlib Require Import Ascii String ZArith Lia.
From stdpp Require Import base gmap list strings.
From S2P Require Import Prelude ByteBuffer Util World Routing Node Control Rebase RebaseFacts RebaseTables.

Open Scope Z_scope.

Definition num (z : Z) : Cell := mkCell (Some (print_u64 z)) true.
Definition txt (s : string) : Cell := mkCell (Some s) false.

(** Three items: a bag on a character, an item in it, one in the auction house.
    An auction for an item that is not there is dropped. *)
Definition ex_db (table : string) : list Row :=
  if String.eqb table "item_instance" then [[num 70; txt "bag"]; [num 90; txt ""]; [num 12; txt "sword"]]
  else if String.eqb table "character_inventory" then [[num 5; num 0; num 19; num 70]; [num 5; num 70; num 0; num 90]]
  else if String.eqb table "auctionhouse" then [[num 1; num 2; num 12; num 5]; [num 2; num 2; num 13; num 5]]
  else [].
Definition no_escape (s : string) : string := s.
Definition ex_fuel : nat := 8600.
Definition ex_hi : Highest := mkHighest 1 1 1 1 1 1 1 1 1 1.
Definition ex_max : MaxQueries := mkMaxQueries None None (Some 3) None None None None None None None.

Lemma ex_guids : column 0 (ex_db "item_instance") = Ok [70; 90; 12].
Proof. vm_compute. reflexivity. Qed.

Lemma renumbering_witness :
  exists items, collect ∅ (ex_db "item_instance") = Ok items
    /\ (forall i g, [70; 90; 12] !! i = Some g -> items !! g = Some (Z.of_nat i + 1))
    /\ (forall g k, items !! g = Some k ->
          (1 <= k <= Z.of_nat (length (ex_db "item_instance")) /\ [70; 90; 12] !! Z.to_nat (k - 1) = Some g)
          \/ (g ∉ [70; 90; 12] /\ (∅ : gmap Z Z) !! g = Some k))
    /\ (forall g g' k, g ∈ [70; 90; 12] -> g' ∈ [70; 90; 12] -> items !! g = Some k -> items !! g' = Some k -> g = g').
Proof.
  apply (renumbering ∅ (ex_db "item_instance") [70; 90; 12] ex_guids); [|cbn; lia].
  apply (bool_decide_unpack (NoDup [70; 90; 12])). vm_compute. exact I.
Defined.

Lemma ex_db_ok : db_ok no_escape ex_db.
Proof.
  split.
  - intros t row Hr. destruct t; vm_compute in Hr |- *; cbn in Hr; 
      repeat (apply elem_of_cons in Hr as [-> | Hr]; [cbn; lia|]); by apply not_elem_of_nil in Hr.
  - intros t. destruct t; vm_compute; discriminate.
  - intros t row c Hr Hc. destruct t; vm_compute in Hr;
      repeat (apply elem_of_cons in Hr as [-> | Hr];
              [repeat (apply elem_of_cons in Hc as [-> | Hc]; [vm_compute; repeat split; discriminate|]);
               by apply not_elem_of_nil in Hc|]);
      by apply not_elem_of_nil in Hr.
Qed.

Lemma rebase_complete_witness :
  exists items run cs,
    collect ∅ (ex_db "item_instance") = Ok items
    /\ Begin no_escape ex_fuel 1 ∅ ex_db (mkRouting ∅ ∅ false 0) ex_max ex_hi
       = Ok (Some (run, items, ResetLastGUID (mkRouting ∅ ∅ false 0), fst (SetHighestGuids ex_max ex_hi)))
    /\ (forall t, concat (cs t) = omap (new_row no_escape items (references t)) (ex_db (name_of t))
                  /\ Forall (fun c => (length c <= limit_of t)%nat) (cs t))
    /\ run_items run = Direct <$> (statement (style_of TItems) (name_of TItems) <$> cs TItems)
    /\ run_inventory run = Direct <$> (statement (style_of TInventory) (name_of TInventory) <$> cs TInventory)
    /\ run_main run = Init ++ ((fun s => Queued (cut s)) <$>
         concat ((fun t => statement (style_of t) (name_of t) <$> cs t) <$> main_tables)).
Proof.
  destruct (rebase_complete no_escape ex_fuel 1 ∅ ex_db (mkRouting ∅ ∅ false 0) ex_max ex_hi ex_db_ok)
    as [[Hno _]|(items & run & cs & H1 & H2 & H3 & H4 & H5 & H6 & _)];
    [intros g k Hk; by rewrite lookup_empty in Hk|vm_compute; discriminate|discriminate Hno|].
  by exists items, run, cs.
Defined.

(** The statements of the two tables. *)
Example inventory_text :
  (let* items := collect ∅ (ex_db "item_instance") in
   CharacterInventory no_escape 2 items (ex_db "character_inventory"))
  = Ok (Some ["INSERT IGNORE INTO character_inventory VALUES ('5', '0', '19', '1'), ('5', '1', '0', '2')"%string]).
Proof. vm_compute. reflexivity. Qed.
Example auction_text :
  (let* items := collect ∅ (ex_db "item_instance") in Auctionhouse no_escape items (ex_db "auctionhouse"))
  = Ok ["INSERT IGNORE INTO auctionhouse VALUES ('1', '2', '3', '5')"%string].
Proof. vm_compute. reflexivity. Qed.

(** *** What is lost *)

(** A thousand signatures make a statement that does not fit the buffer. *)
Definition ex_signatures : list Row :=
  (fun i => [num (20000 + Z.of_nat i); num 70; num (30000 + Z.of_nat i); num 0; num 0]) <$> seq 0 1000.
Example signatures_cut :
  match PetitionSign no_escape {[ 70 := 1 ]} ex_signatures with
  | Ok (s :: _) => Nat.ltb MAX_QUERY_LEN (String.length s) = true
  | _ => False
  end.
Proof. vm_compute. reflexivity. Qed.

(** A percent sign in a text is taken for the start of a conversion. *)
Example percent_undefined :
  (let* l := Petition no_escape {[ 70 := 1 ]} [[num 5; num 70; txt "100% Guild"]] in queue_all l) = UB.
Proof. vm_compute. reflexivity. Qed.

(** The map is not cleared: in a second run the auction of an item that is gone
    is given the number an item had in the first. *)
Example stale_number :
  (let* first := collect ∅ (ex_db "item_instance") in
   let* second := collect first [[num 1; txt "bag"]] in
   Auctionhouse no_escape second [[num 4; num 2; num 90; num 5]])
  = Ok ["INSERT IGNORE INTO auctionhouse VALUES ('4', '2', '2', '5')"%string].
Proof. vm_compute. reflexivity. Qed.

(** Without items the tables are emptied and the copies left: nothing is filled
    again, the nodes are not told, the server stays halted. *)
Example nothing_restored :
  Begin no_escape ex_fuel 1 ∅ (fun t => if String.eqb t "petition" then [[num 5; num 70; txt "Guild"]] else [])
    (mkRouting ∅ ∅ false 0) ex_max ex_hi
  = Ok (Some (mkRun Init [] [] [], ∅, mkRouting ∅ ∅ false 0, ex_hi)).
Proof. vm_compute. reflexivity. Qed.

(** Past the time the server is halted, the next date is noted and the nodes are
    shut down; the renumbering itself waits three minutes more. *)
Example halt_on_time :
  UpdateTimers 1000001 7 (mkHalt 0 false 0) (mkTimers 1000000 1000180)
  = (mkTimers 1604800 1000180, mkHalt 0 true 3, [SetLogonState LOGON_REBASE_STATE 1604800; ShutdownNodes]).
Proof. vm_compute. reflexivity. Qed.
