(* ===== verification/Tickets.v ===== *)
(** * Game masters' tickets

    [shade/Tickets/TicketMgr], [GMQualityManager], [Handler/TicketHandler.cpp]
    and [Chat/Commands/TicketCommands.cpp]: the tickets of the players, the
    opcodes by which they write them and the commands by which game masters
    answer. *)
From Stdlib Require Import Ascii String ZArith Lia.
From stdpp Require Import base gmap list strings sorting.
From S2P Require Import Prelude ByteBuffer Utf8 World StateM Node.

Open Scope Z_scope.

(** ** Constants *)
Definition CMSG_QUERY_TIME : Z := 0x1CE.
Definition SMSG_GMTICKET_CREATE : Z := 0x206.
Definition SMSG_GMTICKET_UPDATETEXT : Z := 0x208.
Definition SMSG_GMTICKET_GETTICKET : Z := 0x212.
Definition SMSG_GMTICKET_DELETETICKET : Z := 0x218.
Definition SMSG_GMTICKET_SYSTEMSTATUS : Z := 0x21B.
Definition SMSG_GMRESPONSE_RECEIVED : Z := 0x4EF.
Definition SMSG_GMRESPONSE_STATUS_UPDATE : Z := 0x4F1.

Definition GMTICKET_STATUS_HASTEXT : Z := 0x06.
Definition GMTICKET_STATUS_DEFAULT : Z := 0x0A.

Definition GMTICKET_RESPONSE_CREATE_SUCCESS : Z := 2.
Definition GMTICKET_RESPONSE_CREATE_ERROR : Z := 3.
Definition GMTICKET_RESPONSE_UPDATE_SUCCESS : Z := 4.
Definition GMTICKET_RESPONSE_UPDATE_ERROR : Z := 5.
Definition GMTICKET_RESPONSE_TICKET_DELETED : Z := 9.

(** [GMTicketEscalationStatus]: an integer, since the database may hold any. *)
Definition TICKET_UNASSIGNED : Z := 0.
Definition TICKET_ASSIGNED : Z := 1.
Definition TICKET_IN_ESCALATION_QUEUE : Z := 2.
Definition TICKET_ESCALATED_ASSIGNED : Z := 3.

(** Texts of the locale, by name. *)
Inductive LANG :=
| LANG_TICKET_REQ | LANG_ALLOW_TICKETS | LANG_DISALLOW_TICKETS | LANG_NO_PLAYERS_FOUND
| LANG_COMMAND_TICKETNEW | LANG_COMMAND_TICKETUPDATED | LANG_COMMAND_TICKETPLAYERABANDON
| LANG_COMMAND_TICKETCLOSED | LANG_COMMAND_TICKETDELETED | LANG_COMMAND_TICKETNOTEXIST
| LANG_COMMAND_TICKETCLOSEFIRST | LANG_COMMAND_TICKETALREADYASSIGNED
| LANG_COMMAND_TICKETSHOWLIST | LANG_COMMAND_TICKETSHOWONLINELIST | LANG_COMMAND_TICKETSHOWCLOSEDLIST
| LANG_COMMAND_TICKETASSIGNERROR_A | LANG_COMMAND_TICKETASSIGNERROR_B | LANG_COMMAND_TICKETNOTASSIGNED
| LANG_COMMAND_TICKETUNASSIGNSECURITY | LANG_COMMAND_TICKETCANNOTCLOSE | LANG_COMMAND_TICKETLISTGUID
| LANG_COMMAND_TICKETLISTNAME | LANG_COMMAND_TICKETLISTAGE | LANG_COMMAND_TICKETLISTASSIGNEDTO
| LANG_COMMAND_TICKETLISTUNASSIGNED | LANG_COMMAND_TICKETLISTMESSAGE | LANG_COMMAND_TICKETLISTCOMMENT
| LANG_COMMAND_TICKETLISTADDCOMMENT | LANG_COMMAND_TICKETLISTAGECREATE | LANG_COMMAND_TICKETSHOWESCALATEDLIST
| LANG_COMMAND_TICKETPENDING | LANG_COMMAND_TICKETRESET.

(** An argument of a text or a statement. *)
Inductive TArg :=
| TBool (b : bool) | TU8 (v : Z) | TU16 (v : Z) | TU32 (v : Z) | TI32 (v : Z) | TF32 (bits : Z) | TStr (s : string)
| TTime (seconds : Z).                              (* [secsToTimeString] of a span *)

Definition Line : Type := LANG * list TArg.

Inductive TStmt :=
| CHAR_REP_GM_TICKET | CHAR_DEL_GM_TICKET | CHAR_DEL_ALL_GM_TICKETS
| CHAR_INS_GM_SUBSURVEY | CHAR_INS_GM_SURVEY | CHAR_INS_LAG_REPORT.

(** What leaves: a packet to the session of a player, a packet to the node, a
    notification, lines to the one who gave the command, a message to the game
    masters, a statement with the parameters bound, from the first. *)
Inductive TEvent :=
| TSend (player : Z) (p : WorldPacket)
| TNode (opcode : Z)
| TNotify (l : Line)
| TSys (ls : list Line)
| TMaster (ls : list Line)
| TExec (s : TStmt) (args : list TArg).

(** ** State *)
Record GmTicket := mkTicket {
  tk_id : Z; tk_playerGuid : Z; tk_playerName : string; tk_posX : Z; tk_posY : Z; tk_posZ : Z; tk_mapId : Z;
  tk_message : string; tk_createTime : Z; tk_lastModifiedTime : Z;
  tk_closedBy : Z; tk_assignedTo : Z; tk_comment : string; tk_completed : bool; tk_escalatedStatus : Z;
  tk_viewed : bool; tk_needResponse : bool; tk_response : string
}.

(** [GMQualityItem]: what is said while a ticket is assigned, until it is
    dropped unsaved ([SaveToDB] is empty). *)
Record GMQualityItem := mkItem { qi_ticketId : Z; gmAccId : Z; playerAccId : Z }.

Record TicketMgr := mkTicketMgr {
  _ticketList : gmap Z GmTicket;
  tm_status : bool;
  _lastTicketId : Z;
  _lastSurveyId : Z;
  _openTicketCount : Z;
  _lastChange : Z;
  itemStorage : list GMQualityItem;                 (* in the order of their addresses *)
  tm_trace : list TEvent
}.

Abbreviation TM := (ST TicketMgr).

(** A player as the handlers see one. *)
Record TPlayer := mkTPlayer { tp_guid : Z; tp_name : string; tp_level : Z; tp_session : option Z (* its level *) }.

Record TicketEnv := mkTicketEnv {
  te_now : Z;
  te_age : Z -> Z;                                  (* bits of [float(seconds) / DAY] *)
  te_FindPlayer : Z -> option TPlayer;
  te_FindPlayerByName : string -> option TPlayer;
  te_GetPlayerGUIDByName : string -> Z;
  te_GetPlayerNameByGUID : Z -> option string;
  te_GetPlayerAccountIdByGUID : Z -> Z;
  te_GetSecurity : Z -> Z;
  te_level_req : Z;
  te_survey : bool;                                 (* the draw fell under the chance of a survey *)
  te_viewed : bool;                                 (* [_viewed], which the constructor leaves *)
  te_gm_activity : bool;
  te_text : list Line -> string;                    (* the locale's texts with the arguments in them *)
  te_place : nat                                    (* where the new object lies among the others *)
}.

Definition set_list (l : gmap Z GmTicket) (m : TicketMgr) : TicketMgr :=
  mkTicketMgr l (tm_status m) (_lastTicketId m) (_lastSurveyId m) (_openTicketCount m) (_lastChange m) (itemStorage m) (tm_trace m).
Definition set_status (b : bool) (m : TicketMgr) : TicketMgr :=
  mkTicketMgr (_ticketList m) b (_lastTicketId m) (_lastSurveyId m) (_openTicketCount m) (_lastChange m) (itemStorage m) (tm_trace m).
Definition set_ids (t s : Z) (m : TicketMgr) : TicketMgr :=
  mkTicketMgr (_ticketList m) (tm_status m) t s (_openTicketCount m) (_lastChange m) (itemStorage m) (tm_trace m).
Definition set_open (n : Z) (m : TicketMgr) : TicketMgr :=
  mkTicketMgr (_ticketList m) (tm_status m) (_lastTicketId m) (_lastSurveyId m) n (_lastChange m) (itemStorage m) (tm_trace m).
Definition set_change (t : Z) (m : TicketMgr) : TicketMgr :=
  mkTicketMgr (_ticketList m) (tm_status m) (_lastTicketId m) (_lastSurveyId m) (_openTicketCount m) t (itemStorage m) (tm_trace m).
Definition set_items (l : list GMQualityItem) (m : TicketMgr) : TicketMgr :=
  mkTicketMgr (_ticketList m) (tm_status m) (_lastTicketId m) (_lastSurveyId m) (_openTicketCount m) (_lastChange m) l (tm_trace m).
Definition tevent (e : TEvent) : TM unit :=
  modS (fun m => mkTicketMgr (_ticketList m) (tm_status m) (_lastTicketId m) (_lastSurveyId m) (_openTicketCount m)
                   (_lastChange m) (itemStorage m) (tm_trace m ++ [e])).

Definition TSendPacket (player opcode : Z) (fs : list PField) : TM unit :=
  let! p := liftS (make opcode fs) in tevent (TSend player p).

(** [if (player->GetSession()) ... SendPacket] *)
Definition send_if_session (p : option TPlayer) (send : Z -> TM unit) : TM unit :=
  match p with
  | Some pl => match tp_session pl with Some _ => send (tp_guid pl) | None => retS tt end
  | None => retS tt
  end.

(** ** [GmTicket] *)
Definition IsClosed (t : GmTicket) : bool := negb (tk_closedBy t =? 0).
Definition IsFromPlayer (guid : Z) (t : GmTicket) : bool := guid =? tk_playerGuid t.
Definition IsAssigned (t : GmTicket) : bool := negb (tk_assignedTo t =? 0).
Definition IsAssignedTo (guid : Z) (t : GmTicket) : bool := guid =? tk_assignedTo t.
Definition IsAssignedNotTo (guid : Z) (t : GmTicket) : bool := IsAssigned t && negb (IsAssignedTo guid t).

Definition with_closed (source : Z) (t : GmTicket) : GmTicket :=
  mkTicket (tk_id t) (tk_playerGuid t) (tk_playerName t) (tk_posX t) (tk_posY t) (tk_posZ t) (tk_mapId t) (tk_message t)
    (tk_createTime t) (tk_lastModifiedTime t) source (tk_assignedTo t) (tk_comment t) (tk_completed t)
    (tk_escalatedStatus t) (tk_viewed t) (tk_needResponse t) (tk_response t).
Definition with_assigned (guid status : Z) (t : GmTicket) : GmTicket :=
  mkTicket (tk_id t) (tk_playerGuid t) (tk_playerName t) (tk_posX t) (tk_posY t) (tk_posZ t) (tk_mapId t) (tk_message t)
    (tk_createTime t) (tk_lastModifiedTime t) (tk_closedBy t) guid (tk_comment t) (tk_completed t)
    status (tk_viewed t) (tk_needResponse t) (tk_response t).
Definition with_message (now : Z) (message : string) (t : GmTicket) : GmTicket :=
  mkTicket (tk_id t) (tk_playerGuid t) (tk_playerName t) (tk_posX t) (tk_posY t) (tk_posZ t) (tk_mapId t) message
    (tk_createTime t) now (tk_closedBy t) (tk_assignedTo t) (tk_comment t) (tk_completed t)
    (tk_escalatedStatus t) (tk_viewed t) (tk_needResponse t) (tk_response t).
Definition with_comment (comment : string) (t : GmTicket) : GmTicket :=
  mkTicket (tk_id t) (tk_playerGuid t) (tk_playerName t) (tk_posX t) (tk_posY t) (tk_posZ t) (tk_mapId t) (tk_message t)
    (tk_createTime t) (tk_lastModifiedTime t) (tk_closedBy t) (tk_assignedTo t) comment (tk_completed t)
    (tk_escalatedStatus t) (tk_viewed t) (tk_needResponse t) (tk_response t).
Definition SetViewed (t : GmTicket) : GmTicket :=
  mkTicket (tk_id t) (tk_playerGuid t) (tk_playerName t) (tk_posX t) (tk_posY t) (tk_posZ t) (tk_mapId t) (tk_message t)
    (tk_createTime t) (tk_lastModifiedTime t) (tk_closedBy t) (tk_assignedTo t) (tk_comment t) (tk_completed t)
    (tk_escalatedStatus t) true (tk_needResponse t) (tk_response t).
Definition AppendResponse (response : string) (t : GmTicket) : GmTicket :=
  mkTicket (tk_id t) (tk_playerGuid t) (tk_playerName t) (tk_posX t) (tk_posY t) (tk_posZ t) (tk_mapId t) (tk_message t)
    (tk_createTime t) (tk_lastModifiedTime t) (tk_closedBy t) (tk_assignedTo t) (tk_comment t) (tk_completed t)
    (tk_escalatedStatus t) (tk_viewed t) (tk_needResponse t) (tk_response t +:+ response).

(** The parameters [SaveToDB] binds, from the first. *)
Definition ticket_args (t : GmTicket) : list TArg :=
  [TU32 (tk_id t); TU32 (GUID_LOPART (tk_playerGuid t)); TStr (tk_playerName t); TStr (tk_message t);
   TU32 (u32 (tk_createTime t)); TU16 (tk_mapId t); TF32 (tk_posX t); TF32 (tk_posY t); TF32 (tk_posZ t);
   TU32 (u32 (tk_lastModifiedTime t)); TI32 (s32 (GUID_LOPART (u64 (tk_closedBy t)))); TU32 (GUID_LOPART (tk_assignedTo t));
   TStr (tk_comment t); TBool (tk_completed t); TU8 (u8 (tk_escalatedStatus t)); TBool (tk_viewed t)].

Definition SaveToDB (t : GmTicket) : TM unit := tevent (TExec CHAR_REP_GM_TICKET (ticket_args t)).
Definition DeleteFromDB (t : GmTicket) : TM unit := tevent (TExec CHAR_DEL_GM_TICKET [TU32 (tk_id t)]).

(** A row, by position, as the query returns it. *)
Record TicketRow := mkTicketRow {
  f0 : Z; f1 : Z; f2 : string; f3 : string; f4 : Z; f5 : Z; f6 : Z; f7 : Z; f8 : Z; f9 : Z; f10 : Z; f11 : Z; f12 : string;
  f13 : Z; f14 : Z; f15 : Z
}.

(** [needResponse] and [response] are what the new object holds. *)
Definition LoadFromDB (f : TicketRow) (needResponse : bool) : GmTicket :=
  mkTicket (f0 f) (MAKE_NEW_GUID (f1 f) 0 HIGHGUID_PLAYER) (f2 f) (f6 f) (f7 f) (f8 f) (f5 f) (f3 f) (f4 f) (f9 f)
    (f10 f) (MAKE_NEW_GUID (f11 f) 0 HIGHGUID_PLAYER) (f12 f) (f13 f =? 1) (f14 f) (f15 f =? 1) needResponse EmptyString.

(** ** The tickets in order *)
Definition id_le {V} (a b : Z * V) : Prop := a.1 <= b.1.
#[export] Instance id_le_dec {V} : RelDecision (@id_le V).
Proof. intros a b. unfold id_le. apply _. Defined.
Definition tickets (m : TicketMgr) : list GmTicket := (merge_sort id_le (map_to_list (_ticketList m))).*2.

Fixpoint find_first {A} (f : A -> bool) (l : list A) : option A :=
  match l with [] => None | x :: l' => if f x then Some x else find_first f l' end.

Definition GetTicket (ticketId : Z) (m : TicketMgr) : option GmTicket := _ticketList m !! ticketId.
Definition GetTicketByPlayer (playerGuid : Z) (m : TicketMgr) : option GmTicket :=
  find_first (fun t => IsFromPlayer playerGuid t && negb (IsClosed t)) (tickets m).
Definition GetOldestOpenTicket (m : TicketMgr) : option GmTicket :=
  find_first (fun t => negb (IsClosed t) && negb (tk_completed t)) (tickets m).

(** Changing the ticket behind a pointer that came from the list. *)
Definition put_ticket (t : GmTicket) : TM unit := modS (fun m => set_list (<[tk_id t := t]> (_ticketList m)) m).

Section Tickets.
  Variable env : TicketEnv.

Definition GetAge (t : Z) : Z := te_age env (u64 (te_now env - t)).

(** The constructor: the number is taken before the packet is read. *)
Definition GenerateTicketId : TM Z :=
  let! m := getS (fun m => m) in
  modS (set_ids (u32 (_lastTicketId m + 1)) (_lastSurveyId m)) ;! retS (u32 (_lastTicketId m + 1)).

Definition read_ticket (recv_data : ByteBuffer) : outcome (Z * Z * Z * Z * string * Z) :=
  let* '(mapId, b) := read 4 recv_data in
  let* '(x, b) := read_float b in
  let* '(y, b) := read_float b in
  let* '(z, b) := read_float b in
  let* '(message, b) := read_string b in
  let* '(needResponse, b) := read 4 b in
  let* '(_, b) := read 1 b in
  Ok (mapId, x, y, z, message, needResponse).

Definition GmTicket_new (player : TPlayer) (recv_data : ByteBuffer) : TM GmTicket :=
  let! id := GenerateTicketId in
  let! '(mapId, x, y, z, message, needResponse) := liftS (read_ticket recv_data) in
  retS (mkTicket id (tp_guid player) (tp_name player) x y z (u16 mapId) message (te_now env) (te_now env) 0 0
          EmptyString false TICKET_UNASSIGNED (te_viewed env) (needResponse =? 17) EmptyString).

(** [WritePacket], [SendResponse] *)
Definition ticket_status_fields (m : TicketMgr) (t : GmTicket) : list PField :=
  [F32 (GetAge (tk_lastModifiedTime t));
   F32 (match GetOldestOpenTicket m with Some o => GetAge (tk_lastModifiedTime o) | None => 0 end);
   F32 (GetAge (_lastChange m));
   U8 (Z.min (tk_escalatedStatus t) TICKET_IN_ESCALATION_QUEUE);
   U8 (if tk_viewed t then 1 else 0)].

Definition SendResponse (player : Z) (t : GmTicket) : TM unit :=
  TSendPacket player SMSG_GMRESPONSE_RECEIVED
    [U32 1; U32 (tk_id t); Str (tk_message t); Str (tk_response t); U8 0; U8 0; U8 0].

(** [ChatHandler::playerLink], [FormatMessageString]: a link if there is a
    session to show it. *)
Definition playerLink (session : bool) (name : string) : string :=
  if session then ("|cffffffff|Hplayer:" +:+ name +:+ "|h[" +:+ name +:+ "]|h|r")%string else name.

Definition FormatMessageString (session detailed : bool) (t : GmTicket) : list Line :=
  [(LANG_COMMAND_TICKETLISTGUID, [TU32 (tk_id t)]); (LANG_COMMAND_TICKETLISTNAME, [TStr (playerLink session (tk_playerName t))]);
   (LANG_COMMAND_TICKETLISTAGECREATE, [TTime (u64 (te_now env - tk_createTime t))]);
   (LANG_COMMAND_TICKETLISTAGE, [TTime (u64 (te_now env - tk_lastModifiedTime t))])]
  ++ (match te_GetPlayerNameByGUID env (tk_assignedTo t) with
      | Some name => [(LANG_COMMAND_TICKETLISTASSIGNEDTO, [TStr name])] | None => [] end)
  ++ (if detailed then
        [(LANG_COMMAND_TICKETLISTMESSAGE, [TStr (tk_message t)])]
        ++ (if String.eqb (tk_comment t) EmptyString then [] else [(LANG_COMMAND_TICKETLISTCOMMENT, [TStr (tk_comment t)])])
      else []).

Definition opt_line (l : LANG) (s : option string) : list Line := match s with Some s => [(l, [TStr s])] | None => [] end.
Definition FormatMessageNames (session : bool) (closed assigned unassigned deleted : option string) (t : GmTicket) : list Line :=
  [(LANG_COMMAND_TICKETLISTGUID, [TU32 (tk_id t)]); (LANG_COMMAND_TICKETLISTNAME, [TStr (playerLink session (tk_playerName t))])]
  ++ opt_line LANG_COMMAND_TICKETCLOSED closed ++ opt_line LANG_COMMAND_TICKETLISTASSIGNEDTO assigned
  ++ opt_line LANG_COMMAND_TICKETLISTUNASSIGNED unassigned ++ opt_line LANG_COMMAND_TICKETDELETED deleted.

Definition GetAssignedToName (t : GmTicket) : string :=
  if tk_assignedTo t =? 0 then EmptyString else default EmptyString (te_GetPlayerNameByGUID env (tk_assignedTo t)).

(** ** [GMQualityManager] *)
Definition OnTicketAssign (t : GmTicket) : TM unit :=
  whenS (te_gm_activity env) (modS (fun m =>
    set_items (take (te_place env) (itemStorage m)
               ++ [mkItem (tk_id t) (te_GetPlayerAccountIdByGUID env (tk_assignedTo t)) (te_GetPlayerAccountIdByGUID env (tk_playerGuid t))]
               ++ drop (te_place env) (itemStorage m)) m)).

Fixpoint drop_item (ticketId : Z) (l : list GMQualityItem) : list GMQualityItem :=
  match l with [] => [] | i :: l' => if qi_ticketId i =? ticketId then l' else i :: drop_item ticketId l' end.
Definition OnTicketUnAssign (t : GmTicket) : TM unit :=
  whenS (te_gm_activity env) (modS (fun m => set_items (drop_item (tk_id t) (itemStorage m)) m)).
Definition OnTicketClose : GmTicket -> TM unit := OnTicketUnAssign.

Definition SetAssignedTo (guid : Z) (isAdmin : bool) (t : GmTicket) : TM GmTicket :=
  let status :=
    if isAdmin && (tk_escalatedStatus t =? TICKET_IN_ESCALATION_QUEUE) then TICKET_ESCALATED_ASSIGNED
    else if tk_escalatedStatus t =? TICKET_UNASSIGNED then TICKET_ASSIGNED else tk_escalatedStatus t in
  let t := with_assigned guid status t in
  put_ticket t ;! OnTicketAssign t ;! retS t.

Definition SetUnassigned (t : GmTicket) : TM GmTicket :=
  let status :=
    if tk_escalatedStatus t =? TICKET_ASSIGNED then TICKET_UNASSIGNED
    else if tk_escalatedStatus t =? TICKET_ESCALATED_ASSIGNED then TICKET_IN_ESCALATION_QUEUE
    else tk_escalatedStatus t in
  let t := with_assigned 0 status t in
  put_ticket t ;! OnTicketUnAssign t ;! retS t.

(** ** [TicketMgr] *)
Definition UpdateLastChange : TM unit := modS (set_change (te_now env)).

Definition AddTicket (t : GmTicket) : TM unit :=
  put_ticket t ;!
  whenS (negb (IsClosed t)) (modS (fun m => set_open (u32 (_openTicketCount m + 1)) m)) ;!
  SaveToDB t.

Definition CloseTicket (ticketId source : Z) : TM unit :=
  let! t := getS (GetTicket ticketId) in
  match t with
  | None => retS tt
  | Some t =>
      let t := with_closed source t in
      put_ticket t ;!
      whenS (negb (source =? 0)) (modS (fun m => set_open (u32 (_openTicketCount m - 1)) m)) ;!
      SaveToDB t ;!
      OnTicketClose t
  end.

Definition RemoveTicket (ticketId : Z) : TM unit :=
  let! t := getS (GetTicket ticketId) in
  match t with
  | None => retS tt
  | Some t => DeleteFromDB t ;! modS (fun m => set_list (delete ticketId (_ticketList m)) m)
  end.

(** [ResetTickets]: the loop steps on from the iterator whose element it has
    just erased. *)
Fixpoint reset_loop (l : list GmTicket) : TM unit :=
  match l with
  | [] => retS tt
  | t :: l' => if IsClosed t then RemoveTicket (tk_id t) ;! liftS UB else reset_loop l'
  end.
Definition ResetTickets : TM unit :=
  let! l := getS tickets in
  reset_loop l ;!
  let! m := getS (fun m => m) in
  modS (set_ids 0 (_lastSurveyId m)) ;!
  tevent (TExec CHAR_DEL_ALL_GM_TICKETS []).

(** The row with the flag the new object happens to hold. *)
Definition load_ticket (r : TicketRow * bool) : TM unit :=
  let t := LoadFromDB r.1 r.2 in
  whenS (negb (IsClosed t)) (modS (fun m => set_open (u32 (_openTicketCount m + 1)) m)) ;!
  modS (fun m => if _lastTicketId m <? tk_id t then set_ids (tk_id t) (_lastSurveyId m) m else m) ;!
  put_ticket t.

Definition LoadTickets (rows : list (TicketRow * bool)) : TM unit :=
  modS (fun m => set_open 0 (set_ids 0 (_lastSurveyId m) (set_list ∅ m))) ;!
  for_eachS rows load_ticket.

Definition LoadSurveys (maxSurveyId : option Z) : TM unit :=
  modS (fun m => set_ids (_lastTicketId m) (default 0 maxSurveyId) m).

Definition SendTicket (player : Z) (t : option GmTicket) : TM unit :=
  let! m := getS (fun m => m) in
  TSendPacket player SMSG_GMTICKET_GETTICKET
    ([U32 (if t then GMTICKET_STATUS_HASTEXT else GMTICKET_STATUS_DEFAULT); U32 (match t with Some t => tk_id t | None => 0 end)]
     ++ match t with Some t => [Str (tk_message t); U8 0x7] ++ ticket_status_fields m t | None => [] end).

Definition ShowList (session onlineOnly : bool) : TM unit :=
  let! l := getS tickets in
  tevent (TSys ((if onlineOnly then LANG_COMMAND_TICKETSHOWONLINELIST else LANG_COMMAND_TICKETSHOWLIST, []) ::
    concat (FormatMessageString session false <$>
      filter (fun t => negb (IsClosed t) && negb (tk_completed t)
                       && (negb onlineOnly || bool_decide (is_Some (te_FindPlayer env (tk_playerGuid t)))) = true) l))).
Definition ShowClosedList (session : bool) : TM unit :=
  let! l := getS tickets in
  tevent (TSys ((LANG_COMMAND_TICKETSHOWCLOSEDLIST, []) :: concat (FormatMessageString session false <$> filter (fun t => IsClosed t = true) l))).
Definition ShowEscalatedList (session : bool) : TM unit :=
  let! l := getS tickets in
  tevent (TSys ((LANG_COMMAND_TICKETSHOWESCALATEDLIST, []) :: concat (FormatMessageString session false <$>
    filter (fun t => negb (IsClosed t) && (tk_escalatedStatus t =? TICKET_IN_ESCALATION_QUEUE) = true) l))).
End Tickets.
