(* ===== verification/TicketOps.v ===== *)
(** * Tickets: the opcodes and the commands

    [shade/Handler/TicketHandler.cpp] and [Chat/Commands/TicketCommands.cpp]. *)
From Stdlib Require Import Ascii String ZArith Lia.
From stdpp Require Import base gmap list strings sorting.
From S2P Require Import Prelude ByteBuffer Util Utf8 World StateM Node Tickets.

Open Scope Z_scope.

Definition lf : ascii := ascii_of_nat 10.

Definition GetPlayerLink (p : TPlayer) : string := playerLink (bool_decide (is_Some (tp_session p))) (tp_name p).

Section Handlers.
  Variable env : TicketEnv.

(** ** [TicketHandler.cpp]

    [player] is the session's player; one that is not there is dereferenced
    by most handlers. *)
Definition HandleGMTicketCreateOpcode (player : option TPlayer) (recv_data : ByteBuffer) : TM unit :=
  let! m := getS (fun m => m) in
  if negb (tm_status m) then retS tt
  else
    match player with
    | None => retS tt
    | Some pPlayer =>
        if tp_level pPlayer <? te_level_req env then
          tevent (TNotify (LANG_TICKET_REQ, [TU32 (te_level_req env)]))
        else
          let! response :=
            match GetTicketByPlayer (tp_guid pPlayer) m with
            | Some _ => retS GMTICKET_RESPONSE_CREATE_ERROR
            | None =>
                let! ticket := GmTicket_new env pPlayer recv_data in
                AddTicket ticket ;!
                UpdateLastChange env ;!
                tevent (TMaster [(LANG_COMMAND_TICKETNEW, [TStr (GetPlayerLink pPlayer); TU32 (tk_id ticket)])]) ;!
                retS GMTICKET_RESPONSE_CREATE_SUCCESS
            end in
          TSendPacket (tp_guid pPlayer) SMSG_GMTICKET_CREATE [U32 response]
    end.

Definition with_player {A} (player : option TPlayer) (k : TPlayer -> TM A) : TM A :=
  match player with Some p => k p | None => liftS UB end.

Definition HandleGMTicketUpdateOpcode (player : option TPlayer) (recv_data : ByteBuffer) : TM unit :=
  let! '(message, _) := liftS (read_string recv_data) in
  with_player player (fun p =>
    let! t := getS (GetTicketByPlayer (tp_guid p)) in
    let! response :=
      match t with
      | Some t =>
          let t := with_message (te_now env) message t in
          put_ticket t ;!
          SaveToDB t ;!
          tevent (TMaster [(LANG_COMMAND_TICKETUPDATED, [TStr (GetPlayerLink p); TU32 (tk_id t)])]) ;!
          retS GMTICKET_RESPONSE_UPDATE_SUCCESS
      | None => retS GMTICKET_RESPONSE_UPDATE_ERROR
      end in
    TSendPacket (tp_guid p) SMSG_GMTICKET_UPDATETEXT [U32 response]).

(** What a player does to give up the ticket. *)
Definition abandon (p : TPlayer) (t : GmTicket) : TM unit :=
  CloseTicket env (tk_id t) (tp_guid p) ;!
  SendTicket env (tp_guid p) None.

Definition HandleGMTicketDeleteOpcode (player : option TPlayer) : TM unit :=
  with_player player (fun p =>
    let! t := getS (GetTicketByPlayer (tp_guid p)) in
    match t with
    | Some t =>
        TSendPacket (tp_guid p) SMSG_GMTICKET_DELETETICKET [U32 GMTICKET_RESPONSE_TICKET_DELETED] ;!
        tevent (TMaster [(LANG_COMMAND_TICKETPLAYERABANDON, [TStr (GetPlayerLink p); TU32 (tk_id t)])]) ;!
        abandon p t
    | None => retS tt
    end).

Definition HandleGMTicketGetTicketOpcode (player : option TPlayer) : TM unit :=
  tevent (TNode CMSG_QUERY_TIME) ;!
  with_player player (fun p =>
    let! t := getS (GetTicketByPlayer (tp_guid p)) in
    match t with
    | Some t => if tk_completed t then SendResponse (tp_guid p) t else SendTicket env (tp_guid p) (Some t)
    | None => SendTicket env (tp_guid p) None
    end).

Definition HandleGMTicketSystemStatusOpcode (player : Z) : TM unit :=
  let! status := getS tm_status in
  TSendPacket player SMSG_GMTICKET_SYSTEMSTATUS [U32 (if status then 1 else 0)].

Fixpoint survey_loop (n : nat) (surveyId : Z) (b : ByteBuffer) : TM ByteBuffer :=
  match n with
  | O => retS b
  | S n' =>
      let! '(subSurveyId, b) := liftS (read 4 b) in
      if subSurveyId =? 0 then retS b
      else
        let! '(rank, b) := liftS (read 1 b) in
        let! '(comment, b) := liftS (read_string b) in
        tevent (TExec CHAR_INS_GM_SUBSURVEY [TU32 surveyId; TU32 subSurveyId; TU32 rank; TStr comment]) ;!
        survey_loop n' surveyId b
  end.

Definition HandleGMSurveySubmit (player : option TPlayer) (recv_data : ByteBuffer) : TM unit :=
  let! m := getS (fun m => m) in
  let nextSurveyID := u32 (_lastSurveyId m + 1) in
  modS (set_ids (_lastTicketId m) nextSurveyID) ;!
  let! '(mainSurvey, b) := liftS (read 4 recv_data) in
  let! b := survey_loop 10 nextSurveyID b in
  let! '(comment, _) := liftS (read_string b) in
  with_player player (fun p =>
    tevent (TExec CHAR_INS_GM_SURVEY [TU32 (GUID_LOPART (tp_guid p)); TU32 nextSurveyID; TU32 mainSurvey; TStr comment])).

Definition HandleReportLag (player : option TPlayer) (recv_data : ByteBuffer) : TM unit :=
  let! '(lagType, b) := liftS (read 4 recv_data) in
  let! '(mapId, b) := liftS (read 4 b) in
  let! '(x, b) := liftS (read_float b) in
  let! '(y, b) := liftS (read_float b) in
  let! '(z, b) := liftS (read_float b) in
  with_player player (fun p =>
    tevent (TExec CHAR_INS_LAG_REPORT [TU32 (GUID_LOPART (tp_guid p)); TU8 (u8 lagType); TU16 (u16 mapId);
      TF32 x; TF32 y; TF32 z; TU32 0; TU32 (u32 (te_now env))])).

Definition HandleGMResponseResolve (player : option TPlayer) : TM unit :=
  with_player player (fun p =>
    let! t := getS (GetTicketByPlayer (tp_guid p)) in
    match t with
    | Some t =>
        TSendPacket (tp_guid p) SMSG_GMRESPONSE_STATUS_UPDATE [U8 (if te_survey env then 1 else 0)] ;!
        TSendPacket (tp_guid p) SMSG_GMTICKET_DELETETICKET [U32 GMTICKET_RESPONSE_TICKET_DELETED] ;!
        abandon p t
    | None => retS tt
    end).

(** ** [TicketCommands.cpp]

    Who gives a command: the console, or a session with its level and,
    usually, its player. *)
Inductive Giver := Console | Gm (player : option TPlayer) (security : Z).
Definition giver_player (g : Giver) : option TPlayer := match g with Console => None | Gm p _ => p end.

Definition has_session (g : Giver) : bool := match g with Console => false | Gm _ _ => true end.

(** [player ? player->GetName() : "Console"] *)
Definition giver_name (g : Giver) : string := match giver_player g with Some p => tp_name p | None => "Console"%string end.
(** [GetSession() ? GetSession()->GetPlayer()->GetName() : "Console"] *)
Definition session_name (g : Giver) : outcome string :=
  match g with Console => Ok "Console"%string | Gm (Some p) _ => Ok (tp_name p) | Gm None _ => UB end.

(** Whether the ticket is another's: the console is let pass. *)
Definition others (g : Giver) (t : GmTicket) : bool :=
  match giver_player g with Some p => IsAssignedNotTo (tp_guid p) t | None => false end.

Definition sys (l : LANG) (args : list TArg) : TM bool := tevent (TSys [(l, args)]) ;! retS true.

Definition ticket_token (args : string) : outcome (Z * string) :=
  match strtok " "%char args with Some (tok, r) => Ok (u32 (atoi tok), r) | None => UB end.

(** [SendGameMasterMessage(msg.c_str())]: the message, which is finished, is
    the format of another [printf]. *)
Definition SendGameMasterMessage (msg : list Line) : TM unit :=
  let! _ := liftS (formatted (c_str (te_text env msg))) in tevent (TMaster msg).

Definition HandleGMTicketAssignToCommand (g : Giver) (args : string) : TM bool :=
  if String.eqb args EmptyString then retS false
  else
    let! '(ticketId, r) := liftS (ticket_token args) in
    match strtok " "%char r with
    | None => retS false
    | Some (targetStr, _) =>
        let! target := liftS (normalizePlayerName targetStr) in
        match target with
        | None => retS false
        | Some target =>
            let! t := getS (GetTicket ticketId) in
            match t with
            | None => sys LANG_COMMAND_TICKETNOTEXIST []
            | Some t =>
                if IsClosed t then sys LANG_COMMAND_TICKETNOTEXIST []
                else
                  let targetGuid := te_GetPlayerGUIDByName env target in
                  let targetGmLevel := te_GetSecurity env (te_GetPlayerAccountIdByGUID env targetGuid) in
                  if (targetGuid =? 0) || IsPlayerAccount targetGmLevel then sys LANG_COMMAND_TICKETASSIGNERROR_A []
                  else if IsAssignedTo targetGuid t then sys LANG_COMMAND_TICKETASSIGNERROR_B [TU32 (tk_id t)]
                  else if others g t then sys LANG_COMMAND_TICKETALREADYASSIGNED [TU32 (tk_id t); TStr target]
                  else
                    let! t := SetAssignedTo env targetGuid (IsAdminAccount targetGmLevel) t in
                    SaveToDB t ;!
                    UpdateLastChange env ;!
                    SendGameMasterMessage (FormatMessageNames (has_session g) None (Some target) None None t) ;!
                    retS true
            end
        end
    end.

(** The ticket a command names by its number, if it passes the test. *)
Definition named_ticket (args : string) (ok : GmTicket -> bool) (k : GmTicket -> TM bool) : TM bool :=
  if String.eqb args EmptyString then retS false
  else
    let! t := getS (GetTicket (u32 (atoi args))) in
    match t with
    | Some t => if ok t then k t else sys LANG_COMMAND_TICKETNOTEXIST []
    | None => sys LANG_COMMAND_TICKETNOTEXIST []
    end.

Definition is_open (t : GmTicket) : bool := negb (IsClosed t) && negb (tk_completed t).

Definition tell_deleted (playerGuid : Z) : TM unit :=
  send_if_session (te_FindPlayer env playerGuid)
    (fun p => TSendPacket p SMSG_GMTICKET_DELETETICKET [U32 GMTICKET_RESPONSE_TICKET_DELETED]).

Definition HandleGMTicketCloseByIdCommand (g : Giver) (args : string) : TM bool :=
  named_ticket args is_open (fun t =>
    if others g t then sys LANG_COMMAND_TICKETCANNOTCLOSE [TU32 (tk_id t)]
    else
      CloseTicket env (tk_id t) (match giver_player g with Some p => swrap 64 (tp_guid p) | None => -1 end) ;!
      UpdateLastChange env ;!
      SendGameMasterMessage (FormatMessageNames (has_session g) (Some (giver_name g)) None None None t) ;!
      tell_deleted (tk_playerGuid t) ;!
      retS true).

Definition HandleGMTicketCommentCommand (g : Giver) (args : string) : TM bool :=
  if String.eqb args EmptyString then retS false
  else
    let! '(ticketId, r) := liftS (ticket_token args) in
    match strtok lf r with
    | None => retS false
    | Some (comment, _) =>
        let! t := getS (GetTicket ticketId) in
        match t with
        | None => sys LANG_COMMAND_TICKETNOTEXIST []
        | Some t =>
            if IsClosed t then sys LANG_COMMAND_TICKETNOTEXIST []
            else if others g t then sys LANG_COMMAND_TICKETALREADYASSIGNED [TU32 (tk_id t)]
            else
              let t := with_comment comment t in
              put_ticket t ;!
              SaveToDB t ;!
              UpdateLastChange env ;!
              SendGameMasterMessage (FormatMessageNames (has_session g) None (Some (GetAssignedToName env t)) None None t
                               ++ [(LANG_COMMAND_TICKETLISTADDCOMMENT, [TStr (giver_name g); TStr comment])]) ;!
              retS true
        end
    end.

Definition HandleGMTicketCompleteCommand (g : Giver) (args : string) : TM bool :=
  named_ticket args is_open (fun t =>
    send_if_session (te_FindPlayer env (tk_playerGuid t)) (fun p => SendResponse p t) ;!
    UpdateLastChange env ;!
    retS true).

(** The ticket is read again after it has been deleted. *)
Definition HandleGMTicketDeleteByIdCommand (g : Giver) (args : string) : TM bool :=
  named_ticket args (fun _ => true) (fun t =>
    if negb (IsClosed t) then sys LANG_COMMAND_TICKETCLOSEFIRST []
    else
      let! name := liftS (session_name g) in
      SendGameMasterMessage (FormatMessageNames (has_session g) None None None (Some name) t) ;!
      RemoveTicket (tk_id t) ;!
      UpdateLastChange env ;!
      liftS UB).

Definition HandleGMTicketEscalateCommand (g : Giver) (args : string) : TM bool :=
  named_ticket args (fun t => is_open t && (tk_escalatedStatus t =? TICKET_UNASSIGNED)) (fun t =>
    let t := with_assigned (tk_assignedTo t) TICKET_IN_ESCALATION_QUEUE t in
    put_ticket t ;!
    send_if_session (te_FindPlayer env (tk_playerGuid t)) (fun p => SendTicket env p (Some t)) ;!
    UpdateLastChange env ;!
    retS true).

Definition HandleGMTicketListClosedCommand (g : Giver) : TM bool := ShowClosedList env (has_session g) ;! retS true.
Definition HandleGMTicketListEscalatedCommand (g : Giver) : TM bool := ShowEscalatedList env (has_session g) ;! retS true.
Definition HandleGMTicketListCommand (g : Giver) : TM bool := ShowList env (has_session g) false ;! retS true.
Definition HandleGMTicketListOnlineCommand (g : Giver) : TM bool := ShowList env (has_session g) true ;! retS true.

Definition HandleGMTicketResetCommand : TM bool :=
  let! n := getS _openTicketCount in
  if negb (n =? 0) then sys LANG_COMMAND_TICKETPENDING []
  else ResetTickets ;! sys LANG_COMMAND_TICKETRESET [].

Definition HandleToggleGMTicketSystem : TM bool :=
  let! m := getS (fun m => m) in
  modS (set_status (negb (tm_status m))) ;!
  sys (if negb (tm_status m) then LANG_ALLOW_TICKETS else LANG_DISALLOW_TICKETS) [].

Definition HandleGMTicketUnAssignCommand (g : Giver) (args : string) : TM bool :=
  named_ticket args (fun t => negb (IsClosed t)) (fun t =>
    if negb (IsAssigned t) then sys LANG_COMMAND_TICKETNOTASSIGNED [TU32 (tk_id t)]
    else
      let security :=
        match te_FindPlayer env (tk_assignedTo t) with
        | Some p => match tp_session p with
                    | Some sec => sec
                    | None => te_GetSecurity env (te_GetPlayerAccountIdByGUID env (tk_assignedTo t))
                    end
        | None => te_GetSecurity env (te_GetPlayerAccountIdByGUID env (tk_assignedTo t))
        end in
      let mySecurity := match g with Console => SEC_CONSOLE | Gm _ sec => sec end in
      if mySecurity <? security then sys LANG_COMMAND_TICKETUNASSIGNSECURITY []
      else
        let assignedTo := GetAssignedToName env t in
        let! t := SetUnassigned env t in
        SaveToDB t ;!
        UpdateLastChange env ;!
        let! name := liftS (session_name g) in
        SendGameMasterMessage (FormatMessageNames (has_session g) None (Some assignedTo) (Some name) None t) ;!
        retS true).

(** Viewing marks the ticket. *)
Definition view_ticket (g : Giver) (t : GmTicket) : TM bool :=
  let t := SetViewed t in
  put_ticket t ;! SaveToDB t ;! tevent (TSys (FormatMessageString env (has_session g) true t)) ;! retS true.

Definition HandleGMTicketGetByIdCommand (g : Giver) (args : string) : TM bool := named_ticket args is_open (view_ticket g).

Definition HandleGMTicketGetByNameCommand (g : Giver) (args : string) : TM bool :=
  if String.eqb args EmptyString then retS false
  else
    let! name := liftS (normalizePlayerName args) in
    match name with
    | None => retS false
    | Some name =>
        let guid := match te_FindPlayerByName env name with Some p => tp_guid p | None => te_GetPlayerGUIDByName env name end in
        if guid =? 0 then sys LANG_NO_PLAYERS_FOUND []
        else
          let! t := getS (GetTicketByPlayer guid) in
          match t with None => sys LANG_COMMAND_TICKETNOTEXIST [] | Some t => view_ticket g t end
    end.

Definition _HandleGMTicketResponseAppendCommand (newLine : bool) (g : Giver) (args : string) : TM bool :=
  if String.eqb args EmptyString then retS false
  else
    let! '(ticketId, r) := liftS (ticket_token args) in
    match strtok lf r with
    | None => retS false
    | Some (response, _) =>
        let! t := getS (GetTicket ticketId) in
        match t with
        | None => sys LANG_COMMAND_TICKETNOTEXIST []
        | Some t =>
            if IsClosed t then sys LANG_COMMAND_TICKETNOTEXIST []
            else if others g t then sys LANG_COMMAND_TICKETALREADYASSIGNED [TU32 (tk_id t)]
            else
              let t := AppendResponse response t in
              let t := if newLine then AppendResponse (String lf EmptyString) t else t in
              put_ticket t ;! SaveToDB t ;! retS true
        end
    end.
End Handlers.

(** ** Everything that happens to the tickets *)
Inductive TicketOp :=
| TCreate (p : option TPlayer) (b : ByteBuffer) | TUpdate (p : option TPlayer) (b : ByteBuffer)
| TDelete (p : option TPlayer) | TGet (p : option TPlayer) | TStatus (p : Z)
| TSurvey (p : option TPlayer) (b : ByteBuffer) | TLag (p : option TPlayer) (b : ByteBuffer) | TResolve (p : option TPlayer)
| TAssign (g : Giver) (args : string) | TClose (g : Giver) (args : string) | TComment (g : Giver) (args : string)
| TComplete (g : Giver) (args : string) | TRemove (g : Giver) (args : string) | TEscalate (g : Giver) (args : string)
| TListClosed (g : Giver) | TListEscalated (g : Giver) | TList (g : Giver) | TListOnline (g : Giver) | TReset | TToggle
| TUnAssign (g : Giver) (args : string) | TViewId (g : Giver) (args : string) | TViewName (g : Giver) (args : string)
| TAppend (newLine : bool) (g : Giver) (args : string).

Definition forget {A} (m : TM A) : TM unit := m ;! retS tt.

Definition ticket_op (env : TicketEnv) (o : TicketOp) : TM unit :=
  match o with
  | TCreate p b => HandleGMTicketCreateOpcode env p b
  | TUpdate p b => HandleGMTicketUpdateOpcode env p b
  | TDelete p => HandleGMTicketDeleteOpcode env p
  | TGet p => HandleGMTicketGetTicketOpcode env p
  | TStatus p => HandleGMTicketSystemStatusOpcode p
  | TSurvey p b => HandleGMSurveySubmit p b
  | TLag p b => HandleReportLag env p b
  | TResolve p => HandleGMResponseResolve env p
  | TAssign g a => forget (HandleGMTicketAssignToCommand env g a)
  | TClose g a => forget (HandleGMTicketCloseByIdCommand env g a)
  | TComment g a => forget (HandleGMTicketCommentCommand env g a)
  | TComplete g a => forget (HandleGMTicketCompleteCommand env g a)
  | TRemove g a => forget (HandleGMTicketDeleteByIdCommand env g a)
  | TEscalate g a => forget (HandleGMTicketEscalateCommand env g a)
  | TListClosed g => forget (HandleGMTicketListClosedCommand env g)
  | TListEscalated g => forget (HandleGMTicketListEscalatedCommand env g)
  | TList g => forget (HandleGMTicketListCommand env g)
  | TListOnline g => forget (HandleGMTicketListOnlineCommand env g)
  | TReset => forget HandleGMTicketResetCommand
  | TToggle => forget HandleToggleGMTicketSystem
  | TUnAssign g a => forget (HandleGMTicketUnAssignCommand env g a)
  | TViewId g a => forget (HandleGMTicketGetByIdCommand env g a)
  | TViewName g a => forget (HandleGMTicketGetByNameCommand env g a)
  | TAppend nl g a => forget (_HandleGMTicketResponseAppendCommand nl g a)
  end.
