(* ===== verification/TicketFacts.v ===== *)
(** * Tickets: what holds of them at any time *)
From Stdlib Require Import Ascii String ZArith Lia.
From stdpp Require Import base gmap list strings sorting fin_maps fin_map_dom.
From S2P Require Import Prelude ByteBuffer Utf8 World StateM Node Tickets TicketOps.

Open Scope Z_scope.

(** ** Finding tickets *)
Lemma find_first_Some {A} (f : A -> bool) l x : find_first f l = Some x -> x ∈ l /\ f x = true.
Proof.
  induction l as [|y l IH]; cbn [find_first]; [done|]. destruct (f y) eqn:Ef.
  - intros [= <-]. split; [left|done].
  - intros Hx. destruct (IH Hx). split; [by right|done].
Qed.

Lemma find_first_None {A} (f : A -> bool) l x : find_first f l = None -> x ∈ l -> f x = false.
Proof.
  induction l as [|y l IH]; cbn [find_first]; [by intros _ ?%not_elem_of_nil|].
  destruct (f y) eqn:Ef; [done|]. intros Hl [->|Hx]%elem_of_cons; [done|by apply IH].
Qed.

Lemma elem_tickets m t : t ∈ tickets m <-> exists id, _ticketList m !! id = Some t.
Proof.
  unfold tickets. rewrite list_elem_of_fmap. split.
  - intros ([id t'] & -> & Hin). rewrite merge_sort_Permutation in Hin. exists id. by apply elem_of_map_to_list in Hin.
  - intros [id Hid]. exists (id, t). split; [done|]. rewrite merge_sort_Permutation. by apply elem_of_map_to_list.
Qed.

Lemma GetTicketByPlayer_Some guid m t :
  GetTicketByPlayer guid m = Some t ->
  (exists id, _ticketList m !! id = Some t) /\ tk_playerGuid t = guid /\ IsClosed t = false.
Proof.
  intros [Hin Hf]%find_first_Some. apply elem_tickets in Hin. unfold IsFromPlayer in Hf.
  apply andb_prop in Hf as [Hg%Z.eqb_eq Hc%negb_true_iff]. by split_and!.
Qed.

(** ** The invariant *)
Definition assignment_ok (t : GmTicket) : Prop :=
  (tk_escalatedStatus t = TICKET_UNASSIGNED -> tk_assignedTo t = 0)
  /\ (tk_escalatedStatus t = TICKET_ASSIGNED \/ tk_escalatedStatus t = TICKET_ESCALATED_ASSIGNED -> tk_assignedTo t <> 0).

Lemma assignment_none t : tk_escalatedStatus t = TICKET_UNASSIGNED -> tk_assignedTo t = 0 -> assignment_ok t.
Proof. intros Hs Ha. split; [done|]. rewrite Hs. by intros [|]. Qed.

Definition open_tickets (l : gmap Z GmTicket) : gmap Z GmTicket := filter (fun p => IsClosed p.2 = false) l.

Record core_ok (l : gmap Z GmTicket) (last count : Z) : Prop := mkCoreOk {
  co_filed : forall id t, l !! id = Some t -> tk_id t = id /\ 1 <= id <= last /\ assignment_ok t;
  co_last : 0 <= last < 2 ^ 32;
  co_count : count = Z.of_nat (size (open_tickets l));
  co_one : forall i j ti tj, l !! i = Some ti -> l !! j = Some tj -> IsClosed ti = false -> IsClosed tj = false ->
             tk_playerGuid ti = tk_playerGuid tj -> i = j
}.

Definition tickets_ok (m : TicketMgr) : Prop := core_ok (_ticketList m) (_lastTicketId m) (_openTicketCount m).

Lemma size_ids (l : gmap Z GmTicket) last : 0 <= last -> (forall id t, l !! id = Some t -> 1 <= id <= last) -> Z.of_nat (size l) <= last.
Proof.
  intros Hl Hf. assert (dom l ⊆ list_to_set (C := gset Z) (seqZ 1 last)) as Hsub.
  { intros id Hid. apply elem_of_dom in Hid as [t Ht]. specialize (Hf id t Ht). apply elem_of_list_to_set, elem_of_seqZ. lia. }
  apply subseteq_size in Hsub. rewrite size_dom, size_list_to_set, length_seqZ in Hsub by apply NoDup_seqZ. lia.
Qed.

Lemma size_open l last count : core_ok l last count -> Z.of_nat (size l) <= last.
Proof. intros [Hf Hl _ _]. apply size_ids; [lia|]. intros id t Ht. by destruct (Hf id t Ht) as (_ & ? & _). Qed.

Lemma open_le l : (size (open_tickets l) <= size l)%nat.
Proof. unfold open_tickets. rewrite <- !size_dom. apply subseteq_size, dom_filter_subseteq. Qed.

Lemma core_put l last count id t0 t :
  core_ok l last count -> l !! id = Some t0 -> tk_id t = tk_id t0 -> tk_closedBy t = tk_closedBy t0 ->
  tk_playerGuid t = tk_playerGuid t0 -> assignment_ok t -> core_ok (<[id := t]> l) last count.
Proof.
  intros [Hf Hl Hc Ho] Hid Htid Hcl Hpl Ha. assert (IsClosed t = IsClosed t0) as Hclosed by (unfold IsClosed; congruence).
  split.
  - intros i ti. rewrite lookup_insert_Some. intros [[<- <-]|[_ Hi]]; [|by apply Hf]. destruct (Hf id t0 Hid) as (? & ? & _).
    split_and!; [congruence|lia|lia|done].
  - done.
  - rewrite Hc. unfold open_tickets. rewrite map_filter_insert. cbn [snd]. destruct (decide (IsClosed t = false)) as [Ht|Ht].
    + rewrite map_size_insert_Some; [done|]. exists t0. apply map_lookup_filter_Some. split; [done|]. cbn. congruence.
    + rewrite map_filter_delete, delete_id; [done|]. apply map_lookup_filter_None. right. intros x Hx. cbn. congruence.
  - assert (forall i ti, <[id := t]> l !! i = Some ti -> exists ti', l !! i = Some ti' /\ IsClosed ti' = IsClosed ti /\ tk_playerGuid ti' = tk_playerGuid ti) as Hback.
    { intros i ti. rewrite lookup_insert_Some. intros [[<- <-]|[_ Hi]]; [exists t0|exists ti]; done. }
    intros i j ti tj Hi Hj Hoi Hoj Hg. destruct (Hback _ _ Hi) as (ti' & ? & ? & ?), (Hback _ _ Hj) as (tj' & ? & ? & ?).
    eapply Ho; [done|done|congruence..].
Qed.

Lemma core_close l last count id t0 source :
  core_ok l last count -> l !! id = Some t0 -> IsClosed t0 = false -> source <> 0 ->
  core_ok (<[id := with_closed source t0]> l) last (u32 (count - 1)).
Proof.
  intros Hok Hid Hop Hs. pose proof (size_open _ _ _ Hok) as Hsz. pose proof (open_le l) as Hle. destruct Hok as [Hf Hl Hc Ho].
  assert (IsClosed (with_closed source t0) = true) as Hcl by (unfold IsClosed; cbn; by apply negb_true_iff, Z.eqb_neq).
  assert (open_tickets l !! id = Some t0) as Hin by (by apply map_lookup_filter_Some).
  assert (size (open_tickets l) = S (size (delete id (open_tickets l)))) as Hsize.
  { rewrite <- (insert_delete_id (open_tickets l) id t0 Hin) at 1. apply map_size_insert_None, lookup_delete_eq. }
  split.
  - intros i ti. rewrite lookup_insert_Some. intros [[<- <-]|[_ Hi]]; [|by apply Hf]. by destruct (Hf id t0 Hid) as (? & ? & ?).
  - done.
  - unfold open_tickets at 1. rewrite map_filter_insert. cbn [snd]. rewrite decide_False by congruence.
    rewrite map_filter_delete. fold (open_tickets l). rewrite wrap_small; lia.
  - assert (forall i ti, <[id := with_closed source t0]> l !! i = Some ti -> IsClosed ti = false -> l !! i = Some ti) as Hback.
    { intros i ti. rewrite lookup_insert_Some. intros [[<- <-]|[_ Hi]]; [congruence|done]. }
    intros i j ti tj Hi Hj Hoi Hoj. eauto.
Qed.

Lemma core_add l last count t :
  core_ok l last count -> last + 1 < 2 ^ 32 -> tk_id t = last + 1 -> IsClosed t = false -> assignment_ok t ->
  (forall id u, l !! id = Some u -> IsClosed u = false -> tk_playerGuid u <> tk_playerGuid t) ->
  core_ok (<[last + 1 := t]> l) (last + 1) (u32 (count + 1)).
Proof.
  intros Hok Hlast Hid Hcl Ha Hnew. pose proof (size_open _ _ _ Hok) as Hsz. pose proof (open_le l) as Hle.
  destruct Hok as [Hf Hl Hc Ho].
  assert (l !! (last + 1) = None) as Hnone.
  { apply eq_None_not_Some. intros [u Hu]. destruct (Hf _ _ Hu) as (_ & ? & _). lia. }
  split.
  - intros i ti. rewrite lookup_insert_Some. intros [[<- <-]|[_ Hi]]; [split_and!; [done|lia|lia|done]|].
    destruct (Hf _ _ Hi) as (? & ? & ?). split_and!; [done|lia|lia|done].
  - lia.
  - unfold open_tickets. rewrite map_filter_insert. cbn [snd]. rewrite decide_True by done.
    rewrite map_size_insert_None by (apply map_lookup_filter_None; by left). fold (open_tickets l). rewrite wrap_small; lia.
  - intros i j ti tj. rewrite !lookup_insert_Some. intros [[<- <-]|[_ Hi]] [[<- <-]|[_ Hj]] Hoi Hoj Hg; [done| | |by eapply Ho].
    + by destruct (Hnew _ _ Hj Hoj).
    + by destruct (Hnew _ _ Hi Hoi).
Qed.

Lemma core_remove l last count id t0 :
  core_ok l last count -> l !! id = Some t0 -> IsClosed t0 = true -> core_ok (delete id l) last count.
Proof.
  intros [Hf Hl Hc Ho] Hid Hcl. split.
  - intros i ti. rewrite lookup_delete_Some. intros [_ Hi]. by apply Hf.
  - done.
  - rewrite Hc. unfold open_tickets. rewrite map_filter_delete, delete_id; [done|].
    apply map_lookup_filter_None. right. intros x Hx. cbn. congruence.
  - intros i j ti tj. rewrite !lookup_delete_Some. intros [_ Hi] [_ Hj]. by eapply Ho.
Qed.

Lemma core_generate l last count : core_ok l last count -> last + 1 < 2 ^ 32 -> core_ok l (last + 1) count.
Proof.
  intros [Hf Hl Hc Ho] Hlast. split; [|lia|done|done]. intros id t Hid. destruct (Hf id t Hid) as (? & ? & ?).
  split_and!; [done|lia|lia|done].
Qed.

(** ** The operations *)
Ltac tk_proj :=
  cbn [_ticketList tm_status _lastTicketId _lastSurveyId _openTicketCount _lastChange itemStorage tm_trace
       set_list set_status set_ids set_open set_change set_items fst snd] in *.
Ltac tk_step :=
  match goal with
  | |- wp (tevent _) _ _ _ => unfold tevent
  | |- wp (TSendPacket _ _ _) _ _ _ => unfold TSendPacket
  | |- wp (SendGameMasterMessage _ _) _ _ _ => unfold SendGameMasterMessage
  | |- wp (put_ticket _) _ _ _ => unfold put_ticket
  | |- wp (SaveToDB _) _ _ _ => unfold SaveToDB
  | |- wp (DeleteFromDB _) _ _ _ => unfold DeleteFromDB
  | |- wp (UpdateLastChange _) _ _ _ => unfold UpdateLastChange
  | |- wp (OnTicketAssign _ _) _ _ _ => unfold OnTicketAssign
  | |- wp (OnTicketUnAssign _ _) _ _ _ => unfold OnTicketUnAssign
  | |- wp (OnTicketClose _ _) _ _ _ => unfold OnTicketClose
  | |- wp (SendTicket _ _ _) _ _ _ => unfold SendTicket
  | |- wp (SendResponse _ _) _ _ _ => unfold SendResponse
  | |- wp (sys _ _) _ _ _ => unfold sys
  | |- wp (forget _) _ _ _ => unfold forget
  | |- wp (send_if_session ?p _) _ _ _ =>
      unfold send_if_session; let q := fresh "q" in destruct p as [q|]; [destruct (tp_session q)|]
  | |- wp (with_player ?p _) _ _ _ => unfold with_player; destruct p
  | |- wp (match ?p with pair _ _ => _ end) _ _ _ => destruct p
  | _ => wp_step
  end; tk_proj.
(** What leaves the tickets alone keeps the invariant. *)
Ltac tk_same := match goal with H : tickets_ok _ |- tickets_ok _ => exact H | H : tickets_ok _ |- _ /\ tickets_ok _ => split; [done|exact H] end.
Ltac tk_steps := repeat tk_step; try tk_same.

(** An operation after which the invariant holds, however it ends. *)
Definition keeps {A} (c : TM A) : Prop := forall m, tickets_ok m -> wp c (fun _ => tickets_ok) tickets_ok m.

Section Operations.
  Variable env : TicketEnv.

Lemma put_same_ok m id t0 t :
  tickets_ok m -> _ticketList m !! id = Some t0 -> tk_id t = tk_id t0 -> tk_closedBy t = tk_closedBy t0 ->
  tk_playerGuid t = tk_playerGuid t0 -> assignment_ok t -> core_ok (<[tk_id t := t]> (_ticketList m)) (_lastTicketId m) (_openTicketCount m).
Proof.
  intros Hok Hid Ht Hc Hp Ha. replace (tk_id t) with id; [by eapply core_put|].
  destruct (co_filed _ _ _ Hok _ _ Hid) as (? & _). congruence.
Qed.

Lemma ticket_assignment m id t : tickets_ok m -> _ticketList m !! id = Some t -> assignment_ok t.
Proof. intros Hok Hid. by destruct (co_filed _ _ _ Hok _ _ Hid) as (_ & _ & ?). Qed.

Lemma wp_CloseTicket id t source (Q : unit -> TicketMgr -> Prop) E m :
  tickets_ok m -> _ticketList m !! id = Some t -> IsClosed t = false -> source <> 0 ->
  (forall m', tickets_ok m' -> Q tt m') -> wp (CloseTicket env id source) Q E m.
Proof.
  intros Hok Hid Hop Hs HQ. unfold CloseTicket. tk_step. tk_step. unfold GetTicket. rewrite Hid. cbv zeta.
  assert (tk_id (with_closed source t) = id) as Hid' by apply (co_filed _ _ _ Hok _ _ Hid).
  apply Z.eqb_neq in Hs. rewrite Hs.
  repeat tk_step; try done; apply HQ; unfold tickets_ok; tk_proj; rewrite Hid'; apply core_close; try done; by apply Z.eqb_neq.
Qed.

Lemma keeps_create p b m :
  tickets_ok m -> _lastTicketId m + 1 < 2 ^ 32 ->
  wp (HandleGMTicketCreateOpcode env p b) (fun _ => tickets_ok) tickets_ok m.
Proof.
  intros Hok Hlast. unfold HandleGMTicketCreateOpcode. tk_step. tk_step. tk_step; [tk_steps|].
  destruct p as [p|]; [|tk_steps]. tk_step; [tk_steps|].
  destruct (GetTicketByPlayer (tp_guid p) m) as [t|] eqn:Eg; [tk_steps|].
  assert (tickets_ok (set_ids (u32 (_lastTicketId m + 1)) (_lastSurveyId m) m)) as Hgen.
  { unfold tickets_ok. tk_proj. pose proof (co_last _ _ _ Hok). rewrite wrap_small by lia. by apply core_generate. }
  unfold GmTicket_new, GenerateTicketId. do 6 tk_step. apply wpS_bind, wpS_lift; [|exact Hgen].
  intros [[[[[mapId x] y] z] message] needResponse] _. tk_step. unfold AddTicket. repeat tk_step; try done.
  all: match goal with |- tickets_ok _ => unfold tickets_ok; tk_proj | _ => idtac end.
  all: pose proof (co_last _ _ _ Hok); rewrite (wrap_small _ (_lastTicketId m + 1)) by lia; apply core_add; try done; [by apply assignment_none|].
  all: intros id u Hu Hcl Hg; cbn in Hg; unfold GetTicketByPlayer in Eg;
    apply (find_first_None _ _ u) in Eg; [|apply elem_tickets; by exists id];
    unfold IsFromPlayer in Eg; by rewrite Hcl, Hg, Z.eqb_refl in Eg.
Qed.

(** A ticket that was found and changed in what the invariant does not count. *)
Ltac tk_found :=
  match goal with
  | E : GetTicketByPlayer _ ?m = Some ?t, Hok : tickets_ok ?m |- tickets_ok _ =>
      let id := fresh "id" in let Hid := fresh "Hid" in
      destruct (GetTicketByPlayer_Some _ _ _ E) as ([id Hid] & _ & _);
      unfold tickets_ok; tk_proj; apply (put_same_ok m id t); try done; exact (ticket_assignment m id t Hok Hid)
  | E : GetTicket ?id ?m = Some ?t, Hok : tickets_ok ?m |- tickets_ok _ =>
      unfold tickets_ok; tk_proj; apply (put_same_ok m id t); try done; exact (ticket_assignment m id t Hok E)
  end.
Ltac tk_all := intros m Hok; repeat tk_step; try tk_same; try tk_found.

Lemma keeps_update p b : keeps (HandleGMTicketUpdateOpcode env p b).
Proof. unfold HandleGMTicketUpdateOpcode. tk_all. Qed.

Lemma keeps_ticket_get p : keeps (HandleGMTicketGetTicketOpcode env p).
Proof. unfold HandleGMTicketGetTicketOpcode. tk_all. Qed.
Lemma keeps_status p : keeps (HandleGMTicketSystemStatusOpcode p).
Proof. unfold HandleGMTicketSystemStatusOpcode. tk_all. Qed.

Lemma keeps_survey_loop n id b m :
  tickets_ok m -> wp (survey_loop n id b) (fun _ => tickets_ok) tickets_ok m.
Proof. revert b m. induction n as [|n IH]; intros b m Hok; cbn [survey_loop]; repeat tk_step; try tk_same. by apply IH. Qed.

Lemma keeps_survey p b : keeps (HandleGMSurveySubmit p b).
Proof.
  unfold HandleGMSurveySubmit. intros m Hok. repeat tk_step; try tk_same.
  eapply wpS_mono; [by apply keeps_survey_loop| |done]. intros b' m' Hok'. repeat tk_step; tk_same.
Qed.
Lemma keeps_lag p b : keeps (HandleReportLag env p b).
Proof. unfold HandleReportLag. tk_all. Qed.

Lemma keeps_show s b : keeps (ShowList env s b).
Proof. unfold ShowList. tk_all. Qed.

(** The handlers by which a player gives a ticket up. *)
Lemma wp_abandon p t m m0 :
  tickets_ok m -> GetTicketByPlayer (tp_guid p) m0 = Some t -> _ticketList m = _ticketList m0 -> tp_guid p <> 0 ->
  wp (abandon env p t) (fun _ => tickets_ok) tickets_ok m.
Proof.
  intros Hok Hg Hl Hp. destruct (GetTicketByPlayer_Some _ _ _ Hg) as ([id Hid] & _ & Hop). rewrite <- Hl in Hid.
  unfold abandon. assert (tk_id t = id) as -> by apply (co_filed _ _ _ Hok _ _ Hid).
  tk_step. eapply wp_CloseTicket; [done..|]. intros m' Hok'. tk_steps.
Qed.

Definition real (p : option TPlayer) : Prop := match p with Some p => 0 < tp_guid p < 2 ^ 63 | None => True end.

Lemma keeps_delete p m : real p -> tickets_ok m -> wp (HandleGMTicketDeleteOpcode env p) (fun _ => tickets_ok) tickets_ok m.
Proof.
  intros Hp Hok. unfold HandleGMTicketDeleteOpcode. repeat tk_step; try tk_same. eapply wp_abandon; [exact Hok|done|done|cbn in Hp; lia].
Qed.
Lemma keeps_resolve p m : real p -> tickets_ok m -> wp (HandleGMResponseResolve env p) (fun _ => tickets_ok) tickets_ok m.
Proof.
  intros Hp Hok. unfold HandleGMResponseResolve. repeat tk_step; try tk_same. eapply wp_abandon; [exact Hok|done|done|cbn in Hp; lia].
Qed.

(** *** Commands *)
Lemma keeps_named args ok k :
  (forall m t, tickets_ok m -> GetTicket (u32 (atoi args)) m = Some t -> ok t = true -> wp (k t) (fun _ => tickets_ok) tickets_ok m) ->
  keeps (named_ticket args ok k).
Proof. intros Hk m Hok. unfold named_ticket. repeat tk_step; try tk_same. by apply Hk. Qed.

Lemma assigned_ok guid status t :
  (status = TICKET_UNASSIGNED -> guid = 0) -> (status = TICKET_ASSIGNED \/ status = TICKET_ESCALATED_ASSIGNED -> guid <> 0) ->
  assignment_ok (with_assigned guid status t).
Proof. done. Qed.

Lemma wp_reassign id t guid status m (Q : GmTicket -> TicketMgr -> Prop) E (after : GmTicket -> TM unit) :
  tickets_ok m -> GetTicket id m = Some t -> assignment_ok (with_assigned guid status t) ->
  (forall m', tickets_ok m' -> wp (after (with_assigned guid status t)) (fun _ m' => Q (with_assigned guid status t) m') E m') ->
  wp (put_ticket (with_assigned guid status t) ;! after (with_assigned guid status t) ;! retS (with_assigned guid status t)) Q E m.
Proof.
  intros Hok Hid Ha Hq. tk_step. unfold put_ticket. tk_step. tk_step. eapply wpS_mono; [apply Hq| |done].
  - unfold tickets_ok. tk_proj. by apply (put_same_ok m id t).
  - intros [] m' HQ. by apply wpS_ret.
Qed.

Lemma keeps_assign g args : keeps (HandleGMTicketAssignToCommand env g args).
Proof.
  unfold HandleGMTicketAssignToCommand. intros m Hok. repeat tk_step; try tk_same.
  bool_props. match goal with E : GetTicket ?id m = Some ?t |- _ => rename E into Hid end.
  unfold SetAssignedTo. eapply wp_reassign; [exact Hok|exact Hid| |].
  - apply assigned_ok; [|by intros _].
    intros Hs. exfalso. revert Hs. case_match; [done|]. case_match eqn:Eu; [done|]. intros Hs. by rewrite Hs in Eu.
  - intros m' Hok'. repeat tk_step; tk_same.
Qed.

Lemma keeps_close g args : real (giver_player g) -> keeps (HandleGMTicketCloseByIdCommand env g args).
Proof.
  intros Hp. unfold HandleGMTicketCloseByIdCommand. apply keeps_named. intros m t Hok Hid Ho.
  apply andb_prop in Ho as [Hop%negb_true_iff _]. repeat tk_step; try tk_same.
  assert (tk_id t = u32 (atoi args)) as -> by apply (co_filed _ _ _ Hok _ _ Hid).
  eapply wp_CloseTicket; [exact Hok|exact Hid|exact Hop| |].
  - destruct (giver_player g) as [p|]; [|done]. cbn in Hp. rewrite swrap_small; lia.
  - intros m' Hok'. repeat tk_step; try tk_same. unfold tell_deleted. repeat tk_step; tk_same.
Qed.

Lemma keeps_comment g args : keeps (HandleGMTicketCommentCommand env g args).
Proof. unfold HandleGMTicketCommentCommand. tk_all. Qed.

Lemma keeps_complete g args : keeps (HandleGMTicketCompleteCommand env g args).
Proof. unfold HandleGMTicketCompleteCommand. apply keeps_named. intros m t Hok Hid _. repeat tk_step; tk_same. Qed.

Lemma keeps_remove g args : keeps (HandleGMTicketDeleteByIdCommand env g args).
Proof.
  unfold HandleGMTicketDeleteByIdCommand. apply keeps_named. intros m t Hok Hid _. repeat tk_step; try tk_same.
  unfold RemoveTicket. repeat tk_step; try tk_same. unfold tickets_ok. tk_proj.
  rewrite (proj1 (co_filed _ _ _ Hok _ _ Hid)). bool_props. by eapply core_remove; [exact Hok|exact Hid|].
Qed.

Lemma keeps_escalate g args : keeps (HandleGMTicketEscalateCommand env g args).
Proof.
  unfold HandleGMTicketEscalateCommand. apply keeps_named. intros m t Hok Hid _.
  assert (core_ok (<[tk_id t := with_assigned (tk_assignedTo t) TICKET_IN_ESCALATION_QUEUE t]> (_ticketList m)) (_lastTicketId m) (_openTicketCount m)) as Hput.
  { apply (put_same_ok m (u32 (atoi args)) t (with_assigned (tk_assignedTo t) TICKET_IN_ESCALATION_QUEUE t)); try done.
    apply assigned_ok; [done|]. by intros [|]. }
  repeat tk_step; exact Hput.
Qed.

Lemma keeps_unassign g args : keeps (HandleGMTicketUnAssignCommand env g args).
Proof.
  unfold HandleGMTicketUnAssignCommand. apply keeps_named. intros m t Hok Hid _. repeat tk_step; try tk_same.
  unfold SetUnassigned. eapply wp_reassign; [exact Hok|exact Hid| |].
  - destruct (ticket_assignment _ _ _ Hok Hid) as [_ Ha]. apply assigned_ok; [done|].
    destruct (Z.eqb_spec (tk_escalatedStatus t) TICKET_ASSIGNED); [by intros [|]|].
    destruct (Z.eqb_spec (tk_escalatedStatus t) TICKET_ESCALATED_ASSIGNED); [by intros [|]|]. tauto.
  - intros m' Hok'. repeat tk_step; tk_same.
Qed.

Lemma keeps_view_id g args : keeps (HandleGMTicketGetByIdCommand env g args).
Proof.
  unfold HandleGMTicketGetByIdCommand. apply keeps_named. intros m t Hok Hid _. unfold view_ticket. repeat tk_step; tk_found.
Qed.
Lemma keeps_view_name g args : keeps (HandleGMTicketGetByNameCommand env g args).
Proof. unfold HandleGMTicketGetByNameCommand, view_ticket. tk_all. Qed.

Lemma keeps_append nl g args : keeps (_HandleGMTicketResponseAppendCommand nl g args).
Proof. unfold _HandleGMTicketResponseAppendCommand. destruct nl; tk_all. Qed.

Lemma keeps_toggle : keeps HandleToggleGMTicketSystem.
Proof. unfold HandleToggleGMTicketSystem. tk_all. Qed.

(** Nothing is open when the tickets are reset, and what is closed is not
    survived: so the list was empty. *)
Lemma keeps_reset_loop l m : tickets_ok m -> (forall t, t ∈ l -> _ticketList m !! tk_id t = Some t) ->
  wp (reset_loop l) (fun _ m' => m' = m /\ Forall (fun t => IsClosed t = false) l) tickets_ok m.
Proof.
  intros Hok Hl. induction l as [|t l IH]; cbn [reset_loop]; [by tk_step|]. tk_step.
  - assert (_ticketList m !! tk_id t = Some t) as Hid by (apply Hl; left). unfold RemoveTicket. repeat tk_step; try tk_same.
    unfold tickets_ok. tk_proj. unfold GetTicket in *. eapply core_remove; [exact Hok|exact Hid|done].
  - eapply wpS_mono; [apply IH; intros u Hu; apply Hl; by right| |done]. intros _ m' [-> Hc]. split; [done|by constructor].
Qed.

Lemma keeps_reset : keeps HandleGMTicketResetCommand.
Proof.
  intros m Hok. unfold HandleGMTicketResetCommand, ResetTickets. tk_step. tk_step. tk_step; [tk_steps|]. tk_step. tk_step. tk_step. tk_step.
  eapply wpS_mono; [apply keeps_reset_loop; [exact Hok|]| |done].
  - intros t [id Hid]%elem_tickets. by rewrite (proj1 (co_filed _ _ _ Hok _ _ Hid)).
  - intros _ m' [-> Hc]. assert (_ticketList m = ∅) as He.
    { apply map_empty. intros id. apply eq_None_not_Some. intros [t Ht]. rewrite Forall_forall in Hc.
      assert (IsClosed t = false) as Hop by (apply Hc, elem_tickets; by exists id).
      assert (open_tickets (_ticketList m) !! id = Some t) as Hin by (by apply map_lookup_filter_Some).
      pose proof (co_count _ _ _ Hok) as Hn. bool_props.
      assert (size (open_tickets (_ticketList m)) <> O) by (eapply map_size_ne_0_lookup_2; by exists t). lia. }
    repeat tk_step; unfold tickets_ok; tk_proj; rewrite He; (split; [by intros id t Ht; rewrite lookup_empty in Ht|lia| |by intros i j ti tj Hi; rewrite lookup_empty in Hi]).
    all: rewrite (co_count _ _ _ Hok), He; done.
Qed.

(** *** Loading *)
Lemma core_load l last count t :
  core_ok l last count -> 1 <= tk_id t < 2 ^ 32 -> l !! tk_id t = None -> assignment_ok t ->
  (IsClosed t = false -> forall id u, l !! id = Some u -> IsClosed u = false -> tk_playerGuid u <> tk_playerGuid t) ->
  core_ok (<[tk_id t := t]> l) (Z.max last (tk_id t)) (if IsClosed t then count else u32 (count + 1)).
Proof.
  intros Hok Hid Hnone Ha Hnew. pose proof (open_le l) as Hle.
  assert (Z.of_nat (size l) + 1 < 2 ^ 32) as Hsz.
  { assert (Z.of_nat (size (<[tk_id t := t]> l)) <= 2 ^ 32 - 1) as Hs; [|rewrite map_size_insert_None in Hs by done; lia].
    apply size_ids; [lia|]. intros i ti. rewrite lookup_insert_Some. intros [[<- _]|[_ Hi]]; [lia|].
    destruct (co_filed _ _ _ Hok _ _ Hi) as (_ & ? & _). pose proof (co_last _ _ _ Hok). lia. }
  destruct Hok as [Hf Hl Hc Ho]. split.
  - intros i ti. rewrite lookup_insert_Some. intros [[<- <-]|[_ Hi]]; [split_and!; [done|lia|lia|done]|].
    destruct (Hf _ _ Hi) as (? & ? & ?). split_and!; [done|lia|lia|done].
  - lia.
  - unfold open_tickets. rewrite map_filter_insert. cbn [snd]. destruct (IsClosed t).
    + rewrite decide_False by done. by rewrite map_filter_delete, delete_id by (apply map_lookup_filter_None; by left).
    + rewrite decide_True by done. rewrite map_size_insert_None by (apply map_lookup_filter_None; by left).
      fold (open_tickets l). rewrite wrap_small; lia.
  - intros i j ti tj. rewrite !lookup_insert_Some. intros [[<- <-]|[_ Hi]] [[<- <-]|[_ Hj]] Hoi Hoj Hg; [done| | |by eapply Ho].
    + by destruct (Hnew Hoi _ _ Hj Hoj).
    + by destruct (Hnew Hoj _ _ Hi Hoi).
Qed.

Definition loaded (rows : list (TicketRow * bool)) : list GmTicket := (fun r => LoadFromDB r.1 r.2) <$> rows.

(** What the table is to hold: numbers that differ, at most one open ticket of
    a player, assignments that agree with the status. *)
Record rows_ok (ts : list GmTicket) : Prop := mkRowsOk {
  ro_ids : NoDup (tk_id <$> ts);
  ro_row : forall t, t ∈ ts -> 1 <= tk_id t < 2 ^ 32 /\ assignment_ok t;
  ro_one : forall t u, t ∈ ts -> u ∈ ts -> IsClosed t = false -> IsClosed u = false -> tk_playerGuid t = tk_playerGuid u ->
             tk_id t = tk_id u
}.

Lemma loads_rows done_ rows m :
  rows_ok (loaded (done_ ++ rows)) -> tickets_ok m ->
  (forall id t, _ticketList m !! id = Some t -> t ∈ loaded done_) ->
  wp (for_eachS rows load_ticket) (fun _ => tickets_ok) tickets_ok m.
Proof.
  revert done_ m. induction rows as [|r rows IH]; intros done_ m Hro Hok Hfrom; cbn [for_eachS]; [by tk_step|].
  assert (r ∈ done_ ++ r :: rows) as Hr by (apply elem_of_app; right; left).
  assert (LoadFromDB r.1 r.2 ∈ loaded (done_ ++ r :: rows)) as Ht by (by apply (list_elem_of_fmap_2 (fun r => LoadFromDB r.1 r.2))).
  destruct (ro_row _ Hro _ Ht) as [Hid Ha]. set (t := LoadFromDB r.1 r.2) in *.
  assert (forall id u, _ticketList m !! id = Some u -> tk_id u <> tk_id t) as Hother.
  { intros id u Hu%Hfrom Heq. pose proof (ro_ids _ Hro) as Hnd. unfold loaded in Hnd, Hu.
    rewrite fmap_app, fmap_app, fmap_cons, fmap_cons in Hnd. apply NoDup_app in Hnd as (_ & Hnd & _).
    apply (Hnd (tk_id t)); [rewrite <- Heq; by apply list_elem_of_fmap_2|left]. }
  assert (core_ok (<[tk_id t := t]> (_ticketList m)) (Z.max (_lastTicketId m) (tk_id t))
            (if IsClosed t then _openTicketCount m else u32 (_openTicketCount m + 1))) as Hnext.
  { apply core_load; try done.
    - apply eq_None_not_Some. intros [u Hu]. apply (Hother _ _ Hu). by apply (co_filed _ _ _ Hok).
    - intros Hop id u Hu Hou Hg. apply (Hother _ _ Hu). apply (ro_one _ Hro); try done.
      unfold loaded. rewrite fmap_app. apply elem_of_app. left. by apply (Hfrom id). }
  assert (forall id u, <[tk_id t := t]> (_ticketList m) !! id = Some u -> u ∈ loaded (done_ ++ [r])) as Hback.
  { intros id u. unfold loaded. rewrite fmap_app, elem_of_app. rewrite lookup_insert_Some. intros [[_ <-]|[_ Hu]]; [right; left|left; by eapply Hfrom]. }
  replace (done_ ++ r :: rows) with ((done_ ++ [r]) ++ rows) in Hro by (by rewrite <- app_assoc).
  unfold load_ticket. fold t. apply wpS_bind, wpS_bind.
  assert (forall m', _ticketList m' = _ticketList m -> _lastTicketId m' = _lastTicketId m ->
            _openTicketCount m' = (if IsClosed t then _openTicketCount m else u32 (_openTicketCount m + 1)) ->
            wp (modS (fun m0 => if _lastTicketId m0 <? tk_id t then set_ids (tk_id t) (_lastSurveyId m0) m0 else m0) ;! put_ticket t)
               (fun _ => wp (for_eachS rows load_ticket) (fun _ => tickets_ok) tickets_ok) tickets_ok m') as Hrest.
  { intros m' Hl Hla Hc. tk_step. tk_step. tk_step. tk_step. apply (IH (done_ ++ [r])); [exact Hro| |].
    - unfold tickets_ok. destruct (Z.ltb_spec (_lastTicketId m') (tk_id t)); tk_proj; rewrite Hl, Hc;
        [replace (tk_id t) with (Z.max (_lastTicketId m) (tk_id t)) at 2 by lia|replace (_lastTicketId m') with (Z.max (_lastTicketId m) (tk_id t)) by lia];
        exact Hnext.
    - intros id u. destruct (_ <? _); tk_proj; rewrite Hl; apply Hback. }
  apply wpS_when; intros Hc; bool_props; [tk_step|]; apply Hrest; tk_proj; try done; by rewrite Hc.
Qed.

Lemma keeps_load rows m : rows_ok (loaded rows) -> wp (LoadTickets rows) (fun _ => tickets_ok) tickets_ok m.
Proof.
  intros Hro. unfold LoadTickets. tk_step. tk_step. apply (loads_rows [] rows); [done| |].
  - unfold tickets_ok. tk_proj. split; [by intros id t Ht; rewrite lookup_empty in Ht|lia|done|by intros i j ti tj Hi; rewrite lookup_empty in Hi].
  - tk_proj. intros id t Ht. by rewrite lookup_empty in Ht.
Qed.
End Operations.


(** ** Every run *)
Definition op_player (o : TicketOp) : option TPlayer :=
  match o with
  | TCreate p _ | TUpdate p _ | TDelete p | TGet p | TSurvey p _ | TLag p _ | TResolve p => p
  | TAssign g _ | TClose g _ | TComment g _ | TComplete g _ | TRemove g _ | TEscalate g _ | TUnAssign g _ | TAppend _ g _ =>
      giver_player g
  | _ => None
  end.

Lemma keeps_forget {A} (c : TM A) m :
  wp c (fun _ => tickets_ok) tickets_ok m -> wp (forget c) (fun _ => tickets_ok) tickets_ok m.
Proof. intros Hc. unfold forget. apply wpS_bind. eapply wpS_mono; [exact Hc| |done]. intros a m' Hm. by apply wpS_ret. Qed.

Lemma keeps_op env o m :
  real (op_player o) -> _lastTicketId m + 1 < 2 ^ 32 -> tickets_ok m -> wp (ticket_op env o) (fun _ => tickets_ok) tickets_ok m.
Proof.
  intros Hp Hl Hok. destruct o; cbn [ticket_op op_player] in *.
  - by apply keeps_create.
  - by apply keeps_update.
  - by apply keeps_delete.
  - by apply keeps_ticket_get.
  - by apply keeps_status.
  - by apply keeps_survey.
  - by apply keeps_lag.
  - by apply keeps_resolve.
  - by apply keeps_forget, keeps_assign.
  - by apply keeps_forget, keeps_close.
  - by apply keeps_forget, keeps_comment.
  - by apply keeps_forget, keeps_complete.
  - by apply keeps_forget, keeps_remove.
  - by apply keeps_forget, keeps_escalate.
  - by repeat tk_step.
  - by repeat tk_step.
  - apply keeps_forget. unfold HandleGMTicketListCommand, ShowList. by repeat tk_step.
  - apply keeps_forget. unfold HandleGMTicketListOnlineCommand, ShowList. by repeat tk_step.
  - by apply keeps_forget, keeps_reset.
  - by apply keeps_forget, keeps_toggle.
  - by apply keeps_forget, keeps_unassign.
  - by apply keeps_forget, keeps_view_id.
  - by apply keeps_forget, keeps_view_name.
  - by apply keeps_forget, keeps_append.
Qed.

(** The tickets from the start of the process: the tables are read, again
    whenever a game master reloads them, and each operation leaves what the
    next one finds, a packet too short included. *)
Inductive ticket_run : TicketMgr -> Prop :=
| run_start now : ticket_run (mkTicketMgr ∅ true 0 0 0 now [] [])
| run_load rows m m' : ticket_run m -> rows_ok (loaded rows) -> LoadTickets rows m = (m', Ok tt) -> ticket_run m'
| run_surveys s m m' : ticket_run m -> LoadSurveys s m = (m', Ok tt) -> ticket_run m'
| run_op env o m m' r : ticket_run m -> real (op_player o) -> _lastTicketId m + 1 < 2 ^ 32 ->
    ticket_op env o m = (m', r) -> r <> UB -> ticket_run m'.

Lemma wp_same {A} (c : TM A) m m' r : c m = (m', r) -> wp c (fun _ => tickets_ok) tickets_ok m -> tickets_ok m'.
Proof. unfold wp. intros ->. by destruct r. Qed.

(** C39. At any time every ticket is filed under its own number, which is
    between one and the last one given; the count of open tickets is exact; no
    player has two tickets open; and a ticket is assigned to somebody if its
    status says so and to nobody if it says unassigned: whatever players write
    and game masters do, over any number of reloads, as long as the numbers
    have not run out and the tables held this much. *)
Theorem tickets_invariant m : ticket_run m -> tickets_ok m.
Proof.
  induction 1 as [now|rows m m' _ IH Hro Hrun|s m m' _ IH Hrun|env o m m' r _ IH Hp Hl Hrun _].
  - unfold tickets_ok. tk_proj. split; [by intros id t Ht; rewrite lookup_empty in Ht|lia|done|by intros i j ti tj Hi; rewrite lookup_empty in Hi].
  - eapply wp_same; [exact Hrun|by apply keeps_load].
  - injection Hrun as <-. exact IH.
  - eapply wp_same; [exact Hrun|by apply keeps_op].
Qed.
