(* ===== verification/TicketScene.v ===== *)
(** * Tickets: a run, and what the code gets wrong *)
From Stdlib Require Import Ascii String ZArith Lia.
From stdpp Require Import base gmap list strings sorting fin_maps.
From S2P Require Import Prelude ByteBuffer Util Utf8 World StateM Node Tickets TicketOps TicketFacts.

Open Scope Z_scope.

(** ** What the commands get wrong *)
(** A reset with a closed ticket in the list goes on from an iterator that is
    no more; and the only tickets a reset may find are closed. *)
Lemma reset_loop_UB l m : (exists t, t ∈ l /\ IsClosed t = true) -> (reset_loop l m).2 = UB.
Proof.
  assert (forall id (k : unit -> TM unit), (forall m', (k tt m').2 = UB) -> ((RemoveTicket id ;! k tt) m).2 = UB) as Hrm.
  { intros id k Hk. unfold RemoveTicket, bindS, getS. by destruct (GetTicket id m); apply Hk. }
  induction l as [|u l IH]; intros (t & Hin & Hc); [by apply not_elem_of_nil in Hin|]. cbn [reset_loop].
  apply elem_of_cons in Hin as [<-|Hin]; [rewrite Hc; by apply (Hrm _ (fun _ => liftS UB))|].
  destruct (IsClosed u); [by apply (Hrm _ (fun _ => liftS UB))|]. apply IH. by exists t.
Qed.

Lemma reset_undefined m : _ticketList m <> ∅ -> tickets_ok m -> _openTicketCount m = 0 -> (HandleGMTicketResetCommand m).2 = UB.
Proof.
  intros Hne Hok H0. unfold HandleGMTicketResetCommand, bindS, getS. rewrite H0. cbn [Z.eqb negb].
  apply map_choose in Hne as (id & t & Ht).
  assert ((reset_loop (tickets m) m).2 = UB) as Hub.
  { apply reset_loop_UB. exists t. split; [apply elem_tickets; by exists id|]. destruct (IsClosed t) eqn:Hc; [done|].
    assert (open_tickets (_ticketList m) !! id = Some t) as Hin by (by apply map_lookup_filter_Some).
    assert (size (open_tickets (_ticketList m)) <> O) by (eapply map_size_ne_0_lookup_2; by exists t).
    pose proof (co_count _ _ _ Hok). lia. }
  unfold ResetTickets, bindS, getS. destruct (reset_loop (tickets m) m) as [m' r]. cbn in Hub. by subst r.
Qed.

(** Deleting reads the ticket once more after it has been freed. *)
Lemma delete_undefined env g args m t :
  args <> EmptyString -> GetTicket (u32 (atoi args)) m = Some t -> IsClosed t = true ->
  (HandleGMTicketDeleteByIdCommand env g args m).2 = UB.
Proof.
  intros Ha Hid Hc. unfold HandleGMTicketDeleteByIdCommand, named_ticket. apply String.eqb_neq in Ha. rewrite Ha.
  unfold bindS, getS. rewrite Hid, Hc. cbn [negb]. unfold bindS, liftS.
  destruct (session_name g) as [n|e|] eqn:En; [|by destruct g as [|[p|] sec]|done].
  unfold SendGameMasterMessage, tevent, modS, RemoveTicket, bindS, getS, liftS.
  destruct (formatted _) as [x|e|] eqn:Ef; [by destruct (GetTicket (tk_id t) _)|by apply formatted_throws in Ef|done].
Qed.

(** ** What is saved *)
(** The columns of the table, by position, filled with what was bound. *)
Definition stored_ticket (args : list TArg) : option TicketRow :=
  match args with
  | [TU32 id; TU32 guid; TStr name; TStr message; TU32 created; TU16 map; TF32 x; TF32 y; TF32 z; TU32 modified;
     TI32 closed; TU32 assigned; TStr comment; TBool completed; TU8 escalated; TBool viewed] =>
      let bit (b : bool) := if b then 1 else 0 in
      Some (mkTicketRow id guid name message created map x y z modified closed assigned comment (bit completed) escalated (bit viewed))
  | _ => None
  end.

Definition fields_ok (t : GmTicket) : Prop :=
  0 <= tk_playerGuid t < 2 ^ 32 /\ 0 <= tk_closedBy t < 2 ^ 31 /\ 0 <= tk_assignedTo t < 2 ^ 32
  /\ 0 <= tk_createTime t < 2 ^ 32 /\ 0 <= tk_lastModifiedTime t < 2 ^ 32 /\ 0 <= tk_escalatedStatus t < 2 ^ 8.

(** A ticket read back is the ticket that was saved, but for the response and
    the wish for one, which are not. *)
Lemma saved_and_loaded t need :
  fields_ok t ->
  (fun r => LoadFromDB r need) <$> stored_ticket (ticket_args t)
  = Some (mkTicket (tk_id t) (tk_playerGuid t) (tk_playerName t) (tk_posX t) (tk_posY t) (tk_posZ t) (tk_mapId t) (tk_message t)
            (tk_createTime t) (tk_lastModifiedTime t) (tk_closedBy t) (tk_assignedTo t) (tk_comment t) (tk_completed t)
            (tk_escalatedStatus t) (tk_viewed t) need EmptyString).
Proof.
  intros (Hp & Hc & Ha & H1 & H2 & He). cbn [ticket_args stored_ticket fmap option_fmap option_map LoadFromDB f0 f1 f2 f3 f4 f5 f6 f7 f8 f9 f10 f11 f12 f13 f14 f15].
  unfold LoadFromDB. cbn [f0 f1 f2 f3 f4 f5 f6 f7 f8 f9 f10 f11 f12 f13 f14 f15].
  rewrite !GUID_LOPART_small by lia. rewrite !MAKE_NEW_GUID_player by lia. rewrite !wrap_small by lia.
  rewrite !GUID_LOPART_small by lia. rewrite swrap_small by lia. rewrite !MAKE_NEW_GUID_player by lia.
  by destruct (tk_completed t), (tk_viewed t).
Qed.

(** A ticket the console closes is recorded as closed by player 16777215. *)
Lemma console_closer t : ticket_args (with_closed (-1) t) !! 10%nat = Some (TI32 16777215).
Proof. done. Qed.

(** ** A run *)
Module Scene.
Definition alla : TPlayer := mkTPlayer 7 "Alla" 10 (Some SEC_PLAYER).
Definition gm : TPlayer := mkTPlayer 9 "Gamma" 80 (Some 3).
(** The words of the lines, without the locale's. *)
Definition words (ls : list Line) : string :=
  String.concat " " (omap (fun a => match a with TStr t => Some t | _ => None end) (ls ≫= snd)).
Definition env : TicketEnv :=
  mkTicketEnv 1000 (fun s => s)
    (fun g => if g =? 7 then Some alla else if g =? 9 then Some gm else None)
    (fun _ => None)
    (fun n => if String.eqb n "Gamma" then 9 else 0)
    (fun g => if g =? 9 then Some "Gamma"%string else None)
    (fun g => g) (fun a => if a =? 9 then 3 else 0) 1 false false true words 0.

Definition note : ByteBuffer :=
  let bytes := [1; 2; 0; 0;  0; 0; 0; 0;  0; 0; 0; 0;  0; 0; 0; 0;  72; 105; 0;  17; 0; 0; 0;  0] in
  mkBB 0 (Z.of_nat (length bytes)) bytes.

Definition steps : list TicketOp :=
  [TCreate (Some alla) note; TCreate (Some alla) note; TAssign (Gm (Some gm) 3) "5 gamma";
   TAppend true (Gm (Some gm) 3) "5 Hello"; TDelete (Some alla); TCreate (Some alla) note].

Definition rows : list (TicketRow * bool) := [(mkTicketRow 4 8 "Bob" "Stuck" 900 0 0 0 0 950 0 9 "waits" 0 3 1, true)].

Fixpoint run (l : list TicketOp) (m : TicketMgr) : option TicketMgr :=
  match l with
  | [] => Some m
  | o :: l' => if _lastTicketId m + 1 <? 2 ^ 32 then match ticket_op env o m with (m', Ok _) => run l' m' | _ => None end else None
  end.
Definition blank : TicketMgr := mkTicketMgr ∅ true 0 0 0 0 [] [].
Definition start : TicketMgr := (LoadTickets rows blank).1.
Definition final : option TicketMgr := run steps start.

Lemma rows_fine : rows_ok (loaded rows).
Proof.
  split.
  - apply NoDup_singleton.
  - intros t ->%list_elem_of_singleton. split; [done|]. split; [done|]. done.
  - intros t u ->%list_elem_of_singleton ->%list_elem_of_singleton. done.
Qed.

Lemma run_reaches l m m' : Forall (fun o => real (op_player o)) l -> ticket_run m -> run l m = Some m' -> ticket_run m'.
Proof.
  intros Hl. revert m. induction Hl as [|o l Ho Hl IH]; intros m Hm; cbn [run]; [by intros [= <-]|].
  destruct (Z.ltb_spec (_lastTicketId m + 1) (2 ^ 32)); [|done]. destruct (ticket_op env o m) as [m1 [r|e|]] eqn:Eo; [|done|done].
  apply IH. by eapply run_op.
Qed.

Lemma steps_real : Forall (fun o => real (op_player o)) steps.
Proof. by repeat constructor. Qed.

(** The message on a comment is the format of the next [printf]: a percent sign
    a game master types is undefined behaviour. *)
Lemma comment_is_format :
  forall m, GetTicket 4 m = Some (mkTicket 4 8 "Bob" 0 0 0 0 "Stuck" 900 950 0 9 "waits" false 1 false false "") ->
  (HandleGMTicketCommentCommand env (Gm (Some gm) 3) "4 100% sure" m).2 = UB.
Proof.
  intros m Hm. unfold HandleGMTicketCommentCommand. cbn [String.eqb]. unfold bindS at 1, liftS.
  replace (ticket_token "4 100% sure") with (Ok (4, "100% sure")%string : outcome (Z * string)) by (by vm_compute).
  cbn beta iota. replace (strtok lf "100% sure") with (Some ("100% sure", "")%string : option (string * string)) by (by vm_compute).
  unfold bindS, getS. rewrite Hm. by vm_compute.
Qed.

(** Alla writes, may not write again, is answered and gives the ticket up;
    then she writes anew. *)
Lemma tickets_invariant_witness :
  match final with
  | Some m => tickets_ok m /\ _openTicketCount m = 2
              /\ (fun t => (tk_playerGuid t, IsClosed t, tk_assignedTo t)) <$> tickets m = [(8, false, 9); (7, true, 9); (7, false, 0)]
  | None => False
  end.
Proof.
  destruct final as [m|] eqn:Ef; [|discriminate Ef]. split.
  - apply (tickets_invariant m). eapply run_reaches; [exact steps_real| |exact Ef].
    eapply run_load; [apply (run_start 0)|exact rows_fine|]. vm_compute. reflexivity.
  - vm_compute in Ef. injection Ef as <-. split; vm_compute; reflexivity.
Defined.
End Scene.
