(* ===== verification/Accounts.v ===== *)
(** * Accounts

    [shade/Accounts/AccountMgr.cpp] and [Chat/Commands/AccountCommands.cpp]:
    the accounts in the login database, which the authentication server reads,
    and the commands that change them.  Queries are answered by the tables at
    once; statements wait in a queue for the database's own thread. *)
From Stdlib Require Import Ascii String ZArith Lia.
From stdpp Require Import base gmap list strings.
From S2P Require Import Prelude ByteBuffer Util Utf8 World BigNumber StateM.

Open Scope Z_scope.

Definition MAX_ACCOUNT_STR : Z := 16.

Inductive AccountOpResult :=
| AOR_OK | AOR_NAME_TOO_LONG | AOR_PASS_TOO_LONG | AOR_NAME_ALREDY_EXIST | AOR_NAME_NOT_EXIST | AOR_DB_INTERNAL_ERROR.

(** Texts of the locale, by name. *)
Inductive ALANG :=
| LANG_ACCOUNT_LEVEL | LANG_CMD_SYNTAX | LANG_IMPROPER_VALUE | LANG_ACCOUNT_ADDON | LANG_ACCOUNT_CREATED
| LANG_ACCOUNT_TOO_LONG | LANG_ACCOUNT_ALREADY_EXIST | LANG_ACCOUNT_NOT_CREATED_SQL_ERROR | LANG_ACCOUNT_NOT_CREATED
| LANG_ACCOUNT_NOT_EXIST | LANG_ACCOUNT_DELETED | LANG_ACCOUNT_NOT_DELETED_SQL_ERROR | LANG_ACCOUNT_NOT_DELETED
| LANG_USE_BOL | LANG_COMMAND_ACCLOCKLOCKED | LANG_COMMAND_ACCLOCKUNLOCKED | LANG_ACCOUNT_LIST_EMPTY
| LANG_ACCOUNT_LIST_BAR_HEADER | LANG_ACCOUNT_LIST_HEADER | LANG_ACCOUNT_LIST_BAR | LANG_ACCOUNT_LIST_LINE
| LANG_ACCOUNT_LIST_ERROR | LANG_COMMAND_WRONGOLDPASSWORD | LANG_NEW_PASSWORDS_NOT_MATCH | LANG_COMMAND_PASSWORD
| LANG_PASSWORD_TOO_LONG | LANG_COMMAND_NOTCHANGEPASSWORD | LANG_YOURS_SECURITY_IS_LOW.

(** ** The login database *)
Record Account := mkAccount {
  ac_username : string; ac_sha_pass_hash : string; ac_v : string; ac_s : string;
  ac_expansion : Z; ac_locked : bool; ac_last_ip : string; ac_token_key : string
}.

Inductive AccStmt :=
| LOGIN_INS_ACCOUNT (username hash : string)
| LOGIN_INS_REALM_CHARACTERS_INIT
| LOGIN_UPD_USERNAME (username hash : string) (id : Z)
| LOGIN_UPD_PASSWORD (hash : string) (id : Z)
| LOGIN_UPD_EXPANSION (expansion id : Z)
| LOGIN_UPD_ACCOUNT_LOCK (locked : bool) (id : Z)
| LOGIN_DEL_ACCOUNT (id : Z)
| LOGIN_DEL_ACCOUNT_ACCESS (id : Z)
| LOGIN_DEL_REALM_CHARACTERS (id : Z).

(** Which statements the connections of the queue have prepared. *)
Definition prepared_async (s : AccStmt) : bool := match s with LOGIN_INS_ACCOUNT _ _ => false | _ => true end.

Record LoginTables := mkLoginTables {
  account : gmap Z Account;
  account_next : Z;                                 (* [AUTO_INCREMENT] *)
  account_access : list (Z * Z * Z);                (* id, gmlevel, RealmID *)
  realmcharacters : list (Z * Z * Z);               (* realmid, acctid, numchars *)
  realmlist_ids : list Z
}.

Inductive AccEvent :=
| ASys (l : ALANG) (args : list string)
| AKick (guid : Z)
| AChar (stmt : string) (id : Z).                   (* a statement to the character database *)

(** The queue holds statements and transactions. *)
Record AccWorld := mkAccWorld {
  acc_db : LoginTables;
  acc_queue : list (list AccStmt);
  sentErrorMessage : bool;
  acc_trace : list AccEvent
}.

Abbreviation AM := (ST AccWorld).

Definition set_db (d : LoginTables) (w : AccWorld) : AccWorld := mkAccWorld d (acc_queue w) (sentErrorMessage w) (acc_trace w).
Definition set_queue (q : list (list AccStmt)) (w : AccWorld) : AccWorld := mkAccWorld (acc_db w) q (sentErrorMessage w) (acc_trace w).
Definition SetSentErrorMessage (b : bool) : AM unit := modS (fun w => mkAccWorld (acc_db w) (acc_queue w) b (acc_trace w)).
Definition aevent (e : AccEvent) : AM unit := modS (fun w => mkAccWorld (acc_db w) (acc_queue w) (sentErrorMessage w) (acc_trace w ++ [e])).
Definition sysmsg (l : ALANG) (args : list string) : AM unit := aevent (ASys l args).
Definition Execute (s : AccStmt) : AM unit := modS (fun w => set_queue (acc_queue w ++ [[s]]) w).
Definition CommitTransaction (l : list AccStmt) : AM unit := modS (fun w => set_queue (acc_queue w ++ [l]) w).

(** A refused command. *)
Definition refused (l : ALANG) (args : list string) : AM bool := sysmsg l args ;! SetSentErrorMessage true ;! retS false.

Section Database.
  (** How the database compares texts, whether it keeps the names of accounts
      apart, and what it puts into a new row. *)
  Variable collates : string -> string -> bool.
  Variable unique_username : bool.
  Variable new_row : Account.

Definition with_name (name : string) (t : LoginTables) : list (Z * Account) :=
  filter (fun p => collates (ac_username p.2) name = true) (map_to_list (account t)).

Definition set_account (a : gmap Z Account) (t : LoginTables) : LoginTables :=
  mkLoginTables a (account_next t) (account_access t) (realmcharacters t) (realmlist_ids t).
Definition upd_account (id : Z) (f : Account -> Account) (t : LoginTables) : LoginTables := set_account (alter f id (account t)) t.

(** The accounts without a row in [realmcharacters] get one for every realm. *)
Definition missing_rows (t : LoginTables) : list (Z * Z * Z) :=
  concat ((fun id => (fun realm => (realm, id, 0)) <$> realmlist_ids t)
    <$> filter (fun id => forallb (fun r => negb (r.1.2 =? id)) (realmcharacters t) = true) (map_to_list (account t)).*1).

Definition name_free (name : string) (id : option Z) (t : LoginTables) : bool :=
  negb unique_username || forallb (fun p => bool_decide (Some p.1 = id)) (with_name name t).

(** What a statement makes of the tables. *)
Definition run_stmt (s : AccStmt) (t : LoginTables) : LoginTables :=
  match s with
  | LOGIN_INS_ACCOUNT name hash =>
      if name_free name None t
      then mkLoginTables
             (<[account_next t := mkAccount name hash (ac_v new_row) (ac_s new_row) (ac_expansion new_row) (ac_locked new_row)
                                    (ac_last_ip new_row) (ac_token_key new_row)]> (account t))
             (account_next t + 1) (account_access t) (realmcharacters t) (realmlist_ids t)
      else t
  | LOGIN_INS_REALM_CHARACTERS_INIT =>
      mkLoginTables (account t) (account_next t) (account_access t) (realmcharacters t ++ missing_rows t) (realmlist_ids t)
  | LOGIN_UPD_USERNAME name hash id =>
      if name_free name (Some id) t
      then upd_account id (fun a => mkAccount name hash "0" "0" (ac_expansion a) (ac_locked a) (ac_last_ip a) (ac_token_key a)) t
      else t
  | LOGIN_UPD_PASSWORD hash id =>
      upd_account id (fun a => mkAccount (ac_username a) hash "0" "0" (ac_expansion a) (ac_locked a) (ac_last_ip a) (ac_token_key a)) t
  | LOGIN_UPD_EXPANSION e id =>
      upd_account id (fun a => mkAccount (ac_username a) (ac_sha_pass_hash a) (ac_v a) (ac_s a) e (ac_locked a) (ac_last_ip a) (ac_token_key a)) t
  | LOGIN_UPD_ACCOUNT_LOCK b id =>
      upd_account id (fun a => mkAccount (ac_username a) (ac_sha_pass_hash a) (ac_v a) (ac_s a) (ac_expansion a) b (ac_last_ip a) (ac_token_key a)) t
  | LOGIN_DEL_ACCOUNT id => set_account (delete id (account t)) t
  | LOGIN_DEL_ACCOUNT_ACCESS id =>
      mkLoginTables (account t) (account_next t) (filter (fun r => r.1.1 <> id) (account_access t)) (realmcharacters t) (realmlist_ids t)
  | LOGIN_DEL_REALM_CHARACTERS id =>
      mkLoginTables (account t) (account_next t) (account_access t) (filter (fun r => r.1.2 <> id) (realmcharacters t)) (realmlist_ids t)
  end.

(** The database thread takes the next entry: a statement its connection has
    not prepared fails an assertion. *)
Definition worker : AM unit :=
  let! w := getS (fun w => w) in
  match acc_queue w with
  | [] => retS tt
  | l :: q =>
      if forallb prepared_async l
      then modS (fun w => set_queue q (set_db (foldl (fun t s => run_stmt s t) (acc_db w) l) w))
      else liftS (Throw AssertFailure)
  end.

(** ** [AccountMgr] *)
Definition isBasicLatinCharacter (wchar : Z) : bool := ((97 <=? wchar) && (wchar <=? 122)) || ((65 <=? wchar) && (wchar <=? 90)).
Definition wcharToUpperOnlyLatin (wchar : Z) : Z := if isBasicLatinCharacter wchar then wcharToUpper wchar else wchar.

(** [utf8length]: the length, and what is left of the string. *)
Definition utf8length (utf8str : string) : Z * string :=
  match utf8_distance (str_bytes utf8str) with Some n => (n, utf8str) | None => (0, EmptyString) end.

(** [normalizeString]: whether it succeeds, and what is left of the string. *)
Definition normalizeString (utf8String : string) : outcome (bool * string) :=
  let* r := Utf8toWStr_buf utf8String MAX_ACCOUNT_STR in
  match r with
  | None => Ok (false, utf8String)
  | Some buffer =>
      match WStrToUtf8 (wcharToUpperOnlyLatin <$> buffer) with
      | Some s => Ok (true, s)
      | None => Ok (false, EmptyString)
      end
  end.

Definition query_db {A} (f : LoginTables -> A) : AM A := getS (fun w => f (acc_db w)).

Definition GetId (username : string) : AM Z :=
  query_db (fun t => match with_name username t with p :: _ => p.1 | [] => 0 end).

Definition GetName (accountId : Z) : AM (option string) := query_db (fun t => ac_username <$> account t !! accountId).

(** [chars]: the account's characters, which the query counts. *)
Definition GetCharactersCount (chars : Z -> list Z) (accountId : Z) : Z := u32 (Z.of_nat (length (chars accountId))).

Definition access_level (r : list (Z * Z * Z)) : Z := match r with x :: _ => u8 x.1.2 | [] => SEC_PLAYER end.
Definition GetSecurity (accountId : Z) : AM Z :=
  query_db (fun t => access_level (filter (fun r => r.1.1 = accountId) (account_access t))).
Definition GetSecurityOnRealm (accountId realmId : Z) : AM Z :=
  query_db (fun t => access_level (filter (fun r => r.1.1 = accountId /\ (r.2 = realmId \/ r.2 = -1)) (account_access t))).

Section AccountMgr.
  Context `{OpenSSL}.

Definition CalculateShaPassHash (name password : string) : string :=
  ByteArrayToHexStr (Finalize (UpdateData (str_bytes password) (UpdateData [58] (UpdateData (str_bytes name) SHA1_Init)))).

Definition CreateAccount (username password : string) : AM AccountOpResult :=
  let '(len, username) := utf8length username in
  if MAX_ACCOUNT_STR <? len then retS AOR_NAME_TOO_LONG
  else
    let! '(_, username) := liftS (normalizeString username) in
    let! '(_, password) := liftS (normalizeString password) in
    let! id := GetId username in
    if negb (id =? 0) then retS AOR_NAME_ALREDY_EXIST
    else
      Execute (LOGIN_INS_ACCOUNT username (CalculateShaPassHash username password)) ;!
      Execute LOGIN_INS_REALM_CHARACTERS_INIT ;!
      retS AOR_OK.

(** [chars]: the account's characters; [player]: whether the player is in
    memory, and has a session. *)
Definition kick_one (player : Z -> option bool) (guidLow : Z) : AM unit :=
  let guid := MAKE_NEW_GUID guidLow 0 HIGHGUID_PLAYER in
  match player guid with
  | Some true => aevent (AKick guid)
  | Some false => liftS UB
  | None => retS tt
  end.

Definition DeleteAccount (chars : Z -> list Z) (player : Z -> option bool) (accountId : Z) : AM AccountOpResult :=
  let! a := query_db (fun t => account t !! accountId) in
  match a with
  | None => retS AOR_NAME_NOT_EXIST
  | Some _ =>
      for_eachS (chars accountId) (kick_one player) ;!
      aevent (AChar "CHAR_DEL_TUTORIALS" accountId) ;!
      aevent (AChar "CHAR_DEL_ACCOUNT_DATA" accountId) ;!
      CommitTransaction [LOGIN_DEL_ACCOUNT accountId; LOGIN_DEL_ACCOUNT_ACCESS accountId; LOGIN_DEL_REALM_CHARACTERS accountId] ;!
      retS AOR_OK
  end.

Definition ChangeUsername (accountId : Z) (newUsername newPassword : string) : AM AccountOpResult :=
  let! a := query_db (fun t => account t !! accountId) in
  match a with
  | None => retS AOR_NAME_NOT_EXIST
  | Some _ =>
      let '(nlen, newUsername) := utf8length newUsername in
      if MAX_ACCOUNT_STR <? nlen then retS AOR_NAME_TOO_LONG
      else
        let '(plen, newPassword) := utf8length newPassword in
        if MAX_ACCOUNT_STR <? plen then retS AOR_PASS_TOO_LONG
        else
          let! '(_, newUsername) := liftS (normalizeString newUsername) in
          let! '(_, newPassword) := liftS (normalizeString newPassword) in
          Execute (LOGIN_UPD_USERNAME newUsername (CalculateShaPassHash newUsername newPassword) accountId) ;!
          retS AOR_OK
  end.

Definition ChangePassword (accountId : Z) (newPassword : string) : AM AccountOpResult :=
  let! name := GetName accountId in
  match name with
  | None => retS AOR_NAME_NOT_EXIST
  | Some username =>
      let '(plen, newPassword) := utf8length newPassword in
      if MAX_ACCOUNT_STR <? plen then retS AOR_PASS_TOO_LONG
      else
        let! '(_, username) := liftS (normalizeString username) in
        let! '(_, newPassword) := liftS (normalizeString newPassword) in
        Execute (LOGIN_UPD_PASSWORD (CalculateShaPassHash username newPassword) accountId) ;!
        retS AOR_OK
  end.

Definition CheckPassword (accountId : Z) (password : string) : AM bool :=
  let! name := GetName accountId in
  match name with
  | None => retS false
  | Some username =>
      let! '(_, username) := liftS (normalizeString username) in
      let! '(_, password) := liftS (normalizeString password) in
      query_db (fun t =>
        match account t !! accountId with
        | Some a => collates (ac_sha_pass_hash a) (CalculateShaPassHash username password)
        | None => false
        end)
  end.

(** ** [AccountCommands.cpp]

    [None] is the console. *)
Record Issuer := mkIssuer { is_account : Z; is_security : Z }.

Record AccEnv := mkAccEnv {
  ae_expansion : Z;                                 (* [CONFIG_EXPANSION] *)
  ae_lower_security : bool;                         (* [CONFIG_GM_LOWER_SECURITY] *)
  ae_realm : Z;
  ae_chars : Z -> list Z;
  ae_player : Z -> option bool;
  ae_online : list (string * Z * Z * Z)             (* [CHAR_SEL_CHARACTER_ONLINE] *)
}.
Variable env : AccEnv.

Definition with_session {A} (g : option Issuer) (k : Issuer -> AM A) : AM A :=
  match g with Some i => k i | None => liftS UB end.

(** [HasLowerSecurityAccount] without a session of the target's. *)
Definition HasLowerSecurityAccount (g : option Issuer) (target_account : Z) (strong : bool) : AM bool :=
  match g with
  | None => retS false
  | Some i =>
      if negb (IsVIPorPlayer (is_security i)) && negb strong && negb (ae_lower_security env) then retS false
      else if target_account =? 0 then retS true
      else
        let! target_sec := GetSecurityOnRealm target_account (ae_realm env) in
        if (is_security i <? target_sec) || (strong && (is_security i <=? target_sec))
        then sysmsg LANG_YOURS_SECURITY_IS_LOW [] ;! SetSentErrorMessage true ;! retS true
        else retS false
  end.

Definition HandleAccountCommand (g : option Issuer) : AM bool :=
  with_session g (fun i => sysmsg LANG_ACCOUNT_LEVEL [print_u64 (is_security i)] ;! retS true).

Definition HandleAccountAddonCommand (g : option Issuer) (args : string) : AM bool :=
  if String.eqb args EmptyString then refused LANG_CMD_SYNTAX []
  else
    with_session g (fun i =>
      match strtok " "%char args with
      | None => liftS UB
      | Some (exp, _) =>
          let expansion := atoi exp in
          if (expansion <? 0) || (ae_expansion env <? u8 expansion) then refused LANG_IMPROPER_VALUE []
          else
            Execute (LOGIN_UPD_EXPANSION (u8 expansion) (is_account i)) ;!
            sysmsg LANG_ACCOUNT_ADDON [print_u64 expansion] ;!
            retS true
      end).

Definition HandleAccountCreateCommand (args : string) : AM bool :=
  if String.eqb args EmptyString then retS false
  else
    match strtok " "%char args with
    | None => retS false
    | Some (accountName, r) =>
        match strtok " "%char r with
        | None => retS false
        | Some (password, _) =>
            let! result := CreateAccount accountName password in
            match result with
            | AOR_OK => sysmsg LANG_ACCOUNT_CREATED [accountName] ;! retS true
            | AOR_NAME_TOO_LONG => refused LANG_ACCOUNT_TOO_LONG []
            | AOR_NAME_ALREDY_EXIST => refused LANG_ACCOUNT_ALREADY_EXIST []
            | AOR_DB_INTERNAL_ERROR => refused LANG_ACCOUNT_NOT_CREATED_SQL_ERROR [accountName]
            | _ => refused LANG_ACCOUNT_NOT_CREATED [accountName]
            end
        end
    end.

Definition HandleAccountDeleteCommand (g : option Issuer) (args : string) : AM bool :=
  if String.eqb args EmptyString then retS false
  else
    match strtok " "%char args with
    | None => retS false
    | Some (accountName, _) =>
        let! '(ok, accountName) := liftS (normalizeString accountName) in
        if negb ok then refused LANG_ACCOUNT_NOT_EXIST [accountName]
        else
          let! accountId := GetId accountName in
          if accountId =? 0 then refused LANG_ACCOUNT_NOT_EXIST [accountName]
          else
            let! lower := HasLowerSecurityAccount g accountId true in
            if lower then retS false
            else
              let! result := DeleteAccount (ae_chars env) (ae_player env) accountId in
              match result with
              | AOR_OK => sysmsg LANG_ACCOUNT_DELETED [accountName] ;! retS true
              | AOR_NAME_NOT_EXIST => refused LANG_ACCOUNT_NOT_EXIST [accountName]
              | AOR_DB_INTERNAL_ERROR => refused LANG_ACCOUNT_NOT_DELETED_SQL_ERROR [accountName]
              | _ => refused LANG_ACCOUNT_NOT_DELETED [accountName]
              end
    end.

(** A word that is neither [on] nor [off] leaves the parameter as it was made:
    zero, of type [bool]. *)
Definition HandleAccountLockCommand (g : option Issuer) (args : string) : AM bool :=
  if String.eqb args EmptyString then refused LANG_USE_BOL []
  else
    let on := String.eqb args "on" in
    (if on then sysmsg LANG_COMMAND_ACCLOCKLOCKED []
     else whenS (String.eqb args "off") (sysmsg LANG_COMMAND_ACCLOCKUNLOCKED [])) ;!
    with_session g (fun i => Execute (LOGIN_UPD_ACCOUNT_LOCK on (is_account i)) ;! retS true).

Definition online_line (row : string * Z * Z * Z) : AM unit :=
  let '(name, id, map, zone) := row in
  let! t := query_db (fun t => t) in
  match account t !! id with
  | Some a =>
      let gmlevel := match filter (fun r => r.1.1 = id) (account_access t) with x :: _ => u8 x.1.2 | [] => 0 end in
      sysmsg LANG_ACCOUNT_LIST_LINE [ac_username a; name; ac_last_ip a; print_u64 map; print_u64 zone;
                                     print_u64 (ac_expansion a); print_u64 gmlevel]
  | None => sysmsg LANG_ACCOUNT_LIST_ERROR [name]
  end.

Definition HandleAccountOnlineListCommand : AM bool :=
  match ae_online env with
  | [] => sysmsg LANG_ACCOUNT_LIST_EMPTY [] ;! retS true
  | rows =>
      sysmsg LANG_ACCOUNT_LIST_BAR_HEADER [] ;! sysmsg LANG_ACCOUNT_LIST_HEADER [] ;! sysmsg LANG_ACCOUNT_LIST_BAR [] ;!
      for_eachS rows online_line ;!
      sysmsg LANG_ACCOUNT_LIST_BAR [] ;! retS true
  end.

Definition HandleAccountPasswordCommand (g : option Issuer) (args : string) : AM bool :=
  if String.eqb args EmptyString then refused LANG_CMD_SYNTAX []
  else
    match strtok " "%char args with
    | None => refused LANG_CMD_SYNTAX []
    | Some (oldPassword, r) =>
        match strtok " "%char r with
        | None => refused LANG_CMD_SYNTAX []
        | Some (newPassword, r) =>
            match strtok " "%char r with
            | None => refused LANG_CMD_SYNTAX []
            | Some (passwordConfirmation, _) =>
                with_session g (fun i =>
                  let! right := CheckPassword (is_account i) oldPassword in
                  if negb right then refused LANG_COMMAND_WRONGOLDPASSWORD []
                  else if negb (String.eqb newPassword passwordConfirmation) then refused LANG_NEW_PASSWORDS_NOT_MATCH []
                  else
                    let! result := ChangePassword (is_account i) newPassword in
                    match result with
                    | AOR_OK => sysmsg LANG_COMMAND_PASSWORD [] ;! retS true
                    | AOR_PASS_TOO_LONG => refused LANG_PASSWORD_TOO_LONG []
                    | _ => refused LANG_COMMAND_NOTCHANGEPASSWORD []
                    end)
            end
        end
    end.
End AccountMgr.
End Database.
