(* ===== verification/AccountFacts.v ===== *)
(** * Accounts: names, passwords, and logging in with them *)
From Stdlib Require Import Ascii String ZArith Lia.
From stdpp Require Import base gmap list strings.
From S2P Require Import Prelude ByteBuffer Util Utf8 World BigNumber Totp StateM RealmList AuthSocket AuthFacts AuthSrp Accounts.

Open Scope Z_scope.

(** ** Upper case *)
Lemma upper_latin c : wcharToUpperOnlyLatin c = if (97 <=? c) && (c <=? 122) then c - 32 else c.
Proof.
  unfold wcharToUpperOnlyLatin, isBasicLatinCharacter.
  destruct (Z.leb_spec 97 c), (Z.leb_spec c 122); cbn [andb orb].
  - assert (c ∈ seqZ 97 26) as Hin by (apply elem_of_seqZ; lia).
    assert (forallb (fun c => wcharToUpper c =? c - 32) (seqZ 97 26) = true) as Hall by (vm_compute; done).
    rewrite forallb_forall in Hall. apply Z.eqb_eq, Hall, list_elem_of_In, Hin.
  - destruct (Z.leb_spec 65 c), (Z.leb_spec c 90); cbn [andb]; try done; lia.
  - destruct (Z.leb_spec 65 c), (Z.leb_spec c 90); cbn [andb]; try done.
    assert (c ∈ seqZ 65 26) as Hin by (apply elem_of_seqZ; lia).
    assert (forallb (fun c => wcharToUpper c =? c) (seqZ 65 26) = true) as Hall by (vm_compute; done).
    rewrite forallb_forall in Hall. apply Z.eqb_eq, Hall, list_elem_of_In, Hin.
  - lia.
Qed.

Lemma upper_bmp c : bmp c -> bmp (wcharToUpperOnlyLatin c).
Proof.
  rewrite upper_latin, !bmp_range. destruct (Z.leb_spec 97 c), (Z.leb_spec c 122); cbn [andb]; lia.
Qed.
Lemma upper_idem c : wcharToUpperOnlyLatin (wcharToUpperOnlyLatin c) = wcharToUpperOnlyLatin c.
Proof.
  rewrite !upper_latin. destruct (Z.leb_spec 97 c), (Z.leb_spec c 122); cbn [andb]; repeat case_match; bool_props; lia.
Qed.

Definition shout (cps : list Z) : string := bytes_str (encodes (wcharToUpperOnlyLatin <$> cps)).

(** A text: characters of the basic plane, encoded. *)
Definition text (s : string) (cps : list Z) : Prop := Forall bmp cps /\ str_bytes s = encodes cps.
(** A name as it is stored. *)
Definition normal (s : string) : Prop := exists cps, Forall bmp cps /\ Z.of_nat (length cps) <= MAX_ACCOUNT_STR /\ s = shout cps.

Lemma text_length s cps : text s cps -> utf8length s = (Z.of_nat (length cps), s).
Proof. intros [Hb Hs]. unfold utf8length. by rewrite Hs, distance_encodes by by apply bmp_valid. Qed.

Lemma shout_text cps : Forall bmp cps -> text (shout cps) (wcharToUpperOnlyLatin <$> cps).
Proof.
  intros Hb. assert (Forall bmp (wcharToUpperOnlyLatin <$> cps)) as Hu.
  { apply Forall_fmap. eapply Forall_impl; [exact Hb|]. intros c. apply upper_bmp. }
  split; [done|]. by apply str_bytes_str, encodes_bytes, bmp_valid.
Qed.

Lemma normalize_text s cps :
  text s cps ->
  normalizeString s = Ok (if MAX_ACCOUNT_STR <? Z.of_nat (length cps) then (false, s) else (true, shout cps)).
Proof.
  intros [Hb Hs]. unfold normalizeString. rewrite (Utf8toWStr_buf_bmp s cps) by done. cbn [obind].
  case_if; [done|]. by rewrite WStrToUtf8_bmp by apply (shout_text cps Hb).
Qed.

Lemma normalize_short s cps : text s cps -> Z.of_nat (length cps) <= MAX_ACCOUNT_STR -> normalizeString s = Ok (true, shout cps).
Proof. intros Ht Hl. rewrite (normalize_text _ _ Ht). by rewrite (proj2 (Z.ltb_ge _ _)). Qed.

Lemma shout_idem cps : shout (wcharToUpperOnlyLatin <$> cps) = shout cps.
Proof.
  unfold shout. do 2 f_equal. rewrite <- list_fmap_compose. apply list_fmap_ext. intros i c _. apply upper_idem.
Qed.

Lemma normalize_normal s : normal s -> normalizeString s = Ok (true, s).
Proof.
  intros (cps & Hb & Hl & ->). rewrite (normalize_short _ _ (shout_text cps Hb)) by by rewrite length_fmap.
  by rewrite shout_idem.
Qed.

Lemma shout_normal cps : Forall bmp cps -> Z.of_nat (length cps) <= MAX_ACCOUNT_STR -> normal (shout cps).
Proof. intros Hb Hl. by exists cps. Qed.

(** ** The account manager and a book of passwords *)
Section Book.
  Context `{OpenSSLSpec}.
  Variables (collates : string -> string -> bool) (unique_username : bool) (new_row : Account).
  Variables (chars : Z -> list Z) (player : Z -> option bool).

(** What is asked of the account manager, the texts as lists of characters. *)
Inductive Request :=
| RUsername (id : Z) (name password : list Z)
| RPassword (id : Z) (password : list Z)
| RDelete (id : Z)
| RCheck (id : Z) (password : list Z).

Definition request_ok (r : Request) : Prop :=
  match r with
  | RUsername _ name pw => Forall bmp name /\ Forall bmp pw
  | RPassword _ pw => Forall bmp pw
  | RDelete id => Forall (fun g => player (MAKE_NEW_GUID g 0 HIGHGUID_PLAYER) <> Some false) (chars id)
  | RCheck _ pw => Forall bmp pw /\ Z.of_nat (length pw) <= MAX_ACCOUNT_STR
  end.

Inductive Answer := AResult (r : AccountOpResult) | ARight (b : bool).

Definition txt (cps : list Z) : string := bytes_str (encodes cps).

Definition serve (r : Request) : AM Answer :=
  match r with
  | RUsername id name pw => let! a := ChangeUsername id (txt name) (txt pw) in retS (AResult a)
  | RPassword id pw => let! a := ChangePassword id (txt pw) in retS (AResult a)
  | RDelete id => let! a := DeleteAccount chars player id in retS (AResult a)
  | RCheck id pw => let! b := CheckPassword collates id (txt pw) in retS (ARight b)
  end.

(** The book: the name and the password of every account, in upper case. *)
Abbreviation Book := (gmap Z (string * string)).

Definition too_long (cps : list Z) : bool := MAX_ACCOUNT_STR <? Z.of_nat (length cps).
Definition name_taken (name : string) (id : Z) (b : Book) : bool :=
  unique_username && existsb (fun p => collates p.2.1 name && negb (p.1 =? id)) (map_to_list b).

Definition book_serve (r : Request) (b : Book) : Book * Answer :=
  match r with
  | RUsername id name pw =>
      match b !! id with
      | None => (b, AResult AOR_NAME_NOT_EXIST)
      | Some _ =>
          if too_long name then (b, AResult AOR_NAME_TOO_LONG)
          else if too_long pw then (b, AResult AOR_PASS_TOO_LONG)
          else (if name_taken (shout name) id b then b else <[id := (shout name, shout pw)]> b, AResult AOR_OK)
      end
  | RPassword id pw =>
      match b !! id with
      | None => (b, AResult AOR_NAME_NOT_EXIST)
      | Some (name, _) => if too_long pw then (b, AResult AOR_PASS_TOO_LONG) else (<[id := (name, shout pw)]> b, AResult AOR_OK)
      end
  | RDelete id => match b !! id with None => (b, AResult AOR_NAME_NOT_EXIST) | Some _ => (delete id b, AResult AOR_OK) end
  | RCheck id pw =>
      (b, ARight match b !! id with
                 | None => false
                 | Some (name, password) => collates (CalculateShaPassHash name password) (CalculateShaPassHash name (shout pw))
                 end)
  end.

(** The table holds the book: the names as they are, the passwords digested. *)
Definition agrees (t : LoginTables) (b : Book) : Prop :=
  (forall id, match account t !! id, b !! id with
              | Some a, Some (name, pw) => ac_username a = name /\ ac_sha_pass_hash a = CalculateShaPassHash name pw /\ normal name
              | None, None => True
              | _, _ => False
              end).

Lemma agrees_some t b id a :
  agrees t b -> account t !! id = Some a ->
  exists pw, b !! id = Some (ac_username a, pw) /\ ac_sha_pass_hash a = CalculateShaPassHash (ac_username a) pw /\ normal (ac_username a).
Proof. intros Ha Hid. specialize (Ha id). rewrite Hid in Ha. destruct (b !! id) as [[n pw]|]; [|done]. destruct Ha as (<- & ? & ?). by exists pw. Qed.

Lemma agrees_none t b id : agrees t b -> account t !! id = None -> b !! id = None.
Proof. intros Ha Hid. specialize (Ha id). rewrite Hid in Ha. by destruct (b !! id). Qed.

Lemma agrees_put t b id a0 f name pw :
  agrees t b -> account t !! id = Some a0 -> ac_username (f a0) = name -> ac_sha_pass_hash (f a0) = CalculateShaPassHash name pw ->
  normal name -> agrees (upd_account id f t) (<[id := (name, pw)]> b).
Proof.
  intros Ha Hid Hn Hh Hno j. unfold upd_account, set_account. cbn [account]. destruct (decide (j = id)) as [->|Hj].
  - by rewrite lookup_alter_eq, Hid, lookup_insert_eq.
  - rewrite lookup_alter_ne, lookup_insert_ne by done. apply Ha.
Qed.

Lemma text_txt cps : Forall bmp cps -> text (txt cps) cps.
Proof. intros Hb. split; [done|]. by apply str_bytes_str, encodes_bytes, bmp_valid. Qed.

(** The request, and then the database's thread. *)
Definition settled (w : AccWorld) : Prop := acc_queue w = [].

Lemma name_taken_free t b name id :
  agrees t b -> name_free collates unique_username name (Some id) t = negb (name_taken name id b).
Proof.
  intros Ha. unfold name_free, name_taken. destruct unique_username; [|done]. cbn [negb orb andb].
  apply eq_true_iff_eq. rewrite negb_true_iff, forallb_forall. unfold with_name. split.
  - intros Hall. apply not_true_is_false. intros (p & Hp & Hc)%existsb_exists. destruct p as [j [n pw]].
    apply list_elem_of_In, elem_of_map_to_list in Hp. cbn in Hc. apply andb_prop in Hc as [Hc Hj%negb_true_iff%Z.eqb_neq].
    specialize (Ha j). rewrite Hp in Ha. destruct (account t !! j) as [a|] eqn:Ej; [|done]. destruct Ha as (Hn & _).
    specialize (Hall (j, a)). rewrite bool_decide_eq_true in Hall. cbn in Hall.
    assert (Some j = Some id) as [= ->]; [|done]. apply Hall, list_elem_of_In, list_elem_of_filter. cbn. split; [by rewrite Hn|].
    by apply elem_of_map_to_list.
  - intros Hno p Hp. destruct p as [j a]. apply list_elem_of_In, list_elem_of_filter in Hp as [Hc Hp%elem_of_map_to_list]. cbn in *.
    apply bool_decide_eq_true. f_equal. apply dec_stable. intros Hj.
    destruct (agrees_some _ _ _ _ Ha Hp) as (pw & Hb & _). apply not_true_iff_false in Hno. apply Hno, existsb_exists.
    exists (j, (ac_username a, pw)). split; [by apply list_elem_of_In, elem_of_map_to_list|]. cbn. by rewrite Hc, (proj2 (Z.eqb_neq _ _)).
Qed.

Definition then_worker {A} (c : AM A) : AM A := let! a := c in worker collates unique_username new_row ;! retS a.

Lemma kicks_fine l w (Q : unit -> AccWorld -> Prop) :
  Forall (fun g => player (MAKE_NEW_GUID g 0 HIGHGUID_PLAYER) <> Some false) l ->
  (forall w', acc_db w' = acc_db w -> acc_queue w' = acc_queue w -> Q tt w') -> wp (for_eachS l (kick_one player)) Q (fun _ => False) w.
Proof.
  intros Hl HQ. rewrite Forall_forall in Hl.
  apply (wpS_for_each _ _ (fun w' => acc_db w' = acc_db w /\ acc_queue w' = acc_queue w)); [done| |intros w' [? ?]; by apply HQ].
  intros g w' Hg [Hd Hq]. specialize (Hl g Hg). unfold kick_one. destruct (player _) as [[]|]; [|done|]; by wp_steps.
Qed.

Lemma worker_one s q w :
  prepared_async s = true -> acc_queue w = [s] :: q ->
  worker collates unique_username new_row w = (set_queue q (set_db (run_stmt collates unique_username new_row s (acc_db w)) w), Ok tt).
Proof. intros Hs Hq. unfold worker, bindS, getS. rewrite Hq. cbn [forallb]. rewrite Hs. done. Qed.

(** What [serve] leads to before the thread runs: the answer, and at most one
    entry in the queue, which brings the table to where the book is. *)
Definition served (r : Request) (w : AccWorld) (b : Book) (a : Answer) (w' : AccWorld) : Prop :=
  a = (book_serve r b).2 /\
  ((acc_queue w' = [] /\ acc_db w' = acc_db w /\ (book_serve r b).1 = b)
   \/ exists l, acc_queue w' = [l] /\ acc_db w' = acc_db w /\ forallb prepared_async l = true
        /\ agrees (foldl (fun t s => run_stmt collates unique_username new_row s t) (acc_db w) l) (book_serve r b).1).

Ltac one_stmt := right; eexists [_]; split_and!; [reflexivity|reflexivity|reflexivity|cbn [foldl run_stmt]].
Ltac nothing := split; [reflexivity|left; split_and!; done].

Lemma served_password id pw w b :
  Forall bmp pw -> settled w -> agrees (acc_db w) b ->
  wp (serve (RPassword id pw)) (served (RPassword id pw) w b) (fun _ => False) w.
Proof.
  intros Hpw Hs Ha. pose proof (text_txt pw Hpw) as Ht. unfold serve, ChangePassword, GetName, query_db, Execute, served, settled in *.
  cbn [book_serve]. wp_step. wp_step. wp_step. destruct (account (acc_db w) !! id) as [a|] eqn:Eid; cbn [fmap option_fmap option_map].
  - destruct (agrees_some _ _ _ _ Ha Eid) as (old & -> & Hh & Hn). rewrite (text_length _ _ Ht).
    unfold too_long. case_if; [by wp_steps; nothing|]. bool_props.
    wp_step. apply (wp_lift_ok _ (true, ac_username a)); [by apply normalize_normal|]. wp_step.
    apply (wp_lift_ok _ (true, shout pw)); [by apply normalize_short|]. wp_steps. split; [done|]. rewrite Hs. one_stmt.
    by eapply agrees_put.
  - rewrite (agrees_none _ _ _ Ha Eid). wp_steps. nothing.
Qed.

Lemma served_username id name pw w b :
  Forall bmp name -> Forall bmp pw -> settled w -> agrees (acc_db w) b ->
  wp (serve (RUsername id name pw)) (served (RUsername id name pw) w b) (fun _ => False) w.
Proof.
  intros Hname Hpw Hs Ha. pose proof (text_txt pw Hpw) as Ht. pose proof (text_txt name Hname) as Htn.
  unfold serve, ChangeUsername, query_db, Execute, served, settled in *.
  cbn [book_serve]. wp_step. wp_step. wp_step. destruct (account (acc_db w) !! id) as [a|] eqn:Eid.
  - destruct (agrees_some _ _ _ _ Ha Eid) as (old & -> & Hh & Hn). rewrite (text_length _ _ Ht), (text_length _ _ Htn).
    unfold too_long. case_if; [by wp_steps; nothing|]. case_if; [by wp_steps; nothing|]. bool_props.
    wp_step. apply (wp_lift_ok _ (true, shout name)); [by apply normalize_short|]. wp_step.
    apply (wp_lift_ok _ (true, shout pw)); [by apply normalize_short|]. wp_steps. split; [done|]. rewrite Hs. one_stmt.
    rewrite (name_taken_free _ b) by done. destruct (name_taken (shout name) id b); cbn [negb fst]; [done|].
    eapply agrees_put; [done|done|done|done|]. by apply shout_normal.
  - rewrite (agrees_none _ _ _ Ha Eid). wp_steps. nothing.
Qed.

Lemma served_delete id w b :
  request_ok (RDelete id) -> settled w -> agrees (acc_db w) b ->
  wp (serve (RDelete id)) (served (RDelete id) w b) (fun _ => False) w.
Proof.
  intros Hr Hs Ha. unfold serve, DeleteAccount, query_db, aevent, CommitTransaction, served, settled in *. cbn [book_serve].
  wp_step. wp_step. wp_step. destruct (account (acc_db w) !! id) as [a|] eqn:Eid.
  - destruct (agrees_some _ _ _ _ Ha Eid) as (old & -> & _). wp_step. apply kicks_fine; [exact Hr|]. intros w1 Hd Hq. wp_steps.
    split; [done|]. right. eexists. cbn [set_queue acc_queue acc_db]. rewrite Hq, Hs, Hd. split_and!; [done|done|done|].
    cbn [foldl run_stmt fst]. intros j. unfold set_account. cbn [account]. destruct (decide (j = id)) as [->|Hj].
    + by rewrite !lookup_delete_eq.
    + rewrite !lookup_delete_ne by done. apply Ha.
  - rewrite (agrees_none _ _ _ Ha Eid). wp_steps. nothing.
Qed.

Lemma served_check id pw w b :
  request_ok (RCheck id pw) -> settled w -> agrees (acc_db w) b ->
  wp (serve (RCheck id pw)) (served (RCheck id pw) w b) (fun _ => False) w.
Proof.
  intros [Hpw Hl] Hs Ha. pose proof (text_txt pw Hpw) as Ht. unfold serve, CheckPassword, GetName, query_db, served, settled in *.
  cbn [book_serve]. wp_step. wp_step. wp_step. destruct (account (acc_db w) !! id) as [a|] eqn:Eid; cbn [fmap option_fmap option_map].
  - destruct (agrees_some _ _ _ _ Ha Eid) as (old & -> & Hh & Hn).
    wp_step. apply (wp_lift_ok _ (true, ac_username a)); [by apply normalize_normal|]. wp_step.
    apply (wp_lift_ok _ (true, shout pw)); [by apply normalize_short|]. wp_steps. rewrite Eid, Hh. nothing.
  - rewrite (agrees_none _ _ _ Ha Eid). wp_steps. nothing.
Qed.

Lemma serve_step r w b :
  request_ok r -> settled w -> agrees (acc_db w) b ->
  wp (then_worker (serve r)) (fun a w' => a = (book_serve r b).2 /\ settled w' /\ agrees (acc_db w') (book_serve r b).1) (fun _ => False) w.
Proof.
  intros Hr Hs Ha. unfold then_worker. wp_step. eapply wpS_mono with (P := served r w b) (E := fun _ => False); [| |done].
  { destruct r; cbn [request_ok] in Hr; [by apply served_username; destruct Hr|by apply served_password|by apply served_delete|by apply served_check]. }
  intros a w' [-> [(Hq & Hd & Hb)|(l & Hq & Hd & Hp & Hag)]]; unfold worker; wp_step; wp_step; wp_step; rewrite Hq.
  - wp_steps. by rewrite Hb, Hd.
  - rewrite Hp. wp_steps. cbn [set_db set_queue acc_db acc_queue]. by rewrite Hd.
Qed.

Fixpoint serve_all (l : list Request) : AM (list Answer) :=
  match l with
  | [] => retS []
  | r :: l' => let! a := then_worker (serve r) in let! rest := serve_all l' in retS (a :: rest)
  end.
Fixpoint book_all (l : list Request) (b : Book) : Book * list Answer :=
  match l with
  | [] => (b, [])
  | r :: l' => let '(b1, a) := book_serve r b in let '(b2, rest) := book_all l' b1 in (b2, a :: rest)
  end.

(** C16. The account manager is a book of names and passwords: whatever is asked
    of it, one request at a time with the database's thread in between, its
    answers are the book's, and the table keeps holding the book, of every
    password only the digest; an account's name and password are what the last
    successful change made them, in upper case. *)
Theorem passwords_refined l w b :
  Forall request_ok l -> settled w -> agrees (acc_db w) b ->
  exists w', serve_all l w = (w', Ok (book_all l b).2) /\ settled w' /\ agrees (acc_db w') (book_all l b).1.
Proof.
  intros Hl. revert w b. induction Hl as [|r l Hr Hl IH]; intros w b Hs Ha; cbn [serve_all book_all]; [by exists w|].
  destruct (proj1 (wpS_run _ _ _) (serve_step r w b Hr Hs Ha)) as (a & w1 & Hrun & Ea & Hs1 & Ha1).
  destruct (book_serve r b) as [b1 a1]. cbn [fst snd] in *. subst a1. destruct (IH w1 b1 Hs1 Ha1) as (w2 & Hrun2 & Hs2 & Ha2).
  exists w2. destruct (book_all l b1) as [b2 rest]. cbn [fst snd] in *. split; [|done].
  unfold bindS. by rewrite Hrun, Hrun2.
Qed.
End Book.
