(* ===== verification/AccountLogin.v ===== *)
(** * Logging in with a password that was set

    From [AccountMgr::ChangePassword] over the stored digest and the challenge
    of the authentication server to the proof of a client that types the name
    and the password. *)
From Stdlib Require Import Ascii String ZArith Lia.
From stdpp Require Import base gmap list strings.
From S2P Require Import Prelude ByteBuffer Util Utf8 World BigNumber Totp StateM RealmList AuthSocket AuthFacts AuthSrp Accounts AccountFacts.

Open Scope Z_scope.

(** ** The digest through the database *)
Lemma le_split_pad n k z : 0 <= z < 256 ^ Z.of_nat n -> le_split (n + k) z = le_split n z ++ replicate k 0.
Proof.
  revert z. induction n as [|n IH]; intros z Hz; cbn [Nat.add le_split app].
  - replace z with 0 by (cbn in Hz; lia). clear Hz. induction k as [|k IHk]; [done|]. cbn [le_split replicate]. change (0 / 256) with 0. by rewrite IHk.
  - f_equal. apply IH. rewrite pow256_succ in Hz. split; [apply Z.div_pos; lia|apply Z.div_lt_upper_bound; lia].
Qed.

Lemma hex_char_nonzero d : 0 <= d < 16 -> Ascii.eqb (hex_char d) Ascii.zero = false.
Proof.
  intros Hd. assert (forallb (fun d => negb (Ascii.eqb (hex_char d) Ascii.zero)) (seqZ 0 16) = true) as Hall by (vm_compute; done).
  rewrite forallb_forall in Hall. apply negb_true_iff, Hall, list_elem_of_In, elem_of_seqZ. lia.
Qed.

Lemma hex_bytes_cstr l : Forall is_byte l -> c_str (ByteArrayToHexStr l) = ByteArrayToHexStr l.
Proof.
  induction 1 as [|b l Hb Hl IH]; [done|]. unfold is_byte in Hb. cbn [ByteArrayToHexStr c_str].
  rewrite !hex_char_nonzero by first [apply Z.mod_pos_bound; lia|split; [apply Z.div_pos; lia|apply Z.div_lt_upper_bound; lia]].
  by rewrite IH.
Qed.

Section Login.
  Context `{OpenSSLSpec} `{ACE}.

Lemma digest_of_hash d : Forall is_byte d -> length d = 20%nat -> password_digest (SetHexStr (ByteArrayToHexStr d) 0) = d.
Proof.
  intros Hd Hl. unfold SetHexStr. rewrite hex_bytes_cstr, BN_hex2bn_bytes by (done || by destruct d). cbn [default]. unfold id.
  assert (Forall is_byte (rev d)) as Hr by by apply Forall_rev.
  pose proof (le_combine_bound (rev d) Hr) as Hb. rewrite length_rev, Hl in Hb. set (I := le_combine (rev d)) in *.
  assert (num_bytes I <= 20)%nat as Hn by (apply num_bytes_le; exact Hb).
  unfold password_digest, GetNumBytes, SHA_DIGEST_LENGTH. rewrite BN_num_bytes_spec by lia.
  rewrite (proj2 (Z.leb_le _ _)) by lia. rewrite Nat2Z.id, AsByteArray_0 by lia.
  rewrite take_ge by by rewrite length_le_split.
  destruct (num_bytes_bound I) as [HI|]; [|lia].
  rewrite <- (le_split_pad (num_bytes I) (20 - num_bytes I) I HI).
  replace (num_bytes I + (20 - num_bytes I))%nat with (length (rev d)) by (rewrite length_rev; lia).
  unfold I. rewrite le_split_combine by done. by rewrite rev_involutive.
Qed.

(** ** The client that types name and password *)
Definition salt (k : AuthSocket) : list Z := le_split (num_bytes (srp_s k)) (srp_s k).
Definition typed_digest (name pw : string) : list Z := SHA1 (str_bytes name ++ [58] ++ str_bytes pw).
Definition client_of (name pw : string) (a : Z) (k : AuthSocket) : Client :=
  mkClient name (le_combine (SHA1 (salt k ++ typed_digest name pw))) a (le_split 32 (srp_B k)) (salt k).

(** The client reads the server's number and the salt from the answer. *)
Definition client_reads (name pw : string) (a : Z) (p : list Z) : Client :=
  mkClient name (le_combine (SHA1 (bytes_at 70 32 p ++ typed_digest name pw))) a (bytes_at 3 32 p) (bytes_at 70 32 p).

(** The answer carries them, if the number is not short of a byte. *)
Definition answer_tells (k : AuthSocket) (p : list Z) : Prop :=
  full (le_split 32 (srp_B k)) ->
  exists tail, drop 3 p = le_split 32 (srp_B k) ++ [1; 7; 32] ++ le_split 32 Ng ++ salt k ++ tail.

Lemma reads_client name pw a k p :
  answer_tells k p -> full (le_split 32 (srp_B k)) -> length (salt k) = 32%nat -> client_reads name pw a p = client_of name pw a k.
Proof.
  intros Hp Hf Hl. destruct (Hp Hf) as [tail Ht]. unfold client_reads, client_of.
  assert (bytes_at 3 32 p = le_split 32 (srp_B k)) as ->.
  { unfold bytes_at. rewrite Ht. rewrite <- (length_le_split 32 (srp_B k)) at 1. by rewrite take_app_length. }
  assert (bytes_at 70 32 p = salt k) as ->; [|done].
  unfold bytes_at. replace 70%nat with (3 + 67)%nat by done. rewrite <- drop_drop, Ht.
  set (X := le_split 32 (srp_B k) ++ [1; 7; 32] ++ le_split 32 Ng). replace 67%nat with (length X) by (unfold X; rewrite !length_app, !length_le_split; done).
  replace (_ ++ _ ++ _ ++ _ ++ tail) with (X ++ salt k ++ tail) by (unfold X; by rewrite <- !app_assoc).
  rewrite drop_app_length. rewrite <- Hl at 1. by rewrite take_app_length.
Qed.

Lemma hash_typed name pw : CalculateShaPassHash name pw = ByteArrayToHexStr (typed_digest name pw).
Proof. unfold CalculateShaPassHash, typed_digest, Finalize, UpdateData, SHA1_Init. by rewrite app_nil_l, <- app_assoc. Qed.

Lemma SHA1_nonneg l : 0 <= le_combine (SHA1 l).
Proof. pose proof (le_combine_bound (SHA1 l) (SHA1_bytes l)). lia. Qed.

Lemma private_key_typed s name pw :
  0 <= s ->
  private_key s (password_digest (SetHexStr (CalculateShaPassHash name pw) 0))
  = le_combine (SHA1 (le_split (num_bytes s) s ++ typed_digest name pw)).
Proof.
  intros Hs. rewrite hash_typed, digest_of_hash by (apply SHA1_bytes || apply SHA1_length).
  unfold private_key, GetNumBytes, Finalize, UpdateData, SHA1_Init. rewrite BN_num_bytes_spec, Nat2Z.id, AsByteArray_0 by done.
  rewrite take_ge by by rewrite length_le_split. rewrite SetBinary_spec by apply SHA1_bytes. done.
Qed.

Variable env : AuthEnv.

Lemma drawn_nonneg bits k : 0 < bits -> 0 <= SetRand bits k.
Proof. intros Hb. pose proof (BN_rand_spec k bits Hb). assert (0 < 2 ^ (bits - 1)) by (apply Z.pow_pos_nonneg; lia). unfold SetRand. lia. Qed.

Lemma read_array_take n l m : read_array n l = Ok m -> m = take n l.
Proof. unfold read_array. destruct (_ <? _)%nat; [done|]. by intros [= <-]. Qed.

Lemma answer_bytes pkt b1 b r B32 g1 N32 unk cs B s :
  append_chunks [F (U8 r); Raw B32; F (U8 1); Raw g1; F (U8 32); Raw N32;
                 Raw (take (Z.to_nat (GetNumBytes s)) (AsByteArray 0 true s)); Raw unk] pkt = Ok b1 ->
  append_chunks cs b1 = Ok b -> at_end pkt -> length (_storage pkt) = 2%nat ->
  read_array 32 (AsByteArray 32 true B) = Ok B32 -> read_array 1 (AsByteArray 0 true 7) = Ok g1 ->
  read_array 32 (AsByteArray 32 true Ng) = Ok N32 -> 0 <= s -> 0 <= B < 256 ^ Z.of_nat 32 -> full (le_split 32 B) ->
  exists tail, drop 3 (_storage b) = le_split 32 B ++ [1; 7; 32] ++ le_split 32 Ng ++ le_split (num_bytes s) s ++ tail.
Proof.
  intros Hp1 Hp2 He Hl HB Hg HN Hs HB0 Hf. apply append_chunks_ok in Hp1 as [He1 Hs1]; [|done]. apply append_chunks_ok in Hp2 as [_ Hs2]; [|done].
  apply read_array_take in HB as ->. apply read_array_take in Hg as ->. apply read_array_take in HN as ->.
  rewrite Hs2, Hs1. destruct (_storage pkt) as [|x [|y [|z q]]]; try done.
  unfold chunks_bytes. cbn [fmap list_fmap concat chunk_bytes field_bytes app].
  rewrite (AsByteArray_fits 32 B) by (try (apply (full_split 32); done); lia).
  rewrite (AsByteArray_fits 32 Ng) by (exact Ng_bytes || done).
  rewrite AsByteArray_0 by done. rewrite AsByteArray_0 by done.
  unfold GetNumBytes. rewrite BN_num_bytes_spec by done. rewrite Nat2Z.id.
  rewrite (take_ge (le_split 32 B)), (take_ge (le_split 32 Ng)), (take_ge (le_split (num_bytes s) s)) by by rewrite length_le_split.
  change (take 1 (le_split (num_bytes 7) 7)) with [7].
  generalize (le_split 32 B) (le_split 32 Ng) (le_split (num_bytes s) s). intros lB lN ls. cbn [le_split].
  change (1 mod 256) with 1. change (32 mod 256) with 32. eexists (unk ++ chunks_bytes cs).
  cbn [app drop]. rewrite app_nil_r, <- !app_assoc. cbn [app]. by rewrite <- !app_assoc.
Qed.

(** After a challenge made from the digest of a password, the server awaits the
    client that types it. *)
Lemma wp_challenged name pw ch row pkt w :
  srp_N (conn w) = Ng -> srp_g (conn w) = 7 -> _login (conn w) = name ->
  lr_sha_pass_hash row = CalculateShaPassHash name pw -> String.length (lr_v row) <> 64%nat ->
  wp (srp_challenge ch row pkt) (fun b w' =>
        (forall a, 0 <= a -> challenged (client_of name pw a (conn w')) (conn w'))
        /\ _tokenKey (conn w') = lr_token_key row /\ length (salt (conn w')) = 32%nat
        /\ (at_end pkt -> length (_storage pkt) = 2%nat -> answer_tells (conn w') (_storage b)))
     (fun _ => True) w.
Proof.
  intros HN Hg Hl Hh Hv. unfold srp_challenge. cbv zeta. unfold s_BYTE_SIZE.
  assert ((Z.of_nat (String.length (lr_v row)) =? 32 * 2) = false) as -> by (apply Z.eqb_neq; lia). cbn [negb orb].
  unfold _SetVSFields. rewrite Hh. as_line. change (s_BYTE_SIZE * 8) with 256.
  rewrite private_key_typed by by apply drawn_nonneg. rewrite HN, Hg.
  set (s := SetRand 256 (draws w)). set (x := le_combine (SHA1 (le_split (num_bytes s) s ++ typed_digest name pw))).
  assert (0 <= x) as Hx by apply SHA1_nonneg.
  unfold ModExp. rewrite (BN_mod_exp_spec 7 x) by (done || lia).
  set (b := SetRand (19 * 8) (S (draws w))). assert (0 <= b) as Hb by by apply drawn_nonneg.
  rewrite (BN_mod_exp_spec 7 b) by (done || lia).
  assert (forall e, 0 <= 7 ^ e mod Ng < Ng) as Hp by (intros e; apply Z.mod_pos_bound, Ng_pos).
  rewrite BN_mul_spec by (apply Hp || done). rewrite BN_add_spec by first [apply Hp|apply Z.mul_nonneg_nonneg; [apply Hp|done]].
  rewrite BN_mod_spec by first [exact Ng_pos|apply Z.add_nonneg_nonneg; [apply Z.mul_nonneg_nonneg; [apply Hp|done]|apply Hp]].
  as_steps; try done. unfold answer_tells, salt, client_of, challenged. as_proj. rewrite !HN, !Hg.
  cbn [cl_x cl_B cl_s cl_login cl_a]. clear Hh Hv.
  assert (2 ^ 255 <= s < 2 ^ 256) as Hs by by apply (BN_rand_spec (draws w) 256).
  assert (0 <= s) as Hs0 by lia.
  pose proof (secret_range (7 ^ x mod Ng * 3 + 7 ^ b mod Ng)) as HB.
  split; [|split; [done|split]].
  - intros expo Hexpo. split_and!; try done; try apply le_split_byte; try apply length_le_split.
    + rewrite le_combine_split. by apply Z.mod_small.
    + by apply le_combine_num_bytes.
  - rewrite length_le_split. apply num_bytes_exact; [lia|]. change (256 ^ (Z.of_nat 32 - 1)) with (2 ^ 248).
    change (256 ^ Z.of_nat 32) with (2 ^ 256). assert (2 ^ 248 <= 2 ^ 255) by done. lia.
  - intros He Hl2 Hf. by eapply answer_bytes.
Qed.

(** The server has answered a challenge with success. *)
Definition accepted (p : list Z) (w w' : AuthServer) : Prop :=
  sk_sent (sock w') = sk_sent (sock w) ++ [p] /\ take 3 p = [AUTH_LOGON_CHALLENGE; 0; WOW_SUCCESS].

Lemma not_accepted_quiet p w w' : sk_sent (sock w') = sk_sent (sock w) -> ~ accepted p w w'.
Proof. intros Hs (Hp & _). rewrite Hs in Hp. apply (f_equal length) in Hp. rewrite length_app in Hp. cbn in Hp. lia. Qed.

Lemma not_accepted_code w w' p q code :
  sk_sent (sock w') = sk_sent (sock w) ++ [p] -> take 3 p = [AUTH_LOGON_CHALLENGE; 0; code] -> code <> WOW_SUCCESS -> ~ accepted q w w'.
Proof. intros Hs Hp Hc (Hq & Ht). rewrite Hs in Hq. apply app_inj_tail in Hq as [_ ->]. congruence. Qed.

(** A refusal: two bytes and the code. *)
Lemma refusal_bytes a code b l :
  append_chunks [F (U8 AUTH_LOGON_CHALLENGE); F (U8 0)] ByteBuffer_new = Ok a -> append_chunks [F (U8 code)] a = Ok b ->
  bb_contents b = Ok l -> take 3 l = [AUTH_LOGON_CHALLENGE; 0; u8 code].
Proof.
  intros Ha Hb Hl. apply contents_ok in Hl as ->. apply append_chunks_ok in Ha as [He Hs]; [|done].
  apply append_chunks_ok in Hb as [_ Hs2]; [|done]. rewrite Hs2, Hs. done.
Qed.

Lemma wp_and {A} (m : AS A) (P Q : A -> AuthServer -> Prop) E F w : wp m P E w -> wp m Q F w -> wp m (fun a w' => P a w' /\ Q a w') (fun w' => E w' /\ F w') w.
Proof. unfold wp. destruct (m w) as [w' [a|e|]]; auto. Qed.

Lemma wp_flood_code (Q : bool -> AuthServer -> Prop) (E : AuthServer -> Prop) w :
  (forall w' p, take 3 p = [AUTH_LOGON_CHALLENGE; 0; WOW_FAIL_UNKNOWN_ACCOUNT] -> sk_sent (sock w') = sk_sent (sock w) ++ [p] -> Q true w') ->
  (forall w', conn w' = conn w -> sock w' = sock w -> executed w' = executed w -> Q false w') -> (forall w', E w') ->
  wp (flood_protection env) Q E w.
Proof.
  intros Ht Hf HE. unfold flood_protection. as_steps; try done; try (by apply Hf).
  match goal with H1 : append_chunks _ _ = Ok ?b, H2 : bb_contents ?b = Ok _ |- _ =>
    apply append_chunks_ok in H1 as [_ Hs]; [|done]; apply contents_ok in H2; subst end.
  eapply Ht; [|reflexivity]. by rewrite Hs.
Qed.

Lemma wp_challenge_read w :
  wp read_challenge (fun _ w' => conn w' = conn w /\ sk_sent (sock w') = sk_sent (sock w) /\ executed w' = executed w) (fun _ => True) w.
Proof. unfold read_challenge. as_steps; done. Qed.

(** What a challenge is answered with, if the server sends success. *)
Lemma wp_logon_by name (P : list Z -> AuthSocket -> Prop) w :
  (forall ch pkt w3, append_chunks [F (U8 AUTH_LOGON_CHALLENGE); F (U8 0)] ByteBuffer_new = Ok pkt ->
     srp_N (conn w3) = srp_N (conn w) -> srp_g (conn w3) = srp_g (conn w) -> executed w3 = executed w -> _login (conn w3) = name ->
     wp (challenge_reply env ch pkt)
        (fun b w4 => forall l, bb_contents b = Ok l -> take 3 l = [AUTH_LOGON_CHALLENGE; 0; WOW_SUCCESS] -> P l (conn w4)) (fun _ => True) w3) ->
  wp (_HandleLogonChallenge env) (fun _ w' => forall p, accepted p w w' -> _login (conn w') = name -> P p (conn w')) (fun _ => True) w.
Proof.
  intros Hreply.
  assert (forall w', sk_sent (sock w') = sk_sent (sock w) -> forall p, accepted p w w' -> _login (conn w') = name -> P p (conn w')) as Hquiet.
  { intros w' Hs p Hacc. by destruct (not_accepted_quiet _ _ _ Hs Hacc). }
  unfold _HandleLogonChallenge. as_line. as_step; [as_line; exact (Hquiet (set_conn (set_authed false (conn w)) w) eq_refl)|]. as_line.
  apply wp_flood_code; [| |done].
  { intros w' p Hp Hs. as_line. intros q Hacc. by destruct (not_accepted_code _ _ _ _ _ Hs Hp ltac:(done) Hacc). }
  intros w1 Hc1 Hs1 He1. as_line. eapply wpS_mono; [apply wp_challenge_read| |done]. intros [ch|] w2 (Hc2 & Hs2 & He2); cbn beta; [|as_line; apply Hquiet; congruence].
  as_line. as_step; [as_line; apply Hquiet; as_proj; congruence|]. as_line. as_step; [|done].
  match goal with |- wp _ _ _ ?x => set (w3 := x) end.
  assert (srp_N (conn w3) = srp_N (conn w) /\ srp_g (conn w3) = srp_g (conn w) /\ sk_sent (sock w3) = sk_sent (sock w) /\ executed w3 = executed w)
    as (HN3 & Hg3 & Hs3 & He3).
  { unfold w3. as_proj. rewrite Hc2, Hc1. as_proj. rewrite He2, He1. split_and!; [done|done|congruence|done]. }
  clearbody w3. as_step. destruct (decide (_login (conn w3) = name)) as [Hl|Hl].
  - eapply wpS_mono; [apply wp_and; [by apply (Hreply ch)|apply (quiet_challenge_reply env ch)]| |done].
    cbn beta. intros b w4 [Haw (Hs4 & _ & _)]. as_steps; [|done]. intros p (Hp & Ht) _.
    rewrite Hs4, Hs3 in Hp. apply app_inj_tail in Hp as [_ <-]. by eapply Haw.
  - eapply wpS_mono; [apply (quiet_challenge_reply env ch)| |done]. cbn beta. intros b w4 (Hs4 & _ & Hl4). as_steps; [|done].
    intros p _ Hln. congruence.
Qed.

Section Account.
  Variables (name pw : string) (row : LogonRow).
  Hypothesis Hhash : lr_sha_pass_hash row = CalculateShaPassHash name pw.
  Hypothesis Hfresh : String.length (lr_v row) <> 64%nat.

(** The server waits for the client that types name and password and reads
    the rest from the answer. *)
Definition awaits (p : list Z) (k : AuthSocket) : Prop :=
  (forall expo, 0 <= expo -> challenged (client_of name pw expo k) k) /\ _tokenKey k = lr_token_key row
  /\ length (salt k) = 32%nat /\ answer_tells k p.

Lemma reply_awaits ch pkt w :
  append_chunks [F (U8 AUTH_LOGON_CHALLENGE); F (U8 0)] ByteBuffer_new = Ok pkt ->
  srp_N (conn w) = Ng -> srp_g (conn w) = 7 -> _login (conn w) = name -> sel_logonchallenge (db env) (executed w) name = Some row ->
  wp (challenge_reply env ch pkt)
     (fun b w' => (forall l, bb_contents b = Ok l -> take 3 l = [AUTH_LOGON_CHALLENGE; 0; WOW_SUCCESS] -> awaits l (conn w'))) (fun _ => True) w.
Proof.
  intros Hpkt HN Hg Hl Hrow.
  assert (forall code b w', append_chunks [F (U8 code)] pkt = Ok b -> u8 code <> WOW_SUCCESS ->
            forall l, bb_contents b = Ok l -> take 3 l = [AUTH_LOGON_CHALLENGE; 0; WOW_SUCCESS] -> awaits l (conn w')) as Hno.
  { intros code b w' Hb Hc l Hcl Ht. rewrite (refusal_bytes _ _ _ _ Hpkt Hb Hcl) in Ht. injection Ht as ?. done. }
  unfold challenge_reply. as_line. as_step; [as_step; [|done]; by eapply Hno|]. as_line. rewrite Hl, Hrow.
  as_step; [as_step; [|done]; by eapply Hno|]. as_line. as_step.
  - as_step. as_step; [|done]. eapply Hno; [eassumption|]. by case_match.
  - eapply wpS_mono; [by apply (wp_challenged name pw)| |done]. intros b w' (Hw & Htok & Hlen & Hans) l Hcl _.
    apply contents_ok in Hcl as ->. apply append_chunks_ok in Hpkt as [He Hs]; [|done]. split_and!; [done..|].
    apply Hans; [done|]. by rewrite Hs.
Qed.

Lemma wp_logon_challenge w :
  srp_N (conn w) = Ng -> srp_g (conn w) = 7 -> sel_logonchallenge (db env) (executed w) name = Some row ->
  wp (_HandleLogonChallenge env) (fun _ w' => forall p, accepted p w w' -> _login (conn w') = name -> awaits p (conn w')) (fun _ => True) w.
Proof.
  intros HN Hg Hrow. apply wp_logon_by. intros ch pkt w3 Hpkt HN3 Hg3 He3 Hl3. apply reply_awaits; [done|congruence|congruence|done|by rewrite He3].
Qed.
End Account.

(** ** From the account manager to the login *)
(** What [LOGIN_SEL_LOGONCHALLENGE] answers for an account. *)
Definition logon_row (t : LoginTables) (id : Z) (a : Account) : LogonRow :=
  mkLogonRow (ac_sha_pass_hash a) id (if ac_locked a then 1 else 0) (ac_last_ip a)
    (access_level (filter (fun r => r.1.1 = id) (account_access t))) (ac_v a) (ac_s a) (ac_token_key a).

(** The client's proof arrives. *)
Definition feed (l : list Z) (w : AuthServer) : AuthServer := set_sock (mkRealmSocket l (sk_sent (sock w)) (sk_shutdown (sock w))) w.
End Login.

Section Logs.
  Context `{OpenSSLSpec} `{ACE}.
  Variables (collates : string -> string -> bool) (unique_username : bool) (new_row : Account).

(** The row after a password was set. *)
Definition repassworded (pw : string) (a : Account) : Account :=
  mkAccount (ac_username a) (CalculateShaPassHash (ac_username a) pw) "0" "0"
    (ac_expansion a) (ac_locked a) (ac_last_ip a) (ac_token_key a).

Lemma password_stored id a cps w :
  settled w -> account (acc_db w) !! id = Some a -> normal (ac_username a) -> Forall bmp cps -> Z.of_nat (length cps) <= MAX_ACCOUNT_STR ->
  exists w', then_worker collates unique_username new_row (ChangePassword id (txt cps)) w = (w', Ok AOR_OK)
    /\ account (acc_db w') !! id = Some (repassworded (shout cps) a).
Proof.
  intros Hs Hid Hn Hb Hl. pose proof (text_txt cps Hb) as Ht.
  enough (wp (then_worker collates unique_username new_row (ChangePassword id (txt cps)))
            (fun r w' => r = AOR_OK /\ account (acc_db w') !! id = Some (repassworded (shout cps) a)) (fun _ => False) w) as Hwp.
  { apply wpS_run in Hwp as (? & w' & ? & -> & ?). by exists w'. }
  unfold then_worker, ChangePassword, GetName, query_db, Execute. wp_step. wp_step. wp_step. rewrite Hid. cbn [fmap option_fmap option_map].
  rewrite (text_length _ _ Ht), (proj2 (Z.ltb_ge _ _)) by done.
  wp_step. apply (wp_lift_ok _ (true, ac_username a)); [by apply normalize_normal|]. wp_step.
  apply (wp_lift_ok _ (true, shout cps)); [by apply normalize_short|]. wp_steps.
  unfold settled in Hs. rewrite Hs. eapply wp_intro; [eapply worker_one; [|reflexivity]; reflexivity|]. wp_steps. split; [done|].
  cbn [run_stmt set_db set_queue acc_db upd_account set_account account]. rewrite lookup_alter_eq, Hid. done.
Qed.

(** C15. Once the account manager has set a password and the database's thread
    has run, the authentication server lets in who types that password, in any
    case: whenever it answers a logon challenge for the account's name with
    success, the row being the one of the table, the client that computes its
    private key from the name, the new password in upper case and the salt it
    reads from the answer is accepted; provided no token is asked for and no
    number of the exchange is short of a byte. *)
Theorem changed_password_logs_in id a cps w :
  settled w -> account (acc_db w) !! id = Some a -> normal (ac_username a) -> ac_token_key a = EmptyString ->
  Forall bmp cps -> Z.of_nat (length cps) <= MAX_ACCOUNT_STR ->
  exists w' a', then_worker collates unique_username new_row (ChangePassword id (txt cps)) w = (w', Ok AOR_OK)
    /\ account (acc_db w') !! id = Some a'
    /\ forall env p sw sw1 ok expo crc keys flags rest, let c := client_reads (ac_username a) (shout cps) expo p in
         let sw2 := feed (proof_packet c crc keys flags ++ rest) sw1 in
         srp_N (conn sw) = srp_N_const -> srp_g (conn sw) = 7 ->
         sel_logonchallenge (db env) (executed sw) (ac_username a) = Some (logon_row (acc_db w') id a') ->
         _HandleLogonChallenge env sw = (sw1, Ok ok) -> accepted p sw sw1 -> _login (conn sw1) = ac_username a ->
         0 <= expo -> full (le_split 32 (srp_B (conn sw1))) -> no_short c -> _expversion (conn sw1) <> NO_VALID_EXP_FLAG ->
         length crc = 20%nat -> has_flag flags 0x04 = false ->
         exists sw3, _HandleLogonProof env sw2 = (sw3, Ok true) /\ logged_in env c rest sw2 sw3.
Proof.
  intros Hs Hid Hn Htok Hb Hl. destruct (password_stored id a cps w) as (w' & Hrun & Hid'); [done..|].
  exists w', (repassworded (shout cps) a). split; [exact Hrun|]. split; [exact Hid'|].
  intros env p sw sw1 ok expo crc keys flags rest c sw2 HN Hg Hrow Hch Hacc Hlog Hexpo HfB Hns Hexp Hcrc Hfl.
  pose proof (wp_logon_challenge env (ac_username a) (shout cps) (logon_row (acc_db w') id (repassworded (shout cps) a)) eq_refl ltac:(done) sw HN Hg Hrow) as Hwp.
  unfold wp in Hwp. rewrite Hch in Hwp. destruct (Hwp p Hacc Hlog) as (Hc & Htk & Hlen & Hans).
  assert (c = client_of (ac_username a) (shout cps) expo (conn sw1)) as Ec by by apply reads_client.
  assert (challenged c (conn sw2)) as Hc2 by (rewrite Ec; by apply Hc).
  pose proof (wp_login env c crc keys flags rest sw2 Hc2 Hns Hexp) as Hin.
  destruct (proj1 (wpS_run _ _ _) (Hin ltac:(by unfold sw2; cbn; rewrite Htk) Hcrc Hfl eq_refl)) as (r & sw3 & Hr & -> & Hlg).
  exists sw3. split; [exact Hr|exact Hlg].
Qed.
End Logs.
