(* ===== verification/AccountScene.v ===== *)
(** * Accounts: a worked example

    A password is set, and typed at the authentication server: the theorems of
    the accounts at inputs where their hypotheses hold, with real digests. *)
From Stdlib Require Import Ascii String ZArith Lia Zpow_facts.
From stdpp Require Import base gmap list strings.
From S2P Require Import Prelude ByteBuffer Util Utf8 World BigNumber Totp StateM RealmList AuthSocket AuthFacts AuthSrp AuthBypass OpenSSLRef AuthScene Accounts AccountFacts AccountLogin.

Open Scope Z_scope.

#[local] Existing Instance reference_openssl.
#[local] Existing Instance scene_ace.

(** Texts are compared without regard to the case of Latin letters. *)
Definition same_text (s t : string) : bool :=
  bool_decide (wcharToUpperOnlyLatin <$> str_bytes s = wcharToUpperOnlyLatin <$> str_bytes t).
Definition empty_row : Account := mkAccount "" "" "" "" 2 false "127.0.0.1" "".

Definition olga : Account := mkAccount "OLGA" (CalculateShaPassHash "OLGA" "TULIP") "0" "0" 2 false "127.0.0.1" "".
Definition marta : Account := mkAccount "MARTA" (CalculateShaPassHash "MARTA" "IRIS") "0" "0" 2 false "127.0.0.1" "".
Definition tables : LoginTables := mkLoginTables (<[7 := olga]> (<[9 := marta]> ∅)) 10 [(7, 3, -1)] [] [1].
Definition world : AccWorld := mkAccWorld tables [] false [].
Definition book : gmap Z (string * string) := <[7 := ("OLGA"%string, "TULIP"%string)]> (<[9 := ("MARTA"%string, "IRIS"%string)]> ∅).

Definition letters (s : string) : list Z := str_bytes s.

Definition typed : string := Eval vm_compute in CalculateShaPassHash "OLGA" "SECRET".
Definition row : LogonRow := mkLogonRow typed 7 0 "127.0.0.1" 3 "0" "0" "".
Definition login_db : LoginDB :=
  mkLoginDB (fun _ _ => false) (fun _ n => if String.eqb n "OLGA" then Some row else None) (fun _ _ => None) stored_session (fun _ _ => None)
    (fun _ n => if String.eqb n "OLGA" then Some 7 else None) (fun _ _ _ => None) (fun _ => []).
Definition login_env : AuthEnv := mkAuthEnv login_db (fun n => 1700000000 + Z.of_nat n) 0 0 false "10.0.0.7" (mkAddr 0 0).
Definition challenge : list Z := challenge_packet AUTH_LOGON_CHALLENGE 12340 [110; 105; 87; 0] [83; 85; 110; 101] (str_bytes "OLGA").
Definition arrived (draws : nat) : AuthServer :=
  mkAuthServer AuthSocket_new (mkRealmSocket challenge [] false) ∅ 0 (RealmList_new 0) [] 0 draws.
Definition run : AuthServer * outcome bool := Eval vm_compute in _HandleLogonChallenge login_env (arrived 0).
Definition challenged_world : AuthServer := Eval vm_compute in run.1.
Definition answer : list Z := Eval vm_compute in default [] (sk_sent (sock run.1) !! 0%nat).
Lemma scene_run : _HandleLogonChallenge login_env (arrived 0) = (challenged_world, Ok true).
Proof. vm_compute. reflexivity. Qed.

(** The client's numbers, evaluated. *)
Definition expo : Z := 0x11223344.
Definition client : Client := client_reads "OLGA" "SECRET" expo answer.
Definition B : list Z := Eval vm_compute in cl_B client.
Definition x : Z := Eval vm_compute in cl_x client.
Definition u : Z := Eval vm_compute in le_combine (SHA1 (A_bytes ++ B)).
Definition S_bytes : list Z := Eval vm_compute in le_split 32 (pow ((le_combine B - 3 * pow 7 x) mod srp_N_const) (expo + u * x)).
Definition K_bytes : list Z := Eval vm_compute in interleave (SHA1 (evens S_bytes)) (SHA1 (evens (drop 1 S_bytes))).
Definition M1_bytes : list Z :=
  Eval vm_compute in SHA1 (c_group ++ SHA1 (str_bytes "OLGA") ++ cl_s client ++ A_bytes ++ B ++ K_bytes).

Lemma client_A : c_A client = A_bytes.
Proof. unfold c_A. change (cl_a client) with a. rewrite pow_spec by done. vm_compute. done. Qed.
Lemma client_B : cl_B client = B.
Proof. vm_compute. done. Qed.
Lemma client_x : cl_x client = x.
Proof. vm_compute. done. Qed.
Lemma client_u : c_u client = u.
Proof. unfold c_u. rewrite client_A, client_B. vm_compute. done. Qed.
Lemma client_S : c_S client = S_bytes.
Proof.
  unfold c_S. rewrite client_u, client_B, client_x. change (cl_a client) with expo. rewrite !pow_spec by done. vm_compute. done.
Qed.
Lemma client_K : c_K client = K_bytes.
Proof. unfold c_K. rewrite client_S. vm_compute. done. Qed.
Lemma client_M1 : c_M1 client = M1_bytes.
Proof. unfold c_M1. rewrite client_A, client_B, client_K. vm_compute. done. Qed.

Lemma client_no_short : no_short client.
Proof. unfold no_short. rewrite client_A, client_B, client_S, client_K, client_M1. by vm_compute. Qed.

(** ** The password is set, then typed *)
Definition changed_world : AccWorld :=
  Eval vm_compute in (then_worker same_text true empty_row (ChangePassword 7 (txt (letters "Secret"))) world).1.
Lemma scene_changed :
  then_worker same_text true empty_row (ChangePassword 7 (txt (letters "Secret"))) world = (changed_world, Ok AOR_OK).
Proof. vm_compute. reflexivity. Qed.

Lemma changed_password_logs_in_witness :
  let sw2 := feed (proof_packet client crc 0 0 ++ []) challenged_world in
  exists sw3, _HandleLogonProof login_env sw2 = (sw3, Ok true) /\ logged_in login_env client [] sw2 sw3.
Proof.
  destruct (changed_password_logs_in same_text true empty_row 7 olga (letters "Secret") world) as (w' & a' & Hrun & Hid & Hall);
    [reflexivity|reflexivity| |reflexivity|repeat constructor; by vm_compute|vm_compute; discriminate|].
  { exists (letters "Olga"). split; [repeat constructor; by vm_compute|]. split; [vm_compute; discriminate|reflexivity]. }
  rewrite scene_changed in Hrun. injection Hrun as <-.
  assert (a' = repassworded "SECRET" olga) as -> by (vm_compute in Hid; vm_compute; congruence).
  apply (Hall login_env answer (arrived 0) challenged_world true expo crc 0 0 []);
    [reflexivity|reflexivity|vm_compute; reflexivity|exact scene_run|split; vm_compute; reflexivity|reflexivity|done
    |vm_compute; reflexivity|exact client_no_short|discriminate|reflexivity|reflexivity].
Defined.

Lemma passwords_refined_witness :
  exists w', serve_all same_text true empty_row (fun _ => [3]) (fun _ => None)
      [RCheck 7 (letters "tulip"); RPassword 7 (letters "secret"); RCheck 7 (letters "tulip"); RUsername 9 (letters "olga") (letters "x");
       RDelete 9; RCheck 9 (letters "iris"); RUsername 7 (letters "much too long a name") []] world
    = (w', Ok [ARight true; AResult AOR_OK; ARight false; AResult AOR_OK; AResult AOR_OK; ARight false; AResult AOR_NAME_TOO_LONG]).
Proof.
  destruct (passwords_refined same_text true empty_row (fun _ => [3]) (fun _ => None)
      [RCheck 7 (letters "tulip"); RPassword 7 (letters "secret"); RCheck 7 (letters "tulip"); RUsername 9 (letters "olga") (letters "x");
       RDelete 9; RCheck 9 (letters "iris"); RUsername 7 (letters "much too long a name") []] world book) as (w' & Hrun & _).
  - repeat (constructor; [cbn [request_ok]; try split; try (repeat constructor; done); try (vm_compute; discriminate)|]); constructor.
  - reflexivity.
  - intros id. unfold world, book, tables. cbn [acc_db account]. 
    destruct (decide (id = 7)) as [->|H7]; [rewrite !lookup_insert_eq|rewrite !lookup_insert_ne by done].
    { split; [done|]. split; [done|]. exists (letters "Olga"). split; [repeat constructor; by vm_compute|]. split; [vm_compute; discriminate|reflexivity]. }
    destruct (decide (id = 9)) as [->|H9]; [rewrite !lookup_insert_eq|rewrite !lookup_insert_ne by done].
    { split; [done|]. split; [done|]. exists (letters "Marta"). split; [repeat constructor; by vm_compute|]. split; [vm_compute; discriminate|reflexivity]. }
    by rewrite !lookup_empty.
  - exists w'. rewrite Hrun. do 2 f_equal.
Defined.

(** Creating an account: the statement is queued, and stops the database's
    thread, whose connection has not prepared it. *)
Lemma create_account_crashes collates unique new_row name pw w w' :
  settled w -> CreateAccount collates name pw w = (w', Ok AOR_OK) -> (worker collates unique new_row w').2 = Throw AssertFailure.
Proof.
  intros Hs Hrun. enough (wp (CreateAccount collates name pw) (fun r w' => r = AOR_OK -> exists n h q, acc_queue w' = [LOGIN_INS_ACCOUNT n h] :: q) (fun _ => True) w) as Hwp.
  { unfold wp in Hwp. rewrite Hrun in Hwp. destruct (Hwp eq_refl) as (n & h & q & Hq). unfold worker, bindS, getS. by rewrite Hq. }
  unfold settled in Hs. unfold CreateAccount. destruct (utf8length name) as [len name']. case_if; [by wp_steps|].
  wp_step. apply wpS_lift; [|done]. intros [? n] _. wp_step. apply wpS_lift; [|done]. intros [? p] _.
  unfold GetId, query_db, Execute. wp_steps; [done|]. intros _. cbn [acc_queue set_queue]. rewrite Hs. by repeat eexists.
Qed.
