(* ===== verification/Commands.v ===== *)
(** * Chat commands

    [shade/Chat/Chat.cpp]: how a line of chat or of the console becomes a call
    of a command's handler.  The handlers are a parameter: what they do is in
    the components they belong to. *)
From Stdlib Require Import Ascii String ZArith Lia.
From stdpp Require Import base list strings.
From S2P Require Import Prelude ByteBuffer Util World StateM.

Open Scope Z_scope.

(** ** The commands *)
Module Handler.
Inductive t :=
  | HandleAccountAddonCommand | HandleAccountCreateCommand | HandleAccountDeleteCommand | HandleAccountLockCommand
  | HandleAccountOnlineListCommand | HandleAccountPasswordCommand | HandleAccountCommand
  | HandleAntiSpamInsertCommand | HandleAntiSpamReload | HandleBanAccountCommand | HandleBanCharacterCommand
  | HandleBanAccountByCharCommand | HandleBanIPCommand | HandleBanInfoAccountCommand | HandleBanInfoCharacterCommand
  | HandleBanInfoIPCommand | HandleBanListAccountCommand | HandleBanListCharacterCommand | HandleBanListIPCommand
  | HandleChannelSetOwnership | HandleGMChatCommand | HandleToggleGmVisible | HandleGMCommand
  | HandleServerShutDownCancelCommand | HandleServerShutDownCommand | HandleServerInfoCommand
  | HandleUnBanAccountCommand | HandleUnBanCharacterCommand | HandleUnBanAccountByCharCommand | HandleUnBanIPCommand
  | HandleGMTicketResponseAppendCommand | HandleGMTicketResponseAppendLnCommand | HandleGMTicketAssignToCommand
  | HandleGMTicketCloseByIdCommand | HandleGMTicketListClosedCommand | HandleGMTicketCommentCommand
  | HandleGMTicketCompleteCommand | HandleGMTicketDeleteByIdCommand | HandleGMTicketEscalateCommand
  | HandleGMTicketListEscalatedCommand | HandleGMTicketListCommand | HandleGMTicketListOnlineCommand
  | HandleGMTicketResetCommand | HandleToggleGMTicketSystem | HandleGMTicketUnAssignCommand
  | HandleGMTicketGetByIdCommand | HandleGMTicketGetByNameCommand | HandleAnnounceCommand | HandleHaltServerCommand
  | HandleLoginCommand | HandleKickCommand | HandleMuteCommand | HandleUnmuteCommand | HandleWhispersCommand.
End Handler.

#[export] Instance Handler_eq_dec : EqDecision Handler.t.
Proof. solve_decision. Defined.

Inductive ChatCommand := mkCommand {
  Name : string;
  SecurityLevel : Z;
  AllowConsole : bool;
  CmdHandler : option Handler.t;
  Help : string;
  ChildCommands : option (list ChatCommand)
}.

Definition accountCommandTable : list ChatCommand :=
  [
    mkCommand "addon" SEC_CONSOLE true (Some Handler.HandleAccountAddonCommand) "" None;
    mkCommand "create" SEC_CONSOLE true (Some Handler.HandleAccountCreateCommand) "" None;
    mkCommand "delete" SEC_CONSOLE true (Some Handler.HandleAccountDeleteCommand) "" None;
    mkCommand "lock" SEC_CONSOLE true (Some Handler.HandleAccountLockCommand) "" None;
    mkCommand "onlinelist" SEC_CONSOLE true (Some Handler.HandleAccountOnlineListCommand) "" None;
    mkCommand "password" SEC_CONSOLE true (Some Handler.HandleAccountPasswordCommand) "" None;
    mkCommand "" SEC_PLAYER false (Some Handler.HandleAccountCommand) "" None
  ].
Definition antispamCommandTable : list ChatCommand :=
  [
    mkCommand "insert" SEC_ADMINISTRATOR true (Some Handler.HandleAntiSpamInsertCommand) "" None;
    mkCommand "reload" SEC_ADMINISTRATOR true (Some Handler.HandleAntiSpamReload) "" None
  ].
Definition banCommandTable : list ChatCommand :=
  [
    mkCommand "account" SEC_ADMINISTRATOR true (Some Handler.HandleBanAccountCommand) "" None;
    mkCommand "character" SEC_ADMINISTRATOR true (Some Handler.HandleBanCharacterCommand) "" None;
    mkCommand "playeraccount" SEC_ADMINISTRATOR true (Some Handler.HandleBanAccountByCharCommand) "" None;
    mkCommand "ip" SEC_ADMINISTRATOR true (Some Handler.HandleBanIPCommand) "" None
  ].
Definition baninfoCommandTable : list ChatCommand :=
  [
    mkCommand "account" SEC_ADMINISTRATOR true (Some Handler.HandleBanInfoAccountCommand) "" None;
    mkCommand "character" SEC_ADMINISTRATOR true (Some Handler.HandleBanInfoCharacterCommand) "" None;
    mkCommand "ip" SEC_ADMINISTRATOR true (Some Handler.HandleBanInfoIPCommand) "" None
  ].
Definition banlistCommandTable : list ChatCommand :=
  [
    mkCommand "account" SEC_ADMINISTRATOR true (Some Handler.HandleBanListAccountCommand) "" None;
    mkCommand "character" SEC_ADMINISTRATOR true (Some Handler.HandleBanListCharacterCommand) "" None;
    mkCommand "ip" SEC_ADMINISTRATOR true (Some Handler.HandleBanListIPCommand) "" None
  ].
Definition channelSetCommandTable : list ChatCommand :=
  [
    mkCommand "ownership" SEC_ADMINISTRATOR false (Some Handler.HandleChannelSetOwnership) "" None
  ].
Definition channelCommandTable : list ChatCommand :=
  [
    mkCommand "set" SEC_ADMINISTRATOR true None "" (Some channelSetCommandTable)
  ].
Definition gmCommandTable : list ChatCommand :=
  [
    mkCommand "chat" SEC_MODERATOR true (Some Handler.HandleGMChatCommand) "" None;
    mkCommand "visible" SEC_MODERATOR true (Some Handler.HandleToggleGmVisible) "" None;
    mkCommand "" SEC_MODERATOR false (Some Handler.HandleGMCommand) "" None
  ].
Definition serverShutdownCommandTable : list ChatCommand :=
  [
    mkCommand "cancel" SEC_ADMINISTRATOR true (Some Handler.HandleServerShutDownCancelCommand) "" None;
    mkCommand "" SEC_ADMINISTRATOR true (Some Handler.HandleServerShutDownCommand) "" None
  ].
Definition serverCommandTable : list ChatCommand :=
  [
    mkCommand "info" SEC_PLAYER true (Some Handler.HandleServerInfoCommand) "" None;
    mkCommand "shutdown" SEC_ADMINISTRATOR true None "" (Some serverShutdownCommandTable)
  ].
Definition unbanCommandTable : list ChatCommand :=
  [
    mkCommand "account" SEC_ADMINISTRATOR true (Some Handler.HandleUnBanAccountCommand) "" None;
    mkCommand "character" SEC_ADMINISTRATOR true (Some Handler.HandleUnBanCharacterCommand) "" None;
    mkCommand "playeraccount" SEC_ADMINISTRATOR true (Some Handler.HandleUnBanAccountByCharCommand) "" None;
    mkCommand "ip" SEC_ADMINISTRATOR true (Some Handler.HandleUnBanIPCommand) "" None
  ].
Definition ticketResponseCommandTable : list ChatCommand :=
  [
    mkCommand "append" SEC_MODERATOR true (Some Handler.HandleGMTicketResponseAppendCommand) "" None;
    mkCommand "appendln" SEC_MODERATOR true (Some Handler.HandleGMTicketResponseAppendLnCommand) "" None
  ].
Definition ticketCommandTable : list ChatCommand :=
  [
    mkCommand "assign" SEC_GAMEMASTER true (Some Handler.HandleGMTicketAssignToCommand) "" None;
    mkCommand "close" SEC_MODERATOR true (Some Handler.HandleGMTicketCloseByIdCommand) "" None;
    mkCommand "closedlist" SEC_MODERATOR true (Some Handler.HandleGMTicketListClosedCommand) "" None;
    mkCommand "comment" SEC_MODERATOR true (Some Handler.HandleGMTicketCommentCommand) "" None;
    mkCommand "complete" SEC_MODERATOR true (Some Handler.HandleGMTicketCompleteCommand) "" None;
    mkCommand "delete" SEC_ADMINISTRATOR true (Some Handler.HandleGMTicketDeleteByIdCommand) "" None;
    mkCommand "escalate" SEC_MODERATOR true (Some Handler.HandleGMTicketEscalateCommand) "" None;
    mkCommand "escalatedlist" SEC_GAMEMASTER true (Some Handler.HandleGMTicketListEscalatedCommand) "" None;
    mkCommand "list" SEC_MODERATOR true (Some Handler.HandleGMTicketListCommand) "" None;
    mkCommand "onlinelist" SEC_MODERATOR true (Some Handler.HandleGMTicketListOnlineCommand) "" None;
    mkCommand "reset" SEC_ADMINISTRATOR true (Some Handler.HandleGMTicketResetCommand) "" None;
    mkCommand "togglesystem" SEC_ADMINISTRATOR true (Some Handler.HandleToggleGMTicketSystem) "" None;
    mkCommand "unassign" SEC_GAMEMASTER true (Some Handler.HandleGMTicketUnAssignCommand) "" None;
    mkCommand "viewid" SEC_MODERATOR true (Some Handler.HandleGMTicketGetByIdCommand) "" None;
    mkCommand "viewname" SEC_MODERATOR true (Some Handler.HandleGMTicketGetByNameCommand) "" None;
    mkCommand "response" SEC_MODERATOR true None "" (Some ticketResponseCommandTable)
  ].
Definition commandTable : list ChatCommand :=
  [
    mkCommand "account" SEC_MODERATOR true None "" (Some accountCommandTable);
    mkCommand "antispam" SEC_MODERATOR true None "" (Some antispamCommandTable);
    mkCommand "ban" SEC_ADMINISTRATOR true None "" (Some banCommandTable);
    mkCommand "unban" SEC_ADMINISTRATOR true None "" (Some unbanCommandTable);
    mkCommand "baninfo" SEC_ADMINISTRATOR false None "" (Some baninfoCommandTable);
    mkCommand "banlist" SEC_ADMINISTRATOR true None "" (Some banlistCommandTable);
    mkCommand "channel" SEC_ADMINISTRATOR true None "" (Some channelCommandTable);
    mkCommand "gm" SEC_MODERATOR false None "" (Some gmCommandTable);
    mkCommand "server" SEC_ADMINISTRATOR true None "" (Some serverCommandTable);
    mkCommand "ticket" SEC_MODERATOR false None "" (Some ticketCommandTable);
    mkCommand "announce" SEC_ADMINISTRATOR false (Some Handler.HandleAnnounceCommand) "" None;
    mkCommand "halt" SEC_ADMINISTRATOR false (Some Handler.HandleHaltServerCommand) "" None;
    mkCommand "login" SEC_ADMINISTRATOR false (Some Handler.HandleLoginCommand) "" None;
    mkCommand "kick" SEC_MODERATOR true (Some Handler.HandleKickCommand) "" None;
    mkCommand "mute" SEC_MODERATOR true (Some Handler.HandleMuteCommand) "" None;
    mkCommand "unmute" SEC_MODERATOR true (Some Handler.HandleUnmuteCommand) "" None;
    mkCommand "whispers" SEC_MODERATOR false (Some Handler.HandleWhispersCommand) "" None
  ].

(** What is told to whoever typed the line: a text of the locale, or a text. *)
Inductive CLANG := LANG_NO_CMD | LANG_NO_SUBCMD | LANG_CMD_SYNTAX | LANG_SUBCMDS_LIST | LANG_AVIABLE_CMD | LANG_WRONG_LINK_TYPE.
Inductive CText := TLang (l : CLANG) (args : list string) | TText (s : string).

(** What the dispatcher does to the rest of the server. *)
Class ChatIO (S : Type) := {
  SendSysMessage : CText -> S -> S;
  io_set_sent : bool -> S -> S;
  HasSentErrorMessage : S -> bool
}.

(** Who typed the line: a session, whose player may be missing, or the console. *)
Record CmdIssuer := mkCmdIssuer { ci_security : Z; ci_player : bool }.

(** ** Words *)
Fixpoint command_word (text : string) : string * string :=
  match text with
  | EmptyString => (EmptyString, EmptyString)
  | String c t => if Ascii.eqb c " " then (EmptyString, text) else let '(w, r) := command_word t in (String c w, r)
  end.

(** The first word, and the text after it and the spaces that follow. *)
Definition split_command (text : string) : string * string :=
  let '(cmd, rest) := command_word text in (cmd, strtok_skip " " rest).

(** [tolower] of the C locale.  The source passes it a plain [char], which is
    negative from 128 on; the C standard leaves that undefined, the library the
    server is built with returns it unchanged, and so does this. *)
Definition tolower (c : ascii) : Z := let n := Z.of_N (N_of_ascii c) in if (65 <=? n) && (n <=? 90) then n + 32 else n.

Fixpoint abbr_loop (name part : string) : bool :=
  match part with
  | EmptyString => true
  | String p part' =>
      match name with
      | EmptyString => false
      | String n name' => if negb (tolower n =? tolower p) then false else abbr_loop name' part'
      end
  end.

Definition hasStringAbbr (name part : string) : bool :=
  match name with
  | EmptyString => true
  | _ => match part with EmptyString => false | _ => abbr_loop name part end
  end.

(** An entry gives way to one that bears the very word. *)
Definition gives_way (table : list ChatCommand) (c : ChatCommand) (cmd : string) : bool :=
  if (String.length cmd <? String.length (Name c))%nat
  then existsb (fun d => hasStringAbbr (Name d) cmd && String.eqb (Name d) cmd) table
  else false.

(** ** Filling in the data of the [command] table *)
Definition set_data (security : Z) (help : string) (c : ChatCommand) : ChatCommand :=
  mkCommand (Name c) security (AllowConsole c) (CmdHandler c) help (ChildCommands c).
Definition set_children (l : list ChatCommand) (c : ChatCommand) : ChatCommand :=
  mkCommand (Name c) (SecurityLevel c) (AllowConsole c) (CmdHandler c) (Help c) (Some l).

(** The loop over a table, given what is done to the entry of the word. *)
Fixpoint set_loop (entry : ChatCommand -> bool * ChatCommand) (cmd : string) (l : list ChatCommand) : bool * list ChatCommand :=
  match l with
  | [] => (false, [])
  | c :: l' =>
      if negb (String.eqb (Name c) cmd) then let '(ok, l'') := set_loop entry cmd l' in (ok, c :: l'')
      else let '(ok, c') := entry c in (ok, c' :: l')
  end.

Definition set_table (entry : string -> ChatCommand -> bool * ChatCommand) (text : string) (table : list ChatCommand) : bool * list ChatCommand :=
  let '(cmd, rest) := split_command text in set_loop (entry rest) cmd table.

Fixpoint set_entry (security : Z) (help : string) (rest : string) (c : ChatCommand) : bool * ChatCommand :=
  match c with
  | mkCommand _ _ _ _ _ (Some children) =>
      let '(ok, children') := set_table (set_entry security help) rest children in
      if ok then (true, set_children children' c)
      else if negb (String.eqb rest EmptyString) then (false, set_children children' c)
      else (true, set_data security help (set_children children' c))
  | mkCommand _ _ _ _ _ None =>
      if negb (String.eqb rest EmptyString) then (false, c) else (true, set_data security help c)
  end.

Definition SetDataForCommandInTable (table : list ChatCommand) (text : string) (security : Z) (help : string) : bool * list ChatCommand :=
  set_table (set_entry security help) text table.

(** [getCommandTable]: the built-in table with the rows of the database. *)
Definition getCommandTable (rows : list (string * Z * string)) : list ChatCommand :=
  foldl (fun t '(name, security, help) => (SetDataForCommandInTable t (c_str name) (u8 security) help).2) commandTable rows.

(** ** Dispatch *)
Section Chat.
  Context {S : Type} `{ChatIO S}.
  Variable session : option CmdIssuer.
  Variable call : Handler.t -> string -> ST S bool.
  (** What [strtok] gives where the help goes on with a text it did not start. *)
  Variable strtok_next : nat -> outcome (option string).

Definition sys (t : CText) : ST S unit := modS (SendSysMessage t).
Definition SetSentErrorMessage (b : bool) : ST S unit := modS (io_set_sent b).

Definition isAvailable (c : ChatCommand) : bool :=
  match session with
  | Some i => SecurityLevel c <=? ci_security i
  | None => AllowConsole c
  end.

Definition newline : string := String (ascii_of_nat 10) EmptyString.
Definition carriage : string := String (ascii_of_nat 13) EmptyString.

(** [ShowHelpForSubCommands]; [top]: whether the table is the whole one. *)
Definition help_line (c : ChatCommand) : string :=
  (match session with Some _ => newline +:+ "    " | None => newline +:+ carriage +:+ "    " end)
  +:+ Name c +:+ match ChildCommands c with Some _ => " ..." | None => "" end.

Definition ShowHelpForSubCommands (top : bool) (table : list ChatCommand) (cmd subcmd : string) : ST S bool :=
  let shown := filter (fun c => isAvailable c && (String.eqb subcmd EmptyString || hasStringAbbr (Name c) subcmd) = true) table in
  let list := foldr (fun c acc => help_line c +:+ acc) EmptyString shown in
  if String.eqb list EmptyString then retS false
  else
    (if top then sys (TLang LANG_AVIABLE_CMD []) ;! sys (TText list) else sys (TLang LANG_SUBCMDS_LIST [cmd; list])) ;!
    retS true.

Definition show_help (c : ChatCommand) : ST S unit :=
  whenS (negb (String.eqb (Help c) EmptyString)) (sys (TText (Help c))).

(** The entry a help was asked for; [deeper]: the help on its subcommands. *)
Definition help_found (deeper : string -> ST S bool) (c : ChatCommand) (cmd : string) (subcmd : option string) : ST S bool :=
  let! done := match ChildCommands c, subcmd with
               | Some children, Some s => if String.eqb s EmptyString then retS false else deeper s
               | _, _ => retS false
               end in
  if done then retS true
  else
    show_help c ;!
    let! listed := match ChildCommands c with
                   | Some children => ShowHelpForSubCommands false children cmd (default EmptyString subcmd)
                   | None => retS false
                   end in
    if listed then retS true else retS (negb (String.eqb (Help c) EmptyString)).

(** The first entry that is asked for, if there is one. *)
Fixpoint help_loop (asked : ChatCommand -> bool) (found : ChatCommand -> ST S bool) (otherwise : ST S bool) (l : list ChatCommand) : ST S bool :=
  match l with
  | [] => otherwise
  | c :: l' => if isAvailable c && asked c then found c else help_loop asked found otherwise l'
  end.

Definition help_table (entry : ChatCommand -> ST S bool) (table : list ChatCommand) (cmd : string) : ST S bool :=
  if negb (String.eqb cmd EmptyString)
  then help_loop (fun c => hasStringAbbr (Name c) cmd) entry (ShowHelpForSubCommands false table "" cmd) table
  else help_loop (fun c => String.eqb (Name c) EmptyString) (fun c => help_found (fun _ => retS false) c "" None)
         (ShowHelpForSubCommands false table "" cmd) table.

Fixpoint help_entry (depth : nat) (c : ChatCommand) : ST S bool :=
  let! subcmd := liftS (strtok_next depth) in
  match c with
  | mkCommand _ _ _ _ _ (Some children) =>
      help_found (fun s => help_table (help_entry (Datatypes.S depth)) children s) c (Name c) subcmd
  | mkCommand _ _ _ _ _ None => help_found (fun _ => retS false) c (Name c) subcmd
  end.

Definition ShowHelpForCommand (table : list ChatCommand) (cmd : string) : ST S bool := help_table (help_entry 0) table cmd.

(** An entry that is run: the handler, and what is said when it fails. *)
Definition run_handler (c : ChatCommand) (h : Handler.t) (args : string) : ST S bool :=
  SetSentErrorMessage false ;!
  let! ok := call h args in
  if ok then
    (if negb (IsVIPorPlayer (SecurityLevel c))
     then match session with
          | Some i => if ci_player i then retS tt else liftS UB
          | None => retS tt
          end
     else retS tt) ;!
    retS true
  else
    let! sent := getS HasSentErrorMessage in
    whenS (negb sent) (if negb (String.eqb (Help c) EmptyString) then sys (TText (Help c)) else sys (TLang LANG_CMD_SYNTAX [])) ;!
    retS true.

(** The loop over a table: [entry] says whether the entry took the command. *)
Fixpoint execute_loop (entry : ChatCommand -> ST S bool) (table : list ChatCommand) (cmd : string) (l : list ChatCommand) : ST S bool :=
  match l with
  | [] => retS false
  | c :: l' =>
      if negb (hasStringAbbr (Name c) cmd) || gives_way table c cmd then execute_loop entry table cmd l'
      else
        let! taken := entry c in
        if taken then retS true else execute_loop entry table cmd l'
  end.

Definition execute_table (entry : string -> string -> ChatCommand -> ST S bool) (table : list ChatCommand) (text : string) : ST S bool :=
  let '(cmd, rest) := split_command text in execute_loop (entry text rest) table cmd table.

Fixpoint execute_entry (oldtext text : string) (c : ChatCommand) : ST S bool :=
  match c with
  | mkCommand _ _ _ _ _ (Some children) =>
      let! ok := execute_table execute_entry children text in
      whenS (negb ok)
        (sys (if negb (String.eqb text EmptyString) then TLang LANG_NO_SUBCMD [] else TLang LANG_CMD_SYNTAX []) ;!
         ShowHelpForCommand children text ;!
         retS tt) ;!
      retS true
  | mkCommand name _ _ handler _ None =>
      match handler with
      | Some h =>
          if negb (isAvailable c) then retS false
          else run_handler c h (if negb (String.eqb name EmptyString) then text else oldtext)
      | None => retS false
      end
  end.

Definition ExecuteCommandInTable (table : list ChatCommand) (text : string) : ST S bool := execute_table execute_entry table text.

Definition mark_at (n : nat) (m : ascii) (text : string) : bool :=
  match String.get n text with Some c => Ascii.eqb c m | None => false end.

Definition ParseCommands (table : list ChatCommand) (text : string) : ST S bool :=
  if match session with Some i => IsPlayerAccount (ci_security i) | None => false end then retS false
  else if match session with Some _ => negb (mark_at 0 "!" text) && negb (mark_at 0 "." text) | None => false end then retS false
  else if (String.length text <? 2)%nat then retS false
  else if (mark_at 0 "." text && mark_at 1 "." text) || (mark_at 0 "!" text && mark_at 1 "!" text) then retS false
  else
    let text := if mark_at 0 "!" text || mark_at 0 "." text then String.substring 1 (String.length text - 1) text else text in
    let! found := ExecuteCommandInTable table text in
    if negb found then
      if match session with Some i => IsPlayerAccount (ci_security i) | None => false end then retS false
      else sys (TLang LANG_NO_CMD []) ;! retS true
    else retS true.
End Chat.
