(* ===== verification/CommandFacts.v ===== *)
(** * Chat commands: what is typed, and what is run *)
From Stdlib Require Import Ascii String ZArith Lia.
From stdpp Require Import base list strings.
From S2P Require Import Prelude ByteBuffer Util World StateM Commands.

Open Scope Z_scope.

(** ** Induction over commands and their subcommands *)
Section CommandInd.
  Variable P : ChatCommand -> Prop.
  Hypothesis Hleaf : forall n l a h t, P (mkCommand n l a h t None).
  Hypothesis Hgroup : forall n l a h t cs, Forall P cs -> P (mkCommand n l a h t (Some cs)).

Fixpoint command_ind (c : ChatCommand) : P c :=
  match c with
  | mkCommand n l a h t None => Hleaf n l a h t
  | mkCommand n l a h t (Some cs) =>
      Hgroup n l a h t cs ((fix go (k : list ChatCommand) : Forall P k :=
        match k with [] => Forall_nil_2 P | d :: k' => Forall_cons_2 P d k' (command_ind d) (go k') end) cs)
  end.
End CommandInd.

(** All commands of a table, those of its subcommands included. *)
Fixpoint commands_of (c : ChatCommand) : list ChatCommand :=
  match c with
  | mkCommand _ _ _ _ _ None => [c]
  | mkCommand _ _ _ _ _ (Some cs) => c :: concat (commands_of <$> cs)
  end.
Definition all_commands (table : list ChatCommand) : list ChatCommand := concat (commands_of <$> table).

Lemma all_commands_in table c d : c ∈ table -> d ∈ commands_of c -> d ∈ all_commands table.
Proof.
  intros Hc Hd. unfold all_commands. apply list_elem_of_In, in_concat. exists (commands_of c).
  split; [|by apply list_elem_of_In]. apply list_elem_of_In, list_elem_of_fmap. by exists c.
Qed.

(** ** Rules *)
Section Rules.
  Context {S : Type} `{ChatIO S}.
  Variable session : option CmdIssuer.
  Variable strtok_next : nat -> outcome (option string).

(** Two handlers that agree wherever the session may use the command. *)
Section Agree.
  Variables call1 call2 : Handler.t -> string -> ST S bool.
  Variable may : Handler.t -> Prop.
  Hypothesis Hagree : forall h a s, may h -> call1 h a s = call2 h a s.

Definition offers (c : ChatCommand) : Prop := forall d h, d ∈ commands_of c -> isAvailable session d = true -> CmdHandler d = Some h -> may h.

Lemma bind_agree {A B} (m : ST S A) (k1 k2 : A -> ST S B) s : (forall a s', k1 a s' = k2 a s') -> bindS m k1 s = bindS m k2 s.
Proof. intros Hk. unfold bindS. destruct (m s) as [s' [a|e|]]; [apply Hk|done|done]. Qed.

Lemma bind_agree_l {A B} (m1 m2 : ST S A) (k : A -> ST S B) s : m1 s = m2 s -> bindS m1 k s = bindS m2 k s.
Proof. intros Hm. unfold bindS. by rewrite Hm. Qed.

Lemma run_agree c h args s : may h -> run_handler session call1 c h args s = run_handler session call2 c h args s.
Proof. intros Hm. unfold run_handler. apply bind_agree. intros [] s'. apply bind_agree_l. by apply Hagree. Qed.

Lemma loop_agree (e1 e2 : ChatCommand -> ST S bool) table cmd l s :
  Forall (fun c => forall s, e1 c s = e2 c s) l -> execute_loop e1 table cmd l s = execute_loop e2 table cmd l s.
Proof.
  intros Hl. revert s. induction Hl as [|c l Hc Hl IH]; intros s; cbn [execute_loop]; [done|]. case_match; [apply IH|].
  rewrite (bind_agree_l _ (e2 c)) by apply Hc. apply bind_agree. intros [] s'; [done|apply IH].
Qed.

Lemma entry_agree c : offers c -> forall oldtext text s,
  execute_entry session call1 strtok_next oldtext text c s = execute_entry session call2 strtok_next oldtext text c s.
Proof.
  induction c as [n l a h t|n l a h t cs IH] using command_ind; intros Ho oldtext text s; cbn [execute_entry].
  - destruct h as [h|]; [|done]. destruct (isAvailable _ _) eqn:E; [|done]. cbn [negb]. apply run_agree.
    eapply (Ho _ h); [|exact E|reflexivity]. cbn [commands_of]. left.
  - apply bind_agree_l. unfold execute_table. destruct (split_command text) as [cmd rest]. apply loop_agree.
    rewrite Forall_forall in IH |- *. intros c Hc s'. apply IH; [done|]. intros d h' Hd. apply Ho. cbn [commands_of]. right.
    by eapply all_commands_in.
Qed.

Lemma execute_agree table text s :
  (forall c, c ∈ table -> offers c) ->
  ExecuteCommandInTable session call1 strtok_next table text s = ExecuteCommandInTable session call2 strtok_next table text s.
Proof.
  intros Ho. unfold ExecuteCommandInTable, execute_table. destruct (split_command text) as [cmd rest]. apply loop_agree.
  apply Forall_forall. intros c Hc s'. by apply entry_agree, Ho.
Qed.
End Agree.

(** Whether this session's line may reach a handler at all. *)
Definition may_command (text : string) : bool :=
  match session with
  | Some i => negb (IsPlayerAccount (ci_security i)) && (mark_at 0 "!" text || mark_at 0 "." text)
  | None => true
  end.
Definition authorised (table : list ChatCommand) (text : string) (h : Handler.t) : bool :=
  may_command text
  && existsb (fun c => isAvailable session c && bool_decide (CmdHandler c = Some h)) (all_commands table).

Definition guarded (table : list ChatCommand) (text : string) (call : Handler.t -> string -> ST S bool) (h : Handler.t) (args : string) : ST S bool :=
  if authorised table text h then call h args else liftS UB.

(** C29. No line runs a command it has no right to: were every handler that the
    line may not reach replaced by a crash, nothing would change.  A line may
    reach the handlers of the commands available to its session, if it is the
    console's, or if the session is above a player's and the line begins with a
    mark. *)
Theorem commands_guarded call table text s :
  ParseCommands session call strtok_next table text s = ParseCommands session (guarded table text call) strtok_next table text s.
Proof.
  assert (may_command text = true -> forall text',
    ExecuteCommandInTable session call strtok_next table text' s = ExecuteCommandInTable session (guarded table text call) strtok_next table text' s) as Hex.
  { intros Hmay text'. apply (execute_agree _ _ (fun h => authorised table text h = true)).
    - intros h a s' Ha. unfold guarded. by rewrite Ha.
    - intros c Hc d h Hd Ha Hh. unfold authorised. rewrite Hmay. cbn [andb]. apply existsb_exists. exists d. split.
      + by eapply list_elem_of_In, all_commands_in.
      + rewrite Ha, Hh. by apply bool_decide_eq_true. }
  unfold ParseCommands. unfold may_command in Hex. destruct session as [i|].
  - destruct (IsPlayerAccount (ci_security i)); [done|]. cbn [negb andb] in Hex.
    destruct (mark_at 0 "!" text), (mark_at 0 "." text); cbn [negb andb orb] in *; try done;
      repeat (case_match; [done|]); apply bind_agree_l, Hex; done.
  - repeat (case_match; [done|]). apply bind_agree_l, Hex. done.
Qed.
End Rules.

(** ** Words *)
Fixpoint spaceless (s : string) : bool := match s with EmptyString => true | String c s' => negb (Ascii.eqb c " ") && spaceless s' end.
Definition starts_bare (s : string) : bool := match s with String c _ => negb (Ascii.eqb c " ") | EmptyString => true end.

Lemma skip_bare s : starts_bare (strtok_skip " " s) = true.
Proof. induction s as [|c s IH]; cbn [strtok_skip]; [done|]. case_match eqn:E; [done|]. cbn. by rewrite E. Qed.

Lemma bare_skip s : starts_bare s = true -> strtok_skip " " s = s.
Proof. destruct s as [|c s]; cbn; [done|]. destruct (Ascii.eqb c " "); done. Qed.

Lemma split_bare text cmd rest : split_command text = (cmd, rest) -> starts_bare rest = true.
Proof. unfold split_command. destruct (command_word text). intros [= <- <-]. apply skip_bare. Qed.

Lemma word_spaceless s : spaceless s = true -> command_word s = (s, EmptyString).
Proof. induction s as [|c s IH]; cbn; [done|]. intros [Hc%negb_true_iff Hs]%andb_prop. by rewrite Hc, IH. Qed.

Lemma split_spaceless s : spaceless s = true -> split_command s = (s, EmptyString).
Proof. intros Hs. unfold split_command. by rewrite word_spaceless. Qed.

Lemma split_word name args : spaceless name = true -> starts_bare args = true -> split_command (name +:+ String " " args) = (name, args).
Proof.
  intros Hn Ha. enough (command_word (name +:+ String " " args) = (name, String " " args)) as Hw.
  { unfold split_command. rewrite Hw. cbn [strtok_skip]. by rewrite bare_skip. }
  induction name as [|c s IH]; [done|]. rewrite string_app_cons. cbn [command_word spaceless] in *.
  apply andb_prop in Hn as [Hc%negb_true_iff Hs]. by rewrite Hc, IH.
Qed.

Lemma tolower_space c : tolower c = tolower " " -> c = " "%char.
Proof.
  intros Hc. apply (f_equal (fun z => z)) in Hc. revert Hc. unfold tolower. cbv zeta. pose proof (N_ascii_bounded c) as Hb.
  change (Z.of_N (N_of_ascii " ")) with 32. case_match; case_match; bool_props; intros Hc; try lia; try done.
  all: assert (N_of_ascii c = 32%N) as Hn by lia; rewrite <- (ascii_N_embedding c), Hn; done.
Qed.

Lemma abbr_spaceless name part : abbr_loop name part = true -> spaceless name = true -> spaceless part = true.
Proof.
  revert part. induction name as [|n name IH]; intros [|p part]; cbn [abbr_loop spaceless]; try done. case_match eqn:E; [done|].
  intros Ha [Hn Hs]%andb_prop. apply negb_false_iff, Z.eqb_eq in E. rewrite (IH part) by done. rewrite andb_true_r.
  apply negb_true_iff, Ascii.eqb_neq. intros ->. apply tolower_space in E. subst. done.
Qed.

Lemma abbr_refl s : abbr_loop s s = true.
Proof. induction s as [|c s IH]; cbn; [done|]. by rewrite Z.eqb_refl. Qed.
Lemma has_abbr_refl s : hasStringAbbr s s = true.
Proof. destruct s; [done|]. apply (abbr_refl (String _ _)). Qed.
Lemma abbr_length name part : abbr_loop name part = true -> (String.length part <= String.length name)%nat.
Proof.
  revert part. induction name as [|n name IH]; intros [|p part]; cbn [abbr_loop String.length]; try done; try lia.
  case_if; [done|]. intros Ha. specialize (IH _ Ha). lia.
Qed.

(** ** The dispatcher is defined *)
Definition runnable (session : option CmdIssuer) (c : ChatCommand) : bool :=
  match ChildCommands c, CmdHandler c with Some _, _ => true | None, Some _ => isAvailable session c | None, None => false end.

(** An entry that an abbreviation of another's name spells out must be there
    for everyone the other is there for. *)
Definition hides (d c : ChatCommand) : bool :=
  (String.length (Name d) <? String.length (Name c))%nat && hasStringAbbr (Name c) (Name d).
Definition open_as (d c : ChatCommand) : bool :=
  match ChildCommands d with
  | Some _ => true
  | None => (SecurityLevel d <=? SecurityLevel c) && (negb (AllowConsole c) || AllowConsole d)
  end.
Definition orderly_table (l : list ChatCommand) : bool :=
  forallb (fun c => spaceless (Name c) && match ChildCommands c, CmdHandler c with None, None => false | _, _ => true end
                    && forallb (fun d => negb (hides d c) || open_as d c) l) l.
Fixpoint orderly (c : ChatCommand) : bool :=
  match c with
  | mkCommand _ _ _ _ _ None => true
  | mkCommand _ _ _ _ _ (Some cs) => orderly_table cs && forallb orderly cs
  end.

Section Defined.
  Context {S : Type} `{ChatIO S}.
  Variable session : option CmdIssuer.
  Variable call : Handler.t -> string -> ST S bool.
  Variable strtok_next : nat -> outcome (option string).

(** [I] holds before and after, and [U] where the run is undefined. *)
  Variables I U : S -> Prop.
  Hypothesis Hsys : forall t s, I s -> I (SendSysMessage t s).
  Hypothesis Hsent : forall b s, I s -> I (io_set_sent b s).

Definition safe {A} (m : ST S A) : Prop :=
  forall s, I s -> match m s with (s', UB) => U s' | (s', _) => I s' end.

Lemma safe_ret {A} (a : A) : safe (retS a).
Proof. by intros s Hs. Qed.
Lemma safely_bound {A B} (m : ST S A) (k : A -> ST S B) : safe m -> (forall a, safe (k a)) -> safe (bindS m k).
Proof. intros Hm Hk s Hs. specialize (Hm s Hs). unfold bindS. destruct (m s) as [s' [a|e|]]; [by apply Hk|done|done]. Qed.
Lemma safe_sys t : safe (sys t).
Proof. intros s Hs. by apply Hsys. Qed.
Lemma safe_sent b : safe (SetSentErrorMessage b).
Proof. intros s Hs. by apply Hsent. Qed.
Lemma safe_get {A} (f : S -> A) : safe (getS f).
Proof. by intros s Hs. Qed.
Lemma safely_when b (m : ST S unit) : safe m -> safe (whenS b m).
Proof. intros Hm. destruct b; [exact Hm|apply safe_ret]. Qed.
Lemma safe_if {A} (b : bool) (m n : ST S A) : (b = true -> safe m) -> (b = false -> safe n) -> safe (if b then m else n).
Proof. destruct b; auto. Qed.

Ltac safe_step :=
  match goal with
  | |- safe (retS _) => apply safe_ret
  | |- safe (bindS _ _) => apply safely_bound; [|intros ?]
  | |- safe (getS _) => apply safe_get
  | |- safe (whenS _ _) => apply safely_when
  | |- safe (sys _) => apply safe_sys
  | |- safe (SetSentErrorMessage _) => apply safe_sent
  | |- safe (if _ then _ else _) => apply safe_if; intros ?
  | |- safe (match ?x with Some _ => _ | None => _ end) => destruct x
  end.
Ltac safe_steps := repeat safe_step.

Lemma safe_sub top table cmd subcmd : safe (ShowHelpForSubCommands session top table cmd subcmd).
Proof. unfold ShowHelpForSubCommands. safe_steps. Qed.

Lemma safe_found deeper c cmd subcmd : (forall s, safe (deeper s)) -> safe (help_found session deeper c cmd subcmd).
Proof. intros Hd. unfold help_found, show_help. safe_steps; try apply Hd; try apply safe_sub. Qed.

Lemma safe_loop asked found otherwise l :
  (forall c, c ∈ l -> isAvailable session c = true -> asked c = true -> safe (found c)) -> safe otherwise -> safe (help_loop session asked found otherwise l).
Proof.
  intros Hf Ho. induction l as [|c l IH]; cbn [help_loop]; [done|]. case_match eqn:E; [apply andb_prop in E as [? ?]; apply Hf; [left|done|done]|].
  apply IH. intros d Hd. apply Hf. by right.
Qed.

(** A run that leaves the loop without a command taken has found nothing to run. *)
Lemma run_handler_takes c h args s : (run_handler session call c h args s).2 <> Ok false.
Proof.
  unfold run_handler, bindS, SetSentErrorMessage, modS, getS. destruct (call h args _) as [s' [[]|e|]]; cbn; try done.
  - destruct session as [[sec []]|]; cbn; done.
  - destruct (HasSentErrorMessage s'); cbn [negb whenS]; [done|]. destruct (Help c); cbn; done.
Qed.

Lemma entry_false oldtext text c s :
  (execute_entry session call strtok_next oldtext text c s).2 = Ok false -> runnable session c = false.
Proof.
  destruct c as [n l a h t [cs|]]; cbn [execute_entry runnable ChildCommands CmdHandler].
  - unfold bindS at 1. destruct (execute_table _ _ _ s) as [s' [[]|e|]]; cbn [negb whenS]; try done.
    unfold bindS. destruct (sys _ _) as [s2 [[]|e|]]; cbn; try done. destruct (ShowHelpForCommand _ _ _ _ _) as [s3 [b|e|]]; cbn; done.
  - destruct h as [h|]; [|done]. destruct (isAvailable _ _); cbn [negb]; [|done]. by intros ?%run_handler_takes.
Qed.

Lemma loop_false oldtext text table cmd l s :
  (execute_loop (execute_entry session call strtok_next oldtext text) table cmd l s).2 = Ok false ->
  forall c, c ∈ l -> hasStringAbbr (Name c) cmd = true -> gives_way table c cmd = false -> runnable session c = false.
Proof.
  revert s. induction l as [|d l IH]; intros s Hr c Hc Ha Hg; [by apply elem_of_nil in Hc|]. cbn [execute_loop] in Hr.
  apply elem_of_cons in Hc as [->|Hc].
  - rewrite Ha, Hg in Hr. cbn [negb orb] in Hr. unfold bindS in Hr.
    pose proof (entry_false oldtext text d s) as He. destruct (execute_entry _ _ _ _ _ d s) as [s' [[]|e|]]; try done. by apply He.
  - destruct (negb _ || _); [by eapply IH|]. unfold bindS in Hr. destruct (execute_entry _ _ _ _ _ d s) as [s' [[]|e|]]; try done. by eapply IH.
Qed.

Lemma help_defined table text s :
  orderly_table table = true -> starts_bare text = true ->
  (ExecuteCommandInTable session call strtok_next table text s).2 = Ok false -> safe (ShowHelpForCommand session strtok_next table text).
Proof.
  intros Hor Hbare Hfalse. unfold ShowHelpForCommand, help_table. case_match eqn:E.
  2: { apply safe_loop; [|apply safe_sub]. intros c _ _ _. apply safe_found. intros s0. apply safe_ret. }
  apply safe_loop; [|apply safe_sub]. intros c Hc Hav Ha. exfalso. unfold ExecuteCommandInTable, execute_table in Hfalse.
  unfold orderly_table in Hor. rewrite forallb_forall in Hor. pose proof (Hor c ltac:(by apply list_elem_of_In)) as Hoc.
  apply andb_prop in Hoc as [[Hsp Hh]%andb_prop Hpairs].
  assert (runnable session c = true) as Hrun by (unfold runnable; destruct (ChildCommands c), (CmdHandler c); done).
  destruct (split_command text) as [cmd rest] eqn:Esp. pose proof (loop_false text rest table cmd table s Hfalse) as Hno.
  destruct (Name c) as [|n0 n'] eqn:En.
  { rewrite Hno in Hrun; [done|done|by rewrite En|]. unfold gives_way. rewrite En. by destruct cmd. }
  assert (cmd = text) as ->.
  { unfold hasStringAbbr in Ha. destruct text as [|t0 t']; [done|]. rewrite split_spaceless in Esp by by eapply abbr_spaceless. by injection Esp. }
  destruct (gives_way table c text) eqn:Eg; [|rewrite Hno in Hrun; [done|done|by rewrite En|done]].
  unfold gives_way in Eg. case_match eqn:El; [|done]. apply existsb_exists in Eg as (d & Hd & [Hda Hdn%String.eqb_eq]%andb_prop).
  apply list_elem_of_In in Hd. assert (runnable session d = true) as Hrd; [|rewrite Hno in Hrd; [done|done|done|]].
  2: { unfold gives_way. rewrite Hdn, Nat.ltb_irrefl. done. }
  rewrite forallb_forall in Hpairs. specialize (Hpairs d ltac:(by apply list_elem_of_In)). unfold hides in Hpairs.
  rewrite Hdn, El, En, Ha in Hpairs. cbn [andb negb orb] in Hpairs. unfold open_as in Hpairs. unfold runnable.
  destruct (ChildCommands d) eqn:Ecd; [done|]. pose proof (Hor d ltac:(by apply list_elem_of_In)) as Hod. rewrite Ecd in Hod.
  destruct (CmdHandler d); [|by rewrite andb_false_r in Hod]. apply andb_prop in Hpairs as [Hl Hcons]. unfold isAvailable in *.
  destruct session as [i|]; [bool_props; apply Z.leb_le; lia|]. rewrite Hav in Hcons. done.
Qed.

Hypothesis Hplayer : forall i, session = Some i -> ci_player i = true.

Lemma safely_run c h args : safe (call h args) -> safe (run_handler session call c h args).
Proof.
  intros Hc. unfold run_handler. safe_steps; try exact Hc. 
  rewrite (Hplayer _ eq_refl) in *. done.
Qed.

Lemma safe_execute_loop (e : ChatCommand -> ST S bool) table cmd l : Forall (fun c => safe (e c)) l -> safe (execute_loop e table cmd l).
Proof. induction 1 as [|c l Hc Hl IH]; cbn [execute_loop]; safe_steps; done. Qed.

Lemma safe_entry c :
  orderly c = true -> (forall d h a, d ∈ commands_of c -> isAvailable session d = true -> CmdHandler d = Some h -> safe (call h a)) ->
  forall oldtext text, starts_bare text = true -> safe (execute_entry session call strtok_next oldtext text c).
Proof.
  induction c as [n l a h t|n l a h t cs IH] using command_ind; intros Hor Hcall oldtext text Hb; cbn [execute_entry].
  - destruct h as [h|]; [|apply safe_ret]. case_match eqn:E; [apply safe_ret|]. apply negb_false_iff in E. apply safely_run. eapply Hcall; [|exact E|done]. left.
  - cbn [orderly] in Hor. apply andb_prop in Hor as [Ht Hcs].
    assert (safe (ExecuteCommandInTable session call strtok_next cs text)) as Hex.
    { unfold ExecuteCommandInTable, execute_table. destruct (split_command text) as [cmd rest] eqn:Esp. apply safe_execute_loop.
      rewrite forallb_forall in Hcs. rewrite Forall_forall in IH |- *. intros c Hc. apply IH; [done|by apply Hcs, list_elem_of_In| |by eapply split_bare].
      intros d h' a' Hd. apply Hcall. cbn [commands_of]. right. by eapply all_commands_in. }
    intros s Hs. specialize (Hex s Hs). pose proof (help_defined cs text s Ht Hb) as Hhelp. unfold bindS at 1.
    change (execute_table _ cs text s) with (ExecuteCommandInTable session call strtok_next cs text s).
    destruct (ExecuteCommandInTable _ _ _ cs text s) as [s' [[]|e|]]; cbn [snd negb whenS] in *; [done| |done|done].
    revert s' Hex. change (safe ((sys (if negb (String.eqb text "") then TLang LANG_NO_SUBCMD [] else TLang LANG_CMD_SYNTAX []) ;!
      ShowHelpForCommand session strtok_next cs text ;! retS tt) ;! retS true)). safe_steps. by apply Hhelp.
Qed.

Lemma parse_safe table text :
  forallb orderly table = true -> (forall h a, authorised session table text h = true -> safe (call h a)) ->
  safe (ParseCommands session call strtok_next table text).
Proof.
  intros Hor Hcall.
  assert (may_command session text = true -> forall text', safe (ExecuteCommandInTable session call strtok_next table text')) as Hex.
  { intros Hmay text'. unfold ExecuteCommandInTable, execute_table. destruct (split_command text') as [cmd rest] eqn:Esp. apply safe_execute_loop.
    apply Forall_forall. intros c Hc. apply safe_entry; [| |by eapply split_bare].
    - rewrite forallb_forall in Hor. by apply Hor, list_elem_of_In.
    - intros d h a Hd Ha Hh. apply Hcall. unfold authorised. rewrite Hmay. apply existsb_exists. exists d. split.
      + by eapply list_elem_of_In, all_commands_in.
      + rewrite Ha, Hh. by apply bool_decide_eq_true. }
  assert (forall m, safe m -> safe (let! found := m in if negb found then
      if match session with Some i => IsPlayerAccount (ci_security i) | None => false end then retS false
      else sys (TLang LANG_NO_CMD []) ;! retS true else retS true)) as Htail by (intros m Hm; safe_steps; done).
  unfold ParseCommands. unfold may_command in Hex. apply safe_if; [by intros _ s|]. intros Hp.
  apply safe_if; [by intros _ s|]. intros Hmark. repeat (apply safe_if; [by intros _ s|intros _]). apply Htail, Hex.
  destruct session as [i|]; [|done]. rewrite Hp. by destruct (mark_at 0 "!" text), (mark_at 0 "." text).
Qed.
End Defined.

(** A run that is never undefined. *)
Definition fine {S A} (m : ST S A) : Prop := forall s, (m s).2 <> UB.

Lemma fine_safe {S A} (m : ST S A) : fine m <-> safe (fun _ => True) (fun _ => False) m.
Proof.
  unfold fine, safe. split; intros Hm s.
  - intros _. specialize (Hm s). by destruct (m s) as [s' []].
  - specialize (Hm s I). by destruct (m s) as [s' []].
Qed.

(** C28. No line of any session or of the console, however it is spelt, is
    undefined in itself: with the built-in commands the dispatcher only ends in
    undefined behaviour where a handler does that the line may reach, if the
    session has its player; in particular the help is never asked to go on with
    what [strtok] left behind, which another command or a freed text may have
    been. *)
Theorem commands_defined {S} `{ChatIO S} session (call : Handler.t -> string -> ST S bool) strtok_next text :
  (forall i, session = Some i -> ci_player i = true) ->
  (forall h a, authorised session commandTable text h = true -> fine (call h a)) ->
  fine (ParseCommands session call strtok_next commandTable text).
Proof.
  intros Hplayer Hcall. apply fine_safe, parse_safe; [done|done|done|vm_compute; done|].
  intros h a Ha. by apply fine_safe, Hcall.
Qed.

(** ** What is typed is what is run *)
Definition same_word (a b : string) : bool := (String.length a =? String.length b)%nat && hasStringAbbr a b.
Definition marked (n : string) : bool := mark_at 0 "!" n || mark_at 0 "." n.

(** Names are words of their own, whatever the case, and the nameless command
    stands last. *)
Fixpoint tidy_names (l : list string) : bool :=
  match l with
  | [] => true
  | n :: l' => spaceless n && negb (marked n) && (if String.eqb n EmptyString then match l' with [] => true | _ => false end else true)
               && forallb (fun m => negb (same_word n m)) l' && tidy_names l'
  end.
Fixpoint tidy (c : ChatCommand) : bool :=
  match c with
  | mkCommand _ _ _ _ _ None => true
  | mkCommand _ _ _ _ _ (Some cs) => tidy_names (Name <$> cs) && forallb tidy cs
  end.
Definition tidy_table (l : list ChatCommand) : bool := tidy_names (Name <$> l) && forallb tidy l.

(** The command of a path of names, and how it is typed in full. *)
Definition named (n : string) (l : list ChatCommand) : option ChatCommand := find (fun c => String.eqb (Name c) n) l.
Fixpoint command_at (table : list ChatCommand) (path : list string) : option ChatCommand :=
  match path with
  | [] => None
  | n :: path' =>
      match named n table with
      | None => None
      | Some c => match path' with
                  | [] => Some c
                  | _ => match ChildCommands c with Some cs => command_at cs path' | None => None end
                  end
      end
  end.
Fixpoint typed (path : list string) (args : string) : string :=
  match path with
  | [] => args
  | n :: path' => match typed path' args with EmptyString => n | rest => n +:+ String " " rest end
  end.

Lemma tidy_spaceless n l : tidy_names l = true -> n ∈ l -> spaceless n = true /\ marked n = false.
Proof.
  induction l as [|m l IH]; intros Ht Hn; [by apply elem_of_nil in Hn|]. cbn [tidy_names] in Ht. bool_props.
  apply elem_of_cons in Hn as [->|Hn]; [done|by apply IH].
Qed.

Lemma named_in n l c : named n l = Some c -> c ∈ l /\ Name c = n.
Proof. intros [Hc Hn]%find_some. split; [by apply list_elem_of_In|by apply String.eqb_eq]. Qed.

Lemma split_typed n path args :
  spaceless n = true -> starts_bare (typed path args) = true -> split_command (typed (n :: path) args) = (n, typed path args).
Proof. intros Hn Hb. cbn [typed]. destruct (typed path args) eqn:E; [by apply split_spaceless|]. by apply split_word. Qed.

Lemma set_loop_names e cmd l : (forall c, Name (e c).2 = Name c) -> Name <$> (set_loop e cmd l).2 = Name <$> l.
Proof.
  intros He. induction l as [|c l IH]; cbn [set_loop]; [done|]. destruct (negb _).
  - destruct (set_loop e cmd l) as [ok l'']. cbn [snd fmap list_fmap] in *. by rewrite IH.
  - specialize (He c). destruct (e c) as [ok c']. cbn [snd fmap list_fmap] in *. by rewrite He.
Qed.
Lemma set_loop_tidy e cmd l : Forall (fun c => tidy c = true -> tidy (e c).2 = true) l -> forallb tidy l = true -> forallb tidy (set_loop e cmd l).2 = true.
Proof.
  induction 1 as [|c l Hc Hl IH]; cbn [set_loop]; [done|]. cbn [forallb]. intros [Htc Htl]%andb_prop. destruct (negb _).
  - destruct (set_loop e cmd l) as [ok l'']. cbn [snd forallb] in *. by rewrite Htc, IH.
  - specialize (Hc Htc). destruct (e c) as [ok c']. cbn [snd forallb] in *. by rewrite Hc, Htl.
Qed.

Lemma set_entry_name security help rest c : Name (set_entry security help rest c).2 = Name c.
Proof. destruct c as [n l a h t [cs|]]; cbn [set_entry]; repeat case_match; done. Qed.

Lemma set_entry_tidy security help c : forall rest, tidy c = true -> tidy (set_entry security help rest c).2 = true.
Proof.
  induction c as [n l a h t|n l a h t cs IH] using command_ind; intros rest Ht; cbn [set_entry]; [by destruct (negb _)|].
  cbn [tidy] in Ht. apply andb_prop in Ht as [Hn Hcs]. unfold set_table. destruct (split_command rest) as [cmd rest'].
  pose proof (set_loop_names (set_entry security help rest') cmd cs (fun c => set_entry_name _ _ _ c)) as Hnames.
  assert (forallb tidy (set_loop (set_entry security help rest') cmd cs).2 = true) as Ht'.
  { apply set_loop_tidy; [|done]. eapply Forall_impl; [exact IH|]. intros c Hc. apply Hc. }
  destruct (set_loop _ cmd cs) as [ok cs']. cbn [snd] in *.
  destruct ok; [|destruct (negb _)]; cbn [snd set_children set_data tidy ChildCommands Name SecurityLevel AllowConsole CmdHandler Help]; by rewrite Hnames, Hn, Ht'.
Qed.

Lemma table_tidy rows : tidy_table (getCommandTable rows) = true.
Proof.
  unfold getCommandTable. assert (tidy_table commandTable = true) as Ht by (vm_compute; done). revert Ht. generalize commandTable.
  induction rows as [|[[name security] help] rows IH]; intros table Ht; cbn [foldl]; [done|]. apply IH.
  unfold tidy_table in *. apply andb_prop in Ht as [Hn Hall]. unfold SetDataForCommandInTable, set_table.
  destruct (split_command (c_str name)) as [cmd rest]. rewrite set_loop_names by (intros c; apply set_entry_name). rewrite Hn.
  apply set_loop_tidy; [|done]. apply Forall_forall. intros c _. apply set_entry_tidy.
Qed.

Section Typed.
  Context {S : Type} `{ChatIO S}.
  Variable session : option CmdIssuer.
  Variable call : Handler.t -> string -> ST S bool.
  Variable strtok_next : nat -> outcome (option string).

(** A computation that does not say no. *)
Lemma taken_bind (m : ST S bool) (k : bool -> ST S bool) s :
  (m s).2 <> Ok false -> (forall s', k true s' = (s', Ok true)) -> bindS m k s = m s.
Proof. intros Hm Hk. unfold bindS. destruct (m s) as [s' [[]|e|]]; [by apply Hk|done|done|done]. Qed.

Lemma loop_exact (e : ChatCommand -> ST S bool) table n c l s :
  n <> EmptyString -> tidy_names (Name <$> l) = true -> (forall d, d ∈ l -> d ∈ table) -> named n l = Some c -> (e c s).2 <> Ok false ->
  execute_loop e table n l s = e c s.
Proof.
  intros Hn. induction l as [|d l IH]; intros Ht Hsub Hc Htaken; [done|]. cbn [execute_loop]. unfold named in Hc. cbn [find] in Hc.
  destruct (String.eqb_spec (Name d) n) as [Hd|Hd].
  - injection Hc as ->. rewrite Hd, has_abbr_refl. unfold gives_way. rewrite Hd, Nat.ltb_irrefl. cbn [negb orb].
    by apply taken_bind.
  - change (find _ l) with (named n l) in Hc. pose proof (named_in n l c Hc) as [Hin Hcn]. cbn [fmap list_fmap tidy_names] in Ht. bool_props.
    assert (negb (hasStringAbbr (Name d) n) || gives_way table d n = true) as ->.
    2: { apply IH; [done|intros ? ?; apply Hsub; by right|done|done]. }
    destruct (hasStringAbbr (Name d) n) eqn:Ea; [|done]. cbn [negb orb]. destruct (String.eqb_spec (Name d) EmptyString) as [He|He].
    { destruct l; [by apply elem_of_nil in Hin|]. done. }
    assert (String.length n <= String.length (Name d))%nat as Hle.
    { apply abbr_length. unfold hasStringAbbr in Ea. destruct (Name d), n; done. }
    match goal with Hf : forallb _ _ = true |- _ => rewrite forallb_forall in Hf; specialize (Hf n);
      assert (In n (Name <$> l)) as Hinn by (apply list_elem_of_In, list_elem_of_fmap; by exists c); specialize (Hf Hinn) end.
    bool_props. unfold gives_way. destruct (Nat.ltb_spec (String.length n) (String.length (Name d))) as [Hlt|Hge].
    + apply existsb_exists. exists c. split; [apply list_elem_of_In, Hsub; by right|]. by rewrite Hcn, has_abbr_refl, String.eqb_refl.
    + exfalso. match goal with Hs : same_word _ _ = false |- _ => unfold same_word in Hs; rewrite Ea in Hs end.
      rewrite (proj2 (Nat.eqb_eq _ _)) in * by lia. done.
Qed.

Lemma execute_typed h args path table c s :
  tidy_table table = true -> command_at table path = Some c -> CmdHandler c = Some h -> ChildCommands c = None -> isAvailable session c = true ->
  Forall (fun n => n <> EmptyString) path -> starts_bare args = true ->
  starts_bare (typed path args) = true
  /\ ExecuteCommandInTable session call strtok_next table (typed path args) s = run_handler session call c h args s.
Proof.
  intros Ht Hc Hh Hleaf Hav Hne Hargs. revert table Ht Hc. induction Hne as [|n path Hn Hne IH]; intros table Ht Hc; [done|].
  unfold tidy_table in Ht. apply andb_prop in Ht as [Htn Htt]. cbn [command_at] in Hc. destruct (named n table) as [g|] eqn:Eg; [|done].
  pose proof (named_in _ _ _ Eg) as [Hin Hgn]. destruct (tidy_spaceless n (Name <$> table) Htn) as [Hsp _].
  { apply list_elem_of_fmap. by exists g. }
  split.
  { cbn [typed]. destruct n as [|c0 n']; [done|]. cbn [spaceless] in Hsp. apply andb_prop in Hsp as [Hsp _].
    destruct (typed path args); cbn; by rewrite ?Hsp. }
  pose proof (run_handler_takes session call c h args s) as Htakes.
  destruct path as [|n2 path].
  - injection Hc as ->. unfold ExecuteCommandInTable, execute_table. rewrite split_typed by done. cbn [typed].
    assert (execute_entry session call strtok_next (typed [n] args) args c s = run_handler session call c h args s) as He.
    { destruct c as [cn l a ch t ccs]. cbn [ChildCommands CmdHandler Name] in *. subst. cbn [execute_entry]. rewrite Hav.
      cbn [negb]. by destruct (String.eqb_spec n EmptyString). }
    cbn [typed] in He. rewrite <- He in Htakes. rewrite <- He. by apply loop_exact.
  - destruct (ChildCommands g) as [cs|] eqn:Ecs; [|done].
    assert (tidy_table cs = true) as Hcs.
    { rewrite forallb_forall in Htt. specialize (Htt g (proj1 (list_elem_of_In _ _) Hin)). destruct g as [? ? ? ? ? gcs]. cbn in Ecs. subst. exact Htt. }
    destruct (IH cs Hcs Hc) as [Hbare Hex]. unfold ExecuteCommandInTable at 1, execute_table. rewrite split_typed by done.
    assert (execute_entry session call strtok_next (typed (n :: n2 :: path) args) (typed (n2 :: path) args) g s = run_handler session call c h args s) as He.
    { rewrite <- Hex. destruct g as [gn l a gh t gcs]. cbn [ChildCommands] in Ecs. subst gcs. cbn [execute_entry].
      apply taken_bind; [|done]. change (execute_table _ cs (typed (n2 :: path) args)) with (ExecuteCommandInTable session call strtok_next cs (typed (n2 :: path) args)).
      by rewrite Hex. }
    rewrite <- He. apply loop_exact; [done|done|done|done|]. by rewrite He.
Qed.
End Typed.

Lemma substring_all t : String.substring 0 (String.length t) t = t.
Proof. induction t as [|c t IH]; cbn; [done|]. by rewrite IH. Qed.

(** What is typed is what is run: with any rows in the table [command], a
    command typed in full behind a dot, by a session or console that may use it,
    runs the handler of that very entry with the rest of the line, whatever
    other commands abbreviate or extend its name. *)
Theorem typed_command {S} `{ChatIO S} session (call : Handler.t -> string -> ST S bool) strtok_next rows path c h args s :
  command_at (getCommandTable rows) path = Some c -> CmdHandler c = Some h -> ChildCommands c = None ->
  isAvailable session c = true -> (forall i, session = Some i -> IsPlayerAccount (ci_security i) = false) ->
  Forall (fun n => n <> EmptyString) path -> starts_bare args = true ->
  ParseCommands session call strtok_next (getCommandTable rows) (String "." (typed path args)) s = run_handler session call c h args s.
Proof.
  intros Hc Hh Hleaf Hav Hsec Hne Hargs. destruct (execute_typed session call strtok_next h args path _ c s (table_tidy rows) Hc) as [_ Hex]; [done..|].
  assert (exists c0 t, typed path args = String c0 t /\ Ascii.eqb c0 "." = false) as (c0 & t & Et & Hdot).
  { destruct Hne as [|n path Hn Hne]; [done|]. cbn [command_at] in Hc. destruct (named n _) as [g|] eqn:Eg; [|done].
    pose proof (table_tidy rows) as Ht. unfold tidy_table in Ht. apply andb_prop in Ht as [Ht _].
    destruct (tidy_spaceless n _ Ht) as [_ Hm]; [apply list_elem_of_fmap; exists g; by destruct (named_in _ _ _ Eg)|].
    destruct n as [|c0 n']; [done|]. unfold marked in Hm. apply orb_false_elim in Hm as [_ Hm]. exists c0. cbn [typed].
    destruct (typed path args); [by exists n'|]. eexists. split; [reflexivity|exact Hm]. }
  pose proof (run_handler_takes session call c h args s) as Htakes. rewrite <- Hex in Htakes. rewrite <- Hex. unfold ParseCommands.
  assert (mark_at 0 "!" (String "." (typed path args)) = false) as -> by done.
  assert (mark_at 0 "." (String "." (typed path args)) = true) as -> by done.
  assert (mark_at 1 "." (String "." (typed path args)) = false) as -> by by rewrite Et.
  assert ((String.length (String "." (typed path args)) <? 2)%nat = false) as -> by by rewrite Et.
  assert (String.substring 1 (String.length (String "." (typed path args)) - 1) (String "." (typed path args)) = typed path args) as ->.
  { cbn [String.length String.substring]. rewrite Nat.sub_succ, Nat.sub_0_r. apply substring_all. }
  cbn [negb andb orb]. destruct session as [i|]; [rewrite (Hsec i) by done|]; (apply taken_bind; [exact Htakes|done]).
Qed.
