(* ===== verification/CommandScene.v ===== *)
(** * Chat commands at work

    The dispatcher in front of the account commands, and worked examples. *)
From Stdlib Require Import Ascii String ZArith Lia.
From stdpp Require Import base gmap list strings.
From S2P Require Import Prelude ByteBuffer Util World BigNumber StateM OpenSSLRef Accounts Commands CommandFacts.

Open Scope Z_scope.

(** ** The accounts behind the dispatcher *)
Record ChatWorld := mkChatWorld { cw_accounts : AccWorld; cw_said : list CText }.

#[export] Instance chat_world_io : ChatIO ChatWorld := {
  SendSysMessage t w := mkChatWorld (cw_accounts w) (cw_said w ++ [t]);
  io_set_sent b w :=
    let a := cw_accounts w in mkChatWorld (mkAccWorld (acc_db a) (acc_queue a) b (acc_trace a)) (cw_said w);
  HasSentErrorMessage w := sentErrorMessage (cw_accounts w)
}.

Definition on_accounts {A} (m : AM A) : ST ChatWorld A :=
  fun w => let '(a, r) := m (cw_accounts w) in (mkChatWorld a (cw_said w), r).

Section Calls.
  Context `{OpenSSL}.
  Variable collates : string -> string -> bool.
  Variable env : AccEnv.
  (** The issuer as the account commands know it, and the other components'
      handlers. *)
  Variable issuer : option Issuer.
  Variable other : Handler.t -> string -> ST ChatWorld bool.

Definition chat_call (h : Handler.t) (args : string) : ST ChatWorld bool :=
  match h with
  | Handler.HandleAccountCommand => on_accounts (HandleAccountCommand issuer)
  | Handler.HandleAccountAddonCommand => on_accounts (HandleAccountAddonCommand env issuer args)
  | Handler.HandleAccountCreateCommand => on_accounts (HandleAccountCreateCommand collates args)
  | Handler.HandleAccountDeleteCommand => on_accounts (HandleAccountDeleteCommand collates env issuer args)
  | Handler.HandleAccountLockCommand => on_accounts (HandleAccountLockCommand issuer args)
  | Handler.HandleAccountOnlineListCommand => on_accounts (HandleAccountOnlineListCommand env)
  | Handler.HandleAccountPasswordCommand => on_accounts (HandleAccountPasswordCommand collates issuer args)
  | _ => other h args
  end.

(** Tables and queued statements are as they were. *)
Definition accounts_kept (w w' : ChatWorld) : Prop :=
  acc_db (cw_accounts w') = acc_db (cw_accounts w) /\ acc_queue (cw_accounts w') = acc_queue (cw_accounts w).

Definition changes_accounts (h : Handler.t) : bool :=
  match h with
  | Handler.HandleAccountAddonCommand | Handler.HandleAccountCreateCommand | Handler.HandleAccountDeleteCommand
  | Handler.HandleAccountLockCommand | Handler.HandleAccountOnlineListCommand | Handler.HandleAccountPasswordCommand => true
  | _ => false
  end.

Lemma account_commands_of_console i text h :
  ci_security i < SEC_CONSOLE -> authorised (Some i) commandTable text h = true -> changes_accounts h = false.
Proof.
  intros Hi Ha. unfold authorised in Ha. apply andb_prop in Ha as [_ (d & Hd & [Hav Hh%bool_decide_eq_true]%andb_prop)%existsb_exists].
  assert (forallb (fun d => match CmdHandler d with Some h => negb (changes_accounts h) || (SEC_CONSOLE <=? SecurityLevel d) | None => true end)
            (all_commands commandTable) = true) as Hall by (vm_compute; done).
  rewrite forallb_forall in Hall. specialize (Hall d Hd). rewrite Hh in Hall. unfold isAvailable in Hav. destruct (changes_accounts h); [|done].
  cbn [negb orb] in Hall. bool_props. lia.
Qed.

(** With the built-in commands no line of chat, of whatever session below
    the console's level, changes an account or puts a statement into the queue
    of the login database; the other components' handlers leaving them alone. *)
Theorem chat_leaves_accounts i strtok_next text w :
  ci_security i < SEC_CONSOLE -> ci_player i = true ->
  (forall h a w', accounts_kept w' (other h a w').1) ->
  accounts_kept w (ParseCommands (Some i) chat_call strtok_next commandTable text w).1.
Proof.
  intros Hi Hp Hother.
  assert (safe (accounts_kept w) (accounts_kept w) (ParseCommands (Some i) chat_call strtok_next commandTable text)) as Hsafe.
  { apply parse_safe; [done|done|by intros ? [= <-]|vm_compute; done|]. intros h a Ha s [Hd Hq].
    assert (accounts_kept w (chat_call h a s).1) as Hk; [|by destruct (chat_call h a s) as [s' []]].
    assert (accounts_kept s (chat_call h a s).1) as [? ?]; [|unfold accounts_kept; split; congruence].
    pose proof (account_commands_of_console i text h Hi Ha) as Hc. destruct h; try done; try apply Hother.
    unfold chat_call, on_accounts, HandleAccountCommand, with_session. by destruct issuer. }
  specialize (Hsafe w). destruct (ParseCommands _ _ _ _ _ w) as [w' []]; apply Hsafe; done.
Qed.
End Calls.

(** ** Worked examples *)
#[local] Existing Instance reference_openssl.

Definition no_accounts : ChatWorld := mkChatWorld (mkAccWorld (mkLoginTables ∅ 1 [] [] [1]) [] false []) [].
Definition plain_env : AccEnv := mkAccEnv 2 true 1 (fun _ => []) (fun _ => None) [].
Definition deaf (h : Handler.t) (args : string) : ST ChatWorld bool := retS true.
Definition scene_call (issuer : option Issuer) : Handler.t -> string -> ST ChatWorld bool := chat_call String.eqb plain_env issuer deaf.
Definition moderator : CmdIssuer := mkCmdIssuer SEC_MODERATOR true.
(** What [strtok] gives when its text is gone. *)
Definition dangling (n : nat) : outcome (option string) := UB.

Lemma typed_command_witness :
  ParseCommands None (scene_call None) dangling (getCommandTable [("account create"%string, 4, "usage"%string)])
    ".account create olga tulip" no_accounts
  = run_handler None (scene_call None)
      (mkCommand "create" 4 true (Some Handler.HandleAccountCreateCommand) "usage" None) Handler.HandleAccountCreateCommand "olga tulip" no_accounts.
Proof.
  exact (typed_command None (scene_call None) dangling [("account create"%string, 4, "usage"%string)] ["account"; "create"]%string
           (mkCommand "create" 4 true (Some Handler.HandleAccountCreateCommand) "usage" None) Handler.HandleAccountCreateCommand "olga tulip" no_accounts
           ltac:(vm_compute; reflexivity) eq_refl eq_refl eq_refl ltac:(discriminate) ltac:(repeat constructor; discriminate) eq_refl).
Defined.

(** The account is asked for. *)
Example create_typed :
  acc_queue (cw_accounts (ParseCommands None (scene_call None) dangling commandTable "account create olga tulip" no_accounts).1)
  = [[LOGIN_INS_ACCOUNT "OLGA" (CalculateShaPassHash "OLGA" "TULIP")]; [LOGIN_INS_REALM_CHARACTERS_INIT]].
Proof. vm_compute. reflexivity. Qed.

Lemma commands_defined_witness : fine (ParseCommands (Some moderator) (fun _ _ => retS true) dangling commandTable ".ticket resp" : ST ChatWorld bool).
Proof. apply (commands_defined (Some moderator)); [by intros i [= <-]|]. intros h a _ s. discriminate. Defined.

Lemma chat_leaves_accounts_witness :
  accounts_kept no_accounts
    (ParseCommands (Some moderator) (scene_call (Some (mkIssuer 7 SEC_MODERATOR))) dangling commandTable ".account lock on" no_accounts).1.
Proof.
  apply (chat_leaves_accounts String.eqb plain_env (Some (mkIssuer 7 SEC_MODERATOR)) deaf moderator dangling ".account lock on" no_accounts);
    [reflexivity|reflexivity|by intros h a w']. 
Defined.

(** A row can part a command from its longer sister; then the help reads on
    from wherever [strtok] was. *)
Example help_undefined :
  (ParseCommands (Some moderator) (scene_call None) dangling (getCommandTable [("ticket response append"%string, 3, "usage"%string)])
     ".ticket response append" no_accounts).2 = UB.
Proof. vm_compute. reflexivity. Qed.

(** The commands of players' level are there for nobody's use: a player's line
    never comes so far. *)
Lemma players_have_no_commands {S} `{ChatIO S} (call : Handler.t -> string -> ST S bool) strtok_next table text has_player s :
  ParseCommands (Some (mkCmdIssuer SEC_PLAYER has_player)) call strtok_next table text s = (s, Ok false).
Proof. done. Qed.

(** The console may use the account commands that ask for its session. *)
Example console_has_no_session :
  (ParseCommands None (scene_call None) dangling commandTable "account lock on" no_accounts).2 = UB
  /\ (ParseCommands None (scene_call None) dangling commandTable "account addon 2" no_accounts).2 = UB
  /\ (ParseCommands None (scene_call None) dangling commandTable "account password a b b" no_accounts).2 = UB.
Proof. vm_compute. done. Qed.

(** A word, its beginnings, and its case. *)
Example abbreviations :
  (ParseCommands None (scene_call None) dangling commandTable "AcC cReA olga tulip" no_accounts).1
  = (ParseCommands None (scene_call None) dangling commandTable "account create olga tulip" no_accounts).1.
Proof. vm_compute. reflexivity. Qed.
