(* ===== verification/Bans.v ===== *)
(** * Bans

    [BanAccount] and its companions of [shade/Proxy/Proxy.cpp], the commands of
    [Chat/Commands/Level4.cpp] that ban, unban and list, and what the login and
    the character database make of their statements.  Queries are answered by
    the tables as they stand; statements wait for the databases' threads. *)
From Stdlib Require Import Ascii String ZArith Lia.
From stdpp Require Import base gmap list sorting strings.
From S2P Require Import Prelude ByteBuffer Util Utf8 World StateM Accounts.

Open Scope Z_scope.

Definition MINUTE : Z := 60.
Definition HOUR : Z := MINUTE * 60.

(** ** Durations ([shared/Utilities/Util.cpp]) *)
Definition unit_secs (c : ascii) : option Z :=
  if Ascii.eqb c "d" then Some DAY else if Ascii.eqb c "h" then Some HOUR
  else if Ascii.eqb c "m" then Some MINUTE else if Ascii.eqb c "s" then Some 1 else None.

Fixpoint time_loop (s : string) (secs buffer : Z) : Z :=
  match s with
  | EmptyString => secs
  | String c s' =>
      if is_digit c then time_loop s' secs (u32 (u32 (buffer * 10) + Z.of_nat (nat_of_ascii c - 48)))
      else match unit_secs c with
           | None => 0
           | Some multiplier => time_loop s' (u32 (secs + u32 (buffer * multiplier))) 0
           end
  end.
Definition TimeStringToSecs (timestring : string) : Z := time_loop timestring 0 0.

Definition amount (n : Z) (short long : string) (shortText : bool) : string :=
  if n =? 0 then EmptyString else print_u64 n +:+ (if shortText then short else long).

(** The text without its last character, if that is a space. *)
Definition drop_space (s : string) : string :=
  match String.rev s with String c r => if Ascii.eqb c " " then String.rev r else s | EmptyString => s end.

Definition secsToTimeString (timeInSecs : Z) (shortText : bool) : string :=
  let secs := timeInSecs mod MINUTE in
  let minutes := timeInSecs mod HOUR / MINUTE in
  let hours := timeInSecs mod DAY / HOUR in
  let days := timeInSecs / DAY in
  let str := amount days "d" " day(s) " shortText +:+ amount hours "h" " hour(s) " shortText
    +:+ amount minutes "m" " minute(s) " shortText
    +:+ (if negb (secs =? 0) || ((days =? 0) && (hours =? 0) && (minutes =? 0))
         then print_u64 secs +:+ (if shortText then "s" else " second(s) ") else EmptyString) in
  if negb shortText then drop_space str else str.

(** ** The tables *)
Inductive BanMode := BAN_ACCOUNT | BAN_CHARACTER | BAN_IP.
Inductive BanReturn := BAN_SUCCESS | BAN_SYNTAX_ERROR | BAN_NOTFOUND | BAN_LONGER_EXISTS.

Record BanRow := mkBanRow { b_id : Z; bandate : Z; unbandate : Z; bannedby : string; banreason : string; b_active : bool }.
Record IpBanRow := mkIpBanRow { i_ip : string; i_bandate : Z; i_unbandate : Z; i_bannedby : string; i_banreason : string }.

Record BanTables := mkBanTables { account_banned : list BanRow; ip_banned : list IpBanRow; character_banned : list BanRow }.

Inductive BanStmt :=
| LOGIN_INS_IP_BANNED (ip : string) (duration : Z) (author reason : string)
| LOGIN_DEL_IP_NOT_BANNED (ip : string)
| LOGIN_INS_ACCOUNT_BANNED (id duration : Z) (author reason : string)
| LOGIN_UPD_ACCOUNT_NOT_BANNED (id : Z)
| LOGIN_DEL_EXPIRED_IP_BANS
| LOGIN_UPD_EXPIRED_ACCOUNT_BANS
| CHAR_INS_CHARACTER_BAN (guid duration : Z) (author reason : string)
| CHAR_UPD_CHARACTER_BAN (guid : Z)
| CHAR_DEL_EXPIRED_BANS.

Definition set_account_banned (l : list BanRow) (t : BanTables) : BanTables := mkBanTables l (ip_banned t) (character_banned t).
Definition set_ip_banned (l : list IpBanRow) (t : BanTables) : BanTables := mkBanTables (account_banned t) l (character_banned t).
Definition set_character_banned (l : list BanRow) (t : BanTables) : BanTables := mkBanTables (account_banned t) (ip_banned t) l.

Definition lift_ban (r : BanRow) : BanRow := mkBanRow (b_id r) (bandate r) (unbandate r) (bannedby r) (banreason r) false.
Definition lift_when (p : BanRow -> bool) (l : list BanRow) : list BanRow := (fun r => if p r then lift_ban r else r) <$> l.
(** A ban with an end that has come. *)
Definition expired (now : Z) (from until : Z) : bool := negb (until =? from) && (until <=? now).

Inductive BLANG :=
| LANG_PLAYER_NOT_FOUND | LANG_BAN_YOUBANNED | LANG_BAN_YOUPERMBANNED | LANG_BAN_NOTFOUND | LANG_ACCOUNT_NOT_EXIST
| LANG_UNBAN_UNBANNED | LANG_UNBAN_ERROR | LANG_BANINFO_NOCHARACTER | LANG_CHAR_NOT_BANNED | LANG_BANINFO_BANHISTORY
| LANG_BANINFO_INFINITE | LANG_BANINFO_HISTORYENTRY | LANG_BANINFO_YES | LANG_BANINFO_NO | LANG_BANINFO_NOACCOUNTBAN
| LANG_BANINFO_NOIP | LANG_BANINFO_IPENTRY | LANG_BANINFO_NEVER | LANG_BANLIST_NOCHARACTER | LANG_BANLIST_MATCHINGCHARACTER
| LANG_BANLIST_CHARACTERS | LANG_BANLIST_CHARACTERS_HEADER | LANG_BANLIST_NOACCOUNT | LANG_BANLIST_MATCHINGACCOUNT
| LANG_BANLIST_ACCOUNTS | LANG_BANLIST_ACCOUNTS_HEADER | LANG_BANLIST_NOIP | LANG_BANLIST_MATCHINGIP | LANG_BANLIST_IPS
| LANG_BANLIST_IPS_HEADER.

(** A piece of a message: a text, a text of the locale, a point in time. *)
Inductive BArg := AText (s : string) | ALocale (l : BLANG) | ATime (t : Z).

Inductive BanEvent :=
| BSys (l : BLANG) (args : list BArg)
| BText (s : string)
| BLine (name : string) (from : Z) (until : option Z) (by_ reason : string)      (* a line of the console's lists *)
| BKick (account : Z).

Record BanWorld := mkBanWorld {
  bw_db : BanTables;
  login_queue : list (list BanStmt);
  character_queue : list (list BanStmt);
  bw_error : bool;
  bw_trace : list BanEvent
}.

Abbreviation BM := (ST BanWorld).

Definition set_bw_db (d : BanTables) (w : BanWorld) : BanWorld := mkBanWorld d (login_queue w) (character_queue w) (bw_error w) (bw_trace w).
Definition set_login_queue (q : list (list BanStmt)) (w : BanWorld) : BanWorld := mkBanWorld (bw_db w) q (character_queue w) (bw_error w) (bw_trace w).
Definition set_character_queue (q : list (list BanStmt)) (w : BanWorld) : BanWorld := mkBanWorld (bw_db w) (login_queue w) q (bw_error w) (bw_trace w).
Definition ban_event (e : BanEvent) : BM unit :=
  modS (fun w => mkBanWorld (bw_db w) (login_queue w) (character_queue w) (bw_error w) (bw_trace w ++ [e])).
Definition ban_sys (l : BLANG) (args : list BArg) : BM unit := ban_event (BSys l args).
Definition ban_error : BM unit := modS (fun w => mkBanWorld (bw_db w) (login_queue w) (character_queue w) true (bw_trace w)).
Definition LoginExecute (l : list BanStmt) : BM unit := modS (fun w => set_login_queue (login_queue w ++ [l]) w).
Definition CharacterExecute (l : list BanStmt) : BM unit := modS (fun w => set_character_queue (character_queue w ++ [l]) w).
Definition ban_query {A} (f : BanTables -> A) : BM A := getS (fun w => f (bw_db w)).

Section Databases.
  (** How the database compares texts, what an unsigned column makes of a sum
      too big for it, and whether the tables keep one row for an account or
      character and a second. *)
  Variable collates : string -> string -> bool.
  Variable column32 : Z -> Z.
  Variable unique_bans : bool.

(** [None] is a statement that fails. *)
Definition insert_ban (now : Z) (id duration : Z) (author reason : string) (l : list BanRow) : option (list BanRow) :=
  if unique_bans && existsb (fun r => (b_id r =? id) && (bandate r =? now)) l then None
  else Some (l ++ [mkBanRow id now (column32 (now + duration)) author reason true]).

Definition run_ban_stmt (now : Z) (s : BanStmt) (t : BanTables) : option BanTables :=
  match s with
  | LOGIN_INS_IP_BANNED ip duration author reason =>
      if unique_bans && existsb (fun r => collates (i_ip r) ip && (i_bandate r =? now)) (ip_banned t) then None
      else Some (set_ip_banned (ip_banned t ++ [mkIpBanRow ip now (column32 (now + duration)) author reason]) t)
  | LOGIN_DEL_IP_NOT_BANNED ip => Some (set_ip_banned (filter (fun r => collates (i_ip r) ip = false) (ip_banned t)) t)
  | LOGIN_INS_ACCOUNT_BANNED id duration author reason =>
      (fun l => set_account_banned l t) <$> insert_ban now id duration author reason (account_banned t)
  | LOGIN_UPD_ACCOUNT_NOT_BANNED id => Some (set_account_banned (lift_when (fun r => b_id r =? id) (account_banned t)) t)
  | LOGIN_DEL_EXPIRED_IP_BANS =>
      Some (set_ip_banned (filter (fun r => expired now (i_bandate r) (i_unbandate r) = false) (ip_banned t)) t)
  | LOGIN_UPD_EXPIRED_ACCOUNT_BANS =>
      Some (set_account_banned (lift_when (fun r => expired now (bandate r) (unbandate r)) (account_banned t)) t)
  | CHAR_INS_CHARACTER_BAN guid duration author reason =>
      (fun l => set_character_banned l t) <$> insert_ban now guid duration author reason (character_banned t)
  | CHAR_UPD_CHARACTER_BAN guid => Some (set_character_banned (lift_when (fun r => b_id r =? guid) (character_banned t)) t)
  | CHAR_DEL_EXPIRED_BANS =>
      Some (set_character_banned (lift_when (fun r => expired now (bandate r) (unbandate r)) (character_banned t)) t)
  end.

(** A transaction: all of its statements, or none. *)
Fixpoint run_transaction (now : Z) (l : list BanStmt) (t : BanTables) : option BanTables :=
  match l with
  | [] => Some t
  | s :: l' => match run_ban_stmt now s t with Some t' => run_transaction now l' t' | None => None end
  end.

(** The threads of the two databases take their next entry. *)
Definition login_worker (now : Z) (w : BanWorld) : BanWorld :=
  match login_queue w with
  | [] => w
  | l :: q => set_login_queue q (set_bw_db (default (bw_db w) (run_transaction now l (bw_db w))) w)
  end.
Definition character_worker (now : Z) (w : BanWorld) : BanWorld :=
  match character_queue w with
  | [] => w
  | l :: q => set_character_queue q (set_bw_db (default (bw_db w) (run_transaction now l (bw_db w))) w)
  end.

(** ** What the statements' readers see *)
Definition sel_account_bans (id : Z) (t : BanTables) : list BanRow := filter (fun r => (b_id r =? id) && b_active r = true) (account_banned t).
(** [LOGIN_SEL_ACCOUNT_BANNED] *)
Definition LOGIN_SEL_ACCOUNT_BANNED (id : Z) (t : BanTables) : option (Z * Z) :=
  match sel_account_bans id t with r :: _ => Some (bandate r, unbandate r) | [] => None end.
Definition LOGIN_SEL_IP_BANNED (ip : string) (t : BanTables) : bool := existsb (fun r => collates (i_ip r) ip) (ip_banned t).
Definition LOGIN_SEL_BANS (id : Z) (ip : string) (t : BanTables) : bool :=
  match sel_account_bans id t with [] => LOGIN_SEL_IP_BANNED ip t | _ => true end.
(** [CHAR_SEL_CHARACTER_BANNED] *)
Definition CHAR_SEL_CHARACTER_BANNED (guid : Z) (t : BanTables) : bool :=
  existsb (fun r => (b_id r =? guid) && b_active r) (character_banned t).

(** ** The rest of the server *)
Record BanEnv := mkBanEnv {
  be_accounts : list (Z * string * string);           (* id, username, last_ip *)
  be_characters : list (Z * string * Z);              (* guid, name, account *)
  be_contains : string -> string -> bool;             (* [LIKE CONCAT('%', ?, '%')] *)
  be_online : string -> option (Z * Z);               (* [FindPlayerByName]: GUID's low part and account *)
  be_session : Z -> option (option string);           (* [FindSession]: the name of its player, if it has one *)
  be_is_ip : string -> bool;                          (* [IsIPAddress] *)
  be_now : Z
}.
Variable env : BanEnv.

Definition GetAccountId (name : string) : Z :=
  match filter (fun a => collates a.1.2 name = true) (be_accounts env) with a :: _ => a.1.1 | [] => 0 end.
(** [CHAR_SEL_GUID_BY_NAME_FILTER] *)
Definition sel_guid_filter (name : string) : list (Z * string * Z) :=
  filter (fun c => be_contains env c.1.2 name = true) (be_characters env).

(** ** [Logon] *)
(** The accounts a ban is about; for an address the row is written at once. *)
Definition banned_accounts (mode : BanMode) (nameOrIP : string) : list Z :=
  match mode with
  | BAN_IP => (fun a => a.1.1) <$> filter (fun a => collates a.2 nameOrIP = true) (be_accounts env)
  | BAN_ACCOUNT => (fun a => a.1.1) <$> filter (fun a => collates a.1.2 nameOrIP = true) (be_accounts env)
  | BAN_CHARACTER => (fun c => c.2) <$> filter (fun c => collates c.1.2 nameOrIP = true) (be_characters env)
  end.

Definition kick_banned (author : string) (account : Z) : BM unit :=
  match be_session env account with
  | None => retS tt
  | Some None => liftS UB
  | Some (Some player) => whenS (negb (String.eqb player author)) (ban_event (BKick account))
  end.

Definition ban_stmts (account duration : Z) (author reason : string) : list BanStmt :=
  [LOGIN_UPD_ACCOUNT_NOT_BANNED account; LOGIN_INS_ACCOUNT_BANNED account duration author reason].

Definition ban_all (accounts : list Z) (duration : Z) (author reason : string) : list BanStmt :=
  concat ((fun a => ban_stmts a duration author reason) <$> accounts).

Definition BanAccount (mode : BanMode) (nameOrIP duration reason author : string) : BM BanReturn :=
  let duration_secs := TimeStringToSecs duration in
  whenS (match mode with BAN_IP => true | _ => false end) (LoginExecute [LOGIN_INS_IP_BANNED nameOrIP duration_secs author reason]) ;!
  match banned_accounts mode nameOrIP with
  | [] => retS (match mode with BAN_IP => BAN_SUCCESS | _ => BAN_NOTFOUND end)
  | accounts =>
      for_eachS accounts (kick_banned author) ;!
      LoginExecute (match mode with BAN_IP => [] | _ => ban_all accounts duration_secs author reason end) ;!
      retS BAN_SUCCESS
  end.

Definition BanAccountbyId (accountId duration : Z) (reason author : string) : BM BanReturn :=
  (match be_session env accountId with
   | Some (Some player) => whenS (negb (String.eqb player author)) (ban_event (BKick accountId))
   | _ => retS tt
   end) ;!
  LoginExecute (ban_stmts accountId (u32 duration) author reason) ;!
  retS BAN_SUCCESS.

Definition RemoveBanAccount (mode : BanMode) (nameOrIP : string) : BM bool :=
  match mode with
  | BAN_IP => LoginExecute [LOGIN_DEL_IP_NOT_BANNED nameOrIP] ;! retS true
  | _ =>
      let! account := match mode with
                      | BAN_ACCOUNT => retS (GetAccountId nameOrIP)
                      | _ => match be_online env nameOrIP with Some p => retS p.2 | None => liftS UB end
                      end in
      if account =? 0 then retS false
      else LoginExecute [LOGIN_UPD_ACCOUNT_NOT_BANNED account] ;! retS true
  end.

(** The character: the one online, or the first whose name contains the text. *)
Definition character_named (name : string) : option Z :=
  match be_online env name with
  | Some p => Some p.1
  | None => match sel_guid_filter name with c :: _ => Some c.1.1 | [] => None end
  end.

Definition BanCharacter (name duration reason author : string) : BM BanReturn :=
  match character_named name with
  | None => retS BAN_NOTFOUND
  | Some guid =>
      CharacterExecute [CHAR_UPD_CHARACTER_BAN guid] ;!
      CharacterExecute [CHAR_INS_CHARACTER_BAN guid (TimeStringToSecs duration) author reason] ;!
      (match be_online env name with Some p => ban_event (BKick p.2) | None => retS tt end) ;!
      retS BAN_SUCCESS
  end.

Definition RemoveBanCharacter (name : string) : BM bool :=
  match character_named name with
  | None => retS false
  | Some guid => if guid =? 0 then retS false else CharacterExecute [CHAR_UPD_CHARACTER_BAN guid] ;! retS true
  end.

(** The login server's timer ([Logon::Update]) and the list of characters. *)
Definition update_expired_bans : BM unit := LoginExecute [LOGIN_DEL_EXPIRED_IP_BANS] ;! LoginExecute [LOGIN_UPD_EXPIRED_ACCOUNT_BANS].
Definition expire_character_bans : BM unit := CharacterExecute [CHAR_DEL_EXPIRED_BANS].

(** ** The commands

    The issuer: [None] is the console, [Some None] a session without a player. *)
Definition issuer_name {A} (g : option (option string)) (k : string -> BM A) : BM A :=
  match g with None => k EmptyString | Some (Some n) => k n | Some None => liftS UB end.

Definition ban_refused (l : BLANG) (args : list BArg) : BM bool := ban_sys l args ;! ban_error ;! retS false.

(** [strtok(NULL, "")]: all that is left. *)
Definition strtok_rest (s : string) : option string := if String.eqb s EmptyString then None else Some s.

(** The name as the mode wants it; [None] after a refusal. *)
Definition ban_name (mode : BanMode) (nameOrIP : string) : BM (option string) :=
  match mode with
  | BAN_ACCOUNT =>
      let! '(ok, name) := liftS (normalizeString nameOrIP) in
      if ok then retS (Some name) else ban_refused LANG_ACCOUNT_NOT_EXIST [AText name] ;! retS None
  | BAN_CHARACTER =>
      let! name := liftS (normalizePlayerName nameOrIP) in
      match name with Some n => retS (Some n) | None => ban_refused LANG_PLAYER_NOT_FOUND [] ;! retS None end
  | BAN_IP => retS (if be_is_ip env nameOrIP then Some nameOrIP else None)
  end.

Definition ban_reported (name duration reason : string) : BM unit :=
  if 0 <? atoi duration
  then ban_sys LANG_BAN_YOUBANNED [AText name; AText (secsToTimeString (TimeStringToSecs duration) true); AText reason]
  else ban_sys LANG_BAN_YOUPERMBANNED [AText name; AText reason].

(** The three arguments of a ban: [None] where the command gives up. *)
Definition ban_args (args : string) : option (string * string * string) :=
  match strtok " " args with
  | None => None
  | Some (name, r) =>
      match strtok " " r with
      | None => None
      | Some (duration, r) =>
          if atoi duration =? 0 then None
          else match strtok_rest r with None => None | Some reason => Some (name, duration, reason) end
      end
  end.

Definition HandleBanHelper (g : option (option string)) (mode : BanMode) (args : string) : BM bool :=
  match ban_args args with
  | None => retS false
  | Some (nameOrIP, duration, reason) =>
      let! name := ban_name mode nameOrIP in
      match name with
      | None => retS false
      | Some nameOrIP =>
          issuer_name g (fun author =>
            let! result := BanAccount mode nameOrIP duration reason author in
            match result with
            | BAN_SUCCESS => ban_reported nameOrIP duration reason ;! retS true
            | BAN_SYNTAX_ERROR => retS false
            | BAN_NOTFOUND =>
                ban_refused LANG_BAN_NOTFOUND
                  [AText (match mode with BAN_ACCOUNT => "account" | BAN_CHARACTER => "character" | BAN_IP => "ip" end); AText nameOrIP]
            | BAN_LONGER_EXISTS => retS true
            end)
      end
  end.

Definition HandleBanAccountCommand (g : option (option string)) (args : string) : BM bool := HandleBanHelper g BAN_ACCOUNT args.
Definition HandleBanAccountByCharCommand (g : option (option string)) (args : string) : BM bool := HandleBanHelper g BAN_CHARACTER args.
Definition HandleBanIPCommand (g : option (option string)) (args : string) : BM bool := HandleBanHelper g BAN_IP args.

Definition HandleBanCharacterCommand (g : option (option string)) (args : string) : BM bool :=
  match ban_args args with
  | None => retS false
  | Some (name, duration, reason) =>
      let! n := liftS (normalizePlayerName name) in
      match n with
      | None => ban_refused LANG_PLAYER_NOT_FOUND []
      | Some name =>
          issuer_name g (fun author =>
            let! result := BanCharacter name duration reason author in
            match result with
            | BAN_SUCCESS => ban_reported name duration reason ;! retS true
            | BAN_NOTFOUND => ban_refused LANG_BAN_NOTFOUND [AText "character"; AText name]
            | _ => retS true
            end)
      end
  end.

Definition HandleUnBanHelper (mode : BanMode) (args : string) : BM bool :=
  match strtok " " args with
  | None => retS false
  | Some (nameOrIP, _) =>
      let! name := ban_name mode nameOrIP in
      match name with
      | None => retS false
      | Some nameOrIP =>
          let! ok := RemoveBanAccount mode nameOrIP in
          ban_sys (if ok then LANG_UNBAN_UNBANNED else LANG_UNBAN_ERROR) [AText nameOrIP] ;!
          retS true
      end
  end.

Definition HandleUnBanAccountCommand (args : string) : BM bool := HandleUnBanHelper BAN_ACCOUNT args.
Definition HandleUnBanAccountByCharCommand (args : string) : BM bool := HandleUnBanHelper BAN_CHARACTER args.
Definition HandleUnBanIPCommand (args : string) : BM bool := HandleUnBanHelper BAN_IP args.

Definition HandleUnBanCharacterCommand (args : string) : BM bool :=
  match strtok " " args with
  | None => retS false
  | Some (name, _) =>
      let! n := liftS (normalizePlayerName name) in
      match n with
      | None => ban_refused LANG_PLAYER_NOT_FOUND []
      | Some name =>
          let! ok := RemoveBanCharacter name in
          if ok then retS true else ban_refused LANG_PLAYER_NOT_FOUND []
      end
  end.

(** ** What is known of a ban *)
Definition by_bandate (a b : BanRow) : Prop := bandate a <= bandate b.
Definition by_unbandate (a b : BanRow) : Prop := unbandate a <= unbandate b.
#[local] Instance by_bandate_dec a b : Decision (by_bandate a b) := Z_le_dec _ _.
#[local] Instance by_unbandate_dec a b : Decision (by_unbandate a b) := Z_le_dec _ _.

Definition history_entry (r : BanRow) : BM unit :=
  let length := unbandate r - bandate r in
  let active := b_active r && ((length =? 0) || (be_now env <=? unbandate r)) in
  ban_sys LANG_BANINFO_HISTORYENTRY
    [ATime (bandate r); if length =? 0 then ALocale LANG_BANINFO_INFINITE else AText (secsToTimeString length true);
     ALocale (if active then LANG_BANINFO_YES else LANG_BANINFO_NO); AText (banreason r); AText (bannedby r)].

Definition history (none : BM unit) (name : string) (rows : list BanRow) : BM bool :=
  match merge_sort by_bandate rows with
  | [] => none ;! retS true
  | rows => ban_sys LANG_BANINFO_BANHISTORY [AText name] ;! for_eachS rows history_entry ;! retS true
  end.

Definition HandleBanInfoHelper (accountid : Z) (accountname : string) : BM bool :=
  let! t := ban_query (fun t => t) in
  history (ban_sys LANG_BANINFO_NOACCOUNTBAN [AText accountname]) accountname (filter (fun r => b_id r = accountid) (account_banned t)).

Definition HandleBanInfoAccountCommand (args : string) : BM bool :=
  if String.eqb args EmptyString then retS false
  else
    let! '(ok, account_name) := liftS (normalizeString args) in
    if negb ok then ban_refused LANG_ACCOUNT_NOT_EXIST [AText account_name]
    else
      let accountid := GetAccountId account_name in
      if accountid =? 0 then ban_sys LANG_ACCOUNT_NOT_EXIST [AText account_name] ;! retS true
      else HandleBanInfoHelper accountid account_name.

Definition HandleBanInfoCharacterCommand (args : string) : BM bool :=
  if String.eqb args EmptyString then retS false
  else
    let info (guid : Z) : BM bool :=
      let! t := ban_query (fun t => t) in
      history (ban_sys LANG_CHAR_NOT_BANNED [AText args]) args (filter (fun r => b_id r = guid) (character_banned t)) in
    match be_online env args with
    | Some p => info p.1
    | None =>
        match filter (fun c => collates c.1.2 args = true) (be_characters env) with
        | c :: _ => info c.1.1
        | [] => ban_sys LANG_BANINFO_NOCHARACTER [] ;! retS false
        end
    end.

Definition HandleBanInfoIPCommand (args : string) : BM bool :=
  if String.eqb args EmptyString then retS false
  else if negb (be_is_ip env args) then retS false
  else
    let! t := ban_query (fun t => t) in
    match filter (fun r => collates (i_ip r) args = true) (ip_banned t) with
    | [] => ban_sys LANG_BANINFO_NOIP [] ;! retS true
    | r :: _ =>
        let permanent := i_unbandate r - i_bandate r =? 0 in
        ban_sys LANG_BANINFO_IPENTRY
          [AText (i_ip r); ATime (i_bandate r); if permanent then ALocale LANG_BANINFO_NEVER else ATime (i_unbandate r);
           if permanent then ALocale LANG_BANINFO_INFINITE else AText (secsToTimeString (u64 (i_unbandate r - be_now env)) true);
           AText (i_banreason r); AText (i_bannedby r)] ;!
        retS true
    end.

(** ** Lists *)
Definition rule : string := " ===============================================================================".
Definition thin_rule : string := "-------------------------------------------------------------------------------".

Definition list_line (name : string) (r : BanRow) : BM unit :=
  ban_event (BLine name (bandate r) (if bandate r =? unbandate r then None else Some (unbandate r)) (bannedby r) (banreason r)).

Definition HandleBanListCharacterCommand (g : option (option string)) (args : string) : BM bool :=
  match strtok " " args with
  | None => retS false
  | Some (filter_, _) =>
      let! t := ban_query (fun t => t) in
      match sel_guid_filter filter_ with
      | [] => ban_sys LANG_BANLIST_NOCHARACTER [] ;! retS true
      | rows =>
          ban_sys LANG_BANLIST_MATCHINGCHARACTER [] ;!
          match g with
          | Some _ =>
              for_eachS rows (fun c => if existsb (fun r => b_id r =? c.1.1) (character_banned t) then ban_event (BText c.1.2) else retS tt) ;!
              retS true
          | None =>
              ban_sys LANG_BANLIST_CHARACTERS [] ;! ban_event (BText (rule +:+ " ")) ;! ban_sys LANG_BANLIST_CHARACTERS_HEADER [] ;!
              for_eachS rows (fun c =>
                ban_event (BText thin_rule) ;!
                for_eachS (merge_sort by_unbandate (filter (fun r => b_id r = c.1.1) (character_banned t))) (list_line c.1.2)) ;!
              ban_event (BText (rule +:+ " ")) ;! retS true
          end
      end
  end.

(** The accounts with an active ban, one row each. *)
Definition sel_banned_accounts (filter_ : string) (t : BanTables) : list (Z * string * string) :=
  filter (fun a => existsb (fun r => (b_id r =? a.1.1) && b_active r) (account_banned t)
                   && (String.eqb filter_ EmptyString || be_contains env a.1.2 filter_) = true) (be_accounts env).

Definition HandleBanListHelper (g : option (option string)) (rows : list (Z * string * string)) (t : BanTables) : BM bool :=
  ban_sys LANG_BANLIST_MATCHINGACCOUNT [] ;!
  match g with
  | Some _ => for_eachS rows (fun a => ban_event (BText a.1.2)) ;! retS true
  | None =>
      ban_sys LANG_BANLIST_ACCOUNTS [] ;! ban_event (BText rule) ;! ban_sys LANG_BANLIST_ACCOUNTS_HEADER [] ;!
      for_eachS rows (fun a =>
        ban_event (BText thin_rule) ;!
        for_eachS (merge_sort by_unbandate (filter (fun r => b_id r = a.1.1) (account_banned t))) (list_line a.1.2)) ;!
      ban_event (BText rule) ;! retS true
  end.

Definition list_filter (args : string) : string := match strtok " " args with Some (f, _) => f | None => EmptyString end.

Definition HandleBanListAccountCommand (g : option (option string)) (args : string) : BM bool :=
  LoginExecute [LOGIN_DEL_EXPIRED_IP_BANS] ;!
  let! t := ban_query (fun t => t) in
  match sel_banned_accounts (list_filter args) t with
  | [] => ban_sys LANG_BANLIST_NOACCOUNT [] ;! retS true
  | rows => HandleBanListHelper g rows t
  end.

Definition sel_banned_ips (filter_ : string) (t : BanTables) : list IpBanRow :=
  filter (fun r => ((i_bandate r =? i_unbandate r) || (be_now env <? i_unbandate r))
                   && (String.eqb filter_ EmptyString || be_contains env (i_ip r) filter_) = true) (ip_banned t).
Definition by_i_unbandate (a b : IpBanRow) : Prop := i_unbandate a <= i_unbandate b.
#[local] Instance by_i_unbandate_dec a b : Decision (by_i_unbandate a b) := Z_le_dec _ _.

Definition HandleBanListIPCommand (g : option (option string)) (args : string) : BM bool :=
  LoginExecute [LOGIN_DEL_EXPIRED_IP_BANS] ;!
  let! t := ban_query (fun t => t) in
  match merge_sort by_i_unbandate (sel_banned_ips (list_filter args) t) with
  | [] => ban_sys LANG_BANLIST_NOIP [] ;! retS true
  | rows =>
      ban_sys LANG_BANLIST_MATCHINGIP [] ;!
      match g with
      | Some _ => for_eachS rows (fun r => ban_event (BText (i_ip r))) ;! retS true
      | None =>
          ban_sys LANG_BANLIST_IPS [] ;! ban_event (BText rule) ;! ban_sys LANG_BANLIST_IPS_HEADER [] ;!
          for_eachS rows (fun r =>
            ban_event (BText thin_rule) ;!
            ban_event (BLine (i_ip r) (i_bandate r) (if i_bandate r =? i_unbandate r then None else Some (i_unbandate r)) (i_bannedby r) (i_banreason r))) ;!
          ban_event (BText rule) ;! retS true
      end
  end.
End Databases.
