(* ===== verification/BanFacts.v ===== *)
(** * Bans: durations, and who stays out *)
From Stdlib Require Import Ascii String ZArith Lia.
From stdpp Require Import base gmap list sorting strings.
From S2P Require Import Prelude ByteBuffer Util Utf8 World BigNumber Totp StateM RealmList AuthSocket AuthFacts AuthSrp Addons ClientAuth ClientAuthFacts Accounts AccountLogin Bans.

Open Scope Z_scope.

(** ** Durations *)
Lemma time_loop_digits s r secs x :
  string_all digit_char s -> time_loop (s +:+ r) secs (u32 x) = time_loop r secs (u32 (read_digits x s)).
Proof.
  revert x. induction s as [|c s IH]; intros x; [by rewrite string_app_nil_l|]. intros [Hc Hs]. rewrite string_app_cons. cbn [time_loop read_digits].
  destruct (digit_char_props c Hc) as (-> & _). rewrite <- IH by done. f_equal. unfold u32, wrap.
  rewrite Z.mul_mod_idemp_l, Z.add_mod_idemp_l by done. f_equal. lia.
Qed.

(** One amount with its letter. *)
Lemma time_loop_number n c m r secs :
  0 <= n < 2 ^ 64 -> is_digit c = false -> unit_secs c = Some m ->
  time_loop (print_u64 n +:+ String c r) (u32 secs) 0 = time_loop r (u32 (secs + n * m)) 0.
Proof.
  intros Hn Hc Hm. change 0 with (u32 0) at 1. rewrite time_loop_digits by (apply print_u64_digits; lia). cbn [time_loop]. rewrite Hc, Hm.
  assert (read_digits 0 (print_u64 n) = n) as -> by (apply read_print_fuel; change (10 ^ Z.of_nat 20) with 100000000000000000000; lia).
  f_equal. unfold u32, wrap. by rewrite Z.mul_mod_idemp_l, Zplus_mod_idemp_l, Zplus_mod_idemp_r by done.
Qed.

Lemma time_loop_amount n c long m r secs :
  0 <= n < 2 ^ 64 -> is_digit c = false -> unit_secs c = Some m ->
  time_loop (amount n (String c EmptyString) long true +:+ r) (u32 secs) 0 = time_loop r (u32 (secs + n * m)) 0.
Proof.
  intros Hn Hc Hm. unfold amount. destruct (Z.eqb_spec n 0) as [->|_]; [by rewrite string_app_nil_l, Z.mul_0_l, Z.add_0_r|].
  rewrite string_app_assoc, string_app_cons, string_app_nil_l. by apply time_loop_number.
Qed.

(** A duration printed in short is read back. *)
Lemma durations_read_back t : 0 <= t < 2 ^ 32 -> TimeStringToSecs (secsToTimeString t true) = t.
Proof.
  intros Ht. unfold TimeStringToSecs, secsToTimeString. cbn [negb].
  set (days := t / DAY). set (hours := t mod DAY / HOUR). set (minutes := t mod HOUR / MINUTE). set (secs := t mod MINUTE).
  assert (t = days * DAY + hours * HOUR + minutes * MINUTE + secs * 1 /\ 0 <= days < 2 ^ 64 /\ 0 <= hours < 2 ^ 64 /\ 0 <= minutes < 2 ^ 64 /\ 0 <= secs < 2 ^ 64)
    as (Et & Hd & Hh & Hm & Hs).
  { unfold days, hours, minutes, secs, DAY, HOUR, MINUTE. Z.to_euclidean_division_equations. lia. }
  change (time_loop ?s 0 0) with (time_loop s (u32 0) 0).
  rewrite !(time_loop_amount days "d" _ DAY), !(time_loop_amount hours "h" _ HOUR), !(time_loop_amount minutes "m" _ MINUTE) by done.
  destruct (negb (secs =? 0) || _) eqn:Eb.
  - change "s"%string with (String "s" EmptyString). rewrite (time_loop_number secs "s" 1) by done. cbn [time_loop]. rewrite Z.add_0_l, <- Et. by apply wrap_small.
  - apply orb_false_iff in Eb as [Es%negb_false_iff%Z.eqb_eq _]. cbn [time_loop].
    replace (0 + days * DAY + hours * HOUR + minutes * MINUTE) with t by lia. by apply wrap_small.
Qed.

(** ** A ban that stands *)
Section Standing.
  Variable collates : string -> string -> bool.
  Variable column32 : Z -> Z.
  Variable unique_bans : bool.
  Hypothesis Hcolumn : forall z, 0 <= z < 2 ^ 32 -> column32 z = z.

(** An active ban of the account up to a time, or for good. *)
Definition bans_until (until : option Z) (r : BanRow) : Prop :=
  match until with None => unbandate r = bandate r | Some u => unbandate r = u end.
Definition banned (id : Z) (until : option Z) (t : BanTables) : Prop :=
  exists r, r ∈ account_banned t /\ b_id r = id /\ b_active r = true /\ bans_until until r.

(** A time at which the ban still holds. *)
Definition before (until : option Z) (now : Z) : Prop := match until with None => True | Some u => now < u end.

Lemma lift_keeps p l id until r :
  r ∈ l -> b_id r = id -> b_active r = true -> bans_until until r -> p r = false ->
  exists r', r' ∈ lift_when p l /\ b_id r' = id /\ b_active r' = true /\ bans_until until r'.
Proof.
  intros Hr Hi Ha Hu Hp. exists r. split; [|done]. apply list_elem_of_fmap. exists r. by rewrite Hp.
Qed.

Lemma insert_keeps now id duration author reason l l' r :
  insert_ban column32 unique_bans now id duration author reason l = Some l' -> r ∈ l -> r ∈ l'.
Proof. unfold insert_ban. case_match; [done|]. intros [= <-] Hr. apply elem_of_app. by left. Qed.

Lemma stmt_keeps_ban now s t t' id until :
  run_ban_stmt collates column32 unique_bans now s t = Some t' -> banned id until t -> s <> LOGIN_UPD_ACCOUNT_NOT_BANNED id -> before until now ->
  banned id until t'.
Proof.
  intros Hrun (r & Hr & Hi & Ha & Hu) Hs Hb. destruct s; cbn [run_ban_stmt] in Hrun.
  - case_match; [done|]. injection Hrun as <-. by exists r.
  - injection Hrun as <-. by exists r.
  - destruct (insert_ban _ _ _ _ _ _ _ _) as [l|] eqn:El; [|done]. injection Hrun as <-. exists r. split; [|done]. by eapply insert_keeps.
  - injection Hrun as <-. apply (lift_keeps _ _ id until r); [done..|]. apply Z.eqb_neq. congruence.
  - injection Hrun as <-. by exists r.
  - injection Hrun as <-. apply (lift_keeps _ _ id until r); [done..|]. unfold expired, bans_until, before in *.
    destruct until as [u|].
    + rewrite Hu. rewrite (proj2 (Z.leb_gt _ _)) by done. apply andb_false_r.
    + by rewrite Hu, Z.eqb_refl.
  - destruct (insert_ban _ _ _ _ _ _ _ _) as [l|] eqn:El; [|done]. injection Hrun as <-. by exists r.
  - injection Hrun as <-. by exists r.
  - injection Hrun as <-. by exists r.
Qed.

(** What the database goes through: transactions and when they are run. *)
Definition run_history (h : list (Z * list BanStmt)) (t : BanTables) : BanTables :=
  foldl (fun t e => default t (run_transaction collates column32 unique_bans e.1 e.2 t)) t h.

Lemma transaction_keeps_ban now l t t' id until :
  run_transaction collates column32 unique_bans now l t = Some t' -> banned id until t ->
  LOGIN_UPD_ACCOUNT_NOT_BANNED id ∉ l -> before until now -> banned id until t'.
Proof.
  intros Hrun Hb Hl Hn. revert t Hrun Hb. induction l as [|s l IH]; intros t Hrun Hb; cbn [run_transaction] in Hrun; [by injection Hrun as <-|].
  apply not_elem_of_cons in Hl as [Hs Hl]. destruct (run_ban_stmt _ _ _ _ s t) as [t1|] eqn:E; [|done].
  apply (IH Hl t1 Hrun). by eapply stmt_keeps_ban.
Qed.

Lemma history_keeps_ban h t id until :
  banned id until t -> Forall (fun e => LOGIN_UPD_ACCOUNT_NOT_BANNED id ∉ e.2 /\ before until e.1) h -> banned id until (run_history h t).
Proof.
  intros Hb Hh. revert t Hb. induction Hh as [|[now l] h [Hl Hn] Hh IH]; intros t Hb; cbn [run_history foldl]; [done|].
  apply IH. cbn [fst snd]. destruct (run_transaction _ _ _ now l t) as [t'|] eqn:E; [|done]. by eapply transaction_keeps_ban.
Qed.

(** Banning sets the ban. *)
Definition fresh_second (now : Z) (t : BanTables) : Prop := unique_bans = true -> forall r, r ∈ account_banned t -> bandate r <> now.
Definition end_of (now duration : Z) : option Z := if duration =? 0 then None else Some (now + duration).

Lemma lift_when_dates p l r' : r' ∈ lift_when p l -> exists r, r ∈ l /\ bandate r' = bandate r /\ b_id r' = b_id r.
Proof.
  intros (r & -> & Hr)%list_elem_of_fmap. exists r. split; [done|]. by destruct (p r).
Qed.

Lemma existsb_none {A} (p : A -> bool) l : (forall x, x ∈ l -> p x = false) -> existsb p l = false.
Proof. intros Hp. apply not_true_is_false. intros (x & Hx%list_elem_of_In & Ht)%existsb_exists. by rewrite Hp in Ht. Qed.

(** The rows the transaction meets: the account is not yet in it at [now]. *)
Lemma ban_accounts_run now duration author reason l t :
  NoDup l -> 0 <= now -> 0 <= duration -> now + duration < 2 ^ 32 ->
  (unique_bans = true -> forall r, r ∈ account_banned t -> b_id r ∈ l -> bandate r <> now) ->
  exists t', run_transaction collates column32 unique_bans now (ban_all l duration author reason) t = Some t'
    /\ (forall id, id ∈ l -> banned id (end_of now duration) t')
    /\ (forall id u, id ∉ l -> banned id u t -> banned id u t').
Proof.
  intros Hnd Hn Hd Hsum. revert t. induction Hnd as [|a l Ha Hnd IH]; intros t Hfresh; [exists t; split; [done|]; split; [by intros id ?%elem_of_nil|done]|].
  set (r := mkBanRow a now (now + duration) author reason true).
  set (t1 := set_account_banned (lift_when (fun r => b_id r =? a) (account_banned t) ++ [r]) t).
  assert (insert_ban column32 unique_bans now a duration author reason (lift_when (fun r => b_id r =? a) (account_banned t))
          = Some (lift_when (fun r => b_id r =? a) (account_banned t) ++ [r])) as Hins.
  { unfold insert_ban. rewrite Hcolumn by lia. destruct unique_bans; [|done]. rewrite existsb_none; [done|].
    intros r' (r0 & Hr0 & Hd0 & Hi0)%lift_when_dates. destruct (Z.eqb_spec (b_id r') a) as [Ea|]; [|done].
    apply Z.eqb_neq. rewrite Hd0. apply Hfresh; [done|done|]. rewrite <- Hi0, Ea. left. }
  destruct (IH t1) as (t' & Hrun & Hin & Hout).
  { intros Hu r' Hr' Hl. unfold t1 in Hr'. cbn [account_banned set_account_banned] in Hr'. apply elem_of_app in Hr' as [Hr'|Hr'].
    - apply lift_when_dates in Hr' as (r0 & Hr0 & Hd0 & Hi0). rewrite Hd0. apply Hfresh; [done|done|]. right. by rewrite <- Hi0.
    - apply list_elem_of_singleton in Hr' as ->. done. }
  exists t'. assert (account_banned t1 = lift_when (fun r => b_id r =? a) (account_banned t) ++ [r]) as Ht1 by done.
  assert (banned a (end_of now duration) t1) as Hba.
  { exists r. split; [rewrite Ht1; apply elem_of_app; right; by left|]. split; [done|]. split; [done|].
    unfold end_of, bans_until. destruct (Z.eqb_spec duration 0) as [->|]; cbn; lia. }
  split; [|split].
  - cbn [ban_all fmap list_fmap concat ban_stmts app run_transaction run_ban_stmt]. rewrite (Hins : insert_ban _ _ _ _ _ _ _ (account_banned (set_account_banned _ t)) = _).
    exact Hrun.
  - intros id [->|Hid]%elem_of_cons; [by apply Hout|by apply Hin].
  - intros id u [Hne Hid]%not_elem_of_cons (r0 & Hr0 & Hi0 & Ha0 & Hu0). apply Hout; [done|].
    destruct (lift_keeps (fun r => b_id r =? a) (account_banned t) id u r0) as (r1 & Hr1 & ?); [done..|apply Z.eqb_neq; congruence|].
    exists r1. split; [|done]. rewrite Ht1. apply elem_of_app. by left.
Qed.

Lemma banned_selected id until t : banned id until t -> exists from u, LOGIN_SEL_ACCOUNT_BANNED id t = Some (from, u).
Proof.
  intros (r & Hr & Hi & Ha & _). unfold LOGIN_SEL_ACCOUNT_BANNED.
  destruct (sel_account_bans id t) as [|r0 l] eqn:E; [|by eexists _, _].
  assert (r ∈ sel_account_bans id t) as Hin; [|rewrite E in Hin; by apply elem_of_nil in Hin].
  apply list_elem_of_filter. split; [|done]. by rewrite Hi, Z.eqb_refl, Ha.
Qed.

Lemma banned_listed id until ip t : banned id until t -> LOGIN_SEL_BANS collates id ip t = true.
Proof.
  intros Hb. destruct (banned_selected id until t Hb) as (from & u & Hs). unfold LOGIN_SEL_ACCOUNT_BANNED in Hs.
  unfold LOGIN_SEL_BANS. by destruct (sel_account_bans id t).
Qed.
End Standing.

(** ** Who is banned gets in nowhere *)
Section Outside.
  Context `{OpenSSLSpec} `{ACE} `{ZLib}.
  Variable collates : string -> string -> bool.
  Variable column32 : Z -> Z.
  Variable unique_bans : bool.
  Variable env : BanEnv.
  Hypothesis Hcolumn : forall z, 0 <= z < 2 ^ 32 -> column32 z = z.

Lemma time_loop_nonneg s secs buffer : 0 <= secs -> 0 <= time_loop s secs buffer.
Proof.
  revert secs buffer. induction s as [|c s IH]; intros secs buffer Hs; cbn [time_loop]; [done|].
  case_match; [by apply IH|]. destruct (unit_secs c); [|done]. apply IH. apply wrap_range. lia.
Qed.
Lemma TimeStringToSecs_nonneg s : 0 <= TimeStringToSecs s.
Proof. by apply time_loop_nonneg. Qed.

(** What [BanAccount] puts into the queue. *)
Lemma ban_account_queued mode name duration reason author w w1 :
  mode <> BAN_IP -> login_queue w = [] -> BanAccount collates env mode name duration reason author w = (w1, Ok BAN_SUCCESS) ->
  bw_db w1 = bw_db w
  /\ login_queue w1 = [ban_all (banned_accounts collates env mode name) (TimeStringToSecs duration) author reason].
Proof.
  intros Hm Hq Hrun.
  enough (wp (BanAccount collates env mode name duration reason author) (fun r w' => r = BAN_SUCCESS -> bw_db w' = bw_db w
    /\ login_queue w' = [ban_all (banned_accounts collates env mode name) (TimeStringToSecs duration) author reason])
    (fun _ => True) w) as Hwp by (unfold wp in Hwp; rewrite Hrun in Hwp; by apply Hwp).
  unfold BanAccount. replace (match mode with BAN_IP => true | _ => false end) with false by (by destruct mode).
  cbn [whenS]. wp_step. apply wpS_ret. destruct (banned_accounts collates env mode name) as [|a l]; [by destruct mode; wp_steps|].
  replace (match mode with BAN_IP => [] | _ => ban_all (a :: l) (TimeStringToSecs duration) author reason end)
    with (ban_all (a :: l) (TimeStringToSecs duration) author reason) by (by destruct mode).
  wp_step. apply (wpS_for_each _ _ (fun w' => bw_db w' = bw_db w /\ login_queue w' = login_queue w)).
  - done.
  - intros x w' _ [Hd Hl]. unfold kick_banned, ban_event. destruct (be_session env x) as [[n|]|]; by wp_steps.
  - intros w' [Hd Hl]. unfold LoginExecute. wp_steps. intros _. cbn [set_login_queue bw_db login_queue]. by rewrite Hl, Hq.
Qed.

(** A challenge for a banned account is refused. *)
Lemma refused_challenge aenv sw sw1 r row p :
  sel_logonchallenge (db aenv) (executed sw) (_login (conn sw1)) = Some row -> sel_account_banned (db aenv) (executed sw) (lr_id row) <> None ->
  _HandleLogonChallenge aenv sw = (sw1, Ok r) -> ~ accepted p sw sw1.
Proof.
  intros Hrow Hban Hrun Hacc.
  pose proof (wp_logon_by aenv (_login (conn sw1)) (fun _ _ => False) sw) as Hwp. unfold wp in Hwp at 2. rewrite Hrun in Hwp.
  refine (Hwp _ p Hacc eq_refl). clear Hwp. intros ch pkt w3 Hpkt _ _ He Hl.
  assert (forall code b, append_chunks [F (U8 code)] pkt = Ok b -> u8 code <> WOW_SUCCESS ->
            forall l, bb_contents b = Ok l -> take 3 l = [AUTH_LOGON_CHALLENGE; 0; WOW_SUCCESS] -> False) as Hno.
  { intros code b Hb Hc l Hcl Ht. rewrite (refusal_bytes _ _ _ _ Hpkt Hb Hcl) in Ht. injection Ht as ?. done. }
  unfold challenge_reply. as_line. as_step; [as_step; [|done]; by eapply Hno|]. as_line. rewrite Hl, He, Hrow.
  as_step; [as_step; [|done]; by eapply Hno|]. as_line. rewrite He.
  destruct (sel_account_banned (db aenv) (executed sw) (lr_id row)) as [[from u]|]; [|done]. as_step; [|done]. eapply Hno; [eassumption|]. by case_match.
Qed.

(** The world opens no session for a banned account. *)
Lemma refused_session cenv p k account clientSeed digest rest row :
  read_auth_session (wp_buf p) = Ok (account, clientSeed, digest, rest) -> ce_account cenv account = Some row ->
  ce_banned cenv (ar_id row) (ce_address cenv) = true ->
  exists l, ck_events (_handleAuthSession cenv p k).1 = ck_events k ++ l /\ Forall (fun e => handed e = false) l.
Proof.
  intros Hread Hrow Hban. pose proof (wp_handleAuthSession cenv p k) as Hwp. unfold wp in Hwp.
  assert (forall k', session_granted cenv p k k' -> False) as Hno.
  { intros k' (a & cs & d & rs & row' & ? & ? & _ & Hr & Hrow' & _ & Hb & _). rewrite Hread in Hr. injection Hr as <- <- <- <-.
    rewrite Hrow in Hrow'. injection Hrow' as <-. congruence. }
  destruct (_handleAuthSession cenv p k) as [k' [a|e|]]; cbn [fst].
  - destruct Hwp as [[_ Hg]|[_ (_ & _ & _ & _ & _ & Hl)]]; [by destruct (Hno k')|done].
  - apply Hwp.
  - apply Hwp.
Qed.

(** C21. Who is banned stays out: once [BanAccount] has succeeded for an account,
    by its name or by a character's, and the database's thread has run it, then
    whatever else the tables go through, as long as nobody lifts this account's
    ban and its end has not come, the authentication server never answers a
    challenge for the account with success, and the world opens no session for
    it. *)
Theorem banned_stays_out mode name duration reason author w w1 now h id :
  mode <> BAN_IP -> login_queue w = [] -> BanAccount collates env mode name duration reason author w = (w1, Ok BAN_SUCCESS) ->
  id ∈ banned_accounts collates env mode name -> NoDup (banned_accounts collates env mode name) ->
  0 <= now -> now + TimeStringToSecs duration < 2 ^ 32 -> fresh_second unique_bans now (bw_db w) ->
  Forall (fun e => LOGIN_UPD_ACCOUNT_NOT_BANNED id ∉ e.2 /\ before (end_of now (TimeStringToSecs duration)) e.1) h ->
  let t := run_history collates column32 unique_bans h (bw_db (login_worker collates column32 unique_bans now w1)) in
  (forall aenv sw sw1 r row p,
     sel_logonchallenge (db aenv) (executed sw) (_login (conn sw1)) = Some row -> lr_id row = id ->
     sel_account_banned (db aenv) (executed sw) id = LOGIN_SEL_ACCOUNT_BANNED id t ->
     _HandleLogonChallenge aenv sw = (sw1, Ok r) -> ~ accepted p sw sw1)
  /\ (forall cenv p k account clientSeed digest rest row,
        read_auth_session (wp_buf p) = Ok (account, clientSeed, digest, rest) -> ce_account cenv account = Some row -> ar_id row = id ->
        ce_banned cenv id (ce_address cenv) = LOGIN_SEL_BANS collates id (ce_address cenv) t ->
        exists l, ck_events (_handleAuthSession cenv p k).1 = ck_events k ++ l /\ Forall (fun e => handed e = false) l).
Proof.
  intros Hm Hq Hrun Hid Hnd Hnow Hsum Hfresh Hh t.
  destruct (ban_account_queued mode name duration reason author w w1 Hm Hq Hrun) as [Hdb Hq1].
  assert (banned id (end_of now (TimeStringToSecs duration)) t) as Hban.
  { apply history_keeps_ban; [|done]. unfold login_worker. rewrite Hq1. cbn [set_login_queue set_bw_db bw_db]. rewrite Hdb.
    destruct (ban_accounts_run collates column32 unique_bans Hcolumn now (TimeStringToSecs duration) author reason
                (banned_accounts collates env mode name) (bw_db w)) as (t' & Ht & Hin & _); [done|done|apply TimeStringToSecs_nonneg|done| |].
    - intros Hu r Hr _. by apply Hfresh.
    - rewrite Ht. by apply Hin. }
  split.
  - intros aenv sw sw1 r row p Hrow Hi Hsel. apply (refused_challenge aenv sw sw1 r row p Hrow). rewrite Hi, Hsel.
    destruct (banned_selected id _ t Hban) as (from & u & ->). done.
  - intros cenv p k account clientSeed digest rest row Hread Hrow Hi Hsel. eapply refused_session; [exact Hread|exact Hrow|].
    rewrite Hi, Hsel. by eapply banned_listed.
Qed.
End Outside.
