(* ===== verification/BanScene.v ===== *)
(** * Bans: a worked example

    An account is banned while its owner is in the world; the owner is thrown
    out, and gets in neither at the authentication server nor at the world.
    What the findings say of the other commands, on the same tables. *)
From Stdlib Require Import Ascii String ZArith Lia.
From stdpp Require Import base gmap list strings.
From S2P Require Import Prelude ByteBuffer Util Utf8 World BigNumber Totp StateM RealmList AuthSocket AuthFacts OpenSSLRef AuthScene Addons ClientAuth ClientAuthFacts Accounts AccountLogin AccountScene Bans BanFacts.

Open Scope Z_scope.

#[local] Existing Instance reference_openssl.
#[local] Existing Instance reference_spec.
#[local] Existing Instance scene_ace.
#[local] Existing Instance scene_zlib.

(** ** The tables *)
Definition clipped (z : Z) : Z := Z.min z (2 ^ 32 - 1).
Definition contains (name part : string) : bool :=
  match String.index 0 (string_map toupper part) (string_map toupper name) with Some _ => true | None => false end.

Definition ban_tables : BanTables :=
  mkBanTables [mkBanRow 7 1690000000 1690086400 "Marta" "spam" false] [] [].
Definition ban_env : BanEnv :=
  mkBanEnv [(7, "OLGA", "10.0.0.7"); (9, "MARTA", "10.0.0.9")]
    [(21, "Tirolga", 9); (22, "Olga", 7)] contains (fun _ => None)
    (fun id => if id =? 7 then Some (Some "Olga") else None) (fun _ => true) 1700000000.
Definition ban_world : BanWorld := mkBanWorld ban_tables [] [] false [].

Definition sentenced : BanWorld := Eval vm_compute in (BanAccount same_text ban_env BAN_ACCOUNT "Olga" "2d" "gold selling" "Marta" ban_world).1.
(** The expiry pass and another account's ban, later. *)
Definition later : list (Z * list BanStmt) :=
  [(1700000600, [LOGIN_UPD_EXPIRED_ACCOUNT_BANS]); (1700000700, ban_stmts 9 0 "Marta" "own wish"); (1700001200, [LOGIN_UPD_ACCOUNT_NOT_BANNED 9])].
Definition then_tables : BanTables :=
  Eval vm_compute in run_history same_text clipped true later (bw_db (login_worker same_text clipped true 1700000000 sentenced)).

(** The servers, over those tables. *)
Definition banned_db : LoginDB :=
  mkLoginDB (fun _ _ => false) (fun _ n => if String.eqb n "OLGA" then Some row else None)
    (fun _ id => LOGIN_SEL_ACCOUNT_BANNED id then_tables) stored_session (fun _ _ => None)
    (fun _ n => if String.eqb n "OLGA" then Some 7 else None) (fun _ _ _ => None) (fun _ => []).
Definition banned_env : AuthEnv := mkAuthEnv banned_db (fun n => 1700000000 + Z.of_nat n) 0 0 false "10.0.0.7" (mkAddr 0 0).
Definition turned_away : AuthServer := Eval vm_compute in (_HandleLogonChallenge banned_env (arrived 0)).1.
Definition banned_cenv : ClientEnv :=
  mkClientEnv false (fun n => if String.eqb n player then Some scene_row else None) (fun _ _ => None)
    (fun id ip => LOGIN_SEL_BANS same_text id ip then_tables) (fun _ => false) "10.0.0.7" 2 0 1 2 1700000100 1700000100000000.

Lemma scene_sentenced :
  BanAccount same_text ban_env BAN_ACCOUNT "Olga" "2d" "gold selling" "Marta" ban_world = (sentenced, Ok BAN_SUCCESS)
  /\ bw_trace sentenced = [BKick 7].
Proof. by vm_compute. Qed.
Lemma scene_turned_away : _HandleLogonChallenge banned_env (arrived 0) = (turned_away, Ok true).
Proof. by vm_compute. Qed.

Lemma banned_stays_out_witness :
  (forall p, ~ accepted p (arrived 0) turned_away)
  /\ exists l, ck_events (_handleAuthSession banned_cenv session_packet scene_socket).1 = ck_events scene_socket ++ l
      /\ Forall (fun e => handed e = false) l.
Proof.
  destruct (banned_stays_out same_text clipped true ban_env) with
    (mode := BAN_ACCOUNT) (name := "Olga"%string) (duration := "2d"%string) (reason := "gold selling"%string) (author := "Marta"%string)
    (w := ban_world) (w1 := sentenced) (now := 1700000000) (h := later) (id := 7) as [Hlogin Hworld].
  - intros z Hz. unfold clipped. lia.
  - discriminate.
  - reflexivity.
  - exact (proj1 scene_sentenced).
  - vm_compute. by left.
  - vm_compute. apply NoDup_singleton.
  - lia.
  - vm_compute. reflexivity.
  - intros _ r Hr. apply list_elem_of_In in Hr. vm_compute in Hr. destruct Hr as [<-|[]]. discriminate.
  - repeat (constructor; [split; [|by vm_compute]|]); [..|constructor]; intros Hin%list_elem_of_In; vm_compute in Hin; naive_solver.
  - split.
    + intros p. refine (Hlogin banned_env (arrived 0) turned_away true row p _ eq_refl _ scene_turned_away); vm_compute; reflexivity.
    + eapply (Hworld banned_cenv session_packet scene_socket); [vm_compute; reflexivity..].
Defined.

(** ** What the commands do besides *)

(** A character that is not online is looked for by a part of its name. *)
Lemma namesake_banned :
  (BanCharacter ban_env "Olga" "2d" "gold selling" "Marta" ban_world).2 = Ok BAN_SUCCESS
  /\ character_queue (BanCharacter ban_env "Olga" "2d" "gold selling" "Marta" ban_world).1
     = [[CHAR_UPD_CHARACTER_BAN 21]; [CHAR_INS_CHARACTER_BAN 21 172800 "Marta" "gold selling"]].
Proof. by vm_compute. Qed.

(** A second ban in the same second lifts the first and fails. *)
Definition twice_banned : BanWorld :=
  Eval vm_compute in Nat.iter 4 (character_worker same_text clipped true 1700000000)
    (BanCharacter ban_env "Olga" "0s" "again" "Marta" (BanCharacter ban_env "Olga" "2d" "gold selling" "Marta" ban_world).1).1.
Lemma banned_twice_is_free :
  character_queue twice_banned = [] /\ length (character_banned (bw_db twice_banned)) = 1%nat /\ CHAR_SEL_CHARACTER_BANNED 21 (bw_db twice_banned) = false.
Proof. by vm_compute. Qed.

(** Lifting an account's ban by the name of a character that is not online. *)
Lemma unban_by_character_undefined : (RemoveBanAccount same_text ban_env BAN_CHARACTER "Olga" ban_world).2 = UB.
Proof. reflexivity. Qed.

(** Banning an account whose session has no player yet; by number it is spared. *)
Definition choosing_env : BanEnv :=
  mkBanEnv (be_accounts ban_env) (be_characters ban_env) contains (fun _ => None) (fun _ => Some None) (fun _ => true) 1700000000.
Lemma ban_while_choosing :
  (BanAccount same_text choosing_env BAN_ACCOUNT "Olga" "2d" "gold selling" "Marta" ban_world).2 = UB
  /\ (BanAccountbyId choosing_env 7 172800 "gold selling" "Marta" ban_world).2 = Ok BAN_SUCCESS.
Proof. by vm_compute. Qed.

(** A number without a unit is a ban for good, reported as one of no time. *)
Lemma ban_without_unit :
  let w := (HandleBanAccountCommand same_text ban_env None "olga 5 gold selling" ban_world).1 in
  login_queue w = [ban_stmts 7 0 "" "gold selling"]
  /\ bw_trace w = [BKick 7; BSys LANG_BAN_YOUBANNED [AText "OLGA"; AText "0s"; AText "gold selling"]].
Proof. by vm_compute. Qed.
