(* ===== verification/ChatInput.v ===== *)
(** * Chat input

    [shade/Handler/ChatHandler.cpp]: what becomes of a line of chat a client
    sends; the filter against spam of [shade/Proxy/Proxy.cpp]; whispers, AFK
    and DND of [shade/Character/Player.cpp].  A line ends in a command
    ([Commands]), in a channel ([ChannelMgr]), at another player, or at the
    node. *)
From Stdlib Require Import Ascii String ZArith Lia.
From stdpp Require Import base gmap sets list strings.
From S2P Require Import Prelude ByteBuffer Utf8 Util World Channel ChannelMgr StateM Commands Bans.

Open Scope Z_scope.

Module Msg.
Definition CHAT_MSG_SYSTEM : Z := 0x00.
Definition CHAT_MSG_SAY : Z := 0x01.
Definition CHAT_MSG_PARTY : Z := 0x02.
Definition CHAT_MSG_RAID : Z := 0x03.
Definition CHAT_MSG_GUILD : Z := 0x04.
Definition CHAT_MSG_OFFICER : Z := 0x05.
Definition CHAT_MSG_YELL : Z := 0x06.
Definition CHAT_MSG_WHISPER : Z := 0x07.
Definition CHAT_MSG_WHISPER_INFORM : Z := 0x09.
Definition CHAT_MSG_EMOTE : Z := 0x0A.
Definition CHAT_MSG_CHANNEL : Z := 0x11.
Definition CHAT_MSG_AFK : Z := 0x17.
Definition CHAT_MSG_DND : Z := 0x18.
Definition CHAT_MSG_RAID_LEADER : Z := 0x27.
Definition CHAT_MSG_RAID_WARNING : Z := 0x28.
Definition CHAT_MSG_BATTLEGROUND : Z := 0x2C.
Definition CHAT_MSG_BATTLEGROUND_LEADER : Z := 0x2D.
Definition CHAT_MSG_PARTY_LEADER : Z := 0x33.
Definition MAX_CHAT_MSG_TYPE : Z := 0x34.
End Msg.
Import Msg.

Definition LANG_ADDON : Z := 0xFFFFFFFF.
(** The identifiers of [lang_description], in its order. *)
Definition lang_description : list Z :=
  [LANG_ADDON; LANG_UNIVERSAL; 1; 2; 3; 6; 7; 8; 9; 10; 11; 12; 13; 14; 33; 35; 36; 37; 38].
Definition GetLanguageDescByID (lang : Z) : bool := existsb (Z.eqb lang) lang_description.

Definition SMSG_CHAT_PLAYER_NOT_FOUND : Z := 0x2A9.
Definition SMSG_CHAT_WRONG_FACTION : Z := 0x219.
Definition SMSG_SEND_MAIL_RESULT : Z := 0x239.
Definition MAIL_SEND : Z := 0.
Definition MAIL_OK : Z := 0.
Definition LOGON_DOS_STRIKE_LIMIT : Z := 5.

Definition among (l : list Z) (z : Z) : bool := existsb (Z.eqb z) l.

(** ** Texts *)

(** [strContains], with the case as it is. *)
Definition strContains (inputStr searchStr : string) : bool :=
  match String.index 0 searchStr inputStr with Some _ => true | None => false end.

(** [StripLineInvisibleChars]: the text is written over in place. *)
Definition invChars (c : ascii) : bool := let n := nat_of_ascii c in (n =? 32)%nat || (n =? 9)%nat || (n =? 7)%nat || (n =? 10)%nat.

Fixpoint strip_loop (fuel pos : nat) (str : list ascii) (wpos : nat) (space : bool) : list ascii * nat :=
  match fuel with
  | O => (str, wpos)
  | S fuel' =>
      match str !! pos with
      | None => (str, wpos)
      | Some c =>
          if invChars c
          then if space then strip_loop fuel' (S pos) str wpos true
               else strip_loop fuel' (S pos) (<[wpos := " "%char]> str) (S wpos) true
          else strip_loop fuel' (S pos) (if (wpos =? pos)%nat then str else <[wpos := c]> str) (S wpos) false
      end
  end.
Definition StripLineInvisibleChars (str : string) : string :=
  let l := list_ascii_of_string str in
  let '(l, wpos) := strip_loop (length l) 0 l 0 false in
  let str := string_of_list_ascii (if (wpos <? length l)%nat then take wpos l else l) in
  if strContains str "|TInterface" then EmptyString else str.

(** ** The filter against spam *)
Definition isalnum (c : ascii) : bool :=
  let n := nat_of_ascii c in
  ((48 <=? n)%nat && (n <=? 57)%nat) || ((65 <=? n)%nat && (n <=? 90)%nat) || ((97 <=? n)%nat && (n <=? 122)%nat).

Section Spam.
  Variable _antiSpamReplace : gmap Z ascii.

Definition GetReplaceChar (c : Z) : ascii :=
  match _antiSpamReplace !! c with Some a => a | None => ascii_of_nat (Z.to_nat (u8 c)) end.

Fixpoint normalize_loop (str : string) (special : Z) : string :=
  match str with
  | EmptyString => EmptyString
  | String ch s =>
      let c := Z.of_nat (nat_of_ascii ch) in
      if (c <? 0x80) || negb (special =? 0) then
        let newchar := GetReplaceChar (Z.lor special c) in
        if isalnum newchar then String (toupper newchar) (normalize_loop s 0) else normalize_loop s 0
      else normalize_loop s (u16 (Z.shiftl c 8))
  end.
Definition NormalizeForAntiSpam (str : string) : string := normalize_loop str 0.

Definition InsertSpamMsg (str : string) (_antiSpam : gset string) : gset string := {[NormalizeForAntiSpam str]} ∪ _antiSpam.
Definition CheckForSpam (data : string) (_antiSpam : gset string) : bool :=
  let str := NormalizeForAntiSpam data in
  existsb (fun entry => strContains str entry) (elements _antiSpam).
End Spam.

(** What [InitAntiSpam] would fill the table with; it returns before. *)
Definition latin_letters (from : Z) (letters : string) : list (Z * ascii) :=
  imap (fun i a => (from + Z.of_nat i, a)) (list_ascii_of_string letters).
Definition antiSpamReplace_table : gmap Z ascii :=
  list_to_map ([(0xc2a1, "i"%char); (0xc2a2, "c"%char); (0xc2a5, "y"%char); (0xc2a6, "i"%char)]
    ++ latin_letters 0xc380 "aaaaaaaceeeeiiiidnoooooxouuuuypsaaaaaaaceeeeiiiidnooooo" ++ latin_letters 0xc3b8 "ouuuuypy").
Definition InitAntiSpam (filter : gmap Z ascii * gset string) : gmap Z ascii * gset string := filter.

(** ** The state

    By a player's GUID: what its session and itself hold for the chat. *)
Record Talk := mkTalk { _muteTime : Z; _antiSpam : Z; afkMsg : string; dndMsg : string; WhisperList : list Z }.
Definition Talk_new (mute : Z) : Talk := mkTalk mute 0 EmptyString EmptyString [].
Definition CanSpeak (now : Z) (t : Talk) : bool := _muteTime t <=? now.
Definition IncAntiSpamCounter (t : Talk) : Talk := mkTalk (_muteTime t) (u8 (_antiSpam t + 1)) (afkMsg t) (dndMsg t) (WhisperList t).
Definition set_afkMsg (s : string) (t : Talk) : Talk := mkTalk (_muteTime t) (_antiSpam t) s (dndMsg t) (WhisperList t).
Definition set_dndMsg (s : string) (t : Talk) : Talk := mkTalk (_muteTime t) (_antiSpam t) (afkMsg t) s (WhisperList t).
Definition AddWhisperWhiteList (guid : Z) (t : Talk) : Talk :=
  mkTalk (_muteTime t) (_antiSpam t) (afkMsg t) (dndMsg t) (WhisperList t ++ [guid]).
Definition IsInWhisperWhiteList (guid : Z) (t : Talk) : bool := existsb (Z.eqb guid) (WhisperList t).

Definition isAcceptWhispers (p : Player) : bool := has_flag (p_ExtraFlags p) PLAYER_EXTRA_ACCEPT_WHISPERS.

Inductive TLANG :=
| LANG_UNKNOWN_LANGUAGE | LANG_WAIT_BEFORE_SPEAKING | LANG_WHISPER_REQ | LANG_GM_SILENCE | LANG_PLAYER_DND | LANG_PLAYER_AFK
| LANG_COMMAND_WHISPERON | LANG_PLAYER_AFK_DEFAULT | LANG_PLAYER_DND_DEFAULT.

Inductive TalkEvent :=
| Out (e : Effect)                                          (* a packet to a client *)
| SysText (session : Z) (t : CText)                         (* what a command says *)
| SysLang (session : Z) (l : TLANG) (args : list string)
| Notice (session : Z) (l : TLANG) (args : list string)     (* [SendNotification] *)
| NodePacket (session : Z) (p : WorldPacket)
| ErrorLog (line : string).                                 (* [outError] *)

(** [GMQualityItem], made and dropped with the assignment of a ticket
    ([Tickets]): the accounts, and what the two have said meanwhile. *)
Record QualityItem := mkQuality { q_gmAccId : Z; q_playerAccId : Z; gmText : string; playerText : string }.

Record TalkState := mkTalkState {
  ti_world : World;
  ti_chat : ChatState;
  ti_talk : gmap Z Talk;
  ti_sent_error : bool;
  ti_items : list QualityItem;                              (* in the order of their addresses *)
  ti_trace : list TalkEvent
}.

Abbreviation TM := (ST TalkState).

Definition talk_of (g : Z) (s : TalkState) : Talk := default (Talk_new 0) (ti_talk s !! g).
Definition set_ti_world (w : World) (s : TalkState) : TalkState := mkTalkState w (ti_chat s) (ti_talk s) (ti_sent_error s) (ti_items s) (ti_trace s).
Definition set_ti_talk (m : gmap Z Talk) (s : TalkState) : TalkState := mkTalkState (ti_world s) (ti_chat s) m (ti_sent_error s) (ti_items s) (ti_trace s).
Definition set_ti_items (l : list QualityItem) (s : TalkState) : TalkState :=
  mkTalkState (ti_world s) (ti_chat s) (ti_talk s) (ti_sent_error s) l (ti_trace s).
Definition add_event (e : TalkEvent) (s : TalkState) : TalkState :=
  mkTalkState (ti_world s) (ti_chat s) (ti_talk s) (ti_sent_error s) (ti_items s) (ti_trace s ++ [e]).

(** The world's trace is carried over as it grows. *)
Definition quiet (w : World) : World := mkWorld (m_PlayerMap w) (m_socialMap w) (_globalPlayerDataStore w) (w_time w) [].
Definition after_world (c : ChatState) (w : World) (s : TalkState) : TalkState :=
  mkTalkState (quiet w) c (ti_talk s) (ti_sent_error s) (ti_items s) (ti_trace s ++ (Out <$> w_trace w)).
Definition on_world (f : World -> World) : TM unit := modS (fun s => after_world (ti_chat s) (f (quiet (ti_world s))) s).

(** A dereferenced [Player*]. *)
Definition who (g : Z) : TM Player :=
  let! p := getS (fun s => FindPlayer g (ti_world s)) in
  match p with Some p => retS p | None => liftS UB end.
Definition with_talk (g : Z) (f : Talk -> Talk) : TM unit := modS (fun s => set_ti_talk (<[g := f (talk_of g s)]> (ti_talk s)) s).
Definition set_player (f : Player -> Player) (g : Z) : TM unit :=
  modS (fun s => set_ti_world (set_players (alter f g (m_PlayerMap (ti_world s))) (ti_world s)) s).

(** Something for a session's client, lost without a socket. *)
Definition to_client (g : Z) (e : TalkEvent) : TM unit :=
  modS (fun s => match FindPlayer g (ti_world s) with
                 | Some p => if p_connected p then add_event e s else s
                 | None => s
                 end).
Definition SendSys (g : Z) (l : TLANG) (args : list string) : TM unit := to_client g (SysLang g l args).
Definition SendNotification (g : Z) (l : TLANG) (args : list string) : TM unit := to_client g (Notice g l args).
Definition to_node (g : Z) (p : WorldPacket) : TM unit := modS (add_event (NodePacket g p)).

(** *** The quality of the service: [GMQualityManager]

    The first item that fits, and the list with it changed. *)
Fixpoint on_item (fits : QualityItem -> bool) (f : QualityItem -> QualityItem) (l : list QualityItem)
  : option (QualityItem * list QualityItem) :=
  match l with
  | [] => None
  | i :: l' =>
      if fits i then Some (f i, f i :: l')
      else match on_item fits f l' with Some (x, l') => Some (x, i :: l') | None => None end
  end.
Definition by_both (gm player : Z) (i : QualityItem) : bool := (q_gmAccId i =? gm) && (q_playerAccId i =? player).
Definition by_either (acc : Z) (i : QualityItem) : bool := (q_gmAccId i =? acc) || (q_playerAccId i =? acc).

Definition said (type : Z) (text receiver : string) : string :=
  "[" +:+ print_u64 type +:+ "][" +:+ receiver +:+ "]" +:+ c_str text +:+ ";".

(** [AddGMText] and [AddPlayerText]: all that has been said is the format of
    the error log's next line.  [false] when there is no such item. *)
Definition add_text (fits : QualityItem -> bool) (f : QualityItem -> QualityItem) (text_of : QualityItem -> string) : TM bool :=
  let! items := getS ti_items in
  match on_item fits f items with
  | None => retS false
  | Some (i, items) =>
      modS (set_ti_items items) ;!
      let! line := liftS (formatted (c_str (text_of i))) in
      modS (add_event (ErrorLog line)) ;!
      retS true
  end.
Definition AddGMText (fits : QualityItem -> bool) (type : Z) (text receiver : string) : TM bool :=
  add_text fits (fun i => mkQuality (q_gmAccId i) (q_playerAccId i) (gmText i +:+ said type text receiver) (playerText i)) gmText.
Definition AddPlayerText (fits : QualityItem -> bool) (type : Z) (text receiver : string) : TM bool :=
  add_text fits (fun i => mkQuality (q_gmAccId i) (q_playerAccId i) (gmText i) (playerText i +:+ said type text receiver)) playerText.

#[export] Instance talk_io (me : Z) : ChatIO TalkState := {
  SendSysMessage t s := (to_client me (SysText me t) s).1;
  io_set_sent b s := mkTalkState (ti_world s) (ti_chat s) (ti_talk s) b (ti_items s) (ti_trace s);
  HasSentErrorMessage := ti_sent_error
}.

Definition BuildPlayerChat (msgtype : Z) (text : string) (language : Z) (p : Player) : Packet :=
  mkPacket SMSG_MESSAGECHAT
    [U8 msgtype; U32 language; U64 (p_GUID p); U32 language; U64 (p_GUID p); U32 (u32 (Z.of_nat (String.length text) + 1)); Str text;
     U8 (GetChatTag p)].

(** ** The handler *)
Record TalkConfig := mkTalkConfig {
  CONFIG_CHAT_WHISPER_LEVEL_REQ : Z;
  CONFIG_ALLOW_TWO_SIDE_INTERACTION_CHAT : bool;
  CONFIG_CHATLOG_GM_ACTIVITY : bool
}.

(** The filter's table and texts, the texts of the locale, and what [Commands]
    leaves open: the table, the handlers and [strtok]. *)
Section Input.
  Context `{UnorderedIter}.
  Variable cfg : Config.
  Variable tcfg : TalkConfig.
  Variable filter_ : gmap Z ascii * gset string.
  Variable GetTrinityString : TLANG -> string.
  Variable table : list ChatCommand.
  Variable call_command : Handler.t -> string -> TM bool.
  Variable strtok_next : nat -> outcome (option string).

(** [Player::Whisper] *)
Definition Whisper (me : Z) (text : string) (language receiver : Z) : TM unit :=
  let language := if negb (language =? LANG_ADDON) then LANG_UNIVERSAL else language in
  let! p := who me in
  let! rPlayer := who receiver in
  let! rt := getS (talk_of receiver) in
  (if negb (isDND rPlayer) || isGameMaster p then
     on_world (SendPacket rPlayer (BuildPlayerChat CHAT_MSG_WHISPER text language p)) ;!
     whenS (negb (language =? LANG_ADDON)) (on_world (SendPacket p (BuildPlayerChat CHAT_MSG_WHISPER_INFORM text language rPlayer)))
   else SendSys me LANG_PLAYER_DND [p_name rPlayer; dndMsg rt]) ;!
  whenS (negb (isAcceptWhispers p) && negb (isGameMaster p) && negb (isGameMaster rPlayer))
    (set_player (SetAcceptWhispers true) me ;! SendSys me LANG_COMMAND_WHISPERON []) ;!
  whenS (isAFK rPlayer) (SendSys me LANG_PLAYER_AFK [p_name rPlayer; afkMsg rt]) ;!
  let! p := who me in
  whenS (isDND p && negb (isGameMaster rPlayer)) (set_player (fun p => (ToggleDND p).2) me).

Definition checkMsgForMute (me : Z) : TM bool :=
  let! _ := who me in
  let! t := getS (talk_of me) in
  let! now := getS (fun s => w_time (ti_world s)) in
  if negb (CanSpeak now t)
  then SendNotification me LANG_WAIT_BEFORE_SPEAKING [secsToTimeString (u64 (_muteTime t - now)) false] ;! retS true
  else retS false.

Definition command_mark (msg : string) : bool := mark_at 0 "!" msg || mark_at 0 "." msg.

Definition run_command (me : Z) (msg : string) : TM bool :=
  let! p := who me in
  modS (io_set_sent (ChatIO := talk_io me) false) ;!
  @ParseCommands TalkState (talk_io me) (Some (mkCmdIssuer (p_security p) true)) call_command strtok_next table msg.

Definition checkMsgForCommand (me : Z) (msg : string) (recv : WorldPacket) : TM bool :=
  if command_mark msg then
    (if strContains msg ".mute" || strContains msg ".unmute"
     then let! done := run_command me msg in whenS done (to_node me recv)
     else if strContains msg ".ticket" then run_command me msg ;! retS tt
     else to_node me recv) ;!
    retS true
  else retS false.

Definition is_spam (me : Z) (msg : string) : TM bool :=
  let! t := getS (talk_of me) in
  retS ((LOGON_DOS_STRIKE_LIMIT <? _antiSpam t) || CheckForSpam filter_.1 msg filter_.2).

Definition SendFakeChatNotification (me type : Z) (msg : string) (lang : Z) : TM unit :=
  let type := u8 type in
  let type := if type =? CHAT_MSG_WHISPER then CHAT_MSG_WHISPER_INFORM else type in
  let! p := who me in on_world (SendPacket p (BuildPlayerChat type msg lang p)).
Definition SendFakeChannelNotification (me : Z) (channel msg : string) (lang : Z) : TM unit :=
  let! p := who me in
  on_world (SendPacket p (mkPacket SMSG_MESSAGECHAT
    [U8 CHAT_MSG_CHANNEL; U32 lang; U64 (p_GUID p); U32 0; Str channel; U64 (p_GUID p); U32 (u32 (Z.of_nat (String.length msg) + 1)); Str msg;
     U8 (GetChatTag p)])).

Definition SendPlayerNotFoundNotice (me : Z) (name : string) : TM unit :=
  let! p := who me in on_world (SendPacket p (mkPacket SMSG_CHAT_PLAYER_NOT_FOUND [Str name])).
Definition SendWrongFactionNotice (me : Z) : TM unit :=
  let! p := who me in on_world (SendPacket p (mkPacket SMSG_CHAT_WRONG_FACTION [])).

Definition NoTarget : string := "NoTarget".

(** [OnGMChat] and [OnPlayerChat]; [outGMChatLogDB] is empty. *)
Definition named_player (receiver : string) : TM (option Player) :=
  if String.eqb receiver NoTarget then retS None else getS (fun s => FindPlayerByName (c_str receiver) (ti_world s)).

Definition OnGMChat (type : Z) (gm : Player) (text receiver : string) : TM unit :=
  whenS (CONFIG_CHATLOG_GM_ACTIVITY tcfg) (
    let! player := named_player receiver in
    let! found :=
      match player with
      | Some player => AddGMText (by_both (p_accountId gm) (p_accountId player)) type text receiver
      | None => retS false
      end in
    if found then retS tt else AddGMText (by_either (p_accountId gm)) type text receiver ;! retS tt).

Definition OnPlayerChat (type : Z) (player : Player) (text receiver : string) : TM unit :=
  whenS (CONFIG_CHATLOG_GM_ACTIVITY tcfg) (
    let! gm := named_player receiver in
    let! done :=
      match gm with
      | Some gm =>
          if IsVIPorPlayer (p_security gm) then retS true
          else AddPlayerText (by_both (p_accountId gm) (p_accountId player)) type text receiver
      | None => retS false
      end in
    if done then retS tt else AddPlayerText (by_either (p_accountId player)) type text receiver ;! retS tt).

Definition note_chat (p : Player) (type : Z) (msg receiver : string) : TM unit :=
  if negb (IsVIPorPlayer (p_security p)) then OnGMChat type p msg receiver else OnPlayerChat type p msg receiver.

(** Said aloud, to the guild or in a battleground: the node's business. *)
Definition pass_to_node (me type lang : Z) (msg : string) (recv : WorldPacket) : TM unit :=
  let! spam := is_spam me msg in
  if spam then with_talk me IncAntiSpamCounter ;! SendFakeChatNotification me type msg lang
  else to_node me recv.

Definition whisper_to (me type lang : Z) (target msg : string) : TM unit :=
  let! spam := is_spam me msg in
  if spam then with_talk me IncAntiSpamCounter ;! SendFakeChatNotification me type msg lang
  else
    let! sender := who me in
    if p_level sender <? CONFIG_CHAT_WHISPER_LEVEL_REQ tcfg
    then SendNotification me LANG_WHISPER_REQ [print_u64 (CONFIG_CHAT_WHISPER_LEVEL_REQ tcfg)]
    else
      let! n := liftS (normalizePlayerName target) in
      match n with
      | None => SendPlayerNotFoundNotice me target
      | Some target =>
          let! receiver := getS (fun s => FindPlayerByName target (ti_world s)) in
          let senderIsPlayer := IsPlayerAccount (p_security sender) in
          match receiver with
          | None => SendPlayerNotFoundNotice me target
          | Some receiver =>
              let receiverIsPlayer := IsPlayerAccount (p_security receiver) in
              let! rt := getS (talk_of (p_GUID receiver)) in
              if senderIsPlayer && negb receiverIsPlayer && negb (isAcceptWhispers receiver) && negb (IsInWhisperWhiteList (p_GUID sender) rt)
              then SendPlayerNotFoundNotice me target
              else if negb (CONFIG_ALLOW_TWO_SIDE_INTERACTION_CHAT tcfg) && senderIsPlayer && receiverIsPlayer
                      && negb (p_team sender =? p_team receiver)
              then SendWrongFactionNotice me
              else
                let! t := getS (talk_of me) in
                let! now := getS (fun s => w_time (ti_world s)) in
                if negb (CanSpeak now t) && negb (isGameMaster receiver)
                then SendNotification me LANG_GM_SILENCE [p_name sender]
                else
                  whenS (negb senderIsPlayer && negb (isAcceptWhispers sender) && negb (IsInWhisperWhiteList (p_GUID receiver) t))
                    (with_talk me (AddWhisperWhiteList (p_GUID receiver))) ;!
                  Whisper me msg lang (p_GUID receiver) ;!
                  whenS (negb (lang =? LANG_ADDON)) (note_chat sender type msg target)
          end
      end.

Definition say_in_channel (me lang : Z) (channel msg : string) : TM unit :=
  let! p := who me in
  if p_level p <? 10 then retS tt
  else
    let! spam := is_spam me msg in
    if spam then with_talk me IncAntiSpamCounter ;! SendFakeChannelNotification me channel msg lang
    else
      match channelMgr cfg (p_team p) with
      | None => retS tt
      | Some cMgr =>
          let! s := getS (fun s => s) in
          let! '(chn, w) := liftS (GetChannel cMgr channel p true (ti_chat s) (quiet (ti_world s))) in
          modS (after_world (ti_chat s) w) ;!
          match chn with
          | None => retS tt
          | Some ptr =>
              let! s := getS (fun s => s) in
              let! '(st, w) := liftS (call ptr (returns (Say cfg (p_GUID p) (Some msg) lang)) (ti_chat s) (quiet (ti_world s))) in
              modS (after_world st w)
          end
      end.

(** [CHAT_MSG_AFK] and [CHAT_MSG_DND]: one mark, the other is taken off. *)
Definition mark_away (me : Z) (msg : string) (marked other : Player -> bool) (toggle toggle_other : Player -> bool * Player)
    (set_text : string -> Talk -> Talk) (default_text : TLANG) : TM unit :=
  let! p := who me in
  whenS (String.eqb msg EmptyString || negb (marked p))
    (whenS (negb (marked p)) (with_talk me (set_text (if String.eqb msg EmptyString then GetTrinityString default_text else msg))) ;!
     set_player (fun p => (toggle p).2) me ;!
     let! p := who me in
     whenS (marked p && other p) (set_player (fun p => (toggle_other p).2) me)).

(** The second [switch]. *)
Definition deliver (me type lang : Z) (target msg : string) (recv : WorldPacket) : TM unit :=
  if among [CHAT_MSG_SAY; CHAT_MSG_EMOTE; CHAT_MSG_YELL] type then
    (let! p := who me in whenS (negb (lang =? LANG_ADDON)) (note_chat p type msg NoTarget)) ;!
    pass_to_node me type lang msg recv
  else if among [CHAT_MSG_GUILD; CHAT_MSG_OFFICER; CHAT_MSG_BATTLEGROUND; CHAT_MSG_BATTLEGROUND_LEADER] type then pass_to_node me type lang msg recv
  else if type =? CHAT_MSG_WHISPER then whisper_to me type lang target msg
  else if type =? CHAT_MSG_CHANNEL then say_in_channel me lang target msg
  else if type =? CHAT_MSG_AFK then mark_away me msg isAFK isDND ToggleAFK ToggleDND set_afkMsg LANG_PLAYER_AFK_DEFAULT
  else if type =? CHAT_MSG_DND then mark_away me msg isDND isAFK ToggleDND ToggleAFK set_dndMsg LANG_PLAYER_DND_DEFAULT
  else retS tt.

(** The first [switch]: the receiver or channel, and the text. *)
Definition read_message (type : Z) (b : ByteBuffer) : outcome (string * string) :=
  if among [CHAT_MSG_SAY; CHAT_MSG_EMOTE; CHAT_MSG_YELL; CHAT_MSG_PARTY; CHAT_MSG_PARTY_LEADER; CHAT_MSG_GUILD; CHAT_MSG_OFFICER;
            CHAT_MSG_RAID; CHAT_MSG_RAID_LEADER; CHAT_MSG_RAID_WARNING; CHAT_MSG_BATTLEGROUND; CHAT_MSG_BATTLEGROUND_LEADER;
            CHAT_MSG_AFK; CHAT_MSG_DND] type
  then let* '(msg, _) := read_string b in Ok (EmptyString, msg)
  else if among [CHAT_MSG_WHISPER; CHAT_MSG_CHANNEL] type
  then let* '(target, b) := read_string b in let* '(msg, _) := read_string b in Ok (target, msg)
  else Ok (EmptyString, EmptyString).

(** The checks between the two. *)
Definition check_message (me : Z) (msg : string) (recv : WorldPacket) : TM bool :=
  let! c := checkMsgForCommand me msg recv in
  if c then retS true else checkMsgForMute me.

Definition addon_types : list Z := [CHAT_MSG_PARTY; CHAT_MSG_RAID; CHAT_MSG_GUILD; CHAT_MSG_BATTLEGROUND; CHAT_MSG_WHISPER].

Definition HandleMessagechatOpcode (me : Z) (recv : WorldPacket) : TM unit :=
  let! '(type, b) := liftS (read 4 (wp_buf recv)) in
  let! '(lang, b) := liftS (read 4 b) in
  if MAX_CHAT_MSG_TYPE <=? type then retS tt
  else if negb (GetLanguageDescByID lang) then SendNotification me LANG_UNKNOWN_LANGUAGE []
  else if (lang =? LANG_ADDON) && negb (among addon_types type) then let! _ := who me in retS tt
  else
    let! '(target, msg) := liftS (read_message type b) in
    if among [CHAT_MSG_AFK; CHAT_MSG_DND] type then
      let! stop := check_message me msg recv in
      if stop then retS tt else deliver me type lang target msg recv
    else if lang =? LANG_ADDON then deliver me type lang target msg recv
    else if String.eqb msg EmptyString then retS tt
    else
      let! stop := check_message me msg recv in
      if stop then let! p := who me in whenS (negb (IsVIPorPlayer (p_security p))) (OnGMChat CHAT_MSG_SYSTEM p msg NoTarget)
      else deliver me type lang target (StripLineInvisibleChars msg) recv.

(** [HandleSendMail] of [Handler/MiscHandler.cpp]: letters pass the same filter. *)
Definition HandleSendMail (me : Z) (recv : WorldPacket) : TM unit :=
  let! b := liftS (read_skip 8 (wp_buf recv)) in
  let! '(_, b) := liftS (read_string b) in
  let! '(subject, b) := liftS (read_string b) in
  let! '(body, _) := liftS (read_string b) in
  let! t := getS (talk_of me) in
  if (LOGON_DOS_STRIKE_LIMIT <? _antiSpam t) || CheckForSpam filter_.1 subject filter_.2 || CheckForSpam filter_.1 body filter_.2
  then with_talk me IncAntiSpamCounter ;!
       to_client me (Out (Send me (mkPacket SMSG_SEND_MAIL_RESULT [U32 0; U32 MAIL_SEND; U32 MAIL_OK])))
  else to_node me recv.
End Input.
