(* ===== verification/ChatInputFacts.v ===== *)
(** * Chat input: what a line becomes, and what is kept from others *)
From Stdlib Require Import Ascii String ZArith Lia.
From stdpp Require Import base gmap sets list strings.
From S2P Require Import Prelude ByteBuffer Utf8 Util World Channel ChannelMgr StateM Commands Bans ChatInput.
Import Msg.

Open Scope Z_scope.

(** ** Invisible characters *)

(** Each run of invisible characters is one space. *)
Fixpoint collapse (space : bool) (l : list ascii) : list ascii :=
  match l with
  | [] => []
  | c :: l' => if invChars c then (if space then collapse true l' else " "%char :: collapse true l') else c :: collapse false l'
  end.

Lemma overwrite (done gap : list ascii) (c d : ascii) rest :
  exists gap', length gap' = length gap /\ <[length done := d]> (done ++ gap ++ c :: rest) = (done ++ [d]) ++ gap' ++ rest.
Proof.
  rewrite insert_app_r_alt, Nat.sub_diag by done. destruct gap as [|g gap]; [exists []|exists (gap ++ [c])].
  - split; [done|]. cbn. by rewrite <- app_assoc.
  - rewrite length_app. cbn. split; [lia|]. by rewrite <- !app_assoc.
Qed.

(** What is written stays behind what is read. *)
Lemma strip_loop_collapse rest done gap space :
  exists tail, let l := done ++ gap ++ rest in
    strip_loop (length rest) (length done + length gap) l (length done) space
      = (done ++ collapse space rest ++ tail, length done + length (collapse space rest))%nat
    /\ length (done ++ collapse space rest ++ tail) = length l.
Proof.
  revert done gap space. induction rest as [|c rest IH]; intros done gap space; cbn [strip_loop length collapse].
  - exists gap. rewrite !app_nil_r, Nat.add_0_r. done.
  - assert ((done ++ gap ++ c :: rest) !! (length done + length gap)%nat = Some c) as ->.
    { rewrite app_assoc, <- length_app. by apply list_lookup_middle. }
    assert (forall d space', exists tail : list ascii,
      strip_loop (length rest) (S (length done + length gap)) (<[length done := d]> (done ++ gap ++ c :: rest)) (S (length done)) space'
        = (done ++ d :: collapse space' rest ++ tail, length done + S (length (collapse space' rest)))%nat
      /\ length (done ++ d :: collapse space' rest ++ tail) = length (done ++ gap ++ c :: rest)) as Hwrite.
    { intros d space'. destruct (overwrite done gap c d rest) as (gap' & Hl & ->). destruct (IH (done ++ [d]) gap' space') as (tail & Ht & Hlen).
      exists tail. rewrite length_app, Hl in Ht. cbn [length] in Ht. rewrite <- !app_assoc in Ht, Hlen. cbn [app] in Ht, Hlen.
      rewrite (Nat.add_comm (length done) 1) in Ht. cbn [Nat.add] in Ht. rewrite <- app_assoc. cbn [app]. rewrite Ht. split; [f_equal; lia|].
      rewrite Hlen, !length_app. cbn. rewrite length_app. lia. }
    destruct (invChars c) eqn:Ec; [destruct space|].
    + destruct (IH done (gap ++ [c]) true) as (tail & Ht & Hlen). rewrite length_app, <- app_assoc in Ht. cbn [app length] in Ht.
      rewrite Nat.add_1_r, Nat.add_succ_r in Ht. rewrite <- app_assoc in Hlen. cbn [app] in Hlen. by exists tail.
    + apply Hwrite.
    + destruct (Nat.eqb_spec (length done) (length done + length gap)) as [E|Hne]; [|apply Hwrite].
      assert (gap = []) as -> by (apply length_zero_iff_nil; lia). destruct (IH (done ++ [c]) [] false) as (tail & Ht & Hlen).
      exists tail. rewrite length_app in Ht. cbn [length app] in *. rewrite <- !app_assoc in Ht, Hlen. cbn [app] in Ht, Hlen.
      rewrite Nat.add_0_r in *. rewrite Nat.add_1_r in Ht. rewrite Ht. split; [f_equal; lia|done].
Qed.

(** The text is its collapsed form, or nothing where that names a texture. *)
Lemma strip_is_collapse str :
  StripLineInvisibleChars str =
    let r := string_of_list_ascii (collapse false (list_ascii_of_string str)) in
    if strContains r "|TInterface" then EmptyString else r.
Proof.
  unfold StripLineInvisibleChars. set (l := list_ascii_of_string str).
  destruct (strip_loop_collapse l [] [] false) as (tail & Ht & Hlen). cbn [app length Nat.add] in Ht, Hlen. rewrite Ht.
  set (c := collapse false l) in *.
  assert ((if (length c <? length (c ++ tail))%nat then take (length c) (c ++ tail) else c ++ tail) = c) as ->; [|done].
  destruct (Nat.ltb_spec (length c) (length (c ++ tail))) as [|Hle]; [by rewrite take_app_length|].
  rewrite length_app in Hle. assert (tail = []) as -> by (apply length_zero_iff_nil; lia). by rewrite app_nil_r.
Qed.

(** ** Normal forms *)
Section Normal.
  Variable replace : gmap Z ascii.
  (** The table is about pairs of bytes whose second is no ASCII character. *)
  Hypothesis pairs_only : forall c a, replace !! c = Some a -> 0x80 <= c mod 0x100.

(** What is left of a pair begun in the text. *)
Fixpoint begun (str : string) (special : Z) : Z :=
  match str with
  | EmptyString => special
  | String ch s =>
      let c := Z.of_nat (nat_of_ascii ch) in
      if (c <? 0x80) || negb (special =? 0) then begun s 0 else begun s (u16 (Z.shiftl c 8))
  end.

Lemma normalize_app a b special :
  normalize_loop replace (a +:+ b) special = normalize_loop replace a special +:+ normalize_loop replace b (begun a special).
Proof.
  revert special. induction a as [|ch a IH]; intros special; [by rewrite !string_app_nil_l|].
  rewrite string_app_cons. cbn [normalize_loop begun]. case_if; [|by rewrite IH]. case_match; [by rewrite IH, string_app_cons|by rewrite IH].
Qed.

(** Such a pair has an empty second byte. *)
Definition half (special : Z) : Prop := special mod 0x100 = 0 /\ 0 <= special < 2 ^ 16.
Lemma half_zero : half 0.
Proof. done. Qed.
Lemma half_shift c : 0 <= c < 256 -> half (u16 (Z.shiftl c 8)).
Proof.
  intros Hc. rewrite Z.shiftl_mul_pow2 by done. unfold half. rewrite wrap_small by lia. change (2 ^ 8) with 0x100. rewrite Z.mod_mul by done. lia.
Qed.
Lemma half_lor special c : half special -> 0 <= c < 256 -> Z.lor special c mod 0x100 = c.
Proof.
  intros [Hs _] Hc. change 0x100 with (2 ^ 8) in *. rewrite <- Z.land_ones in * by done. rewrite Z.land_lor_distr_l, Hs, Z.lor_0_l, Z.land_ones by done.
  by apply Z.mod_small.
Qed.

Lemma ascii_range ch : 0 <= Z.of_nat (nat_of_ascii ch) < 256.
Proof. pose proof (nat_ascii_bounded ch). lia. Qed.

(** An ASCII character stands for itself, whatever is before it. *)
Lemma replace_ascii special ch :
  half special -> Z.of_nat (nat_of_ascii ch) < 0x80 -> GetReplaceChar replace (Z.lor special (Z.of_nat (nat_of_ascii ch))) = ch.
Proof.
  intros Hs Hc. pose proof (ascii_range ch) as Hr. unfold GetReplaceChar. pose proof (half_lor special _ Hs Hr) as Hl.
  destruct (replace !! _) as [a|] eqn:E; [apply pairs_only in E; lia|].
  unfold u8, wrap. change (2 ^ 8) with 0x100. by rewrite Hl, Nat2Z.id, ascii_nat_embedding.
Qed.

Lemma invisible_ascii c : invChars c = true -> Z.of_nat (nat_of_ascii c) < 0x80 /\ isalnum c = false.
Proof.
  unfold invChars, isalnum. rewrite !orb_true_iff, !Nat.eqb_eq. intros [[[E|E]|E]|E]; rewrite E; done.
Qed.

(** Collapsing does not change the normal form. *)
Lemma normalize_collapse l space special :
  half special -> (space = true -> special = 0) ->
  normalize_loop replace (string_of_list_ascii (collapse space l)) special = normalize_loop replace (string_of_list_ascii l) special.
Proof.
  revert space special. induction l as [|c l IH]; intros space special Hs H0; [done|]. cbn [collapse string_of_list_ascii].
  destruct (invChars c) eqn:Ec.
  - destruct (invisible_ascii c Ec) as [Hc Hn]. cbn [normalize_loop]. rewrite (proj2 (Z.ltb_lt _ _) Hc). cbn [orb].
    rewrite replace_ascii, Hn by done. destruct space.
    + rewrite (H0 eq_refl). by apply IH.
    + cbn [string_of_list_ascii normalize_loop]. rewrite (replace_ascii special " ") by done. cbn. apply IH; [apply half_zero|done].
  - cbn [string_of_list_ascii normalize_loop]. case_if.
    + rewrite IH; [done|apply half_zero|done].
    + apply IH; [apply half_shift, ascii_range|done].
Qed.

Lemma normalize_strip str :
  strContains (string_of_list_ascii (collapse false (list_ascii_of_string str))) "|TInterface" = false ->
  NormalizeForAntiSpam replace (StripLineInvisibleChars str) = NormalizeForAntiSpam replace str.
Proof.
  intros Ht. rewrite strip_is_collapse. cbv zeta. rewrite Ht. unfold NormalizeForAntiSpam.
  rewrite normalize_collapse by done. by rewrite string_of_list_ascii_of_string.
Qed.

(** A normal form is made of digits and capitals, and is its own. *)
Lemma isalnum_ascii c : isalnum c = true -> Z.of_nat (nat_of_ascii c) < 0x80.
Proof. unfold isalnum. rewrite !orb_true_iff, !andb_true_iff, !Nat.leb_le. lia. Qed.
Lemma isalnum_toupper c : isalnum c = true -> isalnum (toupper c) = true /\ toupper (toupper c) = toupper c.
Proof. destruct c as [[] [] [] [] [] [] [] []]; by vm_compute. Qed.

Lemma normal_upper str special : string_all (fun c => isalnum c = true /\ toupper c = c) (normalize_loop replace str special).
Proof.
  revert special. induction str as [|ch str IH]; intros special; cbn [normalize_loop]; [done|]. case_if; [|by apply IH].
  case_match eqn:E; [|by apply IH]. split; [by apply isalnum_toupper|by apply IH].
Qed.

Lemma normalize_upper str : string_all (fun c => isalnum c = true /\ toupper c = c) str -> normalize_loop replace str 0 = str.
Proof.
  induction str as [|ch str IH]; [done|]. intros [[Ha Hu] Hs]. cbn [normalize_loop].
  pose proof (isalnum_ascii ch Ha) as Hc. rewrite (proj2 (Z.ltb_lt _ _) Hc). cbn [orb]. rewrite replace_ascii, Ha, Hu by done. by rewrite IH.
Qed.

Lemma normal_form_once str : NormalizeForAntiSpam replace (NormalizeForAntiSpam replace str) = NormalizeForAntiSpam replace str.
Proof. apply normalize_upper, normal_upper. Qed.

(** Neither case nor any other ASCII character matters. *)
Lemma normal_form_case str : string_all (fun c => Z.of_nat (nat_of_ascii c) < 0x80) str ->
  NormalizeForAntiSpam replace (string_map toupper str) = NormalizeForAntiSpam replace str.
Proof.
  unfold NormalizeForAntiSpam. induction str as [|ch str IH]; [done|]. intros [Hc Hs]. cbn [string_map normalize_loop].
  assert (Z.of_nat (nat_of_ascii (toupper ch)) < 0x80 /\ isalnum (toupper ch) = isalnum ch /\ toupper (toupper ch) = toupper ch) as (Hu & Ha & Ht).
  { clear -Hc. destruct ch as [[] [] [] [] [] [] [] []]; by vm_compute. }
  rewrite (proj2 (Z.ltb_lt _ _) Hc), (proj2 (Z.ltb_lt _ _) Hu). cbn [orb]. rewrite !replace_ascii, Ha, Ht, IH by done. done.
Qed.

Lemma normal_form_ignores a c b :
  Z.of_nat (nat_of_ascii c) < 0x80 -> isalnum c = false -> begun a 0 = 0 ->
  NormalizeForAntiSpam replace (a +:+ String c b) = NormalizeForAntiSpam replace (a +:+ b).
Proof.
  intros Hc Hn Ha. unfold NormalizeForAntiSpam. rewrite !normalize_app, Ha. cbn [normalize_loop].
  rewrite (proj2 (Z.ltb_lt _ _) Hc). cbn [orb]. by rewrite replace_ascii, Hn.
Qed.
End Normal.

(** ** Finding a part of a text *)
Lemma substring_part a b c : substring (String.length a) (String.length b) (a +:+ b +:+ c) = b.
Proof.
  induction a as [|x a IH]; [|by rewrite string_app_cons]. rewrite string_app_nil_l. change (String.length "") with 0%nat.
  induction b as [|y b IHb]; [by rewrite string_app_nil_l; destruct c|]. rewrite string_app_cons. cbn [String.length substring]. by rewrite IHb.
Qed.

Lemma contains_part a b c : strContains (a +:+ b +:+ c) b = true.
Proof.
  unfold strContains. destruct (String.index 0 b _) eqn:E; [done|]. destruct (String.eqb_spec b EmptyString) as [->|Hne].
  - by destruct (a +:+ "" +:+ c).
  - exfalso. refine (index_correct3 0 (String.length a) b (a +:+ b +:+ c) E Hne _ (substring_part a b c)). lia.
Qed.

(** ** The log of what is said

    It is harmless while it is off, and while no text in it has a percent sign. *)
Definition plain_item (i : QualityItem) : Prop := percent_free (gmText i) /\ percent_free (playerText i).
Definition log_plain (tcfg : TalkConfig) (l : list QualityItem) : Prop :=
  CONFIG_CHATLOG_GM_ACTIVITY tcfg = false \/ Forall plain_item l.
Definition text_plain (tcfg : TalkConfig) (text receiver : string) : Prop :=
  CONFIG_CHATLOG_GM_ACTIVITY tcfg = false \/ percent_free text /\ percent_free receiver.

Lemma c_str_percent_free s : percent_free s -> percent_free (c_str s).
Proof. induction s as [|c s IH]; [done|]. intros [Hc Hs]. cbn [c_str]. case_if; [done|]. split; [done|by apply IH]. Qed.

Lemma said_plain type text receiver :
  0 <= type -> percent_free text -> percent_free receiver -> percent_free (said type text receiver).
Proof.
  intros Ht Hx Hr. unfold said. repeat first [apply percent_free_app | by repeat split | by apply percent_free_u64 | done | by apply c_str_percent_free].
Qed.

Lemma on_item_plain fits f l i l' :
  (forall i, plain_item i -> plain_item (f i)) -> Forall plain_item l -> on_item fits f l = Some (i, l') ->
  plain_item i /\ Forall plain_item l'.
Proof.
  intros Hf Hl. revert i l'. induction Hl as [|x l Hx Hl IH]; intros i l'; cbn [on_item]; [done|]. case_if.
  - intros [= <- <-]. split; [by apply Hf|]. constructor; [by apply Hf|done].
  - destruct (on_item fits f l) as [[y l1]|]; [|done]. intros [= <- <-]. destruct (IH y l1 eq_refl). split; [done|by constructor].
Qed.

Lemma collapse_plain space l : percent_free (string_of_list_ascii l) -> percent_free (string_of_list_ascii (collapse space l)).
Proof.
  revert space. induction l as [|c l IH]; intros space; [done|]. cbn [string_of_list_ascii collapse]. intros [Hc Hl].
  repeat case_match; cbn [string_of_list_ascii]; try (by apply IH); (split; [done|by apply IH]).
Qed.

Lemma strip_plain str : percent_free str -> percent_free (StripLineInvisibleChars str).
Proof.
  intros Hs. rewrite strip_is_collapse. cbv zeta. case_if; [done|]. apply collapse_plain. by rewrite string_of_list_ascii_of_string.
Qed.

Section Logging.
  Context `{UnorderedIter}.
  Variable tcfg : TalkConfig.

(** What the log changes of the state: its items and the trace, by a line of its own. *)
Definition logged (s s' : TalkState) : Prop :=
  ti_world s' = ti_world s /\ ti_chat s' = ti_chat s /\ ti_talk s' = ti_talk s /\ ti_sent_error s' = ti_sent_error s
  /\ exists l, ti_trace s' = ti_trace s ++ l /\ Forall (fun e => match e with ErrorLog _ => True | _ => False end) l.

Lemma logged_refl s : logged s s.
Proof. repeat (split; [done|]). exists []. by rewrite app_nil_r. Qed.

(** It fails only where a text with a percent sign gets in, or was in already. *)
Definition ends_logged {A} (m : ST TalkState A) (s : TalkState) (plain : Prop) : Prop :=
  wp m (fun _ s' => logged s s' /\ (plain -> log_plain tcfg (ti_items s'))) (fun s' => logged s s' /\ ~ plain) s.

Lemma add_text_logged fits f text_of s :
  text_of = gmText \/ text_of = playerText ->
  ends_logged (add_text fits f text_of) s (Forall plain_item (ti_items s) /\ forall i, plain_item i -> plain_item (f i)).
Proof.
  intros Ht. unfold ends_logged, add_text. wp_step. wp_step. destruct (on_item fits f (ti_items s)) as [[i items]|] eqn:Ei.
  2: { wp_step. split; [apply logged_refl|]. intros [Hs _]. by right. }
  assert (logged s (set_ti_items items s)) as Hset by (repeat (split; [done|]); exists []; by rewrite app_nil_r).
  wp_step. wp_step. destruct (formatted (c_str (text_of i))) as [line|e|] eqn:Ef.
  - wp_step. apply wpS_ret. wp_step. wp_step. wp_step. split; [|intros [Hs Hf]; right; by eapply on_item_plain].
    repeat (split; [done|]). exists [ErrorLog line]. split; [done|by repeat constructor].
  - by apply formatted_throws in Ef.
  - wp_step. apply wp_UB. split; [done|]. intros [Hs Hf]. destruct (on_item_plain _ _ _ _ _ Hf Hs Ei) as [[Hg Hp] _].
    rewrite formatted_plain in Ef; [done|]. apply c_str_percent_free. by destruct Ht as [-> | ->].
Qed.

Lemma logged_trans s1 s2 s3 : logged s1 s2 -> logged s2 s3 -> logged s1 s3.
Proof.
  intros (H1 & H2 & H3 & H4 & l & Ht & Hl) (K1 & K2 & K3 & K4 & k & Kt & Kl).
  repeat (split; [congruence|]). exists (l ++ k). rewrite Kt, Ht, app_assoc. split; [done|by apply Forall_app_2].
Qed.

(** First the item of the two, if there is one, then that of the one. *)
Lemma twice_logged (first second : TM bool) s plain :
  CONFIG_CHATLOG_GM_ACTIVITY tcfg = true ->
  ends_logged first s plain -> (forall s', (plain -> Forall plain_item (ti_items s')) -> ends_logged second s' plain) ->
  ends_logged (let! found := first in if found then retS tt else second ;! retS tt) s plain.
Proof.
  intros Hc Hf Hs. unfold ends_logged in *. wp_step. eapply wpS_mono; [exact Hf| |done]. intros found s1 [H1 Hp1].
  destruct found; [by wp_step|]. wp_step. eapply wpS_mono; [apply Hs| |].
  - intros Hp. destruct (Hp1 Hp) as [?|?]; congruence.
  - intros b s2 [H2 Hp2]. wp_step. split; [by eapply logged_trans|done].
  - intros s2 [H2 Hn]. split; [by eapply logged_trans|done].
Qed.

Lemma named_logged {A} receiver (k : option Player -> TM A) s plain :
  (forall p, ends_logged (k p) s plain) -> ends_logged (let! p := named_player receiver in k p) s plain.
Proof. intros Hk. unfold ends_logged, named_player in *. wp_step. wp_step; wp_step; apply Hk. Qed.

Lemma ret_logged {A} (a : A) s (plain : Prop) : (plain -> log_plain tcfg (ti_items s)) -> ends_logged (retS a) s plain.
Proof. intros Hp. split; [apply logged_refl|done]. Qed.

Lemma ends_mono {A} (m : TM A) s (p q : Prop) :
  (p -> q) -> ends_logged m s q -> ends_logged m s p.
Proof. intros Hpq Hm. eapply wpS_mono; [exact Hm| |]; [intros a s' [? ?]|intros s' [? ?]]; split; auto. Qed.

(** What a text must be for the log to stay harmless. *)
Definition addition (type : Z) (text receiver : string) (s : TalkState) : Prop :=
  Forall plain_item (ti_items s) /\ 0 <= type /\ percent_free text /\ percent_free receiver.

Lemma gm_text_logged fits type text receiver s :
  ends_logged (AddGMText fits type text receiver) s (addition type text receiver s).
Proof.
  eapply ends_mono; [|apply add_text_logged; by left]. intros (Hs & Ht & Htx & Hr). split; [done|].
  intros i [Hg Hp]. split; [|done]. apply percent_free_app; [done|by apply said_plain].
Qed.
Lemma player_text_logged fits type text receiver s :
  ends_logged (AddPlayerText fits type text receiver) s (addition type text receiver s).
Proof.
  eapply ends_mono; [|apply add_text_logged; by right]. intros (Hs & Ht & Htx & Hr). split; [done|].
  intros i [Hg Hp]. split; [done|]. apply percent_free_app; [done|by apply said_plain].
Qed.

(** What a line of chat adds to the log. *)
Lemma gm_logged type p text receiver s :
  ends_logged (OnGMChat tcfg type p text receiver) s (log_plain tcfg (ti_items s) /\ 0 <= type /\ text_plain tcfg text receiver).
Proof.
  unfold OnGMChat, log_plain, text_plain.
  destruct (CONFIG_CHATLOG_GM_ACTIVITY tcfg) eqn:Hc; cbn [whenS]; [|apply ret_logged; intros _; by left].
  apply (ends_mono _ _ _ (addition type text receiver s)).
  { intros ([|?] & ? & [|[? ?]]); by repeat split. }
  apply named_logged. intros o. apply twice_logged; [done| |].
  - destruct o as [pl|]; [apply gm_text_logged|]. apply ret_logged. intros (? & _). by right.
  - intros s' Hs'. eapply ends_mono; [|apply gm_text_logged]. intros Ha. split; [by apply Hs'|apply Ha].
Qed.
Lemma player_logged type p text receiver s :
  ends_logged (OnPlayerChat tcfg type p text receiver) s (log_plain tcfg (ti_items s) /\ 0 <= type /\ text_plain tcfg text receiver).
Proof.
  unfold OnPlayerChat, log_plain, text_plain.
  destruct (CONFIG_CHATLOG_GM_ACTIVITY tcfg) eqn:Hc; cbn [whenS]; [|apply ret_logged; intros _; by left].
  apply (ends_mono _ _ _ (addition type text receiver s)).
  { intros ([|?] & ? & [|[? ?]]); by repeat split. }
  apply named_logged. intros o. apply twice_logged; [done| |].
  - destruct o as [gm|]; [case_if; [apply ret_logged; intros (? & _); by right|apply player_text_logged]|].
    apply ret_logged. intros (? & _). by right.
  - intros s' Hs'. eapply ends_mono; [|apply player_text_logged]. intros Ha. split; [by apply Hs'|apply Ha].
Qed.
Lemma note_logged p type text receiver s :
  ends_logged (note_chat tcfg p type text receiver) s (log_plain tcfg (ti_items s) /\ 0 <= type /\ text_plain tcfg text receiver).
Proof. unfold note_chat. case_if; [apply gm_logged|apply player_logged]. Qed.
End Logging.

(** ** What stays between the server and the sender *)
Section Private.
  Context `{UnorderedIter}.
  Variable cfg : Config.
  Variable tcfg : TalkConfig.
  Variable filter_ : gmap Z ascii * gset string.
  Variable GetTrinityString : TLANG -> string.
  Variable table : list ChatCommand.
  Variable call_command : Handler.t -> string -> ST TalkState bool.
  Variable strtok_next : nat -> outcome (option string).

Abbreviation handler := (HandleMessagechatOpcode cfg tcfg filter_ GetTrinityString table call_command strtok_next).

(** Sent to that session, or to the log. *)
Definition own (me : Z) (e : TalkEvent) : Prop :=
  match e with
  | Out (Send g _) | SysLang g _ _ | Notice g _ _ => g = me
  | ErrorLog _ => True
  | _ => False
  end.

(** Players and channels are as before, and nothing has gone elsewhere. *)
Definition private (me : Z) (s0 s : TalkState) : Prop :=
  m_PlayerMap (ti_world s) = m_PlayerMap (ti_world s0) /\ ti_chat s = ti_chat s0
  /\ exists l, ti_trace s = ti_trace s0 ++ l /\ Forall (own me) l.

Lemma private_refl me s : private me s s.
Proof. split; [done|]. split; [done|]. exists []. by rewrite app_nil_r. Qed.

Lemma private_event me s0 s e : private me s0 s -> own me e -> private me s0 (add_event e s).
Proof.
  intros (Hp & Hc & l & Ht & Hl) He. split; [done|]. split; [done|]. exists (l ++ [e]). cbn [add_event ti_trace]. rewrite Ht, app_assoc.
  split; [done|]. by apply Forall_app_2; [|repeat constructor].
Qed.

Lemma private_client me s0 s g e E : private me s0 s -> own me e -> wp (to_client g e) (fun _ => private me s0) E s.
Proof. intros Hs He. unfold to_client. wp_step. repeat case_match; try done. by apply private_event. Qed.

(** The log keeps to itself, whether the text is a good format or not. *)
Lemma private_logged {A} me s0 s (m : ST TalkState A) plain :
  private me s0 s -> ends_logged tcfg m s plain -> wp m (fun _ => private me s0) (private me s0) s.
Proof.
  intros (Hp & Hc & l & Ht & Hl) Hm.
  assert (forall s', logged s s' -> private me s0 s') as Hpr.
  { intros s' (E1 & E2 & _ & _ & k & Ek & Hk). split; [by rewrite E1|]. split; [by rewrite E2|].
    exists (l ++ k). rewrite Ek, Ht, app_assoc. split; [done|]. apply Forall_app_2; [done|].
    eapply Forall_impl; [exact Hk|]. intros e He. by destruct e. }
  eapply wpS_mono; [exact Hm| |]; [by intros a s' [? _]; apply Hpr|by intros s' [? _]; apply Hpr].
Qed.

Lemma private_talk me s0 s f E : private me s0 s -> wp (with_talk me f) (fun _ => private me s0) E s.
Proof. intros Hs. unfold with_talk. by wp_step. Qed.

Lemma private_send me s0 s p pk E :
  private me s0 s -> p_GUID p = me -> wp (on_world (SendPacket p pk)) (fun _ => private me s0) E s.
Proof.
  intros (Hp & Hc & l & Ht & Hl) Hg. unfold on_world. wp_step. unfold SendPacket, after_world. destruct (p_connected p).
  - split; [done|]. split; [done|]. exists (l ++ [Out (Send (p_GUID p) pk)]). cbn. rewrite Ht, app_assoc. split; [done|]. by apply Forall_app_2; [|repeat constructor].
  - split; [done|]. split; [done|]. exists l. cbn. by rewrite app_nil_r.
Qed.

Lemma private_who me s0 s p (Q : Player -> TalkState -> Prop) E :
  private me s0 s -> FindPlayer me (ti_world s0) = Some p -> Q p s -> wp (who me) Q E s.
Proof. intros (Hp & _) Hf HQ. unfold who. wp_step. wp_step. unfold FindPlayer in *. rewrite Hp, Hf. by wp_step. Qed.

Lemma wp_always {A} (m : ST TalkState A) (P : TalkState -> Prop) s s' r : wp m (fun _ => P) P s -> m s = (s', r) -> P s'.
Proof. unfold wp. intros Hwp E. rewrite E in Hwp. by destruct r. Qed.

(** A line that is no command, of a player who may not speak. *)
Lemma muted_check me msg recv s0 s p :
  private me s0 s -> FindPlayer me (ti_world s0) = Some p -> command_mark msg = false ->
  CanSpeak (w_time (ti_world s)) (talk_of me s) = false ->
  wp (check_message table call_command strtok_next me msg recv) (fun stop s' => stop = true /\ private me s0 s') (private me s0) s.
Proof.
  intros Hs Hf Hm Hmute. unfold check_message, checkMsgForCommand. rewrite Hm. wp_step. wp_step. unfold checkMsgForMute.
  wp_step. eapply private_who; [done..|]. wp_step. wp_step. wp_step. wp_step. rewrite Hmute. cbn [negb]. wp_step.
  eapply wpS_mono; [by apply private_client| |done]. intros [] s' Hs'. by wp_step.
Qed.

(** Spam is shown to its author. *)
Lemma spam_branch {A} me msg (m n : ST TalkState A) Q E s :
  CheckForSpam filter_.1 msg filter_.2 = true -> wp m Q E s -> wp (let! spam := is_spam filter_ me msg in if spam then m else n) Q E s.
Proof. intros Hspam Hm. unfold is_spam. wp_step. wp_step. wp_step. wp_step. by rewrite Hspam, orb_true_r. Qed.

Lemma private_fake me (fake : ST TalkState unit) s0 s p :
  private me s0 s -> FindPlayer me (ti_world s0) = Some p -> p_GUID p = me ->
  (forall s', private me s0 s' -> wp fake (fun _ => private me s0) (private me s0) s') ->
  wp (with_talk me IncAntiSpamCounter ;! fake) (fun _ => private me s0) (private me s0) s.
Proof. intros Hs Hf Hg Hfake. wp_step. eapply wpS_mono; [by apply private_talk| |done]. intros [] s' Hs'. by apply Hfake. Qed.

Lemma private_fake_chat me type msg lang s0 s p :
  private me s0 s -> FindPlayer me (ti_world s0) = Some p -> p_GUID p = me ->
  wp (SendFakeChatNotification me type msg lang) (fun _ => private me s0) (private me s0) s.
Proof. intros Hs Hf Hg. unfold SendFakeChatNotification. cbv zeta. wp_step. eapply private_who; [done..|]. by apply private_send. Qed.

Lemma private_fake_channel me channel msg lang s0 s p :
  private me s0 s -> FindPlayer me (ti_world s0) = Some p -> p_GUID p = me ->
  wp (SendFakeChannelNotification me channel msg lang) (fun _ => private me s0) (private me s0) s.
Proof. intros Hs Hf Hg. unfold SendFakeChannelNotification. wp_step. eapply private_who; [done..|]. by apply private_send. Qed.

Lemma spam_delivered me type lang target msg recv s0 s p :
  private me s0 s -> FindPlayer me (ti_world s0) = Some p -> p_GUID p = me -> among [CHAT_MSG_AFK; CHAT_MSG_DND] type = false ->
  CheckForSpam filter_.1 msg filter_.2 = true ->
  wp (deliver cfg tcfg filter_ GetTrinityString me type lang target msg recv) (fun _ => private me s0) (private me s0) s.
Proof.
  intros Hs Hf Hg Ht Hspam.
  assert (forall s1, private me s0 s1 -> wp (pass_to_node filter_ me type lang msg recv) (fun _ => private me s0) (private me s0) s1) as Hpass.
  { intros s1 Hs1. unfold pass_to_node. apply spam_branch; [done|]. eapply private_fake; [done..|]. intros s2 Hs2. by eapply private_fake_chat. }
  cbn [among existsb] in Ht. apply orb_false_iff in Ht as [Ha [Hd _]%orb_false_iff].
  unfold deliver. wp_step; [|wp_step; [by apply Hpass|wp_step; [|wp_step]]].
  - wp_step. wp_step. eapply private_who; [done..|]. wp_step; [|by apply Hpass].
    eapply wpS_mono; [by eapply private_logged, note_logged| |done]. intros [] s1 Hs1. by apply Hpass.
  - unfold whisper_to. apply spam_branch; [done|]. eapply private_fake; [done..|]. intros s2 Hs2. by eapply private_fake_chat.
  - unfold say_in_channel. wp_step. eapply private_who; [done..|]. wp_step; [by wp_step|]. apply spam_branch; [done|].
    eapply private_fake; [done..|]. intros s2 Hs2. by eapply private_fake_channel.
  - rewrite Ha, Hd. by wp_step.
Qed.

(** C17. A muted player is not heard: whatever kind of message comes from a
    player whose mute has not run out, if it is in no addon's language and is
    no command, nothing reaches the node, a channel or another player, and no
    player or channel changes. *)
Theorem muted_silent me recv s s' r p type lang b1 b2 :
  FindPlayer me (ti_world s) = Some p -> w_time (ti_world s) < _muteTime (talk_of me s) ->
  read 4 (wp_buf recv) = Ok (type, b1) -> read 4 b1 = Ok (lang, b2) -> lang <> LANG_ADDON ->
  (forall target msg, read_message type b2 = Ok (target, msg) -> command_mark msg = false) ->
  handler me recv s = (s', r) -> private me s s'.
Proof.
  intros Hf Hmute Ht Hl Hlang Hread. apply (wp_always _ (private me s)). pose proof (private_refl me s) as Hs.
  assert (CanSpeak (w_time (ti_world s)) (talk_of me s) = false) as Hcan by (by apply Z.leb_gt).
  apply Z.eqb_neq in Hlang. unfold HandleMessagechatOpcode. wp_step. rewrite Ht. apply wpS_ret. wp_step. rewrite Hl. apply wpS_ret.
  wp_step; [by wp_step|]. wp_step; [by apply private_client|]. rewrite Hlang. cbn [andb]. wp_step. wp_step; [|done]. destruct a as [target msg].
  wp_step.
  - wp_step. eapply wpS_mono; [eapply muted_check; eauto| |done]. intros stop s1 [-> Hs1]. by wp_step.
  - wp_step; [by wp_step|]. wp_step. eapply wpS_mono; [eapply muted_check; eauto| |done]. intros stop s1 [-> Hs1].
    wp_step. eapply private_who; [done..|]. wp_step; [by eapply private_logged, gm_logged|done].
Qed.

(** C19. A stored text is caught however it is written: once it is in the
    filter, a message that contains it in some disguise with the same normal
    form (other case, characters in between, letters with accents) reaches
    neither the node nor a channel nor another player, and changes no player
    and no channel.  This is for messages that are looked at: in no addon's
    language, no command, no mark of being away or busy, and without the text
    [|TInterface], with which anything passes ([texture_unseen]); for a table of
    replacements that has pairs of bytes only, and for a disguise that does not
    begin with the second byte of a pair that the text before it began. *)
Theorem spam_swallowed me recv s s' r p type lang b1 b2 target x t y entry known :
  world_ok (ti_world s) -> FindPlayer me (ti_world s) = Some p ->
  read 4 (wp_buf recv) = Ok (type, b1) -> read 4 b1 = Ok (lang, b2) -> lang <> LANG_ADDON ->
  read_message type b2 = Ok (target, x +:+ t +:+ y) -> command_mark (x +:+ t +:+ y) = false -> among [CHAT_MSG_AFK; CHAT_MSG_DND] type = false ->
  (forall c a, filter_.1 !! c = Some a -> 0x80 <= c mod 0x100) -> filter_.2 = InsertSpamMsg filter_.1 entry known ->
  begun x 0 = 0 -> NormalizeForAntiSpam filter_.1 t = NormalizeForAntiSpam filter_.1 entry ->
  strContains (string_of_list_ascii (collapse false (list_ascii_of_string (x +:+ t +:+ y)))) "|TInterface" = false ->
  handler me recv s = (s', r) -> private me s s'.
Proof.
  intros Hw Hf Ht Hl Hlang Hread Hm Hty Hpairs Hknown Hx Hn Htex. apply (wp_always _ (private me s)). pose proof (private_refl me s) as Hs.
  assert (p_GUID p = me) as Hg by (by apply Hw). set (msg := x +:+ t +:+ y) in *.
  assert (CheckForSpam filter_.1 (StripLineInvisibleChars msg) filter_.2 = true) as Hspam.
  { unfold CheckForSpam. apply existsb_exists. exists (NormalizeForAntiSpam filter_.1 entry). split.
    - apply list_elem_of_In, elem_of_elements. rewrite Hknown. unfold InsertSpamMsg. set_solver.
    - rewrite normalize_strip by done. unfold msg, NormalizeForAntiSpam in *. rewrite !normalize_app, Hx, Hn. apply contains_part. }
  apply Z.eqb_neq in Hlang. unfold HandleMessagechatOpcode. wp_step. rewrite Ht. apply wpS_ret. wp_step. rewrite Hl. apply wpS_ret.
  wp_step; [by wp_step|]. wp_step; [by apply private_client|]. rewrite Hlang. cbn [andb]. wp_step. rewrite Hread. apply wpS_ret. rewrite Hty.
  wp_step; [by wp_step|]. wp_step. unfold check_message, checkMsgForCommand. rewrite Hm. wp_step. wp_step. unfold checkMsgForMute.
  wp_step. eapply private_who; [done..|]. do 5 wp_step.
  - wp_step. eapply wpS_mono; [by apply private_client| |done]. intros [] s1 Hs1. wp_step. wp_step.
    eapply private_who; [done..|]. wp_step; [by eapply private_logged, gm_logged|done].
  - wp_step. by eapply spam_delivered.
Qed.
(** ** Whispers *)
Definition sent (p : Player) (pk : Packet) : list TalkEvent := if p_connected p then [Out (Send (p_GUID p) pk)] else [].

(** What follows concerns the whisperer; the log's items are untouched. *)
Definition follows (me : Z) (t : list TalkEvent) (its : list QualityItem) (s : TalkState) : Prop :=
  is_Some (FindPlayer me (ti_world s)) /\ ti_items s = its /\ exists l, ti_trace s = t ++ l /\ Forall (own me) l.

Lemma follows_client me t its s e :
  follows me t its s -> own me e -> wp (to_client me e) (fun _ => follows me t its) (fun _ => False) s.
Proof.
  intros (Hp & Hi & l & Ht & Hl) He. unfold to_client. wp_step.
  case_match; [|by split; [|split; [|exists l]]]. case_match; [|by split; [|split; [|exists l]]].
  split; [done|]. split; [done|]. exists (l ++ [e]). cbn. rewrite Ht, app_assoc. split; [done|]. by apply Forall_app_2; [|repeat constructor].
Qed.

Lemma follows_set me t its s f : follows me t its s -> wp (set_player f me) (fun _ => follows me t its) (fun _ => False) s.
Proof.
  intros ([p Hp] & Hi & l & Ht & Hl). unfold set_player. wp_step. split; [|split; [done|by exists l]]. cbn. unfold FindPlayer in *. cbn.
  rewrite lookup_alter_eq, Hp. by eexists.
Qed.

Lemma follows_when me t its (b : bool) m s :
  follows me t its s -> (forall s', follows me t its s' -> wp m (fun _ => follows me t its) (fun _ => False) s') ->
  wp (whenS b m) (fun _ => follows me t its) (fun _ => False) s.
Proof. intros Hs Hm. wp_step; [by apply Hm|done]. Qed.

Lemma wp_chat_send p pk s (Q : unit -> TalkState -> Prop) E :
  Q tt (mkTalkState (quiet (ti_world s)) (ti_chat s) (ti_talk s) (ti_sent_error s) (ti_items s) (ti_trace s ++ sent p pk)) -> wp (on_world (SendPacket p pk)) Q E s.
Proof.
  intros HQ. unfold on_world. wp_step. unfold sent in HQ. unfold SendPacket, after_world. destruct (p_connected p); exact HQ.
Qed.

Lemma wp_who g p (Q : Player -> TalkState -> Prop) E s : FindPlayer g (ti_world s) = Some p -> Q p s -> wp (who g) Q E s.
Proof. intros Hf HQ. unfold who. wp_step. wp_step. rewrite Hf. by wp_step. Qed.

Lemma whispered me text lang g p q s :
  FindPlayer me (ti_world s) = Some p -> FindPlayer g (ti_world s) = Some q -> lang <> LANG_ADDON -> isDND q = false \/ isGameMaster p = true ->
  wp (Whisper me text lang g) (fun _ => follows me (ti_trace s ++ sent q (BuildPlayerChat CHAT_MSG_WHISPER text LANG_UNIVERSAL p)
                                                   ++ sent p (BuildPlayerChat CHAT_MSG_WHISPER_INFORM text LANG_UNIVERSAL q)) (ti_items s)) (fun _ => False) s.
Proof.
  intros Hp Hq Hl Hd. apply Z.eqb_neq in Hl. unfold Whisper. cbv zeta. rewrite Hl. cbn [negb].
  wp_step. eapply wp_who; [exact Hp|]. wp_step. eapply wp_who; [exact Hq|]. wp_step. wp_step. wp_step.
  assert (negb (isDND q) || isGameMaster p = true) as -> by (destruct Hd as [->| ->]; [done|apply orb_true_r]).
  wp_step. apply wp_chat_send. change (negb (LANG_UNIVERSAL =? LANG_ADDON)) with true. cbn [whenS]. apply wp_chat_send. cbn [ti_world ti_chat ti_talk ti_sent_error ti_trace].
  rewrite <- app_assoc. set (t := ti_trace s ++ _). wp_step.
  eapply wpS_mono; [apply follows_when| |done].
  { split; [|split; [reflexivity|exists []; by rewrite app_nil_r]]. cbn. unfold FindPlayer in *. cbn. by rewrite Hp. }
  { intros s1 Hs1. wp_step. eapply wpS_mono; [by apply follows_set| |done]. intros [] s2 Hs2. by apply follows_client. }
  intros [] s1 Hs1. wp_step. eapply wpS_mono; [apply follows_when; [exact Hs1|]| |done].
  { intros s2 Hs2. by apply follows_client. }
  intros [] s2 Hs2. destruct Hs2 as ([p2 Hp2] & Hs2). wp_step. eapply wp_who; [exact Hp2|]. apply follows_when; [by split|]. intros s3 Hs3. by apply follows_set.
Qed.

(** Who may be whispered to. *)
Definition approachable (p q : Player) (qt : Talk) : bool :=
  negb (IsPlayerAccount (p_security p) && negb (IsPlayerAccount (p_security q)) && negb (isAcceptWhispers q) && negb (IsInWhisperWhiteList (p_GUID p) qt))
  && negb (negb (CONFIG_ALLOW_TWO_SIDE_INTERACTION_CHAT tcfg) && IsPlayerAccount (p_security p) && IsPlayerAccount (p_security q)
           && negb (p_team p =? p_team q)).

(** C20. A whisper arrives: from a player who may speak, in a language of the
    game, to the name of an approachable player who is not busy, it is sent to
    that player first, stripped and readable for all, the whisperer is told so,
    and nobody else gets anything.  The handler returns, unless the log of game
    masters' chat, which comes last, takes a text with a percent sign for its
    format ([percent_in_chat]). *)
Theorem whisper_delivered me recv s p q lang b1 b2 target name msg :
  FindPlayer me (ti_world s) = Some p -> FindPlayerByName name (ti_world s) = Some q -> FindPlayer (p_GUID q) (ti_world s) = Some q ->
  read 4 (wp_buf recv) = Ok (CHAT_MSG_WHISPER, b1) -> read 4 b1 = Ok (lang, b2) -> GetLanguageDescByID lang = true -> lang <> LANG_ADDON ->
  read_message CHAT_MSG_WHISPER b2 = Ok (target, msg) -> msg <> EmptyString -> command_mark msg = false -> normalizePlayerName target = Ok (Some name) ->
  _muteTime (talk_of me s) <= w_time (ti_world s) -> _antiSpam (talk_of me s) <= LOGON_DOS_STRIKE_LIMIT ->
  CheckForSpam filter_.1 (StripLineInvisibleChars msg) filter_.2 = false -> CONFIG_CHAT_WHISPER_LEVEL_REQ tcfg <= p_level p ->
  approachable p q (talk_of (p_GUID q) s) = true -> isDND q = false \/ isGameMaster p = true ->
  let text := StripLineInvisibleChars msg in
  exists s' l r, handler me recv s = (s', r) /\ (log_plain tcfg (ti_items s) /\ text_plain tcfg text name -> r = Ok tt)
    /\ ti_trace s' = ti_trace s ++ sent q (BuildPlayerChat CHAT_MSG_WHISPER text LANG_UNIVERSAL p)
                      ++ sent p (BuildPlayerChat CHAT_MSG_WHISPER_INFORM text LANG_UNIVERSAL q) ++ l
    /\ Forall (own me) l.
Proof.
  intros Hp Hq Hg Ht Hl Hlk Hlang Hread Hne Hm Hn Hmute Hcount Hspam Hlevel Happ Hdnd text.
  set (t := ti_trace s ++ sent q (BuildPlayerChat CHAT_MSG_WHISPER text LANG_UNIVERSAL p)
                       ++ sent p (BuildPlayerChat CHAT_MSG_WHISPER_INFORM text LANG_UNIVERSAL q)).
  assert (forall s', (exists l, ti_trace s' = t ++ l /\ Forall (own me) l) -> exists l, ti_trace s' = ti_trace s
            ++ sent q (BuildPlayerChat CHAT_MSG_WHISPER text LANG_UNIVERSAL p)
            ++ sent p (BuildPlayerChat CHAT_MSG_WHISPER_INFORM text LANG_UNIVERSAL q) ++ l /\ Forall (own me) l) as Ht'.
  { intros s' (l & -> & Hl'). exists l. unfold t. by rewrite <- !app_assoc. }
  enough (wp (handler me recv) (fun _ s' => exists l, ti_trace s' = t ++ l /\ Forall (own me) l)
            (fun s' => (exists l, ti_trace s' = t ++ l /\ Forall (own me) l)
                       /\ ~ (log_plain tcfg (ti_items s) /\ text_plain tcfg text name)) s) as Hwp.
  { unfold wp in Hwp. destruct (handler me recv s) as [s' [[]|e|]]; [|destruct Hwp as [Hwp Hno]..];
      destruct (Ht' s' Hwp) as (l & Htr & Hown); do 3 eexists; (split; [reflexivity|]); by split. }
  unfold approachable in Happ. apply andb_true_iff in Happ as [Happ1%negb_true_iff Happ2%negb_true_iff].
  assert (CanSpeak (w_time (ti_world s)) (talk_of me s) = true) as Hcan by (by apply Z.leb_le).
  unfold HandleMessagechatOpcode. wp_step. rewrite Ht. apply wpS_ret. wp_step. rewrite Hl. apply wpS_ret.
  change (MAX_CHAT_MSG_TYPE <=? CHAT_MSG_WHISPER) with false. rewrite Hlk, (proj2 (Z.eqb_neq _ _) Hlang). cbn [negb andb].
  wp_step. rewrite Hread. apply wpS_ret. change (among [CHAT_MSG_AFK; CHAT_MSG_DND] CHAT_MSG_WHISPER) with false. cbn match.
  rewrite (proj2 (String.eqb_neq _ _) Hne). wp_step. unfold check_message, checkMsgForCommand. rewrite Hm. wp_step. wp_step. unfold checkMsgForMute.
  wp_step. eapply wp_who; [exact Hp|]. do 4 wp_step. rewrite Hcan. cbn [negb]. wp_step.
  change (deliver cfg tcfg filter_ GetTrinityString me CHAT_MSG_WHISPER lang target (StripLineInvisibleChars msg) recv)
    with (whisper_to tcfg filter_ me CHAT_MSG_WHISPER lang target text).
  unfold whisper_to, is_spam. do 4 wp_step. fold text in Hspam. rewrite Hspam, (proj2 (Z.ltb_ge _ _) Hcount). cbn [orb].
  wp_step. eapply wp_who; [exact Hp|]. rewrite (proj2 (Z.ltb_ge _ _) Hlevel). wp_step. rewrite Hn. apply wpS_ret. wp_step. wp_step. cbv zeta. rewrite Hq.
  wp_step. wp_step. rewrite Happ1, Happ2. do 4 wp_step. rewrite Hcan. cbn [negb andb].
  wp_step. eapply (wpS_mono _ (fun _ s1 => ti_world s1 = ti_world s /\ ti_trace s1 = ti_trace s /\ ti_items s1 = ti_items s) _ (fun _ => False)); [apply wpS_when; intros _; [unfold with_talk; by wp_step|done]| |done].
  intros [] s1 (Hw1 & Ht1 & Hi1). wp_step. eapply wpS_mono; [eapply (whispered me text lang (p_GUID q) p q s1); rewrite ?Hw1; done| |done].
  intros [] s2 Hs2. rewrite Ht1, Hi1 in Hs2. fold t in Hs2. destruct Hs2 as (Hp2 & Hi2 & l & Ht2 & Hl2).
  assert (forall s3, logged s2 s3 -> exists l, ti_trace s3 = t ++ l /\ Forall (own me) l) as Hlog.
  { intros s3 (_ & _ & _ & _ & k & Hk & Hok). exists (l ++ k). rewrite Hk, Ht2, app_assoc. split; [done|].
    apply Forall_app_2; [done|]. eapply Forall_impl; [exact Hok|]. intros e He. by destruct e. }
  wp_step; [|by exists l]. eapply wpS_mono; [apply note_logged| |].
  - intros [] s3 [H3 _]. by apply Hlog.
  - intros s3 [H3 Hno]. split; [by apply Hlog|]. intros [Hlp Htp]. apply Hno. rewrite Hi2. by split; [|split].
Qed.
End Private.
