(* ===== verification/ChatInputSafe.v ===== *)
(** * Chat input: every line comes to an end

    The invariant of the channels' store and the presence of the player hold
    through a line of chat, and no line is undefined but where a command, the
    conversion of a name or the log of a text with a percent sign is. *)
From Stdlib Require Import Ascii String ZArith Lia.
From stdpp Require Import base gmap sets list strings.
From S2P Require Import Prelude ByteBuffer Utf8 Util World Channel ChannelFacts ChannelMgr StateM Commands CommandFacts Bans ChatInput ChatInputFacts.
Import Msg.

Open Scope Z_scope.

Section Sound.
  Context `{UnorderedIter}.
  Variable cfg : Config.
  Variable tcfg : TalkConfig.
  Variable filter_ : gmap Z ascii * gset string.
  Variable GetTrinityString : TLANG -> string.
  Variable call_command : Handler.t -> string -> ST TalkState bool.
  Variable strtok_next : nat -> outcome (option string).

(** What holds where a command ends in undefined behaviour, if one does. *)
  Variable U : TalkState -> Prop.

(** The channels are in order, those players are there, the log is harmless. *)
Definition present (gs : list Z) (s : TalkState) : Prop :=
  chat_ok (ti_chat s) (ti_world s) /\ Forall (fun g => is_Some (FindPlayer g (ti_world s))) gs /\ log_plain tcfg (ti_items s).

Abbreviation sound gs m := (safe (present gs) U m).

Lemma present_talk gs s s' :
  ti_chat s' = ti_chat s -> m_PlayerMap (ti_world s') = m_PlayerMap (ti_world s) -> ti_items s' = ti_items s ->
  present gs s -> present gs s'.
Proof.
  intros Hc Hp Hi (Hok & Hf & Hl). unfold present, FindPlayer in *. rewrite Hc, Hp, Hi. split; [|done]. by eapply chat_ok_players.
Qed.

Lemma sound_bind {A B} gs (m : ST TalkState A) (k : A -> ST TalkState B) : sound gs m -> (forall a, sound gs (k a)) -> sound gs (bindS m k).
Proof. apply safely_bound. Qed.

Lemma sound_lift {A B} gs (o : outcome A) (P : A -> Prop) (k : A -> ST TalkState B) :
  safely o P -> (forall a, P a -> sound gs (k a)) -> sound gs (bindS (liftS o) k).
Proof. intros Ho Hk s Hs. unfold bindS, liftS. destruct o as [a|e|]; [by apply Hk|done|done]. Qed.

Lemma sound_mod gs f :
  (forall s, ti_chat (f s) = ti_chat s) -> (forall s, m_PlayerMap (ti_world (f s)) = m_PlayerMap (ti_world s)) ->
  (forall s, ti_items (f s) = ti_items s) -> sound gs (modS f).
Proof. intros Hc Hp Hi s Hs. by apply (present_talk gs s). Qed.

Lemma sound_client gs g e : sound gs (to_client g e).
Proof. apply sound_mod; intros s; repeat case_match; done. Qed.
Lemma sound_node gs g p : sound gs (to_node g p).
Proof. by apply sound_mod. Qed.
Lemma sound_logged {A} gs (m : ST TalkState A) type text receiver :
  (forall s, ends_logged tcfg m s (log_plain tcfg (ti_items s) /\ 0 <= type /\ text_plain tcfg text receiver)) ->
  0 <= type -> text_plain tcfg text receiver -> sound gs m.
Proof.
  intros Hm Ht Hx s (Hok & Hf & Hl). specialize (Hm s). unfold ends_logged, wp in Hm.
  destruct (m s) as [s' [a|e|]]; [|by destruct Hm as [_ []]..]. destruct Hm as [(Hw & Hc & _) Hi].
  unfold present. rewrite Hw, Hc. split; [done|]. split; [done|]. by apply Hi.
Qed.
Lemma sound_note gs p type text receiver : 0 <= type -> text_plain tcfg text receiver -> sound gs (note_chat tcfg p type text receiver).
Proof. apply sound_logged. intros s. apply note_logged. Qed.
Lemma sound_gm gs p type text receiver : 0 <= type -> text_plain tcfg text receiver -> sound gs (OnGMChat tcfg type p text receiver).
Proof. apply sound_logged. intros s. apply gm_logged. Qed.
Lemma sound_talk gs g f : sound gs (with_talk g f).
Proof. by apply sound_mod. Qed.
Lemma sound_send gs p pk : sound gs (on_world (SendPacket p pk)).
Proof. apply sound_mod; intros s; unfold after_world, SendPacket; by case_match. Qed.

Lemma sound_who {B} gs g (k : Player -> ST TalkState B) : g ∈ gs -> (forall p, sound gs (k p)) -> sound gs (bindS (who g) k).
Proof.
  intros Hg Hk s Hs. pose proof Hs as (_ & Hf & _). rewrite Forall_forall in Hf. destruct (Hf g Hg) as [p Hp]. unfold who, bindS, getS. rewrite Hp.
  by apply Hk.
Qed.

(** A change of a player's flags. *)
Lemma sound_player gs f g : (forall p, p_GUID (f p) = p_GUID p /\ p_channels (f p) = p_channels p) -> sound gs (set_player f g).
Proof.
  intros Hf s (Hok & Hs & Hlog). unfold set_player. cbn. assert (forall k p', alter f g (m_PlayerMap (ti_world s)) !! k = Some p' ->
    exists p, m_PlayerMap (ti_world s) !! k = Some p /\ p_GUID p' = p_GUID p /\ p_channels p' = p_channels p) as Hk.
  { intros k p'. destruct (decide (g = k)) as [->|Hne]; [rewrite lookup_alter_eq|rewrite lookup_alter_ne by done; intros ->; by eexists].
    destruct (m_PlayerMap (ti_world s) !! k) as [p|]; [|done]. intros [= <-]. exists p. by destruct (Hf p). }
  split; [|split; [|done]]; cbn [ti_chat ti_world set_ti_world].
  - eapply chat_ok_outside; [|exact Hok]. split.
    + intros k p' Hp'. destruct (Hk k p' Hp') as (p & Hp & -> & _). by apply (co_world _ _ Hok).
    + intros k p' Hp'. destruct (Hk k p' Hp') as (p & Hp & _ & Hc). right. by exists p.
  - eapply Forall_impl; [exact Hs|]. intros k [p Hp]. unfold FindPlayer in *. cbn. apply lookup_alter_is_Some. by exists p.
Qed.

Lemma find_named name w q : world_ok w -> FindPlayerByName name w = Some q -> FindPlayer (p_GUID q) w = Some q.
Proof.
  intros Hw Hq. unfold FindPlayerByName in Hq. apply fmap_Some in Hq as ([g p] & Hf & ->). apply find_some in Hf as [Hin _].
  apply list_elem_of_In in Hin. rewrite uiter_perm in Hin. apply elem_of_map_to_list in Hin. cbn [snd]. unfold FindPlayer. by rewrite (Hw g p Hin).
Qed.

Ltac sound_step :=
  match goal with
  | |- sound _ (retS _) => apply safe_ret
  | |- sound _ (bindS (who _) _) => apply sound_who; [set_solver|intros ?]
  | |- sound _ (bindS _ _) => apply sound_bind; [|intros ?]
  | |- sound _ (getS _) => apply safe_get
  | |- sound _ (whenS _ _) => apply safely_when
  | |- sound _ (to_client _ _) => apply sound_client
  | |- sound _ (SendSys _ _ _) => apply sound_client
  | |- sound _ (SendNotification _ _ _) => apply sound_client
  | |- sound _ (to_node _ _) => apply sound_node
  | |- sound _ (note_chat _ _ _ _ _) => apply sound_note
  | |- sound _ (OnGMChat _ _ _ _ _) => apply sound_gm
  | |- sound _ (with_talk _ _) => apply sound_talk
  | |- sound _ (on_world (SendPacket _ _)) => apply sound_send
  | |- sound _ (set_player _ _) => apply sound_player; intros ?
  | |- sound _ (if _ then _ else _) => apply safe_if; intros ?
  | |- sound _ (let _ := _ in _) => cbv zeta
  end.
Ltac sound_steps := repeat sound_step.

Lemma toggle_frame flag p : p_GUID (ToggleFlag flag p) = p_GUID p /\ p_channels (ToggleFlag flag p) = p_channels p.
Proof. unfold ToggleFlag, SetFlag, RemoveFlag. by repeat case_match. Qed.

Lemma sound_whisper gs me text lang g : me ∈ gs -> g ∈ gs -> sound gs (Whisper me text lang g).
Proof.
  intros Hme Hg. unfold Whisper. sound_steps; try done; try apply toggle_frame. 
Qed.

Lemma sound_fake gs me type msg lang : me ∈ gs -> sound gs (SendFakeChatNotification me type msg lang).
Proof. intros Hme. unfold SendFakeChatNotification. sound_steps. Qed.
Lemma sound_fake_channel gs me channel msg lang : me ∈ gs -> sound gs (SendFakeChannelNotification me channel msg lang).
Proof. intros Hme. unfold SendFakeChannelNotification. sound_steps. Qed.
Lemma sound_spam gs me msg : sound gs (is_spam filter_ me msg).
Proof. unfold is_spam. sound_steps. Qed.
Lemma sound_not_found gs me name : me ∈ gs -> sound gs (SendPlayerNotFoundNotice me name).
Proof. intros Hme. unfold SendPlayerNotFoundNotice. sound_steps. Qed.
Lemma sound_wrong_faction gs me : me ∈ gs -> sound gs (SendWrongFactionNotice me).
Proof. intros Hme. unfold SendWrongFactionNotice. sound_steps. Qed.

Lemma sound_pass me type lang msg recv : sound [me] (pass_to_node filter_ me type lang msg recv).
Proof. unfold pass_to_node. sound_steps; [apply sound_spam|apply sound_fake; set_solver]. Qed.

(** A player found by name is still there while they are written to. *)
Lemma sound_found {A} me name (m : option Player -> ST TalkState A) :
  sound [me] (m None) -> (forall q, sound [me; p_GUID q] (m (Some q))) ->
  sound [me] (bindS (getS (fun s => FindPlayerByName name (ti_world s))) m).
Proof.
  intros Hn Hs s Hs0. pose proof Hs0 as (Hok & Hf & Hl). unfold bindS, getS.
  destruct (FindPlayerByName name (ti_world s)) as [q|] eqn:Eq; [|by apply Hn].
  assert (present [me; p_GUID q] s) as Hp.
  { split; [done|]. split; [|done]. inversion_clear Hf. repeat constructor; [done|]. rewrite (find_named name _ q (co_world _ _ Hok) Eq). by eexists. }
  specialize (Hs q s Hp). assert (forall s', present [me; p_GUID q] s' -> present [me] s') as Hless.
  { intros s' (Hok' & Hf' & Hl'). split; [done|]. split; [|done]. inversion_clear Hf'. by repeat constructor. }
  destruct (m (Some q) s) as [s' []]; auto.
Qed.

Lemma sound_whisper_to me type lang target msg :
  normalizePlayerName target <> UB -> 0 <= type ->
  (forall name, normalizePlayerName target = Ok (Some name) -> text_plain tcfg msg name) ->
  sound [me] (whisper_to tcfg filter_ me type lang target msg).
Proof.
  intros Hn Ht Hx. unfold whisper_to. sound_step; [apply sound_spam|]. sound_step; [sound_steps; apply sound_fake; set_solver|].
  sound_step. sound_step; [apply sound_client|].
  apply (sound_lift _ _ (fun o => forall name, o = Some name -> text_plain tcfg msg name)).
  { destruct (normalizePlayerName target) as [o| |]; [|done..]. intros name ->. by apply Hx. }
  intros [name|] Hname; [specialize (Hname name eq_refl)|apply sound_not_found; set_solver].
  apply sound_found; [apply sound_not_found; set_solver|]. intros q. cbv zeta.
  sound_steps; try done; [apply sound_not_found|apply sound_wrong_faction|apply sound_whisper]; set_solver.
Qed.

Lemma sound_channel me lang channel msg : keyed channel -> sound [me] (say_in_channel cfg filter_ me lang channel msg).
Proof.
  intros Hk. unfold say_in_channel. sound_step. sound_step; [sound_step|]. sound_step; [apply sound_spam|].
  sound_step; [sound_steps; apply sound_fake_channel; set_solver|]. destruct (channelMgr cfg (p_team p)) as [id|]; [|sound_step].
  intros s (Hok & Hf & Hlog). cbn [bindS getS]. unfold bindS, getS, liftS, modS.
  assert (chat_ok (ti_chat s) (quiet (ti_world s))) as Hq by (by eapply (chat_ok_players _ (ti_world s))).
  destruct (GetChannel_ok id channel p (ti_chat s) (quiet (ti_world s)) Hq Hk) as (chn & w1 & -> & Hok1 & Hp1 & Hlive).
  assert (forall st w, m_PlayerMap w = m_PlayerMap (ti_world s) -> chat_ok st w -> present [me] (after_world st w (after_world (ti_chat s) w1 s))) as Hpr.
  { intros st w Hw Hst. split; [by eapply (chat_ok_players _ w)|]. split; [|done]. eapply Forall_impl; [exact Hf|]. intros g. unfold FindPlayer. cbn. by rewrite Hw. }
  destruct chn as [ptr|].
  - destruct (Hlive ptr eq_refl) as [c Hc]. cbn [ti_chat after_world ti_world].
    destruct (call_ok cfg (fun _ => None) (ReqSay (p_GUID p) (Some msg) lang) ptr c (ti_chat s) (quiet (quiet w1)))
      as (x & Ex & E & Hok'); [by eapply (chat_ok_players _ w1)|done..|].
    change (returns (Say cfg (p_GUID p) (Some msg) lang)) with (handle cfg (fun _ => None) (ReqSay (p_GUID p) (Some msg) lang)). rewrite E.
    apply Hpr; [|done]. injection Ex as <-. unfold Say. cbv zeta. repeat case_match; cbn [snd]; autorewrite with players; done.
  - split; [by eapply (chat_ok_players _ w1)|]. split; [|done]. eapply Forall_impl; [exact Hf|]. intros g. unfold FindPlayer. cbn. by rewrite Hp1.
Qed.
Lemma sound_mark me msg marked other toggle toggle_other set_text default_text :
  (forall p, p_GUID (toggle p).2 = p_GUID p /\ p_channels (toggle p).2 = p_channels p) ->
  (forall p, p_GUID (toggle_other p).2 = p_GUID p /\ p_channels (toggle_other p).2 = p_channels p) ->
  sound [me] (mark_away GetTrinityString me msg marked other toggle toggle_other set_text default_text).
Proof. intros Ht Ho. unfold mark_away. sound_steps; auto. Qed.

(** A name the server can use: as a channel's, or as a player's. *)
Definition usable (target : string) : Prop := keyed target /\ normalizePlayerName target <> UB.

(** A text the log can take, with the name of the player it is for. *)
Definition loggable (target msg : string) : Prop :=
  CONFIG_CHATLOG_GM_ACTIVITY tcfg = false
  \/ percent_free msg /\ forall name, normalizePlayerName target = Ok (Some name) -> percent_free name.

Lemma loggable_plain target msg : loggable target msg -> text_plain tcfg msg NoTarget.
Proof. intros [|[? _]]; [by left|right]. by repeat split. Qed.
Lemma loggable_named target msg name :
  loggable target msg -> normalizePlayerName target = Ok (Some name) -> text_plain tcfg msg name.
Proof. intros [|[? Hn]] E; [by left|right]. split; [done|by apply Hn]. Qed.
Lemma loggable_strip target msg : loggable target msg -> loggable target (StripLineInvisibleChars msg).
Proof. intros [|[? ?]]; [by left|right]. split; [by apply strip_plain|done]. Qed.

Lemma among_nonneg l type : forallb (Z.leb 0) l = true -> among l type = true -> 0 <= type.
Proof.
  intros Hl [x [Hin ->%Z.eqb_eq]]%existsb_exists. rewrite forallb_forall in Hl. by apply Z.leb_le, Hl.
Qed.

Lemma sound_deliver me type lang target msg recv :
  usable target -> loggable target msg -> sound [me] (deliver cfg tcfg filter_ GetTrinityString me type lang target msg recv).
Proof.
  intros [Hk Hn] Hlog. unfold deliver.
  sound_step; [sound_steps; [by apply (among_nonneg [CHAT_MSG_SAY; CHAT_MSG_EMOTE; CHAT_MSG_YELL])|by eapply loggable_plain|apply sound_pass]|].
  sound_step; [apply sound_pass|].
  sound_step; [apply sound_whisper_to; [done|by bool_props; subst|by intros name; apply loggable_named]|].
  sound_step; [by apply sound_channel|]. sound_step; [apply sound_mark; intros p; apply toggle_frame|].
  sound_step; [apply sound_mark; intros p; apply toggle_frame|sound_step].
Qed.

Lemma read_kept b : received b -> safely (read 4 b) (fun r => read 4 b = Ok r /\ received r.2).
Proof. intros Hb. pose proof (read_received 4 b Hb ltac:(lia)) as Hr. by destruct (read 4 b). Qed.

Section Commands.
  Variable me : Z.
  (** The handlers a player's lines may reach leave the channels in order, the
      player there and the log as it is, unless they end in [U]. *)
  Hypothesis Hcommands : forall sec text h a,
    authorised (Some (mkCmdIssuer sec true)) commandTable text h = true -> sound [me] (call_command h a).

Lemma sound_command msg : sound [me] (run_command commandTable call_command strtok_next me msg).
Proof.
  unfold run_command. sound_step. sound_step; [by apply sound_mod|]. apply (parse_safe (H := talk_io me)); [| |by intros i [= <-]|vm_compute; done|].
  - intros t s Hs. apply (sound_client [me] me (SysText me t) s Hs).
  - intros b s Hs. by apply (present_talk [me] s).
  - intros h a' Ha. by eapply Hcommands.
Qed.

Lemma sound_check msg recv : sound [me] (check_message commandTable call_command strtok_next me msg recv).
Proof.
  unfold check_message, checkMsgForCommand, checkMsgForMute. sound_steps; apply sound_command.
Qed.

End Commands.
End Sound.
