(* ===== verification/ChatInputScene.v ===== *)
(** * Chat input: a worked example

    Two players on a channel; one is muted for a while; the filter knows a
    text.  The theorems on the input at packets where their hypotheses hold,
    and what else the handler does. *)
From Stdlib Require Import Ascii String ZArith Lia.
From stdpp Require Import base gmap sets list strings.
From S2P Require Import Prelude ByteBuffer Utf8 Util World Channel ChannelFacts ChannelMgr StateM Commands CommandFacts Bans ChatInput ChatInputFacts ChatInputSafe.
Import Msg.

Open Scope Z_scope.

Definition talk_config : TalkConfig := mkTalkConfig 5 false true.
Definition filled : gmap Z ascii * gset string := (antiSpamReplace_table, InsertSpamMsg antiSpamReplace_table "Buy gold!" ∅).
Definition texts (l : TLANG) : string := match l with LANG_PLAYER_AFK_DEFAULT => "Away" | LANG_PLAYER_DND_DEFAULT => "Busy" | _ => "" end.
Definition silent_command (h : Handler.t) (args : string) : ST TalkState bool := retS true.
Definition no_strtok (n : nat) : outcome (option string) := UB.

(** The clock shows 1000; Ann (7) is muted until then or until 1600. *)
Definition talking_with (items : list QualityItem) (mute : Z) : TalkState :=
  mkTalkState chat2.2 chat2.1 (<[7 := Talk_new mute]> ∅) false items [].
Definition talking : Z -> TalkState := talking_with [].
Definition line (type lang : Z) (strings : list string) : WorldPacket := mkWP 0x95 (pack (U32 type :: U32 lang :: (Str <$> strings))).
Definition serve : Z -> WorldPacket -> TalkState -> TalkState * outcome unit :=
  HandleMessagechatOpcode plain_config talk_config filled texts commandTable silent_command no_strtok.

(** Packets that went out, by receiver and kind of message. *)
Definition heard (s : TalkState) : list (Z * list PField) :=
  omap (fun e => match e with Out (Send g p) => Some (g, pk_body p) | NodePacket g _ => Some (-1, []) | _ => None end) (ti_trace s).

Lemma muted_silent_witness :
  private 7 (talking 1600) (serve 7 (line CHAT_MSG_CHANNEL 7 ["lobby"; "hello"]%string) (talking 1600)).1
  /\ ti_trace (serve 7 (line CHAT_MSG_CHANNEL 7 ["lobby"; "hello"]%string) (talking 1600)).1
     = [Notice 7 LANG_WAIT_BEFORE_SPEAKING ["10 minute(s)"%string]].
Proof.
  split; [|by vm_compute].
  eapply (muted_silent plain_config talk_config filled texts commandTable silent_command no_strtok 7
    (line CHAT_MSG_CHANNEL 7 ["lobby"; "hello"]%string) (talking 1600)); [vm_compute; reflexivity|vm_compute; reflexivity|vm_compute; reflexivity
    |vm_compute; reflexivity|discriminate| |vm_compute; reflexivity].
  intros target msg Hm. vm_compute in Hm. injection Hm as <- <-. reflexivity.
Defined.

Definition advert : WorldPacket := line CHAT_MSG_SAY 7 ["Today: b.U.y  G0LD? No, Büy gOLd here"%string].

Lemma latin_pairs c a : antiSpamReplace_table !! c = Some a -> 0x80 <= c mod 0x100.
Proof.
  intros Hc. apply elem_of_map_to_list in Hc.
  assert (Forall (fun e => 0x80 <= e.1 mod 0x100) (map_to_list antiSpamReplace_table)) as Hall by (by vm_compute; repeat constructor).
  rewrite Forall_forall in Hall. by apply (Hall (c, a)).
Qed.

Lemma spam_swallowed_witness :
  private 7 (talking 0) (serve 7 advert (talking 0)).1
  /\ (fun e => e.1) <$> heard (serve 7 advert (talking 0)).1 = [7].
Proof.
  split; [|by vm_compute].
  eapply (spam_swallowed plain_config talk_config filled texts commandTable silent_command no_strtok 7 advert (talking 0))
    with (x := "Today: b.U.y  G0LD? No, "%string) (t := "Büy gOLd"%string) (y := " here"%string) (entry := "Buy gold!"%string);
    [|vm_compute; reflexivity|vm_compute; reflexivity|vm_compute; reflexivity|discriminate|vm_compute; reflexivity|reflexivity|reflexivity
     |exact latin_pairs|reflexivity|reflexivity|vm_compute; reflexivity|vm_compute; reflexivity|vm_compute; reflexivity].
  exact (co_world _ _ (chat_reachable_ok _ _ _ _ _ fresh_addr_fresh _ chat2_reachable)).
Defined.

Lemma whisper_delivered_witness :
  exists s' l r, serve 7 (line CHAT_MSG_WHISPER 7 ["bOB"; "psst,   Bob"]%string) (talking 1000) = (s', r) /\ r = Ok tt
    /\ ti_trace s' = [Out (Send 9 (BuildPlayerChat CHAT_MSG_WHISPER "psst, Bob" LANG_UNIVERSAL (default (mk_player 0 "" 0) (FindPlayer 7 chat2.2))));
                      Out (Send 7 (BuildPlayerChat CHAT_MSG_WHISPER_INFORM "psst, Bob" LANG_UNIVERSAL (default (mk_player 0 "" 0) (FindPlayer 9 chat2.2))))] ++ l
    /\ Forall (own 7) l.
Proof.
  destruct (whisper_delivered plain_config talk_config filled texts commandTable silent_command no_strtok 7
    (line CHAT_MSG_WHISPER 7 ["bOB"; "psst,   Bob"]%string) (talking 1000)
    (default (mk_player 0 "" 0) (FindPlayer 7 chat2.2)) (default (mk_player 0 "" 0) (FindPlayer 9 chat2.2)) 7
    (mkBB 4 24 (_storage (wp_buf (line CHAT_MSG_WHISPER 7 ["bOB"; "psst,   Bob"]%string))))
    (mkBB 8 24 (_storage (wp_buf (line CHAT_MSG_WHISPER 7 ["bOB"; "psst,   Bob"]%string)))) "bOB" "Bob" "psst,   Bob")
    as (s' & l & r & Hrun & Hr & Ht & Hl); [vm_compute; reflexivity..|discriminate|vm_compute; reflexivity|discriminate|reflexivity|vm_compute; reflexivity
      |vm_compute; discriminate|vm_compute; discriminate|vm_compute; reflexivity|vm_compute; discriminate|vm_compute; reflexivity|left; vm_compute; reflexivity|].
  exists s', l, r. split; [exact Hrun|]. split; [apply Hr; split; right; [constructor|vm_compute; repeat split; discriminate]|].
  split; [|exact Hl]. rewrite Ht. vm_compute (StripLineInvisibleChars _). vm_compute (sent _ _ ++ _). reflexivity.
Defined.

(** Bob holds a ticket of Ann's, and she has said something. *)
Definition assigned : TalkState := talking_with [mkQuality 9 7 "[1][NoTarget]hi;" ""] 0.


(** What is said while a ticket is assigned is the format of the error log: a
    percent sign in it is undefined behaviour. *)
Lemma percent_in_chat :
  (serve 7 (line CHAT_MSG_SAY 7 ["I am 100% sure"%string]) assigned).2 = UB.
Proof. by vm_compute. Qed.
Example said_in_log :
  ti_trace (serve 7 (line CHAT_MSG_SAY 7 ["hello"%string]) assigned).1
  = [ErrorLog "[1][NoTarget]hi;[1][NoTarget]hello;"; NodePacket 7 (line CHAT_MSG_SAY 7 ["hello"%string])].
Proof. by vm_compute. Qed.

(** ** What the handler does besides *)

(** A line that names a texture is emptied before the filter looks at it; the
    packet that goes to the node is the one that came. *)
Lemma texture_unseen :
  heard (serve 7 (line CHAT_MSG_SAY 7 ["Buy gold! |TInterface\Icons\x|t"%string]) (talking 0)).1 = [(-1, [])].
Proof. by vm_compute. Qed.

(** A text without letters and digits catches every line. *)
Lemma empty_entry_catches_all replace entry known text :
  NormalizeForAntiSpam replace entry = EmptyString -> CheckForSpam replace text (InsertSpamMsg replace entry known) = true.
Proof.
  intros He. unfold CheckForSpam, InsertSpamMsg. rewrite He. apply existsb_exists. exists EmptyString. split.
  - apply list_elem_of_In, elem_of_elements. set_solver.
  - unfold strContains. by destruct (NormalizeForAntiSpam replace text).
Qed.

(** The strikes are counted in eight bits. *)
Lemma strikes_forgotten t : 0 <= _antiSpam t < 256 -> _antiSpam (Nat.iter 256 IncAntiSpamCounter t) = _antiSpam t.
Proof.
  intros Ht. assert (forall n, _antiSpam (Nat.iter n IncAntiSpamCounter t) = u8 (_antiSpam t + Z.of_nat n)) as Hn.
  { induction n as [|n IH]; cbn [Nat.iter nat_rect]; [rewrite Z.add_0_r; by rewrite wrap_small by lia|].
    unfold IncAntiSpamCounter at 1. cbn [_antiSpam]. change (nat_rect _ t _ n) with (Nat.iter n IncAntiSpamCounter t). rewrite IH, wrap_add_l. f_equal. lia. }
  rewrite Hn. change (Z.of_nat 256) with (1 * 2 ^ 8). unfold wrap. rewrite Z.mod_add by done. by apply Z.mod_small.
Qed.

(** Party and raid chat end here. *)
Lemma party_unheard cfg tcfg flt locale me type lang target msg recv s :
  type ∈ [CHAT_MSG_PARTY; CHAT_MSG_PARTY_LEADER; CHAT_MSG_RAID; CHAT_MSG_RAID_LEADER; CHAT_MSG_RAID_WARNING] ->
  deliver cfg tcfg flt locale me type lang target msg recv s = (s, Ok tt).
Proof. intros Ht. repeat (apply elem_of_cons in Ht as [->|Ht]; [done|]). by apply elem_of_nil in Ht. Qed.

(** An addon's whisper or guild message is not asked whether its sender may
    speak; the whisper then is, the guild message is not. *)
Lemma addon_guild_unmuted :
  heard (serve 7 (line CHAT_MSG_GUILD LANG_ADDON ["hello"%string]) (talking 1600)).1 = [(-1, [])].
Proof. by vm_compute. Qed.

(** No text of the table gets into the filter. *)
Lemma filter_never_loaded flt : InitAntiSpam flt = flt.
Proof. done. Qed.

(** Being away and being busy put each other off. *)
Example away_then_busy :
  let s1 := (serve 7 (line CHAT_MSG_AFK 0 ["gone fishing"%string]) (talking 0)).1 in
  let s2 := (serve 7 (line CHAT_MSG_DND 0 [""%string]) s1).1 in
  isAFK (default (mk_player 0 "" 0) (FindPlayer 7 (ti_world s1))) = true /\ afkMsg (talk_of 7 s1) = "gone fishing"%string
  /\ isAFK (default (mk_player 0 "" 0) (FindPlayer 7 (ti_world s2))) = false /\ isDND (default (mk_player 0 "" 0) (FindPlayer 7 (ti_world s2))) = true
  /\ dndMsg (talk_of 7 s2) = "Busy"%string.
Proof. by vm_compute. Qed.
