(* ===== verification/Petitions.v ===== *)
(** * Petitions

    [shade/Petitions/PetitionMgr.cpp]: the charters and their signatures in
    memory; [Player::RemovePetitionsAndSigns] of [shade/Character/Player.cpp],
    which joining a guild calls; what its statements do to the tables. *)
From Stdlib Require Import Ascii String ZArith Lia.
From stdpp Require Import base gmap list strings.
From S2P Require Import Prelude ByteBuffer World.

Open Scope Z_scope.

(** ** The store *)
Record Petition := mkPetition { petitionGuid : Z; ownerGuid : Z; petitionType : Z; petitionName : string }.
Record Signatures := mkSignatures { s_petitionGuid : Z; signatureMap : gmap Z Z }.
Record PetitionMgr := mkPetitionMgr { PetitionStore : gmap Z Petition; SignatureStore : gmap Z Signatures }.
Definition PetitionMgr_new : PetitionMgr := mkPetitionMgr ∅ ∅.

(** [SignatureStore[petitionId]]: made where it is not there. *)
Definition signatures_at (petitionId : Z) (m : PetitionMgr) : Signatures := default (mkSignatures 0 ∅) (SignatureStore m !! petitionId).

Definition AddPetition (petitionId owner : Z) (name : string) (type : Z) (m : PetitionMgr) : PetitionMgr :=
  mkPetitionMgr (<[petitionId := mkPetition petitionId owner type name]> (PetitionStore m))
    (<[petitionId := mkSignatures petitionId ∅]> (SignatureStore m)).
Definition RemovePetition (petitionId : Z) (m : PetitionMgr) : PetitionMgr :=
  mkPetitionMgr (delete petitionId (PetitionStore m)) (delete petitionId (SignatureStore m)).

Definition by_owner (owner type : Z) (p : Petition) : bool := (ownerGuid p =? owner) && ((type =? 0) || (type =? petitionType p)).
Definition RemovePetitionByOwnerAndType (owner type : Z) (m : PetitionMgr) : PetitionMgr :=
  mkPetitionMgr (filter (fun '(_, p) => by_owner owner type p = false) (PetitionStore m))
    (filter (fun '(id, _) => match PetitionStore m !! id with Some p => by_owner owner type p | None => false end = false) (SignatureStore m)).

Definition GetPetition (petitionId : Z) (m : PetitionMgr) : option Petition := PetitionStore m !! petitionId.
(** The first in the map's order. *)
Definition GetPetitionByOwnerWithType (owner type : Z) (m : PetitionMgr) : option Petition :=
  snd <$> List.find (fun '(_, p) => (ownerGuid p =? owner) && (petitionType p =? type)) (ordered_entries (PetitionStore m)).

Definition AddSignature (petitionId accountId playerGuid : Z) (m : PetitionMgr) : PetitionMgr :=
  let s := signatures_at petitionId m in
  mkPetitionMgr (PetitionStore m)
    (<[petitionId := mkSignatures (s_petitionGuid s) (<[playerGuid := accountId]> (signatureMap s))]> (SignatureStore m)).
Definition GetSignature (petitionId : Z) (m : PetitionMgr) : option Signatures := SignatureStore m !! petitionId.

Definition unsign (playerGuid : Z) (s : Signatures) : Signatures := mkSignatures (s_petitionGuid s) (delete playerGuid (signatureMap s)).
(** [signatureMap.erase] in every entry the test lets through. *)
Definition erase_where (test : option Petition -> bool) (playerGuid : Z) (m : PetitionMgr) : PetitionMgr :=
  mkPetitionMgr (PetitionStore m) (map_imap (fun id s => Some (if test (GetPetition id m) then unsign playerGuid s else s)) (SignatureStore m)).
Definition RemoveSignaturesByPlayer (playerGuid : Z) (m : PetitionMgr) : PetitionMgr := erase_where (fun _ => true) playerGuid m.
Definition RemoveSignaturesByPlayerAndType (playerGuid type : Z) (m : PetitionMgr) : PetitionMgr :=
  erase_where (fun p => match p with Some p => petitionType p =? type | None => false end) playerGuid m.

(** ** The tables *)
Record PetitionRow := mkPetitionRow { pr_owner : Z; pr_id : Z; pr_name : string; pr_type : Z }.
Record SignRow := mkSignRow { sr_owner : Z; sr_petition : Z; sr_player : Z; sr_account : Z; sr_type : Z }.
Record PetitionTables := mkPetitionTables { petition : list PetitionRow; petition_sign : list SignRow }.

Definition LoadPetitions (t : PetitionTables) (m : PetitionMgr) : PetitionMgr :=
  foldl (fun m r => AddPetition (pr_id r) (pr_owner r) (pr_name r) (pr_type r) m) (mkPetitionMgr ∅ (SignatureStore m)) (petition t).
Definition LoadSignatures (t : PetitionTables) (m : PetitionMgr) : PetitionMgr :=
  foldl (fun m r => AddSignature (sr_petition r) (sr_account r) (sr_player r) m) (mkPetitionMgr (PetitionStore m) ∅) (petition_sign t).

Definition keep_petitions (p : PetitionRow -> bool) (t : PetitionTables) : PetitionTables :=
  mkPetitionTables (filter (fun r => p r = true) (petition t)) (petition_sign t).
Definition keep_signs (p : SignRow -> bool) (t : PetitionTables) : PetitionTables :=
  mkPetitionTables (petition t) (filter (fun r => p r = true) (petition_sign t)).

Definition petition_stmt (s : Stmt) (t : PetitionTables) : PetitionTables :=
  match st_id s, st_args s with
  | CHAR_DEL_ALL_PETITION_SIGNATURES, [QU32 g] => keep_signs (fun r => negb (sr_player r =? g)) t
  | CHAR_DEL_PETITION_SIGNATURE, [QU32 g; QU8 ty] => keep_signs (fun r => negb ((sr_player r =? g) && (sr_type r =? ty))) t
  | CHAR_DEL_PETITION_BY_OWNER, [QU32 g] => keep_petitions (fun r => negb (pr_owner r =? g)) t
  | CHAR_DEL_PETITION_SIGNATURE_BY_OWNER, [QU32 g] => keep_signs (fun r => negb (sr_owner r =? g)) t
  | CHAR_DEL_PETITION_BY_OWNER_AND_TYPE, [QU32 g; QU8 ty] => keep_petitions (fun r => negb ((pr_owner r =? g) && (pr_type r =? ty))) t
  | CHAR_DEL_PETITION_SIGNATURE_BY_OWNER_AND_TYPE, [QU32 g; QU8 ty] => keep_signs (fun r => negb ((sr_owner r =? g) && (sr_type r =? ty))) t
  | _, _ => t
  end.
Definition petition_effect (e : Effect) (t : PetitionTables) : PetitionTables :=
  match e with
  | Execute s => petition_stmt s t
  | Commit l => foldl (fun t s => petition_stmt s t) t l
  | _ => t
  end.

(** ** [Player::RemovePetitionsAndSigns]

    The store after it, and what is sent to the database. *)
Definition ALL_PETITIONS : Z := 10.
Definition RemovePetitionsAndSigns (guid type : Z) (m : PetitionMgr) : PetitionMgr * list Effect :=
  let playerGuid := GUID_LOPART guid in
  let m := erase_where (fun p => match p with
                                 | None => false
                                 | Some p => negb (negb (type =? ALL_PETITIONS) && negb (type =? petitionType p))
                                 end) playerGuid m in
  if type =? ALL_PETITIONS
  then (RemovePetitionByOwnerAndType playerGuid 0 m,
        [Execute (mkStmt CHAR_DEL_ALL_PETITION_SIGNATURES [QU32 playerGuid]);
         Commit [mkStmt CHAR_DEL_PETITION_BY_OWNER [QU32 playerGuid]; mkStmt CHAR_DEL_PETITION_SIGNATURE_BY_OWNER [QU32 playerGuid]]])
  else (RemovePetitionByOwnerAndType playerGuid (u8 type) m,
        [Execute (mkStmt CHAR_DEL_PETITION_SIGNATURE [QU32 playerGuid; QU8 (u8 type)]);
         Commit [mkStmt CHAR_DEL_PETITION_BY_OWNER_AND_TYPE [QU32 playerGuid; QU8 (u8 type)];
                 mkStmt CHAR_DEL_PETITION_SIGNATURE_BY_OWNER_AND_TYPE [QU32 playerGuid; QU8 (u8 type)]]]).

(** A call, with its statements done. *)
Definition clear_petitions (st : PetitionMgr * PetitionTables) (call : Z * Z) : PetitionMgr * PetitionTables :=
  let '(m, es) := RemovePetitionsAndSigns (fst call) (snd call) (fst st) in
  (m, foldl (fun t e => petition_effect e t) (snd st) es).
