(* ===== verification/PetitionFacts.v ===== *)
(** * What [Petitions] promises

    The store read from the tables says what they say, and goes on saying it
    when a character's charters and signatures are cleared. *)
From Stdlib Require Import Ascii String ZArith Lia.
From stdpp Require Import base gmap list strings.
From S2P Require Import Prelude ByteBuffer World Petitions.

Open Scope Z_scope.

Definition to_petition (r : PetitionRow) : Petition := mkPetition (pr_id r) (pr_owner r) (pr_type r) (pr_name r).
(** The account that signed, as the store has it. *)
Definition signed (m : PetitionMgr) (pid player : Z) : option Z :=
  s ← GetSignature pid m; signatureMap s !! player.
Definition of_petition (pid : Z) (r : PetitionRow) : bool := pr_id r =? pid.
Definition of_signer (pid player : Z) (r : SignRow) : bool := (sr_petition r =? pid) && (sr_player r =? player).

Record mirrors (t : PetitionTables) (m : PetitionMgr) : Prop := {
  mir_petition : forall pid, GetPetition pid m = to_petition <$> last (filter (fun r => of_petition pid r = true) (petition t));
  mir_signed : forall pid player,
    signed m pid player = sr_account <$> last (filter (fun r => of_signer pid player r = true) (petition_sign t)) }.

(** The half of it that is about charters. *)
Definition charters_mirrored (t : PetitionTables) (m : PetitionMgr) : Prop :=
  forall pid, GetPetition pid m = to_petition <$> last (filter (fun r => of_petition pid r = true) (petition t)).

(** One charter to an id. *)
Definition one_to_an_id (t : PetitionTables) : Prop :=
  forall r r', r ∈ petition t -> r' ∈ petition t -> pr_id r = pr_id r' -> r = r'.
(** A signature names a charter, its owner and type. *)
Record consistent (t : PetitionTables) : Prop := {
  con_petition : one_to_an_id t;
  con_sign : forall s, s ∈ petition_sign t ->
    exists r, r ∈ petition t /\ pr_id r = sr_petition s /\ pr_owner r = sr_owner s /\ pr_type r = sr_type s }.

(** The types a call of kind [type] clears. *)
Definition hits (type kind : Z) : bool := (type =? ALL_PETITIONS) || (kind =? type).
Definition cleared (t : PetitionTables) (call : Z * Z) : Prop :=
  let g := GUID_LOPART (fst call) in
  (forall r, r ∈ petition t -> hits (snd call) (pr_type r) = true -> pr_owner r <> g) /\
  (forall s, s ∈ petition_sign t -> hits (snd call) (sr_type s) = true -> sr_owner s <> g /\ sr_player s <> g).

(** ** Rows *)
Lemma last_none {A} (l : list A) : last l = None -> l = [].
Proof. by rewrite last_None. Qed.
Lemma last_in {A} (l : list A) x : last l = Some x -> x ∈ l.
Proof. intros H. by apply last_Some_elem_of. Qed.

Lemma filter_const {A} (key p : A -> bool) b l :
  (forall r, r ∈ l -> key r = true -> p r = b) ->
  filter (fun r => key r = true) (filter (fun r => p r = true) l)
  = if b then filter (fun r => key r = true) l else [].
Proof.
  induction l as [|r l IH]; intros H; [by destruct b|].
  specialize (IH (fun x Hx => H x (list_elem_of_further x r l Hx))).
  pose proof (H r (list_elem_of_here r l)) as Hr.
  rewrite !filter_cons. destruct (key r) eqn:K.
  - rewrite (Hr eq_refl). destruct b; simpl; [|exact IH].
    rewrite filter_cons, K. simpl. by rewrite IH.
  - destruct (p r); simpl; [rewrite filter_cons, K; simpl|]; exact IH.
Qed.

Lemma last_filter_snoc {A} (key : A -> bool) l x :
  last (filter (fun r => key r = true) (l ++ [x])) = if key x then Some x else last (filter (fun r => key r = true) l).
Proof.
  rewrite filter_app. destruct (key x) eqn:E.
  - rewrite filter_cons_True by done. by rewrite filter_nil, last_snoc.
  - rewrite filter_cons_False by congruence. by rewrite filter_nil, app_nil_r.
Qed.

(** ** Reading the tables *)
Lemma signed_add_petition pid owner name type m pid' player :
  signed (AddPetition pid owner name type m) pid' player = if decide (pid = pid') then None else signed m pid' player.
Proof.
  unfold signed, GetSignature, AddPetition. simpl. case_decide; subst.
  - rewrite lookup_insert_eq. apply lookup_empty.
  - by rewrite lookup_insert_ne.
Qed.

Lemma load_petitions_lookup t m pid :
  GetPetition pid (LoadPetitions t m) = to_petition <$> last (filter (fun r => of_petition pid r = true) (petition t)).
Proof.
  unfold LoadPetitions. induction (petition t) as [|r l IH] using rev_ind; [done|].
  rewrite foldl_snoc, last_filter_snoc. unfold GetPetition in *. simpl. unfold of_petition at 1.
  destruct (Z.eqb_spec (pr_id r) pid) as [<-|].
  - by rewrite lookup_insert_eq.
  - by rewrite lookup_insert_ne.
Qed.

Lemma add_signature_petitions pid account player m : PetitionStore (AddSignature pid account player m) = PetitionStore m.
Proof. done. Qed.

Lemma signed_add_signature pid account player m pid' player' :
  signed (AddSignature pid account player m) pid' player'
  = if (pid =? pid') && (player =? player') then Some account else signed m pid' player'.
Proof.
  unfold signed, GetSignature, AddSignature, signatures_at. simpl.
  destruct (Z.eqb_spec pid pid') as [->|]; simpl; [|by rewrite lookup_insert_ne].
  rewrite lookup_insert_eq. simpl. destruct (Z.eqb_spec player player') as [->|].
  - by rewrite lookup_insert_eq.
  - rewrite lookup_insert_ne by done. by destruct (SignatureStore m !! pid').
Qed.

Lemma load_signatures_signed t m pid player :
  signed (LoadSignatures t m) pid player
  = sr_account <$> last (filter (fun r => of_signer pid player r = true) (petition_sign t)).
Proof.
  unfold LoadSignatures. induction (petition_sign t) as [|r l IH] using rev_ind; [done|].
  rewrite foldl_snoc, last_filter_snoc, signed_add_signature. unfold of_signer at 1.
  by destruct (_ && _).
Qed.

Lemma load_signatures_petitions t m : PetitionStore (LoadSignatures t m) = PetitionStore m.
Proof.
  unfold LoadSignatures. by induction (petition_sign t) as [|r l IH] using rev_ind; [|rewrite foldl_snoc].
Qed.

Lemma loaded_mirrors t m : mirrors t (LoadSignatures t (LoadPetitions t m)).
Proof.
  split; intros.
  - unfold GetPetition. rewrite load_signatures_petitions. apply load_petitions_lookup.
  - apply load_signatures_signed.
Qed.

(** ** Clearing a character's charters and signatures *)
Definition keeps_petition (g type : Z) (r : PetitionRow) : bool := negb ((pr_owner r =? g) && hits type (pr_type r)).
Definition keeps_sign (g type : Z) (s : SignRow) : bool :=
  negb ((sr_player s =? g) && hits type (sr_type s)) && negb ((sr_owner s =? g) && hits type (sr_type s)).

Definition clearable (type : Z) : Prop := type = ALL_PETITIONS \/ 0 < type < 256.

Lemma u8_clearable type : clearable type -> u8 type = type.
Proof. unfold clearable, ALL_PETITIONS, u8. intros. apply Z.mod_small. lia. Qed.

(** The store after a call, and the tables. *)
Lemma clear_petitions_store g type m : clearable type ->
  forall pid, GetPetition pid (fst (RemovePetitionsAndSigns g type m))
  = p ← GetPetition pid m; if (ownerGuid p =? GUID_LOPART g) && hits type (petitionType p) then None else Some p.
Proof.
  intros Hc pid. unfold RemovePetitionsAndSigns, GetPetition, RemovePetitionByOwnerAndType, by_owner, hits, erase_where.
  rewrite (u8_clearable _ Hc).
  destruct (Z.eqb_spec type ALL_PETITIONS) as [->|Hn]; cbn [fst PetitionStore]; rewrite map_lookup_filter;
    destruct (PetitionStore m !! pid) as [p|]; simpl; try done.
  - rewrite andb_true_r. destruct (ownerGuid p =? _) eqn:E; by case_guard.
  - destruct Hc as [|Hc]; [done|]. destruct (Z.eqb_spec type 0) as [->|]; [lia|]. simpl.
    rewrite (Z.eqb_sym type). destruct (_ && _) eqn:E; by case_guard.
Qed.

Lemma guard_false {A} (b : bool) (x : A) : (guard (b = false) ≫= fun _ => Some x) = if b then None else Some x.
Proof. by destruct b; case_guard. Qed.
Lemma unsign_lookup player s player' :
  signatureMap (unsign player s) !! player' = if player' =? player then None else signatureMap s !! player'.
Proof.
  unfold unsign. simpl. destruct (Z.eqb_spec player' player) as [->|].
  - apply lookup_delete_eq.
  - by rewrite lookup_delete_ne.
Qed.

Lemma clear_petitions_signed g type m : clearable type ->
  forall pid player, signed (fst (RemovePetitionsAndSigns g type m)) pid player
  = match GetPetition pid m with
    | Some p => if hits type (petitionType p) && ((ownerGuid p =? GUID_LOPART g) || (player =? GUID_LOPART g)) then None else signed m pid player
    | None => signed m pid player
    end.
Proof.
  intros Hc pid player. unfold RemovePetitionsAndSigns, signed, GetSignature, GetPetition, RemovePetitionByOwnerAndType, by_owner, hits, erase_where.
  rewrite (u8_clearable _ Hc). generalize (GUID_LOPART g). intros k.
  destruct (Z.eqb_spec type ALL_PETITIONS) as [->|Hn]; cbn [fst SignatureStore PetitionStore];
    rewrite map_lookup_filter, map_lookup_imap; unfold GetPetition;
    (destruct (SignatureStore m !! pid) as [s|]; simpl; [|by destruct (PetitionStore m !! pid); try case_match]);
    rewrite guard_false; destruct (PetitionStore m !! pid) as [p|]; simpl; try reflexivity.
  - rewrite andb_true_r. destruct (ownerGuid p =? k); [reflexivity|]. apply unsign_lookup.
  - destruct Hc as [|Hc]; [done|]. destruct (Z.eqb_spec type 0) as [->|]; [lia|]. simpl.
    rewrite (Z.eqb_sym type). destruct (petitionType p =? type); simpl; rewrite ?andb_false_r, ?andb_true_r; [|reflexivity].
    destruct (ownerGuid p =? k); [reflexivity|]. apply unsign_lookup.
Qed.

Lemma filter_and {A} (p q : A -> bool) (l : list A) :
  filter (fun r => p r = true) (filter (fun r => q r = true) l) = filter (fun r => (q r && p r) = true) l.
Proof.
  induction l as [|r l IH]; [done|]. rewrite !filter_cons. destruct (q r) eqn:Q; simpl; [|done].
  rewrite filter_cons, IH. by destruct (p r).
Qed.
Lemma filter_same {A} (p q : A -> bool) (l : list A) : (forall r, p r = q r) ->
  filter (fun r => p r = true) l = filter (fun r => q r = true) l.
Proof. intros H. apply list_filter_iff. intros r. by rewrite H. Qed.

Lemma clear_petitions_tables g type m t : clearable type ->
  foldl (fun t e => petition_effect e t) t (snd (RemovePetitionsAndSigns g type m))
  = mkPetitionTables (filter (fun r => keeps_petition (GUID_LOPART g) type r = true) (petition t))
      (filter (fun s => keeps_sign (GUID_LOPART g) type s = true) (petition_sign t)).
Proof.
  intros Hc. unfold RemovePetitionsAndSigns. rewrite (u8_clearable _ Hc). unfold keeps_petition, keeps_sign, hits.
  destruct (Z.eqb_spec type ALL_PETITIONS) as [->|Hn]; clear Hc; simpl; unfold petition_stmt, keep_petitions, keep_signs; simpl;
    rewrite filter_and; f_equal; apply filter_same; intros r; by rewrite ?andb_true_r.
Qed.

(** ** A call keeps the two in step *)
Lemma cleared_lookup {A} (key p : A -> bool) (l : list A) b :
  (forall r, r ∈ l -> key r = true -> p r = b) ->
  last (filter (fun r => key r = true) (filter (fun r => p r = true) l))
  = if b then last (filter (fun r => key r = true) l) else None.
Proof. intros H. rewrite (filter_const key p b l H). by destruct b. Qed.

Lemma last_filter_in {A} (key : A -> bool) (l : list A) x : last (filter (fun r => key r = true) l) = Some x -> x ∈ l /\ key x = true.
Proof. intros H%last_in. apply list_elem_of_filter in H. tauto. Qed.
Lemma last_filter_none {A} (key : A -> bool) (l : list A) : last (filter (fun r => key r = true) l) = None -> forall r, r ∈ l -> key r = false.
Proof.
  intros H%last_none r Hr. destruct (key r) eqn:E; [|done].
  assert (r ∈ filter (fun r => key r = true) l) as Hx by (apply list_elem_of_filter; done).
  rewrite H in Hx. by apply not_elem_of_nil in Hx.
Qed.

Lemma sign_petition t m s : mirrors t m -> consistent t -> s ∈ petition_sign t ->
  exists p, GetPetition (sr_petition s) m = Some p /\ ownerGuid p = sr_owner s /\ petitionType p = sr_type s.
Proof.
  intros Hm Hc Hs. destruct (con_sign _ Hc s Hs) as (r & Hr & Hid & Ho & Ht).
  rewrite (mir_petition _ _ Hm). destruct (last _) as [r'|] eqn:E; simpl.
  - apply last_filter_in in E as [Hin Hk]. apply Z.eqb_eq in Hk.
    rewrite (con_petition _ Hc r' r Hin Hr) by congruence. by exists (to_petition r).
  - pose proof (last_filter_none _ _ E r Hr) as Hk. apply Z.eqb_neq in Hk. congruence.
Qed.

Section call.
Context (t : PetitionTables) (m : PetitionMgr) (g type : Z) (Ht : clearable type).
Let t' := foldl (fun t e => petition_effect e t) t (snd (RemovePetitionsAndSigns g type m)).

Lemma call_petition : charters_mirrored t m -> one_to_an_id t -> charters_mirrored t' (fst (RemovePetitionsAndSigns g type m)).
Proof using Ht.
  intros Hm Hone pid. subst t'. rewrite (clear_petitions_tables _ _ _ _ Ht), (clear_petitions_store _ _ _ Ht), (Hm pid). simpl.
  destruct (last (filter (fun r => of_petition pid r = true) (petition t))) as [r|] eqn:E; simpl.
  - rewrite (cleared_lookup (of_petition pid) _ _ (keeps_petition (GUID_LOPART g) type r)), E.
    + unfold keeps_petition. simpl. by destruct (_ && _).
    + intros r' Hr' Hk'. apply last_filter_in in E as [Hr Hk]. unfold of_petition in *.
      by rewrite (Hone r' r Hr' Hr) by lia.
  - rewrite (cleared_lookup _ _ _ true); [by rewrite E|].
    intros r Hr Hk. by rewrite (last_filter_none _ _ E r Hr) in Hk.
Qed.

Lemma call_one : one_to_an_id t -> one_to_an_id t'.
Proof using Ht.
  intros Hone. subst t'. rewrite (clear_petitions_tables _ _ _ _ Ht). simpl.
  intros r r' [_ Hr]%list_elem_of_filter [_ Hr']%list_elem_of_filter. by apply Hone.
Qed.

Lemma call_signed (Hm : mirrors t m) (Hc : consistent t) pid player : signed (fst (RemovePetitionsAndSigns g type m)) pid player
  = sr_account <$> last (filter (fun r => of_signer pid player r = true) (petition_sign t')).
Proof using Ht.
  subst t'. rewrite (clear_petitions_tables _ _ _ _ Ht), (clear_petitions_signed _ _ _ Ht), (mir_signed _ _ Hm). simpl.
  destruct (last (filter (fun r => of_signer pid player r = true) (petition_sign t))) as [s|] eqn:E; simpl.
  - apply last_filter_in in E as He. destruct He as [Hs Hk]. apply andb_prop in Hk as [K1%Z.eqb_eq K2%Z.eqb_eq]. subst.
    destruct (sign_petition _ _ _ Hm Hc Hs) as (p & Hp & Ho & Hty). rewrite Hp.
    rewrite (cleared_lookup (of_signer _ _) _ _ (keeps_sign (GUID_LOPART g) type s)), E.
    + unfold keeps_sign. rewrite Ho, Hty. destruct (hits _ _), (sr_owner s =? _), (sr_player s =? _); done.
    + intros s' Hs' Hk'. apply andb_prop in Hk' as [K1%Z.eqb_eq K2%Z.eqb_eq].
      destruct (sign_petition _ _ _ Hm Hc Hs') as (p' & Hp' & Ho' & Hty').
      rewrite K1, Hp in Hp'. injection Hp' as <-. unfold keeps_sign. by rewrite K2, <- Ho, <- Ho', <- Hty, <- Hty'.
  - rewrite (cleared_lookup _ _ _ true); [rewrite E; by repeat case_match|].
    intros s Hs Hk. by rewrite (last_filter_none _ _ E s Hs) in Hk.
Qed.

Lemma call_mirrors : mirrors t m -> consistent t -> mirrors t' (fst (RemovePetitionsAndSigns g type m)).
Proof using Ht. intros Hm Hc. split; [exact (call_petition (mir_petition _ _ Hm) (con_petition _ Hc))|by apply call_signed]. Qed.

Lemma call_consistent : consistent t -> consistent t'.
Proof using Ht.
  intros Hc. split; [apply (call_one (con_petition _ Hc))|].
  subst t'. rewrite (clear_petitions_tables _ _ _ _ Ht). simpl.
  - intros s [Hk Hs]%list_elem_of_filter. destruct (con_sign _ Hc s Hs) as (r & Hr & Hid & Ho & Hty).
    exists r. split; [|done]. apply list_elem_of_filter. split; [|done].
    unfold keeps_sign in Hk. unfold keeps_petition. rewrite Ho, Hty. by apply andb_prop in Hk as [_ ->].
Qed.

Lemma call_cleared : cleared t' (g, type).
Proof using Ht.
  subst t'. rewrite (clear_petitions_tables _ _ _ _ Ht). unfold cleared, keeps_petition, keeps_sign. simpl. split.
  - intros r [Hk _]%list_elem_of_filter Hh. rewrite Hh, andb_true_r in Hk. by destruct (Z.eqb_spec (pr_owner r) (GUID_LOPART g)).
  - intros s [Hk _]%list_elem_of_filter Hh. rewrite Hh, !andb_true_r in Hk.
    by destruct (Z.eqb_spec (sr_owner s) (GUID_LOPART g)), (Z.eqb_spec (sr_player s) (GUID_LOPART g)).
Qed.

End call.

Lemma filter_all {R} (keeps : R -> bool) (l : list R) : (forall r, keeps r = true) -> filter (fun r => keeps r = true) l = l.
Proof. intros H. induction l as [|r l IH]; [done|]. by rewrite filter_cons_True, IH. Qed.

(** The rows that all the calls keep. *)
Definition all_keep {R} (keeps : Z -> Z -> R -> bool) (calls : list (Z * Z)) (r : R) : bool :=
  forallb (fun call => keeps (GUID_LOPART (fst call)) (snd call) r) calls.
Lemma filter_all_keep {R} (keeps : Z -> Z -> R -> bool) calls g type (l : list R) :
  filter (fun r => keeps (GUID_LOPART g) type r = true) (filter (fun r => all_keep keeps calls r = true) l)
  = filter (fun r => all_keep keeps (calls ++ [(g, type)]) r = true) l.
Proof. rewrite filter_and. apply filter_same. intros r. unfold all_keep. rewrite forallb_app. simpl. by rewrite andb_true_r. Qed.

Lemma kept_cleared calls t' t :
  petition t' = filter (fun r => all_keep keeps_petition calls r = true) t.(petition) ->
  petition_sign t' = filter (fun r => all_keep keeps_sign calls r = true) t.(petition_sign) ->
  Forall (cleared t') calls.
Proof.
  intros Hp Hs. apply Forall_forall. intros [g type] Hin%list_elem_of_In. unfold cleared. rewrite Hp, Hs. unfold all_keep. simpl.
  split; intros r [Hk _]%list_elem_of_filter Hh; rewrite forallb_forall in Hk; specialize (Hk _ Hin).
  - unfold keeps_petition in Hk. simpl in Hk. rewrite Hh, andb_true_r in Hk. by destruct (Z.eqb_spec (pr_owner r) (GUID_LOPART g)).
  - unfold keeps_sign in Hk. simpl in Hk. rewrite Hh, !andb_true_r in Hk.
    by destruct (Z.eqb_spec (sr_owner r) (GUID_LOPART g)), (Z.eqb_spec (sr_player r) (GUID_LOPART g)).
Qed.

(** What holds after some calls. *)
Record written_through (t : PetitionTables) (calls : list (Z * Z)) (m' : PetitionMgr) (t' : PetitionTables) : Prop := {
  wt_petition : petition t' = filter (fun r => all_keep keeps_petition calls r = true) (petition t);
  wt_sign : petition_sign t' = filter (fun r => all_keep keeps_sign calls r = true) (petition_sign t);
  wt_charters : one_to_an_id t -> charters_mirrored t' m' /\ one_to_an_id t';
  wt_store : consistent t -> mirrors t' m' /\ consistent t' }.

Lemma calls_written t m calls : Forall (fun call => clearable (snd call)) calls ->
  let '(m', t') := foldl clear_petitions (LoadSignatures t (LoadPetitions t m), t) calls in written_through t calls m' t'.
Proof.
  intros Hf. induction calls as [|[g ty] calls IH] using rev_ind.
  - pose proof (loaded_mirrors t m) as Hm. split; [..|done].
    1,2: symmetry; by apply filter_all.
    intros Hone. split; [exact (mir_petition _ _ Hm)|done].
  - apply Forall_app in Hf as [Hf Hg%Forall_inv]. specialize (IH Hf). rewrite foldl_snoc.
    destruct (foldl clear_petitions _ calls) as [m' t']. destruct IH as [H1 H2 H3 H4].
    unfold clear_petitions. simpl. destruct (RemovePetitionsAndSigns g ty m') as [m1 es] eqn:R.
    pose proof (call_petition t' m' g ty Hg) as Ha. pose proof (call_one t' m' g ty Hg) as Hb.
    pose proof (call_mirrors t' m' g ty Hg) as Hc. pose proof (call_consistent t' m' g ty Hg) as Hd.
    pose proof (clear_petitions_tables g ty m' t' Hg) as He. rewrite R in *. simpl in *. split.
    + by rewrite He, <- filter_all_keep, <- H1.
    + by rewrite He, <- filter_all_keep, <- H2.
    + intros [? ?]%H3. auto.
    + intros [? ?]%H4. auto.
Qed.

(** C26. Clearing the charters and signatures of characters, by type or all of
    them, any number of times after the tables were read: whatever the tables
    held, exactly the rows are left that no call asks for by their own owner,
    signer and type, so that none of a cleared character and type is.  With one
    charter to an id the store has the charters the tables have.  And where
    every signature carries the owner and the type of its charter
    ([consistent]), the store has the signatures too.  This last condition is
    the tables', not the program's: [CHAR_INS_PETITION_SIGNATURE] stores a
    signature without its type, and such a row stays behind
    ([untyped_signature_stays]). *)
Theorem petitions_written_through t m calls :
  Forall (fun call => clearable (snd call)) calls ->
  let '(m', t') := foldl clear_petitions (LoadSignatures t (LoadPetitions t m), t) calls in
  petition t' = filter (fun r => all_keep keeps_petition calls r = true) (petition t)
  /\ petition_sign t' = filter (fun r => all_keep keeps_sign calls r = true) (petition_sign t)
  /\ Forall (cleared t') calls
  /\ (one_to_an_id t -> charters_mirrored t' m')
  /\ (consistent t -> mirrors t' m').
Proof.
  intros Hf. pose proof (calls_written t m calls Hf) as Hw. destruct (foldl _ _ _) as [m' t']. destruct Hw as [H1 H2 H3 H4].
  split_and!; [done|done|by eapply kept_cleared|tauto|tauto].
Qed.

(** ** A scene *)
Definition ex_petitions : PetitionTables := mkPetitionTables
  [mkPetitionRow 5 70 "The Anvil" 9; mkPetitionRow 6 71 "Twos" 2; mkPetitionRow 5 72 "Threes" 3]
  [mkSignRow 5 70 6 11 9; mkSignRow 6 71 5 10 2; mkSignRow 6 71 7 12 2; mkSignRow 5 72 6 11 3].

Lemma ex_petitions_consistent : consistent ex_petitions.
Proof.
  split.
  - intros r r' Hr Hr' E. simpl in Hr, Hr'. rewrite !elem_of_cons in Hr, Hr'.
    destruct_or!; subst; try done; by apply not_elem_of_nil in Hr || apply not_elem_of_nil in Hr'.
  - intros s Hs. simpl in Hs. rewrite !elem_of_cons in Hs.
    destruct_or!; subst; try by apply not_elem_of_nil in Hs.
    + exists (mkPetitionRow 5 70 "The Anvil" 9). split; [by left|done].
    + exists (mkPetitionRow 6 71 "Twos" 2). split; [right; by left|done].
    + exists (mkPetitionRow 6 71 "Twos" 2). split; [right; by left|done].
    + exists (mkPetitionRow 5 72 "Threes" 3). split; [right; right; by left|done].
Qed.

(** The owner of a guild charter and an arena charter joins a guild; then the
    other owner clears everything. *)
Lemma petitions_written_through_witness :
  let '(m', t') := foldl clear_petitions (LoadSignatures ex_petitions (LoadPetitions ex_petitions PetitionMgr_new), ex_petitions) [(5, 9); (6, 10)] in
  mirrors t' m' /\ Forall (cleared t') [(5, 9); (6, 10)].
Proof.
  assert (Forall (fun call => clearable (snd call)) [(5, 9); (6, 10)]) as Hf by (constructor; [right; simpl; lia|]; constructor; [by left|by constructor]).
  pose proof (petitions_written_through ex_petitions PetitionMgr_new [(5, 9); (6, 10)] Hf) as H.
  destruct (foldl _ _ _) as [m' t']. destruct H as (_ & _ & H1 & _ & H2). split; [exact (H2 ex_petitions_consistent)|exact H1].
Defined.

Example cleared_scene :
  snd (foldl clear_petitions (LoadSignatures ex_petitions (LoadPetitions ex_petitions PetitionMgr_new), ex_petitions) [(5, 9); (6, 10)])
  = mkPetitionTables [mkPetitionRow 5 72 "Threes" 3] [].
Proof. by vm_compute. Qed.

(** A signature stored without its type, the way [CHAR_INS_PETITION_SIGNATURE]
    inserts it, outlives the call that takes it from the store. *)
Definition ex_untyped : PetitionTables := mkPetitionTables [mkPetitionRow 6 71 "Guild" 9] [mkSignRow 6 71 5 10 0].
Example untyped_signature_stays :
  let '(m', t') := clear_petitions (LoadSignatures ex_untyped (LoadPetitions ex_untyped PetitionMgr_new), ex_untyped) (5, 9) in
  signed m' 71 5 = None /\ petition_sign t' = petition_sign ex_untyped.
Proof. by vm_compute. Qed.

(** The signatures read first are lost when the charters are read. *)
Example charters_read_last :
  signed (LoadPetitions ex_untyped (LoadSignatures ex_untyped PetitionMgr_new)) 71 5 = None
  /\ signed (LoadSignatures ex_untyped (LoadPetitions ex_untyped PetitionMgr_new)) 71 5 = Some 10.
Proof. by vm_compute. Qed.
(** The other order leaves a charter nobody signed without an entry, as
    [AddPetition] would have made it. *)
Example unsigned_without_entry :
  GetSignature 71 (LoadSignatures (mkPetitionTables (petition ex_untyped) []) (LoadPetitions ex_untyped PetitionMgr_new)) = None
  /\ GetSignature 71 (AddPetition 71 6 "Guild" 9 PetitionMgr_new) = Some (mkSignatures 71 ∅).
Proof. by vm_compute. Qed.
