(* ===== verification/Warden.v ===== *)
(** * The warden

    [shade/Warden]: the checks and their results as they are loaded, the
    object a session on Windows has, the packets it sends and reads, its
    timers and what it does to a client that fails.  Every function that asks
    the time takes it as an argument; a random word is drawn from a stream.
    The cipher, MD5 and the module sent to the client are parameters. *)
From Stdlib Require Import Ascii String ZArith Lia.
From stdpp Require Import base gmap list strings.
From S2P Require Import Prelude ByteBuffer StateM BigNumber.

Open Scope Z_scope.

(** ** ARC4

    The cipher of OpenSSL: [EVP_EncryptInit_ex] with a key starts a stream
    of key bytes, [EVP_EncryptUpdate] uses it up on the data given. *)
Class ARC4 := {
  Key : Type;
  unkeyed : Key;
  set_key : list Z -> Key;
  cipher : list Z -> Key -> list Z * Key
}.

(** The stream does not depend on the data, and undoes itself. *)
Class ARC4Spec `{ARC4} : Prop := {
  cipher_length l k : length (cipher l k).1 = length l;
  cipher_bytes l k : Forall is_byte l -> Forall is_byte (cipher l k).1;
  cipher_back l k : Forall is_byte l -> cipher (cipher l k).1 k = (l, (cipher l k).2)
}.

(** ** The checks *)
Definition MEM_CHECK : Z := 0xF3.
Definition PAGE_CHECK_A : Z := 0xB2.
Definition PAGE_CHECK_B : Z := 0xBF.
Definition MPQ_CHECK : Z := 0x98.
Definition LUA_STR_CHECK : Z := 0x8B.
Definition DRIVER_CHECK : Z := 0x71.
Definition TIMING_CHECK : Z := 0x57.
Definition PROC_CHECK : Z := 0x7E.
Definition MODULE_CHECK : Z := 0xD9.

Inductive WardenActions := WARDEN_ACTION_LOG | WARDEN_ACTION_KICK | WARDEN_ACTION_BAN.

Record WardenCheck := mkWardenCheck {
  Type_ : Z; Data : Z; Address : Z; Length : Z; Str_ : string; Comment : string; CheckId : Z; Action : WardenActions }.

(** [CheckStore] is a vector of pointers, [CheckResultStore] holds the
    numbers of the results. *)
Record WardenCheckMgr := mkWardenCheckMgr {
  CheckStore : list (option WardenCheck); CheckResultStore : gmap Z Z;
  MemChecksIdPool : list Z; OtherChecksIdPool : list Z }.
Definition WardenCheckMgr_new : WardenCheckMgr := mkWardenCheckMgr [] ∅ [] [].

Definition GetWardenDataById (Id : Z) (m : WardenCheckMgr) : option WardenCheck :=
  if Id <? Z.of_nat (length (CheckStore m)) then mjoin (CheckStore m !! Z.to_nat Id) else None.
Definition GetWardenResultById (Id : Z) (m : WardenCheckMgr) : option Z := CheckResultStore m !! Id.

Record CheckRow := mkCheckRow {
  ck_id : Z; ck_type : Z; ck_data : string; ck_result : string; ck_address : Z; ck_length : Z; ck_str : string; ck_comment : string }.

Definition one_of (l : list Z) (x : Z) : bool := existsb (Z.eqb x) l.
Definition store_at {A} (l : list A) (i : Z) (x : A) : outcome (list A) :=
  if Z.of_nat (length l) <=? i then UB else Ok (<[Z.to_nat i := x]> l).

Section Loading.
Context `{OpenSSL}.

(** A text of hexadecimal digits as a number; one whose first bytes are zero
    goes through an array of [room] bytes, which has no bound for a result. *)
Definition load_hex (room : option Z) (s : string) : outcome Z :=
  let bn := SetHexStr s 0 in
  let len := Z.of_nat (String.length s) / 2 in
  if GetNumBytes bn <? len then
    (if match room with Some r => r <? len | None => false end then UB
     else Ok (SetBinary (rev (take (Z.to_nat (GetNumBytes bn)) (AsByteArray 0 true bn)
                              ++ replicate (Z.to_nat (len - GetNumBytes bn)) 0))))
  else Ok bn.

Definition load_check (m : WardenCheckMgr) (r : CheckRow) : outcome WardenCheckMgr :=
  let t := ck_type r in
  let* data := if one_of [PAGE_CHECK_A; PAGE_CHECK_B; DRIVER_CHECK] t then load_hex (Some 24) (ck_data r) else Ok 0 in
  let mem := one_of [MEM_CHECK; MODULE_CHECK] t in
  let placed := one_of [MEM_CHECK; PAGE_CHECK_A; PAGE_CHECK_B; PROC_CHECK] t in
  let named := one_of [MEM_CHECK; MPQ_CHECK; LUA_STR_CHECK; DRIVER_CHECK; MODULE_CHECK] t in
  let check := mkWardenCheck t data (if placed then ck_address r else 0) (if placed then ck_length r else 0)
                 (if named then ck_str r else EmptyString)
                 (if String.eqb (ck_comment r) EmptyString then "Undocumented Check" else ck_comment r) (ck_id r) WARDEN_ACTION_KICK in
  let* store := store_at (CheckStore m) (ck_id r) (Some check) in
  let* results := if one_of [MPQ_CHECK; MEM_CHECK] t
                  then let* res := load_hex None (ck_result r) in Ok (<[ck_id r := res]> (CheckResultStore m))
                  else Ok (CheckResultStore m) in
  Ok (mkWardenCheckMgr store results
        (if mem then MemChecksIdPool m ++ [ck_id r] else MemChecksIdPool m)
        (if mem then OtherChecksIdPool m else OtherChecksIdPool m ++ [ck_id r])).

Fixpoint load_checks (rows : list CheckRow) (m : WardenCheckMgr) : outcome WardenCheckMgr :=
  match rows with
  | [] => Ok m
  | r :: rows => let* m := load_check m r in load_checks rows m
  end.

(** [max_id] answers [SELECT MAX(id)], which gives a row for an empty table
    too, holding 0; the rows themselves are fetched without a look at whether there are any. *)
Definition LoadWardenChecks (max_id : option Z) (rows : list CheckRow) (m : WardenCheckMgr) : outcome WardenCheckMgr :=
  match max_id with
  | None => Ok m
  | Some maxCheckId =>
      let store := take (Z.to_nat (maxCheckId + 1)) (CheckStore m)
                   ++ replicate (Z.to_nat (maxCheckId + 1) - length (CheckStore m)) None in
      match rows with
      | [] => UB
      | _ => load_checks rows (mkWardenCheckMgr store (CheckResultStore m) (MemChecksIdPool m) (OtherChecksIdPool m))
      end
  end.
End Loading.

Definition action_of (action : Z) : option WardenActions :=
  match action with 0 => Some WARDEN_ACTION_LOG | 1 => Some WARDEN_ACTION_KICK | 2 => Some WARDEN_ACTION_BAN | _ => None end.
Definition set_action (a : WardenActions) (c : WardenCheck) : WardenCheck :=
  mkWardenCheck (Type_ c) (Data c) (Address c) (Length c) (Str_ c) (Comment c) (CheckId c) a.
Fixpoint LoadWardenOverrides (rows : list (Z * Z)) (m : WardenCheckMgr) : outcome WardenCheckMgr :=
  match rows with
  | [] => Ok m
  | (checkId, action) :: rows =>
      match action_of action with
      | None => LoadWardenOverrides rows m
      | Some a =>
          if Z.of_nat (length (CheckStore m)) <? checkId then LoadWardenOverrides rows m
          else match CheckStore m !! Z.to_nat checkId with
               | Some (Some c) =>
                   LoadWardenOverrides rows (mkWardenCheckMgr (<[Z.to_nat checkId := Some (set_action a c)]> (CheckStore m))
                     (CheckResultStore m) (MemChecksIdPool m) (OtherChecksIdPool m))
               | _ => UB
               end
      end
  end.

(** ** The object of a session *)

(** The data of [WardenModuleWin.h]. *)
Record ModuleData := mkModuleData {
  Module_ : list Z; ModuleKey : list Z; Seed : list Z; ServerKeySeed : list Z; ClientKeySeed : list Z; ClientKeySeedHash : list Z }.

Record ClientWardenModule := mkClientWardenModule { Id : list Z; KeyBytes : list Z; CompressedSize : Z; CompressedData : list Z }.

Inductive WardenEvent :=
| WSend (payload : list Z)                       (* [SendPacket] of an [SMSG_WARDEN_DATA] *)
| WKick                                          (* [KickPlayer] *)
| WBan (accountName duration reason author : string)  (* [BanAccount(BAN_ACCOUNT, ...)] *)
| WLog (line : string).

Section Session.
Context `{OpenSSL} `{ARC4}.

(** [Warden] and [WardenWin], with the list of what they had the session and
    the server do, newest last, and the random words drawn. *)
Record Warden := mkWarden {
  _inputKey : list Z; _outputKey : list Z; _seed : list Z; _inputCrypto : Key; _outputCrypto : Key;
  _checkTimer : Z; _clientResponseTimer : Z; _dataSent : bool; _previousTimestamp : Z;
  _module : option ClientWardenModule; _initialized : bool; _serverTicks : Z;
  _otherChecksTodo : list Z; _memChecksTodo : list Z; _currentChecks : list Z;
  w_events : list WardenEvent; w_draws : nat }.
Definition WM := ST Warden.

Definition WardenWin_new : Warden :=
  mkWarden (replicate 16 0) (replicate 16 0) (replicate 16 0) unkeyed unkeyed 10000 0 false 0 None false 0 [] [] [] [] 0.

Definition set_keys (input output : list Z) (w : Warden) : Warden :=
  mkWarden input output (_seed w) (_inputCrypto w) (_outputCrypto w) (_checkTimer w) (_clientResponseTimer w) (_dataSent w)
    (_previousTimestamp w) (_module w) (_initialized w) (_serverTicks w) (_otherChecksTodo w) (_memChecksTodo w)
    (_currentChecks w) (w_events w) (w_draws w).
Definition set_crypto (input output : Key) (w : Warden) : Warden :=
  mkWarden (_inputKey w) (_outputKey w) (_seed w) input output (_checkTimer w) (_clientResponseTimer w) (_dataSent w)
    (_previousTimestamp w) (_module w) (_initialized w) (_serverTicks w) (_otherChecksTodo w) (_memChecksTodo w)
    (_currentChecks w) (w_events w) (w_draws w).
Definition set_module (seed : list Z) (m : option ClientWardenModule) (w : Warden) : Warden :=
  mkWarden (_inputKey w) (_outputKey w) seed (_inputCrypto w) (_outputCrypto w) (_checkTimer w) (_clientResponseTimer w) (_dataSent w)
    (_previousTimestamp w) m (_initialized w) (_serverTicks w) (_otherChecksTodo w) (_memChecksTodo w)
    (_currentChecks w) (w_events w) (w_draws w).
(** [_checkTimer], [_clientResponseTimer], [_dataSent]. *)
Definition set_timers (check response : Z) (sent : bool) (w : Warden) : Warden :=
  mkWarden (_inputKey w) (_outputKey w) (_seed w) (_inputCrypto w) (_outputCrypto w) check response sent
    (_previousTimestamp w) (_module w) (_initialized w) (_serverTicks w) (_otherChecksTodo w) (_memChecksTodo w)
    (_currentChecks w) (w_events w) (w_draws w).
Definition set_clock (previous : Z) (initialized : bool) (ticks : Z) (w : Warden) : Warden :=
  mkWarden (_inputKey w) (_outputKey w) (_seed w) (_inputCrypto w) (_outputCrypto w) (_checkTimer w) (_clientResponseTimer w) (_dataSent w)
    previous (_module w) initialized ticks (_otherChecksTodo w) (_memChecksTodo w)
    (_currentChecks w) (w_events w) (w_draws w).
Definition set_checks (other mem current : list Z) (w : Warden) : Warden :=
  mkWarden (_inputKey w) (_outputKey w) (_seed w) (_inputCrypto w) (_outputCrypto w) (_checkTimer w) (_clientResponseTimer w) (_dataSent w)
    (_previousTimestamp w) (_module w) (_initialized w) (_serverTicks w) other mem current (w_events w) (w_draws w).
Definition with_event (e : WardenEvent) (draws : nat) (w : Warden) : Warden :=
  mkWarden (_inputKey w) (_outputKey w) (_seed w) (_inputCrypto w) (_outputCrypto w) (_checkTimer w) (_clientResponseTimer w) (_dataSent w)
    (_previousTimestamp w) (_module w) (_initialized w) (_serverTicks w) (_otherChecksTodo w) (_memChecksTodo w)
    (_currentChecks w) (w_events w ++ [e]) draws.
Definition wevent (e : WardenEvent) : WM unit := modS (fun w => with_event e (w_draws w) w).
Definition drawn (n : nat) (w : Warden) : Warden :=
  mkWarden (_inputKey w) (_outputKey w) (_seed w) (_inputCrypto w) (_outputCrypto w) (_checkTimer w) (_clientResponseTimer w) (_dataSent w)
    (_previousTimestamp w) (_module w) (_initialized w) (_serverTicks w) (_otherChecksTodo w) (_memChecksTodo w)
    (_currentChecks w) (w_events w) n.

Definition DecryptData (buffer : list Z) : WM (list Z) :=
  fun w => let '(l, k) := cipher buffer (_inputCrypto w) in (set_crypto k (_outputCrypto w) w, Ok l).
Definition EncryptData (buffer : list Z) : WM (list Z) :=
  fun w => let '(l, k) := cipher buffer (_outputCrypto w) in (set_crypto (_inputCrypto w) k w, Ok l).
(** [EncryptData], [WorldPacket(SMSG_WARDEN_DATA)], [append], [SendPacket]. *)
Definition send_encrypted (plain : list Z) : WM unit :=
  let! data := EncryptData plain in wevent (WSend data).

Definition WARDEN_SMSG_MODULE_USE : Z := 0.
Definition WARDEN_SMSG_MODULE_CACHE : Z := 1.
Definition WARDEN_SMSG_CHEAT_CHECKS_REQUEST : Z := 2.
Definition WARDEN_SMSG_MODULE_INITIALIZE : Z := 3.
Definition WARDEN_SMSG_HASH_REQUEST : Z := 5.

(** [memcpy] and [memcmp] read [n] bytes from [pos] on. *)
Definition memory_at (pos n : Z) (l : list Z) : outcome (list Z) :=
  if Z.of_nat (length l) <? pos + n then UB else Ok (take (Z.to_nat n) (drop (Z.to_nat pos) l)).
Definition same_bytes (a b : list Z) : bool := bool_decide (a = b).

(** One round per 500 bytes, so no more rounds than bytes. *)
Fixpoint send_bursts (fuel : nat) (data : list Z) (sizeLeft pos : Z) : WM unit :=
  if 0 <? sizeLeft then
    match fuel with
    | O => liftS UB
    | S fuel =>
        let burstSize := if sizeLeft <? 500 then sizeLeft else 500 in
        let! burst := liftS (memory_at pos burstSize data) in
        send_encrypted ([WARDEN_SMSG_MODULE_CACHE] ++ le_split 2 burstSize ++ burst) ;!
        send_bursts fuel data (sizeLeft - burstSize) (pos + burstSize)
    end
  else retS tt.
Definition module_of : WM ClientWardenModule :=
  let! m := getS _module in match m with Some m => retS m | None => liftS UB end.
Definition SendModuleToClient : WM unit :=
  let! m := module_of in send_bursts (length (CompressedData m)) (CompressedData m) (CompressedSize m) 0.

Definition RequestModule : WM unit :=
  let! m := module_of in
  send_encrypted ([WARDEN_SMSG_MODULE_USE] ++ take 16 (Id m) ++ take 16 (KeyBytes m) ++ le_split 4 (CompressedSize m)).

(** [SHA1Randx]: what it was made from, the block in use and how much of it is taken. *)
Record SHA1Randx := mkSHA1Randx { o0 : list Z; o1 : list Z; o2 : list Z; taken : nat }.
Definition FillUp (r : SHA1Randx) : SHA1Randx := mkSHA1Randx (SHA1 (o1 r ++ o0 r ++ o2 r)) (o1 r) (o2 r) 0.
Definition SHA1Randx_new (buff : list Z) : SHA1Randx :=
  let half := (length buff / 2)%nat in
  FillUp (mkSHA1Randx (replicate 20 0) (SHA1 (take half buff)) (SHA1 (drop half buff)) 0).
Fixpoint Generate (sz : nat) (r : SHA1Randx) : list Z * SHA1Randx :=
  match sz with
  | O => ([], r)
  | S sz =>
      let r := if (taken r =? 20)%nat then FillUp r else r in
      let '(l, r') := Generate sz (mkSHA1Randx (o0 r) (o1 r) (o2 r) (S (taken r))) in
      (nth (taken r) (o0 r) 0 :: l, r')
  end.

(** The module's data, MD5 and the random words. *)
Context (Module : ModuleData) (MD5 : list Z -> list Z) (rand32 : nat -> Z).
(** The checks, the settings and the session: whether it has a player, its
    account and the name that goes with that, if any. *)
Context (mgr : WardenCheckMgr) (NUM_MEM_CHECKS NUM_OTHER_CHECKS BAN_DURATION : Z).
Context (has_player : bool) (account_name : option string).

Definition GetModuleForClient : ClientWardenModule :=
  mkClientWardenModule (MD5 (Module_ Module)) (take 16 (ModuleKey Module)) (Z.of_nat (length (Module_ Module))) (Module_ Module).

Definition WardenWin_Init (k : Z) : WM unit :=
  let wk := SHA1Randx_new (AsByteArray 0 true k) in
  let '(input, wk) := Generate 16 wk in
  let '(output, _) := Generate 16 wk in
  modS (set_keys input output) ;!
  modS (set_crypto (set_key input) (set_key output)) ;!
  modS (set_module (take 16 (Seed Module)) (Some GetModuleForClient)) ;!
  RequestModule.

(** ** Penalties *)
Definition fail_reason (checkFailed : Z) : string :=
  match checkFailed with
  | 47 => " (FrameXML Signature Check)" | 51 => " (Lua DoString)" | 59 => " (Lua Protection Patch)"
  | 72 => " (Movement State related)" | 118 => " (Wall Climb)" | 121 => " (No Fall Damage Patch)"
  | 193 => " (Follow Unit Check)" | 209 => " (WoWEmuHacker Injection)" | 237 => " (AddChatMessage)"
  | 246 => " (Language Patch)" | 260 => " (Jump Momentum)" | 288 => " (Language Patch)"
  | 308 => " (SendChatMessage)" | 312 => " (Jump Physics)" | 314 => " (GetCharacterInfo)"
  | 329 => " (Wall Climb)" | 343 => " (Login Password Pointer)" | 349 => " (Language Patch)"
  | 712 => " (WS2_32.Send)" | 780 => " (Lua Protection Remover)" | 781 => " (Walk on Water Patch)"
  | 782 => " (Collision M2 Special)" | 783 => " (Collision M2 Regular)" | 784 => " (Collision WMD)"
  | 785 => " (Multi-Jump Patch)" | 786 => " (WPE PRO)" | 787 => " (rEdoX Packet Editor)"
  | _ => EmptyString
  end.

(** [_session->GetPlayer()->GetName()]. *)
Definition player_name : WM unit := if has_player then retS tt else liftS UB.

Definition Penalty (check : option WardenCheck) (checkFailed : Z) : WM string :=
  let action := match check with Some c => Action c | None => WARDEN_ACTION_KICK end in
  let banReason := ("Anticheat violation" +:+ fail_reason checkFailed)%string in
  match action with
  | WARDEN_ACTION_LOG => player_name ;! wevent (WLog banReason) ;! retS "None"%string
  | WARDEN_ACTION_KICK => player_name ;! wevent (WLog (if checkFailed =? 0 then "No reason, something custom?" else banReason)) ;! wevent WKick ;! retS "Kick"%string
  | WARDEN_ACTION_BAN =>
      wevent (WBan (default EmptyString account_name) (print_u64 BAN_DURATION +:+ "s") banReason "Server") ;! retS "Ban"%string
  end.

(** ** Handshake *)
Fixpoint xor_words (n : nat) (hash : list Z) : Z :=
  match n with O => 0 | S n => Z.lxor (le_combine (take 4 hash)) (xor_words n (drop 4 hash)) end.
Definition BuildChecksum (data : list Z) : Z := xor_words 5 (SHA1 data).
Definition IsValidCheckSum (checksum : Z) (data : list Z) : bool := checksum =? BuildChecksum data.

(** The three parts of a [WardenInitModuleRequest]; the checksum of the
    second is taken from [Unk2] on, the second of its first part's own. *)
Definition init_part1 : list Z := [1; 0; 1; 0] ++ le_split 4 0x24F80 ++ le_split 4 0x218C0 ++ le_split 4 0x22530 ++ le_split 4 0x22910.
Definition init_part2 : list Z := [4; 0; 0] ++ le_split 4 0x419D40 ++ [1].
Definition init_part3 : list Z := [1; 1; 0] ++ le_split 4 0x46AE20 ++ [1].
Definition init_part (size checksum : Z) (body : list Z) : list Z :=
  [WARDEN_SMSG_MODULE_INITIALIZE] ++ le_split 2 size ++ le_split 4 checksum ++ body.
Definition InitializeModule : WM unit :=
  send_encrypted
    (init_part 20 (BuildChecksum (take 20 init_part1)) init_part1
     ++ init_part 8 (BuildChecksum (take 8 (drop 1 init_part1))) init_part2
     ++ init_part 8 (BuildChecksum (take 8 init_part3)) init_part3).

Definition RequestHash : WM unit :=
  let! seed := getS _seed in send_encrypted ([WARDEN_SMSG_HASH_REQUEST] ++ take 16 seed).

Definition HandleHashResult (now : Z) (buff : ByteBuffer) : WM unit :=
  let! c := liftS (bb_contents buff) in
  let! hash := liftS (memory_at 1 20 c) in
  if negb (same_bytes hash (take 20 (ClientKeySeedHash Module))) then Penalty None 0 ;! retS tt
  else
    let input := take 16 (ClientKeySeed Module) in
    let output := take 16 (ServerKeySeed Module) in
    modS (set_keys input output) ;!
    modS (set_crypto (set_key input) (set_key output)) ;!
    modS (fun w => set_clock now true (_serverTicks w) w).

(** ** A request for checks *)

(** [std::list::back] and [pop_back] on a list that is not empty. *)
Definition back_pop (l : list Z) : option (Z * list Z) :=
  match rev l with [] => None | x :: l' => Some (x, rev l') end.

(** At most [n] ids from the end of a list, and what is left of it. *)
Fixpoint take_checks (n : nat) (todo : list Z) : list Z * list Z :=
  match n with
  | O => ([], todo)
  | S n =>
      match back_pop todo with
      | None => ([], todo)
      | Some (id, todo') => let '(ids, rest) := take_checks n todo' in (id :: ids, rest)
      end
  end.

(** The two checks of every request. *)
Definition always_asked : list Z := [786; 209].

(** The string of a check that has one. *)
Definition append_string_of (id : Z) (buff : ByteBuffer) : outcome ByteBuffer :=
  match GetWardenDataById id mgr with
  | Some wd =>
      if one_of [MPQ_CHECK; LUA_STR_CHECK; DRIVER_CHECK] (Type_ wd) then
        let* buff := append_int 1 (Z.of_nat (String.length (Str_ wd))) buff in
        append (str_bytes (Str_ wd)) buff
      else Ok buff
  | None => Ok buff
  end.
Fixpoint ask_other (n : nat) (buff : ByteBuffer) : WM ByteBuffer :=
  match n with
  | O => retS buff
  | S n =>
      let! w := getS id in
      match back_pop (_otherChecksTodo w) with
      | None => retS buff
      | Some (id, rest) =>
          modS (set_checks rest (_memChecksTodo w) (_currentChecks w ++ [id])) ;!
          let! buff := liftS (append_string_of id buff) in
          ask_other n buff
      end
  end.

(** What one check adds after its type, with the index of its string; the
    index and the number of draws after it. *)
Definition append_check (wd : WardenCheck) (index : Z) (draws : nat) (buff : ByteBuffer) : outcome (ByteBuffer * Z * nat) :=
  let t := Type_ wd in
  if t =? MEM_CHECK then
    let* buff := append_int 1 0 buff in
    let* buff := append_int 4 (Address wd) buff in
    let* buff := append_int 1 (Length wd) buff in Ok (buff, index, draws)
  else if one_of [PAGE_CHECK_A; PAGE_CHECK_B] t then
    let* buff := append (AsByteArray 0 false (Data wd)) buff in
    let* buff := append_int 4 (Address wd) buff in
    let* buff := append_int 1 (Length wd) buff in Ok (buff, index, draws)
  else if one_of [MPQ_CHECK; LUA_STR_CHECK] t then
    let* buff := append_int 1 index buff in Ok (buff, u8 (index + 1), draws)
  else if t =? DRIVER_CHECK then
    let* buff := append (AsByteArray 0 false (Data wd)) buff in
    let* buff := append_int 1 index buff in Ok (buff, u8 (index + 1), draws)
  else if t =? MODULE_CHECK then
    let seed := u32 (rand32 draws) in
    let* buff := append_int 4 seed buff in
    let* buff := append (HMAC_SHA1 (le_split 4 seed) (str_bytes (Str_ wd))) buff in Ok (buff, index, S draws)
  else Ok (buff, index, draws).

Fixpoint append_checks (xorByte : Z) (ids : list Z) (index : Z) (draws : nat) (buff : ByteBuffer) : outcome (ByteBuffer * nat) :=
  match ids with
  | [] => Ok (buff, draws)
  | id :: ids =>
      match GetWardenDataById id mgr with
      | None => UB
      | Some wd =>
          let* buff := append_int 1 (Z.lxor (Type_ wd) xorByte) buff in
          let* '(buff, index, draws) := append_check wd index draws buff in
          append_checks xorByte ids index draws buff
      end
  end.

Definition RequestData (ticks : Z) : WM unit :=
  modS (fun w => set_checks (_otherChecksTodo w) (match _memChecksTodo w with [] => MemChecksIdPool mgr | l => l end) (_currentChecks w) w) ;!
  modS (fun w => set_checks (match _otherChecksTodo w with [] => OtherChecksIdPool mgr | l => l end) (_memChecksTodo w) (_currentChecks w) w) ;!
  modS (fun w => set_clock (_previousTimestamp w) (_initialized w) ticks w) ;!
  modS (fun w => let '(mem, rest) := take_checks (Z.to_nat NUM_MEM_CHECKS) (_memChecksTodo w) in
                 set_checks (_otherChecksTodo w) rest
                   (List.filter (fun id => negb (one_of always_asked id)) mem ++ always_asked) w) ;!
  let! buff := liftS (append_int 1 WARDEN_SMSG_CHEAT_CHECKS_REQUEST ByteBuffer_new) in
  let! buff := ask_other (Z.to_nat NUM_OTHER_CHECKS) buff in
  let! w := getS id in
  let xorByte := nth 0 (_inputKey w) 0 in
  let! buff := liftS (append_int 1 0 buff) in
  let! buff := liftS (append_int 1 (Z.lxor TIMING_CHECK xorByte) buff) in
  let! '(buff, draws) := liftS (append_checks xorByte (_currentChecks w) 1 (w_draws w) buff) in
  modS (drawn draws) ;!
  let! buff := liftS (append_int 1 xorByte buff) in
  let! plain := liftS (bb_contents buff) in
  send_encrypted plain ;!
  modS (fun w => set_timers (_checkTimer w) (_clientResponseTimer w) true w).

(** ** The answer *)

(** One check read: whether it passed. *)
Definition read_result (rd : WardenCheck) (rs : option Z) (buff : ByteBuffer) : outcome (bool * ByteBuffer) :=
  let compare n :=
    match rs with
    | None => UB
    | Some rs =>
        let* got := memory_at (_rpos buff + 1) n (_storage buff) in
        let* expected := memory_at 0 n (AsByteArray 0 false rs) in
        Ok (same_bytes got expected, set_rpos (u64 (u64 (_rpos buff + 1) + n)) buff)
    end in
  let t := Type_ rd in
  if t =? MEM_CHECK then
    let* '(Mem_Result, b) := read 1 buff in
    if negb (Mem_Result =? 0) then Ok (false, b) else compare (Length rd)
  else if one_of [PAGE_CHECK_A; PAGE_CHECK_B; DRIVER_CHECK; MODULE_CHECK] t then
    let* got := memory_at (_rpos buff) 1 (_storage buff) in
    Ok (same_bytes got [0xE9], set_rpos (u64 (_rpos buff + 1)) buff)
  else if t =? LUA_STR_CHECK then
    let* '(Lua_Result, b) := read 1 buff in
    if negb (Lua_Result =? 0) then Ok (false, b)
    else
      let* '(luaStrLen, b) := read 1 b in
      let* _ := if luaStrLen =? 0 then Ok [] else memory_at (_rpos b) luaStrLen (_storage b) in
      Ok (true, set_rpos (u64 (_rpos b + luaStrLen)) b)
  else if t =? MPQ_CHECK then
    let* '(Mpq_Result, b) := read 1 buff in
    if negb (Mpq_Result =? 0) then Ok (false, b) else compare 20
  else Ok (true, buff).

(** [checkFailed] is the last one that failed. *)
Fixpoint read_results (ids : list Z) (checkFailed : Z) (buff : ByteBuffer) : outcome (Z * ByteBuffer) :=
  match ids with
  | [] => Ok (checkFailed, buff)
  | id :: ids =>
      match GetWardenDataById id mgr with
      | None => UB
      | Some rd =>
          let* '(passed, buff) := read_result rd (GetWardenResultById id mgr) buff in
          read_results ids (if passed then checkFailed else id) buff
      end
  end.

Definition HandleData (buff : ByteBuffer) : WM unit :=
  modS (fun w => set_timers (_checkTimer w) 0 false w) ;!
  let! '(Length, buff) := liftS (read 2 buff) in
  let! '(Checksum, buff) := liftS (read 4 buff) in
  let! c := liftS (bb_contents buff) in
  let! data := liftS (memory_at (_rpos buff) Length c) in
  if negb (IsValidCheckSum Checksum data) then Penalty None 0 ;! retS tt
  else
    let! '(result, buff) := liftS (read 1 buff) in
    if result =? 0 then Penalty None 0 ;! retS tt
    else
      let! '(_, buff) := liftS (read 4 buff) in
      let! current := getS _currentChecks in
      let! '(checkFailed, _) := liftS (read_results current 0 buff) in
      (if 0 <? checkFailed then Penalty (GetWardenDataById checkFailed mgr) checkFailed ;! retS tt else retS tt) ;!
      modS (fun w => set_timers 1000 (_clientResponseTimer w) (_dataSent w) w).

(** ** The clock *)
Definition getMSTimeDiff (oldMSTime newMSTime : Z) : Z :=
  if newMSTime <? oldMSTime then u32 (0xFFFFFFFF - oldMSTime + newMSTime) else newMSTime - oldMSTime.

(** [now] is what the first [getMSTime] gives, [ticks] the one of [RequestData]. *)
Definition maxClientResponseDelay : Z := 60.
Definition Warden_Update (now ticks : Z) : WM unit :=
  let! w := getS id in
  whenS (_initialized w)
    (let diff := getMSTimeDiff (_previousTimestamp w) now in
     modS (fun w => set_clock now (_initialized w) (_serverTicks w) w) ;!
     if _dataSent w then
       if maxClientResponseDelay * 1000 <? _clientResponseTimer w then player_name ;! wevent (WLog "idle") ;! wevent WKick
       else modS (fun w => set_timers (_checkTimer w) (u32 (_clientResponseTimer w + diff)) (_dataSent w) w)
     else if _checkTimer w <=? diff then RequestData ticks
     else modS (fun w => set_timers (_checkTimer w - diff) (_clientResponseTimer w) (_dataSent w) w)).

(** ** The packet *)
Definition HandleWardenDataOpcode (now : Z) (recv : ByteBuffer) : WM unit :=
  if bb_empty recv then retS tt
  else
    let! plain := DecryptData (_storage recv) in
    let recv := mkBB (_rpos recv) (_wpos recv) plain in
    let! '(opcode, recv) := liftS (read 1 recv) in
    match opcode with
    | 0 => SendModuleToClient
    | 1 => RequestHash
    | 2 => HandleData recv
    | 4 => HandleHashResult now recv ;! InitializeModule
    | _ => retS tt
    end.
End Session.
