(* ===== verification/WardenFacts.v ===== *)
(** * What the warden does with an answer, with silence, with its module

    [warden_verdict]: the exact effect of any well-formed answer.
    [silent_client_kicked]: who does not answer is kicked, in time and not
    before.  [module_delivered]: the client can put the module together. *)
From Stdlib Require Import Ascii String ZArith Lia.
From stdpp Require Import base gmap list strings.
From S2P Require Import Prelude ByteBuffer StateM BigNumber Warden.

Open Scope Z_scope.

#[local] Arguments Z.mul : simpl never.
#[local] Arguments Z.add : simpl never.
#[local] Arguments Z.sub : simpl never.
#[local] Arguments Z.pow : simpl never.
#[local] Arguments Z.to_nat : simpl never.
#[local] Arguments le_split : simpl never.
#[local] Arguments le_combine : simpl never.

(** ** Reading *)
Lemma received_readable b : received b -> readable b.
Proof. intros [? ?]. split; lia. Qed.

Lemma received_skip b bs rest : received b -> pending b = bs ++ rest ->
  received (set_rpos (_rpos b + Z.of_nat (length bs)) b) /\ pending (set_rpos (_rpos b + Z.of_nat (length bs)) b) = rest.
Proof.
  intros Hb Hp. split; [|by eapply pending_skip; [apply received_readable| |]].
  destruct bs as [|x bs]; [destruct Hb; unfold received, bb_size in *; cbn [length set_rpos _rpos _storage] in *; lia|].
  pose proof (pending_size b _ _ (received_readable _ Hb) Hp ltac:(done)) as Hs.
  destruct Hb as [H1 H2]. split; [|done]. simpl in *. unfold bb_size in *. simpl. lia.
Qed.

Lemma bytes_at_pending b bs rest : received b -> pending b = bs ++ rest ->
  memory_at (_rpos b) (Z.of_nat (length bs)) (_storage b) = Ok bs.
Proof.
  intros Hb Hp. unfold memory_at.
  destruct (received_skip b bs rest Hb Hp) as [[Hs _] _]. simpl in Hs. unfold bb_size in Hs. simpl in Hs.
  destruct (Z.ltb_spec (Z.of_nat (length (_storage b))) (_rpos b + Z.of_nat (length bs))); [lia|].
  unfold pending in Hp. by rewrite Hp, Nat2Z.id, take_app_length.
Qed.

Lemma read_byte b x rest : received b -> pending b = x :: rest -> 
  read 1 b = Ok (x, set_rpos (_rpos b + 1) b).
Proof.
  intros Hb Hp. rewrite (read_pending 1 b [x] rest (received_readable _ Hb) Hp) by (done || lia).
  unfold le_combine. by rewrite Z.mul_0_r, Z.add_0_r.
Qed.

Lemma rpos_small b bs rest : received b -> pending b = bs ++ rest ->
  u64 (_rpos b + Z.of_nat (length bs)) = _rpos b + Z.of_nat (length bs).
Proof.
  intros Hb Hp. destruct (received_skip b bs rest Hb Hp) as [[Hs Hz] _]. unfold bb_size in *. simpl in *.
  apply wrap_small. change (2 ^ 64) with (2 * 2 ^ 63). lia.
Qed.

Section facts.
Context {ssl : OpenSSL} {ssl_ok : OpenSSLSpec} {rc4 : ARC4}.
Context (Module : ModuleData) (mgr : WardenCheckMgr) (BAN_DURATION : Z).
Context (has_player : bool) (account_name : option string).

(** ** Answers

    What a client may write for a check, and whether that passes. *)
Inductive answers (id : Z) : list Z -> bool -> Prop :=
| ans_flag wd r : GetWardenDataById id mgr = Some wd -> one_of [MEM_CHECK; LUA_STR_CHECK; MPQ_CHECK] (Type_ wd) = true ->
    0 < r < 256 -> answers id [r] false
| ans_bytes wd rs bs : GetWardenDataById id mgr = Some wd -> GetWardenResultById id mgr = Some rs ->
    Type_ wd = MEM_CHECK /\ Z.of_nat (length bs) = Length wd \/ Type_ wd = MPQ_CHECK /\ length bs = 20%nat ->
    (length bs <= length (AsByteArray 0 false rs))%nat ->
    answers id (0 :: bs) (same_bytes bs (take (length bs) (AsByteArray 0 false rs)))
| ans_found wd b : GetWardenDataById id mgr = Some wd ->
    one_of [PAGE_CHECK_A; PAGE_CHECK_B; DRIVER_CHECK; MODULE_CHECK] (Type_ wd) = true -> answers id [b] (b =? 0xE9)
| ans_text wd text : GetWardenDataById id mgr = Some wd -> Type_ wd = LUA_STR_CHECK -> (length text < 256)%nat ->
    answers id (0 :: Z.of_nat (length text) :: text) true
| ans_other wd : GetWardenDataById id mgr = Some wd ->
    one_of [MEM_CHECK; LUA_STR_CHECK; MPQ_CHECK; PAGE_CHECK_A; PAGE_CHECK_B; DRIVER_CHECK; MODULE_CHECK] (Type_ wd) = false ->
    answers id [] true.

Lemma set_rpos_set r s b : set_rpos r (set_rpos s b) = set_rpos r b.
Proof. done. Qed.
Lemma same_single (b : Z) : same_bytes [b] [0xE9] = (b =? 0xE9).
Proof. unfold same_bytes. destruct (Z.eqb_spec b 0xE9) as [->|]; [done|]. apply bool_decide_eq_false. congruence. Qed.

Lemma among_cases l x : one_of l x = true -> x ∈ l.
Proof.
  unfold one_of. rewrite existsb_exists. intros (y & Hy & He). apply Z.eqb_eq in He as ->. by apply list_elem_of_In.
Qed.

Lemma read_result_answer id bs good wd buff rest :
  answers id bs good -> GetWardenDataById id mgr = Some wd -> received buff -> pending buff = bs ++ rest ->
  read_result wd (GetWardenResultById id mgr) buff = Ok (good, set_rpos (_rpos buff + Z.of_nat (length bs)) buff).
Proof.
  intros Ha Hw Hb Hp.
  assert (forall x l, bs = x :: l -> received (set_rpos (_rpos buff + 1) buff) /\ pending (set_rpos (_rpos buff + 1) buff) = l ++ rest) as Hnext.
  { intros x l ->. change (x :: l) with ([x] ++ l) in Hp. rewrite <- app_assoc in Hp. by apply (received_skip buff [x]). }
  destruct Ha as [wd' r Hw' Ht Hr|wd' rs l Hw' Hrs Ht Hl|wd' b Hw' Ht|wd' text Hw' Ht Hl|wd' Hw' Ht];
    rewrite Hw in Hw'; injection Hw' as <-; unfold read_result.
  - rewrite (read_byte _ _ _ Hb Hp). cbn [obind].
    apply among_cases in Ht. rewrite !elem_of_cons, elem_of_nil in Ht.
    assert ((r =? 0) = false) as -> by lia. destruct_or! Ht; rewrite Ht; try done.
  - rewrite (read_byte _ _ _ Hb Hp), Hrs. destruct (Hnext 0 l eq_refl) as [Hb1 Hp1].
    pose proof (bytes_at_pending _ _ _ Hb1 Hp1) as Hg. simpl in Hg.
    pose proof (rpos_small _ _ _ Hb1 Hp1) as Hs. simpl in Hs.
    assert (memory_at 0 (Z.of_nat (length l)) (AsByteArray 0 false rs) = Ok (take (length l) (AsByteArray 0 false rs))) as Hx.
    { unfold memory_at. destruct (Z.ltb_spec (Z.of_nat (length (AsByteArray 0 false rs))) (0 + Z.of_nat (length l))); [lia|].
      by rewrite Nat2Z.id. }
    pose proof (rpos_small buff [0] (l ++ rest) Hb Hp) as H1. change (Z.of_nat (length [0])) with 1 in H1.
    destruct Ht as [[Ht Hn]|[Ht Hn]]; rewrite Ht.
    + cbn -[AsByteArray]. rewrite <- Hn, H1, Hg. cbn -[AsByteArray]. rewrite Hx. cbn -[AsByteArray]. rewrite Hs. do 3 f_equal. lia.
    + cbn -[AsByteArray]. rewrite Hn in *. change (Z.of_nat 20) with 20 in *. rewrite H1, Hg. cbn -[AsByteArray]. rewrite Hx. cbn -[AsByteArray].
      rewrite Hs. do 3 f_equal. lia.
  - pose proof (bytes_at_pending _ _ _ Hb Hp) as Hg. pose proof (rpos_small _ _ _ Hb Hp) as Hs.
    change (Z.of_nat (length [b])) with 1 in *. rewrite Hg, Hs.
    apply among_cases in Ht. rewrite !elem_of_cons, elem_of_nil in Ht.
    destruct_or! Ht; rewrite Ht; cbn; by rewrite ?same_single.
  - rewrite Ht, (read_byte _ _ _ Hb Hp). cbn. destruct (Hnext _ _ eq_refl) as [Hb1 Hp1].
    rewrite (read_byte _ _ _ Hb1 Hp1). cbn.
    change (Z.of_nat (length text) :: text) with ([Z.of_nat (length text)] ++ text) in Hp1. rewrite <- app_assoc in Hp1.
    destruct (received_skip _ [_] _ Hb1 Hp1) as [Hb2 Hp2]. simpl in Hb2, Hp2.
    pose proof (bytes_at_pending _ _ _ Hb2 Hp2) as Hg. pose proof (rpos_small _ _ _ Hb2 Hp2) as Hs. simpl in Hg, Hs.
    change (Z.of_nat 1) with 1 in *. rewrite Hg. destruct (Z.of_nat (length text) =? 0); cbn; rewrite Hs; rewrite !set_rpos_set; do 3 f_equal; cbn [length]; lia.
  - assert (forall x, x ∈ [MEM_CHECK; LUA_STR_CHECK; MPQ_CHECK; PAGE_CHECK_A; PAGE_CHECK_B; DRIVER_CHECK; MODULE_CHECK] -> (Type_ wd =? x) = false) as Hf.
    { intros x Hx. apply not_true_iff_false. intros He. apply not_true_iff_false in Ht. apply Ht.
      unfold one_of. rewrite existsb_exists. exists x. by rewrite <- list_elem_of_In. }
    unfold one_of. cbn [existsb]. rewrite !Hf by set_solver. cbn. destruct buff. unfold set_rpos. simpl. by rewrite Z.add_0_r.
Qed.

(** The last check that failed; 0 when all passed. *)
Fixpoint last_failed (f : Z) (ids : list Z) (goods : list bool) : Z :=
  match ids, goods with
  | id :: ids, good :: goods => last_failed (if good then f else id) ids goods
  | _, _ => f
  end.

Lemma read_results_answers ids bss goods f buff rest :
  Forall3 answers ids bss goods -> received buff -> pending buff = concat bss ++ rest ->
  exists buff', read_results mgr ids f buff = Ok (last_failed f ids goods, buff').
Proof.
  intros Ha. revert f buff. induction Ha as [|id bs good ids bss goods Hid Ha IH]; intros f buff Hb Hp; [by exists buff|].
  cbn [concat] in Hp. rewrite <- app_assoc in Hp.
  assert (exists wd, GetWardenDataById id mgr = Some wd) as [wd Hw] by (destruct Hid; eauto).
  cbn [read_results last_failed]. rewrite Hw, (read_result_answer id bs good wd buff _ Hid Hw Hb Hp). cbn [obind].
  destruct (received_skip buff bs _ Hb Hp) as [Hb' Hp']. by apply IH.
Qed.

(** ** What follows on an answer *)
Definition sanction (check : option WardenCheck) (f : Z) : list WardenEvent :=
  let reason := ("Anticheat violation" +:+ fail_reason f)%string in
  match match check with Some c => Action c | None => WARDEN_ACTION_KICK end with
  | WARDEN_ACTION_LOG => [WLog reason]
  | WARDEN_ACTION_KICK => [WLog (if f =? 0 then "No reason, something custom?" else reason); WKick]
  | WARDEN_ACTION_BAN => [WBan (default EmptyString account_name) (print_u64 BAN_DURATION +:+ "s") reason "Server"]
  end.
Definition verdict_on (f : Z) : list WardenEvent := if 0 <? f then sanction (GetWardenDataById f mgr) f else [].

Definition add_events (l : list WardenEvent) (w : Warden) : Warden :=
  foldl (fun w e => with_event e (w_draws w) w) w l.

Lemma add_events_events l w : w_events (add_events l w) = w_events w ++ l.
Proof.
  revert w. induction l as [|e l IH]; intros w; [by rewrite app_nil_r|]. unfold add_events in *. simpl. rewrite IH. simpl.
  by rewrite <- app_assoc.
Qed.

(** What is written of a player names him; a ban is the account's. *)
Definition names_player (events : list WardenEvent) : bool :=
  existsb (fun e => match e with WLog _ => true | _ => false end) events.
Definition carried_out (events : list WardenEvent) : bool := has_player || negb (names_player events).

Lemma Penalty_run check f w :
  exists x, Penalty BAN_DURATION has_player account_name check f w
    = if carried_out (sanction check f) then (add_events (sanction check f) w, Ok x) else (w, UB).
Proof.
  unfold Penalty, sanction, carried_out, player_name.
  destruct has_player; (destruct check as [c|]; [destruct (Action c)|]); (by exists EmptyString) || (eexists; reflexivity).
Qed.

Lemma le_bytes n v : 0 <= v < 256 ^ Z.of_nat n -> le_combine (le_split n v) = v.
Proof. intros. rewrite le_combine_split. by apply Z.mod_small. Qed.

Lemma lxor_range n a b : 0 <= a < 2 ^ n -> 0 <= b < 2 ^ n -> 0 <= n -> 0 <= Z.lxor a b < 2 ^ n.
Proof.
  intros Ha Hb Hn. assert (0 <= Z.lxor a b) as Hx by (apply Z.lxor_nonneg; lia). split; [done|].
  destruct (Z.eq_dec (Z.lxor a b) 0) as [->|Hne]; [lia|]. apply Z.log2_lt_pow2; [lia|].
  eapply Z.le_lt_trans; [apply Z.log2_lxor; lia|].
  destruct (Z.eq_dec n 0) as [->|]; [change (2 ^ 0) with 1 in *; assert (a = 0) as -> by lia; assert (b = 0) as -> by lia; done|].
  apply Z.max_lub_lt.
  - destruct (Z.eq_dec a 0) as [->|]; [cbn; lia|apply Z.log2_lt_pow2; lia].
  - destruct (Z.eq_dec b 0) as [->|]; [cbn; lia|apply Z.log2_lt_pow2; lia].
Qed.

Lemma xor_words_range n l : Forall is_byte l -> 0 <= xor_words n l < 2 ^ 32.
Proof.
  revert l. induction n as [|n IH]; intros l Hl; [done|]. cbn [xor_words].
  assert (0 <= le_combine (take 4 l) < 2 ^ 32) as H1.
  { pose proof (le_combine_bound (take 4 l) (Forall_take _ 4 _ Hl)) as Hc. split; [lia|].
    eapply Z.lt_le_trans; [apply Hc|]. rewrite pow256. apply Z.pow_le_mono_r; [lia|]. rewrite length_take. lia. }
  apply lxor_range; [done|by apply IH, Forall_drop|lia].
Qed.

Lemma add_events_timers a b c l w : add_events l (set_timers a b c w) = set_timers a b c (add_events l w).
Proof. unfold add_events. revert w. induction l as [|e l IH]; intros w; [done|]. simpl. apply (IH (with_event e (w_draws w) w)). Qed.

Lemma add_events_check_timer l w : _checkTimer (add_events l w) = _checkTimer w.
Proof. unfold add_events. revert w. induction l as [|e l IH]; intros w; [done|]. simpl. by rewrite IH. Qed.

Lemma checksum_range l : 0 <= BuildChecksum l < 2 ^ 32.
Proof. apply xor_words_range, SHA1_bytes. Qed.

(** The body of an answer: the mark and the clock of the timing check, then the other checks. *)
Definition answer_body (mark ticks : Z) (bss : list (list Z)) : list Z := mark :: le_split 4 ticks ++ concat bss.
Definition answer (mark ticks : Z) (bss : list (list Z)) : list Z :=
  2 :: le_split 2 (Z.of_nat (length (answer_body mark ticks bss)))
    ++ le_split 4 (BuildChecksum (answer_body mark ticks bss)) ++ answer_body mark ticks bss.

(** The verdict on an answer: what the checks say, unless the mark of the
    timing check is missing; then the client is kicked, the checks are not
    read and the next request is not put off. *)
Definition verdict (mark : Z) (ids : list Z) (goods : list bool) : list WardenEvent :=
  if mark =? 0 then sanction None 0 else verdict_on (last_failed 0 ids goods).
Definition judged (mark : Z) (events : list WardenEvent) (w : Warden) : Warden * outcome unit :=
  if carried_out events then (set_timers (if mark =? 0 then _checkTimer w else 1000) 0 false (add_events events w), Ok tt)
  else (set_timers (_checkTimer w) 0 false w, UB).

Lemma HandleData_answer b mark ticks bss goods w :
  received b -> pending b = drop 1 (answer mark ticks bss) ->
  Z.of_nat (length (answer_body mark ticks bss)) < 2 ^ 16 ->
  Forall3 answers (_currentChecks w) bss goods ->
  HandleData mgr BAN_DURATION has_player account_name b w = judged mark (verdict mark (_currentChecks w) goods) w.
Proof.
  intros Hb Hp Hlen Ha. cbn [drop answer] in Hp. set (body := answer_body mark ticks bss) in *.
  unfold HandleData, bindS at 1, modS at 1.
  unfold bindS at 1, liftS at 1. rewrite (read_int_pending 2 _ b _ (received_readable _ Hb) Hp) by lia.
  destruct (received_skip _ _ _ Hb Hp) as [Hb1 Hp1]. rewrite length_le_split in Hb1, Hp1.
  unfold bindS at 1, liftS at 1. rewrite (read_int_pending 4 _ _ _ (received_readable _ Hb1) Hp1) by lia.
  destruct (received_skip _ _ _ Hb1 Hp1) as [Hb2 Hp2]. rewrite length_le_split in Hb2, Hp2.
  rewrite (wrap_small (8 * Z.of_nat 2) (Z.of_nat (length body))) by (change (2 ^ (8 * Z.of_nat 2)) with (2 ^ 16); lia).
  rewrite (wrap_small (8 * Z.of_nat 4) (BuildChecksum body)) by apply checksum_range.
  match type of Hb2 with received ?x => set (b2 := x) in * end.
  unfold bindS at 1, liftS at 1. unfold bb_contents, bb_empty.
  assert (_storage b2 <> []) as Hne.
  { intros E. unfold pending in Hp2. rewrite E, drop_nil in Hp2. by unfold body, answer_body in Hp2. }
  rewrite bool_decide_eq_false_2 by done.
  rewrite <- (app_nil_r body) in Hp2. pose proof (bytes_at_pending _ _ _ Hb2 Hp2) as Hd.
  unfold bindS at 1, liftS at 1. rewrite Hd.
  unfold IsValidCheckSum. rewrite Z.eqb_refl. cbn [negb].
  unfold body, answer_body in Hp2. cbn [app] in Hp2.
  unfold bindS at 1, liftS at 1. rewrite (read_byte _ _ _ Hb2 Hp2).
  unfold judged, verdict. destruct (Z.eqb_spec mark 0) as [->|Hm].
  { destruct (Penalty_run None 0 (set_timers (_checkTimer w) 0 false w)) as [x Ep].
    unfold bindS, retS. rewrite Ep. destruct (carried_out _); [|done]. by rewrite add_events_timers. }
  destruct (received_skip _ [mark] _ Hb2 Hp2) as [Hb3 Hp3]. cbn [length] in Hb3, Hp3. change (Z.of_nat 1) with 1 in *.
  rewrite app_nil_r in Hp3.
  unfold bindS at 1, liftS at 1. rewrite (read_int_pending 4 _ _ _ (received_readable _ Hb3) Hp3) by lia.
  destruct (received_skip _ _ _ Hb3 Hp3) as [Hb4 Hp4]. rewrite length_le_split in Hb4, Hp4. rewrite <- (app_nil_r (concat bss)) in Hp4.
  unfold bindS at 1, getS at 1. cbn [_currentChecks set_timers].
  destruct (read_results_answers _ _ _ 0 _ _ Ha Hb4 Hp4) as [b5 E].
  unfold bindS at 1, liftS at 1. rewrite E. unfold verdict_on.
  destruct (0 <? last_failed 0 (_currentChecks w) goods); [|by unfold carried_out; rewrite orb_true_r].
  destruct (Penalty_run (GetWardenDataById (last_failed 0 (_currentChecks w) goods) mgr)
              (last_failed 0 (_currentChecks w) goods) (set_timers (_checkTimer w) 0 false w)) as [x Ep].
  unfold bindS, retS, modS. rewrite Ep. destruct (carried_out _); [|done]. by rewrite add_events_timers.
Qed.

Lemma last_failed_zero ids goods f : Forall (fun id => 0 < id) ids -> length ids = length goods -> 0 <= f ->
  0 <= last_failed f ids goods /\ (last_failed f ids goods = 0 <-> f = 0 /\ Forall (fun g => g = true) goods).
Proof.
  intros Hi. revert goods f. induction Hi as [|id ids Hid Hi IH]; intros [|g goods] f Hl Hf; try done.
  - simpl. split; [done|]. split; [done|tauto].
  - cbn [last_failed]. injection Hl as Hl. destruct (IH goods (if g then f else id) Hl ltac:(destruct g; lia)) as [H1 H2].
    split; [done|]. rewrite H2, Forall_cons. destruct g; [tauto|]. split; [lia|]. intros (_ & ? & _). done.
Qed.

Lemma verdict_on_nil f : 0 <= f -> verdict_on f = [] <-> f = 0.
Proof.
  intros Hf. unfold verdict_on. destruct (Z.ltb_spec 0 f).
  - split; [|lia]. unfold sanction. intros E. destruct (match _ with Some c => _ | None => _ end); done.
  - split; [lia|done].
Qed.

Context {rc4_ok : ARC4Spec}.

Lemma opcode_answer now recv w k mark ticks bss goods :
  _rpos recv = 0 -> bb_size recv < 2 ^ 63 -> cipher (_storage recv) (_inputCrypto w) = (answer mark ticks bss, k) ->
  Z.of_nat (length (answer_body mark ticks bss)) < 2 ^ 16 ->
  Forall3 answers (_currentChecks w) bss goods ->
  HandleWardenDataOpcode Module mgr BAN_DURATION has_player account_name now recv w
  = judged mark (verdict mark (_currentChecks w) goods) (set_crypto k (_outputCrypto w) w).
Proof.
  intros Hr Hsz Hc Hlen Ha. unfold HandleWardenDataOpcode.
  pose proof (cipher_length (_storage recv) (_inputCrypto w)) as Hl. rewrite Hc in Hl. cbn [fst] in Hl.
  unfold bb_empty. rewrite bool_decide_eq_false_2 by (intros E; rewrite E in Hl; done).
  unfold bindS at 1, DecryptData. rewrite Hc. cbn [_rpos _wpos]. set (b := mkBB _ _ _).
  assert (received b) as Hb by (unfold received, bb_size, b in *; cbn [_rpos _storage]; rewrite Hl, Hr; lia).
  assert (pending b = answer mark ticks bss) as Hp by (unfold pending, b; cbn [_rpos _storage]; by rewrite Hr).
  unfold bindS at 1, liftS at 1. rewrite (read_byte _ _ _ Hb Hp).
  destruct (received_skip b [2] _ Hb Hp) as [Hb1 Hp1].
  by apply (HandleData_answer _ mark ticks bss goods (set_crypto k (_outputCrypto w) w)).
Qed.

Lemma verdict_iff mark ids bss goods : Forall (fun id => 0 < id) ids -> Forall3 answers ids bss goods ->
  verdict mark ids goods = [] <-> mark <> 0 /\ Forall (fun g => g = true) goods.
Proof.
  intros Hpos Ha. pose proof (Forall3_length_lr _ _ _ _ Ha) as Hl. unfold verdict. destruct (Z.eqb_spec mark 0); [by split; [|tauto]|].
  destruct (last_failed_zero _ goods 0 Hpos Hl ltac:(lia)) as [H1 H2]. rewrite verdict_on_nil by done. tauto.
Qed.

(** C22. A client that answers the checks it was last asked, each in the way
    that check is answered, whatever it says, is judged by exactly what it
    said.  The warden waits for nothing more.  With the mark of the timing
    check set, it asks again after a second and does to the session what the
    settings say for the last check that failed; without the mark the client
    is kicked, and the time of the next request is left.  Where the settings
    ban, the account is banned; where they log or kick, the player's name is
    asked for, so that the same answer at the character screen is undefined.
    Nothing is done if and only if the mark is set and no check failed, when
    the checks' ids are not zero. *)
Theorem warden_verdict now recv w k mark ticks bss goods :
  _rpos recv = 0 -> bb_size recv < 2 ^ 63 -> cipher (_storage recv) (_inputCrypto w) = (answer mark ticks bss, k) ->
  Z.of_nat (length (answer_body mark ticks bss)) < 2 ^ 16 -> Forall3 answers (_currentChecks w) bss goods ->
  let events := verdict mark (_currentChecks w) goods in
  let w' := set_crypto k (_outputCrypto w) w in
  HandleWardenDataOpcode Module mgr BAN_DURATION has_player account_name now recv w
  = (if has_player || negb (names_player events)
     then (set_timers (if mark =? 0 then _checkTimer w else 1000) 0 false (add_events events w'), Ok tt)
     else (set_timers (_checkTimer w) 0 false w', UB))
  /\ (Forall (fun id => 0 < id) (_currentChecks w) -> events = [] <-> mark <> 0 /\ Forall (fun g => g = true) goods).
Proof. intros. split; [by eapply opcode_answer|intros; by eapply verdict_iff]. Qed.

(** ** The module *)

(** What the client makes of packets: it deciphers them one after the other. *)
Fixpoint unseal (payloads : list (list Z)) (k : Key) : list (list Z) * Key :=
  match payloads with
  | [] => ([], k)
  | p :: ps => let '(l, k) := cipher p k in let '(ls, k) := unseal ps k in (l :: ls, k)
  end.

(** A part of the module: the command, the size, up to 500 bytes. *)
Definition module_part (plain : list Z) : Prop :=
  exists burst, plain = [1] ++ le_split 2 (Z.of_nat (length burst)) ++ burst /\ (1 <= length burst <= 500)%nat.

Lemma send_encrypted_run plain w :
  send_encrypted plain w
  = (with_event (WSend (cipher plain (_outputCrypto w)).1) (w_draws w) (set_crypto (_inputCrypto w) (cipher plain (_outputCrypto w)).2 w), Ok tt).
Proof. unfold send_encrypted, bindS, EncryptData. by destruct (cipher plain (_outputCrypto w)). Qed.

Lemma send_bursts_run fuel data sizeLeft pos w :
  Forall is_byte data -> 0 <= pos -> 0 <= sizeLeft -> pos + sizeLeft = Z.of_nat (length data) -> sizeLeft <= Z.of_nat fuel ->
  exists payloads plains k,
    send_bursts fuel data sizeLeft pos w = (add_events (WSend <$> payloads) (set_crypto (_inputCrypto w) k w), Ok tt)
    /\ unseal payloads (_outputCrypto w) = (plains, k) /\ Forall module_part plains
    /\ concat (drop 3 <$> plains) = drop (Z.to_nat pos) data.
Proof.
  intros Hd. revert sizeLeft pos w. induction fuel as [|fuel IH]; intros sizeLeft pos w Hp Hs Hsum Hf; cbn [send_bursts].
  all: destruct (Z.ltb_spec 0 sizeLeft) as [Hlt|Hge]; [|
    exists [], [], (_outputCrypto w); split; [by destruct w|]; split; [done|]; split; [done|];
    rewrite drop_ge by lia; done].
  - lia.
  - set (size := if sizeLeft <? 500 then sizeLeft else 500).
    assert (1 <= size <= 500 /\ size <= sizeLeft) as [Hsz Hle] by (unfold size; destruct (Z.ltb_spec sizeLeft 500); lia).
    unfold bindS at 1, liftS at 1, memory_at at 1.
    destruct (Z.ltb_spec (Z.of_nat (length data)) (pos + size)); [lia|].
    set (burst := take (Z.to_nat size) (drop (Z.to_nat pos) data)).
    assert (length burst = Z.to_nat size) as Hb by (unfold burst; rewrite length_take, length_drop; lia).
    unfold bindS at 1. rewrite send_encrypted_run.
    set (plain := [WARDEN_SMSG_MODULE_CACHE] ++ le_split 2 size ++ burst).
    set (w1 := with_event _ _ _).
    destruct (IH (sizeLeft - size) (pos + size) w1 ltac:(lia) ltac:(lia) ltac:(lia) ltac:(lia)) as (ps & pl & k & E1 & E2 & E3 & E4).
    exists ((cipher plain (_outputCrypto w)).1 :: ps), (plain :: pl), k. split; [|split; [|split]].
    + rewrite E1. by unfold add_events, w1.
    + cbn [unseal]. rewrite cipher_back.
      * unfold w1 in E2. cbn [_outputCrypto with_event set_crypto] in E2. by rewrite E2.
      * unfold plain. rewrite !Forall_app. split; [by repeat constructor|]. split; [apply le_split_byte|]. by apply Forall_take, Forall_drop.
    + constructor; [|done]. exists burst. unfold plain, WARDEN_SMSG_MODULE_CACHE. rewrite Hb, Z2Nat.id by lia. split; [done|lia].
    + cbn [fmap list_fmap concat]. rewrite E4. unfold plain.
      replace (drop 3 ([WARDEN_SMSG_MODULE_CACHE] ++ le_split 2 size ++ burst)) with burst.
      * unfold burst. rewrite Z2Nat.inj_add, <- drop_drop by lia. apply take_drop.
      * rewrite app_assoc. symmetry. apply drop_app_length'. rewrite length_app, length_le_split. done.
Qed.

(** A client that asks for the module gets all of it: the loop ends, and
    the packets, deciphered in the order they are sent, are parts of at most
    500 bytes, each with its size in front, that put together are the module;
    the keys of both sides are still in step after them. *)
Theorem module_delivered now recv w k rest m :
  _rpos recv = 0 -> bb_size recv < 2 ^ 63 -> cipher (_storage recv) (_inputCrypto w) = (0 :: rest, k) ->
  _module w = Some m -> CompressedSize m = Z.of_nat (length (CompressedData m)) -> Forall is_byte (CompressedData m) ->
  exists payloads plains w',
    HandleWardenDataOpcode Module mgr BAN_DURATION has_player account_name now recv w = (w', Ok tt)
    /\ w_events w' = w_events w ++ (WSend <$> payloads)
    /\ unseal payloads (_outputCrypto w) = (plains, _outputCrypto w')
    /\ Forall module_part plains /\ concat (drop 3 <$> plains) = CompressedData m.
Proof.
  intros Hr Hsz Hc Hm Hlen Hd. unfold HandleWardenDataOpcode.
  pose proof (cipher_length (_storage recv) (_inputCrypto w)) as Hl. rewrite Hc in Hl. cbn [fst] in Hl.
  unfold bb_empty. rewrite bool_decide_eq_false_2 by (intros E; rewrite E in Hl; done).
  unfold bindS at 1, DecryptData. rewrite Hc. cbn [_rpos _wpos]. set (b := mkBB _ _ _).
  assert (received b) as Hb by (unfold received, bb_size, b in *; cbn [_rpos _storage]; rewrite Hl, Hr; lia).
  assert (pending b = 0 :: rest) as Hp by (unfold pending, b; cbn [_rpos _storage]; by rewrite Hr).
  unfold bindS at 1, liftS at 1. rewrite (read_byte _ _ _ Hb Hp).
  unfold SendModuleToClient, module_of, bindS, getS. cbn [_module set_crypto]. rewrite Hm. unfold retS. cbv beta iota.
  destruct (send_bursts_run (length (CompressedData m)) (CompressedData m) (CompressedSize m) 0 (set_crypto k (_outputCrypto w) w) Hd)
    as (ps & pl & k' & E1 & E2 & E3 & E4); [lia..|].
  exists ps, pl, (add_events (WSend <$> ps) (set_crypto k k' w)). rewrite E1. split; [done|]. split; [|split; [|done]].
  - by rewrite add_events_events.
  - cbn [_outputCrypto set_crypto] in E2. rewrite E2. f_equal. clear. set (w0 := set_crypto k k' w). change k' with (_outputCrypto w0).
    generalize (WSend <$> ps) w0. clear. intros l. induction l as [|e l IH]; intros w0; [done|]. unfold add_events in *. simpl. by rewrite <- IH.
Qed.
End facts.
