(* ===== verification/WardenRequest.v ===== *)
(** * What the warden asks

    [request_read_back]: the client can read every request, and each check
    of it comes with its own string; [RequestData_run] is what a request does
    to the warden. *)
From Stdlib Require Import Ascii String ZArith Lia.
From stdpp Require Import base gmap list strings.
From S2P Require Import Prelude ByteBuffer StateM BigNumber Warden WardenFacts.

Open Scope Z_scope.

#[local] Arguments Z.mul : simpl never.
#[local] Arguments Z.add : simpl never.
#[local] Arguments Z.sub : simpl never.
#[local] Arguments Z.pow : simpl never.
#[local] Arguments Z.to_nat : simpl never.
#[local] Arguments Z.lxor : simpl never.
#[local] Arguments le_split : simpl never.
#[local] Arguments le_combine : simpl never.

(** ** The client's side

    A check as the client reads it. *)
Inductive Entry :=
| EMem (address length : Z)
| EPage (type : Z) (data : list Z) (address length : Z)
| EFile (type : Z) (name : list Z)
| EDriver (data name : list Z)
| EModule (seed : Z) (digest : list Z).

Fixpoint parse_strings (fuel : nat) (l : list Z) : option (list (list Z) * list Z) :=
  match fuel, l with
  | S fuel, n :: l =>
      if n =? 0 then Some ([], l)
      else if (Z.of_nat (length l) <? n) then None
      else '(ss, rest) ← parse_strings fuel (drop (Z.to_nat n) l); Some (take (Z.to_nat n) l :: ss, rest)
  | _, _ => None
  end.

(** [l] holds a byte less than the check after its type. *)
Definition parse_entry (t : Z) (strings : list (list Z)) (l : list Z) : option (Entry * list Z) :=
  if t =? MEM_CHECK then
    if (length l <? 6)%nat then None
    else Some (EMem (le_combine (take 4 (drop 1 l))) (nth 5 l 0), drop 6 l)
  else if one_of [PAGE_CHECK_A; PAGE_CHECK_B] t then
    if (length l <? 29)%nat then None
    else Some (EPage t (take 24 l) (le_combine (take 4 (drop 24 l))) (nth 28 l 0), drop 29 l)
  else if one_of [MPQ_CHECK; LUA_STR_CHECK] t then
    match l with i :: l => name ← strings !! Z.to_nat (i - 1); Some (EFile t name, l) | [] => None end
  else if t =? DRIVER_CHECK then
    if (length l <? 25)%nat then None
    else name ← strings !! Z.to_nat (nth 24 l 0 - 1); Some (EDriver (take 24 l) name, drop 25 l)
  else if t =? MODULE_CHECK then
    if (length l <? 24)%nat then None
    else Some (EModule (le_combine (take 4 l)) (take 20 (drop 4 l)), drop 24 l)
  else None.

Fixpoint parse_entries (fuel : nat) (xorByte : Z) (strings : list (list Z)) (l : list Z) : option (list Entry) :=
  match fuel, l with
  | S fuel, c :: l =>
      if c =? xorByte then (match l with [] => Some [] | _ => None end)
      else '(e, l) ← parse_entry (Z.lxor c xorByte) strings l; es ← parse_entries fuel xorByte strings l; Some (e :: es)
  | _, _ => None
  end.

Definition parse_request (xorByte : Z) (plain : list Z) : option (list Entry) :=
  match plain with
  | 2 :: l =>
      '(strings, l) ← parse_strings (length l) l;
      match l with
      | c :: l => if Z.lxor c xorByte =? TIMING_CHECK then parse_entries (length l) xorByte strings l else None
      | [] => None
      end
  | _ => None
  end.

(** ** Buffers *)
Definition full (l : list Z) : ByteBuffer := mkBB 0 (Z.of_nat (length l)) l.

Lemma append_full src l : src <> [] -> Z.of_nat (length (l ++ src)) <= max_size -> append src (full l) = Ok (full (l ++ src)).
Proof.
  intros Hs Hl. rewrite length_app in Hl. assert (0 < length src)%nat by (destruct src; [done|simpl; lia]).
  unfold max_size in *. rewrite append_end; unfold full, bb_size, max_size; simpl; try done; try lia.
  rewrite length_app. do 2 f_equal. lia.
Qed.
Lemma append_int_full n v l : (0 < n)%nat -> Z.of_nat (length l + n) <= max_size -> append_int n v (full l) = Ok (full (l ++ le_split n v)).
Proof.
  intros Hn Hl. apply append_full; [|by rewrite length_app, length_le_split].
  intros H%(f_equal length). rewrite length_le_split in H. simpl in H. lia.
Qed.
Lemma le_split_1 v : 0 <= v < 256 -> le_split 1 v = [v].
Proof. intros Hv. unfold le_split. by rewrite Z.mod_small. Qed.

Section request.
Context {ssl : OpenSSL} {ssl_ok : OpenSSLSpec} {rc4 : ARC4} {rc4_ok : ARC4Spec}.
Context (rand32 : nat -> Z) (mgr : WardenCheckMgr) (NUM_MEM_CHECKS NUM_OTHER_CHECKS : Z).

(** Rewrites a chain of appends to a full buffer. *)
Ltac fill_side := first [done | lia | solve [auto] | unfold max_size in *; rewrite ?length_app, ?length_le_split, ?HMAC_length; simpl; lia].
Ltac fill :=
  repeat (first [rewrite append_int_full by fill_side | rewrite append_full by fill_side]; cbn [obind]).

(** ** Tables a request can be made from *)
Definition with_string (t : Z) : bool := one_of [MPQ_CHECK; LUA_STR_CHECK; DRIVER_CHECK] t.
Definition placed_at (t : Z) : bool := one_of [MEM_CHECK; PAGE_CHECK_A; PAGE_CHECK_B] t.
Definition with_data (t : Z) : bool := one_of [PAGE_CHECK_A; PAGE_CHECK_B; DRIVER_CHECK] t.
Definition known_types : list Z := [MEM_CHECK; PAGE_CHECK_A; PAGE_CHECK_B; MPQ_CHECK; LUA_STR_CHECK; DRIVER_CHECK; MODULE_CHECK].

Record good_check (c : WardenCheck) : Prop := {
  good_type : Type_ c ∈ known_types;
  good_place : placed_at (Type_ c) = true -> 0 <= Address c < 2 ^ 32 /\ 0 <= Length c < 256;
  good_data : with_data (Type_ c) = true -> 0 <= Data c /\ length (AsByteArray 0 false (Data c)) = 24%nat;
  good_string : with_string (Type_ c) = true -> (1 <= String.length (Str_ c) <= 255)%nat }.
Definition asked_as (p : Z -> bool) (id : Z) : Prop :=
  exists c, GetWardenDataById id mgr = Some c /\ good_check c /\ p (Type_ c) = true.

(** The checks are there and complete, the two of every request need no string. *)
Record sound_checks : Prop := {
  sound_mem : Forall (asked_as (one_of [MEM_CHECK; MODULE_CHECK])) (MemChecksIdPool mgr);
  sound_other : Forall (asked_as (fun t => negb (one_of [MEM_CHECK; MODULE_CHECK] t))) (OtherChecksIdPool mgr);
  sound_always : Forall (asked_as (fun t => negb (with_string t))) always_asked;
  sound_numbers : 0 <= NUM_MEM_CHECKS <= 1000 /\ 0 <= NUM_OTHER_CHECKS <= 200 }.

Definition check_of (id : Z) : WardenCheck :=
  default (mkWardenCheck 0 0 0 0 EmptyString EmptyString 0 WARDEN_ACTION_KICK) (GetWardenDataById id mgr).
Definition type_of (id : Z) : Z := Type_ (check_of id).
Definition name_of (id : Z) : list Z := str_bytes (Str_ (check_of id)).
Definition data_of (id : Z) : list Z := AsByteArray 0 false (Data (check_of id)).
Definition good_id (id : Z) : Prop := GetWardenDataById id mgr = Some (check_of id) /\ good_check (check_of id).

Lemma asked_good p id : asked_as p id -> good_id id /\ p (type_of id) = true.
Proof. intros (c & Hc & Hg & Hp). unfold good_id, type_of, check_of. rewrite Hc. done. Qed.

(** ** The bytes of a request *)
Definition seed_of (draws : nat) : Z := u32 (rand32 draws).
Definition digest_of (id : Z) (draws : nat) : list Z := HMAC_SHA1 (le_split 4 (seed_of draws)) (name_of id).
Definition place_bytes (id : Z) : list Z := le_split 4 (Address (check_of id)) ++ [Length (check_of id)].
Definition check_bytes (id index : Z) (draws : nat) : list Z :=
  let t := type_of id in
  if t =? MEM_CHECK then 0 :: place_bytes id
  else if one_of [PAGE_CHECK_A; PAGE_CHECK_B] t then data_of id ++ place_bytes id
  else if one_of [MPQ_CHECK; LUA_STR_CHECK] t then [index]
  else if t =? DRIVER_CHECK then data_of id ++ [index]
  else le_split 4 (seed_of draws) ++ digest_of id draws.
Definition next_draws (id : Z) (draws : nat) : nat := if type_of id =? MODULE_CHECK then S draws else draws.
Definition next_index (id index : Z) : Z := if with_string (type_of id) then index + 1 else index.

Fixpoint checks_bytes (xorByte : Z) (ids : list Z) (index : Z) (draws : nat) : list Z :=
  match ids with
  | [] => []
  | id :: ids => Z.lxor (type_of id) xorByte :: check_bytes id index draws
                 ++ checks_bytes xorByte ids (next_index id index) (next_draws id draws)
  end.
Definition named (ids : list Z) : list Z := List.filter (fun id => with_string (type_of id)) ids.
Definition strings_bytes (ids : list Z) : list Z := concat ((fun id => Z.of_nat (length (name_of id)) :: name_of id) <$> named ids).

(** What the client is to read. *)
Definition entry_of (id : Z) (draws : nat) : Entry :=
  let t := type_of id in
  if t =? MEM_CHECK then EMem (Address (check_of id)) (Length (check_of id))
  else if one_of [PAGE_CHECK_A; PAGE_CHECK_B] t then EPage t (data_of id) (Address (check_of id)) (Length (check_of id))
  else if one_of [MPQ_CHECK; LUA_STR_CHECK] t then EFile t (name_of id)
  else if t =? DRIVER_CHECK then EDriver (data_of id) (name_of id)
  else EModule (seed_of draws) (digest_of id draws).
Fixpoint entries_of (ids : list Z) (draws : nat) : list Entry :=
  match ids with [] => [] | id :: ids => entry_of id draws :: entries_of ids (next_draws id draws) end.

(** Cases by type. *)
Lemma by_type id : good_id id ->
  type_of id = MEM_CHECK \/ type_of id = PAGE_CHECK_A \/ type_of id = PAGE_CHECK_B \/ type_of id = MPQ_CHECK
  \/ type_of id = LUA_STR_CHECK \/ type_of id = DRIVER_CHECK \/ type_of id = MODULE_CHECK.
Proof.
  intros [_ Hg]. pose proof (good_type _ Hg) as Ht. unfold known_types in Ht. fold (type_of id) in Ht.
  rewrite !elem_of_cons, elem_of_nil in Ht. tauto.
Qed.

Lemma name_length id : good_id id -> with_string (type_of id) = true -> (1 <= length (name_of id) <= 255)%nat.
Proof. intros [_ Hg] Ht. unfold name_of. rewrite str_bytes_length. by apply good_string. Qed.

Lemma check_bytes_length id index draws : good_id id -> (length (check_bytes id index draws) <= 29)%nat.
Proof.
  intros Hid. pose proof (by_type id Hid) as Ht. destruct Hid as [_ Hg]. pose proof (fun Hw => proj2 (good_data _ Hg Hw)) as Hd. fold (type_of id) in Hd.
  unfold check_bytes, place_bytes, data_of, digest_of.
  destruct_or! Ht; rewrite Ht in *; cbn -[AsByteArray HMAC_SHA1] in *; rewrite ?length_app, ?length_le_split, ?HMAC_length, ?Hd by done; simpl; lia.
Qed.

Lemma append_check_full id index draws l : good_id id -> 0 <= index < 255 -> Z.of_nat (length l) + 29 <= max_size ->
  append_check rand32 (check_of id) index draws (full l)
  = Ok (full (l ++ check_bytes id index draws), next_index id index, next_draws id draws).
Proof.
  intros Hid Hi Hl. pose proof (by_type id Hid) as Ht. destruct Hid as [_ Hg].
  pose proof (fun Hw => proj2 (good_data _ Hg Hw)) as Hd. pose proof (good_place _ Hg) as Hp. fold (type_of id) in Hd, Hp.
  assert (u8 (index + 1) = index + 1) as Hu by (apply Z.mod_small; lia).
  unfold append_check, check_bytes, next_index, next_draws, place_bytes. fold (type_of id). fold (data_of id) in *.
  assert (with_data (type_of id) = true -> data_of id <> []) as Hne by (intros Hw E; specialize (Hd Hw); by rewrite E in Hd).
  assert (forall k x, HMAC_SHA1 k x <> []) as Hh by (intros k x E; pose proof (HMAC_length k x) as Hx; by rewrite E in Hx).
  destruct_or! Ht; rewrite Ht in *;
    cbn -[data_of max_size HMAC_SHA1 append_int append] in *; unfold max_size in *;
    try specialize (Hd eq_refl); try (specialize (Hp eq_refl); destruct Hp as [_ Hp]); try specialize (Hne eq_refl);
    fill; rewrite ?Hu, ?le_split_1, <- ?app_assoc by lia; reflexivity.
Qed.

Definition end_draws (ids : list Z) (draws : nat) : nat := foldl (fun d id => next_draws id d) draws ids.

Lemma checks_bytes_length x ids index draws : Forall good_id ids ->
  (length (checks_bytes x ids index draws) <= 30 * length ids)%nat.
Proof.
  intros Hg. revert index draws. induction Hg as [|id ids Hid Hg IH]; intros index draws; [done|].
  cbn [checks_bytes length]. rewrite length_app. pose proof (check_bytes_length id index draws Hid).
  specialize (IH (next_index id index) (next_draws id draws)). lia.
Qed.

Lemma named_cons id ids : named (id :: ids) = if with_string (type_of id) then id :: named ids else named ids.
Proof. done. Qed.

Lemma type_byte id : good_id id -> 0 < type_of id < 256.
Proof. intros Hid. pose proof (by_type id Hid) as Ht. by destruct_or! Ht; rewrite Ht. Qed.

Lemma append_checks_full x ids index draws l :
  Forall good_id ids -> 0 <= x < 256 -> 0 <= index -> index + Z.of_nat (length (named ids)) <= 254 ->
  Z.of_nat (length l) + 30 * Z.of_nat (length ids) <= max_size ->
  append_checks rand32 mgr x ids index draws (full l) = Ok (full (l ++ checks_bytes x ids index draws), end_draws ids draws).
Proof.
  intros Hg Hx. revert index draws l. induction Hg as [|id ids Hid Hg IH]; intros index draws l Hi Hn Hl.
  { cbn. by rewrite app_nil_r. }
  cbn [append_checks checks_bytes length] in *. rewrite (proj1 Hid). fold (type_of id).
  rewrite append_int_full by fill_side. cbn [obind].
  rewrite le_split_1 by (apply (lxor_range 8); pose proof (type_byte id Hid); lia).
  rewrite named_cons in Hn.
  rewrite append_check_full; [|done| |rewrite length_app; simpl; lia].
  2:{ destruct (with_string (type_of id)); cbn [length] in Hn; lia. }
  cbn [obind]. pose proof (check_bytes_length id index draws Hid) as Hc.
  assert (0 <= next_index id index /\ next_index id index + Z.of_nat (length (named ids)) <= 254) as [H1 H2].
  { unfold next_index. destruct (with_string (type_of id)); cbn [length] in Hn; lia. }
  rewrite (IH (next_index id index) (next_draws id draws)); [|done|done|rewrite !length_app; simpl; lia].
  f_equal. by rewrite <- !app_assoc.
Qed.

Lemma take_checks_spec n todo : let '(ids, rest) := take_checks n todo in
  (length ids <= n)%nat /\ (forall P : Z -> Prop, Forall P todo -> Forall P ids /\ Forall P rest).
Proof.
  revert todo. induction n as [|n IH]; intros todo; [simpl; auto|].
  cbn [take_checks]. unfold back_pop. destruct (rev todo) as [|x l] eqn:E; [simpl; split; [lia|auto]|].
  specialize (IH (rev l)). destruct (take_checks n (rev l)) as [ids rest]. destruct IH as [H1 H2]. split; [simpl; lia|].
  intros P HP. apply List.Forall_rev in HP. rewrite E in HP. apply Forall_cons in HP as [Hx Hl].
  destruct (H2 P) as [H3 H4]; [by apply List.Forall_rev|]. auto.
Qed.

(** ** The client reads it *)
Lemma take_pre (a b : list Z) n : length a = n -> take n (a ++ b) = a.
Proof. intros <-. apply take_app_length. Qed.
Lemma drop_pre (a b : list Z) n : length a = n -> drop n (a ++ b) = b.
Proof. intros <-. apply drop_app_length. Qed.

Lemma parse_entry_back id strings index draws rest :
  good_id id -> 0 <= index -> (with_string (type_of id) = true -> strings !! Z.to_nat (index - 1) = Some (name_of id)) ->
  parse_entry (type_of id) strings (check_bytes id index draws ++ rest) = Some (entry_of id draws, rest).
Proof.
  intros Hid Hi Hs. pose proof (by_type id Hid) as Ht. destruct Hid as [_ Hg].
  pose proof (fun Hw => proj2 (good_data _ Hg Hw)) as Hd. pose proof (good_place _ Hg) as Hp. fold (type_of id) in Hd, Hp. fold (data_of id) in Hd.
  assert (placed_at (type_of id) = true -> le_combine (le_split 4 (Address (check_of id))) = Address (check_of id)) as Hadr.
  { intros Hw. apply le_bytes. apply Hp in Hw. change (256 ^ Z.of_nat 4) with (2 ^ 32). tauto. }
  assert (le_combine (le_split 4 (seed_of draws)) = seed_of draws) as Hseed.
  { apply le_bytes. unfold seed_of, u32. apply wrap_range. lia. }
  unfold parse_entry, check_bytes, entry_of, place_bytes.
  pose proof (length_le_split 4 (Address (check_of id))) as HA.
  destruct (le_split 4 (Address (check_of id))) as [|a1 [|a2 [|a3 [|a4 [|]]]]]; try done. clear HA.
  destruct_or! Ht; rewrite Ht in *;
    cbn -[data_of digest_of seed_of take drop nth length Nat.ltb] in *;
    try specialize (Hd eq_refl); try specialize (Hs eq_refl); try specialize (Hadr eq_refl).
  - cbn. by rewrite Hadr.
  - rewrite (proj2 (Nat.ltb_ge _ _)) by (rewrite !length_app, Hd; simpl; lia).
    rewrite <- app_assoc, take_pre, drop_pre, app_nth2, Hd by (try done; rewrite Hd; lia). cbn -[data_of]. rewrite Hadr.
    change 29%nat with (24 + 5)%nat. by rewrite <- drop_drop, drop_pre.
  - rewrite (proj2 (Nat.ltb_ge _ _)) by (rewrite !length_app, Hd; simpl; lia).
    rewrite <- app_assoc, take_pre, drop_pre, app_nth2, Hd by (try done; rewrite Hd; lia). cbn -[data_of]. rewrite Hadr.
    change 29%nat with (24 + 5)%nat. by rewrite <- drop_drop, drop_pre.
  - by rewrite Hs.
  - by rewrite Hs.
  - rewrite (proj2 (Nat.ltb_ge _ _)) by (rewrite !length_app, Hd; simpl; lia).
    rewrite <- app_assoc, take_pre, app_nth2, Hd by (try done; rewrite Hd; lia). cbn -[data_of drop]. rewrite Hs. cbn -[data_of drop].
    change 25%nat with (24 + 1)%nat. by rewrite <- drop_drop, drop_pre.
  - assert (length (digest_of id draws) = 20%nat) as Hx by apply HMAC_length.
    rewrite (proj2 (Nat.ltb_ge _ _)) by (rewrite !length_app, Hx, length_le_split; simpl; lia).
    rewrite <- !app_assoc, take_pre, drop_pre, Hseed, take_pre by (done || apply length_le_split).
    change 24%nat with (4 + 20)%nat. by rewrite <- drop_drop, !drop_pre by (done || apply length_le_split).
Qed.

Lemma parse_entries_back x ids : forall index draws pre fuel,
  Forall good_id ids -> 0 <= x < 256 -> index = Z.of_nat (length pre) + 1 -> (length ids < fuel)%nat ->
  parse_entries fuel x (pre ++ (name_of <$> named ids)) (checks_bytes x ids index draws ++ [x]) = Some (entries_of ids draws).
Proof.
  induction ids as [|id ids IH]; intros index draws pre fuel Hg Hx Hi Hf; (destruct fuel as [|fuel]; [simpl in Hf; lia|]).
  { cbn. by rewrite Z.eqb_refl. }
  apply Forall_cons in Hg as [Hid Hg]. cbn [checks_bytes app parse_entries entries_of length] in *.
  pose proof (type_byte id Hid) as Ht.
  assert (Z.lxor (Z.lxor (type_of id) x) x = type_of id) as Hxx by (rewrite Z.lxor_assoc, Z.lxor_nilpotent; apply Z.lxor_0_r).
  destruct (Z.eqb_spec (Z.lxor (type_of id) x) x) as [E|_].
  { rewrite E, Z.lxor_nilpotent in Hxx. lia. }
  rewrite Hxx, <- app_assoc, (parse_entry_back id _ index draws _ Hid); [| lia |].
  - rewrite named_cons. unfold next_index. unfold mbind, option_bind.
    destruct (with_string (type_of id)) eqn:Hw.
    + cbn [fmap list_fmap]. rewrite cons_middle, app_assoc, (IH (index + 1)); [done|done|done| |lia]. rewrite length_app. simpl. lia.
    + rewrite (IH index); [done|done|done|done|lia].
  - intros Hw. rewrite named_cons, Hw. cbn [fmap list_fmap].
    replace (Z.to_nat (index - 1)) with (length pre) by lia. by apply list_lookup_middle.
Qed.

Lemma parse_strings_back ids rest : forall fuel, Forall good_id ids -> (length (strings_bytes ids) < fuel)%nat ->
  parse_strings fuel (strings_bytes ids ++ 0 :: rest) = Some (name_of <$> named ids, rest).
Proof.
  intros fuel Hg. revert fuel. induction Hg as [|id ids Hid Hg IH]; intros fuel Hf; (destruct fuel as [|fuel]; [simpl in Hf; lia|]).
  { done. }
  unfold strings_bytes in *. rewrite named_cons in *. destruct (with_string (type_of id)) eqn:Hw; [|by apply (IH (S fuel))].
  pose proof (name_length id Hid Hw) as Hn.
  cbn [fmap list_fmap concat app parse_strings length] in *. rewrite length_app in Hf.
  destruct (Z.eqb_spec (Z.of_nat (length (name_of id))) 0); [lia|].
  destruct (Z.ltb_spec (Z.of_nat (length ((name_of id ++ concat ((fun id => Z.of_nat (length (name_of id)) :: name_of id) <$> named ids)) ++ 0 :: rest))) (Z.of_nat (length (name_of id)))) as [Hlt|_].
  { rewrite !length_app in Hlt. lia. }
  rewrite Nat2Z.id, <- app_assoc, take_pre, drop_pre by done. rewrite IH by lia. done.
Qed.

(** ** A request is made *)
Lemma append_string_full id l : good_id id -> Z.of_nat (length l) + 256 <= max_size ->
  append_string_of mgr id (full l) = Ok (full (l ++ strings_bytes [id])).
Proof.
  intros Hid Hl. unfold append_string_of. rewrite (proj1 Hid). fold (type_of id) (with_string (type_of id)).
  unfold strings_bytes. rewrite named_cons. fold (name_of id). destruct (with_string (type_of id)) eqn:Hw; [|cbn; by rewrite app_nil_r].
  pose proof (name_length id Hid Hw) as Hn. assert (name_of id <> []) by (intros E; rewrite E in Hn; simpl in Hn; lia).
  assert (String.length (Str_ (check_of id)) = length (name_of id)) as -> by (unfold name_of; by rewrite str_bytes_length).
  rewrite append_int_full by fill_side. cbn [obind].
  rewrite append_full; [|done|rewrite !length_app, length_le_split; lia].
  rewrite le_split_1 by lia. do 2 f_equal. cbn. by rewrite app_nil_r, <- app_assoc.
Qed.

Lemma strings_bytes_cons id ids : strings_bytes (id :: ids) = strings_bytes [id] ++ strings_bytes ids.
Proof. unfold strings_bytes. rewrite !named_cons. destruct (with_string (type_of id)); cbn; by rewrite ?app_nil_r. Qed.
Lemma strings_bytes_length ids : Forall good_id ids -> (length (strings_bytes ids) <= 256 * length ids)%nat.
Proof.
  intros Hg. induction Hg as [|id ids Hid Hg IH]; [done|]. rewrite strings_bytes_cons, length_app. cbn [length].
  assert (length (strings_bytes [id]) <= 256)%nat; [|lia]. unfold strings_bytes. rewrite named_cons.
  destruct (with_string (type_of id)) eqn:Hw; [|simpl; lia]. pose proof (name_length id Hid Hw). cbn. rewrite app_nil_r. simpl. lia.
Qed.

Lemma ask_other_run n : forall w l,
  Forall good_id (_otherChecksTodo w) -> Z.of_nat (length l) + 256 * Z.of_nat n <= max_size ->
  let '(other, rest) := take_checks n (_otherChecksTodo w) in
  ask_other mgr n (full l) w
  = (set_checks rest (_memChecksTodo w) (_currentChecks w ++ other) w, Ok (full (l ++ strings_bytes other))).
Proof.
  induction n as [|n IH]; intros w l Hg Hl; cbn [take_checks ask_other].
  { destruct w. cbn. by rewrite !app_nil_r. }
  unfold bindS at 1, getS at 1. unfold id.
  destruct (back_pop (_otherChecksTodo w)) as [[i rest]|] eqn:E; [|destruct w; cbn; by rewrite !app_nil_r].
  unfold back_pop in E. destruct (rev (_otherChecksTodo w)) as [|y r] eqn:Er; [done|]. injection E as -> <-.
  apply List.Forall_rev in Hg. rewrite Er in Hg. apply Forall_cons in Hg as [Hi Hg]. apply List.Forall_rev in Hg.
  set (w1 := set_checks (rev r) (_memChecksTodo w) (_currentChecks w ++ [i]) w).
  assert (length (strings_bytes [i]) <= 256)%nat as Hlen by (pose proof (strings_bytes_length [i] ltac:(by constructor)); simpl in *; lia).
  specialize (IH w1 (l ++ strings_bytes [i])). cbn [_otherChecksTodo w1 set_checks] in IH. specialize (IH Hg).
  destruct (take_checks n (rev r)) as [other rest] eqn:Et. rewrite Nat2Z.inj_succ in Hl.
  unfold bindS, modS, liftS. rewrite append_string_full by (done || lia).
  unfold w1 in IH. rewrite IH by (rewrite length_app; lia).
  rewrite (strings_bytes_cons i other), !app_assoc. cbn. by rewrite <- app_assoc.
Qed.

(** The lists a request takes its checks from, and what it takes. *)
Definition mem_list (w : Warden) : list Z := match _memChecksTodo w with [] => MemChecksIdPool mgr | l => l end.
Definition other_list (w : Warden) : list Z := match _otherChecksTodo w with [] => OtherChecksIdPool mgr | l => l end.
Definition mem_taken (w : Warden) := take_checks (Z.to_nat NUM_MEM_CHECKS) (mem_list w).
Definition other_taken (w : Warden) := take_checks (Z.to_nat NUM_OTHER_CHECKS) (other_list w).
Definition not_always (id : Z) : bool := negb (one_of always_asked id).
Definition asked_now (w : Warden) : list Z := List.filter not_always (mem_taken w).1 ++ always_asked ++ (other_taken w).1.
Definition key_byte (w : Warden) : Z := nth 0 (_inputKey w) 0.
Definition request_bytes (w : Warden) : list Z :=
  [2] ++ strings_bytes (other_taken w).1 ++ [0; Z.lxor TIMING_CHECK (key_byte w)]
  ++ checks_bytes (key_byte w) (asked_now w) 1 (w_draws w) ++ [key_byte w].
Definition requested (ticks : Z) (w : Warden) : Warden :=
  let sealed := cipher (request_bytes w) (_outputCrypto w) in
  set_timers (_checkTimer w) (_clientResponseTimer w) true
    (with_event (WSend sealed.1) (end_draws (asked_now w) (w_draws w))
      (set_crypto (_inputCrypto w) sealed.2
        (set_checks (other_taken w).2 (mem_taken w).2 (asked_now w)
          (set_clock (_previousTimestamp w) (_initialized w) ticks w)))).

(** What is left of the lists is of the pools. *)
Definition todo_ok (w : Warden) : Prop :=
  Forall (fun id => id ∈ MemChecksIdPool mgr) (_memChecksTodo w) /\ Forall (fun id => id ∈ OtherChecksIdPool mgr) (_otherChecksTodo w).

Context (Hsound : sound_checks).

Lemma lists_ok w : todo_ok w ->
  Forall (fun id => id ∈ MemChecksIdPool mgr) (mem_list w) /\ Forall (fun id => id ∈ OtherChecksIdPool mgr) (other_list w).
Proof.
  intros [Hm Ho]. unfold mem_list, other_list.
  split; [destruct (_memChecksTodo w)|destruct (_otherChecksTodo w)]; try done; by apply Forall_forall.
Qed.

Lemma mem_good id : id ∈ MemChecksIdPool mgr -> good_id id /\ with_string (type_of id) = false.
Proof.
  intros Hid. pose proof (sound_mem Hsound) as Hf. rewrite Forall_forall in Hf. destruct (asked_good _ _ (Hf id Hid)) as [Hg Ht].
  split; [done|]. apply among_cases in Ht. rewrite !elem_of_cons, elem_of_nil in Ht. by destruct_or! Ht; rewrite Ht.
Qed.
Lemma other_good id : id ∈ OtherChecksIdPool mgr -> good_id id.
Proof.
  intros Hid. pose proof (sound_other Hsound) as Hf. rewrite Forall_forall in Hf. by destruct (asked_good _ _ (Hf id Hid)).
Qed.
Lemma always_good id : id ∈ always_asked -> good_id id /\ with_string (type_of id) = false.
Proof.
  intros Hid. pose proof (sound_always Hsound) as Hf. rewrite Forall_forall in Hf. destruct (asked_good _ _ (Hf id Hid)) as [Hg Ht].
  split; [done|]. by destruct (with_string (type_of id)).
Qed.

Lemma named_none ids : Forall (fun id => with_string (type_of id) = false) ids -> named ids = [].
Proof. intros Hf. induction Hf as [|id ids Hid Hf IH]; [done|]. by rewrite named_cons, Hid. Qed.
Lemma named_app a b : named (a ++ b) = named a ++ named b.
Proof. unfold named. apply List.filter_app. Qed.

Lemma taken_good w : todo_ok w ->
  Forall good_id (asked_now w) /\ named (asked_now w) = named (other_taken w).1 /\ Forall good_id (other_taken w).1
  /\ (length (asked_now w) <= 1202)%nat /\ (length (other_taken w).1 <= 200)%nat.
Proof.
  intros Hw. destruct (lists_ok w Hw) as [Hm Ho]. destruct (sound_numbers Hsound) as [Hnm Hno].
  pose proof (take_checks_spec (Z.to_nat NUM_MEM_CHECKS) (mem_list w)) as Hsm.
  pose proof (take_checks_spec (Z.to_nat NUM_OTHER_CHECKS) (other_list w)) as Hso.
  unfold asked_now, mem_taken, other_taken.
  destruct (take_checks (Z.to_nat NUM_MEM_CHECKS) (mem_list w)) as [mem mrest].
  destruct (take_checks (Z.to_nat NUM_OTHER_CHECKS) (other_list w)) as [other orest].
  destruct Hsm as [Hlm Hsm], Hso as [Hlo Hso]. apply Hsm in Hm as [Hm _]. apply Hso in Ho as [Ho _]. cbn [fst].
  assert (Forall (fun id => good_id id /\ with_string (type_of id) = false) (List.filter not_always mem ++ always_asked)) as Hfirst.
  { apply Forall_app. split; [|by apply Forall_forall, always_good].
    apply Forall_forall. intros id Hid. apply list_elem_of_In, List.filter_In in Hid as [Hid _]. apply list_elem_of_In in Hid.
    rewrite Forall_forall in Hm. by apply mem_good, Hm. }
  assert (Forall good_id other) as Hgo by (eapply Forall_impl; [exact Ho|exact other_good]).
  pose proof (List.filter_length_le not_always mem) as Hfl.
  rewrite app_assoc. split_and!.
  - apply Forall_app. split; [|done]. eapply Forall_impl; [exact Hfirst|]. tauto.
  - rewrite named_app, named_none; [done|]. eapply Forall_impl; [exact Hfirst|]. tauto.
  - done.
  - rewrite !length_app. change (length always_asked) with 2%nat. lia.
  - lia.
Qed.

Lemma RequestData_run ticks w : todo_ok w -> 0 <= key_byte w < 256 ->
  RequestData rand32 mgr NUM_MEM_CHECKS NUM_OTHER_CHECKS ticks w = (requested ticks w, Ok tt).
Proof.
  intros Hw Hx. destruct (taken_good w Hw) as (Hg & Hn & Hgo & Hl & Hlo). destruct (sound_numbers Hsound) as [_ Hno].
  destruct (lists_ok w Hw) as [_ Hol].
  unfold RequestData. do 4 (unfold bindS at 1, modS at 1). cbn [_memChecksTodo _otherChecksTodo set_checks set_clock].
  fold (mem_list w) (other_list w) (mem_taken w).
  rewrite (surjective_pairing (mem_taken w)). cbn [_memChecksTodo _otherChecksTodo _currentChecks set_checks set_clock].
  set (w1 := set_checks _ _ _ _).
  unfold bindS at 1, liftS at 1. change ByteBuffer_new with (full []). rewrite append_int_full by fill_side.
  rewrite le_split_1 by done. cbn [app].
  assert (_otherChecksTodo w1 = other_list w) as Ho1 by done.
  pose proof (ask_other_run (Z.to_nat NUM_OTHER_CHECKS) w1 [2]) as Hao. rewrite Ho1 in Hao.
  fold (other_taken w) in Hao. rewrite (surjective_pairing (other_taken w)) in Hao.
  unfold bindS at 1. unfold WARDEN_SMSG_CHEAT_CHECKS_REQUEST. rewrite Hao; [|eapply Forall_impl; [exact Hol|exact other_good]|unfold max_size; simpl; lia].
  clear Hao. set (w2 := set_checks (other_taken w).2 _ _ _).
  assert (_currentChecks w2 = asked_now w) as Hc2.
  { unfold w2, w1, asked_now. cbn. by rewrite <- app_assoc. }
  unfold bindS at 1, getS at 1. unfold id. change (nth 0 (_inputKey w2) 0) with (key_byte w). change (w_draws w2) with (w_draws w). rewrite Hc2.
  pose proof (strings_bytes_length _ Hgo) as Hsl. cbn [app].
  unfold bindS at 1, liftS at 1. rewrite append_int_full by (unfold max_size; simpl; lia).
  unfold bindS at 1, liftS at 1. rewrite append_int_full by (unfold max_size; rewrite ?length_app, ?length_le_split; simpl; lia).
  rewrite !le_split_1 by (lia || (apply (lxor_range 8); unfold TIMING_CHECK; lia)).
  unfold bindS at 1, liftS at 1.
  rewrite append_checks_full; [|done|done|lia| |unfold max_size; rewrite ?length_app; simpl; lia].
  2:{ rewrite Hn. unfold named. pose proof (List.filter_length_le (fun id => with_string (type_of id)) (other_taken w).1). lia. }
  unfold bindS at 1, modS at 1.
  pose proof (checks_bytes_length (key_byte w) (asked_now w) 1 (w_draws w) Hg) as Hcl.
  unfold bindS at 1, liftS at 1. rewrite append_int_full by (unfold max_size; rewrite ?length_app; simpl; lia).
  rewrite le_split_1 by done.
  unfold bindS at 1, liftS at 1.
  match goal with |- context [bb_contents (full ?l)] => assert (bb_contents (full l) = Ok (request_bytes w)) as -> end.
  { unfold bb_contents, bb_empty. rewrite bool_decide_eq_false_2 by done. unfold request_bytes, full. cbn [_storage]. f_equal.
    by rewrite <- !app_assoc. }
  unfold bindS at 1. rewrite send_encrypted_run. unfold modS, requested. f_equal.
  assert (asked_now w = (List.filter not_always (mem_taken w).1 ++ always_asked) ++ (other_taken w).1) as Ha by (unfold asked_now; by rewrite <- app_assoc).
  rewrite Ha. done.
Qed.

Lemma requested_todo ticks w : todo_ok w -> todo_ok (requested ticks w).
Proof.
  intros Hw. destruct (lists_ok w Hw) as [Hm Ho]. unfold todo_ok, requested. cbn.
  pose proof (take_checks_spec (Z.to_nat NUM_MEM_CHECKS) (mem_list w)) as Hsm.
  pose proof (take_checks_spec (Z.to_nat NUM_OTHER_CHECKS) (other_list w)) as Hso.
  unfold mem_taken, other_taken. destruct (take_checks (Z.to_nat NUM_MEM_CHECKS) _), (take_checks (Z.to_nat NUM_OTHER_CHECKS) _). cbn.
  split; [by apply Hsm|by apply Hso].
Qed.

Lemma request_parses w : todo_ok w -> 0 <= key_byte w < 256 ->
  parse_request (key_byte w) (request_bytes w) = Some (entries_of (asked_now w) (w_draws w)).
Proof.
  intros Hw Hx. destruct (taken_good w Hw) as (Hg & Hn & Hgo & Hl & Hlo).
  unfold parse_request, request_bytes. cbn [app]. rewrite parse_strings_back; [|done|rewrite length_app; simpl; lia].
  unfold mbind, option_bind.
  assert (Z.lxor (Z.lxor TIMING_CHECK (key_byte w)) (key_byte w) = TIMING_CHECK) as -> by (rewrite Z.lxor_assoc, Z.lxor_nilpotent; apply Z.lxor_0_r).
  rewrite Z.eqb_refl, <- Hn. apply (parse_entries_back (key_byte w) (asked_now w) 1 (w_draws w) []); [done|done|done|].
  rewrite length_app. clear -Hx. generalize 1 (w_draws w). induction (asked_now w) as [|id ids IH]; intros i d; [simpl; lia|].
  cbn [checks_bytes length]. rewrite length_app. specialize (IH (next_index id i) (next_draws id d)). simpl in *. lia.
Qed.

(** Everything in a request is a byte. *)
Lemma data_bytes id : good_id id -> with_data (type_of id) = true -> Forall is_byte (data_of id).
Proof.
  intros [_ Hg] Hw. destruct (good_data _ Hg Hw) as [Hd _]. unfold data_of, AsByteArray.
  apply Forall_app. split; [|by apply Forall_replicate].
  rewrite BN_bn2bin_spec by done. apply List.Forall_rev, le_split_byte.
Qed.
Lemma name_bytes id : Forall is_byte (name_of id).
Proof.
  unfold name_of, str_bytes. apply Forall_fmap, Forall_forall. intros c _. unfold is_byte, compose. pose proof (N_ascii_bounded c). lia.
Qed.

Lemma check_bytes_bytes id index draws : good_id id -> 0 <= index < 256 -> Forall is_byte (check_bytes id index draws).
Proof.
  intros Hid Hi. pose proof (by_type id Hid) as Ht. pose proof (data_bytes id Hid) as Hd.
  pose proof (good_place _ (proj2 Hid)) as Hp. fold (type_of id) in Hp.
  assert (placed_at (type_of id) = true -> Forall is_byte (place_bytes id)) as Hpb.
  { intros Hw. apply Forall_app. split; [apply le_split_byte|]. constructor; [|done]. by apply Hp. }
  unfold check_bytes.
  destruct_or! Ht; rewrite Ht in *; cbn -[data_of place_bytes digest_of] in *;
    try specialize (Hd eq_refl); try specialize (Hpb eq_refl);
    repeat first [exact Hpb | exact Hd | apply le_split_byte | apply HMAC_bytes | apply Forall_nil_2
                 | apply Forall_app; split | apply Forall_cons; split]; unfold is_byte; lia.
Qed.

Lemma checks_bytes_bytes x ids : forall index draws, Forall good_id ids -> 0 <= x < 256 -> 0 <= index ->
  index + Z.of_nat (length (named ids)) <= 254 -> Forall is_byte (checks_bytes x ids index draws).
Proof.
  induction ids as [|id ids IH]; intros index draws Hg Hx Hi Hn; [done|]. apply Forall_cons in Hg as [Hid Hg].
  rewrite named_cons in Hn. pose proof (type_byte id Hid). cbn [checks_bytes].
  constructor; [apply (lxor_range 8); lia|]. apply Forall_app. split.
  - apply check_bytes_bytes; [done|]. destruct (with_string (type_of id)); cbn [length] in Hn; lia.
  - unfold next_index. destruct (with_string (type_of id)); cbn [length] in Hn; apply IH; (done || lia).
Qed.

Lemma strings_bytes_bytes ids : Forall good_id ids -> Forall is_byte (strings_bytes ids).
Proof.
  intros Hg. unfold strings_bytes. apply Forall_concat, Forall_fmap, Forall_forall. intros id Hid. unfold compose.
  unfold named in Hid. apply list_elem_of_In, List.filter_In in Hid as [Hin Hw]. apply list_elem_of_In in Hin.
  rewrite Forall_forall in Hg. pose proof (name_length id (Hg id Hin) Hw). constructor; [unfold is_byte; lia|apply name_bytes].
Qed.

Lemma request_bytes_bytes w : todo_ok w -> 0 <= key_byte w < 256 -> Forall is_byte (request_bytes w).
Proof.
  intros Hw Hx. destruct (taken_good w Hw) as (Hg & Hn & Hgo & Hl & Hlo). unfold request_bytes.
  constructor; [done|]. apply Forall_app. split; [by apply strings_bytes_bytes|].
  constructor; [done|]. constructor; [apply (lxor_range 8); unfold TIMING_CHECK; lia|].
  apply Forall_app. split; [|apply Forall_cons; split; [exact Hx|by apply Forall_nil_2]].
  apply checks_bytes_bytes; [done|done|done|]. rewrite Hn.
  pose proof (List.filter_length_le (fun id => with_string (type_of id)) (other_taken w).1). unfold named. lia.
Qed.

(** C23. A request for checks never fails, and the client can read it: what
    it deciphers lists the checks the warden waits for, in that order, each
    with its own data, place and string; the keys stay in step, and the lists
    the next request is taken from hold checks of the tables only. *)
Theorem request_read_back ticks w : todo_ok w -> 0 <= key_byte w < 256 ->
  exists w' payload,
    RequestData rand32 mgr NUM_MEM_CHECKS NUM_OTHER_CHECKS ticks w = (w', Ok tt)
    /\ w_events w' = w_events w ++ [WSend payload] /\ _dataSent w' = true /\ todo_ok w'
    /\ exists plain, cipher payload (_outputCrypto w) = (plain, _outputCrypto w')
       /\ parse_request (key_byte w) plain = Some (entries_of (_currentChecks w') (w_draws w)).
Proof.
  intros Hw Hx. exists (requested ticks w), (cipher (request_bytes w) (_outputCrypto w)).1.
  split; [by apply RequestData_run|]. split; [done|]. split; [done|]. split; [by apply requested_todo|].
  exists (request_bytes w). split; [by rewrite cipher_back by (by apply request_bytes_bytes)|]. by apply request_parses.
Qed.
End request.
