(* ===== verification/WardenClock.v ===== *)
(** * The warden's clock

    [silent_client_kicked]: who does not answer is kicked, in time and not
    before.  [client_never_kicked]: who answers in time is not. *)
From Stdlib Require Import Ascii String ZArith Lia.
From stdpp Require Import base gmap list strings.
From S2P Require Import Prelude ByteBuffer StateM BigNumber Warden WardenFacts WardenRequest.

Open Scope Z_scope.

Section clock.
Context {ssl : OpenSSL} {ssl_ok : OpenSSLSpec} {rc4 : ARC4} {rc4_ok : ARC4Spec}.
Context (rand32 : nat -> Z) (mgr : WardenCheckMgr) (NUM_MEM_CHECKS NUM_OTHER_CHECKS : Z).
Context (has_player : bool).
Context (Hsound : sound_checks mgr NUM_MEM_CHECKS NUM_OTHER_CHECKS) (Hpl : has_player = true).

(** Updates one after the other, at the times given; no packet comes in between. *)
Definition update (now ticks : Z) : WM unit :=
  Warden_Update rand32 mgr NUM_MEM_CHECKS NUM_OTHER_CHECKS has_player now ticks.
Definition updates (times : list (Z * Z)) : WM unit := for_eachS times (fun '(now, ticks) => update now ticks).
(** They are at most [g] milliseconds apart, and the clock does not wrap. *)
Fixpoint steady (g prev : Z) (times : list (Z * Z)) : Prop :=
  match times with
  | [] => True
  | (now, _) :: times => prev <= now <= prev + g /\ now < 2 ^ 32 /\ steady g now times
  end.
Fixpoint last_time (prev : Z) (times : list (Z * Z)) : Z :=
  match times with [] => prev | (now, _) :: times => last_time now times end.

(** What holds at every update. *)
Record running (t : Z) (w : Warden) : Prop := {
  run_init : _initialized w = true;
  run_clock : _previousTimestamp w = t;
  run_key : 0 <= key_byte w < 256;
  run_todo : todo_ok mgr w }.

Lemma diff_later t now : t <= now -> getMSTimeDiff t now = now - t.
Proof. intros Ht. unfold getMSTimeDiff. by rewrite (proj2 (Z.ltb_ge _ _)) by lia. Qed.

(** Before the request, waiting for the answer, and after the kick; the
    request is due [c] milliseconds after [t0]. *)
Section silence.
Context (events0 : list WardenEvent) (g c t0 : Z) (Hg : 0 <= g < 2 ^ 31).

Inductive phase (t : Z) (w : Warden) : Prop :=
| waiting es : w_events w = events0 ++ es -> WKick ∉ es -> _dataSent w = false -> _clientResponseTimer w = 0 ->
    _checkTimer w = c - (t - t0) -> t - t0 <= c -> phase t w
| asked es s : w_events w = events0 ++ es -> WKick ∉ es -> _dataSent w = true -> t0 + c <= s <= t0 + c + g -> s <= t ->
    _clientResponseTimer w = t - s -> t - s <= 60000 + g -> phase t w
| kicked es : w_events w = events0 ++ es -> WKick ∈ es -> _dataSent w = true -> 60000 < _clientResponseTimer w ->
    t0 + c + 60000 < t -> phase t w.

Lemma update_phase t now ticks w : running t w -> phase t w -> t0 <= t <= now -> now <= t + g -> now < 2 ^ 32 ->
  exists w', update now ticks w = (w', Ok tt) /\ running now w' /\ phase now w'.
Proof.
  intros [Hi Hp Hk Ht] Hph Hn Hgap Hmax. unfold update, Warden_Update.
  unfold bindS at 1, getS at 1. unfold id. rewrite Hi, Hp, diff_later by lia. cbn [whenS].
  unfold bindS at 1, modS at 1. set (w1 := set_clock now (_initialized w) (_serverTicks w) w).
  assert (running now w1) as Hr1 by (split; done).
  destruct Hph as [es He Hno Hd Hr Hct Hle|es s He Hno Hd Hs Hst Hr Hle|es He Hin Hd Hr Hlate]; rewrite Hd.
  - destruct (Z.leb_spec (_checkTimer w) (now - t)) as [Hdue|Hearly].
    + rewrite (RequestData_run rand32 mgr NUM_MEM_CHECKS NUM_OTHER_CHECKS Hsound ticks w1); [|apply Hr1..].
      eexists. split; [reflexivity|]. split.
      { split; [done|done|done|]. by apply requested_todo, Hr1. }
      eapply (asked _ _ (es ++ [_]) now); [cbn; rewrite He, <- app_assoc; reflexivity| |done|lia|lia| |lia].
      * rewrite not_elem_of_app. split; [done|]. by rewrite list_elem_of_singleton.
      * cbn. rewrite Hr. lia.
    + eexists. split; [reflexivity|]. split; [split; done|]. apply (waiting _ _ es); try done; cbn; lia.
  - change (maxClientResponseDelay * 1000) with 60000. destruct (Z.ltb_spec 60000 (_clientResponseTimer w)) as [Hlong|Hshort].
    + unfold player_name. rewrite Hpl. eexists. split; [reflexivity|]. split; [split; done|].
      apply (kicked _ _ ((es ++ [WLog "idle"]) ++ [WKick])); try done; [cbn; by rewrite He, <- !app_assoc| |lia].
      rewrite elem_of_app. right. by apply list_elem_of_singleton.
    + eexists. split; [reflexivity|]. split; [split; done|].
      assert (u32 (_clientResponseTimer w + (now - t)) = now - s) as Hu.
      { rewrite Hr. etrans; [apply wrap_small; change (2 ^ 32) with (2 * 2 ^ 31); lia|lia]. }
      apply (asked _ _ es s); try done; cbn; rewrite ?Hu; lia.
  - change (maxClientResponseDelay * 1000) with 60000. rewrite (proj2 (Z.ltb_lt _ _)) by lia.
    unfold player_name. rewrite Hpl. eexists. split; [reflexivity|]. split; [split; done|].
    apply (kicked _ _ ((es ++ [WLog "idle"]) ++ [WKick])); try done; [cbn; by rewrite He, <- !app_assoc| |lia].
    rewrite elem_of_app. right. by apply list_elem_of_singleton.
Qed.

Lemma updates_phase times : forall t w, running t w -> phase t w -> t0 <= t -> steady g t times ->
  exists w', updates times w = (w', Ok tt) /\ running (last_time t times) w' /\ phase (last_time t times) w'.
Proof.
  induction times as [|[now ticks] times IH]; intros t w Hr Hp Ht Hs; [by exists w|].
  cbn [steady] in Hs. destruct Hs as ([H1 H2] & H3 & Hs).
  destruct (update_phase t now ticks w Hr Hp ltac:(lia) ltac:(lia) H3) as (w1 & E & Hr1 & Hp1).
  destruct (IH now w1 Hr1 Hp1 ltac:(lia) Hs) as (w2 & E2 & Hr2 & Hp2).
  exists w2. split; [|done]. unfold updates. cbn [for_eachS]. unfold bindS. by rewrite E.
Qed.
End silence.

(** C24. A client that has finished the handshake ([_initialized]; until then
    the warden waits for ever) and has a player in the world (without one the
    kick asks for the name of no player, [silence_without_player]) and says
    nothing any more is kicked: with updates at most [g] milliseconds apart, no
    later than a minute, twice [g] and the time until the next request was due;
    and never before that time and the minute are over. *)
Theorem silent_client_kicked g times w :
  running (_previousTimestamp w) w -> _dataSent w = false -> _clientResponseTimer w = 0 -> 0 <= _checkTimer w ->
  0 <= g < 2 ^ 31 -> steady g (_previousTimestamp w) times ->
  let due := _previousTimestamp w + _checkTimer w + 60000 in
  let now := last_time (_previousTimestamp w) times in
  exists w' es, updates times w = (w', Ok tt) /\ w_events w' = w_events w ++ es
    /\ (due + 2 * g < now -> WKick ∈ es) /\ (now <= due -> WKick ∉ es).
Proof.
  intros Hr Hd Hrt Hct Hg Hs due now.
  destruct (updates_phase (w_events w) g (_checkTimer w) (_previousTimestamp w) Hg times (_previousTimestamp w) w Hr)
    as (w' & E & _ & Hph); [|lia|done|].
  { apply (waiting _ _ _ _ _ _ []); try done; [by rewrite app_nil_r|by apply not_elem_of_nil|lia|lia]. }
  exists w'. fold now in Hph.
  destruct Hph as [es He Hno ? ? ? ?|es s He Hno ? ? ? ? ?|es He Hin ? ? ?]; exists es; (split; [done|]); (split; [done|]); split; intros; try done; lia.
Qed.

(** ** A client that does as it should *)
Context (Module : ModuleData) (BAN_DURATION : Z) (account_name : option string).
Context (Hids : Forall (fun id => 0 < id) (MemChecksIdPool mgr ++ OtherChecksIdPool mgr)).

Inductive WardenStep := Tick (now ticks : Z) | Packet (now : Z) (recv : ByteBuffer).
Definition warden_step (s : WardenStep) : WM unit :=
  match s with
  | Tick now ticks => update now ticks
  | Packet now recv => HandleWardenDataOpcode Module mgr BAN_DURATION has_player account_name now recv
  end.
Definition warden_steps (l : list WardenStep) : WM unit := for_eachS l warden_step.

(** The server looks before a minute of waiting is over; every packet is a
    full answer to the last request in which every check passes. *)
Definition honest (w : Warden) (s : WardenStep) : Prop :=
  match s with
  | Tick _ _ => _dataSent w = true -> _clientResponseTimer w <= 60000
  | Packet _ recv => exists mark ticks bss k,
      _rpos recv = 0 /\ bb_size recv < 2 ^ 63 /\ cipher (_storage recv) (_inputCrypto w) = (answer mark ticks bss, k)
      /\ Z.of_nat (length (answer_body mark ticks bss)) < 2 ^ 16 /\ mark <> 0
      /\ Forall3 (answers mgr) (_currentChecks w) bss (replicate (length bss) true)
  end.
Fixpoint honest_path (w : Warden) (l : list WardenStep) : Prop :=
  match l with [] => True | s :: l => honest w s /\ honest_path (warden_step s w).1 l end.

Record serving (w : Warden) : Prop := {
  srv_init : _initialized w = true;
  srv_key : 0 <= key_byte w < 256;
  srv_todo : todo_ok mgr w;
  srv_ids : Forall (fun id => 0 < id) (_currentChecks w) }.

Lemma asked_positive w : todo_ok mgr w -> Forall (fun id => 0 < id) (asked_now mgr NUM_MEM_CHECKS NUM_OTHER_CHECKS w).
Proof.
  intros Hw. destruct (lists_ok mgr w Hw) as [Hm Ho]. apply Forall_app in Hids as [Hi1 Hi2]. rewrite Forall_forall in Hi1, Hi2.
  unfold asked_now, mem_taken, other_taken.
  pose proof (take_checks_spec (Z.to_nat NUM_MEM_CHECKS) (mem_list mgr w)) as Hsm.
  pose proof (take_checks_spec (Z.to_nat NUM_OTHER_CHECKS) (other_list mgr w)) as Hso.
  destruct (take_checks (Z.to_nat NUM_MEM_CHECKS) _) as [mem mr], (take_checks (Z.to_nat NUM_OTHER_CHECKS) _) as [other orr].
  destruct Hsm as [_ Hsm], Hso as [_ Hso]. apply Hsm in Hm as [Hm _]. apply Hso in Ho as [Ho _]. cbn [fst].
  rewrite !Forall_app. split_and!.
  - apply Forall_forall. intros id Hid. apply list_elem_of_In, List.filter_In in Hid as [Hid _]. apply list_elem_of_In in Hid.
    rewrite Forall_forall in Hm. by apply Hi1, Hm.
  - by repeat constructor.
  - eapply Forall_impl; [exact Ho|exact Hi2].
Qed.

Lemma update_serving now ticks w : serving w -> (_dataSent w = true -> _clientResponseTimer w <= 60000) ->
  exists w' ps, update now ticks w = (w', Ok tt) /\ serving w' /\ w_events w' = w_events w ++ (WSend <$> ps).
Proof.
  intros [Hi Hk Ht Hc] Hd. unfold update, Warden_Update.
  unfold bindS at 1, getS at 1. unfold id. rewrite Hi. cbn [whenS].
  unfold bindS at 1, modS at 1. set (w1 := set_clock now (_initialized w) (_serverTicks w) w).
  destruct (_dataSent w).
  - change (maxClientResponseDelay * 1000) with 60000. rewrite (proj2 (Z.ltb_ge _ _)) by auto.
    eexists _, []. split; [reflexivity|]. split; [by split|]. by rewrite app_nil_r.
  - destruct (_checkTimer w <=? getMSTimeDiff (_previousTimestamp w) now).
    + rewrite (RequestData_run rand32 mgr NUM_MEM_CHECKS NUM_OTHER_CHECKS Hsound ticks w1) by done.
      eexists _, [_]. split; [reflexivity|]. split; [|reflexivity].
      split; [done|done|by apply (requested_todo rand32 mgr NUM_MEM_CHECKS NUM_OTHER_CHECKS ticks w1)|]. by apply (asked_positive w1).
    + eexists _, []. split; [reflexivity|]. split; [by split|]. by rewrite app_nil_r.
Qed.

(** The right hash: the keys of the module are in use from here on, and the
    first request is due. *)
Lemma hash_accepted now recv w k :
  _rpos recv = 0 -> bb_size recv < 2 ^ 63 -> cipher (_storage recv) (_inputCrypto w) = (4 :: take 20 (ClientKeySeedHash Module), k) ->
  length (ClientKeySeedHash Module) = 20%nat -> 0 <= nth 0 (take 16 (ClientKeySeed Module)) 0 < 256 -> todo_ok mgr w -> Forall (fun id => 0 < id) (_currentChecks w) ->
  exists w' payload, warden_step (Packet now recv) w = (w', Ok tt) /\ serving w' /\ running now w'
    /\ _inputCrypto w' = set_key (take 16 (ClientKeySeed Module)) /\ w_events w' = w_events w ++ [WSend payload].
Proof.
  intros Hr Hsz Hc Hlen Hk Ht Hi. cbn [warden_step]. unfold HandleWardenDataOpcode.
  pose proof (cipher_length (_storage recv) (_inputCrypto w)) as Hl. rewrite Hc in Hl. cbn [fst] in Hl.
  unfold bb_empty. rewrite bool_decide_eq_false_2 by (intros E; rewrite E in Hl; done).
  unfold bindS at 1, DecryptData. rewrite Hc. cbn [_rpos _wpos]. set (b := mkBB _ _ _).
  assert (received b) as Hb by (unfold received, bb_size, b in *; cbn [_rpos _storage]; rewrite Hl, Hr; lia).
  assert (pending b = 4 :: take 20 (ClientKeySeedHash Module)) as Hp by (unfold pending, b; cbn [_rpos _storage]; by rewrite Hr).
  unfold bindS at 1, liftS at 1. rewrite (read_byte _ _ _ Hb Hp).
  unfold bindS at 1, HandleHashResult, bindS at 1, liftS at 1, bb_contents, bb_empty.
  rewrite bool_decide_eq_false_2 by done. cbn [_storage set_rpos b].
  assert (memory_at 1 20 (4 :: take 20 (ClientKeySeedHash Module)) = Ok (take 20 (ClientKeySeedHash Module))) as Hbytes.
  { unfold memory_at. cbn [length]. rewrite length_take, Hlen. rewrite (proj2 (Z.ltb_ge _ _)) by lia. f_equal. change (drop (Z.to_nat 1) (4 :: take 20 (ClientKeySeedHash Module))) with (take 20 (ClientKeySeedHash Module)).
    apply take_ge. rewrite length_take. lia. }
  unfold bindS at 1, liftS at 1. rewrite Hbytes. unfold same_bytes. rewrite bool_decide_eq_true_2 by done. cbn [negb].
  do 2 (unfold bindS at 1, modS at 1). unfold modS. unfold InitializeModule. rewrite send_encrypted_run.
  eexists _, _. split; [reflexivity|]. split; [by split|]. split; [by split|]. done.
Qed.

(** C25. A client that answers every request before a minute of waiting is
    over, with what the tables expect, is left alone for good: whatever the
    times and the order of updates and answers, the server neither fails nor
    logs, kicks or bans, and does nothing but ask again. *)
Theorem honest_client_untouched l w : serving w -> honest_path w l ->
  exists w' ps, warden_steps l w = (w', Ok tt) /\ w_events w' = w_events w ++ (WSend <$> ps).
Proof.
  revert w. induction l as [|s l IH]; intros w Hw Hp; [exists w, []; by rewrite app_nil_r|].
  destruct Hp as [Hs Hp].
  assert (exists w1 ps, warden_step s w = (w1, Ok tt) /\ serving w1 /\ w_events w1 = w_events w ++ (WSend <$> ps)) as (w1 & ps & E & Hw1 & Ev).
  { destruct s as [now ticks|now recv]; [by apply update_serving|].
    destruct Hs as (mark & ticks & bss & k & H1 & H2 & H3 & H4 & H5 & H6).
    pose proof (opcode_answer Module mgr BAN_DURATION has_player account_name now recv w k mark ticks bss _ H1 H2 H3 H4 H6) as E.
    unfold judged in E. rewrite (proj2 (verdict_iff mgr BAN_DURATION account_name mark _ _ _ (srv_ids _ Hw) H6)) in E
      by (split; [done|by apply Forall_replicate]).
    unfold carried_out in E. rewrite orb_true_r, (proj2 (Z.eqb_neq _ _) H5) in E.
    eexists _, []. split; [exact E|]. destruct Hw. split; [by split|]. by rewrite app_nil_r. }
  rewrite E in Hp. destruct (IH w1 Hw1 Hp) as (w2 & ps2 & E2 & Ev2).
  exists w2, (ps ++ ps2). split.
  - unfold warden_steps. cbn [for_eachS]. unfold bindS. by rewrite E.
  - by rewrite Ev2, Ev, fmap_app, app_assoc.
Qed.
End clock.
