(* ===== verification/WardenScene.v ===== *)
(** * The warden at work

    ARC4 as it is defined, a table of five checks, and runs: the witnesses of
    the theorems, and what the code does that it does not mean to. *)
From Stdlib Require Import Ascii String ZArith Lia.
From stdpp Require Import base gmap list strings.
From S2P Require Import Prelude ByteBuffer StateM BigNumber OpenSSLRef Warden WardenFacts WardenRequest WardenClock.

Open Scope Z_scope.

(** ** ARC4

    A permutation of the bytes and two places in it. *)
Record Rc4 := mkRc4 { perm : list Z; place_i : Z; place_j : Z }.
Definition at_ (l : list Z) (i : Z) : Z := nth (Z.to_nat i) l 0.
Definition swap (l : list Z) (i j : Z) : list Z := <[Z.to_nat i := at_ l j]> (<[Z.to_nat j := at_ l i]> l).

Fixpoint schedule_key (n : nat) (i j : Z) (key l : list Z) : list Z :=
  match n with
  | O => l
  | S n =>
      let j := (j + at_ l i + at_ key (i mod Z.of_nat (length key))) mod 256 in
      schedule_key n (i + 1) j key (swap l i j)
  end.
Definition rc4_identity : list Z := Z.of_nat <$> seq 0 256.
Definition rc4_key (key : list Z) : Rc4 := mkRc4 (schedule_key 256 0 0 key rc4_identity) 0 0.

Definition rc4_byte (k : Rc4) : Z * Rc4 :=
  let i := (place_i k + 1) mod 256 in
  let j := (place_j k + at_ (perm k) i) mod 256 in
  let l := swap (perm k) i j in
  (at_ l ((at_ l i + at_ l j) mod 256) mod 256, mkRc4 l i j).
Fixpoint rc4_cipher (l : list Z) (k : Rc4) : list Z * Rc4 :=
  match l with
  | [] => ([], k)
  | b :: l => let '(x, k) := rc4_byte k in let '(l, k) := rc4_cipher l k in (Z.lxor b x :: l, k)
  end.

#[export] Instance rc4_ref : ARC4 := { Key := Rc4; unkeyed := mkRc4 rc4_identity 0 0; set_key := rc4_key; cipher := rc4_cipher }.

Example rc4_vector :
  (rc4_cipher (str_bytes "Plaintext") (rc4_key (str_bytes "Key"))).1 = [0xBB; 0xF3; 0x16; 0xE8; 0xD9; 0x40; 0xAF; 0x0A; 0xD3].
Proof. by vm_compute. Qed.

Lemma rc4_length l k : length (rc4_cipher l k).1 = length l.
Proof.
  revert k. induction l as [|b l IH]; intros k; [done|]. cbn [rc4_cipher]. destruct (rc4_byte k) as [x k1].
  specialize (IH k1). destruct (rc4_cipher l k1). simpl in *. by rewrite IH.
Qed.
Lemma rc4_bytes l k : Forall is_byte l -> Forall is_byte (rc4_cipher l k).1.
Proof.
  intros Hl. revert k. induction Hl as [|b l Hb Hl IH]; intros k; [done|]. cbn [rc4_cipher].
  destruct (rc4_byte k) as [x k1] eqn:E. specialize (IH k1). destruct (rc4_cipher l k1). simpl in *. constructor; [|done].
  unfold rc4_byte in E. injection E as <- _. apply (lxor_range 8); [exact Hb| |lia]. by apply Z.mod_pos_bound.
Qed.
Lemma rc4_back l k : Forall is_byte l -> rc4_cipher (rc4_cipher l k).1 k = (l, (rc4_cipher l k).2).
Proof.
  intros _. revert k. induction l as [|b l IH]; intros k; [done|]. cbn [rc4_cipher]. destruct (rc4_byte k) as [x k1] eqn:E.
  specialize (IH k1). destruct (rc4_cipher l k1) as [l' k2]. cbn [fst snd rc4_cipher] in *. rewrite E, IH.
  by rewrite Z.lxor_assoc, Z.lxor_nilpotent, Z.lxor_0_r.
Qed.
#[export] Instance rc4_ref_ok : ARC4Spec := { cipher_length := rc4_length; cipher_bytes := rc4_bytes; cipher_back := rc4_back }.

(** ** A table *)
Definition hash20 : string := "000102030405060708090A0B0C0D0E0F10111213".
Definition hash20' : string := "0102030405060708090A0B0C0D0E0F1011121314".
Definition page24 : string := "0102030405060708090A0B0C0D0E0F101112131415161718".
Definition ex_rows : list CheckRow := [
  mkCheckRow 1 MEM_CHECK "" "DEADBEEF" 0x401000 4 "" "";
  mkCheckRow 2 LUA_STR_CHECK "" "" 0 0 "hack" "a script";
  mkCheckRow 3 MPQ_CHECK "" hash20' 0 0 "Interface.toc" "";
  mkCheckRow 209 PAGE_CHECK_A page24 "" 0x1000 16 "" "";
  mkCheckRow 786 MODULE_CHECK "" "" 0 0 "WPE.DLL" ""].
Definition ex_mgr : WardenCheckMgr :=
  Eval vm_compute in match LoadWardenChecks (Some 786) ex_rows WardenCheckMgr_new with Ok m => m | _ => WardenCheckMgr_new end.
Example ex_pools : MemChecksIdPool ex_mgr = [1; 786] /\ OtherChecksIdPool ex_mgr = [2; 3; 209].
Proof. by vm_compute. Qed.

Lemma ex_check p id c : GetWardenDataById id ex_mgr = Some c -> good_check c -> p (Type_ c) = true -> asked_as ex_mgr p id.
Proof. intros. by exists c. Qed.
Ltac good_by_computing :=
  eapply ex_check; [vm_compute; reflexivity| |by vm_compute];
  split; [by vm_compute; repeat (first [left; reflexivity|right])
         |vm_compute; intros; try done; repeat split; intros; discriminate
         |vm_compute; intros; try done; repeat split; intros; discriminate
         |vm_compute; intros; try discriminate; lia].
Lemma ex_sound : sound_checks ex_mgr 1 2.
Proof.
  split; [| | |lia].
  - repeat (apply Forall_cons; split); [good_by_computing..|apply Forall_nil_2].
  - repeat (apply Forall_cons; split); [good_by_computing..|apply Forall_nil_2].
  - repeat (apply Forall_cons; split); [good_by_computing..|apply Forall_nil_2].
Qed.

(** ** A session's warden *)
Definition ex_module : ModuleData := mkModuleData (replicate 1203 7)
  [0xAE; 0x25; 0xBC; 0x51; 0x06; 0x3B; 0x77; 0xBD; 0x36; 0x3C; 0x3E; 0xFE; 0x0F; 0xC1; 0x73; 0xF9]
  [0x4D; 0x80; 0x8D; 0x2C; 0x77; 0xD9; 0x05; 0xC4; 0x1A; 0x63; 0x80; 0xEC; 0x08; 0x58; 0x6A; 0xFE]
  [0xC2; 0xB7; 0xAD; 0xED; 0xFC; 0xCC; 0xA9; 0xC2; 0xBF; 0xB3; 0xF8; 0x56; 0x02; 0xBA; 0x80; 0x9B]
  [0x7F; 0x96; 0xEE; 0xFD; 0xA5; 0xB6; 0x3D; 0x20; 0xA4; 0xDF; 0x8E; 0x00; 0xCB; 0xF4; 0x83; 0x04]
  [0x56; 0x8C; 0x05; 0x4C; 0x78; 0x1A; 0x97; 0x2A; 0x60; 0x37; 0xA2; 0x29; 0x0C; 0x22; 0xB5; 0x25; 0x71; 0xA0; 0x6F; 0x4E].
Example seed_hash : sha1 (ClientKeySeed ex_module) = ClientKeySeedHash ex_module.
Proof. by vm_compute. Qed.

Definition ex_md5 (l : list Z) : list Z := take 16 (sha1 l).
Definition ex_rand (n : nat) : Z := 0x12345678 + Z.of_nat n.
Definition ex_key : Z := 2 ^ 319 + 12345.

Definition ex_step (s : WardenStep) : WM unit := warden_step ex_rand ex_mgr 1 2 true ex_module 86400 (Some "BOB"%string) s.
(** A packet of the client, under the key in use. *)
Definition sealed (plain : list Z) (w : Warden) : ByteBuffer := mkBB 0 0 (cipher plain (_inputCrypto w)).1.

Definition ex_new : Warden := Eval vm_compute in (WardenWin_Init ex_module ex_md5 ex_key WardenWin_new).1.
(** The client has the module and gives the hash. *)
Definition ex_ready : Warden := Eval vm_compute in (ex_step (Packet 500 (sealed (4 :: ClientKeySeedHash ex_module) ex_new)) ex_new).1.
(** Ten seconds later the first checks are asked: the two of every request and two others. *)
Definition ex_asked : Warden := Eval vm_compute in (ex_step (Tick 10500 10500) ex_ready).1.
Example ex_asked_checks : _currentChecks ex_asked = [786; 209; 209; 3] /\ _dataSent ex_asked = true.
Proof. by vm_compute. Qed.

Definition ex_result : Z := default 0 (CheckResultStore ex_mgr !! 3).
Definition ex_hash : list Z := AsByteArray 0 false ex_result.
Definition ex_bytes : list (list Z) := [[0xE9]; [0xE9]; [0xE9]; 0 :: ex_hash].
Definition ex_answer : list Z := Eval vm_compute in answer 1 777 ex_bytes.

Lemma ex_answers bs1 bs2 good1 good2 :
  (bs1 = [0xE9] /\ good1 = true \/ bs1 = [0] /\ good1 = false) -> (bs2 = 0 :: ex_hash /\ good2 = true \/ bs2 = [1] /\ good2 = false) ->
  Forall3 (answers ex_mgr) [786; 209; 209; 3] [bs1; [0xE9]; [0xE9]; bs2] [good1; true; true; good2].
Proof.
  intros H1 H2.
  assert (forall id c b, GetWardenDataById id ex_mgr = Some c ->
    one_of [PAGE_CHECK_A; PAGE_CHECK_B; DRIVER_CHECK; MODULE_CHECK] (Type_ c) = true -> answers ex_mgr id [b] (b =? 0xE9)) as Hf
    by (intros; by eapply ans_found).
  assert (answers ex_mgr 209 [0xE9] true) as H209 by (eapply (Hf 209 _ 0xE9); by vm_compute).
  constructor; [|constructor; [exact H209|constructor; [exact H209|constructor; [|constructor]]]].
  - destruct H1 as [[-> ->]|[-> ->]]; [eapply (Hf 786 _ 0xE9)|eapply (Hf 786 _ 0)]; by vm_compute.
  - destruct H2 as [[-> ->]|[-> ->]].
    + replace true with (same_bytes ex_hash (take (length ex_hash) (AsByteArray 0 false ex_result))) by (by vm_compute).
      eapply (ans_bytes ex_mgr 3 _ _ ex_hash); [by vm_compute|by vm_compute|right; by vm_compute|vm_compute; lia].
    + eapply (ans_flag ex_mgr 3 _ 1); [by vm_compute|by vm_compute|lia].
Qed.

Lemma sealed_cipher plain w : Forall is_byte plain ->
  cipher (_storage (sealed plain w)) (_inputCrypto w) = (plain, (cipher plain (_inputCrypto w)).2).
Proof. intros Hp. unfold sealed. cbn [_storage]. by apply cipher_back. Qed.

(** A client without the WPE library that has changed its interface. *)
Definition ex_bad : list (list Z) := [[0xE9]; [0xE9]; [0xE9]; [1]].
Lemma warden_verdict_witness :
  exists w', ex_step (Packet 11000 (sealed (answer 1 777 ex_bad) ex_asked)) ex_asked = (w', Ok tt)
    /\ _dataSent w' = false /\ _checkTimer w' = 1000
    /\ w_events w' = w_events ex_asked ++ [WLog "Anticheat violation"; WKick]
    /\ (HandleWardenDataOpcode ex_module ex_mgr 86400 false (Some "BOB"%string) 11000 (sealed (answer 0 777 ex_bad) ex_asked) ex_asked).2 = UB.
Proof.
  assert (Forall is_byte (answer 1 777 ex_bad)) as Hb by (vm_compute; repeat constructor; done).
  assert (Forall is_byte (answer 0 777 ex_bad)) as Hb0 by (vm_compute; repeat constructor; done).
  eexists. split.
  - refine (proj1 (warden_verdict ex_module ex_mgr 86400 true (Some "BOB"%string) 11000 (sealed (answer 1 777 ex_bad) ex_asked) ex_asked
        _ 1 777 ex_bad [true; true; true; false] _ _ (sealed_cipher _ _ Hb) _ _)).
    + done.
    + by vm_compute.
    + by vm_compute.
    + apply ex_answers; [by left|by right].
  - split; [done|]. split; [done|]. split; [by vm_compute|].
    refine (eq_trans (f_equal snd (proj1 (warden_verdict ex_module ex_mgr 86400 false (Some "BOB"%string) 11000 (sealed (answer 0 777 ex_bad) ex_asked) ex_asked
        _ 0 777 ex_bad [true; true; true; false] _ _ (sealed_cipher _ _ Hb0) _ _))) _).
    + done.
    + by vm_compute.
    + by vm_compute.
    + apply ex_answers; [by left|by right].
    + done.
Defined.

(** What it was asked can be read. *)
Lemma request_read_back_witness :
  exists w' payload,
    RequestData ex_rand ex_mgr 1 2 10500 ex_ready = (w', Ok tt)
    /\ w_events w' = w_events ex_ready ++ [WSend payload] /\ _dataSent w' = true /\ todo_ok ex_mgr w'
    /\ exists plain, cipher payload (_outputCrypto ex_ready) = (plain, _outputCrypto w')
       /\ parse_request (key_byte ex_ready) plain = Some (entries_of ex_rand ex_mgr (_currentChecks w') (w_draws ex_ready)).
Proof.
  apply (request_read_back ex_rand ex_mgr 1 2 ex_sound 10500 ex_ready).
  - by vm_compute.
  - by vm_compute.
Defined.
Example ex_entries : entries_of ex_rand ex_mgr (_currentChecks ex_asked) (w_draws ex_ready)
  = [EModule 0x12345678 (hmac_sha1 [0x78; 0x56; 0x34; 0x12] (str_bytes "WPE.DLL"));
     EPage PAGE_CHECK_A (Z.of_nat <$> [1;2;3;4;5;6;7;8;9;10;11;12;13;14;15;16;17;18;19;20;21;22;23;24]%nat) 0x1000 16;
     EPage PAGE_CHECK_A (Z.of_nat <$> [1;2;3;4;5;6;7;8;9;10;11;12;13;14;15;16;17;18;19;20;21;22;23;24]%nat) 0x1000 16;
     EFile MPQ_CHECK (str_bytes "Interface.toc")].
Proof. by vm_compute. Qed.

(** It says nothing. *)
Definition ex_times : list (Z * Z) := (fun t => (t, t)) <$> [10500; 30000; 60000; 90000; 120000; 140000].
Lemma silent_client_kicked_witness :
  exists w' es, updates ex_rand ex_mgr 1 2 true ex_times ex_ready = (w', Ok tt) /\ w_events w' = w_events ex_ready ++ es /\ WKick ∈ es.
Proof.
  destruct (silent_client_kicked ex_rand ex_mgr 1 2 true ex_sound eq_refl 30000 ex_times ex_ready) as (w' & es & E1 & E2 & E3 & _).
  - split; by vm_compute.
  - done.
  - done.
  - by vm_compute.
  - lia.
  - vm_compute. repeat split; discriminate.
  - exists w', es. split; [done|]. split; [done|]. apply E3. by vm_compute.
Defined.

(** It asks for the module. *)
Definition ex_client_module : ClientWardenModule := mkClientWardenModule (ex_md5 (Module_ ex_module)) (ModuleKey ex_module) 1203 (replicate 1203 7).
Lemma module_delivered_witness :
  exists payloads plains w',
    HandleWardenDataOpcode ex_module ex_mgr 86400 true (Some "BOB"%string) 100 (sealed [0] ex_new) ex_new = (w', Ok tt)
    /\ w_events w' = w_events ex_new ++ (WSend <$> payloads)
    /\ unseal payloads (_outputCrypto ex_new) = (plains, _outputCrypto w')
    /\ Forall module_part plains /\ concat (drop 3 <$> plains) = CompressedData ex_client_module.
Proof.
  apply (module_delivered ex_module ex_mgr 86400 true (Some "BOB"%string) 100 (sealed [0] ex_new) ex_new
           (cipher [0] (_inputCrypto ex_new)).2 [] ex_client_module).
  - done.
  - by vm_compute.
  - apply sealed_cipher. by repeat constructor.
  - by vm_compute.
  - by vm_compute.
  - by apply Forall_replicate.
Defined.

(** It answers in time: asked, answered, asked again. *)
Definition ex_life : list WardenStep :=
  [Tick 10500 10500; Tick 12000 12000; Packet 13000 (sealed ex_answer ex_asked); Tick 13100 13100; Tick 14500 14500].
Lemma honest_client_untouched_witness :
  exists w' ps, warden_steps ex_rand ex_mgr 1 2 true ex_module 86400 (Some "BOB"%string) ex_life ex_ready = (w', Ok tt)
    /\ w_events w' = w_events ex_ready ++ (WSend <$> ps).
Proof.
  apply (honest_client_untouched ex_rand ex_mgr 1 2 true ex_sound ex_module 86400 (Some "BOB"%string)).
  - by vm_compute; repeat constructor.
  - split; by vm_compute; repeat constructor.
  - split; [done|]. split; [by vm_compute|]. split.
    { exists 1, 777, ex_bytes, (cipher ex_answer (_inputCrypto ex_asked)).2.
      split; [done|]. split; [by vm_compute|]. split; [by vm_compute|]. split; [by vm_compute|]. split; [done|].
      assert (forall w l, _currentChecks w = l -> Forall3 (answers ex_mgr) l ex_bytes (replicate 4 true) ->
        Forall3 (answers ex_mgr) (_currentChecks w) ex_bytes (replicate 4 true)) as Hl by (by intros w l ->).
      eapply Hl; [by vm_compute|]. apply ex_answers; by left. }
    split; [by vm_compute|]. split; [by vm_compute|done].
Defined.

(** ** What the code does not mean to do *)
Definition ex_handle (mgr : WardenCheckMgr) (player : bool) (plain : list Z) (w : Warden) :=
  (HandleWardenDataOpcode ex_module mgr 86400 player (Some "BOB"%string) 600 (sealed plain w) w).2.

(** A client may send, before anything else, a hash of two bytes: what is
    behind the packet is compared. *)
Example short_hash_undefined : ex_handle ex_mgr true [4; 0] ex_new = UB.
Proof. by vm_compute. Qed.
(** The length in an answer is the client's word. *)
Example long_answer_undefined : ex_handle ex_mgr true [2; 0xFF; 0xFF; 0; 0; 0; 0; 1] ex_asked = UB.
Proof. by vm_compute. Qed.
(** A penalty names the player; a client that has not logged a character in
    yet has none, and so has one that stays silent. *)
Example penalty_without_player : ex_handle ex_mgr false (4 :: replicate 20 0) ex_new = UB.
Proof. by vm_compute. Qed.
Example silence_without_player :
  (updates ex_rand ex_mgr 1 2 false ex_times ex_ready).2 = UB.
Proof. by vm_compute. Qed.

(** With a wrong hash the module is initialised all the same. *)
Example wrong_hash_goes_on :
  drop (length (w_events ex_new)) (w_events (ex_step (Packet 600 (sealed (4 :: replicate 20 0) ex_new)) ex_new).1)
  = [WLog "No reason, something custom?"; WKick;
     WSend (cipher (init_part 20 (BuildChecksum (take 20 init_part1)) init_part1
                    ++ init_part 8 (BuildChecksum (take 8 (drop 1 init_part1))) init_part2
                    ++ init_part 8 (BuildChecksum (take 8 init_part3)) init_part3) (_outputCrypto ex_new)).1].
Proof. by vm_compute. Qed.
(** The checksum of its second part is not of that part. *)
Example second_checksum_wrong : BuildChecksum (take 8 (drop 1 init_part1)) <> BuildChecksum (take 8 init_part2).
Proof. by vm_compute. Qed.

(** Of several checks that fail the last one counts: here a ban for the first
    is lost to a line in the log for the second. *)
Definition ex_mild : WardenCheckMgr :=
  match LoadWardenOverrides [(786, 2); (3, 0)] ex_mgr with Ok m => m | _ => ex_mgr end.
Example last_failure_counts :
  verdict_on ex_mild 86400 (Some "BOB"%string) (last_failed 0 [786; 209; 3] [false; true; false]) = [WLog "Anticheat violation"]
  /\ verdict_on ex_mild 86400 (Some "BOB"%string) (last_failed 0 [786; 209; 3] [false; true; true])
     = [WBan "BOB" "86400s" "Anticheat violation (WPE PRO)" "Server"].
Proof. by vm_compute. Qed.

(** An override for the id one past the table is written out of bounds. *)
Example override_past_the_end : LoadWardenOverrides [(787, 1)] ex_mgr = UB.
Proof. by vm_compute. Qed.
(** An empty table of checks ends the start of the server. *)
Example no_checks_undefined : LoadWardenChecks (Some 0) [] WardenCheckMgr_new = UB.
Proof. done. Qed.
(** Without the two checks that are always asked the first request does. *)
Example always_asked_missing :
  match LoadWardenChecks (Some 3) (take 3 ex_rows) WardenCheckMgr_new with
  | Ok m => (RequestData ex_rand m 1 2 0 ex_ready).2 = UB
  | _ => False
  end.
Proof. by vm_compute. Qed.
(** A script to look for must have a name. *)
Example unnamed_script :
  match LoadWardenChecks (Some 786) (mkCheckRow 4 LUA_STR_CHECK "" "" 0 0 "" "" :: ex_rows) WardenCheckMgr_new with
  | Ok m => (RequestData ex_rand m 1 4 0 ex_ready).2 = Throw (ByteBufferSourceException 21 21 0)
  | _ => False
  end.
Proof. by vm_compute. Qed.
(** A result that begins with a zero is stored backwards. *)
Example zero_first_reversed :
  (let* bn := load_hex None "00AB12" in Ok (AsByteArray 0 false bn)) = Ok [0x12; 0xAB; 0]
  /\ (let* bn := load_hex None "01AB12" in Ok (AsByteArray 0 false bn)) = Ok [1; 0xAB; 0x12].
Proof. by vm_compute. Qed.
(** Data with a zero in front may be 24 bytes and no more. *)
Example long_data_undefined : load_hex (Some 24) ("00" +:+ page24) = UB.
Proof. by vm_compute. Qed.
